(* ===== verification/_CoqProject ===== *)
-Q . S2P
Prelude.v
Testing.v
Locking.v
Sorts.v
Text.v
Wire.v
VkBodies.v
ApiBodies.v
Codecs.v
WireProps.v
Contract.v
Handles.v
HandleSpec.v
Effects.v
Backend.v
VulkanBackend.v
VulkanSafety.v
VulkanProps.v
ApiBackends.v
World.v
WorldFields.v
WorldRefine.v
WorldBackends.v
Session.v
Server.v
BackendProps.v
WorldProps.v
SessionProps.v
Transport.v
Process.v
Files.v
XtaskOpcodes.v
XtaskOpcodesProps.v
XtaskXrefs.v
XtaskXrefsProps.v
XtaskMain.v
XtaskMainProps.v
TransportProps.v
Obs.v
ObsProps.v
ObsShared.v
ObsScope.v
Serve.v
ServeProps.v
ServerMain.v
Trace.v
TraceProps.v
ClientSession.v
ClientShims.v
ClientCall.v
ClientSpec.v
ClientProps.v
EndToEnd.v
WorldSession.v
Replay.v
Cli.v
CliProps.v
OverTcp.v
Fuzz.v
FuzzProps.v
Bench.v
LoadTest.v
LoadTestProps.v
Threads.v
ProtocolTests.v
HandlesTests.v
TransportTests.v
BackendTests.v
ServiceTests.v
ObsTests.v
XtaskTests.v
ToolTests.v
EndToEndTests.v
Conformance.v
