(* ===== verification/Prelude.v ===== *)
(** * GraftX: a verification of the command-stream remoting core

    GraftX forwards the GPU API calls of a client (crates/graftx-client) as frames
    of a wire protocol (crates/graftx-protocol) over a transport
    (crates/graftx-transport) to a server (crates/graftx-server), whose sessions
    decode the frames, validate them, and replay them on one backend per API. The
    backends name what they create by generational handles (crates/graftx-handles).
    crates/graftx-obs counts the traffic and crates/graftx-trace records and
    replays it. The binaries are the server, the command line client (graftx-cli), a
    load generator (graftx-loadtest), a decoder fuzzer (graftx-fuzz), a codec
    benchmark (graftx-bench), and the repository's own tool (graftx-xtask). This
    library models the crates and the binaries and proves what they promise.

    ** The program's parts and the files that model them

    - Prelude: machine integers as [Z] with their wrap-around and saturation, the
      [result] of fallible code, the [outcome] of code that can panic, byte strings
      and little-endian integers, vectors as lists, tactics. Sorts: the stable sort
      of [sort_by] and its laws. Text: [str] as lists of characters, with the
      methods of the standard library the binaries use (lines, splitting, trimming,
      decimal and hexadecimal formatting and parsing, UTF-8 boundaries).
    - Process: [std::io::Write] as a class, with the law [Reliable] of an output that
      takes what it is given, standard output and error, exit codes, [f64] as a class
      of operations. Files: paths and the file system as a class, with an in-memory
      tree as its instance.
    - Wire (graftx-protocol/src/lib.rs): opcodes, [Handle], [Reader], [FrameHeader],
      [Hello], [Welcome], [encode_frame] and [decode_frame]; the class [Body] and
      the laws [FixedBody] of a body of fixed size. VkBodies, ApiBodies (same
      source file): one Module per body struct, with its [encode] and [decode].
      Codecs: the list of all fixed bodies. WireProps: the theorems.
    - Contract: the shape of the reply to each opcode, the agreement between the
      server's backends and the client's shims.
    - Handles (graftx-handles/src/lib.rs): [HandleTable] with every method, its
      invariant [wf]. HandleSpec: an abstract table that maps keys to values,
      each with the handle it was issued under, and remembers the keys it issued; the
      entries of a table; and the refinement.
    - Effects: handlers as state transformers [M], the table fields of a state, and
      a weakest-precondition calculus for handlers.
    - Backend (graftx-server/src/backend.rs, the trait): the class [Backend] and the
      laws [BackendLaws] the session relies on. VulkanBackend, VulkanSafety,
      VulkanProps (the same file's Vulkan backend), ApiBackends (the ten
      *_backend.rs): one definition per arm of each handler, and the proof that each
      backend meets the laws. BackendProps: the backends as a family.
    - World: the server as its clients see it, a world of named objects with attributes
      that one table of rules changes, request by request. It is a specification, and
      models no code of its own. WorldFields: the fields the rules read from a request
      body are those its decoder reads. WorldRefine: what it is for a backend to refine
      the world, the classes [Stands] and [StandsLaws]. WorldBackends: the eleven
      backends do. WorldProps: what follows for runs of requests. WorldSession: the
      session, and a client over a link, refine the same world. OverTcp: so does a
      client that connects over TCP.
    - Session (session.rs), Server (main.rs), SessionProps: the per-connection state
      machine over a map of boxed backends, and the session the binary makes.
    - Transport (graftx-transport/src), TransportProps: the trait as a class and its
      implementations.
    - Obs (graftx-obs/src), ObsProps: counters, latency histogram and registry.
      ObsScope (timer.rs, guard.rs, and the spans and the process-wide registry of
      lib.rs and registry.rs): a clock and a tracing system as classes with laws,
      [Timer], [CallGuard] and what can happen under a guard. Locking: threads that
      share data behind mutexes, any of which may panic with a guard held, generic in
      the operations. ObsShared (registry.rs): the registry on that machine, its two
      mutexes, the recovery of a poisoned one, each method as small steps.
    - Serve (serve.rs), ServeProps: the serve loops over any transport. ServerMain
      (serve_tcp and main.rs): the accept loop over the connections and errors a
      listener yields, and the server binary.
    - Trace (graftx-trace/src/lib.rs), TraceProps: recording and replay.
    - ClientSession (graftx-client/src/lib.rs), ClientShims (its vk.rs, gl.rs, cuda.rs,
      ...), ClientCall (client.rs), ClientSpec, ClientProps: the exchange, the 47
      shims, the front door, and every call as data.
    - EndToEnd: the client over a link whose other end is the server's session. Replay:
      transports that wrap another one, which a client cannot tell from what they wrap,
      and the replay of a recorded client.
    - Cli, CliProps (graftx-cli/src/main.rs): the binary, and a byte stream whose
      other end is the server's serve loop.
    - LoadTest, LoadTestProps (graftx-loadtest/src/main.rs): the client as a program
      of sends and receives, and the two threads as a step relation over the loopback.
      Threads: any calls of a client on those two threads.
    - Fuzz, FuzzProps (graftx-fuzz/src/main.rs), Bench (graftx-bench/src/main.rs).
    - XtaskOpcodes, XtaskXrefs, XtaskMain, each with its Props (graftx-xtask/src): the
      opcode table and its renderings, the Markdown scanner and the walk over the
      docs, and the binary with its document index.
    - Testing: a test as an [outcome], the assertion macros. ProtocolTests,
      HandlesTests, TransportTests (with the traces), BackendTests, ServiceTests
      (session, serve loops, front door), ObsTests, XtaskTests, ToolTests: the unit
      tests of the crates, assertion by assertion. EndToEndTests: the integration
      tests under crates/graftx-client/tests and crates/graftx-server/tests.
      Conformance: all of them pass.

    ** How state and operations correspond to the code

    A struct is a Record, an enum an Inductive with the source's constructors, a
    method a Definition of the source's name that takes the receiver last. A method
    that takes [&mut self] returns the next state. A [Vec] is a list, [push] and
    [pop] at its end. A [HashMap] that is only looked up is a [gmap]; a method that
    iterates one takes its entries in an arbitrary order. An arithmetic operation
    that can overflow is checked ([add_or_panic]) where the source uses plain
    operators, and saturates or wraps where the source says so. A panic is a value,
    [Panic], so that its absence is a theorem. A [Box<dyn Backend>] is a type with
    its operations and its state.

    ** What the theorems show

    - The wire: handles and opcodes pack and unpack; every frame and body decodes as
      it was encoded; every decoder is total on arbitrary bytes and fails only as
      documented (handle_fields, opcodes_disjoint, frames_decode, bodies_roundtrip,
      enumerate_response_roundtrip).
    - The handle table refines the abstract table, whose [retain] keeps exactly what
      its predicate accepts; over up to 2^32 insertions no handle is issued twice and a
      freed handle never resolves again; bulk frees are repeated frees; introspection
      is exact; what the kind byte and the 32-bit slot index do not protect
      (table_refines, handles_never_reissued, stale_handle_stays_dead,
      bulk_free_is_remove, introspection_exact, resolution_ignores_kind,
      insert_past_slot_space).
    - The backends: any requests whatever are answered without a panic, an error
      changes nothing, a reply has its contract's shape (backends_total); each refines the
      world of objects, answering as its rules say, its tables holding exactly the
      objects of the world (backends_refine_world), so that no object is used after it
      is destroyed (no_use_after_destroy); the Vulkan
      backend keeps its object graph well formed, rejects destroyed objects, binds a
      buffer once, and keeps the create chain usable (vulkan_invariant,
      vulkan_use_after_destroy, vulkan_bind_once, vulkan_create_chain); destroying by
      a handle of another kind (optix_destroy_confuses, gl_delete_crosses_families).
    - The session survives any bytes, replies are well formed and correlated, only
      the backend addressed is touched, the handshake negotiates (a session whose bound
      is below a HELLO's 12 bytes refuses it), and is not required
      (session_survives, session_reply_correlated, session_isolation,
      handshake_negotiates, handshake_not_enforced), and it refines the world of objects
      (session_refines_world).
    - Serving ends with the peer's frames and meters exactly (serve_drains,
      serve_metrics_exact); the server binary goes on
      accepting whatever its connections do (server_keeps_accepting); transports (counting_transparent, stream_roundtrip,
      stream_oversize, loopback_fifo); traces (recording_transparent,
      replay_reissues), and a recorded client, replayed, reproduces the server's replies
      and state (replay_reproduces); observability, every counter of the registry and
      every bucket of a histogram being the number recorded (registry_exact,
      latency_hist_exact, guard_records_once, time_call_measures).
    - The registry under threads: every interleaving, panics included, is the run of
      the calls one after the other, ends, and deadlocks nowhere
      (registry_linearizable); no count is lost, and a panic costs at most the call it
      strikes (counts_survive_panics).
    - The client: what every shim makes of any bytes it gets as a reply, read by the
      shape the contract gives the call's opcode, what it ignores, how requests
      are numbered (shim_replies, client_ignores_correlation,
      client_numbers_requests); and client and server together: the calls return
      what the world of objects lets them (client_sees_world, and from the connection on
      over TCP, tcp_client_sees_world; on two threads under every schedule,
      threads_see_world), with values of the contract (client_server_agree,
      connect_handshakes, instance_end_to_end).
    - The binaries: the command line client's exit codes, and what it prints against
      a server (cli_exit_codes, cli_over_tcp); a load run ends under every schedule
      of its threads, without a deadlock, with every call counted (load_completes);
      the fuzzer's generator has the full period, which decoders it reaches and how,
      that it ends and repeats buffers (lcg_full_period, fuzz_coverage, fuzz_ends,
      fuzz_buffers_repeat); what the benchmark prints (bench_succeeds).
    - The repository's tool: the lock file detects every change of a well-formed opcode
      table, and takes no reordering for one; the table's rollups are exact, the table lags the protocol
      (lock_detects_renumbering, api_rollups_exact, opcode_table_lags_protocol); the
      scanner never panics and finds exactly what the lines hold, the check passes
      exactly when the docs are in order (xrefs_scan_exact, xrefs_gate); what a
      write command wrote its check accepts, what the aggregate check and the index
      check vouch for, exit codes (frozen_file_roundtrip, verify_gate,
      doc_index_exact, xtask_exit_codes).
    - Beside the theorems, as a check of the definitions on the inputs the authors
      chose: the tests of the crates pass on the model, those with threads under every
      schedule (wire_conformance, server_conformance, tools_conformance).

    ** Bounds and fuel

    The serve loops take fuel, [None] being out of fuel; over a queue of n frames
    fuel n + 1 is enough (serve_drains), and over a live peer no bound exists. The
    invariants [ready n] and [table_ok n] say that there is room for n more requests:
    a handle table has 2^32 slots and the session's sequence counter 2^64 values, so
    a fresh backend is ready for 2^32 requests and a fresh session too. Past the slot
    space the table misbehaves (insert_past_slot_space). A reader's position is a
    [nat]; buffers shorter than 2^64 bytes never overflow it. The server's serve loop
    over a connection of n unread bytes ends within n + 1 turns
    (server_keeps_accepting); the fuzzer's filling loop within eight turns, a buffer
    having at most 64 bytes and a draw eight (fuzz_ends); the walk of the docs within
    the depth of the tree (xrefs_gate); a load run of n rounds in exactly
    5(2n+1)+3 steps (load_completes), and n calls of any kind within 5n+8
    (threads_see_world).

    ** What is not modelled

    Real sockets: binding, accepting and connecting are parameters that give byte
    streams or errors, and what is proved of a connection is proved of a byte stream
    that delivers what was written. The text of operating-system errors, of the
    package version and of [f64] formatting are parameters, as is the rounding of
    [f64]. [tracing_subscriber], which [install] of graftx-obs calls, is a parameter;
    memory exhaustion is left out, and so are [Debug] and [Default] implementations.
    Threads appear where the program has them: a method of the registry is a run of
    small steps under its lock, the loopback's two ends interleave arbitrarily, and so
    do the two threads of a load run. Memory is sequentially consistent, which the
    program cannot tell apart, all it shares being behind a mutex or a channel. Of the
    tests, those that need a real subscriber (install_returns_bool_without_panicking,
    call_span_constructs_and_enters_under_subscriber,
    guard_span_entry_does_not_panic_under_subscriber) or compare addresses
    (global_returns_a_stable_reference) are left out; a test's second thread is the
    peer of a transport, a function of what was sent to it, and its socket a byte
    stream. *)
From stdpp Require Export base option list gmap strings.
From Stdlib Require Export ZArith Lia.
From Stdlib Require Export Strings.Byte.

(** ** Scopes and hint databases *)

Declare Scope graftx_scope.
Delimit Scope graftx_scope with graftx.
Global Open Scope graftx_scope.

Create HintDb graftx discriminated.
Create Rewrite HintDb graftx_rw.

Local Open Scope Z_scope.

(** ** Machine integers

    A [w]-bit unsigned integer is a [Z] in [0 .. 2^w - 1]; the range is the
    predicate [fits w]. Conversions that truncate ([as u32]) are [wrap], and the
    arithmetic of the source keeps its three flavours: wrapping, saturating and
    checked. *)

Definition fits (w x : Z) : Prop := 0 <= x < 2 ^ w.

Definition wrap (w x : Z) : Z := x mod 2 ^ w.

Definition max_of (w : Z) : Z := 2 ^ w - 1.

Definition saturating_add (w a b : Z) : Z := Z.min (a + b) (max_of w).

Definition checked_add (w a b : Z) : option Z :=
  if a + b <=? max_of w then Some (a + b) else None.

#[export] Instance fits_dec w x : Decision (fits w x).
Proof. unfold fits. apply _. Defined.

Lemma fits_wrap w x : 0 <= w -> fits w (wrap w x).
Proof. intros. unfold fits, wrap. apply Z.mod_pos_bound. lia. Qed.

Lemma wrap_fits w x : fits w x -> wrap w x = x.
Proof. unfold fits, wrap. intros. by apply Z.mod_small. Qed.

Lemma saturating_add_fits w a b :
  0 <= w -> 0 <= a -> 0 <= b -> fits w (saturating_add w a b).
Proof.
  intros. unfold fits, saturating_add, max_of.
  assert (0 < 2 ^ w) by lia. lia.
Qed.

Lemma saturating_add_comm w a b : saturating_add w a b = saturating_add w b a.
Proof. unfold saturating_add. f_equal. lia. Qed.

Lemma saturating_add_assoc w a b c :
  0 <= a -> 0 <= b -> 0 <= c ->
  saturating_add w (saturating_add w a b) c =
  saturating_add w a (saturating_add w b c).
Proof. intros. unfold saturating_add. lia. Qed.

Lemma saturating_add_add w a b c :
  0 <= a -> 0 <= b -> 0 <= c ->
  saturating_add w (saturating_add w a b) c = saturating_add w a (b + c).
Proof. intros. unfold saturating_add. lia. Qed.

#[export] Hint Resolve fits_wrap saturating_add_fits : graftx.

(** ** Outcomes

    [result] is Rust's [Result]; [outcome] says whether an operation returns or
    panics (an index out of range, an arithmetic overflow under the checks of a
    debug build). *)

Inductive result (E A : Type) : Type :=
| Ok (a : A)
| Err (e : E).
Arguments Ok {E A} a.
Arguments Err {E A} e.

Inductive outcome (A : Type) : Type :=
| Ret (a : A)
| Panic.
Arguments Ret {A} a.
Arguments Panic {A}.

#[export] Instance result_bind E : MBind (result E) :=
  fun A B f m => match m with Ok a => f a | Err e => Err e end.
#[export] Instance result_ret E : MRet (result E) := fun A a => Ok a.

#[export] Instance outcome_bind : MBind outcome :=
  fun A B f m => match m with Ret a => f a | Panic => Panic end.
#[export] Instance outcome_ret : MRet outcome := fun A a => Ret a.

#[export] Instance result_eq_dec E A `{EqDecision E, EqDecision A} :
  EqDecision (result E A).
Proof. solve_decision. Defined.

Definition is_ok {E A} (r : result E A) : bool :=
  match r with Ok _ => true | Err _ => false end.

Definition result_map_err {E E' A} (f : E -> E') (r : result E A) : result E' A :=
  match r with Ok a => Ok a | Err e => Err (f e) end.

Definition ok_or {E A} (o : option A) (e : E) : result E A :=
  match o with Some a => Ok a | None => Err e end.

(** Arithmetic under overflow checks, and indexing: both panic. *)

Definition add_or_panic (w a b : Z) : outcome Z :=
  match checked_add w a b with Some c => Ret c | None => Panic end.

Definition sub_or_panic (a b : Z) : outcome Z :=
  if b <=? a then Ret (a - b) else Panic.

Definition index_or_panic {A} (l : list A) (i : Z) : outcome A :=
  match l !! Z.to_nat i with Some x => Ret x | None => Panic end.

Lemma add_or_panic_ret w a b :
  a + b <= max_of w -> add_or_panic w a b = Ret (a + b).
Proof.
  intros. unfold add_or_panic, checked_add.
  by rewrite (proj2 (Z.leb_le _ _)).
Qed.

Lemma sub_or_panic_ret a b : b <= a -> sub_or_panic a b = Ret (a - b).
Proof. intros. unfold sub_or_panic. by rewrite (proj2 (Z.leb_le _ _)). Qed.

Lemma outcome_bind_ret {A B} (m : outcome A) (f : A -> outcome B) b :
  (m ≫= f) = Ret b -> exists a, m = Ret a /\ f a = Ret b.
Proof. destruct m; cbn; [eauto | done]. Qed.

Lemma result_bind_ok {E A B} (m : result E A) (f : A -> result E B) b :
  (m ≫= f) = Ok b -> exists a, m = Ok a /\ f a = Ok b.
Proof. destruct m; cbn; [eauto | done]. Qed.

(** ** Vectors

    [Vec::push] and [Vec::pop] work at the end of the list. *)

Definition push {A} (l : list A) (x : A) : list A := l ++ [x].

Definition pop {A} (l : list A) : option (A * list A) :=
  match rev l with
  | [] => None
  | x :: r => Some (x, rev r)
  end.

Lemma pop_Some {A} (l : list A) x l' : pop l = Some (x, l') <-> l = push l' x.
Proof.
  unfold pop, push. split.
  - destruct (rev l) as [|y r] eqn:E; [done|]. intros [= -> <-].
    rewrite <- (rev_involutive l), E. by cbn.
  - intros ->. rewrite rev_app_distr. cbn. by rewrite rev_involutive.
Qed.

Lemma pop_None {A} (l : list A) : pop l = None <-> l = [].
Proof.
  unfold pop. destruct (rev l) eqn:E; split; intros H; try done.
  - rewrite <- (rev_involutive l), E. done.
  - by subst.
Qed.

Lemma elem_of_push {A} (l : list A) x y : y ∈ push l x <-> y ∈ l \/ y = x.
Proof. unfold push. rewrite elem_of_app, list_elem_of_singleton. done. Qed.

Lemma NoDup_push {A} (l : list A) x : NoDup (push l x) <-> (x ∉ l) /\ NoDup l.
Proof.
  unfold push. rewrite NoDup_app. split.
  - intros (H1 & H2 & _). split; [|done]. intros Hx.
    apply (H2 x Hx). by apply list_elem_of_singleton.
  - intros (H1 & H2). split_and!; [done| |apply NoDup_singleton].
    intros y Hy ->%list_elem_of_singleton. done.
Qed.

(** ** Counting *)

Fixpoint count {A} (p : A -> bool) (l : list A) : Z :=
  match l with
  | [] => 0
  | x :: r => (if p x then 1 else 0) + count p r
  end.

Lemma count_app {A} (p : A -> bool) l1 l2 :
  count p (l1 ++ l2) = count p l1 + count p l2.
Proof. induction l1 as [|x l1 IH]; cbn; [done|]. rewrite IH. lia. Qed.

Lemma count_bounds {A} (p : A -> bool) l : 0 <= count p l <= Z.of_nat (length l).
Proof. induction l as [|x l IH]; cbn; [lia|]. destruct (p x); lia. Qed.

Lemma count_insert {A} (p : A -> bool) l i x y :
  l !! i = Some x ->
  count p (<[i:=y]> l) =
  count p l - (if p x then 1 else 0) + (if p y then 1 else 0).
Proof.
  revert i. induction l as [|z l IH]; intros [|i] H; simpl in *; try done.
  - injection H as ->. lia.
  - rewrite (IH _ H). lia.
Qed.

Lemma count_pos {A} (p : A -> bool) l i x :
  l !! i = Some x -> p x = true -> 1 <= count p l.
Proof.
  revert i. induction l as [|z l IH]; intros [|i] H Hp; cbn in *; try done.
  - injection H as ->. rewrite Hp. pose proof (count_bounds p l). lia.
  - specialize (IH _ H Hp). destruct (p z); lia.
Qed.

(** ** Bytes and little-endian integers *)

Definition Z_of_byte (b : byte) : Z := Z.of_N (Byte.to_N b).

Definition byte_of_Z (z : Z) : byte :=
  match Byte.of_N (Z.to_N (z mod 256)) with Some b => b | None => x00 end.

(** [n] bytes of [z], least significant first ([to_le_bytes]). *)
Fixpoint le_bytes (n : nat) (z : Z) : list byte :=
  match n with
  | O => []
  | S m => byte_of_Z z :: le_bytes m (z / 256)
  end.

(** The integer of a little-endian byte string ([from_le_bytes]). *)
Fixpoint of_le_bytes (l : list byte) : Z :=
  match l with
  | [] => 0
  | b :: r => Z_of_byte b + 256 * of_le_bytes r
  end.

Lemma Z_of_byte_range b : 0 <= Z_of_byte b < 256.
Proof. unfold Z_of_byte. pose proof (Byte.to_N_bounded b). lia. Qed.

Lemma byte_of_Z_of_byte b : byte_of_Z (Z_of_byte b) = b.
Proof.
  unfold byte_of_Z. rewrite Z.mod_small by apply Z_of_byte_range.
  unfold Z_of_byte. by rewrite N2Z.id, Byte.of_to_N.
Qed.

Lemma Z_of_byte_of_Z z : Z_of_byte (byte_of_Z z) = z mod 256.
Proof.
  unfold byte_of_Z, Z_of_byte.
  pose proof (Z.mod_pos_bound z 256 ltac:(lia)).
  destruct (Byte.of_N _) as [b|] eqn:E.
  - apply Byte.to_of_N in E. rewrite E. lia.
  - apply Byte.of_N_None_iff in E. lia.
Qed.

Lemma length_le_bytes n z : length (le_bytes n z) = n.
Proof. revert z. induction n; intros; cbn; auto. Qed.

Lemma of_le_bytes_le_bytes n z :
  of_le_bytes (le_bytes n z) = z mod 2 ^ (8 * Z.of_nat n).
Proof.
  revert z. induction n as [|n IH]; intros z.
  - cbn. by rewrite Z.mod_1_r.
  - cbn [le_bytes of_le_bytes]. rewrite IH, Z_of_byte_of_Z.
    replace (2 ^ (8 * Z.of_nat (S n))) with (256 * 2 ^ (8 * Z.of_nat n)).
    2:{ change 256 with (2 ^ 8). rewrite <- Z.pow_add_r by lia. f_equal; lia. }
    rewrite Z.rem_mul_r by lia. done.
Qed.

Lemma of_le_bytes_range l : 0 <= of_le_bytes l < 2 ^ (8 * Z.of_nat (length l)).
Proof.
  induction l as [|b l IH]; [cbn; lia|].
  cbn [of_le_bytes length]. pose proof (Z_of_byte_range b).
  replace (2 ^ (8 * Z.of_nat (S (length l))))
    with (256 * 2 ^ (8 * Z.of_nat (length l))).
  2:{ change 256 with (2 ^ 8). rewrite <- Z.pow_add_r by lia. f_equal; lia. }
  lia.
Qed.

Lemma le_bytes_of_le_bytes l : le_bytes (length l) (of_le_bytes l) = l.
Proof.
  induction l as [|b l IH]; [done|].
  cbn [length le_bytes of_le_bytes].
  pose proof (Z_of_byte_range b) as Hb.
  f_equal.
  - rewrite <- (byte_of_Z_of_byte b) at 2. unfold byte_of_Z.
    rewrite (Z.mul_comm 256), Z_mod_plus_full. done.
  - rewrite (Z.mul_comm 256), Z.div_add, Z.div_small, Z.add_0_l by lia. done.
Qed.

Lemma of_le_bytes_id n z :
  fits (8 * Z.of_nat n) z -> of_le_bytes (le_bytes n z) = z.
Proof. intros. rewrite of_le_bytes_le_bytes. by apply Z.mod_small. Qed.

#[export] Hint Rewrite @length_le_bytes @length_app @length_insert : graftx_rw.

(** ** Tactics *)

(** Split the conjunctions and existentials of the hypotheses. *)
Ltac split_hyps :=
  repeat match goal with
  | H : _ /\ _ |- _ => destruct H
  | H : exists _, _ |- _ => destruct H
  end.

(** Peel the binds of a computation known to return. *)
Ltac inv_ret :=
  repeat match goal with
  | H : (_ ≫= _) = Ret _ |- _ => apply outcome_bind_ret in H as (? & ? & ?)
  | H : (_ ≫= _) = Ok _ |- _ => apply result_bind_ok in H as (? & ? & ?)
  | H : Ret _ = Ret _ |- _ => injection H; clear H; intros; subst
  | H : Ok _ = Ok _ |- _ => injection H; clear H; intros; subst
  | H : Err _ = Err _ |- _ => injection H; clear H; intros; subst
  | H : mret _ = _ |- _ => progress cbn in H
  end; try discriminate.
