(* ===== verification/Testing.v ===== *)
(** The unit tests of the crates, on the model.

    A test is a program that returns or panics: [assert_eq!] and its kin, [expect]
    and [unwrap] panic when they fail. The files that end in Tests hold the
    [mod tests] of the crates, one definition per test function, of its name; a
    definition that models the code differently from what its authors check fails
    there. *)
From S2P Require Export Prelude.

Local Open Scope Z_scope.

#[export] Instance byte_eq_dec : EqDecision byte := Byte.byte_eq_dec.

Definition test := outcome unit.

Definition assert (b : bool) : test := if b then Ret tt else Panic.

Definition assert_eq {A} `{EqDecision A} (left right : A) : test :=
  if decide (left = right) then Ret tt else Panic.

Definition assert_ne {A} `{EqDecision A} (left right : A) : test :=
  if decide (left = right) then Panic else Ret tt.

(** [Result::expect], [Result::expect_err], [Option::expect]. *)
Definition expect {E A} (r : result E A) : outcome A :=
  match r with Ok a => Ret a | Err _ => Panic end.

Definition expect_err {E A} (r : result E A) : outcome E :=
  match r with Ok _ => Panic | Err e => Ret e end.

Definition expect_some {A} (o : option A) : outcome A :=
  match o with Some a => Ret a | None => Panic end.

Definition is_err {E A} (r : result E A) : bool := negb (is_ok r).

Definition is_some {A} (o : option A) : bool := match o with Some _ => true | None => false end.

Definition is_none {A} (o : option A) : bool := negb (is_some o).

Definition is_empty {A} (l : list A) : bool := match l with [] => true | _ => false end.

Definition len {A} (l : list A) : Z := Z.of_nat (length l).

(** [[1, 2, 3]] and [[b; n]] as bytes. *)
Definition bytes (l : list Z) : list byte := map byte_of_Z l.

Definition bytes_of (n b : Z) : list byte := replicate (Z.to_nat n) (byte_of_Z b).

(** [for x in l]. *)
Fixpoint for_each {A} (l : list A) (f : A -> test) : test :=
  match l with [] => Ret tt | x :: l => f x;; for_each l f end.

(** [iter().map(f).collect()], for an [f] that asserts. *)
Fixpoint map_each {A B} (f : A -> outcome B) (l : list A) : outcome (list B) :=
  match l with [] => Ret [] | x :: l => y ← f x; ys ← map_each f l; Ret (y :: ys) end.

(** [while cond { body }] on the variables it assigns; running out of fuel fails the
    test. *)
Fixpoint while_do {S} (fuel : nat) (cond : S -> bool) (body : S -> outcome S) (s : S) : outcome S :=
  if cond s then
    match fuel with O => Panic | Datatypes.S fuel => s ← body s; while_do fuel cond body s end
  else Ret s.

(** A suite of tests, and the positions of those that fail. *)
Definition passes (t : test) : bool := match t with Ret _ => true | Panic => false end.

Definition failures (s : list test) : list nat :=
  omap (fun '(i, t) => if passes t then None else Some i) (imap pair s).

Definition all_pass (s : list test) : Prop := Forall (fun t => t = Ret tt) s.

Lemma suite_passes (s : list test) : forallb passes s = true -> all_pass s.
Proof.
  unfold all_pass. induction s as [|t s IH]; intros H; constructor; cbn in *;
    apply andb_prop in H as [Ht H]; [by destruct t as [[]|]|by apply IH].
Qed.

Lemma all_pass_app s s' : all_pass s -> all_pass s' -> all_pass (s ++ s').
Proof. by apply Forall_app_2. Qed.
