(* ===== verification/Locking.v ===== *)
(** Threads that share data behind mutexes.

    A thread runs a list of operations. An operation takes one lock, works on the
    shared data in small steps, and drops the guard; a panic while the guard is held
    unwinds, drops it and poisons the mutex. The machine is generic in the
    operations. It never deadlocks and it ends; and when operations of different
    locks commute, every reachable state is that of running the operations, each in
    one piece, in the order in which they took their locks. *)
From S2P Require Import Prelude.

Local Open Scope Z_scope.

(** ** [std::sync::Mutex]

    The lock alone: what it protects is the shared data of the machine below. A
    guard is named by the thread that holds it. *)
Module Mutex.
Record t := mk { holder : option nat; poisoned : bool }.

Definition new : t := mk None false.

(** The error of a poisoned lock carries the guard. *)
Record PoisonError (G : Type) := poison_error { guard : G }.
Arguments poison_error {G} _.
Arguments guard {G} _.

Definition into_inner {G} (e : PoisonError G) : G := guard e.

(** [lock]; [None] when the thread has to wait. *)
Definition lock (me : nat) (self : t) : option (t * result (PoisonError nat) nat) :=
  match holder self with
  | Some _ => None
  | None =>
    Some (mk (Some me) (poisoned self), if poisoned self then Err (poison_error me) else Ok me)
  end.

(** Dropping the guard, on the normal path or while unwinding. *)
Definition drop_guard (panicking : bool) (self : t) : t :=
  mk None (poisoned self || panicking).
End Mutex.

Definition unwrap_or_else {E A} (f : E -> A) (r : result E A) : A :=
  match r with Ok a => a | Err e => f e end.

(** ** Operations

    [out] is what the caller of an operation gets, read from the data before the
    guard is dropped. *)
Record ops (L O D R : Type) := {
  lock_of : O -> L;
  body : O -> list (D -> outcome D);
  out : O -> D -> R }.
Arguments lock_of {L O D R} _ _.
Arguments body {L O D R} _ _.
Arguments out {L O D R} _ _ _.

Section machine.
Context {L O D R : Type} `{EqDecision L} (I : ops L O D R).
(** How a thread takes a lock: the [lock] method of the structure. *)
Context (acquire : nat -> Mutex.t -> option (Mutex.t * nat)).

Inductive phase :=
| Between
| Inside (o : O) (rest : list (D -> outcome D))
| Dead.

Record thread := mkThread { todo : list O; at_ : phase; results : list R }.

Record state := mkState { data : D; mutexes : L -> Mutex.t; threads : list thread }.

Definition set_mutex (l : L) (m : Mutex.t) (ms : L -> Mutex.t) : L -> Mutex.t :=
  fun l' => if decide (l' = l) then m else ms l'.

Definition unlocked (panicking : bool) (l : L) (ms : L -> Mutex.t) : L -> Mutex.t :=
  set_mutex l (Mutex.drop_guard panicking (ms l)) ms.

(** The unwinding of thread [i] out of an operation. *)
Definition unwind (i : nat) (th : thread) (o : O) (st : state) : state :=
  mkState (data st) (unlocked true (lock_of I o) (mutexes st))
    (<[i := mkThread (todo th) Dead (results th)]> (threads st)).

(** One step of thread [i]; [None] when it waits or is over. *)
Definition advance (i : nat) (st : state) : option state :=
  th ← threads st !! i;
  match at_ th with
  | Between =>
    match todo th with
    | [] => None
    | o :: os =>
      '(m, _guard) ← acquire i (mutexes st (lock_of I o));
      Some (mkState (data st) (set_mutex (lock_of I o) m (mutexes st))
        (<[i := mkThread os (Inside o (body I o)) (results th)]> (threads st)))
    end
  | Inside o (f :: rest) =>
    match f (data st) with
    | Ret d =>
      Some (mkState d (mutexes st) (<[i := mkThread (todo th) (Inside o rest) (results th)]> (threads st)))
    | Panic => Some (unwind i th o st)
    end
  | Inside o [] =>
    Some (mkState (data st) (unlocked false (lock_of I o) (mutexes st))
      (<[i := mkThread (todo th) Between (results th ++ [out I o (data st)])]> (threads st)))
  | Dead => None
  end.

(** A panic that strikes a thread while it holds a guard. *)
Definition strike (i : nat) (st : state) : option state :=
  th ← threads st !! i;
  match at_ th with
  | Inside o _ => Some (unwind i th o st)
  | _ => None
  end.

Inductive step : state -> state -> Prop :=
| by_thread i st st' : advance i st = Some st' -> step st st'
| by_panic i st st' : strike i st = Some st' -> step st st'.

Inductive steps : nat -> state -> state -> Prop :=
| steps_O st : steps 0 st st
| steps_snoc n st st' st'' : steps n st st' -> step st' st'' -> steps (S n) st st''.

Definition start (progs : list (list O)) (d : D) : state :=
  mkState d (fun _ => Mutex.new) (map (fun os => mkThread os Between []) progs).

(** A thread that has nothing left to do. *)
Definition over (th : thread) : Prop :=
  match at_ th with Between => todo th = [] | Inside _ _ => False | Dead => True end.

(** ** Every run ends *)
Definition op_cost (o : O) : nat := 2 + length (body I o).

Definition cost (th : thread) : nat :=
  sum_list_with op_cost (todo th) +
  match at_ th with Inside _ rest => S (length rest) | _ => 0 end.

Definition measure (st : state) : nat := sum_list_with cost (threads st).

Lemma sum_list_with_insert {A} (f : A -> nat) (l : list A) i x y :
  l !! i = Some x -> (sum_list_with f (<[i := y]> l) + f x = sum_list_with f l + f y)%nat.
Proof.
  intros H. rewrite insert_take_drop by (by eapply lookup_lt_Some).
  rewrite <- (take_drop_middle l i x H) at 3. rewrite !sum_list_with_app. cbn. lia.
Qed.

Lemma unwind_measure i th o st :
  threads st !! i = Some th -> (exists rest, at_ th = Inside o rest) ->
  (measure (unwind i th o st) < measure st)%nat.
Proof.
  intros Hi [rest Hp]. unfold measure, unwind. cbn [threads].
  pose proof (sum_list_with_insert cost _ _ _ (mkThread (todo th) Dead (results th)) Hi) as E.
  unfold cost in E at 2 4. rewrite Hp in E. cbn in *. lia.
Qed.

Lemma step_measure st st' : step st st' -> (measure st' < measure st)%nat.
Proof.
  intros [i s s' H|i s s' H]; unfold advance, strike in H;
    apply bind_Some in H as (th & Hi & H); destruct (at_ th) as [|o [|f rest]|] eqn:Hp; try done.
  - destruct (todo th) as [|o os] eqn:Ht; [done|]. apply bind_Some in H as ([m g] & _ & [= <-]).
    unfold measure. cbn [threads].
    pose proof (sum_list_with_insert cost _ _ _
      (mkThread os (Inside o (body I o)) (results th)) Hi) as E.
    unfold cost in E at 2 4. rewrite Hp, Ht in E. cbn in *. unfold op_cost in E. lia.
  - injection H as <-. unfold measure. cbn [threads].
    pose proof (sum_list_with_insert cost _ _ _
      (mkThread (todo th) Between (results th ++ [out I o (data s)])) Hi) as E.
    unfold cost in E at 2 4. rewrite Hp in E. cbn in *. lia.
  - destruct (f (data s)) as [d|]; injection H as <-; [|by apply unwind_measure; eauto].
    unfold measure. cbn [threads].
    pose proof (sum_list_with_insert cost _ _ _
      (mkThread (todo th) (Inside o rest) (results th)) Hi) as E.
    unfold cost in E at 2 4. rewrite Hp in E. cbn in *. lia.
  - injection H as <-. apply unwind_measure; eauto.
  - injection H as <-. apply unwind_measure; eauto.
Qed.

Lemma steps_measure n st st' : steps n st st' -> (n + measure st' <= measure st)%nat.
Proof. induction 1 as [|n st st' st'' _ IH Hs]; [lia|]. apply step_measure in Hs. lia. Qed.

Lemma start_measure progs d : measure (start progs d) = sum_list_with (sum_list_with op_cost) progs.
Proof.
  unfold measure, start. cbn. induction progs as [|p ps IH]; [done|]. cbn. rewrite IH.
  unfold cost. cbn. lia.
Qed.
End machine.

(** ** Linearization

    The laws: taking a free lock succeeds, poisoned or not; the steps of an operation
    keep an invariant of the data under which they do not panic; and operations of
    different locks do not see each other. *)
Class Acquires (acquire : nat -> Mutex.t -> option (Mutex.t * nat)) : Prop := {
  acquire_free i m : Mutex.holder m = None -> is_Some (acquire i m);
  acquire_holds i m m' g :
    acquire i m = Some (m', g) -> Mutex.holder m = None /\ Mutex.holder m' = Some i }.

Class OpsLaws {L O D R} (I : ops L O D R) (wf : D -> Prop) : Prop := {
  body_total o f d : f ∈ body I o -> wf d -> exists d', f d = Ret d' /\ wf d';
  body_commute o1 o2 f g x y z :
    lock_of I o1 <> lock_of I o2 -> f ∈ body I o1 -> g ∈ body I o2 ->
    g x = Ret y -> f y = Ret z -> exists x', f x = Ret x' /\ g x' = Ret z;
  body_frame o1 o2 g x y :
    lock_of I o1 <> lock_of I o2 -> g ∈ body I o2 -> g x = Ret y -> out I o1 y = out I o1 x }.

Section history.
Context {L O D R : Type} `{EqDecision L} (I : ops L O D R).

(** An operation that was begun: by whom, how far it got, whether it returned. *)
Record entry := mkEntry { who : nat; op : O; ran : nat; fin : bool }.

Definition complete (e : entry) : Prop := ran e = length (body I (op e)) /\ fin e = true.

Fixpoint run_body (fs : list (D -> outcome D)) (d : D) : outcome D :=
  match fs with [] => Ret d | f :: fs => d ← f d; run_body fs d end.

Definition run_entry (e : entry) : D -> outcome D := run_body (take (ran e) (body I (op e))).

(** Running a history, each of its operations in one piece. *)
Fixpoint run (h : list entry) (d : D) : outcome D :=
  match h with [] => Ret d | e :: h => d ← run_entry e d; run h d end.

(** What the operations of thread [i] that returned give in such a run. *)
Fixpoint replies (i : nat) (h : list entry) (d : D) : list R :=
  match h with
  | [] => []
  | e :: h =>
    match run_entry e d with
    | Panic => []
    | Ret d => (if decide (who e = i /\ fin e = true) then [out I (op e) d] else []) ++ replies i h d
    end
  end.

Definition mine (i : nat) (h : list entry) : list entry := filter (fun e => who e = i) h.

Lemma run_body_app fs gs d : run_body (fs ++ gs) d = d' ← run_body fs d; run_body gs d'.
Proof. revert d. induction fs as [|f fs IH]; intros d; [done|]. cbn. by destruct (f d); cbn. Qed.

Lemma run_app h1 h2 d : run (h1 ++ h2) d = d' ← run h1 d; run h2 d'.
Proof. revert d. induction h1 as [|e h1 IH]; intros d; [done|]. cbn. by destruct (run_entry e d); cbn. Qed.

Lemma replies_app i h1 h2 d x :
  run h1 d = Ret x -> replies i (h1 ++ h2) d = replies i h1 d ++ replies i h2 x.
Proof.
  revert d. induction h1 as [|e h1 IH]; intros d; cbn; [by intros [= ->]|].
  destruct (run_entry e d) as [d1|]; cbn; [|done]. intros H. by rewrite (IH _ H), app_assoc.
Qed.

Lemma replies_other i h d : Forall (fun e => who e <> i) h -> replies i h d = [].
Proof.
  intros H. revert d. induction H as [|e h Hne _ IH]; intros d; [done|]. cbn.
  destruct (run_entry e d); [|done]. rewrite decide_False by (by intros [? _]). apply IH.
Qed.

Lemma mine_app i h1 h2 : mine i (h1 ++ h2) = mine i h1 ++ mine i h2.
Proof. apply filter_app. Qed.

Lemma mine_other i h : Forall (fun e => who e <> i) h -> mine i h = [].
Proof. induction 1 as [|e h Hne _ IH]; [done|]. unfold mine in *. by rewrite filter_cons_False. Qed.

(** One more step of an operation. *)
Lemma run_entry_step e f rest x y z fin' :
  drop (ran e) (body I (op e)) = f :: rest -> run_entry e x = Ret y -> f y = Ret z ->
  run_entry (mkEntry (who e) (op e) (S (ran e)) fin') x = Ret z.
Proof.
  intros Hd Hx Hf. unfold run_entry in *. cbn [op ran].
  erewrite take_S_r by (rewrite <- (Nat.add_0_r (ran e)), <- lookup_drop, Hd; done).
  rewrite run_body_app, Hx. cbn. by rewrite Hf.
Qed.
End history.
Arguments entry : clear implicits.

Section slide.
Context {L O D R : Type} `{EqDecision L} (I : ops L O D R) (wf : D -> Prop) `{!OpsLaws I wf}.

Definition apart (l : L) (e : entry O) : Prop := lock_of I (op e) <> l.

(** A step slides over the steps of operations of another lock. *)
Lemma slide_body o o' f gs x y z :
  lock_of I o' <> lock_of I o -> f ∈ body I o -> gs ⊆ body I o' ->
  run_body gs x = Ret y -> f y = Ret z -> exists x', f x = Ret x' /\ run_body gs x' = Ret z.
Proof.
  intros Hl Hf. revert x. induction gs as [|g gs IH]; intros x Hgs Hr Hz; cbn in *.
  - injection Hr as ->. eauto.
  - apply outcome_bind_ret in Hr as (x1 & Hg & Hr).
    destruct (IH x1) as (x1' & Hf1 & Hr1); [set_solver|done|done|].
    destruct (body_commute o o' f g x x1 x1') as (x' & Hx & Hg'); [congruence|done|set_solver|done..|].
    exists x'. split; [done|]. by rewrite Hg'.
Qed.

Lemma frame_body o o' gs x y :
  lock_of I o' <> lock_of I o -> gs ⊆ body I o' -> run_body gs x = Ret y -> out I o y = out I o x.
Proof.
  intros Hl. revert x. induction gs as [|g gs IH]; intros x Hgs Hr; cbn in *; [congruence|].
  apply outcome_bind_ret in Hr as (x1 & Hg & Hr). rewrite (IH x1); [|set_solver|done].
  eapply (body_frame o o'); [congruence| |done]. set_solver.
Qed.

Lemma take_sub {A} n (l : list A) : take n l ⊆ l.
Proof. intros a. rewrite <- (take_drop n l) at 2. set_solver. Qed.

(** ... and over their part of a history, changing none of the replies in it. *)
Lemma slide o f h x y z :
  f ∈ body I o -> Forall (apart (lock_of I o)) h -> run I h x = Ret y -> f y = Ret z ->
  exists x', f x = Ret x' /\ run I h x' = Ret z /\ forall i, replies I i h x' = replies I i h x.
Proof.
  intros Hf Hh. revert x. induction Hh as [|e h He _ IH]; intros x Hr Hz; cbn [run replies] in *.
  - injection Hr as ->. eauto.
  - apply outcome_bind_ret in Hr as (x1 & Hx1 & Hr).
    destruct (IH x1 Hr Hz) as (x1' & Hf1 & Hr1 & Hrep).
    destruct (slide_body o (op e) f _ x x1 x1' He Hf (take_sub _ _) Hx1 Hf1) as (x' & Hx & He').
    exists x'. split; [done|]. unfold run_entry in *. rewrite He', Hx1. split; [done|].
    intros i. rewrite Hrep. by rewrite (body_frame (op e) o f x1 x1').
Qed.

Lemma frame_run o h x y :
  Forall (apart (lock_of I o)) h -> run I h x = Ret y -> out I o y = out I o x.
Proof.
  intros Hh. revert x. induction Hh as [|e h He _ IH]; intros x Hr; cbn [run] in *; [congruence|].
  apply outcome_bind_ret in Hr as (x1 & Hx1 & Hr). rewrite (IH _ Hr).
  by eapply (frame_body o (op e)); [|apply take_sub|].
Qed.

Lemma run_body_wf o fs d :
  fs ⊆ body I o -> wf d -> exists d', run_body fs d = Ret d' /\ wf d'.
Proof.
  revert d. induction fs as [|f fs IH]; intros d Hs Hd; [by exists d|]. cbn.
  destruct (body_total o f d) as (d1 & -> & H1); [set_solver|done|]. cbn. apply IH; [set_solver|done].
Qed.

Lemma run_wf h d : wf d -> exists d', run I h d = Ret d' /\ wf d'.
Proof.
  revert d. induction h as [|e h IH]; intros d Hd; [by exists d|]. cbn.
  destruct (run_body_wf (op e) (take (ran e) (body I (op e))) d) as (d1 & E & H1);
    [apply take_sub|done|]. unfold run_entry. rewrite E. cbn. by apply IH.
Qed.
End slide.

(** ** The invariant of the machine *)
Section linearize.
Context {L O D R : Type} `{EqDecision L} (I : ops L O D R) (wf : D -> Prop) `{!OpsLaws I wf}.
Context (acquire : nat -> Mutex.t -> option (Mutex.t * nat)) `{!Acquires acquire}.
Context (progs : list (list O)) (d0 : D).

Abbreviation state := (@state L O D R).
Abbreviation thread := (@thread O D R).
Abbreviation step := (step I acquire).

(** Where thread [i] is in the history [h]. *)
Definition open_at (i p : nat) (o : O) (rest : list (D -> outcome D)) (h : list (entry O)) : Prop :=
  exists e, h !! p = Some e /\ who e = i /\ op e = o /\ fin e = false /\
    (ran e <= length (body I o))%nat /\ rest = drop (ran e) (body I o) /\
    Forall (fun e' => apart I (lock_of I o) e' /\ who e' <> i) (drop (S p) h) /\
    Forall (complete I) (mine i (take p h)).

Definition place (i : nat) (th : thread) (h : list (entry O)) : Prop :=
  match at_ th with
  | Between => Forall (complete I) (mine i h)
  | Inside o rest => exists p, open_at i p o rest h
  | Dead => exists es e, mine i h = es ++ [e] /\ Forall (complete I) es /\ fin e = false /\
      (ran e <= length (body I (op e)))%nat
  end.

Definition thread_ok (i : nat) (th : thread) (h : list (entry O)) : Prop :=
  progs !! i = Some (map op (mine i h) ++ todo th) /\
  results th = replies I i h d0 /\ place i th h.

Record ok (h : list (entry O)) (st : state) : Prop := {
  ok_run : run I h d0 = Ret (data st);
  ok_threads i th : threads st !! i = Some th -> thread_ok i th h;
  ok_who : Forall (fun e => (who e < length (threads st))%nat) h;
  ok_length : length (threads st) = length progs;
  ok_locks i l : Mutex.holder (mutexes st l) = Some i <->
    exists th o rest, threads st !! i = Some th /\ at_ th = Inside o rest /\ lock_of I o = l }.

Lemma start_ok : ok [] (start progs d0).
Proof.
  constructor; cbn; [done| |constructor|by rewrite length_map|].
  - intros i th Hth. apply list_lookup_fmap_Some in Hth as (os & -> & Hos).
    split; [done|]. split; [done|]. constructor.
  - intros i l. split; [done|]. intros (th & o & rest & Hth & Hp & _).
    apply list_lookup_fmap_Some in Hth as (os & -> & _). done.
Qed.

Lemma set_mutex_same l m (ms : L -> Mutex.t) : set_mutex l m ms l = m.
Proof. unfold set_mutex. by rewrite decide_True. Qed.

Lemma set_mutex_other l l' m (ms : L -> Mutex.t) : l' <> l -> set_mutex l m ms l' = ms l'.
Proof. intros. unfold set_mutex. by rewrite decide_False. Qed.

(** Replacing an entry by one of the same thread and operation. *)
Lemma mine_update_other i p e e' (h : list (entry O)) :
  h !! p = Some e -> who e' = who e -> who e <> i -> mine i (<[p := e']> h) = mine i h.
Proof.
  intros Hp Hw Hi. rewrite insert_take_drop by (by eapply lookup_lt_Some).
  rewrite <- (take_drop_middle h p e Hp) at 3. unfold mine.
  rewrite !filter_app, !filter_cons_False by congruence. done.
Qed.

Lemma mine_update_ops i p e e' (h : list (entry O)) :
  h !! p = Some e -> who e' = who e -> op e' = op e ->
  map op (mine i (<[p := e']> h)) = map op (mine i h).
Proof.
  intros Hp Hw Ho. rewrite insert_take_drop by (by eapply lookup_lt_Some).
  rewrite <- (take_drop_middle h p e Hp) at 3. unfold mine.
  rewrite !filter_app, !filter_cons, Hw, !map_app.
  by case_decide; cbn; rewrite ?Ho.
Qed.

Lemma open_update i p q o rest e e' h :
  open_at i p o rest h -> h !! q = Some e -> who e' = who e -> op e' = op e -> who e <> i ->
  open_at i p o rest (<[q := e']> h).
Proof.
  intros (e0 & Hp & Hw & Ho & Hf & Hr & Hd & Hafter & Hbefore) Hq Hw' Ho' Hi.
  exists e0. assert (q <> p) as Hne by (intros ->; congruence).
  rewrite list_lookup_insert_ne by done. do 6 (split; [done|]). split.
  - destruct (decide (q <= p)%nat).
    + rewrite drop_insert_lt by lia. done.
    + rewrite drop_insert_ge by lia. apply Forall_insert; [done|].
      assert (drop (S p) h !! (q - S p)%nat = Some e) as Hl
        by (rewrite lookup_drop, <- Hq; f_equal; lia).
      destruct (proj1 (Forall_lookup _ _) Hafter _ _ Hl) as [Ha Hb].
      unfold apart in *. by rewrite Ho', Hw'.
  - destruct (decide (p <= q)%nat).
    + by rewrite take_insert_ge by lia.
    + rewrite take_insert_lt by lia. rewrite (mine_update_other _ _ e); try done.
      rewrite lookup_take_lt by lia. done.
Qed.

Lemma place_update i th q e e' h :
  place i th h -> h !! q = Some e -> who e' = who e -> op e' = op e -> who e <> i ->
  place i th (<[q := e']> h).
Proof.
  intros H Hq Hw Ho Hi. unfold place in *. destruct (at_ th) as [|o rest|].
  - by rewrite (mine_update_other _ _ e).
  - destruct H as [p H]. exists p. by eapply open_update.
  - by rewrite (mine_update_other _ _ e).
Qed.

(** The history around an open operation. *)
Lemma open_split i p o rest h :
  open_at i p o rest h -> exists h1 e h2, h = h1 ++ e :: h2 /\ length h1 = p /\
    who e = i /\ op e = o /\ fin e = false /\ (ran e <= length (body I o))%nat /\
    rest = drop (ran e) (body I o) /\ Forall (apart I (lock_of I o)) h2 /\
    Forall (fun e' => who e' <> i) h2 /\ Forall (complete I) (mine i h1).
Proof.
  intros (e & Hp & Hw & Ho & Hf & Hr & Hd & Hafter & Hbefore).
  exists (take p h), e, (drop (S p) h). rewrite take_drop_middle by done.
  apply Forall_and in Hafter as [Ha Hb]. rewrite length_take.
  apply lookup_lt_Some in Hp. by rewrite Nat.min_l by lia.
Qed.

Lemma open_mine i p o rest h :
  open_at i p o rest h -> exists es e, mine i h = es ++ [e] /\ Forall (complete I) es /\
    op e = o /\ fin e = false /\ (ran e <= length (body I o))%nat.
Proof.
  intros H%open_split. destruct H as (h1 & e & h2 & -> & _ & Hw & Ho & Hf & Hr & _ & _ & H2 & H1).
  exists (mine i h1), e. rewrite mine_app. unfold mine at 2. rewrite filter_cons_True by done.
  fold (mine i h2). by rewrite (mine_other i h2).
Qed.

(** The open operation makes a step. *)
Lemma open_step i p o f rest h d d' :
  open_at i p o (f :: rest) h -> run I h d0 = Ret d -> f d = Ret d' ->
  exists e e', h !! p = Some e /\ who e = i /\ op e = o /\ who e' = i /\ op e' = o /\
    run I (<[p := e']> h) d0 = Ret d' /\ open_at i p o rest (<[p := e']> h) /\
    forall j, replies I j (<[p := e']> h) d0 = replies I j h d0.
Proof.
  intros Hopen%open_split Hrun Hf.
  destruct Hopen as (h1 & e & h2 & -> & Hp & Hw & Ho & Hfin & Hr & Hd & Ha & H2 & H1).
  exists e, (mkEntry i o (S (ran e)) false). subst p. rewrite list_lookup_middle by done.
  rewrite insert_app_r_alt, Nat.sub_diag by lia. cbn [list_insert insert].
  do 5 (split; [done|]).
  rewrite run_app in Hrun. apply outcome_bind_ret in Hrun as (x & Hx & Hrun).
  cbn [run] in Hrun. apply outcome_bind_ret in Hrun as (y & Hy & Hrun).
  assert (f ∈ body I o) as Hin.
  { rewrite <- (take_drop (ran e) (body I o)), <- Hd. set_solver. }
  destruct (slide I wf o f h2 y d d' Hin Ha Hrun Hf) as (y' & Hfy & Hrun' & Hrep).
  rewrite <- Ho in Hd.
  assert (run_entry I (mkEntry i o (S (ran e)) false) x = Ret y') as Hy'.
  { rewrite <- Hw, <- Ho. by eapply run_entry_step. }
  split; [|split].
  - rewrite run_app, Hx. cbn [mbind outcome_bind run]. by rewrite Hy'.
  - exists (mkEntry i o (S (ran e)) false). rewrite list_lookup_middle by done.
    rewrite drop_app_ge, take_app_length by lia.
    replace (S (length h1) - length h1)%nat with 1%nat by lia. cbn [drop].
    do 4 (split; [done|]). cbn [ran].
    assert (S (ran e) + length rest = length (body I o))%nat as Hl.
    { rewrite <- Ho. apply (f_equal length) in Hd. rewrite length_drop in Hd. cbn in Hd. lia. }
    split; [lia|]. split; [|split; [by apply Forall_and|done]].
    rewrite <- Ho, <- Nat.add_1_r, <- drop_drop, <- Hd. done.
  - intros j. rewrite !(replies_app _ _ _ _ _ _ Hx). cbn [replies]. rewrite Hy, Hy'.
    cbn [who fin]. rewrite Hfin, !decide_False by (by intros [_ ?]). by rewrite Hrep.
Qed.

(** The open operation returns. *)
Lemma open_return i p o h d :
  open_at i p o [] h -> run I h d0 = Ret d ->
  exists e e', h !! p = Some e /\ who e = i /\ op e = o /\ who e' = i /\ op e' = o /\
    run I (<[p := e']> h) d0 = Ret d /\ Forall (complete I) (mine i (<[p := e']> h)) /\
    replies I i (<[p := e']> h) d0 = replies I i h d0 ++ [out I o d] /\
    forall j, j <> i -> replies I j (<[p := e']> h) d0 = replies I j h d0.
Proof.
  intros Hopen%open_split Hrun.
  destruct Hopen as (h1 & e & h2 & -> & Hp & Hw & Ho & Hfin & Hr & Hd & Ha & H2 & H1).
  set (e' := mkEntry i o (ran e) true).
  exists e, e'. subst p. rewrite list_lookup_middle by done.
  rewrite insert_app_r_alt, Nat.sub_diag by lia. cbn [list_insert insert].
  do 5 (split; [done|]).
  rewrite run_app in Hrun. apply outcome_bind_ret in Hrun as (x & Hx & Hrun).
  cbn [run] in Hrun. apply outcome_bind_ret in Hrun as (y & Hy & Hrun).
  assert (run_entry I e' x = Ret y) as Hy'.
  { unfold run_entry in *. cbn. by rewrite <- Ho. }
  split; [|split; [|split]].
  - rewrite run_app, Hx. cbn [mbind outcome_bind run]. by rewrite Hy'.
  - rewrite mine_app. unfold mine at 2. rewrite filter_cons_True by done. fold (mine i h2).
    rewrite (mine_other i h2) by done. apply Forall_app. split; [done|]. apply Forall_singleton.
    split; [|done]. cbn. apply (f_equal length) in Hd. rewrite length_drop in Hd. cbn in Hd. lia.
  - rewrite !(replies_app _ _ _ _ _ _ Hx). cbn [replies]. rewrite Hy, Hy'. cbn [who fin op e'].
    rewrite Hfin, decide_True, decide_False by (by repeat split || by intros [_ ?]).
    rewrite !(replies_other _ i h2) by done. rewrite !app_nil_r. cbn.
    by rewrite (frame_run I wf o h2 y d).
  - intros j Hj. rewrite !(replies_app _ _ _ _ _ _ Hx). cbn [replies]. rewrite Hy, Hy'.
    cbn [who fin e']. rewrite Hfin, !decide_False by (intros [? ?]; congruence). done.
Qed.

(** *** Steps preserve it *)
Lemma holder_unique h st i j th th' o o' rest rest' :
  ok h st -> threads st !! i = Some th -> at_ th = Inside o rest ->
  threads st !! j = Some th' -> at_ th' = Inside o' rest' ->
  lock_of I o = lock_of I o' -> i = j.
Proof.
  intros Hok Hi Hp Hj Hp' Hl.
  assert (Mutex.holder (mutexes st (lock_of I o)) = Some i) as H1
    by (apply (ok_locks _ _ Hok); by exists th, o, rest).
  assert (Mutex.holder (mutexes st (lock_of I o)) = Some j) as H2
    by (apply (ok_locks _ _ Hok); by exists th', o', rest').
  congruence.
Qed.

(** The locks after thread [i] has gone into, or out of, an operation. *)
Lemma locks_after h st i th o th' m :
  ok h st -> threads st !! i = Some th ->
  (forall o' rest', at_ th = Inside o' rest' -> lock_of I o' = lock_of I o) ->
  Mutex.holder m = (match at_ th' with Inside _ _ => Some i | _ => None end) ->
  (forall o' rest', at_ th' = Inside o' rest' -> lock_of I o' = lock_of I o) ->
  (forall j, Mutex.holder (mutexes st (lock_of I o)) = Some j -> j = i) ->
  forall j l, Mutex.holder (set_mutex (lock_of I o) m (mutexes st) l) = Some j <->
    exists thj oj rest, <[i := th']> (threads st) !! j = Some thj /\ at_ thj = Inside oj rest /\
      lock_of I oj = l.
Proof.
  intros Hok Hi Hbefore Hm Hafter Honly j l. pose proof (lookup_lt_Some _ _ _ Hi) as Hlt.
  destruct (decide (l = lock_of I o)) as [->|Hl].
  - rewrite set_mutex_same, Hm. split.
    + destruct (at_ th') as [|o' rest'|] eqn:E; try done. intros [= <-].
      exists th', o', rest'. rewrite list_lookup_insert_eq by done. eauto.
    + intros (thj & oj & rest & Hj & Hp & Hlj). destruct (decide (j = i)) as [->|Hne].
      * rewrite list_lookup_insert_eq in Hj by done. injection Hj as <-. by rewrite Hp.
      * rewrite list_lookup_insert_ne in Hj by done. destruct Hne. apply Honly.
        apply (ok_locks _ _ Hok). by exists thj, oj, rest.
  - rewrite set_mutex_other by done. rewrite (ok_locks _ _ Hok). split.
    + intros (thj & oj & rest & Hj & Hp & Hlj). exists thj, oj, rest. split; [|done].
      rewrite list_lookup_insert_ne; [done|]. intros ->. assert (thj = th) as -> by congruence.
      rewrite (Hbefore _ _ Hp) in Hlj. done.
    + intros (thj & oj & rest & Hj & Hp & Hlj). destruct (decide (j = i)) as [->|Hne].
      * rewrite list_lookup_insert_eq in Hj by done. injection Hj as <-.
        rewrite (Hafter _ _ Hp) in Hlj. done.
      * rewrite list_lookup_insert_ne in Hj by done. by exists thj, oj, rest.
Qed.

(** What [ok] asks of the threads after thread [i] has become [th']. *)
Lemma threads_after h h' (st : state) i th th' :
  threads st !! i = Some th -> thread_ok i th' h' ->
  (forall j thj, j <> i -> threads st !! j = Some thj -> thread_ok j thj h -> thread_ok j thj h') ->
  (forall j thj, threads st !! j = Some thj -> thread_ok j thj h) ->
  forall j thj, <[i := th']> (threads st) !! j = Some thj -> thread_ok j thj h'.
Proof.
  intros Hi Hth' Hothers Hall j thj Hj. destruct (decide (j = i)) as [->|Hne].
  - rewrite list_lookup_insert_eq in Hj by (by eapply lookup_lt_Some). by injection Hj as <-.
  - rewrite list_lookup_insert_ne in Hj by done. eauto.
Qed.

Lemma thread_ok_update j thj p e e' h :
  h !! p = Some e -> who e' = who e -> op e' = op e -> who e <> j ->
  replies I j (<[p := e']> h) d0 = replies I j h d0 ->
  thread_ok j thj h -> thread_ok j thj (<[p := e']> h).
Proof.
  intros Hp Hw Ho Hne Hr (H1 & H2 & H3). split; [|split].
  - by rewrite (mine_update_ops _ _ e).
  - by rewrite Hr.
  - by eapply place_update.
Qed.

Lemma who_update (st : state) i th' p e e' (h : list (entry O)) :
  h !! p = Some e -> who e' = who e -> Forall (fun e => (who e < length (threads st))%nat) h ->
  Forall (fun e => (who e < length (<[i := th']> (threads st)))%nat) (<[p := e']> h).
Proof.
  intros Hp Hw Hh. rewrite length_insert. apply Forall_insert; [done|]. rewrite Hw.
  by apply (proj1 (Forall_lookup _ _) Hh p).
Qed.

Lemma acquire_ok h st i th o os m g :
  ok h st -> threads st !! i = Some th -> at_ th = Between -> todo th = o :: os ->
  acquire i (mutexes st (lock_of I o)) = Some (m, g) ->
  ok (h ++ [mkEntry i o 0 false])
    (mkState (data st) (set_mutex (lock_of I o) m (mutexes st))
      (<[i := mkThread os (Inside o (body I o)) (results th)]> (threads st))).
Proof.
  intros Hok Hi Hp Ht Ha. apply acquire_holds in Ha as [Hfree Hm].
  pose proof (ok_threads _ _ Hok _ _ Hi) as (Hprog & Hres & Hplace).
  set (e := mkEntry i o 0 false). unfold place in Hplace. rewrite Hp in Hplace.
  assert (forall j, replies I j (h ++ [e]) d0 = replies I j h d0) as Hrep.
  { intros j. rewrite (replies_app _ _ _ _ _ _ (ok_run _ _ Hok)). cbn [replies].
    change (run_entry I e (data st)) with (Ret (data st)). cbn [who fin e].
    rewrite decide_False by (by intros [_ ?]). cbn. by rewrite app_nil_r. }
  assert (forall j, mine j (h ++ [e]) = mine j h ++ (if decide (i = j) then [e] else [])) as Hmine.
  { intros j. rewrite mine_app. unfold mine at 2. rewrite filter_cons, filter_nil. done. }
  constructor; cbn [data threads mutexes].
  - rewrite run_app, (ok_run _ _ Hok). done.
  - apply (threads_after h _ _ _ th); [done| | |by apply ok_threads].
    + split; [|split].
      * rewrite Hmine, decide_True, map_app, <- app_assoc by done. cbn. by rewrite Hprog, Ht.
      * cbn. by rewrite Hrep.
      * exists (length h), e. rewrite lookup_app_r, Nat.sub_diag by lia. cbn.
        do 4 (split; [done|]). split; [lia|]. split; [done|].
        rewrite drop_ge, take_app_length by (rewrite length_app; cbn; lia). done.
    + intros j thj Hne Hj (H1 & H2 & H3). split; [|split].
      * by rewrite Hmine, decide_False, app_nil_r by congruence.
      * by rewrite Hrep.
      * unfold place in *. destruct (at_ thj) as [|oj restj|] eqn:Hpj.
        1, 3: by rewrite Hmine, decide_False, app_nil_r by congruence.
        destruct H3 as (p & ej & Hlj & Hwj & Hoj & Hfj & Hrj & Hdj & Haj & Hbj).
        pose proof (lookup_lt_Some _ _ _ Hlj). exists p, ej.
        rewrite lookup_app_l, drop_app_le, take_app_le by lia.
        do 6 (split; [done|]). split; [|done]. apply Forall_app. split; [done|].
        apply Forall_singleton. split; [|cbn; congruence]. unfold apart. cbn. intros El.
        assert (Mutex.holder (mutexes st (lock_of I oj)) = Some j) as Hc
          by (apply (ok_locks _ _ Hok); by exists thj, oj, restj).
        by rewrite <- El, Hfree in Hc.
  - rewrite length_insert. apply Forall_app. split; [apply Hok|]. apply Forall_singleton.
    by eapply lookup_lt_Some.
  - rewrite length_insert. apply Hok.
  - apply (locks_after h _ _ th); [done..| |done| |].
    + by rewrite Hp.
    + by intros o' r' [= <- <-].
    + by rewrite Hfree.
Qed.

Lemma work_ok h st i th o f rest d :
  ok h st -> threads st !! i = Some th -> at_ th = Inside o (f :: rest) ->
  f (data st) = Ret d ->
  exists h', ok h' (mkState d (mutexes st)
    (<[i := mkThread (todo th) (Inside o rest) (results th)]> (threads st))).
Proof.
  intros Hok Hi Hp Hf. pose proof (ok_threads _ _ Hok _ _ Hi) as (Hprog & Hres & Hplace).
  unfold place in Hplace. rewrite Hp in Hplace. destruct Hplace as [p Hopen].
  destruct (open_step _ _ _ _ _ _ _ _ Hopen (ok_run _ _ Hok) Hf) as
    (e & e' & He & Hw & Ho & Hw' & Ho' & Hrun & Hopen' & Hrep).
  exists (<[p := e']> h). constructor; cbn [data threads mutexes].
  - done.
  - apply (threads_after h _ _ _ th); [done| | |by apply ok_threads].
    + split; [|split]; [|by rewrite Hrep|by exists p].
      rewrite (mine_update_ops _ _ e) by congruence. done.
    + intros j thj Hne Hj. eapply thread_ok_update; [done|congruence..|done].
  - eapply who_update; [done|congruence|apply Hok].
  - rewrite length_insert. apply Hok.
  - intros j l. rewrite (ok_locks _ _ Hok). pose proof (lookup_lt_Some _ _ _ Hi).
    destruct (decide (j = i)) as [->|Hne].
    + rewrite list_lookup_insert_eq by done. split.
      * intros (t & o1 & r1 & Ht & Hp1 & Hl). assert (t = th) as -> by congruence.
        exists (mkThread (todo th) (Inside o rest) (results th)), o, rest. repeat split. congruence.
      * intros (t & o1 & r1 & [= <-] & [= <- <-] & Hl). by exists th, o, (f :: rest).
    + by rewrite list_lookup_insert_ne.
Qed.

Lemma return_ok h st i th o :
  ok h st -> threads st !! i = Some th -> at_ th = Inside o [] ->
  exists h', ok h' (mkState (data st) (unlocked false (lock_of I o) (mutexes st))
    (<[i := mkThread (todo th) Between (results th ++ [out I o (data st)])]> (threads st))).
Proof.
  intros Hok Hi Hp. pose proof (ok_threads _ _ Hok _ _ Hi) as (Hprog & Hres & Hplace).
  unfold place in Hplace. rewrite Hp in Hplace. destruct Hplace as [p Hopen].
  destruct (open_return _ _ _ _ _ Hopen (ok_run _ _ Hok)) as
    (e & e' & He & Hw & Ho & Hw' & Ho' & Hrun & Hcomp & Hrep & Hothers).
  exists (<[p := e']> h). constructor; cbn [data threads mutexes].
  - done.
  - apply (threads_after h _ _ _ th); [done| | |by apply ok_threads].
    + split; [|split]; [|by rewrite Hrep, <- Hres|done].
      rewrite (mine_update_ops _ _ e) by congruence. done.
    + intros j thj Hne Hj. eapply thread_ok_update; [done|congruence..|by apply Hothers].
  - eapply who_update; [done|congruence|apply Hok].
  - rewrite length_insert. apply Hok.
  - apply (locks_after h _ _ th); [done..| |done|done|].
    + rewrite Hp. by intros o' r' [= <- <-].
    + intros j (t & o' & r' & Hj & Hpj & Hl)%(ok_locks _ _ Hok). by eapply holder_unique.
Qed.

Lemma unwind_ok h st i th o rest :
  ok h st -> threads st !! i = Some th -> at_ th = Inside o rest -> ok h (unwind I i th o st).
Proof.
  intros Hok Hi Hp. pose proof (ok_threads _ _ Hok _ _ Hi) as (Hprog & Hres & Hplace).
  unfold place in Hplace. rewrite Hp in Hplace. destruct Hplace as [p Hopen].
  destruct (open_mine _ _ _ _ _ Hopen) as (es & e & Hm & Hes & Ho & Hf & Hr).
  constructor; cbn [unwind data threads mutexes].
  - apply Hok.
  - apply (threads_after h _ _ _ th); [done| |done|by apply ok_threads].
    split; [done|split; [done|]]. exists es, e. by rewrite Ho.
  - rewrite length_insert. apply Hok.
  - rewrite length_insert. apply Hok.
  - apply (locks_after h _ _ th); [done..| |done|done|].
    + rewrite Hp. by intros o' r' [= <- <-].
    + intros j (t & o' & r' & Hj & Hpj & Hl)%(ok_locks _ _ Hok). by eapply holder_unique.
Qed.

Lemma step_ok h st st' : ok h st -> step st st' -> exists h', ok h' st'.
Proof.
  intros Hok Hs. revert Hok. destruct Hs as [i s s' H|i s s' H]; intros Hok; unfold advance, strike in H;
    apply bind_Some in H as (th & Hi & H); destruct (at_ th) as [|o [|f rest]|] eqn:Hp; try done.
  - destruct (todo th) as [|o os] eqn:Ht; [done|].
    apply bind_Some in H as ([m g] & Ha & [= <-]). eexists. by eapply acquire_ok.
  - injection H as <-. by eapply return_ok.
  - destruct (f (data s)) as [d|] eqn:Hf; injection H as <-; [by eapply work_ok|].
    exists h. by eapply unwind_ok.
  - injection H as <-. exists h. by eapply unwind_ok.
  - injection H as <-. exists h. by eapply unwind_ok.
Qed.

Lemma steps_ok n st : steps I acquire n (start progs d0) st -> exists h, ok h st.
Proof.
  intros H. remember (start progs d0) as s0 eqn:E.
  induction H as [|n s s' s'' _ IH Hs]; subst; [eexists; apply start_ok|].
  destruct (IH eq_refl) as [h Hok]. by eapply step_ok.
Qed.

(** *** Progress

    Unless every thread is over, one of them can go on, and without panicking. *)
Lemma progress h st :
  wf d0 -> ok h st -> Exists (fun th => ~ over th) (threads st) ->
  exists i st' th', advance I acquire i st = Some st' /\ threads st' !! i = Some th' /\
    at_ th' <> Dead.
Proof.
  intros Hd0 Hok Hex.
  assert (wf (data st)) as Hwf.
  { destruct (run_wf I wf h d0 Hd0) as (d & E & Hd). rewrite (ok_run _ _ Hok) in E. congruence. }
  assert (forall i th o rest, threads st !! i = Some th -> at_ th = Inside o rest ->
    exists i st' th', advance I acquire i st = Some st' /\ threads st' !! i = Some th' /\
      at_ th' <> Dead) as Hinside.
  { intros i th o rest Hi Hp. exists i. pose proof (lookup_lt_Some _ _ _ Hi).
    pose proof (ok_threads _ _ Hok _ _ Hi) as (_ & _ & Hplace). unfold place in Hplace.
    rewrite Hp in Hplace. destruct Hplace as (p & e & _ & _ & _ & _ & _ & Hrest & _).
    unfold advance. rewrite Hi. cbn [mbind option_bind]. rewrite Hp.
    destruct rest as [|f rest].
    - do 2 eexists. split; [done|]. cbn. by rewrite list_lookup_insert_eq.
    - destruct (body_total o f (data st)) as (d & -> & _); [|done|].
      { rewrite <- (take_drop (ran e) (body I o)), <- Hrest. set_solver. }
      do 2 eexists. split; [done|]. cbn. by rewrite list_lookup_insert_eq. }
  apply Exists_exists in Hex as (th & [i Hi]%list_elem_of_lookup & Hover).
  unfold over in Hover. destruct (at_ th) as [|o rest|] eqn:Hp; [|by eapply Hinside|done].
  destruct (todo th) as [|o os] eqn:Ht; [done|].
  destruct (Mutex.holder (mutexes st (lock_of I o))) as [j|] eqn:Hm.
  { apply (ok_locks _ _ Hok) in Hm as (thj & oj & rest & Hj & Hpj & _). by eapply Hinside. }
  destruct (acquire_free i _ Hm) as [[m g] Ha]. exists i.
  unfold advance. rewrite Hi. cbn [mbind option_bind]. rewrite Hp, Ht, Ha.
  do 2 eexists. split; [done|]. cbn. by rewrite list_lookup_insert_eq by (by eapply lookup_lt_Some).
Qed.
End linearize.

(** A history is a shuffle of what its threads did. *)
Lemma history_threads {O} n (h : list (entry O)) :
  Forall (fun e => (who e < n)%nat) h -> h ≡ₚ concat (map (fun i => mine i h) (seq 0 n)).
Proof.
  intros Hh. assert (concat (map (fun i => mine i h) (seq 0 n)) ≡ₚ
    filter (fun e => (who e < n)%nat) h) as ->.
  { clear Hh. induction n as [|n IH].
    - symmetry. apply Permutation_nil_r. induction h as [|e h IHh]; [done|].
      by rewrite filter_cons_False by lia.
    - rewrite seq_S, map_app, concat_app, IH. cbn. rewrite app_nil_r. clear IH.
      unfold mine. induction h as [|e h IHh]; [done|]. rewrite !filter_cons.
      repeat case_decide; try lia; cbn; rewrite <- ?IHh; solve_Permutation. }
  induction Hh as [|e h He _ IH]; [done|]. by rewrite filter_cons_True, <- IH.
Qed.

(** *** What a thread can tell from its own state *)
Section tell.
Context {L O D R : Type} `{EqDecision L} (I : ops L O D R) (wf : D -> Prop) `{!OpsLaws I wf}.

Lemma replies_length i h d d' :
  run I h d = Ret d' -> length (replies I i h d) = length (filter (fun e => fin e = true) (mine i h)).
Proof.
  revert d. induction h as [|e h IH]; intros d Hr; cbn [run replies] in *; [done|].
  apply outcome_bind_ret in Hr as (x & Hx & Hr). rewrite Hx, length_app, (IH _ Hr).
  unfold mine. rewrite (filter_cons (fun e => who e = i)).
  case_decide as H1; case_decide as H2; try (destruct H1; done); [| |done].
  - rewrite filter_cons_True by apply H1. done.
  - rewrite filter_cons_False; [done|]. intros ?. by apply H1.
Qed.

(** The operations a thread began, and those that returned, in its program. *)
Lemma place_fin i (th : @thread O D R) h :
  place I i th h -> exists rest, mine i h = filter (fun e => fin e = true) (mine i h) ++ rest /\
    (at_ th = Between -> rest = []) /\ Forall (complete I) (filter (fun e => fin e = true) (mine i h)).
Proof.
  assert (forall es : list (entry O), Forall (complete I) es -> filter (fun e => fin e = true) es = es) as Hes.
  { induction 1 as [|e es [_ He] _ IH]; [done|]. by rewrite filter_cons_True, IH. }
  intros H. unfold place in H. destruct (at_ th) as [|o rest|].
  - exists []. by rewrite (Hes _ H), app_nil_r.
  - destruct H as [p H]. destruct (open_mine _ _ _ _ _ _ H) as (es & e & -> & Hc & _ & Hf & _).
    exists [e]. rewrite filter_app, filter_cons_False, (Hes _ Hc), app_nil_r by congruence. done.
  - destruct H as (es & e & -> & Hc & Hf & _). exists [e].
    rewrite filter_app, filter_cons_False, (Hes _ Hc), app_nil_r by congruence. done.
Qed.
End tell.

(** ** Schedules

    A schedule names the thread of each step, and whether a panic strikes it. *)
Section play.
Context {L O D R : Type} `{EqDecision L} (I : ops L O D R).
Context (acquire : nat -> Mutex.t -> option (Mutex.t * nat)).

Fixpoint play (schedule : list (nat * bool)) (st : @state L O D R) : option state :=
  match schedule with
  | [] => Some st
  | (i, panics) :: rest =>
    st ← (if (panics : bool) then strike I i st else advance I acquire i st); play rest st
  end.

Lemma steps_app n m (st st' st'' : @state L O D R) :
  steps I acquire n st st' -> steps I acquire m st' st'' -> steps I acquire (n + m) st st''.
Proof.
  intros H1 H2. induction H2 as [|m s1 s2 s3 _ IH Hs]; [by rewrite Nat.add_0_r|].
  rewrite Nat.add_succ_r. econstructor; [by apply IH|done].
Qed.

Lemma play_steps schedule st st' :
  play schedule st = Some st' -> steps I acquire (length schedule) st st'.
Proof.
  revert st. induction schedule as [|[i panics] rest IH]; intros st H; cbn in *.
  - injection H as ->. constructor.
  - apply bind_Some in H as (s & Hs & H). apply (steps_app 1 _ _ s); [|by apply IH].
    econstructor; [constructor|]. destruct panics; [by eapply by_panic|by eapply by_thread].
Qed.
End play.

(** ** Joining the threads

    Threads that no panic strikes all come to their end, and what is then in the data
    is what running all their operations, in some order, leaves. *)
Section join.
Context {L O D R : Type} `{EqDecision L} (I : ops L O D R) (wf : D -> Prop) `{!OpsLaws I wf}.
Context (acquire : nat -> Mutex.t -> option (Mutex.t * nat)) `{!Acquires acquire}.
Context (progs : list (list O)) (d0 : D) (Hd0 : wf d0).

Abbreviation state := (@state L O D R).
Abbreviation thread := (@thread O D R).
Abbreviation ok := (ok I progs d0).

Definition joined (th : thread) : Prop := at_ th = Between /\ todo th = [].

Definition is_joined (th : thread) : bool :=
  match at_ th, todo th with Between, [] => true | _, _ => false end.

Lemma is_joined_true th : is_joined th = true <-> joined th.
Proof. unfold is_joined, joined. destruct (at_ th), (todo th); naive_solver. Qed.

Lemma joined_history h (st : state) :
  ok h st -> Forall joined (threads st) -> map op h ≡ₚ concat progs /\ Forall (complete I) h.
Proof.
  intros Hok Hj. pose proof (history_threads _ _ (ok_who _ _ _ _ _ Hok)) as Hp.
  assert (forall i th, threads st !! i = Some th ->
    progs !! i = Some (map op (mine i h)) /\ Forall (complete I) (mine i h)) as Ht.
  { intros i th Hi. destruct (ok_threads _ _ _ _ _ Hok _ _ Hi) as (Ep & _ & Hplace).
    destruct (proj1 (Forall_lookup _ _) Hj _ _ Hi) as [Hb Hn]. unfold place in Hplace.
    rewrite Hb in Hplace. by rewrite Hn, app_nil_r in Ep. }
  assert (map (fun i => map op (mine i h)) (seq 0 (length (threads st))) = progs) as E.
  { pose proof (ok_length _ _ _ _ _ Hok) as El. apply list_eq. intros i.
    rewrite list_lookup_fmap. destruct (threads st !! i) as [th|] eqn:Hi.
    - rewrite lookup_seq_lt by (by eapply lookup_lt_Some). cbn. symmetry. by eapply Ht.
    - apply lookup_ge_None in Hi. rewrite lookup_seq_ge by done. cbn. symmetry.
      apply lookup_ge_None. lia. }
  split.
  - rewrite Hp at 1. by rewrite concat_map, map_map, E.
  - rewrite Hp. apply Forall_concat, Forall_map, Forall_forall. intros i [_ Hi]%elem_of_seq.
    destruct (lookup_lt_is_Some_2 (threads st) i) as [th Hth]; [lia|]. by eapply Ht.
Qed.

Definition alive (th : thread) : Prop := at_ th <> Dead.

Lemma advance_alive h i (st st' : state) :
  ok h st -> Forall alive (threads st) -> advance I acquire i st = Some st' ->
  Forall alive (threads st').
Proof.
  intros Hok Ha H. destruct (run_wf I wf h d0 Hd0) as (d & E & Hwf).
  rewrite (ok_run _ _ _ _ _ Hok) in E. injection E as <-.
  unfold advance in H. apply bind_Some in H as (th & Hi & H).
  destruct (at_ th) as [|o [|f rest]|] eqn:Hp; try done.
  - destruct (todo th) as [|o os]; [done|]. apply bind_Some in H as ([m g] & _ & [= <-]).
    by apply Forall_insert.
  - injection H as <-. by apply Forall_insert.
  - destruct (ok_threads _ _ _ _ _ Hok _ _ Hi) as (_ & _ & Hplace). unfold place in Hplace.
    rewrite Hp in Hplace. destruct Hplace as (p & e & _ & _ & _ & _ & _ & Hrest & _).
    destruct (body_total o f (data st)) as (d & Ef & _); [|done|].
    { rewrite <- (take_drop (ran e) (body I o)), <- Hrest. set_solver. }
    rewrite Ef in H. injection H as <-. by apply Forall_insert.
Qed.

Definition unstruck (schedule : list nat) : list (nat * bool) := map (fun i => (i, false)) schedule.

Lemma play_app (s s' : list (nat * bool)) (st : state) :
  play I acquire (s ++ s') st = st' ← play I acquire s st; play I acquire s' st'.
Proof.
  revert st. induction s as [|[i p] s IH]; intros st; [done|]. cbn.
  destruct (if p then _ else _) as [st'|]; cbn; [apply IH|done].
Qed.

Lemma unstruck_alive schedule (st : state) :
  play I acquire (unstruck schedule) (start progs d0) = Some st ->
  (exists h, ok h st) /\ Forall alive (threads st).
Proof.
  revert st. induction schedule as [|i schedule IH] using rev_ind; intros st.
  { intros [= <-]. split; [eexists; apply start_ok|]. by apply Forall_map, Forall_true. }
  unfold unstruck. rewrite map_app, play_app. intros (st' & Hp & H)%bind_Some.
  destruct (IH _ Hp) as [[h Hok] Ha]. cbn in H. apply bind_Some in H as (s & Hs & [= <-]).
  split; [|by eapply advance_alive]. eapply (step_ok I wf acquire); [exact Hok|by eapply by_thread].
Qed.

(** What there is after the join, whatever the schedule. *)
Lemma join_runs schedule (st : state) :
  play I acquire (unstruck schedule) (start progs d0) = Some st -> Forall joined (threads st) ->
  exists h, map op h ≡ₚ concat progs /\ Forall (complete I) h /\ run I h d0 = Ret (data st).
Proof.
  intros Hp Hj. destruct (unstruck_alive _ _ Hp) as [[h Hok] _].
  destruct (joined_history _ _ Hok Hj) as [Hm Hc]. exists h. split; [done|]. split; [done|apply Hok].
Qed.

(** There is a schedule after which every thread can be joined. *)
Lemma schedule_joins : exists schedule (st : state),
  play I acquire (unstruck schedule) (start progs d0) = Some st /\ Forall joined (threads st).
Proof.
  assert (forall n schedule (st : state), (measure I st < n)%nat ->
    play I acquire (unstruck schedule) (start progs d0) = Some st ->
    exists schedule' st', play I acquire (unstruck (schedule ++ schedule')) (start progs d0) =
      Some st' /\ Forall joined (threads st')) as H.
  { induction n as [|n IH]; intros schedule st Hn Hp; [lia|].
    destruct (unstruck_alive _ _ Hp) as [[h Hok] Ha].
    destruct (decide (Forall (fun th => is_joined th = true) (threads st))) as [Hj|Hj].
    { exists [], st. rewrite app_nil_r. split; [done|]. eapply Forall_impl; [exact Hj|].
      intros th. apply is_joined_true. }
    apply not_Forall_Exists in Hj; [|apply _].
    destruct (progress I wf acquire progs d0 h st Hd0 Hok) as (i & st' & _ & Hs & _).
    { apply Exists_exists in Hj as (th & Hth & Hn'). apply Exists_exists. exists th. split; [done|].
      rewrite Forall_forall in Ha. specialize (Ha th Hth). unfold alive in Ha. unfold over.
      cbn in Hn'. rewrite is_joined_true in Hn'. unfold joined in Hn'. destruct (at_ th); naive_solver. }
    assert (measure I st' < n)%nat as Hm
      by (pose proof (step_measure I acquire st st' (by_thread _ _ _ _ _ Hs)); lia).
    assert (play I acquire (unstruck (schedule ++ [i])) (start progs d0) = Some st') as Hp'.
    { unfold unstruck in *. rewrite map_app, play_app, Hp. cbn. by rewrite Hs. }
    destruct (IH _ _ Hm Hp') as (s' & st'' & Hp'' & Hj'). exists (i :: s'), st''.
    by rewrite <- app_assoc in Hp''. }
  destruct (H _ [] _ (Nat.lt_succ_diag_r _) eq_refl) as (s & st & Hs & Hj). by exists s, st.
Qed.
End join.
