(* ===== verification/Sorts.v ===== *)
(** The sorts of the Rust standard library: [slice::sort] and [sort_by_key] are
    stable, and a stable sort is a function of the list and the order, so
    insertion sort computes what they compute. *)
From stdpp Require Import sorting.
From S2P Require Import Prelude.

Section sort.
Context {A : Type} (R : relation A) `{!RelDecision R}.

(** [x] goes before the first element it is not above. *)
Fixpoint insert_before (x : A) (l : list A) : list A :=
  match l with
  | [] => [x]
  | y :: l => if decide (R x y) then x :: y :: l else y :: insert_before x l
  end.

Definition sort_by (l : list A) : list A := foldr insert_before [] l.

Lemma insert_before_perm x l : insert_before x l ≡ₚ x :: l.
Proof.
  induction l as [|y l IH]; cbn; [done|]. case_decide; [done|]. rewrite IH. by constructor.
Qed.

Lemma sort_by_perm l : sort_by l ≡ₚ l.
Proof. induction l as [|x l IH]; cbn; [done|]. by rewrite insert_before_perm, IH. Qed.

Lemma insert_before_hd x y l :
  R y x -> HdRel R y l -> HdRel R y (insert_before x l).
Proof.
  intros Hyx Hl. destruct l as [|z l]; cbn; [by constructor|].
  inversion Hl. case_decide; by constructor.
Qed.

Lemma sort_by_Sorted `{!Total R} l : Sorted R (sort_by l).
Proof.
  induction l as [|x xs IH]; cbn; [constructor|]. change (foldr insert_before [] xs) with (sort_by xs).
  induction (sort_by xs) as [|y l IHl]; cbn; [by repeat constructor|]. rename IH into Hs.
  apply Sorted_inv in Hs as [Hs Hd]. case_decide as E.
  - repeat constructor; done.
  - constructor; [by apply IHl|]. apply insert_before_hd; [|done].
    by destruct (total R x y).
Qed.

(** Elements that are equivalent for the order keep their places. *)
Lemma sort_by_stable (P : A -> Prop) `{!forall x, Decision (P x)} l :
  (forall x y, P x -> P y -> R x y) -> filter P (sort_by l) = filter P l.
Proof.
  intros HP. induction l as [|x l IH]; cbn [sort_by foldr]; [done|].
  assert (forall m, filter P (insert_before x m) = filter P (x :: m)) as Hi.
  { induction m as [|y m IHm]; cbn [insert_before]; [done|]. case_decide as E; [done|].
    rewrite !filter_cons in *.
    destruct (decide (P x)), (decide (P y)); first [by rewrite IHm|by destruct (E (HP _ _ _ _))|idtac].
    by destruct E; auto. }
  change (foldr insert_before [] l) with (sort_by l). rewrite Hi, !filter_cons. by rewrite IH.
Qed.

(** Two lists with the same elements are sorted alike, if the order tells all
    their elements apart. *)
Lemma sort_by_canonical `{!Total R, !Transitive R} l1 l2 :
  l1 ≡ₚ l2 -> (forall x y, x ∈ l1 -> y ∈ l1 -> R x y -> R y x -> x = y) ->
  sort_by l1 = sort_by l2.
Proof.
  intros Hp Heq.
  assert (sort_by l1 ≡ₚ sort_by l2) as Hs by (by rewrite !sort_by_perm).
  assert (forall x y, x ∈ sort_by l1 -> y ∈ sort_by l1 -> R x y -> R y x -> x = y) as Hq.
  { intros x y. rewrite sort_by_perm. apply Heq. }
  pose proof (Sorted_StronglySorted R _ (sort_by_Sorted l1)) as H1.
  pose proof (Sorted_StronglySorted R _ (sort_by_Sorted l2)) as H2.
  revert Hs Hq H1 H2. generalize (sort_by l1) (sort_by l2). clear l1 l2 Hp Heq.
  induction l as [|x l IH]; intros m Hs Hq H1 H2.
  { by apply Permutation_nil_l in Hs. }
  destruct m as [|y m]; [by apply Permutation_nil_r in Hs|].
  apply StronglySorted_inv in H1 as [H1 Hx]. apply StronglySorted_inv in H2 as [H2 Hy].
  assert (x = y) as <-.
  { assert (y ∈ x :: l) as Hyl by (rewrite Hs; left).
    assert (x ∈ y :: m) as Hxm by (rewrite <- Hs; left).
    apply elem_of_cons in Hyl as [->|Hyl]; [done|].
    apply elem_of_cons in Hxm as [->|Hxm]; [done|].
    apply Hq; [left|by right|..].
    - by eapply (proj1 (Forall_forall _ _) Hx).
    - by eapply (proj1 (Forall_forall _ _) Hy). }
  f_equal. apply IH; [by apply (inj (cons x)) in Hs| |done|done].
  intros a b Ha Hb. apply Hq; by right.
Qed.
End sort.

(** Sorting commutes with a map that keeps the order. *)
Lemma sort_by_map {A B} (f : A -> B) (R : relation A) (S : relation B)
    `{!RelDecision R, !RelDecision S} l :
  (forall x y, R x y <-> S (f x) (f y)) -> map f (sort_by R l) = sort_by S (map f l).
Proof.
  intros HRS. induction l as [|x l IH]; [done|].
  change (map f (insert_before R x (sort_by R l)) = insert_before S (f x) (sort_by S (map f l))).
  rewrite <- IH. clear IH. induction (sort_by R l) as [|y m IHm]; [done|]. cbn [insert_before map].
  destruct (decide (R x y)) as [E|E].
  - by rewrite decide_True by (by apply HRS).
  - rewrite decide_False by (by rewrite <- HRS). cbn [map]. by rewrite IHm.
Qed.
