(* ===== verification/Text.v ===== *)
(** Text: the [str] operations of the Rust standard library that the program's
    tools use. A [str] or [String] is its list of bytes; slicing panics off a
    character boundary, as it does in Rust, so that the absence of that panic is
    a theorem about texts that are UTF-8. Numbers are printed and parsed as
    [format!] and [str::parse] do. *)
From stdpp Require Import sorting pretty.
From Stdlib Require Import Ascii.
From Stdlib Require Strings.String.
From S2P Require Import Prelude.

Local Open Scope Z_scope.

Abbreviation text := (list ascii).

(** A string literal as text. *)
Definition lit (s : string) : text := Strings.String.list_ascii_of_string s.
Coercion lit : string >-> list.

Definition nl : text := ["010"%char].

(** The byte at a position, as a number. *)
Definition code (a : ascii) : Z := Z.of_nat (nat_of_ascii a).

Definition is_digit (a : ascii) : bool := (48 <=? code a) && (code a <=? 57).

(** ** UTF-8

    [utf8] accepts every valid [str]: it checks how lead and continuation bytes
    follow each other, and leaves out the finer rules on their ranges. *)
Definition is_ascii (a : ascii) : bool := code a <? 128.
Definition is_cont (a : ascii) : bool := (128 <=? code a) && (code a <? 192).

Fixpoint utf8 (s : text) : bool :=
  match s with
  | [] => true
  | a :: s =>
    if is_ascii a then utf8 s
    else if (192 <=? code a) && (code a <? 224) then
      match s with b :: s => is_cont b && utf8 s | _ => false end
    else if (224 <=? code a) && (code a <? 240) then
      match s with b :: c :: s => is_cont b && is_cont c && utf8 s | _ => false end
    else if (240 <=? code a) && (code a <? 248) then
      match s with
      | b :: c :: d :: s => is_cont b && is_cont c && is_cont d && utf8 s
      | _ => false
      end
    else false
  end.

(** [str::is_char_boundary] *)
Definition is_char_boundary (s : text) (i : nat) : bool :=
  match s !! i with
  | Some a => bool_decide (i = 0%nat) || negb (is_cont a)
  | None => bool_decide (i = length s)
  end.

(** [&s[i..j]] and [&s[i..]] *)
Definition slice (s : text) (i j : nat) : outcome text :=
  if bool_decide (i <= j)%nat && is_char_boundary s i && is_char_boundary s j
  then Ret (take (j - i) (drop i s)) else Panic.

Definition slice_from (s : text) (i : nat) : outcome text :=
  if is_char_boundary s i then Ret (drop i s) else Panic.

(** ** Searching *)
Fixpoint starts_with (s pat : text) {struct pat} : bool :=
  match pat, s with
  | [], _ => true
  | p :: pat, a :: s => bool_decide (a = p) && starts_with s pat
  | _ :: _, [] => false
  end.

(** [s.find(pat)]: the byte index of the first occurrence. *)
Fixpoint find (s pat : text) : option nat :=
  if starts_with s pat then Some 0%nat
  else match s with [] => None | _ :: s => S <$> find s pat end.

Definition contains (s pat : text) : bool := bool_decide (is_Some (find s pat)).

(** [s.split(c).next()]: what precedes the first [c]. *)
Fixpoint before (c : ascii) (s : text) : text :=
  match s with
  | [] => []
  | a :: s => if decide (a = c) then [] else a :: before c s
  end.

(** [s.split(c)] *)
Fixpoint split_on (c : ascii) (s : text) : list text :=
  match s with
  | [] => [[]]
  | a :: s =>
    match split_on c s with
    | [] => [[a]]
    | p :: ps => if decide (a = c) then [] :: p :: ps else (a :: p) :: ps
    end
  end.

(** [s.lines()]: the lines end with a newline, a carriage return before it
    belongs to it, and a newline at the end starts no other line. *)
Definition strip_cr (line : text) : text :=
  match rev line with
  | a :: r => if decide (a = "013"%char) then rev r else line
  | [] => line
  end.

Fixpoint lines_from (ls : list text) : list text :=
  match ls with
  | [] => []
  | [last] => if decide (last = []) then [] else [last]
  | line :: ls => strip_cr line :: lines_from ls
  end.

Definition lines (s : text) : list text := lines_from (split_on "010" s).

(** [parts.join(sep)] *)
Fixpoint join (sep : text) (parts : list text) : text :=
  match parts with
  | [] => []
  | [p] => p
  | p :: parts => p ++ sep ++ join sep parts
  end.

(** ** Numbers

    [{}] of an unsigned integer, and the padded forms of [format!]. *)
Definition dec (n : Z) : text := Strings.String.list_ascii_of_string (pretty (Z.to_N n)).

Definition pad_left (width : nat) (t : text) : text :=
  replicate (width - length t) "0"%char ++ t.

Definition hex_digit (upper : bool) (d : Z) : ascii :=
  if d <? 10 then ascii_of_nat (Z.to_nat (48 + d))
  else ascii_of_nat (Z.to_nat ((if upper then 55 else 87) + d)).

Fixpoint hex_go (upper : bool) (fuel : nat) (n : Z) (acc : text) : text :=
  match fuel with
  | O => acc
  | S fuel =>
    let acc := hex_digit upper (n mod 16) :: acc in
    if n / 16 =? 0 then acc else hex_go upper fuel (n / 16) acc
  end.

(** Sixteen digits are enough for 64 bits. *)
Definition hex (upper : bool) (n : Z) : text := hex_go upper 16 n [].

(** [{:0wX}], and [{:#0wx}], whose prefix counts in the width. *)
Definition hex_upper (width : nat) (n : Z) : text := pad_left width (hex true n).
Definition hex_prefixed (width : nat) (n : Z) : text :=
  "0x" ++ pad_left (width - 2) (hex false n).

(** [s.parse::<uN>().ok()]: an optional plus sign, at least one digit, and no
    overflow on the way. *)
Fixpoint parse_digits (w : Z) (s : text) (acc : Z) : option Z :=
  match s with
  | [] => Some acc
  | a :: s =>
    if is_digit a then
      if acc * 10 <=? max_of w then
        acc ← checked_add w (acc * 10) (code a - 48);
        parse_digits w s acc
      else None
    else None
  end.

Definition parse_uint (w : Z) (s : text) : option Z :=
  match s with
  | [] => None
  | a :: rest =>
    if decide (a = "+"%char) then
      match rest with [] => None | _ => parse_digits w rest 0 end
    else parse_digits w s 0
  end.

(** ** Lemmas *)
Lemma starts_with_spec s pat : starts_with s pat = true <-> exists r, s = pat ++ r.
Proof.
  revert s. induction pat as [|p pat IH]; intros s; cbn.
  { split; [by exists s|done]. }
  destruct s as [|a s].
  { split; [done|]. by intros [r Er]. }
  rewrite andb_true_iff, bool_decide_eq_true, IH. split.
  - intros [-> [r ->]]. by exists r.
  - intros [r [= -> ->]]. split; [done|by exists r].
Qed.

Lemma find_Some s pat i :
  find s pat = Some i ->
  exists pre post, s = pre ++ pat ++ post /\ length pre = i /\
    forall j, (j < i)%nat -> starts_with (drop j s) pat = false.
Proof.
  revert i. induction s as [|a s IH]; intros i; cbn [find].
  - destruct (starts_with [] pat) eqn:E; [|done]. intros [= <-].
    apply starts_with_spec in E as [r Er]. exists [], r. split; [done|]. split; [done|lia].
  - destruct (starts_with (a :: s) pat) eqn:E.
    + intros [= <-]. apply starts_with_spec in E as [r Er]. exists [], r.
      split; [done|]. split; [done|lia].
    + intros (j & Hj & ->)%fmap_Some. destruct (IH _ Hj) as (pre & post & -> & Hl & Hno).
      exists (a :: pre), post. split; [done|]. split; [cbn; lia|].
      intros [|k] Hk; [exact E|]. apply Hno. lia.
Qed.

Lemma find_None s pat i : find s pat = None -> starts_with (drop i s) pat = false.
Proof.
  revert i. induction s as [|a s IH]; intros i; cbn [find].
  - rewrite drop_nil. by destruct (starts_with [] pat).
  - destruct (starts_with (a :: s) pat) eqn:E; [done|]. intros H%fmap_None.
    destruct i as [|i]; [exact E|]. by apply IH.
Qed.

Lemma find_app s pat i r :
  pat <> [] -> find (s ++ pat) pat = Some i -> find (s ++ pat ++ r) pat = Some i.
Proof.
  intros Hp. revert i. induction s as [|a s IH]; intros i.
  - cbn [app]. intros H.
    assert (starts_with pat pat = true) as Hs
      by (apply starts_with_spec; exists []; by rewrite app_nil_r).
    assert (starts_with (pat ++ r) pat = true) as Hs' by (apply starts_with_spec; by exists r).
    assert (forall x, starts_with x pat = true -> find x pat = Some 0%nat) as Hf
      by (intros [|] E; cbn [find]; by rewrite E).
    rewrite Hf in H by done. by rewrite Hf.
  - cbn [app find]. intros H.
    assert (starts_with ((a :: s) ++ pat ++ r) pat = starts_with ((a :: s) ++ pat) pat) as Es.
    { rewrite app_assoc.
      assert (forall x p, (length p <= length x)%nat ->
        starts_with (x ++ r) p = starts_with x p) as Hx.
      { induction x as [|b x IHx]; intros [|q p] Hl; cbn in *; try done; [lia|].
        f_equal. apply IHx. lia. }
      apply Hx. rewrite length_app. lia. }
    cbn [app] in Es. rewrite Es. destruct (starts_with _ _); [done|].
    apply fmap_Some in H as (j & Hj & ->). by rewrite (IH _ Hj).
Qed.

Lemma before_spec c s : exists r, s = before c s ++ r /\ (c ∉ before c s) /\
  (r = [] \/ exists r', r = c :: r').
Proof.
  induction s as [|a s (r & E & Hn & Hr)]; cbn.
  - exists []. split; [done|]. split; [by apply not_elem_of_nil|by left].
  - destruct (decide (a = c)) as [->|Ha].
    + exists (c :: s). split; [done|]. split; [by apply not_elem_of_nil|right; by exists s].
    + exists r. cbn. rewrite <- E. split; [done|]. split; [|done]. set_solver.
Qed.

Lemma before_app c l r : c ∉ l -> before c (l ++ c :: r) = l.
Proof.
  induction l as [|a l IH]; cbn.
  - by rewrite decide_True.
  - rewrite not_elem_of_cons. intros [? ?]. rewrite decide_False by done. by rewrite IH.
Qed.

Lemma app_cons_inj (c : ascii) l1 l2 r1 r2 :
  (c ∉ l1) -> (c ∉ l2) -> l1 ++ c :: r1 = l2 ++ c :: r2 -> l1 = l2 /\ r1 = r2.
Proof.
  intros H1 H2 E. assert (l1 = l2) as <-.
  { by rewrite <- (before_app c l1 r1), E, before_app. }
  by apply app_inv_head in E as [= ->].
Qed.

Lemma last_word_inj (c : ascii) p1 p2 w1 w2 :
  (c ∉ w1) -> (c ∉ w2) -> p1 ++ c :: w1 = p2 ++ c :: w2 -> p1 = p2 /\ w1 = w2.
Proof.
  intros H1 H2 E. apply (f_equal reverse) in E.
  rewrite !reverse_app, !reverse_cons, <- !app_assoc in E.
  apply app_cons_inj in E as [Ew Ep]; [|by rewrite elem_of_reverse..].
  by apply (inj reverse) in Ew, Ep.
Qed.

(** A continuation byte never follows an ASCII byte in UTF-8, so a text can be
    cut on either side of one. *)
Lemma cont_not_ascii a : is_cont a = true -> is_ascii a = false.
Proof. unfold is_cont, is_ascii. rewrite andb_true_iff, Z.leb_le, Z.ltb_ge. by intros [? _]. Qed.

Lemma utf8_head a s : utf8 (a :: s) = true -> is_cont a = false.
Proof.
  unfold is_cont, is_ascii. cbn [utf8]. unfold is_ascii.
  destruct (Z.ltb_spec (code a) 128); [lia|].
  destruct (Z.leb_spec 192 (code a)); [lia|].
  destruct (Z.leb_spec 224 (code a)); [lia|].
  destruct (Z.leb_spec 240 (code a)); [lia|]. done.
Qed.

Lemma utf8_after_ascii n s i a b :
  (length s <= n)%nat -> utf8 s = true -> s !! i = Some a -> is_ascii a = true ->
  s !! S i = Some b -> is_cont b = false.
Proof.
  revert s i. induction n as [|n IH]; intros s i Hn Hu Ha Hc Hb.
  { destruct s; [done|cbn in Hn; lia]. }
  destruct s as [|x s]; [done|]. cbn [utf8 length] in Hu, Hn.
  destruct i as [|i].
  { injection Ha as ->. rewrite Hc in Hu. destruct s as [|y s]; [done|].
    injection Hb as ->. by eapply utf8_head. }
  destruct (is_ascii x) eqn:Hx; [apply (IH s i); [lia|done..]|].
  assert (forall k t, length t = k -> Forall (fun y => is_cont y = true) t ->
    forall r, s = t ++ r -> utf8 r = true -> is_cont b = false) as Hskip.
  { intros k t <- Ht r -> Hr. change ((t ++ r) !! i = Some a) in Ha.
    change ((t ++ r) !! S i = Some b) in Hb. destruct (decide (i < length t)%nat) as [Hi|Hi].
    - rewrite lookup_app_l in Ha by done.
      apply (proj1 (Forall_lookup _ _) Ht) in Ha. apply cont_not_ascii in Ha. congruence.
    - rewrite lookup_app_r in Ha by lia. rewrite lookup_app_r in Hb by lia.
      apply (IH r (i - length t)%nat); [|done..|].
      + rewrite length_app in Hn. lia.
      + rewrite <- Hb. f_equal. lia. }
  repeat case_match; try done; rewrite ?andb_true_iff in Hu; destruct_and?.
  - eapply (Hskip _ [_]); [done| |reflexivity|done]. by repeat constructor.
  - eapply (Hskip _ [_; _]); [done| |reflexivity|done]. by repeat constructor.
  - eapply (Hskip _ [_; _; _]); [done| |reflexivity|done]. by repeat constructor.
Qed.

Lemma is_char_boundary_0 s : is_char_boundary s 0 = true.
Proof. by destruct s. Qed.

Lemma is_char_boundary_end s : is_char_boundary s (length s) = true.
Proof.
  unfold is_char_boundary. rewrite lookup_ge_None_2 by done. by apply bool_decide_eq_true.
Qed.

Lemma is_char_boundary_at s i a :
  s !! i = Some a -> is_ascii a = true -> is_char_boundary s i = true.
Proof.
  intros Ha Hc. unfold is_char_boundary. rewrite Ha.
  destruct (is_cont a) eqn:E; [|by rewrite orb_true_r].
  apply cont_not_ascii in E. congruence.
Qed.

Lemma is_char_boundary_after s i a :
  utf8 s = true -> s !! i = Some a -> is_ascii a = true -> is_char_boundary s (S i) = true.
Proof.
  intros Hu Ha Hc. unfold is_char_boundary. destruct (s !! S i) as [b|] eqn:E.
  - by rewrite (utf8_after_ascii (length s) s i a b).
  - apply bool_decide_eq_true. apply lookup_lt_Some in Ha.
    apply lookup_ge_None in E. lia.
Qed.

Lemma slice_ret s i j :
  (i <= j)%nat -> is_char_boundary s i = true -> is_char_boundary s j = true ->
  slice s i j = Ret (take (j - i) (drop i s)).
Proof. intros Hij Hi Hj. unfold slice. by rewrite bool_decide_eq_true_2, Hi, Hj by done. Qed.
(** ** Printing and parsing numbers *)
Lemma code_digit d : 0 <= d < 10 -> code (pretty_N_char (Z.to_N d)) = 48 + d.
Proof.
  intros. assert (d = 0 \/ d = 1 \/ d = 2 \/ d = 3 \/ d = 4 \/ d = 5 \/ d = 6 \/ d = 7 \/
    d = 8 \/ d = 9) as Hd by lia. by repeat destruct Hd as [->|Hd]; [..|subst].
Qed.

Lemma dec_go n : 0 < n -> forall s, exists ds,
  Strings.String.list_ascii_of_string (pretty_N_go (Z.to_N n) s) =
    ds ++ Strings.String.list_ascii_of_string s /\
  Forall (fun a => is_digit a = true) ds /\ ds <> [] /\
  (forall w r acc, 0 <= acc -> n + acc * 10 ^ Z.of_nat (length ds) <= max_of w ->
     parse_digits w (ds ++ r) acc = parse_digits w r (n + acc * 10 ^ Z.of_nat (length ds))).
Proof.
  induction (Z.lt_wf 0 n) as [n _ IH]. intros Hn s.
  assert (forall m, 0 <= m < 10 -> is_digit (pretty_N_char (Z.to_N m)) = true) as Hdig.
  { intros m Hm. unfold is_digit. rewrite code_digit by done.
    rewrite andb_true_iff, !Z.leb_le. lia. }
  rewrite pretty_N_go_step by lia.
  replace (Z.to_N n `div` 10)%N with (Z.to_N (n / 10)) by (by rewrite Z2N.inj_div by lia).
  replace (Z.to_N n `mod` 10)%N with (Z.to_N (n mod 10)) by (by rewrite Z2N.inj_mod by lia).
  pose proof (Z.mod_pos_bound n 10 ltac:(lia)) as Hm.
  pose proof (Z.div_mod n 10 ltac:(lia)) as Hdm.
  assert (forall w r acc m, 0 <= acc -> 0 <= m < 10 -> m + acc * 10 <= max_of w ->
    parse_digits w (pretty_N_char (Z.to_N m) :: r) acc = parse_digits w r (m + acc * 10))
    as Hone.
  { intros w r acc m Ha Hm' Hmax. cbn [parse_digits]. rewrite (Hdig m Hm').
    rewrite (proj2 (Z.leb_le _ _)) by lia. rewrite code_digit by done. unfold checked_add.
    rewrite (proj2 (Z.leb_le _ _)) by lia. cbn. f_equal. lia. }
  destruct (decide (n / 10 = 0)) as [E|E].
  - rewrite E. cbn [Z.to_N]. rewrite pretty_N_go_0.
    exists [pretty_N_char (Z.to_N (n mod 10))]. cbn [Strings.String.list_ascii_of_string].
    split; [done|]. split; [by repeat constructor; apply Hdig|]. split; [done|].
    intros w r acc Ha Hmax. cbn [length app] in *. rewrite Hone by lia. f_equal. lia.
  - destruct (IH (n / 10) ltac:(split; [lia|apply Z.div_lt; lia])
      ltac:(pose proof (Z.div_pos n 10); lia) (String (pretty_N_char (Z.to_N (n mod 10))) s))
      as (ds & Eds & Hds & Hne & Hp).
    exists (ds ++ [pretty_N_char (Z.to_N (n mod 10))]). rewrite Eds.
    cbn [Strings.String.list_ascii_of_string]. rewrite <- app_assoc. split; [done|].
    split; [apply Forall_app; split; [done|by repeat constructor; apply Hdig]|].
    split; [by destruct ds|]. intros w r acc Ha. rewrite length_app, Nat2Z.inj_add. cbn [length].
    rewrite Z.pow_add_r by lia. intros Hmax. rewrite <- app_assoc, Hp by nia. cbn [app].
    rewrite Hone by nia. f_equal. nia.
Qed.

Lemma dec_spec n : 0 <= n ->
  Forall (fun a => is_digit a = true) (dec n) /\ dec n <> [] /\
  (forall w, n <= max_of w -> parse_digits w (dec n) 0 = Some n).
Proof.
  intros Hn. unfold dec, pretty, pretty_N. destruct (decide (Z.to_N n = 0%N)) as [E|E].
  - assert (n = 0) as -> by lia. split; [by repeat constructor|]. split; [done|].
    intros w Hw. change (match 0 <=? max_of w with
      | true => acc ← (if 0 <=? max_of w then Some 0 else None); Some acc | false => None end
      = Some 0). by rewrite (proj2 (Z.leb_le _ _)).
  - destruct (dec_go n ltac:(lia) "") as (ds & Eds & Hds & Hne & Hp).
    rewrite Eds. cbn [Strings.String.list_ascii_of_string]. rewrite app_nil_r.
    split; [done|]. split; [done|]. intros w Hw. rewrite <- (app_nil_r ds), Hp by lia.
    cbn. f_equal. lia.
Qed.

Lemma is_digit_ascii a : is_digit a = true -> is_ascii a = true.
Proof. unfold is_digit, is_ascii. rewrite andb_true_iff, !Z.leb_le, Z.ltb_lt. lia. Qed.

(** [str::parse] reads back what [{}] prints. *)
Lemma parse_uint_dec w n : fits w n -> parse_uint w (dec n) = Some n.
Proof.
  intros Hn. destruct (dec_spec n (proj1 Hn)) as (Hd & Hne & Hp).
  unfold parse_uint. destruct (dec n) as [|a r] eqn:E; [done|].
  destruct (decide (a = "+"%char)) as [->|]; [by inversion Hd|].
  apply Hp. unfold fits, max_of in *. lia.
Qed.

Lemma parse_digits_range w s acc n :
  0 <= acc <= max_of w -> parse_digits w s acc = Some n -> fits w n.
Proof.
  revert acc. induction s as [|a s IH]; intros acc Ha; cbn [parse_digits].
  - intros [= <-]. unfold fits, max_of in *. lia.
  - unfold is_digit, checked_add. destruct (Z.leb_spec 48 (code a)); [|done].
    destruct (Z.leb_spec (code a) 57); [|done]. cbn. destruct (Z.leb_spec (acc * 10) (max_of w)); [|done].
    destruct (Z.leb_spec (acc * 10 + (code a - 48)) (max_of w)); [|done]. cbn. apply IH. lia.
Qed.

(** It accepts nothing out of range. *)
Lemma parse_uint_fits w s n : 0 <= w -> parse_uint w s = Some n -> fits w n.
Proof.
  intros Hw. assert (0 <= max_of w) by (unfold max_of; assert (0 < 2 ^ w) by lia; lia).
  unfold parse_uint. destruct s as [|a s]; [done|].
  destruct (decide _); [destruct s; [done|]|]; apply parse_digits_range; lia.
Qed.

(** ** Hexadecimal *)
Definition hex_value (a : ascii) : Z :=
  if code a <? 58 then code a - 48 else if code a <? 97 then code a - 55 else code a - 87.

Definition of_hex (t : text) : Z := fold_left (fun acc a => acc * 16 + hex_value a) t 0.

Lemma hex_value_digit upper d : 0 <= d < 16 -> hex_value (hex_digit upper d) = d.
Proof.
  intros. assert (d = 0 \/ d = 1 \/ d = 2 \/ d = 3 \/ d = 4 \/ d = 5 \/ d = 6 \/ d = 7 \/
    d = 8 \/ d = 9 \/ d = 10 \/ d = 11 \/ d = 12 \/ d = 13 \/ d = 14 \/ d = 15) as Hd by lia.
  destruct upper; by repeat destruct Hd as [->|Hd]; [..|subst].
Qed.

Lemma of_hex_from t acc :
  fold_left (fun acc a => acc * 16 + hex_value a) t acc =
  acc * 16 ^ Z.of_nat (length t) + of_hex t.
Proof.
  unfold of_hex. revert acc. induction t as [|a t IH]; intros acc; cbn [fold_left length].
  - cbn. lia.
  - rewrite IH, (IH (0 * 16 + _)), Nat2Z.inj_succ, Z.pow_succ_r by lia. lia.
Qed.

Lemma of_hex_cons a t : of_hex (a :: t) = hex_value a * 16 ^ Z.of_nat (length t) + of_hex t.
Proof. unfold of_hex. cbn [fold_left]. by rewrite of_hex_from. Qed.

Lemma hex_go_spec upper fuel n acc :
  0 <= n < 16 ^ Z.of_nat fuel -> (0 < fuel)%nat ->
  of_hex (hex_go upper fuel n acc) = n * 16 ^ Z.of_nat (length acc) + of_hex acc /\
  forall k, (0 < k)%nat -> n < 16 ^ Z.of_nat k ->
    (length (hex_go upper fuel n acc) <= k + length acc)%nat.
Proof.
  revert n acc. induction fuel as [|fuel IH]; intros n acc Hn Hf; [lia|]. cbn [hex_go].
  pose proof (Z.mod_pos_bound n 16 ltac:(lia)) as Hm.
  pose proof (Z.div_mod n 16 ltac:(lia)) as Hdm.
  rewrite Nat2Z.inj_succ, Z.pow_succ_r in Hn by lia.
  destruct (Z.eqb_spec (n / 16) 0) as [E|E].
  - rewrite of_hex_cons, hex_value_digit by done. split; [|cbn; lia].
    f_equal. f_equal. lia.
  - assert (0 <= n / 16) by (apply Z.div_pos; lia).
    destruct (IH (n / 16) (hex_digit upper (n mod 16) :: acc)) as [Hv Hl].
    { split; [done|]. apply Z.div_lt_upper_bound; lia. }
    { destruct fuel; [cbn in Hn; lia|lia]. }
    rewrite Hv, of_hex_cons, hex_value_digit by done. split.
    { cbn [length]. rewrite Nat2Z.inj_succ, Z.pow_succ_r by lia. nia. }
    intros [|k] Hk Hnk; [lia|]. rewrite Nat2Z.inj_succ, Z.pow_succ_r in Hnk by lia.
    destruct k as [|k]; [cbn in Hnk; lia|].
    etrans; [apply (Hl (S k)); [lia|apply Z.div_lt_upper_bound; lia]|cbn; lia].
Qed.

Lemma of_hex_zeros k t : of_hex (replicate k "0"%char ++ t) = of_hex t.
Proof. induction k as [|k IH]; [done|]. cbn [replicate app]. by rewrite of_hex_cons, IH. Qed.

(** [{:0kX}] of a number that fits [k] digits is exactly [k] digits, and shows
    the number. *)
Lemma hex_upper_spec k n :
  (0 < k <= 16)%nat -> 0 <= n < 16 ^ Z.of_nat k ->
  length (hex_upper k n) = k /\ of_hex (hex_upper k n) = n.
Proof.
  intros Hk Hn. unfold hex_upper, pad_left, hex.
  destruct (hex_go_spec true 16 n []) as [Hv Hl]; [|lia|].
  { split; [lia|]. eapply Z.lt_le_trans; [apply Hn|]. apply Z.pow_le_mono_r; lia. }
  split.
  - rewrite length_app, length_replicate. specialize (Hl k ltac:(lia) ltac:(lia)).
    cbn [length] in Hl. lia.
  - rewrite of_hex_zeros, Hv. cbn. lia.
Qed.

(** ** Lines *)
Lemma split_on_ne c s : split_on c s <> [].
Proof. destruct s as [|a s]; cbn; [done|]. destruct (split_on c s); [done|]. by case_decide. Qed.

Lemma split_on_app c l r : c ∉ l -> split_on c (l ++ c :: r) = l :: split_on c r.
Proof.
  induction l as [|a l IH]; cbn.
  - intros _. destruct (split_on c r) eqn:E; [by apply split_on_ne in E|].
    by rewrite decide_True.
  - rewrite not_elem_of_cons. intros [Ha Hl]. rewrite IH by done.
    by rewrite decide_False by done.
Qed.

Lemma split_on_id c l : c ∉ l -> split_on c l = [l].
Proof.
  induction l as [|a l IH]; cbn; [done|]. rewrite not_elem_of_cons. intros [Ha Hl].
  rewrite IH by done. by rewrite decide_False by done.
Qed.

Lemma lines_app l r :
  "010"%char ∉ l -> lines (l ++ nl ++ r) = strip_cr l :: lines r.
Proof.
  intros Hl. unfold lines, nl. cbn [app]. rewrite split_on_app by done.
  destruct (split_on _ r) eqn:E; [by apply split_on_ne in E|]. done.
Qed.

Lemma lines_nil : lines [] = [].
Proof. done. Qed.

Lemma strip_cr_id l : "013"%char ∉ l -> strip_cr l = l.
Proof.
  unfold strip_cr. intros Hl. destruct (rev l) as [|a r] eqn:E; [done|].
  rewrite decide_False; [done|]. intros ->. apply Hl.
  rewrite <- (rev_involutive l), E. apply list_elem_of_In, in_rev. rewrite rev_involutive.
  by left.
Qed.

(** A text is UTF-8 when its parts on both sides of an ASCII byte are. *)
Lemma utf8_split n l a r :
  (length l <= n)%nat -> is_ascii a = true ->
  utf8 (l ++ a :: r) = utf8 l && utf8 r.
Proof.
  intros Hn Ha. assert (is_cont a = false) as Hc.
  { destruct (is_cont a) eqn:E; [|done]. apply cont_not_ascii in E. congruence. }
  revert l Hn. induction n as [|n IH]; intros l Hn; destruct l as [|x l]; cbn in Hn; try lia.
  { cbn [app utf8]. by rewrite Ha. } { cbn [app utf8]. by rewrite Ha. }
  cbn [app utf8].
  destruct (is_ascii x); [apply IH; lia|].
  destruct (_ && _).
  { destruct l as [|y l]; cbn [app utf8 length] in *; [by rewrite Hc|].
    rewrite IH by lia. by rewrite andb_assoc. }
  destruct (_ && _).
  { destruct l as [|y [|z l]]; cbn [app utf8 length] in *;
      [by destruct r; rewrite ?Hc|by rewrite Hc, andb_false_r|].
    rewrite IH by lia. by rewrite andb_assoc. }
  destruct (_ && _); [|done].
  destruct l as [|y [|z [|t l]]]; cbn [app utf8 length] in *;
    [by destruct r as [|? [|? ?]]; rewrite ?Hc|
     by destruct r; rewrite ?Hc, ?andb_false_r|by rewrite Hc, andb_false_r|].
  rewrite IH by lia. by rewrite andb_assoc.
Qed.

Lemma utf8_lines s : utf8 s = true -> Forall (fun l => utf8 l = true) (lines s).
Proof.
  assert (forall n s, (length s <= n)%nat -> utf8 s = true ->
    Forall (fun l => utf8 l = true) (split_on "010" s)) as Hs.
  { clear s. induction n as [|n IH]; intros s Hn Hu.
    { destruct s; [by repeat constructor|cbn in Hn; lia]. }
    destruct (before_spec "010" s) as (r & E & Hno & [->|[r' ->]]).
    - rewrite app_nil_r in E. rewrite E, split_on_id by done. rewrite <- E.
      by repeat constructor.
    - rewrite E in Hu |- *. rewrite split_on_app by done.
      rewrite (utf8_split (length (before "010" s))) in Hu by done.
      apply andb_true_iff in Hu as [Hl Hr]. constructor; [done|]. apply IH; [|done].
      rewrite E, length_app in Hn. cbn in Hn. lia. }
  intros Hu. specialize (Hs (length s) s ltac:(done) Hu). unfold lines.
  induction Hs as [|l ls Hl Hls IH]; [constructor|].
  assert (utf8 (strip_cr l) = true) as Hcr.
  { unfold strip_cr. destruct (rev l) as [|a r] eqn:E; [done|]. case_decide; [|done]. subst.
    rewrite <- (rev_involutive l), E in Hl. cbn [rev] in Hl.
    rewrite (utf8_split (length (rev r))) in Hl by done. by apply andb_true_iff in Hl as [? _]. }
  cbn [lines_from]. destruct ls; [case_decide; by repeat constructor|by constructor].
Qed.
