(* ===== verification/Wire.v ===== *)
(** The wire protocol core (crates/graftx-protocol/src/lib.rs, outside the
    per-API body modules): errors, opcodes, the [Handle] packing, the bounds
    checked [Reader], the frame header, the handshake bodies and the complete
    frame. It also states the interface [FixedBody] every fixed-size body of
    the protocol satisfies. *)
From S2P Require Export Prelude.

Local Open Scope Z_scope.

(** ** Constants and errors *)

Definition PROTOCOL_MAJOR : Z := 0.
Definition PROTOCOL_MINOR : Z := 0.
Definition DEFAULT_MAX_FRAME_BODY : Z := Z.shiftl 1 20.

Inductive ProtocolError :=
| UnexpectedEof
| UnknownOpcode (op : Z)
| BadKind (kind : Z)
| BadVersion (major minor : Z)
| FrameTooLarge (len : Z)
| BodyLenMismatch (declared actual : Z).

#[export] Instance ProtocolError_eq_dec : EqDecision ProtocolError.
Proof. solve_decision. Defined.

Abbreviation presult := (result ProtocolError).

(** ** Opcodes *)

Inductive ApiId :=
| Core | Vulkan | OpenGl | Cuda | OpenCl | Hip | LevelZero | Video | WebGpu
| OptiX | Sycl | Amf.

#[export] Instance ApiId_eq_dec : EqDecision ApiId.
Proof. solve_decision. Defined.

(** [api as u8] / [api as u32]: the discriminant. *)
Definition api_byte (api : ApiId) : Z :=
  match api with
  | Core => 0x00 | Vulkan => 0x01 | OpenGl => 0x02 | Cuda => 0x03
  | OpenCl => 0x04 | Hip => 0x05 | LevelZero => 0x06 | Video => 0x07
  | WebGpu => 0x08 | OptiX => 0x09 | Sycl => 0x0A | Amf => 0x0B
  end.

Definition opcode (api : ApiId) (call : Z) : Z :=
  Z.lor (wrap 32 (Z.shiftl (api_byte api) 24)) (Z.land call 0x00FFFFFF).

Definition opcode_api (op : Z) : Z := wrap 8 (Z.shiftr op 24).

Definition opcode_call (op : Z) : Z := Z.land op 0x00FFFFFF.

Module core_op.
Definition HELLO : Z := opcode Core 0x000001.
Definition WELCOME : Z := opcode Core 0x000002.
Definition NOOP : Z := opcode Core 0x000003.
End core_op.

Module vk_op.
Definition CREATE_INSTANCE : Z := opcode Vulkan 0x0001.
Definition DESTROY_INSTANCE : Z := opcode Vulkan 0x0002.
Definition ENUMERATE_PHYSICAL_DEVICES : Z := opcode Vulkan 0x0003.
Definition GET_PHYSICAL_DEVICE_PROPERTIES : Z := opcode Vulkan 0x0004.
Definition CREATE_DEVICE : Z := opcode Vulkan 0x0005.
Definition DESTROY_DEVICE : Z := opcode Vulkan 0x0006.
Definition GET_DEVICE_QUEUE : Z := opcode Vulkan 0x0007.
Definition DEVICE_WAIT_IDLE : Z := opcode Vulkan 0x0008.
Definition ALLOCATE_MEMORY : Z := opcode Vulkan 0x0010.
Definition CREATE_BUFFER : Z := opcode Vulkan 0x0011.
Definition BIND_BUFFER_MEMORY : Z := opcode Vulkan 0x0012.
Definition DESTROY_BUFFER : Z := opcode Vulkan 0x0013.
Definition FREE_MEMORY : Z := opcode Vulkan 0x0014.
Definition CREATE_COMMAND_POOL : Z := opcode Vulkan 0x0020.
Definition ALLOCATE_COMMAND_BUFFER : Z := opcode Vulkan 0x0021.
Definition QUEUE_SUBMIT : Z := opcode Vulkan 0x0022.
Definition CMD_COPY_BUFFER : Z := opcode Vulkan 0x0023.
Definition CMD_DRAW : Z := opcode Vulkan 0x0024.
Definition DESTROY_COMMAND_POOL : Z := opcode Vulkan 0x0025.
End vk_op.

Module gl_op.
Definition CREATE_CONTEXT : Z := opcode OpenGl 0x0001.
Definition MAKE_CURRENT : Z := opcode OpenGl 0x0002.
Definition GEN_BUFFER : Z := opcode OpenGl 0x0003.
Definition SWAP_BUFFERS : Z := opcode OpenGl 0x0004.
Definition DELETE_BUFFER : Z := opcode OpenGl 0x0005.
End gl_op.

Module cuda_op.
Definition CTX_CREATE : Z := opcode Cuda 0x0001.
Definition MEM_ALLOC : Z := opcode Cuda 0x0002.
Definition MEM_FREE : Z := opcode Cuda 0x0003.
Definition LAUNCH_KERNEL : Z := opcode Cuda 0x0010.
Definition MEMCPY_HTOD : Z := opcode Cuda 0x0011.
Definition MEMCPY_DTOH : Z := opcode Cuda 0x0012.
End cuda_op.

Module hip_op.
Definition MALLOC : Z := opcode Hip 0x0001.
Definition FREE : Z := opcode Hip 0x0002.
Definition STREAM_CREATE : Z := opcode Hip 0x0003.
End hip_op.

Module cl_op.
Definition CREATE_CONTEXT : Z := opcode OpenCl 0x0001.
Definition CREATE_BUFFER : Z := opcode OpenCl 0x0002.
Definition RELEASE_BUFFER : Z := opcode OpenCl 0x0003.
End cl_op.

Module l0_op.
Definition CONTEXT_CREATE : Z := opcode LevelZero 0x0001.
Definition MEM_ALLOC_DEVICE : Z := opcode LevelZero 0x0002.
Definition MEM_FREE : Z := opcode LevelZero 0x0003.
End l0_op.

Module video_op.
Definition CREATE_DECODE_SESSION : Z := opcode Video 0x0001.
Definition DECODE_FRAME : Z := opcode Video 0x0002.
Definition DESTROY_SESSION : Z := opcode Video 0x0003.
End video_op.

Module wgpu_op.
Definition REQUEST_DEVICE : Z := opcode WebGpu 0x0001.
Definition CREATE_BUFFER : Z := opcode WebGpu 0x0002.
Definition DESTROY_BUFFER : Z := opcode WebGpu 0x0003.
End wgpu_op.

Module optix_op.
Definition CONTEXT_CREATE : Z := opcode OptiX 0x0001.
Definition PIPELINE_CREATE : Z := opcode OptiX 0x0002.
Definition DESTROY : Z := opcode OptiX 0x0003.
End optix_op.

Module sycl_op.
Definition QUEUE_CREATE : Z := opcode Sycl 0x0001.
Definition MALLOC_DEVICE : Z := opcode Sycl 0x0002.
Definition FREE : Z := opcode Sycl 0x0003.
End sycl_op.

Module amf_op.
Definition CREATE_ENCODER : Z := opcode Amf 0x0001.
Definition ENCODE_FRAME : Z := opcode Amf 0x0002.
Definition DESTROY_ENCODER : Z := opcode Amf 0x0003.
End amf_op.

(** ** Handles

    [Handle(u64)]: kind (8 bits), generation (24 bits), slot (32 bits), most
    significant first. *)
Module Handle.

Record t := mk { raw : Z }.

Definition KIND_BITS : Z := 8.
Definition GENERATION_BITS : Z := 24.
Definition SLOT_BITS : Z := 32.
Definition GENERATION_MAX : Z := Z.shiftl 1 GENERATION_BITS - 1.

Definition new (kind generation slot : Z) : t :=
  let kind := wrap 64 (Z.shiftl kind (GENERATION_BITS + SLOT_BITS)) in
  let generation := wrap 64 (Z.shiftl (Z.land generation GENERATION_MAX) SLOT_BITS) in
  mk (Z.lor (Z.lor kind generation) slot).

Definition kind (h : t) : Z :=
  wrap 8 (Z.shiftr (raw h) (GENERATION_BITS + SLOT_BITS)).

Definition generation (h : t) : Z :=
  Z.land (wrap 32 (Z.shiftr (raw h) SLOT_BITS)) GENERATION_MAX.

Definition slot (h : t) : Z := wrap 32 (raw h).

Definition from_raw (raw : Z) : t := mk raw.

(** The values of the Rust type: any [u64]. *)
Definition wf (h : t) : Prop := fits 64 (raw h).

End Handle.

#[export] Instance Handle_eq_dec : EqDecision Handle.t.
Proof. solve_decision. Defined.

Lemma lor_shiftl_add a b n :
  0 <= n -> 0 <= b < 2 ^ n -> Z.lor (Z.shiftl a n) b = a * 2 ^ n + b.
Proof.
  intros Hn Hb. rewrite <- Z.shiftl_mul_pow2 by lia.
  rewrite <- Z.add_lor_land.
  assert (Z.land (Z.shiftl a n) b = 0) as ->; [|lia].
  apply Z.bits_inj'. intros i Hi. rewrite Z.land_spec, Z.bits_0.
  destruct (decide (i < n)) as [Hlt|Hge].
  - by rewrite Z.shiftl_spec_low.
  - replace b with (b mod 2 ^ n) by (by apply Z.mod_small).
    rewrite Z.mod_pow2_bits_high by lia. by rewrite andb_false_r.
Qed.

Lemma GENERATION_MAX_ones x : Z.land x Handle.GENERATION_MAX = x mod 2 ^ 24.
Proof.
  change Handle.GENERATION_MAX with (Z.ones 24). by apply Z.land_ones.
Qed.

Lemma GENERATION_MAX_val : Handle.GENERATION_MAX = 2 ^ 24 - 1.
Proof. reflexivity. Qed.

Section handle.
Context (k g s : Z) (Hk : fits 8 k) (Hs : fits 32 s).

Lemma handle_new_raw :
  Handle.raw (Handle.new k g s) = (k * 2 ^ 24 + g mod 2 ^ 24) * 2 ^ 32 + s.
Proof.
  unfold Handle.new, Handle.KIND_BITS, Handle.GENERATION_BITS, Handle.SLOT_BITS.
  cbn [Handle.raw]. rewrite GENERATION_MAX_ones. unfold wrap, fits in *.
  pose proof (Z.mod_pos_bound g (2 ^ 24) ltac:(lia)).
  change (24 + 32) with 56.
  rewrite !(Z.mod_small _ (2 ^ 64)) by (rewrite Z.shiftl_mul_pow2; lia).
  replace (Z.shiftl k 56) with (Z.shiftl (Z.shiftl k 24) 32)
    by (rewrite Z.shiftl_shiftl; [done|lia]).
  rewrite <- Z.shiftl_lor, lor_shiftl_add by lia.
  by rewrite lor_shiftl_add by lia.
Qed.

Lemma handle_new_wf : Handle.wf (Handle.new k g s).
Proof.
  unfold Handle.wf. rewrite handle_new_raw. unfold fits in *.
  pose proof (Z.mod_pos_bound g (2 ^ 24) ltac:(lia)). lia.
Qed.

Lemma handle_kind_new : Handle.kind (Handle.new k g s) = k.
Proof.
  unfold Handle.kind. rewrite handle_new_raw. unfold wrap, fits in *.
  change (Handle.GENERATION_BITS + Handle.SLOT_BITS) with 56.
  pose proof (Z.mod_pos_bound g (2 ^ 24) ltac:(lia)).
  rewrite Z.shiftr_div_pow2 by lia.
  rewrite <- (Z.div_unique_pos _ (2 ^ 56) k (g mod 2 ^ 24 * 2 ^ 32 + s)) by lia.
  apply Z.mod_small. lia.
Qed.

Lemma handle_generation_new :
  Handle.generation (Handle.new k g s) = g mod 2 ^ 24.
Proof.
  unfold Handle.generation. rewrite handle_new_raw, GENERATION_MAX_ones.
  unfold wrap, fits, Handle.SLOT_BITS in *.
  rewrite Z.shiftr_div_pow2, Z.div_add_l by lia.
  rewrite (Z.div_small s) by lia. rewrite Z.add_0_r.
  rewrite (Z.mod_small _ (2 ^ 32)).
  - rewrite Z.add_comm, Z_mod_plus_full. apply Z.mod_mod. lia.
  - pose proof (Z.mod_pos_bound g (2 ^ 24) ltac:(lia)). lia.
Qed.

Lemma handle_slot_new : Handle.slot (Handle.new k g s) = s.
Proof.
  unfold Handle.slot. rewrite handle_new_raw. unfold wrap, fits in *.
  rewrite Z.add_comm, Z_mod_plus_full. by apply Z.mod_small.
Qed.
End handle.

Lemma handle_fields_fit h :
  fits 8 (Handle.kind h) /\
  0 <= Handle.generation h <= Handle.GENERATION_MAX /\
  fits 32 (Handle.slot h).
Proof.
  split_and!; try (apply fits_wrap; lia);
    unfold Handle.generation; rewrite GENERATION_MAX_ones;
    pose proof (Z.mod_pos_bound (wrap 32 (Z.shiftr (Handle.raw h) Handle.SLOT_BITS))
      (2 ^ 24) ltac:(lia)); rewrite ?GENERATION_MAX_val; lia.
Qed.

Lemma handle_repack h :
  Handle.wf h ->
  Handle.new (Handle.kind h) (Handle.generation h) (Handle.slot h) = h.
Proof.
  intros Hwf. destruct (handle_fields_fit h) as (Hk & Hg & Hs).
  destruct h as [r]. pose proof (handle_new_raw _ (Handle.generation (Handle.mk r)) _ Hk Hs) as E.
  destruct (Handle.new _ _ _) as [r']. cbn in E. f_equal. rewrite E. clear E Hk Hg Hs r'.
  unfold Handle.kind, Handle.generation, Handle.slot, wrap, fits, Handle.wf in *.
  cbn in *. rewrite GENERATION_MAX_ones.
  change (Handle.GENERATION_BITS + Handle.SLOT_BITS) with 56.
  unfold Handle.SLOT_BITS. rewrite !Z.shiftr_div_pow2 by lia.
  unfold fits in Hwf. Z.div_mod_to_equations. lia.
Qed.

(** ** The bounds-checked reader

    [Reader { buf, pos }]; [arr] is the only access to the buffer, and every
    failure of a [Reader] method is [UnexpectedEof]. A [Rd A] is a reader
    computation that advances [pos]; an error abandons it ([?]). *)

Record Reader := mkReader { buf : list byte; pos : nat }.

Definition Reader_new (buf : list byte) : Reader := mkReader buf 0.

Definition Rd (A : Type) : Type := Reader -> presult (A * Reader).

#[export] Instance Rd_ret : MRet Rd := fun A a r => Ok (a, r).
#[export] Instance Rd_bind : MBind Rd := fun A B f m r =>
  match m r with Ok (a, r') => f a r' | Err e => Err e end.

(** [buf.get(a..b)]: [None] unless [a <= b <= buf.len()]. *)
Definition slice_get (l : list byte) (a b : nat) : option (list byte) :=
  if decide (a <= b <= length l)%nat then Some (take (b - a) (drop a l)) else None.

Definition arr (n : nat) : Rd (list byte) := fun r =>
  e ← ok_or (checked_add 64 (Z.of_nat (pos r)) (Z.of_nat n)) UnexpectedEof;
  slice ← ok_or (slice_get (buf r) (pos r) (Z.to_nat e)) UnexpectedEof;
  Ok (slice, mkReader (buf r) (Z.to_nat e)).

Definition uint (n : nat) : Rd Z := bs ← arr n; mret (of_le_bytes bs).

Definition u16 : Rd Z := uint 2.
Definition u32 : Rd Z := uint 4.
Definition u64 : Rd Z := uint 8.

(** Run a reader over a whole buffer and keep its value. *)
Definition read_all {A} (m : Rd A) (bs : list byte) : presult A :=
  '(a, _) ← m (Reader_new bs); Ok a.

(** The bytes not yet consumed. *)
Definition remaining (r : Reader) : list byte := drop (pos r) (buf r).

(** Positions the decoders of the protocol reach are far below [usize::MAX]. *)
Definition pos_small (r : Reader) : Prop := Z.of_nat (pos r) <= 2 ^ 40.

Lemma arr_cases n r :
  (0 < n <= 8)%nat -> pos_small r ->
  (exists bs, length bs = n /\ remaining r = bs ++ remaining (mkReader (buf r) (pos r + n))
     /\ arr n r = Ok (bs, mkReader (buf r) (pos r + n))) \/
  ((length (remaining r) < n)%nat /\ arr n r = Err UnexpectedEof).
Proof.
  intros Hn Hp. unfold pos_small in Hp. unfold arr, checked_add, max_of.
  rewrite (proj2 (Z.leb_le _ _)) by lia. cbn.
  replace (Z.to_nat (Z.of_nat (pos r) + Z.of_nat n)) with (pos r + n)%nat by lia.
  unfold slice_get, remaining. cbn. case_decide as Hd; cbn.
  - left. eexists. split_and!; [| |reflexivity].
    + rewrite length_take, length_drop. lia.
    + replace (pos r + n - pos r)%nat with n by lia.
      rewrite <- drop_drop. by rewrite take_drop.
  - right. rewrite length_drop. split; [lia|done].
Qed.

(** The one step of every decoder: read an [n]-byte integer and go on with it,
    or stop with [UnexpectedEof] because fewer than [n] bytes remain. *)
Lemma uint_bind_cases {A} n (k : Z -> Rd A) r :
  (0 < n <= 8)%nat -> pos_small r ->
  (exists v r', fits (8 * Z.of_nat n) v /\ remaining r = le_bytes n v ++ remaining r' /\
     pos r' = (pos r + n)%nat /\ (uint n ≫= k) r = k v r') \/
  ((length (remaining r) < n)%nat /\ (uint n ≫= k) r = Err UnexpectedEof).
Proof.
  intros Hn Hp. destruct (arr_cases n r Hn Hp) as [(bs & Hl & Hr & E)|[Hl E]].
  - left. eexists (of_le_bytes bs), _. split_and!.
    + subst n. apply of_le_bytes_range.
    + rewrite <- Hl at 1. rewrite le_bytes_of_le_bytes. exact Hr.
    + done.
    + unfold uint, mbind, Rd_bind. by rewrite E.
  - right. split; [done|]. unfold uint, mbind, Rd_bind. by rewrite E.
Qed.

Lemma uint_bind_app {A} n v rest (k : Z -> Rd A) r :
  (0 < n <= 8)%nat -> pos_small r -> fits (8 * Z.of_nat n) v ->
  remaining r = le_bytes n v ++ rest ->
  exists r', remaining r' = rest /\ pos r' = (pos r + n)%nat /\
    (uint n ≫= k) r = k v r'.
Proof.
  intros Hn Hp Hv Hr.
  destruct (uint_bind_cases n k r Hn Hp) as [(v' & r' & Hv' & Hr' & Hp' & E)|[Hl _]].
  - rewrite Hr in Hr'. apply app_inj_1 in Hr' as [Ev Erest].
    2:{ by rewrite !length_le_bytes. }
    exists r'. split_and!; [done..|]. rewrite E. f_equal. clear E.
    apply (f_equal of_le_bytes) in Ev. by rewrite !of_le_bytes_id in Ev.
  - rewrite Hr, length_app, length_le_bytes in Hl. lia.
Qed.

(** ** Fixed-size bodies

    The interface every fixed-size body codec offers: [body_encode] appends to
    a buffer, [body_decode] reads a body from the front of a buffer (trailing
    bytes are ignored), [body_fits] says the fields are in the range of their
    Rust types. [FixedBody A n] are the laws of an [n]-byte body. *)

Class Body (A : Type) := {
  body_encode : A -> list byte -> list byte;
  body_decode : list byte -> presult A;
  body_fits : A -> Prop;
}.

Record FixedBody (A : Type) `{Body A} (n : nat) : Prop := {
  fixed_append x out : body_encode x out = out ++ body_encode x [];
  fixed_length x : length (body_encode x []) = n;
  fixed_roundtrip x rest :
    body_fits x -> body_decode (body_encode x [] ++ rest) = Ok x;
  fixed_decode bs :
    (exists x rest, body_fits x /\ bs = body_encode x [] ++ rest /\
       body_decode bs = Ok x) \/
    ((length bs < n)%nat /\ body_decode bs = Err UnexpectedEof);
}.

(** Appending to an output buffer, and the little-endian fields. *)
Notation "out <+ bs" := (@app byte out bs) (at level 50, left associativity)
  : graftx_scope.
Abbreviation u16_le := (le_bytes 2).
Abbreviation u32_le := (le_bytes 4).
Abbreviation u64_le := (le_bytes 8).

(** One field of a round trip. *)
Ltac read_field :=
  match goal with
  | Hr : remaining ?r = le_bytes ?n ?v ++ ?rest |- context [(uint ?n ≫= ?k) ?r] =>
    let r' := fresh "r" in let Hr' := fresh "Hr" in
    let Hp' := fresh "Hp" in let E := fresh "E" in
    destruct (uint_bind_app n v rest k r) as (r' & Hr' & Hp' & E);
    [ lia | unfold pos_small in *; lia | assumption | exact Hr | rewrite E; clear E Hr ]
  end.

(** One field of a decode, both ways. *)
Ltac split_field :=
  match goal with
  | |- context [(uint ?n ≫= ?k) ?r] =>
    let v := fresh "v" in let r' := fresh "r" in let Hf := fresh "Hf" in
    let Hr' := fresh "Hr" in let Hp' := fresh "Hp" in let E := fresh "E" in
    destruct (uint_bind_cases n k r)
      as [(v & r' & Hf & Hr' & Hp' & E)|[Hr' E]];
    [ lia | unfold pos_small in *; lia | rewrite E; clear E | rewrite E; clear E ]
  end.

Ltac destruct_handles :=
  repeat match goal with h : Handle.t |- _ => destruct h end.

Ltac conj_assumption := first [eassumption | split; [eassumption|conj_assumption]].

Ltac chain_remaining :=
  repeat match goal with H : remaining ?r = _ ++ _ |- _ => rewrite H; clear H end.

Ltac start_reader bs :=
  let r := fresh "r" in let Hr := fresh "Hr" in let Hp := fresh "Hp" in
  pose (r := Reader_new bs);
  assert (Hr : remaining r = bs) by reflexivity;
  assert (Hp : pos r = 0%nat) by reflexivity;
  change (Reader_new bs) with r; clearbody r.

(** The four laws of a body whose encoder is [e] and decoder [d]. *)
Ltac solve_fixed_body e d :=
  constructor;
  [ intros [] out; destruct_handles; cbn -[le_bytes]; unfold e; cbn -[le_bytes];
    by rewrite <- ?app_assoc
  | intros []; destruct_handles; cbn -[le_bytes]; unfold e; cbn -[le_bytes];
    rewrite ?length_app, ?length_le_bytes; reflexivity
  | intros [] rest; destruct_handles; unfold Handle.wf;
    cbn -[le_bytes mbind uint fits]; unfold e, d, read_all, u16, u32, u64; cbn -[le_bytes mbind uint fits];
    intros; split_hyps; rewrite <- ?app_assoc;
    match goal with |- context [Reader_new ?bs] => start_reader bs end;
    repeat read_field; reflexivity
  | let bs := fresh "bs" in
    intros bs; cbn -[le_bytes mbind uint fits]; unfold e, d, read_all, u16, u32, u64;
    cbn -[le_bytes mbind uint fits]; start_reader bs;
    repeat (split_field;
      [|right; subst; chain_remaining; rewrite ?length_app, ?length_le_bytes;
        split; [lia|reflexivity]]);
    left; do 2 eexists; split; [|split; [|reflexivity]];
    [ unfold Handle.wf; cbn -[fits]; conj_assumption
    | cbn -[le_bytes]; subst; chain_remaining; rewrite <- ?app_assoc; reflexivity ] ].

(** *** Handshake bodies *)
Module Hello.
Record t := mk {
  proto_major : Z; proto_minor : Z; features : Z; max_frame_body : Z }.
Definition encode (self : t) (out : list byte) : list byte :=
  out <+ u16_le (proto_major self) <+ u16_le (proto_minor self)
      <+ u32_le (features self) <+ u32_le (max_frame_body self).
Definition decode : list byte -> presult t := read_all (
  proto_major ← u16;
  proto_minor ← u16;
  features ← u32;
  max_frame_body ← u32;
  mret (mk proto_major proto_minor features max_frame_body)).
#[global] Instance body : Body t := {|
  body_encode := encode; body_decode := decode;
  body_fits self := fits 16 (proto_major self) /\ fits 16 (proto_minor self) /\
    fits 32 (features self) /\ fits 32 (max_frame_body self) |}.
End Hello.

Lemma Hello_fixed : FixedBody Hello.t 12.
Proof. solve_fixed_body Hello.encode Hello.decode. Qed.

Module Welcome.
Record t := mk {
  proto_major : Z; proto_minor : Z; features : Z; max_frame_body : Z;
  session_id : Z }.
Definition encode (self : t) (out : list byte) : list byte :=
  out <+ u16_le (proto_major self) <+ u16_le (proto_minor self)
      <+ u32_le (features self) <+ u32_le (max_frame_body self)
      <+ u64_le (session_id self).
Definition decode : list byte -> presult t := read_all (
  proto_major ← u16;
  proto_minor ← u16;
  features ← u32;
  max_frame_body ← u32;
  session_id ← u64;
  mret (mk proto_major proto_minor features max_frame_body session_id)).
#[global] Instance body : Body t := {|
  body_encode := encode; body_decode := decode;
  body_fits self := fits 16 (proto_major self) /\ fits 16 (proto_minor self) /\
    fits 32 (features self) /\ fits 32 (max_frame_body self) /\
    fits 64 (session_id self) |}.
End Welcome.

Lemma Welcome_fixed : FixedBody Welcome.t 20.
Proof. solve_fixed_body Welcome.encode Welcome.decode. Qed.

(** ** Frame kinds and the frame header *)
Module FrameKind.
Inductive t := Request | Response | Event.
(** [self.kind as u16] *)
Definition to_u16 (k : t) : Z :=
  match k with Request => 0 | Response => 1 | Event => 2 end.
Definition from_u16 (v : Z) : presult t :=
  if decide (v = 0) then Ok Request
  else if decide (v = 1) then Ok Response
  else if decide (v = 2) then Ok Event
  else Err (BadKind v).
End FrameKind.

#[export] Instance FrameKind_eq_dec : EqDecision FrameKind.t.
Proof. solve_decision. Defined.

Definition HEADER_LEN : nat := 28.

(** [?] on a [Result] inside a decoder. *)
Definition lift_result {A} (x : presult A) : Rd A :=
  fun r => match x with Ok a => Ok (a, r) | Err e => Err e end.

Module FrameHeader.
Record t := mk {
  version : Z; flags : Z; kind : FrameKind.t; opcode : Z; req_id : Z;
  seq : Z; body_len : Z }.
Definition encode (self : t) (out : list byte) : list byte :=
  out <+ u16_le (version self) <+ u16_le (flags self)
      <+ u16_le (FrameKind.to_u16 (kind self))
      <+ u16_le 0
      <+ u32_le (opcode self) <+ u32_le (req_id self)
      <+ u64_le (seq self) <+ u32_le (body_len self).
Definition decode : list byte -> presult t := read_all (
  version ← u16;
  flags ← u16;
  kind_word ← u16;
  kind ← lift_result (FrameKind.from_u16 kind_word);
  _reserved ← u16;
  opcode ← u32;
  req_id ← u32;
  seq ← u64;
  body_len ← u32;
  mret (mk version flags kind opcode req_id seq body_len)).
(** The fields are in the range of their types. *)
Definition wf (h : t) : Prop :=
  fits 16 (version h) /\ fits 16 (flags h) /\ fits 32 (opcode h) /\
  fits 32 (req_id h) /\ fits 64 (seq h) /\ fits 32 (body_len h).
End FrameHeader.

#[export] Instance FrameHeader_eq_dec : EqDecision FrameHeader.t.
Proof. solve_decision. Defined.

Definition encode_frame (header : FrameHeader.t) (body : list byte) : list byte :=
  FrameHeader.encode header [] <+ body.

Definition decode_frame (buf : list byte) : presult (FrameHeader.t * list byte) :=
  if decide (length buf < HEADER_LEN)%nat then Err UnexpectedEof
  else
    header ← FrameHeader.decode buf;
    Ok (header, drop HEADER_LEN buf).

(** The header's bytes with an arbitrary reserved word: what the decoder accepts. *)
Definition header_bytes (h : FrameHeader.t) (kind_word reserved : Z) : list byte :=
  u16_le (FrameHeader.version h) ++ u16_le (FrameHeader.flags h) ++
  u16_le kind_word ++ u16_le reserved ++
  u32_le (FrameHeader.opcode h) ++ u32_le (FrameHeader.req_id h) ++
  u64_le (FrameHeader.seq h) ++ u32_le (FrameHeader.body_len h).

Lemma length_header_bytes h k res : length (header_bytes h k res) = HEADER_LEN.
Proof. unfold header_bytes. rewrite !length_app, !length_le_bytes. done. Qed.

Lemma header_encode_bytes h out :
  FrameHeader.encode h out =
  out ++ header_bytes h (FrameKind.to_u16 (FrameHeader.kind h)) 0.
Proof. unfold FrameHeader.encode, header_bytes. by rewrite <- !app_assoc. Qed.

Lemma kind_roundtrip k : FrameKind.from_u16 (FrameKind.to_u16 k) = Ok k.
Proof. by destruct k. Qed.

Lemma kind_to_u16_fits k : fits 16 (FrameKind.to_u16 k).
Proof. destruct k; unfold fits; cbn; lia. Qed.

Lemma kind_from_u16_cases v :
  (exists k, FrameKind.from_u16 v = Ok k /\ v = FrameKind.to_u16 k) \/
  (~ 0 <= v <= 2 /\ FrameKind.from_u16 v = Err (BadKind v)) \/ v < 0.
Proof.
  unfold FrameKind.from_u16. repeat case_decide; subst.
  1-3: left; eexists; split; [reflexivity|done].
  right. destruct (decide (v < 0)); [by right|left]. split; [lia|done].
Qed.

Lemma lift_ok {A B} (a : A) (k : A -> Rd B) r : (lift_result (Ok a) ≫= k) r = k a r.
Proof. reflexivity. Qed.

Lemma lift_err {A B} e (k : A -> Rd B) r : (lift_result (Err e) ≫= k) r = Err e.
Proof. reflexivity. Qed.

(** Reduce the projections of a header given by its fields. *)
Ltac header_cbn :=
  cbn [FrameHeader.version FrameHeader.flags FrameHeader.kind FrameHeader.opcode
    FrameHeader.req_id FrameHeader.seq FrameHeader.body_len] in *.

(** What [FrameHeader::decode] does on a header's worth of bytes. *)
Lemma header_decode_bytes v f kw res o q s b rest :
  fits 16 v -> fits 16 f -> fits 16 kw -> fits 16 res -> fits 32 o ->
  fits 32 q -> fits 64 s -> fits 32 b ->
  FrameHeader.decode
    (header_bytes (FrameHeader.mk v f FrameKind.Request o q s b) kw res ++ rest) =
  k ← FrameKind.from_u16 kw; Ok (FrameHeader.mk v f k o q s b).
Proof.
  intros. unfold header_bytes, FrameHeader.decode, read_all, u16, u32, u64.
  cbn -[le_bytes mbind uint fits]. rewrite <- !app_assoc.
  match goal with |- context [Reader_new ?bs] => start_reader bs end.
  do 3 read_field.
  destruct (FrameKind.from_u16 kw) as [k|e] eqn:Ek.
  - rewrite lift_ok. do 5 read_field. done.
  - by rewrite lift_err.
Qed.

(** Every buffer of at least [HEADER_LEN] bytes is some header's bytes followed
    by a body. *)
Lemma bytes_as_header bs :
  (HEADER_LEN <= length bs)%nat ->
  exists h kw res body,
    FrameHeader.wf h /\ fits 16 kw /\ fits 16 res /\
    FrameHeader.kind h = FrameKind.Request /\
    bs = header_bytes h kw res ++ body /\ body = drop HEADER_LEN bs.
Proof.
  intros Hlen.
  pose (field := fun a n => of_le_bytes (take n (drop a bs))).
  assert (Hfield : forall a n, (a + n <= 28)%nat ->
    fits (8 * Z.of_nat n) (field a n) /\
    drop a bs = le_bytes n (field a n) ++ drop (a + n) bs).
  { unfold HEADER_LEN in *. intros a n Han.
    assert (Hl : length (take n (drop a bs)) = n)
      by (rewrite length_take, length_drop; lia).
    split.
    - unfold field, fits. rewrite <- Hl at 3. apply of_le_bytes_range.
    - unfold field. rewrite <- Hl at 1. rewrite le_bytes_of_le_bytes.
      rewrite <- drop_drop. by rewrite take_drop. }
  exists (FrameHeader.mk (field 0%nat 2%nat) (field 2%nat 2%nat) FrameKind.Request
    (field 8%nat 4%nat) (field 12%nat 4%nat) (field 16%nat 8%nat) (field 24%nat 4%nat)),
    (field 4%nat 2%nat), (field 6%nat 2%nat), (drop HEADER_LEN bs).
  split; [|split; [|split; [|split; [|split]]]]; try reflexivity.
  - exact (conj (proj1 (Hfield 0%nat 2%nat ltac:(lia)))
      (conj (proj1 (Hfield 2%nat 2%nat ltac:(lia)))
      (conj (proj1 (Hfield 8%nat 4%nat ltac:(lia)))
      (conj (proj1 (Hfield 12%nat 4%nat ltac:(lia)))
      (conj (proj1 (Hfield 16%nat 8%nat ltac:(lia)))
        (proj1 (Hfield 24%nat 4%nat ltac:(lia)))))))).
  - apply (Hfield 4%nat 2%nat ltac:(lia)).
  - apply (Hfield 6%nat 2%nat ltac:(lia)).
  - unfold header_bytes. cbn -[le_bytes drop]. rewrite <- !app_assoc.
    rewrite <- (drop_0 bs) at 1.
    do 8 (match goal with |- drop ?a bs = le_bytes ?n _ ++ _ =>
      rewrite (proj2 (Hfield a n ltac:(lia))); f_equal; cbn [Nat.add] end).
Qed.

(** A header is decoded as it was encoded, whatever follows it. *)
Lemma header_roundtrip h rest :
  FrameHeader.wf h -> FrameHeader.decode (FrameHeader.encode h [] ++ rest) = Ok h.
Proof.
  intros (? & ? & ? & ? & ? & ?). destruct h as [v f k o q s b].
  rewrite header_encode_bytes, app_nil_l. header_cbn.
  change (header_bytes (FrameHeader.mk v f k o q s b)) with
    (header_bytes (FrameHeader.mk v f FrameKind.Request o q s b)).
  rewrite header_decode_bytes by (try done; try apply kind_to_u16_fits; unfold fits; lia).
  by rewrite kind_roundtrip.
Qed.

(** A complete frame is decoded as it was encoded. *)
Lemma frame_roundtrip h body :
  FrameHeader.wf h -> decode_frame (encode_frame h body) = Ok (h, body).
Proof.
  intros Hwf. unfold decode_frame, encode_frame.
  assert (length (FrameHeader.encode h []) = HEADER_LEN) as Hl
    by (rewrite header_encode_bytes; apply length_header_bytes).
  case_decide as Hd; [rewrite length_app in Hd; lia|].
  rewrite header_roundtrip by done. cbn [mbind result_bind].
  by rewrite <- Hl, drop_app_length.
Qed.

(** [decode_frame] on any bytes at all: its three outcomes. *)
Lemma decode_frame_cases bs :
  ((length bs < HEADER_LEN)%nat /\ decode_frame bs = Err UnexpectedEof) \/
  (exists h kw res body, ~ 0 <= kw <= 2 /\ fits 16 kw /\
     bs = header_bytes h kw res ++ body /\ decode_frame bs = Err (BadKind kw)) \/
  (exists h res body, FrameHeader.wf h /\ fits 16 res /\
     bs = header_bytes h (FrameKind.to_u16 (FrameHeader.kind h)) res ++ body /\
     decode_frame bs = Ok (h, body)).
Proof.
  unfold decode_frame. case_decide as Hd; [by left|right].
  destruct (bytes_as_header bs ltac:(lia))
    as (h & kw & res & body & Hwf & Hkw & Hres & Hreq & Hbs & Hbody).
  rewrite <- Hbody. destruct h as [v f k o q s b]; cbn in Hreq; subst k.
  pose proof Hwf as (? & ? & ? & ? & ? & ?). header_cbn.
  assert (FrameHeader.decode bs = k ← FrameKind.from_u16 kw;
    Ok (FrameHeader.mk v f k o q s b)) as ->
    by (rewrite Hbs; by apply header_decode_bytes).
  destruct (kind_from_u16_cases kw) as [(k & Ek & Hk)|[[Hk Ek]|Hk]].
  - right. rewrite Ek. exists (FrameHeader.mk v f k o q s b), res, body.
    subst kw. done.
  - left. rewrite Ek. eexists _, kw, res, body.
    exact (conj Hk (conj Hkw (conj Hbs eq_refl))).
  - unfold fits in Hkw. lia.
Qed.
