(* ===== verification/VkBodies.v ===== *)
(** The Vulkan request and response bodies ([pub mod vk] of
    crates/graftx-protocol/src/lib.rs), one Module per struct with its
    [encode] and [decode]; every fixed-size body is shown to satisfy the laws
    of [FixedBody]. *)
From S2P Require Import Wire.

Local Open Scope Z_scope.

Module vk.

(** Request body for [vk_op::CREATE_INSTANCE]. *)
Module CreateInstanceRequest.
Record t := mk { app_api_version : Z }.
Definition encode (self : t) (out : list byte) : list byte :=
  out <+ u32_le (app_api_version self).
Definition decode : list byte -> presult t := read_all (
  app_api_version ← u32;
  mret (mk app_api_version)).
#[global] Instance body : Body t := {|
  body_encode := encode; body_decode := decode;
  body_fits self := fits 32 (app_api_version self) |}.
End CreateInstanceRequest.

Lemma vk_CreateInstanceRequest_fixed : FixedBody CreateInstanceRequest.t 4.
Proof. solve_fixed_body CreateInstanceRequest.encode CreateInstanceRequest.decode. Qed.

(** Response body for [vk_op::CREATE_INSTANCE]. *)
Module CreateInstanceResponse.
Record t := mk { instance : Handle.t }.
Definition encode (self : t) (out : list byte) : list byte :=
  out <+ u64_le (Handle.raw (instance self)).
Definition decode : list byte -> presult t := read_all (
  instance ← u64;
  mret (mk (Handle.from_raw instance))).
#[global] Instance body : Body t := {|
  body_encode := encode; body_decode := decode;
  body_fits self := Handle.wf (instance self) |}.
End CreateInstanceResponse.

Lemma vk_CreateInstanceResponse_fixed : FixedBody CreateInstanceResponse.t 8.
Proof. solve_fixed_body CreateInstanceResponse.encode CreateInstanceResponse.decode. Qed.

(** Request body for [vk_op::ENUMERATE_PHYSICAL_DEVICES]. *)
Module EnumeratePhysicalDevicesRequest.
Record t := mk { instance : Handle.t }.
Definition encode (self : t) (out : list byte) : list byte :=
  out <+ u64_le (Handle.raw (instance self)).
Definition decode : list byte -> presult t := read_all (
  instance ← u64;
  mret (mk (Handle.from_raw instance))).
#[global] Instance body : Body t := {|
  body_encode := encode; body_decode := decode;
  body_fits self := Handle.wf (instance self) |}.
End EnumeratePhysicalDevicesRequest.

Lemma vk_EnumeratePhysicalDevicesRequest_fixed : FixedBody EnumeratePhysicalDevicesRequest.t 8.
Proof. solve_fixed_body EnumeratePhysicalDevicesRequest.encode EnumeratePhysicalDevicesRequest.decode. Qed.

(** Response body for [vk_op::ENUMERATE_PHYSICAL_DEVICES]: the one body of
    variable size, a [u32] count followed by that many raw handles. *)
Module EnumeratePhysicalDevicesResponse.
Record t := mk { devices : list Handle.t }.
(** [for device in &self.devices] *)
Fixpoint encode_devices (devices : list Handle.t) (out : list byte) : list byte :=
  match devices with
  | [] => out
  | device :: rest => encode_devices rest (out <+ u64_le (Handle.raw device))
  end.
Definition encode (self : t) (out : list byte) : list byte :=
  encode_devices (devices self)
    (out <+ u32_le (wrap 32 (Z.of_nat (length (devices self))))).
(** [for _ in 0..count], pushing onto [devices] *)
Fixpoint decode_devices (count : nat) (devices : list Handle.t) : Rd (list Handle.t) :=
  match count with
  | O => mret devices
  | S count =>
    device ← u64;
    decode_devices count (push devices (Handle.from_raw device))
  end.
Definition decode : list byte -> presult t := read_all (
  count ← u32;
  devices ← decode_devices (Z.to_nat count) [];
  mret (mk devices)).
End EnumeratePhysicalDevicesResponse.

Section enumerate.
Import EnumeratePhysicalDevicesResponse.

(** The raw handles, one after the other. *)
Definition handle_bytes (devices : list Handle.t) : list byte :=
  devices ≫= (fun device => u64_le (Handle.raw device)).

Lemma handle_bytes_cons d devices :
  handle_bytes (d :: devices) = u64_le (Handle.raw d) ++ handle_bytes devices.
Proof. reflexivity. Qed.

Lemma encode_devices_bytes devices out :
  encode_devices devices out = out ++ handle_bytes devices.
Proof.
  revert out. induction devices as [|d devices IH]; intros out; cbn -[le_bytes handle_bytes].
  - by rewrite app_nil_r.
  - by rewrite IH, handle_bytes_cons, <- app_assoc.
Qed.

Lemma length_handle_bytes devices :
  length (handle_bytes devices) = (8 * length devices)%nat.
Proof.
  induction devices as [|d devices IH]; [done|].
  rewrite handle_bytes_cons, length_app, IH, length_le_bytes. cbn. lia.
Qed.

Lemma decode_devices_app devices acc rest r :
  Z.of_nat (pos r) + 8 * Z.of_nat (length devices) <= 2 ^ 40 ->
  Forall Handle.wf devices -> remaining r = handle_bytes devices ++ rest ->
  exists r', remaining r' = rest /\
    decode_devices (length devices) acc r = Ok (acc ++ devices, r').
Proof.
  intros Hp Hwf. revert acc r Hp. induction Hwf as [|d devices Hd Hwf IH];
    intros acc r Hp Hr; cbn -[le_bytes mbind u64 handle_bytes Z.pow] in *.
  - exists r. by rewrite app_nil_r.
  - rewrite handle_bytes_cons, <- app_assoc in Hr. unfold u64.
    destruct (uint_bind_app 8 (Handle.raw d) (handle_bytes devices ++ rest)
      (fun device => decode_devices (length devices) (push acc (Handle.from_raw device))) r)
      as (r1 & Hr1 & Hp1 & ->); [lia|unfold pos_small; lia|exact Hd|exact Hr|].
    destruct (IH (push acc d) r1 ltac:(lia) Hr1) as (r' & Hr' & E).
    exists r'. split; [done|]. destruct d. unfold Handle.from_raw in *.
    cbn -[decode_devices push]. rewrite E. unfold push. by rewrite <- app_assoc.
Qed.

(** The decoding loop on any bytes: it pushes well-formed handles or runs off
    the end of the buffer. *)
Lemma decode_devices_cases n acc r :
  Z.of_nat (pos r) + 8 * Z.of_nat n <= 2 ^ 40 ->
  (exists devices r', length devices = n /\ Forall Handle.wf devices /\
     remaining r = handle_bytes devices ++ remaining r' /\
     decode_devices n acc r = Ok (acc ++ devices, r')) \/
  ((length (remaining r) < 8 * n)%nat /\ decode_devices n acc r = Err UnexpectedEof).
Proof.
  revert acc r. induction n as [|n IH]; intros acc r Hp; cbn -[mbind u64 Nat.mul handle_bytes].
  - left. exists [], r. by rewrite app_nil_r.
  - unfold u64. destruct (uint_bind_cases 8 (fun device =>
      decode_devices n (push acc (Handle.from_raw device))) r)
      as [(v & r1 & Hv & Hr & Hp1 & ->)|[Hl ->]]; [lia|unfold pos_small; lia| |].
    + destruct (IH (push acc (Handle.from_raw v)) r1 ltac:(lia))
        as [(devices & r' & Hl & Hwf & Hr' & E)|[Hl E]].
      * left. exists (Handle.from_raw v :: devices), r'.
        split; [by cbn; rewrite Hl|]. split; [by constructor|]. split.
        { by rewrite Hr, Hr', handle_bytes_cons, <- app_assoc. }
        rewrite E. unfold push. by rewrite <- app_assoc.
      * right. rewrite Hr, length_app, length_le_bytes. split; [lia|done].
    + right. split; [lia|done].
Qed.

(** Decoding any bytes whatever gives a response whose encoding is a prefix of
    them, or [UnexpectedEof]. *)
Lemma enumerate_decode_cases bs :
  (exists x rest, Forall Handle.wf (devices x) /\ fits 32 (Z.of_nat (length (devices x))) /\
     bs = encode x [] ++ rest /\ decode bs = Ok x) \/
  decode bs = Err UnexpectedEof.
Proof.
  unfold decode, read_all, u32. start_reader bs.
  split_field; [|by right].
  destruct (decode_devices_cases (Z.to_nat v) [] r0)
    as [(devices & r' & Hl & Hwf & Hr' & E)|[_ E]].
  { unfold fits in Hf. cbn in Hf. lia. }
  - left. exists (mk devices), (remaining r').
    assert (Z.of_nat (length devices) = v) as Hv by (unfold fits in Hf; lia).
    cbn [EnumeratePhysicalDevicesResponse.devices]. split; [done|]. split; [by rewrite Hv|].
    split.
    + unfold encode. rewrite encode_devices_bytes.
      cbn [EnumeratePhysicalDevicesResponse.devices]. rewrite Hv, wrap_fits by done.
      rewrite <- Hr, Hr0, Hr'. by rewrite <- app_assoc.
    + unfold mbind at 2, Rd_bind. by rewrite E.
  - right. unfold mbind at 2, Rd_bind. by rewrite E.
Qed.

Lemma enumerate_roundtrip x rest :
  Forall Handle.wf (devices x) -> fits 32 (Z.of_nat (length (devices x))) ->
  decode (encode x [] ++ rest) = Ok x.
Proof.
  intros Hwf Hf. unfold decode, encode, read_all, u32.
  rewrite encode_devices_bytes, app_nil_l, wrap_fits, <- app_assoc by done.
  match goal with |- context [Reader_new ?bs] => start_reader bs end.
  read_field. rewrite Nat2Z.id.
  destruct (decode_devices_app (devices x) [] rest r0) as (r' & _ & E);
    [unfold fits in Hf; lia|done|done|].
  unfold mbind at 2, Rd_bind. rewrite E. by destruct x.
Qed.

Lemma enumerate_length x :
  length (encode x []) = (4 + 8 * length (devices x))%nat.
Proof.
  unfold encode. rewrite encode_devices_bytes, length_app, length_handle_bytes.
  rewrite length_app, length_le_bytes. cbn; lia.
Qed.
End enumerate.

(** Request body for [vk_op::CREATE_DEVICE]. *)
Module CreateDeviceRequest.
Record t := mk { physical_device : Handle.t }.
Definition encode (self : t) (out : list byte) : list byte :=
  out <+ u64_le (Handle.raw (physical_device self)).
Definition decode : list byte -> presult t := read_all (
  physical_device ← u64;
  mret (mk (Handle.from_raw physical_device))).
#[global] Instance body : Body t := {|
  body_encode := encode; body_decode := decode;
  body_fits self := Handle.wf (physical_device self) |}.
End CreateDeviceRequest.

Lemma vk_CreateDeviceRequest_fixed : FixedBody CreateDeviceRequest.t 8.
Proof. solve_fixed_body CreateDeviceRequest.encode CreateDeviceRequest.decode. Qed.

(** Response body for [vk_op::CREATE_DEVICE]. *)
Module CreateDeviceResponse.
Record t := mk { device : Handle.t }.
Definition encode (self : t) (out : list byte) : list byte :=
  out <+ u64_le (Handle.raw (device self)).
Definition decode : list byte -> presult t := read_all (
  device ← u64;
  mret (mk (Handle.from_raw device))).
#[global] Instance body : Body t := {|
  body_encode := encode; body_decode := decode;
  body_fits self := Handle.wf (device self) |}.
End CreateDeviceResponse.

Lemma vk_CreateDeviceResponse_fixed : FixedBody CreateDeviceResponse.t 8.
Proof. solve_fixed_body CreateDeviceResponse.encode CreateDeviceResponse.decode. Qed.

(** Request body for [vk_op::GET_DEVICE_QUEUE]. *)
Module GetDeviceQueueRequest.
Record t := mk { device : Handle.t; queue_family_index : Z; queue_index : Z }.
Definition encode (self : t) (out : list byte) : list byte :=
  out <+ u64_le (Handle.raw (device self))
      <+ u32_le (queue_family_index self)
      <+ u32_le (queue_index self).
Definition decode : list byte -> presult t := read_all (
  device ← u64;
  queue_family_index ← u32;
  queue_index ← u32;
  mret (mk (Handle.from_raw device) queue_family_index queue_index)).
#[global] Instance body : Body t := {|
  body_encode := encode; body_decode := decode;
  body_fits self := Handle.wf (device self) /\
    fits 32 (queue_family_index self) /\
    fits 32 (queue_index self) |}.
End GetDeviceQueueRequest.

Lemma vk_GetDeviceQueueRequest_fixed : FixedBody GetDeviceQueueRequest.t 16.
Proof. solve_fixed_body GetDeviceQueueRequest.encode GetDeviceQueueRequest.decode. Qed.

(** Response body for [vk_op::GET_DEVICE_QUEUE]. *)
Module GetDeviceQueueResponse.
Record t := mk { queue : Handle.t }.
Definition encode (self : t) (out : list byte) : list byte :=
  out <+ u64_le (Handle.raw (queue self)).
Definition decode : list byte -> presult t := read_all (
  queue ← u64;
  mret (mk (Handle.from_raw queue))).
#[global] Instance body : Body t := {|
  body_encode := encode; body_decode := decode;
  body_fits self := Handle.wf (queue self) |}.
End GetDeviceQueueResponse.

Lemma vk_GetDeviceQueueResponse_fixed : FixedBody GetDeviceQueueResponse.t 8.
Proof. solve_fixed_body GetDeviceQueueResponse.encode GetDeviceQueueResponse.decode. Qed.

(** Request body for [vk_op::ALLOCATE_MEMORY]. *)
Module AllocateMemoryRequest.
Record t := mk { device : Handle.t; size : Z }.
Definition encode (self : t) (out : list byte) : list byte :=
  out <+ u64_le (Handle.raw (device self))
      <+ u64_le (size self).
Definition decode : list byte -> presult t := read_all (
  device ← u64;
  size ← u64;
  mret (mk (Handle.from_raw device) size)).
#[global] Instance body : Body t := {|
  body_encode := encode; body_decode := decode;
  body_fits self := Handle.wf (device self) /\
    fits 64 (size self) |}.
End AllocateMemoryRequest.

Lemma vk_AllocateMemoryRequest_fixed : FixedBody AllocateMemoryRequest.t 16.
Proof. solve_fixed_body AllocateMemoryRequest.encode AllocateMemoryRequest.decode. Qed.

(** Response body for [vk_op::ALLOCATE_MEMORY]. *)
Module AllocateMemoryResponse.
Record t := mk { memory : Handle.t }.
Definition encode (self : t) (out : list byte) : list byte :=
  out <+ u64_le (Handle.raw (memory self)).
Definition decode : list byte -> presult t := read_all (
  memory ← u64;
  mret (mk (Handle.from_raw memory))).
#[global] Instance body : Body t := {|
  body_encode := encode; body_decode := decode;
  body_fits self := Handle.wf (memory self) |}.
End AllocateMemoryResponse.

Lemma vk_AllocateMemoryResponse_fixed : FixedBody AllocateMemoryResponse.t 8.
Proof. solve_fixed_body AllocateMemoryResponse.encode AllocateMemoryResponse.decode. Qed.

(** Request body for [vk_op::CREATE_BUFFER]. *)
Module CreateBufferRequest.
Record t := mk { device : Handle.t; size : Z; usage : Z }.
Definition encode (self : t) (out : list byte) : list byte :=
  out <+ u64_le (Handle.raw (device self))
      <+ u64_le (size self)
      <+ u32_le (usage self).
Definition decode : list byte -> presult t := read_all (
  device ← u64;
  size ← u64;
  usage ← u32;
  mret (mk (Handle.from_raw device) size usage)).
#[global] Instance body : Body t := {|
  body_encode := encode; body_decode := decode;
  body_fits self := Handle.wf (device self) /\
    fits 64 (size self) /\
    fits 32 (usage self) |}.
End CreateBufferRequest.

Lemma vk_CreateBufferRequest_fixed : FixedBody CreateBufferRequest.t 20.
Proof. solve_fixed_body CreateBufferRequest.encode CreateBufferRequest.decode. Qed.

(** Response body for [vk_op::CREATE_BUFFER]. *)
Module CreateBufferResponse.
Record t := mk { buffer : Handle.t }.
Definition encode (self : t) (out : list byte) : list byte :=
  out <+ u64_le (Handle.raw (buffer self)).
Definition decode : list byte -> presult t := read_all (
  buffer ← u64;
  mret (mk (Handle.from_raw buffer))).
#[global] Instance body : Body t := {|
  body_encode := encode; body_decode := decode;
  body_fits self := Handle.wf (buffer self) |}.
End CreateBufferResponse.

Lemma vk_CreateBufferResponse_fixed : FixedBody CreateBufferResponse.t 8.
Proof. solve_fixed_body CreateBufferResponse.encode CreateBufferResponse.decode. Qed.

(** Request body for [vk_op::BIND_BUFFER_MEMORY].  The reply is an empty (ack)
    body, so there is no response struct. *)
Module BindBufferMemoryRequest.
Record t := mk { buffer : Handle.t; memory : Handle.t; offset : Z }.
Definition encode (self : t) (out : list byte) : list byte :=
  out <+ u64_le (Handle.raw (buffer self))
      <+ u64_le (Handle.raw (memory self))
      <+ u64_le (offset self).
Definition decode : list byte -> presult t := read_all (
  buffer ← u64;
  memory ← u64;
  offset ← u64;
  mret (mk (Handle.from_raw buffer) (Handle.from_raw memory) offset)).
#[global] Instance body : Body t := {|
  body_encode := encode; body_decode := decode;
  body_fits self := Handle.wf (buffer self) /\
    Handle.wf (memory self) /\
    fits 64 (offset self) |}.
End BindBufferMemoryRequest.

Lemma vk_BindBufferMemoryRequest_fixed : FixedBody BindBufferMemoryRequest.t 24.
Proof. solve_fixed_body BindBufferMemoryRequest.encode BindBufferMemoryRequest.decode. Qed.

(** Request body for [vk_op::CREATE_COMMAND_POOL]. *)
Module CreateCommandPoolRequest.
Record t := mk { device : Handle.t; queue_family_index : Z }.
Definition encode (self : t) (out : list byte) : list byte :=
  out <+ u64_le (Handle.raw (device self))
      <+ u32_le (queue_family_index self).
Definition decode : list byte -> presult t := read_all (
  device ← u64;
  queue_family_index ← u32;
  mret (mk (Handle.from_raw device) queue_family_index)).
#[global] Instance body : Body t := {|
  body_encode := encode; body_decode := decode;
  body_fits self := Handle.wf (device self) /\
    fits 32 (queue_family_index self) |}.
End CreateCommandPoolRequest.

Lemma vk_CreateCommandPoolRequest_fixed : FixedBody CreateCommandPoolRequest.t 12.
Proof. solve_fixed_body CreateCommandPoolRequest.encode CreateCommandPoolRequest.decode. Qed.

(** Response body for [vk_op::CREATE_COMMAND_POOL]. *)
Module CreateCommandPoolResponse.
Record t := mk { pool : Handle.t }.
Definition encode (self : t) (out : list byte) : list byte :=
  out <+ u64_le (Handle.raw (pool self)).
Definition decode : list byte -> presult t := read_all (
  pool ← u64;
  mret (mk (Handle.from_raw pool))).
#[global] Instance body : Body t := {|
  body_encode := encode; body_decode := decode;
  body_fits self := Handle.wf (pool self) |}.
End CreateCommandPoolResponse.

Lemma vk_CreateCommandPoolResponse_fixed : FixedBody CreateCommandPoolResponse.t 8.
Proof. solve_fixed_body CreateCommandPoolResponse.encode CreateCommandPoolResponse.decode. Qed.

(** Request body for [vk_op::ALLOCATE_COMMAND_BUFFER]. *)
Module AllocateCommandBufferRequest.
Record t := mk { pool : Handle.t }.
Definition encode (self : t) (out : list byte) : list byte :=
  out <+ u64_le (Handle.raw (pool self)).
Definition decode : list byte -> presult t := read_all (
  pool ← u64;
  mret (mk (Handle.from_raw pool))).
#[global] Instance body : Body t := {|
  body_encode := encode; body_decode := decode;
  body_fits self := Handle.wf (pool self) |}.
End AllocateCommandBufferRequest.

Lemma vk_AllocateCommandBufferRequest_fixed : FixedBody AllocateCommandBufferRequest.t 8.
Proof. solve_fixed_body AllocateCommandBufferRequest.encode AllocateCommandBufferRequest.decode. Qed.

(** Response body for [vk_op::ALLOCATE_COMMAND_BUFFER]. *)
Module AllocateCommandBufferResponse.
Record t := mk { command_buffer : Handle.t }.
Definition encode (self : t) (out : list byte) : list byte :=
  out <+ u64_le (Handle.raw (command_buffer self)).
Definition decode : list byte -> presult t := read_all (
  command_buffer ← u64;
  mret (mk (Handle.from_raw command_buffer))).
#[global] Instance body : Body t := {|
  body_encode := encode; body_decode := decode;
  body_fits self := Handle.wf (command_buffer self) |}.
End AllocateCommandBufferResponse.

Lemma vk_AllocateCommandBufferResponse_fixed : FixedBody AllocateCommandBufferResponse.t 8.
Proof. solve_fixed_body AllocateCommandBufferResponse.encode AllocateCommandBufferResponse.decode. Qed.

(** Request body for [vk_op::QUEUE_SUBMIT].  The reply is an empty (ack) body,
    so there is no response struct. *)
Module QueueSubmitRequest.
Record t := mk { queue : Handle.t; command_buffer : Handle.t }.
Definition encode (self : t) (out : list byte) : list byte :=
  out <+ u64_le (Handle.raw (queue self))
      <+ u64_le (Handle.raw (command_buffer self)).
Definition decode : list byte -> presult t := read_all (
  queue ← u64;
  command_buffer ← u64;
  mret (mk (Handle.from_raw queue) (Handle.from_raw command_buffer))).
#[global] Instance body : Body t := {|
  body_encode := encode; body_decode := decode;
  body_fits self := Handle.wf (queue self) /\
    Handle.wf (command_buffer self) |}.
End QueueSubmitRequest.

Lemma vk_QueueSubmitRequest_fixed : FixedBody QueueSubmitRequest.t 16.
Proof. solve_fixed_body QueueSubmitRequest.encode QueueSubmitRequest.decode. Qed.

(** Request body for [vk_op::CMD_COPY_BUFFER].  This records into a command
    buffer; the reply is an empty (ack) body, so there is no response struct.
    *)
Module CmdCopyBufferRequest.
Record t := mk { command_buffer : Handle.t; src : Handle.t; dst : Handle.t; size : Z }.
Definition encode (self : t) (out : list byte) : list byte :=
  out <+ u64_le (Handle.raw (command_buffer self))
      <+ u64_le (Handle.raw (src self))
      <+ u64_le (Handle.raw (dst self))
      <+ u64_le (size self).
Definition decode : list byte -> presult t := read_all (
  command_buffer ← u64;
  src ← u64;
  dst ← u64;
  size ← u64;
  mret (mk (Handle.from_raw command_buffer) (Handle.from_raw src) (Handle.from_raw dst) size)).
#[global] Instance body : Body t := {|
  body_encode := encode; body_decode := decode;
  body_fits self := Handle.wf (command_buffer self) /\
    Handle.wf (src self) /\
    Handle.wf (dst self) /\
    fits 64 (size self) |}.
End CmdCopyBufferRequest.

Lemma vk_CmdCopyBufferRequest_fixed : FixedBody CmdCopyBufferRequest.t 32.
Proof. solve_fixed_body CmdCopyBufferRequest.encode CmdCopyBufferRequest.decode. Qed.

(** Request body for [vk_op::CMD_DRAW].  This records into a command buffer;
    the reply is an empty (ack) body, so there is no response struct. *)
Module CmdDrawRequest.
Record t := mk { command_buffer : Handle.t; vertex_count : Z; instance_count : Z }.
Definition encode (self : t) (out : list byte) : list byte :=
  out <+ u64_le (Handle.raw (command_buffer self))
      <+ u32_le (vertex_count self)
      <+ u32_le (instance_count self).
Definition decode : list byte -> presult t := read_all (
  command_buffer ← u64;
  vertex_count ← u32;
  instance_count ← u32;
  mret (mk (Handle.from_raw command_buffer) vertex_count instance_count)).
#[global] Instance body : Body t := {|
  body_encode := encode; body_decode := decode;
  body_fits self := Handle.wf (command_buffer self) /\
    fits 32 (vertex_count self) /\
    fits 32 (instance_count self) |}.
End CmdDrawRequest.

Lemma vk_CmdDrawRequest_fixed : FixedBody CmdDrawRequest.t 16.
Proof. solve_fixed_body CmdDrawRequest.encode CmdDrawRequest.decode. Qed.

(** Request body for [vk_op::DESTROY_BUFFER].  The reply is an empty (ack)
    body, so there is no response struct. *)
Module DestroyBufferRequest.
Record t := mk { buffer : Handle.t }.
Definition encode (self : t) (out : list byte) : list byte :=
  out <+ u64_le (Handle.raw (buffer self)).
Definition decode : list byte -> presult t := read_all (
  buffer ← u64;
  mret (mk (Handle.from_raw buffer))).
#[global] Instance body : Body t := {|
  body_encode := encode; body_decode := decode;
  body_fits self := Handle.wf (buffer self) |}.
End DestroyBufferRequest.

Lemma vk_DestroyBufferRequest_fixed : FixedBody DestroyBufferRequest.t 8.
Proof. solve_fixed_body DestroyBufferRequest.encode DestroyBufferRequest.decode. Qed.

(** Request body for [vk_op::FREE_MEMORY].  The reply is an empty (ack) body,
    so there is no response struct. *)
Module FreeMemoryRequest.
Record t := mk { memory : Handle.t }.
Definition encode (self : t) (out : list byte) : list byte :=
  out <+ u64_le (Handle.raw (memory self)).
Definition decode : list byte -> presult t := read_all (
  memory ← u64;
  mret (mk (Handle.from_raw memory))).
#[global] Instance body : Body t := {|
  body_encode := encode; body_decode := decode;
  body_fits self := Handle.wf (memory self) |}.
End FreeMemoryRequest.

Lemma vk_FreeMemoryRequest_fixed : FixedBody FreeMemoryRequest.t 8.
Proof. solve_fixed_body FreeMemoryRequest.encode FreeMemoryRequest.decode. Qed.

(** Request body for [vk_op::DESTROY_COMMAND_POOL].  The reply is an empty
    (ack) body, so there is no response struct. *)
Module DestroyCommandPoolRequest.
Record t := mk { pool : Handle.t }.
Definition encode (self : t) (out : list byte) : list byte :=
  out <+ u64_le (Handle.raw (pool self)).
Definition decode : list byte -> presult t := read_all (
  pool ← u64;
  mret (mk (Handle.from_raw pool))).
#[global] Instance body : Body t := {|
  body_encode := encode; body_decode := decode;
  body_fits self := Handle.wf (pool self) |}.
End DestroyCommandPoolRequest.

Lemma vk_DestroyCommandPoolRequest_fixed : FixedBody DestroyCommandPoolRequest.t 8.
Proof. solve_fixed_body DestroyCommandPoolRequest.encode DestroyCommandPoolRequest.decode. Qed.

End vk.
