(* ===== verification/ApiBodies.v ===== *)
(** The request and response bodies of the other ten APIs ([pub mod gl] to
    [pub mod amf] of crates/graftx-protocol/src/lib.rs), one Module per struct
    with its [encode] and [decode], and the laws of each. *)
From S2P Require Import Wire.

Local Open Scope Z_scope.

Module gl.

(** Response body for [gl_op::CREATE_CONTEXT]. *)
Module CreateContextResponse.
Record t := mk { context : Handle.t }.
Definition encode (self : t) (out : list byte) : list byte :=
  out <+ u64_le (Handle.raw (context self)).
Definition decode : list byte -> presult t := read_all (
  context ← u64;
  mret (mk (Handle.from_raw context))).
#[global] Instance body : Body t := {|
  body_encode := encode; body_decode := decode;
  body_fits self := Handle.wf (context self) |}.
End CreateContextResponse.

Lemma gl_CreateContextResponse_fixed : FixedBody CreateContextResponse.t 8.
Proof. solve_fixed_body CreateContextResponse.encode CreateContextResponse.decode. Qed.

(** Request body for [gl_op::MAKE_CURRENT]. *)
Module MakeCurrentRequest.
Record t := mk { context : Handle.t }.
Definition encode (self : t) (out : list byte) : list byte :=
  out <+ u64_le (Handle.raw (context self)).
Definition decode : list byte -> presult t := read_all (
  context ← u64;
  mret (mk (Handle.from_raw context))).
#[global] Instance body : Body t := {|
  body_encode := encode; body_decode := decode;
  body_fits self := Handle.wf (context self) |}.
End MakeCurrentRequest.

Lemma gl_MakeCurrentRequest_fixed : FixedBody MakeCurrentRequest.t 8.
Proof. solve_fixed_body MakeCurrentRequest.encode MakeCurrentRequest.decode. Qed.

(** Request body for [gl_op::GEN_BUFFER]. *)
Module GenBufferRequest.
Record t := mk { context : Handle.t }.
Definition encode (self : t) (out : list byte) : list byte :=
  out <+ u64_le (Handle.raw (context self)).
Definition decode : list byte -> presult t := read_all (
  context ← u64;
  mret (mk (Handle.from_raw context))).
#[global] Instance body : Body t := {|
  body_encode := encode; body_decode := decode;
  body_fits self := Handle.wf (context self) |}.
End GenBufferRequest.

Lemma gl_GenBufferRequest_fixed : FixedBody GenBufferRequest.t 8.
Proof. solve_fixed_body GenBufferRequest.encode GenBufferRequest.decode. Qed.

(** Response body for [gl_op::GEN_BUFFER]. *)
Module GenBufferResponse.
Record t := mk { buffer : Handle.t }.
Definition encode (self : t) (out : list byte) : list byte :=
  out <+ u64_le (Handle.raw (buffer self)).
Definition decode : list byte -> presult t := read_all (
  buffer ← u64;
  mret (mk (Handle.from_raw buffer))).
#[global] Instance body : Body t := {|
  body_encode := encode; body_decode := decode;
  body_fits self := Handle.wf (buffer self) |}.
End GenBufferResponse.

Lemma gl_GenBufferResponse_fixed : FixedBody GenBufferResponse.t 8.
Proof. solve_fixed_body GenBufferResponse.encode GenBufferResponse.decode. Qed.

(** Request body for [gl_op::SWAP_BUFFERS].  The reply is an empty (ack) body,
    so there is no response struct. *)
Module SwapBuffersRequest.
Record t := mk { context : Handle.t }.
Definition encode (self : t) (out : list byte) : list byte :=
  out <+ u64_le (Handle.raw (context self)).
Definition decode : list byte -> presult t := read_all (
  context ← u64;
  mret (mk (Handle.from_raw context))).
#[global] Instance body : Body t := {|
  body_encode := encode; body_decode := decode;
  body_fits self := Handle.wf (context self) |}.
End SwapBuffersRequest.

Lemma gl_SwapBuffersRequest_fixed : FixedBody SwapBuffersRequest.t 8.
Proof. solve_fixed_body SwapBuffersRequest.encode SwapBuffersRequest.decode. Qed.

(** Request body for [gl_op::DELETE_BUFFER].  The reply is an empty (ack)
    body, so there is no response struct. *)
Module DeleteBufferRequest.
Record t := mk { buffer : Handle.t }.
Definition encode (self : t) (out : list byte) : list byte :=
  out <+ u64_le (Handle.raw (buffer self)).
Definition decode : list byte -> presult t := read_all (
  buffer ← u64;
  mret (mk (Handle.from_raw buffer))).
#[global] Instance body : Body t := {|
  body_encode := encode; body_decode := decode;
  body_fits self := Handle.wf (buffer self) |}.
End DeleteBufferRequest.

Lemma gl_DeleteBufferRequest_fixed : FixedBody DeleteBufferRequest.t 8.
Proof. solve_fixed_body DeleteBufferRequest.encode DeleteBufferRequest.decode. Qed.

End gl.

Module cuda.

(** Request body for [cuda_op::CTX_CREATE]. *)
Module CtxCreateRequest.
Record t := mk { device_ordinal : Z }.
Definition encode (self : t) (out : list byte) : list byte :=
  out <+ u32_le (device_ordinal self).
Definition decode : list byte -> presult t := read_all (
  device_ordinal ← u32;
  mret (mk device_ordinal)).
#[global] Instance body : Body t := {|
  body_encode := encode; body_decode := decode;
  body_fits self := fits 32 (device_ordinal self) |}.
End CtxCreateRequest.

Lemma cuda_CtxCreateRequest_fixed : FixedBody CtxCreateRequest.t 4.
Proof. solve_fixed_body CtxCreateRequest.encode CtxCreateRequest.decode. Qed.

(** Response body for [cuda_op::CTX_CREATE]. *)
Module CtxCreateResponse.
Record t := mk { context : Handle.t }.
Definition encode (self : t) (out : list byte) : list byte :=
  out <+ u64_le (Handle.raw (context self)).
Definition decode : list byte -> presult t := read_all (
  context ← u64;
  mret (mk (Handle.from_raw context))).
#[global] Instance body : Body t := {|
  body_encode := encode; body_decode := decode;
  body_fits self := Handle.wf (context self) |}.
End CtxCreateResponse.

Lemma cuda_CtxCreateResponse_fixed : FixedBody CtxCreateResponse.t 8.
Proof. solve_fixed_body CtxCreateResponse.encode CtxCreateResponse.decode. Qed.

(** Request body for [cuda_op::MEM_ALLOC]. *)
Module MemAllocRequest.
Record t := mk { context : Handle.t; size : Z }.
Definition encode (self : t) (out : list byte) : list byte :=
  out <+ u64_le (Handle.raw (context self))
      <+ u64_le (size self).
Definition decode : list byte -> presult t := read_all (
  context ← u64;
  size ← u64;
  mret (mk (Handle.from_raw context) size)).
#[global] Instance body : Body t := {|
  body_encode := encode; body_decode := decode;
  body_fits self := Handle.wf (context self) /\
    fits 64 (size self) |}.
End MemAllocRequest.

Lemma cuda_MemAllocRequest_fixed : FixedBody MemAllocRequest.t 16.
Proof. solve_fixed_body MemAllocRequest.encode MemAllocRequest.decode. Qed.

(** Response body for [cuda_op::MEM_ALLOC]. *)
Module MemAllocResponse.
Record t := mk { dptr : Handle.t }.
Definition encode (self : t) (out : list byte) : list byte :=
  out <+ u64_le (Handle.raw (dptr self)).
Definition decode : list byte -> presult t := read_all (
  dptr ← u64;
  mret (mk (Handle.from_raw dptr))).
#[global] Instance body : Body t := {|
  body_encode := encode; body_decode := decode;
  body_fits self := Handle.wf (dptr self) |}.
End MemAllocResponse.

Lemma cuda_MemAllocResponse_fixed : FixedBody MemAllocResponse.t 8.
Proof. solve_fixed_body MemAllocResponse.encode MemAllocResponse.decode. Qed.

(** Request body for [cuda_op::MEM_FREE].  The reply is an empty (ack) body,
    so there is no response struct. *)
Module MemFreeRequest.
Record t := mk { dptr : Handle.t }.
Definition encode (self : t) (out : list byte) : list byte :=
  out <+ u64_le (Handle.raw (dptr self)).
Definition decode : list byte -> presult t := read_all (
  dptr ← u64;
  mret (mk (Handle.from_raw dptr))).
#[global] Instance body : Body t := {|
  body_encode := encode; body_decode := decode;
  body_fits self := Handle.wf (dptr self) |}.
End MemFreeRequest.

Lemma cuda_MemFreeRequest_fixed : FixedBody MemFreeRequest.t 8.
Proof. solve_fixed_body MemFreeRequest.encode MemFreeRequest.decode. Qed.

(** Request body for [cuda_op::LAUNCH_KERNEL].  The reply is an empty (ack)
    body, so there is no response struct. *)
Module LaunchKernelRequest.
Record t := mk { function : Handle.t; grid_x : Z; grid_y : Z; grid_z : Z; block_x : Z; block_y : Z; block_z : Z }.
Definition encode (self : t) (out : list byte) : list byte :=
  out <+ u64_le (Handle.raw (function self))
      <+ u32_le (grid_x self)
      <+ u32_le (grid_y self)
      <+ u32_le (grid_z self)
      <+ u32_le (block_x self)
      <+ u32_le (block_y self)
      <+ u32_le (block_z self).
Definition decode : list byte -> presult t := read_all (
  function ← u64;
  grid_x ← u32;
  grid_y ← u32;
  grid_z ← u32;
  block_x ← u32;
  block_y ← u32;
  block_z ← u32;
  mret (mk (Handle.from_raw function) grid_x grid_y grid_z block_x block_y block_z)).
#[global] Instance body : Body t := {|
  body_encode := encode; body_decode := decode;
  body_fits self := Handle.wf (function self) /\
    fits 32 (grid_x self) /\
    fits 32 (grid_y self) /\
    fits 32 (grid_z self) /\
    fits 32 (block_x self) /\
    fits 32 (block_y self) /\
    fits 32 (block_z self) |}.
End LaunchKernelRequest.

Lemma cuda_LaunchKernelRequest_fixed : FixedBody LaunchKernelRequest.t 32.
Proof. solve_fixed_body LaunchKernelRequest.encode LaunchKernelRequest.decode. Qed.

(** Request body for [cuda_op::MEMCPY_HTOD].  This carries only the copy
    descriptor; the [len] bytes ride the bulk plane. The reply is an empty
    (ack) body, so there is no response struct. *)
Module MemcpyHtoDRequest.
Record t := mk { dst : Handle.t; len : Z }.
Definition encode (self : t) (out : list byte) : list byte :=
  out <+ u64_le (Handle.raw (dst self))
      <+ u64_le (len self).
Definition decode : list byte -> presult t := read_all (
  dst ← u64;
  len ← u64;
  mret (mk (Handle.from_raw dst) len)).
#[global] Instance body : Body t := {|
  body_encode := encode; body_decode := decode;
  body_fits self := Handle.wf (dst self) /\
    fits 64 (len self) |}.
End MemcpyHtoDRequest.

Lemma cuda_MemcpyHtoDRequest_fixed : FixedBody MemcpyHtoDRequest.t 16.
Proof. solve_fixed_body MemcpyHtoDRequest.encode MemcpyHtoDRequest.decode. Qed.

(** Request body for [cuda_op::MEMCPY_DTOH].  This carries only the copy
    descriptor; the copied bytes ride the bulk plane. *)
Module MemcpyDtoHRequest.
Record t := mk { src : Handle.t; len : Z }.
Definition encode (self : t) (out : list byte) : list byte :=
  out <+ u64_le (Handle.raw (src self))
      <+ u64_le (len self).
Definition decode : list byte -> presult t := read_all (
  src ← u64;
  len ← u64;
  mret (mk (Handle.from_raw src) len)).
#[global] Instance body : Body t := {|
  body_encode := encode; body_decode := decode;
  body_fits self := Handle.wf (src self) /\
    fits 64 (len self) |}.
End MemcpyDtoHRequest.

Lemma cuda_MemcpyDtoHRequest_fixed : FixedBody MemcpyDtoHRequest.t 16.
Proof. solve_fixed_body MemcpyDtoHRequest.encode MemcpyDtoHRequest.decode. Qed.

(** Response body for [cuda_op::MEMCPY_DTOH]. *)
Module MemcpyDtoHResponse.
Record t := mk { copied : Z }.
Definition encode (self : t) (out : list byte) : list byte :=
  out <+ u64_le (copied self).
Definition decode : list byte -> presult t := read_all (
  copied ← u64;
  mret (mk copied)).
#[global] Instance body : Body t := {|
  body_encode := encode; body_decode := decode;
  body_fits self := fits 64 (copied self) |}.
End MemcpyDtoHResponse.

Lemma cuda_MemcpyDtoHResponse_fixed : FixedBody MemcpyDtoHResponse.t 8.
Proof. solve_fixed_body MemcpyDtoHResponse.encode MemcpyDtoHResponse.decode. Qed.

End cuda.

Module hip.

(** Request body for [hip_op::MALLOC]. *)
Module MallocRequest.
Record t := mk { size : Z }.
Definition encode (self : t) (out : list byte) : list byte :=
  out <+ u64_le (size self).
Definition decode : list byte -> presult t := read_all (
  size ← u64;
  mret (mk size)).
#[global] Instance body : Body t := {|
  body_encode := encode; body_decode := decode;
  body_fits self := fits 64 (size self) |}.
End MallocRequest.

Lemma hip_MallocRequest_fixed : FixedBody MallocRequest.t 8.
Proof. solve_fixed_body MallocRequest.encode MallocRequest.decode. Qed.

(** Response body for [hip_op::MALLOC]. *)
Module MallocResponse.
Record t := mk { dptr : Handle.t }.
Definition encode (self : t) (out : list byte) : list byte :=
  out <+ u64_le (Handle.raw (dptr self)).
Definition decode : list byte -> presult t := read_all (
  dptr ← u64;
  mret (mk (Handle.from_raw dptr))).
#[global] Instance body : Body t := {|
  body_encode := encode; body_decode := decode;
  body_fits self := Handle.wf (dptr self) |}.
End MallocResponse.

Lemma hip_MallocResponse_fixed : FixedBody MallocResponse.t 8.
Proof. solve_fixed_body MallocResponse.encode MallocResponse.decode. Qed.

(** Request body for [hip_op::FREE].  The reply is an empty (ack) body, so
    there is no response struct. *)
Module FreeRequest.
Record t := mk { dptr : Handle.t }.
Definition encode (self : t) (out : list byte) : list byte :=
  out <+ u64_le (Handle.raw (dptr self)).
Definition decode : list byte -> presult t := read_all (
  dptr ← u64;
  mret (mk (Handle.from_raw dptr))).
#[global] Instance body : Body t := {|
  body_encode := encode; body_decode := decode;
  body_fits self := Handle.wf (dptr self) |}.
End FreeRequest.

Lemma hip_FreeRequest_fixed : FixedBody FreeRequest.t 8.
Proof. solve_fixed_body FreeRequest.encode FreeRequest.decode. Qed.

(** Response body for [hip_op::STREAM_CREATE].  The request body is empty, so
    there is no request struct. *)
Module StreamCreateResponse.
Record t := mk { stream : Handle.t }.
Definition encode (self : t) (out : list byte) : list byte :=
  out <+ u64_le (Handle.raw (stream self)).
Definition decode : list byte -> presult t := read_all (
  stream ← u64;
  mret (mk (Handle.from_raw stream))).
#[global] Instance body : Body t := {|
  body_encode := encode; body_decode := decode;
  body_fits self := Handle.wf (stream self) |}.
End StreamCreateResponse.

Lemma hip_StreamCreateResponse_fixed : FixedBody StreamCreateResponse.t 8.
Proof. solve_fixed_body StreamCreateResponse.encode StreamCreateResponse.decode. Qed.

End hip.

Module cl.

(** Response body for [cl_op::CREATE_CONTEXT].  The request body is empty, so
    there is no request struct. *)
Module CreateContextResponse.
Record t := mk { context : Handle.t }.
Definition encode (self : t) (out : list byte) : list byte :=
  out <+ u64_le (Handle.raw (context self)).
Definition decode : list byte -> presult t := read_all (
  context ← u64;
  mret (mk (Handle.from_raw context))).
#[global] Instance body : Body t := {|
  body_encode := encode; body_decode := decode;
  body_fits self := Handle.wf (context self) |}.
End CreateContextResponse.

Lemma cl_CreateContextResponse_fixed : FixedBody CreateContextResponse.t 8.
Proof. solve_fixed_body CreateContextResponse.encode CreateContextResponse.decode. Qed.

(** Request body for [cl_op::CREATE_BUFFER]. *)
Module CreateBufferRequest.
Record t := mk { context : Handle.t; size : Z }.
Definition encode (self : t) (out : list byte) : list byte :=
  out <+ u64_le (Handle.raw (context self))
      <+ u64_le (size self).
Definition decode : list byte -> presult t := read_all (
  context ← u64;
  size ← u64;
  mret (mk (Handle.from_raw context) size)).
#[global] Instance body : Body t := {|
  body_encode := encode; body_decode := decode;
  body_fits self := Handle.wf (context self) /\
    fits 64 (size self) |}.
End CreateBufferRequest.

Lemma cl_CreateBufferRequest_fixed : FixedBody CreateBufferRequest.t 16.
Proof. solve_fixed_body CreateBufferRequest.encode CreateBufferRequest.decode. Qed.

(** Response body for [cl_op::CREATE_BUFFER]. *)
Module CreateBufferResponse.
Record t := mk { mem : Handle.t }.
Definition encode (self : t) (out : list byte) : list byte :=
  out <+ u64_le (Handle.raw (mem self)).
Definition decode : list byte -> presult t := read_all (
  mem ← u64;
  mret (mk (Handle.from_raw mem))).
#[global] Instance body : Body t := {|
  body_encode := encode; body_decode := decode;
  body_fits self := Handle.wf (mem self) |}.
End CreateBufferResponse.

Lemma cl_CreateBufferResponse_fixed : FixedBody CreateBufferResponse.t 8.
Proof. solve_fixed_body CreateBufferResponse.encode CreateBufferResponse.decode. Qed.

(** Request body for [cl_op::RELEASE_BUFFER].  The reply is an empty (ack)
    body, so there is no response struct. *)
Module ReleaseBufferRequest.
Record t := mk { mem : Handle.t }.
Definition encode (self : t) (out : list byte) : list byte :=
  out <+ u64_le (Handle.raw (mem self)).
Definition decode : list byte -> presult t := read_all (
  mem ← u64;
  mret (mk (Handle.from_raw mem))).
#[global] Instance body : Body t := {|
  body_encode := encode; body_decode := decode;
  body_fits self := Handle.wf (mem self) |}.
End ReleaseBufferRequest.

Lemma cl_ReleaseBufferRequest_fixed : FixedBody ReleaseBufferRequest.t 8.
Proof. solve_fixed_body ReleaseBufferRequest.encode ReleaseBufferRequest.decode. Qed.

End cl.

Module l0.

(** Response body for [l0_op::CONTEXT_CREATE].  The request body is empty, so
    there is no request struct. *)
Module ContextCreateResponse.
Record t := mk { context : Handle.t }.
Definition encode (self : t) (out : list byte) : list byte :=
  out <+ u64_le (Handle.raw (context self)).
Definition decode : list byte -> presult t := read_all (
  context ← u64;
  mret (mk (Handle.from_raw context))).
#[global] Instance body : Body t := {|
  body_encode := encode; body_decode := decode;
  body_fits self := Handle.wf (context self) |}.
End ContextCreateResponse.

Lemma l0_ContextCreateResponse_fixed : FixedBody ContextCreateResponse.t 8.
Proof. solve_fixed_body ContextCreateResponse.encode ContextCreateResponse.decode. Qed.

(** Request body for [l0_op::MEM_ALLOC_DEVICE]. *)
Module MemAllocDeviceRequest.
Record t := mk { context : Handle.t; size : Z }.
Definition encode (self : t) (out : list byte) : list byte :=
  out <+ u64_le (Handle.raw (context self))
      <+ u64_le (size self).
Definition decode : list byte -> presult t := read_all (
  context ← u64;
  size ← u64;
  mret (mk (Handle.from_raw context) size)).
#[global] Instance body : Body t := {|
  body_encode := encode; body_decode := decode;
  body_fits self := Handle.wf (context self) /\
    fits 64 (size self) |}.
End MemAllocDeviceRequest.

Lemma l0_MemAllocDeviceRequest_fixed : FixedBody MemAllocDeviceRequest.t 16.
Proof. solve_fixed_body MemAllocDeviceRequest.encode MemAllocDeviceRequest.decode. Qed.

(** Response body for [l0_op::MEM_ALLOC_DEVICE]. *)
Module MemAllocDeviceResponse.
Record t := mk { ptr : Handle.t }.
Definition encode (self : t) (out : list byte) : list byte :=
  out <+ u64_le (Handle.raw (ptr self)).
Definition decode : list byte -> presult t := read_all (
  ptr ← u64;
  mret (mk (Handle.from_raw ptr))).
#[global] Instance body : Body t := {|
  body_encode := encode; body_decode := decode;
  body_fits self := Handle.wf (ptr self) |}.
End MemAllocDeviceResponse.

Lemma l0_MemAllocDeviceResponse_fixed : FixedBody MemAllocDeviceResponse.t 8.
Proof. solve_fixed_body MemAllocDeviceResponse.encode MemAllocDeviceResponse.decode. Qed.

(** Request body for [l0_op::MEM_FREE].  The reply is an empty (ack) body, so
    there is no response struct. *)
Module MemFreeRequest.
Record t := mk { ptr : Handle.t }.
Definition encode (self : t) (out : list byte) : list byte :=
  out <+ u64_le (Handle.raw (ptr self)).
Definition decode : list byte -> presult t := read_all (
  ptr ← u64;
  mret (mk (Handle.from_raw ptr))).
#[global] Instance body : Body t := {|
  body_encode := encode; body_decode := decode;
  body_fits self := Handle.wf (ptr self) |}.
End MemFreeRequest.

Lemma l0_MemFreeRequest_fixed : FixedBody MemFreeRequest.t 8.
Proof. solve_fixed_body MemFreeRequest.encode MemFreeRequest.decode. Qed.

End l0.

Module video.

(** Request body for [video_op::CREATE_DECODE_SESSION]. *)
Module CreateDecodeSessionRequest.
Record t := mk { codec : Z; width : Z; height : Z }.
Definition encode (self : t) (out : list byte) : list byte :=
  out <+ u32_le (codec self)
      <+ u32_le (width self)
      <+ u32_le (height self).
Definition decode : list byte -> presult t := read_all (
  codec ← u32;
  width ← u32;
  height ← u32;
  mret (mk codec width height)).
#[global] Instance body : Body t := {|
  body_encode := encode; body_decode := decode;
  body_fits self := fits 32 (codec self) /\
    fits 32 (width self) /\
    fits 32 (height self) |}.
End CreateDecodeSessionRequest.

Lemma video_CreateDecodeSessionRequest_fixed : FixedBody CreateDecodeSessionRequest.t 12.
Proof. solve_fixed_body CreateDecodeSessionRequest.encode CreateDecodeSessionRequest.decode. Qed.

(** Response body for [video_op::CREATE_DECODE_SESSION]. *)
Module CreateDecodeSessionResponse.
Record t := mk { session : Handle.t }.
Definition encode (self : t) (out : list byte) : list byte :=
  out <+ u64_le (Handle.raw (session self)).
Definition decode : list byte -> presult t := read_all (
  session ← u64;
  mret (mk (Handle.from_raw session))).
#[global] Instance body : Body t := {|
  body_encode := encode; body_decode := decode;
  body_fits self := Handle.wf (session self) |}.
End CreateDecodeSessionResponse.

Lemma video_CreateDecodeSessionResponse_fixed : FixedBody CreateDecodeSessionResponse.t 8.
Proof. solve_fixed_body CreateDecodeSessionResponse.encode CreateDecodeSessionResponse.decode. Qed.

(** Request body for [video_op::DECODE_FRAME]. *)
Module DecodeFrameRequest.
Record t := mk { session : Handle.t; bitstream_len : Z }.
Definition encode (self : t) (out : list byte) : list byte :=
  out <+ u64_le (Handle.raw (session self))
      <+ u32_le (bitstream_len self).
Definition decode : list byte -> presult t := read_all (
  session ← u64;
  bitstream_len ← u32;
  mret (mk (Handle.from_raw session) bitstream_len)).
#[global] Instance body : Body t := {|
  body_encode := encode; body_decode := decode;
  body_fits self := Handle.wf (session self) /\
    fits 32 (bitstream_len self) |}.
End DecodeFrameRequest.

Lemma video_DecodeFrameRequest_fixed : FixedBody DecodeFrameRequest.t 12.
Proof. solve_fixed_body DecodeFrameRequest.encode DecodeFrameRequest.decode. Qed.

(** Response body for [video_op::DECODE_FRAME]. *)
Module DecodeFrameResponse.
Record t := mk { frame_index : Z }.
Definition encode (self : t) (out : list byte) : list byte :=
  out <+ u32_le (frame_index self).
Definition decode : list byte -> presult t := read_all (
  frame_index ← u32;
  mret (mk frame_index)).
#[global] Instance body : Body t := {|
  body_encode := encode; body_decode := decode;
  body_fits self := fits 32 (frame_index self) |}.
End DecodeFrameResponse.

Lemma video_DecodeFrameResponse_fixed : FixedBody DecodeFrameResponse.t 4.
Proof. solve_fixed_body DecodeFrameResponse.encode DecodeFrameResponse.decode. Qed.

(** Request body for [video_op::DESTROY_SESSION].  The reply is an empty (ack)
    body, so there is no response struct. *)
Module DestroySessionRequest.
Record t := mk { session : Handle.t }.
Definition encode (self : t) (out : list byte) : list byte :=
  out <+ u64_le (Handle.raw (session self)).
Definition decode : list byte -> presult t := read_all (
  session ← u64;
  mret (mk (Handle.from_raw session))).
#[global] Instance body : Body t := {|
  body_encode := encode; body_decode := decode;
  body_fits self := Handle.wf (session self) |}.
End DestroySessionRequest.

Lemma video_DestroySessionRequest_fixed : FixedBody DestroySessionRequest.t 8.
Proof. solve_fixed_body DestroySessionRequest.encode DestroySessionRequest.decode. Qed.

End video.

Module wgpu.

(** Response body for [wgpu_op::REQUEST_DEVICE].  The request body is empty,
    so there is no request struct. *)
Module RequestDeviceResponse.
Record t := mk { device : Handle.t }.
Definition encode (self : t) (out : list byte) : list byte :=
  out <+ u64_le (Handle.raw (device self)).
Definition decode : list byte -> presult t := read_all (
  device ← u64;
  mret (mk (Handle.from_raw device))).
#[global] Instance body : Body t := {|
  body_encode := encode; body_decode := decode;
  body_fits self := Handle.wf (device self) |}.
End RequestDeviceResponse.

Lemma wgpu_RequestDeviceResponse_fixed : FixedBody RequestDeviceResponse.t 8.
Proof. solve_fixed_body RequestDeviceResponse.encode RequestDeviceResponse.decode. Qed.

(** Request body for [wgpu_op::CREATE_BUFFER]. *)
Module CreateBufferRequest.
Record t := mk { device : Handle.t; size : Z; usage : Z }.
Definition encode (self : t) (out : list byte) : list byte :=
  out <+ u64_le (Handle.raw (device self))
      <+ u64_le (size self)
      <+ u32_le (usage self).
Definition decode : list byte -> presult t := read_all (
  device ← u64;
  size ← u64;
  usage ← u32;
  mret (mk (Handle.from_raw device) size usage)).
#[global] Instance body : Body t := {|
  body_encode := encode; body_decode := decode;
  body_fits self := Handle.wf (device self) /\
    fits 64 (size self) /\
    fits 32 (usage self) |}.
End CreateBufferRequest.

Lemma wgpu_CreateBufferRequest_fixed : FixedBody CreateBufferRequest.t 20.
Proof. solve_fixed_body CreateBufferRequest.encode CreateBufferRequest.decode. Qed.

(** Response body for [wgpu_op::CREATE_BUFFER]. *)
Module CreateBufferResponse.
Record t := mk { buffer : Handle.t }.
Definition encode (self : t) (out : list byte) : list byte :=
  out <+ u64_le (Handle.raw (buffer self)).
Definition decode : list byte -> presult t := read_all (
  buffer ← u64;
  mret (mk (Handle.from_raw buffer))).
#[global] Instance body : Body t := {|
  body_encode := encode; body_decode := decode;
  body_fits self := Handle.wf (buffer self) |}.
End CreateBufferResponse.

Lemma wgpu_CreateBufferResponse_fixed : FixedBody CreateBufferResponse.t 8.
Proof. solve_fixed_body CreateBufferResponse.encode CreateBufferResponse.decode. Qed.

(** Request body for [wgpu_op::DESTROY_BUFFER].  The reply is an empty (ack)
    body, so there is no response struct. *)
Module DestroyBufferRequest.
Record t := mk { buffer : Handle.t }.
Definition encode (self : t) (out : list byte) : list byte :=
  out <+ u64_le (Handle.raw (buffer self)).
Definition decode : list byte -> presult t := read_all (
  buffer ← u64;
  mret (mk (Handle.from_raw buffer))).
#[global] Instance body : Body t := {|
  body_encode := encode; body_decode := decode;
  body_fits self := Handle.wf (buffer self) |}.
End DestroyBufferRequest.

Lemma wgpu_DestroyBufferRequest_fixed : FixedBody DestroyBufferRequest.t 8.
Proof. solve_fixed_body DestroyBufferRequest.encode DestroyBufferRequest.decode. Qed.

End wgpu.

Module optix.

(** Response body for [optix_op::CONTEXT_CREATE].  The request body is empty,
    so there is no request struct. *)
Module ContextCreateResponse.
Record t := mk { context : Handle.t }.
Definition encode (self : t) (out : list byte) : list byte :=
  out <+ u64_le (Handle.raw (context self)).
Definition decode : list byte -> presult t := read_all (
  context ← u64;
  mret (mk (Handle.from_raw context))).
#[global] Instance body : Body t := {|
  body_encode := encode; body_decode := decode;
  body_fits self := Handle.wf (context self) |}.
End ContextCreateResponse.

Lemma optix_ContextCreateResponse_fixed : FixedBody ContextCreateResponse.t 8.
Proof. solve_fixed_body ContextCreateResponse.encode ContextCreateResponse.decode. Qed.

(** Request body for [optix_op::PIPELINE_CREATE]. *)
Module PipelineCreateRequest.
Record t := mk { context : Handle.t }.
Definition encode (self : t) (out : list byte) : list byte :=
  out <+ u64_le (Handle.raw (context self)).
Definition decode : list byte -> presult t := read_all (
  context ← u64;
  mret (mk (Handle.from_raw context))).
#[global] Instance body : Body t := {|
  body_encode := encode; body_decode := decode;
  body_fits self := Handle.wf (context self) |}.
End PipelineCreateRequest.

Lemma optix_PipelineCreateRequest_fixed : FixedBody PipelineCreateRequest.t 8.
Proof. solve_fixed_body PipelineCreateRequest.encode PipelineCreateRequest.decode. Qed.

(** Response body for [optix_op::PIPELINE_CREATE]. *)
Module PipelineCreateResponse.
Record t := mk { pipeline : Handle.t }.
Definition encode (self : t) (out : list byte) : list byte :=
  out <+ u64_le (Handle.raw (pipeline self)).
Definition decode : list byte -> presult t := read_all (
  pipeline ← u64;
  mret (mk (Handle.from_raw pipeline))).
#[global] Instance body : Body t := {|
  body_encode := encode; body_decode := decode;
  body_fits self := Handle.wf (pipeline self) |}.
End PipelineCreateResponse.

Lemma optix_PipelineCreateResponse_fixed : FixedBody PipelineCreateResponse.t 8.
Proof. solve_fixed_body PipelineCreateResponse.encode PipelineCreateResponse.decode. Qed.

(** Request body for [optix_op::DESTROY].  The reply is an empty (ack) body,
    so there is no response struct. *)
Module DestroyRequest.
Record t := mk { handle : Handle.t }.
Definition encode (self : t) (out : list byte) : list byte :=
  out <+ u64_le (Handle.raw (handle self)).
Definition decode : list byte -> presult t := read_all (
  handle ← u64;
  mret (mk (Handle.from_raw handle))).
#[global] Instance body : Body t := {|
  body_encode := encode; body_decode := decode;
  body_fits self := Handle.wf (handle self) |}.
End DestroyRequest.

Lemma optix_DestroyRequest_fixed : FixedBody DestroyRequest.t 8.
Proof. solve_fixed_body DestroyRequest.encode DestroyRequest.decode. Qed.

End optix.

Module sycl.

(** Response body for [sycl_op::QUEUE_CREATE].  The request body is empty, so
    there is no request struct. *)
Module QueueCreateResponse.
Record t := mk { queue : Handle.t }.
Definition encode (self : t) (out : list byte) : list byte :=
  out <+ u64_le (Handle.raw (queue self)).
Definition decode : list byte -> presult t := read_all (
  queue ← u64;
  mret (mk (Handle.from_raw queue))).
#[global] Instance body : Body t := {|
  body_encode := encode; body_decode := decode;
  body_fits self := Handle.wf (queue self) |}.
End QueueCreateResponse.

Lemma sycl_QueueCreateResponse_fixed : FixedBody QueueCreateResponse.t 8.
Proof. solve_fixed_body QueueCreateResponse.encode QueueCreateResponse.decode. Qed.

(** Request body for [sycl_op::MALLOC_DEVICE]. *)
Module MallocDeviceRequest.
Record t := mk { queue : Handle.t; size : Z }.
Definition encode (self : t) (out : list byte) : list byte :=
  out <+ u64_le (Handle.raw (queue self))
      <+ u64_le (size self).
Definition decode : list byte -> presult t := read_all (
  queue ← u64;
  size ← u64;
  mret (mk (Handle.from_raw queue) size)).
#[global] Instance body : Body t := {|
  body_encode := encode; body_decode := decode;
  body_fits self := Handle.wf (queue self) /\
    fits 64 (size self) |}.
End MallocDeviceRequest.

Lemma sycl_MallocDeviceRequest_fixed : FixedBody MallocDeviceRequest.t 16.
Proof. solve_fixed_body MallocDeviceRequest.encode MallocDeviceRequest.decode. Qed.

(** Response body for [sycl_op::MALLOC_DEVICE]. *)
Module MallocDeviceResponse.
Record t := mk { ptr : Handle.t }.
Definition encode (self : t) (out : list byte) : list byte :=
  out <+ u64_le (Handle.raw (ptr self)).
Definition decode : list byte -> presult t := read_all (
  ptr ← u64;
  mret (mk (Handle.from_raw ptr))).
#[global] Instance body : Body t := {|
  body_encode := encode; body_decode := decode;
  body_fits self := Handle.wf (ptr self) |}.
End MallocDeviceResponse.

Lemma sycl_MallocDeviceResponse_fixed : FixedBody MallocDeviceResponse.t 8.
Proof. solve_fixed_body MallocDeviceResponse.encode MallocDeviceResponse.decode. Qed.

(** Request body for [sycl_op::FREE].  The reply is an empty (ack) body, so
    there is no response struct. *)
Module FreeRequest.
Record t := mk { ptr : Handle.t }.
Definition encode (self : t) (out : list byte) : list byte :=
  out <+ u64_le (Handle.raw (ptr self)).
Definition decode : list byte -> presult t := read_all (
  ptr ← u64;
  mret (mk (Handle.from_raw ptr))).
#[global] Instance body : Body t := {|
  body_encode := encode; body_decode := decode;
  body_fits self := Handle.wf (ptr self) |}.
End FreeRequest.

Lemma sycl_FreeRequest_fixed : FixedBody FreeRequest.t 8.
Proof. solve_fixed_body FreeRequest.encode FreeRequest.decode. Qed.

End sycl.

Module amf.

(** Request body for [amf_op::CREATE_ENCODER]. *)
Module CreateEncoderRequest.
Record t := mk { codec : Z; width : Z; height : Z }.
Definition encode (self : t) (out : list byte) : list byte :=
  out <+ u32_le (codec self)
      <+ u32_le (width self)
      <+ u32_le (height self).
Definition decode : list byte -> presult t := read_all (
  codec ← u32;
  width ← u32;
  height ← u32;
  mret (mk codec width height)).
#[global] Instance body : Body t := {|
  body_encode := encode; body_decode := decode;
  body_fits self := fits 32 (codec self) /\
    fits 32 (width self) /\
    fits 32 (height self) |}.
End CreateEncoderRequest.

Lemma amf_CreateEncoderRequest_fixed : FixedBody CreateEncoderRequest.t 12.
Proof. solve_fixed_body CreateEncoderRequest.encode CreateEncoderRequest.decode. Qed.

(** Response body for [amf_op::CREATE_ENCODER]. *)
Module CreateEncoderResponse.
Record t := mk { encoder : Handle.t }.
Definition encode (self : t) (out : list byte) : list byte :=
  out <+ u64_le (Handle.raw (encoder self)).
Definition decode : list byte -> presult t := read_all (
  encoder ← u64;
  mret (mk (Handle.from_raw encoder))).
#[global] Instance body : Body t := {|
  body_encode := encode; body_decode := decode;
  body_fits self := Handle.wf (encoder self) |}.
End CreateEncoderResponse.

Lemma amf_CreateEncoderResponse_fixed : FixedBody CreateEncoderResponse.t 8.
Proof. solve_fixed_body CreateEncoderResponse.encode CreateEncoderResponse.decode. Qed.

(** Request body for [amf_op::ENCODE_FRAME]. *)
Module EncodeFrameRequest.
Record t := mk { encoder : Handle.t; frame_len : Z }.
Definition encode (self : t) (out : list byte) : list byte :=
  out <+ u64_le (Handle.raw (encoder self))
      <+ u32_le (frame_len self).
Definition decode : list byte -> presult t := read_all (
  encoder ← u64;
  frame_len ← u32;
  mret (mk (Handle.from_raw encoder) frame_len)).
#[global] Instance body : Body t := {|
  body_encode := encode; body_decode := decode;
  body_fits self := Handle.wf (encoder self) /\
    fits 32 (frame_len self) |}.
End EncodeFrameRequest.

Lemma amf_EncodeFrameRequest_fixed : FixedBody EncodeFrameRequest.t 12.
Proof. solve_fixed_body EncodeFrameRequest.encode EncodeFrameRequest.decode. Qed.

(** Response body for [amf_op::ENCODE_FRAME]. *)
Module EncodeFrameResponse.
Record t := mk { packet_len : Z }.
Definition encode (self : t) (out : list byte) : list byte :=
  out <+ u32_le (packet_len self).
Definition decode : list byte -> presult t := read_all (
  packet_len ← u32;
  mret (mk packet_len)).
#[global] Instance body : Body t := {|
  body_encode := encode; body_decode := decode;
  body_fits self := fits 32 (packet_len self) |}.
End EncodeFrameResponse.

Lemma amf_EncodeFrameResponse_fixed : FixedBody EncodeFrameResponse.t 4.
Proof. solve_fixed_body EncodeFrameResponse.encode EncodeFrameResponse.decode. Qed.

(** Request body for [amf_op::DESTROY_ENCODER].  The reply is an empty (ack)
    body, so there is no response struct. *)
Module DestroyEncoderRequest.
Record t := mk { encoder : Handle.t }.
Definition encode (self : t) (out : list byte) : list byte :=
  out <+ u64_le (Handle.raw (encoder self)).
Definition decode : list byte -> presult t := read_all (
  encoder ← u64;
  mret (mk (Handle.from_raw encoder))).
#[global] Instance body : Body t := {|
  body_encode := encode; body_decode := decode;
  body_fits self := Handle.wf (encoder self) |}.
End DestroyEncoderRequest.

Lemma amf_DestroyEncoderRequest_fixed : FixedBody DestroyEncoderRequest.t 8.
Proof. solve_fixed_body DestroyEncoderRequest.encode DestroyEncoderRequest.decode. Qed.

End amf.
