(* ===== verification/Codecs.v ===== *)
(** Every fixed-size body of the protocol in one list: the handshake bodies, the
    Vulkan bodies and those of the other ten APIs, each with its size on the
    wire. The codec property of the protocol is stated once, over this list. *)
From S2P Require Import Wire VkBodies ApiBodies.

Local Open Scope Z_scope.

Record Codec := mkCodec {
  codec_type : Type;
  codec_body : Body codec_type;
  codec_len : nat;
}.

Definition codec (A : Type) `{Body A} (n : nat) : Codec := mkCodec A _ n.

(** The laws of a packaged codec. *)
Definition lawful (c : Codec) : Prop :=
  @FixedBody (codec_type c) (codec_body c) (codec_len c).

Definition codecs : list Codec := [
  codec Hello.t 12;
  codec Welcome.t 20;
  codec vk.CreateInstanceRequest.t 4;
  codec vk.CreateInstanceResponse.t 8;
  codec vk.EnumeratePhysicalDevicesRequest.t 8;
  codec vk.CreateDeviceRequest.t 8;
  codec vk.CreateDeviceResponse.t 8;
  codec vk.GetDeviceQueueRequest.t 16;
  codec vk.GetDeviceQueueResponse.t 8;
  codec vk.AllocateMemoryRequest.t 16;
  codec vk.AllocateMemoryResponse.t 8;
  codec vk.CreateBufferRequest.t 20;
  codec vk.CreateBufferResponse.t 8;
  codec vk.BindBufferMemoryRequest.t 24;
  codec vk.CreateCommandPoolRequest.t 12;
  codec vk.CreateCommandPoolResponse.t 8;
  codec vk.AllocateCommandBufferRequest.t 8;
  codec vk.AllocateCommandBufferResponse.t 8;
  codec vk.QueueSubmitRequest.t 16;
  codec vk.CmdCopyBufferRequest.t 32;
  codec vk.CmdDrawRequest.t 16;
  codec vk.DestroyBufferRequest.t 8;
  codec vk.FreeMemoryRequest.t 8;
  codec vk.DestroyCommandPoolRequest.t 8;
  codec gl.CreateContextResponse.t 8;
  codec gl.MakeCurrentRequest.t 8;
  codec gl.GenBufferRequest.t 8;
  codec gl.GenBufferResponse.t 8;
  codec gl.SwapBuffersRequest.t 8;
  codec gl.DeleteBufferRequest.t 8;
  codec cuda.CtxCreateRequest.t 4;
  codec cuda.CtxCreateResponse.t 8;
  codec cuda.MemAllocRequest.t 16;
  codec cuda.MemAllocResponse.t 8;
  codec cuda.MemFreeRequest.t 8;
  codec cuda.LaunchKernelRequest.t 32;
  codec cuda.MemcpyHtoDRequest.t 16;
  codec cuda.MemcpyDtoHRequest.t 16;
  codec cuda.MemcpyDtoHResponse.t 8;
  codec hip.MallocRequest.t 8;
  codec hip.MallocResponse.t 8;
  codec hip.FreeRequest.t 8;
  codec hip.StreamCreateResponse.t 8;
  codec cl.CreateContextResponse.t 8;
  codec cl.CreateBufferRequest.t 16;
  codec cl.CreateBufferResponse.t 8;
  codec cl.ReleaseBufferRequest.t 8;
  codec l0.ContextCreateResponse.t 8;
  codec l0.MemAllocDeviceRequest.t 16;
  codec l0.MemAllocDeviceResponse.t 8;
  codec l0.MemFreeRequest.t 8;
  codec video.CreateDecodeSessionRequest.t 12;
  codec video.CreateDecodeSessionResponse.t 8;
  codec video.DecodeFrameRequest.t 12;
  codec video.DecodeFrameResponse.t 4;
  codec video.DestroySessionRequest.t 8;
  codec wgpu.RequestDeviceResponse.t 8;
  codec wgpu.CreateBufferRequest.t 20;
  codec wgpu.CreateBufferResponse.t 8;
  codec wgpu.DestroyBufferRequest.t 8;
  codec optix.ContextCreateResponse.t 8;
  codec optix.PipelineCreateRequest.t 8;
  codec optix.PipelineCreateResponse.t 8;
  codec optix.DestroyRequest.t 8;
  codec sycl.QueueCreateResponse.t 8;
  codec sycl.MallocDeviceRequest.t 16;
  codec sycl.MallocDeviceResponse.t 8;
  codec sycl.FreeRequest.t 8;
  codec amf.CreateEncoderRequest.t 12;
  codec amf.CreateEncoderResponse.t 8;
  codec amf.EncodeFrameRequest.t 12;
  codec amf.EncodeFrameResponse.t 4;
  codec amf.DestroyEncoderRequest.t 8
].

#[export] Hint Resolve Hello_fixed Welcome_fixed : graftx.
#[export] Hint Resolve
  vk.vk_CreateInstanceRequest_fixed
  vk.vk_CreateInstanceResponse_fixed
  vk.vk_EnumeratePhysicalDevicesRequest_fixed
  vk.vk_CreateDeviceRequest_fixed
  vk.vk_CreateDeviceResponse_fixed
  vk.vk_GetDeviceQueueRequest_fixed
  vk.vk_GetDeviceQueueResponse_fixed
  vk.vk_AllocateMemoryRequest_fixed
  vk.vk_AllocateMemoryResponse_fixed
  vk.vk_CreateBufferRequest_fixed
  vk.vk_CreateBufferResponse_fixed
  vk.vk_BindBufferMemoryRequest_fixed
  vk.vk_CreateCommandPoolRequest_fixed
  vk.vk_CreateCommandPoolResponse_fixed
  vk.vk_AllocateCommandBufferRequest_fixed
  vk.vk_AllocateCommandBufferResponse_fixed
  vk.vk_QueueSubmitRequest_fixed
  vk.vk_CmdCopyBufferRequest_fixed
  vk.vk_CmdDrawRequest_fixed
  vk.vk_DestroyBufferRequest_fixed
  vk.vk_FreeMemoryRequest_fixed
  vk.vk_DestroyCommandPoolRequest_fixed
  gl.gl_CreateContextResponse_fixed
  gl.gl_MakeCurrentRequest_fixed
  gl.gl_GenBufferRequest_fixed
  gl.gl_GenBufferResponse_fixed
  gl.gl_SwapBuffersRequest_fixed
  gl.gl_DeleteBufferRequest_fixed
  cuda.cuda_CtxCreateRequest_fixed
  cuda.cuda_CtxCreateResponse_fixed
  cuda.cuda_MemAllocRequest_fixed
  cuda.cuda_MemAllocResponse_fixed
  cuda.cuda_MemFreeRequest_fixed
  cuda.cuda_LaunchKernelRequest_fixed
  cuda.cuda_MemcpyHtoDRequest_fixed
  cuda.cuda_MemcpyDtoHRequest_fixed
  cuda.cuda_MemcpyDtoHResponse_fixed
  hip.hip_MallocRequest_fixed
  hip.hip_MallocResponse_fixed
  hip.hip_FreeRequest_fixed
  hip.hip_StreamCreateResponse_fixed
  cl.cl_CreateContextResponse_fixed
  cl.cl_CreateBufferRequest_fixed
  cl.cl_CreateBufferResponse_fixed
  cl.cl_ReleaseBufferRequest_fixed
  l0.l0_ContextCreateResponse_fixed
  l0.l0_MemAllocDeviceRequest_fixed
  l0.l0_MemAllocDeviceResponse_fixed
  l0.l0_MemFreeRequest_fixed
  video.video_CreateDecodeSessionRequest_fixed
  video.video_CreateDecodeSessionResponse_fixed
  video.video_DecodeFrameRequest_fixed
  video.video_DecodeFrameResponse_fixed
  video.video_DestroySessionRequest_fixed
  wgpu.wgpu_RequestDeviceResponse_fixed
  wgpu.wgpu_CreateBufferRequest_fixed
  wgpu.wgpu_CreateBufferResponse_fixed
  wgpu.wgpu_DestroyBufferRequest_fixed
  optix.optix_ContextCreateResponse_fixed
  optix.optix_PipelineCreateRequest_fixed
  optix.optix_PipelineCreateResponse_fixed
  optix.optix_DestroyRequest_fixed
  sycl.sycl_QueueCreateResponse_fixed
  sycl.sycl_MallocDeviceRequest_fixed
  sycl.sycl_MallocDeviceResponse_fixed
  sycl.sycl_FreeRequest_fixed
  amf.amf_CreateEncoderRequest_fixed
  amf.amf_CreateEncoderResponse_fixed
  amf.amf_EncodeFrameRequest_fixed
  amf.amf_EncodeFrameResponse_fixed
  amf.amf_DestroyEncoderRequest_fixed
  : graftx.

Lemma codecs_lawful : Forall lawful codecs.
Proof.
  unfold codecs, lawful, codec. repeat apply Forall_cons_2; [..|apply Forall_nil_2];
    cbn [codec_type codec_body codec_len]; auto with graftx.
Qed.

(** ** Consequences of the laws *)
Section fixed.
Context {A : Type} `{Body A} {n : nat} (HF : FixedBody A n).

(** A decoder succeeds exactly when the buffer holds a whole body. *)
Lemma fixed_decode_ok bs :
  (exists x, body_decode bs = Ok x) <-> (n <= length bs)%nat.
Proof.
  destruct (fixed_decode _ _ HF bs) as [(x & rest & _ & Hbs & E)|[Hl E]]; split; intros Hx.
  - subst bs. rewrite length_app, (fixed_length _ _ HF). lia.
  - by exists x.
  - destruct Hx as (x & Hx). congruence.
  - lia.
Qed.

(** Decoding is canonical: re-encoding gives back the bytes that were read. *)
Lemma fixed_decode_encode bs x :
  body_decode bs = Ok x -> body_fits x /\ body_encode x [] = take n bs.
Proof.
  intros E. destruct (fixed_decode _ _ HF bs) as [(y & rest & Hy & -> & E')|[_ E']];
    [|congruence].
  assert (x = y) as -> by congruence. split; [done|].
  rewrite <- (fixed_length _ _ HF y). by rewrite take_app_length.
Qed.

(** Short buffers: the only error is [UnexpectedEof]. *)
Lemma fixed_decode_err bs e :
  body_decode bs = Err e -> e = UnexpectedEof /\ (length bs < n)%nat.
Proof.
  intros E. destruct (fixed_decode _ _ HF bs) as [(y & rest & Hy & -> & E')|[Hl E']];
    [congruence|]. by split; [congruence|].
Qed.

(** Encoders are injective on the values of the Rust type. *)
Lemma fixed_encode_inj x y :
  body_fits x -> body_fits y -> body_encode x [] = body_encode y [] -> x = y.
Proof.
  intros Hx Hy E. pose proof (fixed_roundtrip _ _ HF x [] Hx) as E1.
  rewrite E, (fixed_roundtrip _ _ HF y [] Hy) in E1. congruence.
Qed.

Lemma fixed_encode_decode x : body_fits x -> body_decode (body_encode x []) = Ok x.
Proof. intros Hx. rewrite <- (app_nil_r (body_encode x [])). by apply fixed_roundtrip with n. Qed.
End fixed.


(** ** Laws found by type class resolution on the decoder or encoder *)
Class DecodeEof {A} (decode : list byte -> presult A) : Prop :=
  decode_eof bs e : decode bs = Err e -> e = UnexpectedEof.

Class EncodeLength {A} (encode : A -> list byte -> list byte) (n : nat) : Prop :=
  encode_length x : length (encode x []) = n.

#[export] Hint Mode EncodeLength + ! - : typeclass_instances.

#[export] Instance vk_CreateInstanceRequest_eof : DecodeEof vk.CreateInstanceRequest.decode :=
  fun bs e E => proj1 (fixed_decode_err vk.vk_CreateInstanceRequest_fixed bs e E).
#[export] Instance vk_CreateInstanceResponse_length : EncodeLength vk.CreateInstanceResponse.encode 8 :=
  fixed_length _ _ vk.vk_CreateInstanceResponse_fixed.
#[export] Instance vk_EnumeratePhysicalDevicesRequest_eof : DecodeEof vk.EnumeratePhysicalDevicesRequest.decode :=
  fun bs e E => proj1 (fixed_decode_err vk.vk_EnumeratePhysicalDevicesRequest_fixed bs e E).
#[export] Instance vk_CreateDeviceRequest_eof : DecodeEof vk.CreateDeviceRequest.decode :=
  fun bs e E => proj1 (fixed_decode_err vk.vk_CreateDeviceRequest_fixed bs e E).
#[export] Instance vk_CreateDeviceResponse_length : EncodeLength vk.CreateDeviceResponse.encode 8 :=
  fixed_length _ _ vk.vk_CreateDeviceResponse_fixed.
#[export] Instance vk_GetDeviceQueueRequest_eof : DecodeEof vk.GetDeviceQueueRequest.decode :=
  fun bs e E => proj1 (fixed_decode_err vk.vk_GetDeviceQueueRequest_fixed bs e E).
#[export] Instance vk_GetDeviceQueueResponse_length : EncodeLength vk.GetDeviceQueueResponse.encode 8 :=
  fixed_length _ _ vk.vk_GetDeviceQueueResponse_fixed.
#[export] Instance vk_AllocateMemoryRequest_eof : DecodeEof vk.AllocateMemoryRequest.decode :=
  fun bs e E => proj1 (fixed_decode_err vk.vk_AllocateMemoryRequest_fixed bs e E).
#[export] Instance vk_AllocateMemoryResponse_length : EncodeLength vk.AllocateMemoryResponse.encode 8 :=
  fixed_length _ _ vk.vk_AllocateMemoryResponse_fixed.
#[export] Instance vk_CreateBufferRequest_eof : DecodeEof vk.CreateBufferRequest.decode :=
  fun bs e E => proj1 (fixed_decode_err vk.vk_CreateBufferRequest_fixed bs e E).
#[export] Instance vk_CreateBufferResponse_length : EncodeLength vk.CreateBufferResponse.encode 8 :=
  fixed_length _ _ vk.vk_CreateBufferResponse_fixed.
#[export] Instance vk_BindBufferMemoryRequest_eof : DecodeEof vk.BindBufferMemoryRequest.decode :=
  fun bs e E => proj1 (fixed_decode_err vk.vk_BindBufferMemoryRequest_fixed bs e E).
#[export] Instance vk_CreateCommandPoolRequest_eof : DecodeEof vk.CreateCommandPoolRequest.decode :=
  fun bs e E => proj1 (fixed_decode_err vk.vk_CreateCommandPoolRequest_fixed bs e E).
#[export] Instance vk_CreateCommandPoolResponse_length : EncodeLength vk.CreateCommandPoolResponse.encode 8 :=
  fixed_length _ _ vk.vk_CreateCommandPoolResponse_fixed.
#[export] Instance vk_AllocateCommandBufferRequest_eof : DecodeEof vk.AllocateCommandBufferRequest.decode :=
  fun bs e E => proj1 (fixed_decode_err vk.vk_AllocateCommandBufferRequest_fixed bs e E).
#[export] Instance vk_AllocateCommandBufferResponse_length : EncodeLength vk.AllocateCommandBufferResponse.encode 8 :=
  fixed_length _ _ vk.vk_AllocateCommandBufferResponse_fixed.
#[export] Instance vk_QueueSubmitRequest_eof : DecodeEof vk.QueueSubmitRequest.decode :=
  fun bs e E => proj1 (fixed_decode_err vk.vk_QueueSubmitRequest_fixed bs e E).
#[export] Instance vk_CmdCopyBufferRequest_eof : DecodeEof vk.CmdCopyBufferRequest.decode :=
  fun bs e E => proj1 (fixed_decode_err vk.vk_CmdCopyBufferRequest_fixed bs e E).
#[export] Instance vk_CmdDrawRequest_eof : DecodeEof vk.CmdDrawRequest.decode :=
  fun bs e E => proj1 (fixed_decode_err vk.vk_CmdDrawRequest_fixed bs e E).
#[export] Instance vk_DestroyBufferRequest_eof : DecodeEof vk.DestroyBufferRequest.decode :=
  fun bs e E => proj1 (fixed_decode_err vk.vk_DestroyBufferRequest_fixed bs e E).
#[export] Instance vk_FreeMemoryRequest_eof : DecodeEof vk.FreeMemoryRequest.decode :=
  fun bs e E => proj1 (fixed_decode_err vk.vk_FreeMemoryRequest_fixed bs e E).
#[export] Instance vk_DestroyCommandPoolRequest_eof : DecodeEof vk.DestroyCommandPoolRequest.decode :=
  fun bs e E => proj1 (fixed_decode_err vk.vk_DestroyCommandPoolRequest_fixed bs e E).
#[export] Instance gl_CreateContextResponse_length : EncodeLength gl.CreateContextResponse.encode 8 :=
  fixed_length _ _ gl.gl_CreateContextResponse_fixed.
#[export] Instance gl_MakeCurrentRequest_eof : DecodeEof gl.MakeCurrentRequest.decode :=
  fun bs e E => proj1 (fixed_decode_err gl.gl_MakeCurrentRequest_fixed bs e E).
#[export] Instance gl_GenBufferRequest_eof : DecodeEof gl.GenBufferRequest.decode :=
  fun bs e E => proj1 (fixed_decode_err gl.gl_GenBufferRequest_fixed bs e E).
#[export] Instance gl_GenBufferResponse_length : EncodeLength gl.GenBufferResponse.encode 8 :=
  fixed_length _ _ gl.gl_GenBufferResponse_fixed.
#[export] Instance gl_SwapBuffersRequest_eof : DecodeEof gl.SwapBuffersRequest.decode :=
  fun bs e E => proj1 (fixed_decode_err gl.gl_SwapBuffersRequest_fixed bs e E).
#[export] Instance gl_DeleteBufferRequest_eof : DecodeEof gl.DeleteBufferRequest.decode :=
  fun bs e E => proj1 (fixed_decode_err gl.gl_DeleteBufferRequest_fixed bs e E).
#[export] Instance cuda_CtxCreateRequest_eof : DecodeEof cuda.CtxCreateRequest.decode :=
  fun bs e E => proj1 (fixed_decode_err cuda.cuda_CtxCreateRequest_fixed bs e E).
#[export] Instance cuda_CtxCreateResponse_length : EncodeLength cuda.CtxCreateResponse.encode 8 :=
  fixed_length _ _ cuda.cuda_CtxCreateResponse_fixed.
#[export] Instance cuda_MemAllocRequest_eof : DecodeEof cuda.MemAllocRequest.decode :=
  fun bs e E => proj1 (fixed_decode_err cuda.cuda_MemAllocRequest_fixed bs e E).
#[export] Instance cuda_MemAllocResponse_length : EncodeLength cuda.MemAllocResponse.encode 8 :=
  fixed_length _ _ cuda.cuda_MemAllocResponse_fixed.
#[export] Instance cuda_MemFreeRequest_eof : DecodeEof cuda.MemFreeRequest.decode :=
  fun bs e E => proj1 (fixed_decode_err cuda.cuda_MemFreeRequest_fixed bs e E).
#[export] Instance cuda_LaunchKernelRequest_eof : DecodeEof cuda.LaunchKernelRequest.decode :=
  fun bs e E => proj1 (fixed_decode_err cuda.cuda_LaunchKernelRequest_fixed bs e E).
#[export] Instance cuda_MemcpyHtoDRequest_eof : DecodeEof cuda.MemcpyHtoDRequest.decode :=
  fun bs e E => proj1 (fixed_decode_err cuda.cuda_MemcpyHtoDRequest_fixed bs e E).
#[export] Instance cuda_MemcpyDtoHRequest_eof : DecodeEof cuda.MemcpyDtoHRequest.decode :=
  fun bs e E => proj1 (fixed_decode_err cuda.cuda_MemcpyDtoHRequest_fixed bs e E).
#[export] Instance cuda_MemcpyDtoHResponse_length : EncodeLength cuda.MemcpyDtoHResponse.encode 8 :=
  fixed_length _ _ cuda.cuda_MemcpyDtoHResponse_fixed.
#[export] Instance hip_MallocRequest_eof : DecodeEof hip.MallocRequest.decode :=
  fun bs e E => proj1 (fixed_decode_err hip.hip_MallocRequest_fixed bs e E).
#[export] Instance hip_MallocResponse_length : EncodeLength hip.MallocResponse.encode 8 :=
  fixed_length _ _ hip.hip_MallocResponse_fixed.
#[export] Instance hip_FreeRequest_eof : DecodeEof hip.FreeRequest.decode :=
  fun bs e E => proj1 (fixed_decode_err hip.hip_FreeRequest_fixed bs e E).
#[export] Instance hip_StreamCreateResponse_length : EncodeLength hip.StreamCreateResponse.encode 8 :=
  fixed_length _ _ hip.hip_StreamCreateResponse_fixed.
#[export] Instance cl_CreateContextResponse_length : EncodeLength cl.CreateContextResponse.encode 8 :=
  fixed_length _ _ cl.cl_CreateContextResponse_fixed.
#[export] Instance cl_CreateBufferRequest_eof : DecodeEof cl.CreateBufferRequest.decode :=
  fun bs e E => proj1 (fixed_decode_err cl.cl_CreateBufferRequest_fixed bs e E).
#[export] Instance cl_CreateBufferResponse_length : EncodeLength cl.CreateBufferResponse.encode 8 :=
  fixed_length _ _ cl.cl_CreateBufferResponse_fixed.
#[export] Instance cl_ReleaseBufferRequest_eof : DecodeEof cl.ReleaseBufferRequest.decode :=
  fun bs e E => proj1 (fixed_decode_err cl.cl_ReleaseBufferRequest_fixed bs e E).
#[export] Instance l0_ContextCreateResponse_length : EncodeLength l0.ContextCreateResponse.encode 8 :=
  fixed_length _ _ l0.l0_ContextCreateResponse_fixed.
#[export] Instance l0_MemAllocDeviceRequest_eof : DecodeEof l0.MemAllocDeviceRequest.decode :=
  fun bs e E => proj1 (fixed_decode_err l0.l0_MemAllocDeviceRequest_fixed bs e E).
#[export] Instance l0_MemAllocDeviceResponse_length : EncodeLength l0.MemAllocDeviceResponse.encode 8 :=
  fixed_length _ _ l0.l0_MemAllocDeviceResponse_fixed.
#[export] Instance l0_MemFreeRequest_eof : DecodeEof l0.MemFreeRequest.decode :=
  fun bs e E => proj1 (fixed_decode_err l0.l0_MemFreeRequest_fixed bs e E).
#[export] Instance video_CreateDecodeSessionRequest_eof : DecodeEof video.CreateDecodeSessionRequest.decode :=
  fun bs e E => proj1 (fixed_decode_err video.video_CreateDecodeSessionRequest_fixed bs e E).
#[export] Instance video_CreateDecodeSessionResponse_length : EncodeLength video.CreateDecodeSessionResponse.encode 8 :=
  fixed_length _ _ video.video_CreateDecodeSessionResponse_fixed.
#[export] Instance video_DecodeFrameRequest_eof : DecodeEof video.DecodeFrameRequest.decode :=
  fun bs e E => proj1 (fixed_decode_err video.video_DecodeFrameRequest_fixed bs e E).
#[export] Instance video_DecodeFrameResponse_length : EncodeLength video.DecodeFrameResponse.encode 4 :=
  fixed_length _ _ video.video_DecodeFrameResponse_fixed.
#[export] Instance video_DestroySessionRequest_eof : DecodeEof video.DestroySessionRequest.decode :=
  fun bs e E => proj1 (fixed_decode_err video.video_DestroySessionRequest_fixed bs e E).
#[export] Instance wgpu_RequestDeviceResponse_length : EncodeLength wgpu.RequestDeviceResponse.encode 8 :=
  fixed_length _ _ wgpu.wgpu_RequestDeviceResponse_fixed.
#[export] Instance wgpu_CreateBufferRequest_eof : DecodeEof wgpu.CreateBufferRequest.decode :=
  fun bs e E => proj1 (fixed_decode_err wgpu.wgpu_CreateBufferRequest_fixed bs e E).
#[export] Instance wgpu_CreateBufferResponse_length : EncodeLength wgpu.CreateBufferResponse.encode 8 :=
  fixed_length _ _ wgpu.wgpu_CreateBufferResponse_fixed.
#[export] Instance wgpu_DestroyBufferRequest_eof : DecodeEof wgpu.DestroyBufferRequest.decode :=
  fun bs e E => proj1 (fixed_decode_err wgpu.wgpu_DestroyBufferRequest_fixed bs e E).
#[export] Instance optix_ContextCreateResponse_length : EncodeLength optix.ContextCreateResponse.encode 8 :=
  fixed_length _ _ optix.optix_ContextCreateResponse_fixed.
#[export] Instance optix_PipelineCreateRequest_eof : DecodeEof optix.PipelineCreateRequest.decode :=
  fun bs e E => proj1 (fixed_decode_err optix.optix_PipelineCreateRequest_fixed bs e E).
#[export] Instance optix_PipelineCreateResponse_length : EncodeLength optix.PipelineCreateResponse.encode 8 :=
  fixed_length _ _ optix.optix_PipelineCreateResponse_fixed.
#[export] Instance optix_DestroyRequest_eof : DecodeEof optix.DestroyRequest.decode :=
  fun bs e E => proj1 (fixed_decode_err optix.optix_DestroyRequest_fixed bs e E).
#[export] Instance sycl_QueueCreateResponse_length : EncodeLength sycl.QueueCreateResponse.encode 8 :=
  fixed_length _ _ sycl.sycl_QueueCreateResponse_fixed.
#[export] Instance sycl_MallocDeviceRequest_eof : DecodeEof sycl.MallocDeviceRequest.decode :=
  fun bs e E => proj1 (fixed_decode_err sycl.sycl_MallocDeviceRequest_fixed bs e E).
#[export] Instance sycl_MallocDeviceResponse_length : EncodeLength sycl.MallocDeviceResponse.encode 8 :=
  fixed_length _ _ sycl.sycl_MallocDeviceResponse_fixed.
#[export] Instance sycl_FreeRequest_eof : DecodeEof sycl.FreeRequest.decode :=
  fun bs e E => proj1 (fixed_decode_err sycl.sycl_FreeRequest_fixed bs e E).
#[export] Instance amf_CreateEncoderRequest_eof : DecodeEof amf.CreateEncoderRequest.decode :=
  fun bs e E => proj1 (fixed_decode_err amf.amf_CreateEncoderRequest_fixed bs e E).
#[export] Instance amf_CreateEncoderResponse_length : EncodeLength amf.CreateEncoderResponse.encode 8 :=
  fixed_length _ _ amf.amf_CreateEncoderResponse_fixed.
#[export] Instance amf_EncodeFrameRequest_eof : DecodeEof amf.EncodeFrameRequest.decode :=
  fun bs e E => proj1 (fixed_decode_err amf.amf_EncodeFrameRequest_fixed bs e E).
#[export] Instance amf_EncodeFrameResponse_length : EncodeLength amf.EncodeFrameResponse.encode 4 :=
  fixed_length _ _ amf.amf_EncodeFrameResponse_fixed.
#[export] Instance amf_DestroyEncoderRequest_eof : DecodeEof amf.DestroyEncoderRequest.decode :=
  fun bs e E => proj1 (fixed_decode_err amf.amf_DestroyEncoderRequest_fixed bs e E).
