(* ===== verification/WireProps.v ===== *)
(** The wire format: the packing of handles and opcodes, the frame, and the bodies.
    Every decoder is total on arbitrary bytes, and exactly inverts its encoder. *)
From S2P Require Import Wire VkBodies ApiBodies Codecs.

Local Open Scope Z_scope.

(** A handle is its three fields. Packing an 8-bit kind, a generation and a
    32-bit slot gives a 64-bit value whose fields are the kind, the generation
    modulo 2^24 and the slot; and every 64-bit value is the packing of its own
    fields. So packing is injective on the fields a table uses. *)
Theorem handle_fields k g s h :
  fits 8 k -> fits 32 s -> Handle.wf h ->
  Handle.wf (Handle.new k g s) /\
  Handle.kind (Handle.new k g s) = k /\
  Handle.generation (Handle.new k g s) = g mod 2 ^ 24 /\
  Handle.slot (Handle.new k g s) = s /\
  Handle.new (Handle.kind h) (Handle.generation h) (Handle.slot h) = h.
Proof.
  intros Hk Hs Hh. split; [by apply handle_new_wf|]. split; [by apply handle_kind_new|].
  split; [by apply handle_generation_new|]. split; [by apply handle_slot_new|].
  by apply handle_repack.
Qed.

Lemma handle_fields_witness :
  Handle.generation (Handle.new 6 (2 ^ 24 + 5) 9) = 5 /\
  Handle.slot (Handle.new 6 (2 ^ 24 + 5) 9) = 9.
Proof.
  destruct (handle_fields 6 (2 ^ 24 + 5) 9 (Handle.mk 0)) as (_ & _ & H1 & H2 & _);
    [by vm_compute..|].
  split; [rewrite H1; by vm_compute|exact H2].
Defined.

(** Every opcode constant of the protocol, with its namespace. *)
Definition all_opcodes : list (Z * ApiId) := [
  (core_op.HELLO, Core);
  (core_op.WELCOME, Core);
  (core_op.NOOP, Core);
  (vk_op.CREATE_INSTANCE, Vulkan);
  (vk_op.DESTROY_INSTANCE, Vulkan);
  (vk_op.ENUMERATE_PHYSICAL_DEVICES, Vulkan);
  (vk_op.GET_PHYSICAL_DEVICE_PROPERTIES, Vulkan);
  (vk_op.CREATE_DEVICE, Vulkan);
  (vk_op.DESTROY_DEVICE, Vulkan);
  (vk_op.GET_DEVICE_QUEUE, Vulkan);
  (vk_op.DEVICE_WAIT_IDLE, Vulkan);
  (vk_op.ALLOCATE_MEMORY, Vulkan);
  (vk_op.CREATE_BUFFER, Vulkan);
  (vk_op.BIND_BUFFER_MEMORY, Vulkan);
  (vk_op.DESTROY_BUFFER, Vulkan);
  (vk_op.FREE_MEMORY, Vulkan);
  (vk_op.CREATE_COMMAND_POOL, Vulkan);
  (vk_op.ALLOCATE_COMMAND_BUFFER, Vulkan);
  (vk_op.QUEUE_SUBMIT, Vulkan);
  (vk_op.CMD_COPY_BUFFER, Vulkan);
  (vk_op.CMD_DRAW, Vulkan);
  (vk_op.DESTROY_COMMAND_POOL, Vulkan);
  (gl_op.CREATE_CONTEXT, OpenGl);
  (gl_op.MAKE_CURRENT, OpenGl);
  (gl_op.GEN_BUFFER, OpenGl);
  (gl_op.SWAP_BUFFERS, OpenGl);
  (gl_op.DELETE_BUFFER, OpenGl);
  (cuda_op.CTX_CREATE, Cuda);
  (cuda_op.MEM_ALLOC, Cuda);
  (cuda_op.MEM_FREE, Cuda);
  (cuda_op.LAUNCH_KERNEL, Cuda);
  (cuda_op.MEMCPY_HTOD, Cuda);
  (cuda_op.MEMCPY_DTOH, Cuda);
  (hip_op.MALLOC, Hip);
  (hip_op.FREE, Hip);
  (hip_op.STREAM_CREATE, Hip);
  (cl_op.CREATE_CONTEXT, OpenCl);
  (cl_op.CREATE_BUFFER, OpenCl);
  (cl_op.RELEASE_BUFFER, OpenCl);
  (l0_op.CONTEXT_CREATE, LevelZero);
  (l0_op.MEM_ALLOC_DEVICE, LevelZero);
  (l0_op.MEM_FREE, LevelZero);
  (video_op.CREATE_DECODE_SESSION, Video);
  (video_op.DECODE_FRAME, Video);
  (video_op.DESTROY_SESSION, Video);
  (wgpu_op.REQUEST_DEVICE, WebGpu);
  (wgpu_op.CREATE_BUFFER, WebGpu);
  (wgpu_op.DESTROY_BUFFER, WebGpu);
  (optix_op.CONTEXT_CREATE, OptiX);
  (optix_op.PIPELINE_CREATE, OptiX);
  (optix_op.DESTROY, OptiX);
  (sycl_op.QUEUE_CREATE, Sycl);
  (sycl_op.MALLOC_DEVICE, Sycl);
  (sycl_op.FREE, Sycl);
  (amf_op.CREATE_ENCODER, Amf);
  (amf_op.ENCODE_FRAME, Amf);
  (amf_op.DESTROY_ENCODER, Amf)
].

Lemma opcode_fields api call :
  opcode_api (opcode api call) = api_byte api /\
  opcode_call (opcode api call) = call mod 2 ^ 24 /\ fits 32 (opcode api call).
Proof.
  unfold opcode_api, opcode_call, opcode, fits, wrap.
  change 0x00FFFFFF with (Z.ones 24). rewrite !Z.land_ones by lia.
  pose proof (Z.mod_pos_bound call (2 ^ 24) ltac:(lia)) as Hc.
  assert (0 <= api_byte api < 12) as Ha by (destruct api; cbn; lia).
  rewrite Z.shiftl_mul_pow2 by lia. rewrite (Z.mod_small (api_byte api * 2 ^ 24)) by lia.
  rewrite <- Z.shiftl_mul_pow2, lor_shiftl_add by lia.
  rewrite Z.shiftr_div_pow2, Z.div_add_l, (Z.div_small (call mod _)) by lia.
  rewrite Z.add_0_r, (Z.mod_small (api_byte api)) by lia. split; [done|]. split; [|lia].
  rewrite Z.add_comm, Z_mod_plus_full. by apply Z.mod_mod.
Qed.

(** Opcodes are disjoint. An opcode packs its API byte above its 24-bit call
    number, and both are recovered; every opcode constant is in the namespace of
    its module, and no two of the protocol's constants are equal, so a backend
    never sees another API's opcode. *)
Theorem opcodes_disjoint api call :
  opcode_api (opcode api call) = api_byte api /\
  opcode_call (opcode api call) = call mod 2 ^ 24 /\
  Forall (fun e => opcode_api e.1 = api_byte e.2) all_opcodes /\
  NoDup all_opcodes.*1.
Proof.
  destruct (opcode_fields api call) as (H1 & H2 & _). split; [done|]. split; [done|].
  split; [by repeat constructor|].
  apply (bool_decide_unpack (NoDup all_opcodes.*1)). by vm_compute.
Qed.

(** C8: frames round-trip, and decoding a frame is total. A header that fits its
    fields and any body decode to themselves; and on any bytes whatever
    [decode_frame] gives [UnexpectedEof] for fewer than 28 bytes, [BadKind] for a
    header of unknown kind, and otherwise the header whose fields the bytes hold
    and the rest of the bytes as its body. *)
Theorem frames_decode bs :
  (forall h body, FrameHeader.wf h -> decode_frame (encode_frame h body) = Ok (h, body)) /\
  (((length bs < HEADER_LEN)%nat /\ decode_frame bs = Err UnexpectedEof) \/
   (exists h kw res body, ~ 0 <= kw <= 2 /\ fits 16 kw /\
      bs = header_bytes h kw res ++ body /\ decode_frame bs = Err (BadKind kw)) \/
   (exists h res body, FrameHeader.wf h /\ fits 16 res /\
      bs = header_bytes h (FrameKind.to_u16 (FrameHeader.kind h)) res ++ body /\
      decode_frame bs = Ok (h, body))).
Proof. split; [apply frame_roundtrip|apply decode_frame_cases]. Qed.

Lemma frames_decode_witness :
  let h := FrameHeader.mk 1 0 FrameKind.Event 7 8 9 1 in
  decode_frame (encode_frame h [x2a]) = Ok (h, [x2a]).
Proof. intros h. apply (proj1 (frames_decode [])). by vm_compute. Defined.

(** C7: every body round-trips, and every decoder is total. For each of the 73
    fixed-size bodies: encoding appends to the buffer; decoding an encoded value,
    whatever follows it, gives the value back; and decoding any bytes succeeds
    exactly when there are as many as the body has, re-encodes to the bytes it
    read, and otherwise reports [UnexpectedEof]. *)
Theorem bodies_roundtrip c :
  c ∈ codecs ->
  let encode := @body_encode _ (codec_body c) in
  let decode := @body_decode _ (codec_body c) in
  (forall x out, encode x out = out ++ encode x [] /\ length (encode x []) = codec_len c) /\
  (forall x rest, @body_fits _ (codec_body c) x -> decode (encode x [] ++ rest) = Ok x) /\
  (forall bs, (codec_len c <= length bs)%nat -> exists x,
     decode bs = Ok x /\ @body_fits _ (codec_body c) x /\ encode x [] = take (codec_len c) bs) /\
  (forall bs, (length bs < codec_len c)%nat -> decode bs = Err UnexpectedEof).
Proof.
  intros Hc encode decode.
  pose proof (proj1 (Forall_forall _ _) codecs_lawful c Hc) as HF. unfold lawful in HF.
  split; [|split; [|split]].
  - intros x out. split; [apply (fixed_append _ _ HF)|apply (fixed_length _ _ HF)].
  - intros x rest Hx. by apply (fixed_roundtrip _ _ HF).
  - intros bs Hl. destruct (proj2 (fixed_decode_ok HF bs) Hl) as [x E].
    exists x. split; [exact E|]. by apply (fixed_decode_encode HF).
  - intros bs Hl. destruct (fixed_decode _ _ HF bs) as [(x & rest & _ & Hbs & E)|[_ E]]; [|done].
    exfalso. assert (codec_len c <= length bs)%nat; [|lia].
    apply (fixed_decode_ok HF). by exists x.
Qed.

Lemma bodies_roundtrip_witness :
  cuda.MemFreeRequest.decode [] = Err UnexpectedEof /\
  cuda.MemFreeRequest.decode (cuda.MemFreeRequest.encode (cuda.MemFreeRequest.mk (Handle.mk 300)) []
    ++ [x01]) = Ok (cuda.MemFreeRequest.mk (Handle.mk 300)).
Proof.
  destruct (bodies_roundtrip (codec cuda.MemFreeRequest.t 8)) as (_ & H1 & _ & H2).
  - unfold codecs. repeat (first [apply list_elem_of_here | apply list_elem_of_further]).
  - split; [apply (H2 []); cbn; lia|].
    apply (H1 (cuda.MemFreeRequest.mk (Handle.mk 300)) [x01]). by vm_compute.
Defined.

(** The enumeration response, the one body of variable size. A list of at most
    2^32 - 1 handles decodes as it was encoded, whatever follows; and decoding any
    bytes gives either a response whose encoding starts them, or [UnexpectedEof],
    however large the count they declare. *)
Theorem enumerate_response_roundtrip x rest bs :
  (Forall Handle.wf (vk.EnumeratePhysicalDevicesResponse.devices x) ->
   fits 32 (Z.of_nat (length (vk.EnumeratePhysicalDevicesResponse.devices x))) ->
   vk.EnumeratePhysicalDevicesResponse.decode
     (vk.EnumeratePhysicalDevicesResponse.encode x [] ++ rest) = Ok x) /\
  ((exists y tail, bs = vk.EnumeratePhysicalDevicesResponse.encode y [] ++ tail /\
      vk.EnumeratePhysicalDevicesResponse.decode bs = Ok y) \/
   vk.EnumeratePhysicalDevicesResponse.decode bs = Err UnexpectedEof).
Proof.
  split; [apply vk.enumerate_roundtrip|].
  destruct (vk.enumerate_decode_cases bs) as [(y & tail & _ & _ & E1 & E2)|E];
    [left; by exists y, tail|by right].
Qed.

Lemma enumerate_response_roundtrip_witness :
  let x := vk.EnumeratePhysicalDevicesResponse.mk [Handle.mk 5; Handle.mk 600] in
  vk.EnumeratePhysicalDevicesResponse.decode
    (vk.EnumeratePhysicalDevicesResponse.encode x [] ++ [x00]) = Ok x.
Proof.
  intros x. apply (proj1 (enumerate_response_roundtrip x [x00] [])).
  - repeat constructor; by vm_compute.
  - by vm_compute.
Defined.
