(* ===== verification/Contract.v ===== *)
(** What a reply to each opcode looks like: the agreement between the server's
    backends and the client's shims. The server's theorems say that a backend
    answers every opcode as the table has it (it is part of the [Backend]
    interface), the client's that a shim accepts any such answer. *)
From S2P Require Import Wire VkBodies ApiBodies Codecs.

Local Open Scope Z_scope.

(** The shapes of a reply body: empty, a handle of a kind, a list of handles of a
    kind, a 32-bit integer. *)
Inductive shape :=
| Ack
| AHandle (kind : Z)
| AHandles (kind : Z)
| AInt.

Definition contract_table : list (Z * shape) := [
  (vk_op.CREATE_INSTANCE, AHandle 1);
  (vk_op.ENUMERATE_PHYSICAL_DEVICES, AHandles 2);
  (vk_op.CREATE_DEVICE, AHandle 3);
  (vk_op.GET_DEVICE_QUEUE, AHandle 4);
  (vk_op.ALLOCATE_MEMORY, AHandle 5);
  (vk_op.CREATE_BUFFER, AHandle 6);
  (vk_op.BIND_BUFFER_MEMORY, Ack);
  (vk_op.CREATE_COMMAND_POOL, AHandle 7);
  (vk_op.ALLOCATE_COMMAND_BUFFER, AHandle 8);
  (vk_op.QUEUE_SUBMIT, Ack);
  (vk_op.CMD_COPY_BUFFER, Ack);
  (vk_op.CMD_DRAW, Ack);
  (vk_op.DESTROY_BUFFER, Ack);
  (vk_op.FREE_MEMORY, Ack);
  (vk_op.DESTROY_COMMAND_POOL, Ack);
  (gl_op.CREATE_CONTEXT, AHandle 10);
  (gl_op.MAKE_CURRENT, Ack);
  (gl_op.GEN_BUFFER, AHandle 11);
  (gl_op.SWAP_BUFFERS, Ack);
  (gl_op.DELETE_BUFFER, Ack);
  (cuda_op.CTX_CREATE, AHandle 20);
  (cuda_op.MEM_ALLOC, AHandle 21);
  (cuda_op.MEM_FREE, Ack);
  (cl_op.CREATE_CONTEXT, AHandle 40);
  (cl_op.CREATE_BUFFER, AHandle 41);
  (cl_op.RELEASE_BUFFER, Ack);
  (hip_op.MALLOC, AHandle 30);
  (hip_op.FREE, Ack);
  (hip_op.STREAM_CREATE, AHandle 31);
  (l0_op.CONTEXT_CREATE, AHandle 50);
  (l0_op.MEM_ALLOC_DEVICE, AHandle 51);
  (l0_op.MEM_FREE, Ack);
  (video_op.CREATE_DECODE_SESSION, AHandle 60);
  (video_op.DECODE_FRAME, AInt);
  (video_op.DESTROY_SESSION, Ack);
  (wgpu_op.REQUEST_DEVICE, AHandle 70);
  (wgpu_op.CREATE_BUFFER, AHandle 71);
  (wgpu_op.DESTROY_BUFFER, Ack);
  (optix_op.CONTEXT_CREATE, AHandle 80);
  (optix_op.PIPELINE_CREATE, AHandle 81);
  (optix_op.DESTROY, Ack);
  (sycl_op.QUEUE_CREATE, AHandle 90);
  (sycl_op.MALLOC_DEVICE, AHandle 91);
  (sycl_op.FREE, Ack);
  (amf_op.CREATE_ENCODER, AHandle 100);
  (amf_op.ENCODE_FRAME, AInt);
  (amf_op.DESTROY_ENCODER, Ack)
].

Fixpoint find_shape (op : Z) (table : list (Z * shape)) : option shape :=
  match table with
  | [] => None
  | (op', sh) :: table => if decide (op = op') then Some sh else find_shape op table
  end.

Definition contract (op : Z) : option shape := find_shape op contract_table.

(** A handle of a kind, as a 64-bit integer. *)
Definition handle_of (kind : Z) (h : Handle.t) : Prop := Handle.wf h /\ Handle.kind h = kind.

Definition shape_ok (sh : shape) (out : list byte) : Prop :=
  match sh with
  | Ack => out = []
  | AHandle kind => exists h, handle_of kind h /\ out = [] <+ u64_le (Handle.raw h)
  | AHandles kind => exists hs, Forall (handle_of kind) hs /\ (length hs <= 1)%nat /\
      out = vk.EnumeratePhysicalDevicesResponse.encode
        (vk.EnumeratePhysicalDevicesResponse.mk hs) []
  | AInt => exists n, fits 32 n /\ out = [] <+ u32_le n
  end.

(** A reply to an opcode the table does not have can be anything. *)
Definition conforms (op : Z) (out : list byte) : Prop :=
  match contract op with Some sh => shape_ok sh out | None => True end.

Lemma conforms_shape op sh out : contract op = Some sh -> shape_ok sh out -> conforms op out.
Proof. unfold conforms. by intros ->. Qed.

Lemma shape_ok_handle kind h : handle_of kind h -> shape_ok (AHandle kind) ([] <+ u64_le (Handle.raw h)).
Proof. intros. by exists h. Qed.

Lemma shape_ok_int n : fits 32 n -> shape_ok AInt ([] <+ u32_le n).
Proof. intros. by exists n. Qed.
