(* ===== verification/Handles.v ===== *)
(** The generational handle table (crates/graftx-handles/src/lib.rs): slots with
    a generation counter, a free list and a live count. This file has the
    operations as the source writes them, the table invariant [wf] with its
    preservation by every operation, and the functional lemmas the abstract
    specification of HandleSpec.v and the backends build on. *)
From stdpp Require Import sorting.
From S2P Require Import Wire.

Local Open Scope Z_scope.

(** [slots.iter().enumerate()] *)
Fixpoint enumerate_from {A} (i : Z) (l : list A) : list (Z * A) :=
  match l with
  | [] => []
  | x :: r => (i, x) :: enumerate_from (i + 1) r
  end.

Abbreviation enumerate := (enumerate_from 0).

(** [Vec::dedup]: drop the elements equal to their predecessor. *)
Fixpoint dedup (l : list Z) : list Z :=
  match l with
  | [] => []
  | x :: r =>
    match r with
    | [] => [x]
    | y :: _ => if decide (x = y) then dedup r else x :: dedup r
    end
  end.

Module Slot.
Record t (T : Type) := mk {
  generation : Z;
  kind : Z;
  value : option T;
  retired : bool }.
Arguments mk {T} _ _ _ _.
Arguments generation {T} _.
Arguments kind {T} _.
Arguments value {T} _.
Arguments retired {T} _.
End Slot.

Module HandleStats.
Record t := mk { live : Z; retired : Z; capacity : Z; kinds : list Z }.
End HandleStats.

(** [pub const NULL_HANDLE] *)
Definition NULL_HANDLE : Handle.t := Handle.from_raw 0.

Module HandleTable.

Record t (T : Type) := mk {
  slots : list (Slot.t T);
  free : list Z;
  live : Z }.
Arguments mk {T} _ _ _.
Arguments slots {T} _.
Arguments free {T} _.
Arguments live {T} _.

Section ops.
Context {T : Type}.
Implicit Types (self : t T) (slot : Slot.t T) (h : Handle.t).

Definition new : t T := mk [] [] 0.

Definition insert (kind : Z) (value : T) (self : t T) : outcome (t T * Handle.t) :=
  live ← add_or_panic 64 (live self) 1;
  match pop (free self) with
  | Some (slot_idx, free) =>
    slot ← index_or_panic (slots self) slot_idx;
    let slot :=
      Slot.mk (Slot.generation slot) kind (Some value) (Slot.retired slot) in
    Ret (mk (<[Z.to_nat slot_idx := slot]> (slots self)) free live,
         Handle.new kind (Slot.generation slot) slot_idx)
  | None =>
    let slot_idx := wrap 32 (Z.of_nat (length (slots self))) in
    Ret (mk (push (slots self) (Slot.mk 0 kind (Some value) false)) (free self) live,
         Handle.new kind 0 slot_idx)
  end.

Definition try_insert (kind : Z) (value : T) (max_live : Z) (self : t T)
  : outcome (t T * option Handle.t) :=
  if live self <? max_live then
    '(self, h) ← insert kind value self; Ret (self, Some h)
  else Ret (self, None).

Definition get (h : Handle.t) (self : t T) : option T :=
  slot ← slots self !! Z.to_nat (Handle.slot h);
  if decide (Slot.generation slot <> Handle.generation h) then None
  else Slot.value slot.

(** The value [h] resolves to, and the table after a write through the
    reference. *)
Definition get_mut (h : Handle.t) (self : t T) : option (T * (T -> t T)) :=
  slot ← slots self !! Z.to_nat (Handle.slot h);
  if decide (Slot.generation slot <> Handle.generation h) then None
  else
    value ← Slot.value slot;
    Some (value, fun value' =>
      let slot := Slot.mk (Slot.generation slot) (Slot.kind slot) (Some value')
                    (Slot.retired slot) in
      mk (<[Z.to_nat (Handle.slot h) := slot]> (slots self)) (free self) (live self)).

(** The bookkeeping [remove], [clear] and [retain] share once a slot's value is
    taken: retire an exhausted slot, else bump it and put it on the free list.
    The addition is below [GENERATION_MAX], so it cannot overflow. *)
Definition free_slot (slot : Slot.t T) (slot_idx : Z) (free : list Z)
  : Slot.t T * list Z :=
  if Handle.GENERATION_MAX <=? Slot.generation slot then
    (Slot.mk (Slot.generation slot) (Slot.kind slot) None true, free)
  else
    (Slot.mk (Slot.generation slot + 1) (Slot.kind slot) None (Slot.retired slot),
     push free slot_idx).

Definition remove (h : Handle.t) (self : t T) : outcome (t T * option T) :=
  let slot_idx := Handle.slot h in
  match slots self !! Z.to_nat slot_idx with
  | None => Ret (self, None)
  | Some slot =>
    if decide (Slot.generation slot <> Handle.generation h) then Ret (self, None)
    else
      match Slot.value slot with
      | None => Ret (self, None)
      | Some value =>
        live ← sub_or_panic (live self) 1;
        let '(slot, free) := free_slot slot slot_idx (free self) in
        Ret (mk (<[Z.to_nat slot_idx := slot]> (slots self)) free live, Some value)
      end
  end.

Definition len self : Z := live self.
Definition is_empty self : bool := live self =? 0.

Definition slot_handle (slot_idx : Z) slot : Handle.t :=
  Handle.new (Slot.kind slot) (Slot.generation slot) (wrap 32 slot_idx).

Definition iter self : list (Handle.t * T) :=
  omap (fun '(slot_idx, slot) =>
    value ← Slot.value slot;
    Some (slot_handle slot_idx slot, value)) (enumerate (slots self)).

Definition iter_kind (kind : Z) self : list (Handle.t * T) :=
  omap (fun '(slot_idx, slot) =>
    if decide (Slot.kind slot <> kind) then None
    else
      value ← Slot.value slot;
      Some (slot_handle slot_idx slot, value)) (enumerate (slots self)).

(** [slot.value.is_some()] *)
Definition occupied slot : bool := if Slot.value slot is Some _ then true else false.

Definition count_by_kind (kind : Z) self : Z :=
  count (fun slot => occupied slot && bool_decide (Slot.kind slot = kind)) (slots self).

Definition is_live h self : bool := if get h self is Some _ then true else false.
Definition contains h self : bool := is_live h self.

Definition kinds self : list Z :=
  dedup (merge_sort Z.le
    (map Slot.kind (filter (fun slot => occupied slot = true) (slots self)))).

Definition capacity self : Z := Z.of_nat (length (slots self)).
Definition retired self : Z := count Slot.retired (slots self).

Definition stats self : HandleStats.t :=
  HandleStats.mk (len self) (retired self) (capacity self) (kinds self).

(** The loop of [clear] over the slots from [slot_idx] on. *)
Fixpoint clear_slots (slot_idx : Z) (slots : list (Slot.t T)) (free : list Z)
  : list (Slot.t T) * list Z :=
  match slots with
  | [] => ([], free)
  | slot :: rest =>
    let '(slot, free) :=
      match Slot.value slot with
      | None => (slot, free)
      | Some _ => free_slot slot (wrap 32 slot_idx) free
      end in
    let '(rest, free) := clear_slots (slot_idx + 1) rest free in
    (slot :: rest, free)
  end.

Definition clear self : t T :=
  let '(slots, free) := clear_slots 0 (slots self) (free self) in
  mk slots free 0.

(** The loop of [retain]; [keep] is an [FnMut] with state [S]. *)
Fixpoint retain_slots {S} (keep : S -> Handle.t -> T -> S * bool) (s : S)
    (slot_idx : Z) (slots : list (Slot.t T)) (free : list Z) (removed : Z)
  : S * list (Slot.t T) * list Z * Z :=
  match slots with
  | [] => (s, [], free, removed)
  | slot :: rest =>
    let '(s, slot, free, removed) :=
      match Slot.value slot with
      | None => (s, slot, free, removed)
      | Some value =>
        let handle := slot_handle slot_idx slot in
        let '(s, kept) := keep s handle value in
        if kept then (s, slot, free, removed)
        else
          let '(slot, free) := free_slot slot (wrap 32 slot_idx) free in
          (s, slot, free, removed + 1)
      end in
    let '(s, rest, free, removed) :=
      retain_slots keep s (slot_idx + 1) rest free removed in
    (s, slot :: rest, free, removed)
  end.

Definition retain {S} (keep : S -> Handle.t -> T -> S * bool) (s : S) self
  : outcome (t T * S * Z) :=
  let '(s, slots, free, removed) :=
    retain_slots keep s 0 (slots self) (free self) 0 in
  live ← sub_or_panic (live self) removed;
  Ret (mk slots free live, s, removed).

(** ** Bulk removal, by handles

    [remove_all] calls [remove] on each handle; [rejected] runs [keep] over the
    entries in order and lists the handles it rejects. *)
Fixpoint remove_all (hs : list Handle.t) self : outcome (t T) :=
  match hs with
  | [] => Ret self
  | h :: r => '(self, _) ← remove h self; remove_all r self
  end.

Fixpoint rejected {S} (keep : S -> Handle.t -> T -> S * bool) (s : S)
    (entries : list (Handle.t * T)) : S * list Handle.t :=
  match entries with
  | [] => (s, [])
  | (h, v) :: r =>
    let '(s, kept) := keep s h v in
    let '(s, hs) := rejected keep s r in
    (s, if kept then hs else h :: hs)
  end.

(** ** The invariant *)

Definition slot_wf slot : Prop :=
  0 <= Slot.generation slot <= Handle.GENERATION_MAX /\
  fits 8 (Slot.kind slot) /\
  (Slot.retired slot = true ->
     Slot.value slot = None /\ Slot.generation slot = Handle.GENERATION_MAX).

(** An empty slot that may be reused. *)
Definition reusable slot : bool := negb (occupied slot) && negb (Slot.retired slot).

(** The free list holds exactly the reusable slots. *)
Definition free_exact (slots : list (Slot.t T)) (free : list Z) : Prop :=
  forall i, i ∈ free <->
    0 <= i /\ exists slot, slots !! Z.to_nat i = Some slot /\ reusable slot = true.

Record wf self : Prop := {
  wf_len : Z.of_nat (length (slots self)) <= 2 ^ 32;
  wf_slots : Forall slot_wf (slots self);
  wf_nodup : NoDup (free self);
  wf_free : free_exact (slots self) (free self);
  wf_live : live self = count occupied (slots self);
}.

(** An insertion still has a slot index to use. *)
Definition has_room self : Prop :=
  free self <> [] \/ Z.of_nat (length (slots self)) < 2 ^ 32.

(** ** The view by key

    A handle resolves through its slot and generation; its kind plays no part. *)
Definition key h : Z * Z := (Handle.slot h, Handle.generation h).

Definition slot_lookup slot (g : Z) : option T :=
  if decide (Slot.generation slot = g) then Slot.value slot else None.

Definition lookup self (k : Z * Z) : option T :=
  slot ← slots self !! Z.to_nat k.1; slot_lookup slot k.2.

(** The generations of a slot that some insertion has stamped on a handle. *)
Definition slot_issued slot (g : Z) : Prop :=
  0 <= g < Slot.generation slot \/
  (g = Slot.generation slot /\ (is_Some (Slot.value slot) \/ Slot.retired slot = true)).

Definition issued self (k : Z * Z) : Prop :=
  0 <= k.1 /\ exists slot, slots self !! Z.to_nat k.1 = Some slot /\ slot_issued slot k.2.

End ops.

(** ** Laws *)
Section laws.
Context {T : Type}.
Implicit Types (self : t T) (slot : Slot.t T) (h : Handle.t).

Lemma get_lookup h self : get h self = lookup self (key h).
Proof.
  unfold get, lookup, slot_lookup, key. cbn.
  destruct (slots self !! _); cbn; [|done]. by repeat case_decide.
Qed.

Lemma lookup_Some self k v :
  lookup self k = Some v <->
  exists slot, slots self !! Z.to_nat k.1 = Some slot /\
    Slot.generation slot = k.2 /\ Slot.value slot = Some v.
Proof.
  unfold lookup, slot_lookup. destruct (slots self !! _) as [s|]; cbn.
  - case_decide; split.
    + intros. by exists s.
    + intros (? & [= <-] & ? & ?). done.
    + done.
    + intros (? & [= <-] & ? & ?). done.
  - split; [done|]. by intros (? & ? & _).
Qed.

Lemma occupied_true slot : occupied slot = true <-> is_Some (Slot.value slot).
Proof.
  unfold occupied. destruct (Slot.value slot); split; intros H; try done.
Qed.

Lemma reusable_true slot :
  reusable slot = true <-> Slot.value slot = None /\ Slot.retired slot = false.
Proof.
  unfold reusable, occupied. destruct (Slot.value slot), (Slot.retired slot);
    cbn; split; (done || by intros []).
Qed.

Lemma slot_wf_gen slot : slot_wf slot -> Slot.generation slot mod 2 ^ 24 = Slot.generation slot.
Proof.
  intros ((? & Hg) & _). rewrite GENERATION_MAX_val in Hg. apply Z.mod_small. lia.
Qed.

Lemma slot_index_fits self i slot :
  wf self -> slots self !! i = Some slot -> fits 32 (Z.of_nat i).
Proof.
  intros Hwf Hi%lookup_lt_Some. pose proof (wf_len _ Hwf). unfold fits. lia.
Qed.

Lemma wf_lookup self i slot : wf self -> slots self !! i = Some slot -> slot_wf slot.
Proof. intros Hwf. apply (proj1 (Forall_lookup _ _) (wf_slots _ Hwf)). Qed.

(** The handle the table reports for a slot has the slot's key and kind. *)
Lemma slot_handle_fields self i slot :
  wf self -> slots self !! i = Some slot ->
  Handle.kind (slot_handle (Z.of_nat i) slot) = Slot.kind slot /\
  key (slot_handle (Z.of_nat i) slot) = (Z.of_nat i, Slot.generation slot).
Proof.
  intros Hwf Hi. pose proof (slot_index_fits _ _ _ Hwf Hi) as Hf.
  pose proof (wf_lookup _ _ _ Hwf Hi) as Hs. pose proof Hs as (_ & Hk & _).
  unfold slot_handle, key. rewrite wrap_fits by done.
  rewrite handle_kind_new, handle_slot_new, handle_generation_new by done.
  by rewrite slot_wf_gen.
Qed.

Lemma live_bounds self : wf self -> 0 <= live self <= 2 ^ 32.
Proof.
  intros Hwf. rewrite (wf_live _ Hwf). pose proof (wf_len _ Hwf).
  pose proof (count_bounds occupied (slots self)). lia.
Qed.

Lemma live_pos self i slot :
  wf self -> slots self !! i = Some slot -> is_Some (Slot.value slot) ->
  1 <= live self.
Proof.
  intros Hwf Hi Hv. rewrite (wf_live _ Hwf). eapply count_pos; [done|].
  by apply occupied_true.
Qed.

Lemma new_wf : wf (@new T).
Proof.
  constructor; [done|apply Forall_nil_2|apply NoDup_nil_2| |done].
  intros i. cbn. rewrite elem_of_nil. split; [done|].
  intros (_ & ? & ? & _). by rewrite lookup_nil in *.
Qed.

(** *** [free_slot] *)
Lemma free_slot_spec slot i free slot' free' :
  slot_wf slot -> is_Some (Slot.value slot) ->
  free_slot slot i free = (slot', free') ->
  slot_wf slot' /\ Slot.value slot' = None /\
  (forall g, slot_issued slot' g <-> slot_issued slot g) /\
  free' = (if reusable slot' then push free i else free).
Proof.
  intros (Hg & Hk & Hr) Hv. unfold free_slot.
  assert (Slot.retired slot = false) as Hret.
  { destruct (Slot.retired slot) eqn:E; [|done]. destruct (Hr eq_refl) as [E' _].
    rewrite E' in Hv. by destruct Hv. }
  destruct (Z.leb_spec Handle.GENERATION_MAX (Slot.generation slot));
    intros [= <- <-]; unfold slot_wf, slot_issued, reusable; cbn; rewrite ?Hret.
  - split; [|split; [done|split; [|done]]].
    + split; [lia|]. split; [done|]. intros _. split; [done|lia].
    + intros g. split; intros [?|(? & _)]; first [by left|right; auto].
  - split; [|split; [done|split; [|done]]].
    + split; [lia|]. by split.
    + intros g. split.
      * intros [?|(_ & [[? ?]|?])]; [|done..].
        destruct (decide (g = Slot.generation slot)); [right; tauto|left; lia].
      * intros [?|(-> & _)]; left; lia.
Qed.

(** *** Updating one slot *)
Lemma lookup_update self i slot slot' f l k :
  slots self !! i = Some slot ->
  lookup (mk (<[i:=slot']> (slots self)) f l) k =
  if decide (Z.to_nat k.1 = i) then slot_lookup slot' k.2 else lookup self k.
Proof.
  intros Hi. unfold lookup. cbn. case_decide as Hk.
  - rewrite Hk, list_lookup_insert_eq; [done|]. by eapply lookup_lt_Some.
  - by rewrite list_lookup_insert_ne.
Qed.

Lemma issued_update self i slot slot' f l k :
  slots self !! i = Some slot -> 0 <= k.1 ->
  issued (mk (<[i:=slot']> (slots self)) f l) k <->
  if decide (Z.to_nat k.1 = i) then slot_issued slot' k.2 else issued self k.
Proof.
  intros Hi Hk0. unfold issued. cbn. case_decide as Hk.
  - rewrite Hk, list_lookup_insert_eq by (by eapply lookup_lt_Some).
    split; [intros (_ & s & [= <-] & Hs); exact Hs|eauto].
  - by rewrite list_lookup_insert_ne.
Qed.

Lemma free_exact_update (slots : list (Slot.t T)) free free' i slot slot' :
  slots !! i = Some slot -> free_exact slots free ->
  (forall j, j ∈ free' <->
     (j = Z.of_nat i /\ reusable slot' = true) \/ (j <> Z.of_nat i /\ j ∈ free)) ->
  free_exact (<[i:=slot']> slots) free'.
Proof.
  intros Hi Hf Hf' j. rewrite Hf', (Hf j).
  destruct (decide (j = Z.of_nat i)) as [->|Hne].
  - rewrite Nat2Z.id, list_lookup_insert_eq by (by eapply lookup_lt_Some).
    split; [intros [[_ ?]|[? _]]; [|done]|intros (_ & ? & [= <-] & ?)].
    + split; [lia|eauto].
    + by left.
  - split.
    + intros [[? _]|(_ & Hj & s & Hs & Hr)]; [done|]. split; [done|].
      exists s. rewrite list_lookup_insert_ne by lia. done.
    + intros (Hj & s & Hs & Hr). rewrite list_lookup_insert_ne in Hs by lia.
      right. eauto.
Qed.

Lemma slot_lookup_issued slot g v :
  slot_lookup slot g = Some v -> slot_issued slot g.
Proof.
  unfold slot_lookup, slot_issued. case_decide; [|done]. intros E.
  right. rewrite E. eauto.
Qed.

(** What resolves has been issued. *)
Lemma lookup_issued self k v :
  0 <= k.1 -> lookup self k = Some v -> issued self k.
Proof.
  intros Hk. unfold lookup, issued. destruct (slots self !! _) as [s|] eqn:E; cbn; [|done].
  intros Hs%slot_lookup_issued. eauto.
Qed.

Lemma new_not_issued k : ~ issued (@new T) k.
Proof. intros (_ & s & Hs & _). discriminate Hs. Qed.

(** *** [insert] *)
Record inserted (kind : Z) (v : T) (self self' : t T) (h : Handle.t) : Prop := {
  inserted_wf : wf self';
  inserted_handle : Handle.wf h /\ Handle.kind h = kind;
  inserted_fresh : ~ issued self (key h);
  inserted_lookup k : 0 <= k.1 ->
    lookup self' k = if decide (k = key h) then Some v else lookup self k;
  inserted_issued k : issued self' k <-> issued self k \/ k = key h;
  inserted_live : live self' = live self + 1;
  inserted_length : (length (slots self') <= S (length (slots self)))%nat;
}.

(** Filling a reusable slot with a value of its generation. *)
Lemma reuse_wf self i slot free' kind v :
  wf self -> fits 8 kind -> free self = push free' i ->
  0 <= i -> slots self !! Z.to_nat i = Some slot ->
  Slot.value slot = None -> Slot.retired slot = false ->
  wf (mk (<[Z.to_nat i := Slot.mk (Slot.generation slot) kind (Some v) (Slot.retired slot)]>
    (slots self)) free' (live self + 1)).
Proof.
  intros Hwf Hk Hfree Hi Hslot Hval Hret. pose proof (wf_lookup _ _ _ Hwf Hslot) as (? & ? & ?).
  pose proof (wf_nodup _ Hwf) as Hnd. rewrite Hfree in Hnd. apply NoDup_push in Hnd as [Hni Hnd].
  constructor; cbn.
  - rewrite length_insert. apply Hwf.
  - apply Forall_insert; [apply Hwf|]. split; [done|]. split; [done|]. cbn. by rewrite Hret.
  - done.
  - eapply free_exact_update; [exact Hslot|apply Hwf|]. intros j.
    rewrite Hfree, elem_of_push, Z2Nat.id by done. unfold reusable. cbn.
    split; [|intros [[_ ?]|[? [?|?]]]; done]. intros Hj. right.
    split; [by intros ->|by left].
  - rewrite (wf_live _ Hwf). erewrite count_insert by exact Hslot.
    unfold occupied at 3 4. rewrite Hval. cbn. lia.
Qed.

Lemma insert_reuse kind v self i free' :
  wf self -> fits 8 kind -> free self = push free' i ->
  exists self' h, insert kind v self = Ret (self', h) /\ inserted kind v self self' h.
Proof.
  intros Hwf Hk Hfree. pose proof (live_bounds _ Hwf) as Hlive.
  assert (i ∈ free self) as Hin by (rewrite Hfree; apply elem_of_push; by right).
  apply (wf_free _ Hwf) in Hin as (Hi & slot & Hslot & Hre).
  apply reusable_true in Hre as [Hval Hret].
  pose proof (wf_lookup _ _ _ Hwf Hslot) as Hswf.
  pose proof (slot_index_fits _ _ _ Hwf Hslot) as Hfits.
  rewrite Z2Nat.id in Hfits by done.
  unfold insert. rewrite add_or_panic_ret by (unfold max_of; lia). cbn [mbind outcome_bind].
  rewrite (proj2 (pop_Some _ _ _) Hfree). unfold index_or_panic. rewrite Hslot.
  do 2 eexists. split; [reflexivity|].
  set (slot' := Slot.mk _ _ _ _). set (h := Handle.new _ _ _).
  assert (key h = (i, Slot.generation slot)) as Hkey.
  { unfold key, h. rewrite handle_slot_new, handle_generation_new by done. cbn.
    by rewrite slot_wf_gen. }
  constructor.
  - by eapply reuse_wf.
  - split; [by apply handle_new_wf|by apply handle_kind_new].
  - rewrite Hkey. intros (_ & s & Hs & Hiss). cbn in Hs, Hiss.
    assert (s = slot) as -> by congruence. destruct Hiss as [?|(_ & [[? ?]|?])]; [lia|congruence..].
  - intros k Hk0. erewrite lookup_update by exact Hslot. rewrite Hkey.
    destruct k as [ki kg]; cbn in *. case_decide as Hd.
    + assert (ki = i) as -> by lia. unfold slot_lookup; cbn.
      repeat case_decide; try congruence.
      unfold lookup; cbn. rewrite Hslot; cbn. unfold slot_lookup. rewrite Hval.
      by case_decide.
    + rewrite decide_False; [done|]. intros [= -> ->]. done.
  - intros k. destruct (decide (0 <= k.1)) as [Hk0|Hk0].
    2:{ rewrite Hkey. destruct k as [ki kg]. cbn in *. unfold issued. cbn.
        split; [tauto|]. intros [?|[= -> ->]]; [tauto|done]. }
    erewrite issued_update by done. rewrite Hkey. destruct k as [ki kg]; cbn in *.
    case_decide as Hd.
    + assert (ki = i) as -> by lia. unfold issued, slot_issued; cbn.
      rewrite Hslot. split.
      * intros [?|[-> _]]; [|by right]. left. eauto 10.
      * intros [(_ & s & [= <-] & Hs)|[= ->]]; [|right; eauto].
        destruct Hs as [?|[-> _]]; [by left|right; eauto].
    + split; [by left|]. intros [?|[= -> ->]]; [done|]. done.
  - done.
  - cbn. rewrite length_insert. lia.
Qed.

Lemma lookup_beyond self k :
  (length (slots self) <= Z.to_nat k.1)%nat -> lookup self k = None /\ ~ issued self k.
Proof.
  intros Hl. apply lookup_ge_None in Hl as Hn. unfold lookup, issued. rewrite Hn.
  split; [done|]. by intros (_ & ? & ? & _).
Qed.

Lemma push_lookup_old {A} (l : list A) x (i : Z) :
  0 <= i -> i <> Z.of_nat (length l) -> push l x !! Z.to_nat i = l !! Z.to_nat i.
Proof.
  intros Hi Hin. unfold push. destruct (decide (Z.to_nat i < length l)%nat).
  - by rewrite lookup_app_l.
  - rewrite !(proj2 (lookup_ge_None _ _)); [done|lia|]. rewrite length_app. cbn. lia.
Qed.

Lemma push_lookup_new {A} (l : list A) x : push l x !! length l = Some x.
Proof. unfold push. by rewrite lookup_app_r, Nat.sub_diag. Qed.

(** A new slot at the end. *)
Lemma append_wf self kind v :
  wf self -> fits 8 kind -> Z.of_nat (length (slots self)) < 2 ^ 32 ->
  wf (mk (push (slots self) (Slot.mk 0 kind (Some v) false)) (free self) (live self + 1)).
Proof.
  intros Hwf Hk Hlen. set (slot := Slot.mk _ _ _ _).
  constructor; cbn.
  - unfold push. rewrite length_app. cbn. lia.
  - apply Forall_app. split; [apply Hwf|]. apply Forall_singleton.
    split; [cbn; rewrite GENERATION_MAX_val; lia|]. by split.
  - apply Hwf.
  - intros j. rewrite (wf_free _ Hwf j).
    split; intros (Hj & s & Hs & Hre); (split; [done|]); exists s; (split; [|done]).
    + by apply lookup_app_l_Some.
    + destruct (decide (j = Z.of_nat (length (slots self)))) as [->|Hne].
      * rewrite Nat2Z.id, push_lookup_new in Hs. injection Hs as <-. done.
      * by rewrite <- (push_lookup_old _ slot j).
  - unfold push. rewrite count_app, (wf_live _ Hwf). cbn. lia.
Qed.

Lemma insert_append kind v self :
  wf self -> fits 8 kind -> free self = [] -> Z.of_nat (length (slots self)) < 2 ^ 32 ->
  exists self' h, insert kind v self = Ret (self', h) /\ inserted kind v self self' h.
Proof.
  intros Hwf Hk Hfree Hlen. pose proof (live_bounds _ Hwf) as Hlive.
  set (n := length (slots self)) in *.
  assert (fits 32 (Z.of_nat n)) as Hfits by (unfold fits; lia).
  unfold insert. rewrite add_or_panic_ret by (unfold max_of; lia). cbn [mbind outcome_bind].
  rewrite (proj2 (pop_None _) Hfree). fold n. rewrite wrap_fits by done.
  do 2 eexists. split; [reflexivity|].
  set (slot := Slot.mk _ _ _ _). set (h := Handle.new _ _ _).
  assert (key h = (Z.of_nat n, 0)) as Hkey.
  { unfold key, h. by rewrite handle_slot_new, handle_generation_new by done. }
  pose proof (push_lookup_new (slots self) slot) as Hnew. fold n in Hnew.
  pose proof (push_lookup_old (slots self) slot) as Hold. fold n in Hold.
  constructor.
  - by apply append_wf.
  - split; [by apply handle_new_wf|by apply handle_kind_new].
  - rewrite Hkey. apply lookup_beyond. cbn. rewrite Nat2Z.id. done.
  - intros [ki kg] Hk0. rewrite Hkey. destruct (decide (ki = Z.of_nat n)) as [->|Hne].
    + unfold lookup. cbn. rewrite Nat2Z.id, Hnew. cbn. unfold slot_lookup. cbn.
      rewrite (proj2 (lookup_ge_None _ _)) by done. cbn.
      repeat case_decide; congruence.
    + rewrite decide_False by congruence. unfold lookup. cbn -[push].
      by rewrite <- (Hold ki).
  - intros [ki kg]. rewrite Hkey. destruct (decide (ki = Z.of_nat n)) as [->|Hne].
    + unfold issued, slot_issued. cbn -[push]. rewrite Nat2Z.id, Hnew.
      rewrite (proj2 (lookup_ge_None (slots self) n)) by done. split.
      * intros (_ & ? & [= <-] & [?|[-> _]]); [cbn in *; lia|by right].
      * intros [(_ & ? & ? & _)|[= ->]]; [done|]. split; [lia|].
        exists slot. split; [done|]. right. cbn. eauto.
    + unfold issued. cbn -[push]. split.
      * intros (Hk0 & H). rewrite (Hold ki) in H by done. by left.
      * intros [(Hk0 & H)|[= -> ->]]; [|done]. by rewrite (Hold ki).
  - done.
  - cbn. unfold push. rewrite length_app. cbn. lia.
Qed.

(** [insert] into a table with room: it returns, and the handle is fresh. *)
Lemma insert_spec kind v self :
  wf self -> fits 8 kind -> has_room self ->
  exists self' h, insert kind v self = Ret (self', h) /\ inserted kind v self self' h.
Proof.
  intros Hwf Hk Hroom. destruct (pop (free self)) as [[i free']|] eqn:E.
  - apply pop_Some in E. by eapply insert_reuse.
  - apply pop_None in E. destruct Hroom; [done|]. by apply insert_append.
Qed.

(** *** [remove] and [get_mut] *)
Record removed (k : Z * Z) (self self' : t T) : Prop := {
  removed_wf : wf self';
  removed_lookup k' : 0 <= k'.1 ->
    lookup self' k' = if decide (k' = k) then None else lookup self k';
  removed_issued k' : issued self' k' <-> issued self k';
  removed_live : live self' = live self - 1;
  removed_length : length (slots self') = length (slots self);
}.

Lemma key_nonneg h : 0 <= (key h).1.
Proof. cbn. apply (fits_wrap 32). lia. Qed.

Lemma key_index h : Z.of_nat (Z.to_nat (Handle.slot h)) = Handle.slot h.
Proof. apply Z2Nat.id, key_nonneg. Qed.

Lemma issued_same_slots (self self' : t T) (P : nat -> Prop) :
  (forall i, P i \/ ~ P i) ->
  (forall k, 0 <= k.1 -> P (Z.to_nat k.1) -> issued self' k <-> issued self k) ->
  (forall i, ~ P i -> slots self' !! i = slots self !! i) ->
  forall k, issued self' k <-> issued self k.
Proof.
  intros Hdec HP Hne k. destruct (Hdec (Z.to_nat k.1)) as [Hk|Hk].
  - split; intros Hi; pose proof Hi as [? _]; by apply HP.
  - unfold issued. by rewrite (Hne _ Hk).
Qed.

Lemma remove_slot self i slot slot' free' :
  wf self -> slots self !! i = Some slot -> is_Some (Slot.value slot) ->
  free_slot slot (Z.of_nat i) (free self) = (slot', free') ->
  removed (Z.of_nat i, Slot.generation slot) self
    (mk (<[i:=slot']> (slots self)) free' (live self - 1)).
Proof.
  intros Hwf Hi Hv E. pose proof (wf_lookup _ _ _ Hwf Hi) as Hs.
  destruct (free_slot_spec _ _ _ _ _ Hs Hv E) as (Hs' & Hv' & Hiss & Hfree).
  assert (Z.of_nat i ∉ free self) as Hni.
  { intros (_ & s & Hs2 & [Hre _]%reusable_true)%(wf_free _ Hwf).
    rewrite Nat2Z.id, Hi in Hs2. injection Hs2 as <-. rewrite Hre in Hv. by destruct Hv. }
  constructor.
  - constructor; cbn.
    + rewrite length_insert. apply Hwf.
    + apply Forall_insert; [apply Hwf|done].
    + rewrite Hfree. destruct (reusable slot'); [|apply Hwf].
      apply NoDup_push. split; [done|apply Hwf].
    + eapply free_exact_update; [exact Hi|apply Hwf|]. intros j. rewrite Hfree.
      destruct (reusable slot'); [rewrite elem_of_push|];
        (destruct (decide (j = Z.of_nat i)) as [->|Hne]; naive_solver).
    + rewrite (wf_live _ Hwf). erewrite count_insert by exact Hi.
      rewrite (proj2 (occupied_true slot) Hv). unfold occupied at 3. rewrite Hv'. lia.
  - intros [ki kg] Hk. erewrite lookup_update by exact Hi. cbn in *.
    case_decide as Hd.
    + assert (ki = Z.of_nat i) as -> by lia. unfold slot_lookup at 1. rewrite Hv'.
      unfold lookup; cbn. rewrite Nat2Z.id, Hi; cbn. unfold slot_lookup.
      repeat case_decide; congruence.
    + rewrite decide_False; [done|]. intros [= -> ->]. lia.
  - apply (issued_same_slots _ _ (fun j => j = i)).
    + intros j. destruct (decide (j = i)); auto.
    + intros k Hk Hki. rewrite issued_update by done. rewrite decide_True by done.
      rewrite Hiss. unfold issued. rewrite Hki, Hi. naive_solver.
    + intros j Hj. cbn. by rewrite list_lookup_insert_ne.
  - done.
  - cbn. by rewrite length_insert.
Qed.

(** [remove] on any handle: it returns, and resolves the handle as [get] does. *)
Lemma remove_spec h self :
  wf self ->
  match get h self with
  | None => remove h self = Ret (self, None)
  | Some v => exists self', remove h self = Ret (self', Some v) /\ removed (key h) self self'
  end.
Proof.
  intros Hwf. unfold get, remove. destruct (slots self !! _) as [slot|] eqn:Hi; cbn; [|done].
  case_decide as Hg; [done|]. destruct (Slot.value slot) as [v|] eqn:Hv; [|done].

  rewrite sub_or_panic_ret by (eapply live_pos; [done|exact Hi|by rewrite Hv]).
  cbn [mbind outcome_bind].
  destruct (free_slot _ _ _) as [slot' free'] eqn:E. eexists. split; [reflexivity|].
  rewrite <- key_index in E.
  replace (key h) with (Z.of_nat (Z.to_nat (Handle.slot h)), Slot.generation slot)
    by (unfold key; by rewrite Hg, key_index).
  eapply remove_slot; [done|done|by rewrite Hv|exact E].
Qed.

Lemma get_mut_spec h self :
  match get_mut h self with
  | None => get h self = None
  | Some (v, write) =>
    get h self = Some v /\ forall v', wf self ->
      wf (write v') /\ live (write v') = live self /\
      length (slots (write v')) = length (slots self) /\
      (forall k, 0 <= k.1 -> lookup (write v') k =
         if decide (k = key h) then Some v' else lookup self k) /\
      (forall k, issued (write v') k <-> issued self k)
  end.
Proof.
  unfold get, get_mut. destruct (slots self !! _) as [slot|] eqn:Hi; cbn; [|done].
  case_decide as Hg; [done|]. destruct (Slot.value slot) as [v|] eqn:Hv; cbn; [|done].
  split; [done|]. intros v' Hwf.
  pose proof (wf_lookup _ _ _ Hwf Hi) as (Hs & Hk & Hr).
  set (slot' := Slot.mk _ _ _ _).
  split; [constructor; cbn|split; [done|split; [cbn; by rewrite length_insert|split]]].
  - rewrite length_insert. apply Hwf.
  - apply Forall_insert; [apply Hwf|]. split; [done|split; [done|]]. cbn. intros Hret.
    apply Hr in Hret as [? _]. congruence.
  - apply Hwf.
  - eapply free_exact_update; [exact Hi|apply Hwf|]. intros j. unfold reusable. cbn.
    split; [|intros [[_ ?]|[_ ?]]; done]. intros Hj. right. split; [|done].
    intros ->. apply (wf_free _ Hwf) in Hj as (_ & s & Hs2 & [Hre _]%reusable_true).
    rewrite Nat2Z.id, Hi in Hs2. congruence.
  - rewrite (wf_live _ Hwf). erewrite count_insert by exact Hi.
    unfold occupied at 3 4. rewrite Hv. cbn. lia.
  - intros [ki kg] Hki. erewrite lookup_update by exact Hi. cbn in *. unfold key.
    case_decide as Hd.
    + assert (ki = Handle.slot h) as -> by (rewrite <- key_index; lia).
      unfold lookup, slot_lookup; cbn. rewrite Hi; cbn.
      repeat case_decide; congruence.
    + rewrite decide_False; [done|]. intros [= -> ->]. done.
  - apply (issued_same_slots _ _ (fun j => j = Z.to_nat (Handle.slot h))).
    + intros j. destruct (decide (j = Z.to_nat (Handle.slot h))); auto.
    + intros k Hk0 Hki. rewrite issued_update by done. rewrite decide_True by done.
      unfold issued. rewrite Hki, Hi. unfold slot_issued. cbn.
      split; [intros [?|[-> _]]|].
      * split; eauto.
      * split; [done|]. exists slot. split; [done|]. right. rewrite Hv. eauto.
      * intros (_ & s & [= <-] & [?|[-> _]]); [by left|]. right. eauto.
    + intros j Hj. cbn. by rewrite list_lookup_insert_ne.
Qed.

(** *** [iter] *)
Lemma elem_of_enumerate {A} (l : list A) s i x :
  (i, x) ∈ enumerate_from s l <-> exists j, i = s + Z.of_nat j /\ l !! j = Some x.
Proof.
  revert s. induction l as [|y l IH]; intros s; cbn.
  - rewrite elem_of_nil. split; [done|]. by intros (? & _ & ?).
  - rewrite elem_of_cons, IH. split.
    + intros [[= -> ->]|(j & -> & ?)].
      * exists 0%nat. split; [lia|done].
      * exists (S j). split; [lia|done].
    + intros ([|j] & -> & Hj); cbn in Hj.
      * left. injection Hj as ->. f_equal. lia.
      * right. exists j. split; [lia|done].
Qed.

Lemma elem_of_iter self h v :
  (h, v) ∈ iter self <-> exists i slot, slots self !! i = Some slot /\
    Slot.value slot = Some v /\ h = slot_handle (Z.of_nat i) slot.
Proof.
  unfold iter. rewrite list_elem_of_omap. split.
  - intros ([i slot] & (j & -> & Hj)%elem_of_enumerate & E).
    destruct (Slot.value slot) as [w|] eqn:Hv; cbn in E; [|done].
    injection E as <- <-. exists j, slot. by rewrite Z.add_0_l.
  - intros (i & slot & Hi & Hv & ->). exists (Z.of_nat i, slot).
    split; [apply elem_of_enumerate; exists i; split; [lia|done]|].
    by rewrite Hv.
Qed.

(** [iter] reports exactly the entries [get] resolves, under their own kind. *)
Lemma iter_get self h v :
  wf self -> (h, v) ∈ iter self -> get h self = Some v.
Proof.
  intros Hwf (i & slot & Hi & Hv & ->)%elem_of_iter.
  destruct (slot_handle_fields _ _ _ Hwf Hi) as [_ Hk].
  rewrite get_lookup, Hk. apply lookup_Some. exists slot. cbn. by rewrite Nat2Z.id.
Qed.

Lemma get_iter self h v :
  wf self -> get h self = Some v -> exists h', key h' = key h /\ (h', v) ∈ iter self.
Proof.
  intros Hwf. rewrite get_lookup. intros (slot & Hi & Hg & Hv)%lookup_Some.
  destruct (slot_handle_fields _ _ _ Hwf Hi) as [_ Hk].
  exists (slot_handle (Z.of_nat (Z.to_nat (Handle.slot h))) slot). split.
  - etransitivity; [exact Hk|]. unfold key in *. cbn in *. by rewrite key_index, Hg.
  - apply elem_of_iter. by exists (Z.to_nat (Handle.slot h)), slot.
Qed.

Lemma length_iter self : wf self -> Z.of_nat (length (iter self)) = live self.
Proof.
  intros Hwf. rewrite (wf_live _ Hwf). unfold iter. generalize 0.
  induction (slots self) as [|slot l IH]; intros s; cbn; [done|].
  unfold occupied at 1. destruct (Slot.value slot); cbn -[Z.of_nat];
    rewrite <- (IH (s + 1)); lia.
Qed.

(** *** [retain] and [clear] *)
Lemma remove_at self (pre : list (Slot.t T)) slot rest free live v slot' free' :
  self = mk (pre ++ slot :: rest) free live -> wf self -> Slot.value slot = Some v ->
  let h := slot_handle (Z.of_nat (length pre)) slot in
  free_slot slot (wrap 32 (Z.of_nat (length pre))) free = (slot', free') ->
  remove h self = Ret (mk (pre ++ slot' :: rest) free' (live - 1), Some v).
Proof.
  intros -> Hwf Hv h E.
  assert ((pre ++ slot :: rest) !! length pre = Some slot) as Hi
    by (by rewrite lookup_app_r, Nat.sub_diag).
  pose proof (slot_handle_fields _ _ _ Hwf Hi) as [_ [= Hs Hg]]. fold h in Hs, Hg.
  pose proof (slot_index_fits _ _ _ Hwf Hi) as Hf. rewrite wrap_fits in E by done.
  unfold remove. rewrite Hs, Hg, Nat2Z.id. cbn [slots]. rewrite Hi.
  rewrite decide_False by (intros Hn; by apply Hn). rewrite Hv.
  rewrite sub_or_panic_ret
    by (eapply (live_pos _ _ _ Hwf); [exact Hi|by rewrite Hv]).
  cbn [mbind outcome_bind HandleTable.free HandleTable.live]. rewrite E.
  by rewrite <- (Nat.add_0_r (length pre)), insert_app_r.
Qed.

Lemma retain_slots_remove_all {S} (keep : S -> Handle.t -> T -> S * bool) s
    pre rest free live n :
  wf (mk (pre ++ rest) free live) ->
  let '(s', rest', free', n') :=
    retain_slots keep s (Z.of_nat (length pre)) rest free n in
  let '(s'', hs) := rejected keep s
    (omap (fun '(slot_idx, slot) =>
      value ← Slot.value slot; Some (slot_handle slot_idx slot, value))
      (enumerate_from (Z.of_nat (length pre)) rest)) in
  s' = s'' /\ n' = n + Z.of_nat (length hs) /\ Z.of_nat (length hs) <= live /\
  remove_all hs (mk (pre ++ rest) free live) =
    Ret (mk (pre ++ rest') free' (live - Z.of_nat (length hs))).
Proof.
  revert pre s free live n. induction rest as [|slot rest IH];
    intros pre s free live n Hwf; cbn -[Z.of_nat].
  - pose proof (live_bounds _ Hwf). cbn in *. split; [done|split; [lia|split; [lia|]]].
    do 2 f_equal. lia.
  - assert (forall slot', Z.of_nat (length pre) + 1 = Z.of_nat (length (pre ++ [slot'])) /\
      forall l, pre ++ slot' :: l = (pre ++ [slot']) ++ l) as Hpre.
    { intros slot'. rewrite length_app. split; [cbn; lia|]. intros l. by rewrite <- app_assoc. }
    destruct (Slot.value slot) as [v|] eqn:Hv; cbn -[Z.of_nat].
    2:{ destruct (Hpre slot) as [-> Hl]. rewrite (Hl rest) in Hwf |- *.
        specialize (IH (pre ++ [slot]) s free live n Hwf).
        destruct (retain_slots _ _ _ _ _ _) as [[[s' rest'] free'] n'].
        destruct (rejected _ _ _) as [s'' hs]. by rewrite (Hl rest'). }
    destruct (keep s (slot_handle (Z.of_nat (length pre)) slot) v) as [s1 [|]] eqn:Hkeep.
    { destruct (Hpre slot) as [-> Hl]. rewrite (Hl rest) in Hwf |- *.
      specialize (IH (pre ++ [slot]) s1 free live n Hwf).
      destruct (retain_slots _ _ _ _ _ _) as [[[s' rest'] free'] n'].
      destruct (rejected _ _ _) as [s'' hs]. by rewrite (Hl rest'). }
    destruct (free_slot slot _ free) as [slot' free1] eqn:Ef.
    pose proof (remove_at _ _ _ _ _ _ _ _ _ eq_refl Hwf Hv Ef) as Hrem.
    pose proof (remove_spec (slot_handle (Z.of_nat (length pre)) slot) _ Hwf) as Hspec.
    rewrite get_lookup in Hspec.
    destruct (lookup _ _) as [w|]; [|congruence].
    destruct Hspec as (self' & Er & [Hwf' _ _ _ _]). rewrite Hrem in Er.
    injection Er as <- _.
    destruct (Hpre slot') as [-> Hl]. rewrite (Hl rest) in Hwf', Hrem.
    specialize (IH (pre ++ [slot']) s1 free1 (live - 1) (n + 1) Hwf').
    destruct (retain_slots _ _ _ _ _ _) as [[[s' rest'] free'] n'].
    destruct (rejected _ _ _) as [s'' hs]. destruct IH as (-> & -> & Hle & IH).
    split; [done|]. split; [cbn -[Z.of_nat]; lia|]. split; [cbn -[Z.of_nat]; lia|].
    cbn -[remove Z.of_nat]. rewrite Hrem. cbn -[remove_all Z.of_nat]. rewrite IH, (Hl rest').
    do 2 f_equal. cbn -[Z.of_nat]. lia.
Qed.

Lemma decide_removed {A} (k k0 : Z * Z) ks (x y : option A) :
  (k = k0 -> y = None) -> (k <> k0 -> y = x) ->
  (if decide (k ∈ ks) then None else y) = (if decide (k ∈ k0 :: ks) then None else x).
Proof.
  intros H1 H2. destruct (decide (k = k0)) as [->|Hne].
  - rewrite (decide_True (P := k0 ∈ k0 :: ks)) by apply list_elem_of_here.
    rewrite H1 by done. by case_decide.
  - rewrite H2 by done. apply decide_ext. rewrite elem_of_cons. tauto.
Qed.

Lemma remove_all_spec hs self :
  wf self -> exists self', remove_all hs self = Ret self' /\ wf self' /\
    (forall k, 0 <= k.1 ->
       lookup self' k = if decide (k ∈ map key hs) then None else lookup self k) /\
    (forall k, issued self' k <-> issued self k) /\
    length (slots self') = length (slots self).
Proof.
  revert self. induction hs as [|h hs IH]; intros self Hwf; cbn [remove_all map].
  - exists self. split; [done|]. split; [done|]. split; [|done].
    intros k Hk. rewrite decide_False; [done|]. apply not_elem_of_nil.
  - pose proof (remove_spec h self Hwf) as Hrem. rewrite get_lookup in Hrem.
    destruct (lookup self (key h)) as [v|] eqn:Ev.
    + destruct Hrem as (self1 & -> & [Hwf1 Hl1 Hi1 _ Hlen1]). cbn [mbind outcome_bind].
      destruct (IH _ Hwf1) as (self' & E & Hwf' & Hl & Hi & Hlen).
      exists self'. split; [done|]. split; [done|]. split; [|split; [|congruence]].
      * intros k Hk. rewrite Hl by done. apply decide_removed; intros; rewrite Hl1 by done.
        -- by rewrite decide_True.
        -- by rewrite decide_False.
      * intros k. by rewrite Hi, Hi1.
    + rewrite Hrem. cbn [mbind outcome_bind].
      destruct (IH _ Hwf) as (self' & E & Hwf' & Hl & Hi & Hlen).
      exists self'. split; [done|]. split; [done|]. split; [|by split].
      intros k Hk. rewrite Hl by done. apply decide_removed; [by intros ->|done].
Qed.

(** [retain] is [remove] on each entry its predicate rejects, in slot order. *)
Lemma retain_remove_all {S} (keep : S -> Handle.t -> T -> S * bool) s self :
  wf self ->
  let '(s', hs) := rejected keep s (iter self) in
  exists self', retain keep s self = Ret (self', s', Z.of_nat (length hs)) /\
    remove_all hs self = Ret self' /\ live self' = live self - Z.of_nat (length hs).
Proof.
  intros Hwf. destruct self as [sl fr lv].
  pose proof (retain_slots_remove_all keep s [] sl fr lv 0 Hwf) as H.
  unfold retain, iter. cbn [length Z.of_nat app HandleTable.slots HandleTable.free
    HandleTable.live] in *.
  destruct (retain_slots _ _ _ _ _ _) as [[[s' rest'] free'] n'].
  destruct (rejected _ _ _) as [s'' hs]. destruct H as (-> & -> & Hle & H).
  eexists. split; [|split; [exact H|done]]. by rewrite Z.add_0_l, sub_or_panic_ret.
Qed.

Lemma clear_slots_retain i (l : list (Slot.t T)) fr n :
  clear_slots i l fr =
  let '(_, l', fr', _) := retain_slots (fun (s : unit) _ _ => (s, false)) tt i l fr n in
  (l', fr').
Proof.
  revert i fr n. induction l as [|slot l IH]; intros i fr n; cbn; [done|].
  destruct (Slot.value slot).
  - destruct (free_slot _ _ _) as [slot' fr']. rewrite (IH _ _ (n + 1)).
    by destruct (retain_slots _ _ _ _ _ _) as [[[? ?] ?] ?].
  - rewrite (IH _ _ n). by destruct (retain_slots _ _ _ _ _ _) as [[[? ?] ?] ?].
Qed.

Lemma rejected_const {S} (s : S) (entries : list (Handle.t * T)) :
  rejected (fun s _ _ => (s, false)) s entries = (s, map fst entries).
Proof. induction entries as [|[h v] r IH]; cbn; [done|]. by rewrite IH. Qed.

(** [clear] is [remove] on every live entry, in slot order. *)
Lemma clear_remove_all self :
  wf self -> remove_all (map fst (iter self)) self = Ret (clear self).
Proof.
  intros Hwf. pose proof (length_iter _ Hwf) as Hlen. destruct self as [sl fr lv].
  pose proof (retain_slots_remove_all (fun (s : unit) _ _ => (s, false)) tt [] sl fr lv 0 Hwf) as H.
  unfold clear. rewrite (clear_slots_retain _ _ _ 0). unfold iter in *.
  rewrite rejected_const in H.
  cbn [length Z.of_nat app HandleTable.slots HandleTable.free HandleTable.live] in *.
  destruct (retain_slots _ _ _ _ _ _) as [[[s' rest'] free'] n'].
  destruct H as (_ & _ & _ & H). change (Z.of_nat 0) with 0 in H. rewrite H.
  rewrite length_map, Hlen. by rewrite Z.sub_diag.
Qed.

Lemma clear_spec self :
  wf self -> wf (clear self) /\ live (clear self) = 0 /\
    (forall k, 0 <= k.1 -> lookup (clear self) k = None) /\
    (forall k, issued (clear self) k <-> issued self k) /\
    length (slots (clear self)) = length (slots self).
Proof.
  intros Hwf.
  destruct (remove_all_spec (map fst (iter self)) self Hwf)
    as (self' & E & Hwf' & Hl & Hi & Hlen).
  rewrite clear_remove_all in E by done. injection E as <-.
  split; [done|]. split.
  { unfold clear. by destruct (clear_slots _ _ _). }
  split; [|by split]. intros k Hk. rewrite Hl by done. case_decide as Hd; [done|].
  destruct (lookup self k) as [v|] eqn:E; [|done]. exfalso. apply Hd.
  apply lookup_Some in E as (slot & Hs & Hg & Hv).
  destruct (slot_handle_fields _ _ _ Hwf Hs) as [_ Hkey].
  apply list_elem_of_fmap. exists (slot_handle (Z.of_nat (Z.to_nat k.1)) slot). split.
  - rewrite Hkey, Z2Nat.id, Hg by done. by destruct k.
  - apply list_elem_of_fmap. exists (slot_handle (Z.of_nat (Z.to_nat k.1)) slot, v).
    split; [done|]. apply elem_of_iter. eauto.
Qed.

(** *** Kinds *)
Lemma dedup_cons x l : exists r, dedup (x :: l) = x :: r.
Proof.
  revert x. induction l as [|y l IH]; intros x; [by exists []|].
  cbn [dedup]. case_decide as Hd; [subst y; apply IH|]. eauto.
Qed.

Lemma elem_of_dedup x l : x ∈ dedup l <-> x ∈ l.
Proof.
  induction l as [|y [|z l] IH]; cbn [dedup]; [done..|].
  case_decide as Hd; [subst z|]; rewrite elem_of_cons, IH || rewrite IH;
    rewrite !elem_of_cons; tauto.
Qed.

Lemma dedup_sorted l : Sorted Z.le l -> StronglySorted Z.lt (dedup l).
Proof.
  intros Hs. apply Sorted_StronglySorted in Hs; [|intros ???; lia].
  induction Hs as [|x l Hs IH Hx]; [constructor|].
  destruct l as [|y l]; [repeat constructor|].
  change (dedup (x :: y :: l)) with
    (if decide (x = y) then dedup (y :: l) else x :: dedup (y :: l)).
  case_decide as Hd; [done|]. constructor; [done|]. apply Forall_forall.
  intros z Hz. apply (proj1 (elem_of_dedup _ _)) in Hz. inversion_clear Hs as [|?? _ Hy]. inversion_clear Hx as [|?? Hxy _].
  apply elem_of_cons in Hz as [->|Hz]; [lia|].
  pose proof (proj1 (Forall_forall _ _) Hy z Hz). cbn in *. lia.
Qed.

Lemma kinds_sorted self : StronglySorted Z.lt (kinds self).
Proof. apply dedup_sorted, Sorted_merge_sort. intros ??; lia. Qed.

Lemma elem_of_kinds self k :
  wf self -> k ∈ kinds self <-> exists h v, (h, v) ∈ iter self /\ Handle.kind h = k.
Proof.
  intros Hwf. unfold kinds. rewrite elem_of_dedup, merge_sort_Permutation, list_elem_of_fmap.
  split.
  - intros (slot & -> & [Hocc Hin]%list_elem_of_filter).
    apply list_elem_of_lookup in Hin as [i Hi].
    apply occupied_true in Hocc as [v Hv].
    exists (slot_handle (Z.of_nat i) slot), v. split; [apply elem_of_iter; eauto|].
    by apply (slot_handle_fields _ _ _ Hwf Hi).
  - intros (h & v & (i & slot & Hi & Hv & ->)%elem_of_iter & <-).
    exists slot. split; [apply (slot_handle_fields _ _ _ Hwf Hi)|].
    apply list_elem_of_filter. split; [apply occupied_true; by rewrite Hv|].
    by eapply list_elem_of_lookup_2.
Qed.

(** [iter_kind] is [iter] filtered by the handle's kind, and [count_by_kind]
    its length. *)
Lemma iter_kind_filter self k :
  wf self -> iter_kind k self = filter (fun e => Handle.kind (fst e) = k) (iter self).
Proof.
  intros Hwf. unfold iter_kind, iter.
  assert (forall j slot, (j, slot) ∈ enumerate (slots self) ->
    Handle.kind (slot_handle j slot) = Slot.kind slot) as Hkind.
  { intros j slot (i & -> & Hi)%elem_of_enumerate. rewrite Z.add_0_l.
    apply (slot_handle_fields _ _ _ Hwf Hi). }
  induction (enumerate (slots self)) as [|[j slot] l IH]; [done|]. cbn.
  specialize (IH ltac:(intros; apply Hkind; by right)).
  specialize (Hkind j slot ltac:(by left)).
  destruct (Slot.value slot) as [v|]; cbn; rewrite ?filter_cons; cbn; rewrite ?Hkind;
    repeat case_decide; cbn; by rewrite ?IH.
Qed.

Lemma count_by_kind_length self k :
  count_by_kind k self = Z.of_nat (length (iter_kind k self)).
Proof.
  unfold count_by_kind, iter_kind. generalize 0.
  induction (slots self) as [|slot l IH]; intros s; cbn; [done|].
  unfold occupied at 1. rewrite (IH (s + 1)).
  destruct (Slot.value slot); cbn -[Z.of_nat];
    [case_bool_decide|]; repeat case_decide; cbn -[Z.of_nat]; try done; lia.
Qed.
End laws.
End HandleTable.
