(* ===== verification/HandleSpec.v ===== *)
(** What the handle table promises, and that it keeps the promise.

    The abstract table is a finite map from keys (slot, generation) to entries,
    the value with the handle it was issued under, together with the set of keys
    ever issued; inserting picks any key that was never issued, and retaining
    keeps the entries the predicate accepts. The operations of Handles.v refine
    it, so whatever holds of every run of the abstract table (no key is issued
    twice, a removed key never resolves again) holds of the code. *)
From stdpp Require Import sorting.
From S2P Require Import Wire Handles.

Local Open Scope Z_scope.

Import HandleTable.

(** ** Entries

    The entry of a key: its value with the handle [iter] reports it under. *)
Section entries.
Context {T : Type}.
Implicit Types (self : t T) (h : Handle.t).

Definition slot_kind self (i : Z) : option Z := Slot.kind <$> slots self !! Z.to_nat i.

Definition entry self (k : Z * Z) : option (Handle.t * T) :=
  v ← lookup self k;
  kind ← slot_kind self k.1;
  Some (Handle.new kind k.2 k.1, v).

Lemma lookup_slot_kind self k v :
  wf self -> lookup self k = Some v ->
  exists kind, slot_kind self k.1 = Some kind /\ fits 8 kind.
Proof.
  intros Hwf (slot & Hs & _)%lookup_Some. exists (Slot.kind slot).
  unfold slot_kind. rewrite Hs. split; [done|].
  by pose proof (wf_lookup _ _ _ Hwf Hs) as (_ & ? & _).
Qed.

Lemma entry_lookup self k : wf self -> snd <$> entry self k = lookup self k.
Proof.
  intros Hwf. unfold entry. destruct (lookup self k) as [v|] eqn:E; [|done].
  destruct (lookup_slot_kind _ _ _ Hwf E) as (kind & E' & _). cbn. by rewrite E'.
Qed.

Lemma entry_None self k : lookup self k = None -> entry self k = None.
Proof. unfold entry. by intros ->. Qed.

Lemma entry_same self self' k :
  lookup self' k = lookup self k -> slot_kind self' k.1 = slot_kind self k.1 ->
  entry self' k = entry self k.
Proof. unfold entry. by intros -> ->. Qed.

(** The entries of a table are what [iter] yields. *)
Lemma elem_of_iter_entry self h v :
  wf self -> (h, v) ∈ iter self <-> entry self (key h) = Some (h, v).
Proof.
  intros Hwf. rewrite elem_of_iter. unfold entry. split.
  - intros (i & slot & Hi & Hv & ->).
    destruct (slot_handle_fields _ _ _ Hwf Hi) as [_ ->].
    pose proof (slot_index_fits _ _ _ Hwf Hi) as Hf.
    assert (lookup self (Z.of_nat i, Slot.generation slot) = Some v) as ->.
    { apply lookup_Some. exists slot. cbn. by rewrite Nat2Z.id. }
    unfold slot_kind. cbn. rewrite Nat2Z.id, Hi. cbn. unfold slot_handle.
    by rewrite wrap_fits.
  - destruct (lookup self (key h)) as [w|] eqn:E; [cbn|done].
    apply lookup_Some in E as (slot & Hi & Hg & Hv). unfold slot_kind.
    cbn in Hi. rewrite Hi. cbn. intros [= Eh ->]. exists (Z.to_nat (Handle.slot h)), slot.
    split; [exact Hi|]. split; [done|]. unfold slot_handle.
    rewrite key_index, wrap_fits by apply handle_fields_fit. rewrite Hg. exact (eq_sym Eh).
Qed.

(** An entry's key is the key of its handle. *)
Lemma entry_key self k h v :
  wf self -> 0 <= k.1 -> entry self k = Some (h, v) -> key h = k.
Proof.
  intros Hwf Hk. unfold entry. destruct (lookup self k) as [w|] eqn:E; [cbn|done].
  apply lookup_Some in E as (slot & Hi & Hg & Hv). unfold slot_kind.
  rewrite Hi. cbn. intros [= <- _]. destruct k as [ki kg]; cbn in *.
  destruct (slot_handle_fields _ _ _ Hwf Hi) as [_ Hkey].
  rewrite Z2Nat.id in Hkey by done. unfold slot_handle in Hkey.
  pose proof (slot_index_fits _ _ _ Hwf Hi) as Hf. rewrite Z2Nat.id in Hf by done.
  rewrite wrap_fits, Hg in Hkey by done. exact Hkey.
Qed.

(** *** The kinds of the slots under each operation *)
Lemma slot_kind_update self i slot slot' f l j :
  slots self !! i = Some slot -> Slot.kind slot' = Slot.kind slot ->
  slot_kind (mk (<[i:=slot']> (slots self)) f l) j = slot_kind self j.
Proof.
  intros Hi Hk. unfold slot_kind. cbn. destruct (decide (Z.to_nat j = i)) as [->|Hne].
  - rewrite list_lookup_insert_eq by (by eapply lookup_lt_Some). rewrite Hi. cbn. by rewrite Hk.
  - by rewrite list_lookup_insert_ne.
Qed.

Lemma free_slot_kind (slot : Slot.t T) i free : Slot.kind (free_slot slot i free).1 = Slot.kind slot.
Proof. unfold free_slot. by case_match. Qed.

Lemma remove_slot_kind h self self' v j :
  remove h self = Ret (self', v) -> slot_kind self' j = slot_kind self j.
Proof.
  unfold remove. destruct (slots self !! _) as [slot|] eqn:Hi; [|by intros [= <- _]].
  case_decide; [by intros [= <- _]|]. destruct (Slot.value slot); [|by intros [= <- _]].
  destruct (sub_or_panic _ _) as [l|]; cbn [mbind outcome_bind]; [|done].
  pose proof (free_slot_kind slot (Handle.slot h) (free self)) as Hk.
  destruct (free_slot _ _ _) as [slot' f]. intros [= <- _]. by eapply slot_kind_update.
Qed.

Lemma remove_all_slot_kind hs self self' j :
  remove_all hs self = Ret self' -> slot_kind self' j = slot_kind self j.
Proof.
  revert self. induction hs as [|h hs IH]; intros self; cbn [remove_all].
  - by intros [= <-].
  - destruct (remove h self) as [[self1 v]|] eqn:E; cbn [mbind outcome_bind]; [|done].
    intros E'. rewrite (IH _ E'). by eapply remove_slot_kind.
Qed.

Lemma get_mut_slot_kind h self v write v' j :
  get_mut h self = Some (v, write) -> slot_kind (write v') j = slot_kind self j.
Proof.
  unfold get_mut. destruct (slots self !! _) as [slot|] eqn:Hi; cbn; [|done].
  case_decide; [done|]. destruct (Slot.value slot); cbn; [|done].
  intros [= _ <-]. by eapply slot_kind_update.
Qed.

Lemma insert_slot_kind kind v self self' h :
  wf self -> fits 8 kind -> has_room self -> insert kind v self = Ret (self', h) ->
  slot_kind self' (Handle.slot h) = Some kind /\
  forall j, 0 <= j -> j <> Handle.slot h -> slot_kind self' j = slot_kind self j.
Proof.
  intros Hwf Hk Hroom. unfold insert. destruct (add_or_panic _ _ _); cbn [mbind outcome_bind]; [|done].
  unfold slot_kind. destruct (pop (free self)) as [[i fr]|] eqn:E.
  - apply pop_Some in E.
    assert (i ∈ free self) as Hin by (rewrite E; apply elem_of_push; by right).
    apply (wf_free _ Hwf) in Hin as (Hi & slot & Hslot & _).
    pose proof (slot_index_fits _ _ _ Hwf Hslot) as Hf. rewrite Z2Nat.id in Hf by done.
    unfold index_or_panic. rewrite Hslot. intros [= <- <-].
    rewrite handle_slot_new by done. cbn [slots].
    rewrite list_lookup_insert_eq by (by eapply lookup_lt_Some). split; [done|].
    intros j Hj Hne. by rewrite list_lookup_insert_ne by lia.
  - apply pop_None in E. destruct Hroom as [Hroom|Hroom]; [done|].
    rewrite wrap_fits by (unfold fits; lia). intros [= <- <-].
    rewrite handle_slot_new by (done || unfold fits; lia). cbn [slots].
    rewrite Nat2Z.id, push_lookup_new. split; [done|].
    intros j Hj Hne. by rewrite push_lookup_old.
Qed.

(** *** The entries under each operation *)
Lemma entry_insert kind v self self' h k :
  wf self -> fits 8 kind -> has_room self -> insert kind v self = Ret (self', h) ->
  inserted kind v self self' h -> 0 <= k.1 ->
  entry self' k = if decide (k = key h) then Some (h, v) else entry self k.
Proof.
  intros Hwf Hk Hroom E [Hwf' [Hh Hkh] _ Hl _ _ _] Hk0.
  destruct (insert_slot_kind _ _ _ _ _ Hwf Hk Hroom E) as [Hnew Hold].
  case_decide as Hd.
  - subst k. unfold entry. rewrite Hl by done. rewrite decide_True by done. cbn.
    rewrite Hnew, <- Hkh. cbn. by rewrite handle_repack.
  - pose proof (Hl k Hk0) as Hlk. rewrite decide_False in Hlk by done.
    destruct (lookup self k) as [w|] eqn:Ek; [|by rewrite !entry_None].
    apply entry_same; [congruence|]. apply Hold; [done|]. intros Hslot. apply Hd.
    pose proof (Hl (key h) ltac:(apply key_nonneg)) as Hlh. rewrite decide_True in Hlh by done.
    apply lookup_Some in Hlk as (s1 & Hs1 & Hg1 & _).
    apply lookup_Some in Hlh as (s2 & Hs2 & Hg2 & _). cbn in Hs2. rewrite Hslot in Hs1.
    destruct k as [ki kg]. cbn in *. unfold key. congruence.
Qed.

Lemma entry_remove_all hs self self' k :
  wf self -> remove_all hs self = Ret self' -> 0 <= k.1 ->
  entry self' k = if decide (k ∈ map key hs) then None else entry self k.
Proof.
  intros Hwf E Hk. destruct (remove_all_spec hs self Hwf) as (s & E' & _ & Hl & _).
  assert (s = self') as -> by congruence. specialize (Hl k Hk). case_decide.
  - by apply entry_None.
  - apply entry_same; [done|]. by eapply remove_all_slot_kind.
Qed.

Lemma entry_remove h self self' v k :
  wf self -> remove h self = Ret (self', v) -> 0 <= k.1 ->
  entry self' k = if decide (k = key h) then None else entry self k.
Proof.
  intros Hwf E Hk. rewrite (entry_remove_all [h] self) by (done || cbn; by rewrite E).
  apply decide_ext, list_elem_of_singleton.
Qed.

Lemma entry_write h self v write v' k :
  wf self -> get_mut h self = Some (v, write) -> 0 <= k.1 ->
  entry (write v') k =
  if decide (k = key h) then (fun e => (e.1, v')) <$> entry self k else entry self k.
Proof.
  intros Hwf E Hk. pose proof (get_mut_spec h self) as Hspec. rewrite E in Hspec.
  destruct Hspec as [Hg Hw]. destruct (Hw v' Hwf) as (_ & _ & _ & Hl & _).
  specialize (Hl k Hk). pose proof (get_mut_slot_kind _ _ _ _ v' k.1 E) as Hkind.
  destruct (decide (k = key h)) as [->|Hne]; [|by apply entry_same]. unfold entry.
  rewrite get_lookup in Hg. rewrite Hl, Hkind, Hg. cbn -[key].
  destruct (slot_kind self (key h).1); reflexivity.
Qed.

(** The handles a stateless predicate rejects. *)
Lemma elem_of_rejected (keep : Handle.t -> T -> bool) entries h :
  h ∈ (rejected (fun (_ : unit) h v => (tt, keep h v)) tt entries).2 <->
  exists v, (h, v) ∈ entries /\ keep h v = false.
Proof.
  induction entries as [|[h' v'] r IH]; cbn.
  - rewrite elem_of_nil. split; [done|]. intros (v & Hv & _). by apply elem_of_nil in Hv.
  - destruct (rejected _ _ r) as [[] hs] eqn:E. cbn in IH |- *.
    setoid_rewrite elem_of_cons. destruct (keep h' v') eqn:Ek; [rewrite IH|rewrite elem_of_cons, IH];
      naive_solver congruence.
Qed.

Lemma entry_rejected (keep : Handle.t -> T -> bool) self self' k :
  wf self ->
  remove_all (rejected (fun (_ : unit) h v => (tt, keep h v)) tt (iter self)).2 self = Ret self' ->
  0 <= k.1 ->
  entry self' k = e ← entry self k; if keep e.1 e.2 then Some e else None.
Proof.
  intros Hwf E Hk. rewrite (entry_remove_all _ self self' k Hwf E Hk).
  destruct (entry self k) as [[h v]|] eqn:Ee; [cbn|by case_decide].
  pose proof (entry_key _ _ _ _ Hwf Hk Ee) as <-.
  pose proof (proj2 (elem_of_iter_entry _ _ _ Hwf) Ee) as Hin. case_decide as Hd.
  - apply list_elem_of_fmap in Hd as (h' & Hkey & (v' & Hin' & Hkeep)%elem_of_rejected).
    apply elem_of_iter_entry in Hin'; [|done]. rewrite <- Hkey, Ee in Hin'.
    injection Hin' as <- <-. by rewrite Hkeep.
  - destruct (keep h v) eqn:Hkeep; [done|]. destruct Hd. apply list_elem_of_fmap.
    exists h. split; [done|]. apply elem_of_rejected. eauto.
Qed.
End entries.

Section spec.
Context {T : Type}.
Implicit Types (self : t T) (h : Handle.t).

(** ** Calls on a table *)
Inductive call :=
| Insert (kind : Z) (v : T)
| TryInsert (kind : Z) (v : T) (max_live : Z)
| Get (h : Handle.t)
| Write (h : Handle.t) (v : T)
| Remove (h : Handle.t)
| Clear
| Retain (keep : Handle.t -> T -> bool).

Inductive reply :=
| RHandle (h : Handle.t)
| RNoHandle
| RValue (v : option T)
| RCount (n : Z)
| RUnit.

(** The call, on the table of Handles.v. [Write] goes through [get_mut]. *)
Definition exec (c : call) self : outcome (t T * reply) :=
  match c with
  | Insert kind v => '(self, h) ← insert kind v self; Ret (self, RHandle h)
  | TryInsert kind v max_live =>
    '(self, h) ← try_insert kind v max_live self;
    Ret (self, match h with Some h => RHandle h | None => RNoHandle end)
  | Get h => Ret (self, RValue (get h self))
  | Write h v =>
    match get_mut h self with
    | Some (old, write) => Ret (write v, RValue (Some old))
    | None => Ret (self, RValue None)
    end
  | Remove h => '(self, v) ← remove h self; Ret (self, RValue v)
  | Clear => Ret (clear self, RUnit)
  | Retain keep =>
    '(self, _, n) ← retain (fun (_ : unit) h v => (tt, keep h v)) tt self;
    Ret (self, RCount n)
  end.

Fixpoint exec_all (cs : list call) self : outcome (t T * list reply) :=
  match cs with
  | [] => Ret (self, [])
  | c :: cs =>
    '(self, r) ← exec c self;
    '(self, rs) ← exec_all cs self;
    Ret (self, r :: rs)
  end.

(** Calls whose arguments are values of their Rust types. *)
Definition call_wf (c : call) : Prop :=
  match c with Insert kind _ | TryInsert kind _ _ => fits 8 kind | _ => True end.

Definition inserts (c : call) : nat :=
  match c with Insert _ _ | TryInsert _ _ _ => 1 | _ => 0 end.

Definition insertions (cs : list call) : nat := sum_list_with inserts cs.

(** ** The abstract table *)
Record Abstract := mkAbstract {
  a_live : gmap (Z * Z) (Handle.t * T);
  a_issued : gset (Z * Z);
}.

Definition a_new : Abstract := mkAbstract ∅ ∅.

(** The live entries whose handle and value [keep] accepts. *)
Definition a_kept (keep : Handle.t -> T -> bool) (A : Abstract) : gmap (Z * Z) (Handle.t * T) :=
  filter (fun e => keep e.2.1 e.2.2 = true) (a_live A).

Inductive a_step (A : Abstract) : call -> reply -> Abstract -> Prop :=
| a_insert kind v h :
    Handle.kind h = kind -> key h ∉ a_issued A ->
    a_step A (Insert kind v) (RHandle h)
      (mkAbstract (<[key h := (h, v)]> (a_live A)) ({[key h]} ∪ a_issued A))
| a_try_insert kind v max_live h :
    Z.of_nat (size (a_live A)) < max_live ->
    Handle.kind h = kind -> key h ∉ a_issued A ->
    a_step A (TryInsert kind v max_live) (RHandle h)
      (mkAbstract (<[key h := (h, v)]> (a_live A)) ({[key h]} ∪ a_issued A))
| a_try_insert_full kind v max_live :
    max_live <= Z.of_nat (size (a_live A)) ->
    a_step A (TryInsert kind v max_live) RNoHandle A
| a_get h : a_step A (Get h) (RValue (snd <$> a_live A !! key h)) A
| a_write h v :
    a_step A (Write h v) (RValue (snd <$> a_live A !! key h))
      (mkAbstract (alter (fun e => (e.1, v)) (key h) (a_live A)) (a_issued A))
| a_remove h :
    a_step A (Remove h) (RValue (snd <$> a_live A !! key h))
      (mkAbstract (delete (key h) (a_live A)) (a_issued A))
| a_clear : a_step A Clear RUnit (mkAbstract ∅ (a_issued A))
| a_retain keep :
    a_step A (Retain keep)
      (RCount (Z.of_nat (size (a_live A)) - Z.of_nat (size (a_kept keep A))))
      (mkAbstract (a_kept keep A) (a_issued A)).

Inductive a_steps : Abstract -> list call -> list reply -> Abstract -> Prop :=
| a_done A : a_steps A [] [] A
| a_more A c r A' cs rs A'' :
    a_step A c r A' -> a_steps A' cs rs A'' -> a_steps A (c :: cs) (r :: rs) A''.

(** The concrete table [self] stands for [A]. *)
Record refines self (A : Abstract) : Prop := {
  ref_wf : wf self;
  ref_live k : a_live A !! k = (if decide (0 <= k.1) then entry self k else None);
  ref_issued k : k ∈ a_issued A <-> issued self k;
  ref_size : live self = Z.of_nat (size (a_live A));
}.

Lemma refines_new : refines new a_new.
Proof.
  constructor; [apply new_wf|..]; cbn.
  - intros k. rewrite lookup_empty. by case_decide.
  - intros k. pose proof (new_not_issued (T := T) k). set_solver.
  - by rewrite map_size_empty.
Qed.

Lemma alter_None_id {A} (f : A -> A) (k : Z * Z) (m : gmap (Z * Z) A) :
  m !! k = None -> alter f k m = m.
Proof.
  intros Hk. apply map_eq. intros j. destruct (decide (k = j)) as [<-|Hne].
  - by rewrite lookup_alter_eq, Hk.
  - by rewrite lookup_alter_ne.
Qed.

Section ref.
Context (self : t T) (A : Abstract) (Href : refines self A).

Lemma ref_entry k : 0 <= k.1 -> a_live A !! k = entry self k.
Proof. intros Hk. rewrite (ref_live _ _ Href). by apply decide_True. Qed.

Lemma ref_negative k : ~ 0 <= k.1 -> a_live A !! k = None.
Proof. intros Hk. rewrite (ref_live _ _ Href). by apply decide_False. Qed.

Lemma ref_get h : snd <$> a_live A !! key h = get h self.
Proof.
  rewrite ref_entry by apply key_nonneg. rewrite get_lookup.
  apply entry_lookup, (ref_wf _ _ Href).
Qed.

Lemma ref_get_None h : get h self = None -> a_live A !! key h = None.
Proof. rewrite <- ref_get. by destruct (a_live A !! key h). Qed.

Lemma ref_get_Some h v : get h self = Some v -> is_Some (a_live A !! key h).
Proof. rewrite <- ref_get. destruct (a_live A !! key h); [by eexists|done]. Qed.

(** What is live has been issued. *)
Lemma ref_live_issued k : is_Some (a_live A !! k) -> k ∈ a_issued A.
Proof.
  rewrite (ref_live _ _ Href). intros [e He]. case_decide; [|done].
  apply (ref_issued _ _ Href). unfold entry in He.
  destruct (lookup self k) eqn:E; [|done]. by eapply lookup_issued.
Qed.

(** A later table refines a later abstract table when its entries are those. *)
Lemma ref_change self' live' issued' :
  wf self' ->
  (forall k, 0 <= k.1 -> live' !! k = entry self' k) ->
  (forall k, ~ 0 <= k.1 -> live' !! k = None) ->
  (forall k, k ∈ issued' <-> issued self' k) ->
  live self' = Z.of_nat (size live') ->
  refines self' (mkAbstract live' issued').
Proof.
  intros Hwf Hl Hn Hi Hs. constructor; [done| |done|done].
  intros k. cbn. case_decide; [by apply Hl|by apply Hn].
Qed.

Lemma ref_insert kind v self' h :
  fits 8 kind -> has_room self -> insert kind v self = Ret (self', h) ->
  inserted kind v self self' h ->
  (key h ∉ a_issued A) /\
  refines self' (mkAbstract (<[key h := (h, v)]> (a_live A)) ({[key h]} ∪ a_issued A)).
Proof.
  intros Hk Hroom E Hins. pose proof Hins as [Hwf Hh Hfresh Hl Hi Hlive Hlen].
  assert (key h ∉ a_issued A) as Hn by (by rewrite (ref_issued _ _ Href)).
  split; [done|]. apply ref_change.
  - done.
  - intros k Hk0. rewrite (entry_insert _ _ _ _ _ k (ref_wf _ _ Href) Hk Hroom E Hins Hk0).
    rewrite <- ref_entry by done. case_decide as Hd.
    + subst k. apply lookup_insert_eq.
    + by apply lookup_insert_ne.
  - intros k Hk0. rewrite lookup_insert_ne by (intros <-; apply Hk0, key_nonneg).
    by apply ref_negative.
  - intros k. rewrite Hi, <- (ref_issued _ _ Href). set_solver.
  - rewrite map_size_insert_None, Hlive, (ref_size _ _ Href); [lia|].
    destruct (a_live A !! key h) eqn:E'; [|done]. exfalso. apply Hn, ref_live_issued. by rewrite E'.
Qed.

Lemma ref_remove h v self' :
  get h self = Some v -> remove h self = Ret (self', Some v) ->
  removed (key h) self self' ->
  refines self' (mkAbstract (delete (key h) (a_live A)) (a_issued A)).
Proof.
  intros Hg E [Hwf _ Hi Hlive _]. apply ref_change.
  - done.
  - intros k Hk. rewrite (entry_remove _ _ _ _ k (ref_wf _ _ Href) E Hk), <- ref_entry by done.
    case_decide as Hd; [subst k; apply lookup_delete_eq|by apply lookup_delete_ne].
  - intros k Hk. apply lookup_delete_None. right. by apply ref_negative.
  - intros k. by rewrite Hi, (ref_issued _ _ Href).
  - apply ref_get_Some in Hg. rewrite map_size_delete_Some by done.
    assert (size (a_live A) <> 0%nat).
    { intros E'%map_size_empty_iff. rewrite E' in Hg. by destruct Hg. }
    rewrite Hlive, (ref_size _ _ Href). lia.
Qed.

Lemma ref_write h v v' write :
  get_mut h self = Some (v, write) ->
  refines (write v') (mkAbstract (alter (fun e => (e.1, v')) (key h) (a_live A)) (a_issued A)).
Proof.
  intros Hm. pose proof (get_mut_spec h self) as Hspec. rewrite Hm in Hspec.
  destruct Hspec as [Hg Hw].
  destruct (Hw v' (ref_wf _ _ Href)) as (Hwf & Hlive & _ & _ & Hi).
  apply ref_change.
  - done.
  - intros k Hk. rewrite (entry_write _ _ _ _ v' k (ref_wf _ _ Href) Hm Hk), <- ref_entry by done.
    case_decide as Hd; [subst k; apply lookup_alter_eq|by apply lookup_alter_ne].
  - intros k Hk. apply lookup_alter_None. by apply ref_negative.
  - intros k. by rewrite Hi, (ref_issued _ _ Href).
  - rewrite Hlive, (ref_size _ _ Href). f_equal. symmetry.
    rewrite <- (size_dom (D := gset (Z * Z)) (alter _ _ _)), dom_alter_L. apply size_dom.
Qed.

Lemma ref_clear : refines (clear self) (mkAbstract ∅ (a_issued A)).
Proof.
  destruct (clear_spec self (ref_wf _ _ Href)) as (Hwf & Hlive & Hl & Hi & _).
  apply ref_change.
  - done.
  - intros k Hk. by rewrite entry_None, lookup_empty by auto.
  - intros k _. apply lookup_empty.
  - intros k. by rewrite Hi, (ref_issued _ _ Href).
  - by rewrite Hlive, map_size_empty.
Qed.
End ref.

Lemma ref_remove_all self A hs self' :
  refines self A -> remove_all hs self = Ret self' ->
  exists live', refines self' (mkAbstract live' (a_issued A)).
Proof.
  intros Href. revert self A Href. induction hs as [|h hs IH]; intros self A Href;
    cbn [remove_all].
  - intros [= <-]. exists (a_live A). by destruct A.
  - pose proof (remove_spec h self (ref_wf _ _ Href)) as Hrem.
    destruct (get h self) as [v|] eqn:Hg.
    + destruct Hrem as (self1 & E1 & Hrem). rewrite E1. cbn [mbind outcome_bind]. intros E.
      by apply (IH _ _ (ref_remove _ _ Href _ _ _ Hg E1 Hrem) E).
    + rewrite Hrem. cbn [mbind outcome_bind]. by apply IH.
Qed.

(** Removing what a predicate rejects leaves the entries it accepts. *)
Lemma ref_rejected self A (keep : Handle.t -> T -> bool) self' :
  refines self A ->
  remove_all (rejected (fun (_ : unit) h v => (tt, keep h v)) tt (iter self)).2 self = Ret self' ->
  refines self' (mkAbstract (a_kept keep A) (a_issued A)).
Proof.
  intros Href E. destruct (ref_remove_all _ _ _ _ Href E) as (live' & Href').
  assert (live' = a_kept keep A) as <-; [|done]. apply map_eq. intros k.
  pose proof (ref_live _ _ Href' k) as Hl. cbn in Hl. rewrite Hl. unfold a_kept.
  rewrite map_lookup_filter, (ref_live _ _ Href). case_decide as Hk; [|done].
  rewrite (entry_rejected _ _ _ _ (ref_wf _ _ Href) E Hk).
  destruct (entry self k) as [[h v]|]; cbn; [|done].
  unfold guard. case_decide as Hd; cbn in *; by destruct (keep h v).
Qed.

(** *** Every call *)
Definition room (n : nat) self : Prop :=
  Z.of_nat (length (slots self)) + Z.of_nat n <= 2 ^ 32.

Lemma room_has_room self' n : room (S n) self' -> has_room self'.
Proof. unfold room, has_room. right. lia. Qed.

Lemma exec_insert self A kind v n :
  refines self A -> fits 8 kind -> room (S n) self ->
  exists self' h, insert kind v self = Ret (self', h) /\ room n self' /\
    Handle.kind h = kind /\ (key h ∉ a_issued A) /\
    refines self' (mkAbstract (<[key h := (h, v)]> (a_live A)) ({[key h]} ∪ a_issued A)).
Proof.
  intros Href Hk Hroom.
  destruct (insert_spec kind v self (ref_wf _ _ Href) Hk (room_has_room _ _ Hroom))
    as (self' & h & E & Hins).
  exists self', h. split; [done|]. split.
  { pose proof (inserted_length _ _ _ _ _ Hins). unfold room in *. lia. }
  split; [apply Hins|]. exact (ref_insert _ _ Href _ _ _ _ Hk (room_has_room _ _ Hroom) E Hins).
Qed.

(** One call of the table is one step of the abstract table; it returns, and it
    uses at most one new slot. *)
Lemma exec_refines c self A n :
  refines self A -> call_wf c -> room (inserts c + n) self ->
  exists self' r A', exec c self = Ret (self', r) /\ a_step A c r A' /\
    refines self' A' /\ room n self'.
Proof.
  intros Href Hc Hroom. destruct c as [kind v|kind v m|h|h v|h| |keep]; cbn in *.
  - destruct (exec_insert _ _ kind v n Href Hc Hroom) as (self' & h & -> & Hr & Hk & Hf & Href').
    cbn. do 3 eexists. split; [reflexivity|]. split; [by apply a_insert|done].
  - unfold try_insert. rewrite (ref_size _ _ Href).
    destruct (Z.ltb_spec (Z.of_nat (size (a_live A))) m).
    + destruct (exec_insert _ _ kind v n Href Hc Hroom) as (self' & h & -> & Hr & Hk & Hf & Href').
      cbn. do 3 eexists. split; [reflexivity|]. split; [by apply a_try_insert|done].
    + cbn. do 3 eexists. split; [reflexivity|]. split; [by apply a_try_insert_full|].
      split; [done|]. unfold room in *. lia.
  - do 3 eexists. split; [reflexivity|]. rewrite <- (ref_get _ _ Href). by split; [constructor|].
  - pose proof (get_mut_spec h self) as Hspec.
    destruct (get_mut h self) as [[old write]|] eqn:Hm.
    + do 3 eexists. split; [reflexivity|]. destruct Hspec as [Hg Hw].
      rewrite <- Hg, <- (ref_get _ _ Href). split; [constructor|].
      split; [by eapply ref_write|]. unfold room.
      by destruct (Hw v (ref_wf _ _ Href)) as (_ & _ & -> & _).
    + do 3 eexists. split; [reflexivity|]. rewrite <- Hspec, <- (ref_get _ _ Href).
      split; [constructor|]. split; [|done].
      rewrite alter_None_id by (by apply (ref_get_None _ _ Href)). by destruct A.
  - pose proof (remove_spec h self (ref_wf _ _ Href)) as Hrem.
    destruct (get h self) as [v|] eqn:Hg.
    + destruct Hrem as (self' & E & Hrem). rewrite E. cbn. do 3 eexists. split; [reflexivity|].
      rewrite <- Hg, <- (ref_get _ _ Href). split; [constructor|].
      split; [by eapply ref_remove|]. unfold room. by rewrite (removed_length _ _ _ Hrem).
    + rewrite Hrem. cbn. do 3 eexists. split; [reflexivity|].
      rewrite <- Hg, <- (ref_get _ _ Href). split; [constructor|].
      rewrite delete_id by (by apply (ref_get_None _ _ Href)). by destruct A.
  - do 3 eexists. split; [reflexivity|]. split; [constructor|].
    split; [by apply ref_clear|]. unfold room.
    by destruct (clear_spec self (ref_wf _ _ Href)) as (_ & _ & _ & _ & ->).
  - pose proof (retain_remove_all (fun (_ : unit) h v => (tt, keep h v)) tt self
      (ref_wf _ _ Href)) as Hret.
    destruct (rejected _ _ _) as [[] hs] eqn:Erej. destruct Hret as (self' & -> & Erem & Hlive).
    assert (refines self' (mkAbstract (a_kept keep A) (a_issued A))) as Href'
      by (apply (ref_rejected self); [done|by rewrite Erej]).
    cbn. do 3 eexists. split; [reflexivity|]. split; [|split; [exact Href'|]].
    + replace (Z.of_nat (length hs)) with
        (Z.of_nat (size (a_live A)) - Z.of_nat (size (a_kept keep A))); [by constructor|].
      rewrite <- (ref_size _ _ Href). pose proof (ref_size _ _ Href') as E. cbn in E. lia.
    + destruct (remove_all_spec hs self (ref_wf _ _ Href)) as (self2 & E & _ & _ & _ & Hlen).
      assert (self2 = self') as -> by congruence. unfold room. by rewrite Hlen.
Qed.

Lemma exec_all_refines cs self A :
  refines self A -> Forall call_wf cs -> room (insertions cs) self ->
  exists self' rs A', exec_all cs self = Ret (self', rs) /\ a_steps A cs rs A' /\
    refines self' A'.
Proof.
  intros Href Hcs. revert self A Href. induction Hcs as [|c cs Hc Hcs IH];
    intros self A Href Hroom; cbn in *.
  - do 3 eexists. split; [reflexivity|]. split; [constructor|done].
  - destruct (exec_refines c self A _ Href Hc Hroom)
      as (self1 & r & A1 & -> & Hstep & Href1 & Hroom1). cbn.
    destruct (IH _ _ Href1 Hroom1) as (self' & rs & A' & -> & Hsteps & Href').
    cbn. do 3 eexists. split; [reflexivity|]. split; [by econstructor|done].
Qed.
End spec.

(** ** Runs of the abstract table *)
Section runs.
Context {T : Type}.
Implicit Types (self : t T) (h : Handle.t) (A : Abstract (T := T)).

(** The handles a run hands out, in order. *)
Definition handles (rs : list (reply (T := T))) : list Handle.t :=
  omap (fun r => match r with RHandle h => Some h | _ => None end) rs.

Lemma a_step_issued A c r A' :
  a_step A c r A' -> a_issued A ⊆ a_issued A' /\
  (forall h, r = RHandle h -> (key h ∉ a_issued A) /\ key h ∈ a_issued A').
Proof. inversion_clear 1; cbn; split; intros; simplify_eq; set_solver. Qed.

Lemma a_steps_issued A cs rs A' :
  a_steps A cs rs A' ->
  NoDup (map key (handles rs)) /\ a_issued A ⊆ a_issued A' /\
  (forall k, k ∈ map key (handles rs) -> (k ∉ a_issued A) /\ k ∈ a_issued A').
Proof.
  induction 1 as [A|A c r A1 cs rs A' Hstep Hsteps (Hnd & Hsub & Hin)]; cbn.
  - split; [apply NoDup_nil_2|]. split; [done|]. intros k Hk. by apply not_elem_of_nil in Hk.
  - apply a_step_issued in Hstep as [Hsub1 Hr].
    destruct r as [h| | | |]; cbn; try (split; [done|split; [set_solver|];
      intros k Hk; destruct (Hin k Hk); split; [set_solver|done]]).
    destruct (Hr h eq_refl) as [Hh1 Hh2]. split.
    { apply NoDup_cons. split; [|done]. intros Hk. by destruct (Hin _ Hk). }
    split; [set_solver|]. intros k [->|Hk]%elem_of_cons; [split; set_solver|].
    destruct (Hin k Hk). split; [set_solver|done].
Qed.

(** A key that was issued and does not resolve is dead for good. *)
Lemma a_step_dead A c r A' k :
  a_step A c r A' -> k ∈ a_issued A -> a_live A !! k = None -> a_live A' !! k = None.
Proof.
  inversion_clear 1; cbn; intros Hk Hn; try done.
  - rewrite lookup_insert_ne; [done|]. by intros <-.
  - rewrite lookup_insert_ne; [done|]. by intros <-.
  - destruct (decide (k = key h)) as [->|]; [by rewrite lookup_alter_eq, Hn|].
    by rewrite lookup_alter_ne.
  - destruct (decide (k = key h)) as [->|]; [by apply lookup_delete_eq|].
    by rewrite lookup_delete_ne.
  - unfold a_kept. by rewrite map_lookup_filter, Hn.
Qed.

Lemma a_steps_dead A cs rs A' k :
  a_steps A cs rs A' -> k ∈ a_issued A -> a_live A !! k = None -> a_live A' !! k = None.
Proof.
  induction 1 as [|A c r A1 cs rs A' Hstep _ IH]; [done|]. intros Hk Hn.
  apply IH; [|by eapply a_step_dead].
  apply a_step_issued in Hstep as [Hsub _]. set_solver.
Qed.

Lemma exec_all_room cs self n self' rs A :
  refines self A -> Forall call_wf cs -> room (insertions cs + n) self ->
  exec_all cs self = Ret (self', rs) ->
  exists A', a_steps A cs rs A' /\ refines self' A' /\ room n self'.
Proof.
  intros Href Hcs. revert self rs A Href. induction Hcs as [|c cs Hc Hcs IH];
    intros self rs A Href Hroom; cbn in *.
  - intros [= <- <-]. eexists. split; [constructor|done].
  - rewrite <- Nat.add_assoc in Hroom.
    destruct (exec_refines c self A _ Href Hc Hroom)
      as (self1 & r & A1 & -> & Hstep & Href1 & Hroom1). cbn.
    destruct (exec_all cs self1) as [[self2 rs2]|] eqn:E; cbn; [|done].
    intros [= <- <-]. destruct (IH _ _ _ Href1 Hroom1 E) as (A' & Hsteps & H).
    exists A'. split; [by econstructor|done].
Qed.

Lemma room_new n : Z.of_nat n <= 2 ^ 32 -> room n (@new T).
Proof. unfold room. cbn. lia. Qed.
End runs.

(** ** Properties *)
Section properties.
Context {T : Type}.
Implicit Types (self : t T) (h : Handle.t).

(** C4: refinement of the handle table. Any sequence of calls on a new table
    (kinds of 8 bits, at most 2^32 insertions) returns without a panic, and its
    replies and final state are those of a run of the abstract table: a finite
    map from (slot, generation) keys to values, each with the handle it was
    issued under, in which an insertion picks a key never issued before, a bounded
    one only below its bound, a write and a removal change the entry of their
    handle's key alone and reply its value, [clear] empties the map, and [retain]
    keeps exactly the entries whose handle and value its predicate accepts and
    replies how many it dropped. In the end [iter] yields exactly the entries of
    the abstract table. *)
Theorem table_refines (cs : list (call (T := T))) :
  Forall call_wf cs -> Z.of_nat (insertions cs) <= 2 ^ 32 ->
  exists self' rs A', exec_all cs new = Ret (self', rs) /\
    a_steps a_new cs rs A' /\ refines self' A' /\
    (forall h v, (h, v) ∈ iter self' <-> a_live A' !! key h = Some (h, v)).
Proof.
  intros Hcs Hn.
  destruct (exec_all_refines cs new a_new refines_new Hcs (room_new _ Hn))
    as (self' & rs & A' & E & Hsteps & Href).
  exists self', rs, A'. split_and!; [done..|]. intros h v.
  rewrite (ref_entry _ _ Href) by apply key_nonneg.
  by apply elem_of_iter_entry, (ref_wf _ _ Href).
Qed.

(** C5: no handle is issued twice. Among all handles any sequence of calls
    with at most 2^32 insertions on a new table returns, whatever it inserts,
    removes, clears and retains in between, no two share slot and generation. *)
Theorem handles_never_reissued (cs : list (call (T := T))) self' rs :
  Forall call_wf cs -> Z.of_nat (insertions cs) <= 2 ^ 32 ->
  exec_all cs new = Ret (self', rs) -> NoDup (map key (handles rs)).
Proof.
  intros Hcs Hn E.
  destruct (exec_all_room cs new 0 self' rs a_new refines_new Hcs) as (A' & Hsteps & _);
    [rewrite Nat.add_0_r; by apply room_new|done|].
  by apply a_steps_issued in Hsteps as [? _].
Qed.

(** C20: use after free is rejected for good. Once an issued handle has stopped
    resolving (through [remove], [clear] or [retain]) it does not resolve after
    any further sequence of calls, slot reuse included, as long as the table has
    seen at most 2^32 insertions in all. *)
Theorem stale_handle_stays_dead (cs1 cs2 : list (call (T := T))) s1 s2 rs1 rs2 h :
  Forall call_wf (cs1 ++ cs2) ->
  Z.of_nat (insertions cs1 + insertions cs2) <= 2 ^ 32 ->
  exec_all cs1 new = Ret (s1, rs1) -> key h ∈ map key (handles rs1) ->
  get h s1 = None ->
  exec_all cs2 s1 = Ret (s2, rs2) -> get h s2 = None.
Proof.
  intros [Hcs1 Hcs2]%Forall_app Hn E1 Hin Hdead E2.
  destruct (exec_all_room cs1 new _ s1 rs1 a_new refines_new Hcs1 (room_new _ Hn) E1)
    as (A1 & Hsteps1 & Href1 & Hroom1).
  rewrite <- (Nat.add_0_r (insertions cs2)) in Hroom1.
  destruct (exec_all_room cs2 s1 0 s2 rs2 A1 Href1 Hcs2 Hroom1 E2)
    as (A2 & Hsteps2 & Href2 & _).
  rewrite <- (ref_get _ _ Href2). apply (ref_get_None _ _ Href1) in Hdead.
  apply a_steps_issued in Hsteps1 as (_ & _ & Hin1).
  by rewrite (a_steps_dead _ _ _ _ _ Hsteps2 (proj2 (Hin1 _ Hin)) Hdead).
Qed.

(** C30: [retain] and [clear] are repeated [remove]. On a well-formed table,
    [retain] runs its stateful predicate over the live entries in slot order and
    leaves exactly the table that removing each rejected handle leaves, returning
    their number; [clear] leaves the table that removing every live handle
    leaves. Neither panics. *)
Theorem bulk_free_is_remove {S} (keep : S -> Handle.t -> T -> S * bool) (s : S) self :
  wf self ->
  remove_all (map fst (iter self)) self = Ret (clear self) /\
  (let '(s', hs) := rejected keep s (iter self) in
   exists self', retain keep s self = Ret (self', s', Z.of_nat (length hs)) /\
     remove_all hs self = Ret self').
Proof.
  intros Hwf. split; [by apply clear_remove_all|].
  pose proof (retain_remove_all keep s self Hwf) as H.
  destruct (rejected _ _ _). naive_solver.
Qed.

(** The introspection of a table is exact. On a well-formed table [iter]
    yields an entry under a handle exactly when [get] resolves that handle's key
    to it, [len] is the number of entries, [iter_kind] is [iter] filtered by the
    handle's kind, [count_by_kind] its length, and [kinds] lists in strictly
    increasing order exactly the kinds of live handles. *)
Theorem introspection_exact self kind :
  wf self ->
  (forall h v, get h self = Some v <->
     exists h', key h' = key h /\ (h', v) ∈ iter self) /\
  Z.of_nat (length (iter self)) = len self /\
  iter_kind kind self = filter (fun e => Handle.kind (fst e) = kind) (iter self) /\
  count_by_kind kind self = Z.of_nat (length (iter_kind kind self)) /\
  StronglySorted Z.lt (kinds self) /\
  (kind ∈ kinds self <-> exists h v, (h, v) ∈ iter self /\ Handle.kind h = kind).
Proof.
  intros Hwf. split.
  { intros h v. split; [by apply get_iter|]. intros (h' & Hk & Hin).
    rewrite get_lookup, <- Hk, <- get_lookup. by apply iter_get. }
  split; [by apply length_iter|]. split; [by apply iter_kind_filter|].
  split; [apply count_by_kind_length|]. split; [apply kinds_sorted|by apply elem_of_kinds].
Qed.

(** The slot index is truncated to 32 bits. In a table whose 2^32 slots are
    all in use, [insert] still returns, but with the handle (slot 0, generation
    0): that handle resolves to whatever slot 0 held before, not to the value
    just inserted. *)
Theorem insert_past_slot_space kind (v : T) self :
  wf self -> fits 8 kind -> free self = [] ->
  Z.of_nat (length (slots self)) = 2 ^ 32 ->
  exists self' h, insert kind v self = Ret (self', h) /\ key h = (0, 0) /\
    get h self' = get h self.
Proof.
  intros Hwf Hk Hfree Hlen. pose proof (live_bounds _ Hwf). unfold insert.
  rewrite add_or_panic_ret by (unfold max_of; lia). cbn [mbind outcome_bind].
  rewrite (proj2 (pop_None _) Hfree), Hlen. change (wrap 32 (2 ^ 32)) with 0.
  do 2 eexists. split; [reflexivity|].
  assert (key (Handle.new kind 0 0) = (0, 0)) as Hkey
    by (unfold key; by rewrite handle_slot_new, handle_generation_new by done).
  split; [done|]. rewrite !get_lookup, Hkey. unfold lookup. cbn [HandleTable.slots fst].
  unfold push. rewrite lookup_app_l; [done|]. change (Z.to_nat 0) with 0%nat.
  destruct (slots self); [|cbn; lia]. cbn in Hlen. lia.
Qed.

(** Resolution ignores the kind byte. Handles with the same slot and
    generation resolve, and are removed, alike whatever their kinds; in
    particular the null handle resolves to the first value ever inserted,
    whatever kind it was inserted under. *)
Theorem resolution_ignores_kind kind (v : T) :
  fits 8 kind ->
  (forall h h' self, key h = key h' ->
     get h self = get h' self /\ remove h self = remove h' self) /\
  exists self' h, insert kind v new = Ret (self', h) /\
    get NULL_HANDLE self' = Some v /\ contains NULL_HANDLE self' = true.
Proof.
  intros Hk. split.
  { intros h h' self Hkey. split; [by rewrite !get_lookup, Hkey|].
    injection Hkey as Hs Hg. unfold remove. by rewrite Hs, Hg. }
  do 2 eexists. split; [reflexivity|]. split; reflexivity.
Qed.
End properties.

(** ** Witnesses *)
Section witnesses.

Ltac solve_call_wf :=
  repeat (apply Forall_cons_2; [cbn; try exact I; unfold fits; lia|]);
  apply Forall_nil_2.

(** Two insertions, a removal, a reuse of the slot, a clear. *)
Definition demo_calls : list (call (T := Z)) :=
  [Insert 1 10; Insert 2 20; Remove (Handle.new 1 0 0); Insert 3 30;
   TryInsert 4 40 2; Write (Handle.new 3 1 0) 31; Retain (fun _ v => v =? 31)].

Lemma demo_calls_wf : Forall call_wf demo_calls.
Proof. solve_call_wf. Qed.

Lemma table_refines_witness :
  exists self' rs A', exec_all demo_calls new = Ret (self', rs) /\
    a_steps a_new demo_calls rs A' /\ refines self' A' /\
    (forall h v, (h, v) ∈ iter self' <-> a_live A' !! key h = Some (h, v)).
Proof. apply table_refines; [exact demo_calls_wf|cbn; lia]. Defined.

Lemma handles_never_reissued_witness :
  exists self' rs, exec_all demo_calls new = Ret (self', rs) /\
    map key (handles rs) = [(0, 0); (1, 0); (0, 1)] /\ NoDup (map key (handles rs)).
Proof.
  do 2 eexists. split; [vm_compute; reflexivity|]. split; [vm_compute; reflexivity|].
  apply (handles_never_reissued demo_calls _ _ demo_calls_wf ltac:(cbn; lia) eq_refl).
Defined.

Lemma stale_handle_stays_dead_witness :
  exists s1 s2 rs1 rs2,
    exec_all [Insert 1 10; Remove (Handle.new 1 0 0)] new = Ret (s1, rs1) /\
    exec_all [Insert 1 11] s1 = Ret (s2, rs2) /\
    get (Handle.new 1 1 0) s2 = Some 11 /\ get (Handle.new 1 0 0) s2 = None.
Proof.
  do 4 eexists. split; [vm_compute; reflexivity|]. split; [vm_compute; reflexivity|].
  split; [vm_compute; reflexivity|].
  eapply (stale_handle_stays_dead [Insert 1 10; Remove (Handle.new 1 0 0)] [Insert 1 11]).
  - cbn [app]. solve_call_wf.
  - cbn; lia.
  - vm_compute; reflexivity.
  - left.
  - reflexivity.
  - vm_compute; reflexivity.
Defined.

(** Slot 0 is live in its second generation, slot 1 is free. *)
Definition demo_table : t Z :=
  mk [Slot.mk 1 3 (Some 30) false; Slot.mk 1 2 None false] [1] 1.

Lemma demo_table_wf : wf demo_table.
Proof.
  constructor; cbn.
  - lia.
  - repeat constructor; cbn; try lia; try done; rewrite GENERATION_MAX_val; lia.
  - repeat constructor. apply not_elem_of_nil.
  - intros i. rewrite list_elem_of_singleton. split.
    + intros ->. split; [lia|]. eexists. by split.
    + intros (Hi & s & Hs & Hr). destruct (Z.to_nat i) as [|[|n]] eqn:E; cbn in Hs.
      * injection Hs as <-. discriminate Hr.
      * lia.
      * discriminate Hs.
  - reflexivity.
Qed.

Lemma bulk_free_is_remove_witness :
  remove_all (map fst (iter demo_table)) demo_table = Ret (clear demo_table) /\
  exists self', retain (fun n h v => (n + 1, false)) 0 demo_table = Ret (self', 1, 1) /\
    remove_all [Handle.new 3 1 0] demo_table = Ret self'.
Proof. exact (bulk_free_is_remove (fun n h v => (n + 1, false)) 0 _ demo_table_wf). Defined.

Lemma introspection_exact_witness :
  Z.of_nat (length (iter demo_table)) = len demo_table /\ kinds demo_table = [3] /\
  (3 ∈ kinds demo_table <->
    exists h v, (h, v) ∈ iter demo_table /\ Handle.kind h = 3).
Proof.
  destruct (introspection_exact demo_table 3 demo_table_wf) as (_ & Hlen & _ & _ & _ & Hk).
  split; [exact Hlen|]. split; [vm_compute; reflexivity|exact Hk].
Defined.

(** A table of [n] live slots. *)
Definition full_table (n : nat) : t Z :=
  mk (replicate n (Slot.mk 0 0 (Some 7) false)) [] (Z.of_nat n).

Lemma full_table_wf n : Z.of_nat n <= 2 ^ 32 -> wf (full_table n).
Proof.
  intros Hn. constructor; cbn [full_table slots free live].
  - by rewrite length_replicate.
  - apply Forall_replicate. split; [cbn; rewrite GENERATION_MAX_val; lia|]. by split.
  - apply NoDup_nil_2.
  - intros i. rewrite elem_of_nil. split; [done|].
    intros (_ & s & [-> _]%lookup_replicate & Hr). discriminate Hr.
  - clear. induction n as [|n IH]; [done|]. cbn [replicate count occupied Slot.value].
    rewrite <- IH. lia.
Qed.

Lemma insert_past_slot_space_witness :
  exists self' h, insert 0 8 (full_table (Z.to_nat (2 ^ 32))) = Ret (self', h) /\
    key h = (0, 0) /\ get h self' = get h (full_table (Z.to_nat (2 ^ 32))).
Proof.
  apply insert_past_slot_space.
  - apply full_table_wf. rewrite Z2Nat.id by lia. lia.
  - unfold fits; lia.
  - reflexivity.
  - unfold full_table, slots. rewrite length_replicate. apply Z2Nat.id. lia.
Defined.

Lemma resolution_ignores_kind_witness :
  get (Handle.new 9 1 0) demo_table = get (Handle.new 3 1 0) demo_table /\
  exists self' h, insert 5 77 new = Ret (self', h) /\
    get NULL_HANDLE self' = Some 77 /\ contains NULL_HANDLE self' = true.
Proof.
  destruct (resolution_ignores_kind 5 77) as [H1 H2]; [unfold fits; lia|].
  split; [|exact H2]. apply (H1 (Handle.new 9 1 0) (Handle.new 3 1 0) demo_table).
  reflexivity.
Defined.
End witnesses.
