(* ===== verification/Effects.v ===== *)
(** Handlers as state transformers. A handler of the server takes [&mut self]
    and returns a [Result]: it is a function from the state to the next state
    and the result, or a panic; the state changes made before an error stay.
    This file has that monad, the fields of a state ([Lens]), the handle-table
    operations on a field, and a weakest-precondition calculus for handlers. *)
From S2P Require Import Wire Codecs Handles HandleSpec.

Local Open Scope Z_scope.

Definition M (S A : Type) : Type := S -> outcome (S * presult A).

#[export] Instance M_ret S : MRet (M S) := fun A a s => Ret (s, Ok a).
#[export] Instance M_bind S : MBind (M S) := fun A B f m s =>
  '(s, r) ← m s;
  match r with Ok a => f a s | Err e => Ret (s, Err e) end.

(** [return Err(e)] *)
Definition throw {S A} (e : ProtocolError) : M S A := fun s => Ret (s, Err e).

(** [x?] *)
Definition attempt {S A} (x : presult A) : M S A := fun s => Ret (s, x).

(** ** Fields of a state *)
Record Lens (S X : Type) := mkLens {
  view : S -> X;
  set : X -> S -> S;
  set_view s : set (view s) s = s;
  view_set x s : view (set x s) = x;
}.
Arguments mkLens {S X} _ _ _ _.
Arguments view {S X} _ _.
Arguments set {S X} _ _ _.
Arguments set_view {S X} _ _.
Arguments view_set {S X} _ _ _.

Lemma attempt_bind {S A B} (x : presult A) (k : A -> M S B) a s :
  x = Ok a -> (attempt x ≫= k) s = k a s.
Proof. by intros ->. Qed.

Lemma attempt_bind_err {S A B} (x : presult A) (k : A -> M S B) e s :
  x = Err e -> (attempt x ≫= k) s = Ret (s, Err e).
Proof. by intros ->. Qed.

(** ** Table operations on a field *)
Module Table.
Section ops.
Context {S T : Type} (l : Lens S (HandleTable.t T)).

(** [self.l.insert(kind, v)] *)
Definition insert (kind : Z) (v : T) : M S Handle.t := fun s =>
  '(t, h) ← HandleTable.insert kind v (view l s); Ret (set l t s, Ok h).

(** [self.l.get(h)] *)
Definition get (h : Handle.t) : M S (option T) := fun s =>
  Ret (s, Ok (HandleTable.get h (view l s))).

(** [self.l.remove(h)] *)
Definition remove (h : Handle.t) : M S (option T) := fun s =>
  '(t, v) ← HandleTable.remove h (view l s); Ret (set l t s, Ok v).

(** [self.l.get_mut(h)]: the value, and how to store through the reference. *)
Definition get_mut (h : Handle.t) : M S (option (T * (T -> M S unit))) := fun s =>
  Ret (s, Ok (
    '(v, write) ← HandleTable.get_mut h (view l s);
    Some (v, fun v' s => Ret (set l (write v') s, Ok tt)))).
End ops.
End Table.

(** A table that is well formed and has room for [n] more insertions. *)
Definition table_ok {T} (n : nat) (t : HandleTable.t T) : Prop :=
  HandleTable.wf t /\ room n t.

Lemma table_ok_new {T} n : Z.of_nat n <= 2 ^ 32 -> table_ok n (@HandleTable.new T).
Proof. intros. split; [apply HandleTable.new_wf|by apply room_new]. Qed.

Lemma table_ok_S {T} n (t : HandleTable.t T) : table_ok (S n) t -> table_ok n t.
Proof. intros [? Hr]. split; [done|]. unfold room in *. lia. Qed.

Lemma table_ok_wf {T} n (t : HandleTable.t T) : table_ok n t -> HandleTable.wf t.
Proof. by intros [? _]. Qed.

#[export] Hint Resolve table_ok_S : graftx.

(** ** How a table evolves

    The issued keys only grow, and a key that is issued and does not resolve
    never resolves again. *)
Definition evolves {T} (t t' : HandleTable.t T) : Prop :=
  forall k, 0 <= k.1 -> HandleTable.issued t k ->
    HandleTable.issued t' k /\
    (HandleTable.lookup t k = None -> HandleTable.lookup t' k = None).

#[export] Instance evolves_preorder {T} : PreOrder (@evolves T).
Proof.
  split.
  - by intros t k.
  - intros t1 t2 t3 H12 H23 k Hk Hi. destruct (H12 k Hk Hi) as [Hi2 Hl2].
    destruct (H23 k Hk Hi2) as [Hi3 Hl3]. auto.
Qed.

Lemma inserted_evolves {T} kind (v : T) t t' h :
  HandleTable.inserted kind v t t' h -> evolves t t'.
Proof.
  intros Hins k Hk Hi. split.
  - apply (HandleTable.inserted_issued _ _ _ _ _ Hins). by left.
  - intros Hl. rewrite (HandleTable.inserted_lookup _ _ _ _ _ Hins k Hk).
    rewrite decide_False; [done|]. intros ->.
    by apply (HandleTable.inserted_fresh _ _ _ _ _ Hins).
Qed.

Lemma removed_evolves {T} k0 (t t' : HandleTable.t T) :
  HandleTable.removed k0 t t' -> evolves t t'.
Proof.
  intros Hrem k Hk Hi. split; [by apply (HandleTable.removed_issued _ _ _ Hrem)|].
  intros Hl. rewrite (HandleTable.removed_lookup _ _ _ Hrem k Hk). by case_decide.
Qed.

(** ** Weakest preconditions *)
Definition wp {S A} (m : M S A) (s : S) (Q : S -> presult A -> Prop) : Prop :=
  exists s' r, m s = Ret (s', r) /\ Q s' r.

Section rules.
Context {S : Type}.
Implicit Types (s : S).

Lemma wp_ret {A} (a : A) s (Q : S -> presult A -> Prop) : Q s (Ok a) -> wp (mret a) s Q.
Proof. intros HQ. by exists s, (Ok a). Qed.

Lemma wp_throw {A} e s (Q : S -> presult A -> Prop) : Q s (Err e) -> wp (throw e) s Q.
Proof. intros HQ. by exists s, (Err e). Qed.

Lemma wp_attempt {A} (x : presult A) s (Q : S -> presult A -> Prop) :
  Q s x -> wp (attempt x) s Q.
Proof. intros HQ. by exists s, x. Qed.

Lemma wp_bind {A B} (m : M S A) (k : A -> M S B) s (Q : S -> presult B -> Prop) :
  wp m s (fun s' r => match r with Ok a => wp (k a) s' Q | Err e => Q s' (Err e) end) ->
  wp (m ≫= k) s Q.
Proof.
  intros (s' & [a|e] & E & HQ).
  - destruct HQ as (s2 & r2 & E2 & HQ). exists s2, r2. split; [|done].
    unfold mbind, M_bind. by rewrite E.
  - exists s', (Err e). split; [|done]. unfold mbind, M_bind. by rewrite E.
Qed.

Lemma wp_mono {A} (m : M S A) s (Q Q' : S -> presult A -> Prop) :
  wp m s Q -> (forall s' r, Q s' r -> Q' s' r) -> wp m s Q'.
Proof. intros (s' & r & E & HQ) H. exists s', r. eauto. Qed.

Context {T : Type} (l : Lens S (HandleTable.t T)).

Lemma wp_insert kind v n s (Q : S -> presult Handle.t -> Prop) :
  table_ok (Datatypes.S n) (view l s) -> fits 8 kind ->
  (forall t h, HandleTable.inserted kind v (view l s) t h -> table_ok n t ->
     Q (set l t s) (Ok h)) ->
  wp (Table.insert l kind v) s Q.
Proof.
  intros [Hwf Hr] Hk HQ.
  destruct (HandleTable.insert_spec kind v (view l s) Hwf Hk (room_has_room _ _ Hr))
    as (t & h & E & Hins).
  exists (set l t s), (Ok h). split; [unfold Table.insert; by rewrite E|].
  apply HQ; [done|]. split; [apply Hins|].
  pose proof (HandleTable.inserted_length _ _ _ _ _ Hins). unfold room in *. lia.
Qed.

Lemma wp_get h s (Q : S -> presult (option T) -> Prop) :
  Q s (Ok (HandleTable.get h (view l s))) -> wp (Table.get l h) s Q.
Proof. intros HQ. by do 2 eexists. Qed.

Lemma wp_remove h n s (Q : S -> presult (option T) -> Prop) :
  table_ok n (view l s) ->
  (HandleTable.get h (view l s) = None -> Q s (Ok None)) ->
  (forall t v, HandleTable.get h (view l s) = Some v ->
     HandleTable.removed (HandleTable.key h) (view l s) t -> table_ok n t ->
     Q (set l t s) (Ok (Some v))) ->
  wp (Table.remove l h) s Q.
Proof.
  intros [Hwf Hr] Hnone Hsome. pose proof (HandleTable.remove_spec h _ Hwf) as Hrem.
  destruct (HandleTable.get h (view l s)) as [v|].
  - destruct Hrem as (t & E & Hrem). exists (set l t s), (Ok (Some v)).
    split; [unfold Table.remove; by rewrite E|]. apply Hsome; [done..|].
    split; [apply Hrem|]. unfold room. by rewrite (HandleTable.removed_length _ _ _ Hrem).
  - exists s, (Ok None). split; [|by apply Hnone]. unfold Table.remove. rewrite Hrem.
    cbn. by rewrite set_view.
Qed.

(** A write through [get_mut] in an otherwise unchanged table. *)
Record written (k0 : Z * Z) (v' : T) (t t' : HandleTable.t T) : Prop := {
  written_lookup k : 0 <= k.1 ->
    HandleTable.lookup t' k = if decide (k = k0) then Some v' else HandleTable.lookup t k;
  written_issued k : HandleTable.issued t' k <-> HandleTable.issued t k;
}.

Lemma wp_get_mut h n s (Q : S -> presult (option (T * (T -> M S unit))) -> Prop) :
  table_ok n (view l s) ->
  (HandleTable.get h (view l s) = None -> Q s (Ok None)) ->
  (forall v write, HandleTable.get h (view l s) = Some v ->
     (forall v', exists t, write v' s = Ret (set l t s, Ok tt) /\ table_ok n t /\
        written (HandleTable.key h) v' (view l s) t) ->
     Q s (Ok (Some (v, write)))) ->
  wp (Table.get_mut l h) s Q.
Proof.
  intros [Hwf Hr] Hnone Hsome. pose proof (HandleTable.get_mut_spec h (view l s)) as Hspec.
  unfold wp, Table.get_mut.
  destruct (HandleTable.get_mut h (view l s)) as [[v write]|]; do 2 eexists; (split; [reflexivity|]).
  - destruct Hspec as [Hg Hw]. cbn. apply Hsome; [done|]. intros v'.
    destruct (Hw v' Hwf) as (Hwf' & _ & Hlen & Hl & Hi).
    exists (write v'). split; [done|]. split; [|by split].
    split; [done|]. unfold room. by rewrite Hlen.
  - cbn. by apply Hnone.
Qed.
End rules.

Lemma written_evolves {T} h (v' : T) t t' :
  is_Some (HandleTable.get h t) -> written (HandleTable.key h) v' t t' -> evolves t t'.
Proof.
  intros Hh Hw k Hk Hi. split; [by apply (written_issued _ _ _ _ Hw)|].
  intros Hl. rewrite (written_lookup _ _ _ _ Hw k Hk). case_decide as Hd; [|done].
  subst k. rewrite HandleTable.get_lookup, Hl in Hh. by destruct Hh.
Qed.

#[export] Hint Resolve inserted_evolves removed_evolves written_evolves : graftx.

(** What a successful sequence did, step by step. *)
Section inversion.
Context {S : Type}.

Lemma bind_Ok_inv {A B} (m : M S A) (k : A -> M S B) s s' b :
  (m ≫= k) s = Ret (s', Ok b) ->
  exists s1 a, m s = Ret (s1, Ok a) /\ k a s1 = Ret (s', Ok b).
Proof.
  unfold mbind at 1, M_bind. destruct (m s) as [[s1 [a|e]]|]; cbn; [eauto|done..].
Qed.

Lemma attempt_Ok_inv {A} (x : presult A) (s s' : S) a :
  attempt x s = Ret (s', Ok a) -> s' = s /\ x = Ok a.
Proof. unfold attempt. by intros [= <- ->]. Qed.

Lemma mret_Ok_inv {A} (a b : A) (s s' : S) :
  (mret a : M S A) s = Ret (s', Ok b) -> s' = s /\ a = b.
Proof. by intros [= <- <-]. Qed.

Context {T : Type} (l : Lens S (HandleTable.t T)).

Lemma get_Ok_inv h s s' v :
  Table.get l h s = Ret (s', Ok v) -> s' = s /\ v = HandleTable.get h (view l s).
Proof. by intros [= <- <-]. Qed.

Lemma remove_Ok_inv h s s' v :
  HandleTable.wf (view l s) -> Table.remove l h s = Ret (s', Ok (Some v)) ->
  HandleTable.get h (view l s) = Some v /\
  HandleTable.removed (HandleTable.key h) (view l s) (view l s').
Proof.
  intros Hwf. unfold Table.remove. pose proof (HandleTable.remove_spec h _ Hwf) as Hrem.
  destruct (HandleTable.get h (view l s)) as [w|].
  - destruct Hrem as (t & -> & Hrem). cbn. intros [= <- ->]. by rewrite view_set.
  - rewrite Hrem. cbn. by intros [= <-].
Qed.
End inversion.

Ltac inv_ok :=
  repeat match goal with
  | H : (_ ≫= _) _ = Ret (_, Ok _) |- _ => apply bind_Ok_inv in H as (? & ? & ? & ?)
  | H : attempt _ _ = Ret (_, Ok _) |- _ => apply attempt_Ok_inv in H as [-> ?]
  | H : Table.get _ _ _ = Ret (_, Ok _) |- _ => apply get_Ok_inv in H as [-> ->]
  | H : mret _ _ = Ret (_, Ok _) |- _ => apply mret_Ok_inv in H as [-> <-]
  | H : throw _ _ = Ret (_, Ok _) |- _ => discriminate H
  end.

(** ** Entries and references

    [entries P t]: every live value of [t] satisfies [P]. [resolves h t] and
    [was_issued h t] are what one object may require of another. *)
Definition entries {T} (P : T -> Prop) (t : HandleTable.t T) : Prop :=
  forall k v, 0 <= k.1 -> HandleTable.lookup t k = Some v -> P v.

Definition resolves {T} (h : Handle.t) (t : HandleTable.t T) : Prop :=
  is_Some (HandleTable.get h t).

Definition was_issued {T} (h : Handle.t) (t : HandleTable.t T) : Prop :=
  HandleTable.issued t (HandleTable.key h).

Section entries.
Context {T : Type}.
Implicit Types (t : HandleTable.t T) (P : T -> Prop) (h : Handle.t).

Lemma entries_new P : entries P HandleTable.new.
Proof. by intros k v _ (? & ? & _)%HandleTable.lookup_Some. Qed.

Lemma entries_weaken P (P' : T -> Prop) t :
  entries P t -> (forall v, P v -> P' v) -> entries P' t.
Proof. intros H Himp k v Hk Hv. eauto. Qed.

Lemma entries_get P t h v : entries P t -> HandleTable.get h t = Some v -> P v.
Proof. rewrite HandleTable.get_lookup. intros H. apply H, HandleTable.key_nonneg. Qed.

Lemma entries_inserted P kind v t t' h :
  HandleTable.inserted kind v t t' h -> entries P t -> P v -> entries P t'.
Proof.
  intros Hins H Hv k w Hk. rewrite (HandleTable.inserted_lookup _ _ _ _ _ Hins k Hk).
  case_decide; [by intros [= <-]|by apply H].
Qed.

Lemma entries_removed P k0 t t' :
  HandleTable.removed k0 t t' -> entries P t -> entries P t'.
Proof.
  intros Hrem H k w Hk. rewrite (HandleTable.removed_lookup _ _ _ Hrem k Hk).
  case_decide; [done|by apply H].
Qed.

Lemma entries_written P k0 v t t' :
  written k0 v t t' -> entries P t -> P v -> entries P t'.
Proof.
  intros Hw H Hv k w Hk. rewrite (written_lookup _ _ _ _ Hw k Hk).
  case_decide; [by intros [= <-]|by apply H].
Qed.

Lemma get_inserted kind v t t' h h' w :
  HandleTable.inserted kind v t t' h -> HandleTable.get h' t = Some w ->
  HandleTable.get h' t' = Some w.
Proof.
  intros Hins. rewrite !HandleTable.get_lookup. intros Hw.
  rewrite (HandleTable.inserted_lookup _ _ _ _ _ Hins _ (HandleTable.key_nonneg h')).
  rewrite decide_False; [done|]. intros E.
  apply (HandleTable.inserted_fresh _ _ _ _ _ Hins). rewrite <- E.
  by eapply HandleTable.lookup_issued; [apply HandleTable.key_nonneg|].
Qed.

Lemma get_inserted_new kind v t t' h :
  HandleTable.inserted kind v t t' h -> HandleTable.get h t' = Some v.
Proof.
  intros Hins. rewrite HandleTable.get_lookup.
  rewrite (HandleTable.inserted_lookup _ _ _ _ _ Hins _ (HandleTable.key_nonneg h)).
  by rewrite decide_True.
Qed.

Lemma resolves_inserted kind v t t' h h' :
  HandleTable.inserted kind v t t' h -> resolves h' t -> resolves h' t'.
Proof. intros Hins [w Hw]. exists w. by eapply get_inserted. Qed.

Lemma resolves_issued h t : resolves h t -> was_issued h t.
Proof.
  intros [v Hv]. rewrite HandleTable.get_lookup in Hv.
  by eapply HandleTable.lookup_issued; [apply HandleTable.key_nonneg|].
Qed.

Lemma was_issued_evolves h t t' : evolves t t' -> was_issued h t -> was_issued h t'.
Proof. intros He Hi. by apply He; [apply HandleTable.key_nonneg|]. Qed.

(** An issued handle that does not resolve is dead for good. *)
Definition dead h t : Prop := was_issued h t /\ HandleTable.get h t = None.

Lemma dead_evolves h t t' : evolves t t' -> dead h t -> dead h t'.
Proof.
  intros He [Hi Hg]. split; [by eapply was_issued_evolves|].
  rewrite HandleTable.get_lookup in *.
  by apply (He _ (HandleTable.key_nonneg h) Hi).
Qed.

Lemma dead_removed h t t' :
  resolves h t -> HandleTable.removed (HandleTable.key h) t t' -> dead h t'.
Proof.
  intros Hr%resolves_issued Hrem. split.
  - by apply (HandleTable.removed_issued _ _ _ Hrem).
  - rewrite HandleTable.get_lookup,
      (HandleTable.removed_lookup _ _ _ Hrem _ (HandleTable.key_nonneg h)).
    by rewrite decide_True.
Qed.
End entries.

(** Tables nothing is removed from or written to. *)
Definition grows {T} (t t' : HandleTable.t T) : Prop :=
  forall h v, HandleTable.get h t = Some v -> HandleTable.get h t' = Some v.

#[export] Instance grows_preorder {T} : PreOrder (@grows T).
Proof. split; [by intros t h v|]. intros t1 t2 t3 H12 H23 h v Hv. by apply H23, H12. Qed.

Lemma inserted_grows {T} kind (v : T) t t' h :
  HandleTable.inserted kind v t t' h -> grows t t'.
Proof. intros Hins h' w. by apply get_inserted with kind v h. Qed.

Lemma resolves_grows {T} h (t t' : HandleTable.t T) : grows t t' -> resolves h t -> resolves h t'.
Proof. intros Hg [v Hv]. exists v. by apply Hg. Qed.

(** A property of values that no operation takes away: it holds of what a
    handle resolves to for as long as it resolves. *)
Definition persists {T} (P : T -> Prop) (t t' : HandleTable.t T) : Prop :=
  forall h v v', HandleTable.get h t = Some v -> P v ->
    HandleTable.get h t' = Some v' -> P v'.

Lemma inserted_persists {T} (P : T -> Prop) kind (v : T) t t' h :
  HandleTable.inserted kind v t t' h -> persists P t t'.
Proof.
  intros Hins h' w w' Hw HP Hw'.
  rewrite (get_inserted _ _ _ _ _ _ _ Hins Hw) in Hw'. congruence.
Qed.

Lemma removed_persists {T} (P : T -> Prop) k0 (t t' : HandleTable.t T) :
  HandleTable.removed k0 t t' -> persists P t t'.
Proof.
  intros Hrem h w w' Hw HP. rewrite HandleTable.get_lookup in *.
  rewrite (HandleTable.removed_lookup _ _ _ Hrem _ (HandleTable.key_nonneg h)).
  case_decide; [done|]. congruence.
Qed.

Lemma written_persists {T} (P : T -> Prop) k0 v (t t' : HandleTable.t T) :
  written k0 v t t' -> P v -> persists P t t'.
Proof.
  intros Hwr Hv h w w' Hw HP. rewrite HandleTable.get_lookup in *.
  rewrite (written_lookup _ _ _ _ Hwr _ (HandleTable.key_nonneg h)).
  case_decide; congruence.
Qed.

Lemma persists_trans {T} (P : T -> Prop) (t1 t2 t3 : HandleTable.t T) :
  evolves t2 t3 -> evolves t1 t2 -> persists P t1 t2 -> persists P t2 t3 -> persists P t1 t3.
Proof.
  intros He23 He12 H12 H23 h v v' Hv HP Hv'.
  destruct (HandleTable.get h t2) as [w|] eqn:Hw; [by eauto|].
  assert (dead h t2) as Hd.
  { split; [|done]. eapply was_issued_evolves; [done|]. apply resolves_issued. by exists v. }
  apply (dead_evolves _ _ _ He23) in Hd as [_ Hd]. congruence.
Qed.

#[export] Instance persists_refl {T} (P : T -> Prop) : Reflexive (persists P).
Proof. intros t h v v'. congruence. Qed.

#[export] Hint Resolve inserted_grows inserted_persists removed_persists written_persists
  : graftx.
#[export] Hint Resolve entries_new resolves_issued resolves_inserted was_issued_evolves
  : graftx.

(** Prove [entries P t'] for a table after one operation. *)
Ltac solve_entries :=
  first
  [ assumption
  | eapply entries_inserted; [eassumption|assumption|]
  | eapply entries_removed; [eassumption|assumption]
  | eapply entries_written; [eassumption|assumption|]
  | match goal with
    | H : entries _ ?t |- entries _ ?t =>
      solve [apply (entries_weaken _ _ _ H); cbn; intros; eauto with graftx]
    end ].
