(* ===== verification/Backend.v ===== *)
(** The server's [Backend] trait (crates/graftx-server/src/backend.rs) as an
    interface: [Backend] has the trait's two methods, [BackendLaws] what the
    session relies on. The session's theorems are proved against the laws; each
    of the eleven backends discharges them. *)
From S2P Require Import Wire Codecs Contract Handles HandleSpec Effects.

Local Open Scope Z_scope.

Class Backend (B : Type) := {
  api : B -> ApiId;
  handle (opcode req_id : Z) (body : list byte) : M B (list byte);
}.

(** The longest reply body of any backend: an enumeration of one device. *)
Definition MAX_REPLY : nat := 12.

(** What handling one request leaves, given [ready] for the state after it: an
    error changes nothing and is one of two; a reply is short and has the shape
    the contract gives its opcode. *)
Definition handled {B} `{Backend B} (ready : B -> Prop) (opcode : Z) (b b' : B)
    (r : presult (list byte)) : Prop :=
  ready b' /\ api b' = api b /\
  match r with
  | Ok out => (length out <= MAX_REPLY)%nat /\ conforms opcode out
  | Err e => b' = b /\ (e = UnknownOpcode opcode \/ e = UnexpectedEof)
  end.

Class BackendLaws (B : Type) `{Backend B} := {
  (** The invariant, with room for [n] more requests that create an object. *)
  ready : nat -> B -> Prop;
  ready_S n b : ready (S n) b -> ready n b;
  (** Any request whatever is handled without a panic. *)
  handle_spec n opcode req_id body b :
    ready (S n) b -> wp (handle opcode req_id body) b (handled (ready n) opcode b);
  (** An opcode of another namespace is refused. *)
  handle_foreign opcode req_id body b :
    opcode_api opcode <> api_byte (api b) ->
    handle opcode req_id body b = Ret (b, Err (UnknownOpcode opcode));
}.

(** ** Automation

    One step of a handler; [wp_handler] runs the steps until the end and leaves
    the goals that need the backend's own invariant. *)
Lemma wp_attempt_decode {S A} (d : list byte -> presult A) `{!DecodeEof d} body (s : S)
    (Q : S -> presult A -> Prop) :
  (forall req, d body = Ok req -> Q s (Ok req)) ->
  (d body = Err UnexpectedEof -> Q s (Err UnexpectedEof)) ->
  wp (attempt (d body)) s Q.
Proof.
  intros Hok Herr. apply wp_attempt. destruct (d body) as [req|e] eqn:E; [by apply Hok|].
  pose proof (decode_eof _ _ E) as ->. by apply Herr.
Qed.

(** [fits w c] for a constant [c]. *)
Ltac fits_const := split; vm_compute; [congruence|reflexivity].

(** The steps of a handler, up to its post-condition. *)
Ltac wp_step :=
  match goal with
  | |- wp (_ ≫= _) _ _ => apply wp_bind
  | |- wp (mret _) _ _ => apply wp_ret
  | |- wp (throw _) _ _ => apply wp_throw
  | |- wp (attempt (ok_or _ _)) _ _ => apply wp_attempt
  | |- wp (attempt _) _ _ => apply wp_attempt_decode; [typeclasses eauto|intros..]
  | |- wp (Table.get _ _) _ _ => apply wp_get; cbn [view]
  | |- wp (Table.insert _ _ _) _ _ =>
      eapply wp_insert; cbn [view]; [eassumption|fits_const|intros]
  | |- wp (Table.remove _ _) _ _ => eapply wp_remove; cbn [view]; [eassumption|intros..]
  | |- wp (Table.get_mut _ _) _ _ =>
      eapply wp_get_mut; cbn [view]; [eassumption|intros..]
  end; cbv beta iota.

Lemma get_resolves {T} h (t : HandleTable.t T) v :
  HandleTable.get h t = Some v -> resolves h t.
Proof. unfold resolves. eauto. Qed.

#[export] Hint Resolve get_resolves : graftx.

(** The reply of a handler has the shape of its opcode. *)
Lemma handle_of_inserted {T} kind (v : T) t t' h :
  HandleTable.inserted kind v t t' h -> handle_of kind h.
Proof. intros Hins. apply Hins. Qed.

Lemma conforms_ack op : contract op = Some Ack -> conforms op [].
Proof. intros E. by eapply conforms_shape. Qed.

Lemma conforms_handle {T} op kind (v : T) t t' h :
  contract op = Some (AHandle kind) -> HandleTable.inserted kind v t t' h ->
  conforms op ([] <+ u64_le (Handle.raw h)).
Proof.
  intros E Hins. eapply conforms_shape, shape_ok_handle; [exact E|].
  by eapply handle_of_inserted.
Qed.

Lemma conforms_int op n :
  contract op = Some AInt -> fits 32 n -> conforms op ([] <+ u32_le n).
Proof. intros E Hn. eapply conforms_shape; [exact E|]. by apply shape_ok_int. Qed.

(** [conforms] for a reply with a known shape. *)
Ltac contract_eq := first [assumption | vm_compute; reflexivity].

Ltac solve_conforms :=
  lazymatch goal with
  | |- conforms ?op _ =>
    let sh := eval vm_compute in (contract op) in
    lazymatch sh with
    | Some Ack => apply conforms_ack; contract_eq
    | Some (AHandle _) => eapply conforms_handle; [|eassumption]; contract_eq
    | Some AInt => apply conforms_int; [contract_eq|]
    | _ => first
      [ apply conforms_ack; contract_eq
      | eapply conforms_handle; [|eassumption]; contract_eq ]
    end
  end.

(** Run the write that a [get_mut] handed out. *)
Ltac wp_write :=
  match goal with
  | Hw : (forall v', exists t, ?write v' ?s = Ret _ /\ _) |- wp (?write ?v' ≫= _) ?s _ =>
    let t := fresh "tab" in let E := fresh "E" in
    let Hok := fresh "Hok" in let Hwr := fresh "Hwr" in
    destruct (Hw v') as (t & E & Hok & Hwr); clear Hw;
    apply wp_bind; eexists _, _; split; [exact E|]; cbv beta iota
  end.

(** ** Sequences of requests

    The requests a backend sees, one after the other, and what it answers. *)
Module Request.
Record t := mk { opcode : Z; req_id : Z; body : list byte }.
End Request.

Section run.
Context {B : Type} `{Backend B}.

Fixpoint run (reqs : list Request.t) (b : B) : outcome (B * list (presult (list byte))) :=
  match reqs with
  | [] => Ret (b, [])
  | q :: reqs =>
    '(b, r) ← handle (Request.opcode q) (Request.req_id q) (Request.body q) b;
    '(b, rs) ← run reqs b;
    Ret (b, r :: rs)
  end.

(** A relation that holds over one request holds over a run. *)
Lemma run_ind (P : nat -> B -> Prop) (R : B -> B -> Prop) `{!PreOrder R} :
  (forall n q b, P (S n) b -> exists b' r,
     handle (Request.opcode q) (Request.req_id q) (Request.body q) b = Ret (b', r) /\
     P n b' /\ R b b') ->
  forall reqs n b, P (length reqs + n)%nat b ->
    exists b' rs, run reqs b = Ret (b', rs) /\ P n b' /\ R b b' /\
      length rs = length reqs.
Proof.
  intros Hstep reqs. induction reqs as [|q reqs IH]; intros n b HP; cbn in *.
  - exists b, []. split; [done|]. split; [done|]. split; [reflexivity|done].
  - destruct (Hstep _ q b HP) as (b1 & r & -> & HP1 & HR1). cbn.
    destruct (IH n b1 HP1) as (b' & rs & -> & HP' & HR' & Hlen). cbn.
    do 2 eexists. split; [reflexivity|]. split; [done|].
    split; [by etransitivity|]. cbn. by rewrite Hlen.
Qed.
End run.

Lemma run_ready {B} `{BackendLaws B} reqs n (b : B) :
  ready (length reqs + n) b ->
  exists b' rs, run reqs b = Ret (b', rs) /\ ready n b' /\ api b' = api b.
Proof.
  intros Hr. destruct (run_ind ready (fun b b' => api b' = api b)
    (PreOrder0 := Build_PreOrder _ (fun b => eq_refl) (fun a b c E1 E2 => eq_trans E2 E1))) with reqs n b
    as (b' & rs & E & Hr' & Ha & _); [|done|by eauto].
  intros m q b1 Hb1. destruct (handle_spec m (Request.opcode q) (Request.req_id q) (Request.body q) b1 Hb1)
    as (b2 & r & E & Hr2 & Ha & _). eauto.
Qed.
