(* ===== verification/VulkanBackend.v ===== *)
(** The Vulkan backend (crates/graftx-server/src/backend.rs): eight handle
    tables and one handler per opcode. The invariant is that every table is well
    formed and that every object's parents are live (devices, physical devices
    and instances are never destroyed) or, for the objects that can be destroyed
    first, have been issued. *)
From S2P Require Import Wire VkBodies Codecs Handles HandleSpec Effects Backend.

Local Open Scope Z_scope.

Definition KIND_INSTANCE : Z := 1.
Definition KIND_PHYSICAL_DEVICE : Z := 2.
Definition KIND_DEVICE : Z := 3.
Definition KIND_QUEUE : Z := 4.
Definition KIND_DEVICE_MEMORY : Z := 5.
Definition KIND_BUFFER : Z := 6.
Definition KIND_COMMAND_POOL : Z := 7.
Definition KIND_COMMAND_BUFFER : Z := 8.

Module InstanceState.
Record t := mk { created : bool }.
End InstanceState.

Module PhysDevState.
Record t := mk { parent : Handle.t }.
End PhysDevState.

Module DeviceState.
Record t := mk { physical_device : Handle.t }.
End DeviceState.

Module QueueState.
Record t := mk { device : Handle.t; family : Z; index : Z }.
End QueueState.

Module MemoryState.
Record t := mk { device : Handle.t; size : Z }.
End MemoryState.

Module BufferState.
Record t := mk { device : Handle.t; size : Z; usage : Z; bound : option (Handle.t * Z) }.
End BufferState.

Module CommandPoolState.
Record t := mk { device : Handle.t; queue_family_index : Z }.
End CommandPoolState.

Module CommandBufferState.
Record t := mk { pool : Handle.t; recorded : Z }.
End CommandBufferState.

Module VulkanBackend.

Record t := mk {
  instances : HandleTable.t InstanceState.t;
  physical_devices : HandleTable.t PhysDevState.t;
  devices : HandleTable.t DeviceState.t;
  queues : HandleTable.t QueueState.t;
  memories : HandleTable.t MemoryState.t;
  buffers : HandleTable.t BufferState.t;
  command_pools : HandleTable.t CommandPoolState.t;
  command_buffers : HandleTable.t CommandBufferState.t }.

Definition new : t :=
  mk HandleTable.new HandleTable.new HandleTable.new HandleTable.new
     HandleTable.new HandleTable.new HandleTable.new HandleTable.new.

(** The fields, as lenses. *)
Module Field.
Definition instances : Lens t _ :=
  mkLens instances (fun x '(mk _ x1 x2 x3 x4 x5 x6 x7) => mk x x1 x2 x3 x4 x5 x6 x7)
    ltac:(by intros []) ltac:(by intros ? []).
Definition physical_devices : Lens t _ :=
  mkLens physical_devices (fun x '(mk x0 _ x2 x3 x4 x5 x6 x7) => mk x0 x x2 x3 x4 x5 x6 x7)
    ltac:(by intros []) ltac:(by intros ? []).
Definition devices : Lens t _ :=
  mkLens devices (fun x '(mk x0 x1 _ x3 x4 x5 x6 x7) => mk x0 x1 x x3 x4 x5 x6 x7)
    ltac:(by intros []) ltac:(by intros ? []).
Definition queues : Lens t _ :=
  mkLens queues (fun x '(mk x0 x1 x2 _ x4 x5 x6 x7) => mk x0 x1 x2 x x4 x5 x6 x7)
    ltac:(by intros []) ltac:(by intros ? []).
Definition memories : Lens t _ :=
  mkLens memories (fun x '(mk x0 x1 x2 x3 _ x5 x6 x7) => mk x0 x1 x2 x3 x x5 x6 x7)
    ltac:(by intros []) ltac:(by intros ? []).
Definition buffers : Lens t _ :=
  mkLens buffers (fun x '(mk x0 x1 x2 x3 x4 _ x6 x7) => mk x0 x1 x2 x3 x4 x x6 x7)
    ltac:(by intros []) ltac:(by intros ? []).
Definition command_pools : Lens t _ :=
  mkLens command_pools (fun x '(mk x0 x1 x2 x3 x4 x5 _ x7) => mk x0 x1 x2 x3 x4 x5 x x7)
    ltac:(by intros []) ltac:(by intros ? []).
Definition command_buffers : Lens t _ :=
  mkLens command_buffers (fun x '(mk x0 x1 x2 x3 x4 x5 x6 _) => mk x0 x1 x2 x3 x4 x5 x6 x)
    ltac:(by intros []) ltac:(by intros ? []).
End Field.

Definition api (self : t) : ApiId := Vulkan.

(** One definition per arm of the [match] of [handle]. *)
Section arms.
Context (opcode : Z) (body : list byte).
Implicit Types out : list byte.

(** [state.is_some_and(|state| state.created)] *)
Definition created (state : option InstanceState.t) : bool :=
  match state with Some state => InstanceState.created state | None => false end.

Definition create_instance : M t (list byte) :=
  _req ← attempt (vk.CreateInstanceRequest.decode body);
  instance ← Table.insert Field.instances KIND_INSTANCE (InstanceState.mk true);
  mret (vk.CreateInstanceResponse.encode
    (vk.CreateInstanceResponse.mk instance) []).

Definition enumerate_physical_devices : M t (list byte) :=
  req ← attempt (vk.EnumeratePhysicalDevicesRequest.decode body);
  state ← Table.get Field.instances (vk.EnumeratePhysicalDevicesRequest.instance req);
  if negb (created state) then throw (UnknownOpcode opcode)
  else
    device ← Table.insert Field.physical_devices KIND_PHYSICAL_DEVICE
      (PhysDevState.mk (vk.EnumeratePhysicalDevicesRequest.instance req));
    mret (vk.EnumeratePhysicalDevicesResponse.encode
      (vk.EnumeratePhysicalDevicesResponse.mk [device]) []).

Definition create_device : M t (list byte) :=
  req ← attempt (vk.CreateDeviceRequest.decode body);
  state ← Table.get Field.physical_devices (vk.CreateDeviceRequest.physical_device req);
  match state with
  | None => throw (UnknownOpcode opcode)
  | Some _ =>
    device ← Table.insert Field.devices KIND_DEVICE
      (DeviceState.mk (vk.CreateDeviceRequest.physical_device req));
    mret (vk.CreateDeviceResponse.encode (vk.CreateDeviceResponse.mk device) [])
  end.

Definition get_device_queue : M t (list byte) :=
  req ← attempt (vk.GetDeviceQueueRequest.decode body);
  state ← Table.get Field.devices (vk.GetDeviceQueueRequest.device req);
  match state with
  | None => throw (UnknownOpcode opcode)
  | Some _ =>
    queue ← Table.insert Field.queues KIND_QUEUE
      (QueueState.mk (vk.GetDeviceQueueRequest.device req)
        (vk.GetDeviceQueueRequest.queue_family_index req)
        (vk.GetDeviceQueueRequest.queue_index req));
    mret (vk.GetDeviceQueueResponse.encode (vk.GetDeviceQueueResponse.mk queue) [])
  end.

Definition allocate_memory : M t (list byte) :=
  req ← attempt (vk.AllocateMemoryRequest.decode body);
  state ← Table.get Field.devices (vk.AllocateMemoryRequest.device req);
  match state with
  | None => throw (UnknownOpcode opcode)
  | Some _ =>
    memory ← Table.insert Field.memories KIND_DEVICE_MEMORY
      (MemoryState.mk (vk.AllocateMemoryRequest.device req)
        (vk.AllocateMemoryRequest.size req));
    mret (vk.AllocateMemoryResponse.encode (vk.AllocateMemoryResponse.mk memory) [])
  end.

Definition create_buffer : M t (list byte) :=
  req ← attempt (vk.CreateBufferRequest.decode body);
  state ← Table.get Field.devices (vk.CreateBufferRequest.device req);
  match state with
  | None => throw (UnknownOpcode opcode)
  | Some _ =>
    buffer ← Table.insert Field.buffers KIND_BUFFER
      (BufferState.mk (vk.CreateBufferRequest.device req)
        (vk.CreateBufferRequest.size req) (vk.CreateBufferRequest.usage req) None);
    mret (vk.CreateBufferResponse.encode (vk.CreateBufferResponse.mk buffer) [])
  end.

(** [.filter(|state| state.bound.is_none())] *)
Definition unbound (state : option (BufferState.t * (BufferState.t -> M t unit)))
  : option (BufferState.t * (BufferState.t -> M t unit)) :=
  '(buf, write) ← state;
  match BufferState.bound buf with None => Some (buf, write) | Some _ => None end.

Definition bind_buffer_memory : M t (list byte) :=
  req ← attempt (vk.BindBufferMemoryRequest.decode body);
  memory ← Table.get Field.memories (vk.BindBufferMemoryRequest.memory req);
  match memory with
  | None => throw (UnknownOpcode opcode)
  | Some _ =>
    state ← Table.get_mut Field.buffers (vk.BindBufferMemoryRequest.buffer req);
    '(state, write) ← attempt (ok_or (unbound state) (UnknownOpcode opcode));
    write (BufferState.mk (BufferState.device state) (BufferState.size state)
      (BufferState.usage state)
      (Some (vk.BindBufferMemoryRequest.memory req,
             vk.BindBufferMemoryRequest.offset req)));;
    mret []
  end.

Definition create_command_pool : M t (list byte) :=
  req ← attempt (vk.CreateCommandPoolRequest.decode body);
  state ← Table.get Field.devices (vk.CreateCommandPoolRequest.device req);
  match state with
  | None => throw (UnknownOpcode opcode)
  | Some _ =>
    pool ← Table.insert Field.command_pools KIND_COMMAND_POOL
      (CommandPoolState.mk (vk.CreateCommandPoolRequest.device req)
        (vk.CreateCommandPoolRequest.queue_family_index req));
    mret (vk.CreateCommandPoolResponse.encode (vk.CreateCommandPoolResponse.mk pool) [])
  end.

Definition allocate_command_buffer : M t (list byte) :=
  req ← attempt (vk.AllocateCommandBufferRequest.decode body);
  state ← Table.get Field.command_pools (vk.AllocateCommandBufferRequest.pool req);
  match state with
  | None => throw (UnknownOpcode opcode)
  | Some _ =>
    command_buffer ← Table.insert Field.command_buffers KIND_COMMAND_BUFFER
      (CommandBufferState.mk (vk.AllocateCommandBufferRequest.pool req) 0);
    mret (vk.AllocateCommandBufferResponse.encode
      (vk.AllocateCommandBufferResponse.mk command_buffer) [])
  end.

Definition queue_submit : M t (list byte) :=
  req ← attempt (vk.QueueSubmitRequest.decode body);
  queue ← Table.get Field.queues (vk.QueueSubmitRequest.queue req);
  command_buffer ← Table.get Field.command_buffers
    (vk.QueueSubmitRequest.command_buffer req);
  match queue, command_buffer with
  | Some _, Some _ => mret []
  | _, _ => throw (UnknownOpcode opcode)
  end.

(** [state.recorded = state.recorded.saturating_add(1)] *)
Definition record_command (state : option (CommandBufferState.t *
    (CommandBufferState.t -> M t unit))) : M t (list byte) :=
  '(state, write) ← attempt (ok_or state (UnknownOpcode opcode));
  write (CommandBufferState.mk (CommandBufferState.pool state)
    (saturating_add 32 (CommandBufferState.recorded state) 1));;
  mret [].

Definition cmd_copy_buffer : M t (list byte) :=
  req ← attempt (vk.CmdCopyBufferRequest.decode body);
  src ← Table.get Field.buffers (vk.CmdCopyBufferRequest.src req);
  dst ← Table.get Field.buffers (vk.CmdCopyBufferRequest.dst req);
  match src, dst with
  | Some _, Some _ =>
    state ← Table.get_mut Field.command_buffers
      (vk.CmdCopyBufferRequest.command_buffer req);
    record_command state
  | _, _ => throw (UnknownOpcode opcode)
  end.

Definition cmd_draw : M t (list byte) :=
  req ← attempt (vk.CmdDrawRequest.decode body);
  state ← Table.get_mut Field.command_buffers (vk.CmdDrawRequest.command_buffer req);
  record_command state.

Definition destroy_buffer : M t (list byte) :=
  req ← attempt (vk.DestroyBufferRequest.decode body);
  removed ← Table.remove Field.buffers (vk.DestroyBufferRequest.buffer req);
  match removed with
  | None => throw (UnknownOpcode opcode)
  | Some _ => mret []
  end.

Definition free_memory : M t (list byte) :=
  req ← attempt (vk.FreeMemoryRequest.decode body);
  removed ← Table.remove Field.memories (vk.FreeMemoryRequest.memory req);
  match removed with
  | None => throw (UnknownOpcode opcode)
  | Some _ => mret []
  end.

Definition destroy_command_pool : M t (list byte) :=
  req ← attempt (vk.DestroyCommandPoolRequest.decode body);
  removed ← Table.remove Field.command_pools (vk.DestroyCommandPoolRequest.pool req);
  match removed with
  | None => throw (UnknownOpcode opcode)
  | Some _ => mret []
  end.
End arms.

Definition handle (opcode _req_id : Z) (body : list byte) : M t (list byte) :=
  if decide (opcode_api opcode <> api_byte Vulkan) then throw (UnknownOpcode opcode)
  else if decide (opcode = vk_op.CREATE_INSTANCE) then create_instance body
  else if decide (opcode = vk_op.ENUMERATE_PHYSICAL_DEVICES) then
    enumerate_physical_devices opcode body
  else if decide (opcode = vk_op.CREATE_DEVICE) then create_device opcode body
  else if decide (opcode = vk_op.GET_DEVICE_QUEUE) then get_device_queue opcode body
  else if decide (opcode = vk_op.ALLOCATE_MEMORY) then allocate_memory opcode body
  else if decide (opcode = vk_op.CREATE_BUFFER) then create_buffer opcode body
  else if decide (opcode = vk_op.BIND_BUFFER_MEMORY) then bind_buffer_memory opcode body
  else if decide (opcode = vk_op.CREATE_COMMAND_POOL) then
    create_command_pool opcode body
  else if decide (opcode = vk_op.ALLOCATE_COMMAND_BUFFER) then
    allocate_command_buffer opcode body
  else if decide (opcode = vk_op.QUEUE_SUBMIT) then queue_submit opcode body
  else if decide (opcode = vk_op.CMD_COPY_BUFFER) then cmd_copy_buffer opcode body
  else if decide (opcode = vk_op.CMD_DRAW) then cmd_draw opcode body
  else if decide (opcode = vk_op.DESTROY_BUFFER) then destroy_buffer opcode body
  else if decide (opcode = vk_op.FREE_MEMORY) then free_memory opcode body
  else if decide (opcode = vk_op.DESTROY_COMMAND_POOL) then
    destroy_command_pool opcode body
  else throw (UnknownOpcode opcode).

#[global] Instance backend : Backend t := {| Backend.api := api; Backend.handle := handle |}.

End VulkanBackend.
