(* ===== verification/VulkanSafety.v ===== *)
(** The Vulkan backend keeps its invariant and meets the [Backend] interface;
    the object-lifetime properties of whole request sequences follow. *)
From S2P Require Import Wire VkBodies Codecs Contract Handles HandleSpec Effects.
From S2P Require Import Backend VulkanBackend.

Local Open Scope Z_scope.

Import VulkanBackend.

(** Every table has room for [n] more objects. *)
Record tables_ok (n : nat) (s : t) : Prop := {
  ok_instances : table_ok n (instances s);
  ok_physical_devices : table_ok n (physical_devices s);
  ok_devices : table_ok n (devices s);
  ok_queues : table_ok n (queues s);
  ok_memories : table_ok n (memories s);
  ok_buffers : table_ok n (buffers s);
  ok_command_pools : table_ok n (command_pools s);
  ok_command_buffers : table_ok n (command_buffers s);
}.

(** Every object's parents are live; a command buffer's pool and a buffer's
    memory have been issued, and may have been destroyed since. *)
Record parents_ok (s : t) : Prop := {
  par_instances : entries (fun i => InstanceState.created i = true) (instances s);
  par_physical_devices :
    entries (fun p => resolves (PhysDevState.parent p) (instances s)) (physical_devices s);
  par_devices :
    entries (fun d => resolves (DeviceState.physical_device d) (physical_devices s))
      (devices s);
  par_queues : entries (fun q => resolves (QueueState.device q) (devices s)) (queues s);
  par_memories :
    entries (fun m => resolves (MemoryState.device m) (devices s)) (memories s);
  par_buffers :
    entries (fun b => resolves (BufferState.device b) (devices s)) (buffers s);
  par_bound :
    entries (fun b => forall m off, BufferState.bound b = Some (m, off) ->
      was_issued m (memories s)) (buffers s);
  par_command_pools :
    entries (fun c => resolves (CommandPoolState.device c) (devices s)) (command_pools s);
  par_command_buffers :
    entries (fun c => was_issued (CommandBufferState.pool c) (command_pools s))
      (command_buffers s);
  par_recorded :
    entries (fun c => fits 32 (CommandBufferState.recorded c)) (command_buffers s);
}.

(** How the state evolves over a request. *)
Definition is_bound (b : BufferState.t) : Prop := is_Some (BufferState.bound b).

Record state_evolves (s s' : t) : Prop := {
  ev_instances : grows (instances s) (instances s');
  ev_physical_devices : grows (physical_devices s) (physical_devices s');
  ev_devices : grows (devices s) (devices s');
  ev_queues : grows (queues s) (queues s');
  ev_bound : persists is_bound (buffers s) (buffers s');
  ev_memories : evolves (memories s) (memories s');
  ev_buffers : evolves (buffers s) (buffers s');
  ev_command_pools : evolves (command_pools s) (command_pools s');
  ev_command_buffers : evolves (command_buffers s) (command_buffers s');
}.

#[export] Instance state_evolves_preorder : PreOrder state_evolves.
Proof.
  split.
  - intros s. constructor; reflexivity.
  - intros s1 s2 s3 [] []. constructor; try (etransitivity; eassumption).
    by eapply persists_trans.
Qed.

Definition vk_ready (n : nat) (s : t) : Prop := tables_ok n s /\ parents_ok s.

(** What an arm leaves. *)
Definition arm_post (n : nat) (opcode : Z) (s s' : t) (r : presult (list byte)) : Prop :=
  handled (vk_ready n) opcode s s' r /\ state_evolves s s'.

Lemma arm_error n opcode s e :
  vk_ready (S n) s -> e = UnknownOpcode opcode \/ e = UnexpectedEof ->
  arm_post n opcode s s (Err e).
Proof.
  intros [[] Hp] He. split; [|reflexivity]. split; [|done]. split; [|done].
  constructor; auto with graftx.
Qed.

Lemma arm_ok n opcode s s' out :
  tables_ok n s' -> parents_ok s' -> state_evolves s s' ->
  (length out <= MAX_REPLY)%nat -> conforms opcode out -> arm_post n opcode s s' (Ok out).
Proof. intros. split; [|done]. split; [by split|]. split; [done|by split]. Qed.

Lemma created_resolves s h :
  created (HandleTable.get h (instances s)) = true -> resolves h (instances s).
Proof. unfold resolves. destruct (HandleTable.get h _); [eauto|done]. Qed.

(** Finish an arm: the error cases, and the success case table by table. *)
Ltac arm_start :=
  intros Hshape Hready; pose proof Hready as [[] []].

Ltac arm_err := solve [apply arm_error; [assumption|auto]].

Ltac reply_length :=
  cbn [length]; first [unfold MAX_REPLY; lia
    | rewrite encode_length; unfold MAX_REPLY; lia
    | rewrite vk.enumerate_length; cbn; unfold MAX_REPLY; lia].

Ltac arm_done :=
  apply arm_ok;
  [ constructor; cbn; auto with graftx
  | constructor; cbn; solve_entries; cbn; try done; intros; eauto with graftx
  | constructor; cbn; first [reflexivity | eauto with graftx]
  | reply_length
  | first [solve_conforms | idtac] ].

Section arms.
Context (n : nat) (opcode : Z) (body : list byte) (s : t).

Lemma create_instance_ok :
  contract opcode = Some (AHandle KIND_INSTANCE) -> vk_ready (S n) s -> wp (create_instance body) s (arm_post n opcode s).
Proof.
  arm_start. unfold create_instance. do 2 wp_step; [|arm_err].
  do 3 wp_step. destruct s; cbn in *. arm_done.
Qed.

Lemma enumerate_physical_devices_ok :
  contract opcode = Some (AHandles KIND_PHYSICAL_DEVICE) -> vk_ready (S n) s -> wp (enumerate_physical_devices opcode body) s (arm_post n opcode s).
Proof.
  arm_start. unfold enumerate_physical_devices. do 2 wp_step; [|arm_err].
  do 2 wp_step. destruct (negb _) eqn:Hc; [wp_step; arm_err|].
  apply negb_false_iff, created_resolves in Hc.
  do 3 wp_step. destruct s; cbn in *. arm_done.
  eapply conforms_shape; [exact Hshape|]. exists [h]. split; [|by split].
  apply Forall_singleton. by eapply handle_of_inserted.
Qed.

Lemma create_device_ok :
  contract opcode = Some (AHandle KIND_DEVICE) -> vk_ready (S n) s -> wp (create_device opcode body) s (arm_post n opcode s).
Proof.
  arm_start. unfold create_device. do 2 wp_step; [|arm_err].
  do 2 wp_step. destruct (HandleTable.get _ _) eqn:Hget; [|wp_step; arm_err].
  apply get_resolves in Hget. do 3 wp_step. destruct s; cbn in *. arm_done.
Qed.

Lemma get_device_queue_ok :
  contract opcode = Some (AHandle KIND_QUEUE) -> vk_ready (S n) s -> wp (get_device_queue opcode body) s (arm_post n opcode s).
Proof.
  arm_start. unfold get_device_queue. do 2 wp_step; [|arm_err].
  do 2 wp_step. destruct (HandleTable.get _ _) eqn:Hget; [|wp_step; arm_err].
  apply get_resolves in Hget. do 3 wp_step. destruct s; cbn in *. arm_done.
Qed.

Lemma allocate_memory_ok :
  contract opcode = Some (AHandle KIND_DEVICE_MEMORY) -> vk_ready (S n) s -> wp (allocate_memory opcode body) s (arm_post n opcode s).
Proof.
  arm_start. unfold allocate_memory. do 2 wp_step; [|arm_err].
  do 2 wp_step. destruct (HandleTable.get _ _) eqn:Hget; [|wp_step; arm_err].
  apply get_resolves in Hget. do 3 wp_step. destruct s; cbn in *. arm_done.
Qed.

Lemma create_command_pool_ok :
  contract opcode = Some (AHandle KIND_COMMAND_POOL) -> vk_ready (S n) s -> wp (create_command_pool opcode body) s (arm_post n opcode s).
Proof.
  arm_start. unfold create_command_pool. do 2 wp_step; [|arm_err].
  do 2 wp_step. destruct (HandleTable.get _ _) eqn:Hget; [|wp_step; arm_err].
  apply get_resolves in Hget. do 3 wp_step. destruct s; cbn in *. arm_done.
Qed.

Lemma allocate_command_buffer_ok :
  contract opcode = Some (AHandle KIND_COMMAND_BUFFER) -> vk_ready (S n) s -> wp (allocate_command_buffer opcode body) s (arm_post n opcode s).
Proof.
  arm_start. unfold allocate_command_buffer. do 2 wp_step; [|arm_err].
  do 2 wp_step. destruct (HandleTable.get _ _) eqn:Hget; [|wp_step; arm_err].
  apply get_resolves in Hget. do 3 wp_step. destruct s; cbn in *. arm_done.
Qed.

Lemma create_buffer_ok :
  contract opcode = Some (AHandle KIND_BUFFER) -> vk_ready (S n) s -> wp (create_buffer opcode body) s (arm_post n opcode s).
Proof.
  arm_start. unfold create_buffer. do 2 wp_step; [|arm_err].
  do 2 wp_step. destruct (HandleTable.get _ _) eqn:Hget; [|wp_step; arm_err].
  apply get_resolves in Hget. do 3 wp_step. destruct s; cbn in *. arm_done.
Qed.

Lemma bind_buffer_memory_ok :
  contract opcode = Some Ack -> vk_ready (S n) s -> wp (bind_buffer_memory opcode body) s (arm_post n opcode s).
Proof.
  arm_start. unfold bind_buffer_memory. do 2 wp_step; [|arm_err].
  do 2 wp_step. destruct (HandleTable.get _ _) eqn:Hget; [|wp_step; arm_err].
  apply get_resolves in Hget.
  do 2 wp_step; [do 2 wp_step; arm_err|]. do 2 wp_step. cbn.
  destruct (BufferState.bound v) eqn:Hb; [arm_err|]. cbn.
  wp_write. wp_step. destruct s; cbn in *. arm_done.
  - by eapply (entries_get _ _ _ _ par_buffers0).
  - simplify_eq. by apply resolves_issued.
  - eapply written_persists; [done|]. by eexists.
Qed.

Lemma queue_submit_ok :
  contract opcode = Some Ack -> vk_ready (S n) s -> wp (queue_submit opcode body) s (arm_post n opcode s).
Proof.
  arm_start. unfold queue_submit. do 2 wp_step; [|arm_err]. do 4 wp_step.
  destruct (HandleTable.get _ _); [|wp_step; arm_err].
  destruct (HandleTable.get _ _); [|wp_step; arm_err].
  wp_step. destruct s; cbn in *. arm_done.
Qed.

Lemma record_command_ok h :
  contract opcode = Some Ack -> vk_ready (S n) s ->
  wp (state ← Table.get_mut Field.command_buffers h; record_command opcode state) s
    (arm_post n opcode s).
Proof.
  arm_start. unfold record_command.
  do 2 wp_step; [do 2 wp_step; arm_err|]. do 2 wp_step. cbn.
  wp_write. wp_step. destruct s; cbn in *. arm_done.
  - by eapply (entries_get _ _ _ _ par_command_buffers0).
  - apply saturating_add_fits; [lia| |lia].
    by apply (entries_get _ _ _ _ par_recorded0 H).
Qed.

Lemma cmd_copy_buffer_ok :
  contract opcode = Some Ack -> vk_ready (S n) s -> wp (cmd_copy_buffer opcode body) s (arm_post n opcode s).
Proof.
  arm_start. unfold cmd_copy_buffer. do 2 wp_step; [|arm_err]. do 4 wp_step.
  destruct (HandleTable.get _ _); [|wp_step; arm_err].
  destruct (HandleTable.get _ _); [|wp_step; arm_err].
  by apply record_command_ok.
Qed.

Lemma cmd_draw_ok :
  contract opcode = Some Ack -> vk_ready (S n) s -> wp (cmd_draw opcode body) s (arm_post n opcode s).
Proof.
  arm_start. unfold cmd_draw. do 2 wp_step; [|arm_err]. by apply record_command_ok.
Qed.

Lemma destroy_buffer_ok :
  contract opcode = Some Ack -> vk_ready (S n) s -> wp (destroy_buffer opcode body) s (arm_post n opcode s).
Proof.
  arm_start. unfold destroy_buffer. do 2 wp_step; [|arm_err].
  do 2 wp_step; [wp_step; arm_err|]. wp_step. destruct s; cbn in *. arm_done.
Qed.

Lemma free_memory_ok :
  contract opcode = Some Ack -> vk_ready (S n) s -> wp (free_memory opcode body) s (arm_post n opcode s).
Proof.
  arm_start. unfold free_memory. do 2 wp_step; [|arm_err].
  do 2 wp_step; [wp_step; arm_err|]. wp_step. destruct s; cbn in *. arm_done.
Qed.

Lemma destroy_command_pool_ok :
  contract opcode = Some Ack -> vk_ready (S n) s -> wp (destroy_command_pool opcode body) s (arm_post n opcode s).
Proof.
  arm_start. unfold destroy_command_pool. do 2 wp_step; [|arm_err].
  do 2 wp_step; [wp_step; arm_err|]. wp_step. destruct s; cbn in *. arm_done.
Qed.
End arms.

(** Any Vulkan request whatever. *)
Lemma vk_handle_ok n opcode rid body s :
  vk_ready (S n) s -> wp (VulkanBackend.handle opcode rid body) s (arm_post n opcode s).
Proof.
  intros Hs. unfold VulkanBackend.handle.
  repeat (case_decide; [first
    [ by apply wp_throw, arm_error; [|left]
    | subst opcode; first
        [ apply create_instance_ok | apply enumerate_physical_devices_ok
        | apply create_device_ok | apply get_device_queue_ok | apply allocate_memory_ok
        | apply create_buffer_ok | apply bind_buffer_memory_ok | apply create_command_pool_ok
        | apply allocate_command_buffer_ok | apply queue_submit_ok | apply cmd_copy_buffer_ok
        | apply cmd_draw_ok | apply destroy_buffer_ok | apply free_memory_ok
        | apply destroy_command_pool_ok ]; [vm_compute; reflexivity|exact Hs] ]|]).
  apply wp_throw, arm_error; [done|by left].
Qed.

Lemma vk_ready_S n s : vk_ready (S n) s -> vk_ready n s.
Proof. intros [[] ?]. split; [|done]. constructor; auto with graftx. Qed.

Lemma vk_ready_new n : Z.of_nat n <= 2 ^ 32 -> vk_ready n new.
Proof.
  intros Hn. split; [constructor; by apply table_ok_new|].
  constructor; apply entries_new.
Qed.

#[export] Program Instance vulkan_laws : BackendLaws VulkanBackend.t := {|
  ready := vk_ready;
  ready_S := vk_ready_S;
|}.
Next Obligation.
  intros. eapply wp_mono; [by apply vk_handle_ok|]. by intros ?? [? _].
Qed.
Next Obligation. intros. cbn. unfold VulkanBackend.handle. by rewrite decide_True. Qed.

(** A run of requests: it returns, keeps the invariant, and evolves the state. *)
Lemma vk_run reqs n s :
  vk_ready (length reqs + n) s ->
  exists s' rs, run reqs s = Ret (s', rs) /\ vk_ready n s' /\ state_evolves s s' /\
    length rs = length reqs.
Proof.
  apply (run_ind vk_ready state_evolves). intros m q b Hb.
  destruct (vk_handle_ok m (Request.opcode q) (Request.req_id q) (Request.body q) b Hb)
    as (s' & r & E & [Hr _] & Hev).
  exists s', r. split; [exact E|]. split; [apply Hr|done].
Qed.
