(* ===== verification/VulkanProps.v ===== *)
(** Object lifetimes of the Vulkan backend over whole request sequences: the
    invariant of every reachable state, use after destroy, single binding, and
    that what a client created stays usable. *)
From S2P Require Import Wire VkBodies Codecs Handles HandleSpec Effects Backend.
From S2P Require Import VulkanBackend VulkanSafety.

Local Open Scope Z_scope.

Import VulkanBackend.
Import HandleTable (key).

(** ** The dispatch on each opcode *)
Section dispatch.
Context (rid : Z) (body : list byte).

Lemma handle_create_instance :
  VulkanBackend.handle vk_op.CREATE_INSTANCE rid body = create_instance body.
Proof. reflexivity. Qed.
Lemma handle_enumerate :
  VulkanBackend.handle vk_op.ENUMERATE_PHYSICAL_DEVICES rid body =
  enumerate_physical_devices vk_op.ENUMERATE_PHYSICAL_DEVICES body.
Proof. reflexivity. Qed.
Lemma handle_create_device :
  VulkanBackend.handle vk_op.CREATE_DEVICE rid body =
  create_device vk_op.CREATE_DEVICE body.
Proof. reflexivity. Qed.
Lemma handle_create_buffer :
  VulkanBackend.handle vk_op.CREATE_BUFFER rid body =
  create_buffer vk_op.CREATE_BUFFER body.
Proof. reflexivity. Qed.
Lemma handle_allocate_memory :
  VulkanBackend.handle vk_op.ALLOCATE_MEMORY rid body =
  allocate_memory vk_op.ALLOCATE_MEMORY body.
Proof. reflexivity. Qed.
Lemma handle_bind :
  VulkanBackend.handle vk_op.BIND_BUFFER_MEMORY rid body =
  bind_buffer_memory vk_op.BIND_BUFFER_MEMORY body.
Proof. reflexivity. Qed.
Lemma handle_copy :
  VulkanBackend.handle vk_op.CMD_COPY_BUFFER rid body =
  cmd_copy_buffer vk_op.CMD_COPY_BUFFER body.
Proof. reflexivity. Qed.
Lemma handle_destroy_buffer :
  VulkanBackend.handle vk_op.DESTROY_BUFFER rid body =
  destroy_buffer vk_op.DESTROY_BUFFER body.
Proof. reflexivity. Qed.
Lemma handle_free_memory :
  VulkanBackend.handle vk_op.FREE_MEMORY rid body =
  free_memory vk_op.FREE_MEMORY body.
Proof. reflexivity. Qed.
Lemma handle_destroy_command_pool :
  VulkanBackend.handle vk_op.DESTROY_COMMAND_POOL rid body =
  destroy_command_pool vk_op.DESTROY_COMMAND_POOL body.
Proof. reflexivity. Qed.
Lemma handle_allocate_command_buffer :
  VulkanBackend.handle vk_op.ALLOCATE_COMMAND_BUFFER rid body =
  allocate_command_buffer vk_op.ALLOCATE_COMMAND_BUFFER body.
Proof. reflexivity. Qed.
End dispatch.

(** ** Requests that name a destroyable object *)
Inductive names_buffer (k : Z * Z) : Z -> list byte -> Prop :=
| names_buffer_bind body req :
    vk.BindBufferMemoryRequest.decode body = Ok req ->
    key (vk.BindBufferMemoryRequest.buffer req) = k ->
    names_buffer k vk_op.BIND_BUFFER_MEMORY body
| names_buffer_src body req :
    vk.CmdCopyBufferRequest.decode body = Ok req ->
    key (vk.CmdCopyBufferRequest.src req) = k ->
    names_buffer k vk_op.CMD_COPY_BUFFER body
| names_buffer_dst body req :
    vk.CmdCopyBufferRequest.decode body = Ok req ->
    key (vk.CmdCopyBufferRequest.dst req) = k ->
    names_buffer k vk_op.CMD_COPY_BUFFER body
| names_buffer_destroy body req :
    vk.DestroyBufferRequest.decode body = Ok req ->
    key (vk.DestroyBufferRequest.buffer req) = k ->
    names_buffer k vk_op.DESTROY_BUFFER body.

Inductive names_memory (k : Z * Z) : Z -> list byte -> Prop :=
| names_memory_bind body req :
    vk.BindBufferMemoryRequest.decode body = Ok req ->
    key (vk.BindBufferMemoryRequest.memory req) = k ->
    names_memory k vk_op.BIND_BUFFER_MEMORY body
| names_memory_free body req :
    vk.FreeMemoryRequest.decode body = Ok req ->
    key (vk.FreeMemoryRequest.memory req) = k ->
    names_memory k vk_op.FREE_MEMORY body.

Inductive names_pool (k : Z * Z) : Z -> list byte -> Prop :=
| names_pool_allocate body req :
    vk.AllocateCommandBufferRequest.decode body = Ok req ->
    key (vk.AllocateCommandBufferRequest.pool req) = k ->
    names_pool k vk_op.ALLOCATE_COMMAND_BUFFER body
| names_pool_destroy body req :
    vk.DestroyCommandPoolRequest.decode body = Ok req ->
    key (vk.DestroyCommandPoolRequest.pool req) = k ->
    names_pool k vk_op.DESTROY_COMMAND_POOL body.

(** Refused with [UnknownOpcode], the state unchanged. *)
Definition refused (opcode rid : Z) (body : list byte) (s : t) : Prop :=
  VulkanBackend.handle opcode rid body s = Ret (s, Err (UnknownOpcode opcode)).

(** Run a handler whose outcome is decided by what is known of its steps. *)
Lemma get_key_None {T} (tab : HandleTable.t T) h h' :
  key h = key h' -> HandleTable.get h' tab = None -> HandleTable.get h tab = None.
Proof. intros Hk. by rewrite !HandleTable.get_lookup, Hk. Qed.

Lemma table_remove_None {T} (l : Lens t (HandleTable.t T)) h s :
  HandleTable.get h (view l s) = None -> Table.remove l h s = Ret (s, Ok None).
Proof.
  unfold Table.remove, HandleTable.remove, HandleTable.get. intros Hg.
  destruct (HandleTable.slots _ !! _) as [slot|]; cbn in *; [|by rewrite set_view].
  case_decide; cbn; [by rewrite set_view|]. rewrite Hg. cbn. by rewrite set_view.
Qed.

(** A refusal is a weakest precondition. *)
Definition refuses (opcode : Z) (s s' : t) (r : presult (list byte)) : Prop :=
  s' = s /\ r = Err (UnknownOpcode opcode).

Lemma refused_wp opcode rid body s m :
  VulkanBackend.handle opcode rid body = m -> wp m s (refuses opcode s) ->
  refused opcode rid body s.
Proof. intros <- (s' & r & E & -> & ->). exact E. Qed.

Lemma wp_decoded {A B} (d : list byte -> presult A) body req (k : A -> M t B) s Q :
  d body = Ok req -> wp (k req) s Q -> wp (attempt (d body) ≫= k) s Q.
Proof. intros E Hk. apply wp_bind, wp_attempt. by rewrite E. Qed.

Lemma wp_remove_None {T B} (l : Lens t (HandleTable.t T)) h (k : option T -> M t B) s Q :
  HandleTable.get h (view l s) = None -> wp (k None) s Q ->
  wp (Table.remove l h ≫= k) s Q.
Proof.
  intros E Hk. apply wp_bind. do 2 eexists. split; [by apply table_remove_None|done].
Qed.

Ltac wp_refuse := apply wp_throw; by split.

Section refusals.
Context (rid : Z) (s : t).

Lemma bind_buffer_refused body req :
  vk.BindBufferMemoryRequest.decode body = Ok req ->
  (forall b, HandleTable.get (vk.BindBufferMemoryRequest.buffer req) (buffers s) = Some b ->
     is_bound b) ->
  refused vk_op.BIND_BUFFER_MEMORY rid body s.
Proof.
  intros E Hb. eapply refused_wp; [apply handle_bind|]. unfold bind_buffer_memory.
  eapply wp_decoded; [exact E|]. do 2 wp_step.
  destruct (HandleTable.get (vk.BindBufferMemoryRequest.memory req) _); [|wp_refuse].
  apply wp_bind. eexists s, _. split; [reflexivity|]. cbv beta iota. do 2 wp_step.
  pose proof (HandleTable.get_mut_spec (vk.BindBufferMemoryRequest.buffer req) (buffers s))
    as Hm. cbn [view Field.buffers].
  destruct (HandleTable.get_mut _ _) as [[b write]|]; [|by split].
  destruct Hm as [Hg _]. destruct (Hb b Hg) as [x Hx]. cbn. rewrite Hx. by split.
Qed.

Lemma buffer_refused k op body :
  names_buffer k op body -> (forall h, key h = k -> HandleTable.get h (buffers s) = None) ->
  refused op rid body s.
Proof.
  intros Hn Hdead. destruct Hn as [body req E Hk|body req E Hk|body req E Hk|body req E Hk].
  - eapply bind_buffer_refused; [done|]. intros b. by rewrite (Hdead _ Hk).
  - eapply refused_wp; [apply handle_copy|]. eapply wp_decoded; [exact E|]. do 4 wp_step.
    cbn [view Field.buffers]. rewrite (Hdead _ Hk). wp_refuse.
  - eapply refused_wp; [apply handle_copy|]. eapply wp_decoded; [exact E|]. do 4 wp_step.
    cbn [view Field.buffers]. rewrite (Hdead _ Hk).
    destruct (HandleTable.get _ _); wp_refuse.
  - eapply refused_wp; [apply handle_destroy_buffer|]. eapply wp_decoded; [exact E|].
    apply wp_remove_None; [apply (Hdead _ Hk)|wp_refuse].
Qed.

Lemma memory_refused k op body :
  names_memory k op body -> (forall h, key h = k -> HandleTable.get h (memories s) = None) ->
  refused op rid body s.
Proof.
  intros Hn Hdead. destruct Hn as [body req E Hk|body req E Hk].
  - eapply refused_wp; [apply handle_bind|]. eapply wp_decoded; [exact E|]. do 2 wp_step.
    cbn [view Field.memories]. rewrite (Hdead _ Hk). wp_refuse.
  - eapply refused_wp; [apply handle_free_memory|]. eapply wp_decoded; [exact E|].
    apply wp_remove_None; [apply (Hdead _ Hk)|wp_refuse].
Qed.

Lemma pool_refused k op body :
  names_pool k op body ->
  (forall h, key h = k -> HandleTable.get h (command_pools s) = None) ->
  refused op rid body s.
Proof.
  intros Hn Hdead. destruct Hn as [body req E Hk|body req E Hk].
  - eapply refused_wp; [apply handle_allocate_command_buffer|].
    eapply wp_decoded; [exact E|]. do 2 wp_step.
    cbn [view Field.command_pools]. rewrite (Hdead _ Hk). wp_refuse.
  - eapply refused_wp; [apply handle_destroy_command_pool|]. eapply wp_decoded; [exact E|].
    apply wp_remove_None; [apply (Hdead _ Hk)|wp_refuse].
Qed.
End refusals.

(** ** Successful destroys and binds *)
Lemma wp_inv {A} (m : M t A) s Q s' r : wp m s Q -> m s = Ret (s', r) -> Q s' r.
Proof. intros (s2 & r2 & E & HQ) E'. rewrite E in E'. by injection E' as <- <-. Qed.

Lemma wp_inv_ok {A} (m : M t A) s s' a (P : t -> Prop) :
  m s = Ret (s', Ok a) -> wp m s (fun s' r => is_ok r = true -> P s') -> P s'.
Proof. intros E Hwp. by apply (wp_inv _ _ _ _ _ Hwp E). Qed.

Section destroys.
Context (n : nat) (rid : Z) (body : list byte) (s s' : t) (out : list byte)
  (Hready : vk_ready (S n) s).

Ltac destroyed :=
  intros E; pose proof Hready as [[] _];
  match goal with |- ?m ?s = _ -> _ => intros Hh end; inv_ok;
  rewrite E in *; simplify_eq; case_match; [|done]; inv_ok;
  match goal with H : Table.remove _ _ _ = _ |- _ =>
    apply remove_Ok_inv in H as [? ?]; [|by apply table_ok_wf with (S n)] end;
  eapply dead_removed; [|eassumption]; by eexists.

Lemma destroy_buffer_dead req :
  vk.DestroyBufferRequest.decode body = Ok req ->
  VulkanBackend.handle vk_op.DESTROY_BUFFER rid body s = Ret (s', Ok out) ->
  dead (vk.DestroyBufferRequest.buffer req) (buffers s').
Proof. rewrite handle_destroy_buffer. unfold destroy_buffer. destroyed. Qed.

Lemma free_memory_dead req :
  vk.FreeMemoryRequest.decode body = Ok req ->
  VulkanBackend.handle vk_op.FREE_MEMORY rid body s = Ret (s', Ok out) ->
  dead (vk.FreeMemoryRequest.memory req) (memories s').
Proof. rewrite handle_free_memory. unfold free_memory. destroyed. Qed.

Lemma destroy_command_pool_dead req :
  vk.DestroyCommandPoolRequest.decode body = Ok req ->
  VulkanBackend.handle vk_op.DESTROY_COMMAND_POOL rid body s = Ret (s', Ok out) ->
  dead (vk.DestroyCommandPoolRequest.pool req) (command_pools s').
Proof. rewrite handle_destroy_command_pool. unfold destroy_command_pool. destroyed. Qed.
End destroys.

(** ** Successful binds *)
Lemma get_written {T} k v (t t' : HandleTable.t T) h :
  written k v t t' -> key h = k -> HandleTable.get h t' = Some v.
Proof.
  intros Hw <-. rewrite HandleTable.get_lookup.
  rewrite (written_lookup _ _ _ _ Hw _ (HandleTable.key_nonneg h)). by rewrite decide_True.
Qed.

Lemma bind_binds n rid body s s' out req :
  vk_ready (S n) s -> vk.BindBufferMemoryRequest.decode body = Ok req ->
  VulkanBackend.handle vk_op.BIND_BUFFER_MEMORY rid body s = Ret (s', Ok out) ->
  exists b, HandleTable.get (vk.BindBufferMemoryRequest.buffer req) (buffers s') = Some b /\
    BufferState.bound b =
      Some (vk.BindBufferMemoryRequest.memory req, vk.BindBufferMemoryRequest.offset req).
Proof.
  intros Hready E. rewrite handle_bind. intros Hh.
  pattern s'. refine (wp_inv_ok _ _ _ _ _ Hh _). cbv beta.
  pose proof Hready as [[] _]. unfold bind_buffer_memory.
  eapply wp_decoded; [exact E|]. do 2 wp_step.
  destruct (HandleTable.get (vk.BindBufferMemoryRequest.memory req) _); [|by wp_step].
  do 2 wp_step; [by do 2 wp_step|]. do 2 wp_step. cbn.
  destruct (BufferState.bound v) eqn:Hb; [done|]. cbn. wp_write. wp_step.
  intros _. eexists. split; [by eapply get_written; [destruct s; exact Hwr|]|done].
Qed.

(** ** Creations

    Creating succeeds when the parent is live, and replies with a handle that
    resolves. *)
Definition replies {A} (encode : A -> list byte -> list byte) (mkr : Handle.t -> A)
    {T} (tab : t -> HandleTable.t T) (v : T) (s s' : t) (r : presult (list byte)) : Prop :=
  exists h, r = Ok (encode (mkr h) []) /\ Handle.wf h /\
    HandleTable.get h (tab s') = Some v.

Ltac creates :=
  match goal with Hready : vk_ready _ _ |- _ => pose proof Hready as [[] []] end;
  eapply wp_decoded; [eassumption|].

Ltac created_new :=
  match goal with Hins : HandleTable.inserted _ _ _ _ ?h |- _ =>
    exists h; split; [reflexivity|]; split; [apply Hins|];
    match goal with s : t |- _ => destruct s end; by eapply get_inserted_new end.

Section creations.
Context (n : nat) (rid : Z) (body : list byte) (s : t) (Hready : vk_ready (S n) s).

Lemma create_instance_creates req :
  vk.CreateInstanceRequest.decode body = Ok req ->
  wp (VulkanBackend.handle vk_op.CREATE_INSTANCE rid body) s
    (replies vk.CreateInstanceResponse.encode vk.CreateInstanceResponse.mk
       instances (InstanceState.mk true) s).
Proof.
  intros E. rewrite handle_create_instance. creates. do 3 wp_step. created_new.
Qed.

Lemma enumerate_creates req :
  vk.EnumeratePhysicalDevicesRequest.decode body = Ok req ->
  resolves (vk.EnumeratePhysicalDevicesRequest.instance req) (instances s) ->
  wp (VulkanBackend.handle vk_op.ENUMERATE_PHYSICAL_DEVICES rid body) s
    (replies vk.EnumeratePhysicalDevicesResponse.encode
       (fun d => vk.EnumeratePhysicalDevicesResponse.mk [d]) physical_devices
       (PhysDevState.mk (vk.EnumeratePhysicalDevicesRequest.instance req)) s).
Proof.
  intros E [i Hi]. rewrite handle_enumerate. creates. do 2 wp_step.
  cbn [view Field.instances]. rewrite Hi.
  assert (created (Some i) = true) as -> by exact (entries_get _ _ _ _ par_instances Hi).
  cbn [negb]. do 3 wp_step. created_new.
Qed.

Lemma create_device_creates req :
  vk.CreateDeviceRequest.decode body = Ok req ->
  resolves (vk.CreateDeviceRequest.physical_device req) (physical_devices s) ->
  wp (VulkanBackend.handle vk_op.CREATE_DEVICE rid body) s
    (replies vk.CreateDeviceResponse.encode vk.CreateDeviceResponse.mk devices
       (DeviceState.mk (vk.CreateDeviceRequest.physical_device req)) s).
Proof.
  intros E [p Hp]. rewrite handle_create_device. creates. do 2 wp_step.
  cbn [view Field.physical_devices]. rewrite Hp. do 3 wp_step. created_new.
Qed.

Lemma create_buffer_creates req :
  vk.CreateBufferRequest.decode body = Ok req ->
  resolves (vk.CreateBufferRequest.device req) (devices s) ->
  wp (VulkanBackend.handle vk_op.CREATE_BUFFER rid body) s
    (replies vk.CreateBufferResponse.encode vk.CreateBufferResponse.mk buffers
       (BufferState.mk (vk.CreateBufferRequest.device req)
          (vk.CreateBufferRequest.size req) (vk.CreateBufferRequest.usage req) None) s).
Proof.
  intros E [d Hd]. rewrite handle_create_buffer. creates. do 2 wp_step.
  cbn [view Field.devices]. rewrite Hd. do 3 wp_step. created_new.
Qed.

Lemma allocate_memory_creates req :
  vk.AllocateMemoryRequest.decode body = Ok req ->
  resolves (vk.AllocateMemoryRequest.device req) (devices s) ->
  wp (VulkanBackend.handle vk_op.ALLOCATE_MEMORY rid body) s
    (replies vk.AllocateMemoryResponse.encode vk.AllocateMemoryResponse.mk memories
       (MemoryState.mk (vk.AllocateMemoryRequest.device req)
          (vk.AllocateMemoryRequest.size req)) s).
Proof.
  intros E [d Hd]. rewrite handle_allocate_memory. creates. do 2 wp_step.
  cbn [view Field.devices]. rewrite Hd. do 3 wp_step. created_new.
Qed.
End creations.

(** ** Properties of every run *)
Lemma vk_run_inv reqs n s s' rs :
  vk_ready (length reqs + n) s -> run reqs s = Ret (s', rs) ->
  vk_ready n s' /\ state_evolves s s'.
Proof.
  intros Hr E. destruct (vk_run _ _ _ Hr) as (s2 & rs2 & E2 & H2 & Hev & _).
  rewrite E in E2. by injection E2 as <- <-.
Qed.

Lemma vk_step_inv n op rid body s s' r :
  vk_ready (S n) s -> VulkanBackend.handle op rid body s = Ret (s', r) ->
  vk_ready n s' /\ state_evolves s s'.
Proof.
  intros Hr E. pose proof (wp_inv _ _ _ _ _ (vk_handle_ok n op rid body s Hr) E) as [[H _] ?].
  done.
Qed.

(** The states the server reaches from a new backend, with [n] requests left. *)
Definition reached (n : nat) (s : t) : Prop :=
  exists reqs rs, run reqs new = Ret (s, rs) /\ Z.of_nat (length reqs + n) <= 2 ^ 32.

Lemma reached_ready n s : reached n s -> vk_ready n s.
Proof.
  intros (reqs & rs & E & Hn). eapply vk_run_inv; [|exact E]. by apply vk_ready_new.
Qed.

(** A request that destroys an object, and the requests that name that object. *)
Inductive destroys : Z -> list byte -> (Z -> list byte -> Prop) -> Prop :=
| destroys_buffer body req :
    vk.DestroyBufferRequest.decode body = Ok req ->
    destroys vk_op.DESTROY_BUFFER body
      (names_buffer (key (vk.DestroyBufferRequest.buffer req)))
| destroys_memory body req :
    vk.FreeMemoryRequest.decode body = Ok req ->
    destroys vk_op.FREE_MEMORY body
      (names_memory (key (vk.FreeMemoryRequest.memory req)))
| destroys_pool body req :
    vk.DestroyCommandPoolRequest.decode body = Ok req ->
    destroys vk_op.DESTROY_COMMAND_POOL body
      (names_pool (key (vk.DestroyCommandPoolRequest.pool req))).

Lemma dead_key {T} (tab : HandleTable.t T) h h' :
  dead h tab -> key h' = key h -> HandleTable.get h' tab = None.
Proof. intros [_ Hd] Hk. by eapply get_key_None. Qed.

(** C3: the Vulkan backend's object graph. Any sequence of up to 2^32 requests
    (arbitrary opcodes and bodies) to a new backend is answered without a panic,
    one result per request, and leaves a state whose tables are well formed, in
    which every object's parents are live and every memory bound to a buffer and
    every pool a command buffer came from was issued by this backend. *)
Theorem vulkan_invariant (reqs : list Request.t) :
  Z.of_nat (length reqs) <= 2 ^ 32 ->
  exists s rs, run reqs new = Ret (s, rs) /\ length rs = length reqs /\
    tables_ok 0 s /\ parents_ok s.
Proof.
  intros Hn. destruct (vk_run reqs 0 new) as (s & rs & E & [Ht Hp] & _ & Hl); [|eauto 6].
  apply vk_ready_new. lia.
Qed.

(** No use after destroy. Once a buffer, a memory or a command pool has been
    destroyed, every later request that names it, after any other requests, is
    refused with [UnknownOpcode] and changes nothing. *)
Theorem vulkan_use_after_destroy reqs s s1 s2 op rid body names out rs :
  reached (S (length reqs)) s ->
  destroys op body names -> VulkanBackend.handle op rid body s = Ret (s1, Ok out) ->
  run reqs s1 = Ret (s2, rs) ->
  forall op' rid' body', names op' body' -> refused op' rid' body' s2.
Proof.
  intros Hr%reached_ready Hd Hh Hrun op' rid' body' Hn.
  assert (vk_ready (S (length reqs + 0)) s) as Hr0 by (by rewrite Nat.add_0_r).
  destruct (vk_step_inv _ _ _ _ _ _ _ Hr0 Hh) as [Hr1 _].
  destruct (vk_run_inv _ _ _ _ _ Hr1 Hrun) as [_ [_ _ _ _ _ Hmem Hbuf Hpool _]].
  destruct Hd as [body req E|body req E|body req E].
  - eapply buffer_refused; [exact Hn|]. intros h Hk. eapply dead_key; [|exact Hk].
    eapply dead_evolves; [exact Hbuf|]. by eapply destroy_buffer_dead.
  - eapply memory_refused; [exact Hn|]. intros h Hk. eapply dead_key; [|exact Hk].
    eapply dead_evolves; [exact Hmem|]. by eapply free_memory_dead.
  - eapply pool_refused; [exact Hn|]. intros h Hk. eapply dead_key; [|exact Hk].
    eapply dead_evolves; [exact Hpool|]. by eapply destroy_command_pool_dead.
Qed.

(** A buffer is bound at most once. After a successful BIND_BUFFER_MEMORY
    every later bind of the same buffer, after any other requests (its
    destruction included), is refused and changes nothing. *)
Theorem vulkan_bind_once reqs s s1 s2 rid body req out rs :
  reached (S (length reqs)) s ->
  vk.BindBufferMemoryRequest.decode body = Ok req ->
  VulkanBackend.handle vk_op.BIND_BUFFER_MEMORY rid body s = Ret (s1, Ok out) ->
  run reqs s1 = Ret (s2, rs) ->
  forall rid' body' req', vk.BindBufferMemoryRequest.decode body' = Ok req' ->
    key (vk.BindBufferMemoryRequest.buffer req') =
      key (vk.BindBufferMemoryRequest.buffer req) ->
    refused vk_op.BIND_BUFFER_MEMORY rid' body' s2.
Proof.
  intros Hr%reached_ready E Hh Hrun rid' body' req' E' Hk.
  assert (vk_ready (S (length reqs + 0)) s) as Hr0 by (by rewrite Nat.add_0_r).
  destruct (vk_step_inv _ _ _ _ _ _ _ Hr0 Hh) as [Hr1 _].
  destruct (vk_run_inv _ _ _ _ _ Hr1 Hrun) as [_ Hev].
  destruct (bind_binds _ _ _ _ _ _ _ Hr0 E Hh) as (b & Hb & Hbound).
  eapply bind_buffer_refused; [exact E'|]. intros b' Hb'.
  rewrite HandleTable.get_lookup, Hk, <- HandleTable.get_lookup in Hb'.
  eapply (ev_bound _ _ Hev); [exact Hb| |exact Hb']. unfold is_bound. rewrite Hbound. eauto.
Qed.

(** What a client creates stays usable. The create chain instance, physical
    device, device, buffer succeeds at every step with the handle of the reply
    before, whatever requests are served between the steps, and the buffer is
    created with the requested size and usage, unbound. *)
Theorem vulkan_create_chain reqs1 reqs2 reqs3 s version size usage rid :
  reached (S (length reqs1 + S (length reqs2 + S (length reqs3 + 1)))) s ->
  fits 32 version -> fits 64 size -> fits 32 usage ->
  exists s1 i,
    VulkanBackend.handle vk_op.CREATE_INSTANCE rid
      (vk.CreateInstanceRequest.encode (vk.CreateInstanceRequest.mk version) []) s =
      Ret (s1, Ok (vk.CreateInstanceResponse.encode (vk.CreateInstanceResponse.mk i) [])) /\
  forall s1' rs1, run reqs1 s1 = Ret (s1', rs1) -> exists s2 p,
    VulkanBackend.handle vk_op.ENUMERATE_PHYSICAL_DEVICES rid
      (vk.EnumeratePhysicalDevicesRequest.encode
         (vk.EnumeratePhysicalDevicesRequest.mk i) []) s1' =
      Ret (s2, Ok (vk.EnumeratePhysicalDevicesResponse.encode
        (vk.EnumeratePhysicalDevicesResponse.mk [p]) [])) /\
  forall s2' rs2, run reqs2 s2 = Ret (s2', rs2) -> exists s3 d,
    VulkanBackend.handle vk_op.CREATE_DEVICE rid
      (vk.CreateDeviceRequest.encode (vk.CreateDeviceRequest.mk p) []) s2' =
      Ret (s3, Ok (vk.CreateDeviceResponse.encode (vk.CreateDeviceResponse.mk d) [])) /\
  forall s3' rs3, run reqs3 s3 = Ret (s3', rs3) -> exists s4 b,
    VulkanBackend.handle vk_op.CREATE_BUFFER rid
      (vk.CreateBufferRequest.encode (vk.CreateBufferRequest.mk d size usage) []) s3' =
      Ret (s4, Ok (vk.CreateBufferResponse.encode (vk.CreateBufferResponse.mk b) [])) /\
    HandleTable.get b (buffers s4) = Some (BufferState.mk d size usage None).
Proof.
  intros Hr%reached_ready Hv Hsize Husage.
  destruct (create_instance_creates _ rid _ s Hr _
    (fixed_encode_decode vk.vk_CreateInstanceRequest_fixed (vk.CreateInstanceRequest.mk version) Hv))
    as (s1 & r1 & E1 & i & -> & Hiwf & Hi).
  exists s1, i. split; [exact E1|]. intros s1' rs1 Hrun1.
  destruct (vk_step_inv _ _ _ _ _ _ _ Hr E1) as [Hr1 _].
  destruct (vk_run_inv _ _ _ _ _ Hr1 Hrun1) as [Hr1' Hev1].
  destruct (enumerate_creates _ rid _ s1' Hr1' _
    (fixed_encode_decode vk.vk_EnumeratePhysicalDevicesRequest_fixed
       (vk.EnumeratePhysicalDevicesRequest.mk i) Hiwf))
    as (s2 & r2 & E2 & p & -> & Hpwf & Hp).
  { eapply resolves_grows; [apply Hev1|by eexists]. }
  exists s2, p. split; [exact E2|]. intros s2' rs2 Hrun2.
  destruct (vk_step_inv _ _ _ _ _ _ _ Hr1' E2) as [Hr2 _].
  destruct (vk_run_inv _ _ _ _ _ Hr2 Hrun2) as [Hr2' Hev2].
  destruct (create_device_creates _ rid _ s2' Hr2' _
    (fixed_encode_decode vk.vk_CreateDeviceRequest_fixed (vk.CreateDeviceRequest.mk p) Hpwf))
    as (s3 & r3 & E3 & d & -> & Hdwf & Hd).
  { eapply resolves_grows; [apply Hev2|by eexists]. }
  exists s3, d. split; [exact E3|]. intros s3' rs3 Hrun3.
  destruct (vk_step_inv _ _ _ _ _ _ _ Hr2' E3) as [Hr3 _].
  destruct (vk_run_inv _ _ _ _ _ Hr3 Hrun3) as [Hr3' Hev3].
  destruct (create_buffer_creates _ rid _ s3' Hr3' _
    (fixed_encode_decode vk.vk_CreateBufferRequest_fixed
       (vk.CreateBufferRequest.mk d size usage) (conj Hdwf (conj Hsize Husage))))
    as (s4 & r4 & E4 & b & -> & Hbwf & Hb).
  { eapply resolves_grows; [apply Hev3|by eexists]. }
  exists s4, b. by split.
Qed.

(** ** Witnesses *)
Section witnesses.

Definition req (op : Z) (body : list byte) : Request.t := Request.mk op 1 body.

(** An instance, a device, a memory and a buffer. *)
Definition demo_reqs : list Request.t := [
  req vk_op.CREATE_INSTANCE
    (vk.CreateInstanceRequest.encode (vk.CreateInstanceRequest.mk 7) []);
  req vk_op.ENUMERATE_PHYSICAL_DEVICES
    (vk.EnumeratePhysicalDevicesRequest.encode
       (vk.EnumeratePhysicalDevicesRequest.mk (Handle.new 1 0 0)) []);
  req vk_op.CREATE_DEVICE
    (vk.CreateDeviceRequest.encode (vk.CreateDeviceRequest.mk (Handle.new 2 0 0)) []);
  req vk_op.ALLOCATE_MEMORY
    (vk.AllocateMemoryRequest.encode (vk.AllocateMemoryRequest.mk (Handle.new 3 0 0) 64) []);
  req vk_op.CREATE_BUFFER
    (vk.CreateBufferRequest.encode (vk.CreateBufferRequest.mk (Handle.new 3 0 0) 64 1) [])].

Definition demo_state : t :=
  match run demo_reqs new with Ret (s, _) => s | Panic => new end.

Lemma demo_reached n : Z.of_nat (5 + n) <= 2 ^ 32 -> reached n demo_state.
Proof. intros Hn. exists demo_reqs. eexists. split; [vm_compute; reflexivity|exact Hn]. Qed.

Definition demo_bind_req : vk.BindBufferMemoryRequest.t :=
  vk.BindBufferMemoryRequest.mk (Handle.new 6 0 0) (Handle.new 5 0 0) 0.

Definition demo_bind : list byte := vk.BindBufferMemoryRequest.encode demo_bind_req [].

Definition demo_destroy : list byte :=
  vk.DestroyBufferRequest.encode (vk.DestroyBufferRequest.mk (Handle.new 6 0 0)) [].

Lemma vulkan_invariant_witness :
  exists s rs, run demo_reqs new = Ret (s, rs) /\ length rs = length demo_reqs /\
    tables_ok 0 s /\ parents_ok s.
Proof. apply (vulkan_invariant demo_reqs). cbn. lia. Defined.

Lemma vulkan_use_after_destroy_witness :
  exists s1, VulkanBackend.handle vk_op.DESTROY_BUFFER 1 demo_destroy demo_state =
      Ret (s1, Ok []) /\
    exists s2 rs, run [req vk_op.CMD_DRAW []] s1 = Ret (s2, rs) /\
      refused vk_op.BIND_BUFFER_MEMORY 2 demo_bind s2.
Proof.
  eexists. split; [vm_compute; reflexivity|].
  do 2 eexists. split; [vm_compute; reflexivity|].
  eapply (vulkan_use_after_destroy [req vk_op.CMD_DRAW []] demo_state _ _
    vk_op.DESTROY_BUFFER 1 demo_destroy).
  - apply demo_reached. cbn. lia.
  - apply (destroys_buffer _ (vk.DestroyBufferRequest.mk (Handle.new 6 0 0))).
    vm_compute; reflexivity.
  - vm_compute; reflexivity.
  - vm_compute; reflexivity.
  - apply (names_buffer_bind _ _ demo_bind_req); vm_compute; reflexivity.
Defined.

Lemma vulkan_bind_once_witness :
  exists s1, VulkanBackend.handle vk_op.BIND_BUFFER_MEMORY 1 demo_bind demo_state =
      Ret (s1, Ok []) /\
    exists s2 rs, run demo_reqs s1 = Ret (s2, rs) /\
      refused vk_op.BIND_BUFFER_MEMORY 2 demo_bind s2.
Proof.
  eexists. split; [vm_compute; reflexivity|].
  do 2 eexists. split; [vm_compute; reflexivity|].
  eapply vulkan_bind_once with (reqs := demo_reqs) (s := demo_state) (rid := 1)
    (body := demo_bind) (req := demo_bind_req) (req' := demo_bind_req).
  - apply demo_reached. cbn. lia.
  - vm_compute; reflexivity.
  - vm_compute; reflexivity.
  - vm_compute; reflexivity.
  - vm_compute; reflexivity.
  - vm_compute; reflexivity.
Defined.

Lemma vulkan_create_chain_witness :
  exists s1 i, VulkanBackend.handle vk_op.CREATE_INSTANCE 1
      (vk.CreateInstanceRequest.encode (vk.CreateInstanceRequest.mk 7) []) demo_state =
      Ret (s1, Ok (vk.CreateInstanceResponse.encode (vk.CreateInstanceResponse.mk i) [])).
Proof.
  destruct (vulkan_create_chain demo_reqs [] [] demo_state 7 16 1 1)
    as (s1 & i & E & _).
  - apply demo_reached. cbn. lia.
  - unfold fits; lia.
  - unfold fits; lia.
  - unfold fits; lia.
  - by exists s1, i.
Defined.
End witnesses.
