(* ===== verification/ApiBackends.v ===== *)
(** The ten other backends (crates/graftx-server/src/*_backend.rs), one Module
    each: the object states, the handle tables, one definition per arm of
    [handle], the dispatch, and the proof that the backend meets the [Backend]
    interface. [ready] says that the tables are well formed and that the objects'
    parents are live (for OptiX, whose contexts can be destroyed, issued). *)
From S2P Require Import Wire ApiBodies Codecs Contract Handles HandleSpec Effects.
From S2P Require Import Backend.

Local Open Scope Z_scope.

(** The two ends of a handler. *)
Lemma handled_error {B} `{Backend B} (ready : B -> Prop) opcode b e :
  ready b -> e = UnknownOpcode opcode \/ e = UnexpectedEof ->
  handled ready opcode b b (Err e).
Proof. by split. Qed.

Lemma handled_ok {B} `{Backend B} (ready : B -> Prop) opcode b b' out :
  ready b' -> api b' = api b -> (length out <= MAX_REPLY)%nat -> conforms opcode out ->
  handled ready opcode b b' (Ok out).
Proof. by repeat split. Qed.

(** The reply of a handler has the shape of its opcode: an integer in a reply was
    in the table or was decoded. *)
Ltac reply_conforms :=
  subst; solve_conforms; cbn in *;
  try first
  [ match goal with
    | He : entries _ ?t, Hg : HandleTable.get _ ?t = Some _ |- _ =>
      by apply (entries_get _ _ _ _ He Hg)
    end
  | match goal with
    | Hd : amf.EncodeFrameRequest.decode _ = Ok _ |- _ =>
      by destruct (fixed_decode_encode amf.amf_EncodeFrameRequest_fixed _ _ Hd) as [[] _]
    end ].

Ltac reply_short :=
  cbn [length]; first [unfold MAX_REPLY; lia | rewrite encode_length; unfold MAX_REPLY; lia].

(** Run a handler to its ends, splitting on what its steps find. *)
Ltac run_handler :=
  repeat first
  [ progress cbv beta iota
  | wp_write
  | wp_step
  | match goal with
    | |- wp (if negb (_ (HandleTable.get ?h ?t)) then _ else _) _ _ =>
        destruct (HandleTable.get h t) eqn:?; cbn
    | |- wp (match HandleTable.get ?h ?t with _ => _ end) _ _ =>
        destruct (HandleTable.get h t) eqn:?
    | |- wp (if negb ?c then _ else _) _ _ => destruct c eqn:?; cbn [negb]
    end ].

(** One component of the invariant after a request. *)
Ltac solve_component :=
  first
  [ assumption
  | solve [eauto with graftx]
  | solve_entries; cbn; intros;
    first
    [ done
    | solve [eauto with graftx]
    | apply saturating_add_fits; [lia| |lia];
      match goal with
      | He : entries _ ?t, Hg : HandleTable.get _ ?t = Some _ |- _ =>
        by apply (entries_get _ _ _ _ He Hg)
      end ] ].

Ltac split_conj := repeat match goal with |- _ /\ _ => split end.

(** ** OpenGL *)
Module GlBackend.

Definition KIND_GL_CONTEXT : Z := 10.
Definition KIND_GL_BUFFER : Z := 11.

Module CtxState.
Record t := mk { created : bool }.
End CtxState.

Module BufState.
Record t := mk { context : Handle.t }.
End BufState.

Record t := mk {
  contexts : HandleTable.t CtxState.t;
  buffers : HandleTable.t BufState.t }.

Definition new : t := mk HandleTable.new HandleTable.new.

Module Field.
Definition contexts : Lens t _ :=
  mkLens contexts (fun x '(mk _ x1) => mk x x1)
    ltac:(by intros []) ltac:(by intros ? []).
Definition buffers : Lens t _ :=
  mkLens buffers (fun x '(mk x0 _) => mk x0 x)
    ltac:(by intros []) ltac:(by intros ? []).
End Field.

Definition api (self : t) : ApiId := OpenGl.

(** [state.is_some_and(|state| state.created)] *)
Definition created (state : option CtxState.t) : bool :=
  match state with Some state => CtxState.created state | None => false end.

Definition create_context (opcode : Z) (body : list byte) : M t (list byte) :=
  context ← Table.insert Field.contexts KIND_GL_CONTEXT (CtxState.mk true);
  mret (gl.CreateContextResponse.encode (gl.CreateContextResponse.mk context) []).

Definition make_current (opcode : Z) (body : list byte) : M t (list byte) :=
  req ← attempt (gl.MakeCurrentRequest.decode body);
  state ← Table.get Field.contexts (gl.MakeCurrentRequest.context req);
  if negb (created state) then throw (UnknownOpcode opcode) else mret [].

Definition gen_buffer (opcode : Z) (body : list byte) : M t (list byte) :=
  req ← attempt (gl.GenBufferRequest.decode body);
  state ← Table.get Field.contexts (gl.GenBufferRequest.context req);
  if negb (created state) then throw (UnknownOpcode opcode)
  else
    buffer ← Table.insert Field.buffers KIND_GL_BUFFER
      (BufState.mk (gl.GenBufferRequest.context req));
    mret (gl.GenBufferResponse.encode (gl.GenBufferResponse.mk buffer) []).

Definition swap_buffers (opcode : Z) (body : list byte) : M t (list byte) :=
  req ← attempt (gl.SwapBuffersRequest.decode body);
  state ← Table.get Field.contexts (gl.SwapBuffersRequest.context req);
  if negb (created state) then throw (UnknownOpcode opcode) else mret [].

Definition delete_buffer (opcode : Z) (body : list byte) : M t (list byte) :=
  req ← attempt (gl.DeleteBufferRequest.decode body);
  removed ← Table.remove Field.buffers (gl.DeleteBufferRequest.buffer req);
  match removed with
  | None => throw (UnknownOpcode opcode)
  | Some _ => mret []
  end.

Definition handle (opcode _req_id : Z) (body : list byte) : M t (list byte) :=
  if decide (opcode_api opcode <> api_byte OpenGl) then throw (UnknownOpcode opcode)
  else if decide (opcode = gl_op.CREATE_CONTEXT) then create_context opcode body
  else if decide (opcode = gl_op.MAKE_CURRENT) then make_current opcode body
  else if decide (opcode = gl_op.GEN_BUFFER) then gen_buffer opcode body
  else if decide (opcode = gl_op.SWAP_BUFFERS) then swap_buffers opcode body
  else if decide (opcode = gl_op.DELETE_BUFFER) then delete_buffer opcode body
  else throw (UnknownOpcode opcode).

#[global] Instance backend : Backend t :=
  {| Backend.api := api; Backend.handle := handle |}.

Definition inv (n : nat) (s : t) : Prop :=
  table_ok n (contexts s) /\
  table_ok n (buffers s) /\
  entries (fun c => CtxState.created c = true) (contexts s) /\
  entries (fun b => resolves (BufState.context b) (contexts s)) (buffers s).

Lemma gl_inv_S n s : inv (S n) s -> inv n s.
Proof. unfold inv. intuition auto with graftx. Qed.

Lemma gl_inv_new n : Z.of_nat n <= 2 ^ 32 -> inv n new.
Proof.
  intros Hn. unfold inv. cbn. intuition auto using table_ok_new, entries_new.
Qed.

Lemma gl_handle_ok n opcode rid body s :
  inv (S n) s -> wp (handle opcode rid body) s (handled (inv n) opcode s).
Proof.
  intros Hs. pose proof (gl_inv_S _ _ Hs) as Hs'. pose proof Hs as Hs0. unfold inv in Hs0.
  split_hyps. unfold handle.
  repeat (case_decide; [unfold create_context, make_current, gen_buffer, swap_buffers, delete_buffer; run_handler|]);
    try (apply wp_throw); try (apply handled_error; [exact Hs'|by auto]);
    (apply handled_ok; [|reflexivity|reply_short|reply_conforms]);
    destruct s; unfold inv; cbn in *; split_conj; solve_component.
Qed.

#[global] Program Instance laws : BackendLaws t := {| ready := inv; ready_S := gl_inv_S |}.
Next Obligation. intros. by apply gl_handle_ok. Qed.
Next Obligation. intros. cbn. unfold handle. by rewrite decide_True. Qed.

End GlBackend.

(** ** CUDA *)
Module CudaBackend.

Definition KIND_CUDA_CONTEXT : Z := 20.
Definition KIND_CUDA_DEVICE_PTR : Z := 21.

Module CudaCtxState.
Record t := mk { device_ordinal : Z }.
End CudaCtxState.

Module CudaMemState.
Record t := mk { context : Handle.t; size : Z }.
End CudaMemState.

Record t := mk {
  contexts : HandleTable.t CudaCtxState.t;
  allocations : HandleTable.t CudaMemState.t }.

Definition new : t := mk HandleTable.new HandleTable.new.

Module Field.
Definition contexts : Lens t _ :=
  mkLens contexts (fun x '(mk _ x1) => mk x x1)
    ltac:(by intros []) ltac:(by intros ? []).
Definition allocations : Lens t _ :=
  mkLens allocations (fun x '(mk x0 _) => mk x0 x)
    ltac:(by intros []) ltac:(by intros ? []).
End Field.

Definition api (self : t) : ApiId := Cuda.

Definition ctx_create (opcode : Z) (body : list byte) : M t (list byte) :=
  req ← attempt (cuda.CtxCreateRequest.decode body);
  context ← Table.insert Field.contexts KIND_CUDA_CONTEXT
    (CudaCtxState.mk (cuda.CtxCreateRequest.device_ordinal req));
  mret (cuda.CtxCreateResponse.encode (cuda.CtxCreateResponse.mk context) []).

Definition mem_alloc (opcode : Z) (body : list byte) : M t (list byte) :=
  req ← attempt (cuda.MemAllocRequest.decode body);
  state ← Table.get Field.contexts (cuda.MemAllocRequest.context req);
  match state with
  | None => throw (UnknownOpcode opcode)
  | Some _ =>
    dptr ← Table.insert Field.allocations KIND_CUDA_DEVICE_PTR
      (CudaMemState.mk (cuda.MemAllocRequest.context req) (cuda.MemAllocRequest.size req));
    mret (cuda.MemAllocResponse.encode (cuda.MemAllocResponse.mk dptr) [])
  end.

Definition mem_free (opcode : Z) (body : list byte) : M t (list byte) :=
  req ← attempt (cuda.MemFreeRequest.decode body);
  removed ← Table.remove Field.allocations (cuda.MemFreeRequest.dptr req);
  match removed with
  | None => throw (UnknownOpcode opcode)
  | Some _ => mret []
  end.

Definition handle (opcode _req_id : Z) (body : list byte) : M t (list byte) :=
  if decide (opcode_api opcode <> api_byte Cuda) then throw (UnknownOpcode opcode)
  else if decide (opcode = cuda_op.CTX_CREATE) then ctx_create opcode body
  else if decide (opcode = cuda_op.MEM_ALLOC) then mem_alloc opcode body
  else if decide (opcode = cuda_op.MEM_FREE) then mem_free opcode body
  else throw (UnknownOpcode opcode).

#[global] Instance backend : Backend t :=
  {| Backend.api := api; Backend.handle := handle |}.

Definition inv (n : nat) (s : t) : Prop :=
  table_ok n (contexts s) /\
  table_ok n (allocations s) /\
  entries (fun m => resolves (CudaMemState.context m) (contexts s)) (allocations s).

Lemma cuda_inv_S n s : inv (S n) s -> inv n s.
Proof. unfold inv. intuition auto with graftx. Qed.

Lemma cuda_inv_new n : Z.of_nat n <= 2 ^ 32 -> inv n new.
Proof.
  intros Hn. unfold inv. cbn. intuition auto using table_ok_new, entries_new.
Qed.

Lemma cuda_handle_ok n opcode rid body s :
  inv (S n) s -> wp (handle opcode rid body) s (handled (inv n) opcode s).
Proof.
  intros Hs. pose proof (cuda_inv_S _ _ Hs) as Hs'. pose proof Hs as Hs0. unfold inv in Hs0.
  split_hyps. unfold handle.
  repeat (case_decide; [unfold ctx_create, mem_alloc, mem_free; run_handler|]);
    try (apply wp_throw); try (apply handled_error; [exact Hs'|by auto]);
    (apply handled_ok; [|reflexivity|reply_short|reply_conforms]);
    destruct s; unfold inv; cbn in *; split_conj; solve_component.
Qed.

#[global] Program Instance laws : BackendLaws t := {| ready := inv; ready_S := cuda_inv_S |}.
Next Obligation. intros. by apply cuda_handle_ok. Qed.
Next Obligation. intros. cbn. unfold handle. by rewrite decide_True. Qed.

End CudaBackend.

(** ** HIP *)
Module HipBackend.

Definition KIND_HIP_DEVICE_PTR : Z := 30.
Definition KIND_HIP_STREAM : Z := 31.

Module HipMemState.
Record t := mk { size : Z }.
End HipMemState.

Module HipStreamState.
Record t := mk { }.
End HipStreamState.

Record t := mk {
  allocations : HandleTable.t HipMemState.t;
  streams : HandleTable.t HipStreamState.t }.

Definition new : t := mk HandleTable.new HandleTable.new.

Module Field.
Definition allocations : Lens t _ :=
  mkLens allocations (fun x '(mk _ x1) => mk x x1)
    ltac:(by intros []) ltac:(by intros ? []).
Definition streams : Lens t _ :=
  mkLens streams (fun x '(mk x0 _) => mk x0 x)
    ltac:(by intros []) ltac:(by intros ? []).
End Field.

Definition api (self : t) : ApiId := Hip.

Definition malloc (opcode : Z) (body : list byte) : M t (list byte) :=
  req ← attempt (hip.MallocRequest.decode body);
  dptr ← Table.insert Field.allocations KIND_HIP_DEVICE_PTR
    (HipMemState.mk (hip.MallocRequest.size req));
  mret (hip.MallocResponse.encode (hip.MallocResponse.mk dptr) []).

Definition free (opcode : Z) (body : list byte) : M t (list byte) :=
  req ← attempt (hip.FreeRequest.decode body);
  removed ← Table.remove Field.allocations (hip.FreeRequest.dptr req);
  match removed with
  | None => throw (UnknownOpcode opcode)
  | Some _ => mret []
  end.

Definition stream_create (opcode : Z) (body : list byte) : M t (list byte) :=
  stream ← Table.insert Field.streams KIND_HIP_STREAM HipStreamState.mk;
  mret (hip.StreamCreateResponse.encode (hip.StreamCreateResponse.mk stream) []).

Definition handle (opcode _req_id : Z) (body : list byte) : M t (list byte) :=
  if decide (opcode_api opcode <> api_byte Hip) then throw (UnknownOpcode opcode)
  else if decide (opcode = hip_op.MALLOC) then malloc opcode body
  else if decide (opcode = hip_op.FREE) then free opcode body
  else if decide (opcode = hip_op.STREAM_CREATE) then stream_create opcode body
  else throw (UnknownOpcode opcode).

#[global] Instance backend : Backend t :=
  {| Backend.api := api; Backend.handle := handle |}.

Definition inv (n : nat) (s : t) : Prop :=
  table_ok n (allocations s) /\
  table_ok n (streams s).

Lemma hip_inv_S n s : inv (S n) s -> inv n s.
Proof. unfold inv. intuition auto with graftx. Qed.

Lemma hip_inv_new n : Z.of_nat n <= 2 ^ 32 -> inv n new.
Proof.
  intros Hn. unfold inv. cbn. intuition auto using table_ok_new, entries_new.
Qed.

Lemma hip_handle_ok n opcode rid body s :
  inv (S n) s -> wp (handle opcode rid body) s (handled (inv n) opcode s).
Proof.
  intros Hs. pose proof (hip_inv_S _ _ Hs) as Hs'. pose proof Hs as Hs0. unfold inv in Hs0.
  split_hyps. unfold handle.
  repeat (case_decide; [unfold malloc, free, stream_create; run_handler|]);
    try (apply wp_throw); try (apply handled_error; [exact Hs'|by auto]);
    (apply handled_ok; [|reflexivity|reply_short|reply_conforms]);
    destruct s; unfold inv; cbn in *; split_conj; solve_component.
Qed.

#[global] Program Instance laws : BackendLaws t := {| ready := inv; ready_S := hip_inv_S |}.
Next Obligation. intros. by apply hip_handle_ok. Qed.
Next Obligation. intros. cbn. unfold handle. by rewrite decide_True. Qed.

End HipBackend.

(** ** OpenCL *)
Module ClBackend.

Definition KIND_CL_CONTEXT : Z := 40.
Definition KIND_CL_MEM : Z := 41.

Module ClCtxState.
Record t := mk { created : bool }.
End ClCtxState.

Module ClBufState.
Record t := mk { context : Handle.t; size : Z }.
End ClBufState.

Record t := mk {
  contexts : HandleTable.t ClCtxState.t;
  buffers : HandleTable.t ClBufState.t }.

Definition new : t := mk HandleTable.new HandleTable.new.

Module Field.
Definition contexts : Lens t _ :=
  mkLens contexts (fun x '(mk _ x1) => mk x x1)
    ltac:(by intros []) ltac:(by intros ? []).
Definition buffers : Lens t _ :=
  mkLens buffers (fun x '(mk x0 _) => mk x0 x)
    ltac:(by intros []) ltac:(by intros ? []).
End Field.

Definition api (self : t) : ApiId := OpenCl.

Definition create_context (opcode : Z) (body : list byte) : M t (list byte) :=
  context ← Table.insert Field.contexts KIND_CL_CONTEXT (ClCtxState.mk true);
  mret (cl.CreateContextResponse.encode (cl.CreateContextResponse.mk context) []).

Definition create_buffer (opcode : Z) (body : list byte) : M t (list byte) :=
  req ← attempt (cl.CreateBufferRequest.decode body);
  state ← Table.get Field.contexts (cl.CreateBufferRequest.context req);
  match state with
  | None => throw (UnknownOpcode opcode)
  | Some _ =>
    mem ← Table.insert Field.buffers KIND_CL_MEM
      (ClBufState.mk (cl.CreateBufferRequest.context req) (cl.CreateBufferRequest.size req));
    mret (cl.CreateBufferResponse.encode (cl.CreateBufferResponse.mk mem) [])
  end.

Definition release_buffer (opcode : Z) (body : list byte) : M t (list byte) :=
  req ← attempt (cl.ReleaseBufferRequest.decode body);
  removed ← Table.remove Field.buffers (cl.ReleaseBufferRequest.mem req);
  match removed with
  | None => throw (UnknownOpcode opcode)
  | Some _ => mret []
  end.

Definition handle (opcode _req_id : Z) (body : list byte) : M t (list byte) :=
  if decide (opcode_api opcode <> api_byte OpenCl) then throw (UnknownOpcode opcode)
  else if decide (opcode = cl_op.CREATE_CONTEXT) then create_context opcode body
  else if decide (opcode = cl_op.CREATE_BUFFER) then create_buffer opcode body
  else if decide (opcode = cl_op.RELEASE_BUFFER) then release_buffer opcode body
  else throw (UnknownOpcode opcode).

#[global] Instance backend : Backend t :=
  {| Backend.api := api; Backend.handle := handle |}.

Definition inv (n : nat) (s : t) : Prop :=
  table_ok n (contexts s) /\
  table_ok n (buffers s) /\
  entries (fun b => resolves (ClBufState.context b) (contexts s)) (buffers s).

Lemma cl_inv_S n s : inv (S n) s -> inv n s.
Proof. unfold inv. intuition auto with graftx. Qed.

Lemma cl_inv_new n : Z.of_nat n <= 2 ^ 32 -> inv n new.
Proof.
  intros Hn. unfold inv. cbn. intuition auto using table_ok_new, entries_new.
Qed.

Lemma cl_handle_ok n opcode rid body s :
  inv (S n) s -> wp (handle opcode rid body) s (handled (inv n) opcode s).
Proof.
  intros Hs. pose proof (cl_inv_S _ _ Hs) as Hs'. pose proof Hs as Hs0. unfold inv in Hs0.
  split_hyps. unfold handle.
  repeat (case_decide; [unfold create_context, create_buffer, release_buffer; run_handler|]);
    try (apply wp_throw); try (apply handled_error; [exact Hs'|by auto]);
    (apply handled_ok; [|reflexivity|reply_short|reply_conforms]);
    destruct s; unfold inv; cbn in *; split_conj; solve_component.
Qed.

#[global] Program Instance laws : BackendLaws t := {| ready := inv; ready_S := cl_inv_S |}.
Next Obligation. intros. by apply cl_handle_ok. Qed.
Next Obligation. intros. cbn. unfold handle. by rewrite decide_True. Qed.

End ClBackend.

(** ** Level Zero *)
Module L0Backend.

Definition KIND_L0_CONTEXT : Z := 50.
Definition KIND_L0_DEVICE_MEM : Z := 51.

Module L0CtxState.
Record t := mk { created : bool }.
End L0CtxState.

Module L0MemState.
Record t := mk { context : Handle.t; size : Z }.
End L0MemState.

Record t := mk {
  contexts : HandleTable.t L0CtxState.t;
  mems : HandleTable.t L0MemState.t }.

Definition new : t := mk HandleTable.new HandleTable.new.

Module Field.
Definition contexts : Lens t _ :=
  mkLens contexts (fun x '(mk _ x1) => mk x x1)
    ltac:(by intros []) ltac:(by intros ? []).
Definition mems : Lens t _ :=
  mkLens mems (fun x '(mk x0 _) => mk x0 x)
    ltac:(by intros []) ltac:(by intros ? []).
End Field.

Definition api (self : t) : ApiId := LevelZero.

Definition context_create (opcode : Z) (body : list byte) : M t (list byte) :=
  context ← Table.insert Field.contexts KIND_L0_CONTEXT (L0CtxState.mk true);
  mret (l0.ContextCreateResponse.encode (l0.ContextCreateResponse.mk context) []).

Definition mem_alloc_device (opcode : Z) (body : list byte) : M t (list byte) :=
  req ← attempt (l0.MemAllocDeviceRequest.decode body);
  state ← Table.get Field.contexts (l0.MemAllocDeviceRequest.context req);
  match state with
  | None => throw (UnknownOpcode opcode)
  | Some _ =>
    ptr ← Table.insert Field.mems KIND_L0_DEVICE_MEM
      (L0MemState.mk (l0.MemAllocDeviceRequest.context req)
        (l0.MemAllocDeviceRequest.size req));
    mret (l0.MemAllocDeviceResponse.encode (l0.MemAllocDeviceResponse.mk ptr) [])
  end.

Definition mem_free (opcode : Z) (body : list byte) : M t (list byte) :=
  req ← attempt (l0.MemFreeRequest.decode body);
  removed ← Table.remove Field.mems (l0.MemFreeRequest.ptr req);
  match removed with
  | None => throw (UnknownOpcode opcode)
  | Some _ => mret []
  end.

Definition handle (opcode _req_id : Z) (body : list byte) : M t (list byte) :=
  if decide (opcode_api opcode <> api_byte LevelZero) then throw (UnknownOpcode opcode)
  else if decide (opcode = l0_op.CONTEXT_CREATE) then context_create opcode body
  else if decide (opcode = l0_op.MEM_ALLOC_DEVICE) then mem_alloc_device opcode body
  else if decide (opcode = l0_op.MEM_FREE) then mem_free opcode body
  else throw (UnknownOpcode opcode).

#[global] Instance backend : Backend t :=
  {| Backend.api := api; Backend.handle := handle |}.

Definition inv (n : nat) (s : t) : Prop :=
  table_ok n (contexts s) /\
  table_ok n (mems s) /\
  entries (fun m => resolves (L0MemState.context m) (contexts s)) (mems s).

Lemma l0_inv_S n s : inv (S n) s -> inv n s.
Proof. unfold inv. intuition auto with graftx. Qed.

Lemma l0_inv_new n : Z.of_nat n <= 2 ^ 32 -> inv n new.
Proof.
  intros Hn. unfold inv. cbn. intuition auto using table_ok_new, entries_new.
Qed.

Lemma l0_handle_ok n opcode rid body s :
  inv (S n) s -> wp (handle opcode rid body) s (handled (inv n) opcode s).
Proof.
  intros Hs. pose proof (l0_inv_S _ _ Hs) as Hs'. pose proof Hs as Hs0. unfold inv in Hs0.
  split_hyps. unfold handle.
  repeat (case_decide; [unfold context_create, mem_alloc_device, mem_free; run_handler|]);
    try (apply wp_throw); try (apply handled_error; [exact Hs'|by auto]);
    (apply handled_ok; [|reflexivity|reply_short|reply_conforms]);
    destruct s; unfold inv; cbn in *; split_conj; solve_component.
Qed.

#[global] Program Instance laws : BackendLaws t := {| ready := inv; ready_S := l0_inv_S |}.
Next Obligation. intros. by apply l0_handle_ok. Qed.
Next Obligation. intros. cbn. unfold handle. by rewrite decide_True. Qed.

End L0Backend.

(** ** Video decode *)
Module VideoBackend.

Definition KIND_VIDEO_SESSION : Z := 60.

Module VideoSessionState.
Record t := mk { codec : Z; width : Z; height : Z; frames : Z }.
End VideoSessionState.

Record t := mk {
  sessions : HandleTable.t VideoSessionState.t }.

Definition new : t := mk HandleTable.new.

Module Field.
Definition sessions : Lens t _ :=
  mkLens sessions (fun x '(mk _) => mk x)
    ltac:(by intros []) ltac:(by intros ? []).
End Field.

Definition api (self : t) : ApiId := Video.

Definition create_decode_session (opcode : Z) (body : list byte) : M t (list byte) :=
  req ← attempt (video.CreateDecodeSessionRequest.decode body);
  session ← Table.insert Field.sessions KIND_VIDEO_SESSION
    (VideoSessionState.mk (video.CreateDecodeSessionRequest.codec req)
      (video.CreateDecodeSessionRequest.width req)
      (video.CreateDecodeSessionRequest.height req) 0);
  mret (video.CreateDecodeSessionResponse.encode
    (video.CreateDecodeSessionResponse.mk session) []).

Definition decode_frame (opcode : Z) (body : list byte) : M t (list byte) :=
  req ← attempt (video.DecodeFrameRequest.decode body);
  state ← Table.get_mut Field.sessions (video.DecodeFrameRequest.session req);
  match state with
  | None => throw (UnknownOpcode opcode)
  | Some (state, write) =>
    let frame_index := VideoSessionState.frames state in
    write (VideoSessionState.mk (VideoSessionState.codec state)
      (VideoSessionState.width state) (VideoSessionState.height state)
      (saturating_add 32 (VideoSessionState.frames state) 1));;
    mret (video.DecodeFrameResponse.encode (video.DecodeFrameResponse.mk frame_index) [])
  end.

Definition destroy_session (opcode : Z) (body : list byte) : M t (list byte) :=
  req ← attempt (video.DestroySessionRequest.decode body);
  removed ← Table.remove Field.sessions (video.DestroySessionRequest.session req);
  match removed with
  | None => throw (UnknownOpcode opcode)
  | Some _ => mret []
  end.

Definition handle (opcode _req_id : Z) (body : list byte) : M t (list byte) :=
  if decide (opcode_api opcode <> api_byte Video) then throw (UnknownOpcode opcode)
  else if decide (opcode = video_op.CREATE_DECODE_SESSION) then create_decode_session opcode body
  else if decide (opcode = video_op.DECODE_FRAME) then decode_frame opcode body
  else if decide (opcode = video_op.DESTROY_SESSION) then destroy_session opcode body
  else throw (UnknownOpcode opcode).

#[global] Instance backend : Backend t :=
  {| Backend.api := api; Backend.handle := handle |}.

Definition inv (n : nat) (s : t) : Prop :=
  table_ok n (sessions s) /\
  entries (fun v => fits 32 (VideoSessionState.frames v)) (sessions s).

Lemma video_inv_S n s : inv (S n) s -> inv n s.
Proof. unfold inv. intuition auto with graftx. Qed.

Lemma video_inv_new n : Z.of_nat n <= 2 ^ 32 -> inv n new.
Proof.
  intros Hn. unfold inv. cbn. intuition auto using table_ok_new, entries_new.
Qed.

Lemma video_handle_ok n opcode rid body s :
  inv (S n) s -> wp (handle opcode rid body) s (handled (inv n) opcode s).
Proof.
  intros Hs. pose proof (video_inv_S _ _ Hs) as Hs'. pose proof Hs as Hs0. unfold inv in Hs0.
  split_hyps. unfold handle.
  repeat (case_decide; [unfold create_decode_session, decode_frame, destroy_session; run_handler|]);
    try (apply wp_throw); try (apply handled_error; [exact Hs'|by auto]);
    (apply handled_ok; [|reflexivity|reply_short|reply_conforms]);
    destruct s; unfold inv; cbn in *; split_conj; solve_component.
Qed.

#[global] Program Instance laws : BackendLaws t := {| ready := inv; ready_S := video_inv_S |}.
Next Obligation. intros. by apply video_handle_ok. Qed.
Next Obligation. intros. cbn. unfold handle. by rewrite decide_True. Qed.

End VideoBackend.

(** ** WebGPU *)
Module WebGpuBackend.

Definition KIND_WGPU_DEVICE : Z := 70.
Definition KIND_WGPU_BUFFER : Z := 71.

Module WgpuDevState.
Record t := mk { }.
End WgpuDevState.

Module WgpuBufState.
Record t := mk { device : Handle.t; size : Z; usage : Z }.
End WgpuBufState.

Record t := mk {
  devices : HandleTable.t WgpuDevState.t;
  buffers : HandleTable.t WgpuBufState.t }.

Definition new : t := mk HandleTable.new HandleTable.new.

Module Field.
Definition devices : Lens t _ :=
  mkLens devices (fun x '(mk _ x1) => mk x x1)
    ltac:(by intros []) ltac:(by intros ? []).
Definition buffers : Lens t _ :=
  mkLens buffers (fun x '(mk x0 _) => mk x0 x)
    ltac:(by intros []) ltac:(by intros ? []).
End Field.

Definition api (self : t) : ApiId := WebGpu.

Definition request_device (opcode : Z) (body : list byte) : M t (list byte) :=
  device ← Table.insert Field.devices KIND_WGPU_DEVICE WgpuDevState.mk;
  mret (wgpu.RequestDeviceResponse.encode (wgpu.RequestDeviceResponse.mk device) []).

Definition create_buffer (opcode : Z) (body : list byte) : M t (list byte) :=
  req ← attempt (wgpu.CreateBufferRequest.decode body);
  state ← Table.get Field.devices (wgpu.CreateBufferRequest.device req);
  match state with
  | None => throw (UnknownOpcode opcode)
  | Some _ =>
    buffer ← Table.insert Field.buffers KIND_WGPU_BUFFER
      (WgpuBufState.mk (wgpu.CreateBufferRequest.device req)
        (wgpu.CreateBufferRequest.size req) (wgpu.CreateBufferRequest.usage req));
    mret (wgpu.CreateBufferResponse.encode (wgpu.CreateBufferResponse.mk buffer) [])
  end.

Definition destroy_buffer (opcode : Z) (body : list byte) : M t (list byte) :=
  req ← attempt (wgpu.DestroyBufferRequest.decode body);
  removed ← Table.remove Field.buffers (wgpu.DestroyBufferRequest.buffer req);
  match removed with
  | None => throw (UnknownOpcode opcode)
  | Some _ => mret []
  end.

Definition handle (opcode _req_id : Z) (body : list byte) : M t (list byte) :=
  if decide (opcode_api opcode <> api_byte WebGpu) then throw (UnknownOpcode opcode)
  else if decide (opcode = wgpu_op.REQUEST_DEVICE) then request_device opcode body
  else if decide (opcode = wgpu_op.CREATE_BUFFER) then create_buffer opcode body
  else if decide (opcode = wgpu_op.DESTROY_BUFFER) then destroy_buffer opcode body
  else throw (UnknownOpcode opcode).

#[global] Instance backend : Backend t :=
  {| Backend.api := api; Backend.handle := handle |}.

Definition inv (n : nat) (s : t) : Prop :=
  table_ok n (devices s) /\
  table_ok n (buffers s) /\
  entries (fun b => resolves (WgpuBufState.device b) (devices s)) (buffers s).

Lemma webgpu_inv_S n s : inv (S n) s -> inv n s.
Proof. unfold inv. intuition auto with graftx. Qed.

Lemma webgpu_inv_new n : Z.of_nat n <= 2 ^ 32 -> inv n new.
Proof.
  intros Hn. unfold inv. cbn. intuition auto using table_ok_new, entries_new.
Qed.

Lemma webgpu_handle_ok n opcode rid body s :
  inv (S n) s -> wp (handle opcode rid body) s (handled (inv n) opcode s).
Proof.
  intros Hs. pose proof (webgpu_inv_S _ _ Hs) as Hs'. pose proof Hs as Hs0. unfold inv in Hs0.
  split_hyps. unfold handle.
  repeat (case_decide; [unfold request_device, create_buffer, destroy_buffer; run_handler|]);
    try (apply wp_throw); try (apply handled_error; [exact Hs'|by auto]);
    (apply handled_ok; [|reflexivity|reply_short|reply_conforms]);
    destruct s; unfold inv; cbn in *; split_conj; solve_component.
Qed.

#[global] Program Instance laws : BackendLaws t := {| ready := inv; ready_S := webgpu_inv_S |}.
Next Obligation. intros. by apply webgpu_handle_ok. Qed.
Next Obligation. intros. cbn. unfold handle. by rewrite decide_True. Qed.

End WebGpuBackend.

(** ** OptiX *)
Module OptixBackend.

Definition KIND_OPTIX_CONTEXT : Z := 80.
Definition KIND_OPTIX_PIPELINE : Z := 81.

Module OptixCtxState.
Record t := mk { created : bool }.
End OptixCtxState.

Module OptixPipelineState.
Record t := mk { context : Handle.t }.
End OptixPipelineState.

Record t := mk {
  contexts : HandleTable.t OptixCtxState.t;
  pipelines : HandleTable.t OptixPipelineState.t }.

Definition new : t := mk HandleTable.new HandleTable.new.

Module Field.
Definition contexts : Lens t _ :=
  mkLens contexts (fun x '(mk _ x1) => mk x x1)
    ltac:(by intros []) ltac:(by intros ? []).
Definition pipelines : Lens t _ :=
  mkLens pipelines (fun x '(mk x0 _) => mk x0 x)
    ltac:(by intros []) ltac:(by intros ? []).
End Field.

Definition api (self : t) : ApiId := OptiX.

Definition context_create (opcode : Z) (body : list byte) : M t (list byte) :=
  context ← Table.insert Field.contexts KIND_OPTIX_CONTEXT (OptixCtxState.mk true);
  mret (optix.ContextCreateResponse.encode (optix.ContextCreateResponse.mk context) []).

Definition pipeline_create (opcode : Z) (body : list byte) : M t (list byte) :=
  req ← attempt (optix.PipelineCreateRequest.decode body);
  state ← Table.get Field.contexts (optix.PipelineCreateRequest.context req);
  match state with
  | None => throw (UnknownOpcode opcode)
  | Some _ =>
    pipeline ← Table.insert Field.pipelines KIND_OPTIX_PIPELINE
      (OptixPipelineState.mk (optix.PipelineCreateRequest.context req));
    mret (optix.PipelineCreateResponse.encode (optix.PipelineCreateResponse.mk pipeline) [])
  end.

Definition destroy (opcode : Z) (body : list byte) : M t (list byte) :=
  req ← attempt (optix.DestroyRequest.decode body);
  pipeline ← Table.remove Field.pipelines (optix.DestroyRequest.handle req);
  match pipeline with
  | Some _ => mret []
  | None =>
    context ← Table.remove Field.contexts (optix.DestroyRequest.handle req);
    match context with
    | Some _ => mret []
    | None => throw (UnknownOpcode opcode)
    end
  end.

Definition handle (opcode _req_id : Z) (body : list byte) : M t (list byte) :=
  if decide (opcode_api opcode <> api_byte OptiX) then throw (UnknownOpcode opcode)
  else if decide (opcode = optix_op.CONTEXT_CREATE) then context_create opcode body
  else if decide (opcode = optix_op.PIPELINE_CREATE) then pipeline_create opcode body
  else if decide (opcode = optix_op.DESTROY) then destroy opcode body
  else throw (UnknownOpcode opcode).

#[global] Instance backend : Backend t :=
  {| Backend.api := api; Backend.handle := handle |}.

Definition inv (n : nat) (s : t) : Prop :=
  table_ok n (contexts s) /\
  table_ok n (pipelines s) /\
  entries (fun p => was_issued (OptixPipelineState.context p) (contexts s)) (pipelines s).

Lemma optix_inv_S n s : inv (S n) s -> inv n s.
Proof. unfold inv. intuition auto with graftx. Qed.

Lemma optix_inv_new n : Z.of_nat n <= 2 ^ 32 -> inv n new.
Proof.
  intros Hn. unfold inv. cbn. intuition auto using table_ok_new, entries_new.
Qed.

Lemma optix_handle_ok n opcode rid body s :
  inv (S n) s -> wp (handle opcode rid body) s (handled (inv n) opcode s).
Proof.
  intros Hs. pose proof (optix_inv_S _ _ Hs) as Hs'. pose proof Hs as Hs0. unfold inv in Hs0.
  split_hyps. unfold handle.
  repeat (case_decide; [unfold context_create, pipeline_create, destroy; run_handler|]);
    try (apply wp_throw); try (apply handled_error; [exact Hs'|by auto]);
    (apply handled_ok; [|reflexivity|reply_short|reply_conforms]);
    destruct s; unfold inv; cbn in *; split_conj; solve_component.
Qed.

#[global] Program Instance laws : BackendLaws t := {| ready := inv; ready_S := optix_inv_S |}.
Next Obligation. intros. by apply optix_handle_ok. Qed.
Next Obligation. intros. cbn. unfold handle. by rewrite decide_True. Qed.

End OptixBackend.

(** ** SYCL *)
Module SyclBackend.

Definition KIND_SYCL_QUEUE : Z := 90.
Definition KIND_SYCL_DEVICE_PTR : Z := 91.

Module SyclQueueState.
Record t := mk { created : bool }.
End SyclQueueState.

Module SyclPtrState.
Record t := mk { queue : Handle.t; size : Z }.
End SyclPtrState.

Record t := mk {
  queues : HandleTable.t SyclQueueState.t;
  ptrs : HandleTable.t SyclPtrState.t }.

Definition new : t := mk HandleTable.new HandleTable.new.

Module Field.
Definition queues : Lens t _ :=
  mkLens queues (fun x '(mk _ x1) => mk x x1)
    ltac:(by intros []) ltac:(by intros ? []).
Definition ptrs : Lens t _ :=
  mkLens ptrs (fun x '(mk x0 _) => mk x0 x)
    ltac:(by intros []) ltac:(by intros ? []).
End Field.

Definition api (self : t) : ApiId := Sycl.

Definition queue_create (opcode : Z) (body : list byte) : M t (list byte) :=
  queue ← Table.insert Field.queues KIND_SYCL_QUEUE (SyclQueueState.mk true);
  mret (sycl.QueueCreateResponse.encode (sycl.QueueCreateResponse.mk queue) []).

Definition malloc_device (opcode : Z) (body : list byte) : M t (list byte) :=
  req ← attempt (sycl.MallocDeviceRequest.decode body);
  state ← Table.get Field.queues (sycl.MallocDeviceRequest.queue req);
  match state with
  | None => throw (UnknownOpcode opcode)
  | Some _ =>
    ptr ← Table.insert Field.ptrs KIND_SYCL_DEVICE_PTR
      (SyclPtrState.mk (sycl.MallocDeviceRequest.queue req)
        (sycl.MallocDeviceRequest.size req));
    mret (sycl.MallocDeviceResponse.encode (sycl.MallocDeviceResponse.mk ptr) [])
  end.

Definition free (opcode : Z) (body : list byte) : M t (list byte) :=
  req ← attempt (sycl.FreeRequest.decode body);
  removed ← Table.remove Field.ptrs (sycl.FreeRequest.ptr req);
  match removed with
  | None => throw (UnknownOpcode opcode)
  | Some _ => mret []
  end.

Definition handle (opcode _req_id : Z) (body : list byte) : M t (list byte) :=
  if decide (opcode_api opcode <> api_byte Sycl) then throw (UnknownOpcode opcode)
  else if decide (opcode = sycl_op.QUEUE_CREATE) then queue_create opcode body
  else if decide (opcode = sycl_op.MALLOC_DEVICE) then malloc_device opcode body
  else if decide (opcode = sycl_op.FREE) then free opcode body
  else throw (UnknownOpcode opcode).

#[global] Instance backend : Backend t :=
  {| Backend.api := api; Backend.handle := handle |}.

Definition inv (n : nat) (s : t) : Prop :=
  table_ok n (queues s) /\
  table_ok n (ptrs s) /\
  entries (fun p => resolves (SyclPtrState.queue p) (queues s)) (ptrs s).

Lemma sycl_inv_S n s : inv (S n) s -> inv n s.
Proof. unfold inv. intuition auto with graftx. Qed.

Lemma sycl_inv_new n : Z.of_nat n <= 2 ^ 32 -> inv n new.
Proof.
  intros Hn. unfold inv. cbn. intuition auto using table_ok_new, entries_new.
Qed.

Lemma sycl_handle_ok n opcode rid body s :
  inv (S n) s -> wp (handle opcode rid body) s (handled (inv n) opcode s).
Proof.
  intros Hs. pose proof (sycl_inv_S _ _ Hs) as Hs'. pose proof Hs as Hs0. unfold inv in Hs0.
  split_hyps. unfold handle.
  repeat (case_decide; [unfold queue_create, malloc_device, free; run_handler|]);
    try (apply wp_throw); try (apply handled_error; [exact Hs'|by auto]);
    (apply handled_ok; [|reflexivity|reply_short|reply_conforms]);
    destruct s; unfold inv; cbn in *; split_conj; solve_component.
Qed.

#[global] Program Instance laws : BackendLaws t := {| ready := inv; ready_S := sycl_inv_S |}.
Next Obligation. intros. by apply sycl_handle_ok. Qed.
Next Obligation. intros. cbn. unfold handle. by rewrite decide_True. Qed.

End SyclBackend.

(** ** AMF encode *)
Module AmfBackend.

Definition KIND_AMF_ENCODER : Z := 100.

Module AmfEncoderState.
Record t := mk { codec : Z; width : Z; height : Z; frames : Z }.
End AmfEncoderState.

Record t := mk {
  encoders : HandleTable.t AmfEncoderState.t }.

Definition new : t := mk HandleTable.new.

Module Field.
Definition encoders : Lens t _ :=
  mkLens encoders (fun x '(mk _) => mk x)
    ltac:(by intros []) ltac:(by intros ? []).
End Field.

Definition api (self : t) : ApiId := Amf.

Definition create_encoder (opcode : Z) (body : list byte) : M t (list byte) :=
  req ← attempt (amf.CreateEncoderRequest.decode body);
  encoder ← Table.insert Field.encoders KIND_AMF_ENCODER
    (AmfEncoderState.mk (amf.CreateEncoderRequest.codec req)
      (amf.CreateEncoderRequest.width req) (amf.CreateEncoderRequest.height req) 0);
  mret (amf.CreateEncoderResponse.encode (amf.CreateEncoderResponse.mk encoder) []).

Definition encode_frame (opcode : Z) (body : list byte) : M t (list byte) :=
  req ← attempt (amf.EncodeFrameRequest.decode body);
  state ← Table.get_mut Field.encoders (amf.EncodeFrameRequest.encoder req);
  match state with
  | None => throw (UnknownOpcode opcode)
  | Some (state, write) =>
    write (AmfEncoderState.mk (AmfEncoderState.codec state)
      (AmfEncoderState.width state) (AmfEncoderState.height state)
      (saturating_add 32 (AmfEncoderState.frames state) 1));;
    mret (amf.EncodeFrameResponse.encode
      (amf.EncodeFrameResponse.mk (amf.EncodeFrameRequest.frame_len req)) [])
  end.

Definition destroy_encoder (opcode : Z) (body : list byte) : M t (list byte) :=
  req ← attempt (amf.DestroyEncoderRequest.decode body);
  removed ← Table.remove Field.encoders (amf.DestroyEncoderRequest.encoder req);
  match removed with
  | None => throw (UnknownOpcode opcode)
  | Some _ => mret []
  end.

Definition handle (opcode _req_id : Z) (body : list byte) : M t (list byte) :=
  if decide (opcode_api opcode <> api_byte Amf) then throw (UnknownOpcode opcode)
  else if decide (opcode = amf_op.CREATE_ENCODER) then create_encoder opcode body
  else if decide (opcode = amf_op.ENCODE_FRAME) then encode_frame opcode body
  else if decide (opcode = amf_op.DESTROY_ENCODER) then destroy_encoder opcode body
  else throw (UnknownOpcode opcode).

#[global] Instance backend : Backend t :=
  {| Backend.api := api; Backend.handle := handle |}.

Definition inv (n : nat) (s : t) : Prop :=
  table_ok n (encoders s) /\
  entries (fun v => fits 32 (AmfEncoderState.frames v)) (encoders s).

Lemma amf_inv_S n s : inv (S n) s -> inv n s.
Proof. unfold inv. intuition auto with graftx. Qed.

Lemma amf_inv_new n : Z.of_nat n <= 2 ^ 32 -> inv n new.
Proof.
  intros Hn. unfold inv. cbn. intuition auto using table_ok_new, entries_new.
Qed.

Lemma amf_handle_ok n opcode rid body s :
  inv (S n) s -> wp (handle opcode rid body) s (handled (inv n) opcode s).
Proof.
  intros Hs. pose proof (amf_inv_S _ _ Hs) as Hs'. pose proof Hs as Hs0. unfold inv in Hs0.
  split_hyps. unfold handle.
  repeat (case_decide; [unfold create_encoder, encode_frame, destroy_encoder; run_handler|]);
    try (apply wp_throw); try (apply handled_error; [exact Hs'|by auto]);
    (apply handled_ok; [|reflexivity|reply_short|reply_conforms]);
    destruct s; unfold inv; cbn in *; split_conj; solve_component.
Qed.

#[global] Program Instance laws : BackendLaws t := {| ready := inv; ready_S := amf_inv_S |}.
Next Obligation. intros. by apply amf_handle_ok. Qed.
Next Obligation. intros. cbn. unfold handle. by rewrite decide_True. Qed.

End AmfBackend.
