(* ===== verification/World.v ===== *)
(** The objects a client manipulates, without the tables: what the server promises.

    A world is a finite map from names to objects and the set of names ever issued. A
    name is a kind, a slot and a generation; an object is the list of its attributes,
    the fields of the struct the server keeps for it. One table says, for each opcode
    of each API, the widths of the request's fields, which objects the request needs,
    and what it does: create an object, destroy one, change one, or nothing. [world_step]
    reads that table. WorldRefine proves that the backends do what it says. *)
From S2P Require Import Wire Handles.
Import HandleTable (key).

Local Open Scope Z_scope.

Definition name : Type := Z * (Z * Z).
Definition object : Type := list Z.

Record world := mkWorld { alive : gmap name object; named : gset name }.

Definition empty_world : world := mkWorld ∅ ∅.

(** The object of a kind that a 64-bit handle names: the kind the handle carries does
    not matter. *)
Definition name_of (kind raw : Z) : name := (kind, key (Handle.from_raw raw)).

Definition is_alive (w : world) (x : name) : bool := bool_decide (is_Some (alive w !! x)).

(** ** Request bodies *)

Inductive width := U32 | U64.

Definition width_bytes (w : width) : nat := match w with U32 => 4 | U64 => 8 end.

(** Little-endian fields of the given widths; what follows them is ignored. *)
Fixpoint read_fields (widths : list width) (body : list byte) : option (list Z) :=
  match widths with
  | [] => Some []
  | w :: widths =>
    let n := width_bytes w in
    if decide (n <= length body)%nat then
      vs ← read_fields widths (drop n body); Some (of_le_bytes (take n body) :: vs)
    else None
  end.

(** ** Rules *)
Inductive effect :=
| Acknowledge
(** A new object of a kind, its attributes made from the fields; [listed] when the
    reply is a list of one handle. *)
| Create (kind : Z) (listed : bool) (attrs : list Z -> object)
(** The object the field names, in the first of the kinds that has one. *)
| Destroy (field : nat) (kinds : list Z)
(** An object the field names changes, if it is in a state to; the answer, if any, is
    made from the fields and the object before the change. *)
| Change (field : nat) (kind : Z) (f : list Z -> object -> option object)
    (answer : list Z -> object -> option Z).

Record rule := mkRule {
  widths : list width;
  needs : list (nat * Z);
  does : effect }.

Definition arg (i : nat) (fields : list Z) : Z := default 0 (fields !! i).

(** The attributes of a buffer are its device, size and usage, and, once it is bound,
    the memory and the offset. *)
Definition bind_memory (fields : list Z) (buffer : object) : option object :=
  match buffer with
  | [device; size; usage] => Some [device; size; usage; arg 1 fields; arg 2 fields]
  | _ => None
  end.

(** A counter, the last attribute, goes up by one and stops at [u32::MAX]. *)
Definition count_up (fields : list Z) (x : object) : option object :=
  match rev x with
  | n :: rest => Some (rev rest ++ [saturating_add 32 n 1])
  | [] => None
  end.

Definition no_answer (fields : list Z) (x : object) : option Z := None.

(** The attribute of an object that is made with its [created] flag set. *)
Definition flag (fields : list Z) : object := [1].

(** An object that counts: its counter starts at zero. *)
Definition counter (fields : list Z) : object := fields ++ [0].

Definition need (field : nat) (kind : Z) : nat * Z := (field, kind).

(** Objects as the rules know them: kinds are those of the wire. *)
Definition vulkan_rules : list (Z * rule) := [
  (vk_op.CREATE_INSTANCE, mkRule [U32] [] (Create 1 false flag));
  (vk_op.ENUMERATE_PHYSICAL_DEVICES, mkRule [U64] [need 0 1] (Create 2 true id));
  (vk_op.CREATE_DEVICE, mkRule [U64] [need 0 2] (Create 3 false id));
  (vk_op.GET_DEVICE_QUEUE, mkRule [U64; U32; U32] [need 0 3] (Create 4 false id));
  (vk_op.ALLOCATE_MEMORY, mkRule [U64; U64] [need 0 3] (Create 5 false id));
  (vk_op.CREATE_BUFFER, mkRule [U64; U64; U32] [need 0 3] (Create 6 false id));
  (vk_op.BIND_BUFFER_MEMORY, mkRule [U64; U64; U64] [need 1 5] (Change 0 6 bind_memory no_answer));
  (vk_op.CREATE_COMMAND_POOL, mkRule [U64; U32] [need 0 3] (Create 7 false id));
  (vk_op.ALLOCATE_COMMAND_BUFFER,
    mkRule [U64] [need 0 7] (Create 8 false counter));
  (vk_op.QUEUE_SUBMIT, mkRule [U64; U64] [need 0 4; need 1 8] Acknowledge);
  (vk_op.CMD_COPY_BUFFER,
    mkRule [U64; U64; U64; U64] [need 1 6; need 2 6] (Change 0 8 count_up no_answer));
  (vk_op.CMD_DRAW, mkRule [U64; U32; U32] [] (Change 0 8 count_up no_answer));
  (vk_op.DESTROY_BUFFER, mkRule [U64] [] (Destroy 0 [6]));
  (vk_op.FREE_MEMORY, mkRule [U64] [] (Destroy 0 [5]));
  (vk_op.DESTROY_COMMAND_POOL, mkRule [U64] [] (Destroy 0 [7]))].

Definition rules (api : ApiId) : list (Z * rule) :=
  match api with
  | Core => []
  | Vulkan => vulkan_rules
  | OpenGl => [
      (gl_op.CREATE_CONTEXT, mkRule [] [] (Create 10 false flag));
      (gl_op.MAKE_CURRENT, mkRule [U64] [need 0 10] Acknowledge);
      (gl_op.GEN_BUFFER, mkRule [U64] [need 0 10] (Create 11 false id));
      (gl_op.SWAP_BUFFERS, mkRule [U64] [need 0 10] Acknowledge);
      (gl_op.DELETE_BUFFER, mkRule [U64] [] (Destroy 0 [11]))]
  | Cuda => [
      (cuda_op.CTX_CREATE, mkRule [U32] [] (Create 20 false id));
      (cuda_op.MEM_ALLOC, mkRule [U64; U64] [need 0 20] (Create 21 false id));
      (cuda_op.MEM_FREE, mkRule [U64] [] (Destroy 0 [21]))]
  | Hip => [
      (hip_op.MALLOC, mkRule [U64] [] (Create 30 false id));
      (hip_op.FREE, mkRule [U64] [] (Destroy 0 [30]));
      (hip_op.STREAM_CREATE, mkRule [] [] (Create 31 false id))]
  | OpenCl => [
      (cl_op.CREATE_CONTEXT, mkRule [] [] (Create 40 false flag));
      (cl_op.CREATE_BUFFER, mkRule [U64; U64] [need 0 40] (Create 41 false id));
      (cl_op.RELEASE_BUFFER, mkRule [U64] [] (Destroy 0 [41]))]
  | LevelZero => [
      (l0_op.CONTEXT_CREATE, mkRule [] [] (Create 50 false flag));
      (l0_op.MEM_ALLOC_DEVICE, mkRule [U64; U64] [need 0 50] (Create 51 false id));
      (l0_op.MEM_FREE, mkRule [U64] [] (Destroy 0 [51]))]
  | Video => [
      (video_op.CREATE_DECODE_SESSION,
        mkRule [U32; U32; U32] [] (Create 60 false counter));
      (video_op.DECODE_FRAME, mkRule [U64; U32] [] (Change 0 60 count_up (fun _ x => last x)));
      (video_op.DESTROY_SESSION, mkRule [U64] [] (Destroy 0 [60]))]
  | WebGpu => [
      (wgpu_op.REQUEST_DEVICE, mkRule [] [] (Create 70 false id));
      (wgpu_op.CREATE_BUFFER, mkRule [U64; U64; U32] [need 0 70] (Create 71 false id));
      (wgpu_op.DESTROY_BUFFER, mkRule [U64] [] (Destroy 0 [71]))]
  | OptiX => [
      (optix_op.CONTEXT_CREATE, mkRule [] [] (Create 80 false flag));
      (optix_op.PIPELINE_CREATE, mkRule [U64] [need 0 80] (Create 81 false id));
      (optix_op.DESTROY, mkRule [U64] [] (Destroy 0 [81; 80]))]
  | Sycl => [
      (sycl_op.QUEUE_CREATE, mkRule [] [] (Create 90 false flag));
      (sycl_op.MALLOC_DEVICE, mkRule [U64; U64] [need 0 90] (Create 91 false id));
      (sycl_op.FREE, mkRule [U64] [] (Destroy 0 [91]))]
  | Amf => [
      (amf_op.CREATE_ENCODER,
        mkRule [U32; U32; U32] [] (Create 100 false counter));
      (amf_op.ENCODE_FRAME,
        mkRule [U64; U32] [] (Change 0 100 count_up (fun fields _ => fields !! 1%nat)));
      (amf_op.DESTROY_ENCODER, mkRule [U64] [] (Destroy 0 [100]))]
  end.

Fixpoint find_rule (op : Z) (table : list (Z * rule)) : option rule :=
  match table with
  | [] => None
  | (op', r) :: table => if decide (op = op') then Some r else find_rule op table
  end.

Definition rule_of (api : ApiId) (op : Z) : option rule := find_rule op (rules api).

(** The kinds of an API. *)
Definition kinds_of (api : ApiId) : list Z :=
  match api with
  | Core => [] | Vulkan => [1; 2; 3; 4; 5; 6; 7; 8] | OpenGl => [10; 11] | Cuda => [20; 21]
  | Hip => [30; 31] | OpenCl => [40; 41] | LevelZero => [50; 51] | Video => [60]
  | WebGpu => [70; 71] | OptiX => [80; 81] | Sycl => [90; 91] | Amf => [100]
  end.

(** ** Steps *)

(** Whether the world lets the request through. *)
Definition destroyed_name (w : world) (raw : Z) (kinds : list Z) : option name :=
  find (is_alive w) (map (fun kind => name_of kind raw) kinds).

Definition change_of (w : world) (fields : list Z) (field : nat) (kind : Z)
    (f : list Z -> object -> option object) : option object :=
  x ← alive w !! name_of kind (arg field fields); f fields x.

Definition allowed (w : world) (r : rule) (fields : list Z) : bool :=
  forallb (fun '(field, kind) => is_alive w (name_of kind (arg field fields))) (needs r) &&
  match does r with
  | Acknowledge | Create _ _ _ => true
  | Destroy field kinds => bool_decide (is_Some (destroyed_name w (arg field fields) kinds))
  | Change field kind f _ => bool_decide (is_Some (change_of w fields field kind f))
  end.

Definition handle_reply (listed : bool) (h : Handle.t) : list byte :=
  (if listed then le_bytes 4 1 else []) ++ le_bytes 8 (Handle.raw h).

Definition int_reply (answer : option Z) : list byte :=
  match answer with Some n => le_bytes 4 n | None => [] end.

Definition with_new (x : name) (o : object) (w : world) : world :=
  mkWorld (<[x := o]> (alive w)) ({[x]} ∪ named w).

Definition without (x : name) (w : world) : world := mkWorld (delete x (alive w)) (named w).

Definition with_changed (x : name) (o : object) (w : world) : world :=
  mkWorld (<[x := o]> (alive w)) (named w).

Inductive enact (fields : list Z) (w : world) : effect -> list byte -> world -> Prop :=
| enact_acknowledge : enact fields w Acknowledge [] w
| enact_create kind listed attrs h :
    Handle.wf h -> Handle.kind h = kind -> (kind, key h) ∉ named w ->
    enact fields w (Create kind listed attrs) (handle_reply listed h)
      (with_new (kind, key h) (attrs fields) w)
| enact_destroy field kinds x :
    destroyed_name w (arg field fields) kinds = Some x ->
    enact fields w (Destroy field kinds) [] (without x w)
| enact_change field kind f answer x o o' :
    x = name_of kind (arg field fields) ->
    alive w !! x = Some o -> f fields o = Some o' ->
    enact fields w (Change field kind f answer) (int_reply (answer fields o))
      (with_changed x o' w).

(** What a request to an API may be answered, and the world after it. *)
Inductive world_step (api : ApiId) (w : world) (op : Z) (body : list byte)
  : presult (list byte) -> world -> Prop :=
| step_unknown :
    rule_of api op = None -> world_step api w op body (Err (UnknownOpcode op)) w
| step_short r :
    rule_of api op = Some r -> read_fields (widths r) body = None ->
    world_step api w op body (Err UnexpectedEof) w
| step_refused r fields :
    rule_of api op = Some r -> read_fields (widths r) body = Some fields ->
    allowed w r fields = false ->
    world_step api w op body (Err (UnknownOpcode op)) w
| step_done r fields out w' :
    rule_of api op = Some r -> read_fields (widths r) body = Some fields ->
    allowed w r fields = true -> enact fields w (does r) out w' ->
    world_step api w op body (Ok out) w'.
