(* ===== verification/WorldFields.v ===== *)
(** The decoders of the request bodies read the fields the world reads: one instance
    of [Fields] per request, from the laws of its codec. *)
From S2P Require Import Wire VkBodies ApiBodies Codecs World.

Local Open Scope Z_scope.

Fixpoint layout (widths : list width) (vs : list Z) : list byte :=
  match widths, vs with
  | w :: widths, v :: vs => le_bytes (width_bytes w) v ++ layout widths vs
  | _, _ => []
  end.

Definition fit_widths : list width -> list Z -> Prop :=
  Forall2 (fun w v => fits (8 * Z.of_nat (width_bytes w)) v).

Lemma read_fields_layout ws vs rest :
  fit_widths ws vs -> read_fields ws (layout ws vs ++ rest) = Some vs.
Proof.
  induction 1 as [|w v ws vs Hv _ IH]; [done|]. cbn [read_fields layout].
  rewrite <- app_assoc, drop_app_length' by (by rewrite length_le_bytes).
  rewrite take_app_length' by (by rewrite length_le_bytes). rewrite IH.
  rewrite decide_True by (rewrite length_app, length_le_bytes; lia). cbn.
  by rewrite of_le_bytes_id.
Qed.

Lemma read_fields_short ws bs :
  (length bs < sum_list_with width_bytes ws)%nat -> read_fields ws bs = None.
Proof.
  revert bs. induction ws as [|w ws IH]; intros bs Hl; cbn in *; [lia|].
  case_decide; [|done]. rewrite IH; [done|]. rewrite length_drop. lia.
Qed.

(** [d] decodes fields of the widths [ws], which [f] takes out of what it decodes. *)
Class Fields {A} (d : list byte -> presult A) (ws : list width) (f : A -> list Z) : Prop :=
  fields_read bs :
    read_fields ws bs = match d bs with Ok r => Some (f r) | Err _ => None end.

Lemma fields_of_fixed {A} `{Body A} n (ws : list width) (f : A -> list Z) :
  FixedBody A n -> sum_list_with width_bytes ws = n ->
  (forall x, body_fits x -> body_encode x [] = layout ws (f x) /\ fit_widths ws (f x)) ->
  Fields body_decode ws f.
Proof.
  intros HF Hn Hf bs. destruct (fixed_decode _ _ HF bs) as [(x & rest & Hx & -> & E)|[Hl E]].
  - destruct (Hf x Hx) as [-> Hws]. destruct (Hf x Hx) as [E' _]. rewrite <- E', E, E'.
    by apply read_fields_layout.
  - rewrite E. apply read_fields_short. lia.
Qed.

Ltac fields_of H :=
  apply (fields_of_fixed _ _ _ H); [reflexivity|];
  intros [] Hfit; cbn in Hfit; split_hyps;
  split; [cbn -[le_bytes]; by rewrite <- ?app_assoc|];
  repeat (apply Forall2_cons; split; [assumption|]); by apply Forall2_nil.

#[export] Instance vk_CreateInstanceRequest_fields :
  Fields vk.CreateInstanceRequest.decode [U32]
    (fun r => [vk.CreateInstanceRequest.app_api_version r]).
Proof. fields_of vk.vk_CreateInstanceRequest_fixed. Qed.
#[export] Instance vk_EnumeratePhysicalDevicesRequest_fields :
  Fields vk.EnumeratePhysicalDevicesRequest.decode [U64]
    (fun r => [Handle.raw (vk.EnumeratePhysicalDevicesRequest.instance r)]).
Proof. fields_of vk.vk_EnumeratePhysicalDevicesRequest_fixed. Qed.
#[export] Instance vk_CreateDeviceRequest_fields :
  Fields vk.CreateDeviceRequest.decode [U64]
    (fun r => [Handle.raw (vk.CreateDeviceRequest.physical_device r)]).
Proof. fields_of vk.vk_CreateDeviceRequest_fixed. Qed.
#[export] Instance vk_GetDeviceQueueRequest_fields :
  Fields vk.GetDeviceQueueRequest.decode [U64; U32; U32]
    (fun r => [Handle.raw (vk.GetDeviceQueueRequest.device r);
      vk.GetDeviceQueueRequest.queue_family_index r; vk.GetDeviceQueueRequest.queue_index r]).
Proof. fields_of vk.vk_GetDeviceQueueRequest_fixed. Qed.
#[export] Instance vk_AllocateMemoryRequest_fields :
  Fields vk.AllocateMemoryRequest.decode [U64; U64]
    (fun r => [Handle.raw (vk.AllocateMemoryRequest.device r); vk.AllocateMemoryRequest.size r]).
Proof. fields_of vk.vk_AllocateMemoryRequest_fixed. Qed.
#[export] Instance vk_CreateBufferRequest_fields :
  Fields vk.CreateBufferRequest.decode [U64; U64; U32]
    (fun r => [Handle.raw (vk.CreateBufferRequest.device r); vk.CreateBufferRequest.size r;
      vk.CreateBufferRequest.usage r]).
Proof. fields_of vk.vk_CreateBufferRequest_fixed. Qed.
#[export] Instance vk_BindBufferMemoryRequest_fields :
  Fields vk.BindBufferMemoryRequest.decode [U64; U64; U64]
    (fun r => [Handle.raw (vk.BindBufferMemoryRequest.buffer r);
      Handle.raw (vk.BindBufferMemoryRequest.memory r); vk.BindBufferMemoryRequest.offset r]).
Proof. fields_of vk.vk_BindBufferMemoryRequest_fixed. Qed.
#[export] Instance vk_CreateCommandPoolRequest_fields :
  Fields vk.CreateCommandPoolRequest.decode [U64; U32]
    (fun r => [Handle.raw (vk.CreateCommandPoolRequest.device r);
      vk.CreateCommandPoolRequest.queue_family_index r]).
Proof. fields_of vk.vk_CreateCommandPoolRequest_fixed. Qed.
#[export] Instance vk_AllocateCommandBufferRequest_fields :
  Fields vk.AllocateCommandBufferRequest.decode [U64]
    (fun r => [Handle.raw (vk.AllocateCommandBufferRequest.pool r)]).
Proof. fields_of vk.vk_AllocateCommandBufferRequest_fixed. Qed.
#[export] Instance vk_QueueSubmitRequest_fields :
  Fields vk.QueueSubmitRequest.decode [U64; U64]
    (fun r => [Handle.raw (vk.QueueSubmitRequest.queue r);
      Handle.raw (vk.QueueSubmitRequest.command_buffer r)]).
Proof. fields_of vk.vk_QueueSubmitRequest_fixed. Qed.
#[export] Instance vk_CmdCopyBufferRequest_fields :
  Fields vk.CmdCopyBufferRequest.decode [U64; U64; U64; U64]
    (fun r => [Handle.raw (vk.CmdCopyBufferRequest.command_buffer r);
      Handle.raw (vk.CmdCopyBufferRequest.src r); Handle.raw (vk.CmdCopyBufferRequest.dst r);
      vk.CmdCopyBufferRequest.size r]).
Proof. fields_of vk.vk_CmdCopyBufferRequest_fixed. Qed.
#[export] Instance vk_CmdDrawRequest_fields :
  Fields vk.CmdDrawRequest.decode [U64; U32; U32]
    (fun r => [Handle.raw (vk.CmdDrawRequest.command_buffer r); vk.CmdDrawRequest.vertex_count r;
      vk.CmdDrawRequest.instance_count r]).
Proof. fields_of vk.vk_CmdDrawRequest_fixed. Qed.
#[export] Instance vk_DestroyBufferRequest_fields :
  Fields vk.DestroyBufferRequest.decode [U64]
    (fun r => [Handle.raw (vk.DestroyBufferRequest.buffer r)]).
Proof. fields_of vk.vk_DestroyBufferRequest_fixed. Qed.
#[export] Instance vk_FreeMemoryRequest_fields :
  Fields vk.FreeMemoryRequest.decode [U64]
    (fun r => [Handle.raw (vk.FreeMemoryRequest.memory r)]).
Proof. fields_of vk.vk_FreeMemoryRequest_fixed. Qed.
#[export] Instance vk_DestroyCommandPoolRequest_fields :
  Fields vk.DestroyCommandPoolRequest.decode [U64]
    (fun r => [Handle.raw (vk.DestroyCommandPoolRequest.pool r)]).
Proof. fields_of vk.vk_DestroyCommandPoolRequest_fixed. Qed.
#[export] Instance gl_MakeCurrentRequest_fields :
  Fields gl.MakeCurrentRequest.decode [U64]
    (fun r => [Handle.raw (gl.MakeCurrentRequest.context r)]).
Proof. fields_of gl.gl_MakeCurrentRequest_fixed. Qed.
#[export] Instance gl_GenBufferRequest_fields :
  Fields gl.GenBufferRequest.decode [U64]
    (fun r => [Handle.raw (gl.GenBufferRequest.context r)]).
Proof. fields_of gl.gl_GenBufferRequest_fixed. Qed.
#[export] Instance gl_SwapBuffersRequest_fields :
  Fields gl.SwapBuffersRequest.decode [U64]
    (fun r => [Handle.raw (gl.SwapBuffersRequest.context r)]).
Proof. fields_of gl.gl_SwapBuffersRequest_fixed. Qed.
#[export] Instance gl_DeleteBufferRequest_fields :
  Fields gl.DeleteBufferRequest.decode [U64]
    (fun r => [Handle.raw (gl.DeleteBufferRequest.buffer r)]).
Proof. fields_of gl.gl_DeleteBufferRequest_fixed. Qed.
#[export] Instance cuda_CtxCreateRequest_fields :
  Fields cuda.CtxCreateRequest.decode [U32]
    (fun r => [cuda.CtxCreateRequest.device_ordinal r]).
Proof. fields_of cuda.cuda_CtxCreateRequest_fixed. Qed.
#[export] Instance cuda_MemAllocRequest_fields :
  Fields cuda.MemAllocRequest.decode [U64; U64]
    (fun r => [Handle.raw (cuda.MemAllocRequest.context r); cuda.MemAllocRequest.size r]).
Proof. fields_of cuda.cuda_MemAllocRequest_fixed. Qed.
#[export] Instance cuda_MemFreeRequest_fields :
  Fields cuda.MemFreeRequest.decode [U64]
    (fun r => [Handle.raw (cuda.MemFreeRequest.dptr r)]).
Proof. fields_of cuda.cuda_MemFreeRequest_fixed. Qed.
#[export] Instance hip_MallocRequest_fields :
  Fields hip.MallocRequest.decode [U64]
    (fun r => [hip.MallocRequest.size r]).
Proof. fields_of hip.hip_MallocRequest_fixed. Qed.
#[export] Instance hip_FreeRequest_fields :
  Fields hip.FreeRequest.decode [U64]
    (fun r => [Handle.raw (hip.FreeRequest.dptr r)]).
Proof. fields_of hip.hip_FreeRequest_fixed. Qed.
#[export] Instance cl_CreateBufferRequest_fields :
  Fields cl.CreateBufferRequest.decode [U64; U64]
    (fun r => [Handle.raw (cl.CreateBufferRequest.context r); cl.CreateBufferRequest.size r]).
Proof. fields_of cl.cl_CreateBufferRequest_fixed. Qed.
#[export] Instance cl_ReleaseBufferRequest_fields :
  Fields cl.ReleaseBufferRequest.decode [U64]
    (fun r => [Handle.raw (cl.ReleaseBufferRequest.mem r)]).
Proof. fields_of cl.cl_ReleaseBufferRequest_fixed. Qed.
#[export] Instance l0_MemAllocDeviceRequest_fields :
  Fields l0.MemAllocDeviceRequest.decode [U64; U64]
    (fun r => [Handle.raw (l0.MemAllocDeviceRequest.context r); l0.MemAllocDeviceRequest.size r]).
Proof. fields_of l0.l0_MemAllocDeviceRequest_fixed. Qed.
#[export] Instance l0_MemFreeRequest_fields :
  Fields l0.MemFreeRequest.decode [U64]
    (fun r => [Handle.raw (l0.MemFreeRequest.ptr r)]).
Proof. fields_of l0.l0_MemFreeRequest_fixed. Qed.
#[export] Instance video_CreateDecodeSessionRequest_fields :
  Fields video.CreateDecodeSessionRequest.decode [U32; U32; U32]
    (fun r => [video.CreateDecodeSessionRequest.codec r;
      video.CreateDecodeSessionRequest.width r; video.CreateDecodeSessionRequest.height r]).
Proof. fields_of video.video_CreateDecodeSessionRequest_fixed. Qed.
#[export] Instance video_DecodeFrameRequest_fields :
  Fields video.DecodeFrameRequest.decode [U64; U32]
    (fun r => [Handle.raw (video.DecodeFrameRequest.session r);
      video.DecodeFrameRequest.bitstream_len r]).
Proof. fields_of video.video_DecodeFrameRequest_fixed. Qed.
#[export] Instance video_DestroySessionRequest_fields :
  Fields video.DestroySessionRequest.decode [U64]
    (fun r => [Handle.raw (video.DestroySessionRequest.session r)]).
Proof. fields_of video.video_DestroySessionRequest_fixed. Qed.
#[export] Instance wgpu_CreateBufferRequest_fields :
  Fields wgpu.CreateBufferRequest.decode [U64; U64; U32]
    (fun r => [Handle.raw (wgpu.CreateBufferRequest.device r); wgpu.CreateBufferRequest.size r;
      wgpu.CreateBufferRequest.usage r]).
Proof. fields_of wgpu.wgpu_CreateBufferRequest_fixed. Qed.
#[export] Instance wgpu_DestroyBufferRequest_fields :
  Fields wgpu.DestroyBufferRequest.decode [U64]
    (fun r => [Handle.raw (wgpu.DestroyBufferRequest.buffer r)]).
Proof. fields_of wgpu.wgpu_DestroyBufferRequest_fixed. Qed.
#[export] Instance optix_PipelineCreateRequest_fields :
  Fields optix.PipelineCreateRequest.decode [U64]
    (fun r => [Handle.raw (optix.PipelineCreateRequest.context r)]).
Proof. fields_of optix.optix_PipelineCreateRequest_fixed. Qed.
#[export] Instance optix_DestroyRequest_fields :
  Fields optix.DestroyRequest.decode [U64]
    (fun r => [Handle.raw (optix.DestroyRequest.handle r)]).
Proof. fields_of optix.optix_DestroyRequest_fixed. Qed.
#[export] Instance sycl_MallocDeviceRequest_fields :
  Fields sycl.MallocDeviceRequest.decode [U64; U64]
    (fun r => [Handle.raw (sycl.MallocDeviceRequest.queue r); sycl.MallocDeviceRequest.size r]).
Proof. fields_of sycl.sycl_MallocDeviceRequest_fixed. Qed.
#[export] Instance sycl_FreeRequest_fields :
  Fields sycl.FreeRequest.decode [U64]
    (fun r => [Handle.raw (sycl.FreeRequest.ptr r)]).
Proof. fields_of sycl.sycl_FreeRequest_fixed. Qed.
#[export] Instance amf_CreateEncoderRequest_fields :
  Fields amf.CreateEncoderRequest.decode [U32; U32; U32]
    (fun r => [amf.CreateEncoderRequest.codec r; amf.CreateEncoderRequest.width r;
      amf.CreateEncoderRequest.height r]).
Proof. fields_of amf.amf_CreateEncoderRequest_fixed. Qed.
#[export] Instance amf_EncodeFrameRequest_fields :
  Fields amf.EncodeFrameRequest.decode [U64; U32]
    (fun r => [Handle.raw (amf.EncodeFrameRequest.encoder r); amf.EncodeFrameRequest.frame_len r]).
Proof. fields_of amf.amf_EncodeFrameRequest_fixed. Qed.
#[export] Instance amf_DestroyEncoderRequest_fields :
  Fields amf.DestroyEncoderRequest.decode [U64]
    (fun r => [Handle.raw (amf.DestroyEncoderRequest.encoder r)]).
Proof. fields_of amf.amf_DestroyEncoderRequest_fixed. Qed.
