(* ===== verification/WorldRefine.v ===== *)
(** What it is for a backend to refine the world. [tab kind attrs t w]: the table [t]
    holds exactly the objects of [w] of that kind, and has issued exactly their names.
    [Stands] relates a backend to the worlds it stands for, [StandsLaws] says that a
    handler answers as the world does. *)
From S2P Require Import Wire VkBodies ApiBodies Codecs Contract Handles HandleSpec Effects.
From S2P Require Import Backend VulkanBackend VulkanSafety ApiBackends World WorldFields.
Import HandleTable (key).

Local Open Scope Z_scope.

(** ** Tables and kinds *)
Definition same_kind (kind : Z) (w w' : world) : Prop := forall k,
  alive w' !! (kind, k) = alive w !! (kind, k) /\
  ((kind, k) ∈ named w' <-> (kind, k) ∈ named w).

Definition tab {T} (kind : Z) (attrs : T -> object) (t : HandleTable.t T) (w : world) : Prop :=
  (forall k, 0 <= k.1 -> alive w !! (kind, k) = attrs <$> HandleTable.lookup t k) /\
  (forall k, (kind, k) ∈ named w <-> HandleTable.issued t k).

Lemma name_of_handle kind h : name_of kind (Handle.raw h) = (kind, key h).
Proof. by destruct h. Qed.

Section frame.
Context (kind kind' : Z) (k : Z * Z) (o : object) (w : world) (Hne : kind <> kind').

Lemma same_kind_new : same_kind kind w (with_new (kind', k) o w).
Proof.
  intros j. cbn. rewrite lookup_insert_ne by congruence. split; [done|].
  rewrite elem_of_union, elem_of_singleton. naive_solver.
Qed.

Lemma same_kind_without : same_kind kind w (without (kind', k) w).
Proof. intros j. cbn. by rewrite lookup_delete_ne by congruence. Qed.

Lemma same_kind_changed : same_kind kind w (with_changed (kind', k) o w).
Proof. intros j. cbn. by rewrite lookup_insert_ne by congruence. Qed.
End frame.

#[export] Instance same_kind_refl kind : Reflexive (same_kind kind).
Proof. by intros w k. Qed.

#[export] Instance same_kind_trans kind : Transitive (same_kind kind).
Proof.
  intros w1 w2 w3 H12 H23 k. destruct (H12 k) as [E1 N1], (H23 k) as [E2 N2].
  rewrite E2, E1. split; [done|]. by rewrite N2, N1.
Qed.

Section tab.
Context {T : Type} (kind : Z) (attrs : T -> object).
Implicit Types (t : HandleTable.t T) (w : world).

Lemma tab_new : tab kind attrs HandleTable.new empty_world.
Proof.
  split; intros k; cbn; [by rewrite lookup_empty|].
  rewrite elem_of_empty. split; [done|]. apply HandleTable.new_not_issued.
Qed.

Lemma tab_frame t w w' : same_kind kind w w' -> tab kind attrs t w -> tab kind attrs t w'.
Proof.
  intros Hs [Ha Hn]. split; intros k; destruct (Hs k) as [E N].
  - intros Hk. rewrite E. by apply Ha.
  - rewrite N. apply Hn.
Qed.

Lemma tab_lookup t w h :
  tab kind attrs t w -> alive w !! name_of kind (Handle.raw h) = attrs <$> HandleTable.get h t.
Proof.
  intros [Ha _]. rewrite name_of_handle, HandleTable.get_lookup. apply Ha, HandleTable.key_nonneg.
Qed.

Lemma tab_alive t w h :
  tab kind attrs t w ->
  is_alive w (name_of kind (Handle.raw h)) =
    match HandleTable.get h t with Some _ => true | None => false end.
Proof.
  intros Ht. unfold is_alive. rewrite (tab_lookup _ _ _ Ht).
  by destruct (HandleTable.get h t).
Qed.

Lemma tab_fresh t w kind' v t' h :
  HandleTable.inserted kind' v t t' h -> tab kind attrs t w -> (kind, key h) ∉ named w.
Proof. intros Hins [_ Hn] H%Hn. by apply (HandleTable.inserted_fresh _ _ _ _ _ Hins). Qed.

Lemma tab_inserted t w kind' v t' h o :
  HandleTable.inserted kind' v t t' h -> o = attrs v -> tab kind attrs t w ->
  tab kind attrs t' (with_new (kind, key h) o w).
Proof.
  intros Hins -> [Ha Hn]. split; intros k; cbn.
  - intros Hk. rewrite (HandleTable.inserted_lookup _ _ _ _ _ Hins k Hk).
    case_decide as Hd; [subst k; by rewrite lookup_insert_eq|].
    rewrite lookup_insert_ne by congruence. by apply Ha.
  - rewrite elem_of_union, elem_of_singleton, Hn.
    rewrite (HandleTable.inserted_issued _ _ _ _ _ Hins). naive_solver.
Qed.

Lemma tab_removed t w t' h :
  HandleTable.removed (key h) t t' -> tab kind attrs t w ->
  tab kind attrs t' (without (name_of kind (Handle.raw h)) w).
Proof.
  rewrite name_of_handle. intros Hrem [Ha Hn]. split; intros k; cbn.
  - intros Hk. rewrite (HandleTable.removed_lookup _ _ _ Hrem k Hk).
    case_decide as Hd; [subst k; by rewrite lookup_delete_eq|].
    rewrite lookup_delete_ne by congruence. by apply Ha.
  - by rewrite Hn, (HandleTable.removed_issued _ _ _ Hrem).
Qed.

Lemma tab_written t w t' h v o :
  written (key h) v t t' -> o = attrs v -> tab kind attrs t w ->
  tab kind attrs t' (with_changed (name_of kind (Handle.raw h)) o w).
Proof.
  rewrite name_of_handle. intros Hw -> [Ha Hn]. split; intros k; cbn.
  - intros Hk. rewrite (written_lookup _ _ _ _ Hw k Hk).
    case_decide as Hd; [subst k; by rewrite lookup_insert_eq|].
    rewrite lookup_insert_ne by congruence. by apply Ha.
  - by rewrite Hn, (written_issued _ _ _ _ Hw).
Qed.
End tab.

(** ** Backends that stand for a world *)
Class Stands (B : Type) := stands : B -> world -> Prop.

(** What handling a request leaves of the world. *)
Definition follows {B} `{Stands B} (api : ApiId) (w : world) (op : Z) (body : list byte)
    (b' : B) (r : presult (list byte)) : Prop :=
  exists w', world_step api w op body r w' /\ stands b' w'.

Class StandsLaws (B : Type) `{BackendLaws B, !Stands B} := {
  stands_frame b w w' :
    (forall kind, kind ∈ kinds_of (api b) -> same_kind kind w w') -> stands b w -> stands b w';
  stands_step n opcode req_id body b w :
    ready (S n) b -> stands b w ->
    wp (handle opcode req_id body) b (follows (api b) w opcode body);
}.

(** ** Automation *)

(** An opcode outside the namespace of an API has no rule there. *)
Lemma find_rule_elem op table r : find_rule op table = Some r -> (op, r) ∈ table.
Proof.
  induction table as [|[op' r'] table IH]; [done|]. cbn. case_decide as Hd.
  - intros [= ->]. subst. by left.
  - intros H. right. by apply IH.
Qed.

Lemma rules_of_api api :
  forallb (fun '(op, _) => opcode_api op =? api_byte api) (rules api) = true.
Proof. by destruct api; vm_compute. Qed.

Lemma rule_of_api api op r : rule_of api op = Some r -> opcode_api op = api_byte api.
Proof.
  intros H%find_rule_elem. pose proof (rules_of_api api) as Hf.
  rewrite forallb_forall in Hf. apply Z.eqb_eq, (Hf (op, r)). by apply list_elem_of_In.
Qed.

Section follow.
Context {B : Type} `{Stands B} (api : ApiId) (w : world) (op : Z) (body : list byte).
Implicit Types (b : B).

Lemma follow_foreign b :
  opcode_api op <> api_byte api -> stands b w ->
  follows api w op body b (Err (UnknownOpcode op)).
Proof.
  intros Hne Hb. exists w. split; [|done]. apply step_unknown.
  destruct (rule_of api op) as [r|] eqn:E; [|done]. by apply rule_of_api in E.
Qed.

Lemma follow_unknown b :
  rule_of api op = None -> stands b w -> follows api w op body b (Err (UnknownOpcode op)).
Proof. intros E Hb. exists w. split; [by apply step_unknown|done]. Qed.

Lemma follow_short {A} (d : list byte -> presult A) f r b e :
  rule_of api op = Some r -> Fields d (widths r) f -> d body = Err e -> stands b w ->
  follows api w op body b (Err UnexpectedEof).
Proof.
  intros Hr Hd E Hb. exists w. split; [|done]. eapply step_short; [exact Hr|].
  by rewrite fields_read, E.
Qed.

Lemma follow_refused {A} (d : list byte -> presult A) f r b req :
  rule_of api op = Some r -> Fields d (widths r) f -> d body = Ok req ->
  allowed w r (f req) = false -> stands b w ->
  follows api w op body b (Err (UnknownOpcode op)).
Proof.
  intros Hr Hd E Ha Hb. exists w. split; [|done]. eapply step_refused; [exact Hr| |exact Ha].
  by rewrite fields_read, E.
Qed.

Lemma follow_done {A} (d : list byte -> presult A) f r b req out w' :
  rule_of api op = Some r -> Fields d (widths r) f -> d body = Ok req ->
  allowed w r (f req) = true -> enact (f req) w (does r) out w' -> stands b w' ->
  follows api w op body b (Ok out).
Proof.
  intros Hr Hd E Ha He Hb. exists w'. split; [|done].
  eapply step_done; [exact Hr| |exact Ha|exact He]. by rewrite fields_read, E.
Qed.

Lemma follow_plain r b out w' :
  rule_of api op = Some r -> widths r = [] -> allowed w r [] = true ->
  enact [] w (does r) out w' -> stands b w' -> follows api w op body b (Ok out).
Proof.
  intros Hr Hn Ha He Hb. exists w'. split; [|done].
  eapply step_done; [exact Hr| |exact Ha|exact He]. by rewrite Hn.
Qed.
End follow.

(** What the world knows about a handle, from the tables. *)
Ltac tab_facts :=
  repeat match goal with
  | Ht : tab ?kind ?attrs ?t ?w |- context [is_alive ?w (name_of ?kind (Handle.raw ?h))] =>
      rewrite (tab_alive kind attrs t w h Ht)
  | Ht : tab ?kind ?attrs ?t ?w |- context [alive ?w !! name_of ?kind (Handle.raw ?h)] =>
      rewrite (tab_lookup kind attrs t w h Ht)
  | H : HandleTable.get ?h ?t = _ |- context [HandleTable.get ?h ?t] => rewrite H
  | H : BufferState.bound ?b = _ |- context [BufferState.bound ?b] => rewrite H
  end.

Ltac solve_allowed :=
  unfold allowed, destroyed_name, change_of, need, arg; cbn;
  repeat (progress tab_facts; cbn); reflexivity.

Ltac solve_tab :=
  first
  [ assumption
  | eapply tab_inserted; [eassumption|reflexivity|assumption]
  | eapply tab_removed; [eassumption|assumption]
  | eapply tab_written; [eassumption|reflexivity|assumption]
  | eapply tab_frame; [|eassumption]; rewrite ?name_of_handle;
    first [apply same_kind_new | apply same_kind_without | apply same_kind_changed]; lia ].

Lemma enact_change_of fields w field kind f answer o o' out :
  alive w !! name_of kind (arg field fields) = Some o -> f fields o = Some o' ->
  out = int_reply (answer fields o) ->
  enact fields w (Change field kind f answer) out
    (with_changed (name_of kind (arg field fields)) o' w).
Proof. intros Ho Ho' ->. by eapply enact_change. Qed.

(** What a rule does, from what the table operation did. *)
Ltac solve_enact :=
  match goal with
  | |- enact _ _ (does ?r) _ _ => cbn [does]
  | _ => idtac
  end;
  lazymatch goal with
  | |- enact _ _ Acknowledge _ _ => apply enact_acknowledge
  | Hins : HandleTable.inserted _ _ _ _ ?h |- enact _ _ (Create ?kind ?listed ?attrs) _ _ =>
      apply (enact_create _ _ kind listed attrs h);
      [ apply (HandleTable.inserted_handle _ _ _ _ _ Hins)
      | apply (HandleTable.inserted_handle _ _ _ _ _ Hins)
      | eapply tab_fresh; [exact Hins|eassumption] ]
  | |- enact _ _ (Destroy _ _) _ _ => eapply enact_destroy; solve_allowed
  | |- enact _ _ (Change ?field ?kind ?f ?answer) _ _ =>
      eapply (enact_change_of _ _ field kind f answer);
      [solve_allowed|solve_allowed|reflexivity]
  end.

(** A goal that contradicts the invariant: the objects with a flag have it set. *)
Ltac unflagged :=
  match goal with
  | He : entries _ ?t, Hg : HandleTable.get _ ?t = Some _, Hc : _ = false |- _ =>
      pose proof (entries_get _ _ _ _ He Hg); cbn in *; congruence
  end.

Ltac solve_follow :=
  first
  [ unflagged
  | apply follow_foreign; assumption
  | match goal with
    | E : ?d ?body = Err _ |- follows _ _ _ ?body _ (Err UnexpectedEof) =>
        eapply (follow_short _ _ _ _ d); [reflexivity|cbn [widths]; apply _|exact E|assumption]
    | E : ?d ?body = Ok ?req |- follows _ _ _ ?body _ (Err _) =>
        eapply (follow_refused _ _ _ _ d _ _ _ req);
        [reflexivity|cbn [widths]; apply _|exact E|solve_allowed|assumption]
    | E : ?d ?body = Ok ?req |- follows _ _ _ ?body _ (Ok _) =>
        eapply (follow_done _ _ _ _ d _ _ _ req);
        [reflexivity|cbn [widths]; apply _|exact E|solve_allowed|solve_enact|]
    | |- follows _ _ _ _ _ (Ok _) =>
        eapply follow_plain; [reflexivity|reflexivity|solve_allowed|solve_enact|]
    | |- follows _ _ _ _ _ (Err _) =>
        apply follow_unknown;
        [unfold rule_of; cbn [rules find_rule vulkan_rules]; rewrite !decide_False by done; reflexivity
        |assumption]
    end ].

Ltac follow_end s := try apply wp_throw; destruct s; cbn -[le_bytes] in *; try solve_follow.

(** A relation that is a conjunction of tables depends on their kinds only. *)
Ltac stands_same d :=
  let Hk := fresh "Hk" in let Hw := fresh "Hw" in
  intros ? ? ? Hk Hw; unfold stands, d in *; split_hyps; split_conj;
  (eapply tab_frame; [apply Hk; cbn; set_solver|eassumption]).
