(* ===== verification/WorldBackends.v ===== *)
(** The eleven backends refine the world: one Module per backend, the attributes its
    tables keep of each kind of object, and the proof that its handler, whatever the
    request, answers as the rules of World say and leaves the tables standing for the
    world that results. *)
From S2P Require Import Wire VkBodies ApiBodies Codecs Contract Handles HandleSpec Effects.
From S2P Require Import Backend VulkanBackend VulkanSafety ApiBackends.
From S2P Require Import World WorldFields WorldRefine.

Local Open Scope Z_scope.

(** ** Vulkan *)
Module VulkanWorld.
Import VulkanBackend.

Definition buffer_attrs (b : BufferState.t) : object :=
  [Handle.raw (BufferState.device b); BufferState.size b; BufferState.usage b] ++
  match BufferState.bound b with
  | Some (memory, offset) => [Handle.raw memory; offset]
  | None => []
  end.

#[global] Instance vulkan_stands : Stands VulkanBackend.t := fun s w =>
  tab 1 (fun x => [Z.b2z (InstanceState.created x)]) (instances s) w /\
  tab 2 (fun x => [Handle.raw (PhysDevState.parent x)]) (physical_devices s) w /\
  tab 3 (fun x => [Handle.raw (DeviceState.physical_device x)]) (devices s) w /\
  tab 4 (fun x => [Handle.raw (QueueState.device x); QueueState.family x; QueueState.index x])
    (queues s) w /\
  tab 5 (fun x => [Handle.raw (MemoryState.device x); MemoryState.size x]) (memories s) w /\
  tab 6 buffer_attrs (buffers s) w /\
  tab 7 (fun x => [Handle.raw (CommandPoolState.device x);
    CommandPoolState.queue_family_index x]) (command_pools s) w /\
  tab 8 (fun x => [Handle.raw (CommandBufferState.pool x); CommandBufferState.recorded x])
    (command_buffers s) w.

Ltac run_vulkan :=
  repeat first
  [ progress run_handler
  | match goal with
    | |- context [BufferState.bound ?v] => destruct (BufferState.bound v) as [[]|] eqn:?
    | |- wp (match HandleTable.get ?h ?t with _ => _ end _) _ _ =>
        destruct (HandleTable.get h t) eqn:?
    end
  | progress cbn [ok_or unbound mbind option_bind negb] ].

Lemma vulkan_follows n opcode rid body s w :
  vk_ready (S n) s -> stands s w ->
  wp (VulkanBackend.handle opcode rid body) s (follows Vulkan w opcode body).
Proof.
  intros Hs Hw. pose proof Hs as Hs'. pose proof Hw as Hw'. destruct Hs' as [[] []].
  unfold stands, vulkan_stands in Hw'. split_hyps. unfold VulkanBackend.handle.
  repeat (case_decide;
    [try subst opcode; unfold create_instance, enumerate_physical_devices, create_device,
       get_device_queue, allocate_memory, create_buffer, bind_buffer_memory,
       create_command_pool, allocate_command_buffer, queue_submit, cmd_copy_buffer, cmd_draw,
       record_command, destroy_buffer, free_memory, destroy_command_pool; run_vulkan|]).
  all: follow_end s; unfold stands, vulkan_stands; cbn in *; split_conj; solve_tab.
Qed.

#[global] Program Instance vulkan_stands_laws : StandsLaws VulkanBackend.t.
Next Obligation. stands_same vulkan_stands. Qed.
Next Obligation. intros. by eapply vulkan_follows. Qed.

Lemma vulkan_stands_new : stands new empty_world.
Proof. unfold stands, vulkan_stands. split_conj; apply tab_new. Qed.
End VulkanWorld.

(** ** OpenGl *)
Module GlWorld.
Import GlBackend.

#[global] Instance gl_stands : Stands GlBackend.t := fun s w =>
  tab 10 (fun x => [Z.b2z (CtxState.created x)]) (contexts s) w /\
  tab 11 (fun x => [Handle.raw (BufState.context x)]) (buffers s) w.

Lemma gl_follows n opcode rid body s w :
  inv (S n) s -> stands s w -> wp (handle opcode rid body) s (follows OpenGl w opcode body).
Proof.
  intros Hs Hw. pose proof Hs as Hs'. pose proof Hw as Hw'.
  unfold inv in Hs'. unfold stands, gl_stands in Hw'. split_hyps. unfold handle.
  repeat (case_decide;
    [try subst opcode; unfold create_context, make_current, gen_buffer, swap_buffers,
       delete_buffer; run_handler|]).
  all: follow_end s; unfold stands, gl_stands; cbn in *; split_conj; solve_tab.
Qed.

#[global] Program Instance gl_stands_laws : StandsLaws GlBackend.t.
Next Obligation. stands_same gl_stands. Qed.
Next Obligation. intros. by eapply gl_follows. Qed.

Lemma gl_stands_new : stands new empty_world.
Proof. unfold stands, gl_stands. split_conj; apply tab_new. Qed.
End GlWorld.

(** ** Cuda *)
Module CudaWorld.
Import CudaBackend.

#[global] Instance cuda_stands : Stands CudaBackend.t := fun s w =>
  tab 20 (fun x => [CudaCtxState.device_ordinal x]) (contexts s) w /\
  tab 21 (fun x => [Handle.raw (CudaMemState.context x); CudaMemState.size x]) (allocations s) w.

Lemma cuda_follows n opcode rid body s w :
  inv (S n) s -> stands s w -> wp (handle opcode rid body) s (follows Cuda w opcode body).
Proof.
  intros Hs Hw. pose proof Hs as Hs'. pose proof Hw as Hw'.
  unfold inv in Hs'. unfold stands, cuda_stands in Hw'. split_hyps. unfold handle.
  repeat (case_decide;
    [try subst opcode; unfold ctx_create, mem_alloc, mem_free; run_handler|]).
  all: follow_end s; unfold stands, cuda_stands; cbn in *; split_conj; solve_tab.
Qed.

#[global] Program Instance cuda_stands_laws : StandsLaws CudaBackend.t.
Next Obligation. stands_same cuda_stands. Qed.
Next Obligation. intros. by eapply cuda_follows. Qed.

Lemma cuda_stands_new : stands new empty_world.
Proof. unfold stands, cuda_stands. split_conj; apply tab_new. Qed.
End CudaWorld.

(** ** Hip *)
Module HipWorld.
Import HipBackend.

#[global] Instance hip_stands : Stands HipBackend.t := fun s w =>
  tab 30 (fun x => [HipMemState.size x]) (allocations s) w /\
  tab 31 (fun _ => []) (streams s) w.

Lemma hip_follows n opcode rid body s w :
  inv (S n) s -> stands s w -> wp (handle opcode rid body) s (follows Hip w opcode body).
Proof.
  intros Hs Hw. pose proof Hs as Hs'. pose proof Hw as Hw'.
  unfold inv in Hs'. unfold stands, hip_stands in Hw'. split_hyps. unfold handle.
  repeat (case_decide;
    [try subst opcode; unfold malloc, free, stream_create; run_handler|]).
  all: follow_end s; unfold stands, hip_stands; cbn in *; split_conj; solve_tab.
Qed.

#[global] Program Instance hip_stands_laws : StandsLaws HipBackend.t.
Next Obligation. stands_same hip_stands. Qed.
Next Obligation. intros. by eapply hip_follows. Qed.

Lemma hip_stands_new : stands new empty_world.
Proof. unfold stands, hip_stands. split_conj; apply tab_new. Qed.
End HipWorld.

(** ** OpenCl *)
Module ClWorld.
Import ClBackend.

#[global] Instance cl_stands : Stands ClBackend.t := fun s w =>
  tab 40 (fun x => [Z.b2z (ClCtxState.created x)]) (contexts s) w /\
  tab 41 (fun x => [Handle.raw (ClBufState.context x); ClBufState.size x]) (buffers s) w.

Lemma cl_follows n opcode rid body s w :
  inv (S n) s -> stands s w -> wp (handle opcode rid body) s (follows OpenCl w opcode body).
Proof.
  intros Hs Hw. pose proof Hs as Hs'. pose proof Hw as Hw'.
  unfold inv in Hs'. unfold stands, cl_stands in Hw'. split_hyps. unfold handle.
  repeat (case_decide;
    [try subst opcode; unfold create_context, create_buffer, release_buffer; run_handler|]).
  all: follow_end s; unfold stands, cl_stands; cbn in *; split_conj; solve_tab.
Qed.

#[global] Program Instance cl_stands_laws : StandsLaws ClBackend.t.
Next Obligation. stands_same cl_stands. Qed.
Next Obligation. intros. by eapply cl_follows. Qed.

Lemma cl_stands_new : stands new empty_world.
Proof. unfold stands, cl_stands. split_conj; apply tab_new. Qed.
End ClWorld.

(** ** LevelZero *)
Module L0World.
Import L0Backend.

#[global] Instance l0_stands : Stands L0Backend.t := fun s w =>
  tab 50 (fun x => [Z.b2z (L0CtxState.created x)]) (contexts s) w /\
  tab 51 (fun x => [Handle.raw (L0MemState.context x); L0MemState.size x]) (mems s) w.

Lemma l0_follows n opcode rid body s w :
  inv (S n) s -> stands s w -> wp (handle opcode rid body) s (follows LevelZero w opcode body).
Proof.
  intros Hs Hw. pose proof Hs as Hs'. pose proof Hw as Hw'.
  unfold inv in Hs'. unfold stands, l0_stands in Hw'. split_hyps. unfold handle.
  repeat (case_decide;
    [try subst opcode; unfold context_create, mem_alloc_device, mem_free; run_handler|]).
  all: follow_end s; unfold stands, l0_stands; cbn in *; split_conj; solve_tab.
Qed.

#[global] Program Instance l0_stands_laws : StandsLaws L0Backend.t.
Next Obligation. stands_same l0_stands. Qed.
Next Obligation. intros. by eapply l0_follows. Qed.

Lemma l0_stands_new : stands new empty_world.
Proof. unfold stands, l0_stands. split_conj; apply tab_new. Qed.
End L0World.

(** ** Video *)
Module VideoWorld.
Import VideoBackend.

#[global] Instance video_stands : Stands VideoBackend.t := fun s w =>
  tab 60 (fun x => [VideoSessionState.codec x; VideoSessionState.width x;
    VideoSessionState.height x; VideoSessionState.frames x]) (sessions s) w.

Lemma video_follows n opcode rid body s w :
  inv (S n) s -> stands s w -> wp (handle opcode rid body) s (follows Video w opcode body).
Proof.
  intros Hs Hw. pose proof Hs as Hs'. pose proof Hw as Hw'.
  unfold inv in Hs'. unfold stands, video_stands in Hw'. split_hyps. unfold handle.
  repeat (case_decide;
    [try subst opcode; unfold create_decode_session, decode_frame, destroy_session; run_handler|]).
  all: follow_end s; unfold stands, video_stands; cbn in *; split_conj; solve_tab.
Qed.

#[global] Program Instance video_stands_laws : StandsLaws VideoBackend.t.
Next Obligation. stands_same video_stands. Qed.
Next Obligation. intros. by eapply video_follows. Qed.

Lemma video_stands_new : stands new empty_world.
Proof. unfold stands, video_stands. split_conj; apply tab_new. Qed.
End VideoWorld.

(** ** WebGpu *)
Module WebGpuWorld.
Import WebGpuBackend.

#[global] Instance webgpu_stands : Stands WebGpuBackend.t := fun s w =>
  tab 70 (fun _ => []) (devices s) w /\
  tab 71 (fun x => [Handle.raw (WgpuBufState.device x); WgpuBufState.size x;
    WgpuBufState.usage x]) (buffers s) w.

Lemma webgpu_follows n opcode rid body s w :
  inv (S n) s -> stands s w -> wp (handle opcode rid body) s (follows WebGpu w opcode body).
Proof.
  intros Hs Hw. pose proof Hs as Hs'. pose proof Hw as Hw'.
  unfold inv in Hs'. unfold stands, webgpu_stands in Hw'. split_hyps. unfold handle.
  repeat (case_decide;
    [try subst opcode; unfold request_device, create_buffer, destroy_buffer; run_handler|]).
  all: follow_end s; unfold stands, webgpu_stands; cbn in *; split_conj; solve_tab.
Qed.

#[global] Program Instance webgpu_stands_laws : StandsLaws WebGpuBackend.t.
Next Obligation. stands_same webgpu_stands. Qed.
Next Obligation. intros. by eapply webgpu_follows. Qed.

Lemma webgpu_stands_new : stands new empty_world.
Proof. unfold stands, webgpu_stands. split_conj; apply tab_new. Qed.
End WebGpuWorld.

(** ** OptiX *)
Module OptixWorld.
Import OptixBackend.

#[global] Instance optix_stands : Stands OptixBackend.t := fun s w =>
  tab 80 (fun x => [Z.b2z (OptixCtxState.created x)]) (contexts s) w /\
  tab 81 (fun x => [Handle.raw (OptixPipelineState.context x)]) (pipelines s) w.

Lemma optix_follows n opcode rid body s w :
  inv (S n) s -> stands s w -> wp (handle opcode rid body) s (follows OptiX w opcode body).
Proof.
  intros Hs Hw. pose proof Hs as Hs'. pose proof Hw as Hw'.
  unfold inv in Hs'. unfold stands, optix_stands in Hw'. split_hyps. unfold handle.
  repeat (case_decide;
    [try subst opcode; unfold context_create, pipeline_create, destroy; run_handler|]).
  all: follow_end s; unfold stands, optix_stands; cbn in *; split_conj; solve_tab.
Qed.

#[global] Program Instance optix_stands_laws : StandsLaws OptixBackend.t.
Next Obligation. stands_same optix_stands. Qed.
Next Obligation. intros. by eapply optix_follows. Qed.

Lemma optix_stands_new : stands new empty_world.
Proof. unfold stands, optix_stands. split_conj; apply tab_new. Qed.
End OptixWorld.

(** ** Sycl *)
Module SyclWorld.
Import SyclBackend.

#[global] Instance sycl_stands : Stands SyclBackend.t := fun s w =>
  tab 90 (fun x => [Z.b2z (SyclQueueState.created x)]) (queues s) w /\
  tab 91 (fun x => [Handle.raw (SyclPtrState.queue x); SyclPtrState.size x]) (ptrs s) w.

Lemma sycl_follows n opcode rid body s w :
  inv (S n) s -> stands s w -> wp (handle opcode rid body) s (follows Sycl w opcode body).
Proof.
  intros Hs Hw. pose proof Hs as Hs'. pose proof Hw as Hw'.
  unfold inv in Hs'. unfold stands, sycl_stands in Hw'. split_hyps. unfold handle.
  repeat (case_decide;
    [try subst opcode; unfold queue_create, malloc_device, free; run_handler|]).
  all: follow_end s; unfold stands, sycl_stands; cbn in *; split_conj; solve_tab.
Qed.

#[global] Program Instance sycl_stands_laws : StandsLaws SyclBackend.t.
Next Obligation. stands_same sycl_stands. Qed.
Next Obligation. intros. by eapply sycl_follows. Qed.

Lemma sycl_stands_new : stands new empty_world.
Proof. unfold stands, sycl_stands. split_conj; apply tab_new. Qed.
End SyclWorld.

(** ** Amf *)
Module AmfWorld.
Import AmfBackend.

#[global] Instance amf_stands : Stands AmfBackend.t := fun s w =>
  tab 100 (fun x => [AmfEncoderState.codec x; AmfEncoderState.width x; AmfEncoderState.height x;
    AmfEncoderState.frames x]) (encoders s) w.

Lemma amf_follows n opcode rid body s w :
  inv (S n) s -> stands s w -> wp (handle opcode rid body) s (follows Amf w opcode body).
Proof.
  intros Hs Hw. pose proof Hs as Hs'. pose proof Hw as Hw'.
  unfold inv in Hs'. unfold stands, amf_stands in Hw'. split_hyps. unfold handle.
  repeat (case_decide;
    [try subst opcode; unfold create_encoder, encode_frame, destroy_encoder; run_handler|]).
  all: follow_end s; unfold stands, amf_stands; cbn in *; split_conj; solve_tab.
Qed.

#[global] Program Instance amf_stands_laws : StandsLaws AmfBackend.t.
Next Obligation. stands_same amf_stands. Qed.
Next Obligation. intros. by eapply amf_follows. Qed.

Lemma amf_stands_new : stands new empty_world.
Proof. unfold stands, amf_stands. split_conj; apply tab_new. Qed.
End AmfWorld.
