(* ===== verification/Session.v ===== *)
(** The per-session state machine (crates/graftx-server/src/session.rs): decode
    one frame, validate its framing, dispatch it, and frame the reply. The
    backends are boxed trait objects keyed by API byte. *)
From S2P Require Import Wire Codecs Contract Handles HandleSpec Effects Backend.

Local Open Scope Z_scope.

(** ** [Box<dyn Backend>] *)
Record Boxed := Box {
  boxed_type : Type;
  boxed_ops : Backend boxed_type;
  boxed_state : boxed_type;
}.

Arguments Box {_} {_} _.

Definition box {B} `{Backend B} (b : B) : Boxed := Box b.

(** The trait's methods, through the box. *)
Definition boxed_api (b : Boxed) : ApiId := @api _ (boxed_ops b) (boxed_state b).

Definition boxed_handle (opcode req_id : Z) (body : list byte) (b : Boxed)
  : outcome (Boxed * presult (list byte)) :=
  '(state, r) ← @handle _ (boxed_ops b) opcode req_id body (boxed_state b);
  Ret (@Box _ (boxed_ops b) state, r).

(** The boxed backend obeys its laws and has room for [n] more requests. *)
Definition boxed_ready (n : nat) (b : Boxed) : Prop :=
  exists laws : @BackendLaws (boxed_type b) (boxed_ops b),
    @ready _ _ laws n (boxed_state b).

Lemma boxed_ready_S n b : boxed_ready (S n) b -> boxed_ready n b.
Proof. intros [laws H]. exists laws. by apply ready_S. Qed.

Lemma boxed_handle_spec n opcode req_id body b :
  boxed_ready (S n) b -> exists b' r,
    boxed_handle opcode req_id body b = Ret (b', r) /\ boxed_ready n b' /\
    boxed_api b' = boxed_api b /\
    match r with
    | Ok out => (length out <= MAX_REPLY)%nat /\ conforms opcode out
    | Err e => b' = b /\ (e = UnknownOpcode opcode \/ e = UnexpectedEof)
    end.
Proof.
  destruct b as [B ops st]. intros [laws Hr]. cbn in *.
  destruct (@handle_spec B ops laws n opcode req_id body st Hr)
    as (st' & r & E & Hr' & Ha & Hm).
  exists (@Box B ops st'), r. unfold boxed_handle. cbn. rewrite E. cbn.
  split; [done|]. split; [by exists laws|]. split; [done|].
  destruct r; [done|]. destruct Hm as [-> ?]. done.
Qed.

Module Session.

Record t := mk {
  session_id : Z;
  max_frame_body : Z;
  handshook : bool;
  next_seq : Z;
  backends : gmap Z Boxed }.

Definition new (session_id : Z) : t := mk session_id DEFAULT_MAX_FRAME_BODY false 1 ∅.

Definition register (backend : Boxed) (self : t) : t :=
  let api := api_byte (boxed_api backend) in
  mk (session_id self) (max_frame_body self) (handshook self) (next_seq self)
    (<[api := backend]> (backends self)).

(** [fn next_seq]: the increment panics at [u64::MAX]. *)
Definition take_seq : M t Z := fun self =>
  let s := next_seq self in
  next ← add_or_panic 64 (next_seq self) 1;
  Ret (mk (session_id self) (max_frame_body self) (handshook self) next (backends self),
       Ok s).

Definition reply (opcode req_id : Z) (body : list byte) : M t (list byte) :=
  seq ← take_seq;
  let header := FrameHeader.mk PROTOCOL_MAJOR 0 FrameKind.Response opcode req_id seq
    (wrap 32 (Z.of_nat (length body))) in
  mret (encode_frame header body).

(** The arm of [core_op::HELLO]. *)
Definition hello (h : FrameHeader.t) (body : list byte) : M t (list byte) :=
  hello ← attempt (Hello.decode body);
  if decide (Hello.proto_major hello <> PROTOCOL_MAJOR) then
    throw (BadVersion (Hello.proto_major hello) (Hello.proto_minor hello))
  else
    fun self =>
      let negotiated := Z.min (Hello.max_frame_body hello) DEFAULT_MAX_FRAME_BODY in
      let self := mk (session_id self) negotiated true (next_seq self) (backends self) in
      let welcome := Welcome.mk PROTOCOL_MAJOR PROTOCOL_MINOR 0 (max_frame_body self)
        (session_id self) in
      reply core_op.WELCOME (FrameHeader.req_id h) (Welcome.encode welcome []) self.

(** [backend.handle(other, h.req_id, body)], the backend being the one the map
    holds for [api]: its state changes stay even when it fails. *)
Definition call_backend (api : Z) (backend : Boxed) (opcode req_id : Z)
    (body : list byte) : M t (list byte) := fun self =>
  '(backend, r) ← boxed_handle opcode req_id body backend;
  Ret (mk (session_id self) (max_frame_body self) (handshook self) (next_seq self)
         (<[api := backend]> (backends self)), r).

(** The arm of every other opcode. *)
Definition route (h : FrameHeader.t) (body : list byte) : M t (list byte) := fun self =>
  let other := FrameHeader.opcode h in
  let api := opcode_api other in
  match backends self !! api with
  | Some backend =>
    (resp ← call_backend api backend other (FrameHeader.req_id h) body;
     reply other (FrameHeader.req_id h) resp) self
  | None => throw (UnknownOpcode other) self
  end.

Definition dispatch (h : FrameHeader.t) (body : list byte) : M t (list byte) :=
  if decide (FrameHeader.opcode h = core_op.HELLO) then hello h body
  else if decide (FrameHeader.opcode h = core_op.NOOP) then
    reply core_op.NOOP (FrameHeader.req_id h) []
  else route h body.

(** The validation of the framing, before anything is acted on. *)
Definition validated (h : FrameHeader.t) (body : list byte) : M t (list byte) := fun self =>
  if max_frame_body self <? FrameHeader.body_len h then
    throw (FrameTooLarge (FrameHeader.body_len h)) self
  else if negb (FrameHeader.body_len h =? Z.of_nat (length body)) then
    throw (BodyLenMismatch (FrameHeader.body_len h) (Z.of_nat (length body))) self
  else dispatch h body self.

Definition handle (frame : list byte) : M t (list byte) :=
  '(h, body) ← attempt (decode_frame frame); validated h body.

Definition is_handshook (self : t) : bool := handshook self.

(** ** The invariant: room for [n] more frames *)
Record ready (n : nat) (self : t) : Prop := {
  ready_id : fits 64 (session_id self);
  ready_max : 0 <= max_frame_body self <= DEFAULT_MAX_FRAME_BODY;
  ready_seq : 1 <= next_seq self /\ next_seq self + Z.of_nat n <= max_of 64;
  ready_backends k b : backends self !! k = Some b ->
    api_byte (boxed_api b) = k /\ boxed_ready n b;
}.

End Session.
