(* ===== verification/Server.v ===== *)
(** How the server puts a session together (crates/graftx-server/src/main.rs): a
    fresh session with its backends registered, and that such a session is ready
    for as many frames as the backends have handle slots. *)
From S2P Require Import Wire Codecs Handles HandleSpec Effects Backend VulkanBackend.
From S2P Require Import VulkanSafety ApiBackends Session.

Local Open Scope Z_scope.

Module Server.

(** The closure [serve] hands to [serve_tcp], once it has its session id. *)
Definition make_session (id : Z) : Session.t :=
  let session := Session.new id in
  let session := Session.register (box VulkanBackend.new) session in
  Session.register (box GlBackend.new) session.

(** The state of the closure is the atomic counter of the next id;
    [fetch_add] wraps. *)
Definition accept (next_id : Z) : Z * Session.t :=
  (wrap 64 (next_id + 1), make_session next_id).

End Server.

(** ** Readiness *)
Lemma boxed_ready_box {B} `{BackendLaws B} n (b : B) :
  ready n b -> boxed_ready n (box b).
Proof. intros. by exists _. Qed.

Lemma ready_new n id :
  fits 64 id -> Z.of_nat n <= 2 ^ 32 -> Session.ready n (Session.new id).
Proof.
  intros Hid Hn. constructor; cbn; [done|by vm_compute| |].
  - unfold max_of. lia.
  - intros k b. by rewrite lookup_empty.
Qed.

Lemma ready_register n b s :
  Session.ready n s -> boxed_ready n b -> Session.ready n (Session.register b s).
Proof.
  intros [? ? ? Hb] Hr. constructor; cbn; [done..|].
  intros k b'. destruct (decide (k = api_byte (boxed_api b))) as [->|Hne].
  - rewrite lookup_insert_eq. by intros [= <-].
  - rewrite lookup_insert_ne by done. apply Hb.
Qed.

(** The eleven backends, each fresh. *)
Definition all_backends : list Boxed := [
  box VulkanBackend.new; box GlBackend.new; box CudaBackend.new; box ClBackend.new;
  box HipBackend.new; box L0Backend.new; box VideoBackend.new; box WebGpuBackend.new;
  box OptixBackend.new; box SyclBackend.new; box AmfBackend.new ].

Definition register_all (bs : list Boxed) (s : Session.t) : Session.t :=
  fold_left (fun s b => Session.register b s) bs s.

Lemma ready_register_all n bs s :
  Forall (boxed_ready n) bs -> Session.ready n s -> Session.ready n (register_all bs s).
Proof.
  intros Hbs. revert s. induction Hbs; intros s Hs; [done|].
  cbn. auto using ready_register.
Qed.

Lemma all_backends_ready n : Z.of_nat n <= 2 ^ 32 -> Forall (boxed_ready n) all_backends.
Proof.
  intros Hn. unfold all_backends.
  repeat apply Forall_cons_2; [..|apply Forall_nil_2]; apply boxed_ready_box; cbn.
  - by apply vk_ready_new.
  - by apply GlBackend.gl_inv_new.
  - by apply CudaBackend.cuda_inv_new.
  - by apply ClBackend.cl_inv_new.
  - by apply HipBackend.hip_inv_new.
  - by apply L0Backend.l0_inv_new.
  - by apply VideoBackend.video_inv_new.
  - by apply WebGpuBackend.webgpu_inv_new.
  - by apply OptixBackend.optix_inv_new.
  - by apply SyclBackend.sycl_inv_new.
  - by apply AmfBackend.amf_inv_new.
Qed.

Lemma make_session_ready n id :
  fits 64 id -> Z.of_nat n <= 2 ^ 32 -> Session.ready n (Server.make_session id).
Proof.
  intros Hid Hn. apply (ready_register_all n [box VulkanBackend.new; box GlBackend.new]);
    [|by apply ready_new].
  pose proof (all_backends_ready n Hn) as H. unfold all_backends in H.
  rewrite !Forall_cons in H. split_hyps. by repeat constructor.
Qed.
