(* ===== verification/BackendProps.v ===== *)
(** The backends as a family: all eleven survive any requests and answer as the
    contract says; and what their tables do with a handle of another kind. *)
From S2P Require Import Wire ApiBodies Codecs Contract Handles HandleSpec Effects.
From S2P Require Import Backend VulkanBackend VulkanSafety ApiBackends Session Server.

Local Open Scope Z_scope.

(** Requests to a boxed backend. *)
Fixpoint run_boxed (reqs : list Request.t) (b : Boxed)
  : outcome (Boxed * list (presult (list byte))) :=
  match reqs with
  | [] => Ret (b, [])
  | q :: reqs =>
    '(b, r) ← boxed_handle (Request.opcode q) (Request.req_id q) (Request.body q) b;
    '(b, rs) ← run_boxed reqs b;
    Ret (b, r :: rs)
  end.

(** An answer of the backend of namespace [api]. *)
Definition answer_ok (api : ApiId) (q : Request.t) (r : presult (list byte)) : Prop :=
  match r with
  | Ok out => opcode_api (Request.opcode q) = api_byte api /\
      (length out <= MAX_REPLY)%nat /\ conforms (Request.opcode q) out
  | Err e => e = UnknownOpcode (Request.opcode q) \/ e = UnexpectedEof
  end.

Lemma boxed_answer n q b :
  boxed_ready (S n) b -> exists b' r,
    boxed_handle (Request.opcode q) (Request.req_id q) (Request.body q) b = Ret (b', r) /\
    boxed_ready n b' /\ boxed_api b' = boxed_api b /\ answer_ok (boxed_api b) q r.
Proof.
  intros Hb. pose proof (boxed_handle_spec n (Request.opcode q) (Request.req_id q)
    (Request.body q) b Hb) as (b' & r & E & Hr & Ha & Hm).
  exists b', r. split; [done|]. split; [done|]. split; [done|].
  destruct r as [out|e]; [|by destruct Hm]. destruct Hm as [Hl Hc]. split; [|done].
  destruct (decide (opcode_api (Request.opcode q) = api_byte (boxed_api b))) as [|Hne]; [done|].
  exfalso. destruct b as [B ops st]. destruct Hb as [laws Hrd].
  pose proof (@handle_foreign B ops laws (Request.opcode q) (Request.req_id q)
    (Request.body q) st Hne) as Hf.
  unfold boxed_handle in E. cbn in E. rewrite Hf in E. discriminate E.
Qed.

Lemma run_boxed_ok reqs n b :
  boxed_ready (length reqs + n) b -> exists b' rs, run_boxed reqs b = Ret (b', rs) /\
    boxed_ready n b' /\ boxed_api b' = boxed_api b /\
    Forall2 (answer_ok (boxed_api b)) reqs rs.
Proof.
  revert b. induction reqs as [|q reqs IH]; intros b Hb; [by exists b, []|].
  destruct (boxed_answer _ q b Hb) as (b1 & r & E & Hb1 & Ha & Hq).
  destruct (IH b1 Hb1) as (b' & rs & E' & Hb' & Ha' & Hrs).
  exists b', (r :: rs). cbn [run_boxed]. rewrite E. cbn. rewrite E'. cbn.
  split; [done|]. split; [done|]. split; [congruence|]. constructor; [done|]. by rewrite <- Ha.
Qed.

(** C9: every backend is total. Each of the eleven backends, fresh, handles any
    sequence of up to 2^32 requests, whatever their opcodes, ids and bytes, without
    a panic: it answers each, an error being [UnknownOpcode] of that opcode or
    [UnexpectedEof], and a reply being to an opcode of the backend's own
    namespace, at most 12 bytes long, and of the shape the contract gives it. *)
Theorem backends_total b reqs :
  b ∈ all_backends -> Z.of_nat (length reqs) <= 2 ^ 32 ->
  exists b' rs, run_boxed reqs b = Ret (b', rs) /\ boxed_api b' = boxed_api b /\
    Forall2 (answer_ok (boxed_api b)) reqs rs.
Proof.
  intros Hb Hn. pose proof (proj1 (Forall_forall _ _) (all_backends_ready (length reqs) Hn) b Hb)
    as Hr. rewrite <- (Nat.add_0_r (length reqs)) in Hr.
  destruct (run_boxed_ok reqs 0 b Hr) as (b' & rs & E & _ & Ha & Hrs). by exists b', rs.
Qed.

Lemma backends_total_witness :
  exists b' rs, run_boxed [Request.mk sycl_op.QUEUE_CREATE 1 []; Request.mk 77 2 [x01]]
      (box SyclBackend.new) = Ret (b', rs) /\ length rs = 2%nat.
Proof.
  destruct (backends_total (box SyclBackend.new)
    [Request.mk sycl_op.QUEUE_CREATE 1 []; Request.mk 77 2 [x01]]) as (b' & rs & E & _ & H).
  - unfold all_backends. repeat (first [apply list_elem_of_here | apply list_elem_of_further]).
  - by vm_compute.
  - exists b', rs. split; [exact E|]. by apply Forall2_length in H.
Defined.

(** ** Handles of another kind *)
Section optix.
Import OptixBackend.

(** C33: OptiX destroys the wrong object. [DESTROY] looks in the table of pipelines
    first and does not look at the kind of the handle: when the handle's slot and
    generation name a live pipeline, it is the pipeline that is destroyed and the
    contexts are untouched, whatever the kind. So after creating a context and a
    pipeline on a fresh backend, destroying the context destroys the pipeline,
    and the context stays live. *)
Theorem optix_destroy_confuses rid :
  (forall n s h v, inv n s -> Handle.wf h -> HandleTable.get h (pipelines s) = Some v ->
     exists s', OptixBackend.handle optix_op.DESTROY rid
         (optix.DestroyRequest.encode (optix.DestroyRequest.mk h) []) s = Ret (s', Ok []) /\
       contexts s' = contexts s /\ HandleTable.get h (pipelines s') = None) /\
  (exists s1 s2 s3 c p,
     OptixBackend.handle optix_op.CONTEXT_CREATE rid [] new =
       Ret (s1, Ok (optix.ContextCreateResponse.encode (optix.ContextCreateResponse.mk c) [])) /\
     OptixBackend.handle optix_op.PIPELINE_CREATE rid
         (optix.PipelineCreateRequest.encode (optix.PipelineCreateRequest.mk c) []) s1 =
       Ret (s2, Ok (optix.PipelineCreateResponse.encode (optix.PipelineCreateResponse.mk p) [])) /\
     OptixBackend.handle optix_op.DESTROY rid
         (optix.DestroyRequest.encode (optix.DestroyRequest.mk c) []) s2 = Ret (s3, Ok []) /\
     Handle.kind c = KIND_OPTIX_CONTEXT /\ Handle.kind p = KIND_OPTIX_PIPELINE /\
     HandleTable.get c (contexts s3) = Some (OptixCtxState.mk true) /\
     HandleTable.get p (pipelines s2) = Some (OptixPipelineState.mk c) /\
     HandleTable.get p (pipelines s3) = None).
Proof.
  split.
  - intros n s h v (_ & Hp & _) Hwf Hg. destruct Hp as [Hpwf _].
    unfold handle. rewrite decide_False by (intros Hn; by apply Hn).
    rewrite decide_False, decide_False, decide_True by done. unfold destroy.
    erewrite attempt_bind
      by (by apply (fixed_encode_decode optix.optix_DestroyRequest_fixed (optix.DestroyRequest.mk h))).
    pose proof (HandleTable.remove_spec h _ Hpwf) as Hrem. rewrite Hg in Hrem.
    destruct Hrem as (t & E & Hrem). exists (set Field.pipelines t s).
    unfold mbind, M_bind, Table.remove. cbn [optix.DestroyRequest.handle view Field.pipelines].
    rewrite E. split; [reflexivity|]. destruct s as [cs ps]. split; [done|]. cbn.
    rewrite HandleTable.get_lookup,
      (HandleTable.removed_lookup _ _ _ Hrem _ (HandleTable.key_nonneg h)).
    by rewrite decide_True.
  - do 3 eexists. exists (Handle.new KIND_OPTIX_CONTEXT 0 0), (Handle.new KIND_OPTIX_PIPELINE 0 0).
    split; [vm_compute; reflexivity|]. split; [vm_compute; reflexivity|].
    split; [vm_compute; reflexivity|]. by vm_compute.
Qed.

(** A context and a pipeline created on a fresh backend: the context's handle
    destroys the pipeline. *)
Lemma optix_destroy_confuses_witness :
  let c := Handle.new KIND_OPTIX_CONTEXT 0 0 in
  exists s s', OptixBackend.handle optix_op.DESTROY 3
      (optix.DestroyRequest.encode (optix.DestroyRequest.mk c) []) s = Ret (s', Ok []) /\
    HandleTable.get c (contexts s') = Some (OptixCtxState.mk true) /\
    HandleTable.get c (pipelines s') = None.
Proof.
  intros c.
  destruct (run_ready [Request.mk optix_op.CONTEXT_CREATE 1 [];
    Request.mk optix_op.PIPELINE_CREATE 2
      (optix.PipelineCreateRequest.encode (optix.PipelineCreateRequest.mk c) [])] 5 new)
    as (s & rs & E & Hs & _).
  { apply optix_inv_new. by vm_compute. }
  vm_compute in E. injection E as <- _.
  match type of Hs with ready _ ?s =>
    destruct (proj1 (optix_destroy_confuses 3) 5%nat s c (OptixPipelineState.mk c))
      as (s' & E & Hc & Hp); [exact Hs|by vm_compute|by vm_compute|exists s, s'] end.
  split; [exact E|]. split; [|exact Hp]. rewrite Hc. by vm_compute.
Defined.
End optix.

Section gl.
Import GlBackend.

(** A handle crosses families. The OpenGL backend issues a context handle and a
    buffer handle that differ in their kind only; [DELETE_BUFFER] on the context's
    handle deletes the buffer, and answers success. In general it deletes the
    buffer of the handle's slot and generation, whatever the handle's kind. *)
Theorem gl_delete_crosses_families rid :
  (forall n s h v, inv n s -> Handle.wf h -> HandleTable.get h (buffers s) = Some v ->
     exists s', GlBackend.handle gl_op.DELETE_BUFFER rid
         (gl.DeleteBufferRequest.encode (gl.DeleteBufferRequest.mk h) []) s = Ret (s', Ok []) /\
       contexts s' = contexts s /\ HandleTable.get h (buffers s') = None) /\
  (exists s1 s2 s3 c b,
     GlBackend.handle gl_op.CREATE_CONTEXT rid [] new =
       Ret (s1, Ok (gl.CreateContextResponse.encode (gl.CreateContextResponse.mk c) [])) /\
     GlBackend.handle gl_op.GEN_BUFFER rid
         (gl.GenBufferRequest.encode (gl.GenBufferRequest.mk c) []) s1 =
       Ret (s2, Ok (gl.GenBufferResponse.encode (gl.GenBufferResponse.mk b) [])) /\
     GlBackend.handle gl_op.DELETE_BUFFER rid
         (gl.DeleteBufferRequest.encode (gl.DeleteBufferRequest.mk c) []) s2 = Ret (s3, Ok []) /\
     Handle.kind c = KIND_GL_CONTEXT /\ Handle.kind b = KIND_GL_BUFFER /\
     HandleTable.get b (buffers s2) = Some (BufState.mk c) /\
     HandleTable.get b (buffers s3) = None).
Proof.
  split.
  - intros n s h v (_ & Hp & _) Hwf Hg. destruct Hp as [Hpwf _].
    unfold handle. rewrite decide_False by (intros Hn; by apply Hn).
    rewrite !decide_False, decide_True by done. unfold delete_buffer.
    erewrite attempt_bind
      by (by apply (fixed_encode_decode gl.gl_DeleteBufferRequest_fixed (gl.DeleteBufferRequest.mk h))).
    pose proof (HandleTable.remove_spec h _ Hpwf) as Hrem. rewrite Hg in Hrem.
    destruct Hrem as (t & E & Hrem). exists (set Field.buffers t s).
    unfold mbind, M_bind, Table.remove. cbn [gl.DeleteBufferRequest.buffer view Field.buffers].
    rewrite E. split; [reflexivity|]. destruct s as [cs ps]. split; [done|]. cbn.
    rewrite HandleTable.get_lookup,
      (HandleTable.removed_lookup _ _ _ Hrem _ (HandleTable.key_nonneg h)).
    by rewrite decide_True.
  - do 3 eexists. exists (Handle.new KIND_GL_CONTEXT 0 0), (Handle.new KIND_GL_BUFFER 0 0).
    split; [vm_compute; reflexivity|]. split; [vm_compute; reflexivity|].
    split; [vm_compute; reflexivity|]. by vm_compute.
Qed.

Lemma gl_delete_crosses_families_witness :
  let c := Handle.new KIND_GL_CONTEXT 0 0 in
  exists s s', GlBackend.handle gl_op.DELETE_BUFFER 3
      (gl.DeleteBufferRequest.encode (gl.DeleteBufferRequest.mk c) []) s = Ret (s', Ok []) /\
    HandleTable.get c (contexts s') = Some (CtxState.mk true) /\
    HandleTable.get c (buffers s') = None.
Proof.
  intros c.
  destruct (run_ready [Request.mk gl_op.CREATE_CONTEXT 1 [];
    Request.mk gl_op.GEN_BUFFER 2
      (gl.GenBufferRequest.encode (gl.GenBufferRequest.mk c) [])] 5 new)
    as (s & rs & E & Hs & _).
  { apply gl_inv_new. by vm_compute. }
  vm_compute in E. injection E as <- _.
  match type of Hs with ready _ ?s =>
    destruct (proj1 (gl_delete_crosses_families 3) 5%nat s c (BufState.mk c))
      as (s' & E & Hc & Hp); [exact Hs|by vm_compute|by vm_compute|exists s, s'] end.
  split; [exact E|]. split; [|exact Hp]. rewrite Hc. by vm_compute.
Defined.
End gl.
