(* ===== verification/WorldProps.v ===== *)
(** What holds of every world, and of every backend because it refines one: a request
    touches the kinds of its API only; names are never forgotten nor given twice; an
    object that is gone stays gone, so that whatever needs it is refused. *)
From S2P Require Import Wire ApiBodies Codecs Contract Handles HandleSpec Effects Backend.
From S2P Require Import VulkanBackend VulkanSafety ApiBackends Session Server BackendProps.
From S2P Require Import World WorldFields WorldRefine WorldBackends.
Import HandleTable (key).

Local Open Scope Z_scope.

(** ** Steps of a world *)
Definition effect_kinds (e : effect) : list Z :=
  match e with
  | Acknowledge => []
  | Create kind _ _ | Change _ kind _ _ => [kind]
  | Destroy _ kinds => kinds
  end.

Lemma rules_kinds api :
  forallb (fun '(_, r) =>
    forallb (fun kind => bool_decide (kind ∈ kinds_of api)) (effect_kinds (does r)))
    (rules api) = true.
Proof. by destruct api; vm_compute. Qed.

Lemma rule_kinds api op r kind :
  rule_of api op = Some r -> kind ∈ effect_kinds (does r) -> kind ∈ kinds_of api.
Proof.
  intros H%find_rule_elem Hk. pose proof (rules_kinds api) as Hf.
  rewrite forallb_forall in Hf. specialize (Hf (op, r)). cbn in Hf.
  rewrite forallb_forall in Hf. eapply bool_decide_eq_true, Hf; by apply list_elem_of_In.
Qed.

Lemma destroyed_in w raw kinds x :
  destroyed_name w raw kinds = Some x ->
  is_alive w x = true /\ exists kind, kind ∈ kinds /\ x = name_of kind raw.
Proof.
  intros H. destruct (find_some _ _ H) as [Hin Ha]. split; [done|].
  apply in_map_iff in Hin as (kind & <- & Hk). exists kind. split; [by apply list_elem_of_In|done].
Qed.

Lemma enact_frame fields w e out w' kind :
  enact fields w e out w' -> kind ∉ effect_kinds e -> same_kind kind w w'.
Proof.
  intros He Hk. destruct He as [|kind' listed attrs h| |field kind' f answer x o o' ->]; cbn in Hk.
  - done.
  - apply same_kind_new. set_solver.
  - destruct (destroyed_in _ _ _ _ H) as (_ & kind' & Hin & ->). unfold name_of.
    apply same_kind_without. set_solver.
  - apply same_kind_changed. set_solver.
Qed.

(** A request to an API leaves the objects of every other one alone. *)
Lemma step_frame api w op body r w' kind :
  world_step api w op body r w' -> kind ∉ kinds_of api -> same_kind kind w w'.
Proof.
  intros Hs Hk. destruct Hs as [| | |ru fields out w' Hr _ _ He]; [done..|].
  eapply enact_frame; [exact He|]. intros Hin. by eapply Hk, rule_kinds.
Qed.

(** Names are not forgotten, and an object that is gone does not come back. *)
Definition gone (x : name) (w : world) : Prop := x ∈ named w /\ alive w !! x = None.

Lemma enact_gone fields w e out w' x : enact fields w e out w' -> gone x w -> gone x w'.
Proof.
  intros He [Hn Ha]. destruct He as [|kind listed attrs h Hwf Hkd Hf|field kinds y Hd|].
  - done.
  - split; cbn; [set_solver|]. rewrite lookup_insert_ne; [done|]. by intros <-.
  - split; [done|]. cbn. destruct (decide (y = x)) as [->|]; [by rewrite lookup_delete_eq|].
    by rewrite lookup_delete_ne.
  - split; [done|]. cbn. rewrite lookup_insert_ne; [done|]. intros <-. by rewrite Ha in *.
Qed.

Lemma world_step_gone api w op body r w' x : world_step api w op body r w' -> gone x w -> gone x w'.
Proof. intros Hs Hg. destruct Hs; [done..|]. by eapply enact_gone. Qed.

(** What is alive has a name. *)
Definition world_ok (w : world) : Prop := forall x, is_Some (alive w !! x) -> x ∈ named w.

Lemma empty_world_ok : world_ok empty_world.
Proof. intros x [o Ho]. cbn in Ho. by rewrite lookup_empty in Ho. Qed.

Lemma enact_ok fields w e out w' : enact fields w e out w' -> world_ok w -> world_ok w'.
Proof.
  intros He Hw x [o Ho].
  destruct He as [|kind listed attrs h| |field kind f answer y o1 o2 ->]; cbn in *.
  - apply Hw. eauto.
  - destruct (decide (x = (kind, key h))) as [->|Hne]; [set_solver|].
    rewrite lookup_insert_ne in Ho by done. apply elem_of_union_r, Hw. eauto.
  - apply lookup_delete_Some in Ho as [_ Ho]. apply Hw. eauto.
  - destruct (decide (x = name_of kind (arg field fields))) as [->|Hne]; [apply Hw; eauto|].
    rewrite lookup_insert_ne in Ho by done. apply Hw. eauto.
Qed.

Lemma world_step_ok api w op body r w' : world_step api w op body r w' -> world_ok w -> world_ok w'.
Proof. intros Hs Hw. destruct Hs; [done..|]. by eapply enact_ok. Qed.

(** The verdict on a request is the world's: two answers are both errors, and the same,
    or both replies. *)
Lemma step_verdict api w op body r1 w1 r2 w2 :
  world_step api w op body r1 w1 -> world_step api w op body r2 w2 ->
  match r1, r2 with
  | Err e1, Err e2 => e1 = e2 /\ w1 = w2
  | Ok _, Ok _ => True
  | _, _ => False
  end.
Proof. intros [] []; simplify_eq; done || congruence. Qed.

(** ** Sequences of requests *)
Inductive world_steps (api : ApiId)
  : world -> list Request.t -> list (presult (list byte)) -> world -> Prop :=
| steps_nil w : world_steps api w [] [] w
| steps_cons w q r w1 qs rs w' :
    world_step api w (Request.opcode q) (Request.body q) r w1 ->
    world_steps api w1 qs rs w' -> world_steps api w (q :: qs) (r :: rs) w'.

Lemma world_steps_gone api w qs rs w' x : world_steps api w qs rs w' -> gone x w -> gone x w'.
Proof. induction 1; [done|]. eauto using world_step_gone. Qed.

Lemma world_steps_ok api w qs rs w' : world_steps api w qs rs w' -> world_ok w -> world_ok w'.
Proof. induction 1; [done|]. eauto using world_step_ok. Qed.

Lemma world_steps_app api w qs1 qs2 rs w' :
  world_steps api w (qs1 ++ qs2) rs w' -> exists rs1 rs2 w1,
    rs = rs1 ++ rs2 /\ length rs1 = length qs1 /\
    world_steps api w qs1 rs1 w1 /\ world_steps api w1 qs2 rs2 w'.
Proof.
  revert w rs. induction qs1 as [|q qs1 IH]; intros w rs H.
  - exists [], rs, w. split; [done|]. split; [done|]. split; [constructor|done].
  - cbn in H. inversion H as [|? ? r w1 ? rs' ? Hs Hr]; subst.
    destruct (IH _ _ Hr) as (rs1 & rs2 & w2 & -> & Hl & H1 & H2).
    exists (r :: rs1), rs2, w2. split; [done|]. split; [cbn; by rewrite Hl|].
    split; [by econstructor|done].
Qed.

(** ** Destroyed objects *)

(** The request destroys the object of one of these names, if anything: of the one kind
    it is for, except that OptiX has one request for its two kinds. *)
Definition destroys (api : ApiId) (op : Z) (body : list byte) (xs : list name) : Prop :=
  exists r fields field kinds, rule_of api op = Some r /\
    read_fields (widths r) body = Some fields /\ does r = Destroy field kinds /\
    xs = map (fun kind => name_of kind (arg field fields)) kinds.

(** The request cannot do without the object of this name. *)
Definition requires (api : ApiId) (op : Z) (body : list byte) (x : name) : Prop :=
  exists r fields field kind, rule_of api op = Some r /\
    read_fields (widths r) body = Some fields /\ x = name_of kind (arg field fields) /\
    ((field, kind) ∈ needs r \/ does r = Destroy field [kind] \/
     exists f answer, does r = Change field kind f answer).

Lemma destroys_gone api w op body out w' xs :
  world_ok w -> destroys api op body xs -> world_step api w op body (Ok out) w' ->
  exists x, x ∈ xs /\ gone x w'.
Proof.
  intros Hw (r & fields & field & kinds & Hr & Hf & Hd & ->) Hs.
  inversion Hs as [| | |r' fields' out' w1 Hr' Hf' Ha He]; subst. simplify_eq.
  rewrite Hd in He. inversion He as [| |? ? x Hx|]; subst. exists x.
  destruct (destroyed_in _ _ _ _ Hx) as (Hx' & kind & Hk & ->). split.
  - apply list_elem_of_In, in_map_iff. exists kind. by rewrite <- list_elem_of_In.
  - apply bool_decide_eq_true in Hx'. split; [by apply Hw|]. cbn. by rewrite lookup_delete_eq.
Qed.

Lemma requires_refused api w op body r w' x :
  alive w !! x = None -> requires api op body x -> world_step api w op body r w' ->
  r = Err (UnknownOpcode op) /\ w' = w.
Proof.
  intros Hx (ru & fields & field & kind & Hr & Hf & -> & Hn) Hs.
  assert (is_alive w (name_of kind (arg field fields)) = false) as Hdead.
  { unfold is_alive. by rewrite Hx. }
  assert (allowed w ru fields = false) as Ha.
  { unfold allowed. destruct Hn as [Hn|[Hn|(f & answer & Hn)]].
    - apply andb_false_iff. left. apply not_true_iff_false. rewrite forallb_forall. intros Hall.
      apply list_elem_of_In in Hn. specialize (Hall _ Hn). cbn in Hall. congruence.
    - rewrite Hn. unfold destroyed_name. cbn. rewrite Hdead. apply andb_false_r.
    - rewrite Hn. unfold change_of. rewrite Hx. apply andb_false_r. }
  destruct Hs; simplify_eq; done || congruence.
Qed.

(** ** The backends as a family *)

(** A backend, one of the eleven, that has room for [n] more requests, and whose tables
    hold exactly the objects of a world, with their attributes, and have issued exactly
    their names: [stands] is the instance of WorldBackends for its type. *)
Inductive boxed_stands (n : nat) (w : world) : Boxed -> Prop :=
| vulkan_boxed (b : VulkanBackend.t) : ready n b -> stands b w -> boxed_stands n w (box b)
| gl_boxed (b : GlBackend.t) : ready n b -> stands b w -> boxed_stands n w (box b)
| cuda_boxed (b : CudaBackend.t) : ready n b -> stands b w -> boxed_stands n w (box b)
| hip_boxed (b : HipBackend.t) : ready n b -> stands b w -> boxed_stands n w (box b)
| cl_boxed (b : ClBackend.t) : ready n b -> stands b w -> boxed_stands n w (box b)
| l0_boxed (b : L0Backend.t) : ready n b -> stands b w -> boxed_stands n w (box b)
| video_boxed (b : VideoBackend.t) : ready n b -> stands b w -> boxed_stands n w (box b)
| webgpu_boxed (b : WebGpuBackend.t) : ready n b -> stands b w -> boxed_stands n w (box b)
| optix_boxed (b : OptixBackend.t) : ready n b -> stands b w -> boxed_stands n w (box b)
| sycl_boxed (b : SyclBackend.t) : ready n b -> stands b w -> boxed_stands n w (box b)
| amf_boxed (b : AmfBackend.t) : ready n b -> stands b w -> boxed_stands n w (box b).

Lemma follows_box {B} `{StandsLaws B} n op req_id body (b : B) w :
  ready (S n) b -> stands b w -> exists b' r w',
    boxed_handle op req_id body (box b) = Ret (box b', r) /\ api b' = api b /\
    world_step (api b) w op body r w' /\ ready n b' /\ stands b' w'.
Proof.
  intros Hr Hw.
  destruct (handle_spec n op req_id body b Hr) as (b' & r & E & Hr' & Ha & _).
  destruct (stands_step n op req_id body b w Hr Hw) as (b2 & r2 & E2 & w' & Hs & Hw').
  rewrite E in E2. injection E2 as <- <-.
  exists b', r, w'. unfold boxed_handle. cbn. by rewrite E.
Qed.

Lemma boxed_stands_ready n b w : boxed_stands n w b -> boxed_ready n b.
Proof. intros []; by eexists. Qed.

Lemma boxed_stands_frame n b w w' :
  (forall kind, kind ∈ kinds_of (boxed_api b) -> same_kind kind w w') ->
  boxed_stands n w b -> boxed_stands n w' b.
Proof. intros Hk Hb. destruct Hb; constructor; try done; by eapply stands_frame. Qed.

Lemma boxed_stands_S n b w : boxed_stands (S n) w b -> boxed_stands n w b.
Proof. intros []; constructor; try done; by apply ready_S. Qed.

Lemma boxed_follows n op req_id body b w :
  boxed_stands (S n) w b -> exists b' r w',
    boxed_handle op req_id body b = Ret (b', r) /\ boxed_api b' = boxed_api b /\
    world_step (boxed_api b) w op body r w' /\ boxed_stands n w' b'.
Proof.
  intros [b0 Hr Hw|b0 Hr Hw|b0 Hr Hw|b0 Hr Hw|b0 Hr Hw|b0 Hr Hw|b0 Hr Hw|b0 Hr Hw|b0 Hr Hw
    |b0 Hr Hw|b0 Hr Hw];
    destruct (follows_box n op req_id body b0 w Hr Hw) as (b' & r & w' & E & Ha & Hs & Hr' & Hw');
    exists (box b'), r, w'; split_conj; try done; by constructor.
Qed.

Lemma all_backends_stand n :
  Z.of_nat n <= 2 ^ 32 -> Forall (boxed_stands n empty_world) all_backends.
Proof.
  intros Hn. unfold all_backends.
  repeat apply Forall_cons_2; [..|apply Forall_nil_2]; constructor; cbn.
  - by apply vk_ready_new.
  - apply VulkanWorld.vulkan_stands_new.
  - by apply GlBackend.gl_inv_new.
  - apply GlWorld.gl_stands_new.
  - by apply CudaBackend.cuda_inv_new.
  - apply CudaWorld.cuda_stands_new.
  - by apply ClBackend.cl_inv_new.
  - apply ClWorld.cl_stands_new.
  - by apply HipBackend.hip_inv_new.
  - apply HipWorld.hip_stands_new.
  - by apply L0Backend.l0_inv_new.
  - apply L0World.l0_stands_new.
  - by apply VideoBackend.video_inv_new.
  - apply VideoWorld.video_stands_new.
  - by apply WebGpuBackend.webgpu_inv_new.
  - apply WebGpuWorld.webgpu_stands_new.
  - by apply OptixBackend.optix_inv_new.
  - apply OptixWorld.optix_stands_new.
  - by apply SyclBackend.sycl_inv_new.
  - apply SyclWorld.sycl_stands_new.
  - by apply AmfBackend.amf_inv_new.
  - apply AmfWorld.amf_stands_new.
Qed.

Lemma run_boxed_follows reqs n b w :
  boxed_stands (length reqs + n) w b -> exists b' rs w',
    run_boxed reqs b = Ret (b', rs) /\ boxed_api b' = boxed_api b /\
    world_steps (boxed_api b) w reqs rs w' /\ boxed_stands n w' b'.
Proof.
  revert b w. induction reqs as [|q reqs IH]; intros b w Hb.
  { exists b, [], w. split; [done|]. split; [done|]. split; [constructor|done]. }
  destruct (boxed_follows _ (Request.opcode q) (Request.req_id q) (Request.body q) b w Hb)
    as (b1 & r & w1 & E & Ha & Hs & Hb1).
  destruct (IH b1 w1 Hb1) as (b' & rs & w' & E' & Ha' & Hss & Hb').
  exists b', (r :: rs), w'. cbn [run_boxed]. rewrite E. cbn. rewrite E'. cbn.
  split; [done|]. split; [congruence|]. split; [|done].
  econstructor; [exact Hs|]. by rewrite <- Ha.
Qed.

(** C15: the backends refine the world of objects. Each of the eleven backends, fresh,
    handles any sequence of up to 2^32 requests as the rules of the world say: each is
    refused with the world's error or done with an answer the world allows, a new
    object getting a name that was never given; and in the end the backend's tables
    hold exactly the objects of the world, with their attributes. *)
Theorem backends_refine_world b reqs :
  b ∈ all_backends -> Z.of_nat (length reqs) <= 2 ^ 32 ->
  exists b' rs w, run_boxed reqs b = Ret (b', rs) /\
    world_steps (boxed_api b) empty_world reqs rs w /\ boxed_stands 0 w b'.
Proof.
  intros Hb Hn.
  pose proof (proj1 (Forall_forall _ _) (all_backends_stand (length reqs) Hn) b Hb) as Hs.
  rewrite <- (Nat.add_0_r (length reqs)) in Hs.
  destruct (run_boxed_follows reqs 0 b empty_world Hs) as (b' & rs & w & E & _ & Hss & Hb').
  by exists b', rs, w.
Qed.

Lemma world_steps_snoc api w qs q rs w' :
  world_steps api w (qs ++ [q]) rs w' -> exists rs1 r w1,
    rs = rs1 ++ [r] /\ length rs1 = length qs /\ world_steps api w qs rs1 w1 /\
    world_step api w1 (Request.opcode q) (Request.body q) r w'.
Proof.
  intros (rs1 & rs2 & w1 & -> & Hl & H1 & H2)%world_steps_app.
  inversion H2 as [|? ? r w2 ? rs3 ? Hr Hn]; subst. inversion Hn; subst. by exists rs1, r, w1.
Qed.

(** C10: no object is used after it is destroyed, in any backend. Let a request that
    destroys an object be answered without an error after any requests to any of the
    eleven backends. Then it is an object of a name the request gave, and after
    whatever further requests, any request that needs the object of that name is
    refused (all in all, up to 2^32 requests). *)
Theorem no_use_after_destroy b qs1 q xs :
  b ∈ all_backends -> destroys (boxed_api b) (Request.opcode q) (Request.body q) xs ->
  Z.of_nat (length (qs1 ++ [q])) <= 2 ^ 32 ->
  exists b1 rs1 r, run_boxed (qs1 ++ [q]) b = Ret (b1, rs1 ++ [r]) /\
    forall out, r = Ok out -> exists x, x ∈ xs /\ forall qs2 q',
      Z.of_nat (length ((qs1 ++ [q]) ++ qs2 ++ [q'])) <= 2 ^ 32 ->
      requires (boxed_api b) (Request.opcode q') (Request.body q') x ->
      exists b2 rs2, length rs2 = length qs2 /\ run_boxed (qs2 ++ [q']) b1 =
        Ret (b2, rs2 ++ [Err (UnknownOpcode (Request.opcode q'))]).
Proof.
  intros Hb Hd Hn. set (l := length (qs1 ++ [q])) in *. set (n := (Z.to_nat (2 ^ 32) - l)%nat).
  pose proof (proj1 (Forall_forall _ _) (all_backends_stand (l + n) ltac:(lia)) b Hb) as Hs.
  destruct (run_boxed_follows _ n b empty_world Hs) as (b1 & rs & w & E & Ha & Hss & Hb1).
  destruct (world_steps_snoc _ _ _ _ _ _ Hss) as (rs1 & r & w1 & -> & _ & H1 & Hr).
  exists b1, rs1, r. split; [exact E|]. intros out ->.
  destruct (destroys_gone _ _ _ _ _ _ _ (world_steps_ok _ _ _ _ _ H1 empty_world_ok) Hd Hr)
    as (x & Hx & Hg).
  exists x. split; [done|]. intros qs2 q' Hl Hq. rewrite length_app in Hl. fold l in Hl.
  assert (n = length (qs2 ++ [q']) + (n - length (qs2 ++ [q'])))%nat as En by lia.
  rewrite En in Hb1.
  destruct (run_boxed_follows _ _ b1 w Hb1) as (b2 & rs & w2 & E2 & _ & Hss2 & _).
  destruct (world_steps_snoc _ _ _ _ _ _ Hss2) as (rs2 & r' & w3 & -> & Hl2 & H2 & Hr').
  rewrite Ha in H2, Hr'. exists b2, rs2. split; [done|].
  by destruct (requires_refused _ _ _ _ _ _ _
    (proj2 (world_steps_gone _ _ _ _ _ _ H2 Hg)) Hq Hr') as [<- _].
Qed.

(** ** Instances *)
Lemma sycl_in_all : box SyclBackend.new ∈ all_backends.
Proof.
  unfold all_backends. repeat (first [apply list_elem_of_here | apply list_elem_of_further]).
Qed.

Lemma cuda_in_all : box CudaBackend.new ∈ all_backends.
Proof.
  unfold all_backends. repeat (first [apply list_elem_of_here | apply list_elem_of_further]).
Qed.

Lemma backends_refine_world_witness :
  exists b' rs w, run_boxed [Request.mk sycl_op.QUEUE_CREATE 1 []; Request.mk 77 2 [x01]]
      (box SyclBackend.new) = Ret (b', rs) /\
    world_steps Sycl empty_world [Request.mk sycl_op.QUEUE_CREATE 1 []; Request.mk 77 2 [x01]]
      rs w /\ boxed_stands 0 w b'.
Proof.
  exact (backends_refine_world (box SyclBackend.new)
    [Request.mk sycl_op.QUEUE_CREATE 1 []; Request.mk 77 2 [x01]] sycl_in_all ltac:(by vm_compute)).
Defined.

(** A context, an allocation that is freed, another context, and the allocation again. *)
Definition demo_free : Request.t := Request.mk cuda_op.MEM_FREE 3
  (cuda.MemFreeRequest.encode (cuda.MemFreeRequest.mk (Handle.new 21 0 0)) []).

Definition demo_cuda : list Request.t := [
  Request.mk cuda_op.CTX_CREATE 1 (cuda.CtxCreateRequest.encode (cuda.CtxCreateRequest.mk 0) []);
  Request.mk cuda_op.MEM_ALLOC 2
    (cuda.MemAllocRequest.encode (cuda.MemAllocRequest.mk (Handle.new 20 0 0) 64) [])].

Definition demo_between : list Request.t := [
  Request.mk cuda_op.CTX_CREATE 4 (cuda.CtxCreateRequest.encode (cuda.CtxCreateRequest.mk 1) [])].

Lemma no_use_after_destroy_witness :
  exists b1 rs1 b2 rs2, run_boxed (demo_cuda ++ [demo_free]) (box CudaBackend.new) =
      Ret (b1, rs1 ++ [Ok []]) /\
    run_boxed (demo_between ++ [demo_free]) b1 =
      Ret (b2, rs2 ++ [Err (UnknownOpcode cuda_op.MEM_FREE)]).
Proof.
  assert (exists fields, read_fields [U64] (Request.body demo_free) = Some fields /\
    name_of 21 (arg 0 fields) = (21, key (Handle.new 21 0 0))) as (fields & Hf & Hx).
  { eexists. split; [vm_compute; reflexivity|by vm_compute]. }
  destruct (no_use_after_destroy (box CudaBackend.new) demo_cuda demo_free
    [(21, key (Handle.new 21 0 0))]) as (b1 & rs1 & r & E & Hr).
  - apply cuda_in_all.
  - exists (mkRule [U64] [] (Destroy 0 [21])), fields, 0%nat, [21]. cbn [map]. rewrite Hx.
    split; [reflexivity|]. split; [exact Hf|]. split; reflexivity.
  - by vm_compute.
  - assert (match run_boxed (demo_cuda ++ [demo_free]) (box CudaBackend.new) with
        Ret (_, rs) => last rs | Panic => None end = Some (Ok [])) as El
      by (vm_compute; reflexivity).
    rewrite E, last_snoc in El. injection El as ->.
    destruct (Hr [] eq_refl) as (x & ->%list_elem_of_singleton & Hq).
    destruct (Hq demo_between demo_free) as (b2 & rs2 & _ & E2).
    + by vm_compute.
    + exists (mkRule [U64] [] (Destroy 0 [21])), fields, 0%nat, 21.
      split; [done|]. split; [done|]. split; [by rewrite Hx|]. right. by left.
    + exists b1, rs1, b2, rs2. split; [exact E|exact E2].
Defined.
