(* ===== verification/SessionProps.v ===== *)
(** The session on any frame at all: it never panics, an error changes nothing,
    a reply is a well-formed correlated response, and only the backend of the
    request's namespace is touched. *)
From S2P Require Import Wire Codecs Contract Handles HandleSpec Effects Backend.
From S2P Require Import VulkanBackend ApiBackends Session Server.

Local Open Scope Z_scope.

Import Session.

(** The header the session stamps on a reply. *)
Definition reply_header (opcode req_id seq : Z) (body : list byte) : FrameHeader.t :=
  FrameHeader.mk PROTOCOL_MAJOR 0 FrameKind.Response opcode req_id seq
    (Z.of_nat (length body)).

(** The opcode of the reply to a request. *)
Definition reply_opcode (h : FrameHeader.t) : Z :=
  if decide (FrameHeader.opcode h = core_op.HELLO) then core_op.WELCOME
  else FrameHeader.opcode h.

Lemma reply_opcode_hello h :
  FrameHeader.opcode h = core_op.HELLO -> reply_opcode h = core_op.WELCOME.
Proof. intros E. unfold reply_opcode. by rewrite decide_True. Qed.

Lemma reply_opcode_other h :
  FrameHeader.opcode h <> core_op.HELLO -> reply_opcode h = FrameHeader.opcode h.
Proof. intros E. unfold reply_opcode. by rewrite decide_False. Qed.

(** The longest body of a reply: the [Welcome]. *)
Definition MAX_BODY : nat := 20.

Lemma reply_header_wf opcode req_id seq body :
  fits 32 opcode -> fits 32 req_id -> fits 64 seq -> fits 32 (Z.of_nat (length body)) ->
  FrameHeader.wf (reply_header opcode req_id seq body).
Proof.
  intros Ho Hr Hs Hb. unfold FrameHeader.wf, reply_header. header_cbn.
  split; [by vm_compute|]. split; [by vm_compute|]. done.
Qed.

Lemma reply_decodes opcode req_id seq body :
  fits 32 opcode -> fits 32 req_id -> fits 64 seq -> (length body <= MAX_BODY)%nat ->
  decode_frame (encode_frame (reply_header opcode req_id seq body) body) =
    Ok (reply_header opcode req_id seq body, body).
Proof.
  intros Ho Hr Hs Hl. apply frame_roundtrip. apply reply_header_wf; [done..|].
  unfold fits, MAX_BODY in *. lia.
Qed.

(** The state after a reply. *)
Definition advanced (s : t) : t :=
  mk (session_id s) (max_frame_body s) (handshook s) (next_seq s + 1) (backends s).

Lemma ready_mono n s : ready (S n) s -> ready n s.
Proof.
  intros [Hid Hmax Hseq Hb]. constructor; [done|done|lia|].
  intros k b Hk. destruct (Hb k b Hk). split; [done|by apply boxed_ready_S].
Qed.

Lemma ready_advanced n s : ready (S n) s -> ready n (advanced s).
Proof.
  intros Hs. destruct (ready_mono _ _ Hs) as [? ? _ ?]. destruct Hs as [_ _ Hseq _].
  constructor; cbn; [done|done|lia|done].
Qed.

Lemma wp_reply opcode req_id body s (Q : t -> presult (list byte) -> Prop) :
  next_seq s + 1 <= max_of 64 -> (length body <= MAX_BODY)%nat ->
  Q (advanced s) (Ok (encode_frame (reply_header opcode req_id (next_seq s) body) body)) ->
  wp (reply opcode req_id body) s Q.
Proof.
  intros Hseq Hl HQ. unfold reply. apply wp_bind. do 2 eexists. split.
  { unfold take_seq. rewrite add_or_panic_ret by done. reflexivity. }
  cbn. apply wp_ret. rewrite wrap_fits by (unfold fits, MAX_BODY in *; lia). exact HQ.
Qed.

(** What answering a frame leaves. *)
Record replied (s : t) (h : FrameHeader.t) (body : list byte) (s' : t)
    (out rbody : list byte) : Prop := {
  rep_frame : out = encode_frame
    (reply_header (reply_opcode h) (FrameHeader.req_id h) (next_seq s) rbody) rbody;
  rep_short : (length rbody <= MAX_BODY)%nat;
  rep_seq : next_seq s' = next_seq s + 1;
  rep_id : session_id s' = session_id s;
  rep_isolated k : k <> opcode_api (FrameHeader.opcode h) ->
    backends s' !! k = backends s !! k;
  rep_domain k : is_Some (backends s' !! k) <-> is_Some (backends s !! k);
  rep_conforms : conforms (FrameHeader.opcode h) rbody;
  rep_max : FrameHeader.opcode h <> core_op.HELLO -> max_frame_body s' = max_frame_body s;
}.

Definition answered (n : nat) (s : t) (h : FrameHeader.t) (body : list byte) (s' : t)
    (r : presult (list byte)) : Prop :=
  ready n s' /\
  match r with
  | Ok out => exists rbody, replied s h body s' out rbody
  | Err _ => s' = s
  end.

Lemma answered_error n s h body e : ready (S n) s -> answered n s h body s (Err e).
Proof. intros. split; [by apply ready_mono|done]. Qed.

Section arms.
Context (n : nat) (h : FrameHeader.t) (body : list byte) (s : t) (Hready : ready (S n) s).

Lemma wp_hello :
  FrameHeader.opcode h = core_op.HELLO -> wp (hello h body) s (answered n s h body).
Proof.
  intros Hop. pose proof Hready as [Hid Hmax Hseq Hb]. unfold hello. apply wp_bind, wp_attempt.
  destruct (Hello.decode body) as [hl|e] eqn:E; [|by apply answered_error].
  case_decide; [by apply wp_throw, answered_error|].
  assert (0 <= Hello.max_frame_body hl) as Hneg.
  { destruct (fixed_decode_encode Hello_fixed _ _ E) as [(_ & _ & _ & ? & _) _]. done. }
  set (s1 := mk (session_id s) (Z.min (Hello.max_frame_body hl) DEFAULT_MAX_FRAME_BODY) true
    (next_seq s) (backends s)).
  assert (ready (S n) s1) as Hs1.
  { constructor; cbn; [done| |done|done]. split; [|apply Z.le_min_r].
    apply Z.min_glb; [done|]. by vm_compute. }
  change (wp (reply core_op.WELCOME (FrameHeader.req_id h) (Welcome.encode
    (Welcome.mk PROTOCOL_MAJOR PROTOCOL_MINOR 0 (max_frame_body s1) (session_id s1)) []))
    s1 (answered n s h body)).
  apply wp_reply; [cbn; lia|cbn; unfold MAX_BODY; lia|].
  split; [by apply ready_advanced|]. eexists. rewrite <- (reply_opcode_hello _ Hop).
  constructor; [reflexivity|..]; cbn;
    try (rewrite Hop; exact I); done || (unfold MAX_BODY; lia).
Qed.

Lemma wp_noop :
  FrameHeader.opcode h = core_op.NOOP ->
  wp (reply core_op.NOOP (FrameHeader.req_id h) []) s (answered n s h body).
Proof.
  intros Hop. pose proof Hready as [Hid Hmax Hseq Hb].
  apply wp_reply; [lia|cbn; unfold MAX_BODY; lia|].
  split; [by apply ready_advanced|]. eexists.
  rewrite <- Hop, <- (reply_opcode_other h) by (rewrite Hop; by vm_compute).
  constructor; [reflexivity|..]; cbn;
    try (rewrite Hop; exact I); done || (unfold MAX_BODY; lia).
Qed.

Lemma wp_route :
  FrameHeader.opcode h <> core_op.HELLO -> wp (route h body) s (answered n s h body).
Proof.
  intros Hop. pose proof Hready as [Hid Hmax Hseq Hb]. unfold wp, route.
  set (api := opcode_api (FrameHeader.opcode h)).
  destruct (backends s !! api) as [b|] eqn:Hapi.
  2:{ do 2 eexists. split; [reflexivity|]. by apply answered_error. }
  destruct (Hb _ _ Hapi) as [Hk Hbr].
  destruct (boxed_handle_spec n (FrameHeader.opcode h) (FrameHeader.req_id h) body b Hbr)
    as (b' & r & E & Hbr' & Ha & Hm).
  apply wp_bind. do 2 eexists. split; [unfold call_backend; rewrite E; reflexivity|].
  destruct r as [resp|e].
  - apply wp_reply; [cbn; lia|unfold MAX_REPLY, MAX_BODY in *; lia|]. split.
    + constructor; cbn; [done|done|lia|].
      intros k b2. destruct (decide (k = api)) as [->|Hne].
      * rewrite lookup_insert_eq. intros [= <-]. by rewrite Ha.
      * rewrite lookup_insert_ne by done. intros Hk2.
        destruct (Hb _ _ Hk2). split; [done|by apply boxed_ready_S].
    + eexists. rewrite <- (reply_opcode_other _ Hop). destruct Hm as [Hlen Hconf].
      constructor; [reflexivity|..]; cbn; try done.
      * unfold MAX_REPLY, MAX_BODY in *. lia.
      * intros k Hne. by rewrite lookup_insert_ne.
      * intros k. destruct (decide (k = api)) as [->|Hne].
        -- rewrite lookup_insert_eq, Hapi. by split.
        -- by rewrite lookup_insert_ne.
  - destruct Hm as [-> _]. cbn. rewrite insert_id by done. destruct s. by apply answered_error.
Qed.
End arms.

Lemma decode_frame_wf frame h body :
  decode_frame frame = Ok (h, body) ->
  FrameHeader.wf h /\ (length frame = HEADER_LEN + length body)%nat.
Proof.
  intros E. destruct (decode_frame_cases frame)
    as [[_ E2]|[(h' & kw & res & body' & _ & _ & _ & E2)|(h' & res & body' & Hwf & _ & -> & E2)]];
    rewrite E2 in E; [done..|]. injection E as -> ->. split; [done|].
  by rewrite length_app, length_header_bytes.
Qed.

(** One frame, whatever its bytes. *)
Lemma session_handle_answered n frame s :
  ready (S n) s ->
  exists s' r, Session.handle frame s = Ret (s', r) /\ ready n s' /\
    match r with
    | Err _ => s' = s
    | Ok out => exists h body rbody,
        decode_frame frame = Ok (h, body) /\
        FrameHeader.body_len h = Z.of_nat (length body) /\
        FrameHeader.body_len h <= max_frame_body s /\
        replied s h body s' out rbody
    end.
Proof.
  intros Hs. unfold Session.handle.
  destruct (decode_frame frame) as [[h body]|e] eqn:E.
  2:{ exists s, (Err e). split; [by apply attempt_bind_err|]. split; [by apply ready_mono|done]. }
  erewrite attempt_bind by done. cbv beta iota.
  unfold validated.
  destruct (Z.ltb_spec (max_frame_body s) (FrameHeader.body_len h)).
  { do 2 eexists. split; [reflexivity|]. split; [by apply ready_mono|done]. }
  destruct (Z.eqb_spec (FrameHeader.body_len h) (Z.of_nat (length body))); cbn [negb].
  2:{ do 2 eexists. split; [reflexivity|]. split; [by apply ready_mono|done]. }
  assert (wp (dispatch h body) s (answered n s h body)) as (s' & r & Eq & Hr & Hm).
  { unfold dispatch. case_decide; [by apply wp_hello|]. case_decide; [by apply wp_noop|].
    by apply wp_route. }
  exists s', r. split; [done|]. split; [done|]. destruct r as [out|e']; [|done].
  destruct Hm as [rbody Hrep]. by exists h, body, rbody.
Qed.

(** ** Properties *)

(** C1: the session survives any input. On a session that is ready for another
    frame, [handle] returns for any bytes whatever, without a panic; the session
    stays ready; and when it reports an error the session, its backends
    included, is exactly what it was. *)
Theorem session_survives n frame s :
  ready (S n) s ->
  exists s' r, Session.handle frame s = Ret (s', r) /\ ready n s' /\
    (forall e, r = Err e -> s' = s).
Proof.
  intros Hs. destruct (session_handle_answered n frame s Hs) as (s' & r & E & Hr & Hm).
  exists s', r. split; [done|]. split; [done|]. by intros e ->.
Qed.


(** C19: requests reach one backend only, and consume one sequence number. A frame
    that is answered advances the sequence counter by one, keeps the session id,
    and leaves every backend other than that of the request's API byte as it
    was; no backend appears or disappears. *)
Theorem session_isolation n frame s s' out :
  ready (S n) s -> Session.handle frame s = Ret (s', Ok out) ->
  exists h body, decode_frame frame = Ok (h, body) /\
    next_seq s' = next_seq s + 1 /\ session_id s' = session_id s /\
    (forall k, k <> opcode_api (FrameHeader.opcode h) -> backends s' !! k = backends s !! k) /\
    (forall k, is_Some (backends s' !! k) <-> is_Some (backends s !! k)).
Proof.
  intros Hs E. destruct (session_handle_answered n frame s Hs) as (s2 & r & E2 & Hr & Hm).
  rewrite E in E2. injection E2 as <- <-.
  destruct Hm as (h & body & rbody & Ed & _ & _ & [_ _ ? ? ? ? _ _]). by exists h, body.
Qed.

(** A request frame as a client builds it. *)
Definition request_frame (opcode req_id seq : Z) (body : list byte) : list byte :=
  encode_frame (FrameHeader.mk PROTOCOL_MAJOR 0 FrameKind.Request opcode req_id seq
    (wrap 32 (Z.of_nat (length body)))) body.

Lemma request_decodes opcode req_id seq body :
  fits 32 opcode -> fits 32 req_id -> fits 64 seq ->
  decode_frame (request_frame opcode req_id seq body) =
    Ok (FrameHeader.mk PROTOCOL_MAJOR 0 FrameKind.Request opcode req_id seq
      (wrap 32 (Z.of_nat (length body))), body).
Proof.
  intros. apply frame_roundtrip. unfold FrameHeader.wf. header_cbn.
  split; [by vm_compute|]. split; [by vm_compute|]. split; [done|]. split; [done|].
  split; [done|]. apply fits_wrap. lia.
Qed.

Lemma handle_request opcode req_id seq body s :
  fits 32 opcode -> fits 32 req_id -> fits 64 seq ->
  Z.of_nat (length body) <= max_frame_body s -> max_frame_body s <= DEFAULT_MAX_FRAME_BODY ->
  Session.handle (request_frame opcode req_id seq body) s =
  dispatch (FrameHeader.mk PROTOCOL_MAJOR 0 FrameKind.Request opcode req_id seq
      (Z.of_nat (length body))) body s.
Proof.
  intros Ho Hq Hs Hl Hmax. unfold Session.handle. rewrite request_decodes by done.
  rewrite wrap_fits.
  2:{ unfold fits. change DEFAULT_MAX_FRAME_BODY with (2 ^ 20) in Hmax. lia. }
  erewrite attempt_bind by done. cbv beta iota. unfold validated. header_cbn.
  rewrite (proj2 (Z.ltb_ge _ _)) by lia. by rewrite Z.eqb_refl.
Qed.

(** A request with a body over the session's bound. *)
Lemma handle_too_large opcode req_id seq body s :
  fits 32 opcode -> fits 32 req_id -> fits 64 seq ->
  fits 32 (Z.of_nat (length body)) -> max_frame_body s < Z.of_nat (length body) ->
  Session.handle (request_frame opcode req_id seq body) s =
  Ret (s, Err (FrameTooLarge (Z.of_nat (length body)))).
Proof.
  intros Ho Hq Hs Hl Hmax. unfold Session.handle. rewrite request_decodes by done.
  rewrite wrap_fits by done. erewrite attempt_bind by done. cbv beta iota.
  unfold validated. header_cbn. by rewrite (proj2 (Z.ltb_lt _ _)) by lia.
Qed.

(** A HELLO of the server's version, and its answer. *)
Definition hello_frame (hl : Hello.t) (req_id seq : Z) : list byte :=
  request_frame core_op.HELLO req_id seq (Hello.encode hl []).

Definition negotiated (hl : Hello.t) (s : t) : t :=
  mk (session_id s) (Z.min (Hello.max_frame_body hl) DEFAULT_MAX_FRAME_BODY) true
    (next_seq s) (backends s).

Definition welcome_of (hl : Hello.t) (s : t) : Welcome.t :=
  Welcome.mk PROTOCOL_MAJOR PROTOCOL_MINOR 0 (max_frame_body (negotiated hl s)) (session_id s).

Lemma handle_hello hl req_id seq s :
  body_fits hl -> 12 <= max_frame_body s <= DEFAULT_MAX_FRAME_BODY ->
  next_seq s + 1 <= max_of 64 -> fits 32 req_id -> fits 64 seq ->
  Session.handle (hello_frame hl req_id seq) s =
  if decide (Hello.proto_major hl = PROTOCOL_MAJOR) then
    let body := Welcome.encode (welcome_of hl s) [] in
    Ret (advanced (negotiated hl s),
      Ok (encode_frame (reply_header core_op.WELCOME req_id (next_seq s) body) body))
  else Ret (s, Err (BadVersion (Hello.proto_major hl) (Hello.proto_minor hl))).
Proof.
  intros Hf Hmax Hs Hq Hseq. unfold hello_frame.
  assert (length (Hello.encode hl []) = 12%nat) as Hl by (apply (fixed_length _ _ Hello_fixed hl)).
  rewrite handle_request; [|by vm_compute|exact Hq|exact Hseq|lia|lia].
  clear Hl.
  unfold dispatch. cbn [FrameHeader.opcode]. rewrite decide_True by done.
  unfold hello. erewrite attempt_bind by (by apply (fixed_encode_decode Hello_fixed hl)).
  cbn [FrameHeader.req_id]. case_decide as Hd.
  - rewrite decide_False by done. done.
  - rewrite decide_True by (by destruct (decide (Hello.proto_major hl = PROTOCOL_MAJOR))).
    destruct (wp_reply core_op.WELCOME req_id (Welcome.encode (welcome_of hl s) [])
      (negotiated hl s) (fun s' r => s' = advanced (negotiated hl s) /\
        r = Ok (encode_frame (reply_header core_op.WELCOME req_id (next_seq s)
          (Welcome.encode (welcome_of hl s) [])) (Welcome.encode (welcome_of hl s) []))))
      as (s' & r & E & -> & ->); [done|cbn; unfold MAX_BODY; lia|done|].
    exact E.
Qed.

Lemma welcome_decodes hl s :
  body_fits hl -> fits 64 (session_id s) ->
  Welcome.decode (Welcome.encode (welcome_of hl s) []) = Ok (welcome_of hl s).
Proof.
  intros (_ & _ & _ & Hb) Hid. apply (fixed_encode_decode Welcome_fixed).
  split; [by vm_compute|]. split; [by vm_compute|]. split; [by vm_compute|]. split; [|done].
  cbn. unfold fits in *. change DEFAULT_MAX_FRAME_BODY with (2 ^ 20). lia.
Qed.

(** C22: the handshake negotiates. Take a HELLO frame whose fields have their
    widths and a session with room for one more frame. When the session's body
    bound admits the 12 bytes of the HELLO, a HELLO of the server's major version
    is answered, under the request's id, with a WELCOME that carries the server's
    version, no features, the session id and the smaller of the client's and the
    server's body bound, and the session adopts that bound and has shaken hands; a
    HELLO of another major version is refused with [BadVersion] and changes
    nothing. A session that negotiated a bound below 12 refuses any HELLO with
    [FrameTooLarge] and does not change. *)
Theorem handshake_negotiates n major minor features bound req_id seq s :
  ready (S n) s -> fits 16 major -> fits 16 minor ->
  fits 32 features -> fits 32 bound -> fits 32 req_id -> fits 64 seq ->
  let frame := request_frame core_op.HELLO req_id seq
    (Hello.encode (Hello.mk major minor features bound) []) in
  let negotiated := Z.min bound DEFAULT_MAX_FRAME_BODY in
  let welcome := Welcome.mk PROTOCOL_MAJOR PROTOCOL_MINOR 0 negotiated (session_id s) in
  (12 <= max_frame_body s -> major = PROTOCOL_MAJOR -> exists s' out,
     Session.handle frame s = Ret (s', Ok out) /\
     is_handshook s' = true /\ max_frame_body s' = negotiated /\
     exists rh rbody, decode_frame out = Ok (rh, rbody) /\
       FrameHeader.opcode rh = core_op.WELCOME /\ FrameHeader.req_id rh = req_id /\
       Welcome.decode rbody = Ok welcome) /\
  (12 <= max_frame_body s -> major <> PROTOCOL_MAJOR ->
     Session.handle frame s = Ret (s, Err (BadVersion major minor))) /\
  (max_frame_body s < 12 -> Session.handle frame s = Ret (s, Err (FrameTooLarge 12))).
Proof.
  intros Hs Hmaj Hminor Hfeat Hbound Hq Hseq frame bound' welcome.
  pose proof Hs as [Hid Hmax [Hs1 Hs2] _]. set (hl := Hello.mk major minor features bound).
  assert (body_fits hl) as Hf by (by split).
  assert (length (Hello.encode hl []) = 12%nat) as Hl by (apply (fixed_length _ _ Hello_fixed hl)).
  split_and!; intros Hmin.
  - intros Hm. pose proof (handle_hello hl req_id seq s Hf ltac:(lia) ltac:(lia) Hq Hseq) as E.
    rewrite decide_True in E by done. do 2 eexists. split; [exact E|].
    split; [done|]. split; [done|]. do 2 eexists. split.
    { apply reply_decodes; [by vm_compute|done|unfold fits, max_of in *; lia|].
      cbn. unfold MAX_BODY. lia. }
    split; [done|]. split; [done|]. by apply (welcome_decodes hl s).
  - intros Hm. pose proof (handle_hello hl req_id seq s Hf ltac:(lia) ltac:(lia) Hq Hseq) as E.
    by rewrite decide_False in E.
  - unfold frame. fold hl.
    rewrite handle_too_large; rewrite ?Hl; [done|by vm_compute|done|done|by vm_compute|lia].
Qed.

(** ** The handshake flag

    Two states that differ in the flag at most, and computations that cannot
    tell them apart. *)
Definition with_handshook (b : bool) (s : t) : t :=
  mk (session_id s) (max_frame_body s) b (next_seq s) (backends s).

Definition same_but_flag (s s' : t) : Prop := with_handshook true s = with_handshook true s'.

Definition flag_blind {A} (m : M t A) : Prop := forall s s',
  same_but_flag s s' ->
  match m s, m s' with
  | Ret (s1, r1), Ret (s2, r2) => same_but_flag s1 s2 /\ r1 = r2
  | Panic, Panic => True
  | _, _ => False
  end.

Lemma flag_blind_bind {A B} (m : M t A) (f : A -> M t B) :
  flag_blind m -> (forall a, flag_blind (f a)) -> flag_blind (m ≫= f).
Proof.
  intros Hm Hf s s' Hs. specialize (Hm s s' Hs). unfold mbind, M_bind.
  destruct (m s) as [[s1 r1]|], (m s') as [[s2 r2]|]; cbn; try done.
  destruct Hm as [Hs' <-]. destruct r1; [by apply Hf|done].
Qed.

Lemma flag_blind_attempt {A} (x : presult A) : flag_blind (attempt x).
Proof. by intros s s' Hs. Qed.

Lemma flag_blind_reply opcode req_id body : flag_blind (reply opcode req_id body).
Proof.
  apply flag_blind_bind; [|by intros seq s s' Hs].
  intros [i1 m1 h1 q1 b1] [i2 m2 h2 q2 b2] Hs. injection Hs as <- <- <- <-.
  unfold take_seq. cbn. by destruct (add_or_panic 64 q1 1).
Qed.

Lemma flag_blind_hello h body : flag_blind (hello h body).
Proof.
  apply flag_blind_bind; [apply flag_blind_attempt|]. intros hl.
  case_decide; [by intros s s' Hs|].
  intros [i1 m1 h1 q1 b1] [i2 m2 h2 q2 b2] Hs. injection Hs as <- <- <- <-.
  by apply flag_blind_reply.
Qed.

Lemma flag_blind_route h body : flag_blind (route h body).
Proof.
  intros [i1 m1 h1 q1 b1] [i2 m2 h2 q2 b2] Hs. injection Hs as <- <- <- <-.
  unfold route. cbn [backends]. destruct (b1 !! _) as [b|]; [|done].
  apply flag_blind_bind; [|intros resp; apply flag_blind_reply|done].
  intros [i3 m3 h3 q3 b3] [i4 m4 h4 q4 b4] Hs. injection Hs as <- <- <- <-.
  unfold call_backend. by destruct (boxed_handle _ _ _ b) as [[b' r]|].
Qed.

Lemma flag_blind_handle frame : flag_blind (Session.handle frame).
Proof.
  apply flag_blind_bind; [apply flag_blind_attempt|]. intros [h body].
  assert (flag_blind (dispatch h body)) as Hd.
  { unfold dispatch. repeat case_decide;
      auto using flag_blind_hello, flag_blind_reply, flag_blind_route. }
  intros s s' Hs. unfold validated.
  assert (max_frame_body s = max_frame_body s') as <-
    by (by apply (f_equal max_frame_body) in Hs).
  destruct (_ <? _); [done|]. destruct (negb _); [done|]. by apply Hd.
Qed.

(** The handshake is not enforced. Whether the handshake has completed has no
    effect on how any frame is handled: two sessions that differ in the flag only
    give the same result, and go to states that differ in the flag at most. So a
    session that has not shaken hands serves every opcode, as one that has. *)
Theorem handshake_not_enforced frame s :
  match Session.handle frame s, Session.handle frame (with_handshook (negb (handshook s)) s) with
  | Ret (s1, r1), Ret (s2, r2) =>
    r1 = r2 /\ with_handshook true s1 = with_handshook true s2
  | Panic, Panic => True
  | _, _ => False
  end.
Proof.
  pose proof (flag_blind_handle frame s (with_handshook (negb (handshook s)) s) eq_refl) as H.
  repeat case_match; try done. by destruct H.
Qed.

(** ** Witnesses: the server's own session *)
Lemma session_survives_witness :
  exists s' r, Session.handle [x00; x01] (Server.make_session 1) = Ret (s', r) /\
    ready 9 s' /\ (forall e, r = Err e -> s' = Server.make_session 1).
Proof.
  apply (session_survives 9 [x00; x01] (Server.make_session 1)).
  apply make_session_ready; by vm_compute.
Defined.

(** A Vulkan [CREATE_INSTANCE] on the server's session: the backend's reply. *)
Definition create_instance_frame : list byte := request_frame vk_op.CREATE_INSTANCE 7 1
  (VkBodies.vk.CreateInstanceRequest.encode (VkBodies.vk.CreateInstanceRequest.mk 3) []).

Definition reply_of (o : outcome (t * presult (list byte))) : bool :=
  match o with Ret (_, Ok _) => true | _ => false end.

Lemma create_instance_answered :
  exists s' out, Session.handle create_instance_frame (Server.make_session 1) = Ret (s', Ok out).
Proof.
  assert (reply_of (Session.handle create_instance_frame (Server.make_session 1)) = true) as H
    by (by vm_compute).
  destruct (Session.handle _ _) as [[s' [out|e]]|]; [by exists s', out|discriminate..].
Defined.


Lemma session_isolation_witness :
  exists s' out,
    Session.handle create_instance_frame (Server.make_session 1) = Ret (s', Ok out) /\
    next_seq s' = 2 /\ backends s' !! 2 = backends (Server.make_session 1) !! 2.
Proof.
  destruct create_instance_answered as (s' & out & E). exists s', out. split; [exact E|].
  destruct (session_isolation 0 create_instance_frame (Server.make_session 1) s' out)
    as (h & body & Ed & Hs & _ & Hiso & _);
    [apply make_session_ready; by vm_compute|exact E|].
  split; [exact Hs|]. apply Hiso. vm_compute in Ed. injection Ed as <- <-. by vm_compute.
Defined.

Lemma handshake_negotiates_witness :
  let s := Server.make_session 5 in
  let tiny := mk 5 8 true 2 (backends s) in
  let frame major := request_frame core_op.HELLO 9 1 (Hello.encode (Hello.mk major 1 0 4096) []) in
  (exists s' out, Session.handle (frame PROTOCOL_MAJOR) s = Ret (s', Ok out) /\
     is_handshook s' = true /\ max_frame_body s' = 4096) /\
  Session.handle (frame 99) s = Ret (s, Err (BadVersion 99 1)) /\
  Session.handle (frame 99) tiny = Ret (tiny, Err (FrameTooLarge 12)).
Proof.
  intros s tiny frame.
  assert (ready 1 s) as Hs by (apply make_session_ready; by vm_compute).
  assert (ready 1 tiny) as Ht.
  { destruct Hs as [? _ _ ?]. split; [done|by vm_compute|by vm_compute|done]. }
  split_and!.
  - destruct (handshake_negotiates 0 PROTOCOL_MAJOR 1 0 4096 9 1 s) as (H & _ & _);
      [exact Hs|by vm_compute..|].
    destruct (H ltac:(by vm_compute) eq_refl) as (s' & out & E & Hh & Hm & _).
    exists s', out. done.
  - destruct (handshake_negotiates 0 99 1 0 4096 9 1 s) as (_ & H & _);
      [exact Hs|by vm_compute..|].
    by apply H; vm_compute.
  - destruct (handshake_negotiates 0 99 1 0 4096 9 1 tiny) as (_ & _ & H);
      [exact Ht|by vm_compute..|].
    by apply H; vm_compute.
Defined.
