(* ===== verification/Transport.v ===== *)
(** The transports (crates/graftx-transport): the [Transport] trait as an
    interface and its implementations. [VecTransport], [NullTransport] and
    [CountingTransport] are instances; [StreamTransport] is one over any byte
    stream; [Loopback] endpoints share two channels and can block, so they are
    operations on the shared store. *)
From S2P Require Import Prelude.

Local Open Scope Z_scope.

(** [io::ErrorKind]: the kinds the crates construct or match on; [Other] stands
    for the rest. *)
Module io.
Inductive ErrorKind := UnexpectedEof | BrokenPipe | InvalidInput | InvalidData | Other.
End io.

#[export] Instance io_eq_dec : EqDecision io.ErrorKind.
Proof. solve_decision. Defined.

Abbreviation io_result := (result io.ErrorKind).

(** [pub trait Transport] *)
Class Transport (T : Type) := {
  send : list byte -> T -> T * io_result unit;
  recv : T -> T * io_result (list byte);
}.

(** [pub fn roundtrip] *)
Definition roundtrip {T} `{Transport T} (frame : list byte) (t : T)
  : T * io_result (list byte) :=
  match send frame t with
  | (t, Ok _) => recv t
  | (t, Err e) => (t, Err e)
  end.

(** ** [Box<dyn Transport + Send>]: each call forwards to the transport it holds *)
Module BoxTransport.
Record t (T : Type) := mk { inner : T }.
Arguments mk {T} _.
Arguments inner {T} _.

Section ops.
Context {T : Type} `{Transport T}.

Definition send (frame : list byte) (self : t T) : t T * io_result unit :=
  let '(inner, r) := Transport.send frame (inner self) in (mk inner, r).

Definition recv (self : t T) : t T * io_result (list byte) :=
  let '(inner, r) := Transport.recv (inner self) in (mk inner, r).
End ops.

#[global] Instance transport {T} `{Transport T} : Transport (t T) :=
  {| Transport.send := send; Transport.recv := recv |}.
End BoxTransport.

(** ** [VecTransport] *)
Module VecTransport.
Record t := mk { outbox : list (list byte); inbox : list (list byte) }.
Definition new : t := mk [] [].
Definition push_inbox (frame : list byte) (self : t) : t :=
  mk (outbox self) (push (inbox self) frame).
Definition send (frame : list byte) (self : t) : t * io_result unit :=
  (mk (push (outbox self) frame) (inbox self), Ok tt).
Definition recv (self : t) : t * io_result (list byte) :=
  match inbox self with
  | frame :: inbox => (mk (outbox self) inbox, Ok frame)
  | [] => (self, Err io.UnexpectedEof)
  end.
#[global] Instance transport : Transport t :=
  {| Transport.send := send; Transport.recv := recv |}.
End VecTransport.

(** ** [NullTransport] *)
Module NullTransport.
Inductive t := mk.
Definition send (_frame : list byte) (self : t) : t * io_result unit := (self, Ok tt).
Definition recv (self : t) : t * io_result (list byte) := (self, Err io.UnexpectedEof).
#[global] Instance transport : Transport t :=
  {| Transport.send := send; Transport.recv := recv |}.
End NullTransport.

(** ** [CountingTransport] *)
Module CountingTransport.
Record t (T : Type) := mk {
  inner : T; bytes_sent : Z; bytes_recv : Z; frames_sent : Z; frames_recv : Z }.
Arguments mk {T} _ _ _ _ _.
Arguments inner {T} _.
Arguments bytes_sent {T} _.
Arguments bytes_recv {T} _.
Arguments frames_sent {T} _.
Arguments frames_recv {T} _.

Section ops.
Context {T : Type} `{Transport T}.

Definition new (inner : T) : t T := mk inner 0 0 0 0.
Definition into_inner (self : t T) : T := inner self.

Definition send (frame : list byte) (self : t T) : t T * io_result unit :=
  match Transport.send frame (inner self) with
  | (inner, Err e) =>
    (mk inner (bytes_sent self) (bytes_recv self) (frames_sent self) (frames_recv self),
     Err e)
  | (inner, Ok _) =>
    (mk inner
       (saturating_add 64 (bytes_sent self) (wrap 64 (Z.of_nat (length frame))))
       (bytes_recv self) (saturating_add 64 (frames_sent self) 1) (frames_recv self),
     Ok tt)
  end.

Definition recv (self : t T) : t T * io_result (list byte) :=
  match Transport.recv (inner self) with
  | (inner, Err e) =>
    (mk inner (bytes_sent self) (bytes_recv self) (frames_sent self) (frames_recv self),
     Err e)
  | (inner, Ok frame) =>
    (mk inner (bytes_sent self)
       (saturating_add 64 (bytes_recv self) (wrap 64 (Z.of_nat (length frame))))
       (frames_sent self) (saturating_add 64 (frames_recv self) 1),
     Ok frame)
  end.
End ops.

#[global] Instance transport {T} `{Transport T} : Transport (t T) :=
  {| Transport.send := send; Transport.recv := recv |}.
End CountingTransport.

(** ** [StreamTransport]

    [Read + Write]: what the transport uses of the byte stream it wraps. *)
Class ByteStream (S : Type) := {
  write_all : list byte -> S -> S * io_result unit;
  flush : S -> S * io_result unit;
  read_exact : nat -> S -> S * io_result (list byte);
}.

Definition MAX_FRAME : Z := 64 * 1024 * 1024.

Module StreamTransport.
Record t (S : Type) := mk { inner : S; max_frame : Z }.
Arguments mk {S} _ _.
Arguments inner {S} _.
Arguments max_frame {S} _.

Section ops.
Context {S : Type} `{ByteStream S}.

Definition with_max_frame (inner : S) (max_frame : Z) : t S := mk inner max_frame.
Definition new (inner : S) : t S := with_max_frame inner MAX_FRAME.
Definition into_inner (self : t S) : S := inner self.

Definition send (frame : list byte) (self : t S) : t S * io_result unit :=
  if max_of 32 <? Z.of_nat (length frame) then (self, Err io.InvalidInput)
  else
    let len := Z.of_nat (length frame) in
    match write_all (le_bytes 4 len) (inner self) with
    | (s, Err e) => (mk s (max_frame self), Err e)
    | (s, Ok _) =>
      match write_all frame s with
      | (s, Err e) => (mk s (max_frame self), Err e)
      | (s, Ok _) => let '(s, r) := flush s in (mk s (max_frame self), r)
      end
    end.

Definition recv (self : t S) : t S * io_result (list byte) :=
  match read_exact 4 (inner self) with
  | (s, Err err) =>
    if decide (err = io.UnexpectedEof) then (mk s (max_frame self), Err io.UnexpectedEof)
    else (mk s (max_frame self), Err err)
  | (s, Ok header) =>
    let len := of_le_bytes header in
    if max_frame self <? len then (mk s (max_frame self), Err io.InvalidData)
    else
      let '(s, r) := read_exact (Z.to_nat len) s in (mk s (max_frame self), r)
  end.
End ops.

#[global] Instance transport {S} `{ByteStream S} : Transport (t S) :=
  {| Transport.send := send; Transport.recv := recv |}.
End StreamTransport.

(** An in-memory stream: what is written, and what is left to read. A read past
    the end consumes what is there and reports [UnexpectedEof]. *)
Module Pipe.
Record t := mk { written : list byte; unread : list byte }.
#[global] Instance stream : ByteStream t := {|
  write_all bytes self := (mk (written self ++ bytes) (unread self), Ok tt);
  flush self := (self, Ok tt);
  read_exact n self :=
    if decide (n <= length (unread self))%nat then
      (mk (written self) (drop n (unread self)), Ok (take n (unread self)))
    else (mk (written self) [], Err io.UnexpectedEof) |}.
End Pipe.

(** ** [Loopback]

    [loopback()] creates two channels and gives each endpoint the sender of one
    and the receiver of the other. A [std::sync::mpsc] channel is a queue with
    the liveness of its two ends; [recv] on an empty channel whose sender lives
    blocks. *)
Module Loopback.
Record channel := mkChannel {
  queue : list (list byte); tx_alive : bool; rx_alive : bool }.

(** Channel [a] carries what endpoint 0 sends, [b] what endpoint 1 sends. *)
Record net := mkNet { a : channel; b : channel }.

Definition loopback : net := mkNet (mkChannel [] true true) (mkChannel [] true true).

Definition tx_of (side : bool) (n : net) : channel := if side then b n else a n.
Definition rx_of (side : bool) (n : net) : channel := if side then a n else b n.
Definition set_tx (side : bool) (c : channel) (n : net) : net :=
  if side then mkNet (a n) c else mkNet c (b n).
Definition set_rx (side : bool) (c : channel) (n : net) : net :=
  if side then mkNet c (b n) else mkNet (a n) c.

Definition send (side : bool) (frame : list byte) (n : net) : net * io_result unit :=
  let c := tx_of side n in
  if rx_alive c then
    (set_tx side (mkChannel (push (queue c) frame) (tx_alive c) (rx_alive c)) n, Ok tt)
  else (n, Err io.BrokenPipe).

(** [None]: the call blocks. *)
Definition recv (side : bool) (n : net) : option (net * io_result (list byte)) :=
  let c := rx_of side n in
  match queue c with
  | frame :: queue => Some (set_rx side (mkChannel queue (tx_alive c) (rx_alive c)) n, Ok frame)
  | [] => if tx_alive c then None else Some (n, Err io.UnexpectedEof)
  end.

(** Dropping an endpoint closes its sender and its receiver; what is queued
    towards it is lost. *)
Definition drop_endpoint (side : bool) (n : net) : net :=
  let n := set_tx side (mkChannel (queue (tx_of side n)) false (rx_alive (tx_of side n))) n in
  set_rx side (mkChannel [] (tx_alive (rx_of side n)) false) n.
End Loopback.
