(* ===== verification/Process.v ===== *)
(** What the repository's binaries use of the process they run in: writers,
    exit codes, paths, and a file system. A writer and a file system are classes,
    for the program is handed them; [Buffer] (a [Vec<u8>]), [Sink] (an output
    that can close) and [Tree] (files in memory) are the instances the witnesses
    run on. *)
From stdpp Require Import sorting.
From Stdlib Require Import Ascii.
From Stdlib Require Strings.String.
From S2P Require Import Prelude Sorts Text Transport.

Local Open Scope Z_scope.

(** ** Exit codes *)
Module ExitCode.
Definition SUCCESS : Z := 0.
Definition FAILURE : Z := 1.
End ExitCode.

(** ** Writers

    [std::io::Write]: one [write!] or [writeln!] is one [write_fmt]. *)
Class Write (W : Type) := write_fmt : text -> W -> W * io_result unit.

(** [let _ = writeln!(out, ...)] *)
Definition write_ignored {W} `{Write W} (t : text) (out : W) : W := (write_fmt t out).1.

(** [writeln!(out, ...)?; ...]: the first error ends the function. *)
Fixpoint write_all_lines {W} `{Write W} (ls : list text) (out : W) : W * io_result unit :=
  match ls with
  | [] => (out, Ok tt)
  | l :: ls =>
    match write_fmt (l ++ nl) out with
    | (out, Ok _) => write_all_lines ls out
    | (out, Err e) => (out, Err e)
    end
  end.

(** [print!]: a write error panics. *)
Definition print {W} `{Write W} (t : text) (out : W) : outcome W :=
  match write_fmt t out with (out, Ok _) => Ret out | (_, Err _) => Panic end.

Module Buffer.
Record t := mk { written : text }.
#[global] Instance write : Write t := fun s out => (mk (written out ++ s), Ok tt).
End Buffer.

(** An output with room for so many more writes, whose reader then goes away. *)
Module Sink.
Record t := mk { written : text; room : nat }.
#[global] Instance write : Write t := fun s out =>
  match room out with
  | O => (out, Err io.BrokenPipe)
  | S room => (mk (written out ++ s) room, Ok tt)
  end.
End Sink.

(** The standard streams of a binary. [println!] and [eprintln!] panic when the
    stream cannot be written to. *)
Module Console.
Record t (W : Type) := mk { stdout : W; stderr : W }.
Arguments mk {W} _ _.
Arguments stdout {W} _.
Arguments stderr {W} _.

Section ops.
Context {W : Type} `{Write W}.

Definition set_stdout (out : W) (p : t W) : t W := mk out (stderr p).
Definition set_stderr (err : W) (p : t W) : t W := mk (stdout p) err.

Definition println (line : text) (p : t W) : outcome (t W) :=
  out ← print (line ++ nl) (stdout p); Ret (set_stdout out p).

Definition eprintln (line : text) (p : t W) : outcome (t W) :=
  err ← print (line ++ nl) (stderr p); Ret (set_stderr err p).
End ops.
End Console.

(** [f64]: what the benchmarks do with it. Its rounding is not modelled. *)
Class F64 (F : Type) := {
  f64_of : Z -> F;
  f64_mul : F -> F -> F;
  f64_div : F -> F -> F;
  f64_fixed : nat -> F -> text }.

(** A writer that takes everything it is given. *)
Class Reliable (W : Type) `{Write W} := {
  content : W -> text;
  write_fmt_reliable : forall t out, exists out',
    write_fmt t out = (out', Ok tt) /\ content out' = content out ++ t }.

#[export] Instance buffer_reliable : Reliable Buffer.t.
Proof. refine {| content := Buffer.written |}. intros t out. by eexists. Defined.

Section reliable.
Context {W : Type} `{Reliable W}.

Lemma print_reliable s out : exists out',
  print s out = Ret out' /\ content out' = content out ++ s.
Proof.
  destruct (write_fmt_reliable s out) as (out' & E & Hc). exists out'.
  unfold print. by rewrite E.
Qed.

Lemma write_ignored_reliable s out : content (write_ignored s out) = content out ++ s.
Proof.
  destruct (write_fmt_reliable s out) as (out' & E & Hc). unfold write_ignored. by rewrite E.
Qed.

Lemma write_all_lines_reliable ls out : exists out',
  write_all_lines ls out = (out', Ok tt) /\
  content out' = content out ++ concat (map (fun l => l ++ nl) ls).
Proof.
  revert out. induction ls as [|l ls IH]; intros out; cbn [write_all_lines map concat].
  { exists out. by rewrite app_nil_r. }
  destruct (write_fmt_reliable (l ++ nl) out) as (out' & E & Hc). rewrite E.
  destruct (IH out') as (out2 & -> & Hc2). exists out2. split; [done|].
  by rewrite Hc2, Hc, <- app_assoc.
Qed.

(** [println!] and [eprintln!] on such streams. *)
Lemma println_reliable line (p : Console.t W) : exists p',
  Console.println line p = Ret p' /\
  content (Console.stdout p') = content (Console.stdout p) ++ line ++ nl /\
  Console.stderr p' = Console.stderr p.
Proof.
  destruct (print_reliable (line ++ nl) (Console.stdout p)) as (out & E & Hc).
  eexists. unfold Console.println. rewrite E. cbn. done.
Qed.

Lemma eprintln_reliable line (p : Console.t W) : exists p',
  Console.eprintln line p = Ret p' /\
  content (Console.stderr p') = content (Console.stderr p) ++ line ++ nl /\
  Console.stdout p' = Console.stdout p.
Proof.
  destruct (print_reliable (line ++ nl) (Console.stderr p)) as (err & E & Hc).
  eexists. unfold Console.eprintln. rewrite E. cbn. done.
Qed.
End reliable.

(** ** Texts in order

    [str] compares bytewise. *)
Definition text_le (a b : text) : Prop :=
  String.le (Strings.String.string_of_list_ascii a) (Strings.String.string_of_list_ascii b).

#[export] Instance text_le_dec : RelDecision text_le.
Proof. unfold text_le. intros x y. apply _. Defined.
#[export] Instance text_le_total : Total text_le.
Proof. intros x y. unfold text_le. apply (total String.le). Qed.
#[export] Instance text_le_trans : Transitive text_le.
Proof. intros x y z. unfold text_le. apply transitivity. Qed.

(** ** Paths

    A path is whether it is absolute and its components, as
    [Path::components] yields them. *)
Module Path.
Record t := mk { absolute : bool; comps : list text }.

#[export] Instance t_eq_dec : EqDecision t.
Proof. solve_decision. Defined.

(** Repeated separators and inner dots are no components. *)
Fixpoint inner_comps (parts : list text) : list text :=
  match parts with
  | [] => []
  | p :: parts =>
    if decide (p = [] \/ p = lit ".") then inner_comps parts else p :: inner_comps parts
  end.

(** [Path::new] *)
Definition new (s : text) : t :=
  if starts_with s "/" then mk true (inner_comps (split_on "/"%char s))
  else
    match split_on "/"%char s with
    | p :: parts =>
      mk false (if decide (p = []) then inner_comps parts else p :: inner_comps parts)
    | [] => mk false []
    end.

Definition join (base : t) (rel : t) : t :=
  if absolute rel then rel else mk (absolute base) (comps base ++ comps rel).

(** [Path::parent] *)
Definition parent (p : t) : option t :=
  match rev (comps p) with
  | [] => None
  | _ :: r => Some (mk (absolute p) (rev r))
  end.

(** [Path::file_name] *)
Definition file_name (p : t) : option text :=
  match rev (comps p) with
  | [] => None
  | c :: _ => if decide (c = lit ".." \/ c = lit ".") then None else Some c
  end.

(** What follows the last dot of a file name that has something before it. *)
Definition extension_of (name : text) : option text :=
  match rev (split_on "."%char name) with
  | ext :: (_ :: _ as before) =>
    if decide (rev before = [[]]) then None else Some ext
  | _ => None
  end.

Definition extension (p : t) : option text := file_name p ≫= extension_of.

Definition display (p : t) : text :=
  (if absolute p then lit "/" else []) ++ Text.join "/" (comps p).

(** The order of paths is that of their components. *)
Definition comp_rank (c : text) : Z :=
  if decide (c = lit ".") then 0 else if decide (c = lit "..") then 1 else 2.

Definition comp_le (c d : text) : Prop :=
  comp_rank c < comp_rank d \/ (comp_rank c = comp_rank d /\ text_le c d).

Fixpoint comps_le (xs ys : list text) : Prop :=
  match xs, ys with
  | [], _ => True
  | _ :: _, [] => False
  | x :: xs, y :: ys => if decide (x = y) then comps_le xs ys else comp_le x y
  end.

Definition le (p q : t) : Prop :=
  if decide (absolute p = absolute q) then comps_le (comps p) (comps q)
  else absolute p = true.

#[global] Instance le_dec : RelDecision le.
Proof.
  intros [a xs] [b ys]. unfold le. cbn. case_decide; [|apply _]. clear.
  revert ys. induction xs as [|x xs IH]; intros [|y ys]; cbn; [apply _..|].
  case_decide; [apply IH|unfold comp_le; apply _].
Defined.

#[global] Instance le_total : Total le.
Proof.
  intros [a xs] [b ys]. unfold le. cbn. destruct (decide (a = b)) as [->|Hab].
  - rewrite decide_True by done. revert ys.
    induction xs as [|x xs IH]; intros [|y ys]; cbn; [by left|by left|by right|].
    destruct (decide (x = y)) as [->|Hxy]; [by rewrite decide_True|].
    rewrite !decide_False by done. unfold comp_le.
    destruct (Z.lt_trichotomy (comp_rank x) (comp_rank y)) as [?|[?|?]]; [by left; left| |by right; left].
    destruct (total text_le x y); [left|right]; by right.
  - rewrite !decide_False by done. destruct a, b; naive_solver.
Qed.
End Path.
