(* ===== verification/Files.v ===== *)
(** File systems: the calls of [std::fs] that the repository's task runner makes,
    as a class with the laws it relies on, and a tree of files in memory that
    satisfies them. *)
From Stdlib Require Import Ascii.
From S2P Require Import Prelude Sorts Text Transport Process.

(** [std::fs::FileType], which does not follow symbolic links. *)
Inductive file_type := IsDir | IsFile | IsOther.

#[export] Instance file_type_eq_dec : EqDecision file_type.
Proof. solve_decision. Defined.

Record dir_entry := mkEntry { entry_path : Path.t; entry_type : result text file_type }.

(** The errors are known by the texts they print. *)
Class FileSystem (F : Type) := {
  path_exists : Path.t -> F -> bool;
  read_dir : Path.t -> F -> result text (list (result text dir_entry));
  read_to_string : Path.t -> F -> result text text;
  write_file : Path.t -> text -> F -> F * result text unit;
}.

Class FileSystemLaws (F : Type) `{FileSystem F} := {
  (** A file reads back as it was written. *)
  read_written p c f f' :
    utf8 c = true -> write_file p c f = (f', Ok tt) -> read_to_string p f' = Ok c;
  (** [read_to_string] refuses what is not UTF-8. *)
  read_utf8 p c f : read_to_string p f = Ok c -> utf8 c = true;
}.

(** ** Files in memory

    The working directory is the root. *)
Module Tree.
Local Set Warnings "-register-all".
Inductive t :=
| FileNode (content : text)
| DirNode (children : list (text * t)).

Definition type_of (n : t) : file_type :=
  match n with FileNode _ => IsFile | DirNode _ => IsDir end.

Fixpoint child (name : text) (cs : list (text * t)) : option t :=
  match cs with
  | [] => None
  | (m, n) :: cs => if decide (m = name) then Some n else child name cs
  end.

Fixpoint set_child (name : text) (n : t) (cs : list (text * t)) : list (text * t) :=
  match cs with
  | [] => [(name, n)]
  | (m, k) :: cs => if decide (m = name) then (m, n) :: cs else (m, k) :: set_child name n cs
  end.

(** The node a path leads to, [parents] being the way back. *)
Fixpoint walk (parents : list t) (cur : t) (comps : list text) : option t :=
  match comps with
  | [] => Some cur
  | c :: comps =>
    match cur with
    | FileNode _ => None
    | DirNode cs =>
      if decide (c = lit ".") then walk parents cur comps
      else if decide (c = lit "..") then
        match parents with p :: parents => walk parents p comps | [] => walk [] cur comps end
      else n ← child c cs; walk (cur :: parents) n comps
    end
  end.

Definition node_at (p : Path.t) (f : t) : option t := walk [] f (Path.comps p).

Definition normal (c : text) : Prop := c <> lit "." /\ c <> lit "..".

#[export] Instance normal_dec c : Decision (normal c).
Proof. unfold normal. apply _. Defined.

(** A file goes where its directory is. *)
Fixpoint put (comps : list text) (c : text) (f : t) : option t :=
  match comps, f with
  | [name], DirNode cs =>
    match child name cs with
    | Some (DirNode _) => None
    | _ => if decide (normal name) then Some (DirNode (set_child name (FileNode c) cs)) else None
    end
  | name :: comps, DirNode cs =>
    if decide (normal name) then
      n ← child name cs;
      n' ← put comps c n;
      Some (DirNode (set_child name n' cs))
    else None
  | _, _ => None
  end.

#[global] Instance file_system : FileSystem t := {|
  path_exists p f := bool_decide (is_Some (node_at p f));
  read_dir p f :=
    match node_at p f with
    | Some (DirNode cs) =>
      Ok (map (fun e => Ok (mkEntry (Path.join p (Path.mk false [e.1])) (Ok (type_of e.2)))) cs)
    | Some (FileNode _) => Err (lit "Not a directory (os error 20)")
    | None => Err (lit "No such file or directory (os error 2)")
    end;
  read_to_string p f :=
    match node_at p f with
    | Some (FileNode c) =>
      if utf8 c then Ok c else Err (lit "stream did not contain valid UTF-8")
    | Some (DirNode _) => Err (lit "Is a directory (os error 21)")
    | None => Err (lit "No such file or directory (os error 2)")
    end;
  write_file p c f :=
    match put (Path.comps p) c f with
    | Some f => (f, Ok tt)
    | None => (f, Err (lit "No such file or directory (os error 2)"))
    end |}.

(** How deep the directories go. *)
Fixpoint depth (n : t) : nat :=
  match n with
  | FileNode _ => 0
  | DirNode cs => S ((fix go cs := match cs with
      | [] => 0%nat
      | (_, n) :: cs => Nat.max (depth n) (go cs)
      end) cs)
  end.

(** The files under a directory at [dir], in the order it lists them. *)
Fixpoint files_under (dir : Path.t) (n : t) : list (Path.t * text) :=
  match n with
  | FileNode _ => []
  | DirNode cs => (fix go cs := match cs with
      | [] => []
      | (name, n) :: cs =>
        let path := Path.join dir (Path.mk false [name]) in
        match n with
        | FileNode c => [(path, c)]
        | DirNode _ => files_under path n
        end ++ go cs
      end) cs
  end.

(** Names are names, and no directory holds one twice. *)
Fixpoint wf (n : t) : Prop :=
  match n with
  | FileNode _ => True
  | DirNode cs => NoDup (map fst cs) /\ (fix go cs := match cs with
      | [] => True
      | (name, n) :: cs => normal name /\ wf n /\ go cs
      end) cs
  end.

Lemma wf_child cs name n :
  wf (DirNode cs) -> (name, n) ∈ cs -> normal name /\ wf n /\ child name cs = Some n.
Proof.
  intros [Hn Hc]. revert Hn Hc. induction cs as [|[m k] cs IH]; cbn [map fst child].
  { by intros _ _ ?%not_elem_of_nil. }
  intros [Hm Hn]%NoDup_cons (Hnorm & Hk & Hc) [[= -> ->]|Hin]%elem_of_cons.
  - by rewrite decide_True.
  - destruct (IH Hn Hc Hin) as (? & ? & ?). rewrite decide_False; [done|].
    intros ->. apply Hm. apply list_elem_of_fmap. by exists (name, n).
Qed.

Lemma depth_child cs name n : (name, n) ∈ cs -> (depth n < depth (DirNode cs))%nat.
Proof.
  cbn [depth]. induction cs as [|[m k] cs IH]; [by intros ?%not_elem_of_nil|].
  intros [[= -> ->]|Hin]%elem_of_cons; [lia|]. specialize (IH Hin). lia.
Qed.

Lemma child_set name n cs : child name (set_child name n cs) = Some n.
Proof.
  induction cs as [|[m k] cs IH]; cbn; [by rewrite decide_True|].
  case_decide as E; cbn; [by rewrite decide_True|by rewrite decide_False].
Qed.

Lemma walk_put parents comps c f f' :
  put comps c f = Some f' -> walk parents f' comps = Some (FileNode c).
Proof.
  revert parents f f'. induction comps as [|name comps IH]; intros parents f f' E; [done|].
  assert (exists cs n, f' = DirNode (set_child name n cs) /\ normal name /\
    walk (f' :: parents) n comps = Some (FileNode c)) as (cs & n & -> & [Hd Hdd] & Hw).
  { cbn [put] in E. destruct comps as [|name' comps], f as [c'|cs]; try done.
    - assert (normal name /\ f' = DirNode (set_child name (FileNode c) cs)) as [Hn ->].
      { destruct (child name cs) as [[]|]; try done; case_decide; naive_solver. }
      by exists cs, (FileNode c).
    - case_decide; [|done]. destruct (child name cs) as [n|]; cbn [mbind option_bind] in E; [|done].
      destruct (put (name' :: comps) c n) as [n'|] eqn:En; [|done].
      injection E as <-. exists cs, n'. split; [done|]. split; [done|]. by apply IH with n. }
  cbn [walk]. rewrite !decide_False by done. by rewrite child_set.
Qed.

Lemma walk_app parents cur xs ys n :
  walk parents cur xs = Some n -> exists parents', walk parents cur (xs ++ ys) = walk parents' n ys.
Proof.
  revert parents cur. induction xs as [|x xs IH]; intros parents cur; cbn [walk app].
  { intros [= ->]. by exists parents. }
  destruct cur as [|cs]; [done|]. case_decide; [by apply IH|].
  case_decide; [destruct parents; by apply IH|].
  destruct (child x cs) as [k|]; [by apply IH|done].
Qed.

Lemma node_at_child (f : t) dir cs name n :
  node_at dir f = Some (DirNode cs) -> normal name -> child name cs = Some n ->
  node_at (Path.join dir (Path.mk false [name])) f = Some n.
Proof.
  intros Hd [Hdot Hdd] Hc. unfold node_at. cbn [Path.join Path.absolute Path.comps].
  destruct (walk_app [] f (Path.comps dir) [name] _ Hd) as [parents' ->].
  cbn [walk]. by rewrite !decide_False, Hc by done.
Qed.

#[global] Instance laws : FileSystemLaws t.
Proof.
  split.
  - intros p c f f' Hu. cbn. destruct (put _ _ _) as [g|] eqn:E; [|done]. intros [= <-].
    unfold node_at. by rewrite (walk_put [] _ _ _ _ E), Hu.
  - intros p c f. cbn. destruct (node_at p f) as [[]|]; try done.
    destruct (utf8 content) eqn:E; by intros [= <-].
Qed.
End Tree.
