(* ===== verification/XtaskOpcodes.v ===== *)
(** The task runner's opcode table (crates/graftx-xtask/src/opcodes.rs): the table
    itself, its renderings, and the lock file that freezes it. *)
From S2P Require Import Prelude Sorts Text Process Files.

Local Open Scope Z_scope.

Module OpcodeEntry.
Record t := mk { api_name : text; api_id : Z; name : text; call_id : Z }.

#[export] Instance t_eq_dec : EqDecision t.
Proof. solve_decision. Defined.

(** [((api_id as u32) << 24) | (call_id & 0x00FF_FFFF)] *)
Definition opcode (self : t) : Z :=
  Z.lor (wrap 32 (Z.shiftl (api_id self) 24)) (Z.land (call_id self) 0x00FFFFFF).
End OpcodeEntry.

(** ** [OPCODES], one list per API *)
Definition core_opcodes : list OpcodeEntry.t := [
  OpcodeEntry.mk "Core" 0x00 "HELLO" 0x000001;
  OpcodeEntry.mk "Core" 0x00 "WELCOME" 0x000002;
  OpcodeEntry.mk "Core" 0x00 "NOOP" 0x000003].

Definition vulkan_opcodes : list OpcodeEntry.t := [
  OpcodeEntry.mk "Vulkan" 0x01 "CREATE_INSTANCE" 0x000001;
  OpcodeEntry.mk "Vulkan" 0x01 "DESTROY_INSTANCE" 0x000002;
  OpcodeEntry.mk "Vulkan" 0x01 "ENUMERATE_PHYSICAL_DEVICES" 0x000003;
  OpcodeEntry.mk "Vulkan" 0x01 "GET_PHYSICAL_DEVICE_PROPERTIES" 0x000004;
  OpcodeEntry.mk "Vulkan" 0x01 "CREATE_DEVICE" 0x000005;
  OpcodeEntry.mk "Vulkan" 0x01 "DESTROY_DEVICE" 0x000006;
  OpcodeEntry.mk "Vulkan" 0x01 "GET_DEVICE_QUEUE" 0x000007;
  OpcodeEntry.mk "Vulkan" 0x01 "DEVICE_WAIT_IDLE" 0x000008;
  OpcodeEntry.mk "Vulkan" 0x01 "ALLOCATE_MEMORY" 0x000010;
  OpcodeEntry.mk "Vulkan" 0x01 "CREATE_BUFFER" 0x000011;
  OpcodeEntry.mk "Vulkan" 0x01 "BIND_BUFFER_MEMORY" 0x000012].

Definition open_gl_opcodes : list OpcodeEntry.t := [
  OpcodeEntry.mk "OpenGl" 0x02 "CREATE_CONTEXT" 0x000001;
  OpcodeEntry.mk "OpenGl" 0x02 "MAKE_CURRENT" 0x000002;
  OpcodeEntry.mk "OpenGl" 0x02 "GEN_BUFFER" 0x000003].

Definition cuda_opcodes : list OpcodeEntry.t := [
  OpcodeEntry.mk "Cuda" 0x03 "CTX_CREATE" 0x000001;
  OpcodeEntry.mk "Cuda" 0x03 "MEM_ALLOC" 0x000002;
  OpcodeEntry.mk "Cuda" 0x03 "MEM_FREE" 0x000003].

Definition open_cl_opcodes : list OpcodeEntry.t := [
  OpcodeEntry.mk "OpenCl" 0x04 "CREATE_CONTEXT" 0x000001;
  OpcodeEntry.mk "OpenCl" 0x04 "CREATE_BUFFER" 0x000002;
  OpcodeEntry.mk "OpenCl" 0x04 "RELEASE_BUFFER" 0x000003].

Definition hip_opcodes : list OpcodeEntry.t := [
  OpcodeEntry.mk "Hip" 0x05 "MALLOC" 0x000001;
  OpcodeEntry.mk "Hip" 0x05 "FREE" 0x000002;
  OpcodeEntry.mk "Hip" 0x05 "STREAM_CREATE" 0x000003].

Definition level_zero_opcodes : list OpcodeEntry.t := [
  OpcodeEntry.mk "LevelZero" 0x06 "CONTEXT_CREATE" 0x000001;
  OpcodeEntry.mk "LevelZero" 0x06 "MEM_ALLOC_DEVICE" 0x000002;
  OpcodeEntry.mk "LevelZero" 0x06 "MEM_FREE" 0x000003].

Definition video_opcodes : list OpcodeEntry.t := [
  OpcodeEntry.mk "Video" 0x07 "CREATE_DECODE_SESSION" 0x000001;
  OpcodeEntry.mk "Video" 0x07 "DECODE_FRAME" 0x000002;
  OpcodeEntry.mk "Video" 0x07 "DESTROY_SESSION" 0x000003].

Definition web_gpu_opcodes : list OpcodeEntry.t := [
  OpcodeEntry.mk "WebGpu" 0x08 "REQUEST_DEVICE" 0x000001;
  OpcodeEntry.mk "WebGpu" 0x08 "CREATE_BUFFER" 0x000002;
  OpcodeEntry.mk "WebGpu" 0x08 "DESTROY_BUFFER" 0x000003].

Definition opti_x_opcodes : list OpcodeEntry.t := [
  OpcodeEntry.mk "OptiX" 0x09 "CONTEXT_CREATE" 0x000001;
  OpcodeEntry.mk "OptiX" 0x09 "PIPELINE_CREATE" 0x000002;
  OpcodeEntry.mk "OptiX" 0x09 "DESTROY" 0x000003].

Definition sycl_opcodes : list OpcodeEntry.t := [
  OpcodeEntry.mk "Sycl" 0x0A "QUEUE_CREATE" 0x000001;
  OpcodeEntry.mk "Sycl" 0x0A "MALLOC_DEVICE" 0x000002;
  OpcodeEntry.mk "Sycl" 0x0A "FREE" 0x000003].

Definition amf_opcodes : list OpcodeEntry.t := [
  OpcodeEntry.mk "Amf" 0x0B "CREATE_ENCODER" 0x000001;
  OpcodeEntry.mk "Amf" 0x0B "ENCODE_FRAME" 0x000002;
  OpcodeEntry.mk "Amf" 0x0B "DESTROY_ENCODER" 0x000003].

Definition OPCODES : list OpcodeEntry.t :=
  core_opcodes ++ vulkan_opcodes ++ open_gl_opcodes ++ cuda_opcodes ++ open_cl_opcodes ++ hip_opcodes ++ level_zero_opcodes ++ video_opcodes ++ web_gpu_opcodes ++ opti_x_opcodes ++ sycl_opcodes ++ amf_opcodes.

(** ** Renderings *)
(** The sorting key [e.opcode() & 0x00FF_FFFF], and the call id shown. *)
Definition call_of (entry : OpcodeEntry.t) : Z := Z.land (OpcodeEntry.opcode entry) 0x00FFFFFF.

Definition format_opcode (entry : OpcodeEntry.t) : text :=
  let call := call_of entry in
  "0x" ++ hex_upper 2 (OpcodeEntry.api_id entry) ++ "_" ++ hex_upper 6 call.

Definition table_row (entry : OpcodeEntry.t) : text :=
  "| " ++ format_opcode entry ++ " | " ++ OpcodeEntry.api_name entry ++ " | " ++
  OpcodeEntry.name entry ++ " |" ++ nl.

Definition render_opcode_table (entries : list OpcodeEntry.t) : text :=
  "| Opcode | API | Name |" ++ nl ++ "| --- | --- | --- |" ++ nl ++
  concat (map table_row entries).

Definition DOC_HEADER : text :=
  "# GraftX opcode table" ++ nl ++ nl ++
  "Generated by `cargo xtask opcodes-md`. Do not edit by hand; regenerate it with" ++ nl ++
  "`cargo xtask opcodes-md --write` and gate drift in CI with `cargo xtask opcodes-md --check`.".

Definition render_doc (entries : list OpcodeEntry.t) : text :=
  DOC_HEADER ++ nl ++ nl ++ render_opcode_table entries.

(** The distinct pairs of API byte and name. *)
Definition api_key (e : OpcodeEntry.t) : Z * text :=
  (OpcodeEntry.api_id e, OpcodeEntry.api_name e).

(** One step of the counting loop: the first slot of the entry's API grows by
    one, or a slot for it is pushed. *)
Fixpoint count_api (key : Z * text) (apis : list (Z * text * Z)) : list (Z * text * Z) :=
  match apis with
  | [] => [(key, 1)]
  | (k, n) :: apis => if decide (k = key) then (k, n + 1) :: apis else (k, n) :: count_api key apis
  end.

Definition by_id {A} (x y : Z * text * A) : Prop := x.1.1 <= y.1.1.
#[export] Instance by_id_dec {A} : RelDecision (@by_id A).
Proof. intros x y. unfold by_id. apply _. Defined.
#[export] Instance by_id_total {A} : Total (@by_id A).
Proof. intros x y. unfold by_id. lia. Qed.

Definition api_counts (entries : list OpcodeEntry.t) : list (Z * text * Z) :=
  sort_by by_id (fold_left (fun apis e => count_api (api_key e) apis) entries []).

Definition coverage_row (a : Z * text * Z) : text :=
  "| " ++ a.1.2 ++ " | " ++ dec a.2 ++ " |" ++ nl.

Definition render_coverage (entries : list OpcodeEntry.t) : text :=
  let apis := api_counts entries in
  let total := fold_left (fun total a => total + a.2) apis 0 in
  "| API | Opcodes |" ++ nl ++ "| --- | --- |" ++ nl ++
  concat (map coverage_row apis) ++
  "| TOTAL | " ++ dec total ++ " |" ++ nl.

(** The loop that collects keys not seen before. *)
Definition see_api (seen : list (Z * text)) (e : OpcodeEntry.t) : list (Z * text) :=
  if decide (api_key e ∈ seen) then seen else push seen (api_key e).

Definition distinct (entries : list OpcodeEntry.t) : list (Z * text) :=
  fold_left see_api entries [].

Definition render_stats (entries : list OpcodeEntry.t) : text :=
  let total := Z.of_nat (length entries) in
  let distinct_apis := Z.of_nat (length (distinct entries)) in
  "# Opcode stats" ++ nl ++ nl ++
  "- Total opcodes: " ++ dec total ++ nl ++
  "- Distinct APIs: " ++ dec distinct_apis ++ nl ++ nl ++
  render_coverage entries.

Definition key_by_id (x y : Z * text) : Prop := x.1 <= y.1.
#[export] Instance key_by_id_dec : RelDecision key_by_id.
Proof. intros x y. unfold key_by_id. apply _. Defined.
#[export] Instance key_by_id_total : Total key_by_id.
Proof. intros x y. unfold key_by_id. lia. Qed.

Definition api_row (a : Z * text) : text :=
  "| 0x" ++ hex_upper 2 a.1 ++ " | " ++ a.2 ++ " |" ++ nl.

Definition render_apis (entries : list OpcodeEntry.t) : text :=
  let apis := sort_by key_by_id (distinct entries) in
  "| ApiId | API |" ++ nl ++ "| --- | --- |" ++ nl ++ concat (map api_row apis).

Definition render_summary (entries : list OpcodeEntry.t) : text :=
  let total := Z.of_nat (length entries) in
  let distinct_apis := Z.of_nat (length (distinct entries)) in
  "Opcode summary: " ++ dec total ++ " opcode(s) across " ++ dec distinct_apis ++
  " API(s)" ++ nl ++ nl ++
  render_apis entries ++ nl ++ render_coverage entries.

(** ** The lock file *)
Definition LOCK_HEADER : text :=
  "# GraftX opcode lock — generated by `cargo xtask opcodes-lock --write`." ++ nl ++
  "# One line per opcode: `0x<api>_<call> <API> <NAME>`, sorted by (api_id, call_id)." ++ nl ++
  "# Do not edit by hand; renumbering an opcode here will fail `opcodes-lock --check`.".

(** [sort_by_key(|e| (e.api_id, e.opcode() & 0x00FF_FFFF))] *)
Definition lock_le (x y : OpcodeEntry.t) : Prop :=
  OpcodeEntry.api_id x < OpcodeEntry.api_id y \/
  (OpcodeEntry.api_id x = OpcodeEntry.api_id y /\ call_of x <= call_of y).
#[export] Instance lock_le_dec : RelDecision lock_le.
Proof. intros x y. unfold lock_le. apply _. Defined.
#[export] Instance lock_le_total : Total lock_le.
Proof. intros x y. unfold lock_le. lia. Qed.
#[export] Instance lock_le_trans : Transitive lock_le.
Proof. intros x y z. unfold lock_le. lia. Qed.

Definition lock_line (entry : OpcodeEntry.t) : text :=
  format_opcode entry ++ " " ++ OpcodeEntry.api_name entry ++ " " ++
  OpcodeEntry.name entry ++ nl.

Definition render_lock (entries : list OpcodeEntry.t) : text :=
  LOCK_HEADER ++ nl ++ concat (map lock_line (sort_by lock_le entries)).

Module LockStatus.
Inductive t :=
| UpToDate
| Stale (on_disk expected : text)
| Unreadable (error : text).

Definition is_up_to_date (self : t) : bool :=
  match self with UpToDate => true | _ => false end.
End LockStatus.

Section check.
Context {F : Type} `{FileSystem F}.

Definition check_lock (lock_path : Path.t) (entries : list OpcodeEntry.t) (fs : F)
  : LockStatus.t :=
  let expected := render_lock entries in
  match read_to_string lock_path fs with
  | Ok on_disk =>
    if decide (on_disk = expected) then LockStatus.UpToDate
    else LockStatus.Stale on_disk expected
  | Err e => LockStatus.Unreadable e
  end.

Definition check_doc (doc_path : Path.t) (entries : list OpcodeEntry.t) (fs : F)
  : LockStatus.t :=
  let expected := render_doc entries in
  match read_to_string doc_path fs with
  | Ok on_disk =>
    if decide (on_disk = expected) then LockStatus.UpToDate
    else LockStatus.Stale on_disk expected
  | Err e => LockStatus.Unreadable e
  end.
End check.
