(* ===== verification/XtaskOpcodesProps.v ===== *)
(** The opcode table: what its lock file pins down, what its roll-ups count, and
    how it relates to the opcodes of the protocol. *)
From stdpp Require Import sorting.
From Stdlib Require Import Ascii.
From S2P Require Import Prelude Sorts Text Process Files XtaskOpcodes.
From S2P Require Wire WireProps.

Local Open Scope Z_scope.

(** ** Lines of the lock file *)

(** An entry as the table's author writes it: an API byte, a call id of 24 bits,
    names of one line, and a call name without spaces. *)
Definition entry_wf (e : OpcodeEntry.t) : Prop :=
  fits 8 (OpcodeEntry.api_id e) /\ fits 24 (OpcodeEntry.call_id e) /\
  ("010"%char ∉ OpcodeEntry.api_name e) /\ ("010"%char ∉ OpcodeEntry.name e) /\
  (" "%char ∉ OpcodeEntry.name e).

#[export] Instance entry_wf_dec e : Decision (entry_wf e).
Proof. unfold entry_wf. apply _. Defined.

(** What names an opcode. *)
Definition entry_key (e : OpcodeEntry.t) : Z * Z :=
  (OpcodeEntry.api_id e, OpcodeEntry.call_id e).

Lemma call_of_wf e : entry_wf e -> call_of e = OpcodeEntry.call_id e.
Proof.
  intros (_ & Hc & _). unfold call_of, OpcodeEntry.opcode, fits, wrap in *.
  change 0x00FFFFFF with (Z.ones 24). apply Z.bits_inj'. intros n Hn.
  rewrite Z.land_spec, Z.lor_spec, Z.land_spec, Z.testbit_ones_nonneg by lia.
  destruct (Z.ltb_spec n 24).
  - rewrite !andb_true_r. rewrite Z.mod_pow2_bits_low, Z.shiftl_spec_low by lia. done.
  - rewrite !andb_false_r. symmetry. rewrite <- (Z.mod_small (OpcodeEntry.call_id e) (2 ^ 24)) by done.
    by apply Z.mod_pow2_bits_high.
Qed.

Lemma lock_line_body e : lock_line e =
  ("0x" ++ hex_upper 2 (OpcodeEntry.api_id e) ++ "_" ++ hex_upper 6 (call_of e) ++ " " ++
   OpcodeEntry.api_name e ++ " " ++ OpcodeEntry.name e) ++ nl.
Proof. unfold lock_line, format_opcode. by rewrite <- !app_assoc. Qed.

Lemma lock_line_inj e1 e2 r1 r2 :
  entry_wf e1 -> entry_wf e2 -> lock_line e1 ++ r1 = lock_line e2 ++ r2 ->
  e1 = e2 /\ r1 = r2.
Proof.
  intros W1 W2. rewrite !lock_line_body, (call_of_wf _ W1), (call_of_wf _ W2), <- !app_assoc.
  destruct e1 as [a1 i1 n1 c1], e2 as [a2 i2 n2 c2].
  destruct W1 as (Hi1 & Hc1 & Ha1 & Hn1 & Hs1), W2 as (Hi2 & Hc2 & Ha2 & Hn2 & Hs2).
  cbn [OpcodeEntry.api_id OpcodeEntry.api_name OpcodeEntry.name OpcodeEntry.call_id] in *.
  destruct (hex_upper_spec 2 i1 ltac:(lia) Hi1) as [Li1 Vi1].
  destruct (hex_upper_spec 2 i2 ltac:(lia) Hi2) as [Li2 Vi2].
  destruct (hex_upper_spec 6 c1 ltac:(lia) Hc1) as [Lc1 Vc1].
  destruct (hex_upper_spec 6 c2 ltac:(lia) Hc2) as [Lc2 Vc2].
  intros E. apply app_inv_head in E. apply app_inj_1 in E as [Ei E]; [|by rewrite Li1, Li2].
  apply app_inv_head in E. apply app_inj_1 in E as [Ec E]; [|by rewrite Lc1, Lc2].
  apply app_inv_head in E.
  change (a1 ++ " " ++ n1 ++ nl ++ r1 = a2 ++ " " ++ n2 ++ nl ++ r2) in E.
  rewrite !(app_assoc " "), !(app_assoc a1), !(app_assoc a2) in E.
  apply app_cons_inj in E as [En ->].
  - rewrite <- !app_assoc in En.
    apply (last_word_inj " "%char a1 a2 n1 n2) in En as [-> ->]; [|done..]. split; [|done]. congruence.
  - rewrite !not_elem_of_app. repeat split; try done. by apply (bool_decide_unpack _).
  - rewrite !not_elem_of_app. repeat split; try done. by apply (bool_decide_unpack _).
Qed.

Lemma lock_lines_inj l1 l2 :
  Forall entry_wf l1 -> Forall entry_wf l2 ->
  concat (map lock_line l1) = concat (map lock_line l2) -> l1 = l2.
Proof.
  assert (forall e r, [] <> lock_line e ++ r) as Hne
    by (intros e r; rewrite lock_line_body, <- !app_assoc; done).
  intros H1. revert l2. induction H1 as [|e1 l1 W1 _ IH]; intros [|e2 l2] H2; cbn; intros E;
    [done|by apply Hne in E|by apply eq_sym, Hne in E|].
  inversion H2 as [|? ? W2 H2']; subst.
  apply lock_line_inj in E as [-> E]; [|done..]. by rewrite (IH l2).
Qed.

Lemma Forall_sort l : Forall entry_wf l -> Forall entry_wf (sort_by lock_le l).
Proof. by rewrite sort_by_perm. Qed.

Lemma render_lock_inj l1 l2 :
  Forall entry_wf l1 -> Forall entry_wf l2 -> render_lock l1 = render_lock l2 -> l1 ≡ₚ l2.
Proof.
  intros H1 H2 E. unfold render_lock in E. apply app_inv_head, app_inv_head in E.
  rewrite <- (sort_by_perm lock_le l1), <- (sort_by_perm lock_le l2).
  by rewrite (lock_lines_inj _ _ (Forall_sort l1 H1) (Forall_sort l2 H2) E).
Qed.

Lemma render_lock_canonical l1 l2 :
  Forall entry_wf l1 -> NoDup (map entry_key l1) -> l1 ≡ₚ l2 ->
  render_lock l1 = render_lock l2.
Proof.
  intros H1 Hn Hp. unfold render_lock. rewrite (sort_by_canonical lock_le l1 l2); [done|done|].
  intros x y Hx Hy Hxy Hyx. rewrite Forall_forall in H1.
  assert (entry_key x = entry_key y) as Hk.
  { unfold lock_le in Hxy, Hyx. rewrite !call_of_wf in Hxy, Hyx by auto.
    unfold entry_key. f_equal; lia. }
  apply list_elem_of_lookup in Hx as [i Hi], Hy as [j Hj].
  assert (i = j) as ->; [|congruence].
  eapply NoDup_lookup; [exact Hn|rewrite list_lookup_fmap, Hi; done|].
  by rewrite list_lookup_fmap, Hj, Hk.
Qed.

(** ** Counting opcodes per API *)
Lemma count_api_keys key apis :
  map fst (count_api key apis) =
  if decide (key ∈ map fst apis) then map fst apis else push (map fst apis) key.
Proof.
  induction apis as [|[k n] apis IH]; cbn [count_api map fst].
  { by rewrite decide_False by (apply not_elem_of_nil). }
  destruct (decide (k = key)) as [->|Hk]; cbn [map fst].
  { by rewrite decide_True by left. }
  rewrite IH. destruct (decide (key ∈ map fst apis)).
  - by rewrite decide_True by (by right).
  - rewrite decide_False; [done|]. intros [?|?]%elem_of_cons; [congruence|done].
Qed.

Lemma count_api_elem key apis k n :
  NoDup (map fst apis) ->
  (k, n) ∈ count_api key apis <->
  (k <> key /\ (k, n) ∈ apis) \/
  (k = key /\ ((key, n - 1) ∈ apis \/ ((key ∉ map fst apis) /\ n = 1))).
Proof.
  induction apis as [|[k' m] apis IH]; cbn [count_api map fst]; intros Hn.
  { rewrite list_elem_of_singleton. split.
    - intros [= -> ->]. right. split; [done|]. right. split; [apply not_elem_of_nil|done].
    - intros [[_ H]|[-> [H|[_ ->]]]]; [by apply not_elem_of_nil in H..|done]. }
  apply NoDup_cons in Hn as [Hk' Hn].
  assert (forall x, (k', x) ∈ apis -> False) as Hno.
  { intros x Hx. apply Hk'. apply list_elem_of_fmap. by exists (k', x). }
  destruct (decide (k' = key)) as [->|Hne]; rewrite !elem_of_cons.
  - split.
    + intros [[= -> ->]|Hin].
      * right. split; [done|]. left. left. f_equal. lia.
      * destruct (decide (k = key)) as [->|]; [by apply Hno in Hin|left; by auto].
    + intros [[Hk [[= ? ?]|Hin]]|[-> [[[= E]|Hin]|[Hni _]]]]; [done|by right|..].
      * left. f_equal. lia.
      * by apply Hno in Hin.
      * exfalso. apply Hni. by left.
  - rewrite IH by done. naive_solver.
Qed.

Definition sum_counts (apis : list (Z * text * Z)) : Z :=
  foldr (fun a total => a.2 + total) 0 apis.

Lemma total_sum apis acc :
  fold_left (fun total (a : Z * text * Z) => total + a.2) apis acc = acc + sum_counts apis.
Proof.
  unfold sum_counts. revert acc.
  induction apis as [|a apis IH]; intros acc; cbn [fold_left foldr]; [lia|]. rewrite IH. lia.
Qed.

Lemma count_api_sum key apis : sum_counts (count_api key apis) = sum_counts apis + 1.
Proof.
  induction apis as [|[k n] apis IH]; [done|]. cbn [count_api].
  destruct (decide _); unfold sum_counts in *; cbn [foldr snd] in *; lia.
Qed.

Lemma sum_counts_perm l1 l2 : l1 ≡ₚ l2 -> sum_counts l1 = sum_counts l2.
Proof. unfold sum_counts. induction 1; cbn [foldr]; lia. Qed.

Definition occurrences (k : Z * text) (entries : list OpcodeEntry.t) : Z :=
  Z.of_nat (length (filter (fun e => api_key e = k) entries)).

Lemma occurrences_snoc k entries e :
  occurrences k (entries ++ [e]) =
  occurrences k entries + (if decide (api_key e = k) then 1 else 0).
Proof.
  unfold occurrences. rewrite filter_app, length_app, filter_cons, filter_nil.
  case_decide; cbn; lia.
Qed.

Lemma count_loop entries :
  let apis := fold_left (fun apis e => count_api (api_key e) apis) entries [] in
  map fst apis = distinct entries /\ NoDup (distinct entries) /\
  (forall k, k ∈ distinct entries <-> 0 < occurrences k entries) /\
  (forall k n, (k, n) ∈ apis <-> n = occurrences k entries /\ 0 < n) /\
  sum_counts apis = Z.of_nat (length entries).
Proof.
  induction entries as [|e entries IH] using rev_ind; cbn zeta in *.
  { split; [done|]. split; [apply NoDup_nil_2|]. split; [|split; [|done]].
    - intros k. split; [by intros ?%not_elem_of_nil|done].
    - intros k n. split; [by intros ?%not_elem_of_nil|by intros [-> ?]]. }
  unfold distinct in *. rewrite !fold_left_app. cbn [fold_left].
  destruct IH as (Hk & Hn & Hd & He & Hs).
  rewrite count_api_keys, Hk, count_api_sum, Hs, length_app. cbn [length].
  unfold see_api at 1. pose proof (fun k => Nat2Z.is_nonneg
    (length (filter (fun e => api_key e = k) entries))) as Hpos.
  split; [done|]. split.
  { unfold see_api at 1. case_decide; [done|]. by apply NoDup_push. }
  split; [|split; [|lia]].
  - intros k. rewrite occurrences_snoc. specialize (Hpos k). fold (occurrences k entries) in Hpos.
    unfold see_api at 1. case_decide as Hin.
    + rewrite Hd in *. destruct (decide (api_key e = k)) as [<-|]; lia.
    + rewrite elem_of_push, Hd. destruct (decide (api_key e = k)) as [<-|Hne].
      * split; [lia|auto].
      * split; [intros [?| ->]; [lia|done]|left; lia].
  - intros k n. rewrite count_api_elem by (by rewrite Hk). rewrite !He, Hk, occurrences_snoc.
    specialize (Hpos k). fold (occurrences k entries) in Hpos.
    rewrite Hd. destruct (decide (api_key e = k)) as [<-|Hne].
    + split; [intros [[? ?]|[_ [?|?]]]; [done|lia..]|]. intros [-> ?]. right. split; [done|].
      destruct (decide (0 < occurrences (api_key e) entries)); [left|right]; lia.
    + split; [intros [[_ [-> ?]]|[-> _]]; [lia|done]|]. intros [-> ?]. left.
      split; [congruence|lia].
Qed.

(** ** Properties *)

(** C34: the lock file freezes the opcode table. Take tables whose entries are
    well formed: an API byte of 8 bits, a call id of 24 bits, names on one line and
    call names without spaces. When the file holds what was rendered from one such
    table and the check reports another up to date, the two have the same entries,
    in whatever order: renumbering, renaming, adding or removing an opcode is
    caught. Conversely, reordering a table in which no two entries share API byte
    and call id is not an alarm. The repository's own table meets both conditions. *)
Theorem lock_detects_renumbering {F} `{FileSystem F} (fs : F) lock_path frozen entries :
  Forall entry_wf frozen -> Forall entry_wf entries ->
  read_to_string lock_path fs = Ok (render_lock frozen) ->
  (LockStatus.is_up_to_date (check_lock lock_path entries fs) = true -> entries ≡ₚ frozen) /\
  (NoDup (map entry_key entries) -> entries ≡ₚ frozen ->
     LockStatus.is_up_to_date (check_lock lock_path entries fs) = true) /\
  Forall entry_wf OPCODES /\ NoDup (map entry_key OPCODES).
Proof.
  intros Hf He Hr. unfold check_lock. rewrite Hr. split; [|split].
  - case_decide as E; cbn; [|done]. intros _. symmetry. by apply render_lock_inj.
  - intros Hn Hp. rewrite decide_True; [done|]. symmetry. by apply render_lock_canonical.
  - split; apply (bool_decide_unpack _); by vm_compute.
Qed.

(** Two orders of a table, and a renumbered one. *)
Definition demo_entry (call : Z) : OpcodeEntry.t := OpcodeEntry.mk "Core" 0 "NOOP" call.
Definition demo_tree : Tree.t :=
  Tree.DirNode [(lit "opcodes.lock",
    Tree.FileNode (render_lock [demo_entry 2; OpcodeEntry.mk "Core" 0 "HELLO" 1]))].

Lemma lock_detects_renumbering_witness :
  let path := Path.new "opcodes.lock" in
  let same := [OpcodeEntry.mk "Core" 0 "HELLO" 1; demo_entry 2] in
  let renumbered := [OpcodeEntry.mk "Core" 0 "HELLO" 1; demo_entry 3] in
  LockStatus.is_up_to_date (check_lock path same demo_tree) = true /\
  LockStatus.is_up_to_date (check_lock path renumbered demo_tree) <> true.
Proof.
  intros path same renumbered.
  assert (Forall entry_wf [demo_entry 2; OpcodeEntry.mk "Core" 0 "HELLO" 1]) as Hf
    by (apply (bool_decide_unpack _); by vm_compute).
  assert (Forall entry_wf same /\ Forall entry_wf renumbered) as [Hs Hr]
    by (apply (bool_decide_unpack _); by vm_compute).
  split.
  - apply (lock_detects_renumbering demo_tree path _ same Hf Hs).
    + by vm_compute.
    + apply (bool_decide_unpack _); by vm_compute.
    + apply Permutation_swap.
  - intros E. apply (lock_detects_renumbering demo_tree path _ renumbered Hf Hr) in E;
      [|by vm_compute].
    apply (Permutation_map OpcodeEntry.call_id), Permutation_sym in E.
    assert (3 ∈ map OpcodeEntry.call_id [demo_entry 2; OpcodeEntry.mk "Core" 0 "HELLO" 1])
      as Hin by (rewrite E; right; left).
    apply (bool_decide_pack _) in Hin. by vm_compute in Hin.
Defined.

(** The roll-ups count exactly. The rows of the coverage table are the
    distinct APIs of the table, each once, sorted by API byte, the same rows as
    the [apis] listing has; each row shows the number of entries of its API; and
    the TOTAL row is the number of entries. *)
Theorem api_rollups_exact entries :
  map fst (api_counts entries) = sort_by key_by_id (distinct entries) /\
  Sorted by_id (api_counts entries) /\ NoDup (map fst (api_counts entries)) /\
  (forall k n, (k, n) ∈ api_counts entries <->
     n = Z.of_nat (length (filter (fun e => api_key e = k) entries)) /\ 0 < n) /\
  fold_left (fun total (a : Z * text * Z) => total + a.2) (api_counts entries) 0 =
    Z.of_nat (length entries).
Proof.
  destruct (count_loop entries) as (Hk & Hn & _ & He & Hs). unfold api_counts.
  rewrite (sort_by_map fst by_id key_by_id), Hk by done. split; [done|].
  split; [apply sort_by_Sorted, _|]. split; [by rewrite sort_by_perm|]. split.
  - intros k n. by rewrite sort_by_perm, He.
  - rewrite total_sum. by rewrite (sum_counts_perm _ _ (sort_by_perm by_id _)), Hs.
Qed.

(** The table follows the protocol and lags behind it. Every entry of
    [OPCODES] is an opcode of the protocol under its API's byte, none twice; the
    opcodes of the protocol that the table leaves out are the Vulkan destroy and
    command opcodes, two of OpenGL and three of CUDA. *)
Theorem opcode_table_lags_protocol :
  Forall (fun e => OpcodeEntry.opcode e ∈ WireProps.all_opcodes.*1 /\
    Wire.opcode_api (OpcodeEntry.opcode e) = OpcodeEntry.api_id e /\ entry_wf e) OPCODES /\
  NoDup (map OpcodeEntry.opcode OPCODES) /\
  filter (fun o => o ∉ map OpcodeEntry.opcode OPCODES) WireProps.all_opcodes.*1 =
    [Wire.vk_op.DESTROY_BUFFER; Wire.vk_op.FREE_MEMORY; Wire.vk_op.CREATE_COMMAND_POOL;
     Wire.vk_op.ALLOCATE_COMMAND_BUFFER; Wire.vk_op.QUEUE_SUBMIT; Wire.vk_op.CMD_COPY_BUFFER;
     Wire.vk_op.CMD_DRAW; Wire.vk_op.DESTROY_COMMAND_POOL; Wire.gl_op.SWAP_BUFFERS;
     Wire.gl_op.DELETE_BUFFER; Wire.cuda_op.LAUNCH_KERNEL; Wire.cuda_op.MEMCPY_HTOD;
     Wire.cuda_op.MEMCPY_DTOH].
Proof.
  split; [apply (bool_decide_unpack _); by vm_compute|].
  split; [apply (bool_decide_unpack _); by vm_compute|]. by vm_compute.
Qed.
