(* ===== verification/XtaskXrefs.v ===== *)
(** The cross-reference linter of the docs (crates/graftx-xtask/src/xrefs.rs).

    The scanning loops move byte indices and slice the line; an index or a slice
    out of place panics. A loop takes fuel, and to run out of it counts as a
    panic, so a theorem that a scan returns says that it terminates as well. The
    walk over the directories takes fuel for its depth, [None] being out of it. *)
From Stdlib Require Import Ascii.
From S2P Require Import Prelude Sorts Text Transport Process Files.

Local Open Scope Z_scope.

Definition MIN_CHAPTER : Z := 1.
Definition MAX_CHAPTER : Z := 32.

Module Issue.
Inductive t :=
| BrokenLink (line : Z) (target : text)
| OutOfRangeChapter (line chapter : Z).

#[export] Instance t_eq_dec : EqDecision t.
Proof. solve_decision. Defined.

Definition line (self : t) : Z :=
  match self with BrokenLink line _ => line | OutOfRangeChapter line _ => line end.

Definition describe (self : t) : text :=
  match self with
  | BrokenLink line target => "line " ++ dec line ++ ": BROKEN LINK -> " ++ target
  | OutOfRangeChapter line chapter =>
    "line " ++ dec line ++ ": OUT-OF-RANGE chapter ref (Ch. " ++ pad_left 2 (dec chapter) ++
    ") (valid " ++ dec MIN_CHAPTER ++ "..=" ++ dec MAX_CHAPTER ++ ")"
  end.
End Issue.

(** ** Links *)

(** The [while] loop over the bytes of a line, from [i] on. *)
Fixpoint links_line (fuel : nat) (line : text) (i : nat) : outcome (list text) :=
  match fuel with
  | O => Panic
  | S fuel =>
    if bool_decide (i + 1 < length line)%nat then
      match line !! i, line !! (i + 1)%nat with
      | Some b, Some c =>
        if decide (b = "]"%char /\ c = "("%char) then
          let start := (i + 2)%nat in
          rest ← slice_from line start;
          match find rest ")" with
          | Some rel =>
            let end_ := (start + rel)%nat in
            target ← slice line start end_;
            links ← links_line fuel line (end_ + 1);
            Ret (target :: links)
          | None => links_line fuel line (i + 1)
          end
        else links_line fuel line (i + 1)
      | _, _ => Panic
      end
    else Ret []
  end.

(** The loop over [md.lines().enumerate()], [scan] being its body. *)
Fixpoint scan_lines {A} (scan : text -> outcome (list A)) (line_no : Z) (ls : list text)
  : outcome (list (Z * A)) :=
  match ls with
  | [] => Ret []
  | line :: ls =>
    found ← scan line;
    rest ← scan_lines scan (line_no + 1) ls;
    Ret (map (pair line_no) found ++ rest)
  end.

Definition extract_links (md : text) : outcome (list (Z * text)) :=
  scan_lines (fun line => links_line (S (length line)) line 0) 1 (lines md).

(** ** Chapter references *)

(** How many digits a text starts with: the [while] loop that moves the cursor. *)
Fixpoint digits_run (s : text) : nat :=
  match s with
  | a :: s => if is_digit a then S (digits_run s) else 0
  | [] => 0
  end.

Fixpoint chapters_line (fuel : nat) (line : text) (search_from : nat) : outcome (list Z) :=
  match fuel with
  | O => Panic
  | S fuel =>
    rest ← slice_from line search_from;
    match find rest "(Ch." with
    | None => Ret []
    | Some rel =>
      let open := (search_from + rel)%nat in
      let cursor := (open + 4)%nat in
      let digits_start :=
        if decide (line !! cursor = Some " "%char) then (cursor + 1)%nat else cursor in
      let cursor := (digits_start + digits_run (drop digits_start line))%nat in
      found ←
        (if decide ((digits_start < cursor)%nat /\ line !! cursor = Some ")"%char) then
           digits ← slice line digits_start cursor;
           match parse_uint 32 digits with
           | Some chapter => Ret [chapter]
           | None => Ret []
           end
         else Ret []);
      refs ← chapters_line fuel line (open + 4);
      Ret (found ++ refs)
    end
  end.

Definition extract_chapter_refs (md : text) : outcome (list (Z * Z)) :=
  scan_lines (fun line => chapters_line (S (length line)) line 0) 1 (lines md).

Definition chapter_in_range (chapter : Z) : bool :=
  (MIN_CHAPTER <=? chapter) && (chapter <=? MAX_CHAPTER).

Definition is_external_or_anchor (target : text) : bool :=
  bool_decide (target = []) || starts_with target "http://" || starts_with target "https://" ||
  starts_with target "mailto:" || starts_with target "#".

(** ** Linting *)
Section lint.
Context {F W : Type} `{FileSystem F} `{Write W}.

Definition link_target_exists (from_file : Path.t) (target : text) (fs : F) : bool :=
  let path := before "#"%char target in
  if decide (path = []) then true
  else
    let base := from_option id (Path.new ".") (Path.parent from_file) in
    path_exists (Path.join base (Path.new path)) fs.

Definition by_line (x y : Issue.t) : Prop := Issue.line x <= Issue.line y.
#[export] Instance by_line_dec : RelDecision by_line.
Proof. intros x y. unfold by_line. apply _. Defined.

(** The two loops of [lint_markdown]. *)
Definition link_issues (path : Path.t) (fs : F) (links : list (Z * text)) : list Issue.t :=
  omap (fun '(line, target) =>
    if is_external_or_anchor target then None
    else if link_target_exists path target fs then None
    else Some (Issue.BrokenLink line target)) links.

Definition chapter_issues (refs : list (Z * Z)) : list Issue.t :=
  omap (fun '(line, chapter) =>
    if chapter_in_range chapter then None
    else Some (Issue.OutOfRangeChapter line chapter)) refs.

Definition lint_markdown (path : Path.t) (contents : text) (fs : F) : outcome (list Issue.t) :=
  links ← extract_links contents;
  refs ← extract_chapter_refs contents;
  Ret (sort_by by_line (link_issues path fs links ++ chapter_issues refs)).

(** The loop of [collect_into] over the entries of a directory, [rec] being the
    recursive call. *)
Fixpoint collect_entries (rec : Path.t -> list Path.t -> option (result text (list Path.t)))
    (dir : Path.t) (entries : list (result text dir_entry)) (out : list Path.t)
  : option (result text (list Path.t)) :=
  match entries with
  | [] => Some (Ok out)
  | Err e :: _ => Some (Err ("dir entry under " ++ Path.display dir ++ ": " ++ e))
  | Ok entry :: entries =>
    let path := entry_path entry in
    match entry_type entry with
    | Err e => Some (Err ("file_type " ++ Path.display path ++ ": " ++ e))
    | Ok file_type =>
      if decide (file_type = IsDir) then
        match rec path out with
        | Some (Ok out) => collect_entries rec dir entries out
        | stop => stop
        end
      else if decide (file_type = IsFile /\ Path.extension path = Some (lit "md")) then
        collect_entries rec dir entries (push out path)
      else collect_entries rec dir entries out
    end
  end.

Fixpoint collect_into (fuel : nat) (fs : F) (dir : Path.t) (out : list Path.t)
  : option (result text (list Path.t)) :=
  match fuel with
  | O => None
  | S fuel =>
    match read_dir dir fs with
    | Err e => Some (Err ("read_dir " ++ Path.display dir ++ ": " ++ e))
    | Ok entries => collect_entries (collect_into fuel fs) dir entries out
    end
  end.

Definition collect_markdown_files (fuel : nat) (dir : Path.t) (fs : F)
  : option (result text (list Path.t)) :=
  if negb (path_exists dir fs) then Some (Ok [])
  else
    match collect_into fuel fs dir [] with
    | Some (Ok files) => Some (Ok (sort_by Path.le files))
    | stop => stop
    end.

(** What the loop of [check_xrefs] builds up. *)
Record tally := mkTally { total : Z; files_with_issues : Z; report : text }.

Definition check_file (fs : F) (t : tally) (path : Path.t) : outcome tally :=
  match read_to_string path fs with
  | Err e =>
    Ret (mkTally (total t + 1) (files_with_issues t + 1)
      (report t ++ Path.display path ++ ":" ++ nl ++ "  read error: " ++ e ++ nl))
  | Ok contents =>
    issues ← lint_markdown path contents fs;
    if decide (issues = []) then Ret t
    else
      Ret (mkTally (total t + Z.of_nat (length issues)) (files_with_issues t + 1)
        (report t ++ Path.display path ++ ":" ++ nl ++
         concat (map (fun issue => "  " ++ Issue.describe issue ++ nl) issues)))
  end.

Fixpoint check_files (fs : F) (t : tally) (files : list Path.t) : outcome tally :=
  match files with
  | [] => Ret t
  | path :: files => t ← check_file fs t path; check_files fs t files
  end.

Definition check_xrefs (fuel : nat) (docs_dir : Path.t) (fs : F) (out : W)
  : option (outcome (W * Z)) :=
  match collect_markdown_files fuel docs_dir fs with
  | None => None
  | Some (Err e) =>
    Some (Ret (write_ignored ("check-xrefs: failed to scan " ++ Path.display docs_dir ++
      ": " ++ e ++ nl) out, 1))
  | Some (Ok files) =>
    let scanned := dec (Z.of_nat (length files)) in
    Some (
      t ← check_files fs (mkTally 0 0 []) files;
      let out := write_ignored (report t) out in
      let out :=
        if decide (total t = 0) then
          write_ignored ("check-xrefs: scanned " ++ scanned ++ " file(s), no issues found" ++ nl) out
        else
          write_ignored ("check-xrefs: " ++ dec (total t) ++ " issue(s) across " ++
            dec (files_with_issues t) ++ " file(s) (" ++ scanned ++ " scanned)" ++ nl) out in
      Ret (out, total t))
  end.
End lint.
