(* ===== verification/XtaskXrefsProps.v ===== *)
(** The linter finds the links and chapter references that are there, never
    panics on a UTF-8 file, and its count is zero exactly when nothing is wrong. *)
From stdpp Require Import sorting.
From Stdlib Require Import Ascii.
From S2P Require Import Prelude Sorts Text Transport Process Files XtaskXrefs.

Local Open Scope Z_scope.

(** ** What the links of a line are

    [plain t]: no link opens in [t]. A link runs from the first opening to the
    first closing parenthesis after it; an opening that is never closed is none,
    and then no later one is closed either. *)
Definition plain (pat t : text) : Prop := find t pat = None.

Inductive links_in : text -> list text -> Prop :=
| links_none s : plain "](" s -> links_in s []
| links_unclosed t r : plain "](" t -> (")"%char ∉ r) -> links_in (t ++ "](" ++ r) []
| links_cons t l r ls :
    plain "](" t -> (")"%char ∉ l) -> links_in r ls ->
    links_in (t ++ "](" ++ l ++ ")" ++ r) (l :: ls).

(** Before the first occurrence the text is plain. *)
Lemma find_Some_plain s pat i :
  pat <> [] -> find s pat = Some i ->
  exists t r, s = t ++ pat ++ r /\ length t = i /\ plain pat t.
Proof.
  intros Hpat (t & r & -> & <- & Hno)%find_Some. exists t, r. split; [done|]. split; [done|].
  unfold plain. destruct (find t pat) as [j|] eqn:Ej; [|done]. exfalso.
  apply find_Some in Ej as (t1 & t2 & -> & <- & _).
  assert (length t1 < length (t1 ++ pat ++ t2))%nat as Hlt
    by (rewrite !length_app; destruct pat; [done|cbn; lia]).
  specialize (Hno (length t1) Hlt). rewrite <- !app_assoc, drop_app_length in Hno.
  apply not_true_iff_false in Hno. destruct Hno. apply starts_with_spec. by eexists.
Qed.

Lemma plain_cons pat a s :
  starts_with (a :: s) pat = false -> plain pat s -> plain pat (a :: s).
Proof. unfold plain. intros Hs Hp. cbn [find]. by rewrite Hs, Hp. Qed.

Lemma find_char_None c s : find s [c] = None <-> c ∉ s.
Proof.
  induction s as [|a s IH]; [split; [by intros _ ?%not_elem_of_nil|done]|].
  cbn [find starts_with]. rewrite andb_true_r, not_elem_of_cons, <- IH.
  case_bool_decide as E; [subst; naive_solver|].
  rewrite fmap_None. naive_solver.
Qed.

Lemma find_char_Some c s i :
  find s [c] = Some i -> s = take i s ++ c :: drop (S i) s /\ c ∉ take i s.
Proof.
  intros (pre & post & -> & <- & Hno)%find_Some. cbn [app].
  rewrite take_app_length. replace (S (length pre)) with (length pre + 1)%nat by lia.
  rewrite drop_app_add. split; [done|].
  intros (i & Hi)%list_elem_of_lookup. pose proof (lookup_lt_Some _ _ _ Hi) as Hlt.
  specialize (Hno i Hlt). rewrite drop_app_le in Hno by lia.
  rewrite (drop_S _ _ _ Hi) in Hno. cbn in Hno. by rewrite bool_decide_eq_true_2 in Hno.
Qed.

(** A step of the scan that finds no link where it stands. *)
Lemma links_in_skip a s ls :
  starts_with (a :: s) "](" = false -> links_in s ls -> links_in (a :: s) ls.
Proof.
  intros Hs Hl. assert (forall t r, s = t ++ "](" ++ r -> plain "](" t ->
    plain "](" (a :: t)) as Ht.
  { intros t r -> Hp. apply plain_cons; [|done]. destruct t as [|b t]; cbn in *.
    - by rewrite andb_false_r.
    - done. }
  inversion Hl; subst.
  - apply links_none. by apply plain_cons.
  - apply (links_unclosed (a :: t)); [by eapply Ht|done].
  - apply (links_cons (a :: t)); [by eapply Ht|done..].
Qed.

Lemma no_paren_links s : (")"%char ∉ s) -> links_in s [].
Proof.
  intros Hs. destruct (find s "](") as [i|] eqn:E; [|by apply links_none].
  apply find_Some_plain in E as (t & r & -> & _ & Hp); [|done].
  apply links_unclosed; [done|]. intros Hr. apply Hs. rewrite !elem_of_app. by right; right.
Qed.

Lemma drop_lookup_starts (s : text) i b c :
  s !! i = Some b -> s !! (i + 1)%nat = Some c ->
  drop i s = b :: c :: drop (i + 2) s.
Proof.
  intros Hb Hc. rewrite (drop_S _ _ _ Hb). f_equal. rewrite <- Nat.add_1_r, (drop_S _ _ _ Hc).
  do 2 f_equal. lia.
Qed.

(** The first occurrence of a character is one. *)
Lemma find_char_lookup (s : text) c rel :
  s = take rel s ++ c :: drop (S rel) s -> (c ∉ take rel s) -> s !! rel = Some c.
Proof.
  intros Er Hno. rewrite Er at 1.
  assert (length (take rel s) = rel) as Hl.
  { rewrite length_take. apply Nat.min_l.
    destruct (decide (rel <= length s)%nat); [done|exfalso].
    rewrite take_ge in Er, Hno by lia. apply Hno. rewrite Er. set_solver. }
  by rewrite lookup_app_r, Hl, Nat.sub_diag by lia.
Qed.

Lemma links_line_spec fuel line i :
  utf8 line = true -> (i <= length line)%nat -> (length line - i < fuel)%nat ->
  exists ls, links_line fuel line i = Ret ls /\ links_in (drop i line) ls.
Proof.
  intros Hu. revert i. induction fuel as [|fuel IH]; intros i Hi Hf; [lia|]. cbn [links_line].
  case_bool_decide as Hlt.
  2:{ exists []. split; [done|].
      destruct (drop i line) as [|a r] eqn:E; [by apply links_none|].
      assert (length (drop i line) <= 1)%nat as Hl by (rewrite length_drop; lia).
      rewrite E in Hl. destruct r; [|cbn in Hl; lia]. apply links_none.
      unfold plain. cbn. by rewrite andb_false_r. }
  destruct (lookup_lt_is_Some_2 line i) as [b Hb]; [lia|].
  destruct (lookup_lt_is_Some_2 line (i + 1)) as [c Hc]; [lia|].
  rewrite Hb, Hc. rewrite (drop_lookup_starts _ _ _ _ Hb Hc).
  assert (drop (i + 1) line = c :: drop (i + 2) line) as Hd1.
  { rewrite (drop_S _ _ _ Hc). do 2 f_equal. lia. }
  destruct (decide _) as [[-> ->]|Hbc].
  2:{ destruct (IH (i + 1)%nat) as (ls & -> & Hls); [lia..|]. exists ls. split; [done|].
      rewrite Hd1 in Hls. apply links_in_skip; [|done]. cbn.
      rewrite andb_true_r. apply not_true_iff_false. rewrite andb_true_iff, !bool_decide_eq_true.
      intros [-> ->]. by apply Hbc. }
  assert (is_char_boundary line (i + 2) = true) as Hb2.
  { replace (i + 2)%nat with (S (i + 1)) by lia. by eapply is_char_boundary_after. }
  unfold slice_from at 1. rewrite Hb2. cbn [mbind outcome_bind].
  destruct (find (drop (i + 2) line) ")") as [rel|] eqn:Ef.
  - apply find_char_Some in Ef as [Er Hno]. set (rest := drop (i + 2) line) in *.
    assert (line !! (i + 2 + rel)%nat = Some ")"%char) as Hclose.
    { rewrite <- lookup_drop. by apply find_char_lookup. }
    rewrite slice_ret; [|lia|done|by eapply is_char_boundary_at].
    cbn [mbind outcome_bind]. replace (i + 2 + rel - (i + 2))%nat with rel by lia.
    fold rest. pose proof (lookup_lt_Some _ _ _ Hclose) as Hlt2.
    destruct (IH (i + 2 + rel + 1)%nat) as (ls & -> & Hls); [lia..|].
    eexists. split; [done|]. rewrite Er at 1.
    apply (links_cons [] (take rel rest)); [done|done|].
    unfold rest. by replace (drop (S rel) (drop (i + 2) line)) with (drop (i + 2 + rel + 1) line)
      by (rewrite drop_drop; f_equal; lia).
  - destruct (IH (i + 1)%nat) as (ls & -> & Hls); [lia..|].
    exists ls. split; [done|]. rewrite Hd1 in Hls. apply find_char_None in Ef.
    assert (ls = []) as ->; [|by apply (links_unclosed [])].
    inversion Hls as [| |t l r ls' Hp Hl Hr E]; [done..|exfalso].
    assert (")"%char ∈ "("%char :: drop (i + 2) line) as Hin by (rewrite <- E; set_solver).
    apply elem_of_cons in Hin as [?|?]; done.
Qed.

(** A pattern whose first character is nowhere else in it occurs first where it
    is put after a plain text. *)
Lemma starts_with_plain c q a t r :
  (c ∉ q) -> starts_with (a :: t) (c :: q) = false ->
  starts_with (a :: t ++ (c :: q) ++ r) (c :: q) = false.
Proof.
  intros Hc Hs. apply not_true_iff_false. intros [r' Er]%starts_with_spec.
  apply not_true_iff_false in Hs. apply Hs, starts_with_spec.
  cbn [app] in Er. injection Er as -> Er.
  destruct (decide (length q <= length t)%nat) as [Hl|Hl].
  - exists (drop (length q) t). cbn [app]. f_equal.
    rewrite <- (take_drop (length q) t) at 1. f_equal.
    apply (f_equal (take (length q))) in Er. by rewrite take_app_le, take_app_length in Er.
  - exfalso. apply Hc. apply (f_equal (lookup (length t))) in Er.
    rewrite lookup_app_r, Nat.sub_diag, lookup_app_l in Er by lia.
    apply list_elem_of_lookup. by exists (length t).
Qed.

Lemma find_plain c q t r :
  (c ∉ q) -> plain (c :: q) t -> find (t ++ (c :: q) ++ r) (c :: q) = Some (length t).
Proof.
  intros Hc. unfold plain. induction t as [|a t IH]; intros Hp.
  - assert (starts_with ((c :: q) ++ r) (c :: q) = true) as E
      by (apply starts_with_spec; by exists r).
    cbn [app find] in *. by rewrite E.
  - cbn [find] in Hp. destruct (starts_with (a :: t) (c :: q)) eqn:E; [done|].
    apply fmap_None in Hp. apply (starts_with_plain c q a t r Hc) in E.
    change (find (a :: (t ++ (c :: q) ++ r)) (c :: q) = Some (length (a :: t))).
    cbn [find]. rewrite E. by rewrite IH.
Qed.

Lemma plain_split c q t t' r r' :
  (c ∉ q) -> plain (c :: q) t -> plain (c :: q) t' ->
  t ++ (c :: q) ++ r = t' ++ (c :: q) ++ r' -> t = t' /\ r = r'.
Proof.
  intros Hc Ht Ht' E. assert (length t = length t') as Hl.
  { pose proof (find_plain c q t r Hc Ht) as H1. rewrite E, find_plain in H1 by done. congruence. }
  apply app_inj_1 in E as [-> E]; [|done]. split; [done|]. by apply app_inv_head in E.
Qed.

Lemma not_plain c q t r : (c ∉ q) -> plain (c :: q) t -> plain (c :: q) (t ++ (c :: q) ++ r) -> False.
Proof. intros Hc Ht. unfold plain. by rewrite find_plain. Qed.

(** The links of a line are determined. *)
Lemma links_in_fun s ls ls' : links_in s ls -> links_in s ls' -> ls = ls'.
Proof.
  assert ("]"%char ∉ [ "("%char ]) as Hc by (by apply (bool_decide_unpack _)).
  assert (forall t t' r r', plain "](" t -> plain "](" t' ->
    t ++ "](" ++ r = t' ++ "](" ++ r' -> r = r') as Hs
    by (intros; by eapply (plain_split _ _ t t')).
  assert (forall t r, plain "](" t -> plain "](" (t ++ "](" ++ r) -> False) as Hn
    by (intros t r; by apply not_plain).
  intros H. revert ls'. induction H as [s Hp|t r Hp Hr|t l r ls Hp Hl Hls IH]; intros ls' H'.
  - inversion H' as [|t' r' Hp' Hr' E|t' l' r' ls'' Hp' Hl' Hls' E]; subst; [done|..];
      by apply Hn in Hp.
  - inversion H' as [s' Hp'|t' r' Hp' Hr' E|t' l' r' ls'' Hp' Hl' Hls' E]; [done|done|exfalso].
    apply Hs in E; [|done..]. apply Hr. rewrite <- E. set_solver.
  - inversion H' as [s' Hp'|t' r' Hp' Hr' E|t' l' r' ls'' Hp' Hl' Hls' E].
    + by apply Hn in Hp'.
    + apply Hs in E; [|done..]. exfalso. apply Hr'. rewrite E. set_solver.
    + apply Hs in E; [|done..].
      apply (app_cons_inj ")"%char l' l r' r) in E as [-> ->]; [|done..].
      f_equal. by apply IH.
Qed.

(** ** What the chapter references of a line are

    A marker [(Ch.] makes a reference when digits follow it, after one optional
    space, up to a closing parenthesis, and they fit 32 bits. *)
Definition chapter_at (r : text) : list Z :=
  let r := match r with a :: r' => if decide (a = " "%char) then r' else r | [] => r end in
  let n := digits_run r in
  if decide ((0 < n)%nat /\ r !! n = Some ")"%char) then option_list (parse_uint 32 (take n r))
  else [].

Inductive chapters_in : text -> list Z -> Prop :=
| chapters_none s : plain "(Ch." s -> chapters_in s []
| chapters_cons t r cs :
    plain "(Ch." t -> chapters_in r cs ->
    chapters_in (t ++ "(Ch." ++ r) (chapter_at r ++ cs).

Lemma digits_run_spec s :
  (digits_run s <= length s)%nat /\
  Forall (fun a => is_digit a = true) (take (digits_run s) s).
Proof.
  induction s as [|a s [Hl Hd]]; cbn [digits_run]; [by split|].
  destruct (is_digit a) eqn:E; cbn [take length].
  - split; [lia|by constructor].
  - split; [lia|constructor].
Qed.

Lemma drop_space (line : text) cursor :
  drop (if decide (line !! cursor = Some " "%char) then cursor + 1 else cursor)%nat line =
  match drop cursor line with
  | a :: r => if decide (a = " "%char) then r else drop cursor line
  | [] => drop cursor line
  end.
Proof.
  destruct (line !! cursor) as [a|] eqn:E.
  - rewrite (drop_S _ _ _ E). destruct (decide (a = " "%char)) as [->|Ha].
    + rewrite decide_True by done. f_equal. lia.
    + rewrite decide_False by congruence. by apply drop_S.
  - rewrite decide_False by done. apply lookup_ge_None in E. by rewrite drop_ge.
Qed.

(** The part of the loop body that reads one reference. *)
Lemma read_chapter line open :
  utf8 line = true -> (open + 4 <= length line)%nat ->
  let cursor := (open + 4)%nat in
  let digits_start :=
    if decide (line !! cursor = Some " "%char) then (cursor + 1)%nat else cursor in
  let cursor := (digits_start + digits_run (drop digits_start line))%nat in
  (if decide ((digits_start < cursor)%nat /\ line !! cursor = Some ")"%char) then
     digits ← slice line digits_start cursor;
     match parse_uint 32 digits with Some chapter => Ret [chapter] | None => Ret [] end
   else Ret []) = Ret (chapter_at (drop (open + 4) line)).
Proof.
  intros Hu Ho cursor ds cursor'. unfold chapter_at. fold cursor.
  replace (match drop cursor line with a :: r => _ | [] => drop cursor line end)
    with (drop ds line) by (unfold ds; by rewrite drop_space).
  destruct (digits_run_spec (drop ds line)) as [Hl Hd]. fold cursor' in Hl.
  rewrite length_drop in Hl.
  assert (drop ds line !! digits_run (drop ds line) = line !! cursor') as Hat
    by (by rewrite lookup_drop).
  rewrite Hat. destruct (decide (_ /\ line !! cursor' = _)) as [[Hlt Hc]|Hno].
  - rewrite decide_True by (split; [lia|done]).
    assert (is_Some (line !! ds)) as [a Ha] by (apply lookup_lt_is_Some; lia).
    assert (is_digit a = true) as Hdig.
    { apply (proj1 (Forall_lookup _ _) Hd 0%nat). rewrite lookup_take_lt by lia.
      by rewrite lookup_drop, Nat.add_0_r. }
    rewrite slice_ret; [|lia| |].
    + cbn [mbind outcome_bind]. unfold cursor'.
      replace (ds + digits_run (drop ds line) - ds)%nat with (digits_run (drop ds line)) by lia.
      by destruct (parse_uint _ _).
    + eapply is_char_boundary_at; [done|]. by apply is_digit_ascii.
    + by eapply is_char_boundary_at.
  - rewrite decide_False; [done|]. intros [? ?]. apply Hno. split; [lia|done].
Qed.

Lemma chapters_line_spec fuel line i :
  utf8 line = true -> (i <= length line)%nat -> is_char_boundary line i = true ->
  (length line - i < fuel)%nat ->
  exists cs, chapters_line fuel line i = Ret cs /\ chapters_in (drop i line) cs.
Proof.
  intros Hu. revert i. induction fuel as [|fuel IH]; intros i Hi Hb Hf; [lia|].
  cbn [chapters_line]. unfold slice_from at 1. rewrite Hb. cbn [mbind outcome_bind].
  destruct (find (drop i line) "(Ch.") as [rel|] eqn:E.
  2:{ exists []. split; [done|]. by apply chapters_none. }
  apply find_Some_plain in E as (t & r & Er & <- & Hp); [|done].
  assert (drop (i + length t) line = "(Ch." ++ r) as Ho.
  { rewrite <- drop_drop, Er. apply drop_app_length. }
  assert (drop (i + length t + 4) line = r) as Ho4.
  { rewrite <- drop_drop, Ho. done. }
  assert (i + length t + 4 <= length line)%nat as Hlen.
  { pose proof (f_equal length Ho) as Hlo. rewrite length_drop, length_app in Hlo. cbn in Hlo. lia. }
  assert (line !! (i + length t + 3)%nat = Some "."%char) as Hdot.
  { rewrite <- (lookup_drop line (i + length t) 3), Ho. done. }
  rewrite read_chapter by done. cbn [mbind outcome_bind].
  destruct (IH (i + length t + 4)%nat) as (cs & -> & Hcs); [lia| |lia|].
  { replace (i + length t + 4)%nat with (S (i + length t + 3)) by lia.
    by eapply is_char_boundary_after. }
  eexists. split; [done|]. rewrite Ho4 in *. rewrite Er. by apply chapters_cons.
Qed.

(** ** Whole files *)
Fixpoint number {A} (n : Z) (per_line : list (list A)) : list (Z * A) :=
  match per_line with
  | [] => []
  | found :: per_line => map (pair n) found ++ number (n + 1) per_line
  end.

Lemma scan_lines_spec {A} (scan : text -> outcome (list A)) (P : text -> list A -> Prop) n ls :
  Forall (fun l => exists xs, scan l = Ret xs /\ P l xs) ls ->
  exists per_line, scan_lines scan n ls = Ret (number n per_line) /\ Forall2 P ls per_line.
Proof.
  intros H. revert n. induction H as [|l ls (xs & E & Hp) _ IH]; intros n; cbn [scan_lines].
  - by exists [].
  - destruct (IH (n + 1)) as (per & E' & Hper). exists (xs :: per). rewrite E. cbn [mbind outcome_bind].
    rewrite E'. split; [done|by constructor].
Qed.

Lemma extract_links_spec md :
  utf8 md = true ->
  exists per_line, extract_links md = Ret (number 1 per_line) /\ Forall2 links_in (lines md) per_line.
Proof.
  intros Hu. apply scan_lines_spec. eapply Forall_impl; [by apply utf8_lines|].
  intros l Hl. cbn. by apply (links_line_spec (S (length l)) l 0); [|lia|lia].
Qed.

Lemma extract_chapters_spec md :
  utf8 md = true ->
  exists per_line, extract_chapter_refs md = Ret (number 1 per_line) /\
    Forall2 chapters_in (lines md) per_line.
Proof.
  intros Hu. apply scan_lines_spec. eapply Forall_impl; [by apply utf8_lines|].
  intros l Hl. cbn. apply (chapters_line_spec (S (length l)) l 0); [done|lia| |lia].
  apply is_char_boundary_0.
Qed.

(** A reference as the docs write it reads back. *)
Lemma parse_zeros w k s :
  0 <= max_of w -> parse_digits w (replicate k "0"%char ++ s) 0 = parse_digits w s 0.
Proof.
  intros Hw. induction k as [|k IH]; [done|]. cbn [replicate app parse_digits].
  change (is_digit "0") with true. cbn iota.
  rewrite (proj2 (Z.leb_le _ _)) by lia. unfold checked_add.
  rewrite (proj2 (Z.leb_le _ _)) by (change (code "0") with 48; lia). exact IH.
Qed.

Lemma digits_run_app ds c r :
  Forall (fun a => is_digit a = true) ds -> is_digit c = false ->
  digits_run (ds ++ c :: r) = length ds.
Proof.
  intros H Hc. induction H as [|a ds Ha _ IH]; cbn [app digits_run length].
  - by rewrite Hc.
  - by rewrite Ha, IH.
Qed.

Lemma chapter_reads_back (space : bool) k n r :
  fits 32 n ->
  chapter_at ((if space then [" "%char] else []) ++ replicate k "0"%char ++ dec n ++ ")" ++ r) = [n].
Proof.
  intros Hn. destruct (dec_spec n (proj1 Hn)) as (Hd & Hne & Hp).
  set (ds := replicate k "0"%char ++ dec n).
  assert (Forall (fun a => is_digit a = true) ds) as Hds.
  { apply Forall_app. split; [by apply Forall_replicate|done]. }
  assert (ds <> []) as Hne' by (unfold ds; destruct (dec n); [done|by destruct k]).
  assert (exists a ds', ds = a :: ds' /\ a <> " "%char /\ a <> "+"%char) as (a & ds' & Eds & Ha & Ha').
  { destruct ds as [|a ds']; [done|]. exists a, ds'. inversion Hds as [|? ? Hda]; subst.
    split; [done|]. split; intros ->; by vm_compute in Hda. }
  unfold chapter_at. rewrite (app_assoc (replicate k _) (dec n)). fold ds.
  replace (match (if space then [" "%char] else []) ++ ds ++ ")" ++ r with
    | a :: r' => if decide (a = " "%char) then r' else _ | [] => _ end) with (ds ++ ")" ++ r).
  2:{ destruct space; cbn [app]; [by rewrite decide_True|]. rewrite Eds. cbn [app].
      by rewrite decide_False. }
  change (ds ++ ")" ++ r) with (ds ++ ")"%char :: r).
  rewrite (digits_run_app _ _ _ Hds) by done. rewrite decide_True.
  2:{ rewrite lookup_app_r, Nat.sub_diag by done. split; [destruct ds; [done|cbn; lia]|done]. }
  rewrite take_app_length. unfold parse_uint. rewrite Eds, decide_False by done. rewrite <- Eds.
  unfold ds. rewrite parse_zeros, Hp; [done| |]; unfold fits, max_of in *; lia.
Qed.

(** ** Linting a file *)
Section lint.
Context {F W : Type} `{FileSystem F} `{Write W}.

(** What a link and a reference must satisfy. *)
Definition link_ok (path : Path.t) (fs : F) (target : text) : Prop :=
  is_external_or_anchor target = true \/ link_target_exists path target fs = true.

Lemma link_issues_nil path fs links :
  link_issues path fs links = [] <-> (forall n t, (n, t) ∈ links -> link_ok path fs t).
Proof.
  unfold link_issues, link_ok. induction links as [|[n t] links IH]; cbn.
  { split; [by intros _ n t ?%not_elem_of_nil|done]. }
  destruct (is_external_or_anchor t) eqn:E1; [|destruct (link_target_exists path t fs) eqn:E2].
  3:{ split; [done|]. intros Hall. destruct (Hall n t) as [?|?]; [by left|congruence..]. }
  all: rewrite IH; split; [intros Hall m u [[= -> ->]|Hin]%elem_of_cons; [auto|by eapply Hall]|];
    intros Hall m u Hin; eapply Hall; by right.
Qed.

Lemma chapter_issues_nil refs :
  chapter_issues refs = [] <-> (forall n c, (n, c) ∈ refs -> MIN_CHAPTER <= c <= MAX_CHAPTER).
Proof.
  unfold chapter_issues, chapter_in_range. induction refs as [|[n c] refs IH]; cbn -[MIN_CHAPTER MAX_CHAPTER].
  { split; [by intros _ n c ?%not_elem_of_nil|done]. }
  destruct (Z.leb_spec MIN_CHAPTER c), (Z.leb_spec c MAX_CHAPTER);
    cbn -[MIN_CHAPTER MAX_CHAPTER];
    first [rewrite IH; split;
      [intros Hall m u [[= -> ->]|Hin]%elem_of_cons; [lia|by eapply Hall]|
       intros Hall m u Hin; eapply Hall; by right]
    |split; [done|]; intros Hall; specialize (Hall n c ltac:(by left)); lia].
Qed.

Lemma by_line_total : Total by_line.
Proof. intros x y. unfold by_line. lia. Qed.

Lemma sort_nil {A} (R : relation A) `{!RelDecision R} l : sort_by R l = [] <-> l = [].
Proof.
  split; [|by intros ->]. intros E. pose proof (sort_by_perm R l) as Hp. rewrite E in Hp.
  by apply Permutation_nil_l in Hp.
Qed.

Lemma lint_markdown_ok path contents fs :
  utf8 contents = true ->
  exists per_line_links per_line_refs issues,
    Forall2 links_in (lines contents) per_line_links /\
    Forall2 chapters_in (lines contents) per_line_refs /\
    lint_markdown path contents fs = Ret issues /\
    issues ≡ₚ link_issues path fs (number 1 per_line_links) ++
      chapter_issues (number 1 per_line_refs) /\
    Sorted by_line issues /\
    (issues = [] <->
      (forall n t, (n, t) ∈ number 1 per_line_links -> link_ok path fs t) /\
      (forall n c, (n, c) ∈ number 1 per_line_refs -> MIN_CHAPTER <= c <= MAX_CHAPTER)).
Proof.
  intros Hu. destruct (extract_links_spec contents Hu) as (pl & El & Hl).
  destruct (extract_chapters_spec contents Hu) as (pr & Er & Hr).
  unfold lint_markdown. rewrite El, Er. cbn [mbind outcome_bind].
  eexists pl, pr, _. split; [done|]. split; [done|]. split; [done|].
  split; [apply sort_by_perm|]. split; [apply sort_by_Sorted, by_line_total|].
  by rewrite sort_nil, app_nil, link_issues_nil, chapter_issues_nil.
Qed.

(** ** The count of [check_xrefs] *)
Definition clean (fs : F) (path : Path.t) : Prop :=
  exists c, read_to_string path fs = Ok c /\ lint_markdown path c fs = Ret [].

Lemma check_files_ok `{!FileSystemLaws F} (fs : F) files t :
  0 <= total t ->
  exists t', check_files fs t files = Ret t' /\ total t <= total t' /\
    (total t' = total t <-> Forall (clean fs) files).
Proof.
  revert t. induction files as [|path files IH]; intros t Ht; cbn [check_files].
  { exists t. split; [done|]. split; [lia|]. split; [by constructor|done]. }
  assert (exists t1, check_file fs t path = Ret t1 /\ total t <= total t1 /\
    (total t1 = total t <-> clean fs path)) as (t1 & E1 & Hle & Hc).
  { unfold check_file, clean. destruct (read_to_string path fs) as [c|e] eqn:Er.
    - destruct (lint_markdown_ok path c fs (read_utf8 _ _ _ Er))
        as (pl & pr & issues & _ & _ & E & _). rewrite E. cbn [mbind outcome_bind].
      case_decide as Hi.
      + exists t. split; [done|]. split; [lia|]. split; [|done]. intros _. exists c.
        by rewrite E, Hi.
      + eexists. split; [done|]. cbn [total].
        assert (0 < length issues)%nat by (destruct issues; [done|cbn; lia]).
        split; [lia|]. split; [lia|]. intros (c' & [= <-] & E'). congruence.
    - eexists. split; [done|]. cbn [total]. split; [lia|]. split; [lia|]. by intros (? & ? & _). }
  rewrite E1. cbn [mbind outcome_bind]. destruct (IH t1) as (t' & -> & Hle' & Hf); [lia|].
  exists t'. split; [done|]. split; [lia|]. rewrite Forall_cons, <- Hf, <- Hc. lia.
Qed.

Lemma check_xrefs_files `{!FileSystemLaws F} fuel docs_dir (fs : F) (out : W) files :
  collect_markdown_files fuel docs_dir fs = Some (Ok files) ->
  exists out' n, check_xrefs fuel docs_dir fs out = Some (Ret (out', n)) /\ 0 <= n /\
    (n = 0 <-> Forall (clean fs) files).
Proof.
  intros E. unfold check_xrefs. rewrite E.
  destruct (check_files_ok fs files (mkTally 0 0 []) ltac:(done)) as (t & -> & Hle & Hf).
  cbn [mbind outcome_bind]. eexists _, (total t). split; [done|]. by split.
Qed.
End lint.

(** ** The walk over a tree of files *)
Definition is_md (p : Path.t) : Prop := Path.extension p = Some (lit "md").

Lemma collect_tree fuel (f : Tree.t) dir cs out :
  Tree.wf (Tree.DirNode cs) -> Tree.node_at dir f = Some (Tree.DirNode cs) ->
  (Tree.depth (Tree.DirNode cs) <= fuel)%nat ->
  collect_into fuel f dir out =
    Some (Ok (out ++ filter is_md (map fst (Tree.files_under dir (Tree.DirNode cs))))).
Proof.
  revert dir cs out. induction fuel as [|fuel IH]; intros dir cs out Hwf Hat Hd.
  { cbn in Hd. lia. }
  cbn [collect_into read_dir Tree.file_system]. rewrite Hat. cbn [Tree.files_under].
  assert (forall e, e ∈ cs -> e ∈ cs) as Hsub by done. revert Hsub out.
  generalize cs at 1 3 4. intros es. induction es as [|[name n] es IHes]; intros Hsub out.
  { cbn. by rewrite app_nil_r. }
  assert ((name, n) ∈ cs) as Hin by (apply Hsub; by left).
  destruct (Tree.wf_child _ _ _ Hwf Hin) as (Hnorm & Hwfn & Hch).
  pose proof (Tree.depth_child _ _ _ Hin) as Hdep.
  cbn [map fst snd collect_entries entry_path entry_type].
  rewrite map_app, filter_app, app_assoc.
  assert (forall e, e ∈ es -> e ∈ cs) as Hsub' by (intros e He; apply Hsub; by right).
  destruct n as [c|cs']; cbn [Tree.type_of].
  - rewrite decide_False by done. cbn [map fst]. rewrite filter_cons, filter_nil. unfold is_md at 1.
    destruct (decide (Path.extension _ = _)) as [He|He].
    + rewrite decide_True by done. by apply IHes.
    + rewrite decide_False by (by intros [_ ?]). rewrite app_nil_r. by apply IHes.
  - rewrite decide_True by done. rewrite (IH _ cs'); [by apply IHes|done| |lia].
    by eapply Tree.node_at_child.
Qed.

Lemma files_under_at d (f : Tree.t) dir n p c :
  (Tree.depth n <= d)%nat -> Tree.wf n -> Tree.node_at dir f = Some n ->
  (p, c) ∈ Tree.files_under dir n -> Tree.node_at p f = Some (Tree.FileNode c).
Proof.
  revert dir n. induction d as [|d IH]; intros dir [c'|cs] Hd Hwf Hat;
    [by intros ?%not_elem_of_nil|cbn in Hd; lia|by intros ?%not_elem_of_nil|].
  cbn [Tree.files_under]. assert (forall e, e ∈ cs -> e ∈ cs) as Hsub by done. revert Hsub.
  generalize cs at 1 3. intros es. induction es as [|[name n] es IHes]; intros Hsub.
  { by intros ?%not_elem_of_nil. }
  assert ((name, n) ∈ cs) as Hin by (apply Hsub; by left).
  destruct (Tree.wf_child _ _ _ Hwf Hin) as (Hnorm & Hwfn & Hch).
  pose proof (Tree.depth_child _ _ _ Hin) as Hdep.
  pose proof (Tree.node_at_child _ _ _ _ _ Hat Hnorm Hch) as Hatn.
  intros [Hp|Hp]%elem_of_app.
  - destruct n as [c'|cs'].
    + apply list_elem_of_singleton in Hp as [= -> ->]. done.
    + by apply (IH _ (Tree.DirNode cs')) in Hp; [|lia|..].
  - apply IHes; [|done]. intros e He. apply Hsub. by right.
Qed.

Lemma chapters_in_fun s cs cs' : chapters_in s cs -> chapters_in s cs' -> cs = cs'.
Proof.
  assert ("("%char ∉ lit "Ch.") as Hc by (by apply (bool_decide_unpack _)).
  intros H. revert cs'. induction H as [s Hp|t r cs Hp Hr IH]; intros cs' H'.
  - inversion H' as [|t' r' cs'' Hp' Hr' E]; subst; [done|]. by apply (not_plain "("%char _ t' r' Hc) in Hp.
  - inversion H' as [s' Hp'|t' r' cs'' Hp' Hr' E]; [by apply (not_plain "("%char _ t r Hc) in Hp'|].
    apply (plain_split "("%char _ t' t r' r Hc) in E as [_ ->]; [|done..]. f_equal. by apply IH.
Qed.

Lemma per_line_fun {A} (P : text -> list A -> Prop) ls p1 p2 :
  (forall s x y, P s x -> P s y -> x = y) -> Forall2 P ls p1 -> Forall2 P ls p2 -> p1 = p2.
Proof.
  intros Hf H1. revert p2. induction H1; intros p2 H2; inversion H2; subst; [done|].
  f_equal; eauto.
Qed.

(** ** Properties *)

(** C35: the scans find exactly what is written, and never panic. On any UTF-8
    document the two scanning loops return, with no index or slice out of place
    and in no more steps than there are bytes; the links they yield are, line by
    line and numbered from one, those of the declarative reading of the line, and
    so are the chapter references; and a reference written with an optional
    space, any leading zeros and a 32-bit number reads back as that number. *)
Theorem xrefs_scan_exact md :
  utf8 md = true ->
  exists links refs,
    (forall per_line, Forall2 links_in (lines md) per_line <-> per_line = links) /\
    extract_links md = Ret (number 1 links) /\
    (forall per_line, Forall2 chapters_in (lines md) per_line <-> per_line = refs) /\
    extract_chapter_refs md = Ret (number 1 refs) /\
    (forall (space : bool) k n r, fits 32 n ->
       chapter_at ((if space then [" "%char] else []) ++ replicate k "0"%char ++ dec n ++
         ")" ++ r) = [n]).
Proof.
  intros Hu. destruct (extract_links_spec md Hu) as (pl & El & Hl).
  destruct (extract_chapters_spec md Hu) as (pr & Er & Hr). exists pl, pr.
  split; [|split; [done|split; [|split; [done|]]]].
  - intros p. split; [|by intros ->]. intros Hp. symmetry.
    by eapply (per_line_fun _ _ _ _ links_in_fun).
  - intros p. split; [|by intros ->]. intros Hp. symmetry.
    by eapply (per_line_fun _ _ _ _ chapters_in_fun).
  - intros. by apply chapter_reads_back.
Qed.

Lemma xrefs_scan_exact_witness :
  let md := "see [the plan](plan/06.md) (Ch. 08)" ++ nl ++ "[é](#x) (Ch.40)" ++ nl in
  exists links, utf8 md = true /\ extract_links md = Ret (number 1 links) /\
    links = [[lit "plan/06.md"]; [lit "#x"]].
Proof.
  set (md := (_ : text)). cbn zeta.
  destruct (xrefs_scan_exact md eq_refl) as (links & refs & Hl & El & _ & Er & _).
  exists links. split; [done|]. split; [done|].
  symmetry. apply Hl. change (lines md) with
    [lit "see [the plan](plan/06.md) (Ch. 08)"; lit "[é](#x) (Ch.40)"].
  constructor; [|constructor; [|constructor]].
  - apply (links_cons "see [the plan" "plan/06.md" " (Ch. 08)"); [done| |by apply links_none].
    by apply (bool_decide_unpack _).
  - apply (links_cons "[é" "#x" " (Ch.40)"); [done| |by apply links_none].
    by apply (bool_decide_unpack _).
Defined.

(** What the linter asks of a file. *)
Definition file_ok {F} `{FileSystem F} (fs : F) (p : Path.t) (c : text) : Prop :=
  utf8 c = true /\
  (forall links, Forall2 links_in (lines c) links ->
     forall n t, (n, t) ∈ number 1 links -> link_ok p fs t) /\
  (forall refs, Forall2 chapters_in (lines c) refs ->
     forall n k, (n, k) ∈ number 1 refs -> MIN_CHAPTER <= k <= MAX_CHAPTER).

Lemma clean_file_ok (fs : Tree.t) docs_dir n p c :
  Tree.wf n -> Tree.node_at docs_dir fs = Some n ->
  (p, c) ∈ Tree.files_under docs_dir n -> clean fs p <-> file_ok fs p c.
Proof.
  intros Hwf Hat Hp. pose proof (files_under_at _ _ _ _ _ _ (le_n _) Hwf Hat Hp) as Hpat.
  unfold clean, file_ok. cbn [read_to_string Tree.file_system]. rewrite Hpat.
  destruct (utf8 c) eqn:Hu; [|split; [by intros (? & ? & _)|by intros (? & _)]].
  destruct (lint_markdown_ok p c fs Hu) as (pl & pr & iss & Hl & Hr & E' & _ & _ & Hi).
  split.
  - intros (c' & [= <-] & E''). rewrite E' in E''. injection E'' as ->.
    destruct (proj1 Hi eq_refl) as [H1 H2]. split; [done|]. split.
    + intros l Hl'. by rewrite (per_line_fun _ _ _ _ links_in_fun Hl' Hl).
    + intros r Hr'. by rewrite (per_line_fun _ _ _ _ chapters_in_fun Hr' Hr).
  - intros (_ & H1 & H2). exists c. split; [done|]. rewrite E'. f_equal. apply Hi.
    split; eauto.
Qed.

Lemma check_xrefs_tree {W} `{Write W} fuel docs_dir (fs : Tree.t) cs (out : W) :
  Tree.wf (Tree.DirNode cs) -> Tree.node_at docs_dir fs = Some (Tree.DirNode cs) ->
  (Tree.depth (Tree.DirNode cs) <= fuel)%nat ->
  exists out' n, check_xrefs fuel docs_dir fs out = Some (Ret (out', n)) /\ 0 <= n /\
    (n = 0 <-> forall p c, (p, c) ∈ Tree.files_under docs_dir (Tree.DirNode cs) -> is_md p ->
       clean fs p).
Proof.
  intros Hwf Hat Hd. pose proof (collect_tree fuel fs docs_dir cs [] Hwf Hat Hd) as Ec.
  assert (collect_markdown_files fuel docs_dir fs = Some (Ok (sort_by Path.le
    (filter is_md (map fst (Tree.files_under docs_dir (Tree.DirNode cs))))))) as Em.
  { unfold collect_markdown_files. cbn [path_exists Tree.file_system]. rewrite Hat.
    rewrite bool_decide_eq_true_2 by done. cbn [negb]. by rewrite Ec. }
  destruct (check_xrefs_files (W:=W) fuel docs_dir fs out _ Em) as (out' & n & E & Hn & Hc).
  exists out', n. split; [done|]. split; [done|]. rewrite Hc, sort_by_perm, Forall_forall.
  split.
  - intros Hall p c Hp Hmd. apply Hall, list_elem_of_filter.
    split; [done|]. apply list_elem_of_fmap. by exists (p, c).
  - intros Hall p [Hmd Hp]%list_elem_of_filter.
    apply list_elem_of_fmap in Hp as ([p' c] & -> & Hp). by apply (Hall _ c).
Qed.

(** The linter passes exactly the docs that are in order. On any tree of
    files, with fuel for its depth, [check_xrefs] returns, whatever the files hold
    and wherever its output goes; and its count is zero if and only if every
    Markdown file under the docs directory is UTF-8, each of its links is
    external, an anchor or leads to something that exists, and each of its chapter
    references is between 1 and 32. *)
Theorem xrefs_gate {W} `{Write W} fuel docs_dir (fs : Tree.t) cs (out : W) :
  Tree.wf (Tree.DirNode cs) -> Tree.node_at docs_dir fs = Some (Tree.DirNode cs) ->
  (Tree.depth (Tree.DirNode cs) <= fuel)%nat ->
  exists out' n, check_xrefs fuel docs_dir fs out = Some (Ret (out', n)) /\ 0 <= n /\
    (n = 0 <-> forall p c, (p, c) ∈ Tree.files_under docs_dir (Tree.DirNode cs) -> is_md p ->
       file_ok fs p c).
Proof.
  intros Hwf Hat Hd. destruct (check_xrefs_tree fuel docs_dir fs cs out Hwf Hat Hd)
    as (out' & n & E & Hn & Hc).
  exists out', n. split; [done|]. split; [done|]. rewrite Hc.
  split; intros Hall p c Hp Hmd; eapply clean_file_ok; eauto.
Qed.

Definition demo_files : list (text * Tree.t) := [
  (lit "a.md", Tree.FileNode "[b](sub/b.md#x) (Ch. 08)");
  (lit "sub", Tree.DirNode [(lit "b.md", Tree.FileNode "[up](../a.md) (Ch. 40)")])].
Definition demo_docs : Tree.t := Tree.DirNode [(lit "docs", Tree.DirNode demo_files)].

Lemma xrefs_gate_witness :
  exists out' n, check_xrefs 2 (Path.new "docs") demo_docs (Buffer.mk []) = Some (Ret (out', n)) /\
    n <> 0.
Proof.
  destruct (xrefs_gate 2 (Path.new "docs") demo_docs demo_files (Buffer.mk []))
    as (out' & n & E & _ & Hn).
  - cbn. repeat split; by apply (bool_decide_unpack _).
  - by vm_compute.
  - by vm_compute; lia.
  - exists out', n. split; [exact E|]. vm_compute in E. by injection E as _ <-.
Defined.
