(* ===== verification/XtaskMain.v ===== *)
(** The task runner (crates/graftx-xtask/src/doc_index.rs and main.rs): the index
    check of the design docs, and the dispatch of the subcommands over a process
    with a file system, a standard output and a standard error. *)
From S2P Require Import Prelude Sorts Text Transport Process Files XtaskOpcodes XtaskXrefs.

Local Open Scope Z_scope.

(** ** [doc_index.rs] *)
Definition README_NAME : text := "README.md".

Definition missing_index_links (readme : text) (doc_filenames : list text) : list text :=
  filter (fun name => contains readme name = false)
    (filter (fun name => name <> README_NAME) doc_filenames).

Section doc_index.
Context {F W : Type} `{FileSystem F} `{Write W}.

(** The loop over the directory's entries. A name that is not UTF-8 has no
    [to_str]. *)
Fixpoint markdown_names (dir : Path.t) (entries : list (result text dir_entry))
    (names : list text) : result text (list text) :=
  match entries with
  | [] => Ok names
  | Err e :: _ => Err ("dir entry under " ++ Path.display dir ++ ": " ++ e)
  | Ok entry :: entries =>
    let path := entry_path entry in
    match entry_type entry with
    | Err e => Err ("file_type " ++ Path.display path ++ ": " ++ e)
    | Ok file_type =>
      if decide (file_type <> IsFile) then markdown_names dir entries names
      else if decide (Path.extension path <> Some (lit "md")) then
        markdown_names dir entries names
      else
        match Path.file_name path with
        | Some name =>
          markdown_names dir entries (if utf8 name then push names name else names)
        | None => markdown_names dir entries names
        end
    end
  end.

Definition list_markdown_filenames (dir : Path.t) (fs : F) : result text (list text) :=
  match read_dir dir fs with
  | Err e => Err ("read_dir " ++ Path.display dir ++ ": " ++ e)
  | Ok entries => names ← markdown_names dir entries []; Ok (sort_by text_le names)
  end.

Definition check_doc_index (design_dir : Path.t) (fs : F) (out : W) : W * Z :=
  match list_markdown_filenames design_dir fs with
  | Err e =>
    (write_ignored ("doc-index: failed to scan " ++ Path.display design_dir ++ ": " ++ e ++ nl)
       out, 1)
  | Ok filenames =>
    let readme_path := Path.join design_dir (Path.new README_NAME) in
    match read_to_string readme_path fs with
    | Err e =>
      (write_ignored ("doc-index: cannot read " ++ Path.display readme_path ++ ": " ++ e ++ nl)
         out, 1)
    | Ok readme =>
      let missing := missing_index_links readme filenames in
      let out :=
        if decide (missing = []) then
          write_ignored ("doc-index: all design docs indexed in " ++
            Path.display readme_path ++ nl) out
        else
          fold_left (fun out name => write_ignored ("  " ++ name ++ nl) out) missing
            (write_ignored ("doc-index: " ++ dec (Z.of_nat (length missing)) ++
               " design doc(s) not linked from " ++ Path.display readme_path ++ ":" ++ nl) out) in
      (out, Z.of_nat (length missing))
    end
  end.
End doc_index.

(** ** [main.rs] *)
Definition EXIT_USAGE : Z := 2.
Definition DOCS_DIR : text := "docs".
Definition OPCODES_LOCK : text := "docs/design/opcodes.lock".
Definition OPCODES_MD : text := "docs/design/OPCODES.md".
Definition DESIGN_DIR : text := "docs/design".

Module LockMode.
Inductive t := Write | Check.
End LockMode.

Definition parse_lock_mode (args : list text) : result text LockMode.t :=
  match args with
  | [] => Ok LockMode.Check
  | arg :: _ =>
    if decide (arg = lit "--check") then Ok LockMode.Check
    else if decide (arg = lit "--write") then Ok LockMode.Write
    else Err ("unknown flag `" ++ arg ++ "` (expected --write or --check)")
  end.

Module VerifyOutcome.
Record t := mk { xref_issues : Z; lock_up_to_date : bool }.
Definition passed (self : t) : bool := (xref_issues self =? 0) && lock_up_to_date self.
Definition exit_code (self : t) : Z :=
  if passed self then ExitCode.SUCCESS else ExitCode.FAILURE.
End VerifyOutcome.

Definition usage : text :=
  "graftx-xtask — GraftX in-repo task runner" ++ nl ++
  nl ++
  "Usage:" ++ nl ++
  "    cargo xtask <subcommand>" ++ nl ++
  nl ++
  "Subcommands:" ++ nl ++
  "    gen-opcodes    Generate the opcode-table source from graftx-protocol" ++ nl ++
  "    coverage       Summarize opcode coverage per API as a Markdown roll-up" ++ nl ++
  "    stats          Print opcode totals, distinct API count, and per-API roll-up" ++ nl ++
  "    apis           List the distinct API ids and names as a Markdown table" ++ nl ++
  "    summary        Print a combined headline plus the apis and coverage tables" ++ nl ++
  "    opcodes-lock   Freeze (--write) or verify (--check, default) the opcode lock" ++ nl ++
  "    opcodes-md     Write (--write) or verify (--check, default) docs/design/OPCODES.md" ++ nl ++
  "    check-xrefs    Validate cross-references between the docs and the protocol" ++ nl ++
  "    doc-index      Check every docs/design/*.md is linked from its README index" ++ nl ++
  "    verify         Run check-xrefs and opcodes-lock --check together (CI gate)" ++ nl ++
  "    help           Show this message".

Section main.
Context {F W : Type} `{FileSystem F} `{Write W}.

(** The process: what it can touch. *)
Record proc := mkProc { fs : F; stdout : W; stderr : W }.

(** A command changes the process and ends with an exit code, or panics. *)
Definition command : Type := proc -> outcome (proc * Z).

Definition println (t : text) (p : proc) : outcome proc :=
  out ← print (t ++ nl) (stdout p); Ret (mkProc (fs p) out (stderr p)).
Definition eprintln (t : text) (p : proc) : outcome proc :=
  err ← print (t ++ nl) (stderr p); Ret (mkProc (fs p) (stdout p) err).
Definition set_stdout (out : W) (p : proc) : proc := mkProc (fs p) out (stderr p).
Definition set_stderr (err : W) (p : proc) : proc := mkProc (fs p) (stdout p) err.

Definition print_usage (out : W) : W := write_ignored (usage ++ nl) out.

(** [report_first_difference]: the loop over the zipped lines, then the counts. *)
Fixpoint report_lines (idx : Z) (have want : list text) (out : W) : W * bool :=
  match have, want with
  | h :: have, w :: want =>
    if decide (h <> w) then
      (write_ignored ("    expected:  " ++ w ++ nl)
        (write_ignored ("    on disk:   " ++ h ++ nl)
          (write_ignored ("  first difference at line " ++ dec (idx + 1) ++ ":" ++ nl) out)), true)
    else report_lines (idx + 1) have want out
  | _, _ => (out, false)
  end.

Definition report_first_difference (out : W) (have want : text) : W :=
  match report_lines 0 (lines have) (lines want) out with
  | (out, true) => out
  | (out, false) =>
    let have_count := Z.of_nat (length (lines have)) in
    let want_count := Z.of_nat (length (lines want)) in
    if decide (have_count <> want_count) then
      write_ignored ("  line count differs: " ++ dec have_count ++ " on disk vs " ++
        dec want_count ++ " expected" ++ nl) out
    else out
  end.

(** The arms of [opcodes_lock] and [opcodes_md] on what the check found. *)
Definition report_status (name : text) (path : Path.t) (status : LockStatus.t) : command :=
  fun p =>
  match status with
  | LockStatus.UpToDate =>
    p ← println (name ++ ": " ++ Path.display path ++ " is up to date") p;
    Ret (p, ExitCode.SUCCESS)
  | LockStatus.Stale on_disk expected =>
    p ← eprintln (name ++ ": " ++ Path.display path ++ " is out of date — run `cargo xtask " ++
      name ++ " --write`") p;
    let p := set_stderr (report_first_difference (stderr p) on_disk expected) p in
    Ret (p, ExitCode.FAILURE)
  | LockStatus.Unreadable error =>
    p ← eprintln (name ++ ": cannot read " ++ Path.display path ++ ": " ++ error ++
      " — run `cargo xtask " ++ name ++ " --write`") p;
    Ret (p, ExitCode.FAILURE)
  end.

Definition opcodes_lock (args : list text) (lock_path : Path.t) : command := fun p =>
  match parse_lock_mode args with
  | Err e => p ← eprintln ("opcodes-lock: " ++ e) p; Ret (p, EXIT_USAGE)
  | Ok mode =>
    let rendered := render_lock OPCODES in
    match mode with
    | LockMode.Write =>
      match write_file lock_path rendered (fs p) with
      | (fs', Ok _) =>
        let n := Z.of_nat (length (filter (fun l => starts_with l "#" = false) (lines rendered))) in
        p ← println ("opcodes-lock: wrote " ++ Path.display lock_path ++ " (" ++ dec n ++
          " opcode(s))") (mkProc fs' (stdout p) (stderr p));
        Ret (p, ExitCode.SUCCESS)
      | (fs', Err e) =>
        p ← eprintln ("opcodes-lock: failed to write " ++ Path.display lock_path ++ ": " ++ e)
          (mkProc fs' (stdout p) (stderr p));
        Ret (p, ExitCode.FAILURE)
      end
    | LockMode.Check =>
      report_status "opcodes-lock" lock_path (check_lock lock_path OPCODES (fs p)) p
    end
  end.

Definition opcodes_md (args : list text) (doc_path : Path.t) : command := fun p =>
  match parse_lock_mode args with
  | Err e => p ← eprintln ("opcodes-md: " ++ e) p; Ret (p, EXIT_USAGE)
  | Ok mode =>
    let rendered := render_doc OPCODES in
    match mode with
    | LockMode.Write =>
      match write_file doc_path rendered (fs p) with
      | (fs', Ok _) =>
        p ← println ("opcodes-md: wrote " ++ Path.display doc_path ++ " (" ++
          dec (Z.of_nat (length OPCODES)) ++ " opcode(s))") (mkProc fs' (stdout p) (stderr p));
        Ret (p, ExitCode.SUCCESS)
      | (fs', Err e) =>
        p ← eprintln ("opcodes-md: failed to write " ++ Path.display doc_path ++ ": " ++ e)
          (mkProc fs' (stdout p) (stderr p));
        Ret (p, ExitCode.FAILURE)
      end
    | LockMode.Check =>
      report_status "opcodes-md" doc_path (check_doc doc_path OPCODES (fs p)) p
    end
  end.

Definition verify (fuel : nat) (docs_dir lock_path : Path.t) (fs : F) (out : W)
  : option (outcome (W * Z)) :=
  match check_xrefs fuel docs_dir fs out with
  | None => None
  | Some Panic => Some Panic
  | Some (Ret (out, xref_issues)) =>
    let lock_up_to_date := LockStatus.is_up_to_date (check_lock lock_path OPCODES fs) in
    let outcome := VerifyOutcome.mk xref_issues lock_up_to_date in
    let out := write_ignored ("verify: xrefs: " ++ dec xref_issues ++ " issue(s)" ++ nl) out in
    let out := write_ignored ("verify: opcodes-lock: " ++
      (if lock_up_to_date then lit "up-to-date" else lit "STALE") ++ nl) out in
    let out := write_ignored ("verify: " ++
      (if VerifyOutcome.passed outcome then lit "OK (all checks passed)" else lit "FAILED") ++ nl)
      out in
    Some (Ret (out, VerifyOutcome.exit_code outcome))
  end.

(** [print!] of a rendering, then success. *)
Definition print_rendering (t : text) : command := fun p =>
  out ← print t (stdout p); Ret (mkProc (fs p) out (stderr p), ExitCode.SUCCESS).

(** [run(args)]: [None] is out of fuel, in a walk over the docs. *)
Definition run (fuel : nat) (args : list text) (p : proc) : option (outcome (proc * Z)) :=
  let command := from_option id (lit "help") (head args) in
  if decide (command = lit "gen-opcodes") then
    Some (print_rendering (render_opcode_table OPCODES) p)
  else if decide (command = lit "coverage") then
    Some (print_rendering (render_coverage OPCODES) p)
  else if decide (command = lit "stats") then
    Some (print_rendering (render_stats OPCODES) p)
  else if decide (command = lit "apis") then
    Some (print_rendering (render_apis OPCODES) p)
  else if decide (command = lit "summary") then
    Some (print_rendering (render_summary OPCODES) p)
  else if decide (command = lit "opcodes-lock") then
    Some (opcodes_lock (tail args) (Path.new OPCODES_LOCK) p)
  else if decide (command = lit "opcodes-md") then
    Some (opcodes_md (tail args) (Path.new OPCODES_MD) p)
  else if decide (command = lit "verify") then
    match verify fuel (Path.new DOCS_DIR) (Path.new OPCODES_LOCK) (fs p) (stdout p) with
    | None => None
    | Some r => Some ('(out, code) ← r; Ret (set_stdout out p, code))
    end
  else if decide (command = lit "check-xrefs") then
    match check_xrefs fuel (Path.new DOCS_DIR) (fs p) (stdout p) with
    | None => None
    | Some r =>
      Some ('(out, issues) ← r;
        Ret (set_stdout out p, if issues =? 0 then ExitCode.SUCCESS else ExitCode.FAILURE))
    end
  else if decide (command = lit "doc-index") then
    let '(out, missing) := check_doc_index (Path.new DESIGN_DIR) (fs p) (stdout p) in
    Some (Ret (set_stdout out p, if missing =? 0 then ExitCode.SUCCESS else ExitCode.FAILURE))
  else if decide (command = lit "help" \/ command = lit "-h" \/ command = lit "--help") then
    Some (Ret (set_stdout (print_usage (stdout p)) p, ExitCode.SUCCESS))
  else
    Some (p ← eprintln ("graftx-xtask: unknown subcommand `" ++ command ++ "`") p;
      Ret (set_stderr (print_usage (stderr p)) p, EXIT_USAGE)).
End main.
Arguments proc F W : clear implicits.
Arguments mkProc {F W} _ _ _.
