(* ===== verification/XtaskMainProps.v ===== *)
(** The task runner as a gate: its exit codes, that a check passes after the
    write that it asks for, and what the aggregate check vouches for. *)
From stdpp Require Import sorting.
From S2P Require Import Prelude Sorts Text Transport Process Files XtaskOpcodes XtaskXrefs.
From S2P Require Import XtaskXrefsProps XtaskMain.

Local Open Scope Z_scope.

Section main.
Context {F W : Type} `{FileSystem F, !FileSystemLaws F} `{Write W, !Reliable W}.

Lemma println_ret t (p : proc F W) : exists out, println t p = Ret (mkProc (fs p) out (stderr p)).
Proof.
  unfold println. destruct (print_reliable (t ++ nl) (stdout p)) as (out & -> & _).
  by exists out.
Qed.

Lemma eprintln_ret t (p : proc F W) : exists err, eprintln t p = Ret (mkProc (fs p) (stdout p) err).
Proof.
  unfold eprintln. destruct (print_reliable (t ++ nl) (stderr p)) as (err & -> & _).
  by exists err.
Qed.

Lemma report_status_ret name path status (p : proc F W) :
  exists p', report_status name path status p =
    Ret (p', if LockStatus.is_up_to_date status then ExitCode.SUCCESS else ExitCode.FAILURE) /\
    fs p' = fs p.
Proof.
  destruct status; cbn [report_status LockStatus.is_up_to_date].
  - destruct (println_ret (name ++ ": " ++ Path.display path ++ " is up to date") p) as (o & ->).
    cbn. by eexists.
  - edestruct eprintln_ret as (e & E). rewrite E. cbn. by eexists.
  - edestruct eprintln_ret as (e & E). rewrite E. cbn. by eexists.
Qed.

(** The two commands that write, at once. *)
Definition frozen (name : text) : option (text * text) :=
  if decide (name = lit "opcodes-lock") then Some (OPCODES_LOCK, render_lock OPCODES)
  else if decide (name = lit "opcodes-md") then Some (OPCODES_MD, render_doc OPCODES)
  else None.

Lemma run_frozen fuel name rest path rendered (p : proc F W) :
  frozen name = Some (path, rendered) ->
  utf8 rendered = true /\
  run fuel (name :: rest) p = Some (
    match parse_lock_mode rest with
    | Err e => p ← eprintln (name ++ ": " ++ e) p; Ret (p, EXIT_USAGE)
    | Ok LockMode.Check =>
      report_status name (Path.new path)
        (match read_to_string (Path.new path) (fs p) with
         | Ok on_disk => if decide (on_disk = rendered) then LockStatus.UpToDate
                         else LockStatus.Stale on_disk rendered
         | Err e => LockStatus.Unreadable e
         end) p
    | Ok LockMode.Write =>
      match write_file (Path.new path) rendered (fs p) with
      | (fs', Ok _) =>
        p ← println (name ++ ": wrote " ++ Path.display (Path.new path) ++ " (44 opcode(s))")
          (mkProc fs' (stdout p) (stderr p));
        Ret (p, ExitCode.SUCCESS)
      | (fs', Err e) =>
        p ← eprintln (name ++ ": failed to write " ++ Path.display (Path.new path) ++ ": " ++ e)
          (mkProc fs' (stdout p) (stderr p));
        Ret (p, ExitCode.FAILURE)
      end
    end).
Proof.
  unfold frozen. destruct (decide (name = _)) as [->|]; [|destruct (decide (name = _)) as [->|];
    [|done]]; intros [= <- <-]; (split; [by vm_compute|]).
  - change (run fuel (lit "opcodes-lock" :: rest) p) with
      (Some (opcodes_lock rest (Path.new OPCODES_LOCK) p)).
    done.
  - change (run fuel (lit "opcodes-md" :: rest) p) with
      (Some (opcodes_md rest (Path.new OPCODES_MD) p)).
    done.
Qed.

(** ** Properties *)

(** C39: what [--write] writes, [--check] accepts. For either of the two frozen
    files, over any file system that reads back what was written: when the
    command with [--write] succeeds, the same command with [--check], or with no
    flag, then succeeds too and changes no file. *)
Theorem frozen_file_roundtrip fuel name path rendered rest (p p' : proc F W) :
  frozen name = Some (path, rendered) ->
  run fuel [name; lit "--write"] p = Some (Ret (p', ExitCode.SUCCESS)) ->
  rest = [] \/ rest = [lit "--check"] ->
  exists p'', run fuel (name :: rest) p' = Some (Ret (p'', ExitCode.SUCCESS)) /\ fs p'' = fs p'.
Proof.
  intros Hf. destruct (run_frozen fuel name [lit "--write"] path rendered p Hf) as [Hu ->].
  cbn [parse_lock_mode]. rewrite decide_False, decide_True by done.
  destruct (write_file _ _ (fs p)) as [f' [[]|e]] eqn:Ew; intros Ep Hrest.
  2:{ edestruct eprintln_ret as (o & E). rewrite E in Ep. done. }
  edestruct println_ret as (o & E). rewrite E in Ep. injection Ep as <-. cbn [fs stdout stderr] in *.
  destruct (run_frozen fuel name rest path rendered (mkProc f' o (stderr p)) Hf) as [_ ->].
  assert (parse_lock_mode rest = Ok LockMode.Check) as ->.
  { destruct Hrest as [->| ->]; [done|]. cbn [parse_lock_mode]. by rewrite decide_True. }
  cbn [fs]. rewrite (read_written _ _ _ _ Hu Ew), decide_True by done.
  edestruct report_status_ret as (p'' & E' & Hp''). rewrite E'. exists p''. by split.
Qed.
End main.

Definition design_tree : Tree.t := Tree.DirNode [(lit "docs", Tree.DirNode [
  (lit "design", Tree.DirNode [(lit "opcodes.lock", Tree.FileNode "stale")])])].

Lemma frozen_file_roundtrip_witness :
  exists p' p'' : proc Tree.t Buffer.t,
    run 3 [lit "opcodes-lock"; lit "--write"] (mkProc design_tree (Buffer.mk []) (Buffer.mk [])) =
      Some (Ret (p', ExitCode.SUCCESS)) /\
    fs p' <> design_tree /\
    run 3 [lit "opcodes-lock"] p' = Some (Ret (p'', ExitCode.SUCCESS)).
Proof.
  destruct (run 3 [lit "opcodes-lock"; lit "--write"]
    (mkProc design_tree (Buffer.mk []) (Buffer.mk []))) as [[[p' c]|]|] eqn:E;
    [|by vm_compute in E..].
  assert (c = ExitCode.SUCCESS /\ fs p' <> design_tree) as [-> Hne].
  { vm_compute in E. injection E as <- <-. split; [done|]. by vm_compute. }
  destruct (frozen_file_roundtrip 3 (lit "opcodes-lock") OPCODES_LOCK (render_lock OPCODES) []
    _ p' eq_refl E (or_introl eq_refl)) as (p'' & E' & _).
  by exists p', p''.
Defined.

(** ** Exit codes over a tree of files *)
Lemma child_elem name cs n : Tree.child name cs = Some n -> (name, n) ∈ cs.
Proof.
  induction cs as [|[m k] cs IH]; cbn [Tree.child]; [done|]. case_decide as E.
  - intros [= ->]. subst. by left.
  - intros Hc. right. by apply IH.
Qed.

Section tree.
Context {W : Type} `{Write W, !Reliable W}.

Lemma check_xrefs_total fuel (f : Tree.t) (out : W) :
  Tree.wf f -> (Tree.depth f <= fuel)%nat ->
  exists out' n, check_xrefs fuel (Path.new DOCS_DIR) f out = Some (Ret (out', n)) /\ 0 <= n.
Proof.
  intros Hwf Hd. set (docs := Path.new DOCS_DIR).
  destruct (Tree.node_at docs f) as [[c|cs]|] eqn:E.
  - unfold check_xrefs, collect_markdown_files. cbn [path_exists Tree.file_system]. rewrite E.
    cbn [negb bool_decide]. destruct fuel as [|fuel].
    { destruct f; [done|cbn in Hd; lia]. }
    cbn [collect_into read_dir Tree.file_system]. rewrite bool_decide_eq_true_2 by done. cbn [negb].
    rewrite E. by eexists _, 1.
  - destruct f as [|root]; [done|].
    assert (Tree.child (lit "docs") root = Some (Tree.DirNode cs)) as Hc.
    { unfold Tree.node_at in E. change (Path.comps docs) with [lit "docs"] in E.
      cbn [Tree.walk] in E. rewrite !decide_False in E by done.
      by destruct (Tree.child _ root). }
    pose proof (child_elem _ _ _ Hc) as Hin.
    destruct (Tree.wf_child _ _ _ Hwf Hin) as (_ & Hwf' & _).
    pose proof (Tree.depth_child _ _ _ Hin).
    destruct (check_xrefs_tree fuel docs (Tree.DirNode root) cs out) as (out' & n & ? & ? & _); [done..|lia|].
    by exists out', n.
  - unfold check_xrefs, collect_markdown_files. cbn [path_exists Tree.file_system]. rewrite E.
    by eexists _, 0.
Qed.
End tree.

(** The subcommands, and what is a usage error: another subcommand, or another
    flag after the two that take one. *)
Definition subcommands : list text := [
  lit "gen-opcodes"; lit "coverage"; lit "stats"; lit "apis"; lit "summary"; lit "verify";
  lit "check-xrefs"; lit "doc-index"; lit "help"; lit "-h"; lit "--help"].

Definition usage_error (args : list text) : Prop :=
  match args with
  | [] => False
  | command :: rest =>
    (command ∉ subcommands) /\
    (frozen command = None \/
     exists flag rest', rest = flag :: rest' /\ flag <> lit "--check" /\ flag <> lit "--write")
  end.

(** What an invocation answers. *)
Definition answers {F W} (args : list text) (f : F) (r : option (outcome (proc F W * Z))) : Prop :=
  exists p' code, r = Some (Ret (p', code)) /\
    (code = ExitCode.SUCCESS \/ code = ExitCode.FAILURE \/ code = EXIT_USAGE) /\
    (code = EXIT_USAGE <-> usage_error args) /\
    (fs p' = f \/ exists command, args = command :: lit "--write" :: tail (tail args) /\
       is_Some (frozen command)).

Section exit_codes.
Context {W : Type} `{Write W, !Reliable W}.

Lemma answers_known {F} command rest (f : F) (p' : proc F W) code :
  command ∈ subcommands -> fs p' = f ->
  code = ExitCode.SUCCESS \/ code = ExitCode.FAILURE ->
  answers (command :: rest) f (Some (Ret (p', code))).
Proof.
  intros Hc Hf Hcode. exists p', code. split; [done|]. split; [tauto|]. split; [|by left].
  unfold EXIT_USAGE, ExitCode.SUCCESS, ExitCode.FAILURE in *. split; [lia|]. by intros [? _].
Qed.

Lemma print_rendering_answers {F} command rest t (p : proc F W) :
  command ∈ subcommands -> answers (command :: rest) (fs p) (Some (print_rendering t p)).
Proof.
  intros Hc. unfold print_rendering. destruct (print_reliable t (stdout p)) as (out & -> & _).
  apply answers_known; auto.
Qed.

Lemma frozen_answers {F} `{FileSystem F, !FileSystemLaws F} fuel name rest (p : proc F W) :
  is_Some (frozen name) -> answers (name :: rest) (fs p) (run fuel (name :: rest) p).
Proof.
  intros [[path rendered] Hf]. destruct (run_frozen fuel name rest path rendered p Hf) as [_ ->].
  assert (name ∉ subcommands) as Hsub.
  { unfold frozen in Hf. repeat case_decide; subst; [..|done]; by apply (bool_decide_unpack _). }
  destruct rest as [|flag rest]; cbn [parse_lock_mode].
  { edestruct (report_status_ret (F:=F) (W:=W)) as (p' & -> & Hp'). eexists _, _. split; [done|].
    split; [destruct (LockStatus.is_up_to_date _); auto|]. split; [|by left].
    split; [by destruct (LockStatus.is_up_to_date _)|].
    intros [_ [?|(? & ? & ? & _)]]; congruence. }
  destruct (decide (flag = lit "--check")) as [->|Hc].
  { edestruct (report_status_ret (F:=F) (W:=W)) as (p' & -> & Hp'). eexists _, _. split; [done|].
    split; [destruct (LockStatus.is_up_to_date _); auto|]. split; [|by left].
    split; [by destruct (LockStatus.is_up_to_date _)|].
    intros [_ [?|(a & r & Er & Ha & _)]]; [congruence|]. injection Er as <- _. by destruct Ha. }
  destruct (decide (flag = lit "--write")) as [->|Hw].
  - assert (forall f' r, (r = ExitCode.SUCCESS \/ r = ExitCode.FAILURE) ->
      forall (p' : proc F W), fs p' = f' ->
      answers (name :: lit "--write" :: rest) (fs p) (Some (Ret (p', r)))) as Hans.
    { intros f' r Hr p' _. exists p', r. split; [done|]. split; [tauto|].
      split; [|right; exists name; by rewrite Hf].
      unfold EXIT_USAGE, ExitCode.SUCCESS, ExitCode.FAILURE in *. split; [lia|].
      intros [_ [?|(a & r' & Er & _ & Ha)]]; [congruence|]. injection Er as <- _. by destruct Ha. }
    destruct (write_file _ _ _) as [f' [[]|e]].
    + edestruct (println_ret (F:=F) (W:=W)) as (o & E). rewrite E. eapply Hans; [by left|done].
    + edestruct (eprintln_ret (F:=F) (W:=W)) as (o & E). rewrite E. eapply Hans; [by right|done].
  - edestruct (eprintln_ret (F:=F) (W:=W)) as (o & E). rewrite E. eexists _, _. split; [done|].
    split; [auto|]. split; [|by left]. split; [|done]. intros _. split; [done|].
    right. by eexists _, _.
Qed.

(** The exit codes are a contract. On any tree of files, with outputs that
    take what they are given and fuel for the tree's depth, every invocation
    whatever returns without a panic; its code is 0, 1 or 2, and 2 exactly for a
    usage error; and no file changes unless the invocation is one of the two
    writing commands with [--write]. *)
Theorem xtask_exit_codes fuel args (p : proc Tree.t W) :
  Tree.wf (fs p) -> (Tree.depth (fs p) <= fuel)%nat ->
  answers args (fs p) (run fuel args p).
Proof.
  intros Hwf Hd. destruct args as [|command rest].
  { eexists _, ExitCode.SUCCESS. split; [done|]. split; [auto|]. split; [done|by left]. }
  destruct (decide (is_Some (frozen command))) as [Hf|Hf]; [by apply frozen_answers|].
  assert (forall (code : Z) (b : bool), code = (if b then ExitCode.SUCCESS else ExitCode.FAILURE) ->
    code = ExitCode.SUCCESS \/ code = ExitCode.FAILURE) as Hb
    by (intros code [] ->; auto).
  destruct (check_xrefs_total fuel (fs p) (stdout p) Hwf Hd) as (out' & n & Ex & Hn).
  unfold run. cbn [head from_option id].
  do 5 (case_decide; [subst command; apply print_rendering_answers;
    by apply (bool_decide_unpack _)|]).
  do 2 (case_decide; [subst command; exfalso; apply Hf; by eexists|]).
  case_decide; [subst command|case_decide; [subst command|case_decide; [subst command|
    case_decide as E]]].
  - unfold verify. rewrite Ex. cbn. apply answers_known; [by apply (bool_decide_unpack _)|done|].
    unfold VerifyOutcome.exit_code. by eapply Hb.
  - rewrite Ex. cbn. apply answers_known; [by apply (bool_decide_unpack _)|done|by eapply Hb].
  - destruct (check_doc_index _ _ _) as [o m].
    apply answers_known; [by apply (bool_decide_unpack _)|done|by eapply Hb].
  - apply answers_known; [|done|by left].
    destruct E as [-> |[-> | ->]]; by apply (bool_decide_unpack _).
  - edestruct (eprintln_ret (F:=Tree.t) (W:=W)) as (o & Eo). rewrite Eo. cbn. eexists _, EXIT_USAGE.
    split; [done|]. split; [auto|]. split; [|by left]. split; [|done]. intros _. split.
    + unfold subcommands. intros Hin.
      repeat (apply elem_of_cons in Hin as [-> |Hin]; [first [contradiction|tauto]|]).
      by apply not_elem_of_nil in Hin.
    + left. destruct (frozen command); [by destruct Hf|done].
Qed.
End exit_codes.

Lemma xtask_exit_codes_witness :
  answers (F:=Tree.t) (W:=Buffer.t) [lit "frobnicate"] design_tree
    (run 3 [lit "frobnicate"] (mkProc design_tree (Buffer.mk []) (Buffer.mk []))) /\
  usage_error [lit "frobnicate"].
Proof.
  split.
  - apply (xtask_exit_codes 3 [lit "frobnicate"]
      (mkProc design_tree (Buffer.mk []) (Buffer.mk []))).
    + cbn. repeat split; by apply (bool_decide_unpack _).
    + by vm_compute; lia.
  - split; [by apply (bool_decide_unpack _)|by left].
Defined.

(** C36: the aggregate check vouches for both. On any tree of files with a docs
    directory, [verify] exits with success if and only if every Markdown file of
    the docs is in order and the lock file holds exactly the rendering of the
    opcode table; it fails otherwise, and changes no file. *)
Theorem verify_gate {W} `{Write W} fuel (p : proc Tree.t W) cs :
  Tree.wf (Tree.DirNode cs) -> Tree.node_at (Path.new DOCS_DIR) (fs p) = Some (Tree.DirNode cs) ->
  (Tree.depth (Tree.DirNode cs) <= fuel)%nat ->
  exists p' code, run fuel [lit "verify"] p = Some (Ret (p', code)) /\ fs p' = fs p /\
    (code = ExitCode.SUCCESS \/ code = ExitCode.FAILURE) /\
    (code = ExitCode.SUCCESS <->
      (forall path c, (path, c) ∈ Tree.files_under (Path.new DOCS_DIR) (Tree.DirNode cs) ->
         is_md path -> file_ok (fs p) path c) /\
      read_to_string (Path.new OPCODES_LOCK) (fs p) = Ok (render_lock OPCODES)).
Proof.
  intros Hwf Hat Hd.
  destruct (check_xrefs_tree fuel _ _ _ (stdout p) Hwf Hat Hd) as (out & n & E & Hn & Hc).
  change (run fuel [lit "verify"] p) with
    (match verify fuel (Path.new DOCS_DIR) (Path.new OPCODES_LOCK) (fs p) (stdout p) with
     | None => None
     | Some r => Some ('(out, code) ← r; Ret (set_stdout out p, code))
     end).
  unfold verify. rewrite E. cbn [mbind outcome_bind]. eexists _, _. split; [done|].
  split; [done|]. unfold VerifyOutcome.exit_code, VerifyOutcome.passed, check_lock.
  cbn [VerifyOutcome.xref_issues VerifyOutcome.lock_up_to_date].
  set (lock := read_to_string _ _). set (code := (if _ : bool then _ else _) : Z).
  assert (code = ExitCode.SUCCESS <-> n = 0 /\ lock = Ok (render_lock OPCODES)) as Hcode.
  { unfold code. destruct (Z.eqb_spec n 0), lock as [d|]; cbn [andb]; try case_decide; naive_solver. }
  split; [unfold code; destruct (_ && _); auto|]. rewrite Hcode, Hc.
  split; intros [Hall ?]; (split; [|done]); intros path c Hp Hmd; eapply clean_file_ok; eauto.
Qed.

Definition design_files : list (text * Tree.t) := [
  (lit "opcodes.lock", Tree.FileNode (render_lock OPCODES));
  (lit "README.md", Tree.FileNode "[p](PROTOCOL.md)");
  (lit "PROTOCOL.md", Tree.FileNode "see (Ch. 06)");
  (lit "HANDLES.md", Tree.FileNode "")].
Definition docs_files : list (text * Tree.t) := [(lit "design", Tree.DirNode design_files)].
Definition docs_tree : Tree.t := Tree.DirNode [(lit "docs", Tree.DirNode docs_files)].

Lemma verify_gate_witness :
  exists p' : proc Tree.t Buffer.t,
    run 3 [lit "verify"] (mkProc docs_tree (Buffer.mk []) (Buffer.mk [])) =
      Some (Ret (p', ExitCode.SUCCESS)) /\
    (forall path c, (path, c) ∈ Tree.files_under (Path.new DOCS_DIR) (Tree.DirNode docs_files) ->
       is_md path -> file_ok docs_tree path c).
Proof.
  destruct (verify_gate 3 (mkProc docs_tree (Buffer.mk []) (Buffer.mk [])) docs_files)
    as (p' & code & E & _ & _ & Hok).
  - cbn. repeat split; by apply (bool_decide_unpack _).
  - by vm_compute.
  - by vm_compute; lia.
  - assert (code = ExitCode.SUCCESS) as ->.
    { vm_compute in E. by injection E as _ <-. }
    exists p'. split; [exact E|]. by apply Hok.
Defined.

(** ** The index of the design docs *)
Definition md_name (name : text) : Prop := Path.extension_of name = Some (lit "md").

Lemma markdown_names_tree dir cs names :
  (forall name n, (name, n) ∈ cs -> Tree.normal name /\ utf8 name = true) ->
  markdown_names dir (map (fun e => Ok (mkEntry (Path.join dir (Path.mk false [e.1]))
    (Ok (Tree.type_of e.2)))) cs) names =
  Ok (names ++ filter md_name (map fst (filter (fun e => Tree.type_of e.2 = IsFile) cs))).
Proof.
  intros Hcs. revert names.
  induction cs as [|[name n] cs IH]; intros names; cbn [map markdown_names entry_type entry_path fst snd].
  { by rewrite app_nil_r. }
  assert (forall name n, (name, n) ∈ cs -> Tree.normal name /\ utf8 name = true) as Hcs'
    by (intros m k Hin; apply (Hcs m k); by right).
  destruct (Hcs name n ltac:(by left)) as [[Hdot Hdd] Hu].
  assert (Path.file_name (Path.join dir (Path.mk false [name])) = Some name) as Hname.
  { unfold Path.file_name. cbn [Path.join Path.absolute Path.comps].
    rewrite rev_app_distr. cbn. by rewrite decide_False by (intros [?|?]; done). }
  assert (Path.extension (Path.join dir (Path.mk false [name])) = Path.extension_of name) as Hext
    by (unfold Path.extension; by rewrite Hname).
  rewrite Hext, Hname, Hu, filter_cons. cbn [snd]. destruct n as [c|ch]; cbn [Tree.type_of].
  - rewrite decide_False by (by intros []). rewrite (decide_True (P:=IsFile = IsFile)) by done. cbn [map fst]. rewrite filter_cons. unfold md_name at 1.
    destruct (decide (Path.extension_of name = Some (lit "md"))) as [He|He].
    + rewrite decide_False by (by intros []). rewrite (IH Hcs'). unfold push. by rewrite <- app_assoc.
    + rewrite decide_True by done. by rewrite (IH Hcs').
  - rewrite decide_True, decide_False by done. by rewrite (IH Hcs').
Qed.

(** The index check misses no document. On a tree of files whose names are
    UTF-8, [check_doc_index] counts the Markdown files directly in the directory,
    other than the README, whose name the README does not mention: when there is
    a README to read, the count is the number of those, and the documents it
    lists are in order; without one the count is one, so that it is zero exactly
    when the README is there and mentions every document beside it. *)
Theorem doc_index_exact {W} `{Write W} dir (fs : Tree.t) cs (out : W) :
  Tree.node_at dir fs = Some (Tree.DirNode cs) ->
  (forall name n, (name, n) ∈ cs -> Tree.normal name /\ utf8 name = true) ->
  let unlisted readme := filter (fun name => contains readme name = false)
    (filter (fun name => name <> README_NAME)
      (filter md_name (map fst (filter (fun e => Tree.type_of e.2 = IsFile) cs)))) in
  let readme := read_to_string (Path.join dir (Path.new README_NAME)) fs in
  exists out' n, check_doc_index dir fs out = (out', n) /\
    (forall r, readme = Ok r -> n = Z.of_nat (length (unlisted r)) /\
       exists names, missing_index_links r names ≡ₚ unlisted r /\ Sorted text_le names) /\
    (n = 0 <-> exists r, readme = Ok r /\ unlisted r = []).
Proof.
  intros Hat Hcs unlisted readme. unfold check_doc_index, list_markdown_filenames.
  assert (read_dir dir fs = Ok (map (fun e => Ok (mkEntry
    (Path.join dir (Path.mk false [e.1])) (Ok (Tree.type_of e.2)))) cs)) as ->
    by (cbn; by rewrite Hat).
  rewrite markdown_names_tree by done. cbn [mbind result_bind app]. fold readme. destruct readme as [r|e].
  2:{ eexists _, 1. split; [done|]. split; [done|]. split; [done|]. by intros (? & ? & _). }
  set (names := sort_by _ _).
  assert (missing_index_links r names ≡ₚ unlisted r) as Hp.
  { unfold missing_index_links, unlisted, names. by rewrite sort_by_perm. }
  eexists _, _. split; [done|].
  assert (length (missing_index_links r names) = length (unlisted r)) as -> by (by rewrite Hp).
  split.
  - intros r' [= <-]. split; [done|]. exists names. split; [done|].
    apply sort_by_Sorted, _.
  - split.
    + intros Hz. exists r. split; [done|]. apply length_zero_iff_nil. lia.
    + intros (r' & [= <-] & ->). done.
Qed.

Lemma doc_index_exact_witness :
  exists out, check_doc_index (Path.new DESIGN_DIR) docs_tree (Buffer.mk []) = (out, 1) /\
    missing_index_links "[p](PROTOCOL.md)" [lit "HANDLES.md"; lit "PROTOCOL.md"; lit "README.md"] =
      [lit "HANDLES.md"].
Proof.
  destruct (doc_index_exact (Path.new DESIGN_DIR) docs_tree design_files (Buffer.mk []))
    as (out & n & E & Hn & _); [by vm_compute| |].
  - intros name n Hin. repeat (apply elem_of_cons in Hin as [[= -> ->]|Hin];
      [split; by apply (bool_decide_unpack _)|]). by apply not_elem_of_nil in Hin.
  - exists out. split; [|by vm_compute]. rewrite E. f_equal.
    destruct (Hn (lit "[p](PROTOCOL.md)") ltac:(by vm_compute)) as [-> _]. by vm_compute.
Defined.
