(* ===== verification/TransportProps.v ===== *)
(** What the transports guarantee: counting changes nothing it counts, stream
    framing round-trips and bounds what a peer can make the receiver read, and
    the loopback delivers in order under every interleaving. *)
From S2P Require Import Prelude Transport.

Local Open Scope Z_scope.

(** ** Calls on a transport *)
Inductive transport_call := CSend (frame : list byte) | CRecv.

Inductive transport_reply :=
| RSent (r : io_result unit)
| RReceived (r : io_result (list byte)).

Section calls.
Context {T : Type} `{Transport T}.

Definition call (c : transport_call) (t : T) : T * transport_reply :=
  match c with
  | CSend frame => let '(t, r) := send frame t in (t, RSent r)
  | CRecv => let '(t, r) := recv t in (t, RReceived r)
  end.

Fixpoint calls (cs : list transport_call) (t : T) : T * list transport_reply :=
  match cs with
  | [] => (t, [])
  | c :: cs =>
    let '(t, r) := call c t in
    let '(t, rs) := calls cs t in
    (t, r :: rs)
  end.

Lemma calls_app cs1 cs2 (t : T) :
  calls (cs1 ++ cs2) t =
  (let '(t, rs1) := calls cs1 t in let '(t, rs2) := calls cs2 t in (t, rs1 ++ rs2)).
Proof.
  revert t. induction cs1 as [|c cs1 IH]; intros t; cbn [app calls].
  - by destruct (calls cs2 t).
  - destruct (call c t) as [t1 r]. rewrite IH. destruct (calls cs1 t1) as [t2 rs].
    by destruct (calls cs2 t2).
Qed.
End calls.

(** Bytes and frames of the successful sends and receives of a log. *)
Definition len64 (frame : list byte) : Z := wrap 64 (Z.of_nat (length frame)).

Definition sent_bytes (c : transport_call) (r : transport_reply) : Z :=
  match c, r with CSend frame, RSent (Ok _) => len64 frame | _, _ => 0 end.
Definition sent_frames (c : transport_call) (r : transport_reply) : Z :=
  match r with RSent (Ok _) => 1 | _ => 0 end.
Definition received_bytes (c : transport_call) (r : transport_reply) : Z :=
  match r with RReceived (Ok frame) => len64 frame | _ => 0 end.
Definition received_frames (c : transport_call) (r : transport_reply) : Z :=
  match r with RReceived (Ok _) => 1 | _ => 0 end.

Fixpoint tally (f : transport_call -> transport_reply -> Z) (cs : list transport_call)
    (rs : list transport_reply) : Z :=
  match cs, rs with
  | c :: cs, r :: rs => f c r + tally f cs rs
  | _, _ => 0
  end.

Lemma len64_nonneg frame : 0 <= len64 frame.
Proof. apply (fits_wrap 64). lia. Qed.

Lemma tally_nonneg f cs rs :
  (forall c r, 0 <= f c r) -> 0 <= tally f cs rs.
Proof.
  intros Hf. revert rs. induction cs as [|c cs IH]; intros [|r rs]; cbn; try lia.
  specialize (Hf c r). specialize (IH rs). lia.
Qed.

Lemma sent_bytes_nonneg c r : 0 <= sent_bytes c r.
Proof. unfold sent_bytes. repeat case_match; try lia. apply len64_nonneg. Qed.
Lemma sent_frames_nonneg c r : 0 <= sent_frames c r.
Proof. unfold sent_frames. repeat case_match; lia. Qed.
Lemma received_bytes_nonneg c r : 0 <= received_bytes c r.
Proof. unfold received_bytes. repeat case_match; try lia. apply len64_nonneg. Qed.
Lemma received_frames_nonneg c r : 0 <= received_frames c r.
Proof. unfold received_frames. repeat case_match; lia. Qed.

Import CountingTransport.

(** The counters of [c] after a log, the starting values included. *)
Definition counted {T} (c0 c : CountingTransport.t T) (cs : list transport_call)
    (rs : list transport_reply) : Prop :=
  bytes_sent c = saturating_add 64 (bytes_sent c0) (tally sent_bytes cs rs) /\
  frames_sent c = saturating_add 64 (frames_sent c0) (tally sent_frames cs rs) /\
  bytes_recv c = saturating_add 64 (bytes_recv c0) (tally received_bytes cs rs) /\
  frames_recv c = saturating_add 64 (frames_recv c0) (tally received_frames cs rs).

Definition counters_fit {T} (c : CountingTransport.t T) : Prop :=
  fits 64 (bytes_sent c) /\ fits 64 (frames_sent c) /\
  fits 64 (bytes_recv c) /\ fits 64 (frames_recv c).

Section counting.
Context {T : Type} `{Transport T}.

Lemma saturating_add_0 x : fits 64 x -> saturating_add 64 x 0 = x.
Proof. unfold fits, saturating_add, max_of. lia. Qed.

(** One call: the inner transport takes the same step, the counters move. *)
Lemma counting_call c (t : CountingTransport.t T) :
  counters_fit t ->
  let '(t', r) := call c t in
  call c (inner t) = (inner t', r) /\ counters_fit t' /\ counted t t' [c] [r].
Proof.
  intros Hfit. destruct c as [frame|]; cbn [call].
  - cbn [Transport.send transport]. unfold CountingTransport.send.
    destruct (Transport.send frame (inner t)) as [s [[]|e]]; (split; [done|]).
    + pose proof (len64_nonneg frame) as Hn. unfold counters_fit, counted in *.
      cbn [tally sent_bytes sent_frames received_bytes received_frames bytes_sent
        bytes_recv frames_sent frames_recv] in *.
      unfold len64, fits, saturating_add, max_of in *. lia.
    + unfold counters_fit, counted in *.
      cbn [tally sent_bytes sent_frames received_bytes received_frames bytes_sent
        bytes_recv frames_sent frames_recv] in *.
      unfold fits, saturating_add, max_of in *. lia.
  - cbn [Transport.recv transport]. unfold CountingTransport.recv.
    destruct (Transport.recv (inner t)) as [s [frame|e]]; (split; [done|]).
    + pose proof (len64_nonneg frame) as Hn. unfold counters_fit, counted in *.
      cbn [tally sent_bytes sent_frames received_bytes received_frames bytes_sent
        bytes_recv frames_sent frames_recv] in *.
      unfold len64, fits, saturating_add, max_of in *. lia.
    + unfold counters_fit, counted in *.
      cbn [tally sent_bytes sent_frames received_bytes received_frames bytes_sent
        bytes_recv frames_sent frames_recv] in *.
      unfold fits, saturating_add, max_of in *. lia.
Qed.

Lemma counted_cons c0 c1 c2 q (r : transport_reply) cs rs :
  counters_fit (T := T) c0 -> counted c0 c1 [q] [r] -> counted c1 c2 cs rs ->
  counted c0 c2 (q :: cs) (r :: rs).
Proof.
  unfold counters_fit, counted, fits.
  intros ([? _] & [? _] & [? _] & [? _]) (-> & -> & -> & ->) (-> & -> & -> & ->).
  cbn [tally]. rewrite !Z.add_0_r.
  split; [|split; [|split]]; apply saturating_add_add;
    auto using tally_nonneg, sent_bytes_nonneg, sent_frames_nonneg,
      received_bytes_nonneg, received_frames_nonneg.
Qed.

Lemma counting_calls cs (t : CountingTransport.t T) :
  counters_fit t ->
  (let '(t', rs) := calls cs t in calls cs (inner t) = (inner t', rs) /\ counted t t' cs rs).
Proof.
  revert t. induction cs as [|c cs IH]; intros t Hfit; cbn [calls].
  - split; [done|]. unfold counters_fit, counted, fits, saturating_add, max_of in *.
    cbn [tally]. lia.
  - pose proof (counting_call c t Hfit) as Hc. destruct (call c t) as [t1 r].
    destruct Hc as (-> & Hfit1 & Hc). specialize (IH t1 Hfit1).
    destruct (calls cs t1) as [t' rs]. destruct IH as [-> IH].
    split; [done|]. by eapply counted_cons.
Qed.

(** A counting transport is transparent and counts exactly. Any sequence of
    sends and receives on a fresh [CountingTransport] returns what it returns on
    the wrapped transport and leaves the wrapped transport in the same state;
    each counter is the number of bytes or frames of the successful operations,
    pinned at [u64::MAX]. *)
Theorem counting_transparent cs (t : T) :
  let '(t', rs) := calls cs (CountingTransport.new t) in
  calls cs t = (inner t', rs) /\
  bytes_sent t' = Z.min (tally sent_bytes cs rs) (max_of 64) /\
  frames_sent t' = Z.min (tally sent_frames cs rs) (max_of 64) /\
  bytes_recv t' = Z.min (tally received_bytes cs rs) (max_of 64) /\
  frames_recv t' = Z.min (tally received_frames cs rs) (max_of 64).
Proof.
  pose proof (counting_calls cs (CountingTransport.new t)) as H1.
  destruct (calls cs (CountingTransport.new t)) as [t' rs].
  destruct H1 as [E (H1 & H2 & H3 & H4)]; [split_and!; by vm_compute|].
  split; [exact E|]. by rewrite H1, H2, H3, H4.
Qed.
End counting.

(** ** Stream framing *)
Section stream.
Import StreamTransport.

Definition framed (frame : list byte) : list byte :=
  le_bytes 4 (Z.of_nat (length frame)) ++ frame.

Lemma stream_send frame m w u :
  Z.of_nat (length frame) <= max_of 32 ->
  send frame (mk (Pipe.mk w u) m) = (mk (Pipe.mk (w ++ framed frame) u) m, Ok tt).
Proof.
  intros Hl. cbn [Transport.send transport]. unfold StreamTransport.send.
  rewrite (proj2 (Z.ltb_ge _ _)) by done. cbn -[le_bytes]. unfold framed.
  by rewrite <- app_assoc.
Qed.

Lemma stream_recv frame m w u :
  fits 32 (Z.of_nat (length frame)) -> Z.of_nat (length frame) <= m ->
  recv (mk (Pipe.mk w (framed frame ++ u)) m) = (mk (Pipe.mk w u) m, Ok frame).
Proof.
  intros Hf Hl. cbn [Transport.recv transport]. unfold StreamTransport.recv.
  cbn [read_exact Pipe.stream inner Pipe.unread Pipe.written]. unfold framed.
  rewrite decide_True by (rewrite !length_app, length_le_bytes; lia).
  rewrite <- app_assoc.
  rewrite take_app_length' by (by rewrite length_le_bytes).
  rewrite drop_app_length' by (by rewrite length_le_bytes).
  rewrite of_le_bytes_id by exact Hf. cbn [max_frame].
  rewrite (proj2 (Z.ltb_ge _ _)) by done. rewrite Nat2Z.id. cbn [read_exact Pipe.stream
    Pipe.unread Pipe.written].
  rewrite decide_True by (rewrite length_app; lia).
  by rewrite take_app_length, drop_app_length.
Qed.

Definition stream_ok (m : Z) (frame : list byte) : Prop :=
  fits 32 (Z.of_nat (length frame)) /\ Z.of_nat (length frame) <= m.

Lemma stream_send_all frames m w u :
  Forall (fun f => fits 32 (Z.of_nat (length f))) frames ->
  calls (map CSend frames) (mk (Pipe.mk w u) m) =
  (mk (Pipe.mk (w ++ (frames ≫= framed)) u) m, map (fun _ => RSent (Ok tt)) frames).
Proof.
  intros Hf. revert w. induction Hf as [|frame frames Hl Hf IH]; intros w; cbn [map calls call Transport.send Transport.recv transport].
  - by rewrite app_nil_r.
  - rewrite stream_send by (unfold fits, max_of in *; lia). rewrite IH.
    rewrite bind_cons, <- app_assoc. done.
Qed.

Lemma stream_recv_all frames m w u :
  Forall (stream_ok m) frames ->
  calls (map (fun _ => CRecv) frames) (mk (Pipe.mk w ((frames ≫= framed) ++ u)) m) =
  (mk (Pipe.mk w u) m, map (fun f => RReceived (Ok f)) frames).
Proof.
  intros Hf. induction Hf as [|frame frames [Hfit Hl] Hf IH]; cbn [map calls call Transport.send Transport.recv transport].
  - done.
  - rewrite bind_cons, <- app_assoc, stream_recv by done. by rewrite IH.
Qed.

(** C24: stream framing round-trips. Frames that fit the receiver's bound, sent one
    after the other on a stream, are received on the other end of it as the same
    frames in the same order, and then the end of the stream is reported. *)
Theorem stream_roundtrip frames m m' :
  Forall (stream_ok m') frames ->
  let '(sender, sent) := calls (map CSend frames) (mk (Pipe.mk [] []) m) in
  let wire := Pipe.written (into_inner sender) in
  sent = map (fun _ => RSent (Ok tt)) frames /\
  calls (map (fun _ => CRecv) frames ++ [CRecv]) (mk (Pipe.mk [] wire) m') =
    (mk (Pipe.mk [] []) m',
     map (fun f => RReceived (Ok f)) frames ++ [RReceived (Err io.UnexpectedEof)]).
Proof.
  intros Hf. rewrite stream_send_all by (eapply Forall_impl; [exact Hf|by intros ? [? _]]).
  split; [done|]. cbn [into_inner inner Pipe.written app].
  rewrite calls_app. rewrite <- (app_nil_r (frames ≫= framed)), stream_recv_all by done. done.
Qed.

(** An oversized frame is stopped at the receiver only. A frame longer than
    the receiver's [max_frame] (and within 32 bits) is sent without an error, and
    the receiver rejects it with [InvalidData] having read its four length bytes
    and nothing else. *)
Theorem stream_oversize frame m m' rest :
  m' < Z.of_nat (length frame) <= max_of 32 ->
  let '(sender, r) := send frame (mk (Pipe.mk [] []) m) in
  r = Ok tt /\
  recv (mk (Pipe.mk [] (Pipe.written (inner sender) ++ rest)) m') =
    (mk (Pipe.mk [] (frame ++ rest)) m', Err io.InvalidData).
Proof.
  intros [Hm Hl]. rewrite stream_send by done. split; [done|].
  cbn [Transport.recv transport]. unfold StreamTransport.recv.
  cbn [read_exact Pipe.stream inner Pipe.unread Pipe.written app]. unfold framed.
  rewrite decide_True by (rewrite !length_app, length_le_bytes; lia).
  rewrite <- app_assoc.
  rewrite take_app_length' by (by rewrite length_le_bytes).
  rewrite drop_app_length' by (by rewrite length_le_bytes).
  rewrite of_le_bytes_id by (unfold fits, max_of in *; cbn; lia).
  cbn [max_frame]. by rewrite (proj2 (Z.ltb_lt _ _)).
Qed.
End stream.

(** ** The loopback, under every interleaving

    An endpoint that is still held sends, receives or is dropped; the two
    endpoints' steps interleave in any order. A receive that blocks is no step. *)
Module LoopbackRun.
Import Loopback.

Inductive event :=
| Sent (side : bool) (frame : list byte)
| SendFailed (side : bool)
| Received (side : bool) (frame : list byte)
| EndOfStream (side : bool)
| Dropped (side : bool).

Definition held (side : bool) (n : net) : Prop := tx_alive (tx_of side n) = true.

Inductive step : net -> event -> net -> Prop :=
| step_sent side frame n n' :
    held side n -> send side frame n = (n', Ok tt) -> step n (Sent side frame) n'
| step_send_failed side frame n n' e :
    held side n -> send side frame n = (n', Err e) -> step n (SendFailed side) n'
| step_received side frame n n' :
    held side n -> recv side n = Some (n', Ok frame) -> step n (Received side frame) n'
| step_eof side n n' e :
    held side n -> recv side n = Some (n', Err e) -> step n (EndOfStream side) n'
| step_dropped side n : held side n -> step n (Dropped side) (drop_endpoint side n).

Inductive steps : list event -> net -> Prop :=
| steps_start : steps [] loopback
| steps_more evs n e n' : steps evs n -> step n e n' -> steps (evs ++ [e]) n'.

(** What [side] has sent, and received, in order. *)
Definition sent_by (side : bool) (evs : list event) : list (list byte) :=
  omap (fun e => match e with
    | Sent s frame => if Bool.eqb s side then Some frame else None | _ => None end) evs.
Definition received_by (side : bool) (evs : list event) : list (list byte) :=
  omap (fun e => match e with
    | Received s frame => if Bool.eqb s side then Some frame else None | _ => None end) evs.

(** The channel [side] sends on: the receiver is held exactly when it is alive,
    nothing is lost while it is, and what was received is a prefix. *)
Record channel_ok (side : bool) (evs : list event) (n : net) : Prop := {
  chan_rx : rx_alive (tx_of side n) = tx_alive (rx_of side n);
  chan_queue : rx_alive (tx_of side n) = true ->
    sent_by side evs = received_by (negb side) evs ++ queue (tx_of side n);
  chan_prefix : received_by (negb side) evs `prefix_of` sent_by side evs;
}.

Lemma sent_by_app side evs e :
  sent_by side (evs ++ [e]) = sent_by side evs ++ sent_by side [e].
Proof. apply omap_app. Qed.

Lemma received_by_app side evs e :
  received_by side (evs ++ [e]) = received_by side evs ++ received_by side [e].
Proof. apply omap_app. Qed.

Lemma step_channel side evs n e n' :
  channel_ok side evs n -> step n e n' -> channel_ok side (evs ++ [e]) n'.
Proof.
  intros [Hrx Hq Hp] Hstep.
  destruct Hstep as [s f n n' Hh E|s f n n' e Hh E|s f n n' Hh E|s n n' e Hh E|s n Hh];
    destruct n as [[qa ta ra] [qb tb rb]]; destruct s, side;
    unfold held, send, recv, tx_of, rx_of, set_tx, set_rx in *; cbn in *;
    repeat case_match; simplify_eq; constructor;
    rewrite ?sent_by_app, ?received_by_app; cbn;
    rewrite ?app_nil_r; try done; intros; try specialize (Hq eq_refl);
    try specialize (Hq Hh); unfold push; rewrite ?Hq, <- ?app_assoc; try done;
    first [by apply prefix_app_r | by rewrite app_nil_r |
           apply prefix_app, (prefix_app [_]), prefix_nil].
Qed.

Lemma steps_channel evs n side : steps evs n -> channel_ok side evs n.
Proof.
  induction 1 as [|evs n e n' _ IH Hstep]; [|by eapply step_channel].
  destruct side; constructor; try done; by exists [].
Qed.

(** C27: the loopback delivers exactly, in order, under every interleaving. In any
    run of the two endpoints of a fresh pair, which send, receive and are dropped in
    any order, the frames an endpoint has received are a prefix of those the other
    has sent, the rest being queued while the receiver is held; and an endpoint that
    is told the stream has ended has received everything that was sent. *)
Theorem loopback_fifo evs n side :
  steps evs n ->
  received_by (negb side) evs `prefix_of` sent_by side evs /\
  (held (negb side) n ->
     sent_by side evs = received_by (negb side) evs ++ queue (tx_of side n)) /\
  (forall n' e, held (negb side) n -> recv (negb side) n = Some (n', Err e) ->
     e = io.UnexpectedEof /\ received_by (negb side) evs = sent_by side evs).
Proof.
  intros Hs. destruct (steps_channel _ _ side Hs) as [Hrx Hq Hp].
  assert (forall m, rx_of (negb m) n = tx_of m n /\ tx_of (negb m) n = rx_of m n) as Hn
    by (by intros []).
  split; [done|]. unfold held. destruct (Hn side) as [Hr Ht]. rewrite Ht. split.
  - intros Hh. apply Hq. by rewrite Hrx.
  - intros n' e Hh. unfold recv. rewrite Hr. rewrite <- Hrx in Hh. specialize (Hq Hh).
    intros E. repeat case_match; simplify_eq. split; [done|]. by rewrite Hq, app_nil_r.
Qed.
End LoopbackRun.

(** ** Witnesses *)
Section witnesses.

Definition demo_frames : list (list byte) := [[x01; x02]; []; [xff]].

Lemma stream_roundtrip_witness :
  Forall (stream_ok 16) demo_frames /\
  let '(sender, sent) := calls (map CSend demo_frames)
    (StreamTransport.mk (Pipe.mk [] []) 16) in
  calls (map (fun _ => CRecv) demo_frames ++ [CRecv])
    (StreamTransport.mk
       (Pipe.mk [] (Pipe.written (StreamTransport.into_inner sender))) 16) =
    (StreamTransport.mk (Pipe.mk [] []) 16,
     map (fun f => RReceived (Ok f)) demo_frames ++ [RReceived (Err io.UnexpectedEof)]).
Proof.
  assert (Forall (stream_ok 16) demo_frames) as Hf
    by (repeat constructor; cbn; unfold fits; lia).
  split; [exact Hf|]. exact (proj2 (stream_roundtrip demo_frames 16 16 Hf)).
Defined.
End witnesses.

Section more_witnesses.

Lemma stream_oversize_witness :
  1 < Z.of_nat (length [x01; x02]) <= max_of 32 /\
  StreamTransport.recv (StreamTransport.mk (Pipe.mk []
      (Pipe.written (StreamTransport.inner (fst (StreamTransport.send [x01; x02]
         (StreamTransport.mk (Pipe.mk [] []) 9)))) ++ [x03])) 1) =
    (StreamTransport.mk (Pipe.mk [] ([x01; x02] ++ [x03])) 1, Err io.InvalidData).
Proof.
  assert (1 < Z.of_nat (length [x01; x02]) <= max_of 32) as H
    by (unfold max_of; cbn; lia).
  split; [exact H|]. exact (proj2 (stream_oversize [x01; x02] 9 1 [x03] H)).
Defined.

Import Loopback LoopbackRun.

(** Endpoint 0 sends two frames, endpoint 1 receives one, endpoint 0 is dropped. *)
Lemma loopback_fifo_witness :
  exists n,
    steps [Sent false [x01]; Sent false [x02]; Received true [x01]; Dropped false] n /\
    received_by true [Sent false [x01]; Sent false [x02]; Received true [x01];
      Dropped false] `prefix_of` [[x01]; [x02]].
Proof.
  assert (exists n, steps [Sent false [x01]; Sent false [x02]; Received true [x01];
    Dropped false] n) as [n Hn].
  { eexists.
    refine (steps_more [Sent false [x01]; Sent false [x02]; Received true [x01]] _ _ _
      (steps_more [Sent false [x01]; Sent false [x02]] _ _ _
        (steps_more [Sent false [x01]] _ _ _
          (steps_more [] _ _ _ steps_start _) _) _) _).
    - by apply step_sent.
    - by apply step_sent.
    - by apply step_received.
    - by apply step_dropped. }
  exists n. split; [exact Hn|]. exact (proj1 (loopback_fifo _ n false Hn)).
Defined.
End more_witnesses.
