(* ===== verification/Obs.v ===== *)
(** Observability (crates/graftx-obs): the saturating call counters, the latency
    histogram, and the per-API registry with its Markdown and JSON reports.

    A [Duration] is its whole seconds and nanoseconds. A registry's maps are
    [HashMap]s behind mutexes; a method is one step on the map here, and ObsShared
    takes it apart and shows that under threads it is as good as one. The order
    a [HashMap] iterates in is not specified, so the methods that iterate take the
    entries in an arbitrary order, and the theorems are about all of them. *)
From stdpp Require Import sorting pretty.
From S2P Require Import Prelude.

Local Open Scope Z_scope.

(** ** Call counters *)
Module CallStats.
Record t := mk { calls : Z; bytes_out : Z; bytes_in : Z }.

Definition default : t := mk 0 0 0.

Definition record (out_bytes in_bytes : Z) (self : t) : t :=
  mk (saturating_add 64 (calls self) 1)
     (saturating_add 64 (bytes_out self) out_bytes)
     (saturating_add 64 (bytes_in self) in_bytes).

Definition merge (other self : t) : t :=
  mk (saturating_add 64 (calls self) (calls other))
     (saturating_add 64 (bytes_out self) (bytes_out other))
     (saturating_add 64 (bytes_in self) (bytes_in other)).

Definition wf (s : t) : Prop :=
  fits 64 (calls s) /\ fits 64 (bytes_out s) /\ fits 64 (bytes_in s).
End CallStats.

(** ** Latency histogram *)
Module Duration.
Record t := mk { secs : Z; nanos : Z }.
(** [Duration::as_micros] *)
Definition as_micros (d : t) : Z := secs d * 1000000 + nanos d / 1000.
Definition wf (d : t) : Prop := fits 64 (secs d) /\ 0 <= nanos d < 1000000000.
End Duration.

Module LatencyHist.
Definition BUCKETS : nat := 12.
Definition UPPER_BOUNDS_US : list Z := [1; 2; 4; 8; 16; 32; 64; 128; 256; 512; 1024].

Record t := mk { counts : list Z }.

Definition new : t := mk (replicate BUCKETS 0).

(** The loop of [bucket_index] over the bounds from index [i] on. *)
Fixpoint bucket_index_from (i : nat) (bounds : list Z) (micros : Z) : nat :=
  match bounds with
  | [] => BUCKETS - 1
  | bound :: rest => if micros <? bound then i else bucket_index_from (S i) rest micros
  end.

Definition bucket_index (micros : Z) : nat := bucket_index_from 0 UPPER_BOUNDS_US micros.

(** [self.counts[index] = self.counts[index].saturating_add(1)]: both accesses are
    checked. *)
Definition record (d : Duration.t) (self : t) : outcome t :=
  let index := bucket_index (Duration.as_micros d) in
  old ← index_or_panic (counts self) (Z.of_nat index);
  Ret (mk (<[index := saturating_add 64 old 1]> (counts self))).

Definition count (self : t) : Z := fold_left (saturating_add 64) (counts self) 0.

Definition bucket_counts (self : t) : list Z := counts self.

(** [impl Default] *)
Definition default : t := new.

Definition wf (self : t) : Prop :=
  length (counts self) = BUCKETS /\ Forall (fits 64) (counts self).
End LatencyHist.

(** ** Text *)
Definition newline : string := String (Ascii.ascii_of_nat 10) EmptyString.
Definition quote : string := String (Ascii.ascii_of_nat 34) EmptyString.
Definition backslash : string := String (Ascii.ascii_of_nat 92) EmptyString.

Local Open Scope string_scope.

(** The body of [LatencyHist::report], one bucket. *)
Definition hist_row (i : nat) (count : Z) : string :=
  if decide (count = 0%Z) then ""
  else
    match LatencyHist.UPPER_BOUNDS_US !! i with
    | Some bound => "| <" +:+ pretty bound +:+ "us | " +:+ pretty count +:+ " |" +:+ newline
    | None =>
      "| >=" +:+ pretty (List.last LatencyHist.UPPER_BOUNDS_US 0%Z) +:+ "us | " +:+ pretty count +:+ " |" +:+ newline
    end.

Definition concat_strings (l : list string) : string := foldr String.app "" l.

Definition hist_report (self : LatencyHist.t) : string :=
  "| bucket | count |" +:+ newline +:+ "| --- | --- |" +:+ newline +:+
  concat_strings (imap hist_row (LatencyHist.counts self)).

(** [fn push_json_escaped] *)
Fixpoint push_json_escaped (out s : string) : string :=
  match s with
  | EmptyString => out
  | String ch rest =>
    let escaped :=
      if decide (ch = Ascii.ascii_of_nat 34) then backslash +:+ quote
      else if decide (ch = Ascii.ascii_of_nat 92) then backslash +:+ backslash
      else String ch EmptyString in
    push_json_escaped (out +:+ escaped) rest
  end.

(** ** The registry *)
Module ObsRegistry.
Record t := mk {
  inner : gmap string CallStats.t;
  latency : gmap string LatencyHist.t }.

Definition new : t := mk ∅ ∅.

(** [entry(api).or_default().record(bytes_out, bytes_in)] *)
Definition record (api : string) (bytes_out bytes_in : Z) (self : t) : t :=
  let stats := from_option id CallStats.default (inner self !! api) in
  mk (<[api := CallStats.record bytes_out bytes_in stats]> (inner self)) (latency self).

Definition record_frame (api : string) (request_frame reply_frame : list byte) (self : t) : t :=
  record api (wrap 64 (Z.of_nat (length request_frame)))
    (wrap 64 (Z.of_nat (length reply_frame))) self.

Definition snapshot (self : t) : gmap string CallStats.t := inner self.

Definition reset (self : t) : t := mk ∅ (latency self).

Definition record_latency (api : string) (d : Duration.t) (self : t) : outcome t :=
  let hist := from_option id LatencyHist.new (latency self !! api) in
  hist ← LatencyHist.record d hist;
  Ret (mk (inner self) (<[api := hist]> (latency self))).

(** [rows.sort_by_key(|(api, _)| *api)] *)
Definition by_key {A} (x y : string * A) : Prop := String.le x.1 y.1.

#[export] Instance by_key_dec {A} : RelDecision (@by_key A).
Proof. unfold by_key. intros x y. apply _. Defined.

(** The methods that iterate, over the map's entries in the order it yields them. *)
Definition snapshot_sorted (entries : list (string * CallStats.t))
  : list (string * CallStats.t) := merge_sort by_key entries.

Definition total (entries : list (string * CallStats.t)) : CallStats.t :=
  fold_left (fun total e => CallStats.merge e.2 total) entries CallStats.default.

Definition report_row (e : string * CallStats.t) : string :=
  "| " +:+ e.1 +:+ " | " +:+ pretty (CallStats.calls e.2) +:+ " | " +:+
  pretty (CallStats.bytes_out e.2) +:+ " | " +:+ pretty (CallStats.bytes_in e.2) +:+
  " |" +:+ newline.

Definition report (entries : list (string * CallStats.t)) : string :=
  let rows := snapshot_sorted entries in
  let total := total rows in
  "| API | Calls | Bytes Out | Bytes In |" +:+ newline +:+
  "| --- | --- | --- | --- |" +:+ newline +:+
  concat_strings (map report_row rows) +:+
  report_row ("TOTAL", total).

(** [{"calls":N,"bytes_out":N,"bytes_in":N}] *)
Definition json_stats (s : CallStats.t) : string :=
  "{" +:+ quote +:+ "calls" +:+ quote +:+ ":" +:+ pretty (CallStats.calls s) +:+
  "," +:+ quote +:+ "bytes_out" +:+ quote +:+ ":" +:+ pretty (CallStats.bytes_out s) +:+
  "," +:+ quote +:+ "bytes_in" +:+ quote +:+ ":" +:+ pretty (CallStats.bytes_in s) +:+ "}".

Definition json_row (i : nat) (e : string * CallStats.t) : string :=
  (if decide (0 < i)%nat then "," else "") +:+
  push_json_escaped quote e.1 +:+ quote +:+ ":" +:+ json_stats e.2.

Definition to_json (entries : list (string * CallStats.t)) : string :=
  let rows := snapshot_sorted entries in
  let total := total rows in
  "{" +:+ quote +:+ "apis" +:+ quote +:+ ":{" +:+
  concat_strings (imap json_row rows) +:+
  "}," +:+ quote +:+ "total" +:+ quote +:+ ":" +:+ json_stats total +:+ "}".

Definition latency_report (entries : list (string * LatencyHist.t)) : string :=
  concat_strings (map (fun e => "### " +:+ e.1 +:+ newline +:+ hist_report e.2)
    (merge_sort by_key entries)).
End ObsRegistry.
