(* ===== verification/ObsProps.v ===== *)
(** The counters and reports of graftx-obs: exact until they saturate, independent
    of the order in which threads record and in which the maps iterate. *)
From stdpp Require Import sorting pretty.
From S2P Require Import Prelude Obs.

Local Open Scope Z_scope.

(** ** Sums *)
Fixpoint sum_of {A} (f : A -> Z) (l : list A) : Z :=
  match l with
  | [] => 0
  | x :: r => f x + sum_of f r
  end.

Lemma sum_of_Permutation {A} (f : A -> Z) l1 l2 : l1 ≡ₚ l2 -> sum_of f l1 = sum_of f l2.
Proof. induction 1; cbn; lia. Qed.

Lemma sum_of_nonneg {A} (f : A -> Z) l : Forall (fun x => 0 <= f x) l -> 0 <= sum_of f l.
Proof. induction 1; cbn; lia. Qed.

Lemma sum_of_insert (l : list Z) i x y :
  l !! i = Some x -> sum_of id (<[i:=y]> l) = sum_of id l - x + y.
Proof.
  revert i. induction l as [|z l IH]; intros [|i] Hi; simpl in *; try done.
  - injection Hi as ->. unfold id. lia.
  - rewrite (IH _ Hi). lia.
Qed.

Lemma sum_of_lookup_le (l : list Z) i x :
  Forall (fun x => 0 <= x) l -> l !! i = Some x -> x <= sum_of id l.
Proof.
  intros Hl. revert i. induction Hl as [|z l Hz Hl IH]; intros [|i] Hi; cbn in *; try done.
  - injection Hi as ->. pose proof (sum_of_nonneg id l Hl). unfold id in *. lia.
  - specialize (IH _ Hi). unfold id in *. lia.
Qed.

Lemma fold_saturating (l : list Z) acc :
  0 <= acc -> Forall (fun x => 0 <= x) l ->
  fold_left (saturating_add 64) l acc = if decide (l = []) then acc
    else Z.min (acc + sum_of id l) (max_of 64).
Proof.
  intros Ha Hl. revert acc Ha. induction Hl as [|x l Hx Hl IH]; intros acc Ha; [done|].
  cbn [fold_left]. rewrite IH by (unfold saturating_add, max_of; lia).
  pose proof (sum_of_nonneg id l Hl). rewrite (decide_False (P := x :: l = [])) by done.
  unfold saturating_add, max_of, id in *. cbn.
  case_decide; [subst; cbn; lia|]. lia.
Qed.

(** ** The histogram *)
Import LatencyHist.

Lemma bucket_index_cases m :
  0 <= m ->
  (m < 1024 /\ exists i, bucket_index m = i /\ (i < 11)%nat /\ m < 2 ^ Z.of_nat i /\
     (i <> 0%nat -> 2 ^ (Z.of_nat i - 1) <= m)) \/
  (1024 <= m /\ bucket_index m = 11%nat).
Proof.
  intros Hm. unfold bucket_index, UPPER_BOUNDS_US. cbn [bucket_index_from].
  repeat (match goal with |- context [?a <? ?b] => destruct (Z.ltb_spec a b) end;
    [left; split; [lia|]; eexists; split; [reflexivity|]; split; [lia|]; cbn; lia|]).
  right. split; [lia|done].
Qed.

Lemma bucket_index_lt m : (bucket_index m < BUCKETS)%nat.
Proof.
  unfold bucket_index, UPPER_BOUNDS_US, BUCKETS. cbn [bucket_index_from].
  repeat (match goal with |- context [?a <? ?b] => destruct (Z.ltb_spec a b) end; [lia|]).
  cbn. lia.
Qed.

Lemma hist_record d h :
  wf h -> exists old h', counts h !! bucket_index (Duration.as_micros d) = Some old /\
    record d h = Ret h' /\ wf h' /\
    counts h' = <[bucket_index (Duration.as_micros d) := saturating_add 64 old 1]> (counts h) /\
    count h' = saturating_add 64 (count h) 1.
Proof.
  intros [Hlen Hfit]. set (i := bucket_index (Duration.as_micros d)).
  destruct (lookup_lt_is_Some_2 (counts h) i) as [old Hold].
  { rewrite Hlen. apply bucket_index_lt. }
  pose proof (proj1 (Forall_lookup _ _) Hfit _ _ Hold) as Hof.
  eexists old, _. split; [done|]. split.
  { unfold record, index_or_panic. fold i. rewrite Nat2Z.id, Hold. reflexivity. }
  assert (fits 64 (saturating_add 64 old 1)) as Hnf
    by (unfold fits, saturating_add, max_of in *; lia).
  split; [split; cbn; [by rewrite length_insert|by apply Forall_insert]|].
  split; [done|]. unfold count. cbn [counts].
  assert (Forall (fun x => 0 <= x) (counts h)) as Hnn
    by (eapply Forall_impl; [exact Hfit|unfold fits; cbn; lia]).
  assert (counts h <> []) as Hne by (intros E; by rewrite E in Hold).
  rewrite !fold_saturating; try done.
  2:{ apply Forall_insert; [done|]. by destruct Hnf. }
  rewrite !decide_False; [|done|].
  2:{ intros E. apply Hne. apply (f_equal length) in E. rewrite length_insert in E.
      by apply nil_length_inv. }
  rewrite (sum_of_insert _ _ old) by done.
  pose proof (sum_of_lookup_le _ _ _ Hnn Hold). pose proof (sum_of_nonneg id _ Hnn).
  unfold fits, saturating_add, max_of in *. lia.
Qed.

Lemma hist_new_wf : wf new.
Proof. split; [done|]. apply Forall_replicate. by split. Qed.

Fixpoint record_all (ds : list Duration.t) (h : LatencyHist.t) : outcome LatencyHist.t :=
  match ds with
  | [] => Ret h
  | d :: ds => h ← record d h; record_all ds h
  end.

(** The durations that belong to a bucket, and how many there are, pinned. *)
Definition in_bucket (i : nat) (ds : list Duration.t) : list Duration.t :=
  filter (fun d => bucket_index (Duration.as_micros d) = i) ds.

Definition pinned (n : nat) : Z := Z.min (Z.of_nat n) (max_of 64).

Lemma pinned_S n : pinned (S n) = saturating_add 64 (pinned n) 1.
Proof. unfold pinned, saturating_add, max_of. lia. Qed.

Lemma record_all_snoc ds d h :
  record_all (ds ++ [d]) h = h ← record_all ds h; record d h.
Proof.
  revert h. induction ds as [|d' ds IH]; intros h; cbn [app record_all].
  - cbn. by destruct (record d h).
  - destruct (record d' h); cbn [mbind outcome_bind]; [apply IH|done].
Qed.

(** Recording the durations one by one: every counter, and their sum. *)
Lemma record_all_spec ds :
  exists h, record_all ds new = Ret h /\ wf h /\ count h = pinned (length ds) /\
    forall i, (i < BUCKETS)%nat -> counts h !! i = Some (pinned (length (in_bucket i ds))).
Proof.
  induction ds as [|d ds (h & E & Hwf & Hc & Hb)] using rev_ind.
  - exists new. split; [done|]. split; [apply hist_new_wf|]. split; [done|].
    intros i Hi. by apply lookup_replicate_2.
  - destruct (hist_record d h Hwf) as (old & h' & Hold & E' & Hwf' & Hcounts & Hc').
    exists h'. split; [rewrite record_all_snoc, E; exact E'|]. split; [done|]. split.
    { rewrite Hc', Hc, length_app, Nat.add_1_r. symmetry. apply pinned_S. }
    intros i Hi. rewrite Hcounts. unfold in_bucket. rewrite filter_app, length_app, filter_cons.
    fold (in_bucket i ds). case_decide as Hd.
    + subst i. rewrite Hb in Hold by done. injection Hold as <-.
      rewrite list_lookup_insert_eq by (apply lookup_lt_is_Some; rewrite Hb by done; by eexists).
      rewrite Nat.add_1_r. f_equal. symmetry. apply pinned_S.
    + rewrite list_lookup_insert_ne by done. rewrite Nat.add_0_r. by apply Hb.
Qed.

(** C32: the latency histogram is exact. Recording any durations in a fresh
    histogram never panics; every duration goes to one bucket, the first whose
    exclusive power-of-two bound in microseconds it is below, or the overflow
    bucket from 1024us: each of the 12 counters ends as the number of recorded
    durations that belong to its bucket, pinned at [u64::MAX], and [count] is the
    number of durations recorded, pinned likewise. *)
Theorem latency_hist_exact (ds : list Duration.t) :
  (forall m, 0 <= m ->
     let i := bucket_index m in
     (i < 12)%nat /\ ((i < 11)%nat -> m < 2 ^ Z.of_nat i) /\
     (i <> 0%nat -> 2 ^ (Z.of_nat i - 1) <= m)) /\
  exists h, record_all ds new = Ret h /\ length (counts h) = 12%nat /\
    (forall i, (i < 12)%nat -> counts h !! i =
       Some (Z.min (Z.of_nat (length (filter
         (fun d => bucket_index (Duration.as_micros d) = i) ds))) (max_of 64))) /\
    count h = Z.min (Z.of_nat (length ds)) (max_of 64).
Proof.
  split.
  - intros m Hm. cbn zeta. destruct (bucket_index_cases m Hm)
      as [(_ & i & -> & Hi & ? & ?)|[? ->]].
    + split; [lia|]. by split.
    + split; [lia|]. split; [lia|]. intros _. cbn. lia.
  - destruct (record_all_spec ds) as (h & E & [Hlen _] & Hc & Hb).
    exists h. split; [done|]. split; [done|]. split; [exact Hb|exact Hc].
Qed.

Lemma latency_hist_exact_witness :
  (bucket_index 5 < 12)%nat /\ exists h,
    record_all [Duration.mk 0 5000; Duration.mk 2 0] new = Ret h /\ count h = 2 /\
    counts h !! 3%nat = Some 1 /\ counts h !! 11%nat = Some 1 /\ counts h !! 0%nat = Some 0.
Proof.
  destruct (latency_hist_exact [Duration.mk 0 5000; Duration.mk 2 0])
    as [H (h & E & _ & Hb & Hc)].
  split; [by apply H|]. exists h. split; [exact E|]. split; [rewrite Hc; by vm_compute|].
  split_and!; rewrite Hb by lia; by vm_compute.
Defined.

(** ** The registry *)
Module RegistryRun.
Import ObsRegistry.

(** One [record] call. *)
Record call := mkCall { call_api : string; call_out : Z; call_in : Z }.

Definition call_wf (c : call) : Prop := 0 <= call_out c /\ 0 <= call_in c.

Definition record_call (r : ObsRegistry.t) (c : call) : ObsRegistry.t :=
  ObsRegistry.record (call_api c) (call_out c) (call_in c) r.

Definition record_calls (cs : list call) (r : ObsRegistry.t) : ObsRegistry.t :=
  fold_left record_call cs r.

Definition pin (x : Z) : Z := Z.min x (max_of 64).

(** The statistics of some calls: their number and their bytes, each pinned. *)
Definition stats_of (cs : list call) : CallStats.t :=
  CallStats.mk (pin (Z.of_nat (length cs))) (pin (sum_of call_out cs)) (pin (sum_of call_in cs)).

Definition of_api (api : string) (cs : list call) : list call :=
  filter (fun c => call_api c = api) cs.

Lemma stats_of_Permutation cs1 cs2 : cs1 ≡ₚ cs2 -> stats_of cs1 = stats_of cs2.
Proof.
  intros Hp. unfold stats_of.
  by rewrite (sum_of_Permutation call_out _ _ Hp), (sum_of_Permutation call_in _ _ Hp), Hp.
Qed.

Lemma sums_nonneg cs :
  Forall call_wf cs -> 0 <= sum_of call_out cs /\ 0 <= sum_of call_in cs.
Proof. induction 1 as [|c cs [? ?] _ [? ?]]; cbn; lia. Qed.

Lemma stats_of_snoc cs c :
  Forall call_wf cs -> call_wf c ->
  stats_of (cs ++ [c]) = CallStats.record (call_out c) (call_in c) (stats_of cs).
Proof.
  intros Hcs [Ho Hi]. destruct (sums_nonneg cs Hcs) as [H1 H2].
  assert (forall f, sum_of f (cs ++ [c]) = sum_of f cs + f c) as Hs
    by (intros f; clear; induction cs as [|d cs IH]; cbn; lia).
  unfold stats_of, CallStats.record, pin, saturating_add. rewrite !Hs, length_app.
  cbn [length CallStats.calls CallStats.bytes_out CallStats.bytes_in].
  f_equal; unfold max_of; lia.
Qed.

Lemma of_api_wf api cs : Forall call_wf cs -> Forall call_wf (of_api api cs).
Proof.
  rewrite !Forall_forall. intros H c [_ Hc]%list_elem_of_filter. by apply H.
Qed.

Lemma stats_of_nil : stats_of [] = CallStats.default.
Proof. reflexivity. Qed.

(** What a run of calls leaves for each API. *)
Lemma record_calls_lookup cs api :
  Forall call_wf cs ->
  inner (record_calls cs new) !! api =
  if decide (of_api api cs = []) then None else Some (stats_of (of_api api cs)).
Proof.
  intros Hcs. induction cs as [|c cs IH] using rev_ind; [done|].
  apply Forall_app in Hcs as [Hcs Hc]. specialize (IH Hcs).
  rewrite Forall_singleton in Hc.
  unfold record_calls. rewrite fold_left_app. cbn [fold_left].
  fold (record_calls cs new). unfold record_call, ObsRegistry.record. cbn [inner].
  unfold of_api in *. rewrite filter_app, filter_cons, filter_nil.
  destruct (decide (call_api c = api)) as [<-|Hne].
  - rewrite lookup_insert_eq, IH. rewrite (decide_False (P := _ ++ [c] = [])) by
      (by destruct (filter _ cs)).
    f_equal. rewrite stats_of_snoc; [|by apply of_api_wf|done].
    case_decide as Hd; [|done]. rewrite Hd. done.
  - by rewrite lookup_insert_ne, app_nil_r.
Qed.

(** The total is over all the calls. *)
Lemma total_entries entries :
  Forall (fun e => CallStats.wf e.2) entries ->
  total entries = CallStats.mk (pin (sum_of (fun e => CallStats.calls e.2) entries))
    (pin (sum_of (fun e => CallStats.bytes_out e.2) entries))
    (pin (sum_of (fun e => CallStats.bytes_in e.2) entries)).
Proof.
  intros Hwf. unfold total.
  assert (forall a b c, 0 <= a -> 0 <= b -> 0 <= c ->
    fold_left (fun total e => CallStats.merge e.2 total) entries
      (CallStats.mk (pin a) (pin b) (pin c)) =
    CallStats.mk (pin (a + sum_of (fun e => CallStats.calls e.2) entries))
      (pin (b + sum_of (fun e => CallStats.bytes_out e.2) entries))
      (pin (c + sum_of (fun e => CallStats.bytes_in e.2) entries))) as H.
  { induction Hwf as [|e entries (H1 & H2 & H3) _ IH]; intros a b c Ha Hb Hc; cbn.
    - by rewrite !Z.add_0_r.
    - unfold fits in *. rewrite !Z.add_assoc, <- IH by lia. f_equal.
      unfold CallStats.merge. cbn. unfold pin, saturating_add, max_of. f_equal; lia. }
  apply (H 0 0 0); lia.
Qed.

(** What is in the map stays in range, and each call moves the total by its bytes. *)
Definition stats_wf (m : gmap string CallStats.t) : Prop :=
  map_Forall (fun _ => CallStats.wf) m.

Lemma stats_wf_entries m entries :
  stats_wf m -> entries ≡ₚ map_to_list m -> Forall (fun e => CallStats.wf e.2) entries.
Proof.
  intros Hm ->. rewrite Forall_forall. intros [k s] Hin%elem_of_map_to_list. eauto.
Qed.

Lemma record_wf o i s :
  0 <= o -> 0 <= i -> CallStats.wf s -> CallStats.wf (CallStats.record o i s).
Proof.
  unfold CallStats.wf, CallStats.record, fits, saturating_add, max_of. cbn. lia.
Qed.

Lemma default_wf api m :
  stats_wf m -> CallStats.wf (from_option id CallStats.default (m !! api)).
Proof.
  intros Hm. destruct (m !! api) eqn:E; cbn; [by eapply Hm|].
  unfold CallStats.wf, fits; cbn; lia.
Qed.

Lemma record_call_wf r c :
  call_wf c -> stats_wf (inner r) -> stats_wf (inner (record_call r c)).
Proof.
  intros [Ho Hi] Hm. unfold record_call, ObsRegistry.record. cbn.
  apply map_Forall_insert_2; [|done]. apply record_wf; [done..|by apply default_wf].
Qed.

(** A map's entries after an insertion, against those without the key. *)
Lemma entries_insert (m : gmap string CallStats.t) k s :
  map_to_list (<[k := s]> m) ≡ₚ (k, s) :: map_to_list (delete k m).
Proof. rewrite <- insert_delete_eq. by rewrite map_to_list_insert by apply lookup_delete_eq. Qed.

Lemma sum_entries (f : CallStats.t -> Z) (m : gmap string CallStats.t) k :
  f CallStats.default = 0 ->
  sum_of (fun e => f e.2) (map_to_list m) =
  f (from_option id CallStats.default (m !! k)) +
    sum_of (fun e => f e.2) (map_to_list (delete k m)).
Proof.
  intros Hd. destruct (m !! k) as [s|] eqn:E; cbn.
  - rewrite <- (insert_id m k s E) at 1.
    by rewrite (sum_of_Permutation _ _ _ (entries_insert m k s)).
  - by rewrite Hd, delete_id.
Qed.

Lemma total_record_call r c :
  call_wf c -> stats_wf (inner r) ->
  total (map_to_list (inner (record_call r c))) =
  CallStats.record (call_out c) (call_in c) (total (map_to_list (inner r))).
Proof.
  intros Hc Hm. pose proof (record_call_wf r c Hc Hm) as Hm'.
  rewrite (total_entries _ (stats_wf_entries _ _ Hm' (reflexivity _))),
    (total_entries _ (stats_wf_entries _ _ Hm (reflexivity _))).
  set (m := inner r) in *. set (k := call_api c).
  assert (Forall (fun e => CallStats.wf e.2) (map_to_list (delete k m))) as Hr.
  { eapply stats_wf_entries; [|done]. by apply map_Forall_delete. }
  pose proof (default_wf k m Hm) as (Hd1 & Hd2 & Hd3).
  assert (forall f, (forall s, CallStats.wf s -> 0 <= f s) ->
    0 <= sum_of (fun e : string * CallStats.t => f e.2) (map_to_list (delete k m))) as Hnn.
  { intros f Hf. apply sum_of_nonneg. eapply Forall_impl; [exact Hr|]. intros ? ?. by apply Hf. }
  unfold record_call, ObsRegistry.record. cbn [inner]. fold m k.
  rewrite !(sum_of_Permutation _ _ _ (entries_insert m k _)). cbn [sum_of snd].
  rewrite (sum_entries CallStats.calls m k), (sum_entries CallStats.bytes_out m k),
    (sum_entries CallStats.bytes_in m k) by done.
  destruct Hc as [Ho Hi].
  pose proof (Hnn CallStats.calls ltac:(intros ? [[] ?]; done)).
  pose proof (Hnn CallStats.bytes_out ltac:(intros ? (? & [] & ?); done)).
  pose proof (Hnn CallStats.bytes_in ltac:(intros ? (? & ? & []); done)).
  unfold CallStats.record, saturating_add, pin. cbn. f_equal; unfold fits, max_of in *; lia.
Qed.

Lemma record_calls_snoc cs c r :
  record_calls (cs ++ [c]) r = record_call (record_calls cs r) c.
Proof. unfold record_calls. by rewrite fold_left_app. Qed.

Lemma record_calls_wf cs : Forall call_wf cs -> stats_wf (inner (record_calls cs new)).
Proof.
  induction cs as [|c cs IH] using rev_ind; intros H; [apply map_Forall_empty|].
  apply Forall_app in H as [H Hc]. rewrite Forall_singleton in Hc.
  rewrite record_calls_snoc. apply record_call_wf; auto.
Qed.

Lemma record_calls_total cs :
  Forall call_wf cs -> total (map_to_list (inner (record_calls cs new))) = stats_of cs.
Proof.
  induction cs as [|c cs IH] using rev_ind; intros H; [done|].
  apply Forall_app in H as [H Hc]. rewrite Forall_singleton in Hc.
  rewrite record_calls_snoc, total_record_call, IH, stats_of_snoc; auto using record_calls_wf.
Qed.

(** Sorting entries with distinct keys forgets the order they came in. *)
Lemma total_Permutation l1 l2 :
  Forall (fun e => CallStats.wf e.2) l1 -> l1 ≡ₚ l2 -> total l1 = total l2.
Proof.
  intros Hl Hp. rewrite !total_entries; [|by rewrite <- Hp|done].
  by rewrite (sum_of_Permutation (fun e => CallStats.calls e.2) _ _ Hp),
    (sum_of_Permutation (fun e => CallStats.bytes_out e.2) _ _ Hp),
    (sum_of_Permutation (fun e => CallStats.bytes_in e.2) _ _ Hp).
Qed.

#[local] Instance by_key_trans {A} : Transitive (@by_key A).
Proof. intros x y z. unfold by_key. apply transitivity. Qed.

#[local] Instance by_key_total {A} : Total (@by_key A).
Proof. intros x y. exact (@base.total _ String.le _ x.1 y.1). Qed.

Lemma sorted_unique {A} (l1 l2 : list (string * A)) :
  NoDup l1.*1 -> l1 ≡ₚ l2 -> merge_sort by_key l1 = merge_sort by_key l2.
Proof.
  intros Hnd Hp.
  apply (Sorted_unique_strong by_key); try (apply Sorted_merge_sort; apply _).
  - intros [k1 a1] [k2 a2] H1 H2 L1 L2. rewrite merge_sort_Permutation in H1, H2.
    rewrite <- Hp in H2. unfold by_key in *. cbn in *.
    assert (k1 = k2) as -> by (by apply (anti_symm String.le)).
    f_equal. apply list_elem_of_lookup in H1 as [i Hi], H2 as [j Hj].
    assert (i = j) as ->.
    { eapply NoDup_lookup; [exact Hnd|by rewrite list_lookup_fmap, Hi|
        by rewrite list_lookup_fmap, Hj]. }
    by simplify_eq.
  - by rewrite !merge_sort_Permutation.
Qed.

Lemma record_calls_permutation cs cs' :
  Forall call_wf cs -> cs ≡ₚ cs' -> record_calls cs new = record_calls cs' new.
Proof.
  intros Hcs Hp.
  assert (inner (record_calls cs new) = inner (record_calls cs' new)) as H.
  { apply map_eq. intros api. rewrite !record_calls_lookup by (done || by rewrite <- Hp).
    assert (of_api api cs ≡ₚ of_api api cs') as Hf by (unfold of_api; by rewrite Hp).
    rewrite (stats_of_Permutation _ _ Hf). repeat case_decide; try done; exfalso.
    - match goal with H : of_api api cs = [] |- _ => rewrite H in Hf end.
      symmetry in Hf. by apply Permutation_nil_r in Hf.
    - match goal with H : of_api api cs' = [] |- _ => rewrite H in Hf end.
      by apply Permutation_nil_r in Hf. }
  assert (forall l r, latency (record_calls l r) = latency r) as Hl
    by (induction l; intros r; cbn; [done|]; by rewrite IHl).
  destruct (record_calls cs new) eqn:E1, (record_calls cs' new) eqn:E2. cbn in H. subst.
  f_equal. pose proof (Hl cs new) as L1. pose proof (Hl cs' new) as L2.
  rewrite E1 in L1. rewrite E2 in L2. cbn in *. congruence.
Qed.

(** C25: the call registry is exact and order-independent. After any calls to
    [record], an API has an entry exactly when it was recorded, holding the number of
    its calls and the sums of its bytes, each pinned at [u64::MAX]; [total] over the
    entries, in whatever order the hash map yields them, is the same figures over all
    the calls, although the per-API counters may have saturated first; and two
    registries fed the same calls in different orders are equal and print the same
    sorted snapshot, the same Markdown report and the same JSON. *)
Theorem registry_exact cs entries :
  Forall call_wf cs ->
  entries ≡ₚ map_to_list (snapshot (record_calls cs new)) ->
  (forall api, snapshot (record_calls cs new) !! api =
     if decide (of_api api cs = []) then None else Some (stats_of (of_api api cs))) /\
  total entries = stats_of cs /\
  (forall cs' entries', cs' ≡ₚ cs ->
     entries' ≡ₚ map_to_list (snapshot (record_calls cs' new)) ->
     record_calls cs' new = record_calls cs new /\
     snapshot_sorted entries' = snapshot_sorted entries /\
     report entries' = report entries /\ to_json entries' = to_json entries).
Proof.
  intros Hcs He. unfold snapshot in *.
  split; [intros api; by apply record_calls_lookup|].
  pose proof (stats_wf_entries _ _ (record_calls_wf cs Hcs) He) as Hwf. split.
  { rewrite (total_Permutation _ _ Hwf He). by apply record_calls_total. }
  intros cs' entries' Hp He'.
  assert (record_calls cs' new = record_calls cs new) as Hr
    by (symmetry; apply record_calls_permutation; [done|by symmetry]).
  rewrite Hr in He'. split; [done|].
  assert (snapshot_sorted entries' = snapshot_sorted entries) as Hs.
  { apply sorted_unique; [|by rewrite He', He]. rewrite He'. apply NoDup_fst_map_to_list. }
  split; [done|]. unfold report, to_json. by rewrite Hs.
Qed.

Lemma registry_exact_witness :
  let cs := [mkCall "vk" (2 ^ 64 - 1) 3; mkCall "gl" 5 6; mkCall "vk" 7 1] in
  let m := snapshot (record_calls cs new) in
  m !! "vk"%string = Some (CallStats.mk 2 (2 ^ 64 - 1) 4) /\
  total (reverse (map_to_list m)) = CallStats.mk 3 (2 ^ 64 - 1) 10 /\
  stats_of cs = CallStats.mk 3 (2 ^ 64 - 1) 10.
Proof.
  intros cs m.
  destruct (registry_exact cs (reverse (map_to_list m))) as (H1 & H2 & _).
  - subst cs. repeat constructor; cbn; lia.
  - apply reverse_Permutation.
  - split; [|split; [|reflexivity]].
    + rewrite H1. vm_compute. reflexivity.
    + rewrite H2. reflexivity.
Defined.
End RegistryRun.
