(* ===== verification/ObsShared.v ===== *)
(** The registry under threads (crates/graftx-obs/src/registry.rs): its two maps are
    each behind a mutex, its methods recover the guard of a poisoned one, and a
    method is a run of small steps with the guard held. Any number of threads call
    the methods in any interleaving; a thread may panic at any point while it holds a
    guard. The methods of Obs are what these give one at a time. *)
From S2P Require Import Prelude Locking Obs ObsProps.

Local Open Scope Z_scope.

Module SharedRegistry.
Import ObsRegistry RegistryRun.

(** ** Locks *)
Inductive which := Inner | Latency.

#[export] Instance which_eq_dec : EqDecision which.
Proof. solve_decision. Defined.

(** [self.inner.lock().unwrap_or_else(PoisonError::into_inner)]; [lock_latency] is the
    same on the other mutex. *)
Definition lock (me : nat) (self : Mutex.t) : option (Mutex.t * nat) :=
  '(m, r) ← Mutex.lock me self; Some (m, unwrap_or_else Mutex.into_inner r).

(** ** Methods

    [snapshot] stands for every method that copies the entries out under the guard
    ([snapshot_sorted], [total], [report], [to_json]). *)
Inductive op :=
| Record (api : string) (bytes_out bytes_in : Z)
| Snapshot
| Reset
| RecordLatency (api : string) (d : Duration.t)
| LatencyReport.

Inductive reply :=
| Done
| Counts (entries : gmap string CallStats.t)
| Latencies (entries : gmap string LatencyHist.t).

(** A step on one of the maps. *)
Definition on_inner (f : gmap string CallStats.t -> gmap string CallStats.t)
  : ObsRegistry.t -> outcome ObsRegistry.t :=
  fun r => Ret (ObsRegistry.mk (f (inner r)) (latency r)).

Definition on_latency
    (f : gmap string LatencyHist.t -> outcome (gmap string LatencyHist.t))
  : ObsRegistry.t -> outcome ObsRegistry.t :=
  fun r => l ← f (latency r); Ret (ObsRegistry.mk (inner r) l).

(** [entry(api).or_default()] *)
Definition or_default {A} (default : A) (api : string) (m : gmap string A) : gmap string A :=
  match m !! api with Some _ => m | None => <[api := default]> m end.

(** [self.calls = self.calls.saturating_add(1)] and its two siblings, through the
    reference to the entry. *)
Definition add_call : CallStats.t -> CallStats.t := fun s =>
  CallStats.mk (saturating_add 64 (CallStats.calls s) 1) (CallStats.bytes_out s)
    (CallStats.bytes_in s).
Definition add_out (n : Z) : CallStats.t -> CallStats.t := fun s =>
  CallStats.mk (CallStats.calls s) (saturating_add 64 (CallStats.bytes_out s) n)
    (CallStats.bytes_in s).
Definition add_in (n : Z) : CallStats.t -> CallStats.t := fun s =>
  CallStats.mk (CallStats.calls s) (CallStats.bytes_out s)
    (saturating_add 64 (CallStats.bytes_in s) n).

(** [record(d)] on the entry. *)
Definition add_latency (api : string) (d : Duration.t) (m : gmap string LatencyHist.t)
  : outcome (gmap string LatencyHist.t) :=
  match m !! api with
  | None => Ret m
  | Some hist => hist ← LatencyHist.record d hist; Ret (<[api := hist]> m)
  end.

Definition op_lock (o : op) : which :=
  match o with Record _ _ _ | Snapshot | Reset => Inner | RecordLatency _ _ | LatencyReport => Latency end.

Definition op_body (o : op) : list (ObsRegistry.t -> outcome ObsRegistry.t) :=
  match o with
  | Record api bytes_out bytes_in =>
    [on_inner (or_default CallStats.default api); on_inner (alter add_call api);
     on_inner (alter (add_out bytes_out) api); on_inner (alter (add_in bytes_in) api)]
  | Reset => [on_inner (fun _ => ∅)]
  | RecordLatency api d =>
    [on_latency (fun m => Ret (or_default LatencyHist.new api m)); on_latency (add_latency api d)]
  | Snapshot | LatencyReport => []
  end.

Definition op_out (o : op) (r : ObsRegistry.t) : reply :=
  match o with
  | Snapshot => Counts (snapshot r)
  | LatencyReport => Latencies (latency r)
  | _ => Done
  end.

Definition methods : ops which op ObsRegistry.t reply :=
  {| lock_of := op_lock; body := op_body; out := op_out |}.

Abbreviation start := (start (L := which) (R := reply)).
Abbreviation steps := (steps methods lock).
Abbreviation advance := (advance methods lock).

(** A method in one piece, as Obs has it. *)
Definition atomic (o : op) (r : ObsRegistry.t) : outcome ObsRegistry.t :=
  match o with
  | Record api bytes_out bytes_in => Ret (record api bytes_out bytes_in r)
  | Reset => Ret (reset r)
  | RecordLatency api d => record_latency api d r
  | Snapshot | LatencyReport => Ret r
  end.

Lemma alter_or_default {A} (f : A -> A) default api (m : gmap string A) :
  alter f api (or_default default api m) = <[api := f (from_option id default (m !! api))]> m.
Proof.
  unfold or_default. destruct (m !! api) as [s|] eqn:E; cbn.
  - apply map_eq. intros k. destruct (decide (k = api)) as [->|Hne].
    + by rewrite lookup_alter_eq, lookup_insert_eq, E.
    + by rewrite lookup_alter_ne, lookup_insert_ne.
  - rewrite alter_insert_eq. done.
Qed.

(** The small steps of a method give the method. *)
Lemma body_atomic o r : run_body (op_body o) r = atomic o r.
Proof.
  destruct o as [api bo bi| | |api d|]; cbn; try done.
  - unfold ObsRegistry.record. rewrite !alter_or_default. cbn.
    rewrite !alter_insert_eq. done.
  - unfold record_latency, or_default, add_latency. cbn.
    destruct (latency r !! api) as [h|] eqn:E; cbn.
    + rewrite E. cbn. by destruct (LatencyHist.record d h).
    + rewrite lookup_insert_eq. cbn. destruct (LatencyHist.record d LatencyHist.new); cbn; [|done].
      by rewrite insert_insert_eq.
Qed.

(** ** The laws *)
#[export] Instance lock_acquires : Acquires lock.
Proof.
  constructor.
  - intros i m H. unfold lock, Mutex.lock. rewrite H. cbn. eauto.
  - intros i m m' g. unfold lock, Mutex.lock. destruct (Mutex.holder m); cbn; [done|].
    by intros [= <- <-].
Qed.

Definition hists_wf (r : ObsRegistry.t) : Prop :=
  map_Forall (fun _ => LatencyHist.wf) (latency r).

Lemma body_inner o f :
  op_lock o = Inner -> f ∈ op_body o -> exists g, f = on_inner g.
Proof.
  destruct o; cbn; try done; intros _; rewrite ?elem_of_cons, ?elem_of_nil;
    intros H; repeat destruct H as [H|H]; try done; eauto.
Qed.

Lemma body_latency o f :
  op_lock o = Latency -> f ∈ op_body o -> exists g, f = on_latency g.
Proof.
  destruct o; cbn; try done; intros _; rewrite ?elem_of_cons, ?elem_of_nil;
    intros H; repeat destruct H as [H|H]; try done; eauto.
Qed.

Lemma inner_latency_commute g1 g2 x y z :
  on_inner g1 x = Ret y -> on_latency g2 y = Ret z ->
  exists x', on_latency g2 x = Ret x' /\ on_inner g1 x' = Ret z.
Proof.
  unfold on_inner, on_latency. intros [= <-]. cbn. destruct (g2 (latency x)); cbn; [|done].
  intros [= <-]. eauto.
Qed.

Lemma latency_inner_commute g1 g2 x y z :
  on_latency g2 x = Ret y -> on_inner g1 y = Ret z ->
  exists x', on_inner g1 x = Ret x' /\ on_latency g2 x' = Ret z.
Proof.
  unfold on_inner, on_latency. cbn. destruct (g2 (latency x)) eqn:E; cbn; [|done].
  intros [= <-] [= <-]. eexists. split; [done|]. cbn. by rewrite E.
Qed.

#[export] Instance methods_laws : OpsLaws methods hists_wf.
Proof.
  constructor; cbn.
  - intros o f r Hf Hr. destruct (op_lock o) eqn:Ho.
    { destruct (body_inner o f Ho Hf) as [g ->]. eexists. by split. }
    destruct o as [| | |api d|]; try done; cbn in Hf; [|by apply not_elem_of_nil in Hf].
    rewrite !elem_of_cons, elem_of_nil in Hf. destruct Hf as [->|[->|[]]].
    + eexists. split; [done|]. unfold hists_wf, or_default. cbn.
      destruct (latency r !! api); [done|]. apply map_Forall_insert_2; [apply hist_new_wf|done].
    + unfold on_latency, add_latency. destruct (latency r !! api) as [h|] eqn:E; cbn.
      * destruct (hist_record d h) as (_ & h' & _ & -> & Hh & _); [by apply (Hr api)|]. cbn.
        eexists. split; [done|]. by apply map_Forall_insert_2.
      * exists r. by destruct r.
  - intros o1 o2 f g x y z Hl Hf Hg.
    destruct (op_lock o1) eqn:H1, (op_lock o2) eqn:H2; try done.
    + destruct (body_inner _ _ H1 Hf) as [f' ->], (body_latency _ _ H2 Hg) as [g' ->].
      apply latency_inner_commute.
    + destruct (body_latency _ _ H1 Hf) as [f' ->], (body_inner _ _ H2 Hg) as [g' ->].
      apply inner_latency_commute.
  - intros o1 o2 g x y Hl Hg Hx. destruct (op_lock o2) eqn:H2.
    + destruct (body_inner _ _ H2 Hg) as [g' ->]. injection Hx as <-. by destruct o1.
    + destruct (body_latency _ _ H2 Hg) as [g' ->]. unfold on_latency in Hx.
      destruct (g' (latency x)); cbn in Hx; [|done]. injection Hx as <-. by destruct o1.
Qed.

(** ** Every interleaving is a sequence of calls *)
Fixpoint run_atomic (os : list op) (r : ObsRegistry.t) : outcome ObsRegistry.t :=
  match os with [] => Ret r | o :: os => r ← atomic o r; run_atomic os r end.

Lemma complete_atomic (e : entry op) r : complete methods e -> run_entry methods e r = atomic (Locking.op e) r.
Proof.
  intros [H _]. unfold run_entry. rewrite H. cbn. rewrite take_ge by done. apply body_atomic.
Qed.

Lemma run_complete h r :
  Forall (complete methods) h -> run methods h r = run_atomic (map Locking.op h) r.
Proof.
  intros H. revert r. induction H as [|e h He _ IH]; intros r; [done|]. cbn [run run_atomic map].
  rewrite complete_atomic by done. by destruct (atomic _ _); cbn.
Qed.

Lemma registry_new_wf : hists_wf new.
Proof. apply map_Forall_empty. Qed.

(** In a state where every thread is between two calls, all that was begun returned. *)
Lemma between_complete progs h (st : @state which op ObsRegistry.t reply) :
  ok methods progs new h st -> Forall (fun th => at_ th = Between) (threads st) ->
  Forall (complete methods) h.
Proof.
  intros Hok Hb. rewrite (history_threads _ _ (ok_who _ _ _ _ _ Hok)).
  apply Forall_concat, Forall_map, Forall_forall. intros i [_ Hi]%elem_of_seq.
  destruct (lookup_lt_is_Some_2 (threads st) i) as [th Hth]; [lia|].
  pose proof (proj1 (Forall_lookup _ _) Hb _ _ Hth) as Hp.
  destruct (ok_threads _ _ _ _ _ Hok _ _ Hth) as (_ & _ & Hplace). unfold place in Hplace.
  by rewrite Hp in Hplace.
Qed.

(** C17: the registry under threads is the registry. However the calls of the threads
    are interleaved, and wherever threads panic with a guard held: the run ends
    within a bound given by the programs; as long as a thread is not over, one can go
    on without panicking, so that nothing deadlocks and a poisoned lock stops no one;
    and there is one order of the calls begun, which keeps each thread's own, such
    that the registry is what running them one after the other leaves (the calls a
    panic cut short in part), and each thread got the replies of that run. When every
    thread is between two calls it is exactly the run of the methods of Obs. *)
Theorem registry_linearizable progs n st :
  steps n (start progs new) st ->
  (n <= sum_list_with (sum_list_with (op_cost methods)) progs)%nat /\
  (Exists (fun th => ~ over th) (threads st) ->
     exists i st' th', advance i st = Some st' /\ threads st' !! i = Some th' /\ at_ th' <> Dead) /\
  exists h : list (entry op),
    run methods h new = Ret (data st) /\
    (forall i th, threads st !! i = Some th ->
       progs !! i = Some (map Locking.op (mine i h) ++ todo th) /\
       results th = replies methods i h new) /\
    (Forall (fun th => at_ th = Between) (threads st) ->
       run_atomic (map Locking.op h) new = Ret (data st)).
Proof.
  intros Hs. split.
  { apply steps_measure in Hs. rewrite start_measure in Hs. lia. }
  destruct (steps_ok methods hists_wf lock progs new n st Hs) as [h Hok]. split.
  { intros Hex. eapply (progress methods hists_wf lock progs new); [apply registry_new_wf|done..]. }
  exists h. split; [apply Hok|]. split.
  - intros i th Hth. by destruct (ok_threads _ _ _ _ _ Hok _ _ Hth) as (H1 & H2 & _).
  - intros Hb. rewrite <- run_complete by (by eapply between_complete). apply Hok.
Qed.

(** ** The counters when threads panic *)
Definition record_op (c : call) : op := Record (call_api c) (call_out c) (call_in c).

Definition stats_at (api : string) (r : ObsRegistry.t) : CallStats.t :=
  from_option id CallStats.default (inner r !! api).

Definition stats_le (a b : CallStats.t) : Prop :=
  CallStats.calls a <= CallStats.calls b /\ CallStats.bytes_out a <= CallStats.bytes_out b /\
  CallStats.bytes_in a <= CallStats.bytes_in b.

(** The first [k] steps of a [record] on the entry it is about. *)
Definition add_part (k : nat) (c : call) (s : CallStats.t) : CallStats.t :=
  (if decide (4 <= k)%nat then add_in (call_in c) else id)
    ((if decide (3 <= k)%nat then add_out (call_out c) else id)
      ((if decide (2 <= k)%nat then add_call else id) s)).

Lemma stats_at_default api api' r :
  stats_at api' (ObsRegistry.mk (or_default CallStats.default api (inner r)) (latency r)) =
  stats_at api' r.
Proof.
  unfold stats_at, or_default. cbn. destruct (inner r !! api) eqn:E; [done|].
  destruct (decide (api' = api)) as [->|]; [by rewrite lookup_insert_eq, E|].
  by rewrite lookup_insert_ne.
Qed.

(** Updates of one entry, one after the other. *)
Lemma stats_at_alters fs api m l api' :
  is_Some (m !! api) ->
  stats_at api' (ObsRegistry.mk (foldl (fun m f => alter f api m) m fs) l) =
  (if decide (api' = api) then foldl (fun s f => f s) (stats_at api' (ObsRegistry.mk m l)) fs
   else stats_at api' (ObsRegistry.mk m l)).
Proof.
  revert m. induction fs as [|f fs IH]; intros m Hm; cbn [foldl]; [by case_decide|].
  rewrite IH by (destruct Hm as [s Hs]; rewrite lookup_alter_eq, Hs; eauto).
  unfold stats_at. cbn. case_decide as H; [subst|by rewrite lookup_alter_ne].
  destruct Hm as [s Hs]. by rewrite lookup_alter_eq, Hs.
Qed.

Lemma record_part k c r :
  exists r', run_body (take k (op_body (record_op c))) r = Ret r' /\
    forall api, stats_at api r' =
      if decide (api = call_api c) then add_part k c (stats_at api r) else stats_at api r.
Proof.
  set (m := or_default CallStats.default (call_api c) (inner r)).
  assert (is_Some (m !! call_api c)) as Hm.
  { unfold m, or_default. destruct (inner r !! call_api c) eqn:E; [by rewrite E|].
    rewrite lookup_insert_eq. eauto. }
  pose proof (fun api => stats_at_default (call_api c) api r) as Hd. fold m in Hd.
  pose proof (fun fs api => stats_at_alters fs (call_api c) m (latency r) api Hm) as Ha.
  destruct k as [|[|[|[|k]]]]; cbn [take op_body record_op]; rewrite ?take_nil;
    (eexists; split; [cbn; reflexivity|]); intros api; unfold add_part; cbn [inner latency]; fold m.
  - by case_decide.
  - rewrite Hd. by case_decide.
  - specialize (Ha [add_call] api). cbn [foldl] in Ha. by rewrite Ha, Hd.
  - specialize (Ha [add_call; add_out (call_out c)] api). cbn [foldl] in Ha. by rewrite Ha, Hd.
  - specialize (Ha [add_call; add_out (call_out c); add_in (call_in c)] api). cbn [foldl] in Ha.
    by rewrite Ha, Hd.
Qed.

(** What a history of records leaves in an entry: each call as far as it got. *)
Definition call_of (o : op) : call :=
  match o with Record api bytes_out bytes_in => mkCall api bytes_out bytes_in | _ => mkCall "" 0 0 end.

Abbreviation of_entry e := (call_of (Locking.op e)).

Definition is_record (e : entry op) : Prop :=
  Locking.op e = record_op (of_entry e) /\ call_wf (of_entry e).

Definition part (k : nat) (f : call -> Z) (e : entry op) : Z :=
  if decide (k <= ran e)%nat then f (of_entry e) else 0.

Definition on_api (api : string) (h : list (entry op)) : list (entry op) :=
  filter (fun e => call_api (of_entry e) = api) h.

Lemma on_api_Forall (P : entry op -> Prop) api h : Forall P h -> Forall P (on_api api h).
Proof. rewrite !Forall_forall. intros H e [_ He]%list_elem_of_filter. by apply H. Qed.

Definition stats_parts (es : list (entry op)) : CallStats.t :=
  CallStats.mk (pin (sum_of (part 2 (fun _ => 1)) es)) (pin (sum_of (part 3 call_out) es))
    (pin (sum_of (part 4 call_in) es)).

Lemma sum_of_snoc {A} (f : A -> Z) l x : sum_of f (l ++ [x]) = sum_of f l + f x.
Proof. induction l as [|y l IH]; cbn; [lia|]. rewrite IH. lia. Qed.

Lemma part_nonneg k f e : (forall c, call_wf c -> 0 <= f c) -> is_record e -> 0 <= part k f e.
Proof. intros Hf [_ He]. unfold part. case_decide; [by apply Hf|done]. Qed.

Lemma parts_nonneg k f es :
  (forall c, call_wf c -> 0 <= f c) -> Forall is_record es -> 0 <= sum_of (part k f) es.
Proof.
  intros Hf H. apply sum_of_nonneg. eapply Forall_impl; [exact H|].
  intros e He. by apply part_nonneg.
Qed.

Lemma call_fields_nonneg :
  (forall c, call_wf c -> 0 <= (fun _ : call => 1) c) /\
  (forall c, call_wf c -> 0 <= call_out c) /\ (forall c, call_wf c -> 0 <= call_in c).
Proof. unfold call_wf. split; [|split]; intros c H; cbn; lia. Qed.

Lemma stats_parts_snoc es e :
  Forall is_record es -> is_record e ->
  stats_parts (es ++ [e]) = add_part (ran e) (of_entry e) (stats_parts es).
Proof.
  intros Hes He. destruct call_fields_nonneg as (H1 & H2 & H3).
  pose proof (parts_nonneg 2 _ _ H1 Hes). pose proof (parts_nonneg 3 _ _ H2 Hes).
  pose proof (parts_nonneg 4 _ _ H3 Hes). destruct He as [_ Hc].
  pose proof (H2 _ Hc). pose proof (H3 _ Hc).
  unfold stats_parts, add_part. rewrite !sum_of_snoc. unfold part at 2 4 6.
  repeat case_decide; try lia; unfold add_call, add_out, add_in, saturating_add, pin; cbn;
    f_equal; unfold max_of in *; lia.
Qed.

Lemma run_parts h r api :
  Forall is_record h -> run methods h new = Ret r -> stats_at api r = stats_parts (on_api api h).
Proof.
  revert r. induction h as [|e h IH] using rev_ind; intros r Hh Hr; [by injection Hr as <-|].
  apply Forall_app in Hh as [Hh He]. rewrite Forall_singleton in He.
  rewrite run_app in Hr. apply outcome_bind_ret in Hr as (x & Hx & Hr). cbn [run] in Hr.
  apply outcome_bind_ret in Hr as (y & Hy & [= ->]). specialize (IH _ Hh Hx).
  unfold run_entry in Hy. destruct He as [Ho Hc]. rewrite Ho in Hy.
  destruct (record_part (ran e) (of_entry e) x) as (r' & E & Hs).
  change (body methods (record_op (of_entry e))) with (op_body (record_op (of_entry e))) in Hy.
  rewrite E in Hy. injection Hy as ->. rewrite Hs, IH. unfold on_api. rewrite filter_app.
  rewrite filter_cons, filter_nil. repeat case_decide; try congruence.
  - rewrite stats_parts_snoc; [done| |by split]. by apply on_api_Forall.
  - by rewrite app_nil_r.
Qed.

(** Between the calls that returned and those that were begun. *)
Lemma sum_of_le {A} (f g : A -> Z) l :
  Forall (fun x => f x <= g x) l -> sum_of f l <= sum_of g l.
Proof. induction 1; cbn; lia. Qed.

Lemma sum_of_map {A B} (f : B -> Z) (g : A -> B) l : sum_of f (map g l) = sum_of (fun x => f (g x)) l.
Proof. induction l as [|x l IH]; cbn; [done|]. by rewrite IH. Qed.

Lemma sum_of_filter_le {A} (P : A -> Prop) `{forall x, Decision (P x)} (f g : A -> Z) l :
  Forall (fun x => 0 <= g x /\ (P x -> f x <= g x)) l -> sum_of f (filter P l) <= sum_of g l.
Proof.
  induction 1 as [|x l [Hg Hf] _ IH]; [done|]. rewrite filter_cons. case_decide; cbn; [|lia].
  specialize (Hf ltac:(done)). lia.
Qed.

Lemma of_api_entries api (h : list (entry op)) :
  of_api api (map (fun e => of_entry e) h) = map (fun e => of_entry e) (on_api api h).
Proof.
  unfold of_api, on_api. induction h as [|e h IH]; [done|]. cbn [map].
  rewrite !filter_cons. case_decide; cbn; by rewrite IH.
Qed.

Lemma filter_swap {A} (P Q : A -> Prop) `{forall x, Decision (P x), forall x, Decision (Q x)} (l : list A) :
  filter P (filter Q l) = filter Q (filter P l).
Proof. rewrite !list_filter_filter. apply list_filter_iff. tauto. Qed.

Lemma length_sum {A} (l : list A) : Z.of_nat (length l) = sum_of (fun _ => 1) l.
Proof. induction l as [|x l IH]; cbn [length sum_of]; [done|]. rewrite <- IH. lia. Qed.

Lemma pin_le a b : a <= b -> pin a <= pin b.
Proof. unfold pin. lia. Qed.

Lemma parts_le_begun es :
  Forall is_record es -> stats_le (stats_parts es) (stats_of (map (fun e => of_entry e) es)).
Proof.
  intros Hes. destruct call_fields_nonneg as (H1 & H2 & H3).
  assert (forall k f, (forall c, call_wf c -> 0 <= f c) ->
    sum_of (part k f) es <= sum_of f (map (fun e => of_entry e) es)) as H.
  { intros k f Hf. rewrite sum_of_map. apply sum_of_le. eapply Forall_impl; [exact Hes|].
    intros e [_ He]. unfold part. case_decide; [lia|by apply Hf]. }
  unfold stats_le, stats_parts, stats_of. cbn. rewrite length_sum.
  repeat split; apply pin_le; by apply H.
Qed.

Lemma returned_le_parts es :
  Forall is_record es -> Forall (fun e => fin e = true -> (4 <= ran e)%nat) es ->
  stats_le (stats_of (map (fun e => of_entry e) (filter (fun e => fin e = true) es))) (stats_parts es).
Proof.
  intros Hes Hfin. destruct call_fields_nonneg as (H1 & H2 & H3).
  assert (forall k f, (k <= 4)%nat -> (forall c, call_wf c -> 0 <= f c) ->
    sum_of f (map (fun e => of_entry e) (filter (fun e => fin e = true) es)) <=
    sum_of (part k f) es) as H.
  { intros k f Hk Hf. rewrite sum_of_map. apply sum_of_filter_le.
    apply Forall_forall. intros e He. rewrite Forall_forall in Hes, Hfin.
    split; [by apply part_nonneg; auto|]. intros Hd. unfold part.
    rewrite decide_True; [lia|]. specialize (Hfin e He Hd). lia. }
  unfold stats_le, stats_parts, stats_of. cbn. rewrite length_sum.
  repeat split; apply pin_le; apply H; by (done || lia).
Qed.

(** *** The threads' own account *)
Definition begun (css : list (list call)) (ths : list (@thread op ObsRegistry.t reply)) : list call :=
  concat (zip_with (fun cs th => take (length cs - length (todo th)) cs) css ths).

Definition returned (css : list (list call)) (ths : list (@thread op ObsRegistry.t reply)) : list call :=
  concat (zip_with (fun cs th => take (length (results th)) cs) css ths).

Lemma call_of_record cs : map call_of (map record_op cs) = cs.
Proof. rewrite map_map. induction cs as [|[] cs IH]; cbn in *; by rewrite ?IH. Qed.

Section account.
Context (css : list (list call)) (h : list (entry op)) (st : @state which op ObsRegistry.t reply).
Context (Hok : ok methods (map (map record_op) css) new h st).

Lemma thread_account i cs th :
  css !! i = Some cs -> threads st !! i = Some th ->
  map Locking.op (mine i h) ++ todo th = map record_op cs /\
  map (fun e => of_entry e) (mine i h) = take (length cs - length (todo th)) cs /\
  map (fun e => of_entry e) (filter (fun e => fin e = true) (mine i h)) =
    take (length (results th)) cs.
Proof.
  intros Hcs Hth. destruct (ok_threads _ _ _ _ _ Hok _ _ Hth) as (Hprog & Hres & Hplace).
  rewrite list_lookup_fmap, Hcs in Hprog. injection Hprog as Hprog.
  assert (map (fun e => of_entry e) (mine i h) ++ map call_of (todo th) = cs) as E.
  { rewrite <- (call_of_record cs), Hprog, map_app, map_map. done. }
  destruct (place_fin methods _ _ _ Hplace) as (rest & Em & _ & _).
  split; [done|]. split.
  - rewrite <- E, length_app, !length_map, Nat.add_sub, take_app_length' by (by rewrite length_map).
    done.
  - rewrite Hres, (replies_length _ _ _ _ _ (ok_run _ _ _ _ _ Hok)).
    remember (filter (fun e => fin e = true) (mine i h)) as es. rewrite Em, map_app, <- app_assoc in E.
    by rewrite <- E, take_app_length' by (by rewrite length_map).
Qed.

Lemma all_records : Forall (Forall call_wf) css -> Forall is_record h.
Proof.
  intros Hcss. rewrite (history_threads _ _ (ok_who _ _ _ _ _ Hok)).
  apply Forall_concat, Forall_map, Forall_forall. intros i [_ Hi]%elem_of_seq.
  destruct (lookup_lt_is_Some_2 (threads st) i) as [th Hth]; [lia|].
  destruct (lookup_lt_is_Some_2 css i) as [cs Hcs].
  { rewrite (ok_length _ _ _ _ _ Hok), length_map in Hi. lia. }
  destruct (thread_account i cs th Hcs Hth) as (E & _ & _).
  apply Forall_forall. intros e He.
  assert (Locking.op e ∈ map record_op cs) as Hin.
  { rewrite <- E. apply elem_of_app. left. by apply list_elem_of_fmap_2. }
  apply list_elem_of_fmap in Hin as (c & Ec & Hc). unfold is_record. rewrite Ec.
  destruct c. split; [done|]. cbn. rewrite Forall_forall in Hcss.
  pose proof (Hcss _ (list_elem_of_lookup_2 _ _ _ Hcs)) as Hwf. rewrite Forall_forall in Hwf.
  by apply Hwf.
Qed.

Lemma zip_accounts (f : nat -> list call) (g : list call -> @thread op ObsRegistry.t reply -> list call) :
  (forall i cs th, css !! i = Some cs -> threads st !! i = Some th -> f i = g cs th) ->
  map f (seq 0 (length (threads st))) = zip_with g css (threads st).
Proof.
  intros H. pose proof (ok_length _ _ _ _ _ Hok) as Hl. rewrite length_map in Hl.
  apply list_eq. intros i. rewrite lookup_zip_with, list_lookup_fmap.
  destruct (threads st !! i) as [th|] eqn:Hth.
  - pose proof (lookup_lt_Some _ _ _ Hth). rewrite lookup_seq_lt by done.
    destruct (lookup_lt_is_Some_2 css i) as [cs Hcs]; [lia|]. rewrite Hcs. cbn.
    f_equal. by apply H.
  - apply lookup_ge_None in Hth. rewrite lookup_seq_ge by done. cbn.
    by destruct (css !! i).
Qed.

Lemma begun_entries : map (fun e => of_entry e) h ≡ₚ begun css (threads st).
Proof.
  rewrite (history_threads _ _ (ok_who _ _ _ _ _ Hok)) at 1. rewrite concat_map, map_map.
  unfold begun. erewrite zip_accounts; [done|]. intros i cs th Hcs Hth.
  by destruct (thread_account i cs th Hcs Hth) as (_ & E & _).
Qed.

Lemma filter_concat {A} (P : A -> Prop) `{forall x, Decision (P x)} (ls : list (list A)) :
  filter P (concat ls) = concat (map (filter P) ls).
Proof. induction ls as [|l ls IH]; cbn; [done|]. by rewrite filter_app, IH. Qed.

Lemma returned_entries :
  map (fun e => of_entry e) (filter (fun e => fin e = true) h) ≡ₚ returned css (threads st).
Proof.
  rewrite (history_threads _ _ (ok_who _ _ _ _ _ Hok)) at 1.
  rewrite filter_concat, concat_map, !map_map.
  unfold returned. erewrite zip_accounts; [done|]. intros i cs th Hcs Hth.
  by destruct (thread_account i cs th Hcs Hth) as (_ & _ & E).
Qed.

Lemma returned_ran : Forall is_record h -> Forall (fun e => fin e = true -> (4 <= ran e)%nat) h.
Proof.
  intros Hrec. rewrite (history_threads _ _ (ok_who _ _ _ _ _ Hok)) in Hrec |- *.
  apply Forall_forall. intros e He Hf. rewrite Forall_forall in Hrec.
  destruct (Hrec e He) as [Ho _]. apply list_elem_of_In, in_concat in He as (l & Hl & He).
  apply in_map_iff in Hl as (i & <- & Hi). apply in_seq in Hi as [_ Hi].
  destruct (lookup_lt_is_Some_2 (threads st) i) as [th Hth]; [lia|].
  destruct (ok_threads _ _ _ _ _ Hok _ _ Hth) as (_ & _ & Hplace).
  destruct (place_fin methods _ _ _ Hplace) as (rest & _ & _ & Hc).
  rewrite Forall_forall in Hc. destruct (Hc e) as [Hr _].
  { apply list_elem_of_filter. split; [done|]. by apply list_elem_of_In. }
  rewrite Ho in Hr. cbn in Hr. lia.
Qed.
End account.

(** C18: no count is lost, and a panic costs at most the call it strikes. When threads
    do nothing but record, then in every state any interleaving reaches, wherever
    threads panicked with the guard held, each counter of each API lies between what
    the calls that returned add up to and what the calls that were begun do, in
    whatever order they ran; and when every thread is between two calls the registry
    is exactly that of recording the calls that returned one after the other. *)
Theorem counts_survive_panics css n st :
  Forall (Forall call_wf) css ->
  steps n (start (map (map record_op) css) new) st ->
  (forall api,
     stats_le (stats_of (of_api api (returned css (threads st)))) (stats_at api (data st)) /\
     stats_le (stats_at api (data st)) (stats_of (of_api api (begun css (threads st))))) /\
  (Forall (fun th => at_ th = Between) (threads st) ->
     data st = record_calls (returned css (threads st)) new).
Proof.
  intros Hcss Hs. destruct (steps_ok methods hists_wf lock _ new n st Hs) as [h Hok].
  pose proof (all_records css h st Hok Hcss) as Hrec. split.
  - intros api. rewrite (run_parts h _ api Hrec (ok_run _ _ _ _ _ Hok)).
    pose proof (on_api_Forall _ api h Hrec) as Hrec'.
    assert (forall l l', l ≡ₚ l' -> of_api api l ≡ₚ of_api api l') as Hp
      by (intros l l' E; unfold of_api; by rewrite E).
    split.
    + rewrite <- (stats_of_Permutation _ _ (Hp _ _ (returned_entries css h st Hok))).
      rewrite of_api_entries. unfold on_api at 1. rewrite filter_swap.
      apply returned_le_parts; [done|]. apply on_api_Forall. by eapply returned_ran.
    + rewrite <- (stats_of_Permutation _ _ (Hp _ _ (begun_entries css h st Hok))).
      rewrite of_api_entries. by apply parts_le_begun.
  - intros Hb. pose proof (between_complete _ _ _ Hok Hb) as Hc.
    pose proof (returned_entries css h st Hok) as Hr.
    assert (filter (fun e : entry op => fin e = true) h = h) as Ef.
    { clear -Hc. induction Hc as [|e h [_ He] _ IH]; [done|]. by rewrite filter_cons_True, IH. }
    rewrite Ef in Hr. pose proof (ok_run _ _ _ _ _ Hok) as Hrun.
    rewrite run_complete in Hrun by done.
    assert (Forall call_wf (map (fun e => of_entry e) h)) as Hwf.
    { apply Forall_map. eapply Forall_impl; [exact Hrec|]. by intros e [_ H]. }
    rewrite <- (record_calls_permutation _ _ Hwf Hr).
    assert (forall r, run_atomic (map Locking.op h) r =
      Ret (record_calls (map (fun e => of_entry e) h) r)) as E.
    { clear -Hrec. induction Hrec as [|e h [He _] _ IH]; intros r; [done|]. cbn [map run_atomic].
      rewrite He at 1. cbn. rewrite IH. done. }
    rewrite E in Hrun. by injection Hrun as <-.
Qed.

(** ** Instances

    Two threads; the second is struck by a panic two steps into its record, and the
    first then goes on with the poisoned lock. *)
Definition demo_calls : list (list call) :=
  [[mkCall "vk" 1 2; mkCall "vk" 3 4]; [mkCall "vk" 10 20]].

Definition demo_schedule : list (nat * bool) :=
  replicate 6 (0%nat, false) ++ replicate 3 (1%nat, false) ++ [(1%nat, true)] ++
  replicate 6 (0%nat, false).

Definition demo_state : @state which op ObsRegistry.t reply :=
  from_option id (start [] new)
    (play methods lock demo_schedule (start (map (map record_op) demo_calls) new)).

Lemma demo_steps : steps 16 (start (map (map record_op) demo_calls) new) demo_state.
Proof.
  apply (play_steps methods lock demo_schedule). unfold demo_state.
  assert (bool_decide (is_Some (play methods lock demo_schedule
    (start (map (map record_op) demo_calls) new))) = true) as H by (vm_compute; reflexivity).
  apply bool_decide_eq_true in H as [st ->]. reflexivity.
Qed.

Lemma registry_linearizable_witness :
  inner (data demo_state) = {[ "vk"%string := CallStats.mk 3 4 6 ]} /\
  exists h, run methods h new = Ret (data demo_state) /\ (16 <= 18)%nat.
Proof.
  split; [vm_compute; reflexivity|].
  destruct (registry_linearizable _ _ _ demo_steps) as (Hn & _ & h & Hr & _).
  exists h. split; [exact Hr|exact Hn].
Defined.

Lemma counts_survive_panics_witness :
  stats_at "vk" (data demo_state) = CallStats.mk 3 4 6 /\
  map at_ (threads demo_state) = [Between; Dead] /\
  stats_le (CallStats.mk 2 4 6) (stats_at "vk" (data demo_state)) /\
  stats_le (stats_at "vk" (data demo_state)) (CallStats.mk 3 14 26).
Proof.
  split; [vm_compute; reflexivity|]. split; [vm_compute; reflexivity|].
  destruct (counts_survive_panics demo_calls _ _ ltac:(repeat constructor; cbn; lia) demo_steps)
    as [H _]. destruct (H "vk"%string) as [H1 H2]. split.
  - eapply eq_ind; [exact H1|]. vm_compute. reflexivity.
  - eapply eq_ind; [exact H2|]. vm_compute. reflexivity.
Defined.
End SharedRegistry.
