(* ===== verification/ObsScope.v ===== *)
(** Observing one call (crates/graftx-obs/src/timer.rs, guard.rs, and the global
    registry of registry.rs): the stopwatch, the guard that records a call when it
    is dropped, and the registry of the process.

    The monotonic clock and the [tracing] crate are not the program's code: they
    are classes over the state [W] of the process, with what their documentation
    promises as laws. *)
From S2P Require Import Prelude Obs ObsProps.

Local Open Scope Z_scope.

(** ** The monotonic clock *)

(** [Instant::now], in nanoseconds since a fixed origin. *)
Class Clock (W : Type) := now : W -> W * Z.

(** [Instant]: "a measurement of a monotonically nondecreasing clock". *)
Class MonotonicClock (W : Type) `{Clock W} := {
  last_reading : W -> Z;
  now_advances : forall w, last_reading w <= (now w).2;
  now_reads : forall w, last_reading (now w).1 = (now w).2 }.

(** A clock whose next steps are given. *)
Module Ticks.
Record t := mk { reading : Z; steps : list nat }.
#[global] Instance clock : Clock t := fun w =>
  match steps w with
  | [] => (w, reading w)
  | d :: ds => (mk (reading w + Z.of_nat d) ds, reading w + Z.of_nat d)
  end.
#[global] Instance monotonic : MonotonicClock t.
Proof.
  refine {| last_reading := reading |}; intros [r [|d ds]]; cbn; lia.
Defined.
End Ticks.

(** [Duration] as a number of nanoseconds, and back. *)
Definition NANOS_PER_SEC : Z := 1000000000.
Definition as_nanos (d : Duration.t) : Z := Duration.secs d * NANOS_PER_SEC + Duration.nanos d.
Definition of_nanos (n : Z) : Duration.t := Duration.mk (n / NANOS_PER_SEC) (n mod NANOS_PER_SEC).

Lemma as_nanos_of_nanos n : as_nanos (of_nanos n) = n.
Proof.
  unfold as_nanos, of_nanos. cbn [Duration.secs Duration.nanos].
  rewrite Z.mul_comm. symmetry. by apply Z.div_mod.
Qed.

Lemma of_nanos_wf n : 0 <= n < 2 ^ 64 * NANOS_PER_SEC -> Duration.wf (of_nanos n).
Proof.
  intros Hn. split; cbn [of_nanos Duration.secs Duration.nanos].
  - split; [apply Z.div_pos|apply Z.div_lt_upper_bound]; unfold NANOS_PER_SEC in *; lia.
  - by apply Z.mod_pos_bound.
Qed.

(** ** [Timer] *)
Module Timer.
Record t := mk { start : Z }.

Section ops.
Context {W : Type} `{Clock W}.

Definition start_now (w : W) : W * t := let '(w, i) := now w in (w, mk i).

(** [Instant::elapsed]: the clock again, saturating at zero. *)
Definition elapsed (self : t) (w : W) : W * Duration.t :=
  let '(w, i) := now w in (w, of_nanos (Z.max 0 (i - start self))).
End ops.
End Timer.

(** [pub fn time_call]: the closure is a step of the process. *)
Definition time_call {W T} `{Clock W} (f : W -> W * T) (w : W) : W * (T * Duration.t) :=
  let '(w, timer) := Timer.start_now w in
  let '(w, value) := f w in
  let '(w, d) := Timer.elapsed timer w in
  (w, (value, d)).

(** ** Tracing spans

    A span is created with its fields, entered, and exited when what holds it
    entered is dropped. *)
Class Tracing (W : Type) := {
  Span : Type;
  EnteredSpan : Type;
  info_span : string -> string -> Z -> W -> W * Span;
  entered : Span -> W -> W * EnteredSpan;
  exit : EnteredSpan -> W -> W }.

(** The spans of a thread are a stack: what is entered on top of it is left by
    exiting it while it is on top. *)
Class TracingLaws (W : Type) `{Tracing W} := {
  current : W -> list (string * string * Z);
  info_span_current : forall name api opcode w, current (info_span name api opcode w).1 = current w;
  span_of : Span -> string * string * Z;
  entered_of : EnteredSpan -> string * string * Z;
  info_span_of : forall name api opcode w,
    span_of (info_span name api opcode w).2 = (name, api, opcode);
  entered_current : forall s w, current (entered s w).1 = span_of s :: current w;
  entered_is : forall s w, entered_of (entered s w).2 = span_of s;
  exit_current : forall e w rest, current w = entered_of e :: rest -> current (exit e w) = rest }.

(** A subscriber that keeps the stack and logs what it sees. *)
Module SpanStack.
Record t := mk { stack : list (string * string * Z); log : list (bool * (string * string * Z)) }.
#[global] Instance tracing : Tracing t := {|
  Span := string * string * Z;
  EnteredSpan := string * string * Z;
  info_span name api opcode w := (w, (name, api, opcode));
  entered s w := (mk (s :: stack w) (log w ++ [(true, s)]), s);
  exit s w := mk (tail (stack w)) (log w ++ [(false, s)]) |}.
#[global] Instance laws : TracingLaws t.
Proof.
  refine {| current := stack; span_of := id; entered_of := id |}; [done..|].
  intros e w rest H. cbn. by rewrite H.
Defined.
End SpanStack.

(** [pub fn call_span] *)
Definition call_span {W} `{Tracing W} (api : string) (opcode : Z) : W -> W * Span :=
  info_span "graftx.call" api opcode.

(** ** [install]

    With the [fmt] feature, [tracing_subscriber]'s [try_init], which tells whether a
    global subscriber was already set; without, a stub. *)
Definition install_fmt {W E} (try_init : W -> W * result E unit) (w : W) : W * bool :=
  let '(w, r) := try_init w in (w, is_ok r).

Definition install_stub {W} (w : W) : W * bool := (w, false).

(** ** [CallGuard]

    The registry is borrowed: the guard's methods that use it are given it. *)
Module CallGuard.
Record t (E : Type) := mk { api : string; bytes_out : Z; bytes_in : Z; span : E }.
Arguments mk {E} _ _ _ _.
Arguments api {E} _.
Arguments bytes_out {E} _.
Arguments bytes_in {E} _.
Arguments span {E} _.

Section ops.
Context {W : Type} `{Tracing W}.

Definition begin (api : string) (opcode : Z) (w : W) : W * t EnteredSpan :=
  let '(w, span) := call_span api opcode w in
  let '(w, span) := entered span w in
  (w, mk api 0 0 span).

Definition set_bytes (bytes_out bytes_in : Z) (self : t EnteredSpan) : t EnteredSpan :=
  mk (api self) bytes_out bytes_in (span self).

(** [Drop]: the record is made first, then the fields are dropped, the span being
    the only one with something to do. *)
Definition drop (self : t EnteredSpan) (st : ObsRegistry.t * W) : ObsRegistry.t * W :=
  let '(registry, w) := st in
  (ObsRegistry.record (api self) (bytes_out self) (bytes_in self) registry, exit (span self) w).
End ops.
End CallGuard.

(** ** The process-wide registry

    A [OnceLock] is empty until its first use. *)
Module Global.
Definition cell := option ObsRegistry.t.

Definition global (c : cell) : cell * ObsRegistry.t :=
  match c with Some r => (c, r) | None => (Some ObsRegistry.new, ObsRegistry.new) end.

(** [pub fn record]: through the shared reference. *)
Definition record (api : string) (bytes_out bytes_in : Z) (c : cell) : cell :=
  let '(_, r) := global c in Some (ObsRegistry.record api bytes_out bytes_in r).
End Global.

(** ** What happens under a guard

    A guarded call sets its bytes, makes guarded calls of its own, or unwinds: a
    panic runs nothing more, but drops the guards on its way out. *)
Inductive act :=
| SetBytes (bytes_out bytes_in : Z)
| Guarded (api : string) (opcode : Z) (body : list act)
| Unwind.

Section act_ind.
Variable P : act -> Prop.
Hypothesis HSet : forall o i, P (SetBytes o i).
Hypothesis HGuarded : forall api opcode body, Forall P body -> P (Guarded api opcode body).
Hypothesis HUnwind : P Unwind.

Fixpoint act_nested_ind (a : act) : P a :=
  match a with
  | SetBytes o i => HSet o i
  | Guarded api opcode body =>
    HGuarded api opcode body
      ((fix go (body : list act) : Forall P body :=
          match body with
          | [] => Forall_nil_2 P
          | a :: body => Forall_cons_2 P a body (act_nested_ind a) (go body)
          end) body)
  | Unwind => HUnwind
  end.
End act_ind.

Section run.
Context {W : Type} `{Tracing W}.

Abbreviation state := (ObsRegistry.t * W)%type.
Abbreviation guard := (CallGuard.t EnteredSpan).

(** Run a body under its guard; [false] once it unwinds. *)
Definition run_body (run : act -> guard -> state -> guard * state * bool) :=
  fix go (body : list act) (g : guard) (st : state) : guard * state * bool :=
    match body with
    | [] => (g, st, true)
    | a :: body =>
      match run a g st with
      | (g, st, true) => go body g st
      | (g, st, false) => (g, st, false)
      end
    end.

Fixpoint run (a : act) (g : guard) (st : state) : guard * state * bool :=
  match a with
  | SetBytes o i => (CallGuard.set_bytes o i g, st, true)
  | Guarded api opcode body =>
    let '(w, g1) := CallGuard.begin api opcode st.2 in
    let '(g1, st, ok) := run_body run body g1 (st.1, w) in
    (g, CallGuard.drop g1 st, ok)
  | Unwind => (g, st, false)
  end.

(** A guarded call at the top of a thread. *)
Definition guarded (api : string) (opcode : Z) (body : list act) (st : state) : state * bool :=
  let '(w, g) := CallGuard.begin api opcode st.2 in
  let '(g, st, ok) := run_body run body g (st.1, w) in
  (CallGuard.drop g st, ok).
End run.

(** What a body leaves: the calls recorded under it, the bytes last set, and
    whether it ran to its end. *)
Import RegistryRun.

Definition body_calls (calls_of : act -> list call * bool) :=
  fix go (body : list act) (o i : Z) : list call * (Z * Z) * bool :=
    match body with
    | [] => ([], (o, i), true)
    | a :: body =>
      let '(cs, ok) := calls_of a in
      let '(o, i) := match a with SetBytes o i => (o, i) | _ => (o, i) end in
      if ok : bool then let '(cs', b, ok) := go body o i in (cs ++ cs', b, ok)
      else (cs, (o, i), false)
    end.

Fixpoint calls_of (a : act) : list call * bool :=
  match a with
  | SetBytes _ _ => ([], true)
  | Guarded api _ body =>
    let '(cs, (o, i), ok) := body_calls calls_of body 0 0 in (cs ++ [mkCall api o i], ok)
  | Unwind => ([], false)
  end.

(** The scopes that were entered, those a panic skipped left out. *)
Definition scopes_in (entered_in : act -> nat) :=
  fix go (body : list act) : nat :=
    match body with
    | [] => 0%nat
    | a :: body => (entered_in a + if (calls_of a).2 then go body else 0)%nat
    end.

Fixpoint scopes (a : act) : nat :=
  match a with
  | Guarded _ _ body => S (scopes_in scopes body)
  | _ => 0%nat
  end.

(** One record per scope. *)
Lemma calls_of_scopes a : length (calls_of a).1 = scopes a.
Proof.
  induction a as [| api opcode body IH|] using act_nested_ind; [done| |done].
  assert (forall o i, length (body_calls calls_of body o i).1.1 = scopes_in scopes body) as Hb.
  { induction IH as [|a body Ha _ IHb]; intros o' i'; [done|]. cbn [body_calls scopes_in].
    destruct (calls_of a) as [cs ok] eqn:Ea. cbn [fst snd] in *.
    destruct (match a with SetBytes o i => (o, i) | _ => (o', i') end) as [o1 i1].
    destruct ok; [|cbn [fst snd]; lia].
    specialize (IHb o1 i1). destruct (body_calls calls_of body o1 i1) as [[cs' b] ok'].
    cbn [fst snd] in *. rewrite length_app. lia. }
  cbn [calls_of scopes]. specialize (Hb 0 0).
  destruct (body_calls calls_of body 0 0) as [[cs [o' i']] ok].
  cbn [fst snd] in *. rewrite length_app. cbn [length]. lia.
Qed.

(** ** The clock's theorems *)
Section clock.
Context {W : Type} `{MonotonicClock W}.

Lemma elapsed_reads timer (w : W) :
  Timer.start timer <= last_reading w ->
  as_nanos (Timer.elapsed timer w).2 = last_reading (Timer.elapsed timer w).1 - Timer.start timer /\
  last_reading w <= last_reading (Timer.elapsed timer w).1.
Proof.
  intros Hs. unfold Timer.elapsed. pose proof (now_advances w) as Ha.
  pose proof (now_reads w) as Hr. destruct (now w) as [w' i]. cbn in *.
  rewrite as_nanos_of_nanos, Hr. lia.
Qed.

(** A stopwatch never goes back, and times what it is given. The value of the
    closure is passed through, whatever it does to the process provided it does
    not turn the clock back; the duration is the difference of the clock's
    readings around it, so it is at least what the closure let pass; and reading a
    started timer again gives no shorter a time. *)
Theorem time_call_measures {T} (f : W -> W * T) (w : W) :
  (forall w, last_reading w <= last_reading (f w).1) ->
  exists w1 w2 w3 v d, time_call f w = (w3, (v, d)) /\
    f w1 = (w2, v) /\ last_reading w <= last_reading w1 /\
    last_reading w2 <= last_reading w3 /\
    as_nanos d = last_reading w3 - last_reading w1 /\
    last_reading w2 - last_reading w1 <= as_nanos d /\ 0 <= as_nanos d /\
    forall w4, last_reading w3 <= last_reading w4 ->
      as_nanos d <= as_nanos (Timer.elapsed (Timer.mk (last_reading w1)) w4).2.
Proof.
  intros Hf. unfold time_call, Timer.start_now.
  pose proof (now_advances w) as Ha. pose proof (now_reads w) as Hr.
  destruct (now w) as [w1 i1]. cbn in Ha, Hr. specialize (Hf w1).
  destruct (f w1) as [w2 v] eqn:E. cbn in Hf.
  destruct (elapsed_reads (Timer.mk i1) w2) as [Hd Hl]; [cbn; lia|].
  destruct (Timer.elapsed (Timer.mk i1) w2) as [w3 d] eqn:Et. cbn in Hd, Hl.
  exists w1, w2, w3, v, d. split; [done|]. split; [done|].
  split; [lia|]. split; [lia|]. split; [lia|]. split; [lia|]. split; [lia|].
  intros w4 H4. destruct (elapsed_reads (Timer.mk (last_reading w1)) w4) as [-> ?]; cbn; lia.
Qed.
End clock.

Lemma time_call_measures_witness :
  exists w1 w2 w3 v d, time_call (fun w => (Ticks.mk (Ticks.reading w + 5) (Ticks.steps w), 42))
      (Ticks.mk 10 [1; 2]%nat) = (w3, (v, d)) /\
    (fun w => (Ticks.mk (Ticks.reading w + 5) (Ticks.steps w), 42)) w1 = (w2, v) /\
    as_nanos d = Ticks.reading w3 - Ticks.reading w1 /\ as_nanos d = 7.
Proof.
  destruct (time_call_measures (fun w => (Ticks.mk (Ticks.reading w + 5) (Ticks.steps w), 42))
    (Ticks.mk 10 [1; 2]%nat)) as (w1 & w2 & w3 & v & d & E & Ef & _ & _ & Hd & _).
  { intros w. cbn. lia. }
  exists w1, w2, w3, v, d. split; [exact E|]. split; [exact Ef|]. split; [exact Hd|].
  cbn in E. injection E as _ _ <-. reflexivity.
Defined.

(** ** The guard's theorems *)
Section guard.
Context {W : Type} `{TracingLaws W}.

Abbreviation state := (ObsRegistry.t * W)%type.
Abbreviation guard := (CallGuard.t EnteredSpan).

Lemma begin_spec api opcode (w : W) :
  exists w' e, CallGuard.begin api opcode w = (w', CallGuard.mk api 0 0 e) /\
    entered_of e = ("graftx.call"%string, api, opcode) /\
    current w' = entered_of e :: current w.
Proof.
  unfold CallGuard.begin, call_span.
  pose proof (info_span_current "graftx.call" api opcode w) as H1.
  pose proof (info_span_of "graftx.call" api opcode w) as H2.
  destruct (info_span "graftx.call" api opcode w) as [w1 s]. cbn in H1, H2.
  pose proof (entered_current s w1) as H3. pose proof (entered_is s w1) as H4.
  destruct (entered s w1) as [w2 e]. cbn in H3, H4.
  exists w2, e. split; [done|]. rewrite H4, H3, H2, H1. done.
Qed.

(** What running does, under a guard whose bytes are [o] and [i]. *)
Definition runs_as (a : act) : Prop :=
  forall (g : guard) r (w : W), exists g' w',
    run a g (r, w) = (g', (record_calls (calls_of a).1 r, w'), (calls_of a).2) /\
    current w' = current w /\
    CallGuard.api g' = CallGuard.api g /\ CallGuard.span g' = CallGuard.span g /\
    (CallGuard.bytes_out g', CallGuard.bytes_in g') =
      match a with
      | SetBytes o i => (o, i)
      | _ => (CallGuard.bytes_out g, CallGuard.bytes_in g)
      end.

Lemma run_body_spec body (g : guard) r (w : W) :
  Forall runs_as body -> exists g' w' cs ok,
    body_calls calls_of body (CallGuard.bytes_out g) (CallGuard.bytes_in g) =
      (cs, (CallGuard.bytes_out g', CallGuard.bytes_in g'), ok) /\
    run_body run body g (r, w) = (g', (record_calls cs r, w'), ok) /\
    current w' = current w /\
    CallGuard.api g' = CallGuard.api g /\ CallGuard.span g' = CallGuard.span g.
Proof.
  intros Hb. revert g r w. induction Hb as [|a body Ha Hb IH]; intros g r w.
  { by exists g, w, [], true. }
  destruct (Ha g r w) as (g1 & w1 & E & Hw & Hapi & Hspan & Hby).
  cbn [run_body body_calls]. rewrite E. destruct (calls_of a) as [cs ok] eqn:Ec. cbn [fst snd] in *.
  assert (match a with SetBytes o i => (o, i)
    | _ => (CallGuard.bytes_out g, CallGuard.bytes_in g) end =
    (CallGuard.bytes_out g1, CallGuard.bytes_in g1)) as -> by done.
  destruct ok; [|by exists g1, w1, cs, false].
  destruct (IH g1 (record_calls cs r) w1) as (g2 & w2 & cs' & ok & -> & -> & Hw2 & Ha2 & Hs2).
  exists g2, w2, (cs ++ cs'), ok. split; [done|]. unfold record_calls. rewrite fold_left_app.
  split; [done|]. by rewrite Hw2, Ha2, Hs2.
Qed.

Lemma drop_spec (g : guard) r (w : W) rest :
  current w = entered_of (CallGuard.span g) :: rest ->
  exists w', CallGuard.drop g (r, w) =
    (record_call r (mkCall (CallGuard.api g) (CallGuard.bytes_out g) (CallGuard.bytes_in g)), w') /\
    current w' = rest.
Proof. intros E. eexists. split; [reflexivity|]. by apply exit_current. Qed.

Lemma guarded_spec api opcode body r (w : W) :
  Forall runs_as body -> exists w',
    guarded api opcode body (r, w) =
      ((record_calls (calls_of (Guarded api opcode body)).1 r, w'),
       (calls_of (Guarded api opcode body)).2) /\ current w' = current w.
Proof.
  intros Hb. unfold guarded. cbn [fst snd].
  destruct (begin_spec api opcode w) as (w1 & e & -> & _ & Hc).
  destruct (run_body_spec body (CallGuard.mk api 0 0 e) r w1 Hb)
    as (g & w2 & cs & ok & Eb & -> & Hw2 & Ha & Hs). cbn in Eb, Ha, Hs.
  rewrite <- Hs, <- Hw2 in Hc. destruct (drop_spec g (record_calls cs r) w2 _ Hc) as (w3 & -> & Hw3).
  exists w3. cbn [calls_of]. rewrite Eb, <- Ha. cbn [fst snd].
  unfold record_calls. rewrite fold_left_app. done.
Qed.

Lemma every_act_runs a : runs_as a.
Proof.
  induction a as [o i|api opcode body IH|] using act_nested_ind; intros g r w.
  - eexists _, w. cbn. done.
  - destruct (guarded_spec api opcode body r w IH) as (w' & E & Hc).
    exists g, w'. split; [|done]. unfold guarded in E. cbn [run fst snd] in *.
    destruct (CallGuard.begin api opcode w) as [w1 g1].
    destruct (run_body run body g1 (r, w1)) as [[g2 st] ok].
    injection E as E1 E2. rewrite E1, E2. done.
  - by exists g, w.
Qed.

(** C37: a guard records its call exactly once. Whatever a guarded call does (set its
    bytes any number of times, make guarded calls inside it, panic anywhere), the
    registry gets one record per guarded call that was begun, an inner one before
    the one around it, each with the bytes last set under it or zeros; and the
    tracing spans are left as they were found. *)
Theorem guard_records_once api opcode body r (w : W) :
  exists w', guarded api opcode body (r, w) =
    ((record_calls (calls_of (Guarded api opcode body)).1 r, w'),
     (calls_of (Guarded api opcode body)).2) /\
    current w' = current w /\
    length (calls_of (Guarded api opcode body)).1 = scopes (Guarded api opcode body) /\
    exists cs o i, (calls_of (Guarded api opcode body)).1 = cs ++ [mkCall api o i] /\
      (body_calls calls_of body 0 0).1.2 = (o, i).
Proof.
  destruct (guarded_spec api opcode body r w) as (w' & E & Hc).
  { apply Forall_forall. intros a _. apply every_act_runs. }
  exists w'. split; [done|]. split; [done|]. split.
  - apply calls_of_scopes.
  - cbn [calls_of]. destruct (body_calls calls_of body 0 0) as [[cs [o i]] ok].
    by exists cs, o, i.
Qed.
End guard.

Lemma guard_records_once_witness :
  exists w', guarded "vulkan" 0x10 [SetBytes 1 1; SetBytes 10 20; Guarded "gl" 1 []; Unwind; SetBytes 3 3]
      (ObsRegistry.new, SpanStack.mk [] []) =
    ((record_calls [mkCall "gl" 0 0; mkCall "vulkan" 10 20] ObsRegistry.new, w'), false) /\
    SpanStack.stack w' = [].
Proof.
  destruct (guard_records_once "vulkan" 0x10
    [SetBytes 1 1; SetBytes 10 20; Guarded "gl" 1 []; Unwind; SetBytes 3 3]
    ObsRegistry.new (SpanStack.mk [] [])) as (w' & E & Hc & _).
  exists w'. split; [exact E|exact Hc].
Defined.

(** The process-wide registry is one registry: it is created once, by whichever
    use comes first. *)
Lemma global_records cs :
  cs <> [] ->
  fold_left (fun c k => Global.record (call_api k) (call_out k) (call_in k) c) cs None =
  Some (record_calls cs ObsRegistry.new).
Proof.
  assert (forall r, fold_left (fun c k => Global.record (call_api k) (call_out k) (call_in k) c) cs
    (Some r) = Some (record_calls cs r)) as H by (induction cs as [|c cs IH]; intros r; cbn; auto).
  destruct cs as [|c cs]; [done|intros _]. cbn.
  specialize (H ObsRegistry.new). cbn in H. exact H.
Qed.
