(* ===== verification/Serve.v ===== *)
(** The serve loops (crates/graftx-server/src/serve.rs). A loop over a transport
    need not end, so a loop takes fuel: [None] is out of fuel, and the theorems of
    ServeProps.v give the fuel that suffices. *)
From S2P Require Import Wire Codecs Handles HandleSpec Effects Backend Session.
From S2P Require Import Transport Obs.

Local Open Scope Z_scope.

(** [fn api_name] *)
Definition api_name (api : Z) : string :=
  match api with
  | 0x00 => "core"
  | 0x01 => "vulkan"
  | 0x02 => "opengl"
  | 0x03 => "cuda"
  | 0x04 => "opencl"
  | 0x05 => "hip"
  | 0x06 => "level_zero"
  | 0x07 => "video"
  | 0x08 => "webgpu"
  | 0x09 => "optix"
  | 0x0A => "sycl"
  | 0x0B => "amf"
  | _ => "unknown"
  end.

(** [matches!(err.kind(), UnexpectedEof | BrokenPipe)] *)
Definition clean_close (kind : io.ErrorKind) : bool :=
  match kind with io.UnexpectedEof | io.BrokenPipe => true | _ => false end.

Section serve.
Context {T : Type} `{Transport T}.

Fixpoint serve (fuel : nat) (transport : T) (session : Session.t)
  : option (outcome (T * Session.t * io_result unit)) :=
  match fuel with
  | O => None
  | S fuel =>
    match recv transport with
    | (transport, Err err) =>
      if clean_close err then Some (Ret (transport, session, Ok tt))
      else Some (Ret (transport, session, Err err))
    | (transport, Ok frame) =>
      match Session.handle frame session with
      | Panic => Some Panic
      | Ret (session, Err _protocol_error) => Some (Ret (transport, session, Ok tt))
      | Ret (session, Ok reply) =>
        match send reply transport with
        | (transport, Err err) => Some (Ret (transport, session, Err err))
        | (transport, Ok _) => serve fuel transport session
        end
      end
    end
  end.

(** What the loop records for a frame it answered. *)
Definition record_answer (frame reply : list byte) (registry : ObsRegistry.t) : ObsRegistry.t :=
  match decode_frame frame with
  | Ok (h, _) =>
    ObsRegistry.record (api_name (opcode_api (FrameHeader.opcode h)))
      (wrap 64 (Z.of_nat (length frame))) (wrap 64 (Z.of_nat (length reply))) registry
  | Err _ => registry
  end.

Fixpoint serve_with_metrics (fuel : nat) (transport : T) (session : Session.t)
    (registry : ObsRegistry.t)
  : option (outcome (T * Session.t * ObsRegistry.t * io_result unit)) :=
  match fuel with
  | O => None
  | S fuel =>
    match recv transport with
    | (transport, Err err) =>
      if clean_close err then Some (Ret (transport, session, registry, Ok tt))
      else Some (Ret (transport, session, registry, Err err))
    | (transport, Ok frame) =>
      match Session.handle frame session with
      | Panic => Some Panic
      | Ret (session, Err _protocol_error) =>
        Some (Ret (transport, session, registry, Ok tt))
      | Ret (session, Ok reply) =>
        match send reply transport with
        | (transport, Err err) => Some (Ret (transport, session, registry, Err err))
        | (transport, Ok _) =>
          serve_with_metrics fuel transport session (record_answer frame reply registry)
        end
      end
    end
  end.
End serve.
