(* ===== verification/ServeProps.v ===== *)
(** The serve loops: they end when the peer's frames do, answer the frames in
    order, and the metered loop is the plain one that also counts. *)
From S2P Require Import Wire Codecs Handles HandleSpec Effects Backend ApiBackends.
From S2P Require Import Session Server SessionProps Transport Obs ObsProps Serve.

Local Open Scope Z_scope.

Import RegistryRun.

Lemma encode_frame_length h body :
  length (encode_frame h body) = (HEADER_LEN + length body)%nat.
Proof.
  unfold encode_frame. rewrite header_encode_bytes, !length_app, length_header_bytes. done.
Qed.

(** The session answers a list of frames, one after the other. *)
Inductive answers : Session.t -> list (list byte) -> list (list byte) -> Session.t -> Prop :=
| answers_nil s : answers s [] [] s
| answers_cons s s1 s2 frame reply frames replies :
    Session.handle frame s = Ret (s1, Ok reply) ->
    answers s1 frames replies s2 ->
    answers s (frame :: frames) (reply :: replies) s2.

#[local] Hint Constructors answers : core.

Lemma answers_length s frames replies s' :
  answers s frames replies s' -> length replies = length frames.
Proof. induction 1; cbn; lia. Qed.

(** The sequence numbers of the replies. *)
Lemma answers_seq n s frames replies s' :
  Session.ready (length frames + n) s -> answers s frames replies s' ->
  Session.ready n s' /\
  forall i reply, replies !! i = Some reply -> exists rh rbody,
    decode_frame reply = Ok (rh, rbody) /\
    FrameHeader.kind rh = FrameKind.Response /\
    FrameHeader.seq rh = Session.next_seq s + Z.of_nat i.
Proof.
  intros Hs Ha. revert Hs.
  induction Ha as [s|s s1 s2 frame reply frames replies E Ha IH]; intros Hs; [done|].
  cbn [length plus] in Hs.
  destruct (session_handle_answered _ frame s Hs) as (s1' & r & E' & Hs1 & Hm).
  rewrite E in E'. injection E' as <- <-.
  destruct Hm as (h & body & rbody & Ed & _ & _ & [-> Hshort Hq _ _ _ _ _]).
  destruct (IH Hs1) as [Hs2 Hrest]. split; [done|].
  intros [|i] reply Hi; cbn in Hi.
  - injection Hi as <-. destruct (decode_frame_wf _ _ _ Ed) as [(_ & _ & Ho & Hr & _ & _) _].
    destruct Hs as [_ _ Hseq _].
    assert (fits 64 (Session.next_seq s)) as Hf by (unfold fits, max_of in *; lia).
    do 2 eexists. split; [apply reply_decodes; [|done| |done]|].
    + unfold reply_opcode. case_decide; [by vm_compute|done].
    + exact Hf.
    + split; [done|]. unfold reply_header; cbn [FrameHeader.seq]. by rewrite Z.add_0_r.
  - destruct (Hrest i reply Hi) as (rh & rb & ? & ? & Hseq). exists rh, rb.
    rewrite Hq in Hseq. split; [done|]. split; [done|]. lia.
Qed.

(** One call record per answered frame. *)
Definition frame_call (frame reply : list byte) : call :=
  mkCall
    (match decode_frame frame with
     | Ok (h, _) => api_name (opcode_api (FrameHeader.opcode h))
     | Err _ => "unknown"
     end)
    (wrap 64 (Z.of_nat (length frame))) (wrap 64 (Z.of_nat (length reply))).

Lemma frame_call_wf frames replies : Forall call_wf (zip_with frame_call frames replies).
Proof.
  revert replies. induction frames as [|frame frames IH]; intros [|reply replies]; cbn;
    constructor; [|apply IH]. split; cbn; apply (fits_wrap 64); lia.
Qed.

Lemma answered_decodes s s' frame reply :
  Session.handle frame s = Ret (s', Ok reply) -> is_ok (decode_frame frame) = true.
Proof.
  unfold Session.handle. intros E. destruct (decode_frame frame) as [[h body]|e] eqn:Ed; [done|].
  by erewrite attempt_bind_err in E.
Qed.

Lemma record_answer_call s s' frame reply registry :
  Session.handle frame s = Ret (s', Ok reply) ->
  record_answer frame reply registry = record_call registry (frame_call frame reply).
Proof.
  intros E%answered_decodes. unfold record_answer, record_call, frame_call. cbn.
  by destruct (decode_frame frame) as [[h body]|].
Qed.

(** The metered loop, without its registry, is the plain loop. *)
Lemma metrics_erase {T} `{Transport T} fuel (t : T) s registry :
  serve fuel t s = fmap (fun o =>
    '(t, s, _, r) ← o; Ret (t, s, r)) (serve_with_metrics fuel t s registry).
Proof.
  revert t s registry. induction fuel as [|fuel IH]; intros t s registry; [done|].
  cbn [serve serve_with_metrics]. destruct (recv t) as [t1 [frame|e]].
  - destruct (Session.handle frame s) as [[s1 [reply|e]]|]; [|done..].
    destruct (send reply t1) as [t2 [[]|e]]; [apply IH|done].
  - by destruct (clean_close e).
Qed.

(** The metered loop over a scripted transport. *)
Lemma serve_vec fuel outbox inbox s registry :
  Session.ready (length inbox) s -> (length inbox < fuel)%nat ->
  exists frames replies rest s',
    answers s frames replies s' /\
    serve_with_metrics fuel (VecTransport.mk outbox inbox) s registry =
      Some (Ret (VecTransport.mk (outbox ++ replies) rest, s',
        record_calls (zip_with frame_call frames replies) registry, Ok tt)) /\
    (inbox = frames /\ rest = [] \/
     exists bad e, inbox = frames ++ bad :: rest /\ Session.handle bad s' = Ret (s', Err e)).
Proof.
  revert fuel outbox s registry.
  induction inbox as [|frame inbox IH]; intros [|fuel] outbox s registry Hs Hf;
    cbn [length] in *; try lia.
  - exists [], [], [], s. split; [done|]. cbn. rewrite app_nil_r. split; [done|by left].
  - destruct (session_handle_answered _ frame s Hs) as (s1 & r & E & Hs1 & Hm).
    cbn [serve_with_metrics recv VecTransport.transport VecTransport.recv VecTransport.inbox
      VecTransport.outbox]. rewrite E. destruct r as [reply|e].
    + cbn [send VecTransport.transport VecTransport.send VecTransport.inbox
        VecTransport.outbox]. rewrite (record_answer_call _ _ _ _ _ E).
      destruct (IH fuel (push outbox reply) s1 (record_call registry (frame_call frame reply)))
        as (frames & replies & rest & s' & Ha & Eq & Hend); [done|lia|].
      exists (frame :: frames), (reply :: replies), rest, s'.
      split; [by econstructor|]. split.
      * rewrite Eq. unfold push. by rewrite <- app_assoc.
      * destruct Hend as [[-> ->]|(bad & e & -> & Hbad)]; [by left|right].
        by exists bad, e.
    + subst s1. exists [], [], inbox, s. split; [done|]. cbn. rewrite app_nil_r.
      split; [done|]. right. by exists frame, e.
Qed.

(** C11: serving ends, and answers the client's frames in order. Over a transport
    with any frames to deliver, [serve] returns [Ok] within one iteration more
    than there are frames: it answers a prefix of them, each with the reply the
    session gave for it, in order and with consecutive sequence numbers from the
    session's counter on; it stops at the end of the frames or at the first one the
    session refuses, leaving the frames after it unread and the session as it was
    before it. *)
Theorem serve_drains fuel outbox inbox s :
  Session.ready (length inbox) s -> (length inbox < fuel)%nat ->
  exists frames replies rest s',
    serve fuel (VecTransport.mk outbox inbox) s =
      Some (Ret (VecTransport.mk (outbox ++ replies) rest, s', Ok tt)) /\
    answers s frames replies s' /\
    (forall i reply, replies !! i = Some reply -> exists rh rbody,
       decode_frame reply = Ok (rh, rbody) /\
       FrameHeader.kind rh = FrameKind.Response /\
       FrameHeader.seq rh = Session.next_seq s + Z.of_nat i) /\
    (inbox = frames /\ rest = [] \/
     exists bad e, inbox = frames ++ bad :: rest /\ Session.handle bad s' = Ret (s', Err e)).
Proof.
  intros Hs Hf. destruct (serve_vec fuel outbox inbox s ObsRegistry.new Hs Hf)
    as (frames & replies & rest & s' & Ha & E & Hend).
  exists frames, replies, rest, s'. split.
  { by rewrite (metrics_erase fuel _ s ObsRegistry.new), E. }
  split; [done|]. split; [|done].
  assert (exists n, length inbox = length frames + n)%nat as [n Hn].
  { destruct Hend as [[-> _]|(bad & e & -> & _)]; [by exists 0%nat|].
    exists (S (length rest)). rewrite length_app. done. }
  rewrite Hn in Hs. by destruct (answers_seq n _ _ _ _ Hs Ha).
Qed.

Lemma serve_drains_witness :
  exists frames replies rest s',
    serve 3 (VecTransport.mk [] [create_instance_frame; [x00]]) (Server.make_session 1) =
      Some (Ret (VecTransport.mk replies rest, s', Ok tt)) /\
    answers (Server.make_session 1) frames replies s'.
Proof.
  destruct (serve_drains 3 [] [create_instance_frame; [x00]] (Server.make_session 1))
    as (frames & replies & rest & s' & E & Ha & _);
    [apply make_session_ready; by vm_compute|cbn; lia|].
  by exists frames, replies, rest, s'.
Defined.

(** C29: metering changes nothing and counts exactly. On every transport and session
    and with any fuel, [serve_with_metrics] without its registry is [serve]; and
    over a transport with any frames to deliver it leaves the registry that results
    from recording, for each answered frame in order, the API name of its opcode,
    its length and its reply's, so that a fresh registry's call count is the number
    of replies sent. *)
Theorem serve_metrics_exact {T} `{Transport T} fuel (t : T) s registry :
  serve fuel t s =
    fmap (fun o => '(t, s, _, r) ← o; Ret (t, s, r)) (serve_with_metrics fuel t s registry) /\
  (forall outbox inbox, Session.ready (length inbox) s -> (length inbox < fuel)%nat ->
    Z.of_nat (length inbox) < 2 ^ 64 ->
    exists frames replies rest s' registry',
      serve_with_metrics fuel (VecTransport.mk outbox inbox) s registry =
        Some (Ret (VecTransport.mk (outbox ++ replies) rest, s', registry', Ok tt)) /\
      answers s frames replies s' /\
      registry' = record_calls (zip_with frame_call frames replies) registry /\
      (registry = ObsRegistry.new ->
       CallStats.calls (ObsRegistry.total (map_to_list (ObsRegistry.snapshot registry'))) =
         Z.of_nat (length replies))).
Proof.
  split; [apply metrics_erase|]. intros outbox inbox Hs Hf Hlen.
  destruct (serve_vec fuel outbox inbox s registry Hs Hf)
    as (frames & replies & rest & s' & Ha & E & Hend).
  exists frames, replies, rest, s', (record_calls (zip_with frame_call frames replies) registry).
  split; [done|]. split; [done|]. split; [done|]. intros ->.
  unfold ObsRegistry.snapshot. rewrite record_calls_total by apply frame_call_wf.
  cbn. pose proof (answers_length _ _ _ _ Ha) as Hl.
  rewrite length_zip_with_l_eq by done.
  assert (length frames <= length inbox)%nat.
  { destruct Hend as [[-> _]|(bad & e & -> & _)]; [done|]. rewrite length_app. lia. }
  unfold pin, max_of. lia.
Qed.

Lemma serve_metrics_exact_witness :
  exists frames replies rest s' registry',
    serve_with_metrics 2 (VecTransport.mk [] [create_instance_frame]) (Server.make_session 1)
      ObsRegistry.new = Some (Ret (VecTransport.mk replies rest, s', registry', Ok tt)) /\
    answers (Server.make_session 1) frames replies s' /\
    CallStats.calls (ObsRegistry.total (map_to_list (ObsRegistry.snapshot registry'))) =
      Z.of_nat (length replies).
Proof.
  destruct (serve_metrics_exact 2 (VecTransport.mk [] [create_instance_frame])
    (Server.make_session 1) ObsRegistry.new) as [_ H].
  destruct (H [] [create_instance_frame]) as (frames & replies & rest & s' & reg & E & Ha & _ & Hc);
    [apply make_session_ready; by vm_compute|cbn; lia|by vm_compute|].
  exists frames, replies, rest, s', reg. split; [exact E|]. split; [exact Ha|]. by apply Hc.
Defined.
