(* ===== verification/ServerMain.v ===== *)
(** The accept loop (crates/graftx-server/src/serve.rs, [serve_tcp]) and the server
    binary (crates/graftx-server/src/main.rs).

    Binding an address yields the connections that will arrive, one by one; once
    they are used up the listener waits for more, so the loop does not return
    ([Listening]). One connection is served at a time. *)
From S2P Require Import Wire Codecs Handles HandleSpec Effects Backend ApiBackends.
From S2P Require Import Session Server SessionProps Transport TransportProps Obs Serve ServeProps.
From S2P Require Import Text Process.

Local Open Scope Z_scope.

(** Where a call of [serve_tcp] is: it failed to bind, or is waiting. *)
Inductive listen (A : Type) := Bound (e : io.ErrorKind) | Listening (a : A).
Arguments Bound {A} _.
Arguments Listening {A} _.

Section serve_tcp.
Context {W : Type} `{Write W}.
Context {S : Type} `{ByteStream S}.
Context (io_display : io.ErrorKind -> text).
(** The closure [make_session] and its state. *)
Context {F : Type} (make_session : F -> F * Session.t).

Abbreviation console := (Console.t W).

(** One accepted connection; its transport and session are dropped at the end. *)
Definition serve_connection (fuel : nat) (stream : S) (session : Session.t) (p : console)
  : option (outcome console) :=
  match serve fuel (StreamTransport.new stream) session with
  | None => None
  | Some Panic => Some Panic
  | Some (Ret (_, _, Ok _)) => Some (Ret p)
  | Some (Ret (_, _, Err err)) =>
    Some (Console.eprintln ("graftx-server: connection serve error: " ++ io_display err) p)
  end.

(** The loop over [listener.incoming()]. *)
Fixpoint accept_loop (fuel : nat) (incoming : list (io_result S)) (f : F) (p : console)
  : option (outcome (F * console)) :=
  match incoming with
  | [] => Some (Ret (f, p))
  | Err err :: incoming =>
    match Console.eprintln ("graftx-server: accept failed: " ++ io_display err) p with
    | Panic => Some Panic
    | Ret p => accept_loop fuel incoming f p
    end
  | Ok stream :: incoming =>
    let '(f, session) := make_session f in
    match serve_connection fuel stream session p with
    | None => None
    | Some Panic => Some Panic
    | Some (Ret p) => accept_loop fuel incoming f p
    end
  end.

Definition serve_tcp (fuel : nat) (bind : text -> io_result (list (io_result S))) (addr : text)
    (f : F) (p : console) : option (outcome (listen (F * console))) :=
  match bind addr with
  | Err err => Some (Ret (Bound err))
  | Ok incoming =>
    match accept_loop fuel incoming f p with
    | None => None
    | Some r => Some (r ← r; Ret (Listening r))
    end
  end.
End serve_tcp.

(** ** The binary *)
Section main.
Context {W : Type} `{Write W}.
Context {S : Type} `{ByteStream S}.
Context (io_display : io.ErrorKind -> text) (CARGO_PKG_VERSION : text).

Definition server_banner : list text :=
  [ "graftx-server " ++ CARGO_PKG_VERSION ++ " — protocol v" ++ dec PROTOCOL_MAJOR ++ "." ++
      dec PROTOCOL_MINOR;
    lit "usage: graftx-server serve <addr>   (e.g. graftx-server serve 127.0.0.1:7000)" ].

Inductive server_end :=
| Finished (p : Console.t W)
| Serving (l : listen (Z * Console.t W)).

(** [main]; the session ids start at 1. *)
Definition server_main (fuel : nat) (bind : text -> io_result (list (io_result S)))
    (args : list text) (p : Console.t W) : option (outcome server_end) :=
  match args with
  | command :: addr :: _ =>
    if decide (command = lit "serve") then
      match Console.println ("graftx-server: listening on " ++ addr) p with
      | Panic => Some Panic
      | Ret p =>
        match serve_tcp io_display Server.accept fuel bind addr 1 p with
        | None => None
        | Some r => Some (l ← r; Ret (Serving l))
        end
      end
    else Some (p ← foldl (fun p line => p ≫= Console.println line) (Ret p) server_banner;
               Ret (Finished p))
  | _ => Some (p ← foldl (fun p line => p ≫= Console.println line) (Ret p) server_banner;
               Ret (Finished p))
  end.
End main.

(** ** Serving one connection ends

    Every frame takes four bytes of its own, so a connection that carries [n]
    bytes before it closes is served within [n + 1] iterations. *)
Lemma pipe_recv w u m t r :
  recv (StreamTransport.mk (Pipe.mk w u) m) = (t, r) ->
  exists u', t = StreamTransport.mk (Pipe.mk w u') m /\
    match r with
    | Ok frame => (length u' < length u)%nat
    | Err e => e = io.UnexpectedEof \/ e = io.InvalidData
    end.
Proof.
  cbn [recv StreamTransport.transport]. unfold StreamTransport.recv.
  cbn [read_exact Pipe.stream StreamTransport.inner StreamTransport.max_frame Pipe.unread
    Pipe.written].
  destruct (decide (4 <= length u)%nat) as [Hl|Hl].
  2:{ cbn. intros [= <- <-]. eexists. split; [done|by left]. }
  destruct (Z.ltb_spec m (of_le_bytes (take 4 u))).
  { intros [= <- <-]. eexists. split; [done|by right]. }
  cbn [Pipe.unread Pipe.written]. case_decide as Hb.
  - intros [= <- <-]. eexists. split; [done|]. rewrite !length_drop. lia.
  - intros [= <- <-]. eexists. split; [done|by left].
Qed.

Lemma pipe_send frame w u m :
  exists w', send frame (StreamTransport.mk (Pipe.mk w u) m) =
    (StreamTransport.mk (Pipe.mk w' u) m,
     (if max_of 32 <? Z.of_nat (length frame) then Err io.InvalidInput else Ok tt)).
Proof.
  cbn [send StreamTransport.transport]. unfold StreamTransport.send.
  case_match; [by eexists|]. cbn. by eexists.
Qed.

Lemma ready_le n m s : (n <= m)%nat -> Session.ready m s -> Session.ready n s.
Proof. induction 1 as [|m _ IH]; [done|]. intros Hs%ready_mono. auto. Qed.

(** The errors a served pipe ends with: a length over the bound, and nothing else,
    for the replies are short. *)
Lemma serve_pipe fuel w u s :
  Session.ready (length u) s -> (length u < fuel)%nat ->
  exists t s' r, serve fuel (StreamTransport.new (Pipe.mk w u)) s = Some (Ret (t, s', r)) /\
    Session.session_id s' = Session.session_id s /\ (r = Ok tt \/ r = Err io.InvalidData).
Proof.
  revert w u s. induction fuel as [|fuel IH]; intros w u s Hs Hf; [lia|]. cbn [serve].
  unfold StreamTransport.new, StreamTransport.with_max_frame.
  destruct (recv _) as [t [frame|e]] eqn:E; destruct (pipe_recv _ _ _ _ _ E) as (u' & -> & Hr).
  - assert (exists k, length u = S k /\ (length u' <= k)%nat) as (k & Hk & Hu').
    { exists (length u - 1)%nat. lia. }
    rewrite Hk in Hs.
    destruct (session_handle_answered _ frame s Hs) as (s1 & r & Eh & Hs1 & Hm). rewrite Eh.
    assert (Session.session_id s1 = Session.session_id s) as Hid by
      (destruct r; [by destruct Hm as (? & ? & ? & _ & _ & _ & [])|by subst]).
    destruct r as [reply|e]; [|do 3 eexists; split; [done|]; auto].
    destruct (pipe_send reply w u' MAX_FRAME) as (w' & ->).
    assert ((max_of 32 <? Z.of_nat (length reply)) = false) as ->.
    { apply Z.ltb_ge. destruct Hm as (h & b & rbody & _ & _ & _ & [-> Hshort _ _ _ _ _ _]).
      rewrite encode_frame_length. unfold MAX_BODY, HEADER_LEN, max_of in *. lia. }
    destruct (IH w' u' s1) as (t & s' & r & E2 & Hid2 & Hr2); [|lia|].
    + apply ready_le with k; done.
    + exists t, s', r. split; [exact E2|]. split; [congruence|done].
  - destruct Hr as [->| ->]; do 3 eexists; (split; [done|]); auto.
Qed.

(** ** The accept loop *)

(** The streams of the connections that were accepted. *)
Definition accepted {S} (incoming : list (io_result S)) : list S :=
  omap (fun c => match c with Ok s => Some s | Err _ => None end) incoming.

(** What a connection leaves on stderr. *)
Definition connection_log (io_display : io.ErrorKind -> text) (fuel : nat) (id : Z)
    (c : io_result Pipe.t) : text :=
  match c with
  | Err e => "graftx-server: accept failed: " ++ io_display e ++ nl
  | Ok stream =>
    match serve fuel (StreamTransport.new stream) (Server.make_session id) with
    | Some (Ret (_, _, Err e)) =>
      "graftx-server: connection serve error: " ++ io_display e ++ nl
    | _ => []
    end
  end.

Fixpoint connection_logs (io_display : io.ErrorKind -> text) (fuel : nat) (id : Z)
    (incoming : list (io_result Pipe.t)) : text :=
  match incoming with
  | [] => []
  | c :: incoming =>
    connection_log io_display fuel id c ++
    connection_logs io_display fuel (match c with Ok _ => id + 1 | Err _ => id end) incoming
  end.

Section accept_loop.
Context {W : Type} `{Reliable W}.
Context (io_display : io.ErrorKind -> text).

Lemma serve_connection_pipe fuel stream id (p : Console.t W) :
  fits 64 id -> (length (Pipe.unread stream) < fuel)%nat ->
  Z.of_nat (length (Pipe.unread stream)) <= 2 ^ 32 ->
  exists p', serve_connection io_display fuel stream (Server.make_session id) p = Some (Ret p') /\
    Console.stdout p' = Console.stdout p /\
    content (Console.stderr p') =
      content (Console.stderr p) ++ connection_log io_display fuel id (Ok stream).
Proof.
  intros Hid Hf Hl. destruct stream as [w u]. cbn [Pipe.unread] in *.
  destruct (serve_pipe fuel w u (Server.make_session id)) as (t & s' & r & E & _ & Hr);
    [by apply make_session_ready|done|].
  unfold serve_connection, connection_log. rewrite E. destruct Hr as [->| ->].
  - exists p. by rewrite app_nil_r.
  - destruct (eprintln_reliable ("graftx-server: connection serve error: " ++
      io_display io.InvalidData) p) as (p' & -> & Hc & Ho).
    exists p'. split; [done|]. split; [done|]. by rewrite Hc, <- !app_assoc.
Qed.

Lemma accept_loop_pipe fuel incoming id (p : Console.t W) :
  Forall (fun s => (length (Pipe.unread s) < fuel)%nat /\
    Z.of_nat (length (Pipe.unread s)) <= 2 ^ 32) (accepted incoming) ->
  0 <= id -> id + Z.of_nat (length (accepted incoming)) <= max_of 64 ->
  exists p', accept_loop io_display Server.accept fuel incoming id p =
      Some (Ret (id + Z.of_nat (length (accepted incoming)), p')) /\
    Console.stdout p' = Console.stdout p /\
    content (Console.stderr p') =
      content (Console.stderr p) ++ connection_logs io_display fuel id incoming.
Proof.
  revert id p. induction incoming as [|[stream|e] incoming IH]; intros id p Hall Hid Hmax.
  - exists p. cbn. by rewrite app_nil_r, Z.add_0_r.
  - change (accepted (Ok stream :: incoming)) with (stream :: accepted incoming) in *.
    apply Forall_cons in Hall as [[Hf Hl] Hall]. cbn [length] in Hmax |- *.
    cbn [accept_loop connection_logs].
    change (Server.accept id) with (wrap 64 (id + 1), Server.make_session id). cbv beta iota.
    destruct (serve_connection_pipe fuel stream id p) as (p1 & -> & Ho1 & He1);
      [unfold fits, max_of in *; lia|done|done|].
    rewrite wrap_fits by (unfold fits, max_of in *; lia).
    destruct (IH (id + 1) p1 Hall) as (p2 & -> & Ho2 & He2); [lia|lia|].
    exists p2. split; [do 3 f_equal; lia|]. split; [congruence|].
    by rewrite He2, He1, <- app_assoc.
  - change (accepted (Err e :: incoming)) with (accepted incoming) in *.
    cbn [accept_loop connection_logs].
    destruct (eprintln_reliable ("graftx-server: accept failed: " ++ io_display e) p)
      as (p1 & -> & He1 & Ho1).
    destruct (IH id p1 Hall Hid Hmax) as (p2 & -> & Ho2 & He2).
    exists p2. split; [done|]. split; [congruence|].
    unfold connection_log. by rewrite He2, He1, <- !app_assoc.
Qed.

(** C14: the server keeps accepting. Bound to an address, whatever bytes its
    connections carry and however many fail to be accepted, the binary serves every
    accepted connection to its end, in order, the i-th with a fresh session of id
    i, and then waits for more: it never panics or gives up, an error costs one
    line on stderr that names it, and what a connection does changes nothing for
    the ones after it. *)
Theorem server_keeps_accepting version fuel bind addr rest incoming (p : Console.t W) :
  bind addr = Ok incoming ->
  Forall (fun s => (length (Pipe.unread s) < fuel)%nat /\
    Z.of_nat (length (Pipe.unread s)) <= 2 ^ 32) (accepted incoming) ->
  1 + Z.of_nat (length (accepted incoming)) <= max_of 64 ->
  exists p', server_main io_display version fuel bind (lit "serve" :: addr :: rest) p =
      Some (Ret (Serving (Listening (1 + Z.of_nat (length (accepted incoming)), p')))) /\
    content (Console.stdout p') =
      content (Console.stdout p) ++ "graftx-server: listening on " ++ addr ++ nl /\
    content (Console.stderr p') =
      content (Console.stderr p) ++ connection_logs io_display fuel 1 incoming.
Proof.
  intros Eb Hall Hmax. unfold server_main. rewrite decide_True by done.
  destruct (println_reliable ("graftx-server: listening on " ++ addr) p) as (p1 & -> & Ho1 & He1).
  unfold serve_tcp. rewrite Eb.
  destruct (accept_loop_pipe fuel incoming 1 p1 Hall) as (p2 & -> & Ho2 & He2); [lia|done|].
  exists p2. split; [done|]. split; [|by rewrite He2, He1].
  by rewrite Ho2, Ho1, <- app_assoc.
Qed.
End accept_loop.

Lemma server_keeps_accepting_witness :
  exists p', server_main (fun _ => lit "broken") "1" 9
      (fun _ => Ok [Ok (Pipe.mk [] [xff; xff; xff; xff; x00]); Err io.Other; Ok (Pipe.mk [] [])])
      [lit "serve"; lit "h:1"] (Console.mk (Buffer.mk []) (Buffer.mk [])) =
    Some (Ret (Serving (Listening (3, p')))) /\
  Buffer.written (Console.stderr p') =
    "graftx-server: connection serve error: broken" ++ nl ++
    "graftx-server: accept failed: broken" ++ nl.
Proof.
  destruct (server_keeps_accepting (fun _ => lit "broken") "1" 9
    (fun _ => Ok [Ok (Pipe.mk [] [xff; xff; xff; xff; x00]); Err io.Other; Ok (Pipe.mk [] [])])
    "h:1" [] [Ok (Pipe.mk [] [xff; xff; xff; xff; x00]); Err io.Other; Ok (Pipe.mk [] [])]
    (Console.mk (Buffer.mk []) (Buffer.mk []))) as (p' & E & _ & He).
  - reflexivity.
  - repeat constructor; cbn; lia.
  - by vm_compute.
  - exists p'. split; [exact E|]. cbn [content buffer_reliable] in He. rewrite He. by vm_compute.
Defined.
