(* ===== verification/Trace.v ===== *)
(** Frame traces (crates/graftx-trace): the log of the frames that pass over a
    transport, the transport that keeps it, and the replay of its requests. *)
From S2P Require Import Wire Transport.

Local Open Scope Z_scope.

Module FrameTrace.
Record t := mk { frames : list (list byte) }.

Definition new : t := mk [].
Definition record (frame : list byte) (self : t) : t := mk (push (frames self) frame).
Definition len (self : t) : Z := Z.of_nat (length (frames self)).
Definition is_empty (self : t) : bool := bool_decide (frames self = []).
Definition iter (self : t) : list (list byte) := frames self.
End FrameTrace.

Module RecordingTransport.
Record t (T : Type) := mk { inner : T; trace : FrameTrace.t }.
Arguments mk {T} _ _.
Arguments inner {T} _.
Arguments trace {T} _.

Section ops.
Context {T : Type} `{Transport T}.

Definition new (inner : T) : t T := mk inner FrameTrace.new.
Definition into_trace (self : t T) : FrameTrace.t := trace self.
Definition into_parts (self : t T) : T * FrameTrace.t := (inner self, trace self).

Definition send (frame : list byte) (self : t T) : t T * io_result unit :=
  match Transport.send frame (inner self) with
  | (inner, Err e) => (mk inner (trace self), Err e)
  | (inner, Ok _) => (mk inner (FrameTrace.record frame (trace self)), Ok tt)
  end.

Definition recv (self : t T) : t T * io_result (list byte) :=
  match Transport.recv (inner self) with
  | (inner, Err e) => (mk inner (trace self), Err e)
  | (inner, Ok frame) => (mk inner (FrameTrace.record frame (trace self)), Ok frame)
  end.
End ops.

#[global] Instance transport {T} `{Transport T} : Transport (t T) :=
  {| Transport.send := send; Transport.recv := recv |}.
End RecordingTransport.

(** [fn is_request] *)
Definition is_request (frame : list byte) : bool :=
  match decode_frame frame with
  | Ok (header, _) => bool_decide (FrameHeader.kind header = FrameKind.Request)
  | Err _ => false
  end.

Section replay.
Context {T : Type} `{Transport T}.

(** The loop of [replay] over the frames of the trace. *)
Fixpoint replay_frames (frames : list (list byte)) (t : T) : T * io_result unit :=
  match frames with
  | [] => (t, Ok tt)
  | frame :: frames =>
    if is_request frame then
      match send frame t with
      | (t, Ok _) => replay_frames frames t
      | (t, Err e) => (t, Err e)
      end
    else replay_frames frames t
  end.

Definition replay (trace : FrameTrace.t) (t : T) : T * io_result unit :=
  replay_frames (FrameTrace.iter trace) t.
End replay.
