(* ===== verification/TraceProps.v ===== *)
(** Recording does not disturb the transport it wraps and logs exactly the frames
    that passed; replaying re-sends the requests, in order, until a send fails. *)
From S2P Require Import Wire Codecs Handles HandleSpec Effects Backend Session Server.
From S2P Require Import SessionProps Transport TransportProps Trace.

Local Open Scope Z_scope.

(** The frames of the successful sends, of the successful receives, and of both, in
    the order of the calls. *)
Definition sent_of (c : transport_call) (r : transport_reply) : list (list byte) :=
  match c, r with CSend frame, RSent (Ok _) => [frame] | _, _ => [] end.

Definition received_of (c : transport_call) (r : transport_reply) : list (list byte) :=
  match c, r with CRecv, RReceived (Ok frame) => [frame] | _, _ => [] end.

Definition passed_of (c : transport_call) (r : transport_reply) : list (list byte) :=
  sent_of c r ++ received_of c r.

Fixpoint gather (f : transport_call -> transport_reply -> list (list byte))
    (cs : list transport_call) (rs : list transport_reply) : list (list byte) :=
  match cs, rs with
  | c :: cs, r :: rs => f c r ++ gather f cs rs
  | _, _ => []
  end.

Section recording.
Import RecordingTransport.
Context {T : Type} `{Transport T}.

Lemma recording_call c (t : RecordingTransport.t T) :
  let '(t', r) := call c t in
  call c (inner t) = (inner t', r) /\
  FrameTrace.frames (trace t') = FrameTrace.frames (trace t) ++ passed_of c r.
Proof.
  destruct c as [frame|]; cbn [call].
  - cbn [Transport.send transport]. unfold RecordingTransport.send.
    destruct (Transport.send frame (inner t)) as [s [[]|e]]; split; try done.
    cbn. by rewrite app_nil_r.
  - cbn [Transport.recv transport]. unfold RecordingTransport.recv.
    destruct (Transport.recv (inner t)) as [s [frame|e]]; split; try done.
    cbn. by rewrite app_nil_r.
Qed.

Lemma recording_calls cs (t : RecordingTransport.t T) :
  let '(t', rs) := calls cs t in
  calls cs (inner t) = (inner t', rs) /\
  FrameTrace.frames (trace t') = FrameTrace.frames (trace t) ++ gather passed_of cs rs.
Proof.
  revert t. induction cs as [|c cs IH]; intros t; cbn [calls].
  { split; [done|]. by rewrite app_nil_r. }
  pose proof (recording_call c t) as Hc. destruct (call c t) as [t1 r].
  destruct Hc as [-> Hc]. specialize (IH t1). destruct (calls cs t1) as [t' rs].
  destruct IH as [-> IH]. split; [done|]. by rewrite IH, Hc, <- app_assoc.
Qed.

(** A recording transport is transparent and its trace is the traffic. Any
    sends and receives over a fresh [RecordingTransport] return what they return on
    the wrapped transport and leave it in the same state; the trace holds the
    frames of the successful operations, in the order of the calls, and nothing
    for the ones that failed. *)
Theorem recording_transparent cs (t : T) :
  let '(t', rs) := calls cs (RecordingTransport.new t) in
  calls cs t = (inner t', rs) /\
  into_parts t' = (inner t', FrameTrace.mk (gather passed_of cs rs)).
Proof.
  pose proof (recording_calls cs (RecordingTransport.new t)) as H1.
  destruct (calls cs (RecordingTransport.new t)) as [t' rs]. destruct H1 as [E Ht].
  split; [exact E|]. unfold into_parts. cbn in Ht. rewrite <- Ht. by destruct (trace t').
Qed.
End recording.

(** ** Replay *)
Section replay.
Context {U : Type} `{Transport U}.

(** Sending [frames], all of which succeed. *)
Definition sends_all (frames : list (list byte)) (u u' : U) : Prop :=
  calls (map CSend frames) u = (u', map (fun _ => RSent (Ok tt)) frames).

Lemma sends_all_cons frame frames (u u1 u' : U) :
  send frame u = (u1, Ok tt) -> sends_all frames u1 u' -> sends_all (frame :: frames) u u'.
Proof. intros E Hs. unfold sends_all in *. cbn. by rewrite E, Hs. Qed.

Lemma replay_frames_spec frames (u : U) :
  exists ok rest u1, filter is_request frames = ok ++ rest /\ sends_all ok u u1 /\
    ((rest = [] /\ replay_frames frames u = (u1, Ok tt)) \/
     exists bad rest' u2 e, rest = bad :: rest' /\ send bad u1 = (u2, Err e) /\
       replay_frames frames u = (u2, Err e)).
Proof.
  revert u. induction frames as [|frame frames IH]; intros u.
  { exists [], [], u. split; [done|]. split; [done|]. by left. }
  cbn [replay_frames]. rewrite filter_cons. destruct (is_request frame) eqn:Er.
  - rewrite decide_True by done. destruct (send frame u) as [u1 [[]|e]] eqn:Es.
    + destruct (IH u1) as (ok & rest & u2 & Hf & Hs & Hend).
      exists (frame :: ok), rest, u2. rewrite Hf. split; [done|].
      split; [by eapply sends_all_cons|]. exact Hend.
    + eexists [], _, u. split; [done|]. split; [done|]. right. by eexists _, _, u1, e.
  - rewrite decide_False by (by intros []). apply IH.
Qed.
End replay.

Lemma vec_sends_all frames o i :
  sends_all frames (VecTransport.mk o i) (VecTransport.mk (o ++ frames) i).
Proof.
  revert o. induction frames as [|frame frames IH]; intros o.
  { unfold sends_all. cbn. by rewrite app_nil_r. }
  eapply sends_all_cons; [reflexivity|]. cbn. unfold push.
  replace (o ++ frame :: frames) with ((o ++ [frame]) ++ frames) by (by rewrite <- app_assoc).
  apply IH.
Qed.

Lemma sends_all_fun {U} `{Transport U} frames (u u1 u2 : U) :
  sends_all frames u u1 -> sends_all frames u u2 -> u1 = u2.
Proof. unfold sends_all. congruence. Qed.

Lemma vec_replay frames o i :
  replay_frames frames (VecTransport.mk o i) =
  (VecTransport.mk (o ++ filter is_request frames) i, Ok tt).
Proof.
  destruct (replay_frames_spec frames (VecTransport.mk o i))
    as (ok & rest & u1 & Hf & Hs & [[-> E]|(bad & rest' & u2 & e & _ & Es & _)]).
  - rewrite E, Hf, app_nil_r. f_equal. eapply sends_all_fun; [exact Hs|apply vec_sends_all].
  - discriminate Es.
Qed.

(** The requests among the frames that passed are the frames sent, when every frame
    sent was a request and none received was. *)
Lemma requests_of_traffic cs rs :
  Forall (fun f => is_request f = true) (gather sent_of cs rs) ->
  Forall (fun f => is_request f = false) (gather received_of cs rs) ->
  filter is_request (gather passed_of cs rs) = gather sent_of cs rs.
Proof.
  revert rs. induction cs as [|c cs IH]; intros [|r rs]; cbn [gather]; try done.
  rewrite !Forall_app. intros [Hs1 Hs2] [Hr1 Hr2].
  rewrite filter_app, IH by done. f_equal.
  destruct c as [frame|], r as [[[]|e]|[frame'|e]]; try done; cbn in Hs1, Hr1.
  - rewrite Forall_singleton in Hs1. unfold passed_of, sent_of, received_of.
    rewrite app_nil_r, filter_cons, Hs1. done.
  - rewrite Forall_singleton in Hr1. unfold passed_of, sent_of, received_of.
    cbn [app]. rewrite filter_cons, Hr1. done.
Qed.

(** C31: a trace replays what the client sent. Replaying any trace on any transport
    re-sends its request frames in capture order, up to the first send that fails,
    whose error it returns. In particular, when a client's traffic over a recording
    transport sent only requests and received none, replaying the trace to a fresh
    queue sends exactly the frames the client sent, in order, and reads nothing. *)
Theorem replay_reissues {T U} `{Transport T, Transport U} cs (t : T) (u : U)
    (frames : list (list byte)) outbox inbox :
  (exists ok rest u1, filter is_request frames = ok ++ rest /\ sends_all ok u u1 /\
    ((rest = [] /\ replay (FrameTrace.mk frames) u = (u1, Ok tt)) \/
     exists bad rest' u2 e, rest = bad :: rest' /\ send bad u1 = (u2, Err e) /\
       replay (FrameTrace.mk frames) u = (u2, Err e))) /\
  (let '(t', rs) := calls cs (RecordingTransport.new t) in
   Forall (fun f => is_request f = true) (gather sent_of cs rs) ->
   Forall (fun f => is_request f = false) (gather received_of cs rs) ->
   replay (RecordingTransport.into_trace t') (VecTransport.mk outbox inbox) =
     (VecTransport.mk (outbox ++ gather sent_of cs rs) inbox, Ok tt)).
Proof.
  split; [apply replay_frames_spec|].
  pose proof (recording_calls cs (RecordingTransport.new t)) as H1.
  destruct (calls cs (RecordingTransport.new t)) as [t' rs]. destruct H1 as [_ Ht].
  intros Hs Hr. unfold replay, RecordingTransport.into_trace, FrameTrace.iter.
  rewrite Ht, vec_replay. cbn [FrameTrace.frames RecordingTransport.trace
    RecordingTransport.new FrameTrace.new app]. by rewrite requests_of_traffic.
Qed.

Lemma replay_reissues_witness :
  let reply := encode_frame (reply_header core_op.NOOP 1 1 []) [] in
  let request := request_frame core_op.NOOP 1 1 [] in
  let '(t', rs) := calls [CSend request; CRecv; CRecv]
    (RecordingTransport.new (VecTransport.mk [] [reply])) in
  replay (RecordingTransport.into_trace t') (VecTransport.mk [] []) =
    (VecTransport.mk [request] [], Ok tt).
Proof.
  pose proof (proj2 (replay_reissues
    [CSend (request_frame core_op.NOOP 1 1 []); CRecv; CRecv]
    (VecTransport.mk [] [encode_frame (reply_header core_op.NOOP 1 1 []) []])
    (VecTransport.mk [] []) [] [] [])) as H.
  apply H; repeat constructor; by vm_compute.
Defined.
