(* ===== verification/ClientSession.v ===== *)
(** The client's session layer (crates/graftx-client/src/lib.rs and client.rs):
    its error type, one request/response exchange, the handshake, the no-op and
    the [Client] front door. The exchange is written out in every shim of the
    client; here it is one definition, [exchange], which the shims of
    ClientShims.v call where they have its lines. *)
From S2P Require Import Wire VkBodies Codecs Transport.

Local Open Scope Z_scope.

Module ClientError.
Inductive t :=
| Transport (e : io.ErrorKind)
| Protocol (e : ProtocolError)
| UnexpectedReply (opcode : Z) (kind : FrameKind.t).
End ClientError.

(** A client function takes [&mut T] and returns a [Result]: the transport's
    changes stay when it fails. *)
Definition C (T A : Type) : Type := T -> T * result ClientError.t A.

#[export] Instance C_ret T : MRet (C T) := fun A a t => (t, Ok a).
#[export] Instance C_bind T : MBind (C T) := fun A B f m t =>
  match m t with (t, Ok a) => f a t | (t, Err e) => (t, Err e) end.

Definition fail {T A} (e : ClientError.t) : C T A := fun t => (t, Err e).

(** [?] on a protocol result, by [From<ProtocolError>]. *)
Definition protocol {T A} (r : presult A) : C T A := fun t =>
  (t, result_map_err ClientError.Protocol r).

Section client.
Context {T : Type} `{Transport T}.

(** [t.send(frame)?] and [t.recv()?], by [From<io::Error>]. *)
Definition send_frame (frame : list byte) : C T unit := fun t =>
  let '(t, r) := send frame t in (t, result_map_err ClientError.Transport r).

Definition recv_frame : C T (list byte) := fun t =>
  let '(t, r) := recv t in (t, result_map_err ClientError.Transport r).

(** Send a request and take the body of its response. *)
Definition exchange (opcode reply_opcode req_id seq : Z) (body : list byte) : C T (list byte) :=
  let header := FrameHeader.mk PROTOCOL_MAJOR 0 FrameKind.Request opcode req_id seq
    (wrap 32 (Z.of_nat (length body))) in
  send_frame (encode_frame header body);;
  reply ← recv_frame;
  '(h, b) ← protocol (decode_frame reply);
  if decide (FrameHeader.opcode h <> reply_opcode \/ FrameHeader.kind h <> FrameKind.Response)
  then fail (ClientError.UnexpectedReply (FrameHeader.opcode h) (FrameHeader.kind h))
  else mret b.

(** The check of a returned handle's kind. *)
Definition expect_kind (kind : Z) (h : Handle.t) : C T unit :=
  if decide (Handle.kind h <> kind) then fail (ClientError.Protocol (BadKind (Handle.kind h)))
  else mret tt.

Fixpoint expect_kinds (kind : Z) (hs : list Handle.t) : C T unit :=
  match hs with
  | [] => mret tt
  | h :: hs => expect_kind kind h;; expect_kinds kind hs
  end.

(** [pub fn handshake] *)
Definition handshake : C T Welcome.t :=
  let hello := Hello.mk PROTOCOL_MAJOR PROTOCOL_MINOR 0 DEFAULT_MAX_FRAME_BODY in
  b ← exchange core_op.HELLO core_op.WELCOME 1 1 (Hello.encode hello []);
  protocol (Welcome.decode b).

(** [pub fn noop] *)
Definition noop (req_id seq : Z) : C T unit :=
  _b ← exchange core_op.NOOP core_op.NOOP req_id seq [];
  mret tt.
End client.
