(* ===== verification/ClientShims.v ===== *)
(** The client's shims (crates/graftx-client/src/{vk,gl,cuda,cl,hip,l0,video,wgpu,
    optix,sycl,amf}.rs), one Module per file and one definition per function:
    encode the request, exchange it for a response, decode the response and check
    the kind of the handle it returns. *)
From S2P Require Import Wire VkBodies ApiBodies Codecs Transport ClientSession.

Local Open Scope Z_scope.

(** ** vk.rs *)
Module VkShim.

Definition KIND_INSTANCE : Z := 1.
Definition KIND_PHYSICAL_DEVICE : Z := 2.
Definition KIND_DEVICE : Z := 3.
Definition KIND_QUEUE : Z := 4.
Definition KIND_DEVICE_MEMORY : Z := 5.
Definition KIND_BUFFER : Z := 6.
Definition KIND_COMMAND_POOL : Z := 7.
Definition KIND_COMMAND_BUFFER : Z := 8.

Section shims.
Context {T : Type} `{Transport T}.

Definition create_instance (app_api_version : Z) (req_id seq : Z) : C T Handle.t :=
  b ← exchange vk_op.CREATE_INSTANCE vk_op.CREATE_INSTANCE req_id seq
    (vk.CreateInstanceRequest.encode (vk.CreateInstanceRequest.mk app_api_version) []);
  resp ← protocol (vk.CreateInstanceResponse.decode b);
  expect_kind KIND_INSTANCE (vk.CreateInstanceResponse.instance resp);;
  mret (vk.CreateInstanceResponse.instance resp).

Definition enumerate_physical_devices (instance : Handle.t) (req_id seq : Z) : C T (list Handle.t) :=
  b ← exchange vk_op.ENUMERATE_PHYSICAL_DEVICES vk_op.ENUMERATE_PHYSICAL_DEVICES req_id seq
    (vk.EnumeratePhysicalDevicesRequest.encode (vk.EnumeratePhysicalDevicesRequest.mk instance) []);
  resp ← protocol (vk.EnumeratePhysicalDevicesResponse.decode b);
  expect_kinds KIND_PHYSICAL_DEVICE (vk.EnumeratePhysicalDevicesResponse.devices resp);;
  mret (vk.EnumeratePhysicalDevicesResponse.devices resp).

Definition create_device (physical_device : Handle.t) (req_id seq : Z) : C T Handle.t :=
  b ← exchange vk_op.CREATE_DEVICE vk_op.CREATE_DEVICE req_id seq
    (vk.CreateDeviceRequest.encode (vk.CreateDeviceRequest.mk physical_device) []);
  resp ← protocol (vk.CreateDeviceResponse.decode b);
  expect_kind KIND_DEVICE (vk.CreateDeviceResponse.device resp);;
  mret (vk.CreateDeviceResponse.device resp).

Definition get_device_queue (device : Handle.t) (queue_family_index : Z) (queue_index : Z) (req_id seq : Z) : C T Handle.t :=
  b ← exchange vk_op.GET_DEVICE_QUEUE vk_op.GET_DEVICE_QUEUE req_id seq
    (vk.GetDeviceQueueRequest.encode (vk.GetDeviceQueueRequest.mk device queue_family_index queue_index) []);
  resp ← protocol (vk.GetDeviceQueueResponse.decode b);
  expect_kind KIND_QUEUE (vk.GetDeviceQueueResponse.queue resp);;
  mret (vk.GetDeviceQueueResponse.queue resp).

Definition allocate_memory (device : Handle.t) (size : Z) (req_id seq : Z) : C T Handle.t :=
  b ← exchange vk_op.ALLOCATE_MEMORY vk_op.ALLOCATE_MEMORY req_id seq
    (vk.AllocateMemoryRequest.encode (vk.AllocateMemoryRequest.mk device size) []);
  resp ← protocol (vk.AllocateMemoryResponse.decode b);
  expect_kind KIND_DEVICE_MEMORY (vk.AllocateMemoryResponse.memory resp);;
  mret (vk.AllocateMemoryResponse.memory resp).

Definition create_buffer (device : Handle.t) (size : Z) (usage : Z) (req_id seq : Z) : C T Handle.t :=
  b ← exchange vk_op.CREATE_BUFFER vk_op.CREATE_BUFFER req_id seq
    (vk.CreateBufferRequest.encode (vk.CreateBufferRequest.mk device size usage) []);
  resp ← protocol (vk.CreateBufferResponse.decode b);
  expect_kind KIND_BUFFER (vk.CreateBufferResponse.buffer resp);;
  mret (vk.CreateBufferResponse.buffer resp).

Definition bind_buffer_memory (buffer : Handle.t) (memory : Handle.t) (offset : Z) (req_id seq : Z) : C T unit :=
  _b ← exchange vk_op.BIND_BUFFER_MEMORY vk_op.BIND_BUFFER_MEMORY req_id seq
    (vk.BindBufferMemoryRequest.encode (vk.BindBufferMemoryRequest.mk buffer memory offset) []);
  mret tt.

Definition create_command_pool (device : Handle.t) (queue_family_index : Z) (req_id seq : Z) : C T Handle.t :=
  b ← exchange vk_op.CREATE_COMMAND_POOL vk_op.CREATE_COMMAND_POOL req_id seq
    (vk.CreateCommandPoolRequest.encode (vk.CreateCommandPoolRequest.mk device queue_family_index) []);
  resp ← protocol (vk.CreateCommandPoolResponse.decode b);
  expect_kind KIND_COMMAND_POOL (vk.CreateCommandPoolResponse.pool resp);;
  mret (vk.CreateCommandPoolResponse.pool resp).

Definition allocate_command_buffer (pool : Handle.t) (req_id seq : Z) : C T Handle.t :=
  b ← exchange vk_op.ALLOCATE_COMMAND_BUFFER vk_op.ALLOCATE_COMMAND_BUFFER req_id seq
    (vk.AllocateCommandBufferRequest.encode (vk.AllocateCommandBufferRequest.mk pool) []);
  resp ← protocol (vk.AllocateCommandBufferResponse.decode b);
  expect_kind KIND_COMMAND_BUFFER (vk.AllocateCommandBufferResponse.command_buffer resp);;
  mret (vk.AllocateCommandBufferResponse.command_buffer resp).

Definition queue_submit (queue : Handle.t) (command_buffer : Handle.t) (req_id seq : Z) : C T unit :=
  _b ← exchange vk_op.QUEUE_SUBMIT vk_op.QUEUE_SUBMIT req_id seq
    (vk.QueueSubmitRequest.encode (vk.QueueSubmitRequest.mk queue command_buffer) []);
  mret tt.

Definition cmd_copy_buffer (command_buffer : Handle.t) (src : Handle.t) (dst : Handle.t) (size : Z) (req_id seq : Z) : C T unit :=
  _b ← exchange vk_op.CMD_COPY_BUFFER vk_op.CMD_COPY_BUFFER req_id seq
    (vk.CmdCopyBufferRequest.encode (vk.CmdCopyBufferRequest.mk command_buffer src dst size) []);
  mret tt.

Definition cmd_draw (command_buffer : Handle.t) (vertex_count : Z) (instance_count : Z) (req_id seq : Z) : C T unit :=
  _b ← exchange vk_op.CMD_DRAW vk_op.CMD_DRAW req_id seq
    (vk.CmdDrawRequest.encode (vk.CmdDrawRequest.mk command_buffer vertex_count instance_count) []);
  mret tt.

Definition destroy_buffer (buffer : Handle.t) (req_id seq : Z) : C T unit :=
  _b ← exchange vk_op.DESTROY_BUFFER vk_op.DESTROY_BUFFER req_id seq
    (vk.DestroyBufferRequest.encode (vk.DestroyBufferRequest.mk buffer) []);
  mret tt.

Definition free_memory (memory : Handle.t) (req_id seq : Z) : C T unit :=
  _b ← exchange vk_op.FREE_MEMORY vk_op.FREE_MEMORY req_id seq
    (vk.FreeMemoryRequest.encode (vk.FreeMemoryRequest.mk memory) []);
  mret tt.

Definition destroy_command_pool (pool : Handle.t) (req_id seq : Z) : C T unit :=
  _b ← exchange vk_op.DESTROY_COMMAND_POOL vk_op.DESTROY_COMMAND_POOL req_id seq
    (vk.DestroyCommandPoolRequest.encode (vk.DestroyCommandPoolRequest.mk pool) []);
  mret tt.

End shims.
End VkShim.

(** ** gl.rs *)
Module GlShim.

Definition KIND_GL_CONTEXT : Z := 10.
Definition KIND_GL_BUFFER : Z := 11.

Section shims.
Context {T : Type} `{Transport T}.

Definition create_context (req_id seq : Z) : C T Handle.t :=
  b ← exchange gl_op.CREATE_CONTEXT gl_op.CREATE_CONTEXT req_id seq
    [];
  resp ← protocol (gl.CreateContextResponse.decode b);
  expect_kind KIND_GL_CONTEXT (gl.CreateContextResponse.context resp);;
  mret (gl.CreateContextResponse.context resp).

Definition make_current (context : Handle.t) (req_id seq : Z) : C T unit :=
  _b ← exchange gl_op.MAKE_CURRENT gl_op.MAKE_CURRENT req_id seq
    (gl.MakeCurrentRequest.encode (gl.MakeCurrentRequest.mk context) []);
  mret tt.

Definition gen_buffer (context : Handle.t) (req_id seq : Z) : C T Handle.t :=
  b ← exchange gl_op.GEN_BUFFER gl_op.GEN_BUFFER req_id seq
    (gl.GenBufferRequest.encode (gl.GenBufferRequest.mk context) []);
  resp ← protocol (gl.GenBufferResponse.decode b);
  expect_kind KIND_GL_BUFFER (gl.GenBufferResponse.buffer resp);;
  mret (gl.GenBufferResponse.buffer resp).

Definition swap_buffers (context : Handle.t) (req_id seq : Z) : C T unit :=
  _b ← exchange gl_op.SWAP_BUFFERS gl_op.SWAP_BUFFERS req_id seq
    (gl.SwapBuffersRequest.encode (gl.SwapBuffersRequest.mk context) []);
  mret tt.

Definition delete_buffer (buffer : Handle.t) (req_id seq : Z) : C T unit :=
  _b ← exchange gl_op.DELETE_BUFFER gl_op.DELETE_BUFFER req_id seq
    (gl.DeleteBufferRequest.encode (gl.DeleteBufferRequest.mk buffer) []);
  mret tt.

End shims.
End GlShim.

(** ** cuda.rs *)
Module CudaShim.

Definition KIND_CUDA_CONTEXT : Z := 20.
Definition KIND_CUDA_DEVICE_PTR : Z := 21.

Section shims.
Context {T : Type} `{Transport T}.

Definition ctx_create (device_ordinal : Z) (req_id seq : Z) : C T Handle.t :=
  b ← exchange cuda_op.CTX_CREATE cuda_op.CTX_CREATE req_id seq
    (cuda.CtxCreateRequest.encode (cuda.CtxCreateRequest.mk device_ordinal) []);
  resp ← protocol (cuda.CtxCreateResponse.decode b);
  expect_kind KIND_CUDA_CONTEXT (cuda.CtxCreateResponse.context resp);;
  mret (cuda.CtxCreateResponse.context resp).

Definition mem_alloc (context : Handle.t) (size : Z) (req_id seq : Z) : C T Handle.t :=
  b ← exchange cuda_op.MEM_ALLOC cuda_op.MEM_ALLOC req_id seq
    (cuda.MemAllocRequest.encode (cuda.MemAllocRequest.mk context size) []);
  resp ← protocol (cuda.MemAllocResponse.decode b);
  expect_kind KIND_CUDA_DEVICE_PTR (cuda.MemAllocResponse.dptr resp);;
  mret (cuda.MemAllocResponse.dptr resp).

Definition mem_free (dptr : Handle.t) (req_id seq : Z) : C T unit :=
  _b ← exchange cuda_op.MEM_FREE cuda_op.MEM_FREE req_id seq
    (cuda.MemFreeRequest.encode (cuda.MemFreeRequest.mk dptr) []);
  mret tt.

End shims.
End CudaShim.

(** ** cl.rs *)
Module ClShim.

Definition KIND_CL_CONTEXT : Z := 40.
Definition KIND_CL_MEM : Z := 41.

Section shims.
Context {T : Type} `{Transport T}.

Definition create_context (req_id seq : Z) : C T Handle.t :=
  b ← exchange cl_op.CREATE_CONTEXT cl_op.CREATE_CONTEXT req_id seq
    [];
  resp ← protocol (cl.CreateContextResponse.decode b);
  expect_kind KIND_CL_CONTEXT (cl.CreateContextResponse.context resp);;
  mret (cl.CreateContextResponse.context resp).

Definition create_buffer (context : Handle.t) (size : Z) (req_id seq : Z) : C T Handle.t :=
  b ← exchange cl_op.CREATE_BUFFER cl_op.CREATE_BUFFER req_id seq
    (cl.CreateBufferRequest.encode (cl.CreateBufferRequest.mk context size) []);
  resp ← protocol (cl.CreateBufferResponse.decode b);
  expect_kind KIND_CL_MEM (cl.CreateBufferResponse.mem resp);;
  mret (cl.CreateBufferResponse.mem resp).

Definition release_buffer (mem : Handle.t) (req_id seq : Z) : C T unit :=
  _b ← exchange cl_op.RELEASE_BUFFER cl_op.RELEASE_BUFFER req_id seq
    (cl.ReleaseBufferRequest.encode (cl.ReleaseBufferRequest.mk mem) []);
  mret tt.

End shims.
End ClShim.

(** ** hip.rs *)
Module HipShim.

Definition KIND_HIP_DEVICE_PTR : Z := 30.
Definition KIND_HIP_STREAM : Z := 31.

Section shims.
Context {T : Type} `{Transport T}.

Definition malloc (size : Z) (req_id seq : Z) : C T Handle.t :=
  b ← exchange hip_op.MALLOC hip_op.MALLOC req_id seq
    (hip.MallocRequest.encode (hip.MallocRequest.mk size) []);
  resp ← protocol (hip.MallocResponse.decode b);
  expect_kind KIND_HIP_DEVICE_PTR (hip.MallocResponse.dptr resp);;
  mret (hip.MallocResponse.dptr resp).

Definition free (dptr : Handle.t) (req_id seq : Z) : C T unit :=
  _b ← exchange hip_op.FREE hip_op.FREE req_id seq
    (hip.FreeRequest.encode (hip.FreeRequest.mk dptr) []);
  mret tt.

Definition stream_create (req_id seq : Z) : C T Handle.t :=
  b ← exchange hip_op.STREAM_CREATE hip_op.STREAM_CREATE req_id seq
    [];
  resp ← protocol (hip.StreamCreateResponse.decode b);
  expect_kind KIND_HIP_STREAM (hip.StreamCreateResponse.stream resp);;
  mret (hip.StreamCreateResponse.stream resp).

End shims.
End HipShim.

(** ** l0.rs *)
Module L0Shim.

Definition KIND_CONTEXT : Z := 50.
Definition KIND_DEVICE_MEM : Z := 51.

Section shims.
Context {T : Type} `{Transport T}.

Definition context_create (req_id seq : Z) : C T Handle.t :=
  b ← exchange l0_op.CONTEXT_CREATE l0_op.CONTEXT_CREATE req_id seq
    [];
  resp ← protocol (l0.ContextCreateResponse.decode b);
  expect_kind KIND_CONTEXT (l0.ContextCreateResponse.context resp);;
  mret (l0.ContextCreateResponse.context resp).

Definition mem_alloc_device (context : Handle.t) (size : Z) (req_id seq : Z) : C T Handle.t :=
  b ← exchange l0_op.MEM_ALLOC_DEVICE l0_op.MEM_ALLOC_DEVICE req_id seq
    (l0.MemAllocDeviceRequest.encode (l0.MemAllocDeviceRequest.mk context size) []);
  resp ← protocol (l0.MemAllocDeviceResponse.decode b);
  expect_kind KIND_DEVICE_MEM (l0.MemAllocDeviceResponse.ptr resp);;
  mret (l0.MemAllocDeviceResponse.ptr resp).

Definition mem_free (ptr : Handle.t) (req_id seq : Z) : C T unit :=
  _b ← exchange l0_op.MEM_FREE l0_op.MEM_FREE req_id seq
    (l0.MemFreeRequest.encode (l0.MemFreeRequest.mk ptr) []);
  mret tt.

End shims.
End L0Shim.

(** ** video.rs *)
Module VideoShim.

Definition KIND_VIDEO_SESSION : Z := 60.

Section shims.
Context {T : Type} `{Transport T}.

Definition create_decode_session (codec : Z) (width : Z) (height : Z) (req_id seq : Z) : C T Handle.t :=
  b ← exchange video_op.CREATE_DECODE_SESSION video_op.CREATE_DECODE_SESSION req_id seq
    (video.CreateDecodeSessionRequest.encode (video.CreateDecodeSessionRequest.mk codec width height) []);
  resp ← protocol (video.CreateDecodeSessionResponse.decode b);
  expect_kind KIND_VIDEO_SESSION (video.CreateDecodeSessionResponse.session resp);;
  mret (video.CreateDecodeSessionResponse.session resp).

Definition decode_frame (session : Handle.t) (bitstream_len : Z) (req_id seq : Z) : C T Z :=
  b ← exchange video_op.DECODE_FRAME video_op.DECODE_FRAME req_id seq
    (video.DecodeFrameRequest.encode (video.DecodeFrameRequest.mk session bitstream_len) []);
  resp ← protocol (video.DecodeFrameResponse.decode b);
  mret (video.DecodeFrameResponse.frame_index resp).

Definition destroy_session (session : Handle.t) (req_id seq : Z) : C T unit :=
  _b ← exchange video_op.DESTROY_SESSION video_op.DESTROY_SESSION req_id seq
    (video.DestroySessionRequest.encode (video.DestroySessionRequest.mk session) []);
  mret tt.

End shims.
End VideoShim.

(** ** wgpu.rs *)
Module WgpuShim.

Definition KIND_WGPU_DEVICE : Z := 70.
Definition KIND_WGPU_BUFFER : Z := 71.

Section shims.
Context {T : Type} `{Transport T}.

Definition request_device (req_id seq : Z) : C T Handle.t :=
  b ← exchange wgpu_op.REQUEST_DEVICE wgpu_op.REQUEST_DEVICE req_id seq
    [];
  resp ← protocol (wgpu.RequestDeviceResponse.decode b);
  expect_kind KIND_WGPU_DEVICE (wgpu.RequestDeviceResponse.device resp);;
  mret (wgpu.RequestDeviceResponse.device resp).

Definition create_buffer (device : Handle.t) (size : Z) (usage : Z) (req_id seq : Z) : C T Handle.t :=
  b ← exchange wgpu_op.CREATE_BUFFER wgpu_op.CREATE_BUFFER req_id seq
    (wgpu.CreateBufferRequest.encode (wgpu.CreateBufferRequest.mk device size usage) []);
  resp ← protocol (wgpu.CreateBufferResponse.decode b);
  expect_kind KIND_WGPU_BUFFER (wgpu.CreateBufferResponse.buffer resp);;
  mret (wgpu.CreateBufferResponse.buffer resp).

Definition destroy_buffer (buffer : Handle.t) (req_id seq : Z) : C T unit :=
  _b ← exchange wgpu_op.DESTROY_BUFFER wgpu_op.DESTROY_BUFFER req_id seq
    (wgpu.DestroyBufferRequest.encode (wgpu.DestroyBufferRequest.mk buffer) []);
  mret tt.

End shims.
End WgpuShim.

(** ** optix.rs *)
Module OptixShim.

Definition KIND_OPTIX_CONTEXT : Z := 80.
Definition KIND_OPTIX_PIPELINE : Z := 81.

Section shims.
Context {T : Type} `{Transport T}.

Definition context_create (req_id seq : Z) : C T Handle.t :=
  b ← exchange optix_op.CONTEXT_CREATE optix_op.CONTEXT_CREATE req_id seq
    [];
  resp ← protocol (optix.ContextCreateResponse.decode b);
  expect_kind KIND_OPTIX_CONTEXT (optix.ContextCreateResponse.context resp);;
  mret (optix.ContextCreateResponse.context resp).

Definition pipeline_create (context : Handle.t) (req_id seq : Z) : C T Handle.t :=
  b ← exchange optix_op.PIPELINE_CREATE optix_op.PIPELINE_CREATE req_id seq
    (optix.PipelineCreateRequest.encode (optix.PipelineCreateRequest.mk context) []);
  resp ← protocol (optix.PipelineCreateResponse.decode b);
  expect_kind KIND_OPTIX_PIPELINE (optix.PipelineCreateResponse.pipeline resp);;
  mret (optix.PipelineCreateResponse.pipeline resp).

Definition destroy (handle : Handle.t) (req_id seq : Z) : C T unit :=
  _b ← exchange optix_op.DESTROY optix_op.DESTROY req_id seq
    (optix.DestroyRequest.encode (optix.DestroyRequest.mk handle) []);
  mret tt.

End shims.
End OptixShim.

(** ** sycl.rs *)
Module SyclShim.

Definition KIND_SYCL_QUEUE : Z := 90.
Definition KIND_SYCL_DEVICE_PTR : Z := 91.

Section shims.
Context {T : Type} `{Transport T}.

Definition queue_create (req_id seq : Z) : C T Handle.t :=
  b ← exchange sycl_op.QUEUE_CREATE sycl_op.QUEUE_CREATE req_id seq
    [];
  resp ← protocol (sycl.QueueCreateResponse.decode b);
  expect_kind KIND_SYCL_QUEUE (sycl.QueueCreateResponse.queue resp);;
  mret (sycl.QueueCreateResponse.queue resp).

Definition malloc_device (queue : Handle.t) (size : Z) (req_id seq : Z) : C T Handle.t :=
  b ← exchange sycl_op.MALLOC_DEVICE sycl_op.MALLOC_DEVICE req_id seq
    (sycl.MallocDeviceRequest.encode (sycl.MallocDeviceRequest.mk queue size) []);
  resp ← protocol (sycl.MallocDeviceResponse.decode b);
  expect_kind KIND_SYCL_DEVICE_PTR (sycl.MallocDeviceResponse.ptr resp);;
  mret (sycl.MallocDeviceResponse.ptr resp).

Definition free (ptr : Handle.t) (req_id seq : Z) : C T unit :=
  _b ← exchange sycl_op.FREE sycl_op.FREE req_id seq
    (sycl.FreeRequest.encode (sycl.FreeRequest.mk ptr) []);
  mret tt.

End shims.
End SyclShim.

(** ** amf.rs *)
Module AmfShim.

Definition KIND_AMF_ENCODER : Z := 100.

Section shims.
Context {T : Type} `{Transport T}.

Definition create_encoder (codec : Z) (width : Z) (height : Z) (req_id seq : Z) : C T Handle.t :=
  b ← exchange amf_op.CREATE_ENCODER amf_op.CREATE_ENCODER req_id seq
    (amf.CreateEncoderRequest.encode (amf.CreateEncoderRequest.mk codec width height) []);
  resp ← protocol (amf.CreateEncoderResponse.decode b);
  expect_kind KIND_AMF_ENCODER (amf.CreateEncoderResponse.encoder resp);;
  mret (amf.CreateEncoderResponse.encoder resp).

Definition encode_frame (encoder : Handle.t) (frame_len : Z) (req_id seq : Z) : C T Z :=
  b ← exchange amf_op.ENCODE_FRAME amf_op.ENCODE_FRAME req_id seq
    (amf.EncodeFrameRequest.encode (amf.EncodeFrameRequest.mk encoder frame_len) []);
  resp ← protocol (amf.EncodeFrameResponse.decode b);
  mret (amf.EncodeFrameResponse.packet_len resp).

Definition destroy_encoder (encoder : Handle.t) (req_id seq : Z) : C T unit :=
  _b ← exchange amf_op.DESTROY_ENCODER amf_op.DESTROY_ENCODER req_id seq
    (amf.DestroyEncoderRequest.encode (amf.DestroyEncoderRequest.mk encoder) []);
  mret tt.

End shims.
End AmfShim.
