(* ===== verification/ClientCall.v ===== *)
(** The client's front door (crates/graftx-client/src/client.rs), and the client's
    calls as data: one constructor per shim function, [perform] running the shim
    and [call_api] the namespace it talks to. The theorems about every shim are
    stated over this type. *)
From S2P Require Import Wire VkBodies Codecs Transport ClientSession ClientShims.

Local Open Scope Z_scope.

Module Client.
Record t (T : Type) := mk { transport : T; next_req_id : Z; next_seq : Z; session_id : Z }.
Arguments mk {T} _ _ _ _.
Arguments transport {T} _.
Arguments next_req_id {T} _.
Arguments next_seq {T} _.
Arguments session_id {T} _.

Section ops.
Context {T : Type} `{Transport T}.

(** [connect] consumes the transport: on an error it is dropped. *)
Definition connect (transport : T) : result ClientError.t (t T) :=
  match handshake transport with
  | (transport, Ok welcome) => Ok (mk transport 2 2 (Welcome.session_id welcome))
  | (_, Err e) => Err e
  end.

Definition next_ids (self : t T) : t T * (Z * Z) :=
  let req_id := next_req_id self in
  let seq := next_seq self in
  (mk (transport self) (saturating_add 32 (next_req_id self) 1)
     (saturating_add 64 (next_seq self) 1) (session_id self),
   (req_id, seq)).

(** Run a shim on the client's transport. *)
Definition delegate {A} (shim : Z -> Z -> C T A) (self : t T) : t T * result ClientError.t A :=
  let '(self, (req_id, seq)) := next_ids self in
  let '(transport, r) := shim req_id seq (transport self) in
  (mk transport (next_req_id self) (next_seq self) (session_id self), r).

Definition noop : t T -> t T * result ClientError.t unit := delegate noop.

Definition vk_create_instance (app_api_version : Z)
  : t T -> t T * result ClientError.t Handle.t :=
  delegate (VkShim.create_instance app_api_version).

Definition vk_enumerate_physical_devices (instance : Handle.t)
  : t T -> t T * result ClientError.t (list Handle.t) :=
  delegate (VkShim.enumerate_physical_devices instance).
End ops.
End Client.

(** ** Every call of the client *)
Inductive client_call :=
| Vk_create_instance (app_api_version : Z)
| Vk_enumerate_physical_devices (instance : Handle.t)
| Vk_create_device (physical_device : Handle.t)
| Vk_get_device_queue (device : Handle.t) (queue_family_index : Z) (queue_index : Z)
| Vk_allocate_memory (device : Handle.t) (size : Z)
| Vk_create_buffer (device : Handle.t) (size : Z) (usage : Z)
| Vk_bind_buffer_memory (buffer : Handle.t) (memory : Handle.t) (offset : Z)
| Vk_create_command_pool (device : Handle.t) (queue_family_index : Z)
| Vk_allocate_command_buffer (pool : Handle.t)
| Vk_queue_submit (queue : Handle.t) (command_buffer : Handle.t)
| Vk_cmd_copy_buffer (command_buffer : Handle.t) (src : Handle.t) (dst : Handle.t) (size : Z)
| Vk_cmd_draw (command_buffer : Handle.t) (vertex_count : Z) (instance_count : Z)
| Vk_destroy_buffer (buffer : Handle.t)
| Vk_free_memory (memory : Handle.t)
| Vk_destroy_command_pool (pool : Handle.t)
| Gl_create_context
| Gl_make_current (context : Handle.t)
| Gl_gen_buffer (context : Handle.t)
| Gl_swap_buffers (context : Handle.t)
| Gl_delete_buffer (buffer : Handle.t)
| Cuda_ctx_create (device_ordinal : Z)
| Cuda_mem_alloc (context : Handle.t) (size : Z)
| Cuda_mem_free (dptr : Handle.t)
| Cl_create_context
| Cl_create_buffer (context : Handle.t) (size : Z)
| Cl_release_buffer (mem : Handle.t)
| Hip_malloc (size : Z)
| Hip_free (dptr : Handle.t)
| Hip_stream_create
| L0_context_create
| L0_mem_alloc_device (context : Handle.t) (size : Z)
| L0_mem_free (ptr : Handle.t)
| Video_create_decode_session (codec : Z) (width : Z) (height : Z)
| Video_decode_frame (session : Handle.t) (bitstream_len : Z)
| Video_destroy_session (session : Handle.t)
| Wgpu_request_device
| Wgpu_create_buffer (device : Handle.t) (size : Z) (usage : Z)
| Wgpu_destroy_buffer (buffer : Handle.t)
| Optix_context_create
| Optix_pipeline_create (context : Handle.t)
| Optix_destroy (handle : Handle.t)
| Sycl_queue_create
| Sycl_malloc_device (queue : Handle.t) (size : Z)
| Sycl_free (ptr : Handle.t)
| Amf_create_encoder (codec : Z) (width : Z) (height : Z)
| Amf_encode_frame (encoder : Handle.t) (frame_len : Z)
| Amf_destroy_encoder (encoder : Handle.t).

(** What a call returns. *)
Inductive client_value :=
| VUnit
| VHandle (h : Handle.t)
| VHandles (hs : list Handle.t)
| VInt (n : Z).

Section perform.
Context {T : Type} `{Transport T}.

Definition ret_unit (m : C T unit) : C T client_value := m;; mret VUnit.
Definition ret_handle (m : C T Handle.t) : C T client_value := h ← m; mret (VHandle h).
Definition ret_handles (m : C T (list Handle.t)) : C T client_value :=
  hs ← m; mret (VHandles hs).
Definition ret_int (m : C T Z) : C T client_value := n ← m; mret (VInt n).

Definition perform (c : client_call) (req_id seq : Z) : C T client_value :=
  match c with
  | Vk_create_instance app_api_version => ret_handle (VkShim.create_instance app_api_version req_id seq)
  | Vk_enumerate_physical_devices instance => ret_handles (VkShim.enumerate_physical_devices instance req_id seq)
  | Vk_create_device physical_device => ret_handle (VkShim.create_device physical_device req_id seq)
  | Vk_get_device_queue device queue_family_index queue_index => ret_handle (VkShim.get_device_queue device queue_family_index queue_index req_id seq)
  | Vk_allocate_memory device size => ret_handle (VkShim.allocate_memory device size req_id seq)
  | Vk_create_buffer device size usage => ret_handle (VkShim.create_buffer device size usage req_id seq)
  | Vk_bind_buffer_memory buffer memory offset => ret_unit (VkShim.bind_buffer_memory buffer memory offset req_id seq)
  | Vk_create_command_pool device queue_family_index => ret_handle (VkShim.create_command_pool device queue_family_index req_id seq)
  | Vk_allocate_command_buffer pool => ret_handle (VkShim.allocate_command_buffer pool req_id seq)
  | Vk_queue_submit queue command_buffer => ret_unit (VkShim.queue_submit queue command_buffer req_id seq)
  | Vk_cmd_copy_buffer command_buffer src dst size => ret_unit (VkShim.cmd_copy_buffer command_buffer src dst size req_id seq)
  | Vk_cmd_draw command_buffer vertex_count instance_count => ret_unit (VkShim.cmd_draw command_buffer vertex_count instance_count req_id seq)
  | Vk_destroy_buffer buffer => ret_unit (VkShim.destroy_buffer buffer req_id seq)
  | Vk_free_memory memory => ret_unit (VkShim.free_memory memory req_id seq)
  | Vk_destroy_command_pool pool => ret_unit (VkShim.destroy_command_pool pool req_id seq)
  | Gl_create_context => ret_handle (GlShim.create_context req_id seq)
  | Gl_make_current context => ret_unit (GlShim.make_current context req_id seq)
  | Gl_gen_buffer context => ret_handle (GlShim.gen_buffer context req_id seq)
  | Gl_swap_buffers context => ret_unit (GlShim.swap_buffers context req_id seq)
  | Gl_delete_buffer buffer => ret_unit (GlShim.delete_buffer buffer req_id seq)
  | Cuda_ctx_create device_ordinal => ret_handle (CudaShim.ctx_create device_ordinal req_id seq)
  | Cuda_mem_alloc context size => ret_handle (CudaShim.mem_alloc context size req_id seq)
  | Cuda_mem_free dptr => ret_unit (CudaShim.mem_free dptr req_id seq)
  | Cl_create_context => ret_handle (ClShim.create_context req_id seq)
  | Cl_create_buffer context size => ret_handle (ClShim.create_buffer context size req_id seq)
  | Cl_release_buffer mem => ret_unit (ClShim.release_buffer mem req_id seq)
  | Hip_malloc size => ret_handle (HipShim.malloc size req_id seq)
  | Hip_free dptr => ret_unit (HipShim.free dptr req_id seq)
  | Hip_stream_create => ret_handle (HipShim.stream_create req_id seq)
  | L0_context_create => ret_handle (L0Shim.context_create req_id seq)
  | L0_mem_alloc_device context size => ret_handle (L0Shim.mem_alloc_device context size req_id seq)
  | L0_mem_free ptr => ret_unit (L0Shim.mem_free ptr req_id seq)
  | Video_create_decode_session codec width height => ret_handle (VideoShim.create_decode_session codec width height req_id seq)
  | Video_decode_frame session bitstream_len => ret_int (VideoShim.decode_frame session bitstream_len req_id seq)
  | Video_destroy_session session => ret_unit (VideoShim.destroy_session session req_id seq)
  | Wgpu_request_device => ret_handle (WgpuShim.request_device req_id seq)
  | Wgpu_create_buffer device size usage => ret_handle (WgpuShim.create_buffer device size usage req_id seq)
  | Wgpu_destroy_buffer buffer => ret_unit (WgpuShim.destroy_buffer buffer req_id seq)
  | Optix_context_create => ret_handle (OptixShim.context_create req_id seq)
  | Optix_pipeline_create context => ret_handle (OptixShim.pipeline_create context req_id seq)
  | Optix_destroy handle => ret_unit (OptixShim.destroy handle req_id seq)
  | Sycl_queue_create => ret_handle (SyclShim.queue_create req_id seq)
  | Sycl_malloc_device queue size => ret_handle (SyclShim.malloc_device queue size req_id seq)
  | Sycl_free ptr => ret_unit (SyclShim.free ptr req_id seq)
  | Amf_create_encoder codec width height => ret_handle (AmfShim.create_encoder codec width height req_id seq)
  | Amf_encode_frame encoder frame_len => ret_int (AmfShim.encode_frame encoder frame_len req_id seq)
  | Amf_destroy_encoder encoder => ret_unit (AmfShim.destroy_encoder encoder req_id seq)
  end.
End perform.

Definition call_api (c : client_call) : ApiId :=
  match c with
  | Vk_create_instance _ | Vk_enumerate_physical_devices _ | Vk_create_device _ | Vk_get_device_queue _ _ _ | Vk_allocate_memory _ _ | Vk_create_buffer _ _ _ | Vk_bind_buffer_memory _ _ _ | Vk_create_command_pool _ _ | Vk_allocate_command_buffer _ | Vk_queue_submit _ _ | Vk_cmd_copy_buffer _ _ _ _ | Vk_cmd_draw _ _ _ | Vk_destroy_buffer _ | Vk_free_memory _ | Vk_destroy_command_pool _ => Vulkan
  | Gl_create_context | Gl_make_current _ | Gl_gen_buffer _ | Gl_swap_buffers _ | Gl_delete_buffer _ => OpenGl
  | Cuda_ctx_create _ | Cuda_mem_alloc _ _ | Cuda_mem_free _ => Cuda
  | Cl_create_context | Cl_create_buffer _ _ | Cl_release_buffer _ => OpenCl
  | Hip_malloc _ | Hip_free _ | Hip_stream_create => Hip
  | L0_context_create | L0_mem_alloc_device _ _ | L0_mem_free _ => LevelZero
  | Video_create_decode_session _ _ _ | Video_decode_frame _ _ | Video_destroy_session _ => Video
  | Wgpu_request_device | Wgpu_create_buffer _ _ _ | Wgpu_destroy_buffer _ => WebGpu
  | Optix_context_create | Optix_pipeline_create _ | Optix_destroy _ => OptiX
  | Sycl_queue_create | Sycl_malloc_device _ _ | Sycl_free _ => Sycl
  | Amf_create_encoder _ _ _ | Amf_encode_frame _ _ | Amf_destroy_encoder _ => Amf
  end.
