(* ===== verification/ClientSpec.v ===== *)
(** The client's calls, as the protocol sees them: the opcode and the request body
    of each, and the decoding of the replies they read. *)
From S2P Require Import Wire VkBodies ApiBodies Codecs Contract Transport ClientSession.
From S2P Require Import ClientShims ClientCall.

Local Open Scope Z_scope.

Definition call_op (c : client_call) : Z :=
  match c with
  | Vk_create_instance _ => vk_op.CREATE_INSTANCE
  | Vk_enumerate_physical_devices _ => vk_op.ENUMERATE_PHYSICAL_DEVICES
  | Vk_create_device _ => vk_op.CREATE_DEVICE
  | Vk_get_device_queue _ _ _ => vk_op.GET_DEVICE_QUEUE
  | Vk_allocate_memory _ _ => vk_op.ALLOCATE_MEMORY
  | Vk_create_buffer _ _ _ => vk_op.CREATE_BUFFER
  | Vk_bind_buffer_memory _ _ _ => vk_op.BIND_BUFFER_MEMORY
  | Vk_create_command_pool _ _ => vk_op.CREATE_COMMAND_POOL
  | Vk_allocate_command_buffer _ => vk_op.ALLOCATE_COMMAND_BUFFER
  | Vk_queue_submit _ _ => vk_op.QUEUE_SUBMIT
  | Vk_cmd_copy_buffer _ _ _ _ => vk_op.CMD_COPY_BUFFER
  | Vk_cmd_draw _ _ _ => vk_op.CMD_DRAW
  | Vk_destroy_buffer _ => vk_op.DESTROY_BUFFER
  | Vk_free_memory _ => vk_op.FREE_MEMORY
  | Vk_destroy_command_pool _ => vk_op.DESTROY_COMMAND_POOL
  | Gl_create_context => gl_op.CREATE_CONTEXT
  | Gl_make_current _ => gl_op.MAKE_CURRENT
  | Gl_gen_buffer _ => gl_op.GEN_BUFFER
  | Gl_swap_buffers _ => gl_op.SWAP_BUFFERS
  | Gl_delete_buffer _ => gl_op.DELETE_BUFFER
  | Cuda_ctx_create _ => cuda_op.CTX_CREATE
  | Cuda_mem_alloc _ _ => cuda_op.MEM_ALLOC
  | Cuda_mem_free _ => cuda_op.MEM_FREE
  | Cl_create_context => cl_op.CREATE_CONTEXT
  | Cl_create_buffer _ _ => cl_op.CREATE_BUFFER
  | Cl_release_buffer _ => cl_op.RELEASE_BUFFER
  | Hip_malloc _ => hip_op.MALLOC
  | Hip_free _ => hip_op.FREE
  | Hip_stream_create => hip_op.STREAM_CREATE
  | L0_context_create => l0_op.CONTEXT_CREATE
  | L0_mem_alloc_device _ _ => l0_op.MEM_ALLOC_DEVICE
  | L0_mem_free _ => l0_op.MEM_FREE
  | Video_create_decode_session _ _ _ => video_op.CREATE_DECODE_SESSION
  | Video_decode_frame _ _ => video_op.DECODE_FRAME
  | Video_destroy_session _ => video_op.DESTROY_SESSION
  | Wgpu_request_device => wgpu_op.REQUEST_DEVICE
  | Wgpu_create_buffer _ _ _ => wgpu_op.CREATE_BUFFER
  | Wgpu_destroy_buffer _ => wgpu_op.DESTROY_BUFFER
  | Optix_context_create => optix_op.CONTEXT_CREATE
  | Optix_pipeline_create _ => optix_op.PIPELINE_CREATE
  | Optix_destroy _ => optix_op.DESTROY
  | Sycl_queue_create => sycl_op.QUEUE_CREATE
  | Sycl_malloc_device _ _ => sycl_op.MALLOC_DEVICE
  | Sycl_free _ => sycl_op.FREE
  | Amf_create_encoder _ _ _ => amf_op.CREATE_ENCODER
  | Amf_encode_frame _ _ => amf_op.ENCODE_FRAME
  | Amf_destroy_encoder _ => amf_op.DESTROY_ENCODER
  end.

Definition call_body (c : client_call) : list byte :=
  match c with
  | Vk_create_instance app_api_version => (vk.CreateInstanceRequest.encode (vk.CreateInstanceRequest.mk app_api_version) [])
  | Vk_enumerate_physical_devices instance => (vk.EnumeratePhysicalDevicesRequest.encode (vk.EnumeratePhysicalDevicesRequest.mk instance) [])
  | Vk_create_device physical_device => (vk.CreateDeviceRequest.encode (vk.CreateDeviceRequest.mk physical_device) [])
  | Vk_get_device_queue device queue_family_index queue_index => (vk.GetDeviceQueueRequest.encode (vk.GetDeviceQueueRequest.mk device queue_family_index queue_index) [])
  | Vk_allocate_memory device size => (vk.AllocateMemoryRequest.encode (vk.AllocateMemoryRequest.mk device size) [])
  | Vk_create_buffer device size usage => (vk.CreateBufferRequest.encode (vk.CreateBufferRequest.mk device size usage) [])
  | Vk_bind_buffer_memory buffer memory offset => (vk.BindBufferMemoryRequest.encode (vk.BindBufferMemoryRequest.mk buffer memory offset) [])
  | Vk_create_command_pool device queue_family_index => (vk.CreateCommandPoolRequest.encode (vk.CreateCommandPoolRequest.mk device queue_family_index) [])
  | Vk_allocate_command_buffer pool => (vk.AllocateCommandBufferRequest.encode (vk.AllocateCommandBufferRequest.mk pool) [])
  | Vk_queue_submit queue command_buffer => (vk.QueueSubmitRequest.encode (vk.QueueSubmitRequest.mk queue command_buffer) [])
  | Vk_cmd_copy_buffer command_buffer src dst size => (vk.CmdCopyBufferRequest.encode (vk.CmdCopyBufferRequest.mk command_buffer src dst size) [])
  | Vk_cmd_draw command_buffer vertex_count instance_count => (vk.CmdDrawRequest.encode (vk.CmdDrawRequest.mk command_buffer vertex_count instance_count) [])
  | Vk_destroy_buffer buffer => (vk.DestroyBufferRequest.encode (vk.DestroyBufferRequest.mk buffer) [])
  | Vk_free_memory memory => (vk.FreeMemoryRequest.encode (vk.FreeMemoryRequest.mk memory) [])
  | Vk_destroy_command_pool pool => (vk.DestroyCommandPoolRequest.encode (vk.DestroyCommandPoolRequest.mk pool) [])
  | Gl_create_context => []
  | Gl_make_current context => (gl.MakeCurrentRequest.encode (gl.MakeCurrentRequest.mk context) [])
  | Gl_gen_buffer context => (gl.GenBufferRequest.encode (gl.GenBufferRequest.mk context) [])
  | Gl_swap_buffers context => (gl.SwapBuffersRequest.encode (gl.SwapBuffersRequest.mk context) [])
  | Gl_delete_buffer buffer => (gl.DeleteBufferRequest.encode (gl.DeleteBufferRequest.mk buffer) [])
  | Cuda_ctx_create device_ordinal => (cuda.CtxCreateRequest.encode (cuda.CtxCreateRequest.mk device_ordinal) [])
  | Cuda_mem_alloc context size => (cuda.MemAllocRequest.encode (cuda.MemAllocRequest.mk context size) [])
  | Cuda_mem_free dptr => (cuda.MemFreeRequest.encode (cuda.MemFreeRequest.mk dptr) [])
  | Cl_create_context => []
  | Cl_create_buffer context size => (cl.CreateBufferRequest.encode (cl.CreateBufferRequest.mk context size) [])
  | Cl_release_buffer mem => (cl.ReleaseBufferRequest.encode (cl.ReleaseBufferRequest.mk mem) [])
  | Hip_malloc size => (hip.MallocRequest.encode (hip.MallocRequest.mk size) [])
  | Hip_free dptr => (hip.FreeRequest.encode (hip.FreeRequest.mk dptr) [])
  | Hip_stream_create => []
  | L0_context_create => []
  | L0_mem_alloc_device context size => (l0.MemAllocDeviceRequest.encode (l0.MemAllocDeviceRequest.mk context size) [])
  | L0_mem_free ptr => (l0.MemFreeRequest.encode (l0.MemFreeRequest.mk ptr) [])
  | Video_create_decode_session codec width height => (video.CreateDecodeSessionRequest.encode (video.CreateDecodeSessionRequest.mk codec width height) [])
  | Video_decode_frame session bitstream_len => (video.DecodeFrameRequest.encode (video.DecodeFrameRequest.mk session bitstream_len) [])
  | Video_destroy_session session => (video.DestroySessionRequest.encode (video.DestroySessionRequest.mk session) [])
  | Wgpu_request_device => []
  | Wgpu_create_buffer device size usage => (wgpu.CreateBufferRequest.encode (wgpu.CreateBufferRequest.mk device size usage) [])
  | Wgpu_destroy_buffer buffer => (wgpu.DestroyBufferRequest.encode (wgpu.DestroyBufferRequest.mk buffer) [])
  | Optix_context_create => []
  | Optix_pipeline_create context => (optix.PipelineCreateRequest.encode (optix.PipelineCreateRequest.mk context) [])
  | Optix_destroy handle => (optix.DestroyRequest.encode (optix.DestroyRequest.mk handle) [])
  | Sycl_queue_create => []
  | Sycl_malloc_device queue size => (sycl.MallocDeviceRequest.encode (sycl.MallocDeviceRequest.mk queue size) [])
  | Sycl_free ptr => (sycl.FreeRequest.encode (sycl.FreeRequest.mk ptr) [])
  | Amf_create_encoder codec width height => (amf.CreateEncoderRequest.encode (amf.CreateEncoderRequest.mk codec width height) [])
  | Amf_encode_frame encoder frame_len => (amf.EncodeFrameRequest.encode (amf.EncodeFrameRequest.mk encoder frame_len) [])
  | Amf_destroy_encoder encoder => (amf.DestroyEncoderRequest.encode (amf.DestroyEncoderRequest.mk encoder) [])
  end.

(** ** Reading a reply

    A handle is the first 8 bytes of the reply, an integer the first 4, a list of
    handles a count of 4 bytes and 8 bytes per handle; a reply too short for what
    it should hold is [UnexpectedEof], and what follows is ignored. *)
Definition read_uint (n : nat) (b : list byte) : presult Z :=
  if decide (n <= length b)%nat then Ok (of_le_bytes (take n b)) else Err UnexpectedEof.

Definition read_handle (b : list byte) : presult Handle.t :=
  raw ← read_uint 8 b; Ok (Handle.from_raw raw).

Fixpoint take_handles (n : nat) (b : list byte) : list Handle.t :=
  match n with
  | O => []
  | S n => Handle.from_raw (of_le_bytes (take 8 b)) :: take_handles n (drop 8 b)
  end.

Definition read_handles (b : list byte) : presult (list Handle.t) :=
  count ← read_uint 4 b;
  if decide (4 + 8 * count <= Z.of_nat (length b)) then
    Ok (take_handles (Z.to_nat count) (drop 4 b))
  else Err UnexpectedEof.

Lemma take_le_bytes n v rest : take n (le_bytes n v ++ rest) = le_bytes n v.
Proof. by rewrite <- (length_le_bytes n v) at 1; rewrite take_app_length. Qed.

Lemma drop_le_bytes n v rest : drop n (le_bytes n v ++ rest) = rest.
Proof. by rewrite <- (length_le_bytes n v) at 1; rewrite drop_app_length. Qed.

Lemma read_uint_app n v rest :
  fits (8 * Z.of_nat n) v -> read_uint n (le_bytes n v ++ rest) = Ok v.
Proof.
  intros Hv. unfold read_uint. rewrite take_le_bytes, of_le_bytes_id by done.
  rewrite decide_True; [done|]. rewrite length_app, length_le_bytes. lia.
Qed.

Lemma read_uint_short n b : (length b < n)%nat -> read_uint n b = Err UnexpectedEof.
Proof. intros H. unfold read_uint. by rewrite decide_False by lia. Qed.

(** A decoder that reads one integer. *)
Lemma read_all_uint {A} n (g : Z -> A) b :
  (0 < n <= 8)%nat ->
  read_all (x ← uint n; mret (g x)) b = v ← read_uint n b; Ok (g v).
Proof.
  intros Hn. unfold read_all. start_reader b. split_field.
  - rewrite <- Hr, Hr0, read_uint_app by done. done.
  - rewrite <- Hr, read_uint_short by done. done.
Qed.

Lemma take_handle_bytes hs rest :
  Forall Handle.wf hs -> take_handles (length hs) (vk.handle_bytes hs ++ rest) = hs.
Proof.
  induction 1 as [|h hs Hh Hhs IH]; [done|].
  rewrite vk.handle_bytes_cons, <- app_assoc. cbn [length take_handles].
  rewrite take_le_bytes, drop_le_bytes, IH, of_le_bytes_id by exact Hh.
  by destruct h.
Qed.

(** The decoder of the one list of handles. *)
Lemma decode_handles b :
  vk.EnumeratePhysicalDevicesResponse.decode b =
    hs ← read_handles b; Ok (vk.EnumeratePhysicalDevicesResponse.mk hs).
Proof.
  unfold vk.EnumeratePhysicalDevicesResponse.decode, read_all, u32, read_handles.
  start_reader b. split_field; [|by rewrite <- Hr, read_uint_short by done].
  rewrite <- Hr, Hr0, read_uint_app by done. cbn [mbind result_bind].
  rewrite length_app, length_le_bytes, drop_le_bytes.
  assert (Z.of_nat (Z.to_nat v) = v) as Hv by (unfold fits in Hf; lia).
  destruct (vk.decode_devices_cases (Z.to_nat v) [] r0)
    as [(hs & r' & Hl & Hwf & Hr' & E)|[Hl E]];
    [unfold fits in Hf; cbn in Hf; lia|unfold mbind at 2, Rd_bind; rewrite E..].
  - rewrite decide_True by (rewrite Hr', length_app, vk.length_handle_bytes; lia).
    by rewrite Hr', <- Hl, take_handle_bytes.
  - by rewrite decide_False by lia.
Qed.

(** The decoders of one handle or one integer, by any name. *)
Class DecodeHandle {A} (decode : list byte -> presult A) (mk : Handle.t -> A) : Prop :=
  decode_reads_handle b : decode b = h ← read_handle b; Ok (mk h).

Class DecodeInt {A} (decode : list byte -> presult A) (mk : Z -> A) : Prop :=
  decode_reads_int b : decode b = n ← read_uint 4 b; Ok (mk n).

Lemma read_all_handle {A} (mk : Handle.t -> A) b :
  read_all (x ← u64; mret (mk (Handle.from_raw x))) b = h ← read_handle b; Ok (mk h).
Proof.
  unfold read_handle. rewrite (read_all_uint 8 (fun x => mk (Handle.from_raw x))) by lia.
  by destruct (read_uint 8 b).
Qed.

Lemma read_all_int {A} (mk : Z -> A) b :
  read_all (x ← u32; mret (mk x)) b = n ← read_uint 4 b; Ok (mk n).
Proof. apply (read_all_uint 4 mk). lia. Qed.

Lemma read_handle_app h rest :
  Handle.wf h -> read_handle (u64_le (Handle.raw h) ++ rest) = Ok h.
Proof.
  intros Hwf. unfold read_handle. rewrite read_uint_app by exact Hwf. by destruct h.
Qed.

Lemma decode_handle {A} {decode : list byte -> presult A} {mk} `{!DecodeHandle decode mk} h :
  Handle.wf h -> decode ([] <+ u64_le (Handle.raw h)) = Ok (mk h).
Proof.
  intros Hwf. rewrite decode_reads_handle.
  change ([] <+ u64_le (Handle.raw h)) with (u64_le (Handle.raw h)).
  rewrite <- (app_nil_r (u64_le _)). by rewrite read_handle_app.
Qed.

#[export] Instance vk_CreateInstanceResponse_reads : DecodeHandle vk.CreateInstanceResponse.decode vk.CreateInstanceResponse.mk :=
  read_all_handle vk.CreateInstanceResponse.mk.
#[export] Instance vk_CreateDeviceResponse_reads : DecodeHandle vk.CreateDeviceResponse.decode vk.CreateDeviceResponse.mk :=
  read_all_handle vk.CreateDeviceResponse.mk.
#[export] Instance vk_GetDeviceQueueResponse_reads : DecodeHandle vk.GetDeviceQueueResponse.decode vk.GetDeviceQueueResponse.mk :=
  read_all_handle vk.GetDeviceQueueResponse.mk.
#[export] Instance vk_AllocateMemoryResponse_reads : DecodeHandle vk.AllocateMemoryResponse.decode vk.AllocateMemoryResponse.mk :=
  read_all_handle vk.AllocateMemoryResponse.mk.
#[export] Instance vk_CreateBufferResponse_reads : DecodeHandle vk.CreateBufferResponse.decode vk.CreateBufferResponse.mk :=
  read_all_handle vk.CreateBufferResponse.mk.
#[export] Instance vk_CreateCommandPoolResponse_reads : DecodeHandle vk.CreateCommandPoolResponse.decode vk.CreateCommandPoolResponse.mk :=
  read_all_handle vk.CreateCommandPoolResponse.mk.
#[export] Instance vk_AllocateCommandBufferResponse_reads : DecodeHandle vk.AllocateCommandBufferResponse.decode vk.AllocateCommandBufferResponse.mk :=
  read_all_handle vk.AllocateCommandBufferResponse.mk.
#[export] Instance gl_CreateContextResponse_reads : DecodeHandle gl.CreateContextResponse.decode gl.CreateContextResponse.mk :=
  read_all_handle gl.CreateContextResponse.mk.
#[export] Instance gl_GenBufferResponse_reads : DecodeHandle gl.GenBufferResponse.decode gl.GenBufferResponse.mk :=
  read_all_handle gl.GenBufferResponse.mk.
#[export] Instance cuda_CtxCreateResponse_reads : DecodeHandle cuda.CtxCreateResponse.decode cuda.CtxCreateResponse.mk :=
  read_all_handle cuda.CtxCreateResponse.mk.
#[export] Instance cuda_MemAllocResponse_reads : DecodeHandle cuda.MemAllocResponse.decode cuda.MemAllocResponse.mk :=
  read_all_handle cuda.MemAllocResponse.mk.
#[export] Instance cl_CreateContextResponse_reads : DecodeHandle cl.CreateContextResponse.decode cl.CreateContextResponse.mk :=
  read_all_handle cl.CreateContextResponse.mk.
#[export] Instance cl_CreateBufferResponse_reads : DecodeHandle cl.CreateBufferResponse.decode cl.CreateBufferResponse.mk :=
  read_all_handle cl.CreateBufferResponse.mk.
#[export] Instance hip_MallocResponse_reads : DecodeHandle hip.MallocResponse.decode hip.MallocResponse.mk :=
  read_all_handle hip.MallocResponse.mk.
#[export] Instance hip_StreamCreateResponse_reads : DecodeHandle hip.StreamCreateResponse.decode hip.StreamCreateResponse.mk :=
  read_all_handle hip.StreamCreateResponse.mk.
#[export] Instance l0_ContextCreateResponse_reads : DecodeHandle l0.ContextCreateResponse.decode l0.ContextCreateResponse.mk :=
  read_all_handle l0.ContextCreateResponse.mk.
#[export] Instance l0_MemAllocDeviceResponse_reads : DecodeHandle l0.MemAllocDeviceResponse.decode l0.MemAllocDeviceResponse.mk :=
  read_all_handle l0.MemAllocDeviceResponse.mk.
#[export] Instance video_CreateDecodeSessionResponse_reads : DecodeHandle video.CreateDecodeSessionResponse.decode video.CreateDecodeSessionResponse.mk :=
  read_all_handle video.CreateDecodeSessionResponse.mk.
#[export] Instance video_DecodeFrameResponse_reads : DecodeInt video.DecodeFrameResponse.decode video.DecodeFrameResponse.mk :=
  read_all_int video.DecodeFrameResponse.mk.
#[export] Instance wgpu_RequestDeviceResponse_reads : DecodeHandle wgpu.RequestDeviceResponse.decode wgpu.RequestDeviceResponse.mk :=
  read_all_handle wgpu.RequestDeviceResponse.mk.
#[export] Instance wgpu_CreateBufferResponse_reads : DecodeHandle wgpu.CreateBufferResponse.decode wgpu.CreateBufferResponse.mk :=
  read_all_handle wgpu.CreateBufferResponse.mk.
#[export] Instance optix_ContextCreateResponse_reads : DecodeHandle optix.ContextCreateResponse.decode optix.ContextCreateResponse.mk :=
  read_all_handle optix.ContextCreateResponse.mk.
#[export] Instance optix_PipelineCreateResponse_reads : DecodeHandle optix.PipelineCreateResponse.decode optix.PipelineCreateResponse.mk :=
  read_all_handle optix.PipelineCreateResponse.mk.
#[export] Instance sycl_QueueCreateResponse_reads : DecodeHandle sycl.QueueCreateResponse.decode sycl.QueueCreateResponse.mk :=
  read_all_handle sycl.QueueCreateResponse.mk.
#[export] Instance sycl_MallocDeviceResponse_reads : DecodeHandle sycl.MallocDeviceResponse.decode sycl.MallocDeviceResponse.mk :=
  read_all_handle sycl.MallocDeviceResponse.mk.
#[export] Instance amf_CreateEncoderResponse_reads : DecodeHandle amf.CreateEncoderResponse.decode amf.CreateEncoderResponse.mk :=
  read_all_handle amf.CreateEncoderResponse.mk.
#[export] Instance amf_EncodeFrameResponse_reads : DecodeInt amf.EncodeFrameResponse.decode amf.EncodeFrameResponse.mk :=
  read_all_int amf.EncodeFrameResponse.mk.

(** The value a call makes of the body of its reply, by the shape the contract
    gives its opcode: handles of another kind are refused, the first of them. *)
Definition read_shape (sh : shape) (b : list byte) : presult client_value :=
  match sh with
  | Ack => Ok VUnit
  | AHandle kind =>
    h ← read_handle b;
    if decide (Handle.kind h = kind) then Ok (VHandle h) else Err (BadKind (Handle.kind h))
  | AHandles kind =>
    hs ← read_handles b;
    match filter (fun h => Handle.kind h <> kind) hs with
    | [] => Ok (VHandles hs)
    | h :: _ => Err (BadKind (Handle.kind h))
    end
  | AInt => n ← read_uint 4 b; Ok (VInt n)
  end.

(** The value a reply of a shape gives. *)
Definition value_ok (sh : shape) (b : list byte) (v : client_value) : Prop :=
  match sh with
  | Ack => v = VUnit
  | AHandle kind => exists h, handle_of kind h /\ b = [] <+ u64_le (Handle.raw h) /\ v = VHandle h
  | AHandles kind => exists hs, Forall (handle_of kind) hs /\
      b = vk.EnumeratePhysicalDevicesResponse.encode
        (vk.EnumeratePhysicalDevicesResponse.mk hs) [] /\ v = VHandles hs
  | AInt => exists n, fits 32 n /\ b = [] <+ u32_le n /\ v = VInt n
  end.

(** A body of the contract's shape is read. *)
Lemma read_handles_encode hs :
  Forall Handle.wf hs -> fits 32 (Z.of_nat (length hs)) ->
  read_handles (vk.EnumeratePhysicalDevicesResponse.encode
    (vk.EnumeratePhysicalDevicesResponse.mk hs) []) = Ok hs.
Proof.
  intros Hwf Hl. pose proof (vk.enumerate_roundtrip
    (vk.EnumeratePhysicalDevicesResponse.mk hs) [] Hwf Hl) as E.
  rewrite app_nil_r, decode_handles in E.
  destruct (read_handles _); cbn in E; [by injection E as ->|done].
Qed.

Lemma read_shape_ok sh b :
  shape_ok sh b -> exists v, read_shape sh b = Ok v /\ value_ok sh b v.
Proof.
  destruct sh as [|kind|kind|]; cbn [shape_ok read_shape value_ok].
  - intros _. by exists VUnit.
  - intros (h & [Hwf Hk] & ->). exists (VHandle h).
    split; [|by exists h]. change ([] <+ u64_le (Handle.raw h)) with (u64_le (Handle.raw h)).
    rewrite <- (app_nil_r (u64_le _)), read_handle_app by done. cbn. by rewrite decide_True.
  - intros (hs & Hhs & Hl & ->). exists (VHandles hs). split; [|by exists hs].
    rewrite read_handles_encode; [cbn|eapply Forall_impl; [exact Hhs|by intros ? [? _]]|unfold fits; lia].
    replace (filter _ hs) with (@nil Handle.t); [done|]. symmetry.
    clear Hl. induction Hhs as [|h hs [_ Hk] Hhs IH]; [done|].
    by rewrite filter_cons, decide_False by (intros Hn; by apply Hn).
  - intros (n & Hn & ->). exists (VInt n). split; [|by exists n].
    change ([] <+ u32_le n) with (le_bytes 4 n). rewrite <- (app_nil_r (le_bytes 4 n)).
    by rewrite read_uint_app.
Qed.

(** ** Facts about every call *)
Lemma call_op_fits c : fits 32 (call_op c).
Proof. destruct c; by vm_compute. Qed.

Lemma call_op_api c : opcode_api (call_op c) = api_byte (call_api c).
Proof. by destruct c. Qed.

Lemma call_op_not_core c : call_op c <> core_op.HELLO /\ call_op c <> core_op.NOOP.
Proof. destruct c; split; by vm_compute. Qed.

Lemma call_in_contract c : is_Some (contract (call_op c)).
Proof. destruct c; vm_compute; by eexists. Qed.

Lemma call_body_short c : (length (call_body c) <= 32)%nat.
Proof.
  destruct c; cbn -[le_bytes]; rewrite ?length_app, ?length_le_bytes; cbn; lia.
Qed.
