(* ===== verification/ClientProps.v ===== *)
(** The client's shims against the contract: what each sends, what it makes of any
    reply, and what it does not check. *)
From S2P Require Import Wire VkBodies ApiBodies Codecs Contract Transport ClientSession.
From S2P Require Import ClientShims ClientCall ClientSpec.

Local Open Scope Z_scope.

(** The frame of a request. *)
Definition client_frame (opcode req_id seq : Z) (body : list byte) : list byte :=
  encode_frame (FrameHeader.mk PROTOCOL_MAJOR 0 FrameKind.Request opcode req_id seq
    (wrap 32 (Z.of_nat (length body)))) body.

(** What the exchange makes of a reply. *)
Definition read_reply (reply_opcode : Z) (reply : list byte) : result ClientError.t (list byte) :=
  match decode_frame reply with
  | Err e => Err (ClientError.Protocol e)
  | Ok (h, b) =>
    if decide (FrameHeader.opcode h <> reply_opcode \/ FrameHeader.kind h <> FrameKind.Response)
    then Err (ClientError.UnexpectedReply (FrameHeader.opcode h) (FrameHeader.kind h))
    else Ok b
  end.

Section exchange.
Context {T : Type} `{Transport T}.

Lemma exchange_cases op rop req_id seq body (t : T) :
  exchange op rop req_id seq body t =
  match send (client_frame op req_id seq body) t with
  | (t, Err e) => (t, Err (ClientError.Transport e))
  | (t, Ok _) =>
    match recv t with
    | (t, Err e) => (t, Err (ClientError.Transport e))
    | (t, Ok reply) => (t, read_reply rop reply)
    end
  end.
Proof.
  unfold exchange, read_reply, client_frame, send_frame, recv_frame.
  unfold mbind, C_bind. destruct (send _ t) as [t1 [[]|e]]; [|done]. cbn.
  destruct (recv t1) as [t2 [reply|e]]; [|done]. cbn.
  destruct (decode_frame reply) as [[h b]|e]; [|done]. cbn. by case_decide.
Qed.

(** What follows the exchange in a shim. *)
Lemma then_ok {A B} (m : C T A) (f : A -> C T B) t t' a :
  m t = (t', Ok a) -> (m ≫= f) t = f a t'.
Proof. unfold mbind, C_bind. by intros ->. Qed.

Lemma then_err {A B} (m : C T A) (f : A -> C T B) t t' e :
  m t = (t', Err e) -> (m ≫= f) t = (t', Err e).
Proof. unfold mbind, C_bind. by intros ->. Qed.

Lemma expect_kind_ok kind h (t : T) : Handle.kind h = kind -> expect_kind kind h t = (t, Ok tt).
Proof. intros E. unfold expect_kind. by rewrite decide_False by (intros Hn; by apply Hn). Qed.

Lemma expect_kind_bad kind h (t : T) :
  Handle.kind h <> kind ->
  expect_kind kind h t = (t, Err (ClientError.Protocol (BadKind (Handle.kind h)))).
Proof. intros E. unfold expect_kind. by rewrite decide_True. Qed.

(** [expect_kinds] stops at the first handle of another kind. *)
Lemma expect_kinds_first kind hs (t : T) :
  expect_kinds kind hs t =
  (t, match filter (fun h => Handle.kind h <> kind) hs with
      | [] => Ok tt
      | h :: _ => Err (ClientError.Protocol (BadKind (Handle.kind h)))
      end).
Proof.
  induction hs as [|h hs IH]; [done|]. cbn [expect_kinds]. rewrite filter_cons.
  destruct (decide (Handle.kind h = kind)) as [Hk|Hk].
  - erewrite then_ok by (by apply expect_kind_ok).
    by rewrite decide_False by (intros Hn; by apply Hn).
  - erewrite then_err by (by apply expect_kind_bad). by rewrite decide_True.
Qed.

Lemma expect_kinds_ok kind hs (t : T) :
  Forall (handle_of kind) hs -> expect_kinds kind hs t = (t, Ok tt).
Proof.
  intros Hhs. revert t. induction Hhs as [|h hs [_ Hk] Hhs IH]; intros t; [done|].
  cbn [expect_kinds]. erewrite then_ok by (by apply expect_kind_ok). apply IH.
Qed.

Lemma ret_bind_ok {A B} (m : C T A) (f : A -> B) t t' a :
  m t = (t', Ok a) -> (x ← m; mret (f x)) t = (t', Ok (f a)).
Proof. intros E. by rewrite (then_ok _ _ _ _ _ E). Qed.

(** A shim that returns a handle, on a reply that holds one. *)
Lemma handle_shim {A} (m : C T (list byte)) (decode : list byte -> presult A) mk
    (proj : A -> Handle.t) kind t t' h `{!DecodeHandle decode mk} :
  (forall h, proj (mk h) = h) ->
  m t = (t', Ok ([] <+ u64_le (Handle.raw h))) -> Handle.wf h ->
  (b ← m; resp ← protocol (decode b); expect_kind kind (proj resp);; mret (proj resp)) t =
  if decide (Handle.kind h = kind) then (t', Ok h)
  else (t', Err (ClientError.Protocol (BadKind (Handle.kind h)))).
Proof.
  intros Hp E Hwf. rewrite (then_ok _ _ _ _ _ E).
  rewrite (then_ok _ _ t' t' (mk h)) by (unfold protocol; by rewrite decode_handle).
  rewrite !Hp. case_decide.
  - by rewrite (then_ok _ _ t' t' tt) by (by apply expect_kind_ok).
  - by rewrite (then_err _ _ t' t' (ClientError.Protocol (BadKind (Handle.kind h))))
      by (by apply expect_kind_bad).
Qed.

(** Every call: an error of the exchange is the call's, and a reply body of the
    contract's shape is its value. *)
Lemma perform_err c req_id seq (t t' : T) e :
  exchange (call_op c) (call_op c) req_id seq (call_body c) t = (t', Err e) ->
  perform c req_id seq t = (t', Err e).
Proof.
  intros E. destruct c; cbn [call_op call_body perform] in *;
    repeat first [exact E | apply then_err].
Qed.

(** What the shims do with the body of a reply, by the type they return. *)
Definition then_value (sh : shape) (r : result ClientError.t (list byte))
  : result ClientError.t client_value :=
  b ← r; result_map_err ClientError.Protocol (read_shape sh b).

Lemma protocol_ok {A B} (r : presult A) (f : A -> C T B) a t :
  r = Ok a -> (protocol r ≫= f) t = f a t.
Proof. by intros ->. Qed.

Lemma protocol_err {A B} (r : presult A) (f : A -> C T B) e t :
  r = Err e -> (protocol r ≫= f) t = (t, Err (ClientError.Protocol e)).
Proof. by intros ->. Qed.

Lemma reads_unit (m : C T (list byte)) t t' r :
  m t = (t', r) -> ret_unit (_b ← m; mret tt) t = (t', then_value Ack r).
Proof. unfold ret_unit, mbind, C_bind. intros ->. by destruct r. Qed.

Lemma reads_handle {A} (m : C T (list byte)) (decode : list byte -> presult A) mk
    (proj : A -> Handle.t) kind t t' r `{!DecodeHandle decode mk} :
  (forall h, proj (mk h) = h) -> m t = (t', r) ->
  ret_handle (b ← m; resp ← protocol (decode b); expect_kind kind (proj resp);; mret (proj resp)) t =
  (t', then_value (AHandle kind) r).
Proof.
  intros Hp E. unfold ret_handle, then_value. destruct r as [b|e]; cbn [mbind result_bind].
  2:{ by apply then_err, then_err. }
  destruct (read_handle b) as [h|e] eqn:Eb; cbn [read_shape]; rewrite Eb; cbn [mbind result_bind];
    pose proof (decode_reads_handle b) as Ed; rewrite Eb in Ed; cbn [mbind result_bind] in Ed.
  2:{ apply then_err. by rewrite (then_ok _ _ _ _ _ E), (protocol_err _ _ _ _ Ed). }
  case_decide as Hk.
  - apply ret_bind_ok. rewrite (then_ok _ _ _ _ _ E), (protocol_ok _ _ _ _ Ed), Hp.
    by rewrite (then_ok _ _ t' t' tt) by (by apply expect_kind_ok).
  - apply then_err. rewrite (then_ok _ _ _ _ _ E), (protocol_ok _ _ _ _ Ed), Hp.
    by apply then_err, expect_kind_bad.
Qed.

Lemma reads_handles (m : C T (list byte)) kind t t' r :
  m t = (t', r) ->
  ret_handles (b ← m; resp ← protocol (vk.EnumeratePhysicalDevicesResponse.decode b);
    expect_kinds kind (vk.EnumeratePhysicalDevicesResponse.devices resp);;
    mret (vk.EnumeratePhysicalDevicesResponse.devices resp)) t =
  (t', then_value (AHandles kind) r).
Proof.
  intros E. unfold ret_handles, then_value. destruct r as [b|e]; cbn [mbind result_bind].
  2:{ by apply then_err, then_err. }
  pose proof (decode_handles b) as Ed. cbn [read_shape].
  destruct (read_handles b) as [hs|e]; cbn [mbind result_bind] in *.
  2:{ apply then_err. by rewrite (then_ok _ _ _ _ _ E), (protocol_err _ _ _ _ Ed). }
  pose proof (expect_kinds_first kind hs t') as Ek. destruct (filter _ hs) as [|h ?].
  - apply ret_bind_ok. rewrite (then_ok _ _ _ _ _ E), (protocol_ok _ _ _ _ Ed).
    by rewrite (then_ok _ _ _ _ _ Ek).
  - apply then_err. rewrite (then_ok _ _ _ _ _ E), (protocol_ok _ _ _ _ Ed).
    by apply then_err.
Qed.

Lemma reads_int {A} (m : C T (list byte)) (decode : list byte -> presult A) mk
    (proj : A -> Z) t t' r `{!DecodeInt decode mk} :
  (forall n, proj (mk n) = n) -> m t = (t', r) ->
  ret_int (b ← m; resp ← protocol (decode b); mret (proj resp)) t = (t', then_value AInt r).
Proof.
  intros Hp E. unfold ret_int, then_value. destruct r as [b|e]; cbn [mbind result_bind].
  2:{ by apply then_err, then_err. }
  pose proof (decode_reads_int b) as Ed. cbn [read_shape].
  destruct (read_uint 4 b) as [n|e]; cbn [mbind result_bind] in *.
  2:{ apply then_err. by rewrite (then_ok _ _ _ _ _ E), (protocol_err _ _ _ _ Ed). }
  apply ret_bind_ok. rewrite (then_ok _ _ _ _ _ E), (protocol_ok _ _ _ _ Ed). by rewrite Hp.
Qed.

(** Every call: its value is what the contract's shape reads in the reply. *)
Lemma perform_reads c sh req_id seq (t t' : T) r :
  contract (call_op c) = Some sh ->
  exchange (call_op c) (call_op c) req_id seq (call_body c) t = (t', r) ->
  perform c req_id seq t = (t', then_value sh r).
Proof.
  intros Hc E. destruct c; vm_compute in Hc; injection Hc as <-;
    cbn [call_op call_body perform] in *;
    first
    [ exact (reads_unit _ _ _ _ E)
    | eapply reads_handle; [typeclasses eauto|done|exact E]
    | exact (reads_handles _ _ _ _ _ E)
    | eapply reads_int; [typeclasses eauto|done|exact E] ].
Qed.

Lemma perform_shape c sh req_id seq (t t' : T) b :
  contract (call_op c) = Some sh -> shape_ok sh b ->
  exchange (call_op c) (call_op c) req_id seq (call_body c) t = (t', Ok b) ->
  exists v, perform c req_id seq t = (t', Ok v) /\ value_ok sh b v.
Proof.
  intros Hc Hb E. destruct (read_shape_ok _ _ Hb) as (v & Ev & Hv). exists v.
  split; [|done]. rewrite (perform_reads _ _ _ _ _ _ _ Hc E).
  unfold then_value. cbn [mbind result_bind]. by rewrite Ev.
Qed.
End exchange.

(** A call depends on its transport through the exchange only. *)
Lemma then_cong {T A B} (m : C T A) (f : A -> C T B) t1 t2 :
  m t1 = m t2 -> (m ≫= f) t1 = (m ≫= f) t2.
Proof. unfold mbind, C_bind. by intros ->. Qed.

Lemma perform_cong {T} `{Transport T} c req_id seq (t1 t2 : T) :
  exchange (call_op c) (call_op c) req_id seq (call_body c) t1 =
    exchange (call_op c) (call_op c) req_id seq (call_body c) t2 ->
  perform c req_id seq t1 = perform c req_id seq t2.
Proof.
  intros E. destruct c; cbn [call_op call_body perform] in *;
    repeat first [exact E | apply then_cong].
Qed.

(** What a call does to its transport is what the exchange does. *)
Lemma then_state {T A B} (m : C T A) (f : A -> C T B) t :
  (forall a t, (f a t).1 = t) -> ((m ≫= f) t).1 = (m t).1.
Proof.
  intros Hf. unfold mbind, C_bind. destruct (m t) as [t' [a|e]]; [apply Hf|done].
Qed.

Lemma expect_kinds_state {T} kind hs (t : T) : (expect_kinds kind hs t).1 = t.
Proof.
  revert t. induction hs as [|h hs IH]; intros t; [done|]. cbn [expect_kinds].
  unfold mbind, C_bind, expect_kind. by case_decide; [|apply IH].
Qed.

Lemma perform_state {T} `{Transport T} c req_id seq (t : T) :
  (perform c req_id seq t).1 =
  (exchange (call_op c) (call_op c) req_id seq (call_body c) t).1.
Proof.
  destruct c; cbn [call_op call_body perform];
    repeat first
    [ reflexivity
    | etransitivity; [apply then_state; intros ??|]
    | apply expect_kinds_state
    | match goal with
      | |- (protocol _ _).1 = _ => reflexivity
      | |- (expect_kind _ _ _).1 = _ => unfold expect_kind; by case_decide
      end ].
Qed.

(** ** Properties *)
Section vec.
Import VecTransport.

Lemma exchange_vec op rop req_id seq body outbox reply inbox :
  exchange op rop req_id seq body (mk outbox (reply :: inbox)) =
  (mk (outbox ++ [client_frame op req_id seq body]) inbox, read_reply rop reply).
Proof. by rewrite exchange_cases. Qed.

Lemma exchange_vec_state op rop req_id seq body outbox inbox :
  exists inbox', (exchange op rop req_id seq body (mk outbox inbox)).1 =
    mk (outbox ++ [client_frame op req_id seq body]) inbox'.
Proof.
  destruct inbox as [|reply inbox]; rewrite exchange_cases; [by exists []|by exists inbox].
Qed.

(** C23: what every shim makes of a reply. Every one of the client's 47 API calls
    sends one frame, with its opcode and ids, and reads one reply, whatever bytes
    that reply is: bytes that are no frame give their protocol error; a frame of
    another opcode or kind is an [UnexpectedReply]; and the body of any other frame
    is read by the shape the contract gives the opcode. An acknowledged call ignores
    it; a handle is its first 8 bytes, a number its first 4, a list of handles a
    count of 4 bytes and 8 bytes for each; a body too short is [UnexpectedEof]; and
    a handle of another kind than the contract's, the first such one in a list, is
    refused with [BadKind]. A body of the contract's shape is accepted, and its
    handle, handles or number returned. *)
Theorem shim_replies c req_id seq outbox reply inbox :
  exists sh, contract (call_op c) = Some sh /\
    perform c req_id seq (mk outbox (reply :: inbox)) =
      (mk (outbox ++ [client_frame (call_op c) req_id seq (call_body c)]) inbox,
       match decode_frame reply with
       | Err e => Err (ClientError.Protocol e)
       | Ok (h, b) =>
         if decide (FrameHeader.opcode h = call_op c /\ FrameHeader.kind h = FrameKind.Response)
         then result_map_err ClientError.Protocol (read_shape sh b)
         else Err (ClientError.UnexpectedReply (FrameHeader.opcode h) (FrameHeader.kind h))
       end) /\
    (forall b, shape_ok sh b -> exists v, read_shape sh b = Ok v /\ value_ok sh b v).
Proof.
  destruct (call_in_contract c) as [sh Hc]. exists sh. split; [done|].
  split; [|by apply read_shape_ok].
  rewrite (perform_reads c sh _ _ _ _ _ Hc (exchange_vec _ _ _ _ _ _ _ _)). f_equal.
  unfold then_value, read_reply. destruct (decode_frame reply) as [[h b]|e]; [|done].
  destruct (decide (FrameHeader.opcode h = call_op c)), (decide (FrameHeader.kind h = FrameKind.Response));
    by repeat case_decide; try naive_solver.
Qed.

Lemma shim_replies_witness :
  let reply op body := encode_frame (FrameHeader.mk 1 0 FrameKind.Response op 5 9 8) body in
  let handle k := u64_le (Handle.raw (Handle.new k 3 4)) in
  let gen body := (perform (Gl_gen_buffer (Handle.mk 0)) 5 5
    (mk [] [reply gl_op.GEN_BUFFER body])).2 in
  let devices body := (perform (Vk_enumerate_physical_devices (Handle.mk 0)) 5 5
    (mk [] [reply vk_op.ENUMERATE_PHYSICAL_DEVICES body])).2 in
  gen (handle 11) = Ok (VHandle (Handle.new 11 3 4)) /\
  gen (handle 10) = Err (ClientError.Protocol (BadKind 10)) /\
  gen [] = Err (ClientError.Protocol UnexpectedEof) /\
  devices (u32_le 2 ++ handle 2 ++ handle 2) =
    Ok (VHandles [Handle.new 2 3 4; Handle.new 2 3 4]) /\
  devices (u32_le 2 ++ handle 2 ++ handle 1) = Err (ClientError.Protocol (BadKind 1)).
Proof.
  intros reply handle gen devices. unfold gen, devices.
  split_and!;
    [ destruct (shim_replies (Gl_gen_buffer (Handle.mk 0)) 5 5 []
        (reply gl_op.GEN_BUFFER (handle 11)) []) as (sh & Hc & -> & _)
    | destruct (shim_replies (Gl_gen_buffer (Handle.mk 0)) 5 5 []
        (reply gl_op.GEN_BUFFER (handle 10)) []) as (sh & Hc & -> & _)
    | destruct (shim_replies (Gl_gen_buffer (Handle.mk 0)) 5 5 []
        (reply gl_op.GEN_BUFFER []) []) as (sh & Hc & -> & _)
    | destruct (shim_replies (Vk_enumerate_physical_devices (Handle.mk 0)) 5 5 []
        (reply vk_op.ENUMERATE_PHYSICAL_DEVICES (u32_le 2 ++ handle 2 ++ handle 2)) [])
        as (sh & Hc & -> & _)
    | destruct (shim_replies (Vk_enumerate_physical_devices (Handle.mk 0)) 5 5 []
        (reply vk_op.ENUMERATE_PHYSICAL_DEVICES (u32_le 2 ++ handle 2 ++ handle 1)) [])
        as (sh & Hc & -> & _) ];
    vm_compute in Hc; injection Hc as <-; by vm_compute.
Defined.

(** The client does not correlate. A shim looks at the opcode, the kind and the
    body of the reply only: two replies that differ in their request id, sequence
    number, version, flags or declared body length are accepted or refused alike,
    and give the same value. *)
Theorem client_ignores_correlation c req_id seq outbox inbox h1 h2 body :
  FrameHeader.wf h1 -> FrameHeader.wf h2 ->
  FrameHeader.opcode h1 = FrameHeader.opcode h2 -> FrameHeader.kind h1 = FrameHeader.kind h2 ->
  perform c req_id seq (mk outbox (encode_frame h1 body :: inbox)) =
  perform c req_id seq (mk outbox (encode_frame h2 body :: inbox)).
Proof.
  intros H1 H2 Ho Hk. apply perform_cong. rewrite !exchange_vec. unfold read_reply.
  by rewrite !frame_roundtrip, Ho, Hk.
Qed.

Lemma client_ignores_correlation_witness :
  let reply req_id := encode_frame
    (FrameHeader.mk 1 0 FrameKind.Response gl_op.MAKE_CURRENT req_id 9 0) [] in
  perform (Gl_make_current (Handle.mk 0)) 5 5 (mk [] [reply 5]) =
  perform (Gl_make_current (Handle.mk 0)) 5 5 (mk [] [reply 77]).
Proof.
  apply (client_ignores_correlation (Gl_make_current (Handle.mk 0)) 5 5 [] []
    (FrameHeader.mk 1 0 FrameKind.Response gl_op.MAKE_CURRENT 5 9 0)
    (FrameHeader.mk 1 0 FrameKind.Response gl_op.MAKE_CURRENT 77 9 0) []);
    by vm_compute.
Defined.

(** ** The front door *)
Fixpoint run_calls (cs : list client_call) (cl : Client.t VecTransport.t)
  : Client.t VecTransport.t * list (result ClientError.t client_value) :=
  match cs with
  | [] => (cl, [])
  | c :: cs =>
    let '(cl, r) := Client.delegate (perform c) cl in
    let '(cl, rs) := run_calls cs cl in
    (cl, r :: rs)
  end.

(** The requests of [cs], the first with the ids [i]. *)
Fixpoint requests_from (i : Z) (cs : list client_call) : list (list byte) :=
  match cs with
  | [] => []
  | c :: cs =>
    client_frame (call_op c) (Z.min i (max_of 32)) (Z.min i (max_of 64)) (call_body c)
      :: requests_from (i + 1) cs
  end.

Lemma run_calls_outbox cs i cl :
  0 <= i -> Client.next_req_id cl = Z.min i (max_of 32) ->
  Client.next_seq cl = Z.min i (max_of 64) ->
  outbox (Client.transport (run_calls cs cl).1) =
    outbox (Client.transport cl) ++ requests_from i cs /\
  Client.session_id (run_calls cs cl).1 = Client.session_id cl.
Proof.
  revert i cl. induction cs as [|c cs IH]; intros i cl Hi Hr Hs; cbn [run_calls requests_from].
  { by rewrite app_nil_r. }
  destruct cl as [t q s sid]; cbn in Hr, Hs. subst q s.
  unfold Client.delegate, Client.next_ids. cbn [Client.next_req_id Client.next_seq
    Client.transport Client.session_id].
  pose proof (perform_state c (Z.min i (max_of 32)) (Z.min i (max_of 64)) t) as Hst.
  destruct t as [o inb]. destruct (exchange_vec_state (call_op c) (call_op c)
    (Z.min i (max_of 32)) (Z.min i (max_of 64)) (call_body c) o inb) as [inb' Ex].
  rewrite Ex in Hst. destruct (perform _ _ _ _) as [t' r]. cbn in Hst. subst t'.
  match goal with |- context [run_calls cs ?cl'] =>
    destruct (IH (i + 1) cl') as [E1 E2]; [lia|cbn; unfold saturating_add, max_of; lia..|] end.
  destruct (run_calls cs _) as [cl' rs]. cbn [fst Client.transport Client.session_id outbox] in *.
  by rewrite E1, <- app_assoc.
Qed.

(** The client numbers its requests. However its calls turn out, a client just
    connected sends one request per call, in order, the i-th with request id and
    sequence number 2 + i, each pinned at the maximum of its width rather than
    wrapped; and keeps its session id. *)
Theorem client_numbers_requests cs outbox inbox sid :
  let cl := Client.mk (mk outbox inbox) 2 2 sid in
  VecTransport.outbox (Client.transport (run_calls cs cl).1) =
    outbox ++ requests_from 2 cs /\
  Client.session_id (run_calls cs cl).1 = sid.
Proof. intros cl. by apply (run_calls_outbox cs 2 cl). Qed.
End vec.
