(* ===== verification/EndToEnd.v ===== *)
(** The client and the server together. [Link] is the transport of a client whose
    peer runs the serve loop: a frame sent is one iteration of the loop, whose reply
    is queued for the client; the loop ends at the first frame the session refuses,
    and the link then behaves as a loopback whose peer was dropped. *)
From S2P Require Import Wire VkBodies Codecs Contract Handles HandleSpec Effects.
From S2P Require Import Backend VulkanBackend VulkanSafety VulkanProps Session Server SessionProps.
From S2P Require Import Transport TransportProps Trace TraceProps Obs ObsProps Serve.
From S2P Require Import ServeProps ClientSession ClientShims ClientCall ClientSpec ClientProps.

Local Open Scope Z_scope.

Module Link.
Record t := mk { server : Session.t; replies : list (list byte); serving : bool }.

Definition send (frame : list byte) (self : t) : t * io_result unit :=
  if serving self then
    match Session.handle frame (server self) with
    | Ret (server, Ok reply) => (mk server (push (replies self) reply) true, Ok tt)
    | Ret (server, Err _) => (mk server (replies self) false, Ok tt)
    | Panic => (mk (server self) (replies self) false, Ok tt)
    end
  else (self, Err io.BrokenPipe).

Definition recv (self : t) : t * io_result (list byte) :=
  match replies self with
  | reply :: replies => (mk (server self) replies (serving self), Ok reply)
  | [] => (self, Err io.UnexpectedEof)
  end.

#[global] Instance transport : Transport t :=
  {| Transport.send := send; Transport.recv := recv |}.
End Link.

Import Link.

(** The frames sent over a link that the session answers are answered as the serve
    loop answers them. *)
Lemma link_answers s frames rs s' q :
  answers s frames rs s' ->
  sends_all frames (mk s q true) (mk s' (q ++ rs) true).
Proof.
  intros Ha. revert q. induction Ha as [s|s s1 s2 frame reply frames rs E Ha IH]; intros q.
  { unfold sends_all. cbn. by rewrite app_nil_r. }
  apply sends_all_cons with (mk s1 (push q reply) true).
  - cbn. unfold Link.send. cbn. by rewrite E.
  - specialize (IH (push q reply)). unfold push in *. by rewrite <- app_assoc in IH.
Qed.

(** An exchange over a link whose session answers. *)
Lemma exchange_answered op rop q sq body s s' rbody :
  Session.handle (client_frame op q sq body) s =
    Ret (s', Ok (encode_frame (reply_header rop q (Session.next_seq s) rbody) rbody)) ->
  fits 32 rop -> fits 32 q -> fits 64 (Session.next_seq s) -> (length rbody <= MAX_BODY)%nat ->
  exchange op rop q sq body (mk s [] true) = (mk s' [] true, Ok rbody).
Proof.
  intros E Ho Hq Hs Hl. rewrite exchange_cases. cbn [Transport.send transport].
  unfold Link.send. cbn [serving server replies]. rewrite E.
  cbn [Transport.recv transport Link.recv replies server serving].
  unfold push, Link.recv. cbn [app replies server serving]. unfold read_reply.
  rewrite reply_decodes by done. cbn. rewrite decide_False; [done|]. by intros [?|?].
Qed.

(** One exchange over a link. *)
Lemma exchange_link n op req_id seq body s :
  Session.ready (S n) s -> fits 32 op -> fits 32 req_id -> fits 64 seq ->
  Z.of_nat (length body) <= Session.max_frame_body s ->
  let rop := if decide (op = core_op.HELLO) then core_op.WELCOME else op in
  (exists s' rbody, exchange op rop req_id seq body (mk s [] true) = (mk s' [] true, Ok rbody) /\
     Session.ready n s' /\ conforms op rbody /\
     (op <> core_op.HELLO -> Session.max_frame_body s' = Session.max_frame_body s) /\
     (forall k, k <> opcode_api op ->
        Session.backends s' !! k = Session.backends s !! k) /\
     Session.handle (client_frame op req_id seq body) s =
       Ret (s', Ok (encode_frame (reply_header rop req_id (Session.next_seq s) rbody) rbody))) \/
  (exists e, exchange op rop req_id seq body (mk s [] true) =
     (mk s [] false, Err (ClientError.Transport io.UnexpectedEof)) /\
   Session.handle (client_frame op req_id seq body) s = Ret (s, Err e)).
Proof.
  intros Hs Ho Hq Hseq Hl rop. pose proof Hs as [_ Hmax [Hn1 Hn2] _].
  destruct (session_handle_answered n (request_frame op req_id seq body) s Hs)
    as (s' & r & E & Hr & Hm).
  change (request_frame op req_id seq body) with (client_frame op req_id seq body) in E.
  destruct r as [out|e].
  - left. destruct Hm as (h & b & rbody & Ed & _ & _ & [-> Hshort _ _ Hiso _ Hconf Hm]).
    rewrite request_decodes in Ed by done. injection Ed as <- <-.
    unfold reply_opcode in *. cbn [FrameHeader.opcode FrameHeader.req_id] in *.
    fold rop in E |- *. exists s', rbody. split; [|done].
    apply (exchange_answered _ _ _ _ _ _ _ _ E); [|done| |done].
    + unfold rop. case_decide; [by vm_compute|done].
    + unfold fits, max_of in *. lia.
  - right. subst s'. exists e. split; [|exact E].
    rewrite exchange_cases. cbn [Transport.send transport]. unfold Link.send.
    cbn [serving server replies]. by rewrite E.
Qed.

(** ** A single call *)
Definition closed_error : result ClientError.t client_value :=
  Err (ClientError.Transport io.UnexpectedEof).

(** A value that the contract allows for a call. *)
Definition value_for (c : client_call) (v : client_value) : Prop :=
  exists sh b, contract (call_op c) = Some sh /\ value_ok sh b v.

Lemma perform_link n c req_id seq s :
  Session.ready (S n) s -> fits 32 req_id -> fits 64 seq -> 32 <= Session.max_frame_body s ->
  (exists s' v, perform c req_id seq (mk s [] true) = (mk s' [] true, Ok v) /\
     Session.ready n s' /\ value_for c v /\
     Session.max_frame_body s' = Session.max_frame_body s /\
     forall k, k <> api_byte (call_api c) ->
       Session.backends s' !! k = Session.backends s !! k) \/
  perform c req_id seq (mk s [] true) = (mk s [] false, closed_error).
Proof.
  intros Hs Hq Hseq Hmax. pose proof (call_body_short c) as Hl.
  destruct (call_op_not_core c) as [Hh Hn].
  destruct (exchange_link n (call_op c) req_id seq (call_body c) s)
    as [(s' & b & E & Hr & Hconf & Hm & Hiso & _)|(e & E & _)]; [done|apply call_op_fits|done..|lia| |];
    rewrite decide_False in E by done.
  - left. destruct (call_in_contract c) as [sh Hsh]. unfold conforms in Hconf.
    rewrite Hsh in Hconf. destruct (perform_shape c sh _ _ _ _ _ Hsh Hconf E) as (v & Ev & Hv).
    exists s', v. split; [done|]. split; [done|]. split; [by exists sh, b|].
    rewrite <- call_op_api. split; [by apply Hm|done].
  - right. by apply perform_err.
Qed.

(** ** A run of calls, over any transport *)
Fixpoint run_link {T} `{Transport T} (cs : list client_call) (cl : Client.t T)
  : Client.t T * list (result ClientError.t client_value) :=
  match cs with
  | [] => (cl, [])
  | c :: cs =>
    let '(cl, r) := Client.delegate (perform c) cl in
    let '(cl, rs) := run_link cs cl in
    (cl, r :: rs)
  end.

Definition broken : result ClientError.t client_value :=
  Err (ClientError.Transport io.BrokenPipe).

(** Over a link whose server has stopped every call fails at its send. *)
Lemma run_link_closed cs q sq sid srv :
  exists q' sq', run_link cs (Client.mk (mk srv [] false) q sq sid) =
    (Client.mk (mk srv [] false) q' sq' sid, replicate (length cs) broken).
Proof.
  revert q sq. induction cs as [|c cs IH]; intros q sq; [by eexists _, _|].
  cbn [run_link length replicate]. unfold Client.delegate, Client.next_ids.
  cbn [Client.transport Client.next_req_id Client.next_seq Client.session_id].
  rewrite (perform_err c q sq (mk srv [] false) (mk srv [] false)
    (ClientError.Transport io.BrokenPipe)) by (by rewrite exchange_cases).
  destruct (IH (saturating_add 32 q 1) (saturating_add 64 sq 1)) as (q' & sq' & ->).
  by eexists _, _.
Qed.

(** What the calls of a run return: values of the contract up to the first call the
    server refuses, which sees the server gone; after it the link is broken. *)
Definition agreed (cs : list client_call) (rs : list (result ClientError.t client_value)) : Prop :=
  exists cs1 cs2 vs, cs = cs1 ++ cs2 /\ Forall2 value_for cs1 vs /\
    (cs2 = [] /\ rs = map Ok vs \/
     exists c cs3, cs2 = c :: cs3 /\
       rs = map Ok vs ++ closed_error :: replicate (length cs3) broken).

(** The client and the server agree. Any calls of a client, with any arguments,
    over a server ready for that many requests: each call up to the first one the
    server refuses returns a value of the contract's shape for it (never an
    unexpected reply, a protocol error or a handle of a wrong kind); the refused
    call sees the peer gone, and the ones after it a broken pipe. The session
    stays well formed throughout. *)
Theorem client_server_agree cs n q sq sid s :
  Session.ready (length cs + n) s -> 32 <= Session.max_frame_body s ->
  fits 32 q -> fits 64 sq ->
  exists cl rs, run_link cs (Client.mk (mk s [] true) q sq sid) = (cl, rs) /\
    agreed cs rs /\ Session.ready n (server (Client.transport cl)) /\
    Client.session_id cl = sid.
Proof.
  revert q sq s. induction cs as [|c cs IH]; intros q sq s Hs Hmax Hq Hsq.
  { do 2 eexists. split; [reflexivity|]. split; [|done]. exists [], [], []. split; [done|].
    split; [constructor|]. by left. }
  cbn [length plus] in Hs. cbn [run_link]. unfold Client.delegate, Client.next_ids.
  cbn [Client.transport Client.next_req_id Client.next_seq Client.session_id].
  destruct (perform_link _ c q sq s Hs Hq Hsq Hmax)
    as [(s' & v & -> & Hs' & Hv & Hm & _)| ->].
  - destruct (IH (saturating_add 32 q 1) (saturating_add 64 sq 1) s')
      as (cl & rs & -> & (cs1 & cs2 & vs & -> & Hvs & Hend) & Hr & Hid);
      [done|by rewrite Hm|unfold fits, saturating_add, max_of in *; lia..|].
    do 2 eexists. split; [reflexivity|]. split; [|done].
    exists (c :: cs1), cs2, (v :: vs). split; [done|]. split; [by constructor|].
    destruct Hend as [[-> ->]|(c' & cs3 & -> & ->)]; [by left|right; by exists c', cs3].
  - destruct (run_link_closed cs (saturating_add 32 q 1) (saturating_add 64 sq 1) sid s)
      as (q' & sq' & ->).
    do 2 eexists. split; [reflexivity|]. split; [|split; [|done]].
    + exists [], (c :: cs), []. split; [done|]. split; [constructor|]. right. by exists c, cs.
    + cbn. clear -Hs. revert Hs. generalize (length cs). intros k.
      induction k as [|k IHk]; intros Hs; [by apply ready_mono|].
      apply IHk. by apply ready_mono.
Qed.

Lemma client_server_agree_witness :
  exists cl rs, run_link [Gl_create_context; Vk_create_instance 3; Cuda_mem_free (Handle.mk 0)]
      (Client.mk (mk (Server.make_session 4) [] true) 2 2 4) = (cl, rs) /\
    agreed [Gl_create_context; Vk_create_instance 3; Cuda_mem_free (Handle.mk 0)] rs /\
    Session.ready 7 (server (Client.transport cl)) /\ Client.session_id cl = 4.
Proof.
  apply (client_server_agree
    [Gl_create_context; Vk_create_instance 3; Cuda_mem_free (Handle.mk 0)] 7 2 2 4
    (Server.make_session 4)); [apply make_session_ready|..]; by vm_compute.
Defined.

(** ** Connecting *)

(** The ids a client starts from after the handshake, and those of the handshake. *)
Lemma first_ids_fit : fits 32 2 /\ fits 64 2.
Proof. by vm_compute. Qed.

Lemma hello_ids_fit : fits 32 core_op.HELLO /\ fits 32 core_op.WELCOME /\ fits 32 1 /\ fits 64 1.
Proof. by vm_compute. Qed.

(** The session's answer to the client's HELLO. *)
Definition client_hello : Hello.t :=
  Hello.mk PROTOCOL_MAJOR PROTOCOL_MINOR 0 DEFAULT_MAX_FRAME_BODY.

Lemma client_hello_fits : body_fits client_hello.
Proof. repeat split; by vm_compute. Qed.

Lemma client_hello_answered n s :
  Session.ready (S n) s -> 12 <= Session.max_frame_body s ->
  let body := Welcome.encode (welcome_of client_hello s) [] in
  Session.handle (client_frame core_op.HELLO 1 1 (Hello.encode client_hello [])) s =
    Ret (advanced (negotiated client_hello s), Ok (encode_frame (reply_header core_op.WELCOME 1
      (Session.next_seq s) body) body)) /\
  Session.ready n (advanced (negotiated client_hello s)).
Proof.
  intros Hs Hmin. pose proof Hs as [Hid Hmax [Hs1 Hs2] Hb]. split.
  - apply (handle_hello client_hello 1 1 s client_hello_fits); [lia|lia|by vm_compute|by vm_compute].
  - apply ready_advanced. constructor; cbn; [done|by vm_compute|done|done].
Qed.

(** A client connects. Over a server session ready for a frame, [connect]
    succeeds: the client gets the server's session id and starts its ids at 2; the
    server's session has shaken hands, keeps its backends, and bounds bodies by
    the default, which is what the client asked for. *)
Theorem connect_handshakes n s :
  Session.ready (S n) s -> 12 <= Session.max_frame_body s ->
  exists s', Client.connect (mk s [] true) =
      Ok (Client.mk (mk s' [] true) 2 2 (Session.session_id s)) /\
    Session.is_handshook s' = true /\ Session.max_frame_body s' = DEFAULT_MAX_FRAME_BODY /\
    Session.backends s' = Session.backends s /\ Session.ready n s'.
Proof.
  intros Hs Hmin. pose proof Hs as [Hid Hmax [Hs1 Hs2] _].
  destruct (client_hello_answered n s Hs Hmin) as [E Hr].
  exists (advanced (negotiated client_hello s)).
  assert (handshake (mk s [] true) = (mk (advanced (negotiated client_hello s)) [] true,
    Ok (welcome_of client_hello s))) as Eh.
  { unfold handshake. fold client_hello. etransitivity; [apply then_ok|].
    - apply (exchange_answered _ _ _ _ _ _ _ _ E); [by vm_compute|by vm_compute| |].
      + unfold fits, max_of in *. lia.
      + cbn. unfold MAX_BODY. lia.
    - unfold protocol. by rewrite (welcome_decodes _ _ client_hello_fits Hid). }
  split; [|done]. unfold Client.connect. by rewrite Eh.
Qed.

Lemma connect_handshakes_witness :
  exists s', Client.connect (mk (Server.make_session 6) [] true) =
    Ok (Client.mk (mk s' [] true) 2 2 6) /\ Session.is_handshook s' = true.
Proof.
  destruct (connect_handshakes 3 (Server.make_session 6)) as (s' & E & H & _);
    [apply make_session_ready; by vm_compute|by vm_compute|].
  exists s'. split; [exact E|exact H].
Defined.

(** ** An object, end to end *)
Lemma create_instance_returns n opcode rid version vb :
  vk_ready (S n) vb -> fits 32 version ->
  opcode = vk_op.CREATE_INSTANCE ->
  exists vb' h, VulkanBackend.handle opcode rid
      (vk.CreateInstanceRequest.encode (vk.CreateInstanceRequest.mk version) []) vb =
      Ret (vb', Ok ([] <+ u64_le (Handle.raw h))) /\
    handle_of KIND_INSTANCE h /\ ~ was_issued h (VulkanBackend.instances vb) /\
    HandleTable.get h (VulkanBackend.instances vb') = Some (InstanceState.mk true).
Proof.
  intros [[Hinst] _] Hv ->. unfold VulkanBackend.handle.
  rewrite decide_False by (by intros Hn; apply Hn). rewrite decide_True by done.
  unfold VulkanBackend.create_instance. erewrite attempt_bind.
  2:{ apply (fixed_encode_decode vk.vk_CreateInstanceRequest_fixed
        (vk.CreateInstanceRequest.mk version)). exact Hv. }
  destruct Hinst as [Hwf Hr].
  destruct (HandleTable.insert_spec KIND_INSTANCE (InstanceState.mk true)
    (VulkanBackend.instances vb) Hwf ltac:(by vm_compute) (room_has_room _ _ Hr))
    as (t & h & E & Hins).
  exists (set VulkanBackend.Field.instances t vb), h.
  unfold mbind, M_bind, Table.insert. cbn [view VulkanBackend.Field.instances]. rewrite E.
  split; [reflexivity|]. split; [apply Hins|]. split; [by destruct Hins|].
  destruct vb. by apply (get_inserted_new _ _ _ _ _ Hins).
Qed.

(** The server's half: a frame whose opcode is Vulkan's, answered by the session with
    what the backend returned. *)
Definition with_vulkan (vb : VulkanBackend.t) (s : Session.t) : Session.t :=
  Session.mk (Session.session_id s) (Session.max_frame_body s) (Session.handshook s)
    (Session.next_seq s) (<[api_byte Vulkan := box vb]> (Session.backends s)).

Lemma vulkan_answered n op q sq body s vb vb' out :
  Session.ready (S n) s -> Session.backends s !! api_byte Vulkan = Some (box vb) ->
  opcode_api op = api_byte Vulkan -> op <> core_op.HELLO -> op <> core_op.NOOP ->
  fits 32 op -> fits 32 q -> fits 64 sq -> Z.of_nat (length body) <= Session.max_frame_body s ->
  VulkanBackend.handle op q body vb = Ret (vb', Ok out) -> (length out <= MAX_BODY)%nat ->
  Session.handle (client_frame op q sq body) s =
    Ret (advanced (with_vulkan vb' s),
      Ok (encode_frame (reply_header op q (Session.next_seq s) out) out)).
Proof.
  intros Hs Hb Hapi Hh Hn Ho Hq Hsq Hl E Hout. pose proof Hs as [_ Hmx [Hs1 Hs2] _].
  change (client_frame op q sq body) with (request_frame op q sq body).
  rewrite handle_request; [|done|done|done|lia|lia].
  unfold Session.dispatch. cbn [FrameHeader.opcode]. rewrite !decide_False by done.
  unfold Session.route. cbn [FrameHeader.opcode FrameHeader.req_id]. rewrite Hapi, Hb.
  assert (Session.call_backend (api_byte Vulkan) (box vb) op q body s =
    Ret (with_vulkan vb' s, Ok out)) as Ec.
  { unfold Session.call_backend, boxed_handle, box. cbn [boxed_ops boxed_state handle
      VulkanBackend.backend]. rewrite E. reflexivity. }
  unfold mbind, M_bind. rewrite Ec.
  destruct (wp_reply op q out (with_vulkan vb' s) (fun s' r => s' = advanced (with_vulkan vb' s) /\
      r = Ok (encode_frame (reply_header op q (Session.next_seq s) out) out)))
    as (s' & r & Er & -> & ->); [cbn; lia|done|done|exact Er].
Qed.

Lemma create_instance_answered_by n version q sq s vb :
  Session.ready (S n) s -> 4 <= Session.max_frame_body s ->
  Session.backends s !! api_byte Vulkan = Some (box vb) -> vk_ready (S n) vb ->
  fits 32 version -> fits 32 q -> fits 64 sq ->
  exists vb' h,
    Session.handle (client_frame vk_op.CREATE_INSTANCE q sq
        (vk.CreateInstanceRequest.encode (vk.CreateInstanceRequest.mk version) [])) s =
      Ret (advanced (with_vulkan vb' s),
        Ok (encode_frame (reply_header vk_op.CREATE_INSTANCE q (Session.next_seq s)
          ([] <+ u64_le (Handle.raw h))) ([] <+ u64_le (Handle.raw h)))) /\
    vk_ready n vb' /\
    handle_of KIND_INSTANCE h /\ ~ was_issued h (VulkanBackend.instances vb) /\
    HandleTable.get h (VulkanBackend.instances vb') = Some (InstanceState.mk true).
Proof.
  intros Hs Hmax Hb Hvb Hv Hq Hsq.
  destruct (create_instance_returns n vk_op.CREATE_INSTANCE q version vb Hvb Hv eq_refl)
    as (vb' & h & E & Hh).
  exists vb', h. split; [|split; [by apply (vk_step_inv _ _ _ _ _ _ _ Hvb E)|exact Hh]].
  eapply vulkan_answered; [exact Hs|exact Hb|done|done|done|by vm_compute|done|done| |exact E|].
  - rewrite (fixed_length _ _ vk.vk_CreateInstanceRequest_fixed). done.
  - cbn. unfold MAX_BODY. lia.
Qed.

(** An instance is created end to end. [vk_create_instance] on a client whose
    server has the Vulkan backend returns a handle of kind instance that was never
    issued before, and that resolves to a created instance in the server's table. *)
Theorem instance_end_to_end n version q sq sid s vb :
  Session.ready (S n) s -> 4 <= Session.max_frame_body s ->
  Session.backends s !! api_byte Vulkan = Some (box vb) -> vk_ready (S n) vb ->
  fits 32 version -> fits 32 q -> fits 64 sq ->
  exists cl s' vb' h,
    Client.vk_create_instance version (Client.mk (mk s [] true) q sq sid) = (cl, Ok h) /\
    Client.transport cl = mk s' [] true /\
    Session.backends s' !! api_byte Vulkan = Some (box vb') /\
    Handle.kind h = KIND_INSTANCE /\
    ~ was_issued h (VulkanBackend.instances vb) /\
    HandleTable.get h (VulkanBackend.instances vb') = Some (InstanceState.mk true).
Proof.
  intros Hs Hmax Hb Hvb Hv Hq Hsq. pose proof Hs as [_ Hmx [Hs1 Hs2] _].
  destruct (create_instance_answered_by n version q sq s vb Hs Hmax Hb Hvb Hv Hq Hsq)
    as (vb' & h & Eh & _ & [Hwf Hk] & Hfresh & Hget).
  assert (exchange vk_op.CREATE_INSTANCE vk_op.CREATE_INSTANCE q sq
      (vk.CreateInstanceRequest.encode (vk.CreateInstanceRequest.mk version) []) (mk s [] true) =
    (mk (advanced (with_vulkan vb' s)) [] true, Ok ([] <+ u64_le (Handle.raw h)))) as Ex.
  { apply (exchange_answered _ _ _ _ _ _ _ _ Eh); [by vm_compute|done| |].
    - unfold fits, max_of in *. lia.
    - cbn. unfold MAX_BODY. lia. }
  eexists _, (advanced (with_vulkan vb' s)), vb', h. split; [|split; [|split; [|by rewrite Hk]]].
  3:{ cbn. by rewrite lookup_insert_eq. }
  - unfold Client.vk_create_instance, Client.delegate, Client.next_ids, VkShim.create_instance.
    cbn [Client.transport Client.next_req_id Client.next_seq Client.session_id].
    rewrite (handle_shim _ vk.CreateInstanceResponse.decode vk.CreateInstanceResponse.mk
      vk.CreateInstanceResponse.instance VkShim.KIND_INSTANCE _ _ _ (fun h => eq_refl) Ex Hwf).
    rewrite decide_True by done. reflexivity.
  - reflexivity.
Qed.

Lemma instance_end_to_end_witness :
  exists cl s' vb' h,
    Client.vk_create_instance 3 (Client.mk (mk (Server.make_session 4) [] true) 2 2 4) =
      (cl, Ok h) /\
    Client.transport cl = mk s' [] true /\
    Session.backends s' !! api_byte Vulkan = Some (box vb') /\ Handle.kind h = KIND_INSTANCE /\
    HandleTable.get h (VulkanBackend.instances vb') = Some (InstanceState.mk true).
Proof.
  destruct (instance_end_to_end 3 3 2 2 4 (Server.make_session 4) VulkanBackend.new)
    as (cl & s' & vb' & h & E & Hl & Hb & Hk & _ & Hg).
  - apply make_session_ready; by vm_compute.
  - by vm_compute.
  - reflexivity.
  - apply vk_ready_new. by vm_compute.
  - by vm_compute.
  - by vm_compute.
  - by vm_compute.
  - exists cl, s', vb', h. split; [exact E|]. split; [exact Hl|]. split; [exact Hb|].
    split; [exact Hk|exact Hg].
Defined.
