(* ===== verification/WorldSession.v ===== *)
(** The world through the session and over the wire: a session answers a frame as the
    world answers the request in it, and what a client's calls return is what the world
    of objects lets them. *)
From S2P Require Import Wire VkBodies Codecs Contract Handles HandleSpec Effects.
From S2P Require Import Backend VulkanBackend VulkanSafety ApiBackends Session Server.
From S2P Require Import BackendProps SessionProps Transport ClientSession ClientShims ClientCall.
From S2P Require Import ClientSpec ClientProps EndToEnd.
From S2P Require Import World WorldFields WorldRefine WorldBackends WorldProps.

Local Open Scope Z_scope.

(** ** Sessions that stand for a world *)
Definition session_stands (n : nat) (s : Session.t) (w : world) : Prop :=
  forall k b, Session.backends s !! k = Some b -> boxed_stands n w b.

Lemma session_stands_S n s w : session_stands (S n) s w -> session_stands n s w.
Proof. intros Hs k b Hb. by eapply boxed_stands_S, Hs. Qed.

Lemma session_stands_same n s s' w :
  Session.backends s' = Session.backends s -> session_stands n s w -> session_stands n s' w.
Proof. unfold session_stands. by intros ->. Qed.

Lemma session_stands_new n id w : session_stands n (Session.new id) w.
Proof. intros k b. cbn. by rewrite lookup_empty. Qed.

Lemma session_stands_register n b s w :
  session_stands n s w -> boxed_stands n w b -> session_stands n (Session.register b s) w.
Proof.
  intros Hs Hb k b'. cbn. destruct (decide (k = api_byte (boxed_api b))) as [->|Hne].
  - rewrite lookup_insert_eq. by intros [= <-].
  - rewrite lookup_insert_ne by done. apply Hs.
Qed.

(** The server's session starts with no object. *)
Lemma make_session_stands n id :
  Z.of_nat n <= 2 ^ 32 -> session_stands n (Server.make_session id) empty_world.
Proof.
  intros Hn. pose proof (all_backends_stand n Hn) as H. unfold all_backends in H.
  rewrite !Forall_cons in H. split_hyps.
  repeat (apply session_stands_register; [|assumption]). apply session_stands_new.
Qed.

(** The API a kind belongs to. *)
Definition owner (kind : Z) : option ApiId :=
  find (fun api => bool_decide (kind ∈ kinds_of api))
    [Core; Vulkan; OpenGl; Cuda; Hip; OpenCl; LevelZero; Video; WebGpu; OptiX; Sycl; Amf].

Lemma kind_owner api kind : kind ∈ kinds_of api -> owner kind = Some api.
Proof.
  revert kind. rewrite <- Forall_forall. destruct api; cbn [kinds_of];
    repeat (apply Forall_cons_2; [vm_compute; reflexivity|]); apply Forall_nil_2.
Qed.

Lemma kinds_disjoint a a' kind : kind ∈ kinds_of a -> kind ∈ kinds_of a' -> a = a'.
Proof.
  intros Hk Hk'. pose proof (kind_owner a kind Hk) as E. rewrite (kind_owner a' kind Hk') in E.
  by injection E.
Qed.

Lemma api_byte_inj a a' : api_byte a = api_byte a' -> a = a'.
Proof. by destruct a, a'. Qed.

(** ** One frame *)

(** The frame is a request the session routes to a backend. *)
Record routed (s : Session.t) (frame : list byte) (h : FrameHeader.t) (body : list byte) : Prop := {
  routed_decodes : decode_frame frame = Ok (h, body);
  routed_len : FrameHeader.body_len h = Z.of_nat (length body);
  routed_max : FrameHeader.body_len h <= Session.max_frame_body s;
  routed_hello : FrameHeader.opcode h <> core_op.HELLO;
  routed_noop : FrameHeader.opcode h <> core_op.NOOP;
}.

Lemma handle_routed s frame h body :
  routed s frame h body -> Session.handle frame s = Session.route h body s.
Proof.
  intros [E Hl Hm Hh Hn]. unfold Session.handle. erewrite attempt_bind by done. cbv beta iota.
  unfold Session.validated. rewrite (proj2 (Z.ltb_ge _ _)) by done.
  rewrite (proj2 (Z.eqb_eq _ _)) by done. cbn [negb]. unfold Session.dispatch.
  by rewrite !decide_False.
Qed.

(** The reply leaves the backends alone. *)
Definition keeps_backends {A} (m : M Session.t A) : Prop := forall s s' r,
  m s = Ret (s', r) -> Session.backends s' = Session.backends s.

Lemma keeps_bind {A B} (m : M Session.t A) (f : A -> M Session.t B) :
  keeps_backends m -> (forall a, keeps_backends (f a)) -> keeps_backends (m ≫= f).
Proof.
  intros Hm Hf s s' r. unfold mbind, M_bind. destruct (m s) as [[s1 [a|e]]|] eqn:E; cbn; [| |done].
  - intros E'. rewrite (Hf _ _ _ _ E'). by eapply Hm.
  - intros [= <- <-]. by eapply Hm.
Qed.

Lemma keeps_attempt {A} (x : presult A) : keeps_backends (attempt x).
Proof. by intros s s' r [= <- <-]. Qed.

Lemma keeps_reply opcode req_id body : keeps_backends (Session.reply opcode req_id body).
Proof.
  apply keeps_bind; [|by intros seq s s' r [= <- <-]].
  intros s s' r. unfold Session.take_seq. destruct (add_or_panic _ _ _); cbn; [|done].
  by intros [= <- <-].
Qed.

Lemma keeps_hello h body : keeps_backends (Session.hello h body).
Proof.
  apply keeps_bind; [apply keeps_attempt|]. intros hl. case_decide.
  - by intros s s' r [= <- <-].
  - intros s s' r E. by apply keeps_reply in E.
Qed.

(** A frame that is not routed touches no backend. *)
Lemma handle_unrouted s frame s' r :
  Session.handle frame s = Ret (s', r) -> (forall h body, ~ routed s frame h body) ->
  Session.backends s' = Session.backends s.
Proof.
  intros E Hn. unfold Session.handle in E.
  destruct (decode_frame frame) as [[h body]|e] eqn:Ed.
  2:{ erewrite attempt_bind_err in E by done. by injection E as <- <-. }
  erewrite attempt_bind in E by done. cbv beta iota in E. unfold Session.validated in E.
  destruct (Z.ltb_spec (Session.max_frame_body s) (FrameHeader.body_len h));
    [by injection E as <- <-|].
  destruct (Z.eqb_spec (FrameHeader.body_len h) (Z.of_nat (length body))); cbn [negb] in E;
    [|by injection E as <- <-].
  unfold Session.dispatch in E. case_decide; [by eapply keeps_hello|].
  case_decide; [by eapply keeps_reply|]. by destruct (Hn h body).
Qed.

#[export] Instance routed_dec s frame : Decision (exists h body, routed s frame h body).
Proof.
  destruct (decode_frame frame) as [[h body]|e] eqn:E.
  2:{ right. intros (h & body & [E' _ _ _ _]). by rewrite E in E'. }
  destruct (decide (FrameHeader.body_len h = Z.of_nat (length body) /\
    FrameHeader.body_len h <= Session.max_frame_body s /\
    FrameHeader.opcode h <> core_op.HELLO /\ FrameHeader.opcode h <> core_op.NOOP)) as [Hd|Hd].
  - left. exists h, body. destruct_and! Hd. by constructor.
  - right. intros (h' & body' & [E' ? ? ? ?]). rewrite E in E'. injection E' as <- <-.
    by apply Hd.
Defined.

(** What the session answers a routed request, given what the world does. *)
Definition session_answer (s : Session.t) (h : FrameHeader.t) (r : presult (list byte))
  : presult (list byte) :=
  match r with
  | Ok body => Ok (encode_frame (reply_header (FrameHeader.opcode h) (FrameHeader.req_id h)
      (Session.next_seq s) body) body)
  | Err e => Err e
  end.

Lemma route_follows n h body s w :
  Session.ready (S n) s -> session_stands (S n) s w ->
  exists s' r w', Session.route h body s = Ret (s', session_answer s h r) /\
    session_stands n s' w' /\
    match Session.backends s !! opcode_api (FrameHeader.opcode h) with
    | Some b => world_step (boxed_api b) w (FrameHeader.opcode h) body r w'
    | None => r = Err (UnknownOpcode (FrameHeader.opcode h)) /\ w' = w
    end.
Proof.
  intros Hr Hs. set (op := FrameHeader.opcode h). unfold Session.route. fold op.
  destruct (Session.backends s !! opcode_api op) as [b|] eqn:Hb.
  2:{ exists s, (Err (UnknownOpcode op)), w. split; [done|].
      split; [by apply session_stands_S|done]. }
  destruct (Session.ready_backends _ _ Hr _ _ Hb) as [Hk Hbr].
  destruct (boxed_follows n op (FrameHeader.req_id h) body b w (Hs _ _ Hb))
    as (b' & r & w' & E & Ha & Hstep & Hb').
  destruct (boxed_handle_spec n op (FrameHeader.req_id h) body b Hbr)
    as (b2 & r2 & E2 & _ & _ & Hm).
  rewrite E in E2. injection E2 as <- <-.
  set (s1 := Session.mk (Session.session_id s) (Session.max_frame_body s) (Session.handshook s)
    (Session.next_seq s) (<[opcode_api op := b']> (Session.backends s))).
  assert (session_stands n s1 w') as Hs1.
  { intros k b2. cbn. destruct (decide (k = opcode_api op)) as [->|Hne].
    - rewrite lookup_insert_eq. by intros [= <-].
    - rewrite lookup_insert_ne by done. intros Hk2. eapply boxed_stands_frame.
      2:{ eapply boxed_stands_S, Hs, Hk2. }
      intros kind Hkind. eapply step_frame; [exact Hstep|]. intros Hkind'. apply Hne.
      destruct (Session.ready_backends _ _ Hr _ _ Hk2) as [<- _].
      by rewrite (kinds_disjoint _ _ _ Hkind Hkind'), Hk. }
  destruct r as [out|e].
  - destruct Hm as [Hlen _]. pose proof (Session.ready_seq _ _ Hr) as [_ Hseq].
    destruct (wp_reply op (FrameHeader.req_id h) out s1 (fun s' r => s' = advanced s1 /\
        r = session_answer s h (Ok out))) as (s' & r & E' & -> & ->);
      [cbn; lia|unfold MAX_REPLY, MAX_BODY in *; lia|done|].
    exists (advanced s1), (Ok out), w'. split; [|split; [|done]].
    + unfold mbind, M_bind, Session.call_backend. rewrite E. cbn. exact E'.
    + by eapply session_stands_same.
  - exists s1, (Err e), w'. split; [|done]. unfold mbind, M_bind, Session.call_backend.
    by rewrite E.
Qed.

(** C16: the session refines the world of objects. On a session that stands for a world,
    a frame that carries a request for a backend (well formed, of the declared length,
    within the negotiated bound) is answered as the world answers that request: with
    the world's error, or with a response that carries the world's reply; any other
    frame (undecodable, too long, a HELLO, a no-op) changes no object. The session
    stands for the world that results. *)
Theorem session_refines_world n frame s w :
  Session.ready (S n) s -> session_stands (S n) s w ->
  exists s' r w', Session.handle frame s = Ret (s', r) /\
    Session.ready n s' /\ session_stands n s' w' /\
    (forall h body, routed s frame h body -> exists r0, r = session_answer s h r0 /\
       match Session.backends s !! opcode_api (FrameHeader.opcode h) with
       | Some b => world_step (boxed_api b) w (FrameHeader.opcode h) body r0 w'
       | None => r0 = Err (UnknownOpcode (FrameHeader.opcode h)) /\ w' = w
       end) /\
    ((forall h body, ~ routed s frame h body) -> w' = w).
Proof.
  intros Hr Hs. destruct (session_handle_answered n frame s Hr) as (s' & r & E & Hr' & _).
  destruct (decide (exists h body, routed s frame h body)) as [(h & body & Hrt)|Hn].
  - destruct (route_follows n h body s w Hr Hs) as (s1 & r0 & w' & E1 & Hs1 & Hm).
    rewrite (handle_routed _ _ _ _ Hrt), E1 in E. injection E as <- <-.
    exists s1, (session_answer s h r0), w'.
    split; [by rewrite (handle_routed _ _ _ _ Hrt)|]. split; [done|]. split; [done|]. split.
    + intros h2 body2 Hrt2.
      assert (h2 = h /\ body2 = body) as [-> ->]; [|by exists r0].
      pose proof (routed_decodes _ _ _ _ Hrt) as E2. rewrite (routed_decodes _ _ _ _ Hrt2) in E2.
      by injection E2.
    + intros Hn. by destruct (Hn h body).
  - exists s', r, w. split; [done|]. split; [done|]. split; [|split; [|done]].
    + eapply session_stands_same; [|by eapply session_stands_S].
      eapply handle_unrouted; [exact E|]. intros h body Hrt. apply Hn. by exists h, body.
    + intros h body Hrt. destruct Hn. by exists h, body.
Qed.

(** ** Calls of a client *)

(** A frame of a client is routed, its body being short enough. *)
Lemma client_routed op req_id seq body s :
  fits 32 op -> fits 32 req_id -> fits 64 seq -> op <> core_op.HELLO -> op <> core_op.NOOP ->
  Z.of_nat (length body) <= Session.max_frame_body s ->
  Session.max_frame_body s <= DEFAULT_MAX_FRAME_BODY ->
  exists h, routed s (client_frame op req_id seq body) h body /\ FrameHeader.opcode h = op /\
    FrameHeader.req_id h = req_id.
Proof.
  intros Ho Hq Hsq Hh Hn Hl Hmax.
  exists (FrameHeader.mk PROTOCOL_MAJOR 0 FrameKind.Request op req_id seq
    (wrap 32 (Z.of_nat (length body)))). split; [constructor|done].
  - change (client_frame op req_id seq body) with (request_frame op req_id seq body).
    by apply request_decodes.
  - header_cbn. rewrite wrap_fits; [done|]. unfold fits.
    change DEFAULT_MAX_FRAME_BODY with (2 ^ 20) in Hmax. lia.
  - header_cbn. rewrite wrap_fits; [done|]. unfold fits.
    change DEFAULT_MAX_FRAME_BODY with (2 ^ 20) in Hmax. lia.
  - exact Hh.
  - exact Hn.
Qed.

(** The server serves an API: it has a backend for it. *)
Definition serves (s : Session.t) (api : ApiId) : Prop :=
  is_Some (Session.backends s !! api_byte api).

(** What a call may return in a world, and the world after it: [None] when the server
    refuses it. *)
Inductive call_step (served : ApiId -> Prop) (w : world) (c : client_call)
  : option client_value -> world -> Prop :=
| call_answered body v sh w' :
    served (call_api c) -> world_step (call_api c) w (call_op c) (call_body c) (Ok body) w' ->
    contract (call_op c) = Some sh -> value_ok sh body v ->
    call_step served w c (Some v) w'
| call_refused e :
    world_step (call_api c) w (call_op c) (call_body c) (Err e) w -> call_step served w c None w
| call_unserved :
    ~ served (call_api c) -> call_step served w c None w.

(** A run of calls: values up to the first call that is refused, which sees the server
    gone; every call after it a broken pipe. *)
Inductive calls_run (served : ApiId -> Prop)
  : world -> list client_call -> list (result ClientError.t client_value) -> world -> Prop :=
| run_done w : calls_run served w [] [] w
| run_answered w c v w1 cs rs w' :
    call_step served w c (Some v) w1 -> calls_run served w1 cs rs w' ->
    calls_run served w (c :: cs) (Ok v :: rs) w'
| run_refused w c cs :
    call_step served w c None w ->
    calls_run served w (c :: cs) (closed_error :: replicate (length cs) broken) w.

Lemma call_step_served (P Q : ApiId -> Prop) w c v w' :
  (forall api, P api <-> Q api) -> call_step P w c v w' -> call_step Q w c v w'.
Proof.
  intros HPQ []; [eapply call_answered|eapply call_refused|apply call_unserved];
    try eassumption; by rewrite <- HPQ.
Qed.

Lemma calls_run_served (P Q : ApiId -> Prop) w cs rs w' :
  (forall api, P api <-> Q api) -> calls_run P w cs rs w' -> calls_run Q w cs rs w'.
Proof.
  intros HPQ H. induction H; [constructor|eapply run_answered|apply run_refused];
    eauto using call_step_served.
Qed.

Lemma step_error_same api w op body e w' : world_step api w op body (Err e) w' -> w' = w.
Proof. intros Hs. by inversion Hs. Qed.

Lemma call_frame_step n c req_id seq s w :
  Session.ready (S n) s -> session_stands (S n) s w ->
  fits 32 req_id -> fits 64 seq -> 32 <= Session.max_frame_body s ->
  exists s' r0 w', Session.handle (client_frame (call_op c) req_id seq (call_body c)) s =
      Ret (s', match r0 with
        | Ok b => Ok (encode_frame (reply_header (call_op c) req_id (Session.next_seq s) b) b)
        | Err e => Err e end) /\
    session_stands n s' w' /\
    (if decide (serves s (call_api c))
     then world_step (call_api c) w (call_op c) (call_body c) r0 w'
     else (exists e, r0 = Err e) /\ w' = w).
Proof.
  intros Hr Hs Hq Hsq Hmax. destruct (call_op_not_core c) as [Hh Hn].
  pose proof (call_body_short c) as Hl. pose proof (Session.ready_max _ _ Hr) as Hm.
  destruct (client_routed (call_op c) req_id seq (call_body c) s) as (h & Hrt & Hop & Hid);
    [apply call_op_fits|done|done|done|done|lia|lia|].
  destruct (route_follows n h (call_body c) s w Hr Hs) as (s' & r0 & w' & E & Hs' & Hstep).
  exists s', r0, w'. split.
  { rewrite (handle_routed _ _ _ _ Hrt), E. unfold session_answer. rewrite Hop, Hid.
    by destruct r0. }
  split; [done|]. rewrite Hop, call_op_api in Hstep. unfold serves.
  destruct (Session.backends s !! api_byte (call_api c)) as [b|] eqn:Hb; case_decide as Hd.
  - destruct (Session.ready_backends _ _ Hr _ _ Hb) as [Hk _].
    by rewrite <- (api_byte_inj _ _ Hk).
  - destruct Hd. by eexists.
  - by destruct Hd.
  - destruct Hstep as [-> ->]. eauto.
Qed.

Lemma perform_world n c req_id seq s w :
  Session.ready (S n) s -> session_stands (S n) s w ->
  fits 32 req_id -> fits 64 seq -> 32 <= Session.max_frame_body s ->
  (exists s' v w', perform c req_id seq (Link.mk s [] true) = (Link.mk s' [] true, Ok v) /\
     call_step (serves s) w c (Some v) w' /\ Session.ready n s' /\ session_stands n s' w' /\
     Session.max_frame_body s' = Session.max_frame_body s /\
     (forall api, serves s' api <-> serves s api)) \/
  (perform c req_id seq (Link.mk s [] true) = (Link.mk s [] false, closed_error) /\
   call_step (serves s) w c None w).
Proof.
  intros Hr Hs Hq Hsq Hmax. pose proof (call_body_short c) as Hl.
  destruct (call_op_not_core c) as [Hh Hn].
  destruct (call_frame_step n c req_id seq s w Hr Hs Hq Hsq Hmax)
    as (s' & r0 & w' & E & Hs' & Hstep).
  destruct (exchange_link n (call_op c) req_id seq (call_body c) s)
    as [(s2 & b & Ex & Hr' & Hconf & Hm & _ & E2)|(e & Ex & E2)];
    [done|apply call_op_fits|done..|lia| |];
    rewrite decide_False in * by done; rewrite E in E2.
  - left. destruct r0 as [b0|e]; [|discriminate E2]. assert (s' = s2) as <- by congruence.
    assert (b0 = b) as ->.
    { apply (f_equal (fun x =>
        match x with Ret (_, Ok l) => drop HEADER_LEN l | _ => [] end)) in E2.
      cbv beta iota in E2. unfold encode_frame in E2. rename E2 into Eb.
      rewrite !header_encode_bytes in Eb. cbn [app] in Eb.
      rewrite !drop_app_length' in Eb by (by rewrite length_header_bytes). done. }
    destruct (call_in_contract c) as [sh Hsh]. unfold conforms in Hconf. rewrite Hsh in Hconf.
    destruct (perform_shape c sh _ _ _ _ _ Hsh Hconf Ex) as (v & Ev & Hv).
    exists s', v, w'. split; [done|]. case_decide as Hd.
    2:{ destruct Hstep as [[e He] _]. done. }
    split; [by eapply call_answered|]. split; [done|]. split; [done|]. split; [by apply Hm|].
    destruct (session_handle_answered n (client_frame (call_op c) req_id seq (call_body c)) s Hr)
      as (s3 & r3 & E3 & _ & Hm3).
    rewrite E in E3. injection E3 as <- <-.
    destruct Hm3 as (h3 & b3 & rb3 & _ & _ & _ & Hrep). intros api. apply Hrep.
  - right. destruct r0 as [b0|e0]; [discriminate E2|]. split; [by apply perform_err|].
    case_decide as Hd.
    + pose proof (step_error_same _ _ _ _ _ _ Hstep) as ->. by eapply call_refused.
    + by apply call_unserved.
Qed.

(** What a client sees is the world of objects. Any calls of a client, with any
    arguments, over a server whose session stands for a world: each returns a value the
    world allows (of the contract's shape, a new handle naming an object that never
    existed before) and changes the world as the rules say, up to the first call the
    world refuses or whose API is not served, which sees the server gone, and the ones
    after it a broken pipe. In the end the tables of the server's backends hold exactly
    the objects of the world. *)
Theorem client_sees_world cs n q sq sid s w :
  Session.ready (length cs + n) s -> session_stands (length cs + n) s w ->
  32 <= Session.max_frame_body s -> fits 32 q -> fits 64 sq ->
  exists cl rs w', run_link cs (Client.mk (Link.mk s [] true) q sq sid) = (cl, rs) /\
    calls_run (serves s) w cs rs w' /\
    session_stands n (Link.server (Client.transport cl)) w'.
Proof.
  revert q sq s w. induction cs as [|c cs IH]; intros q sq s w Hr Hs Hmax Hq Hsq.
  { do 3 eexists. split; [reflexivity|]. split; [constructor|done]. }
  cbn [length plus] in Hr, Hs. cbn [run_link]. unfold Client.delegate, Client.next_ids.
  cbn [Client.transport Client.next_req_id Client.next_seq Client.session_id].
  destruct (perform_world _ c q sq s w Hr Hs Hq Hsq Hmax)
    as [(s' & v & w1 & -> & Hstep & Hr' & Hs' & Hm & Hd)|[-> Hstep]].
  - destruct (IH (saturating_add 32 q 1) (saturating_add 64 sq 1) s' w1)
      as (cl & rs & w' & -> & Hrun & Hend);
      [done|done|by rewrite Hm|unfold fits, saturating_add, max_of in *; lia..|].
    do 3 eexists. split; [reflexivity|]. split; [|exact Hend].
    eapply run_answered; [exact Hstep|]. by eapply calls_run_served.
  - destruct (run_link_closed cs (saturating_add 32 q 1) (saturating_add 64 sq 1) sid s)
      as (q' & sq' & ->).
    do 3 eexists. split; [reflexivity|]. split; [by apply run_refused|].
    cbn. clear -Hs. revert Hs. generalize (length cs). intros k.
    induction k as [|k IHk]; intros Hs; [by apply session_stands_S|].
    apply IHk. by apply session_stands_S.
Qed.

(** ** Instances *)
Lemma session_refines_world_witness :
  exists s' r w',
    Session.handle (client_frame gl_op.CREATE_CONTEXT 5 6 []) (Server.make_session 4) =
      Ret (s', r) /\ session_stands 7 s' w' /\ exists r0, world_step OpenGl empty_world
      gl_op.CREATE_CONTEXT [] r0 w'.
Proof.
  destruct (session_refines_world 7 (client_frame gl_op.CREATE_CONTEXT 5 6 [])
    (Server.make_session 4) empty_world) as (s' & r & w' & E & _ & Hs & Hrt & _).
  - apply make_session_ready; by vm_compute.
  - apply make_session_stands; by vm_compute.
  - exists s', r, w'. split; [exact E|]. split; [exact Hs|].
    destruct (client_routed gl_op.CREATE_CONTEXT 5 6 [] (Server.make_session 4))
      as (h & Hr & Hop & _); [by vm_compute..|].
    destruct (Hrt h [] Hr) as (r0 & _ & Hstep). exists r0. rewrite Hop in Hstep.
    exact Hstep.
Defined.

Lemma client_sees_world_witness :
  exists cl rs w', run_link [Gl_create_context; Vk_create_instance 3; Cuda_mem_free (Handle.mk 0)]
      (Client.mk (Link.mk (Server.make_session 4) [] true) 2 2 4) = (cl, rs) /\
    calls_run (serves (Server.make_session 4)) empty_world
      [Gl_create_context; Vk_create_instance 3; Cuda_mem_free (Handle.mk 0)] rs w' /\
    session_stands 7 (Link.server (Client.transport cl)) w'.
Proof.
  apply (client_sees_world
    [Gl_create_context; Vk_create_instance 3; Cuda_mem_free (Handle.mk 0)] 7 2 2 4
    (Server.make_session 4) empty_world);
    [apply make_session_ready; by vm_compute|apply make_session_stands|..]; by vm_compute.
Defined.
