(* ===== verification/Replay.v ===== *)
(** A client whose frames are recorded, and the replay of what was recorded. A wrapper
    is a transport that passes every call on to another one and returns what that
    returns: a client cannot tell a wrapper from what it wraps. A trace recorded by a
    client over a link to a server, replayed on a link to a server in the same state,
    reproduces the server's replies and its state. *)
From S2P Require Import Wire VkBodies ApiBodies Codecs Contract Handles HandleSpec Effects.
From S2P Require Import Backend VulkanBackend VulkanSafety ApiBackends Session Server SessionProps.
From S2P Require Import Transport TransportProps Trace TraceProps.
From S2P Require Import ClientSession ClientShims ClientCall ClientSpec ClientProps EndToEnd.

Local Open Scope Z_scope.

(** ** Wrappers *)
Class Wrapper (W T : Type) `{Transport W, Transport T} := {
  unwrap : W -> T;
  unwrap_send : forall frame w, send frame (unwrap w) = (unwrap (send frame w).1, (send frame w).2);
  unwrap_recv : forall w, recv (unwrap w) = (unwrap (recv w).1, (recv w).2);
}.

#[export] Program Instance counting_wrapper {T} `{Transport T} :
  Wrapper (CountingTransport.t T) T := {| unwrap := CountingTransport.inner |}.
Next Obligation.
  intros T HT frame w. cbn. unfold CountingTransport.send.
  by destruct (send frame (CountingTransport.inner w)) as [t [[]|e]].
Qed.
Next Obligation.
  intros T HT w. cbn. unfold CountingTransport.recv.
  by destruct (recv (CountingTransport.inner w)) as [t [f|e]].
Qed.

#[export] Program Instance recording_wrapper {T} `{Transport T} :
  Wrapper (RecordingTransport.t T) T := {| unwrap := RecordingTransport.inner |}.
Next Obligation.
  intros T HT frame w. cbn. unfold RecordingTransport.send.
  by destruct (send frame (RecordingTransport.inner w)) as [t [[]|e]].
Qed.
Next Obligation.
  intros T HT w. cbn. unfold RecordingTransport.recv.
  by destruct (recv (RecordingTransport.inner w)) as [t [f|e]].
Qed.

(** A function of the client does the same over the wrapper and over the wrapped. *)
Section wrapper.
Context {W T : Type} `{Wrapper W T}.

Class Unwraps {A} (m : C W A) (m' : C T A) : Prop :=
  unwraps w : m' (unwrap w) = (unwrap (m w).1, (m w).2).

#[export] Instance ret_unwraps {A} (a : A) : Unwraps (mret a) (mret a).
Proof. by intros w. Qed.

#[export] Instance fail_unwraps {A} e : @Unwraps A (fail e) (fail e).
Proof. by intros w. Qed.

#[export] Instance protocol_unwraps {A} (r : presult A) : Unwraps (protocol r) (protocol r).
Proof. by intros w. Qed.

#[export] Instance bind_unwraps {A B} (m : C W A) (m' : C T A) (f : A -> C W B) f' :
  Unwraps m m' -> (forall a, Unwraps (f a) (f' a)) -> Unwraps (m ≫= f) (m' ≫= f').
Proof.
  intros Hm Hf w. unfold mbind, C_bind. rewrite (Hm w).
  destruct (m w) as [w1 [a|e]]; [apply Hf|done].
Qed.

#[export] Instance send_unwraps frame : Unwraps (send_frame frame) (send_frame frame).
Proof. intros w. unfold send_frame. rewrite unwrap_send. by destruct (send frame w). Qed.

#[export] Instance recv_unwraps : Unwraps recv_frame recv_frame.
Proof. intros w. unfold recv_frame. rewrite unwrap_recv. by destruct (recv w). Qed.

#[export] Instance exchange_unwraps op rop q sq body :
  Unwraps (exchange op rop q sq body) (exchange op rop q sq body).
Proof.
  unfold exchange. repeat (apply bind_unwraps; [apply _|intros ?]).
  match goal with x : FrameHeader.t * _ |- _ => destruct x end.
  case_decide; apply _.
Qed.

#[export] Instance expect_kind_unwraps kind h : Unwraps (expect_kind kind h) (expect_kind kind h).
Proof. unfold expect_kind. case_decide; apply _. Qed.

#[export] Instance expect_kinds_unwraps kind hs :
  Unwraps (expect_kinds kind hs) (expect_kinds kind hs).
Proof. induction hs as [|h hs IH]; cbn [expect_kinds]; apply _. Qed.

#[export] Instance perform_unwraps c q sq : Unwraps (perform c q sq) (perform c q sq).
Proof.
  destruct c; cbn [perform]; unfold ret_unit, ret_handle, ret_handles, ret_int;
    (apply bind_unwraps; [|apply _]); apply _.
Qed.

Definition unwrap_client (cl : Client.t W) : Client.t T :=
  Client.mk (unwrap (Client.transport cl)) (Client.next_req_id cl) (Client.next_seq cl)
    (Client.session_id cl).

Lemma delegate_unwraps c (cl : Client.t W) :
  Client.delegate (perform c) (unwrap_client cl) =
  (unwrap_client (Client.delegate (perform c) cl).1, (Client.delegate (perform c) cl).2).
Proof.
  destruct cl as [w q sq sid]. unfold Client.delegate, Client.next_ids, unwrap_client.
  cbn [Client.transport Client.next_req_id Client.next_seq Client.session_id].
  rewrite (perform_unwraps c q sq w). by destruct (perform c q sq w).
Qed.

(** A client over a wrapper returns what it returns over what is wrapped. *)
Lemma run_link_unwraps cs (cl : Client.t W) :
  run_link cs (unwrap_client cl) = (unwrap_client (run_link cs cl).1, (run_link cs cl).2).
Proof.
  revert cl. induction cs as [|c cs IH]; intros cl; [done|]. cbn [run_link].
  rewrite delegate_unwraps. destruct (Client.delegate (perform c) cl) as [cl1 r].
  cbn [fst snd]. rewrite IH. by destruct (run_link cs cl1).
Qed.
End wrapper.

(** ** What the frames are *)
Lemma client_frame_is_request op q sq body :
  fits 32 op -> fits 32 q -> fits 64 sq -> is_request (client_frame op q sq body) = true.
Proof.
  intros Ho Hq Hsq. unfold is_request.
  change (client_frame op q sq body) with (request_frame op q sq body).
  by rewrite request_decodes.
Qed.

Lemma reply_is_no_request opcode req_id seq body :
  fits 32 opcode -> fits 32 req_id -> fits 64 seq -> (length body <= MAX_BODY)%nat ->
  is_request (encode_frame (reply_header opcode req_id seq body) body) = false.
Proof. intros. unfold is_request. by rewrite reply_decodes. Qed.

(** The session's replies are no requests, whatever it is sent. *)
Lemma session_replies_no_request n frame s s' out :
  Session.ready (S n) s -> Session.handle frame s = Ret (s', Ok out) -> is_request out = false.
Proof.
  intros Hs E. destruct (session_handle_answered n frame s Hs) as (s2 & r & E2 & _ & Hm).
  rewrite E in E2. injection E2 as <- <-.
  destruct Hm as (h & body & rbody & Ed & _ & _ & [-> Hshort]).
  pose proof (Session.ready_seq _ _ Hs) as [Hs1 Hs2].
  destruct (decode_frame_wf _ _ _ Ed) as [(_ & _ & Ho & Hq & _ & _) _].
  apply reply_is_no_request; [|done| |done].
  - unfold reply_opcode. case_decide; [by vm_compute|done].
  - unfold fits, max_of in *. lia.
Qed.

(** ** Replaying what was recorded *)
Lemma replay_frames_app {U} `{Transport U} frames1 frames2 (u u1 : U) :
  replay_frames frames1 u = (u1, Ok tt) ->
  replay_frames (frames1 ++ frames2) u = replay_frames frames2 u1.
Proof.
  revert u. induction frames1 as [|frame frames1 IH]; intros u; cbn [app replay_frames].
  { by intros [= ->]. }
  destruct (is_request frame); [|apply IH].
  destruct (send frame u) as [u2 [[]|e]]; [apply IH|done].
Qed.

(** The frames of a trace that its client received. *)
Definition received (trace : FrameTrace.t) : list (list byte) :=
  filter (fun frame => is_request frame = false) (FrameTrace.frames trace).

Lemma received_request frame tr :
  is_request frame = true -> received (FrameTrace.record frame tr) = received tr.
Proof.
  intros Hf. unfold received, FrameTrace.record, push. cbn [FrameTrace.frames].
  rewrite filter_app, (filter_cons_False _ frame) by congruence.
  by rewrite filter_nil, app_nil_r.
Qed.

Lemma received_reply frame tr :
  is_request frame = false -> received (FrameTrace.record frame tr) = received tr ++ [frame].
Proof.
  intros Hf. unfold received, FrameTrace.record, push. cbn [FrameTrace.frames].
  by rewrite filter_app, (filter_cons_True _ frame), filter_nil.
Qed.

Import RecordingTransport (inner, trace).

(** The trace recorded so far, replayed on a link to the session [s], gives the state of
    the server of the link that was recorded, and the replies it gave. *)
Record reproduces (s : Session.t) (n : nat) (w : RecordingTransport.t Link.t) : Prop := {
  reproduces_replay :
    replay (trace w) (Link.mk s [] true) =
    (Link.mk (Link.server (inner w)) (received (trace w) ++ Link.replies (inner w))
       (Link.serving (inner w)), Ok tt);
  reproduces_replies : Forall (fun frame => is_request frame = false) (Link.replies (inner w));
  reproduces_ready : Session.ready n (Link.server (inner w));
}.

Lemma reproduces_new s n :
  Session.ready n s -> reproduces s n (RecordingTransport.new (Link.mk s [] true)).
Proof. by constructor. Qed.

Lemma reproduces_S s n w : reproduces s (S n) w -> reproduces s n w.
Proof. intros [Hp Hq Hr]. constructor; [done..|]. by apply ready_mono. Qed.

(** A recorded request, and what the replay makes of it. *)
Lemma reproduces_recorded s n w frame link' :
  reproduces s (S n) w -> is_request frame = true ->
  Link.send frame (inner w) = (link', Ok tt) -> Link.serving (inner w) = true ->
  Session.ready n (Link.server link') ->
  (exists new, Link.replies link' = Link.replies (inner w) ++ new /\
     Forall (fun frame => is_request frame = false) new /\
     forall q, Link.send frame (Link.mk (Link.server (inner w)) q true) =
       (Link.mk (Link.server link') (q ++ new) (Link.serving link'), Ok tt)) ->
  reproduces s n (RecordingTransport.mk link' (FrameTrace.record frame (trace w))).
Proof.
  intros [Hp Hq Hr] Hf E Hv Hr' (new & En & Hn & Es). destruct w as [link tr]. cbn [inner trace] in *.
  constructor; cbn [inner trace]; [|by rewrite En, Forall_app|done].
  rewrite received_request, En, app_assoc by done.
  unfold replay, FrameTrace.iter, FrameTrace.record, push in *. cbn [FrameTrace.frames].
  rewrite (replay_frames_app _ _ _ _ Hp), Hv. cbn [replay_frames]. rewrite Hf.
  cbn [Transport.send Link.transport]. by rewrite Es.
Qed.

Lemma reproduces_send s n w frame :
  reproduces s (S n) w -> is_request frame = true -> reproduces s n (send frame w).1.
Proof.
  intros Hw Hf. cbn [Transport.send RecordingTransport.transport].
  unfold RecordingTransport.send. cbn [Transport.send Link.transport].
  pose proof (reproduces_ready _ _ _ Hw) as Hr.
  destruct (Link.serving (inner w)) eqn:Hv.
  2:{ unfold Link.send. rewrite Hv. apply reproduces_S. by destruct w. }
  destruct (session_handle_answered n frame (Link.server (inner w)) Hr) as (s' & r & E & Hr' & Hm).
  destruct (Link.send frame (inner w)) as [link' r0] eqn:El. pose proof El as El'.
  unfold Link.send in El'. rewrite Hv, E in El'.
  destruct r as [out|e]; injection El' as <- <-; cbn [fst].
  - eapply reproduces_recorded; [done|done|exact El|done|exact Hr'|].
    exists [out]. split; [done|]. split.
    + apply Forall_singleton. by eapply session_replies_no_request.
    + intros q. unfold Link.send. cbn. by rewrite E.
  - eapply reproduces_recorded; [done|done|exact El|done|exact Hr'|].
    exists []. split; [by rewrite app_nil_r|]. split; [done|].
    intros q. unfold Link.send. cbn. by rewrite E, app_nil_r.
Qed.

Lemma reproduces_recv s n w : reproduces s n w -> reproduces s n (recv w).1.
Proof.
  intros [Hp Hq Hr]. destruct w as [[srv [|reply q] v] tr]; [by constructor|].
  cbn [Transport.recv RecordingTransport.transport].
  unfold RecordingTransport.recv. cbn [Transport.recv Link.transport].
  unfold Link.recv.
  cbn [inner trace fst Link.server Link.replies Link.serving] in *.
  apply Forall_cons in Hq as [Hreply Hq].
  constructor; cbn [inner trace Link.server Link.replies Link.serving]; [|done..].
  rewrite received_reply, <- app_assoc by done.
  unfold replay, FrameTrace.iter, FrameTrace.record, push in *. cbn [FrameTrace.frames].
  rewrite (replay_frames_app _ _ _ _ Hp). cbn [replay_frames]. by rewrite Hreply.
Qed.

(** One exchange of a client: the reply, if there is one, is taken. *)
Lemma exchange_settles op rop q sq body (link : Link.t) :
  Link.replies link = [] -> Link.replies (exchange op rop q sq body link).1 = [].
Proof.
  intros Hq. rewrite exchange_cases. cbn [send recv Link.transport]. unfold Link.send.
  destruct (Link.serving link); [|done].
  destruct (Session.handle _ (Link.server link)) as [[s' [reply|e]]|]; rewrite Hq; done.
Qed.

Lemma reproduces_exchange s n w op rop q sq body :
  reproduces s (S n) w -> fits 32 op -> fits 32 q -> fits 64 sq ->
  reproduces s n (exchange op rop q sq body w).1.
Proof.
  intros Hw Ho Hi Hsq. rewrite exchange_cases.
  pose proof (reproduces_send s n w _ Hw (client_frame_is_request op q sq body Ho Hi Hsq)) as H1.
  destruct (send (client_frame op q sq body) w) as [w1 [[]|e]]; [|exact H1].
  pose proof (reproduces_recv s n w1 H1) as H2. by destruct (recv w1) as [w2 [reply|e]].
Qed.

(** A run of calls. *)
Lemma reproduces_run s cs n (cl : Client.t (RecordingTransport.t Link.t)) :
  reproduces s (length cs + n) (Client.transport cl) ->
  Link.replies (inner (Client.transport cl)) = [] ->
  fits 32 (Client.next_req_id cl) -> fits 64 (Client.next_seq cl) ->
  let w := Client.transport (run_link cs cl).1 in
  reproduces s n w /\ Link.replies (inner w) = [].
Proof.
  revert cl. induction cs as [|c cs IH]; intros [w q sq sid] Hw Hq Hi Hsq; [done|].
  cbn [Client.transport Client.next_req_id Client.next_seq length plus] in *.
  cbn [run_link]. unfold Client.delegate, Client.next_ids.
  cbn [Client.transport Client.next_req_id Client.next_seq Client.session_id].
  pose proof (perform_state c q sq w) as Ep.
  pose proof (reproduces_exchange s _ w (call_op c) (call_op c) q sq (call_body c) Hw
    (call_op_fits c) Hi Hsq) as H1.
  pose proof (exchange_settles (call_op c) (call_op c) q sq (call_body c) (inner w) Hq) as H2.
  change (inner w) with (unwrap w) in H2. rewrite exchange_unwraps in H2.
  cbn [fst unwrap recording_wrapper] in H2. rewrite <- Ep in H1, H2.
  destruct (perform c q sq w) as [w1 r]. cbn [fst] in H1, H2.
  specialize (IH (Client.mk w1 (saturating_add 32 q 1) (saturating_add 64 sq 1) sid)).
  cbn [Client.transport Client.next_req_id Client.next_seq] in IH.
  destruct (run_link cs _) as [cl' rs]. cbn [fst] in *.
  apply IH; [done..| |]; unfold fits, saturating_add, max_of in *; lia.
Qed.

(** C26: a recorded client replays to the same server. Let a client make any calls,
    with any arguments, over a recording transport around a link to a server. The
    client sees what it would see without the recording; and replaying the trace on a
    link to a server in the state the first one started from succeeds, leaves that
    server in the state the first one ended in, still serving when the first one is,
    with the very replies the client received, in order, waiting to be read. *)
Theorem replay_reproduces cs n q sq sid s :
  Session.ready (length cs + n) s -> fits 32 q -> fits 64 sq ->
  exists cl cl' rs link tr,
    run_link cs (Client.mk (RecordingTransport.new (Link.mk s [] true)) q sq sid) = (cl, rs) /\
    RecordingTransport.into_parts (Client.transport cl) = (link, tr) /\
    run_link cs (Client.mk (Link.mk s [] true) q sq sid) = (cl', rs) /\
    Client.transport cl' = link /\
    replay tr (Link.mk s [] true) =
      (Link.mk (Link.server link) (received tr) (Link.serving link), Ok tt).
Proof.
  intros Hs Hq Hsq. set (w := RecordingTransport.new (Link.mk s [] true)).
  destruct (reproduces_run s cs n (Client.mk w q sq sid)) as [Hw Hr];
    [by apply reproduces_new|done..|].
  pose proof (run_link_unwraps cs (Client.mk w q sq sid)) as E.
  destruct (run_link cs (Client.mk w q sq sid)) as [cl rs]. cbn [fst snd] in *.
  exists cl, (unwrap_client cl), rs, (inner (Client.transport cl)), (trace (Client.transport cl)).
  split; [done|]. split; [done|]. split; [exact E|]. split; [done|].
  pose proof (reproduces_replay _ _ _ Hw) as Ep. by rewrite Hr, app_nil_r in Ep.
Qed.

Lemma replay_reproduces_witness :
  let cs := [Gl_create_context; Vk_create_instance 3; Cuda_mem_free (Handle.mk 0);
    Gl_create_context] in
  exists cl cl' rs link tr,
    run_link cs (Client.mk (RecordingTransport.new (Link.mk (Server.make_session 4) [] true))
      2 2 4) = (cl, rs) /\
    RecordingTransport.into_parts (Client.transport cl) = (link, tr) /\
    run_link cs (Client.mk (Link.mk (Server.make_session 4) [] true) 2 2 4) = (cl', rs) /\
    Client.transport cl' = link /\
    replay tr (Link.mk (Server.make_session 4) [] true) =
      (Link.mk (Link.server link) (received tr) (Link.serving link), Ok tt).
Proof.
  apply (replay_reproduces [Gl_create_context; Vk_create_instance 3;
    Cuda_mem_free (Handle.mk 0); Gl_create_context] 0 2 2 4 (Server.make_session 4));
    [apply make_session_ready|..]; by vm_compute.
Defined.
