(* ===== verification/Cli.v ===== *)
(** The command-line client (crates/graftx-cli/src/main.rs), with the texts of the
    errors it prints (the error attributes on the enums of graftx-protocol and
    graftx-client).

    A [TcpStream] is any byte stream that connecting to an address yields; the
    texts of the system's own errors and the version cargo gives the crate are
    parameters. *)
From Stdlib Require Import Ascii.
From S2P Require Import Prelude Text Process Wire Transport ClientSession.

Local Open Scope Z_scope.

(** ** The texts of the errors *)
Module ProtocolErrorText.
Definition to_string (e : ProtocolError) : text :=
  match e with
  | UnexpectedEof => "unexpected end of buffer"
  | UnknownOpcode op => "unknown opcode: " ++ hex_prefixed 10 op
  | BadKind kind => "unsupported frame kind: " ++ dec kind
  | BadVersion major minor =>
    "unsupported protocol version: " ++ dec major ++ "." ++ dec minor
  | FrameTooLarge len => "frame body too large: " ++ dec len ++ " bytes"
  | BodyLenMismatch declared actual =>
    "body length mismatch: header says " ++ dec declared ++ ", found " ++ dec actual
  end.
End ProtocolErrorText.

(** The derived [Debug]. *)
Definition kind_debug (k : FrameKind.t) : text :=
  match k with
  | FrameKind.Request => "Request"
  | FrameKind.Response => "Response"
  | FrameKind.Event => "Event"
  end.

Section error_text.
(** [io::Error]'s [Display] *)
Context (io_display : io.ErrorKind -> text).

Definition client_error_text (e : ClientError.t) : text :=
  match e with
  | ClientError.Transport e => "transport error: " ++ io_display e
  | ClientError.Protocol e => "protocol error: " ++ ProtocolErrorText.to_string e
  | ClientError.UnexpectedReply opcode kind =>
    "unexpected reply: opcode " ++ hex_prefixed 10 opcode ++ ", kind " ++ kind_debug kind
  end.
End error_text.

(** [pub fn protocol_version] of the client *)
Definition protocol_version : Z * Z := (PROTOCOL_MAJOR, PROTOCOL_MINOR).

(** ** The binary *)
Definition EXIT_USAGE : Z := 2.
Definition EXIT_CONNECT : Z := 1.
Definition NOOP_REQ_ID : Z := 2.
Definition NOOP_SEQ : Z := 2.

Definition API_IDS : list (Z * text) := [
  (0x00, lit "Core");
  (0x01, lit "Vulkan");
  (0x02, lit "OpenGl");
  (0x03, lit "Cuda");
  (0x04, lit "OpenCl");
  (0x05, lit "Hip");
  (0x06, lit "LevelZero");
  (0x07, lit "Video");
  (0x08, lit "WebGpu");
  (0x09, lit "OptiX");
  (0x0A, lit "Sycl");
  (0x0B, lit "Amf") ].

Section printing.
Context {W : Type} `{Write W}.

Definition welcome_lines (addr : text) (welcome : Welcome.t) : list text :=
  [ "connected to " ++ addr;
    "  protocol:       " ++ dec (Welcome.proto_major welcome) ++ "." ++
      dec (Welcome.proto_minor welcome);
    "  session id:     " ++ dec (Welcome.session_id welcome);
    "  features:       " ++ hex_prefixed 10 (Welcome.features welcome);
    "  max frame body: " ++ dec (Welcome.max_frame_body welcome) ++ " bytes" ].

Definition print_welcome (addr : text) (welcome : Welcome.t) (out : W) : W * io_result unit :=
  write_all_lines (welcome_lines addr welcome) out.

(** The lines of a listing, each of them best-effort. *)
Definition write_lines_ignored (ls : list text) (out : W) : W :=
  fold_left (fun out l => write_ignored (l ++ nl) out) ls out.

Definition apis_lines : list text :=
  [ lit "| ApiId | API |"; lit "| ----- | --- |" ] ++
  map (fun e : Z * text => "| " ++ hex_prefixed 4 e.1 ++ " | " ++ e.2 ++ " |") API_IDS.

Definition print_apis (out : W) : W := write_lines_ignored apis_lines out.

Definition info_lines (CARGO_PKG_VERSION : text) : list text :=
  let '(major, minor) := protocol_version in
  [ "graftx-cli " ++ CARGO_PKG_VERSION;
    "protocol " ++ dec major ++ "." ++ dec minor;
    "apis: " ++ Text.join ", " (map snd API_IDS) ].

Definition print_info (CARGO_PKG_VERSION : text) (out : W) : W :=
  write_lines_ignored (info_lines CARGO_PKG_VERSION) out.

Definition usage_lines : list text :=
  let '(major, minor) := protocol_version in
  [ "graftx — GraftX demo client (protocol " ++ dec major ++ "." ++ dec minor ++ ")";
    [];
    lit "USAGE:";
    lit "    graftx connect <addr>    connect, handshake, print the Welcome";
    lit "    graftx noop <addr>       connect, handshake, run one no-op, print ok";
    lit "    graftx apis              print the API namespace table";
    lit "    graftx info              print cli/protocol version and the API list";
    lit "    graftx help              show this message" ].

Definition print_usage (out : W) : W := write_lines_ignored usage_lines out.
End printing.

Section commands.
Context {W : Type} `{Write W}.
Context {S : Type} `{ByteStream S}.
(** [TcpStream::connect], [io::Error]'s [Display], and [env!("CARGO_PKG_VERSION")] *)
Context (tcp_connect : text -> io_result S).
Context (io_display : io.ErrorKind -> text).
Context (CARGO_PKG_VERSION : text).

Abbreviation console := (Console.t W).

Definition fail_with (message : text) (code : Z) (p : console) : outcome (console * Z) :=
  p ← Console.eprintln message p; Ret (p, code).

Definition connect (addr : text) (p : console) : outcome (console * Z) :=
  match tcp_connect addr with
  | Err err =>
    fail_with ("graftx: connect to " ++ addr ++ " failed: " ++ io_display err) EXIT_CONNECT p
  | Ok stream =>
    match handshake (StreamTransport.new stream) with
    | (_, Err err) =>
      fail_with ("graftx: handshake with " ++ addr ++ " failed: " ++
        client_error_text io_display err) EXIT_CONNECT p
    | (_, Ok welcome) =>
      match print_welcome addr welcome (Console.stdout p) with
      | (out, Err err) =>
        fail_with ("graftx: writing output failed: " ++ io_display err) EXIT_CONNECT
          (Console.set_stdout out p)
      | (out, Ok _) => Ret (Console.set_stdout out p, ExitCode.SUCCESS)
      end
    end
  end.

Definition noop (addr : text) (p : console) : outcome (console * Z) :=
  match tcp_connect addr with
  | Err err =>
    fail_with ("graftx: connect to " ++ addr ++ " failed: " ++ io_display err) EXIT_CONNECT p
  | Ok stream =>
    match handshake (StreamTransport.new stream) with
    | (_, Err err) =>
      fail_with ("graftx: handshake with " ++ addr ++ " failed: " ++
        client_error_text io_display err) EXIT_CONNECT p
    | (transport, Ok _) =>
      match ClientSession.noop NOOP_REQ_ID NOOP_SEQ transport with
      | (_, Err err) =>
        fail_with ("graftx: noop to " ++ addr ++ " failed: " ++
          client_error_text io_display err) EXIT_CONNECT p
      | (_, Ok _) =>
        match write_fmt ("ok" ++ nl) (Console.stdout p) with
        | (out, Err err) =>
          fail_with ("graftx: writing output failed: " ++ io_display err) EXIT_CONNECT
            (Console.set_stdout out p)
        | (out, Ok _) => Ret (Console.set_stdout out p, ExitCode.SUCCESS)
        end
      end
    end
  end.

Definition missing_addr (command : text) : text :=
  "graftx: " ++ command ++ " requires an <addr> (e.g. 127.0.0.1:7000)".

Definition run (args : list text) (p : console) : outcome (console * Z) :=
  match head args with
  | None => Ret (Console.set_stdout (print_usage (Console.stdout p)) p, ExitCode.SUCCESS)
  | Some command =>
    if decide (command = lit "help" \/ command = lit "-h" \/ command = lit "--help") then
      Ret (Console.set_stdout (print_usage (Console.stdout p)) p, ExitCode.SUCCESS)
    else if decide (command = lit "connect") then
      match args !! 1%nat with
      | Some addr => connect addr p
      | None => fail_with (missing_addr "connect") EXIT_USAGE p
      end
    else if decide (command = lit "noop") then
      match args !! 1%nat with
      | Some addr => noop addr p
      | None => fail_with (missing_addr "noop") EXIT_USAGE p
      end
    else if decide (command = lit "apis") then
      Ret (Console.set_stdout (print_apis (Console.stdout p)) p, ExitCode.SUCCESS)
    else if decide (command = lit "info") then
      Ret (Console.set_stdout (print_info CARGO_PKG_VERSION (Console.stdout p)) p,
        ExitCode.SUCCESS)
    else
      p ← Console.eprintln ("graftx: unknown subcommand `" ++ command ++ "`") p;
      Ret (Console.set_stderr (print_usage (Console.stderr p)) p, EXIT_USAGE)
  end.
End commands.
