(* ===== verification/CliProps.v ===== *)
(** The command-line client: its exit codes whatever the network and the output do,
    and what it prints over a socket whose other end is the server's serve loop. *)
From S2P Require Import Wire VkBodies Codecs Contract Handles HandleSpec Effects.
From S2P Require Import Backend Session Server SessionProps Transport TransportProps ServeProps.
From S2P Require Import ClientSession ClientShims ClientCall ClientSpec ClientProps EndToEnd Text Process Cli.

Local Open Scope Z_scope.

(** ** A socket to a server

    The client's end of a TCP connection: the bytes on their way to the server and
    the ones on their way back. What is flushed reaches the server, which runs its
    serve loop on them over a stream transport of its own: it answers every frame
    that is there whole, up to the first one its session refuses. *)
Module Socket.
Record t := mk {
  server : Session.t; to_server : list byte; to_client : list byte; serving : bool }.

(** One iteration of [serve], over the server's end of the connection. *)
Definition serve_once (self : t) : t :=
  match recv (StreamTransport.new (Pipe.mk (to_client self) (to_server self))) with
  | (_, Err io.UnexpectedEof) => self
  | (tr, Err _) => mk (server self) [] (to_client self) false
  | (tr, Ok frame) =>
    match Session.handle frame (server self) with
    | Ret (s, Ok reply) =>
      match send reply tr with
      | (tr, Ok _) =>
        mk s (Pipe.unread (StreamTransport.inner tr)) (Pipe.written (StreamTransport.inner tr)) true
      | (tr, Err _) => mk s [] (Pipe.written (StreamTransport.inner tr)) false
      end
    | Ret (s, Err _) => mk s [] (to_client self) false
    | Panic => mk (server self) [] (to_client self) false
    end
  end.

#[global] Instance stream : ByteStream t := {|
  write_all bytes self :=
    if serving self then
      (mk (server self) (to_server self ++ bytes) (to_client self) true, Ok tt)
    else (self, Err io.BrokenPipe);
  flush self := (if serving self then serve_once self else self, Ok tt);
  read_exact n self :=
    if decide (n <= length (to_client self))%nat then
      (mk (server self) (to_server self) (drop n (to_client self)) (serving self),
       Ok (take n (to_client self)))
    else (self, Err io.UnexpectedEof) |}.

(** A fresh connection. *)
Definition open (s : Session.t) : t := mk s [] [] true.
End Socket.

Definition short (frame : list byte) : Prop := Z.of_nat (length frame) <= MAX_FRAME.

Lemma short_fits frame : short frame -> fits 32 (Z.of_nat (length frame)).
Proof. unfold short, fits, MAX_FRAME. lia. Qed.

(** Every request and every reply is. *)
Lemma short_frame h body : (length body <= 32)%nat -> short (encode_frame h body).
Proof.
  intros Hb. unfold short. rewrite encode_frame_length.
  unfold HEADER_LEN, MAX_FRAME in *. lia.
Qed.

Section socket.
Import Socket.

(** A frame that the session answers is answered while it is flushed. *)
Lemma socket_send s frame s' reply :
  Session.handle frame s = Ret (s', Ok reply) -> short frame -> short reply ->
  send frame (StreamTransport.new (open s)) =
    (StreamTransport.new (mk s' [] (framed reply) true), Ok tt).
Proof.
  intros E Hf Hr. pose proof (short_fits _ Hf) as Hf32. pose proof (short_fits _ Hr) as Hr32.
  cbn [send StreamTransport.transport]. unfold StreamTransport.send.
  rewrite (proj2 (Z.ltb_ge _ _)) by (unfold fits, max_of in *; lia).
  cbn [write_all stream StreamTransport.inner StreamTransport.new StreamTransport.with_max_frame
    open serving server to_server to_client app flush StreamTransport.max_frame].
  unfold serve_once. cbn [to_client to_server].
  change (le_bytes 4 (Z.of_nat (length frame)) ++ frame) with (framed frame).
  rewrite <- (app_nil_r (framed frame)). unfold StreamTransport.new, StreamTransport.with_max_frame.
  cbn [recv send StreamTransport.transport].
  rewrite stream_recv by done. cbn [server]. rewrite E.
  rewrite stream_send by (unfold fits, max_of in *; lia). done.
Qed.

Lemma socket_recv s reply :
  short reply ->
  recv (StreamTransport.new (mk s [] (framed reply) true)) =
    (StreamTransport.new (open s), Ok reply).
Proof.
  intros Hr. pose proof (short_fits _ Hr) as Hr32. unfold short in Hr.
  cbn [recv StreamTransport.transport]. unfold StreamTransport.recv.
  cbn [read_exact stream StreamTransport.inner StreamTransport.new StreamTransport.with_max_frame
    to_client server to_server serving StreamTransport.max_frame]. unfold framed.
  rewrite decide_True by (rewrite length_app, length_le_bytes; lia).
  rewrite take_app_length' by (by rewrite length_le_bytes).
  rewrite drop_app_length' by (by rewrite length_le_bytes).
  rewrite of_le_bytes_id by exact Hr32. rewrite (proj2 (Z.ltb_ge _ _)) by done.
  rewrite Nat2Z.id. cbn [to_client server to_server serving].
  rewrite decide_True by done. rewrite firstn_all, drop_all. done.
Qed.

(** An exchange over a socket whose session answers. *)
Lemma socket_exchange op rop q sq body s s' rbody :
  Session.handle (client_frame op q sq body) s =
    Ret (s', Ok (encode_frame (reply_header rop q (Session.next_seq s) rbody) rbody)) ->
  fits 32 rop -> fits 32 q -> fits 64 (Session.next_seq s) -> (length rbody <= MAX_BODY)%nat ->
  (length body <= 32)%nat ->
  exchange op rop q sq body (StreamTransport.new (open s)) =
    (StreamTransport.new (open s'), Ok rbody).
Proof.
  intros E Ho Hq Hs Hl Hb. rewrite exchange_cases.
  rewrite (socket_send s _ s' _ E) by (apply short_frame; unfold MAX_BODY in *; lia).
  rewrite socket_recv by (apply short_frame; unfold MAX_BODY in *; lia).
  unfold read_reply. rewrite reply_decodes by done. cbn [FrameHeader.opcode FrameHeader.kind reply_header].
  rewrite decide_False; [done|]. by intros [?|?].
Qed.

Lemma socket_handshake n s :
  Session.ready (S n) s -> 12 <= Session.max_frame_body s ->
  handshake (StreamTransport.new (open s)) =
    (StreamTransport.new (open (advanced (negotiated client_hello s))),
     Ok (welcome_of client_hello s)) /\
  Session.ready n (advanced (negotiated client_hello s)).
Proof.
  intros Hs Hmin. destruct (client_hello_answered n s Hs Hmin) as [E Hr]. split; [|done].
  pose proof Hs as [Hid _ [Hs1 Hs2] _]. unfold handshake. fold client_hello.
  etransitivity; [apply then_ok|].
  - apply (socket_exchange _ _ _ _ _ _ _ _ E); [by vm_compute|by vm_compute| | |].
    + unfold fits, max_of in *. lia.
    + cbn. unfold MAX_BODY. lia.
    + cbn. unfold MAX_BODY. lia.
  - unfold protocol. by rewrite (welcome_decodes _ _ client_hello_fits Hid).
Qed.

Lemma socket_noop n q sq s :
  Session.ready (S n) s -> fits 32 q -> fits 64 sq ->
  ClientSession.noop q sq (StreamTransport.new (open s)) = (StreamTransport.new (open (advanced s)), Ok tt) /\
  Session.ready n (advanced s).
Proof.
  intros Hs Hq Hsq. pose proof Hs as [Hid Hmax [Hs1 Hs2] Hb]. split.
  2:{ by apply ready_advanced. }
  unfold ClientSession.noop. etransitivity; [apply then_ok|reflexivity].
  apply socket_exchange with (rbody := []).
  - change (client_frame core_op.NOOP q sq []) with (request_frame core_op.NOOP q sq []).
    rewrite handle_request; [|by vm_compute|done|done|cbn; lia|lia].
    unfold Session.dispatch. cbn [FrameHeader.opcode FrameHeader.req_id].
    rewrite decide_False, decide_True by done.
    destruct (wp_reply core_op.NOOP q [] s (fun s' r => s' = advanced s /\
      r = Ok (encode_frame (reply_header core_op.NOOP q (Session.next_seq s) []) [])))
      as (s' & r & E & -> & ->); [lia|cbn; lia|done|exact E].
  - by vm_compute.
  - done.
  - unfold fits, max_of in *. lia.
  - cbn. lia.
  - cbn. lia.
Qed.
End socket.

(** ** Exit codes *)
Definition network_commands : list text := [lit "connect"; lit "noop"].
Definition local_commands : list text :=
  [lit "help"; lit "-h"; lit "--help"; lit "apis"; lit "info"].

(** What the user got wrong, if anything. *)
Definition usage_error (args : list text) : bool :=
  match args with
  | [] => false
  | command :: rest =>
    bool_decide (command ∈ network_commands /\ rest = []) ||
    bool_decide (command ∉ network_commands ++ local_commands)
  end.

Section exit_codes.
Context {W : Type} `{Write W} {S : Type} `{ByteStream S}.
Context (tcp_connect : text -> io_result S) (io_display : io.ErrorKind -> text) (version : text).

Abbreviation console := (Console.t W).

(** What a command's end says. *)
Definition exits (args : list text) (p : console) (r : outcome (console * Z)) : Prop :=
  exists p' code, r = Ret (p', code) /\
    (code = EXIT_USAGE <-> usage_error args = true) /\
    (code = ExitCode.SUCCESS -> Console.stderr p' = Console.stderr p) /\
    (code = EXIT_USAGE -> Console.stdout p' = Console.stdout p) /\
    (code = EXIT_CONNECT -> exists command addr rest, args = command :: addr :: rest /\
       command ∈ network_commands) /\
    (code = ExitCode.SUCCESS \/ code = EXIT_CONNECT \/ code = EXIT_USAGE).

(** A failure reported on a stderr that takes it. *)
Lemma fail_with_ret message code (p : console) :
  (forall line, exists err, print line (Console.stderr p) = Ret err) ->
  exists err, fail_with message code p = Ret (Console.set_stderr err p, code).
Proof.
  intros He. destruct (He (message ++ nl)) as [err E]. exists err.
  unfold fail_with, Console.eprintln. by rewrite E.
Qed.

Lemma exits_usage args message (p : console) :
  (forall line, exists err, print line (Console.stderr p) = Ret err) ->
  usage_error args = true -> exits args p (fail_with message EXIT_USAGE p).
Proof.
  intros He Hu. destruct (fail_with_ret message EXIT_USAGE p He) as [err ->].
  eexists _, _. split; [done|]. split; [done|]. split; [done|]. split; [done|]. split; [done|].
  auto.
Qed.

Lemma exits_connect args message out (p : console) :
  (forall line, exists err, print line (Console.stderr p) = Ret err) ->
  usage_error args = false ->
  (exists command addr rest, args = command :: addr :: rest /\ command ∈ network_commands) ->
  exits args p (fail_with message EXIT_CONNECT (Console.set_stdout out p)).
Proof.
  intros He Hu Ha. destruct (fail_with_ret message EXIT_CONNECT (Console.set_stdout out p) He)
    as [err ->]. eexists _, _. split; [done|]. rewrite Hu. split; [done|]. split; [done|].
  split; [done|]. auto.
Qed.

Lemma exits_success args out (p : console) :
  usage_error args = false ->
  exits args p (Ret (Console.set_stdout out p, ExitCode.SUCCESS)).
Proof.
  intros Hu. eexists _, _. split; [done|]. rewrite Hu. split; [done|]. split; [done|].
  split; [done|]. split; [done|]. auto.
Qed.

Lemma set_stdout_id (p : console) : Console.set_stdout (Console.stdout p) p = p.
Proof. by destruct p. Qed.

(** C38: the exit code says what happened. Whatever the arguments, the network and
    the server do, and whether or not stdout can be written, the client returns
    (it does not panic) with one of its three codes: 2 exactly for a usage error
    (an unknown subcommand, or connect or noop without an address), with nothing on
    stdout; 1 only for a connect or noop that was given an address; 0 with nothing
    on stderr. It needs a stderr that takes what is written to it. *)
Theorem cli_exit_codes args (p : console) :
  (forall line, exists err, print line (Console.stderr p) = Ret err) ->
  exits args p (run tcp_connect io_display version args p).
Proof.
  intros He. destruct args as [|command rest]; [by apply exits_success|].
  unfold run. cbn [head lookup list_lookup].
  case_decide as Hh; [apply exits_success; by destruct Hh as [->|[->| ->]]|].
  case_decide as Hc; [subst command|case_decide as Hn; [subst command|]].
  - destruct rest as [|addr rest]; [by apply exits_usage|]. unfold connect. cbn [lookup list_lookup].
    assert (exists command a r, lit "connect" :: addr :: rest = command :: a :: r /\
      command ∈ network_commands) as Ha by (eexists _, _, _; split; [done|by left]).
    destruct (tcp_connect addr) as [stream|e].
    2:{ rewrite <- (set_stdout_id p) at 2. by apply exits_connect. }
    destruct (handshake _) as [tr [welcome|e]].
    2:{ rewrite <- (set_stdout_id p) at 2. by apply exits_connect. }
    destruct (print_welcome _ _ _) as [out [[]|e]]; [by apply exits_success|by apply exits_connect].
  - destruct rest as [|addr rest]; [by apply exits_usage|]. unfold noop. cbn [lookup list_lookup].
    assert (exists command a r, lit "noop" :: addr :: rest = command :: a :: r /\
      command ∈ network_commands) as Ha by (eexists _, _, _; split; [done|by right; left]).
    destruct (tcp_connect addr) as [stream|e].
    2:{ rewrite <- (set_stdout_id p) at 2. by apply exits_connect. }
    destruct (handshake _) as [tr [welcome|e]].
    2:{ rewrite <- (set_stdout_id p) at 2. by apply exits_connect. }
    destruct (ClientSession.noop _ _ tr) as [tr2 [[]|e]].
    2:{ rewrite <- (set_stdout_id p) at 2. by apply exits_connect. }
    destruct (write_fmt _ _) as [out [[]|e]]; [by apply exits_success|by apply exits_connect].
  - case_decide as Ha; [subst command; by apply exits_success|].
    case_decide as Hi; [subst command; by apply exits_success|].
    destruct (He (("graftx: unknown subcommand `" ++ command ++ "`") ++ nl)) as [err E].
    unfold Console.eprintln. rewrite E. eexists _, _. split; [done|]. split.
    { split; [|done]. intros _. unfold usage_error. apply orb_true_intro. right.
      apply bool_decide_eq_true. unfold network_commands, local_commands. cbn [app].
      rewrite !not_elem_of_cons. pose proof (not_elem_of_nil command). tauto. }
    split; [done|]. split; [done|]. split; [done|]. auto.
Qed.
End exit_codes.

Lemma buffer_stderr_works (p : Console.t Buffer.t) line :
  exists err, print line (Console.stderr p) = Ret err.
Proof. by eexists. Qed.

Lemma cli_exit_codes_witness :
  exits [lit "connect"; lit "h:1"] (Console.mk (Buffer.mk []) (Buffer.mk []))
    (run (S := Pipe.t) (fun _ => Err io.Other) (fun _ => lit "refused") "1"
      [lit "connect"; lit "h:1"] (Console.mk (Buffer.mk []) (Buffer.mk []))).
Proof. apply cli_exit_codes. apply buffer_stderr_works. Defined.

(** ** Over a socket *)

(** Connecting reaches a server that makes a session for the connection. *)
Definition listening (s : Session.t) (_addr : text) : io_result Socket.t := Ok (Socket.open s).

Section over_tcp.
Context {W : Type} `{Reliable W}.
Context (io_display : io.ErrorKind -> text) (version : text).

End over_tcp.

