(* ===== verification/OverTcp.v ===== *)
(** A client over TCP: the frames go length-prefixed over a byte stream whose other end
    is the serve loop of a session, and the client cannot tell it from the link of
    EndToEnd. So what WorldSession says of a client over a link holds over TCP, from
    the connection on. *)
From S2P Require Import Wire VkBodies Codecs Contract Handles HandleSpec Effects.
From S2P Require Import Backend VulkanBackend VulkanSafety ApiBackends Session Server.
From S2P Require Import BackendProps SessionProps Transport TransportProps ServeProps.
From S2P Require Import ClientSession ClientShims ClientCall ClientSpec ClientProps EndToEnd.
From S2P Require Import World WorldProps WorldSession Text Process Cli CliProps.

Local Open Scope Z_scope.

(** What a call returns is what it makes of its exchange, over any transport. *)
Lemma then_result {T U A B} (m : C T A) (m' : C U A) (f : A -> C T B) (f' : A -> C U B) t u :
  (m t).2 = (m' u).2 -> (forall a t u, (f a t).2 = (f' a u).2) ->
  ((m ≫= f) t).2 = ((m' ≫= f') u).2.
Proof.
  intros Hm Hf. unfold mbind, C_bind.
  destruct (m t) as [t1 [a|e]], (m' u) as [u1 [a'|e']]; cbn in Hm; try discriminate Hm;
    injection Hm as ->; [apply Hf|done].
Qed.

Lemma expect_kinds_result {T U} kind hs (t : T) (u : U) :
  (expect_kinds kind hs t).2 = (expect_kinds kind hs u).2.
Proof.
  revert t u. induction hs as [|h hs IH]; intros t u; [done|]. cbn [expect_kinds].
  apply then_result; [|intros; apply IH]. unfold expect_kind. by case_decide.
Qed.

Lemma perform_result {T U} `{Transport T, Transport U} c req_id seq (t : T) (u : U) :
  (exchange (call_op c) (call_op c) req_id seq (call_body c) t).2 =
    (exchange (call_op c) (call_op c) req_id seq (call_body c) u).2 ->
  (perform c req_id seq t).2 = (perform c req_id seq u).2.
Proof.
  intros E. destruct c; cbn [call_op call_body perform] in *;
    repeat first
    [ exact E
    | reflexivity
    | apply then_result; [|intros ???]
    | apply expect_kinds_result
    | match goal with
      | |- (protocol _ _).2 = _ => reflexivity
      | |- (expect_kind _ _ _).2 = _ => unfold expect_kind; by case_decide
      end ].
Qed.

(** ** The socket and the link *)

(** The client's end of the connection when no byte is under way. *)
Definition over_tcp (link : Link.t) : StreamTransport.t Socket.t :=
  StreamTransport.new (Socket.mk (Link.server link) [] [] (Link.serving link)).

Section exchange.
Import Socket.

(** A frame that the session refuses ends the connection. *)
Lemma socket_send_refused s frame e :
  Session.handle frame s = Ret (s, Err e) -> short frame ->
  send frame (StreamTransport.new (open s)) = (StreamTransport.new (mk s [] [] false), Ok tt).
Proof.
  intros E Hf. pose proof (short_fits _ Hf) as Hf32.
  cbn [send StreamTransport.transport]. unfold StreamTransport.send.
  rewrite (proj2 (Z.ltb_ge _ _)) by (unfold fits, max_of in *; lia).
  cbn [write_all stream StreamTransport.inner StreamTransport.new StreamTransport.with_max_frame
    open serving server to_server to_client app flush StreamTransport.max_frame].
  unfold serve_once. cbn [to_client to_server].
  change (le_bytes 4 (Z.of_nat (length frame)) ++ frame) with (framed frame).
  rewrite <- (app_nil_r (framed frame)). unfold StreamTransport.new, StreamTransport.with_max_frame.
  cbn [recv StreamTransport.transport].
  rewrite stream_recv by done. cbn [server]. by rewrite E.
Qed.

Lemma socket_send_closed s frame :
  Z.of_nat (length frame) <= max_of 32 ->
  send frame (StreamTransport.new (mk s [] [] false)) =
    (StreamTransport.new (mk s [] [] false), Err io.BrokenPipe).
Proof.
  intros Hf. cbn [send StreamTransport.transport]. unfold StreamTransport.send.
  by rewrite (proj2 (Z.ltb_ge _ _)).
Qed.

Lemma socket_recv_closed s :
  recv (StreamTransport.new (mk s [] [] false)) =
    (StreamTransport.new (mk s [] [] false), Err io.UnexpectedEof).
Proof. done. Qed.

(** What the session answers is short enough for the stream. *)
Lemma answered_short n frame s s' h rbody :
  Session.ready (S n) s -> Session.handle frame s = Ret (s', Ok (encode_frame h rbody)) ->
  (length rbody <= MAX_BODY)%nat.
Proof.
  intros Hs E. destruct (session_handle_answered n frame s Hs) as (s2 & r & E2 & _ & Hm).
  rewrite E in E2. injection E2 as <- <-. destruct Hm as (h2 & b & rb & _ & _ & _ & [Ef Hl]).
  apply (f_equal length) in Ef. rewrite !encode_frame_length in Ef. lia.
Qed.

Lemma client_frame_short op q sq body :
  (length body <= 32)%nat -> Z.of_nat (length (client_frame op q sq body)) <= max_of 32.
Proof.
  intros Hb. pose proof (short_fits _ (short_frame (FrameHeader.mk PROTOCOL_MAJOR 0
    FrameKind.Request op q sq (wrap 32 (Z.of_nat (length body)))) body Hb)) as Hf.
  unfold fits, max_of in *. unfold client_frame. lia.
Qed.

(** An exchange does over TCP what it does over the link. *)
Lemma exchange_over_tcp n op q sq body link :
  (Link.serving link = true -> Session.ready (S n) (Link.server link)) ->
  Link.replies link = [] -> fits 32 op -> fits 32 q -> fits 64 sq ->
  op <> core_op.HELLO -> (length body <= 32)%nat ->
  Z.of_nat (length body) <= Session.max_frame_body (Link.server link) ->
  let r := exchange op op q sq body link in
  exchange op op q sq body (over_tcp link) = (over_tcp r.1, r.2) /\
  Link.replies r.1 = [] /\
  (Link.serving r.1 = true -> Session.ready n (Link.server r.1)) /\
  Session.max_frame_body (Link.server r.1) = Session.max_frame_body (Link.server link).
Proof.
  intros Hs Hr Ho Hq Hsq Hh Hb Hl. destruct link as [s rs v]. cbn in Hs, Hr, Hl. subst rs.
  destruct v.
  - destruct (exchange_link n op q sq body s)
      as [(s' & rbody & E & Hs' & _ & Hm & _ & Eh)|(e & E & Eh)];
      [by apply Hs|exact Ho|exact Hq|exact Hsq|exact Hl| |];
      rewrite decide_False in E by done; rewrite E;
      cbn [fst snd Link.replies Link.server Link.serving];
      change (over_tcp (Link.mk s [] true)) with (StreamTransport.new (open s)).
    + rewrite decide_False in Eh by done. split; [|split; [done|split; [done|by apply Hm]]].
      pose proof (Session.ready_seq _ _ (Hs eq_refl)).
      apply socket_exchange; [exact Eh|done|done| |by eapply answered_short, Eh; apply Hs|done].
      unfold fits, max_of in *. lia.
    + split; [|done]. rewrite exchange_cases, (socket_send_refused _ _ _ Eh); [by rewrite socket_recv_closed|].
      by apply short_frame.
  - rewrite !exchange_cases. unfold over_tcp. cbn [Link.server Link.serving].
    rewrite socket_send_closed by (by apply client_frame_short). done.
Qed.
End exchange.

Lemma perform_over_tcp n c q sq link :
  (Link.serving link = true -> Session.ready (S n) (Link.server link)) ->
  Link.replies link = [] -> fits 32 q -> fits 64 sq ->
  32 <= Session.max_frame_body (Link.server link) ->
  let r := perform c q sq link in
  perform c q sq (over_tcp link) = (over_tcp r.1, r.2) /\
  Link.replies r.1 = [] /\
  (Link.serving r.1 = true -> Session.ready n (Link.server r.1)) /\
  Session.max_frame_body (Link.server r.1) = Session.max_frame_body (Link.server link).
Proof.
  intros Hs Hr Hq Hsq Hmax. pose proof (call_body_short c) as Hl.
  destruct (exchange_over_tcp n (call_op c) q sq (call_body c) link Hs Hr (call_op_fits c) Hq Hsq)
    as (E & Hrest); [apply call_op_not_core|done|lia|].
  cbv zeta. rewrite (perform_state c q sq link). split; [|exact Hrest].
  rewrite (surjective_pairing (perform c q sq (over_tcp link))), perform_state, E.
  cbn [fst]. f_equal. apply perform_result. by rewrite E.
Qed.

(** ** A run of calls *)
Definition client_over_tcp (cl : Client.t Link.t) : Client.t (StreamTransport.t Socket.t) :=
  Client.mk (over_tcp (Client.transport cl)) (Client.next_req_id cl) (Client.next_seq cl)
    (Client.session_id cl).

Lemma run_over_tcp cs n cl :
  let link := Client.transport cl in
  (Link.serving link = true -> Session.ready (length cs + n) (Link.server link)) ->
  Link.replies link = [] -> fits 32 (Client.next_req_id cl) -> fits 64 (Client.next_seq cl) ->
  32 <= Session.max_frame_body (Link.server link) ->
  run_link cs (client_over_tcp cl) =
    (client_over_tcp (run_link cs cl).1, (run_link cs cl).2).
Proof.
  revert cl. induction cs as [|c cs IH]; intros [link q sq sid]; cbv zeta;
    cbn [Client.transport Client.next_req_id Client.next_seq length plus];
    intros Hs Hr Hq Hsq Hmax; [done|].
  destruct (perform_over_tcp (length cs + n) c q sq link Hs Hr Hq Hsq Hmax)
    as (E & Hr1 & Hs1 & Hm1).
  unfold client_over_tcp at 1.
  cbn [run_link Client.transport Client.next_req_id Client.next_seq Client.session_id].
  unfold Client.delegate, Client.next_ids.
  cbn [Client.transport Client.next_req_id Client.next_seq Client.session_id].
  rewrite E. destruct (perform c q sq link) as [link1 r]. cbn [fst snd] in *.
  pose proof (IH (Client.mk link1 (saturating_add 32 q 1) (saturating_add 64 sq 1) sid)) as IH'.
  unfold client_over_tcp at 1 in IH'.
  cbn [Client.transport Client.next_req_id Client.next_seq Client.session_id] in IH'.
  rewrite IH'; [by destruct (run_link cs (Client.mk link1 _ _ _))|exact Hs1|exact Hr1| | |by rewrite Hm1];
    unfold fits, saturating_add, max_of in *; lia.
Qed.

(** ** From the connection on *)
Definition served (api : ApiId) : Prop := api = Vulkan \/ api = OpenGl.

Lemma make_session_serves sid api : serves (Server.make_session sid) api <-> served api.
Proof.
  assert (match Session.backends (Server.make_session sid) !! api_byte api with
    | Some _ => true | None => false end = bool_decide (api_byte api = 1 \/ api_byte api = 2))
    as E by (destruct api; vm_compute; reflexivity).
  unfold serves, served.
  destruct (Session.backends (Server.make_session sid) !! api_byte api); symmetry in E.
  - apply bool_decide_eq_true in E. split; [|by eexists]. intros _. by destruct api, E; auto.
  - apply bool_decide_eq_false in E. split; [by intros []|]. intros [-> | ->]; destruct E; auto.
Qed.

Lemma make_session_max sid : 12 <= Session.max_frame_body (Server.make_session sid).
Proof. by vm_compute. Qed.

Lemma shaken_max s : 32 <= Session.max_frame_body (advanced (negotiated client_hello s)).
Proof. by vm_compute. Qed.

(** After the handshake with the server binary's session, over a link. *)
Lemma make_session_run sid cs :
  fits 64 sid -> Z.of_nat (length cs) < 2 ^ 32 ->
  let s := advanced (negotiated client_hello (Server.make_session sid)) in
  exists cl rs w, run_link cs (Client.mk (Link.mk s [] true) 2 2 sid) = (cl, rs) /\
    calls_run served empty_world cs rs w /\
    session_stands 0 (Link.server (Client.transport cl)) w /\
    Session.ready (length cs + 0) s.
Proof.
  intros Hsid Hn s0. set (s := Server.make_session sid) in *.
  assert (Session.ready (S (length cs + 0)) s) as Hs.
  { apply make_session_ready; [done|]. rewrite Nat.add_0_r. lia. }
  destruct (client_hello_answered _ s Hs (make_session_max sid)) as [_ Hr]. fold s0 in Hr.
  assert (session_stands (length cs + 0) s0 empty_world) as Hw.
  { apply (session_stands_same _ s); [done|]. apply make_session_stands. lia. }
  destruct (client_sees_world cs 0 2 2 sid s0 empty_world)
    as (cl & rs & w & E & Hrun & Hend); [exact Hr|exact Hw|apply shaken_max|apply first_ids_fit..|].
  exists cl, rs, w. split; [exact E|]. split; [|by split].
  eapply calls_run_served; [|exact Hrun]. intros api. exact (make_session_serves sid api).
Qed.


