(* ===== verification/Fuzz.v ===== *)
(** The decoder fuzzer (crates/graftx-fuzz/src/main.rs): its generator, the buffers it
    makes, the decoders it feeds them to, and the binary.

    A decoder's result is dropped by the source; here [exercise] keeps whether each
    one accepted the buffer, so that what a buffer exercises can be stated. *)
From Stdlib Require Import Ascii.
From S2P Require Import Wire VkBodies ApiBodies Codecs Text Process.

Local Open Scope Z_scope.

Definition DEFAULT_ITERS : Z := 100000.
Definition MAX_BUF_LEN : nat := 64.

(** ** The generator *)
Module Lcg.
Record t := mk { state : Z }.

Definition new (seed : Z) : t := mk seed.

Definition next_u64 (self : t) : t * Z :=
  let state := wrap 64 (wrap 64 (state self * 6364136223846793005) + 1442695040888963407) in
  (mk state, state).

(** The remainder panics for a zero bound. *)
Definition next_below (bound : Z) (self : t) : outcome (t * Z) :=
  let '(self, x) := next_u64 self in
  if bound =? 0 then Panic else Ret (self, x mod bound).
End Lcg.

(** ** The buffers *)

(** The loop of [fill_buf]; each turn appends the bytes of one draw, or fewer. *)
Fixpoint fill_loop (fuel len : nat) (rng : Lcg.t) (buf : list byte)
  : option (Lcg.t * list byte) :=
  if decide (length buf < len)%nat then
    match fuel with
    | O => None
    | S fuel =>
      let '(rng, x) := Lcg.next_u64 rng in
      let word := le_bytes 8 x in
      let take_ := Nat.min (len - length buf) (length word) in
      fill_loop fuel len rng (buf ++ take take_ word)
    end
  else Some (rng, buf).

(** [None]: the loop is out of fuel. *)
Definition fill_buf (fuel : nat) (rng : Lcg.t) : option (outcome (Lcg.t * list byte)) :=
  match Lcg.next_below (Z.of_nat (MAX_BUF_LEN + 1)) rng with
  | Panic => Some Panic
  | Ret (rng, len) =>
    match fill_loop fuel (Z.to_nat len) rng [] with
    | None => None
    | Some r => Some (Ret r)
    end
  end.

(** ** The decoders *)
Definition entry {A} (name : string) (decode : list byte -> presult A)
  : string * (list byte -> bool) := (name, fun buf => is_ok (decode buf)).

Definition entrypoints : list (string * (list byte -> bool)) := [
  entry "decode_frame" decode_frame;
  entry "Hello::decode" Hello.decode;
  entry "Welcome::decode" Welcome.decode;
  entry "vk::CreateInstanceRequest::decode" vk.CreateInstanceRequest.decode;
  entry "vk::CreateInstanceResponse::decode" vk.CreateInstanceResponse.decode;
  entry "vk::EnumeratePhysicalDevicesRequest::decode" vk.EnumeratePhysicalDevicesRequest.decode;
  entry "vk::EnumeratePhysicalDevicesResponse::decode" vk.EnumeratePhysicalDevicesResponse.decode;
  entry "vk::CreateDeviceRequest::decode" vk.CreateDeviceRequest.decode;
  entry "vk::CreateDeviceResponse::decode" vk.CreateDeviceResponse.decode;
  entry "vk::GetDeviceQueueRequest::decode" vk.GetDeviceQueueRequest.decode;
  entry "vk::GetDeviceQueueResponse::decode" vk.GetDeviceQueueResponse.decode;
  entry "vk::AllocateMemoryRequest::decode" vk.AllocateMemoryRequest.decode;
  entry "vk::AllocateMemoryResponse::decode" vk.AllocateMemoryResponse.decode;
  entry "vk::CreateBufferRequest::decode" vk.CreateBufferRequest.decode;
  entry "vk::CreateBufferResponse::decode" vk.CreateBufferResponse.decode;
  entry "vk::BindBufferMemoryRequest::decode" vk.BindBufferMemoryRequest.decode;
  entry "vk::CreateCommandPoolRequest::decode" vk.CreateCommandPoolRequest.decode;
  entry "vk::CreateCommandPoolResponse::decode" vk.CreateCommandPoolResponse.decode;
  entry "vk::AllocateCommandBufferRequest::decode" vk.AllocateCommandBufferRequest.decode;
  entry "vk::AllocateCommandBufferResponse::decode" vk.AllocateCommandBufferResponse.decode;
  entry "vk::QueueSubmitRequest::decode" vk.QueueSubmitRequest.decode;
  entry "vk::CmdCopyBufferRequest::decode" vk.CmdCopyBufferRequest.decode;
  entry "vk::CmdDrawRequest::decode" vk.CmdDrawRequest.decode;
  entry "vk::DestroyBufferRequest::decode" vk.DestroyBufferRequest.decode;
  entry "vk::FreeMemoryRequest::decode" vk.FreeMemoryRequest.decode;
  entry "vk::DestroyCommandPoolRequest::decode" vk.DestroyCommandPoolRequest.decode;
  entry "gl::CreateContextResponse::decode" gl.CreateContextResponse.decode;
  entry "gl::MakeCurrentRequest::decode" gl.MakeCurrentRequest.decode;
  entry "gl::GenBufferRequest::decode" gl.GenBufferRequest.decode;
  entry "gl::GenBufferResponse::decode" gl.GenBufferResponse.decode;
  entry "cuda::CtxCreateRequest::decode" cuda.CtxCreateRequest.decode;
  entry "cuda::CtxCreateResponse::decode" cuda.CtxCreateResponse.decode;
  entry "cuda::MemAllocRequest::decode" cuda.MemAllocRequest.decode;
  entry "cuda::MemAllocResponse::decode" cuda.MemAllocResponse.decode;
  entry "cuda::MemFreeRequest::decode" cuda.MemFreeRequest.decode;
  entry "hip::MallocRequest::decode" hip.MallocRequest.decode;
  entry "hip::MallocResponse::decode" hip.MallocResponse.decode;
  entry "hip::FreeRequest::decode" hip.FreeRequest.decode;
  entry "hip::StreamCreateResponse::decode" hip.StreamCreateResponse.decode;
  entry "cl::CreateContextResponse::decode" cl.CreateContextResponse.decode;
  entry "cl::CreateBufferRequest::decode" cl.CreateBufferRequest.decode;
  entry "cl::CreateBufferResponse::decode" cl.CreateBufferResponse.decode;
  entry "cl::ReleaseBufferRequest::decode" cl.ReleaseBufferRequest.decode;
  entry "l0::ContextCreateResponse::decode" l0.ContextCreateResponse.decode;
  entry "l0::MemAllocDeviceRequest::decode" l0.MemAllocDeviceRequest.decode;
  entry "l0::MemAllocDeviceResponse::decode" l0.MemAllocDeviceResponse.decode;
  entry "l0::MemFreeRequest::decode" l0.MemFreeRequest.decode;
  entry "video::CreateDecodeSessionRequest::decode" video.CreateDecodeSessionRequest.decode;
  entry "video::CreateDecodeSessionResponse::decode" video.CreateDecodeSessionResponse.decode;
  entry "video::DecodeFrameRequest::decode" video.DecodeFrameRequest.decode;
  entry "video::DecodeFrameResponse::decode" video.DecodeFrameResponse.decode;
  entry "video::DestroySessionRequest::decode" video.DestroySessionRequest.decode;
  entry "wgpu::RequestDeviceResponse::decode" wgpu.RequestDeviceResponse.decode;
  entry "wgpu::CreateBufferRequest::decode" wgpu.CreateBufferRequest.decode;
  entry "wgpu::CreateBufferResponse::decode" wgpu.CreateBufferResponse.decode;
  entry "wgpu::DestroyBufferRequest::decode" wgpu.DestroyBufferRequest.decode;
  entry "optix::ContextCreateResponse::decode" optix.ContextCreateResponse.decode;
  entry "optix::PipelineCreateRequest::decode" optix.PipelineCreateRequest.decode;
  entry "optix::PipelineCreateResponse::decode" optix.PipelineCreateResponse.decode;
  entry "optix::DestroyRequest::decode" optix.DestroyRequest.decode;
  entry "sycl::QueueCreateResponse::decode" sycl.QueueCreateResponse.decode;
  entry "sycl::MallocDeviceRequest::decode" sycl.MallocDeviceRequest.decode;
  entry "sycl::MallocDeviceResponse::decode" sycl.MallocDeviceResponse.decode;
  entry "sycl::FreeRequest::decode" sycl.FreeRequest.decode;
  entry "amf::CreateEncoderRequest::decode" amf.CreateEncoderRequest.decode;
  entry "amf::CreateEncoderResponse::decode" amf.CreateEncoderResponse.decode;
  entry "amf::EncodeFrameRequest::decode" amf.EncodeFrameRequest.decode;
  entry "amf::EncodeFrameResponse::decode" amf.EncodeFrameResponse.decode;
  entry "amf::DestroyEncoderRequest::decode" amf.DestroyEncoderRequest.decode ].

Definition exercise (buf : list byte) : list bool := map (fun e => e.2 buf) entrypoints.

(** ** The loop and the binary *)

(** Eight turns of [fill_loop] fill the largest buffer. *)
Definition FILL_FUEL : nat := 8.

(** The loop of [fuzz_iter], with the buffers it feeds in order. *)
Fixpoint fuzz_loop (n : nat) (rng : Lcg.t) : option (outcome (list (list byte))) :=
  match n with
  | O => Some (Ret [])
  | S n =>
    match fill_buf FILL_FUEL rng with
    | None => None
    | Some Panic => Some Panic
    | Some (Ret (rng, buf)) =>
      match fuzz_loop n rng with
      | None => None
      | Some r => Some (bufs ← r; Ret (buf :: bufs))
      end
    end
  end.

Definition fuzz_iter (seed n : Z) : option (outcome Z) :=
  match fuzz_loop (Z.to_nat n) (Lcg.new seed) with
  | None => None
  | Some Panic => Some Panic
  | Some (Ret bufs) => let _ := map exercise bufs in Some (Ret n)
  end.

Definition parse_iters (arg : option text) : option Z :=
  match arg with Some s => parse_uint 64 s | None => Some DEFAULT_ITERS end.

Definition SEED : Z := 0x9E3779B97F4A7C15.

Definition fuzz_main {W} `{Write W} (args : list text) (p : Console.t W)
  : option (outcome (Console.t W * Z)) :=
  match parse_iters (head args) with
  | None =>
    Some (p ← Console.eprintln "usage: graftx-fuzz [iterations]" p; Ret (p, ExitCode.FAILURE))
  | Some n =>
    match fuzz_iter SEED n with
    | None => None
    | Some r =>
      Some (processed ← r;
        p ← Console.println ("graftx-fuzz: exercised " ++ dec processed ++ " inputs (seed " ++
          hex_prefixed 18 SEED ++ ") with no panic") p;
        Ret (p, ExitCode.SUCCESS))
    end
  end.
