(* ===== verification/FuzzProps.v ===== *)
(** The fuzzer: the period of its generator, the buffers it makes, what they
    exercise, and what they do not. *)
From S2P Require Import Wire VkBodies ApiBodies Codecs WireProps Text Process Fuzz.

Local Open Scope Z_scope.

(** ** The period of the generator

    The draws are the orbit of the affine map x -> a x + c modulo 2^64. Its n-th
    iterate adds a multiple of the geometric sum of a up to n, which a power of two
    divides exactly when it divides n. *)
Fixpoint geo (a : Z) (n : nat) : Z :=
  match n with O => 0 | S n => 1 + a * geo a n end.

Lemma geo_pow a n : (a - 1) * geo a n = a ^ Z.of_nat n - 1.
Proof.
  induction n as [|n IH]; [cbn; lia|]. cbn [geo]. rewrite Nat2Z.inj_succ, Z.pow_succ_r by lia. lia.
Qed.

Lemma geo_plus a n m : geo a (n + m) = geo a n + a ^ Z.of_nat n * geo a m.
Proof.
  induction n as [|n IH]; cbn [plus geo]; [lia|].
  rewrite IH, Nat2Z.inj_succ, Z.pow_succ_r by lia. lia.
Qed.

Section period.
Context (a c : Z).
Hypothesis Ha : a mod 4 = 1.
Hypothesis Hc : c mod 2 = 1.

Lemma pow_mod4 n : a ^ Z.of_nat n mod 4 = 1.
Proof.
  induction n as [|n IH]; [done|].
  rewrite Nat2Z.inj_succ, Z.pow_succ_r, Z.mul_mod, Ha, IH by lia. done.
Qed.

Lemma geo_parity n : geo a n mod 2 = Z.of_nat n mod 2.
Proof.
  assert (a mod 2 = 1) as Ha2.
  { rewrite (Z.div_mod a 4), Ha by lia.
    replace (4 * (a / 4) + 1) with (1 + (2 * (a / 4)) * 2) by lia. by rewrite Z.mod_add by lia. }
  induction n as [|n IH]; [done|]. cbn [geo].
  rewrite Nat2Z.inj_succ, Z.add_mod, (Z.mul_mod a), Ha2, IH by lia.
  rewrite <- Z.add_1_l, (Z.add_mod 1 (Z.of_nat n)) by lia.
  f_equal. f_equal. rewrite Z.mul_1_l. apply Z.mod_mod. lia.
Qed.

(** A power of two divides an odd multiple when it divides what is multiplied. *)
Lemma divide_odd_multiple k x y :
  y mod 2 = 1 -> (2 ^ Z.of_nat k | x * y) <-> (2 ^ Z.of_nat k | x).
Proof.
  intros Hy. split; [|by apply Z.divide_mul_l].
  revert x. induction k as [|k IH]; intros x Hd; [apply Z.divide_1_l|].
  rewrite Nat2Z.inj_succ, Z.pow_succ_r in * by lia.
  assert (x mod 2 = 0) as Hx.
  { destruct Hd as [q Hq]. assert ((x * y) mod 2 = 0) as Hxy.
    { rewrite Hq. replace (q * (2 * 2 ^ Z.of_nat k)) with (q * 2 ^ Z.of_nat k * 2) by lia.
      apply Z.mod_mul. lia. }
    rewrite Z.mul_mod, Hy, Z.mul_1_r, Z.mod_mod in Hxy by lia. done. }
  pose proof (Z.div_mod x 2). replace x with (2 * (x / 2)) in * by lia.
  rewrite <- Z.mul_assoc in Hd. rewrite Z.mul_divide_cancel_l in * by lia. by apply IH.
Qed.

Lemma geo_divide k n : (2 ^ Z.of_nat k | geo a n) <-> (2 ^ Z.of_nat k | Z.of_nat n).
Proof.
  revert n. induction k as [|k IH]; intros n.
  { split; intros _; apply Z.divide_1_l. }
  pose proof (geo_parity n) as Hp.
  destruct (Nat.Even_or_Odd n) as [[m ->]|[m ->]].
  - replace (2 * m)%nat with (m + m)%nat by lia. rewrite geo_plus.
    pose proof (pow_mod4 m) as Hm. set (q := a ^ Z.of_nat m) in *.
    assert (1 + q = 2 * (2 * (q / 4) + 1)) as Eq.
    { pose proof (Z.div_mod q 4). lia. }
    replace (geo a m + q * geo a m) with (2 * (geo a m * (2 * (q / 4) + 1))) by nia.
    rewrite Nat2Z.inj_add, Nat2Z.inj_succ, Z.pow_succ_r by lia.
    replace (Z.of_nat m + Z.of_nat m) with (2 * Z.of_nat m) by lia.
    rewrite !Z.mul_divide_cancel_l by lia. rewrite divide_odd_multiple; [apply IH|].
    rewrite Z.add_comm, Z.mul_comm, Z.mod_add by lia. done.
  - assert (Z.of_nat (2 * m + 1) mod 2 = 1) as Ho.
    { replace (Z.of_nat (2 * m + 1)) with (1 + Z.of_nat m * 2) by lia. by rewrite Z.mod_add by lia. }
    rewrite Ho in Hp. rewrite Nat2Z.inj_succ, Z.pow_succ_r by lia.
    assert (forall z, z mod 2 = 1 -> ~ (2 * 2 ^ Z.of_nat k | z)) as Hno.
    { intros z Hz [q ->]. replace (q * (2 * 2 ^ Z.of_nat k)) with (q * 2 ^ Z.of_nat k * 2) in Hz by lia.
      by rewrite Z.mod_mul in Hz by lia. }
    split; intros Hd; by eapply Hno in Hd.
Qed.

Definition affine (x : Z) : Z := a * x + c.

Lemma iter_affine n x : Nat.iter n affine x = x + geo a n * ((a - 1) * x + c).
Proof.
  induction n as [|n IH]; [cbn; lia|]. cbn [geo]. rewrite Nat.iter_succ, IH. unfold affine.
  assert (x + (1 + a * geo a n) * ((a - 1) * x + c) = a * (x + geo a n * ((a-1) * x + c)) + c) by nia.
  lia.
Qed.

(** The orbit meets itself modulo 2^k after a multiple of 2^k steps, and only then. *)
Lemma orbit_period k n x :
  (Nat.iter n affine x) mod 2 ^ Z.of_nat k = x mod 2 ^ Z.of_nat k <->
  (2 ^ Z.of_nat k | Z.of_nat n).
Proof.
  assert (0 < 2 ^ Z.of_nat k) by lia.
  rewrite <- geo_divide, <- (divide_odd_multiple k (geo a n) ((a - 1) * x + c)).
  - rewrite Z.cong_iff_0, Z.mod_divide, iter_affine by lia.
    replace (x + geo a n * ((a - 1) * x + c) - x) with (geo a n * ((a - 1) * x + c)) by lia. done.
  - pose proof (Z.div_mod a 4).
    replace ((a - 1) * x + c) with (c + (2 * (a / 4) * x) * 2) by lia.
    by rewrite Z.mod_add by lia.
Qed.
End period.

(** ** The draws *)
Definition MULTIPLIER : Z := 6364136223846793005.
Definition INCREMENT : Z := 1442695040888963407.

(** The state after some draws. *)
Definition draws (n : nat) (rng : Lcg.t) : Lcg.t := Nat.iter n (fun r => (Lcg.next_u64 r).1) rng.

Lemma next_u64_affine rng :
  Lcg.state (Lcg.next_u64 rng).1 = wrap 64 (affine MULTIPLIER INCREMENT (Lcg.state rng)).
Proof.
  cbn [Lcg.next_u64 fst Lcg.state]. unfold wrap, affine.
  rewrite Z.add_mod_idemp_l by done. by rewrite (Z.mul_comm _ (Lcg.state rng)).
Qed.

Lemma draws_affine n rng :
  Lcg.state (draws n rng) mod 2 ^ 64 =
  Nat.iter n (affine MULTIPLIER INCREMENT) (Lcg.state rng) mod 2 ^ 64.
Proof.
  induction n as [|n IH]; [done|]. unfold draws in *. rewrite !Nat.iter_succ.
  rewrite next_u64_affine. unfold wrap. rewrite Z.mod_mod by done.
  unfold affine at 1 3. rewrite Z.add_mod, Z.mul_mod, IH, <- Z.mul_mod, <- Z.add_mod by done. done.
Qed.

Lemma mod_pow_le x y k :
  (k <= 64)%nat -> x mod 2 ^ 64 = y mod 2 ^ 64 -> x mod 2 ^ Z.of_nat k = y mod 2 ^ Z.of_nat k.
Proof.
  intros Hk E. assert (forall z, (z mod 2 ^ 64) mod 2 ^ Z.of_nat k = z mod 2 ^ Z.of_nat k) as Hm.
  { intros z. apply Z.mod_mod_divide.
    exists (2 ^ (64 - Z.of_nat k)). rewrite <- Z.pow_add_r by lia. f_equal. lia. }
  by rewrite <- (Hm x), <- (Hm y), E.
Qed.

(** C28: the fuzzer's generator has the full period, and each of its low bits its
    own. From any seed, and for any k up to 64, the states after n and m draws agree
    in their low k bits exactly when n and m agree modulo 2^k: in 64 bits, the states
    after fewer than 2^64 draws are all different and then start over, while the low
    byte of the draws repeats every 256 draws. *)
Theorem lcg_full_period k n m rng :
  (k <= 64)%nat ->
  Lcg.state (draws n rng) mod 2 ^ Z.of_nat k = Lcg.state (draws m rng) mod 2 ^ Z.of_nat k <->
  Z.of_nat n mod 2 ^ Z.of_nat k = Z.of_nat m mod 2 ^ Z.of_nat k.
Proof.
  intros Hk.
  assert (forall n m, (m <= n)%nat ->
    Lcg.state (draws n rng) mod 2 ^ Z.of_nat k = Lcg.state (draws m rng) mod 2 ^ Z.of_nat k <->
    Z.of_nat n mod 2 ^ Z.of_nat k = Z.of_nat m mod 2 ^ Z.of_nat k) as H.
  { clear n m. intros n m Hle. assert (0 < 2 ^ Z.of_nat k) by lia.
    rewrite (mod_pow_le _ _ k Hk (draws_affine n rng)), (mod_pow_le _ _ k Hk (draws_affine m rng)).
    assert (forall f (x : Z), Nat.iter n f x = Nat.iter (n - m) f (Nat.iter m f x)) as ->.
    { intros f x. rewrite <- Nat.iter_add. f_equal. lia. }
    rewrite orbit_period by done.
    rewrite (Z.cong_iff_0 (Z.of_nat n)), Z.mod_divide by lia.
    by rewrite Nat2Z.inj_sub. }
  destruct (Nat.le_gt_cases m n) as [Hle|Hlt]; [by apply H|].
  specialize (H m n ltac:(lia)). split; intros E; symmetry; apply H; by symmetry.
Qed.

Lemma lcg_full_period_witness :
  Lcg.state (draws 259 (Lcg.new SEED)) mod 2 ^ 8 = Lcg.state (draws 3 (Lcg.new SEED)) mod 2 ^ 8.
Proof. apply (lcg_full_period 8 259 3 (Lcg.new SEED)); [lia|reflexivity]. Defined.

(** ** The buffers *)
Lemma fill_loop_spec fuel len rng buf :
  (length buf <= len <= length buf + 8 * fuel)%nat ->
  exists rng' buf', fill_loop fuel len rng buf = Some (rng', buf') /\ length buf' = len.
Proof.
  revert rng buf. induction fuel as [|fuel IH]; intros rng buf Hl; cbn [fill_loop].
  - rewrite decide_False by lia. exists rng, buf. split; [done|lia].
  - case_decide as Hd; [|exists rng, buf; split; [done|lia]].
    destruct (Lcg.next_u64 rng) as [rng' x]. rewrite length_le_bytes.
    apply IH. rewrite length_app, length_take, length_le_bytes. lia.
Qed.

Lemma fill_buf_spec rng :
  exists rng' buf, fill_buf FILL_FUEL rng = Some (Ret (rng', buf)) /\
    length buf = Z.to_nat ((Lcg.next_u64 rng).2 mod 65) /\ (length buf <= MAX_BUF_LEN)%nat.
Proof.
  unfold fill_buf, Lcg.next_below. change (Z.of_nat (MAX_BUF_LEN + 1)) with 65.
  destruct (Lcg.next_u64 rng) as [rng1 x].
  cbn [Z.eqb fst snd]. pose proof (Z.mod_pos_bound x 65 ltac:(lia)) as Hx.
  destruct (fill_loop_spec FILL_FUEL (Z.to_nat (x mod 65)) rng1 []) as (rng' & buf & -> & Hl).
  { unfold FILL_FUEL. cbn [length]. lia. }
  exists rng', buf. split; [done|]. split; [done|]. rewrite Hl. unfold MAX_BUF_LEN. lia.
Qed.

Lemma fuzz_loop_spec n rng :
  exists bufs, fuzz_loop n rng = Some (Ret bufs) /\ length bufs = n /\
    Forall (fun buf => (length buf <= MAX_BUF_LEN)%nat) bufs.
Proof.
  revert rng. induction n as [|n IH]; intros rng; cbn [fuzz_loop]; [by exists []|].
  destruct (fill_buf_spec rng) as (rng' & buf & -> & _ & Hb).
  destruct (IH rng') as (bufs & -> & Hl & Hbs). exists (buf :: bufs). cbn.
  split; [done|]. split; [by rewrite Hl|by constructor].
Qed.

Lemma fuzz_iter_returns seed n : fuzz_iter seed n = Some (Ret n).
Proof.
  unfold fuzz_iter. by destruct (fuzz_loop_spec (Z.to_nat n) (Lcg.new seed)) as (bufs & -> & _).
Qed.

(** The fuzzer ends. For every seed and count it makes that many buffers, each
    of at most 64 bytes, within eight turns of the filling loop per buffer, and
    returns the count; the binary fails exactly on an argument that is not a
    number, and otherwise reports the count it was given or the default. *)
Theorem fuzz_ends {W} `{Reliable W} seed n args (p : Console.t W) :
  0 <= n ->
  (exists bufs, fuzz_loop (Z.to_nat n) (Lcg.new seed) = Some (Ret bufs) /\
     Z.of_nat (length bufs) = n /\ Forall (fun buf => (length buf <= MAX_BUF_LEN)%nat) bufs /\
     fuzz_iter seed n = Some (Ret n)) /\
  (exists p' code, fuzz_main args p = Some (Ret (p', code)) /\
     match parse_iters (head args) with
     | None => code = ExitCode.FAILURE /\ Console.stdout p' = Console.stdout p
     | Some iters => code = ExitCode.SUCCESS /\ Console.stderr p' = Console.stderr p /\
         content (Console.stdout p') = content (Console.stdout p) ++
           "graftx-fuzz: exercised " ++ dec iters ++
           " inputs (seed 0x9e3779b97f4a7c15) with no panic" ++ nl
     end).
Proof.
  intros Hn. split.
  - destruct (fuzz_loop_spec (Z.to_nat n) (Lcg.new seed)) as (bufs & E & Hl & Hb).
    exists bufs. split; [done|]. split; [lia|]. split; [done|apply fuzz_iter_returns].
  - unfold fuzz_main. destruct (parse_iters (head args)) as [iters|].
    + rewrite fuzz_iter_returns. cbn [mbind outcome_bind].
      destruct (println_reliable ("graftx-fuzz: exercised " ++ dec iters ++ " inputs (seed " ++
        hex_prefixed 18 SEED ++ ") with no panic") p) as (p' & E & Ho & He).
      rewrite E. exists p', ExitCode.SUCCESS. split; [done|]. split; [done|]. split; [done|].
      rewrite Ho. f_equal. rewrite <- !app_assoc. do 3 f_equal.
    + destruct (eprintln_reliable "usage: graftx-fuzz [iterations]" p) as (p' & -> & _ & Ho).
      exists p', ExitCode.FAILURE. done.
Qed.

Lemma fuzz_ends_witness :
  exists bufs, fuzz_loop 5 (Lcg.new 1) = Some (Ret bufs) /\ Z.of_nat (length bufs) = 5 /\
    fuzz_iter 1 5 = Some (Ret 5).
Proof.
  destruct (fuzz_ends 1 5 [] (Console.mk (Buffer.mk []) (Buffer.mk []))) as [(bufs & E & Hl & _ & Hi) _];
    [lia|].
  exists bufs. split; [exact E|]. split; [exact Hl|exact Hi].
Defined.

(** ** What the buffers exercise *)

(** The decoders of fixed-size bodies the fuzzer leaves out, and the others. *)
Definition missed_codecs : list Codec := [
  codec gl.SwapBuffersRequest.t 8; codec gl.DeleteBufferRequest.t 8;
  codec cuda.LaunchKernelRequest.t 32; codec cuda.MemcpyHtoDRequest.t 16;
  codec cuda.MemcpyDtoHRequest.t 16; codec cuda.MemcpyDtoHResponse.t 8 ].

Definition fuzzed : list Codec :=
  take 28 codecs ++ take 5 (drop 30 codecs) ++ drop 39 codecs.

Lemma codecs_split :
  codecs = take 28 codecs ++ take 2 missed_codecs ++ take 5 (drop 30 codecs) ++
    drop 2 missed_codecs ++ drop 39 codecs.
Proof. reflexivity. Qed.

(** Whether a codec accepts a buffer. *)
Definition accepts (buf : list byte) (c : Codec) : bool :=
  is_ok (@body_decode _ (codec_body c) buf).

Lemma accepts_by_length buf c :
  c ∈ codecs -> accepts buf c = bool_decide (codec_len c <= length buf)%nat.
Proof.
  intros Hc. pose proof (proj1 (Forall_forall _ _) codecs_lawful c Hc) as HF. unfold lawful in HF.
  unfold accepts. destruct (decide (codec_len c <= length buf)%nat) as [Hl|Hl].
  - rewrite bool_decide_true by done. destruct (proj2 (fixed_decode_ok HF buf) Hl) as [x E].
    by rewrite E.
  - rewrite bool_decide_false by done.
    destruct (fixed_decode _ _ HF buf) as [(x & rest & _ & _ & E)|[_ E]]; [|by rewrite E].
    exfalso. apply Hl, (fixed_decode_ok HF). by exists x.
Qed.

Lemma exercise_codecs buf :
  exercise buf = is_ok (decode_frame buf) :: map (accepts buf) (take 5 fuzzed) ++
    is_ok (vk.EnumeratePhysicalDevicesResponse.decode buf) :: map (accepts buf) (drop 5 fuzzed).
Proof.
  unfold exercise, entrypoints, fuzzed, codecs. cbn [map take drop app entry snd].
  repeat (f_equal; [reflexivity|]). reflexivity.
Qed.

(** What a buffer exercises is its length, and six decoders are never exercised.
    The fuzzer feeds a buffer to the frame decoder, to the decoder of the one body
    of variable size, and to those of the fixed bodies but six (gl::SwapBuffersRequest,
    gl::DeleteBufferRequest, cuda::LaunchKernelRequest, and the requests and response
    of the two copies of cuda); a fixed body's decoder accepts a buffer exactly when
    it is long enough, whatever bytes are in it. *)
Theorem fuzz_coverage buf :
  exercise buf = is_ok (decode_frame buf) ::
    map (fun c => bool_decide (codec_len c <= length buf)%nat) (take 5 fuzzed) ++
    is_ok (vk.EnumeratePhysicalDevicesResponse.decode buf) ::
    map (fun c => bool_decide (codec_len c <= length buf)%nat) (drop 5 fuzzed) /\
  fuzzed ++ missed_codecs ≡ₚ codecs.
Proof.
  assert (fuzzed ++ missed_codecs ≡ₚ codecs) as Hp.
  { transitivity (take 28 codecs ++ take 2 missed_codecs ++ take 5 (drop 30 codecs) ++
      drop 2 missed_codecs ++ drop 39 codecs); [|by rewrite <- codecs_split].
    rewrite <- (take_drop 2 missed_codecs) at 1.
    unfold fuzzed. generalize (take 28 codecs), (take 5 (drop 30 codecs)), (drop 39 codecs),
      (take 2 missed_codecs), (drop 2 missed_codecs). intros. solve_Permutation. }
  split; [|done]. rewrite exercise_codecs.
  assert (forall cs, cs ⊆ fuzzed -> map (accepts buf) cs =
    map (fun c => bool_decide (codec_len c <= length buf)%nat) cs) as Hm.
  { intros cs Hcs. apply map_ext_in. intros c Hc%list_elem_of_In. apply accepts_by_length.
    rewrite <- Hp. apply elem_of_app. left. by apply Hcs. }
  rewrite !Hm; [done|..]; intros c Hc; rewrite <- (take_drop 5 fuzzed); apply elem_of_app; auto.
Qed.

(** The i-th of the first n buffers from a seed. *)
Definition buffer_at (seed : Z) (n i : nat) : option (list byte) :=
  match fuzz_loop n (Lcg.new seed) with Some (Ret bufs) => bufs !! i | _ => None end.

Lemma buffer_at_lookup seed n i bufs :
  fuzz_loop n (Lcg.new seed) = Some (Ret bufs) -> buffer_at seed n i = bufs !! i.
Proof. unfold buffer_at. by intros ->. Qed.

(** The buffers are not distinct. The count [fuzz_iter] returns is the number of
    buffers, not of distinct ones: with the binary's own seed the 302nd buffer is
    the same, empty, buffer as the 296th. *)
Theorem fuzz_buffers_repeat :
  exists bufs, fuzz_loop 302 (Lcg.new SEED) = Some (Ret bufs) /\
    bufs !! 295%nat = Some [] /\ bufs !! 301%nat = Some [] /\ ~ NoDup bufs.
Proof.
  destruct (fuzz_loop_spec 302 (Lcg.new SEED)) as (bufs & E & Hl & _). exists bufs.
  assert (buffer_at SEED 302 295 = Some []) as H1 by (vm_compute; reflexivity).
  assert (buffer_at SEED 302 301 = Some []) as H2 by (vm_compute; reflexivity).
  rewrite (buffer_at_lookup _ _ _ _ E) in H1.
  rewrite (buffer_at_lookup _ _ _ _ E) in H2.
  split; [exact E|]. split; [exact H1|]. split; [exact H2|].
  intros Hnd. by pose proof (NoDup_lookup _ _ _ _ Hnd H1 H2).
Qed.
