(* ===== verification/Bench.v ===== *)
(** The codec benchmark (crates/graftx-bench/src/main.rs). The clock and the
    floating-point type are parameters. *)
From S2P Require Import Wire VkBodies Codecs Obs ObsScope Text Process.

Local Open Scope Z_scope.

Definition DEFAULT_ITERATIONS : Z := 100000.

Definition representative_frame : vk.CreateInstanceRequest.t :=
  vk.CreateInstanceRequest.mk 0x00403000.

Definition round_trip (frame : vk.CreateInstanceRequest.t)
  : presult vk.CreateInstanceRequest.t :=
  let buf := [] in
  let buf := vk.CreateInstanceRequest.encode frame buf in
  vk.CreateInstanceRequest.decode buf.

Module BenchReport.
Record t := mk { iterations : Z; elapsed_nanos : Z }.

Section ops.
Context {F : Type} `{F64 F}.

Definition nanos_per_op (self : t) : F :=
  if iterations self =? 0 then f64_of 0
  else f64_div (f64_of (elapsed_nanos self)) (f64_of (iterations self)).

Definition frames_per_sec (self : t) : F :=
  if elapsed_nanos self =? 0 then f64_of 0
  else f64_div (f64_mul (f64_of (iterations self)) (f64_of NANOS_PER_SEC))
    (f64_of (elapsed_nanos self)).
End ops.
End BenchReport.

(** The loop of [bench]. *)
Fixpoint bench_loop (n : nat) (frame : vk.CreateInstanceRequest.t) : presult unit :=
  match n with
  | O => Ok tt
  | S n => _decoded ← round_trip frame; bench_loop n frame
  end.

Section bench.
Context {C : Type} `{Clock C}.

Definition bench (iterations : Z) (w : C) : C * presult BenchReport.t :=
  let frame := representative_frame in
  let '(w, timer) := Timer.start_now w in
  match bench_loop (Z.to_nat iterations) frame with
  | Err e => (w, Err e)
  | Ok _ =>
    let '(w, elapsed) := Timer.elapsed timer w in
    (w, Ok (BenchReport.mk iterations (as_nanos elapsed)))
  end.
End bench.

Definition parse_iterations (arg : option text) : Z * bool :=
  match arg with
  | Some raw =>
    match parse_uint 64 raw with
    | Some n => (n, false)
    | None => (DEFAULT_ITERATIONS, true)
    end
  | None => (DEFAULT_ITERATIONS, false)
  end.

Section main.
Context {C : Type} `{Clock C} {W : Type} `{Write W} {F : Type} `{F64 F}.
Context (error_text : ProtocolError -> text).

Definition bench_main (args : list text) (w : C) (p : Console.t W)
  : outcome (C * Console.t W * Z) :=
  let '(iterations, fell_back) := parse_iterations (head args) in
  p ← (if fell_back : bool then
         Console.eprintln ("graftx-bench: could not parse iteration count; using default " ++
           dec DEFAULT_ITERATIONS) p
       else Ret p);
  match bench iterations w with
  | (w, Ok report) =>
    p ← Console.println ("graftx-bench: " ++ dec (BenchReport.iterations report) ++
      " round-trips in " ++
      f64_fixed 3 (f64_div (f64_of (BenchReport.elapsed_nanos report)) (f64_of 1000000)) ++
      " ms") p;
    p ← Console.println ("  " ++ f64_fixed 2 (BenchReport.frames_per_sec report) ++
      " frames/sec") p;
    p ← Console.println ("  " ++ f64_fixed 2 (BenchReport.nanos_per_op report) ++ " ns/op") p;
    Ret (w, p, ExitCode.SUCCESS)
  | (w, Err err) =>
    p ← Console.eprintln ("graftx-bench: codec round-trip failed: " ++ error_text err) p;
    Ret (w, p, ExitCode.FAILURE)
  end.
End main.

(** ** The benchmark runs what it times *)
Lemma round_trip_ok frame :
  body_fits frame -> round_trip frame = Ok frame.
Proof.
  intros Hf. unfold round_trip.
  pose proof (fixed_encode_decode vk.vk_CreateInstanceRequest_fixed frame Hf) as E. exact E.
Qed.

Lemma bench_loop_ok n frame : body_fits frame -> bench_loop n frame = Ok tt.
Proof. intros Hf. induction n as [|n IH]; [done|]. cbn [bench_loop]. by rewrite round_trip_ok. Qed.

Section bench_spec.
Context {C : Type} `{MonotonicClock C} {W : Type} `{Reliable W} {F : Type} `{F64 F}.

Lemma bench_reports n (w : C) :
  exists w' elapsed, bench n w = (w', Ok (BenchReport.mk n elapsed)) /\
    0 <= elapsed <= last_reading w' - last_reading w.
Proof.
  unfold bench. rewrite bench_loop_ok by (by vm_compute). unfold Timer.start_now.
  pose proof (now_advances w) as Ha. pose proof (now_reads w) as Hr.
  destruct (now w) as [w1 i]. cbn [fst snd] in Ha, Hr.
  destruct (elapsed_reads (Timer.mk i) w1) as [Hd Hl]; [cbn; lia|].
  destruct (Timer.elapsed (Timer.mk i) w1) as [w2 d]. cbn [fst snd Timer.start] in Hd, Hl.
  exists w2, (as_nanos d). split; [done|]. lia.
Qed.

(** What the binary prints about a report. *)
Definition report_lines (report : BenchReport.t) : text :=
  "graftx-bench: " ++ dec (BenchReport.iterations report) ++ " round-trips in " ++
    f64_fixed 3 (f64_div (f64_of (BenchReport.elapsed_nanos report)) (f64_of 1000000)) ++
    " ms" ++ nl ++
  "  " ++ f64_fixed 2 (BenchReport.frames_per_sec report) ++ " frames/sec" ++ nl ++
  "  " ++ f64_fixed 2 (BenchReport.nanos_per_op report) ++ " ns/op" ++ nl.

Definition fallback_warning : text :=
  "graftx-bench: could not parse iteration count; using default 100000" ++ nl.

Lemma warns (fell : bool) (p : Console.t W) : exists p',
  (if fell then
     Console.eprintln ("graftx-bench: could not parse iteration count; using default " ++
       dec DEFAULT_ITERATIONS) p
   else Ret p) = Ret p' /\
  content (Console.stderr p') =
    content (Console.stderr p) ++ (if fell then fallback_warning else []) /\
  Console.stdout p' = Console.stdout p.
Proof.
  destruct fell.
  - destruct (eprintln_reliable ("graftx-bench: could not parse iteration count; using default " ++
      dec DEFAULT_ITERATIONS) p) as (p' & E & He & Ho). by exists p'.
  - exists p. by rewrite app_nil_r.
Qed.

End bench_spec.

(** Whole numbers in place of floats, and a clock that ticks as it is told. *)
Section witness.
#[local] Instance whole_numbers : F64 Z :=
  {| f64_of := id; f64_mul := Z.mul; f64_div := Z.div; f64_fixed _ := dec |}.

End witness.
