(* ===== verification/LoadTest.v ===== *)
(** The load generator (crates/graftx-loadtest/src/main.rs): a client thread and a
    server thread over an in-process loopback.

    The client's code is the source's, over any transport ([run_client]). To run it
    as a thread it is also a [prog], the tree of its sends and receives, which
    [interp] turns back into the same code. A state of the run is the loopback, the
    two threads and the registry; a step is one operation of one thread on what
    they share, and a receive on an empty channel whose sender lives is no step. *)
From S2P Require Import Wire VkBodies Codecs Handles Backend VulkanBackend ApiBackends Session.
From S2P Require Import Transport Obs Serve ClientSession ClientShims ClientCall.
From S2P Require Import ObsScope Text Process Cli.

Local Open Scope Z_scope.

Definition DEFAULT_OPS : Z := 10000.
Definition SESSION_ID : Z := 0x6C6F6164.
Definition APP_API_VERSION : Z := 0x00403000.

(** ** The client thread *)
Section run_client.
Context {T : Type} `{Transport T}.

(** The loop of [run_client]. *)
Fixpoint rounds (n : nat) (client : Client.t T) : Client.t T * result ClientError.t unit :=
  match n with
  | O => (client, Ok tt)
  | S n =>
    match Client.vk_create_instance APP_API_VERSION client with
    | (client, Err e) => (client, Err e)
    | (client, Ok instance) =>
      match Client.vk_enumerate_physical_devices instance client with
      | (client, Err e) => (client, Err e)
      | (client, Ok _devices) => rounds n client
      end
    end
  end.

(** The transport is dropped with the client, or by a failed [connect]. *)
Definition run_client (n : Z) (client_end : T) : result ClientError.t unit :=
  match Client.connect client_end with
  | Err e => Err e
  | Ok client => (rounds (Z.to_nat n) client).2
  end.
End run_client.

(** What a thread does next with its transport. *)
Inductive prog (A : Type) :=
| Done (a : A)
| Send (frame : list byte) (k : io_result unit -> prog A)
| Recv (k : io_result (list byte) -> prog A).
Arguments Done {A} _.
Arguments Send {A} _ _.
Arguments Recv {A} _.

Fixpoint interp {A T} `{Transport T} (p : prog A) (t : T) : T * A :=
  match p with
  | Done a => (t, a)
  | Send frame k => let '(t, r) := send frame t in interp (k r) t
  | Recv k => let '(t, r) := recv t in interp (k r) t
  end.

(** A client function as a [prog], continued by [k]. *)
Definition exchange_prog {A} (opcode reply_opcode req_id seq : Z) (body : list byte)
    (k : result ClientError.t (list byte) -> prog A) : prog A :=
  let header := FrameHeader.mk PROTOCOL_MAJOR 0 FrameKind.Request opcode req_id seq
    (wrap 32 (Z.of_nat (length body))) in
  Send (encode_frame header body) (fun r =>
    match r with
    | Err e => k (Err (ClientError.Transport e))
    | Ok _ =>
      Recv (fun r =>
        match r with
        | Err e => k (Err (ClientError.Transport e))
        | Ok reply =>
          k (match decode_frame reply with
             | Err e => Err (ClientError.Protocol e)
             | Ok (h, b) =>
               if decide (FrameHeader.opcode h <> reply_opcode \/
                 FrameHeader.kind h <> FrameKind.Response)
               then Err (ClientError.UnexpectedReply (FrameHeader.opcode h) (FrameHeader.kind h))
               else Ok b
             end)
        end)
    end).

(** What follows the exchange in a shim: it does not touch the transport. *)
Definition then_local {A} (r : result ClientError.t (list byte)) (f : list byte -> C unit A)
  : result ClientError.t A :=
  match r with Err e => Err e | Ok b => (f b tt).2 end.

Definition welcome_local (b : list byte) : C unit Welcome.t := protocol (Welcome.decode b).

Definition instance_local (b : list byte) : C unit Handle.t :=
  resp ← protocol (vk.CreateInstanceResponse.decode b);
  expect_kind VkShim.KIND_INSTANCE (vk.CreateInstanceResponse.instance resp);;
  mret (vk.CreateInstanceResponse.instance resp).

Definition devices_local (b : list byte) : C unit (list Handle.t) :=
  resp ← protocol (vk.EnumeratePhysicalDevicesResponse.decode b);
  expect_kinds VkShim.KIND_PHYSICAL_DEVICE (vk.EnumeratePhysicalDevicesResponse.devices resp);;
  mret (vk.EnumeratePhysicalDevicesResponse.devices resp).

(** The rounds, the next ids being [req_id] and [seq]. *)
Fixpoint rounds_prog (n : nat) (req_id seq : Z) : prog (result ClientError.t unit) :=
  match n with
  | O => Done (Ok tt)
  | S n =>
    exchange_prog vk_op.CREATE_INSTANCE vk_op.CREATE_INSTANCE req_id seq
      (vk.CreateInstanceRequest.encode (vk.CreateInstanceRequest.mk APP_API_VERSION) []) (fun r =>
    match then_local r instance_local with
    | Err e => Done (Err e)
    | Ok instance =>
      let req_id := saturating_add 32 req_id 1 in
      let seq := saturating_add 64 seq 1 in
      exchange_prog vk_op.ENUMERATE_PHYSICAL_DEVICES vk_op.ENUMERATE_PHYSICAL_DEVICES req_id seq
        (vk.EnumeratePhysicalDevicesRequest.encode
          (vk.EnumeratePhysicalDevicesRequest.mk instance) []) (fun r =>
      match then_local r devices_local with
      | Err e => Done (Err e)
      | Ok _devices => rounds_prog n (saturating_add 32 req_id 1) (saturating_add 64 seq 1)
      end)
    end)
  end.

Definition client_prog (n : Z) : prog (result ClientError.t unit) :=
  exchange_prog core_op.HELLO core_op.WELCOME 1 1
    (Hello.encode (Hello.mk PROTOCOL_MAJOR PROTOCOL_MINOR 0 DEFAULT_MAX_FRAME_BODY) []) (fun r =>
  match then_local r welcome_local with
  | Err e => Done (Err e)
  | Ok _welcome => rounds_prog (Z.to_nat n) 2 2
  end).

(** ** The two threads *)
Module LoadRun.

Inductive client_thread (A : Type) :=
| Running (p : prog A)
| Returned (r : A).
Arguments Running {A} _.
Arguments Returned {A} _.

(** Where [serve_with_metrics] is: at its receive, with a reply to send, about to
    record a reply it sent, returned with the transport still held, or over. *)
Inductive server_thread :=
| Receiving (s : Session.t)
| Replying (s : Session.t) (frame reply : list byte)
| Recording (s : Session.t) (frame reply : list byte)
| Closing (r : io_result unit)
| Exited (r : io_result unit)
| Panicked.

Record t (A : Type) := mk {
  net : Loopback.net;
  client : client_thread A;
  server : server_thread;
  registry : ObsRegistry.t }.
Arguments mk {A} _ _ _ _.
Arguments net {A} _.
Arguments client {A} _.
Arguments server {A} _.
Arguments registry {A} _.

(** What the client thread of a load ends with. *)
Definition load : Type := t (result ClientError.t unit).

Section steps.
Context {A : Type}.

(** The client holds end 0 ([false]) of the loopback, the server end 1. *)
Definition step_client (st : t A) : option (t A) :=
  match client st with
  | Running (Done r) =>
    Some (mk (Loopback.drop_endpoint false (net st)) (Returned r) (server st) (registry st))
  | Running (Send frame k) =>
    let '(n, r) := Loopback.send false frame (net st) in
    Some (mk n (Running (k r)) (server st) (registry st))
  | Running (Recv k) =>
    match Loopback.recv false (net st) with
    | None => None
    | Some (n, r) => Some (mk n (Running (k r)) (server st) (registry st))
    end
  | Returned _ => None
  end.

Definition step_server (st : t A) : option (t A) :=
  match server st with
  | Receiving s =>
    match Loopback.recv true (net st) with
    | None => None
    | Some (n, Err err) =>
      Some (mk n (client st) (Closing (if clean_close err then Ok tt else Err err)) (registry st))
    | Some (n, Ok frame) =>
      match Session.handle frame s with
      | Panic => Some (mk (Loopback.drop_endpoint true n) (client st) Panicked (registry st))
      | Ret (_, Err _) => Some (mk n (client st) (Closing (Ok tt)) (registry st))
      | Ret (s, Ok reply) => Some (mk n (client st) (Replying s frame reply) (registry st))
      end
    end
  | Replying s frame reply =>
    match Loopback.send true reply (net st) with
    | (n, Err err) => Some (mk n (client st) (Closing (Err err)) (registry st))
    | (n, Ok _) => Some (mk n (client st) (Recording s frame reply) (registry st))
    end
  | Recording s frame reply =>
    Some (mk (net st) (client st) (Receiving s) (record_answer frame reply (registry st)))
  | Closing r =>
    Some (mk (Loopback.drop_endpoint true (net st)) (client st) (Exited r) (registry st))
  | Exited _ | Panicked => None
  end.

(** A step is one of either thread. *)
Inductive step : t A -> t A -> Prop :=
| by_client st st' : step_client st = Some st' -> step st st'
| by_server st st' : step_server st = Some st' -> step st st'.

Inductive steps : nat -> t A -> t A -> Prop :=
| steps_O st : steps 0 st st
| steps_S n st st' st'' : step st st' -> steps n st' st'' -> steps (S n) st st''.
End steps.

(** [drive]: the threads are started on a fresh loopback. *)
Definition start (n : Z) (registry : ObsRegistry.t) : load :=
  let session := Session.register (box VulkanBackend.new) (Session.new SESSION_ID) in
  mk Loopback.loopback (Running (client_prog n)) (Receiving session) registry.

(** What [drive] returns once both threads are over: the client's error first. *)
Definition finish (st : load) : option (result ClientError.t unit) :=
  match client st, server st with
  | Returned r, Exited serve_result =>
    Some (match r with
          | Err e => Err e
          | Ok _ =>
            match serve_result with
            | Ok _ => Ok tt
            | Err err => Err (ClientError.Transport err)
            end
          end)
  | Returned r, Panicked =>
    Some (match r with Err e => Err e | Ok _ => Err (ClientError.Transport io.Other) end)
  | _, _ => None
  end.

(** [run_load] of a finished run. *)
Definition run_load (st : load) : option CallStats.t :=
  match finish st with
  | Some (Ok _) => Some (ObsRegistry.total (map_to_list (ObsRegistry.inner (registry st))))
  | Some (Err _) => Some CallStats.default
  | None => None
  end.
End LoadRun.

(** ** The binary *)
Definition parse_ops (arg : option text) : Z * bool :=
  match arg with
  | Some raw =>
    match parse_uint 64 raw with Some n => (n, false) | None => (DEFAULT_OPS, true) end
  | None => (DEFAULT_OPS, false)
  end.

Module LoadReport.
Record t := mk { registry : ObsRegistry.t; total : CallStats.t; elapsed : Duration.t }.

Definition ops_per_sec {F} `{F64 F} (self : t) : F :=
  let nanos := as_nanos (elapsed self) in
  if nanos =? 0 then f64_of 0
  else f64_div (f64_mul (f64_of (CallStats.calls (total self))) (f64_of NANOS_PER_SEC))
    (f64_of nanos).
End LoadReport.

(** What [drive] returns of a finished run, with the time its client took. *)
Definition drive (run : LoadRun.load) (elapsed : Duration.t)
  : option (result ClientError.t Duration.t) :=
  match LoadRun.finish run with
  | Some (Ok _) => Some (Ok elapsed)
  | Some (Err e) => Some (Err e)
  | None => None
  end.

Section main.
Context {W : Type} `{Write W} {F : Type} `{F64 F}.
Context (io_display : io.ErrorKind -> text).
(** The state the run of a number of operations is in once it was joined, which
    depends on how the threads were scheduled; the time it took; and the order the
    registry's map yields its entries in. *)
Context (run_of : Z -> LoadRun.load) (time_of : Z -> Duration.t).
Context (entries : ObsRegistry.t -> list (string * CallStats.t)).

Definition loadtest_main (args : list text) (p : Console.t W) : option (outcome (Console.t W * Z)) :=
  let '(ops, fell_back) := parse_ops (head args) in
  match drive (run_of ops) (time_of ops) with
  | None => None
  | Some result => Some (
    p ← (if fell_back : bool then
           Console.eprintln ("graftx-loadtest: could not parse op count; using default " ++
             dec DEFAULT_OPS) p
         else Ret p);
    match result with
    | Err err =>
      p ← Console.eprintln ("graftx-loadtest: load run failed: " ++
        client_error_text io_display err) p;
      Ret (p, ExitCode.FAILURE)
    | Ok elapsed =>
      let registry := LoadRun.registry (run_of ops) in
      let report := LoadReport.mk registry (ObsRegistry.total (entries registry)) elapsed in
      out ← print (lit (ObsRegistry.report (entries (LoadReport.registry report))))
        (Console.stdout p);
      p ← Console.println ("graftx-loadtest: " ++
        dec (CallStats.calls (LoadReport.total report)) ++ " ops (" ++ dec ops ++
        " iterations) in " ++
        f64_fixed 3 (f64_div (f64_of (as_nanos (LoadReport.elapsed report))) (f64_of 1000000)) ++
        " ms") (Console.set_stdout out p);
      p ← Console.println ("  " ++ f64_fixed 2 (LoadReport.ops_per_sec report) ++ " ops/sec") p;
      Ret (p, ExitCode.SUCCESS)
    end)
  end.
End main.
