(* ===== verification/LoadTestProps.v ===== *)
(** The load generator's run: under every schedule of its two threads it ends, after
    the same number of steps, with every call answered and counted. *)
From S2P Require Import Wire VkBodies Codecs Contract Handles HandleSpec Effects Backend.
From S2P Require Import VulkanBackend VulkanSafety VulkanProps ApiBackends Session Server.
From S2P Require Import SessionProps Transport TransportProps Obs ObsProps Serve ServeProps.
From S2P Require Import ClientSession ClientShims ClientCall ClientSpec ClientProps EndToEnd.
From S2P Require Import ObsScope Text Process Cli LoadTest.

Local Open Scope Z_scope.

(** ** The client thread runs the client's code *)
Section interp.
Context {T : Type} `{Transport T}.

Lemma interp_exchange {A} op rop q sq body (k : result ClientError.t (list byte) -> prog A) (t : T) :
  interp (exchange_prog op rop q sq body k) t =
  (let '(t, r) := exchange op rop q sq body t in interp (k r) t).
Proof.
  rewrite exchange_cases. unfold exchange_prog, client_frame. cbn [interp].
  destruct (send _ t) as [t1 [[]|e]]; [|done]. cbn [interp].
  destruct (recv t1) as [t2 [reply|e]]; [|done]. unfold read_reply.
  destruct (decode_frame reply) as [[h b]|e]; [|done]. by case_decide.
Qed.

(** A shim that is an exchange and then something local. *)
Definition is_local {A} (f : list byte -> C T A) (g : list byte -> C unit A) : Prop :=
  forall b t, f b t = (t, (g b tt).2).

Lemma protocol_local {A B} (r : presult A) (f : A -> C T B) (g : A -> C unit B) :
  (forall a t, f a t = (t, (g a tt).2)) ->
  forall t, (protocol r ≫= f) t = (t, ((protocol r ≫= g) tt).2).
Proof. intros Hf t. unfold mbind, C_bind, protocol. destruct r as [a|e]; [apply Hf|done]. Qed.

Lemma expect_kind_local {B} kind h (f : C T B) (g : C unit B) t :
  f t = (t, (g tt).2) -> (expect_kind kind h;; f) t = (t, ((expect_kind kind h;; g) tt).2).
Proof. intros Hf. unfold mbind, C_bind, expect_kind. by case_decide. Qed.

Lemma expect_kinds_local {B} kind hs (f : C T B) (g : C unit B) t :
  f t = (t, (g tt).2) -> (expect_kinds kind hs;; f) t = (t, ((expect_kinds kind hs;; g) tt).2).
Proof.
  intros Hf. induction hs as [|h hs IH]; [exact Hf|].
  unfold mbind, C_bind in *. cbn [expect_kinds]. unfold mbind, C_bind, expect_kind in *.
  by case_decide.
Qed.

Lemma exchange_local {A} (m : C T (list byte)) (f : list byte -> C T A) g t :
  is_local f g -> (m ≫= f) t = (let '(t, r) := m t in (t, then_local r g)).
Proof. intros Hf. unfold mbind, C_bind, then_local. destruct (m t) as [t1 [b|e]]; [apply Hf|done]. Qed.

Lemma create_instance_local version q sq (t : T) :
  VkShim.create_instance version q sq t =
  (let '(t, r) := exchange vk_op.CREATE_INSTANCE vk_op.CREATE_INSTANCE q sq
     (vk.CreateInstanceRequest.encode (vk.CreateInstanceRequest.mk version) []) t in
   (t, then_local r instance_local)).
Proof.
  apply exchange_local. intros b u. apply protocol_local. intros resp u'.
  by apply expect_kind_local.
Qed.

Lemma enumerate_local h q sq (t : T) :
  VkShim.enumerate_physical_devices h q sq t =
  (let '(t, r) := exchange vk_op.ENUMERATE_PHYSICAL_DEVICES vk_op.ENUMERATE_PHYSICAL_DEVICES q sq
     (vk.EnumeratePhysicalDevicesRequest.encode (vk.EnumeratePhysicalDevicesRequest.mk h) []) t in
   (t, then_local r devices_local)).
Proof.
  apply exchange_local. intros b u. apply protocol_local. intros resp u'.
  by apply expect_kinds_local.
Qed.

Lemma handshake_local (t : T) :
  handshake t =
  (let '(t, r) := exchange core_op.HELLO core_op.WELCOME 1 1
     (Hello.encode (Hello.mk PROTOCOL_MAJOR PROTOCOL_MINOR 0 DEFAULT_MAX_FRAME_BODY) []) t in
   (t, then_local r welcome_local)).
Proof. by apply exchange_local. Qed.

Lemma interp_rounds n q sq sid (t : T) :
  (interp (rounds_prog n q sq) t).2 = (rounds n (Client.mk t q sq sid)).2.
Proof.
  revert q sq t. induction n as [|n IH]; intros q sq t; [done|]. cbn [rounds_prog rounds].
  rewrite interp_exchange. unfold Client.vk_create_instance, Client.delegate, Client.next_ids.
  cbn [Client.transport Client.next_req_id Client.next_seq Client.session_id].
  rewrite create_instance_local. destruct (exchange _ _ _ _ _ t) as [t1 r].
  destruct (then_local r instance_local) as [h|e]; [|done].
  rewrite interp_exchange. unfold Client.vk_enumerate_physical_devices, Client.delegate, Client.next_ids.
  cbn [Client.transport Client.next_req_id Client.next_seq Client.session_id].
  rewrite enumerate_local. destruct (exchange _ _ _ _ _ t1) as [t2 r2].
  destruct (then_local r2 devices_local) as [hs|e]; [|done]. apply IH.
Qed.

(** The thread's program is the client's code, over every transport. *)
Lemma client_prog_interp n (t : T) : (interp (client_prog n) t).2 = run_client n t.
Proof.
  unfold client_prog, run_client, Client.connect. rewrite interp_exchange, handshake_local.
  destruct (exchange _ _ _ _ _ t) as [t1 r]. destruct (then_local r welcome_local) as [w|e]; [|done].
  apply interp_rounds.
Qed.
End interp.

(** ** A client and a session in dialogue

    [talks p s log r s']: each thing the program sends is answered by the session,
    one after the other, until it is done; [log] is the frames and their replies. *)
Inductive talks {A} : prog A -> Session.t -> list (list byte * list byte) -> A -> Session.t -> Prop :=
| talks_done a s : talks (Done a) s [] a s
| talks_more frame k k' s s1 s2 reply log a :
    k (Ok tt) = Recv k' ->
    Session.handle frame s = Ret (s1, Ok reply) ->
    talks (k' (Ok reply)) s1 log a s2 ->
    talks (Send frame k) s ((frame, reply) :: log) a s2.

#[local] Hint Constructors talks : core.

(** The program runs on against a server that has hung up: its sends fail; [n] of them. *)
Inductive hung_up {A} : nat -> prog A -> A -> Prop :=
| hung_up_done a : hung_up 0 (Done a) a
| hung_up_send n frame k a : hung_up n (k (Err io.BrokenPipe)) a -> hung_up (S n) (Send frame k) a.

(** A dialogue that the session may end, by refusing a frame: [log] is what was said
    before, and [n] the steps the two threads take after it. *)
Inductive dialogue {A}
  : prog A -> Session.t -> list (list byte * list byte) -> nat -> A -> Prop :=
| dialogue_done a s : dialogue (Done a) s [] 3 a
| dialogue_refused frame k k' s s1 e n a :
    k (Ok tt) = Recv k' -> Session.handle frame s = Ret (s1, Err e) ->
    hung_up n (k' (Err io.UnexpectedEof)) a ->
    dialogue (Send frame k) s [] (5 + n) a
| dialogue_more frame k k' s s1 reply log n a :
    k (Ok tt) = Recv k' ->
    Session.handle frame s = Ret (s1, Ok reply) ->
    dialogue (k' (Ok reply)) s1 log n a ->
    dialogue (Send frame k) s ((frame, reply) :: log) n a.

#[local] Hint Constructors hung_up dialogue : core.

Lemma talks_dialogue {A} (p : prog A) s log a s' : talks p s log a s' -> dialogue p s log 3 a.
Proof. induction 1; eauto. Qed.

Definition record_log (log : list (list byte * list byte)) (registry : ObsRegistry.t)
  : ObsRegistry.t := fold_left (fun r e => record_answer e.1 e.2 r) log registry.

(** ** The run *)
Module LoadRunProps.
Import LoadRun.

(** The session and the registry the server will be at its receive with. *)
Definition settled (sv : server_thread) (r : ObsRegistry.t) : option (Session.t * ObsRegistry.t) :=
  match sv with
  | Receiving s => Some (s, r)
  | Recording s frame reply => Some (s, record_answer frame reply r)
  | _ => None
  end.

(** The steps the server takes to settle. *)
Definition unsettled (sv : server_thread) : nat :=
  match sv with Recording _ _ _ => 1 | _ => 0 end.

Definition channel (queue : list (list byte)) : Loopback.channel :=
  Loopback.mkChannel queue true true.

(** The client's end of the loopback is gone, or the server's. *)
Definition client_gone : Loopback.net :=
  Loopback.mkNet (Loopback.mkChannel [] false true) (Loopback.mkChannel [] true false).
Definition server_gone : Loopback.net :=
  Loopback.mkNet (Loopback.mkChannel [] true false) (Loopback.mkChannel [] false true).

(** What a state can be in a run whose client ends with [r] and whose registry ends
    as [final], and how many steps are left: at every moment one of the threads is
    on its way with a frame, a reply, or a record, and the other waits for it, until
    one of them hangs up. *)
Inductive on_course {A} (r : A) (final : ObsRegistry.t) : nat -> t A -> Prop :=
| at_send p s log n sv reg reg' :
    settled sv reg = Some (s, reg') -> dialogue p s log n r -> record_log log reg' = final ->
    on_course r final (5 * length log + n + unsettled sv)
      (mk (Loopback.mkNet (channel []) (channel [])) (Running p) sv reg)
| at_request frame k s s1 reply log n sv reg reg' :
    settled sv reg = Some (s, reg') -> Session.handle frame s = Ret (s1, Ok reply) ->
    dialogue (k (Ok reply)) s1 log n r -> record_log ((frame, reply) :: log) reg' = final ->
    on_course r final (5 * length log + n + 4 + unsettled sv)
      (mk (Loopback.mkNet (channel [frame]) (channel [])) (Running (Recv k)) sv reg)
| at_handled frame k s1 reply log n reg :
    dialogue (k (Ok reply)) s1 log n r -> record_log ((frame, reply) :: log) reg = final ->
    on_course r final (5 * length log + n + 3)
      (mk (Loopback.mkNet (channel []) (channel [])) (Running (Recv k))
         (Replying s1 frame reply) reg)
| at_reply k s1 reply log n sv reg reg' :
    settled sv reg = Some (s1, reg') -> dialogue (k (Ok reply)) s1 log n r ->
    record_log log reg' = final ->
    on_course r final (5 * length log + n + 1 + unsettled sv)
      (mk (Loopback.mkNet (channel []) (channel [reply])) (Running (Recv k)) sv reg)
| at_refused frame k s s1 e n sv reg :
    settled sv reg = Some (s, final) -> Session.handle frame s = Ret (s1, Err e) ->
    hung_up n (k (Err io.UnexpectedEof)) r ->
    on_course r final (4 + n + unsettled sv)
      (mk (Loopback.mkNet (channel [frame]) (channel [])) (Running (Recv k)) sv reg)
| at_shutting k n :
    hung_up n (k (Err io.UnexpectedEof)) r ->
    on_course r final (3 + n)
      (mk (Loopback.mkNet (channel []) (channel [])) (Running (Recv k)) (Closing (Ok tt)) final)
| at_shut k n :
    hung_up n (k (Err io.UnexpectedEof)) r ->
    on_course r final (2 + n) (mk server_gone (Running (Recv k)) (Exited (Ok tt)) final)
| at_broken p n :
    hung_up n p r -> on_course r final (1 + n) (mk server_gone (Running p) (Exited (Ok tt)) final)
| at_hangup s sv reg :
    settled sv reg = Some (s, final) ->
    on_course r final (2 + unsettled sv) (mk client_gone (Returned r) sv reg)
| at_closing :
    on_course r final 1 (mk client_gone (Returned r) (Closing (Ok tt)) final)
| at_end n :
    on_course r final 0 (mk n (Returned r) (Exited (Ok tt)) final).

#[local] Hint Constructors on_course : core.

Lemma settled_cases sv reg s reg' :
  settled sv reg = Some (s, reg') ->
  (sv = Receiving s /\ reg = reg') \/
  exists frame reply, sv = Recording s frame reply /\ reg' = record_answer frame reply reg.
Proof. destruct sv; cbn; intros [= <- <-]; eauto. Qed.

Lemma on_course_step {A} (r : A) final n st st' :
  on_course r final n st -> step st st' -> exists m, n = S m /\ on_course r final m st'.
Proof.
  intros Hc Hs. destruct Hc as [p s log n sv reg reg' Hset Ht Hf|
    frame k s s1 reply log n sv reg reg' Hset Eh Ht Hf|frame k s1 reply log n reg Ht Hf|
    k s1 reply log n sv reg reg' Hset Ht Hf|frame k s s1 e n sv reg Hset Eh Ht|k n Ht|k n Ht|
    p n Ht|s sv reg Hset| |net0];
    inversion Hs as [? ? E|? ? E]; subst; cbn in E; try discriminate E.
  - destruct Ht as [a s|frame k k' s s1 e n a Ek Eh Ht|frame k k' s s1 reply log n a Ek Eh Ht];
      cbn in E; injection E as <-.
    + eexists. split; [|by eapply at_hangup]. cbn [length]. lia.
    + eexists. rewrite Ek. split; [|by eapply at_refused]. cbn [length]. lia.
    + eexists. rewrite Ek. split; [|by eapply at_request]. cbn [length]. lia.
  - apply settled_cases in Hset as [[-> ->]|(fr & rp & -> & ->)]; [done|].
    injection E as <-. eexists. split; [|by eapply at_send]. cbn. lia.
  - apply settled_cases in Hset as [[-> ->]|(fr & rp & -> & ->)]; cbn in E.
    + rewrite Eh in E. injection E as <-. eexists. split; [|by eapply at_handled]. cbn. lia.
    + injection E as <-. eexists. split; [|by eapply at_request]. cbn. lia.
  - injection E as <-. eexists. split; [|eapply at_reply; [reflexivity|eassumption|reflexivity]].
    cbn. lia.
  - injection E as <-. eexists. split; [|by eapply at_send]. cbn. lia.
  - apply settled_cases in Hset as [[-> ->]|(fr & rp & -> & ->)]; [done|].
    injection E as <-. eexists. split; [|by eapply at_reply]. cbn. lia.
  - apply settled_cases in Hset as [[-> ->]|(fr & rp & -> & ->)]; cbn in E.
    + rewrite Eh in E. injection E as <-. eexists. split; [|by eapply at_shutting]. cbn. lia.
    + injection E as <-. eexists. split; [|by eapply at_refused]. cbn. lia.
  - injection E as <-. eexists. split; [|by eapply at_shut]. lia.
  - injection E as <-. eexists. split; [|by eapply at_broken]. lia.
  - destruct Ht; cbn in E; injection E as <-.
    + eexists. split; [|by eapply at_end]. lia.
    + eexists. split; [|by eapply at_broken]. lia.
  - apply settled_cases in Hset as [[-> ->]|(fr & rp & -> & ->)]; injection E as <-.
    + by exists 1%nat.
    + eexists. split; [|by eapply at_hangup]. done.
  - injection E as <-. by exists 0%nat.
Qed.

(** There is a step until the end. *)
Lemma on_course_progress {A} (r : A) final n st :
  on_course r final (S n) st -> exists st', step st st'.
Proof.
  intros Hc. inversion Hc as [p s log m sv reg reg' Hset Ht Hf|
    frame k s s1 reply log m sv reg reg' Hset Eh Ht Hf|frame k s1 reply log m reg Ht Hf|
    k s1 reply log m sv reg reg' Hset Ht Hf|frame k s s1 e m sv reg Hset Eh Ht|k m Ht|k m Ht|
    p m Ht|s sv reg Hset| |]; subst.
  - destruct Ht; eexists; by apply by_client.
  - apply settled_cases in Hset as [[-> ->]|(fr & rp & -> & ->)]; eexists; apply by_server;
      [|reflexivity]. cbn. by rewrite Eh.
  - eexists. by apply by_server.
  - eexists. by apply by_client.
  - apply settled_cases in Hset as [[-> ->]|(fr & rp & -> & ->)]; eexists; apply by_server;
      [|reflexivity]. cbn. by rewrite Eh.
  - eexists. by apply by_server.
  - eexists. by apply by_client.
  - destruct Ht; eexists; by apply by_client.
  - apply settled_cases in Hset as [[-> ->]|(fr & rp & -> & ->)]; eexists; by apply by_server.
  - eexists. by apply by_server.
Qed.

Lemma on_course_steps {A} (r : A) final n k st st' :
  on_course r final n st -> steps k st st' ->
  exists m, n = (k + m)%nat /\ on_course r final m st'.
Proof.
  intros Hc Hk. revert n Hc. induction Hk as [st|k st st1 st2 Hs Hk IH]; intros n Hc; [by exists n|].
  destruct (on_course_step _ _ _ _ _ Hc Hs) as (m & -> & Hm).
  destruct (IH m Hm) as (m' & -> & Hm'). by exists m'.
Qed.

Lemma dialogue_tail {B} (p : prog B) s log n a : dialogue p s log n a -> (3 <= n)%nat.
Proof. induction 1; lia. Qed.

Lemma on_course_end {A} (r : A) final st :
  on_course r final 0 st ->
  (forall st', ~ step st st') /\ client st = Returned r /\ server st = Exited (Ok tt) /\
  registry st = final.
Proof.
  inversion 1 as [? ? log n sv ? ? ? Ht ? E|? ? ? ? ? log n sv ? ? ? ? Ht ? E|? ? ? ? log n ? Ht ? E|
    ? ? ? log n sv ? ? ? Ht ? E| | | | | | |]; subst;
    try (apply dialogue_tail in Ht; lia); try lia.
  split; [|done]. intros st' Hs. by inversion Hs.
Qed.

(** Every schedule of a run that is on course: it ends after [n] steps, not sooner and
    not later, with the client's result and the registry foreseen. *)
Lemma on_course_ends {A} (r : A) final n k st st' :
  on_course r final n st -> steps k st st' ->
  (k <= n)%nat /\ ((k < n)%nat -> exists st2, step st' st2) /\
  (k = n -> (forall st2, ~ step st' st2) /\ client st' = Returned r /\
    server st' = Exited (Ok tt) /\ registry st' = final).
Proof.
  intros Hc Hk. destruct (on_course_steps _ _ _ _ _ _ Hc Hk) as (m & -> & Hm).
  split; [lia|]. split.
  - intros Hlt. destruct m as [|m]; [lia|]. by eapply on_course_progress.
  - intros E. assert (m = O) as -> by lia. by eapply on_course_end.
Qed.
End LoadRunProps.

(** ** The dialogue of the load *)
Lemma enumerate_returns n rid i vb :
  vk_ready (S n) vb -> Handle.wf i ->
  HandleTable.get i (VulkanBackend.instances vb) = Some (InstanceState.mk true) ->
  exists vb' hs, VulkanBackend.handle vk_op.ENUMERATE_PHYSICAL_DEVICES rid
      (vk.EnumeratePhysicalDevicesRequest.encode (vk.EnumeratePhysicalDevicesRequest.mk i) []) vb =
      Ret (vb', Ok (vk.EnumeratePhysicalDevicesResponse.encode
        (vk.EnumeratePhysicalDevicesResponse.mk hs) [])) /\
    Forall (handle_of VkShim.KIND_PHYSICAL_DEVICE) hs /\ length hs = 1%nat /\ vk_ready n vb'.
Proof.
  intros Hr Hi Hget.
  destruct (enumerate_creates n rid _ vb Hr _
    (fixed_encode_decode vk.vk_EnumeratePhysicalDevicesRequest_fixed
       (vk.EnumeratePhysicalDevicesRequest.mk i) Hi)) as (vb' & r & E & d & -> & _ & _);
    [by eexists|].
  destruct (vk_step_inv _ _ _ _ _ _ _ Hr E) as [Hr' _].
  pose proof (wp_inv _ _ _ _ _ (vk_handle_ok n _ rid _ vb Hr) E) as [(_ & _ & _ & Hc) _].
  destruct Hc as (hs & Hhs & _ & Eh). rewrite Eh in E. exists vb', hs.
  split; [exact E|]. split; [exact Hhs|]. split; [|exact Hr'].
  apply (f_equal length) in Eh. rewrite !vk.enumerate_length in Eh. cbn in Eh. lia.
Qed.

Lemma devices_local_ok hs :
  Forall (handle_of VkShim.KIND_PHYSICAL_DEVICE) hs -> length hs = 1%nat ->
  then_local (Ok (vk.EnumeratePhysicalDevicesResponse.encode
    (vk.EnumeratePhysicalDevicesResponse.mk hs) [])) devices_local = Ok hs.
Proof.
  intros Hhs Hl. unfold then_local, devices_local.
  set (x := vk.EnumeratePhysicalDevicesResponse.mk hs).
  assert (vk.EnumeratePhysicalDevicesResponse.decode
    (vk.EnumeratePhysicalDevicesResponse.encode x []) = Ok x) as E.
  { rewrite <- (app_nil_r (vk.EnumeratePhysicalDevicesResponse.encode x [])).
    apply vk.enumerate_roundtrip; cbn.
    - eapply Forall_impl; [exact Hhs|by intros ? [? _]].
    - rewrite Hl. by vm_compute. }
  rewrite (then_ok _ _ tt tt x) by (unfold protocol; by rewrite E).
  rewrite (then_ok _ _ tt tt tt); [done|]. by apply expect_kinds_ok.
Qed.

Lemma instance_local_ok h :
  handle_of VkShim.KIND_INSTANCE h ->
  then_local (Ok ([] <+ u64_le (Handle.raw h))) instance_local = Ok h.
Proof.
  intros [Hwf Hk]. unfold then_local, instance_local.
  rewrite (then_ok _ _ tt tt (vk.CreateInstanceResponse.mk h))
    by (unfold protocol; by rewrite (decode_handle (decode := vk.CreateInstanceResponse.decode))).
  rewrite (then_ok _ _ tt tt tt); [done|]. by apply expect_kind_ok.
Qed.

(** An exchange the session answers is one round of talk. *)
Lemma talks_exchange {A} op rop q sq body (k : result ClientError.t (list byte) -> prog A)
    s s1 s2 rbody log a :
  Session.handle (client_frame op q sq body) s =
    Ret (s1, Ok (encode_frame (reply_header rop q (Session.next_seq s) rbody) rbody)) ->
  fits 32 rop -> fits 32 q -> fits 64 (Session.next_seq s) -> (length rbody <= MAX_BODY)%nat ->
  talks (k (Ok rbody)) s1 log a s2 ->
  talks (exchange_prog op rop q sq body k) s
    ((client_frame op q sq body,
      encode_frame (reply_header rop q (Session.next_seq s) rbody) rbody) :: log) a s2.
Proof.
  intros E Ho Hq Hs Hl Ht. unfold exchange_prog. eapply talks_more; [reflexivity|exact E|].
  cbv beta iota. rewrite reply_decodes by done. cbn [FrameHeader.opcode FrameHeader.kind reply_header].
  rewrite decide_False; [exact Ht|]. by intros [?|?].
Qed.

(** ** The load *)

(** What the server records for a load of [n] rounds: sizes and all. *)
Import RegistryRun.

Definition round_calls : list call := [mkCall "vulkan" 32 36; mkCall "vulkan" 36 40].

Definition load_calls (n : nat) : list call :=
  mkCall "core" 40 48 :: concat (replicate n round_calls).

Definition calls_of_log (log : list (list byte * list byte)) : list call :=
  map (fun e => frame_call e.1 e.2) log.

(** The state of the server between rounds: room for [n] more requests. *)
Definition serving (n : nat) (s : Session.t) : Prop :=
  Session.ready n s /\ Session.max_frame_body s = DEFAULT_MAX_FRAME_BODY /\
  exists vb, Session.backends s !! api_byte Vulkan = Some (box vb) /\ vk_ready n vb.

Lemma serving_with_vulkan n s s' vb :
  Session.ready n s' -> s' = advanced (with_vulkan vb s) -> vk_ready n vb ->
  Session.max_frame_body s = DEFAULT_MAX_FRAME_BODY -> serving n s'.
Proof.
  intros Hr -> Hvb Hm. split; [done|]. split; [done|]. exists vb. split; [|done].
  cbn. by rewrite lookup_insert_eq.
Qed.

Lemma answered_ready n frame s s' r :
  Session.ready (S n) s -> Session.handle frame s = Ret (s', r) -> Session.ready n s'.
Proof.
  intros Hs E. destruct (session_handle_answered n frame s Hs) as (s1 & r1 & E1 & Hr & _).
  congruence.
Qed.

(** The call record of a request and its reply. *)
Lemma frame_call_of op q sq body rop seq rbody :
  fits 32 op -> fits 32 q -> fits 64 sq -> (length body <= MAX_BODY)%nat ->
  (length rbody <= MAX_BODY)%nat ->
  frame_call (client_frame op q sq body) (encode_frame (reply_header rop q seq rbody) rbody) =
    mkCall (api_name (opcode_api op)) (28 + Z.of_nat (length body)) (28 + Z.of_nat (length rbody)).
Proof.
  intros Ho Hq Hs Hb Hr. unfold frame_call.
  change (client_frame op q sq body) with (request_frame op q sq body).
  rewrite request_decodes by done. cbn [FrameHeader.opcode].
  unfold request_frame. rewrite !encode_frame_length.
  unfold HEADER_LEN, MAX_BODY in *. f_equal; rewrite wrap_fits; unfold fits; lia.
Qed.

Lemma serving_seq n s : serving (S n) s -> fits 64 (Session.next_seq s).
Proof. intros ([_ _ [? ?] _] & _). unfold fits, max_of in *. lia. Qed.

Lemma create_body_length h :
  (length ([] <+ u64_le (Handle.raw h)) <= MAX_BODY)%nat.
Proof. cbn. unfold MAX_BODY. lia. Qed.

(** The two exchanges of a round: what the server answers, what it counts, and the
    state it is left in. *)
Lemma talks_create n q sq s :
  serving (S n) s -> fits 32 q -> fits 64 sq ->
  exists h s1 vb e, serving n s1 /\
    Session.backends s1 !! api_byte Vulkan = Some (box vb) /\ vk_ready n vb /\
    handle_of KIND_INSTANCE h /\
    HandleTable.get h (VulkanBackend.instances vb) = Some (InstanceState.mk true) /\
    frame_call e.1 e.2 = mkCall "vulkan" 32 36 /\
    forall A (k : result ClientError.t (list byte) -> prog A) log a s2,
      talks (k (Ok ([] <+ u64_le (Handle.raw h)))) s1 log a s2 ->
      talks (exchange_prog vk_op.CREATE_INSTANCE vk_op.CREATE_INSTANCE q sq
        (vk.CreateInstanceRequest.encode (vk.CreateInstanceRequest.mk APP_API_VERSION) []) k)
        s (e :: log) a s2.
Proof.
  intros Hs Hq Hsq. pose proof (serving_seq _ _ Hs) as Hseq. destruct Hs as (Hr & Hm & vb & Hb & Hvb).
  destruct (create_instance_answered_by _ APP_API_VERSION q sq s vb Hr) as
    (vb1 & h & E & Hvb1 & Hh & _ & Hget);
    [by rewrite Hm|done|done|by vm_compute|done|done|].
  eexists h, (advanced (with_vulkan vb1 s)), vb1, (_, _).
  split; [eapply serving_with_vulkan; [by eapply answered_ready|done..]|].
  split; [cbn; by rewrite lookup_insert_eq|]. do 3 (split; [done|]). split; cycle 1.
  - intros A k log a s2 Ht. eapply talks_exchange; [exact E|by vm_compute|done|done| |exact Ht].
    apply create_body_length.
  - cbn [fst snd]. assert (length (vk.CreateInstanceRequest.encode
      (vk.CreateInstanceRequest.mk APP_API_VERSION) []) = 4%nat) as Hl
      by (apply (fixed_length _ _ vk.vk_CreateInstanceRequest_fixed)).
    rewrite frame_call_of; [|by vm_compute|done|done|rewrite Hl; unfold MAX_BODY; lia|
      apply create_body_length]. by rewrite Hl.
Qed.

Lemma talks_enumerate n q sq s vb h :
  serving (S n) s -> Session.backends s !! api_byte Vulkan = Some (box vb) -> vk_ready (S n) vb ->
  handle_of KIND_INSTANCE h ->
  HandleTable.get h (VulkanBackend.instances vb) = Some (InstanceState.mk true) ->
  fits 32 q -> fits 64 sq ->
  exists hs s1 e, serving n s1 /\
    Forall (handle_of VkShim.KIND_PHYSICAL_DEVICE) hs /\ length hs = 1%nat /\
    frame_call e.1 e.2 = mkCall "vulkan" 36 40 /\
    forall A (k : result ClientError.t (list byte) -> prog A) log a s2,
      talks (k (Ok (vk.EnumeratePhysicalDevicesResponse.encode
        (vk.EnumeratePhysicalDevicesResponse.mk hs) []))) s1 log a s2 ->
      talks (exchange_prog vk_op.ENUMERATE_PHYSICAL_DEVICES vk_op.ENUMERATE_PHYSICAL_DEVICES q sq
        (vk.EnumeratePhysicalDevicesRequest.encode
          (vk.EnumeratePhysicalDevicesRequest.mk h) []) k) s (e :: log) a s2.
Proof.
  intros Hs Hb Hvb Hh Hget Hq Hsq. pose proof (serving_seq _ _ Hs) as Hseq. destruct Hs as (Hr & Hm & _).
  destruct (enumerate_returns _ q h vb Hvb (proj1 Hh) Hget) as (vb2 & hs & E & Hhs & Hl & Hvb2).
  assert (length (vk.EnumeratePhysicalDevicesRequest.encode
      (vk.EnumeratePhysicalDevicesRequest.mk h) []) = 8%nat) as Hlq
    by (apply (fixed_length _ _ vk.vk_EnumeratePhysicalDevicesRequest_fixed)).
  pose proof (vk.enumerate_length (vk.EnumeratePhysicalDevicesResponse.mk hs)) as Hlr.
  cbn [vk.EnumeratePhysicalDevicesResponse.devices] in Hlr. rewrite Hl in Hlr.
  assert (8 <= DEFAULT_MAX_FRAME_BODY /\ (12 <= MAX_BODY)%nat) as [H8 H12]
    by (split; [by vm_compute|unfold MAX_BODY; lia]).
  pose proof (vulkan_answered _ vk_op.ENUMERATE_PHYSICAL_DEVICES q sq _ s vb vb2 _ Hr Hb
    eq_refl ltac:(done) ltac:(done) ltac:(by vm_compute) Hq Hsq
    ltac:(rewrite Hm, Hlq; exact H8) E ltac:(rewrite Hlr; exact H12)) as E'.
  eexists hs, (advanced (with_vulkan vb2 s)), (_, _).
  split; [eapply serving_with_vulkan; [by eapply answered_ready|done..]|].
  do 2 (split; [done|]). split; cycle 1.
  - intros A k log a s2 Ht. eapply talks_exchange; [exact E'|by vm_compute|done|done| |exact Ht].
    rewrite Hlr. exact H12.
  - cbn [fst snd]. rewrite frame_call_of; [|by vm_compute|done|done|rewrite Hlq; unfold MAX_BODY; lia|
      rewrite Hlr; exact H12]. by rewrite Hlq, Hlr.
Qed.

(** The rounds, from a state with room for their requests. *)
Lemma talks_rounds n m q sq s :
  serving (2 * n + m) s -> fits 32 q -> fits 64 sq ->
  exists log s', talks (rounds_prog n q sq) s log (Ok tt) s' /\
    calls_of_log log = concat (replicate n round_calls) /\ length log = (2 * n)%nat.
Proof.
  revert q sq s. induction n as [|n IH]; intros q sq s Hs Hq Hsq.
  { exists [], s. split; [constructor|done]. }
  replace (2 * S n + m)%nat with (S (S (2 * n + m))) in Hs by lia.
  destruct (talks_create _ q sq s Hs Hq Hsq) as
    (h & s1 & vb & e1 & Hs1 & Hb & Hvb & Hh & Hget & Ec1 & Ht1).
  set (q1 := saturating_add 32 q 1). set (sq1 := saturating_add 64 sq 1).
  assert (fits 32 q1 /\ fits 64 sq1) as [Hq1 Hsq1]
    by (unfold q1, sq1, fits, saturating_add, max_of in *; lia).
  destruct (talks_enumerate _ q1 sq1 s1 vb h Hs1 Hb Hvb Hh Hget Hq1 Hsq1) as
    (hs & s2 & e2 & Hs2 & Hhs & Hl & Ec2 & Ht2).
  destruct (IH (saturating_add 32 q1 1) (saturating_add 64 sq1 1) _ Hs2) as
    (log & s' & Ht & Hc & Hll); [unfold fits, saturating_add, max_of in *; lia..|].
  exists (e1 :: e2 :: log), s'. split; [|split].
  - apply Ht1. rewrite instance_local_ok by done. cbv zeta. fold q1 sq1.
    apply Ht2. by rewrite devices_local_ok.
  - unfold calls_of_log in *. cbn [map replicate concat app round_calls]. by rewrite Hc, Ec1, Ec2.
  - cbn [length]. lia.
Qed.

(** The whole load, from a fresh session. *)
Lemma talks_load n :
  Z.of_nat (2 * n + 1) <= 2 ^ 32 ->
  exists log s', talks (client_prog (Z.of_nat n))
      (Session.register (box VulkanBackend.new) (Session.new SESSION_ID)) log (Ok tt) s' /\
    calls_of_log log = load_calls n /\ length log = (2 * n + 1)%nat.
Proof.
  intros Hn. set (s := Session.register (box VulkanBackend.new) (Session.new SESSION_ID)).
  assert (Session.ready (S (2 * n)) s) as Hs.
  { apply ready_register; [apply ready_new; [by vm_compute|lia]|].
    apply boxed_ready_box. cbn. apply vk_ready_new. lia. }
  assert (12 <= Session.max_frame_body s) as Hmin by (by vm_compute).
  destruct (client_hello_answered (2 * n) s Hs Hmin) as [E Hr].
  set (s1 := advanced (negotiated client_hello s)) in *.
  assert (serving (2 * n + 0) s1) as Hs1.
  { rewrite Nat.add_0_r. split; [done|]. split; [by vm_compute|]. exists VulkanBackend.new.
    split; [reflexivity|]. apply vk_ready_new. lia. }
  destruct (talks_rounds n 0 2 2 s1 Hs1) as (log & s' & Ht & Hc & Hl);
    [apply first_ids_fit..|].
  eexists _, s'. unfold client_prog. fold client_hello. rewrite Nat2Z.id. split.
  - eapply talks_exchange; [exact E|apply hello_ids_fit|apply hello_ids_fit|apply hello_ids_fit| |].
    + cbn. unfold MAX_BODY. lia.
    + unfold then_local, welcome_local, protocol.
      rewrite (welcome_decodes _ _ client_hello_fits (Session.ready_id _ _ Hs)). exact Ht.
  - unfold calls_of_log, load_calls in *. cbn [map fst snd length]. rewrite Hc. split; [|lia].
    rewrite frame_call_of; [reflexivity|apply hello_ids_fit|apply hello_ids_fit|apply hello_ids_fit|..];
      cbn; unfold MAX_BODY; lia.
Qed.

Lemma talks_record {A} (p : prog A) s log a s' registry :
  talks p s log a s' -> record_log log registry = record_calls (calls_of_log log) registry.
Proof.
  intros Ht. revert registry. induction Ht as [|frame k k' s s1 s2 reply log a Ek E Ht IH];
    intros registry; [done|].
  unfold record_log, calls_of_log, record_calls in *. cbn [fold_left map fst snd].
  by rewrite (record_answer_call _ _ _ _ _ E), IH.
Qed.

Lemma load_calls_wf n : Forall call_wf (load_calls n).
Proof.
  constructor; [by split; cbn|]. induction n as [|n IH]; [constructor|].
  constructor; [by split; cbn|]. constructor; [by split; cbn|]. exact IH.
Qed.

(** The sums over the rounds. *)
Lemma rounds_stats n :
  let cs := concat (replicate n round_calls) in
  length cs = (2 * n)%nat /\ sum_of call_out cs = 68 * Z.of_nat n /\
  sum_of call_in cs = 76 * Z.of_nat n /\ of_api "vulkan" cs = cs /\ of_api "core" cs = [].
Proof.
  cbn zeta. induction n as [|n (IH1 & IH2 & IH3 & IH4 & IH5)]; [done|].
  cbn [replicate concat round_calls app length sum_of call_out call_in].
  unfold of_api in *. rewrite !filter_cons. cbn [call_api].
  rewrite !(decide_True (P := "vulkan"%string = "vulkan"%string)) by done.
  rewrite !(decide_False (P := "vulkan"%string = "core"%string)) by done.
  rewrite IH1, IH2, IH3, IH4, IH5. split_and!; lia || done.
Qed.

Lemma load_stats n :
  Z.of_nat (2 * n + 1) <= 2 ^ 32 ->
  let registry := record_calls (load_calls n) ObsRegistry.new in
  ObsRegistry.total (map_to_list (ObsRegistry.inner registry)) =
    CallStats.mk (2 * Z.of_nat n + 1) (40 + 68 * Z.of_nat n) (48 + 76 * Z.of_nat n) /\
  ObsRegistry.inner registry !! "core"%string = Some (CallStats.mk 1 40 48) /\
  ObsRegistry.inner registry !! "vulkan"%string =
    (if decide (n = O) then None
     else Some (CallStats.mk (2 * Z.of_nat n) (68 * Z.of_nat n) (76 * Z.of_nat n))).
Proof.
  intros Hn registry. destruct (rounds_stats n) as (H1 & H2 & H3 & H4 & H5).
  set (cs := concat (replicate n round_calls)) in *.
  assert (load_calls n = mkCall "core" 40 48 :: cs) as El by done.
  pose proof (load_calls_wf n) as Hwf. unfold registry.
  rewrite record_calls_total, !record_calls_lookup by done. rewrite El.
  unfold of_api in *. rewrite !filter_cons. cbn [call_api].
  rewrite (decide_True (P := "core"%string = "core"%string)) by done.
  rewrite (decide_False (P := "core"%string = "vulkan"%string)) by done. rewrite H4, H5.
  split; [|split; [done|]].
  - unfold stats_of, pin, max_of. cbn [length sum_of call_out call_in]. rewrite H1, H2, H3.
    f_equal; lia.
  - destruct n as [|n]; [done|]. rewrite !decide_False by (try done; by intros [=]).
    unfold stats_of, pin, max_of. rewrite H1, H2, H3. do 2 f_equal; lia.
Qed.

Import LoadRun LoadRunProps.

Lemma load_on_course n :
  Z.of_nat (2 * n + 1) <= 2 ^ 32 ->
  on_course (Ok tt) (record_calls (load_calls n) ObsRegistry.new) (5 * (2 * n + 1) + 3)
    (start (Z.of_nat n) ObsRegistry.new).
Proof.
  intros Hn. destruct (talks_load n Hn) as (log & s' & Ht & Hc & Hl).
  pose proof (talks_record _ _ _ _ _ ObsRegistry.new Ht) as Hrec. rewrite Hc in Hrec.
  rewrite <- Hrec, <- Hl.
  replace (5 * length log + 3)%nat with (5 * length log + 3 + unsettled (Receiving
    (Session.register (box VulkanBackend.new) (Session.new SESSION_ID))))%nat by (cbn; lia).
  unfold start. eapply at_send; [reflexivity|by eapply talks_dialogue|reflexivity].
Qed.

(** C12: a load run completes under every schedule. However the client and the server
    thread are interleaved over the loopback, a run of [n] rounds never deadlocks
    and never diverges: as long as fewer than 5(2n+1)+3 steps were made there is
    another one to make, and after that many both threads are over, the client
    without an error, the server without one, and the registry holds exactly the
    2n+1 calls: one core call and 2n Vulkan calls, with all their bytes. *)
Theorem load_completes n :
  Z.of_nat (2 * n + 1) <= 2 ^ 32 ->
  forall k st, steps k (start (Z.of_nat n) ObsRegistry.new) st ->
  (k <= 5 * (2 * n + 1) + 3)%nat /\
  ((k < 5 * (2 * n + 1) + 3)%nat -> exists st', step st st') /\
  (k = (5 * (2 * n + 1) + 3)%nat ->
    (forall st', ~ step st st') /\ finish st = Some (Ok tt) /\
    run_load st =
      Some (CallStats.mk (2 * Z.of_nat n + 1) (40 + 68 * Z.of_nat n) (48 + 76 * Z.of_nat n)) /\
    ObsRegistry.inner (registry st) !! "core"%string = Some (CallStats.mk 1 40 48) /\
    ObsRegistry.inner (registry st) !! "vulkan"%string =
      (if decide (n = O) then None
       else Some (CallStats.mk (2 * Z.of_nat n) (68 * Z.of_nat n) (76 * Z.of_nat n)))).
Proof.
  intros Hn k st Hk.
  destruct (on_course_ends _ _ _ _ _ _ (load_on_course n Hn) Hk) as (Hle & Hlt & Hend).
  split; [exact Hle|]. split; [exact Hlt|]. intros E.
  destruct (Hend E) as (Hno & Ecl & Esv & Ereg). destruct (load_stats n Hn) as (Ht & Hcore & Hvk).
  assert (finish st = Some (Ok tt)) as Ef by (unfold finish; by rewrite Ecl, Esv).
  split; [done|]. split; [done|]. split; [|by rewrite Ereg].
  unfold run_load. by rewrite Ef, Ereg, Ht.
Qed.

Lemma load_completes_witness :
  exists st', step (start 3 ObsRegistry.new) st'.
Proof.
  apply (load_completes 3 ltac:(by vm_compute) 0 (start 3 ObsRegistry.new)); [constructor|].
  cbn. lia.
Defined.

(** ** The binary *)

(** A run that was joined: it cannot go on. *)
Definition joined (n : Z) (st : LoadRun.load) : Prop :=
  (exists k, steps k (start n ObsRegistry.new) st) /\ forall st', ~ step st st'.

Lemma joined_completes n st :
  Z.of_nat (2 * n + 1) <= 2 ^ 32 -> joined (Z.of_nat n) st ->
  finish st = Some (Ok tt) /\ registry st = record_calls (load_calls n) ObsRegistry.new.
Proof.
  intros Hn [[k Hk] Hend].
  destruct (on_course_steps _ _ _ _ _ _ (load_on_course n Hn) Hk) as (m & Em & Hc).
  destruct m as [|m].
  - destruct (on_course_end _ _ _ Hc) as (_ & Ecl & Esv & Ereg). split; [|done].
    unfold finish. by rewrite Ecl, Esv.
  - destruct (on_course_progress _ _ _ _ Hc) as [st' Hs]. by destruct (Hend st').
Qed.

Section binary.
Context {W : Type} `{Reliable W} {F : Type} `{F64 F}.

(** What the binary prints: the report of what the registry holds, the number of
    calls and of rounds, and a time and a rate. It exits successfully. *)
Lemma loadtest_reports io_display run_of time_of entries args (p : Console.t W) n :
  (parse_ops (head args)).1 = Z.of_nat n -> Z.of_nat (2 * n + 1) <= 2 ^ 32 ->
  joined (Z.of_nat n) (run_of (Z.of_nat n)) ->
  (forall r, entries r ≡ₚ map_to_list (ObsRegistry.inner r)) ->
  exists p' t1 t2,
    loadtest_main io_display run_of time_of entries args p = Some (Ret (p', ExitCode.SUCCESS)) /\
    content (Console.stdout p') = content (Console.stdout p) ++
      ObsRegistry.report (entries (record_calls (load_calls n) ObsRegistry.new)) ++
      "graftx-loadtest: " ++ dec (2 * Z.of_nat n + 1) ++ " ops (" ++ dec (Z.of_nat n) ++
      " iterations) in " ++ t1 ++ " ms" ++ nl ++ "  " ++ t2 ++ " ops/sec" ++ nl.
Proof.
  intros En Hn Hj He. destruct (joined_completes n _ Hn Hj) as [Ef Er].
  unfold loadtest_main. destruct (parse_ops (head args)) as [ops fell]. cbn [fst] in En. subst ops.
  unfold drive. rewrite Ef, Er.
  assert (exists p1, (if fell then
      Console.eprintln ("graftx-loadtest: could not parse op count; using default " ++
        dec DEFAULT_OPS) p else Ret p) = Ret p1 /\ Console.stdout p1 = Console.stdout p)
    as (p1 & -> & Ho1).
  { destruct fell; [|by exists p].
    destruct (eprintln_reliable ("graftx-loadtest: could not parse op count; using default " ++
      dec DEFAULT_OPS) p) as (p1 & E & _ & Ho). by exists p1. }
  cbn [mbind outcome_bind LoadReport.registry LoadReport.total LoadReport.elapsed].
  set (registry := record_calls (load_calls n) ObsRegistry.new) in *.
  destruct (load_stats n Hn) as (Ht & _). fold registry in Ht.
  assert (ObsRegistry.total (entries registry) = CallStats.mk (2 * Z.of_nat n + 1)
    (40 + 68 * Z.of_nat n) (48 + 76 * Z.of_nat n)) as Etot.
  { rewrite <- Ht. apply total_Permutation; [|apply He].
    eapply stats_wf_entries; [|apply He]. apply record_calls_wf, load_calls_wf. }
  rewrite Etot. cbn [CallStats.calls].
  destruct (print_reliable (lit (ObsRegistry.report (entries registry))) (Console.stdout p1))
    as (out & -> & Hc1). cbn [mbind outcome_bind].
  set (t1 := f64_fixed 3 _). set (t2 := f64_fixed 2 _).
  set (l1 := "graftx-loadtest: " ++ _). set (l2 := "  " ++ t2 ++ _).
  destruct (println_reliable l1 (Console.set_stdout out p1)) as (p2 & -> & Hc2 & _).
  cbn [mbind outcome_bind].
  destruct (println_reliable l2 p2) as (p3 & -> & Hc3 & _).
  exists p3, t1, t2. split; [reflexivity|]. rewrite Hc3, Hc2. cbn [Console.stdout Console.set_stdout].
  rewrite Hc1, Ho1. unfold l1, l2. rewrite <- !app_assoc. reflexivity.
Qed.
End binary.
