(* ===== verification/Threads.v ===== *)
(** A client and a server as two threads over the loopback. Whatever calls the client
    makes, and however the scheduler interleaves the steps of the two threads, the run
    ends and the client's calls return the same: what the world of objects lets them.
    The machine is that of LoadTest; the client's program is any run of calls. *)
From S2P Require Import Wire VkBodies Codecs Contract Handles HandleSpec Effects Backend.
From S2P Require Import VulkanBackend VulkanSafety ApiBackends Session Server SessionProps.
From S2P Require Import Transport TransportProps Obs Serve ServeProps ClientSession ClientShims.
From S2P Require Import ClientCall ClientSpec ClientProps EndToEnd World WorldProps WorldSession.
From S2P Require Import ObsScope Text Process Cli CliProps OverTcp LoadTest LoadTestProps.

Local Open Scope Z_scope.

(** ** The client's calls as a program *)

(** A transport whose next send and next receive return given results. *)
Module Canned.
Record t := mk { sent : io_result unit; got : io_result (list byte) }.

#[global] Instance transport : Transport t :=
  {| send := fun _ self => (self, sent self); recv := fun self => (self, got self) |}.
End Canned.

(** What a call makes of what its send and its receive return. *)
Definition call_result (c : client_call) (q sq : Z) (sent : io_result unit)
    (got : io_result (list byte)) : result ClientError.t client_value :=
  (perform c q sq (Canned.mk sent got)).2.

Definition call_prog {A} (c : client_call) (q sq : Z)
    (k : result ClientError.t client_value -> prog A) : prog A :=
  Send (client_frame (call_op c) q sq (call_body c)) (fun r =>
    match r with
    | Err e => k (call_result c q sq (Err e) (Err e))
    | Ok _ => Recv (fun r => k (call_result c q sq (Ok tt) r))
    end).

(** The calls, the next ids being [q] and [sq]; [rs] is what was returned so far. *)
Fixpoint calls_prog {A} (f : list (result ClientError.t client_value) -> A)
    (cs : list client_call) (q sq : Z) (rs : list (result ClientError.t client_value)) : prog A :=
  match cs with
  | [] => Done (f rs)
  | c :: cs => call_prog c q sq (fun r =>
      calls_prog f cs (saturating_add 32 q 1) (saturating_add 64 sq 1) (rs ++ [r]))
  end.

(** A client that connects and makes calls. *)
Definition session_prog (cs : list client_call)
  : prog (result ClientError.t (list (result ClientError.t client_value))) :=
  exchange_prog core_op.HELLO core_op.WELCOME 1 1 (Hello.encode client_hello []) (fun r =>
    match then_local r welcome_local with
    | Err e => Done (Err e)
    | Ok _welcome => calls_prog Ok cs 2 2 []
    end).

Section interp.
Context {T : Type} `{Transport T}.

Lemma perform_steps c q sq (t : T) :
  perform c q sq t =
  match send (client_frame (call_op c) q sq (call_body c)) t with
  | (t, Err e) => (t, call_result c q sq (Err e) (Err e))
  | (t, Ok _) => let '(t, r) := recv t in (t, call_result c q sq (Ok tt) r)
  end.
Proof.
  rewrite (surjective_pairing (perform c q sq t)), perform_state. unfold call_result.
  pose proof (perform_result c q sq t : forall u : Canned.t, _) as Hp.
  rewrite exchange_cases in *.
  destruct (send _ t) as [t1 [[]|e]].
  - destruct (recv t1) as [t2 r]. specialize (Hp (Canned.mk (Ok tt) r)).
    rewrite exchange_cases in Hp. cbn [send recv Canned.transport Canned.sent Canned.got] in Hp.
    destruct r; cbn [fst snd] in *; by rewrite Hp.
  - specialize (Hp (Canned.mk (Err e) (Err e))).
    rewrite exchange_cases in Hp. cbn [send recv Canned.transport Canned.sent Canned.got] in Hp.
    cbn [fst snd] in *. by rewrite Hp.
Qed.

Lemma interp_call {A} c q sq (k : _ -> prog A) (t : T) :
  interp (call_prog c q sq k) t = (let '(t, r) := perform c q sq t in interp (k r) t).
Proof.
  rewrite perform_steps. unfold call_prog. cbn [interp].
  destruct (send _ t) as [t1 [[]|e]]; cbn [interp]; [|done]. by destruct (recv t1).
Qed.

Lemma interp_calls {A} (f : _ -> A) cs q sq sid rs (t : T) :
  (interp (calls_prog f cs q sq rs) t).2 = f (rs ++ (run_link cs (Client.mk t q sq sid)).2).
Proof.
  revert q sq rs t. induction cs as [|c cs IH]; intros q sq rs t; cbn [calls_prog run_link].
  { cbn. by rewrite app_nil_r. }
  rewrite interp_call. unfold Client.delegate, Client.next_ids.
  cbn [Client.transport Client.next_req_id Client.next_seq Client.session_id].
  destruct (perform c q sq t) as [t1 r]. rewrite IH.
  destruct (run_link cs _) as [cl' rs']. cbn [snd]. by rewrite <- app_assoc.
Qed.

(** The program is the client's code, over every transport. *)
Lemma interp_session cs (t : T) :
  (interp (session_prog cs) t).2 =
  match Client.connect t with
  | Err e => Err e
  | Ok client => Ok (run_link cs client).2
  end.
Proof.
  unfold session_prog, Client.connect. rewrite interp_exchange, handshake_local.
  fold client_hello. destruct (exchange _ _ _ _ _ t) as [t1 r].
  destruct (then_local r welcome_local) as [w|e]; [|done].
  by rewrite (interp_calls Ok cs 2 2 (Welcome.session_id w)).
Qed.
End interp.

(** ** The dialogue of the calls with a session *)

(** A call over a link, by what the session does with its frame. *)
Lemma perform_link_answered c q sq s s' reply :
  Session.handle (client_frame (call_op c) q sq (call_body c)) s = Ret (s', Ok reply) ->
  perform c q sq (Link.mk s [] true) =
    (Link.mk s' [] true, call_result c q sq (Ok tt) (Ok reply)).
Proof.
  intros E. rewrite perform_steps. cbn [send Link.transport]. unfold Link.send.
  cbn [Link.serving Link.server Link.replies]. by rewrite E.
Qed.

Lemma perform_link_refused c q sq s e :
  Session.handle (client_frame (call_op c) q sq (call_body c)) s = Ret (s, Err e) ->
  perform c q sq (Link.mk s [] true) =
    (Link.mk s [] false, call_result c q sq (Ok tt) (Err io.UnexpectedEof)).
Proof.
  intros E. rewrite perform_steps. cbn [send Link.transport]. unfold Link.send.
  cbn [Link.serving Link.server Link.replies]. by rewrite E.
Qed.

Lemma call_result_broken c q sq :
  call_result c q sq (Err io.BrokenPipe) (Err io.BrokenPipe) = broken.
Proof.
  unfold call_result. set (t := Canned.mk _ _).
  by rewrite (perform_err c q sq t t (ClientError.Transport io.BrokenPipe)).
Qed.

Lemma app_snoc_cons {A} (l1 : list A) x l2 : l1 ++ x :: l2 = (l1 ++ [x]) ++ l2.
Proof. by rewrite <- app_assoc. Qed.

(** Once the server has hung up, every call fails at its send. *)
Lemma hung_up_calls {A} (f : _ -> A) cs q sq rs :
  hung_up (length cs) (calls_prog f cs q sq rs) (f (rs ++ replicate (length cs) broken)).
Proof.
  revert q sq rs. induction cs as [|c cs IH]; intros q sq rs; cbn [calls_prog length replicate].
  { rewrite app_nil_r. constructor. }
  constructor. rewrite call_result_broken, (app_snoc_cons rs broken (replicate _ _)). apply IH.
Qed.

(** What the calls return in a dialogue with a session is what they return over a link
    to it; the threads take at most five steps a call, and three to end. *)
Lemma calls_dialogue {A} (f : _ -> A) cs n q sq sid rs s :
  Session.ready (length cs + n) s -> fits 32 q -> fits 64 sq ->
  exists log m, (5 * length log + m <= 5 * length cs + 3)%nat /\
    dialogue (calls_prog f cs q sq rs) s log m
      (f (rs ++ (run_link cs (Client.mk (Link.mk s [] true) q sq sid)).2)).
Proof.
  revert q sq rs s. induction cs as [|c cs IH]; intros q sq rs s Hs Hq Hsq.
  { exists [], 3%nat. split; [done|]. cbn. rewrite app_nil_r. constructor. }
  cbn [length plus] in Hs. cbn [run_link calls_prog].
  unfold Client.delegate, Client.next_ids.
  cbn [Client.transport Client.next_req_id Client.next_seq Client.session_id].
  set (frame := client_frame (call_op c) q sq (call_body c)).
  destruct (session_handle_answered _ frame s Hs) as (s' & r & E & Hr & Hm).
  destruct r as [reply|e].
  - rewrite (perform_link_answered c q sq s s' reply E).
    destruct (IH (saturating_add 32 q 1) (saturating_add 64 sq 1)
      (rs ++ [call_result c q sq (Ok tt) (Ok reply)]) s') as (log & m & Hl & Hd);
      [done|unfold fits, saturating_add, max_of in *; lia..|].
    exists ((frame, reply) :: log), m. split; [cbn [length]; lia|].
    eapply dialogue_more; [reflexivity|exact E|]. cbv beta.
    destruct (run_link cs _) as [cl rs']. cbn [snd] in *. by rewrite <- app_assoc in Hd.
  - subst s'. rewrite (perform_link_refused c q sq s e E).
    destruct (run_link_closed cs (saturating_add 32 q 1) (saturating_add 64 sq 1) sid s)
      as (q' & sq' & ->). cbn [snd].
    exists [], (5 + length cs)%nat. split; [cbn [length]; lia|].
    eapply dialogue_refused; [reflexivity|exact E|]. cbv beta.
    rewrite (app_snoc_cons rs _ (replicate _ _)). apply hung_up_calls.
Qed.

Lemma dialogue_exchange {A} op rop q sq body (k : result ClientError.t (list byte) -> prog A)
    s s1 rbody log m a :
  Session.handle (client_frame op q sq body) s =
    Ret (s1, Ok (encode_frame (reply_header rop q (Session.next_seq s) rbody) rbody)) ->
  fits 32 rop -> fits 32 q -> fits 64 (Session.next_seq s) -> (length rbody <= MAX_BODY)%nat ->
  dialogue (k (Ok rbody)) s1 log m a ->
  dialogue (exchange_prog op rop q sq body k) s
    ((client_frame op q sq body,
      encode_frame (reply_header rop q (Session.next_seq s) rbody) rbody) :: log) m a.
Proof.
  intros E Ho Hq Hs Hl Ht. unfold exchange_prog. eapply dialogue_more; [reflexivity|exact E|].
  cbv beta iota. rewrite reply_decodes by done.
  cbn [FrameHeader.opcode FrameHeader.kind reply_header].
  rewrite decide_False; [exact Ht|]. by intros [?|?].
Qed.

(** ** Every schedule *)

(** The two threads are started on a fresh loopback. *)
Definition start_session (s : Session.t) (cs : list client_call) (registry : ObsRegistry.t)
  : LoadRun.t (result ClientError.t (list (result ClientError.t client_value))) :=
  LoadRun.mk Loopback.loopback (LoadRun.Running (session_prog cs)) (LoadRun.Receiving s) registry.

Lemma session_dialogue cs sid s :
  Session.ready (S (length cs + 0)) s -> 12 <= Session.max_frame_body s ->
  exists log m, (5 * length log + m <= 5 * length cs + 8)%nat /\
    dialogue (session_prog cs) s log m
      (Ok (run_link cs (Client.mk (Link.mk (advanced (negotiated client_hello s)) [] true)
        2 2 sid)).2).
Proof.
  intros Hs Hmin. destruct (client_hello_answered _ s Hs Hmin) as [E Hr].
  pose proof Hs as [Hid _ [Hs1 Hs2] _].
  destruct (calls_dialogue (Ok (E := ClientError.t)) cs 0 2 2 sid [] _ Hr) as (log & m & Hl & Hd);
    [apply first_ids_fit..|].
  eexists _, m. split; cycle 1.
  - unfold session_prog. eapply dialogue_exchange; [exact E| | | | |].
    + by vm_compute.
    + by vm_compute.
    + unfold fits, max_of in *. lia.
    + cbn. unfold MAX_BODY. lia.
    + unfold then_local, welcome_local, protocol.
      rewrite (welcome_decodes _ _ client_hello_fits Hid). exact Hd.
  - cbn [length]. lia.
Qed.


