(* ===== verification/ProtocolTests.v ===== *)
(** The unit tests of crates/graftx-protocol (src/lib.rs, [mod tests]). *)
From S2P Require Import Testing Wire VkBodies ApiBodies.

Local Open Scope Z_scope.

(** Equality of bodies. *)
#[export] Instance vk_CreateInstanceRequest_eq_dec : EqDecision vk.CreateInstanceRequest.t.
Proof. solve_decision. Defined.
#[export] Instance vk_CreateInstanceResponse_eq_dec : EqDecision vk.CreateInstanceResponse.t.
Proof. solve_decision. Defined.
#[export] Instance vk_EnumeratePhysicalDevicesRequest_eq_dec : EqDecision vk.EnumeratePhysicalDevicesRequest.t.
Proof. solve_decision. Defined.
#[export] Instance vk_EnumeratePhysicalDevicesResponse_eq_dec : EqDecision vk.EnumeratePhysicalDevicesResponse.t.
Proof. solve_decision. Defined.
#[export] Instance vk_CreateDeviceRequest_eq_dec : EqDecision vk.CreateDeviceRequest.t.
Proof. solve_decision. Defined.
#[export] Instance vk_CreateDeviceResponse_eq_dec : EqDecision vk.CreateDeviceResponse.t.
Proof. solve_decision. Defined.
#[export] Instance vk_GetDeviceQueueRequest_eq_dec : EqDecision vk.GetDeviceQueueRequest.t.
Proof. solve_decision. Defined.
#[export] Instance vk_GetDeviceQueueResponse_eq_dec : EqDecision vk.GetDeviceQueueResponse.t.
Proof. solve_decision. Defined.
#[export] Instance vk_AllocateMemoryRequest_eq_dec : EqDecision vk.AllocateMemoryRequest.t.
Proof. solve_decision. Defined.
#[export] Instance vk_AllocateMemoryResponse_eq_dec : EqDecision vk.AllocateMemoryResponse.t.
Proof. solve_decision. Defined.
#[export] Instance vk_CreateBufferRequest_eq_dec : EqDecision vk.CreateBufferRequest.t.
Proof. solve_decision. Defined.
#[export] Instance vk_CreateBufferResponse_eq_dec : EqDecision vk.CreateBufferResponse.t.
Proof. solve_decision. Defined.
#[export] Instance vk_BindBufferMemoryRequest_eq_dec : EqDecision vk.BindBufferMemoryRequest.t.
Proof. solve_decision. Defined.
#[export] Instance vk_CreateCommandPoolRequest_eq_dec : EqDecision vk.CreateCommandPoolRequest.t.
Proof. solve_decision. Defined.
#[export] Instance vk_CreateCommandPoolResponse_eq_dec : EqDecision vk.CreateCommandPoolResponse.t.
Proof. solve_decision. Defined.
#[export] Instance vk_AllocateCommandBufferRequest_eq_dec : EqDecision vk.AllocateCommandBufferRequest.t.
Proof. solve_decision. Defined.
#[export] Instance vk_AllocateCommandBufferResponse_eq_dec : EqDecision vk.AllocateCommandBufferResponse.t.
Proof. solve_decision. Defined.
#[export] Instance vk_QueueSubmitRequest_eq_dec : EqDecision vk.QueueSubmitRequest.t.
Proof. solve_decision. Defined.
#[export] Instance vk_CmdCopyBufferRequest_eq_dec : EqDecision vk.CmdCopyBufferRequest.t.
Proof. solve_decision. Defined.
#[export] Instance vk_CmdDrawRequest_eq_dec : EqDecision vk.CmdDrawRequest.t.
Proof. solve_decision. Defined.
#[export] Instance vk_DestroyBufferRequest_eq_dec : EqDecision vk.DestroyBufferRequest.t.
Proof. solve_decision. Defined.
#[export] Instance vk_FreeMemoryRequest_eq_dec : EqDecision vk.FreeMemoryRequest.t.
Proof. solve_decision. Defined.
#[export] Instance vk_DestroyCommandPoolRequest_eq_dec : EqDecision vk.DestroyCommandPoolRequest.t.
Proof. solve_decision. Defined.
#[export] Instance gl_CreateContextResponse_eq_dec : EqDecision gl.CreateContextResponse.t.
Proof. solve_decision. Defined.
#[export] Instance gl_MakeCurrentRequest_eq_dec : EqDecision gl.MakeCurrentRequest.t.
Proof. solve_decision. Defined.
#[export] Instance gl_GenBufferRequest_eq_dec : EqDecision gl.GenBufferRequest.t.
Proof. solve_decision. Defined.
#[export] Instance gl_GenBufferResponse_eq_dec : EqDecision gl.GenBufferResponse.t.
Proof. solve_decision. Defined.
#[export] Instance gl_SwapBuffersRequest_eq_dec : EqDecision gl.SwapBuffersRequest.t.
Proof. solve_decision. Defined.
#[export] Instance gl_DeleteBufferRequest_eq_dec : EqDecision gl.DeleteBufferRequest.t.
Proof. solve_decision. Defined.
#[export] Instance cuda_CtxCreateRequest_eq_dec : EqDecision cuda.CtxCreateRequest.t.
Proof. solve_decision. Defined.
#[export] Instance cuda_CtxCreateResponse_eq_dec : EqDecision cuda.CtxCreateResponse.t.
Proof. solve_decision. Defined.
#[export] Instance cuda_MemAllocRequest_eq_dec : EqDecision cuda.MemAllocRequest.t.
Proof. solve_decision. Defined.
#[export] Instance cuda_MemAllocResponse_eq_dec : EqDecision cuda.MemAllocResponse.t.
Proof. solve_decision. Defined.
#[export] Instance cuda_MemFreeRequest_eq_dec : EqDecision cuda.MemFreeRequest.t.
Proof. solve_decision. Defined.
#[export] Instance cuda_LaunchKernelRequest_eq_dec : EqDecision cuda.LaunchKernelRequest.t.
Proof. solve_decision. Defined.
#[export] Instance cuda_MemcpyHtoDRequest_eq_dec : EqDecision cuda.MemcpyHtoDRequest.t.
Proof. solve_decision. Defined.
#[export] Instance cuda_MemcpyDtoHRequest_eq_dec : EqDecision cuda.MemcpyDtoHRequest.t.
Proof. solve_decision. Defined.
#[export] Instance cuda_MemcpyDtoHResponse_eq_dec : EqDecision cuda.MemcpyDtoHResponse.t.
Proof. solve_decision. Defined.
#[export] Instance hip_MallocRequest_eq_dec : EqDecision hip.MallocRequest.t.
Proof. solve_decision. Defined.
#[export] Instance hip_MallocResponse_eq_dec : EqDecision hip.MallocResponse.t.
Proof. solve_decision. Defined.
#[export] Instance hip_FreeRequest_eq_dec : EqDecision hip.FreeRequest.t.
Proof. solve_decision. Defined.
#[export] Instance hip_StreamCreateResponse_eq_dec : EqDecision hip.StreamCreateResponse.t.
Proof. solve_decision. Defined.
#[export] Instance cl_CreateContextResponse_eq_dec : EqDecision cl.CreateContextResponse.t.
Proof. solve_decision. Defined.
#[export] Instance cl_CreateBufferRequest_eq_dec : EqDecision cl.CreateBufferRequest.t.
Proof. solve_decision. Defined.
#[export] Instance cl_CreateBufferResponse_eq_dec : EqDecision cl.CreateBufferResponse.t.
Proof. solve_decision. Defined.
#[export] Instance cl_ReleaseBufferRequest_eq_dec : EqDecision cl.ReleaseBufferRequest.t.
Proof. solve_decision. Defined.
#[export] Instance l0_ContextCreateResponse_eq_dec : EqDecision l0.ContextCreateResponse.t.
Proof. solve_decision. Defined.
#[export] Instance l0_MemAllocDeviceRequest_eq_dec : EqDecision l0.MemAllocDeviceRequest.t.
Proof. solve_decision. Defined.
#[export] Instance l0_MemAllocDeviceResponse_eq_dec : EqDecision l0.MemAllocDeviceResponse.t.
Proof. solve_decision. Defined.
#[export] Instance l0_MemFreeRequest_eq_dec : EqDecision l0.MemFreeRequest.t.
Proof. solve_decision. Defined.
#[export] Instance video_CreateDecodeSessionRequest_eq_dec : EqDecision video.CreateDecodeSessionRequest.t.
Proof. solve_decision. Defined.
#[export] Instance video_CreateDecodeSessionResponse_eq_dec : EqDecision video.CreateDecodeSessionResponse.t.
Proof. solve_decision. Defined.
#[export] Instance video_DecodeFrameRequest_eq_dec : EqDecision video.DecodeFrameRequest.t.
Proof. solve_decision. Defined.
#[export] Instance video_DecodeFrameResponse_eq_dec : EqDecision video.DecodeFrameResponse.t.
Proof. solve_decision. Defined.
#[export] Instance video_DestroySessionRequest_eq_dec : EqDecision video.DestroySessionRequest.t.
Proof. solve_decision. Defined.
#[export] Instance wgpu_RequestDeviceResponse_eq_dec : EqDecision wgpu.RequestDeviceResponse.t.
Proof. solve_decision. Defined.
#[export] Instance wgpu_CreateBufferRequest_eq_dec : EqDecision wgpu.CreateBufferRequest.t.
Proof. solve_decision. Defined.
#[export] Instance wgpu_CreateBufferResponse_eq_dec : EqDecision wgpu.CreateBufferResponse.t.
Proof. solve_decision. Defined.
#[export] Instance wgpu_DestroyBufferRequest_eq_dec : EqDecision wgpu.DestroyBufferRequest.t.
Proof. solve_decision. Defined.
#[export] Instance optix_ContextCreateResponse_eq_dec : EqDecision optix.ContextCreateResponse.t.
Proof. solve_decision. Defined.
#[export] Instance optix_PipelineCreateRequest_eq_dec : EqDecision optix.PipelineCreateRequest.t.
Proof. solve_decision. Defined.
#[export] Instance optix_PipelineCreateResponse_eq_dec : EqDecision optix.PipelineCreateResponse.t.
Proof. solve_decision. Defined.
#[export] Instance optix_DestroyRequest_eq_dec : EqDecision optix.DestroyRequest.t.
Proof. solve_decision. Defined.
#[export] Instance sycl_QueueCreateResponse_eq_dec : EqDecision sycl.QueueCreateResponse.t.
Proof. solve_decision. Defined.
#[export] Instance sycl_MallocDeviceRequest_eq_dec : EqDecision sycl.MallocDeviceRequest.t.
Proof. solve_decision. Defined.
#[export] Instance sycl_MallocDeviceResponse_eq_dec : EqDecision sycl.MallocDeviceResponse.t.
Proof. solve_decision. Defined.
#[export] Instance sycl_FreeRequest_eq_dec : EqDecision sycl.FreeRequest.t.
Proof. solve_decision. Defined.
#[export] Instance amf_CreateEncoderRequest_eq_dec : EqDecision amf.CreateEncoderRequest.t.
Proof. solve_decision. Defined.
#[export] Instance amf_CreateEncoderResponse_eq_dec : EqDecision amf.CreateEncoderResponse.t.
Proof. solve_decision. Defined.
#[export] Instance amf_EncodeFrameRequest_eq_dec : EqDecision amf.EncodeFrameRequest.t.
Proof. solve_decision. Defined.
#[export] Instance amf_EncodeFrameResponse_eq_dec : EqDecision amf.EncodeFrameResponse.t.
Proof. solve_decision. Defined.
#[export] Instance amf_DestroyEncoderRequest_eq_dec : EqDecision amf.DestroyEncoderRequest.t.
Proof. solve_decision. Defined.
#[export] Instance Hello_eq_dec : EqDecision Hello.t.
Proof. solve_decision. Defined.
#[export] Instance Welcome_eq_dec : EqDecision Welcome.t.
Proof. solve_decision. Defined.

Module tests.

Definition opcode_pack_unpack : test :=
  let op := opcode Vulkan 0x0042 in
  assert_eq op 0x01000042;;
  assert_eq (opcode_api op) (api_byte Vulkan);;
  assert_eq (opcode_call op) 0x0042;;
  Ret tt.

Definition core_opcodes_are_in_core_namespace : test :=
  assert_eq (opcode_api core_op.HELLO) (api_byte Core);;
  assert_eq (opcode_api core_op.NOOP) (api_byte Core);;
  Ret tt.

Definition vk_opcodes_are_in_vulkan_namespace : test :=
  assert_eq (opcode_api vk_op.CREATE_INSTANCE) (api_byte Vulkan);;
  assert_ne vk_op.CREATE_INSTANCE vk_op.DESTROY_INSTANCE;;
  Ret tt.

Definition gl_opcodes_are_in_opengl_namespace : test :=
  assert_eq (opcode_api gl_op.CREATE_CONTEXT) (api_byte OpenGl);;
  assert_eq (opcode_api gl_op.MAKE_CURRENT) (api_byte OpenGl);;
  assert_eq (opcode_api gl_op.GEN_BUFFER) (api_byte OpenGl);;
  assert_eq (opcode_api gl_op.SWAP_BUFFERS) (api_byte OpenGl);;
  assert_eq (opcode_api gl_op.DELETE_BUFFER) (api_byte OpenGl);;
  assert_ne gl_op.CREATE_CONTEXT gl_op.MAKE_CURRENT;;
  assert_ne gl_op.MAKE_CURRENT gl_op.GEN_BUFFER;;
  assert_ne gl_op.GEN_BUFFER gl_op.SWAP_BUFFERS;;
  assert_ne gl_op.SWAP_BUFFERS gl_op.DELETE_BUFFER;;
  Ret tt.

Definition frame_header_roundtrip : test :=
  let h := FrameHeader.mk PROTOCOL_MAJOR 0 FrameKind.Request core_op.NOOP 7 99 0 in
  let buf := [] in
  let buf := FrameHeader.encode h buf in
  assert_eq (len buf) (Z.of_nat HEADER_LEN);;
  got ← expect (FrameHeader.decode buf);
  assert_eq got h;;
  Ret tt.

Definition hello_welcome_roundtrip : test :=
  let hello := Hello.mk 0 0 0 DEFAULT_MAX_FRAME_BODY in
  let b := [] in
  let b := Hello.encode hello b in
  r1 ← expect (Hello.decode b);
  assert_eq r1 hello;;
  let welcome := Welcome.mk 0 0 0 DEFAULT_MAX_FRAME_BODY 0xDEADBEEF in
  let b := [] in
  let b := Welcome.encode welcome b in
  r2 ← expect (Welcome.decode b);
  assert_eq r2 welcome;;
  Ret tt.

Definition decode_frame_rejects_short_buffer : test :=
  assert_eq (decode_frame (bytes_of 4 0)) (Err UnexpectedEof);;
  Ret tt.

Definition handle_roundtrip : test :=
  let cases := [(0, 0, 0); (1, 1, 1);
    (0x7F, Z.land 0x00ABCDEF Handle.GENERATION_MAX, 0x12345678);
    (0xFF, Handle.GENERATION_MAX, (max_of 32)); (0xFF, 0, 0); (0, Handle.GENERATION_MAX, 0);
    (0, 0, (max_of 32))] in
  for_each cases (fun '(kind, generation, slot) =>
    let h := Handle.new kind generation slot in
    assert_eq (Handle.kind h) kind;;
    assert_eq (Handle.generation h) generation;;
    assert_eq (Handle.slot h) slot;;
    assert_eq (Handle.from_raw (Handle.raw h)) h;;
    Ret tt);;
  Ret tt.

Definition handle_generation_masked_to_24_bits : test :=
  let h := Handle.new 0xAB 0xFFFFFFFF 0x99999999 in
  assert_eq (Handle.generation h) Handle.GENERATION_MAX;;
  assert_eq (Handle.kind h) 0xAB;;
  assert_eq (Handle.slot h) 0x99999999;;
  let h := Handle.new 0x12 (Handle.GENERATION_MAX + 1) 0x00000001 in
  assert_eq (Handle.generation h) 0;;
  assert_eq (Handle.kind h) 0x12;;
  assert_eq (Handle.slot h) 1;;
  Ret tt.

Definition handle_field_constants : test :=
  assert_eq Handle.KIND_BITS 8;;
  assert_eq Handle.GENERATION_BITS 24;;
  assert_eq Handle.SLOT_BITS 32;;
  assert_eq ((Handle.KIND_BITS + Handle.GENERATION_BITS) + Handle.SLOT_BITS) 64;;
  assert_eq Handle.GENERATION_MAX ((Z.shiftl 1 24) - 1);;
  Ret tt.

Definition vk_create_instance_roundtrip : test :=
  let req := vk.CreateInstanceRequest.mk 0x00403000 in
  let b := [] in
  let b := vk.CreateInstanceRequest.encode req b in
  assert_eq (len b) 4;;
  r1 ← expect (vk.CreateInstanceRequest.decode b);
  assert_eq r1 req;;
  let resp := vk.CreateInstanceResponse.mk (Handle.new 1 5 42) in
  let b := [] in
  let b := vk.CreateInstanceResponse.encode resp b in
  assert_eq (len b) 8;;
  r2 ← expect (vk.CreateInstanceResponse.decode b);
  assert_eq r2 resp;;
  Ret tt.

Definition vk_enumerate_physical_devices_request_roundtrip : test :=
  let req := vk.EnumeratePhysicalDevicesRequest.mk (Handle.new 1 3 7) in
  let b := [] in
  let b := vk.EnumeratePhysicalDevicesRequest.encode req b in
  assert_eq (len b) 8;;
  r1 ← expect (vk.EnumeratePhysicalDevicesRequest.decode b);
  assert_eq r1 req;;
  Ret tt.

Definition vk_enumerate_physical_devices_response_empty : test :=
  let resp := vk.EnumeratePhysicalDevicesResponse.mk [] in
  let b := [] in
  let b := vk.EnumeratePhysicalDevicesResponse.encode resp b in
  assert_eq (len b) 4;;
  r1 ← expect (vk.EnumeratePhysicalDevicesResponse.decode b);
  assert_eq r1 resp;;
  Ret tt.

Definition vk_enumerate_physical_devices_response_three : test :=
  let resp := vk.EnumeratePhysicalDevicesResponse.mk
    [Handle.new 2 0 0; Handle.new 2 1 1; Handle.new 2 Handle.GENERATION_MAX (max_of 32)] in
  let b := [] in
  let b := vk.EnumeratePhysicalDevicesResponse.encode resp b in
  assert_eq (len b) (4 + (3 * 8));;
  r1 ← expect (vk.EnumeratePhysicalDevicesResponse.decode b);
  assert_eq r1 resp;;
  Ret tt.

Definition vk_bodies_reject_short_buffers : test :=
  assert_eq (vk.CreateInstanceRequest.decode (bytes_of 3 0)) (Err UnexpectedEof);;
  assert_eq (vk.CreateInstanceResponse.decode (bytes_of 7 0)) (Err UnexpectedEof);;
  assert_eq (vk.EnumeratePhysicalDevicesRequest.decode (bytes_of 7 0)) (Err UnexpectedEof);;
  let truncated := [] in
  let truncated := truncated ++ (u32_le 2) in
  let truncated := truncated ++ (u64_le 0) in
  assert_eq (vk.EnumeratePhysicalDevicesResponse.decode truncated) (Err UnexpectedEof);;
  Ret tt.

Definition vk_create_device_roundtrip : test :=
  let req := vk.CreateDeviceRequest.mk (Handle.new 2 1 9) in
  let b := [] in
  let b := vk.CreateDeviceRequest.encode req b in
  assert_eq (len b) 8;;
  r1 ← expect (vk.CreateDeviceRequest.decode b);
  assert_eq r1 req;;
  let resp := vk.CreateDeviceResponse.mk (Handle.new 3 7 11) in
  let b := [] in
  let b := vk.CreateDeviceResponse.encode resp b in
  assert_eq (len b) 8;;
  r2 ← expect (vk.CreateDeviceResponse.decode b);
  assert_eq r2 resp;;
  Ret tt.

Definition vk_get_device_queue_roundtrip : test :=
  let req := vk.GetDeviceQueueRequest.mk (Handle.new 3 2 4) 1 (max_of 32) in
  let b := [] in
  let b := vk.GetDeviceQueueRequest.encode req b in
  assert_eq (len b) 16;;
  r1 ← expect (vk.GetDeviceQueueRequest.decode b);
  assert_eq r1 req;;
  let resp := vk.GetDeviceQueueResponse.mk (Handle.new 4 Handle.GENERATION_MAX 0) in
  let b := [] in
  let b := vk.GetDeviceQueueResponse.encode resp b in
  assert_eq (len b) 8;;
  r2 ← expect (vk.GetDeviceQueueResponse.decode b);
  assert_eq r2 resp;;
  Ret tt.

Definition vk_device_queue_bodies_reject_short_buffers : test :=
  assert_eq (vk.CreateDeviceRequest.decode (bytes_of 7 0)) (Err UnexpectedEof);;
  assert_eq (vk.CreateDeviceResponse.decode (bytes_of 7 0)) (Err UnexpectedEof);;
  assert_eq (vk.GetDeviceQueueRequest.decode (bytes_of 15 0)) (Err UnexpectedEof);;
  assert_eq (vk.GetDeviceQueueResponse.decode (bytes_of 7 0)) (Err UnexpectedEof);;
  Ret tt.

Definition gl_create_context_response_roundtrip : test :=
  let resp := gl.CreateContextResponse.mk (Handle.new 10 5 42) in
  let b := [] in
  let b := gl.CreateContextResponse.encode resp b in
  assert_eq (len b) 8;;
  r1 ← expect (gl.CreateContextResponse.decode b);
  assert_eq r1 resp;;
  Ret tt.

Definition gl_make_current_request_roundtrip : test :=
  let req := gl.MakeCurrentRequest.mk (Handle.new 10 3 7) in
  let b := [] in
  let b := gl.MakeCurrentRequest.encode req b in
  assert_eq (len b) 8;;
  r1 ← expect (gl.MakeCurrentRequest.decode b);
  assert_eq r1 req;;
  Ret tt.

Definition gl_gen_buffer_roundtrip : test :=
  let req := gl.GenBufferRequest.mk (Handle.new 10 2 4) in
  let b := [] in
  let b := gl.GenBufferRequest.encode req b in
  assert_eq (len b) 8;;
  r1 ← expect (gl.GenBufferRequest.decode b);
  assert_eq r1 req;;
  let resp := gl.GenBufferResponse.mk (Handle.new 11 Handle.GENERATION_MAX (max_of 32)) in
  let b := [] in
  let b := gl.GenBufferResponse.encode resp b in
  assert_eq (len b) 8;;
  r2 ← expect (gl.GenBufferResponse.decode b);
  assert_eq r2 resp;;
  Ret tt.

Definition gl_swap_buffers_request_roundtrip : test :=
  let req := gl.SwapBuffersRequest.mk (Handle.new 12 6 9) in
  let b := [] in
  let b := gl.SwapBuffersRequest.encode req b in
  assert_eq (len b) 8;;
  r1 ← expect (gl.SwapBuffersRequest.decode b);
  assert_eq r1 req;;
  Ret tt.

Definition gl_delete_buffer_request_roundtrip : test :=
  let req := gl.DeleteBufferRequest.mk (Handle.new 13 Handle.GENERATION_MAX (max_of 32)) in
  let b := [] in
  let b := gl.DeleteBufferRequest.encode req b in
  assert_eq (len b) 8;;
  r1 ← expect (gl.DeleteBufferRequest.decode b);
  assert_eq r1 req;;
  Ret tt.

Definition gl_bodies_reject_short_buffers : test :=
  assert_eq (gl.CreateContextResponse.decode (bytes_of 7 0)) (Err UnexpectedEof);;
  assert_eq (gl.MakeCurrentRequest.decode (bytes_of 7 0)) (Err UnexpectedEof);;
  assert_eq (gl.GenBufferRequest.decode (bytes_of 7 0)) (Err UnexpectedEof);;
  assert_eq (gl.GenBufferResponse.decode (bytes_of 7 0)) (Err UnexpectedEof);;
  assert_eq (gl.SwapBuffersRequest.decode (bytes_of 7 0)) (Err UnexpectedEof);;
  assert_eq (gl.DeleteBufferRequest.decode (bytes_of 7 0)) (Err UnexpectedEof);;
  Ret tt.

Definition vk_opcodes_memory_buffer_in_vulkan_namespace : test :=
  assert_eq (opcode_api vk_op.ALLOCATE_MEMORY) (api_byte Vulkan);;
  assert_eq (opcode_api vk_op.CREATE_BUFFER) (api_byte Vulkan);;
  assert_eq (opcode_api vk_op.BIND_BUFFER_MEMORY) (api_byte Vulkan);;
  assert_eq (opcode_call vk_op.ALLOCATE_MEMORY) 0x0010;;
  assert_eq (opcode_call vk_op.CREATE_BUFFER) 0x0011;;
  assert_eq (opcode_call vk_op.BIND_BUFFER_MEMORY) 0x0012;;
  Ret tt.

Definition vk_allocate_memory_roundtrip : test :=
  let req := vk.AllocateMemoryRequest.mk (Handle.new 3 2 4) 0x123456789ABCDEF0 in
  let b := [] in
  let b := vk.AllocateMemoryRequest.encode req b in
  assert_eq (len b) 16;;
  r1 ← expect (vk.AllocateMemoryRequest.decode b);
  assert_eq r1 req;;
  let resp := vk.AllocateMemoryResponse.mk (Handle.new 5 7 11) in
  let b := [] in
  let b := vk.AllocateMemoryResponse.encode resp b in
  assert_eq (len b) 8;;
  r2 ← expect (vk.AllocateMemoryResponse.decode b);
  assert_eq r2 resp;;
  Ret tt.

Definition vk_create_buffer_roundtrip : test :=
  let req := vk.CreateBufferRequest.mk (Handle.new 3 1 9) (max_of 64) 0xDEADBEEF in
  let b := [] in
  let b := vk.CreateBufferRequest.encode req b in
  assert_eq (len b) 20;;
  r1 ← expect (vk.CreateBufferRequest.decode b);
  assert_eq r1 req;;
  let resp := vk.CreateBufferResponse.mk (Handle.new 6 Handle.GENERATION_MAX (max_of 32)) in
  let b := [] in
  let b := vk.CreateBufferResponse.encode resp b in
  assert_eq (len b) 8;;
  r2 ← expect (vk.CreateBufferResponse.decode b);
  assert_eq r2 resp;;
  Ret tt.

Definition vk_bind_buffer_memory_roundtrip : test :=
  let req := vk.BindBufferMemoryRequest.mk (Handle.new 6 3 2) (Handle.new 5 4 8)
    0x0FEDCBA987654321 in
  let b := [] in
  let b := vk.BindBufferMemoryRequest.encode req b in
  assert_eq (len b) 24;;
  r1 ← expect (vk.BindBufferMemoryRequest.decode b);
  assert_eq r1 req;;
  Ret tt.

Definition vk_memory_buffer_bodies_reject_short_buffers : test :=
  assert_eq (vk.AllocateMemoryRequest.decode (bytes_of 15 0)) (Err UnexpectedEof);;
  assert_eq (vk.AllocateMemoryResponse.decode (bytes_of 7 0)) (Err UnexpectedEof);;
  assert_eq (vk.CreateBufferRequest.decode (bytes_of 19 0)) (Err UnexpectedEof);;
  assert_eq (vk.CreateBufferResponse.decode (bytes_of 7 0)) (Err UnexpectedEof);;
  assert_eq (vk.BindBufferMemoryRequest.decode (bytes_of 23 0)) (Err UnexpectedEof);;
  Ret tt.

Definition vk_opcodes_command_buffer_in_vulkan_namespace : test :=
  assert_eq (opcode_api vk_op.CREATE_COMMAND_POOL) (api_byte Vulkan);;
  assert_eq (opcode_api vk_op.ALLOCATE_COMMAND_BUFFER) (api_byte Vulkan);;
  assert_eq (opcode_api vk_op.QUEUE_SUBMIT) (api_byte Vulkan);;
  assert_eq (opcode_call vk_op.CREATE_COMMAND_POOL) 0x0020;;
  assert_eq (opcode_call vk_op.ALLOCATE_COMMAND_BUFFER) 0x0021;;
  assert_eq (opcode_call vk_op.QUEUE_SUBMIT) 0x0022;;
  assert_ne vk_op.CREATE_COMMAND_POOL vk_op.ALLOCATE_COMMAND_BUFFER;;
  assert_ne vk_op.ALLOCATE_COMMAND_BUFFER vk_op.QUEUE_SUBMIT;;
  Ret tt.

Definition vk_create_command_pool_roundtrip : test :=
  let req := vk.CreateCommandPoolRequest.mk (Handle.new 3 2 4) (max_of 32) in
  let b := [] in
  let b := vk.CreateCommandPoolRequest.encode req b in
  assert_eq (len b) 12;;
  r1 ← expect (vk.CreateCommandPoolRequest.decode b);
  assert_eq r1 req;;
  let resp := vk.CreateCommandPoolResponse.mk (Handle.new 7 Handle.GENERATION_MAX (max_of 32)) in
  let b := [] in
  let b := vk.CreateCommandPoolResponse.encode resp b in
  assert_eq (len b) 8;;
  r2 ← expect (vk.CreateCommandPoolResponse.decode b);
  assert_eq r2 resp;;
  Ret tt.

Definition vk_allocate_command_buffer_roundtrip : test :=
  let req := vk.AllocateCommandBufferRequest.mk (Handle.new 7 3 9) in
  let b := [] in
  let b := vk.AllocateCommandBufferRequest.encode req b in
  assert_eq (len b) 8;;
  r1 ← expect (vk.AllocateCommandBufferRequest.decode b);
  assert_eq r1 req;;
  let resp := vk.AllocateCommandBufferResponse.mk
    (Handle.new 8 Handle.GENERATION_MAX (max_of 32)) in
  let b := [] in
  let b := vk.AllocateCommandBufferResponse.encode resp b in
  assert_eq (len b) 8;;
  r2 ← expect (vk.AllocateCommandBufferResponse.decode b);
  assert_eq r2 resp;;
  Ret tt.

Definition vk_queue_submit_roundtrip : test :=
  let req := vk.QueueSubmitRequest.mk (Handle.new 4 1 2) (Handle.new 8 6 5) in
  let b := [] in
  let b := vk.QueueSubmitRequest.encode req b in
  assert_eq (len b) 16;;
  r1 ← expect (vk.QueueSubmitRequest.decode b);
  assert_eq r1 req;;
  Ret tt.

Definition vk_command_buffer_bodies_reject_short_buffers : test :=
  assert_eq (vk.CreateCommandPoolRequest.decode (bytes_of 11 0)) (Err UnexpectedEof);;
  assert_eq (vk.CreateCommandPoolResponse.decode (bytes_of 7 0)) (Err UnexpectedEof);;
  assert_eq (vk.AllocateCommandBufferRequest.decode (bytes_of 7 0)) (Err UnexpectedEof);;
  assert_eq (vk.AllocateCommandBufferResponse.decode (bytes_of 7 0)) (Err UnexpectedEof);;
  assert_eq (vk.QueueSubmitRequest.decode (bytes_of 15 0)) (Err UnexpectedEof);;
  Ret tt.

Definition vk_opcodes_draw_copy_in_vulkan_namespace : test :=
  assert_eq (opcode_api vk_op.CMD_COPY_BUFFER) (api_byte Vulkan);;
  assert_eq (opcode_api vk_op.CMD_DRAW) (api_byte Vulkan);;
  assert_eq (opcode_call vk_op.CMD_COPY_BUFFER) 0x0023;;
  assert_eq (opcode_call vk_op.CMD_DRAW) 0x0024;;
  assert_ne vk_op.CMD_COPY_BUFFER vk_op.CMD_DRAW;;
  assert_ne vk_op.QUEUE_SUBMIT vk_op.CMD_COPY_BUFFER;;
  Ret tt.

Definition vk_cmd_copy_buffer_roundtrip : test :=
  let req := vk.CmdCopyBufferRequest.mk (Handle.new 8 1 2) (Handle.new 6 3 4) (Handle.new 6 5 6)
    (max_of 64) in
  let b := [] in
  let b := vk.CmdCopyBufferRequest.encode req b in
  assert_eq (len b) 32;;
  r1 ← expect (vk.CmdCopyBufferRequest.decode b);
  assert_eq r1 req;;
  Ret tt.

Definition vk_cmd_draw_roundtrip : test :=
  let req := vk.CmdDrawRequest.mk (Handle.new 8 7 9) (max_of 32) 1 in
  let b := [] in
  let b := vk.CmdDrawRequest.encode req b in
  assert_eq (len b) 16;;
  r1 ← expect (vk.CmdDrawRequest.decode b);
  assert_eq r1 req;;
  Ret tt.

Definition vk_draw_copy_bodies_reject_short_buffers : test :=
  assert_eq (vk.CmdCopyBufferRequest.decode (bytes_of 31 0)) (Err UnexpectedEof);;
  assert_eq (vk.CmdDrawRequest.decode (bytes_of 15 0)) (Err UnexpectedEof);;
  Ret tt.

Definition vk_opcodes_destroy_free_in_vulkan_namespace : test :=
  assert_eq (opcode_api vk_op.DESTROY_BUFFER) (api_byte Vulkan);;
  assert_eq (opcode_api vk_op.FREE_MEMORY) (api_byte Vulkan);;
  assert_eq (opcode_api vk_op.DESTROY_COMMAND_POOL) (api_byte Vulkan);;
  assert_eq (opcode_call vk_op.DESTROY_BUFFER) 0x0013;;
  assert_eq (opcode_call vk_op.FREE_MEMORY) 0x0014;;
  assert_eq (opcode_call vk_op.DESTROY_COMMAND_POOL) 0x0025;;
  assert_ne vk_op.DESTROY_BUFFER vk_op.FREE_MEMORY;;
  assert_ne vk_op.FREE_MEMORY vk_op.DESTROY_COMMAND_POOL;;
  assert_ne vk_op.DESTROY_COMMAND_POOL vk_op.CMD_DRAW;;
  Ret tt.

Definition vk_destroy_buffer_roundtrip : test :=
  let req := vk.DestroyBufferRequest.mk (Handle.new 6 Handle.GENERATION_MAX (max_of 32)) in
  let b := [] in
  let b := vk.DestroyBufferRequest.encode req b in
  assert_eq (len b) 8;;
  r1 ← expect (vk.DestroyBufferRequest.decode b);
  assert_eq r1 req;;
  Ret tt.

Definition vk_free_memory_roundtrip : test :=
  let req := vk.FreeMemoryRequest.mk (Handle.new 5 4 8) in
  let b := [] in
  let b := vk.FreeMemoryRequest.encode req b in
  assert_eq (len b) 8;;
  r1 ← expect (vk.FreeMemoryRequest.decode b);
  assert_eq r1 req;;
  Ret tt.

Definition vk_destroy_command_pool_roundtrip : test :=
  let req := vk.DestroyCommandPoolRequest.mk (Handle.new 7 3 9) in
  let b := [] in
  let b := vk.DestroyCommandPoolRequest.encode req b in
  assert_eq (len b) 8;;
  r1 ← expect (vk.DestroyCommandPoolRequest.decode b);
  assert_eq r1 req;;
  Ret tt.

Definition vk_destroy_free_bodies_reject_short_buffers : test :=
  assert_eq (vk.DestroyBufferRequest.decode (bytes_of 7 0)) (Err UnexpectedEof);;
  assert_eq (vk.FreeMemoryRequest.decode (bytes_of 7 0)) (Err UnexpectedEof);;
  assert_eq (vk.DestroyCommandPoolRequest.decode (bytes_of 7 0)) (Err UnexpectedEof);;
  Ret tt.

Definition cuda_opcodes_are_in_cuda_namespace : test :=
  assert_eq (opcode_api cuda_op.CTX_CREATE) (api_byte Cuda);;
  assert_eq (opcode_api cuda_op.MEM_ALLOC) (api_byte Cuda);;
  assert_eq (opcode_api cuda_op.MEM_FREE) (api_byte Cuda);;
  assert_eq (opcode_api cuda_op.LAUNCH_KERNEL) (api_byte Cuda);;
  assert_eq (opcode_api cuda_op.MEMCPY_HTOD) (api_byte Cuda);;
  assert_eq (opcode_api cuda_op.MEMCPY_DTOH) (api_byte Cuda);;
  assert_eq (opcode_call cuda_op.CTX_CREATE) 0x0001;;
  assert_eq (opcode_call cuda_op.MEM_ALLOC) 0x0002;;
  assert_eq (opcode_call cuda_op.MEM_FREE) 0x0003;;
  assert_eq (opcode_call cuda_op.LAUNCH_KERNEL) 0x0010;;
  assert_eq (opcode_call cuda_op.MEMCPY_HTOD) 0x0011;;
  assert_eq (opcode_call cuda_op.MEMCPY_DTOH) 0x0012;;
  assert_ne cuda_op.CTX_CREATE cuda_op.MEM_ALLOC;;
  assert_ne cuda_op.MEM_ALLOC cuda_op.MEM_FREE;;
  assert_ne cuda_op.LAUNCH_KERNEL cuda_op.MEMCPY_HTOD;;
  assert_ne cuda_op.MEMCPY_HTOD cuda_op.MEMCPY_DTOH;;
  Ret tt.

Definition cuda_ctx_create_roundtrip : test :=
  let req := cuda.CtxCreateRequest.mk 0xDEADBEEF in
  let b := [] in
  let b := cuda.CtxCreateRequest.encode req b in
  assert_eq (len b) 4;;
  r1 ← expect (cuda.CtxCreateRequest.decode b);
  assert_eq r1 req;;
  let resp := cuda.CtxCreateResponse.mk (Handle.new 7 5 42) in
  let b := [] in
  let b := cuda.CtxCreateResponse.encode resp b in
  assert_eq (len b) 8;;
  r2 ← expect (cuda.CtxCreateResponse.decode b);
  assert_eq r2 resp;;
  Ret tt.

Definition cuda_mem_alloc_roundtrip : test :=
  let req := cuda.MemAllocRequest.mk (Handle.new 7 2 4) 0x123456789ABCDEF0 in
  let b := [] in
  let b := cuda.MemAllocRequest.encode req b in
  assert_eq (len b) 16;;
  r1 ← expect (cuda.MemAllocRequest.decode b);
  assert_eq r1 req;;
  let resp := cuda.MemAllocResponse.mk (Handle.new 8 Handle.GENERATION_MAX (max_of 32)) in
  let b := [] in
  let b := cuda.MemAllocResponse.encode resp b in
  assert_eq (len b) 8;;
  r2 ← expect (cuda.MemAllocResponse.decode b);
  assert_eq r2 resp;;
  Ret tt.

Definition cuda_mem_free_roundtrip : test :=
  let req := cuda.MemFreeRequest.mk (Handle.new 8 3 11) in
  let b := [] in
  let b := cuda.MemFreeRequest.encode req b in
  assert_eq (len b) 8;;
  r1 ← expect (cuda.MemFreeRequest.decode b);
  assert_eq r1 req;;
  Ret tt.

Definition cuda_launch_kernel_roundtrip : test :=
  let req := cuda.LaunchKernelRequest.mk (Handle.new 9 6 21) 0x11112222 0x33334444 0x55556666
    0x77778888 0x9999AAAA 0xBBBBCCCC in
  let b := [] in
  let b := cuda.LaunchKernelRequest.encode req b in
  assert_eq (len b) (8 + (6 * 4));;
  r1 ← expect (cuda.LaunchKernelRequest.decode b);
  assert_eq r1 req;;
  Ret tt.

Definition cuda_memcpy_htod_roundtrip : test :=
  let req := cuda.MemcpyHtoDRequest.mk (Handle.new 8 4 13) 0x0123456789ABCDEF in
  let b := [] in
  let b := cuda.MemcpyHtoDRequest.encode req b in
  assert_eq (len b) 16;;
  r1 ← expect (cuda.MemcpyHtoDRequest.decode b);
  assert_eq r1 req;;
  Ret tt.

Definition cuda_memcpy_dtoh_roundtrip : test :=
  let req := cuda.MemcpyDtoHRequest.mk (Handle.new 8 1 99) 0xFEDCBA9876543210 in
  let b := [] in
  let b := cuda.MemcpyDtoHRequest.encode req b in
  assert_eq (len b) 16;;
  r1 ← expect (cuda.MemcpyDtoHRequest.decode b);
  assert_eq r1 req;;
  let resp := cuda.MemcpyDtoHResponse.mk 0x00000000DEADBEEF in
  let b := [] in
  let b := cuda.MemcpyDtoHResponse.encode resp b in
  assert_eq (len b) 8;;
  r2 ← expect (cuda.MemcpyDtoHResponse.decode b);
  assert_eq r2 resp;;
  Ret tt.

Definition cuda_bodies_reject_short_buffers : test :=
  assert_eq (cuda.CtxCreateRequest.decode (bytes_of 3 0)) (Err UnexpectedEof);;
  assert_eq (cuda.CtxCreateResponse.decode (bytes_of 7 0)) (Err UnexpectedEof);;
  assert_eq (cuda.MemAllocRequest.decode (bytes_of 15 0)) (Err UnexpectedEof);;
  assert_eq (cuda.MemAllocResponse.decode (bytes_of 7 0)) (Err UnexpectedEof);;
  assert_eq (cuda.MemFreeRequest.decode (bytes_of 7 0)) (Err UnexpectedEof);;
  assert_eq (cuda.LaunchKernelRequest.decode (bytes_of 31 0)) (Err UnexpectedEof);;
  assert_eq (cuda.MemcpyHtoDRequest.decode (bytes_of 15 0)) (Err UnexpectedEof);;
  assert_eq (cuda.MemcpyDtoHRequest.decode (bytes_of 15 0)) (Err UnexpectedEof);;
  assert_eq (cuda.MemcpyDtoHResponse.decode (bytes_of 7 0)) (Err UnexpectedEof);;
  Ret tt.

Definition hip_opcodes_are_in_hip_namespace : test :=
  assert_eq (opcode_api hip_op.MALLOC) (api_byte Hip);;
  assert_eq (opcode_api hip_op.FREE) (api_byte Hip);;
  assert_eq (opcode_api hip_op.STREAM_CREATE) (api_byte Hip);;
  assert_eq (opcode_call hip_op.MALLOC) 0x0001;;
  assert_eq (opcode_call hip_op.FREE) 0x0002;;
  assert_eq (opcode_call hip_op.STREAM_CREATE) 0x0003;;
  assert_ne hip_op.MALLOC hip_op.FREE;;
  assert_ne hip_op.FREE hip_op.STREAM_CREATE;;
  Ret tt.

Definition hip_malloc_roundtrip : test :=
  let req := hip.MallocRequest.mk 0x123456789ABCDEF0 in
  let b := [] in
  let b := hip.MallocRequest.encode req b in
  assert_eq (len b) 8;;
  r1 ← expect (hip.MallocRequest.decode b);
  assert_eq r1 req;;
  let resp := hip.MallocResponse.mk (Handle.new 8 Handle.GENERATION_MAX (max_of 32)) in
  let b := [] in
  let b := hip.MallocResponse.encode resp b in
  assert_eq (len b) 8;;
  r2 ← expect (hip.MallocResponse.decode b);
  assert_eq r2 resp;;
  Ret tt.

Definition hip_free_roundtrip : test :=
  let req := hip.FreeRequest.mk (Handle.new 8 3 11) in
  let b := [] in
  let b := hip.FreeRequest.encode req b in
  assert_eq (len b) 8;;
  r1 ← expect (hip.FreeRequest.decode b);
  assert_eq r1 req;;
  Ret tt.

Definition hip_stream_create_roundtrip : test :=
  let resp := hip.StreamCreateResponse.mk (Handle.new 9 5 42) in
  let b := [] in
  let b := hip.StreamCreateResponse.encode resp b in
  assert_eq (len b) 8;;
  r1 ← expect (hip.StreamCreateResponse.decode b);
  assert_eq r1 resp;;
  Ret tt.

Definition hip_bodies_reject_short_buffers : test :=
  assert_eq (hip.MallocRequest.decode (bytes_of 7 0)) (Err UnexpectedEof);;
  assert_eq (hip.MallocResponse.decode (bytes_of 7 0)) (Err UnexpectedEof);;
  assert_eq (hip.FreeRequest.decode (bytes_of 7 0)) (Err UnexpectedEof);;
  assert_eq (hip.StreamCreateResponse.decode (bytes_of 7 0)) (Err UnexpectedEof);;
  Ret tt.

Definition cl_opcodes_are_in_opencl_namespace : test :=
  assert_eq (opcode_api cl_op.CREATE_CONTEXT) (api_byte OpenCl);;
  assert_eq (opcode_api cl_op.CREATE_BUFFER) (api_byte OpenCl);;
  assert_eq (opcode_api cl_op.RELEASE_BUFFER) (api_byte OpenCl);;
  assert_eq (opcode_call cl_op.CREATE_CONTEXT) 0x0001;;
  assert_eq (opcode_call cl_op.CREATE_BUFFER) 0x0002;;
  assert_eq (opcode_call cl_op.RELEASE_BUFFER) 0x0003;;
  assert_ne cl_op.CREATE_CONTEXT cl_op.CREATE_BUFFER;;
  assert_ne cl_op.CREATE_BUFFER cl_op.RELEASE_BUFFER;;
  Ret tt.

Definition cl_create_context_response_roundtrip : test :=
  let resp := cl.CreateContextResponse.mk (Handle.new 12 5 42) in
  let b := [] in
  let b := cl.CreateContextResponse.encode resp b in
  assert_eq (len b) 8;;
  r1 ← expect (cl.CreateContextResponse.decode b);
  assert_eq r1 resp;;
  Ret tt.

Definition cl_create_buffer_roundtrip : test :=
  let req := cl.CreateBufferRequest.mk (Handle.new 12 2 4) 0x123456789ABCDEF0 in
  let b := [] in
  let b := cl.CreateBufferRequest.encode req b in
  assert_eq (len b) 16;;
  r1 ← expect (cl.CreateBufferRequest.decode b);
  assert_eq r1 req;;
  let resp := cl.CreateBufferResponse.mk (Handle.new 13 Handle.GENERATION_MAX (max_of 32)) in
  let b := [] in
  let b := cl.CreateBufferResponse.encode resp b in
  assert_eq (len b) 8;;
  r2 ← expect (cl.CreateBufferResponse.decode b);
  assert_eq r2 resp;;
  Ret tt.

Definition cl_release_buffer_roundtrip : test :=
  let req := cl.ReleaseBufferRequest.mk (Handle.new 13 3 11) in
  let b := [] in
  let b := cl.ReleaseBufferRequest.encode req b in
  assert_eq (len b) 8;;
  r1 ← expect (cl.ReleaseBufferRequest.decode b);
  assert_eq r1 req;;
  Ret tt.

Definition cl_bodies_reject_short_buffers : test :=
  assert_eq (cl.CreateContextResponse.decode (bytes_of 7 0)) (Err UnexpectedEof);;
  assert_eq (cl.CreateBufferRequest.decode (bytes_of 15 0)) (Err UnexpectedEof);;
  assert_eq (cl.CreateBufferResponse.decode (bytes_of 7 0)) (Err UnexpectedEof);;
  assert_eq (cl.ReleaseBufferRequest.decode (bytes_of 7 0)) (Err UnexpectedEof);;
  Ret tt.

Definition l0_opcodes_are_in_level_zero_namespace : test :=
  assert_eq (opcode_api l0_op.CONTEXT_CREATE) (api_byte LevelZero);;
  assert_eq (opcode_api l0_op.MEM_ALLOC_DEVICE) (api_byte LevelZero);;
  assert_eq (opcode_api l0_op.MEM_FREE) (api_byte LevelZero);;
  assert_eq (opcode_call l0_op.CONTEXT_CREATE) 0x0001;;
  assert_eq (opcode_call l0_op.MEM_ALLOC_DEVICE) 0x0002;;
  assert_eq (opcode_call l0_op.MEM_FREE) 0x0003;;
  assert_ne l0_op.CONTEXT_CREATE l0_op.MEM_ALLOC_DEVICE;;
  assert_ne l0_op.MEM_ALLOC_DEVICE l0_op.MEM_FREE;;
  Ret tt.

Definition l0_context_create_response_roundtrip : test :=
  let resp := l0.ContextCreateResponse.mk (Handle.new 14 5 42) in
  let b := [] in
  let b := l0.ContextCreateResponse.encode resp b in
  assert_eq (len b) 8;;
  r1 ← expect (l0.ContextCreateResponse.decode b);
  assert_eq r1 resp;;
  Ret tt.

Definition l0_mem_alloc_device_roundtrip : test :=
  let req := l0.MemAllocDeviceRequest.mk (Handle.new 14 2 4) 0x123456789ABCDEF0 in
  let b := [] in
  let b := l0.MemAllocDeviceRequest.encode req b in
  assert_eq (len b) 16;;
  r1 ← expect (l0.MemAllocDeviceRequest.decode b);
  assert_eq r1 req;;
  let resp := l0.MemAllocDeviceResponse.mk (Handle.new 15 Handle.GENERATION_MAX (max_of 32)) in
  let b := [] in
  let b := l0.MemAllocDeviceResponse.encode resp b in
  assert_eq (len b) 8;;
  r2 ← expect (l0.MemAllocDeviceResponse.decode b);
  assert_eq r2 resp;;
  Ret tt.

Definition l0_mem_free_roundtrip : test :=
  let req := l0.MemFreeRequest.mk (Handle.new 15 3 11) in
  let b := [] in
  let b := l0.MemFreeRequest.encode req b in
  assert_eq (len b) 8;;
  r1 ← expect (l0.MemFreeRequest.decode b);
  assert_eq r1 req;;
  Ret tt.

Definition l0_bodies_reject_short_buffers : test :=
  assert_eq (l0.ContextCreateResponse.decode (bytes_of 7 0)) (Err UnexpectedEof);;
  assert_eq (l0.MemAllocDeviceRequest.decode (bytes_of 15 0)) (Err UnexpectedEof);;
  assert_eq (l0.MemAllocDeviceResponse.decode (bytes_of 7 0)) (Err UnexpectedEof);;
  assert_eq (l0.MemFreeRequest.decode (bytes_of 7 0)) (Err UnexpectedEof);;
  Ret tt.

Definition full_frame_roundtrip : test :=
  let body := bytes [1; 2; 3; 4] in
  let h := FrameHeader.mk 0 0 FrameKind.Response core_op.NOOP 1 1 (wrap 32 (len body)) in
  let frame := encode_frame h body in
  '(gh, gb) ← expect (decode_frame frame);
  assert_eq gh h;;
  assert_eq gb body;;
  Ret tt.

Definition video_opcodes_are_in_video_namespace : test :=
  assert_eq (opcode_api video_op.CREATE_DECODE_SESSION) (api_byte Video);;
  assert_eq (opcode_api video_op.DECODE_FRAME) (api_byte Video);;
  assert_eq (opcode_api video_op.DESTROY_SESSION) (api_byte Video);;
  assert_eq (opcode_call video_op.CREATE_DECODE_SESSION) 0x0001;;
  assert_eq (opcode_call video_op.DECODE_FRAME) 0x0002;;
  assert_eq (opcode_call video_op.DESTROY_SESSION) 0x0003;;
  assert_ne video_op.CREATE_DECODE_SESSION video_op.DECODE_FRAME;;
  assert_ne video_op.DECODE_FRAME video_op.DESTROY_SESSION;;
  Ret tt.

Definition video_create_decode_session_roundtrip : test :=
  let req := video.CreateDecodeSessionRequest.mk 0xDEADBEEF 1920 1080 in
  let b := [] in
  let b := video.CreateDecodeSessionRequest.encode req b in
  assert_eq (len b) 12;;
  r1 ← expect (video.CreateDecodeSessionRequest.decode b);
  assert_eq r1 req;;
  let resp := video.CreateDecodeSessionResponse.mk (Handle.new 16 5 42) in
  let b := [] in
  let b := video.CreateDecodeSessionResponse.encode resp b in
  assert_eq (len b) 8;;
  r2 ← expect (video.CreateDecodeSessionResponse.decode b);
  assert_eq r2 resp;;
  Ret tt.

Definition video_decode_frame_roundtrip : test :=
  let req := video.DecodeFrameRequest.mk (Handle.new 16 2 4) (max_of 32) in
  let b := [] in
  let b := video.DecodeFrameRequest.encode req b in
  assert_eq (len b) 12;;
  r1 ← expect (video.DecodeFrameRequest.decode b);
  assert_eq r1 req;;
  let resp := video.DecodeFrameResponse.mk 0x12345678 in
  let b := [] in
  let b := video.DecodeFrameResponse.encode resp b in
  assert_eq (len b) 4;;
  r2 ← expect (video.DecodeFrameResponse.decode b);
  assert_eq r2 resp;;
  Ret tt.

Definition video_destroy_session_roundtrip : test :=
  let req := video.DestroySessionRequest.mk (Handle.new 16 3 11) in
  let b := [] in
  let b := video.DestroySessionRequest.encode req b in
  assert_eq (len b) 8;;
  r1 ← expect (video.DestroySessionRequest.decode b);
  assert_eq r1 req;;
  Ret tt.

Definition video_bodies_reject_short_buffers : test :=
  assert_eq (video.CreateDecodeSessionRequest.decode (bytes_of 11 0)) (Err UnexpectedEof);;
  assert_eq (video.CreateDecodeSessionResponse.decode (bytes_of 7 0)) (Err UnexpectedEof);;
  assert_eq (video.DecodeFrameRequest.decode (bytes_of 11 0)) (Err UnexpectedEof);;
  assert_eq (video.DecodeFrameResponse.decode (bytes_of 3 0)) (Err UnexpectedEof);;
  assert_eq (video.DestroySessionRequest.decode (bytes_of 7 0)) (Err UnexpectedEof);;
  Ret tt.

Definition webgpu_api_id_value : test :=
  assert_eq (api_byte WebGpu) 0x08;;
  Ret tt.

Definition wgpu_opcodes_are_in_webgpu_namespace : test :=
  assert_eq (opcode_api wgpu_op.REQUEST_DEVICE) (api_byte WebGpu);;
  assert_eq (opcode_api wgpu_op.CREATE_BUFFER) (api_byte WebGpu);;
  assert_eq (opcode_api wgpu_op.DESTROY_BUFFER) (api_byte WebGpu);;
  assert_eq (opcode_call wgpu_op.REQUEST_DEVICE) 0x0001;;
  assert_eq (opcode_call wgpu_op.CREATE_BUFFER) 0x0002;;
  assert_eq (opcode_call wgpu_op.DESTROY_BUFFER) 0x0003;;
  assert_ne wgpu_op.REQUEST_DEVICE wgpu_op.CREATE_BUFFER;;
  assert_ne wgpu_op.CREATE_BUFFER wgpu_op.DESTROY_BUFFER;;
  Ret tt.

Definition wgpu_request_device_response_roundtrip : test :=
  let resp := wgpu.RequestDeviceResponse.mk (Handle.new 17 5 42) in
  let b := [] in
  let b := wgpu.RequestDeviceResponse.encode resp b in
  assert_eq (len b) 8;;
  r1 ← expect (wgpu.RequestDeviceResponse.decode b);
  assert_eq r1 resp;;
  Ret tt.

Definition wgpu_create_buffer_roundtrip : test :=
  let req := wgpu.CreateBufferRequest.mk (Handle.new 17 1 9) (max_of 64) 0xDEADBEEF in
  let b := [] in
  let b := wgpu.CreateBufferRequest.encode req b in
  assert_eq (len b) 20;;
  r1 ← expect (wgpu.CreateBufferRequest.decode b);
  assert_eq r1 req;;
  let resp := wgpu.CreateBufferResponse.mk (Handle.new 18 Handle.GENERATION_MAX (max_of 32)) in
  let b := [] in
  let b := wgpu.CreateBufferResponse.encode resp b in
  assert_eq (len b) 8;;
  r2 ← expect (wgpu.CreateBufferResponse.decode b);
  assert_eq r2 resp;;
  Ret tt.

Definition wgpu_destroy_buffer_roundtrip : test :=
  let req := wgpu.DestroyBufferRequest.mk (Handle.new 18 3 11) in
  let b := [] in
  let b := wgpu.DestroyBufferRequest.encode req b in
  assert_eq (len b) 8;;
  r1 ← expect (wgpu.DestroyBufferRequest.decode b);
  assert_eq r1 req;;
  Ret tt.

Definition wgpu_bodies_reject_short_buffers : test :=
  assert_eq (wgpu.RequestDeviceResponse.decode (bytes_of 7 0)) (Err UnexpectedEof);;
  assert_eq (wgpu.CreateBufferRequest.decode (bytes_of 19 0)) (Err UnexpectedEof);;
  assert_eq (wgpu.CreateBufferResponse.decode (bytes_of 7 0)) (Err UnexpectedEof);;
  assert_eq (wgpu.DestroyBufferRequest.decode (bytes_of 7 0)) (Err UnexpectedEof);;
  Ret tt.

Definition optix_api_id_value : test :=
  assert_eq (api_byte OptiX) 0x09;;
  Ret tt.

Definition optix_opcodes_are_in_optix_namespace : test :=
  assert_eq (opcode_api optix_op.CONTEXT_CREATE) (api_byte OptiX);;
  assert_eq (opcode_api optix_op.PIPELINE_CREATE) (api_byte OptiX);;
  assert_eq (opcode_api optix_op.DESTROY) (api_byte OptiX);;
  assert_eq (opcode_api optix_op.CONTEXT_CREATE) 0x09;;
  assert_eq (opcode_call optix_op.CONTEXT_CREATE) 0x0001;;
  assert_eq (opcode_call optix_op.PIPELINE_CREATE) 0x0002;;
  assert_eq (opcode_call optix_op.DESTROY) 0x0003;;
  assert_ne optix_op.CONTEXT_CREATE optix_op.PIPELINE_CREATE;;
  assert_ne optix_op.PIPELINE_CREATE optix_op.DESTROY;;
  Ret tt.

Definition optix_context_create_response_roundtrip : test :=
  let resp := optix.ContextCreateResponse.mk (Handle.new 19 5 42) in
  let b := [] in
  let b := optix.ContextCreateResponse.encode resp b in
  assert_eq (len b) 8;;
  r1 ← expect (optix.ContextCreateResponse.decode b);
  assert_eq r1 resp;;
  Ret tt.

Definition optix_pipeline_create_roundtrip : test :=
  let req := optix.PipelineCreateRequest.mk (Handle.new 19 2 4) in
  let b := [] in
  let b := optix.PipelineCreateRequest.encode req b in
  assert_eq (len b) 8;;
  r1 ← expect (optix.PipelineCreateRequest.decode b);
  assert_eq r1 req;;
  let resp := optix.PipelineCreateResponse.mk (Handle.new 20 Handle.GENERATION_MAX (max_of 32)) in
  let b := [] in
  let b := optix.PipelineCreateResponse.encode resp b in
  assert_eq (len b) 8;;
  r2 ← expect (optix.PipelineCreateResponse.decode b);
  assert_eq r2 resp;;
  Ret tt.

Definition optix_destroy_roundtrip : test :=
  let req := optix.DestroyRequest.mk (Handle.new 19 3 11) in
  let b := [] in
  let b := optix.DestroyRequest.encode req b in
  assert_eq (len b) 8;;
  r1 ← expect (optix.DestroyRequest.decode b);
  assert_eq r1 req;;
  Ret tt.

Definition optix_bodies_reject_short_buffers : test :=
  assert_eq (optix.ContextCreateResponse.decode (bytes_of 7 0)) (Err UnexpectedEof);;
  assert_eq (optix.PipelineCreateRequest.decode (bytes_of 7 0)) (Err UnexpectedEof);;
  assert_eq (optix.PipelineCreateResponse.decode (bytes_of 7 0)) (Err UnexpectedEof);;
  assert_eq (optix.DestroyRequest.decode (bytes_of 7 0)) (Err UnexpectedEof);;
  Ret tt.

Definition sycl_api_id_value : test :=
  assert_eq (api_byte Sycl) 0x0A;;
  Ret tt.

Definition sycl_opcodes_are_in_sycl_namespace : test :=
  assert_eq (opcode_api sycl_op.QUEUE_CREATE) (api_byte Sycl);;
  assert_eq (opcode_api sycl_op.MALLOC_DEVICE) (api_byte Sycl);;
  assert_eq (opcode_api sycl_op.FREE) (api_byte Sycl);;
  assert_eq (opcode_api sycl_op.QUEUE_CREATE) 0x0A;;
  assert_eq (opcode_call sycl_op.QUEUE_CREATE) 0x0001;;
  assert_eq (opcode_call sycl_op.MALLOC_DEVICE) 0x0002;;
  assert_eq (opcode_call sycl_op.FREE) 0x0003;;
  assert_ne sycl_op.QUEUE_CREATE sycl_op.MALLOC_DEVICE;;
  assert_ne sycl_op.MALLOC_DEVICE sycl_op.FREE;;
  Ret tt.

Definition sycl_queue_create_response_roundtrip : test :=
  let resp := sycl.QueueCreateResponse.mk (Handle.new 21 5 42) in
  let b := [] in
  let b := sycl.QueueCreateResponse.encode resp b in
  assert_eq (len b) 8;;
  r1 ← expect (sycl.QueueCreateResponse.decode b);
  assert_eq r1 resp;;
  Ret tt.

Definition sycl_malloc_device_roundtrip : test :=
  let req := sycl.MallocDeviceRequest.mk (Handle.new 21 2 4) 0x123456789ABCDEF0 in
  let b := [] in
  let b := sycl.MallocDeviceRequest.encode req b in
  assert_eq (len b) 16;;
  r1 ← expect (sycl.MallocDeviceRequest.decode b);
  assert_eq r1 req;;
  let resp := sycl.MallocDeviceResponse.mk (Handle.new 22 Handle.GENERATION_MAX (max_of 32)) in
  let b := [] in
  let b := sycl.MallocDeviceResponse.encode resp b in
  assert_eq (len b) 8;;
  r2 ← expect (sycl.MallocDeviceResponse.decode b);
  assert_eq r2 resp;;
  Ret tt.

Definition sycl_free_roundtrip : test :=
  let req := sycl.FreeRequest.mk (Handle.new 22 3 11) in
  let b := [] in
  let b := sycl.FreeRequest.encode req b in
  assert_eq (len b) 8;;
  r1 ← expect (sycl.FreeRequest.decode b);
  assert_eq r1 req;;
  Ret tt.

Definition sycl_bodies_reject_short_buffers : test :=
  assert_eq (sycl.QueueCreateResponse.decode (bytes_of 7 0)) (Err UnexpectedEof);;
  assert_eq (sycl.MallocDeviceRequest.decode (bytes_of 15 0)) (Err UnexpectedEof);;
  assert_eq (sycl.MallocDeviceResponse.decode (bytes_of 7 0)) (Err UnexpectedEof);;
  assert_eq (sycl.FreeRequest.decode (bytes_of 7 0)) (Err UnexpectedEof);;
  Ret tt.

Definition amf_api_id_value : test :=
  assert_eq (api_byte Amf) 0x0B;;
  Ret tt.

Definition amf_opcodes_are_in_amf_namespace : test :=
  assert_eq (opcode_api amf_op.CREATE_ENCODER) (api_byte Amf);;
  assert_eq (opcode_api amf_op.ENCODE_FRAME) (api_byte Amf);;
  assert_eq (opcode_api amf_op.DESTROY_ENCODER) (api_byte Amf);;
  assert_eq (opcode_api amf_op.CREATE_ENCODER) 0x0B;;
  assert_eq (opcode_call amf_op.CREATE_ENCODER) 0x0001;;
  assert_eq (opcode_call amf_op.ENCODE_FRAME) 0x0002;;
  assert_eq (opcode_call amf_op.DESTROY_ENCODER) 0x0003;;
  assert_ne amf_op.CREATE_ENCODER amf_op.ENCODE_FRAME;;
  assert_ne amf_op.ENCODE_FRAME amf_op.DESTROY_ENCODER;;
  Ret tt.

Definition amf_create_encoder_roundtrip : test :=
  let req := amf.CreateEncoderRequest.mk 0xDEADBEEF 1920 1080 in
  let b := [] in
  let b := amf.CreateEncoderRequest.encode req b in
  assert_eq (len b) 12;;
  r1 ← expect (amf.CreateEncoderRequest.decode b);
  assert_eq r1 req;;
  let resp := amf.CreateEncoderResponse.mk (Handle.new 23 5 42) in
  let b := [] in
  let b := amf.CreateEncoderResponse.encode resp b in
  assert_eq (len b) 8;;
  r2 ← expect (amf.CreateEncoderResponse.decode b);
  assert_eq r2 resp;;
  Ret tt.

Definition amf_encode_frame_roundtrip : test :=
  let req := amf.EncodeFrameRequest.mk (Handle.new 23 2 4) (max_of 32) in
  let b := [] in
  let b := amf.EncodeFrameRequest.encode req b in
  assert_eq (len b) 12;;
  r1 ← expect (amf.EncodeFrameRequest.decode b);
  assert_eq r1 req;;
  let resp := amf.EncodeFrameResponse.mk 0x12345678 in
  let b := [] in
  let b := amf.EncodeFrameResponse.encode resp b in
  assert_eq (len b) 4;;
  r2 ← expect (amf.EncodeFrameResponse.decode b);
  assert_eq r2 resp;;
  Ret tt.

Definition amf_destroy_encoder_roundtrip : test :=
  let req := amf.DestroyEncoderRequest.mk (Handle.new 23 3 11) in
  let b := [] in
  let b := amf.DestroyEncoderRequest.encode req b in
  assert_eq (len b) 8;;
  r1 ← expect (amf.DestroyEncoderRequest.decode b);
  assert_eq r1 req;;
  Ret tt.

Definition amf_bodies_reject_short_buffers : test :=
  assert_eq (amf.CreateEncoderRequest.decode (bytes_of 11 0)) (Err UnexpectedEof);;
  assert_eq (amf.CreateEncoderResponse.decode (bytes_of 7 0)) (Err UnexpectedEof);;
  assert_eq (amf.EncodeFrameRequest.decode (bytes_of 11 0)) (Err UnexpectedEof);;
  assert_eq (amf.EncodeFrameResponse.decode (bytes_of 3 0)) (Err UnexpectedEof);;
  assert_eq (amf.DestroyEncoderRequest.decode (bytes_of 7 0)) (Err UnexpectedEof);;
  Ret tt.

End tests.

Import tests.

Definition protocol_tests : list test :=
  [opcode_pack_unpack; core_opcodes_are_in_core_namespace; vk_opcodes_are_in_vulkan_namespace;
   gl_opcodes_are_in_opengl_namespace; frame_header_roundtrip; hello_welcome_roundtrip;
   decode_frame_rejects_short_buffer; handle_roundtrip; handle_generation_masked_to_24_bits;
   handle_field_constants; vk_create_instance_roundtrip;
   vk_enumerate_physical_devices_request_roundtrip;
   vk_enumerate_physical_devices_response_empty; vk_enumerate_physical_devices_response_three;
   vk_bodies_reject_short_buffers; vk_create_device_roundtrip; vk_get_device_queue_roundtrip;
   vk_device_queue_bodies_reject_short_buffers; gl_create_context_response_roundtrip;
   gl_make_current_request_roundtrip; gl_gen_buffer_roundtrip;
   gl_swap_buffers_request_roundtrip; gl_delete_buffer_request_roundtrip;
   gl_bodies_reject_short_buffers; vk_opcodes_memory_buffer_in_vulkan_namespace;
   vk_allocate_memory_roundtrip; vk_create_buffer_roundtrip; vk_bind_buffer_memory_roundtrip;
   vk_memory_buffer_bodies_reject_short_buffers; vk_opcodes_command_buffer_in_vulkan_namespace;
   vk_create_command_pool_roundtrip; vk_allocate_command_buffer_roundtrip;
   vk_queue_submit_roundtrip; vk_command_buffer_bodies_reject_short_buffers;
   vk_opcodes_draw_copy_in_vulkan_namespace; vk_cmd_copy_buffer_roundtrip;
   vk_cmd_draw_roundtrip; vk_draw_copy_bodies_reject_short_buffers;
   vk_opcodes_destroy_free_in_vulkan_namespace; vk_destroy_buffer_roundtrip;
   vk_free_memory_roundtrip; vk_destroy_command_pool_roundtrip;
   vk_destroy_free_bodies_reject_short_buffers; cuda_opcodes_are_in_cuda_namespace;
   cuda_ctx_create_roundtrip; cuda_mem_alloc_roundtrip; cuda_mem_free_roundtrip;
   cuda_launch_kernel_roundtrip; cuda_memcpy_htod_roundtrip; cuda_memcpy_dtoh_roundtrip;
   cuda_bodies_reject_short_buffers; hip_opcodes_are_in_hip_namespace; hip_malloc_roundtrip;
   hip_free_roundtrip; hip_stream_create_roundtrip; hip_bodies_reject_short_buffers;
   cl_opcodes_are_in_opencl_namespace; cl_create_context_response_roundtrip;
   cl_create_buffer_roundtrip; cl_release_buffer_roundtrip; cl_bodies_reject_short_buffers;
   l0_opcodes_are_in_level_zero_namespace; l0_context_create_response_roundtrip;
   l0_mem_alloc_device_roundtrip; l0_mem_free_roundtrip; l0_bodies_reject_short_buffers;
   full_frame_roundtrip; video_opcodes_are_in_video_namespace;
   video_create_decode_session_roundtrip; video_decode_frame_roundtrip;
   video_destroy_session_roundtrip; video_bodies_reject_short_buffers; webgpu_api_id_value;
   wgpu_opcodes_are_in_webgpu_namespace; wgpu_request_device_response_roundtrip;
   wgpu_create_buffer_roundtrip; wgpu_destroy_buffer_roundtrip;
   wgpu_bodies_reject_short_buffers; optix_api_id_value; optix_opcodes_are_in_optix_namespace;
   optix_context_create_response_roundtrip; optix_pipeline_create_roundtrip;
   optix_destroy_roundtrip; optix_bodies_reject_short_buffers; sycl_api_id_value;
   sycl_opcodes_are_in_sycl_namespace; sycl_queue_create_response_roundtrip;
   sycl_malloc_device_roundtrip; sycl_free_roundtrip; sycl_bodies_reject_short_buffers;
   amf_api_id_value; amf_opcodes_are_in_amf_namespace; amf_create_encoder_roundtrip;
   amf_encode_frame_roundtrip; amf_destroy_encoder_roundtrip; amf_bodies_reject_short_buffers].

Lemma protocol_tests_pass : all_pass protocol_tests.
Proof. apply suite_passes. vm_compute. reflexivity. Qed.
