(* ===== verification/HandlesTests.v ===== *)
(** The unit tests of crates/graftx-handles (src/lib.rs, [mod tests]). *)
From stdpp Require Import sorting.
From S2P Require Import Testing Wire Handles.

Local Open Scope Z_scope.

#[export] Instance HandleStats_eq_dec : EqDecision HandleStats.t.
Proof. solve_decision. Defined.

(** [sort_unstable] on pairs of a key and a value: by the key, then the value. *)
Definition pair_le (x y : Z * Z) : Prop := x.1 < y.1 \/ (x.1 = y.1 /\ x.2 <= y.2).

Class Sortable A := sort_unstable : list A -> list A.

#[export] Instance sort_Z : Sortable Z := merge_sort Z.le.

#[export] Instance pair_le_dec : RelDecision pair_le.
Proof. unfold pair_le. intros x y. apply _. Defined.

#[export] Instance sort_pairs : Sortable (Z * Z) := merge_sort pair_le.

Module tests.

Definition KIND : Z := 0x42.
Definition KIND_A : Z := 0x11.
Definition KIND_B : Z := 0x22.

Definition insert_get_roundtrip : test :=
  let table : HandleTable.t Z := HandleTable.new in
  '(table, h) ← HandleTable.insert KIND 1234 table;
  assert_eq (Handle.kind h) KIND;;
  assert_eq (Handle.slot h) 0;;
  assert_eq (Handle.generation h) 0;;
  assert_eq (HandleTable.get h table) (Some 1234);;
  assert_eq (option_map fst (HandleTable.get_mut h table)) (Some 1234);;
  Ret tt.

Definition get_mut_mutates_in_place : test :=
  let table := HandleTable.new in
  '(table, h) ← HandleTable.insert KIND 1 table;
  let table :=
    match HandleTable.get_mut h table with Some (_, write) => write 99 | None => table end in
  assert_eq (HandleTable.get h table) (Some 99);;
  Ret tt.

Definition remove_then_get_returns_none : test :=
  let table : HandleTable.t string := HandleTable.new in
  '(table, h) ← HandleTable.insert KIND "value" table;
  '(table, r1) ← HandleTable.remove h table;
  assert_eq r1 (Some "value");;
  assert_eq (HandleTable.get h table) None;;
  assert_eq (option_map fst (HandleTable.get_mut h table)) None;;
  '(table, r2) ← HandleTable.remove h table;
  assert_eq r2 None;;
  Ret tt.

Definition stale_handle_after_reuse_returns_none : test :=
  let table : HandleTable.t Z := HandleTable.new in
  '(table, old) ← HandleTable.insert KIND 10 table;
  '(table, r1) ← HandleTable.remove old table;
  assert_eq r1 (Some 10);;
  '(table, fresh) ← HandleTable.insert KIND 20 table;
  assert_eq (Handle.slot fresh) (Handle.slot old);;
  assert_ne (Handle.generation fresh) (Handle.generation old);;
  assert_eq (HandleTable.get old table) None;;
  assert_eq (option_map fst (HandleTable.get_mut old table)) None;;
  '(table, r2) ← HandleTable.remove old table;
  assert_eq r2 None;;
  assert_eq (HandleTable.get fresh table) (Some 20);;
  Ret tt.

Definition slot_reuse_increments_generation : test :=
  let table : HandleTable.t Z := HandleTable.new in
  '(table, h0) ← HandleTable.insert KIND 0 table;
  assert_eq (Handle.generation h0) 0;;
  '(table, r1) ← HandleTable.remove h0 table;
  assert_eq r1 (Some 0);;
  '(table, h1) ← HandleTable.insert KIND 1 table;
  assert_eq (Handle.slot h1) (Handle.slot h0);;
  assert_eq (Handle.generation h1) 1;;
  '(table, r2) ← HandleTable.remove h1 table;
  assert_eq r2 (Some 1);;
  '(table, h2) ← HandleTable.insert KIND 2 table;
  assert_eq (Handle.slot h2) (Handle.slot h0);;
  assert_eq (Handle.generation h2) 2;;
  Ret tt.

Definition len_tracks_live_count : test :=
  let table : HandleTable.t Z := HandleTable.new in
  assert (HandleTable.is_empty table);;
  assert_eq (HandleTable.len table) 0;;
  '(table, a) ← HandleTable.insert KIND 1 table;
  '(table, b) ← HandleTable.insert KIND 2 table;
  '(table, c) ← HandleTable.insert KIND 3 table;
  assert_eq (HandleTable.len table) 3;;
  assert (negb (HandleTable.is_empty table));;
  '(table, r1) ← HandleTable.remove b table;
  assert_eq r1 (Some 2);;
  assert_eq (HandleTable.len table) 2;;
  '(table, r2) ← HandleTable.remove b table;
  assert_eq r2 None;;
  assert_eq (HandleTable.len table) 2;;
  '(table, d) ← HandleTable.insert KIND 4 table;
  assert_eq (HandleTable.len table) 3;;
  assert_eq (Handle.slot d) (Handle.slot b);;
  '(table, r3) ← HandleTable.remove a table;
  assert_eq r3 (Some 1);;
  '(table, r4) ← HandleTable.remove c table;
  assert_eq r4 (Some 3);;
  '(table, r5) ← HandleTable.remove d table;
  assert_eq r5 (Some 4);;
  assert (HandleTable.is_empty table);;
  Ret tt.

Definition distinct_slots_for_concurrent_live_entries : test :=
  let table : HandleTable.t Z := HandleTable.new in
  '(table, a) ← HandleTable.insert KIND 1 table;
  '(table, b) ← HandleTable.insert KIND 2 table;
  assert_ne (Handle.slot a) (Handle.slot b);;
  assert_eq (HandleTable.get a table) (Some 1);;
  assert_eq (HandleTable.get b table) (Some 2);;
  Ret tt.

Definition exhausted_slot_is_retired_not_reused (generations : nat) : test :=
  let table : HandleTable.t Z := HandleTable.new in
  '(table, last) ← HandleTable.insert KIND 0 table;
  '(table, last) ← while_do generations
    (fun '(table, last) => (Handle.generation last) <? Handle.GENERATION_MAX)
    (fun '(table, last) =>
      '(table, r1) ← HandleTable.remove last table;
      assert_eq r1 (Some 0);;
      '(table, last) ← HandleTable.insert KIND 0 table;
      assert_eq (Handle.slot last) 0;;
      Ret (table, last)) (table, last);
  assert_eq (Handle.generation last) Handle.GENERATION_MAX;;
  '(table, r1) ← HandleTable.remove last table;
  assert_eq r1 (Some 0);;
  assert (is_empty (HandleTable.free table));;
  r2 ← index_or_panic (HandleTable.slots table) 0;
  assert (Slot.retired r2);;
  '(table, next) ← HandleTable.insert KIND 7 table;
  assert_eq (Handle.slot next) 1;;
  assert_eq (Handle.generation next) 0;;
  assert_eq (HandleTable.get next table) (Some 7);;
  assert_eq (HandleTable.get last table) None;;
  Ret tt.

Definition iter_yields_only_live_slots_with_roundtripping_handles : test :=
  let table : HandleTable.t Z := HandleTable.new in
  '(table, a) ← HandleTable.insert KIND_A 1 table;
  '(table, b) ← HandleTable.insert KIND_B 2 table;
  '(table, c) ← HandleTable.insert KIND_A 3 table;
  r1 ← map_each (fun '(h, v) =>
    assert_eq (HandleTable.get h table) (Some v);;
    Ret (Handle.raw h, v)) (HandleTable.iter table);
  let seen := r1 in
  let seen := sort_unstable seen in
  let expected := [(Handle.raw a, 1); (Handle.raw b, 2); (Handle.raw c, 3)] in
  let expected := sort_unstable expected in
  assert_eq seen expected;;
  Ret tt.

Definition iter_and_count_by_kind_reflect_removal : test :=
  let table : HandleTable.t Z := HandleTable.new in
  '(table, a) ← HandleTable.insert KIND_A 1 table;
  '(table, b) ← HandleTable.insert KIND_B 2 table;
  '(table, _c) ← HandleTable.insert KIND_A 3 table;
  assert_eq (len (HandleTable.iter table)) 3;;
  assert_eq (HandleTable.count_by_kind KIND_A table) 2;;
  assert_eq (HandleTable.count_by_kind KIND_B table) 1;;
  '(table, r1) ← HandleTable.remove a table;
  assert_eq r1 (Some 1);;
  assert_eq (len (HandleTable.iter table)) 2;;
  assert_eq (HandleTable.count_by_kind KIND_A table) 1;;
  assert_eq (HandleTable.count_by_kind KIND_B table) 1;;
  assert (forallb (fun '(h, _) => bool_decide (h <> a)) (HandleTable.iter table));;
  '(table, r2) ← HandleTable.remove b table;
  assert_eq r2 (Some 2);;
  assert_eq (len (HandleTable.iter table)) 1;;
  assert_eq (HandleTable.count_by_kind KIND_A table) 1;;
  assert_eq (HandleTable.count_by_kind KIND_B table) 0;;
  Ret tt.

Definition count_by_kind_ignores_absent_kind_and_empty_table : test :=
  let table : HandleTable.t Z := HandleTable.new in
  assert_eq (HandleTable.count_by_kind KIND_A table) 0;;
  assert_eq (len (HandleTable.iter table)) 0;;
  '(table, _h) ← HandleTable.insert KIND_A 7 table;
  assert_eq (HandleTable.count_by_kind KIND_B table) 0;;
  assert_eq (HandleTable.count_by_kind KIND_A table) 1;;
  Ret tt.

Definition iter_kind_yields_only_matching_live_entries_with_roundtripping_handles : test :=
  let table : HandleTable.t Z := HandleTable.new in
  '(table, a) ← HandleTable.insert KIND_A 1 table;
  '(table, b) ← HandleTable.insert KIND_B 2 table;
  '(table, c) ← HandleTable.insert KIND_A 3 table;
  r1 ← map_each (fun '(h, v) =>
    assert_eq (Handle.kind h) KIND_A;;
    assert_eq (HandleTable.get h table) (Some v);;
    Ret (Handle.raw h, v)) (HandleTable.iter_kind KIND_A table);
  let seen_a := r1 in
  let seen_a := sort_unstable seen_a in
  let expected_a := [(Handle.raw a, 1); (Handle.raw c, 3)] in
  let expected_a := sort_unstable expected_a in
  assert_eq seen_a expected_a;;
  let seen_b := (map (fun '(h, v) => (Handle.raw h, v)) (HandleTable.iter_kind KIND_B table)) in
  assert_eq seen_b [(Handle.raw b, 2)];;
  Ret tt.

Definition iter_kind_is_empty_for_absent_kind_and_empty_table : test :=
  let table : HandleTable.t Z := HandleTable.new in
  assert_eq (len (HandleTable.iter_kind KIND_A table)) 0;;
  '(table, _h) ← HandleTable.insert KIND_A 7 table;
  assert_eq (len (HandleTable.iter_kind KIND_B table)) 0;;
  assert_eq (len (HandleTable.iter_kind KIND_A table)) 1;;
  Ret tt.

Definition iter_kind_reflects_removal : test :=
  let table : HandleTable.t Z := HandleTable.new in
  '(table, a) ← HandleTable.insert KIND_A 1 table;
  '(table, b) ← HandleTable.insert KIND_B 2 table;
  '(table, _c) ← HandleTable.insert KIND_A 3 table;
  assert_eq (len (HandleTable.iter_kind KIND_A table)) 2;;
  assert_eq (len (HandleTable.iter_kind KIND_B table)) 1;;
  '(table, r1) ← HandleTable.remove a table;
  assert_eq r1 (Some 1);;
  assert_eq (len (HandleTable.iter_kind KIND_A table)) 1;;
  assert (forallb (fun '(h, _) => bool_decide (h <> a)) (HandleTable.iter_kind KIND_A table));;
  assert_eq (len (HandleTable.iter_kind KIND_B table)) 1;;
  '(table, r2) ← HandleTable.remove b table;
  assert_eq r2 (Some 2);;
  assert_eq (len (HandleTable.iter_kind KIND_B table)) 0;;
  assert_eq (len (HandleTable.iter_kind KIND_A table)) 1;;
  Ret tt.

Definition iter_kind_reports_reused_slot_under_new_kind_only : test :=
  let table : HandleTable.t Z := HandleTable.new in
  '(table, a) ← HandleTable.insert KIND_A 1 table;
  '(table, r1) ← HandleTable.remove a table;
  assert_eq r1 (Some 1);;
  '(table, b) ← HandleTable.insert KIND_B 2 table;
  assert_eq (Handle.slot b) (Handle.slot a);;
  assert_eq (len (HandleTable.iter_kind KIND_A table)) 0;;
  let live_b := (map (fun '(h, v) => (Handle.kind h, v)) (HandleTable.iter_kind KIND_B table)) in
  assert_eq live_b [(KIND_B, 2)];;
  Ret tt.

Definition is_live_tracks_handle_validity : test :=
  let table : HandleTable.t Z := HandleTable.new in
  '(table, h) ← HandleTable.insert KIND 1 table;
  assert (HandleTable.is_live h table);;
  '(table, r1) ← HandleTable.remove h table;
  assert_eq r1 (Some 1);;
  assert (negb (HandleTable.is_live h table));;
  '(table, fresh) ← HandleTable.insert KIND 2 table;
  assert_eq (Handle.slot fresh) (Handle.slot h);;
  assert_ne (Handle.generation fresh) (Handle.generation h);;
  assert (negb (HandleTable.is_live h table));;
  assert (HandleTable.is_live fresh table);;
  Ret tt.

Definition contains_matches_is_live_across_insert_remove_and_stale : test :=
  let table : HandleTable.t Z := HandleTable.new in
  '(table, h) ← HandleTable.insert KIND 1 table;
  assert (HandleTable.contains h table);;
  assert_eq (HandleTable.contains h table) (HandleTable.is_live h table);;
  '(table, r1) ← HandleTable.remove h table;
  assert_eq r1 (Some 1);;
  assert (negb (HandleTable.contains h table));;
  assert_eq (HandleTable.contains h table) (HandleTable.is_live h table);;
  '(table, fresh) ← HandleTable.insert KIND 2 table;
  assert_eq (Handle.slot fresh) (Handle.slot h);;
  assert_ne (Handle.generation fresh) (Handle.generation h);;
  assert (negb (HandleTable.contains h table));;
  assert (HandleTable.contains fresh table);;
  assert_eq (HandleTable.contains h table) (HandleTable.is_live h table);;
  assert_eq (HandleTable.contains fresh table) (HandleTable.is_live fresh table);;
  Ret tt.

Definition contains_rejects_out_of_range_and_retired_handles (generations : nat) : test :=
  let table : HandleTable.t Z := HandleTable.new in
  let dangling := Handle.new KIND 0 7 in
  assert (negb (HandleTable.contains dangling table));;
  assert_eq (HandleTable.contains dangling table) (HandleTable.is_live dangling table);;
  '(table, last) ← HandleTable.insert KIND 0 table;
  '(table, last) ← while_do generations
    (fun '(table, last) => (Handle.generation last) <? Handle.GENERATION_MAX)
    (fun '(table, last) =>
      '(table, r1) ← HandleTable.remove last table;
      assert_eq r1 (Some 0);;
      '(table, last) ← HandleTable.insert KIND 0 table;
      assert_eq (Handle.slot last) 0;;
      Ret (table, last)) (table, last);
  '(table, r1) ← HandleTable.remove last table;
  assert_eq r1 (Some 0);;
  assert_eq (HandleTable.retired table) 1;;
  assert (negb (HandleTable.contains last table));;
  assert_eq (HandleTable.contains last table) (HandleTable.is_live last table);;
  Ret tt.

Definition null_handle_is_not_contained_in_fresh_or_populated_table : test :=
  let table : HandleTable.t Z := HandleTable.new in
  assert_eq (Handle.raw NULL_HANDLE) 0;;
  assert_eq (Handle.kind NULL_HANDLE) 0;;
  assert_eq (Handle.generation NULL_HANDLE) 0;;
  assert_eq (Handle.slot NULL_HANDLE) 0;;
  assert (negb (HandleTable.contains NULL_HANDLE table));;
  '(table, first) ← HandleTable.insert KIND_A 1 table;
  assert_eq (Handle.slot first) 0;;
  assert_eq (Handle.generation first) 0;;
  '(table, r1) ← HandleTable.remove first table;
  assert_eq r1 (Some 1);;
  '(table, a) ← HandleTable.insert KIND_A 10 table;
  '(table, _b) ← HandleTable.insert KIND_B 20 table;
  assert_eq (Handle.slot a) 0;;
  assert_eq (Handle.generation a) 1;;
  assert (HandleTable.contains a table);;
  assert (negb (HandleTable.contains NULL_HANDLE table));;
  '(table, r2) ← HandleTable.remove a table;
  assert_eq r2 (Some 10);;
  '(table, r3) ← HandleTable.remove _b table;
  assert_eq r3 (Some 20);;
  assert (HandleTable.is_empty table);;
  assert (negb (HandleTable.contains NULL_HANDLE table));;
  Ret tt.

Definition null_handle_collides_only_with_live_slot_zero_generation_zero : test :=
  let table : HandleTable.t Z := HandleTable.new in
  '(table, first) ← HandleTable.insert KIND_A 1 table;
  assert_eq (Handle.raw first) (Handle.raw (Handle.new KIND_A 0 0));;
  assert_ne (Handle.kind first) (Handle.kind NULL_HANDLE);;
  assert (HandleTable.contains NULL_HANDLE table);;
  assert_eq (HandleTable.contains NULL_HANDLE table) (HandleTable.is_live NULL_HANDLE table);;
  '(table, r1) ← HandleTable.remove first table;
  assert_eq r1 (Some 1);;
  assert (negb (HandleTable.contains NULL_HANDLE table));;
  Ret tt.

Definition kinds_returns_distinct_sorted_live_kinds : test :=
  let table : HandleTable.t Z := HandleTable.new in
  assert (is_empty (HandleTable.kinds table));;
  '(table, a) ← HandleTable.insert KIND_A 1 table;
  '(table, _b1) ← HandleTable.insert KIND_B 2 table;
  '(table, _b2) ← HandleTable.insert KIND_B 3 table;
  assert_eq (HandleTable.kinds table) [KIND_A; KIND_B];;
  '(table, r1) ← HandleTable.remove a table;
  assert_eq r1 (Some 1);;
  assert_eq (HandleTable.kinds table) [KIND_B];;
  '(table, r2) ← HandleTable.remove _b1 table;
  assert_eq r2 (Some 2);;
  assert_eq (HandleTable.kinds table) [KIND_B];;
  '(table, r3) ← HandleTable.remove _b2 table;
  assert_eq r3 (Some 3);;
  assert (is_empty (HandleTable.kinds table));;
  Ret tt.

Definition reused_slot_reports_new_kind_in_iter_and_counts : test :=
  let table : HandleTable.t Z := HandleTable.new in
  '(table, a) ← HandleTable.insert KIND_A 1 table;
  '(table, r1) ← HandleTable.remove a table;
  assert_eq r1 (Some 1);;
  '(table, b) ← HandleTable.insert KIND_B 2 table;
  assert_eq (Handle.slot b) (Handle.slot a);;
  assert_eq (HandleTable.count_by_kind KIND_A table) 0;;
  assert_eq (HandleTable.count_by_kind KIND_B table) 1;;
  let live := (map (fun '(h, v) => (Handle.kind h, v)) (HandleTable.iter table)) in
  assert_eq live [(KIND_B, 2)];;
  Ret tt.

Definition capacity_grows_with_distinct_inserts_and_outpaces_len : test :=
  let table : HandleTable.t Z := HandleTable.new in
  assert_eq (HandleTable.capacity table) 0;;
  '(table, a) ← HandleTable.insert KIND 1 table;
  assert_eq (HandleTable.capacity table) 1;;
  '(table, _b) ← HandleTable.insert KIND 2 table;
  assert_eq (HandleTable.capacity table) 2;;
  assert_eq (HandleTable.capacity table) (HandleTable.len table);;
  '(table, r1) ← HandleTable.remove a table;
  assert_eq r1 (Some 1);;
  assert_eq (HandleTable.capacity table) 2;;
  assert_eq (HandleTable.len table) 1;;
  '(table, _c) ← HandleTable.insert KIND 3 table;
  assert_eq (HandleTable.capacity table) 2;;
  assert ((HandleTable.len table) <=? (HandleTable.capacity table));;
  Ret tt.

Definition retired_starts_zero_and_counts_exhausted_slots (generations : nat) : test :=
  let table : HandleTable.t Z := HandleTable.new in
  assert_eq (HandleTable.retired table) 0;;
  '(table, h) ← HandleTable.insert KIND 1 table;
  '(table, r1) ← HandleTable.remove h table;
  assert_eq r1 (Some 1);;
  assert_eq (HandleTable.retired table) 0;;
  '(table, last) ← HandleTable.insert KIND 0 table;
  '(table, last) ← while_do generations
    (fun '(table, last) => (Handle.generation last) <? Handle.GENERATION_MAX)
    (fun '(table, last) =>
      '(table, r2) ← HandleTable.remove last table;
      assert_eq r2 (Some 0);;
      '(table, last) ← HandleTable.insert KIND 0 table;
      Ret (table, last)) (table, last);
  assert_eq (HandleTable.retired table) 0;;
  '(table, r2) ← HandleTable.remove last table;
  assert_eq r2 (Some 0);;
  assert_eq (HandleTable.retired table) 1;;
  Ret tt.

Definition clear_empties_table_invalidates_handles_and_allows_reuse : test :=
  let table : HandleTable.t Z := HandleTable.new in
  '(table, a) ← HandleTable.insert KIND_A 1 table;
  '(table, b) ← HandleTable.insert KIND_B 2 table;
  '(table, c) ← HandleTable.insert KIND_A 3 table;
  assert_eq (HandleTable.len table) 3;;
  let cap_before := HandleTable.capacity table in
  let table := HandleTable.clear table in
  assert_eq (HandleTable.len table) 0;;
  assert (HandleTable.is_empty table);;
  assert_eq (len (HandleTable.iter table)) 0;;
  assert_eq (HandleTable.count_by_kind KIND_A table) 0;;
  assert_eq (HandleTable.count_by_kind KIND_B table) 0;;
  assert_eq (HandleTable.capacity table) cap_before;;
  assert_eq (HandleTable.get a table) None;;
  assert_eq (HandleTable.get b table) None;;
  assert_eq (HandleTable.get c table) None;;
  assert_eq (option_map fst (HandleTable.get_mut a table)) None;;
  '(table, r1) ← HandleTable.remove a table;
  assert_eq r1 None;;
  '(table, d) ← HandleTable.insert KIND_A 10 table;
  '(table, e) ← HandleTable.insert KIND_B 20 table;
  assert_eq (HandleTable.len table) 2;;
  assert_eq (HandleTable.get d table) (Some 10);;
  assert_eq (HandleTable.get e table) (Some 20);;
  for_each [a; b; c] (fun old =>
    assert_ne (Handle.raw d) (Handle.raw old);;
    assert_ne (Handle.raw e) (Handle.raw old);;
    assert_eq (HandleTable.get old table) None;;
    Ret tt);;
  Ret tt.

Definition try_insert_succeeds_until_quota_then_returns_none : test :=
  let table : HandleTable.t Z := HandleTable.new in
  '(table, a) ← HandleTable.try_insert KIND 1 2 table;
  assert (is_some a);;
  assert_eq (HandleTable.len table) 1;;
  '(table, b) ← HandleTable.try_insert KIND 2 2 table;
  assert (is_some b);;
  assert_eq (HandleTable.len table) 2;;
  '(table, r1) ← HandleTable.try_insert KIND 3 2 table;
  assert_eq r1 None;;
  assert_eq (HandleTable.len table) 2;;
  '(table, r2) ← HandleTable.try_insert KIND 4 2 table;
  assert_eq r2 None;;
  assert_eq (HandleTable.len table) 2;;
  r3 ← expect_some a;
  assert_eq (HandleTable.get r3 table) (Some 1);;
  r4 ← expect_some b;
  assert_eq (HandleTable.get r4 table) (Some 2);;
  Ret tt.

Definition try_insert_succeeds_again_after_remove_frees_quota : test :=
  let table : HandleTable.t Z := HandleTable.new in
  '(table, r1) ← HandleTable.try_insert KIND 1 1 table;
  a ← expect_some r1;
  '(table, r2) ← HandleTable.try_insert KIND 2 1 table;
  assert_eq r2 None;;
  '(table, r3) ← HandleTable.remove a table;
  assert_eq r3 (Some 1);;
  assert_eq (HandleTable.len table) 0;;
  '(table, r4) ← HandleTable.try_insert KIND 2 1 table;
  b ← expect_some r4;
  assert_eq (HandleTable.len table) 1;;
  assert_eq (HandleTable.get b table) (Some 2);;
  Ret tt.

Definition try_insert_with_zero_quota_always_returns_none : test :=
  let table : HandleTable.t Z := HandleTable.new in
  '(table, r1) ← HandleTable.try_insert KIND 1 0 table;
  assert_eq r1 None;;
  '(table, r2) ← HandleTable.try_insert KIND 2 0 table;
  assert_eq r2 None;;
  assert_eq (HandleTable.len table) 0;;
  assert_eq (HandleTable.capacity table) 0;;
  assert (HandleTable.is_empty table);;
  Ret tt.

Definition stats_matches_individual_getters_on_populated_table : test :=
  let table : HandleTable.t Z := HandleTable.new in
  '(table, a) ← HandleTable.insert KIND_A 1 table;
  '(table, _b) ← HandleTable.insert KIND_B 2 table;
  '(table, _c) ← HandleTable.insert KIND_A 3 table;
  '(table, r1) ← HandleTable.remove a table;
  assert_eq r1 (Some 1);;
  let stats := HandleTable.stats table in
  assert_eq (HandleStats.live stats) (HandleTable.len table);;
  assert_eq (HandleStats.retired stats) (HandleTable.retired table);;
  assert_eq (HandleStats.capacity stats) (HandleTable.capacity table);;
  assert_eq (HandleStats.kinds stats) (HandleTable.kinds table);;
  assert_eq stats (HandleStats.mk 2 0 3 [KIND_A; KIND_B]);;
  Ret tt.

Definition stats_on_empty_table_is_all_zero_with_no_kinds : test :=
  let table : HandleTable.t Z := HandleTable.new in
  assert_eq (HandleTable.stats table) (HandleStats.mk 0 0 0 []);;
  Ret tt.

Definition stats_tracks_insert_and_remove : test :=
  let table : HandleTable.t Z := HandleTable.new in
  assert_eq (HandleStats.live (HandleTable.stats table)) 0;;
  '(table, a) ← HandleTable.insert KIND_A 1 table;
  '(table, b) ← HandleTable.insert KIND_B 2 table;
  assert_eq (HandleTable.stats table) (HandleStats.mk 2 0 2 [KIND_A; KIND_B]);;
  '(table, r1) ← HandleTable.remove a table;
  assert_eq r1 (Some 1);;
  assert_eq (HandleTable.stats table) (HandleStats.mk 1 0 2 [KIND_B]);;
  '(table, _c) ← HandleTable.insert KIND_A 3 table;
  '(table, r2) ← HandleTable.remove b table;
  assert_eq r2 (Some 2);;
  assert_eq (HandleTable.stats table) (HandleStats.mk 1 0 2 [KIND_A]);;
  Ret tt.

Definition stats_reports_retired_slots (generations : nat) : test :=
  let table : HandleTable.t Z := HandleTable.new in
  '(table, last) ← HandleTable.insert KIND 0 table;
  '(table, last) ← while_do generations
    (fun '(table, last) => (Handle.generation last) <? Handle.GENERATION_MAX)
    (fun '(table, last) =>
      '(table, r1) ← HandleTable.remove last table;
      assert_eq r1 (Some 0);;
      '(table, last) ← HandleTable.insert KIND 0 table;
      Ret (table, last)) (table, last);
  assert_eq (HandleStats.retired (HandleTable.stats table)) 0;;
  '(table, r1) ← HandleTable.remove last table;
  assert_eq r1 (Some 0);;
  let stats := HandleTable.stats table in
  assert_eq (HandleStats.retired stats) 1;;
  assert_eq (HandleStats.retired stats) (HandleTable.retired table);;
  assert_eq (HandleStats.live stats) 0;;
  assert (is_empty (HandleStats.kinds stats));;
  Ret tt.

Definition clear_on_empty_table_is_a_noop : test :=
  let table : HandleTable.t Z := HandleTable.new in
  let table := HandleTable.clear table in
  assert_eq (HandleTable.len table) 0;;
  assert_eq (HandleTable.capacity table) 0;;
  assert_eq (HandleTable.retired table) 0;;
  '(table, h) ← HandleTable.insert KIND 1 table;
  '(table, r1) ← HandleTable.remove h table;
  assert_eq r1 (Some 1);;
  let table := HandleTable.clear table in
  assert_eq (HandleTable.len table) 0;;
  '(table, h2) ← HandleTable.insert KIND 2 table;
  assert_eq (HandleTable.get h2 table) (Some 2);;
  Ret tt.

Definition retain_keeps_subset_and_frees_the_rest : test :=
  let table : HandleTable.t Z := HandleTable.new in
  '(table, a) ← HandleTable.insert KIND 1 table;
  '(table, b) ← HandleTable.insert KIND 2 table;
  '(table, c) ← HandleTable.insert KIND 3 table;
  '(table, d) ← HandleTable.insert KIND 4 table;
  assert_eq (HandleTable.len table) 4;;
  '(table, _, r1) ← HandleTable.retain (fun _ _h v => (tt, (v mod 2) =? 0)) tt table;
  let removed := r1 in
  assert_eq removed 2;;
  assert_eq (HandleTable.len table) 2;;
  let kept := (map (fun '(_h, v) => v) (HandleTable.iter table)) in
  let kept := sort_unstable kept in
  assert_eq kept [2; 4];;
  assert_eq (HandleTable.get a table) None;;
  assert_eq (HandleTable.get c table) None;;
  assert_eq (HandleTable.get b table) (Some 2);;
  assert_eq (HandleTable.get d table) (Some 4);;
  '(table, r2) ← HandleTable.remove a table;
  assert_eq r2 None;;
  assert_eq (HandleTable.len table) 2;;
  Ret tt.

Definition retain_keeping_all_is_a_noop : test :=
  let table : HandleTable.t Z := HandleTable.new in
  '(table, a) ← HandleTable.insert KIND 10 table;
  '(table, b) ← HandleTable.insert KIND 20 table;
  '(table, c) ← HandleTable.insert KIND 30 table;
  let cap_before := HandleTable.capacity table in
  '(table, _, r1) ← HandleTable.retain (fun _ _h _v => (tt, true)) tt table;
  let removed := r1 in
  assert_eq removed 0;;
  assert_eq (HandleTable.len table) 3;;
  assert_eq (HandleTable.capacity table) cap_before;;
  assert_eq (HandleTable.get a table) (Some 10);;
  assert_eq (HandleTable.get b table) (Some 20);;
  assert_eq (HandleTable.get c table) (Some 30);;
  assert_eq (len (HandleTable.iter table)) 3;;
  Ret tt.

Definition retain_keeping_none_empties_the_table : test :=
  let table : HandleTable.t Z := HandleTable.new in
  '(table, a) ← HandleTable.insert KIND_A 1 table;
  '(table, b) ← HandleTable.insert KIND_B 2 table;
  '(table, c) ← HandleTable.insert KIND_A 3 table;
  let cap_before := HandleTable.capacity table in
  '(table, _, r1) ← HandleTable.retain (fun _ _h _v => (tt, false)) tt table;
  let removed := r1 in
  assert_eq removed 3;;
  assert (HandleTable.is_empty table);;
  assert_eq (HandleTable.len table) 0;;
  assert_eq (len (HandleTable.iter table)) 0;;
  assert (is_empty (HandleTable.kinds table));;
  assert_eq (HandleTable.capacity table) cap_before;;
  assert_eq (HandleTable.get a table) None;;
  assert_eq (HandleTable.get b table) None;;
  assert_eq (HandleTable.get c table) None;;
  '(table, d) ← HandleTable.insert KIND_A 99 table;
  assert_eq (HandleTable.len table) 1;;
  assert_eq (HandleTable.get d table) (Some 99);;
  Ret tt.

Definition retain_on_empty_table_removes_nothing : test :=
  let table : HandleTable.t Z := HandleTable.new in
  '(table, panicked, removed) ← HandleTable.retain (fun _ _h _v => (true, true)) false table;
  assert (negb panicked);;
  assert_eq removed 0;;
  assert_eq (HandleTable.len table) 0;;
  assert_eq (HandleTable.capacity table) 0;;
  Ret tt.

Definition retain_skips_empty_slots_and_receives_matching_handles : test :=
  let table := HandleTable.new in
  '(table, a) ← HandleTable.insert KIND_A 1 table;
  '(table, b) ← HandleTable.insert KIND_B 2 table;
  '(table, c) ← HandleTable.insert KIND_A 3 table;
  '(table, r1) ← HandleTable.remove b table;
  assert_eq r1 (Some 2);;
  let visited := [] in
  '(table, visited, removed) ←
    HandleTable.retain (fun visited h v => (push visited (Handle.raw h, v), true)) visited table;
  assert_eq removed 0;;
  let visited := sort_unstable visited in
  let expected := [(Handle.raw a, 1); (Handle.raw c, 3)] in
  let expected := sort_unstable expected in
  assert_eq visited expected;;
  assert_eq (HandleTable.get b table) None;;
  assert_eq (HandleTable.get a table) (Some 1);;
  assert_eq (HandleTable.get c table) (Some 3);;
  Ret tt.

Definition retain_frees_slots_for_reuse_with_bumped_generation : test :=
  let table : HandleTable.t Z := HandleTable.new in
  '(table, a) ← HandleTable.insert KIND 1 table;
  '(table, _keep) ← HandleTable.insert KIND 2 table;
  '(table, _, r1) ← HandleTable.retain (fun _ _h v => (tt, negb (v =? 1))) tt table;
  let removed := r1 in
  assert_eq removed 1;;
  assert_eq (HandleTable.get a table) None;;
  '(table, fresh) ← HandleTable.insert KIND 3 table;
  assert_eq (Handle.slot fresh) (Handle.slot a);;
  assert_ne (Handle.generation fresh) (Handle.generation a);;
  assert_eq (HandleTable.get a table) None;;
  assert_eq (HandleTable.get fresh table) (Some 3);;
  Ret tt.

Definition retain_retires_slot_whose_generation_is_exhausted (generations : nat) : test :=
  let table : HandleTable.t Z := HandleTable.new in
  '(table, last) ← HandleTable.insert KIND 0 table;
  '(table, last) ← while_do generations
    (fun '(table, last) => (Handle.generation last) <? Handle.GENERATION_MAX)
    (fun '(table, last) =>
      '(table, r1) ← HandleTable.remove last table;
      assert_eq r1 (Some 0);;
      '(table, last) ← HandleTable.insert KIND 0 table;
      assert_eq (Handle.slot last) 0;;
      Ret (table, last)) (table, last);
  assert_eq (Handle.generation last) Handle.GENERATION_MAX;;
  assert_eq (HandleTable.retired table) 0;;
  '(table, _, r1) ← HandleTable.retain (fun _ _h _v => (tt, false)) tt table;
  let removed := r1 in
  assert_eq removed 1;;
  assert_eq (HandleTable.retired table) 1;;
  assert (HandleTable.is_empty table);;
  '(table, next) ← HandleTable.insert KIND 7 table;
  assert_eq (Handle.slot next) 1;;
  assert_eq (HandleTable.get next table) (Some 7);;
  assert_eq (HandleTable.get last table) None;;
  Ret tt.

End tests.

Import tests.

(** The tests that exhaust a slot: their loop runs at most [generations] times. *)
Definition exhausting_tests (generations : nat) : list test :=
  [exhausted_slot_is_retired_not_reused generations;
   contains_rejects_out_of_range_and_retired_handles generations;
   retired_starts_zero_and_counts_exhausted_slots generations;
   stats_reports_retired_slots generations;
   retain_retires_slot_whose_generation_is_exhausted generations].

Definition quick_tests : list test :=
  [insert_get_roundtrip; get_mut_mutates_in_place; remove_then_get_returns_none;
   stale_handle_after_reuse_returns_none; slot_reuse_increments_generation;
   len_tracks_live_count; distinct_slots_for_concurrent_live_entries;
   iter_yields_only_live_slots_with_roundtripping_handles;
   iter_and_count_by_kind_reflect_removal; count_by_kind_ignores_absent_kind_and_empty_table;
   iter_kind_yields_only_matching_live_entries_with_roundtripping_handles;
   iter_kind_is_empty_for_absent_kind_and_empty_table; iter_kind_reflects_removal;
   iter_kind_reports_reused_slot_under_new_kind_only; is_live_tracks_handle_validity;
   contains_matches_is_live_across_insert_remove_and_stale;
   null_handle_is_not_contained_in_fresh_or_populated_table;
   null_handle_collides_only_with_live_slot_zero_generation_zero;
   kinds_returns_distinct_sorted_live_kinds; reused_slot_reports_new_kind_in_iter_and_counts;
   capacity_grows_with_distinct_inserts_and_outpaces_len;
   clear_empties_table_invalidates_handles_and_allows_reuse;
   try_insert_succeeds_until_quota_then_returns_none;
   try_insert_succeeds_again_after_remove_frees_quota;
   try_insert_with_zero_quota_always_returns_none;
   stats_matches_individual_getters_on_populated_table;
   stats_on_empty_table_is_all_zero_with_no_kinds; stats_tracks_insert_and_remove;
   clear_on_empty_table_is_a_noop; retain_keeps_subset_and_frees_the_rest;
   retain_keeping_all_is_a_noop; retain_keeping_none_empties_the_table;
   retain_on_empty_table_removes_nothing;
   retain_skips_empty_slots_and_receives_matching_handles;
   retain_frees_slots_for_reuse_with_bumped_generation].

Lemma quick_tests_pass : all_pass quick_tests.
Proof. apply suite_passes. vm_compute. reflexivity. Qed.

(** ** Exhausting a slot

    The loop brings the one slot of the table from generation [g] to the last one. *)
Definition at_generation (g : Z) : HandleTable.t Z * Handle.t :=
  (HandleTable.mk [Slot.mk g KIND (Some 0) false] [] 1, Handle.new KIND g 0).

Definition not_last : HandleTable.t Z * Handle.t -> bool :=
  fun '(table, last) => Handle.generation last <? Handle.GENERATION_MAX.

Lemma generation_at g :
  0 <= g <= Handle.GENERATION_MAX ->
  Handle.generation (at_generation g).2 = g /\ Handle.slot (at_generation g).2 = 0.
Proof.
  rewrite GENERATION_MAX_val. intros Hg. cbn.
  rewrite handle_generation_new, handle_slot_new by (unfold KIND, fits; lia).
  split; [|done]. apply Z.mod_small. lia.
Qed.

Lemma recycle g :
  0 <= g < Handle.GENERATION_MAX ->
  exists freed, HandleTable.remove (at_generation g).2 (at_generation g).1 = Ret (freed, Some 0) /\
    HandleTable.insert KIND 0 freed = Ret (at_generation (g + 1)).
Proof.
  intros Hg. destruct (generation_at g ltac:(lia)) as [Eg Es].
  exists (HandleTable.mk [Slot.mk (g + 1) KIND None false] [0] 0). split.
  - unfold HandleTable.remove. rewrite Es. cbv zeta.
    change (HandleTable.slots (at_generation g).1 !! Z.to_nat 0)
      with (Some (Slot.mk g KIND (Some 0) false)).
    cbv iota. cbn [Slot.generation Slot.value]. rewrite Eg, decide_False by (intros H; by apply H).
    unfold HandleTable.free_slot. cbn [Slot.generation Slot.kind Slot.retired].
    rewrite (proj2 (Z.leb_gt _ _)) by lia. reflexivity.
  - unfold HandleTable.insert. cbn. reflexivity.
Qed.

Lemma exhaust fuel body g :
  (forall g, 0 <= g < Handle.GENERATION_MAX ->
     body (at_generation g) = Ret (at_generation (g + 1))) ->
  0 <= g <= Handle.GENERATION_MAX -> Handle.GENERATION_MAX - g <= Z.of_nat fuel ->
  while_do fuel not_last body (at_generation g) = Ret (at_generation Handle.GENERATION_MAX).
Proof.
  intros Hbody. revert g. induction fuel as [|fuel IH]; intros g Hg Hfuel;
    destruct (generation_at g Hg) as [Eg _]; cbn [while_do];
    change (not_last (at_generation g)) with
      (Handle.generation (at_generation g).2 <? Handle.GENERATION_MAX); rewrite Eg.
  - assert (g = Handle.GENERATION_MAX) as -> by lia. by rewrite Z.ltb_irrefl.
  - destruct (Z.ltb_spec g Handle.GENERATION_MAX) as [Hlt|Hge].
    + rewrite Hbody by lia. cbn [mbind outcome_bind]. apply IH; lia.
    + by assert (g = Handle.GENERATION_MAX) as -> by lia.
Qed.

(** The two bodies the tests loop on. *)
Definition recycle_body : HandleTable.t Z * Handle.t -> outcome (HandleTable.t Z * Handle.t) :=
  fun '(table, last) =>
    '(table, r1) ← HandleTable.remove last table;
    assert_eq r1 (Some 0);;
    '(table, last) ← HandleTable.insert KIND 0 table;
    Ret (table, last).

Definition recycle_checked : HandleTable.t Z * Handle.t -> outcome (HandleTable.t Z * Handle.t) :=
  fun '(table, last) =>
    '(table, r1) ← HandleTable.remove last table;
    assert_eq r1 (Some 0);;
    '(table, last) ← HandleTable.insert KIND 0 table;
    assert_eq (Handle.slot last) 0;;
    Ret (table, last).

Lemma recycle_bodies g :
  0 <= g < Handle.GENERATION_MAX ->
  recycle_body (at_generation g) = Ret (at_generation (g + 1)) /\
  recycle_checked (at_generation g) = Ret (at_generation (g + 1)).
Proof.
  intros Hg. destruct (recycle g Hg) as (freed & Er & Ei).
  destruct (generation_at (g + 1) ltac:(lia)) as [_ Es].
  unfold recycle_body, recycle_checked. change (at_generation g) with
    ((at_generation g).1, (at_generation g).2). cbv iota beta. rewrite Er.
  cbn [mbind outcome_bind]. rewrite Ei. split; [reflexivity|].
  change (Handle.slot (Handle.new KIND (g + 1) 0) = 0) in Es. 
  change ((assert_eq (Handle.slot (Handle.new KIND (g + 1) 0)) 0;;
    Ret (at_generation (g + 1))) = Ret (at_generation (g + 1))). by rewrite Es.
Qed.

(** The fuel is a variable in what follows, so nothing can run the loops. *)
Section exhausting.

Context (generations : nat) (enough : Handle.GENERATION_MAX <= Z.of_nat generations).

Lemma exhausted g :
  0 <= g <= 1 ->
  while_do generations not_last recycle_body (at_generation g) =
    Ret (at_generation Handle.GENERATION_MAX) /\
  while_do generations not_last recycle_checked (at_generation g) =
    Ret (at_generation Handle.GENERATION_MAX).
Proof.
  intros Hg. assert (0 <= g <= Handle.GENERATION_MAX) as Hg' by (rewrite GENERATION_MAX_val; lia).
  split; (apply exhaust; [|exact Hg'|lia]); intros i Hi.
  - exact (proj1 (recycle_bodies i Hi)).
  - exact (proj2 (recycle_bodies i Hi)).
Qed.

(** The tests around the loop: it is abstracted first, so that nothing evaluates it. *)
Ltac abstract_loop E :=
  match goal with
  | |- context [while_do generations ?cond ?body] =>
    let loop := fresh "loop" in let H := fresh "H" in
    remember (while_do generations cond body) as loop eqn:H;
    match type of E with
    | while_do _ _ _ ?s = ?r => assert (loop s = r) as E' by (rewrite H; exact E)
    end; clear H
  end.

Lemma insert_first :
  HandleTable.insert KIND 0 HandleTable.new = Ret ((at_generation 0).1, (at_generation 0).2).
Proof. vm_compute. reflexivity. Qed.

Ltac run_around :=
  cbv zeta; rewrite insert_first; cbn [mbind outcome_bind];
  match goal with E : ?loop (at_generation 0) = _ |- _ =>
    change (loop ((at_generation 0).1, (at_generation 0).2)) with (loop (at_generation 0)); rewrite E
  end; vm_compute; reflexivity.

(** A slot that lived once before. *)
Definition first_life : HandleTable.t Z :=
  HandleTable.mk [Slot.mk 0 KIND (Some 1) false] [] 1.
Definition first_freed : HandleTable.t Z := HandleTable.mk [Slot.mk 1 KIND None false] [0] 0.

Lemma exhausting_tests_pass : all_pass (exhausting_tests generations).
Proof.
  destruct (exhausted 0 ltac:(lia)) as [H0 C0]. destruct (exhausted 1 ltac:(lia)) as [H1 C1].
  unfold all_pass, exhausting_tests.
  apply Forall_cons_2; [|apply Forall_cons_2; [|apply Forall_cons_2;
    [|apply Forall_cons_2; [|apply Forall_cons_2; [|apply Forall_nil_2]]]]].
  - unfold exhausted_slot_is_retired_not_reused. abstract_loop C0. run_around.
  - unfold contains_rejects_out_of_range_and_retired_handles. abstract_loop C0. run_around.
  - unfold retired_starts_zero_and_counts_exhausted_slots. abstract_loop H1. cbv zeta.
    assert (HandleTable.insert KIND 1 HandleTable.new = Ret (first_life, Handle.new KIND 0 0)) as ->
      by (vm_compute; reflexivity).
    cbn [mbind outcome_bind].
    assert (HandleTable.remove (Handle.new KIND 0 0) first_life = Ret (first_freed, Some 1)) as ->
      by (vm_compute; reflexivity).
    cbn [mbind outcome_bind].
    assert (HandleTable.insert KIND 0 first_freed =
      Ret ((at_generation 1).1, (at_generation 1).2)) as -> by (vm_compute; reflexivity).
    cbn [mbind outcome_bind].
    change (loop ((at_generation 1).1, (at_generation 1).2)) with (loop (at_generation 1)).
    rewrite E'. vm_compute. reflexivity.
  - unfold stats_reports_retired_slots. abstract_loop H0. run_around.
  - unfold retain_retires_slot_whose_generation_is_exhausted. abstract_loop C0. run_around.
Qed.

End exhausting.

(** The loops of the tests have fuel for every generation. *)
Definition handles_tests : list test := exhausting_tests (Z.to_nat (2 ^ 24)) ++ quick_tests.

Lemma handles_tests_pass : all_pass handles_tests.
Proof.
  apply all_pass_app; [|apply quick_tests_pass]. apply exhausting_tests_pass.
  rewrite Z2Nat.id, GENERATION_MAX_val by lia. lia.
Qed.
