(* ===== verification/TransportTests.v ===== *)
(** The unit tests of crates/graftx-transport ([mod tests] of src/lib.rs, src/vecq.rs,
    src/null.rs, src/counting.rs and src/stream.rs) and crates/graftx-trace
    (src/lib.rs), one Module per file. *)
From Stdlib Require Strings.String.
From S2P Require Import Testing Wire Transport Trace.

Local Open Scope Z_scope.

(** A byte string. *)
Definition raw (s : string) : list byte := Strings.String.list_byte_of_string s.

(** ** Endpoints of a loopback

    The two ends share the channels: what one does is handed to the other. A receive
    that would wait for ever is an error no test expects. *)
Module Endpoint.
Record t := mk { side : bool; net : Loopback.net }.

#[global] Instance transport : Transport t := {|
  send frame self :=
    let '(n, r) := Loopback.send (side self) frame (net self) in (mk (side self) n, r);
  recv self :=
    match Loopback.recv (side self) (net self) with
    | Some (n, r) => (mk (side self) n, r)
    | None => (self, Err io.Other)
    end |}.

Definition loopback : t * t := (mk false Loopback.loopback, mk true Loopback.loopback).

(** [drop(peer)], seen from the other end. *)
Definition drop_peer (self : t) : t :=
  mk (side self) (Loopback.drop_endpoint (negb (side self)) (net self)).
End Endpoint.

(** What holds an endpoint. *)
Class Holds (T : Type) := { endpoint : T -> Endpoint.t; with_endpoint : Endpoint.t -> T -> T }.

#[global] Instance holds_itself : Holds Endpoint.t :=
  {| endpoint e := e; with_endpoint e _ := e |}.
#[global] Instance holds_box {T} `{Holds T} : Holds (BoxTransport.t T) := {|
  endpoint b := endpoint (BoxTransport.inner b);
  with_endpoint e b := BoxTransport.mk (with_endpoint e (BoxTransport.inner b)) |}.
#[global] Instance holds_counting {T} `{Holds T} : Holds (CountingTransport.t T) := {|
  endpoint c := endpoint (CountingTransport.inner c);
  with_endpoint e c := CountingTransport.mk (with_endpoint e (CountingTransport.inner c))
    (CountingTransport.bytes_sent c) (CountingTransport.bytes_recv c)
    (CountingTransport.frames_sent c) (CountingTransport.frames_recv c) |}.
#[global] Instance holds_recording {T} `{Holds T} : Holds (RecordingTransport.t T) := {|
  endpoint r := endpoint (RecordingTransport.inner r);
  with_endpoint e r :=
    RecordingTransport.mk (with_endpoint e (RecordingTransport.inner r)) (RecordingTransport.trace r) |}.

Section pair.
Context {T U : Type} `{Transport T, Holds T, Holds U}.

(** The channels as [t] left them, for its peer [u]. *)
Definition hand_over (t : T) (u : U) : U :=
  with_endpoint (Endpoint.mk (Endpoint.side (endpoint u)) (Endpoint.net (endpoint t))) u.

Definition send_to (frame : list byte) (t : T) (u : U) : T * U * io_result unit :=
  let '(t, r) := send frame t in (t, hand_over t u, r).

Definition recv_from (t : T) (u : U) : T * U * io_result (list byte) :=
  let '(t, r) := recv t in (t, hand_over t u, r).
End pair.

(** ** A peer that runs in a thread of its own

    What the thread answers to the frames it has been sent; it waits for the next one
    after that. *)
Module Peer.
Record t := mk {
  answers : list (list byte) -> list (list byte); sent : list (list byte); received : nat }.

#[global] Instance transport : Transport t := {|
  send frame self := (mk (answers self) (push (sent self) frame) (received self), Ok tt);
  recv self :=
    match answers self (sent self) !! received self with
    | Some frame => (mk (answers self) (sent self) (S (received self)), Ok frame)
    | None => (self, Err io.Other)
    end |}.

Definition start (answers : list (list byte) -> list (list byte)) : t := mk answers [] 0.
End Peer.

Module transport.

Definition loopback_delivers_each_direction : test :=
  let '(a, b) := Endpoint.loopback in
  let '(a, b, sent) := send_to (raw "ping") a b in
  expect sent;;
  let '(b, a, got) := recv_from b a in
  frame ← expect got;
  assert_eq frame (raw "ping");;
  let '(b, a, sent) := send_to (raw "pong") b a in
  expect sent;;
  let '(a, b, got) := recv_from a b in
  frame ← expect got;
  assert_eq frame (raw "pong").

Definition recv_errors_when_peer_dropped : test :=
  let '(a, b) := Endpoint.loopback in
  let a := Endpoint.drop_peer a in
  let '(a, got) := recv a in
  assert (is_err got).

Definition boxed_transport_round_trips_over_loopback : test :=
  let '(a, b) := Endpoint.loopback in
  let boxed := BoxTransport.mk a in
  let peer := BoxTransport.mk b in
  let '(boxed, peer, sent) := send_to (raw "ping") boxed peer in
  expect sent;;
  let '(peer, boxed, got) := recv_from peer boxed in
  frame ← expect got;
  assert_eq frame (raw "ping");;
  let '(peer, boxed, sent) := send_to (raw "pong") peer boxed in
  expect sent;;
  let '(boxed, peer, got) := recv_from boxed peer in
  frame ← expect got;
  assert_eq frame (raw "pong").

Definition roundtrip_returns_echoed_frame : test :=
  let client := Peer.start (fun frames => take 1 frames) in
  let '(client, got) := roundtrip (raw "request") client in
  reply ← expect got;
  assert_eq reply (raw "request").

Definition tests : list test :=
  [loopback_delivers_each_direction; recv_errors_when_peer_dropped;
   boxed_transport_round_trips_over_loopback; roundtrip_returns_echoed_frame].
End transport.

Module vecq.
Import VecTransport.

Definition push_inbox_then_recv_returns_in_order : test :=
  let transport := VecTransport.new in
  let transport := push_inbox (raw "first") transport in
  let transport := push_inbox (raw "second") transport in
  let '(transport, got) := recv transport in
  first ← expect got;
  assert_eq first (raw "first");;
  let '(transport, got) := recv transport in
  second ← expect got;
  assert_eq second (raw "second").

Definition recv_reports_unexpected_eof_when_empty : test :=
  let transport := VecTransport.new in
  let '(transport, got) := recv transport in
  err ← expect_err got;
  assert_eq err io.UnexpectedEof.

Definition recv_drains_inbox_then_errors : test :=
  let transport := VecTransport.new in
  let transport := push_inbox (raw "only") transport in
  let '(transport, got) := recv transport in
  only ← expect got;
  assert_eq only (raw "only");;
  let '(transport, got) := recv transport in
  err ← expect_err got;
  assert_eq err io.UnexpectedEof.

Definition send_records_frames_into_outbox : test :=
  let transport := VecTransport.new in
  let '(transport, sent) := send (raw "ping") transport in
  expect sent;;
  let '(transport, sent) := send (raw "second frame") transport in
  expect sent;;
  assert_eq (outbox transport) [raw "ping"; raw "second frame"].

Definition new_starts_with_empty_queues : test :=
  let transport := VecTransport.new in
  assert (is_empty (outbox transport)).

Definition send_and_recv_queues_are_independent : test :=
  let transport := VecTransport.new in
  let '(transport, sent) := send (raw "sent") transport in
  expect sent;;
  let '(transport, got) := recv transport in
  err ← expect_err got;
  assert_eq err io.UnexpectedEof;;
  assert_eq (outbox transport) [raw "sent"].

Definition tests : list test :=
  [push_inbox_then_recv_returns_in_order; recv_reports_unexpected_eof_when_empty;
   recv_drains_inbox_then_errors; send_records_frames_into_outbox;
   new_starts_with_empty_queues; send_and_recv_queues_are_independent].
End vecq.

Module null.

Definition send_succeeds_for_every_frame : test :=
  let transport := NullTransport.mk in
  let frames := [[]; raw "first frame"; bytes_of 256 0xcd] in
  for_each frames (fun frame =>
    let '(_, sent) := NullTransport.send frame transport in
    expect sent).

Definition recv_reports_unexpected_eof : test :=
  let transport := NullTransport.mk in
  let '(_, got) := NullTransport.recv transport in
  err ← expect_err got;
  assert_eq err io.UnexpectedEof.

Definition tests : list test :=
  [send_succeeds_for_every_frame; recv_reports_unexpected_eof].
End null.

Module counting.
Import CountingTransport.

(** The two loops over the frames, on both ends. *)
Fixpoint send_each (frames : list (list byte)) (t u : CountingTransport.t Endpoint.t)
  : outcome (CountingTransport.t Endpoint.t * CountingTransport.t Endpoint.t) :=
  match frames with
  | [] => Ret (t, u)
  | frame :: frames =>
    let '(t, u, sent) := send_to frame t u in
    expect sent;;
    send_each frames t u
  end.

Fixpoint recv_each (frames : list (list byte)) (t u : CountingTransport.t Endpoint.t)
  : outcome (CountingTransport.t Endpoint.t * CountingTransport.t Endpoint.t) :=
  match frames with
  | [] => Ret (t, u)
  | expected :: frames =>
    let '(t, u, got) := recv_from t u in
    frame ← expect got;
    assert_eq frame expected;;
    recv_each frames t u
  end.

Definition counts_bytes_and_frames_through_loopback : test :=
  let '(a, b) := Endpoint.loopback in
  let sender := CountingTransport.new a in
  let receiver := CountingTransport.new b in
  let frames := [raw "ping"; raw "second frame"; bytes_of 100 0xab] in
  let total_bytes := fold_left Z.add (map len frames) 0 in
  '(sender, receiver) ← send_each frames sender receiver;
  '(receiver, sender) ← recv_each frames receiver sender;
  assert_eq (bytes_sent sender) total_bytes;;
  assert_eq (frames_sent sender) (len frames);;
  assert_eq (bytes_recv sender) 0;;
  assert_eq (frames_recv sender) 0;;
  assert_eq (bytes_recv receiver) total_bytes;;
  assert_eq (frames_recv receiver) (len frames);;
  assert_eq (bytes_sent receiver) 0;;
  assert_eq (frames_sent receiver) 0.

Definition failed_send_leaves_counters_untouched : test :=
  let '(a, b) := Endpoint.loopback in
  let a := Endpoint.drop_peer a in
  let sender := CountingTransport.new a in
  let '(sender, sent) := send (raw "unreachable") sender in
  assert (is_err sent);;
  assert_eq (bytes_sent sender) 0;;
  assert_eq (frames_sent sender) 0.

Definition into_inner_recovers_wrapped_transport : test :=
  let '(a, b) := Endpoint.loopback in
  let sender := CountingTransport.new a in
  let '(sender, b, sent) := send_to (raw "hi") sender b in
  expect sent;;
  let inner := into_inner sender in
  let '(inner, b, sent) := send_to (raw "direct") inner b in
  expect sent;;
  let '(b, inner, got) := recv_from b inner in
  first ← expect got;
  assert_eq first (raw "hi");;
  let '(b, inner, got) := recv_from b inner in
  second ← expect got;
  assert_eq second (raw "direct").

Definition tests : list test :=
  [counts_bytes_and_frames_through_loopback; failed_send_leaves_counters_untouched;
   into_inner_recovers_wrapped_transport].
End counting.

Module stream.
Import StreamTransport.

(** [Cursor::new(&mut buf)] to write, [Cursor::new(buf)] to read. *)
Definition writing : Pipe.t := Pipe.mk [] [].
Definition cursor (buf : list byte) : Pipe.t := Pipe.mk [] buf.

Fixpoint send_each (frames : list (list byte)) (writer : StreamTransport.t Pipe.t)
  : outcome (StreamTransport.t Pipe.t) :=
  match frames with
  | [] => Ret writer
  | frame :: frames =>
    let '(writer, sent) := send frame writer in
    expect sent;;
    send_each frames writer
  end.

Fixpoint recv_each (frames : list (list byte)) (reader : StreamTransport.t Pipe.t) : test :=
  match frames with
  | [] => Ret tt
  | expected :: frames =>
    let '(reader, got) := recv reader in
    frame ← expect got;
    assert_eq frame expected;;
    recv_each frames reader
  end.

Definition round_trips_frames_in_order : test :=
  let frames := [[]; raw "first"; raw "second frame"; bytes_of 1000 0xff] in
  writer ← send_each frames (StreamTransport.new writing);
  let buf := Pipe.written (into_inner writer) in
  let reader := StreamTransport.new (cursor buf) in
  recv_each frames reader.

Definition rejects_oversized_declared_length : test :=
  let bytes := le_bytes 4 (MAX_FRAME + 1) in
  let bytes := bytes ++ raw "unused" in
  let reader := StreamTransport.new (cursor bytes) in
  let '(reader, got) := recv reader in
  err ← expect_err got;
  assert_eq err io.InvalidData.

Definition truncated_body_errors : test :=
  let bytes := le_bytes 4 8 in
  let bytes := bytes ++ raw "abc" in
  let reader := StreamTransport.new (cursor bytes) in
  let '(reader, got) := recv reader in
  err ← expect_err got;
  assert_eq err io.UnexpectedEof.

Definition clean_eof_on_header_reports_unexpected_eof : test :=
  let reader := StreamTransport.new (cursor []) in
  let '(reader, got) := recv reader in
  err ← expect_err got;
  assert_eq err io.UnexpectedEof.

Definition default_new_uses_max_frame : test :=
  let at_limit := le_bytes 4 MAX_FRAME in
  let reader := StreamTransport.new (cursor at_limit) in
  let '(reader, got) := recv reader in
  err ← expect_err got;
  assert_eq err io.UnexpectedEof;;
  let over_limit := le_bytes 4 (MAX_FRAME + 1) in
  let reader := StreamTransport.new (cursor over_limit) in
  let '(reader, got) := recv reader in
  err ← expect_err got;
  assert_eq err io.InvalidData.

Definition with_max_frame_rejects_larger_declared_length : test :=
  let bytes := le_bytes 4 9 in
  let bytes := bytes ++ raw "unused body" in
  let reader := StreamTransport.with_max_frame (cursor bytes) 8 in
  let '(reader, got) := recv reader in
  err ← expect_err got;
  assert_eq err io.InvalidData.

Definition with_max_frame_round_trips_within_limit : test :=
  let frame := raw "within" in
  let writer := StreamTransport.with_max_frame writing 8 in
  let '(writer, sent) := send frame writer in
  expect sent;;
  let buf := Pipe.written (into_inner writer) in
  let reader := StreamTransport.with_max_frame (cursor buf) 8 in
  let '(reader, got) := recv reader in
  got ← expect got;
  assert_eq got frame.

Definition into_inner_returns_stream : test :=
  let transport := StreamTransport.new (cursor (bytes [1; 2; 3])) in
  let cursor := into_inner transport in
  assert_eq (Pipe.unread cursor) (bytes [1; 2; 3]).

Definition tests : list test :=
  [round_trips_frames_in_order; rejects_oversized_declared_length; truncated_body_errors;
   clean_eof_on_header_reports_unexpected_eof; with_max_frame_rejects_larger_declared_length; with_max_frame_round_trips_within_limit;
   into_inner_returns_stream].
End stream.

Module trace.
Import FrameTrace.

Definition frame (kind : FrameKind.t) (req_id : Z) : list byte :=
  let header := FrameHeader.mk PROTOCOL_MAJOR 0 kind 0x01000001 req_id req_id 0 in
  encode_frame header [].

Definition new_trace_is_empty : test :=
  let trace := FrameTrace.new in
  assert (is_empty trace);;
  assert_eq (len trace) 0;;
  assert_eq (Testing.len (iter trace)) 0.

Definition record_appends_in_order : test :=
  let trace := FrameTrace.new in
  let trace := record (raw "first") trace in
  let trace := record (raw "second") trace in
  let trace := record (raw "third") trace in
  assert_eq (len trace) 3;;
  assert (negb (is_empty trace));;
  let collected := iter trace in
  assert_eq collected [raw "first"; raw "second"; raw "third"].

Definition recording_transport_captures_both_directions : test :=
  let '(a, b) := Endpoint.loopback in
  let rec := RecordingTransport.new a in
  let '(rec, b, sent) := send_to (raw "req-1") rec b in
  expect sent;;
  let '(rec, b, sent) := send_to (raw "req-2") rec b in
  expect sent;;
  let '(b, rec, sent) := send_to (raw "resp-1") b rec in
  expect sent;;
  let '(rec, b, got) := recv_from rec b in
  got ← expect got;
  assert_eq got (raw "resp-1");;
  let '(b, rec, got) := recv_from b rec in
  got ← expect got;
  assert_eq got (raw "req-1");;
  let '(b, rec, got) := recv_from b rec in
  got ← expect got;
  assert_eq got (raw "req-2");;
  let captured := iter (RecordingTransport.trace rec) in
  assert_eq captured [raw "req-1"; raw "req-2"; raw "resp-1"].

Definition failed_send_leaves_trace_untouched : test :=
  let '(a, b) := Endpoint.loopback in
  let a := Endpoint.drop_peer a in
  let rec := RecordingTransport.new a in
  let '(rec, sent) := send (raw "unreachable") rec in
  assert (is_err sent);;
  assert (is_empty (RecordingTransport.trace rec)).

Definition into_parts_recovers_inner_and_trace : test :=
  let '(a, b) := Endpoint.loopback in
  let rec := RecordingTransport.new a in
  let '(rec, b, sent) := send_to (raw "hi") rec b in
  expect sent;;
  let '(inner, trace) := RecordingTransport.into_parts rec in
  assert_eq (len trace) 1;;
  let '(inner, b, sent) := send_to (raw "direct") inner b in
  expect sent;;
  let '(b, inner, got) := recv_from b inner in
  first ← expect got;
  assert_eq first (raw "hi");;
  let '(b, inner, got) := recv_from b inner in
  second ← expect got;
  assert_eq second (raw "direct").

(** [replay(&mut client, &trace)] over a loopback whose client is then dropped: the
    server's end. *)
Definition replayed (trace : FrameTrace.t) : outcome Endpoint.t :=
  let '(client, server) := Endpoint.loopback in
  let '(client, r) := replay trace client in
  expect r;;
  let server := hand_over client server in
  Ret (Endpoint.drop_peer server).

Definition replay_resends_only_request_frames : test :=
  let trace := FrameTrace.new in
  let req_a := frame FrameKind.Request 1 in
  let resp := frame FrameKind.Response 1 in
  let req_b := frame FrameKind.Request 2 in
  let trace := record req_a trace in
  let trace := record resp trace in
  let trace := record req_b trace in
  server ← replayed trace;
  let '(server, got) := recv server in
  got ← expect got;
  assert_eq got req_a;;
  let '(server, got) := recv server in
  got ← expect got;
  assert_eq got req_b;;
  let '(server, got) := recv server in
  assert (is_err got).

Definition replay_skips_undecodable_frames : test :=
  let trace := FrameTrace.new in
  let trace := record (raw "junk") trace in
  let req := frame FrameKind.Request 7 in
  let trace := record req trace in
  server ← replayed trace;
  let '(server, got) := recv server in
  got ← expect got;
  assert_eq got req;;
  let '(server, got) := recv server in
  assert (is_err got).

Definition record_then_replay_round_trips_over_loopback : test :=
  let '(a, peer) := Endpoint.loopback in
  let rec := RecordingTransport.new a in
  let req := frame FrameKind.Request 42 in
  let '(rec, peer, sent) := send_to req rec peer in
  expect sent;;
  let '(peer, rec, got) := recv_from peer rec in
  got ← expect got;
  assert_eq got req;;
  let trace := RecordingTransport.into_trace rec in
  server ← replayed trace;
  let '(server, got) := recv server in
  got ← expect got;
  assert_eq got req.

Definition replay_empty_trace_sends_nothing : test :=
  let trace := FrameTrace.new in
  server ← replayed trace;
  let '(server, got) := recv server in
  assert (is_err got).

Definition replay_propagates_send_error : test :=
  let trace := FrameTrace.new in
  let trace := record (frame FrameKind.Request 1) trace in
  let '(client, server) := Endpoint.loopback in
  let client := Endpoint.drop_peer client in
  let '(client, r) := replay trace client in
  assert (is_err r).

Definition tests : list test :=
  [new_trace_is_empty; record_appends_in_order; recording_transport_captures_both_directions;
   failed_send_leaves_trace_untouched; into_parts_recovers_inner_and_trace;
   replay_resends_only_request_frames; replay_skips_undecodable_frames;
   record_then_replay_round_trips_over_loopback; replay_empty_trace_sends_nothing;
   replay_propagates_send_error].
End trace.

(** The test whose second half would read a body of [MAX_FRAME] bytes. *)
Lemma missing_body len cap :
  0 < len <= cap -> fits 32 len ->
  (StreamTransport.recv (StreamTransport.mk (stream.cursor (le_bytes 4 len)) cap)).2 =
    Err io.UnexpectedEof.
Proof.
  intros Hlen Hfits. unfold StreamTransport.recv.
  cbn [read_exact Pipe.stream StreamTransport.inner stream.cursor Pipe.unread].
  rewrite decide_True by (by rewrite length_le_bytes).
  rewrite take_ge, drop_ge by (by rewrite length_le_bytes).
  cbn [StreamTransport.max_frame]. rewrite of_le_bytes_id by done.
  rewrite (proj2 (Z.ltb_ge cap len)) by lia. cbn [Pipe.unread length].
  rewrite decide_False by lia. done.
Qed.

Lemma default_new_passes : stream.default_new_uses_max_frame = Ret tt.
Proof.
  unfold stream.default_new_uses_max_frame, StreamTransport.new, StreamTransport.with_max_frame.
  cbv zeta.
  pose proof (missing_body MAX_FRAME MAX_FRAME ltac:(by vm_compute) ltac:(by vm_compute)) as E.
  destruct (StreamTransport.recv (StreamTransport.mk (stream.cursor (le_bytes 4 MAX_FRAME)) MAX_FRAME))
    as [reader got].
  cbn [snd] in E. rewrite E. vm_compute. reflexivity.
Qed.

Definition transport_tests : list test :=
  stream.default_new_uses_max_frame ::
  transport.tests ++ vecq.tests ++ null.tests ++ counting.tests ++ stream.tests ++ trace.tests.

Lemma transport_tests_pass : all_pass transport_tests.
Proof.
  apply Forall_cons_2; [apply default_new_passes|]. apply suite_passes. vm_compute. reflexivity.
Qed.
