(* ===== verification/BackendTests.v ===== *)
(** The unit tests of the backends (crates/graftx-server/src/backend.rs and the ten
    *_backend.rs, [mod tests] of each), one Module per file. *)
From S2P Require Import Testing Wire VkBodies ApiBodies Handles Effects.
From S2P Require Import VulkanBackend ApiBackends.

Local Open Scope Z_scope.

Module Vulkan.

Definition create_instance_body (app_api_version : Z) : list byte :=
  let body := [] in
  let body := vk.CreateInstanceRequest.encode (vk.CreateInstanceRequest.mk app_api_version)
    body in
  body.

Definition enumerate_body (instance : Handle.t) : list byte :=
  let body := [] in
  let body := vk.EnumeratePhysicalDevicesRequest.encode
    (vk.EnumeratePhysicalDevicesRequest.mk instance) body in
  body.

Definition create_device_body (physical_device : Handle.t) : list byte :=
  let body := [] in
  let body := vk.CreateDeviceRequest.encode (vk.CreateDeviceRequest.mk physical_device) body in
  body.

Definition get_device_queue_body (device : Handle.t) (queue_family_index : Z) (queue_index : Z) :
    list byte :=
  let body := [] in
  let body := vk.GetDeviceQueueRequest.encode
    (vk.GetDeviceQueueRequest.mk device queue_family_index queue_index) body in
  body.

Definition allocate_memory_body (device : Handle.t) (size : Z) : list byte :=
  let body := [] in
  let body := vk.AllocateMemoryRequest.encode (vk.AllocateMemoryRequest.mk device size) body in
  body.

Definition create_buffer_body (device : Handle.t) (size : Z) (usage : Z) : list byte :=
  let body := [] in
  let body := vk.CreateBufferRequest.encode (vk.CreateBufferRequest.mk device size usage) body in
  body.

Definition bind_buffer_memory_body (buffer : Handle.t) (memory : Handle.t) (offset : Z) : list
    byte :=
  let body := [] in
  let body := vk.BindBufferMemoryRequest.encode
    (vk.BindBufferMemoryRequest.mk buffer memory offset) body in
  body.

Definition create_command_pool_body (device : Handle.t) (queue_family_index : Z) : list byte :=
  let body := [] in
  let body := vk.CreateCommandPoolRequest.encode
    (vk.CreateCommandPoolRequest.mk device queue_family_index) body in
  body.

Definition allocate_command_buffer_body (pool : Handle.t) : list byte :=
  let body := [] in
  let body := vk.AllocateCommandBufferRequest.encode (vk.AllocateCommandBufferRequest.mk pool)
    body in
  body.

Definition queue_submit_body (queue : Handle.t) (command_buffer : Handle.t) : list byte :=
  let body := [] in
  let body := vk.QueueSubmitRequest.encode (vk.QueueSubmitRequest.mk queue command_buffer) body in
  body.

Definition cmd_copy_buffer_body (command_buffer : Handle.t) (src : Handle.t) (dst : Handle.t)
    (size : Z) : list byte :=
  let body := [] in
  let body := vk.CmdCopyBufferRequest.encode
    (vk.CmdCopyBufferRequest.mk command_buffer src dst size) body in
  body.

Definition destroy_buffer_body (buffer : Handle.t) : list byte :=
  let body := [] in
  let body := vk.DestroyBufferRequest.encode (vk.DestroyBufferRequest.mk buffer) body in
  body.

Definition free_memory_body (memory : Handle.t) : list byte :=
  let body := [] in
  let body := vk.FreeMemoryRequest.encode (vk.FreeMemoryRequest.mk memory) body in
  body.

Definition destroy_command_pool_body (pool : Handle.t) : list byte :=
  let body := [] in
  let body := vk.DestroyCommandPoolRequest.encode (vk.DestroyCommandPoolRequest.mk pool) body in
  body.

Definition cmd_draw_body (command_buffer : Handle.t) (vertex_count : Z) (instance_count : Z) :
    list byte :=
  let body := [] in
  let body := vk.CmdDrawRequest.encode
    (vk.CmdDrawRequest.mk command_buffer vertex_count instance_count) body in
  body.

Definition create_buffer_one (backend : VulkanBackend.t) (device : Handle.t) : outcome
    (VulkanBackend.t * Handle.t) :=
  '(backend, r1) ← VulkanBackend.handle vk_op.CREATE_BUFFER 6
    (create_buffer_body device 1024 0x20) backend;
  buf_resp ← expect r1;
  r2 ← expect (vk.CreateBufferResponse.decode buf_resp);
  Ret (backend, vk.CreateBufferResponse.buffer r2).

Definition enumerate_one (backend : VulkanBackend.t) : outcome (VulkanBackend.t * Handle.t) :=
  '(backend, r1) ← VulkanBackend.handle vk_op.CREATE_INSTANCE 1 (create_instance_body 0) backend;
  create_resp ← expect r1;
  r2 ← expect (vk.CreateInstanceResponse.decode create_resp);
  let instance := vk.CreateInstanceResponse.instance r2 in
  '(backend, r3) ← VulkanBackend.handle vk_op.ENUMERATE_PHYSICAL_DEVICES 2
    (enumerate_body instance) backend;
  enum_resp ← expect r3;
  r4 ← expect (vk.EnumeratePhysicalDevicesResponse.decode enum_resp);
  r5 ← index_or_panic (vk.EnumeratePhysicalDevicesResponse.devices r4) 0;
  Ret (backend, r5).

Definition create_device_one (backend : VulkanBackend.t) : outcome (VulkanBackend.t * Handle.t) :=
  '(backend, physical_device) ← enumerate_one backend;
  '(backend, r1) ← VulkanBackend.handle vk_op.CREATE_DEVICE 3
    (create_device_body physical_device) backend;
  create_resp ← expect r1;
  r2 ← expect (vk.CreateDeviceResponse.decode create_resp);
  Ret (backend, vk.CreateDeviceResponse.device r2).

Definition create_queue_one (backend : VulkanBackend.t) : outcome
    (VulkanBackend.t * (Handle.t * Handle.t)) :=
  '(backend, device) ← create_device_one backend;
  '(backend, r1) ← VulkanBackend.handle vk_op.GET_DEVICE_QUEUE 4
    (get_device_queue_body device 0 0) backend;
  queue_resp ← expect r1;
  r2 ← expect (vk.GetDeviceQueueResponse.decode queue_resp);
  let queue := vk.GetDeviceQueueResponse.queue r2 in
  Ret (backend, (device, queue)).

Definition create_command_pool_one (backend : VulkanBackend.t) : outcome
    (VulkanBackend.t * (Handle.t * Handle.t)) :=
  '(backend, device) ← create_device_one backend;
  '(backend, r1) ← VulkanBackend.handle vk_op.CREATE_COMMAND_POOL 7
    (create_command_pool_body device 0) backend;
  pool_resp ← expect r1;
  r2 ← expect (vk.CreateCommandPoolResponse.decode pool_resp);
  let pool := vk.CreateCommandPoolResponse.pool r2 in
  Ret (backend, (device, pool)).

Definition allocate_command_buffer_one (backend : VulkanBackend.t) : outcome
    (VulkanBackend.t * (Handle.t * Handle.t)) :=
  '(backend, (device, pool)) ← create_command_pool_one backend;
  '(backend, r1) ← VulkanBackend.handle vk_op.ALLOCATE_COMMAND_BUFFER 8
    (allocate_command_buffer_body pool) backend;
  buf_resp ← expect r1;
  r2 ← expect (vk.AllocateCommandBufferResponse.decode buf_resp);
  let command_buffer := vk.AllocateCommandBufferResponse.command_buffer r2 in
  Ret (backend, (device, command_buffer)).

Definition create_instance_returns_decodable_handle : test :=
  let backend := VulkanBackend.new in
  let body := create_instance_body 0x00403000 in
  '(backend, r1) ← VulkanBackend.handle vk_op.CREATE_INSTANCE 1 body backend;
  resp ← expect r1;
  decoded ← expect (vk.CreateInstanceResponse.decode resp);
  assert_eq (Handle.kind (vk.CreateInstanceResponse.instance decoded)) KIND_INSTANCE;;
  assert (is_some (HandleTable.get (vk.CreateInstanceResponse.instance decoded)
    (VulkanBackend.instances backend)));;
  Ret tt.

Definition enumerate_after_create_returns_one_device : test :=
  let backend := VulkanBackend.new in
  let create_body := create_instance_body 0 in
  '(backend, r1) ← VulkanBackend.handle vk_op.CREATE_INSTANCE 1 create_body backend;
  create_resp ← expect r1;
  r2 ← expect (vk.CreateInstanceResponse.decode create_resp);
  let instance := vk.CreateInstanceResponse.instance r2 in
  let enum_body := enumerate_body instance in
  '(backend, r3) ← VulkanBackend.handle vk_op.ENUMERATE_PHYSICAL_DEVICES 2 enum_body backend;
  enum_resp ← expect r3;
  decoded ← expect (vk.EnumeratePhysicalDevicesResponse.decode enum_resp);
  assert_eq (len (vk.EnumeratePhysicalDevicesResponse.devices decoded)) 1;;
  device ← index_or_panic (vk.EnumeratePhysicalDevicesResponse.devices decoded) 0;
  assert_eq (Handle.kind device) KIND_PHYSICAL_DEVICE;;
  assert (is_some (HandleTable.get device (VulkanBackend.physical_devices backend)));;
  Ret tt.

Definition enumerate_with_bogus_instance_errors : test :=
  let backend := VulkanBackend.new in
  let bogus := Handle.new KIND_INSTANCE 0 999 in
  let body := enumerate_body bogus in
  '(backend, r1) ← VulkanBackend.handle vk_op.ENUMERATE_PHYSICAL_DEVICES 1 body backend;
  err ← expect_err r1;
  assert (match err with UnknownOpcode _ => true | _ => false end);;
  Ret tt.

Definition out_of_namespace_opcode_errors : test :=
  let backend := VulkanBackend.new in
  '(backend, r1) ← VulkanBackend.handle 0 1 [] backend;
  err ← expect_err r1;
  assert (match err with UnknownOpcode 0 => true | _ => false end);;
  Ret tt.

Definition parent_link_is_recorded : test :=
  let backend := VulkanBackend.new in
  let create_body := create_instance_body 0 in
  '(backend, r1) ← VulkanBackend.handle vk_op.CREATE_INSTANCE 1 create_body backend;
  create_resp ← expect r1;
  r2 ← expect (vk.CreateInstanceResponse.decode create_resp);
  let instance := vk.CreateInstanceResponse.instance r2 in
  let enum_body := enumerate_body instance in
  '(backend, r3) ← VulkanBackend.handle vk_op.ENUMERATE_PHYSICAL_DEVICES 2 enum_body backend;
  enum_resp ← expect r3;
  r4 ← expect (vk.EnumeratePhysicalDevicesResponse.decode enum_resp);
  device ← index_or_panic (vk.EnumeratePhysicalDevicesResponse.devices r4) 0;
  state ← expect_some (HandleTable.get device (VulkanBackend.physical_devices backend));
  assert_eq (Handle.raw (PhysDevState.parent state)) (Handle.raw instance);;
  Ret tt.

Definition create_device_after_enumerate_returns_device_handle : test :=
  let backend := VulkanBackend.new in
  '(backend, physical_device) ← enumerate_one backend;
  '(backend, r1) ← VulkanBackend.handle vk_op.CREATE_DEVICE 3
    (create_device_body physical_device) backend;
  resp ← expect r1;
  decoded ← expect (vk.CreateDeviceResponse.decode resp);
  assert_eq (Handle.kind (vk.CreateDeviceResponse.device decoded)) KIND_DEVICE;;
  assert (is_some (HandleTable.get (vk.CreateDeviceResponse.device decoded)
    (VulkanBackend.devices backend)));;
  state ← expect_some (HandleTable.get (vk.CreateDeviceResponse.device decoded)
    (VulkanBackend.devices backend));
  assert_eq (Handle.raw (DeviceState.physical_device state)) (Handle.raw physical_device);;
  Ret tt.

Definition create_device_with_bogus_physical_device_errors : test :=
  let backend := VulkanBackend.new in
  let bogus := Handle.new KIND_PHYSICAL_DEVICE 0 999 in
  '(backend, r1) ← VulkanBackend.handle vk_op.CREATE_DEVICE 1 (create_device_body bogus) backend;
  err ← expect_err r1;
  assert (match err with UnknownOpcode _ => true | _ => false end);;
  Ret tt.

Definition get_device_queue_after_create_device_returns_queue_handle : test :=
  let backend := VulkanBackend.new in
  '(backend, physical_device) ← enumerate_one backend;
  '(backend, r1) ← VulkanBackend.handle vk_op.CREATE_DEVICE 3
    (create_device_body physical_device) backend;
  create_resp ← expect r1;
  r2 ← expect (vk.CreateDeviceResponse.decode create_resp);
  let device := vk.CreateDeviceResponse.device r2 in
  '(backend, r3) ← VulkanBackend.handle vk_op.GET_DEVICE_QUEUE 4
    (get_device_queue_body device 7 2) backend;
  resp ← expect r3;
  decoded ← expect (vk.GetDeviceQueueResponse.decode resp);
  assert_eq (Handle.kind (vk.GetDeviceQueueResponse.queue decoded)) KIND_QUEUE;;
  state ← expect_some (HandleTable.get (vk.GetDeviceQueueResponse.queue decoded)
    (VulkanBackend.queues backend));
  assert_eq (Handle.raw (QueueState.device state)) (Handle.raw device);;
  assert_eq (QueueState.family state) 7;;
  assert_eq (QueueState.index state) 2;;
  Ret tt.

Definition get_device_queue_with_bogus_device_errors : test :=
  let backend := VulkanBackend.new in
  let bogus := Handle.new KIND_DEVICE 0 999 in
  '(backend, r1) ← VulkanBackend.handle vk_op.GET_DEVICE_QUEUE 1
    (get_device_queue_body bogus 0 0) backend;
  err ← expect_err r1;
  assert (match err with UnknownOpcode _ => true | _ => false end);;
  Ret tt.

Definition allocate_memory_after_create_device_returns_memory_handle : test :=
  let backend := VulkanBackend.new in
  '(backend, device) ← create_device_one backend;
  '(backend, r1) ← VulkanBackend.handle vk_op.ALLOCATE_MEMORY 5
    (allocate_memory_body device 4096) backend;
  resp ← expect r1;
  decoded ← expect (vk.AllocateMemoryResponse.decode resp);
  assert_eq (Handle.kind (vk.AllocateMemoryResponse.memory decoded)) KIND_DEVICE_MEMORY;;
  state ← expect_some (HandleTable.get (vk.AllocateMemoryResponse.memory decoded)
    (VulkanBackend.memories backend));
  assert_eq (Handle.raw (MemoryState.device state)) (Handle.raw device);;
  assert_eq (MemoryState.size state) 4096;;
  Ret tt.

Definition allocate_memory_with_bogus_device_errors : test :=
  let backend := VulkanBackend.new in
  let bogus := Handle.new KIND_DEVICE 0 999 in
  '(backend, r1) ← VulkanBackend.handle vk_op.ALLOCATE_MEMORY 1 (allocate_memory_body bogus 4096)
    backend;
  err ← expect_err r1;
  assert (match err with UnknownOpcode _ => true | _ => false end);;
  Ret tt.

Definition create_buffer_after_create_device_returns_buffer_handle : test :=
  let backend := VulkanBackend.new in
  '(backend, device) ← create_device_one backend;
  '(backend, r1) ← VulkanBackend.handle vk_op.CREATE_BUFFER 6
    (create_buffer_body device 1024 0x20) backend;
  resp ← expect r1;
  decoded ← expect (vk.CreateBufferResponse.decode resp);
  assert_eq (Handle.kind (vk.CreateBufferResponse.buffer decoded)) KIND_BUFFER;;
  state ← expect_some (HandleTable.get (vk.CreateBufferResponse.buffer decoded)
    (VulkanBackend.buffers backend));
  assert_eq (Handle.raw (BufferState.device state)) (Handle.raw device);;
  assert_eq (BufferState.size state) 1024;;
  assert_eq (BufferState.usage state) 0x20;;
  assert (is_none (BufferState.bound state));;
  Ret tt.

Definition create_buffer_with_bogus_device_errors : test :=
  let backend := VulkanBackend.new in
  let bogus := Handle.new KIND_DEVICE 0 999 in
  '(backend, r1) ← VulkanBackend.handle vk_op.CREATE_BUFFER 1 (create_buffer_body bogus 1024 0)
    backend;
  err ← expect_err r1;
  assert (match err with UnknownOpcode _ => true | _ => false end);;
  Ret tt.

Definition bind_buffer_memory_succeeds_and_records_binding : test :=
  let backend := VulkanBackend.new in
  '(backend, device) ← create_device_one backend;
  '(backend, r1) ← VulkanBackend.handle vk_op.ALLOCATE_MEMORY 5
    (allocate_memory_body device 4096) backend;
  mem_resp ← expect r1;
  r2 ← expect (vk.AllocateMemoryResponse.decode mem_resp);
  let memory := vk.AllocateMemoryResponse.memory r2 in
  '(backend, r3) ← VulkanBackend.handle vk_op.CREATE_BUFFER 6
    (create_buffer_body device 1024 0x20) backend;
  buf_resp ← expect r3;
  r4 ← expect (vk.CreateBufferResponse.decode buf_resp);
  let buffer := vk.CreateBufferResponse.buffer r4 in
  '(backend, r5) ← VulkanBackend.handle vk_op.BIND_BUFFER_MEMORY 7
    (bind_buffer_memory_body buffer memory 256) backend;
  ack ← expect r5;
  assert (is_empty ack);;
  state ← expect_some (HandleTable.get buffer (VulkanBackend.buffers backend));
  '(bound_memory, offset) ← expect_some (BufferState.bound state);
  assert_eq (Handle.raw bound_memory) (Handle.raw memory);;
  assert_eq offset 256;;
  Ret tt.

Definition bind_buffer_memory_with_bogus_buffer_errors : test :=
  let backend := VulkanBackend.new in
  '(backend, device) ← create_device_one backend;
  '(backend, r1) ← VulkanBackend.handle vk_op.ALLOCATE_MEMORY 5
    (allocate_memory_body device 4096) backend;
  mem_resp ← expect r1;
  r2 ← expect (vk.AllocateMemoryResponse.decode mem_resp);
  let memory := vk.AllocateMemoryResponse.memory r2 in
  let bogus_buffer := Handle.new KIND_BUFFER 0 999 in
  '(backend, r3) ← VulkanBackend.handle vk_op.BIND_BUFFER_MEMORY 7
    (bind_buffer_memory_body bogus_buffer memory 0) backend;
  err ← expect_err r3;
  assert (match err with UnknownOpcode _ => true | _ => false end);;
  Ret tt.

Definition bind_buffer_memory_with_bogus_memory_errors : test :=
  let backend := VulkanBackend.new in
  '(backend, device) ← create_device_one backend;
  '(backend, r1) ← VulkanBackend.handle vk_op.CREATE_BUFFER 6 (create_buffer_body device 1024 0)
    backend;
  buf_resp ← expect r1;
  r2 ← expect (vk.CreateBufferResponse.decode buf_resp);
  let buffer := vk.CreateBufferResponse.buffer r2 in
  let bogus_memory := Handle.new KIND_DEVICE_MEMORY 0 999 in
  '(backend, r3) ← VulkanBackend.handle vk_op.BIND_BUFFER_MEMORY 7
    (bind_buffer_memory_body buffer bogus_memory 0) backend;
  err ← expect_err r3;
  assert (match err with UnknownOpcode _ => true | _ => false end);;
  state ← expect_some (HandleTable.get buffer (VulkanBackend.buffers backend));
  assert (is_none (BufferState.bound state));;
  Ret tt.

Definition re_bind_buffer_memory_errors : test :=
  let backend := VulkanBackend.new in
  '(backend, device) ← create_device_one backend;
  '(backend, r1) ← VulkanBackend.handle vk_op.ALLOCATE_MEMORY 5
    (allocate_memory_body device 4096) backend;
  mem_resp ← expect r1;
  r2 ← expect (vk.AllocateMemoryResponse.decode mem_resp);
  let memory := vk.AllocateMemoryResponse.memory r2 in
  '(backend, r3) ← VulkanBackend.handle vk_op.CREATE_BUFFER 6 (create_buffer_body device 1024 0)
    backend;
  buf_resp ← expect r3;
  r4 ← expect (vk.CreateBufferResponse.decode buf_resp);
  let buffer := vk.CreateBufferResponse.buffer r4 in
  '(backend, r5) ← VulkanBackend.handle vk_op.BIND_BUFFER_MEMORY 7
    (bind_buffer_memory_body buffer memory 0) backend;
  expect r5;;
  '(backend, r6) ← VulkanBackend.handle vk_op.BIND_BUFFER_MEMORY 8
    (bind_buffer_memory_body buffer memory 512) backend;
  err ← expect_err r6;
  assert (match err with UnknownOpcode _ => true | _ => false end);;
  state ← expect_some (HandleTable.get buffer (VulkanBackend.buffers backend));
  '(_, offset) ← expect_some (BufferState.bound state);
  assert_eq offset 0;;
  Ret tt.

Definition create_command_pool_after_create_device_returns_pool_handle : test :=
  let backend := VulkanBackend.new in
  '(backend, device) ← create_device_one backend;
  '(backend, r1) ← VulkanBackend.handle vk_op.CREATE_COMMAND_POOL 7
    (create_command_pool_body device 3) backend;
  resp ← expect r1;
  decoded ← expect (vk.CreateCommandPoolResponse.decode resp);
  assert_eq (Handle.kind (vk.CreateCommandPoolResponse.pool decoded)) KIND_COMMAND_POOL;;
  state ← expect_some (HandleTable.get (vk.CreateCommandPoolResponse.pool decoded)
    (VulkanBackend.command_pools backend));
  assert_eq (Handle.raw (CommandPoolState.device state)) (Handle.raw device);;
  assert_eq (CommandPoolState.queue_family_index state) 3;;
  Ret tt.

Definition create_command_pool_with_bogus_device_errors : test :=
  let backend := VulkanBackend.new in
  let bogus := Handle.new KIND_DEVICE 0 999 in
  '(backend, r1) ← VulkanBackend.handle vk_op.CREATE_COMMAND_POOL 1
    (create_command_pool_body bogus 0) backend;
  err ← expect_err r1;
  assert (match err with UnknownOpcode _ => true | _ => false end);;
  Ret tt.

Definition allocate_command_buffer_after_create_pool_returns_buffer_handle : test :=
  let backend := VulkanBackend.new in
  '(backend, (_, pool)) ← create_command_pool_one backend;
  '(backend, r1) ← VulkanBackend.handle vk_op.ALLOCATE_COMMAND_BUFFER 8
    (allocate_command_buffer_body pool) backend;
  resp ← expect r1;
  decoded ← expect (vk.AllocateCommandBufferResponse.decode resp);
  assert_eq (Handle.kind (vk.AllocateCommandBufferResponse.command_buffer decoded))
    KIND_COMMAND_BUFFER;;
  state ← expect_some (HandleTable.get (vk.AllocateCommandBufferResponse.command_buffer decoded)
    (VulkanBackend.command_buffers backend));
  assert_eq (Handle.raw (CommandBufferState.pool state)) (Handle.raw pool);;
  Ret tt.

Definition allocate_command_buffer_with_bogus_pool_errors : test :=
  let backend := VulkanBackend.new in
  let bogus := Handle.new KIND_COMMAND_POOL 0 999 in
  '(backend, r1) ← VulkanBackend.handle vk_op.ALLOCATE_COMMAND_BUFFER 1
    (allocate_command_buffer_body bogus) backend;
  err ← expect_err r1;
  assert (match err with UnknownOpcode _ => true | _ => false end);;
  Ret tt.

Definition queue_submit_validates_queue_and_command_buffer : test :=
  let backend := VulkanBackend.new in
  '(backend, (device, queue)) ← create_queue_one backend;
  '(backend, r1) ← VulkanBackend.handle vk_op.CREATE_COMMAND_POOL 7
    (create_command_pool_body device 0) backend;
  pool_resp ← expect r1;
  r2 ← expect (vk.CreateCommandPoolResponse.decode pool_resp);
  let pool := vk.CreateCommandPoolResponse.pool r2 in
  '(backend, r3) ← VulkanBackend.handle vk_op.ALLOCATE_COMMAND_BUFFER 8
    (allocate_command_buffer_body pool) backend;
  buf_resp ← expect r3;
  r4 ← expect (vk.AllocateCommandBufferResponse.decode buf_resp);
  let command_buffer := vk.AllocateCommandBufferResponse.command_buffer r4 in
  '(backend, r5) ← VulkanBackend.handle vk_op.QUEUE_SUBMIT 9
    (queue_submit_body queue command_buffer) backend;
  ack ← expect r5;
  assert (is_empty ack);;
  Ret tt.

Definition queue_submit_with_bogus_queue_errors : test :=
  let backend := VulkanBackend.new in
  '(backend, (_, pool)) ← create_command_pool_one backend;
  '(backend, r1) ← VulkanBackend.handle vk_op.ALLOCATE_COMMAND_BUFFER 8
    (allocate_command_buffer_body pool) backend;
  buf_resp ← expect r1;
  r2 ← expect (vk.AllocateCommandBufferResponse.decode buf_resp);
  let command_buffer := vk.AllocateCommandBufferResponse.command_buffer r2 in
  let bogus_queue := Handle.new KIND_QUEUE 0 999 in
  '(backend, r3) ← VulkanBackend.handle vk_op.QUEUE_SUBMIT 9
    (queue_submit_body bogus_queue command_buffer) backend;
  err ← expect_err r3;
  assert (match err with UnknownOpcode _ => true | _ => false end);;
  Ret tt.

Definition queue_submit_with_bogus_command_buffer_errors : test :=
  let backend := VulkanBackend.new in
  '(backend, (_, queue)) ← create_queue_one backend;
  let bogus_buffer := Handle.new KIND_COMMAND_BUFFER 0 999 in
  '(backend, r1) ← VulkanBackend.handle vk_op.QUEUE_SUBMIT 9
    (queue_submit_body queue bogus_buffer) backend;
  err ← expect_err r1;
  assert (match err with UnknownOpcode _ => true | _ => false end);;
  Ret tt.

Definition cmd_copy_buffer_records_and_bumps_count : test :=
  let backend := VulkanBackend.new in
  '(backend, (device, command_buffer)) ← allocate_command_buffer_one backend;
  '(backend, src) ← create_buffer_one backend device;
  '(backend, dst) ← create_buffer_one backend device;
  '(backend, r1) ← VulkanBackend.handle vk_op.CMD_COPY_BUFFER 10
    (cmd_copy_buffer_body command_buffer src dst 512) backend;
  ack ← expect r1;
  assert (is_empty ack);;
  state ← expect_some (HandleTable.get command_buffer (VulkanBackend.command_buffers backend));
  assert_eq (CommandBufferState.recorded state) 1;;
  '(backend, r2) ← VulkanBackend.handle vk_op.CMD_COPY_BUFFER 11
    (cmd_copy_buffer_body command_buffer src dst 256) backend;
  expect r2;;
  state ← expect_some (HandleTable.get command_buffer (VulkanBackend.command_buffers backend));
  assert_eq (CommandBufferState.recorded state) 2;;
  Ret tt.

Definition cmd_copy_buffer_with_bogus_command_buffer_errors : test :=
  let backend := VulkanBackend.new in
  '(backend, device) ← create_device_one backend;
  '(backend, src) ← create_buffer_one backend device;
  '(backend, dst) ← create_buffer_one backend device;
  let bogus := Handle.new KIND_COMMAND_BUFFER 0 999 in
  '(backend, r1) ← VulkanBackend.handle vk_op.CMD_COPY_BUFFER 10
    (cmd_copy_buffer_body bogus src dst 512) backend;
  err ← expect_err r1;
  assert (match err with UnknownOpcode _ => true | _ => false end);;
  Ret tt.

Definition cmd_copy_buffer_with_bogus_src_errors : test :=
  let backend := VulkanBackend.new in
  '(backend, (device, command_buffer)) ← allocate_command_buffer_one backend;
  '(backend, dst) ← create_buffer_one backend device;
  let bogus_src := Handle.new KIND_BUFFER 0 999 in
  '(backend, r1) ← VulkanBackend.handle vk_op.CMD_COPY_BUFFER 10
    (cmd_copy_buffer_body command_buffer bogus_src dst 512) backend;
  err ← expect_err r1;
  assert (match err with UnknownOpcode _ => true | _ => false end);;
  state ← expect_some (HandleTable.get command_buffer (VulkanBackend.command_buffers backend));
  assert_eq (CommandBufferState.recorded state) 0;;
  Ret tt.

Definition cmd_copy_buffer_with_bogus_dst_errors : test :=
  let backend := VulkanBackend.new in
  '(backend, (device, command_buffer)) ← allocate_command_buffer_one backend;
  '(backend, src) ← create_buffer_one backend device;
  let bogus_dst := Handle.new KIND_BUFFER 0 999 in
  '(backend, r1) ← VulkanBackend.handle vk_op.CMD_COPY_BUFFER 10
    (cmd_copy_buffer_body command_buffer src bogus_dst 512) backend;
  err ← expect_err r1;
  assert (match err with UnknownOpcode _ => true | _ => false end);;
  state ← expect_some (HandleTable.get command_buffer (VulkanBackend.command_buffers backend));
  assert_eq (CommandBufferState.recorded state) 0;;
  Ret tt.

Definition cmd_draw_records_and_bumps_count : test :=
  let backend := VulkanBackend.new in
  '(backend, (_, command_buffer)) ← allocate_command_buffer_one backend;
  '(backend, r1) ← VulkanBackend.handle vk_op.CMD_DRAW 12 (cmd_draw_body command_buffer 3 1)
    backend;
  ack ← expect r1;
  assert (is_empty ack);;
  state ← expect_some (HandleTable.get command_buffer (VulkanBackend.command_buffers backend));
  assert_eq (CommandBufferState.recorded state) 1;;
  '(backend, r2) ← VulkanBackend.handle vk_op.CMD_DRAW 13 (cmd_draw_body command_buffer 6 2)
    backend;
  expect r2;;
  state ← expect_some (HandleTable.get command_buffer (VulkanBackend.command_buffers backend));
  assert_eq (CommandBufferState.recorded state) 2;;
  Ret tt.

Definition cmd_draw_then_copy_share_recorded_count : test :=
  let backend := VulkanBackend.new in
  '(backend, (device, command_buffer)) ← allocate_command_buffer_one backend;
  '(backend, src) ← create_buffer_one backend device;
  '(backend, dst) ← create_buffer_one backend device;
  '(backend, r1) ← VulkanBackend.handle vk_op.CMD_DRAW 12 (cmd_draw_body command_buffer 3 1)
    backend;
  expect r1;;
  '(backend, r2) ← VulkanBackend.handle vk_op.CMD_COPY_BUFFER 13
    (cmd_copy_buffer_body command_buffer src dst 512) backend;
  expect r2;;
  state ← expect_some (HandleTable.get command_buffer (VulkanBackend.command_buffers backend));
  assert_eq (CommandBufferState.recorded state) 2;;
  Ret tt.

Definition cmd_draw_with_bogus_command_buffer_errors : test :=
  let backend := VulkanBackend.new in
  let bogus := Handle.new KIND_COMMAND_BUFFER 0 999 in
  '(backend, r1) ← VulkanBackend.handle vk_op.CMD_DRAW 12 (cmd_draw_body bogus 3 1) backend;
  err ← expect_err r1;
  assert (match err with UnknownOpcode _ => true | _ => false end);;
  Ret tt.

Definition destroy_buffer_removes_and_acks : test :=
  let backend := VulkanBackend.new in
  '(backend, device) ← create_device_one backend;
  '(backend, buffer) ← create_buffer_one backend device;
  '(backend, r1) ← VulkanBackend.handle vk_op.DESTROY_BUFFER 14 (destroy_buffer_body buffer)
    backend;
  ack ← expect r1;
  assert (is_empty ack);;
  assert (is_none (HandleTable.get buffer (VulkanBackend.buffers backend)));;
  Ret tt.

Definition destroy_buffer_with_bogus_handle_errors : test :=
  let backend := VulkanBackend.new in
  let bogus := Handle.new KIND_BUFFER 0 999 in
  '(backend, r1) ← VulkanBackend.handle vk_op.DESTROY_BUFFER 14 (destroy_buffer_body bogus)
    backend;
  err ← expect_err r1;
  assert (match err with UnknownOpcode _ => true | _ => false end);;
  Ret tt.

Definition destroy_buffer_twice_errors_on_second : test :=
  let backend := VulkanBackend.new in
  '(backend, device) ← create_device_one backend;
  '(backend, buffer) ← create_buffer_one backend device;
  '(backend, r1) ← VulkanBackend.handle vk_op.DESTROY_BUFFER 14 (destroy_buffer_body buffer)
    backend;
  expect r1;;
  '(backend, r2) ← VulkanBackend.handle vk_op.DESTROY_BUFFER 15 (destroy_buffer_body buffer)
    backend;
  err ← expect_err r2;
  assert (match err with UnknownOpcode _ => true | _ => false end);;
  Ret tt.

Definition free_memory_removes_and_acks : test :=
  let backend := VulkanBackend.new in
  '(backend, device) ← create_device_one backend;
  '(backend, r1) ← VulkanBackend.handle vk_op.ALLOCATE_MEMORY 5
    (allocate_memory_body device 4096) backend;
  mem_resp ← expect r1;
  r2 ← expect (vk.AllocateMemoryResponse.decode mem_resp);
  let memory := vk.AllocateMemoryResponse.memory r2 in
  '(backend, r3) ← VulkanBackend.handle vk_op.FREE_MEMORY 16 (free_memory_body memory) backend;
  ack ← expect r3;
  assert (is_empty ack);;
  assert (is_none (HandleTable.get memory (VulkanBackend.memories backend)));;
  Ret tt.

Definition free_memory_with_bogus_handle_errors : test :=
  let backend := VulkanBackend.new in
  let bogus := Handle.new KIND_DEVICE_MEMORY 0 999 in
  '(backend, r1) ← VulkanBackend.handle vk_op.FREE_MEMORY 16 (free_memory_body bogus) backend;
  err ← expect_err r1;
  assert (match err with UnknownOpcode _ => true | _ => false end);;
  Ret tt.

Definition destroy_command_pool_removes_and_acks : test :=
  let backend := VulkanBackend.new in
  '(backend, (_, pool)) ← create_command_pool_one backend;
  '(backend, r1) ← VulkanBackend.handle vk_op.DESTROY_COMMAND_POOL 17
    (destroy_command_pool_body pool) backend;
  ack ← expect r1;
  assert (is_empty ack);;
  assert (is_none (HandleTable.get pool (VulkanBackend.command_pools backend)));;
  Ret tt.

Definition destroy_command_pool_with_bogus_handle_errors : test :=
  let backend := VulkanBackend.new in
  let bogus := Handle.new KIND_COMMAND_POOL 0 999 in
  '(backend, r1) ← VulkanBackend.handle vk_op.DESTROY_COMMAND_POOL 17
    (destroy_command_pool_body bogus) backend;
  err ← expect_err r1;
  assert (match err with UnknownOpcode _ => true | _ => false end);;
  Ret tt.

Definition tests : list test :=
  [create_instance_returns_decodable_handle; enumerate_after_create_returns_one_device;
   enumerate_with_bogus_instance_errors; out_of_namespace_opcode_errors;
   parent_link_is_recorded; create_device_after_enumerate_returns_device_handle;
   create_device_with_bogus_physical_device_errors;
   get_device_queue_after_create_device_returns_queue_handle;
   get_device_queue_with_bogus_device_errors;
   allocate_memory_after_create_device_returns_memory_handle;
   allocate_memory_with_bogus_device_errors;
   create_buffer_after_create_device_returns_buffer_handle;
   create_buffer_with_bogus_device_errors; bind_buffer_memory_succeeds_and_records_binding;
   bind_buffer_memory_with_bogus_buffer_errors; bind_buffer_memory_with_bogus_memory_errors;
   re_bind_buffer_memory_errors; create_command_pool_after_create_device_returns_pool_handle;
   create_command_pool_with_bogus_device_errors;
   allocate_command_buffer_after_create_pool_returns_buffer_handle;
   allocate_command_buffer_with_bogus_pool_errors;
   queue_submit_validates_queue_and_command_buffer; queue_submit_with_bogus_queue_errors;
   queue_submit_with_bogus_command_buffer_errors; cmd_copy_buffer_records_and_bumps_count;
   cmd_copy_buffer_with_bogus_command_buffer_errors; cmd_copy_buffer_with_bogus_src_errors;
   cmd_copy_buffer_with_bogus_dst_errors; cmd_draw_records_and_bumps_count;
   cmd_draw_then_copy_share_recorded_count; cmd_draw_with_bogus_command_buffer_errors;
   destroy_buffer_removes_and_acks; destroy_buffer_with_bogus_handle_errors;
   destroy_buffer_twice_errors_on_second; free_memory_removes_and_acks;
   free_memory_with_bogus_handle_errors; destroy_command_pool_removes_and_acks;
   destroy_command_pool_with_bogus_handle_errors].

End Vulkan.

Module Gl.

Definition make_current_body (context : Handle.t) : list byte :=
  let body := [] in
  let body := gl.MakeCurrentRequest.encode (gl.MakeCurrentRequest.mk context) body in
  body.

Definition gen_buffer_body (context : Handle.t) : list byte :=
  let body := [] in
  let body := gl.GenBufferRequest.encode (gl.GenBufferRequest.mk context) body in
  body.

Definition swap_buffers_body (context : Handle.t) : list byte :=
  let body := [] in
  let body := gl.SwapBuffersRequest.encode (gl.SwapBuffersRequest.mk context) body in
  body.

Definition delete_buffer_body (buffer : Handle.t) : list byte :=
  let body := [] in
  let body := gl.DeleteBufferRequest.encode (gl.DeleteBufferRequest.mk buffer) body in
  body.

Definition gen_buffer_one (backend : GlBackend.t) (context : Handle.t) : outcome
    (GlBackend.t * Handle.t) :=
  '(backend, r1) ← GlBackend.handle gl_op.GEN_BUFFER 3 (gen_buffer_body context) backend;
  resp ← expect r1;
  r2 ← expect (gl.GenBufferResponse.decode resp);
  Ret (backend, gl.GenBufferResponse.buffer r2).

Definition create_context (backend : GlBackend.t) : outcome (GlBackend.t * Handle.t) :=
  '(backend, r1) ← GlBackend.handle gl_op.CREATE_CONTEXT 1 [] backend;
  resp ← expect r1;
  r2 ← expect (gl.CreateContextResponse.decode resp);
  Ret (backend, gl.CreateContextResponse.context r2).

Definition create_context_returns_kind_ten : test :=
  let backend := GlBackend.new in
  '(backend, r1) ← GlBackend.handle gl_op.CREATE_CONTEXT 1 [] backend;
  resp ← expect r1;
  decoded ← expect (gl.CreateContextResponse.decode resp);
  assert_eq (Handle.kind (gl.CreateContextResponse.context decoded)) GlBackend.KIND_GL_CONTEXT;;
  assert (is_some (HandleTable.get (gl.CreateContextResponse.context decoded)
    (GlBackend.contexts backend)));;
  Ret tt.

Definition make_current_after_create_returns_empty_ack : test :=
  let backend := GlBackend.new in
  '(backend, context) ← create_context backend;
  '(backend, r1) ← GlBackend.handle gl_op.MAKE_CURRENT 2 (make_current_body context) backend;
  resp ← expect r1;
  assert (is_empty resp);;
  Ret tt.

Definition gen_buffer_after_create_returns_kind_eleven : test :=
  let backend := GlBackend.new in
  '(backend, context) ← create_context backend;
  '(backend, r1) ← GlBackend.handle gl_op.GEN_BUFFER 3 (gen_buffer_body context) backend;
  resp ← expect r1;
  decoded ← expect (gl.GenBufferResponse.decode resp);
  assert_eq (Handle.kind (gl.GenBufferResponse.buffer decoded)) GlBackend.KIND_GL_BUFFER;;
  state ← expect_some (HandleTable.get (gl.GenBufferResponse.buffer decoded)
    (GlBackend.buffers backend));
  assert_eq (Handle.raw (GlBackend.BufState.context state)) (Handle.raw context);;
  Ret tt.

Definition make_current_with_bogus_context_errors : test :=
  let backend := GlBackend.new in
  let bogus := Handle.new GlBackend.KIND_GL_CONTEXT 0 999 in
  '(backend, r1) ← GlBackend.handle gl_op.MAKE_CURRENT 1 (make_current_body bogus) backend;
  err ← expect_err r1;
  assert (match err with UnknownOpcode _ => true | _ => false end);;
  Ret tt.

Definition gen_buffer_with_bogus_context_errors : test :=
  let backend := GlBackend.new in
  let bogus := Handle.new GlBackend.KIND_GL_CONTEXT 0 999 in
  '(backend, r1) ← GlBackend.handle gl_op.GEN_BUFFER 1 (gen_buffer_body bogus) backend;
  err ← expect_err r1;
  assert (match err with UnknownOpcode _ => true | _ => false end);;
  Ret tt.

Definition out_of_namespace_opcode_errors : test :=
  let backend := GlBackend.new in
  '(backend, r1) ← GlBackend.handle 0 1 [] backend;
  err ← expect_err r1;
  assert (match err with UnknownOpcode 0 => true | _ => false end);;
  Ret tt.

Definition swap_buffers_after_create_returns_empty_ack : test :=
  let backend := GlBackend.new in
  '(backend, context) ← create_context backend;
  '(backend, r1) ← GlBackend.handle gl_op.SWAP_BUFFERS 4 (swap_buffers_body context) backend;
  resp ← expect r1;
  assert (is_empty resp);;
  Ret tt.

Definition swap_buffers_with_bogus_context_errors : test :=
  let backend := GlBackend.new in
  let bogus := Handle.new GlBackend.KIND_GL_CONTEXT 0 999 in
  '(backend, r1) ← GlBackend.handle gl_op.SWAP_BUFFERS 4 (swap_buffers_body bogus) backend;
  err ← expect_err r1;
  assert (match err with UnknownOpcode _ => true | _ => false end);;
  Ret tt.

Definition delete_buffer_removes_and_acks : test :=
  let backend := GlBackend.new in
  '(backend, context) ← create_context backend;
  '(backend, buffer) ← gen_buffer_one backend context;
  '(backend, r1) ← GlBackend.handle gl_op.DELETE_BUFFER 5 (delete_buffer_body buffer) backend;
  resp ← expect r1;
  assert (is_empty resp);;
  assert (is_none (HandleTable.get buffer (GlBackend.buffers backend)));;
  Ret tt.

Definition delete_buffer_with_bogus_handle_errors : test :=
  let backend := GlBackend.new in
  let bogus := Handle.new GlBackend.KIND_GL_BUFFER 0 999 in
  '(backend, r1) ← GlBackend.handle gl_op.DELETE_BUFFER 5 (delete_buffer_body bogus) backend;
  err ← expect_err r1;
  assert (match err with UnknownOpcode _ => true | _ => false end);;
  Ret tt.

Definition delete_buffer_twice_errors_on_second : test :=
  let backend := GlBackend.new in
  '(backend, context) ← create_context backend;
  '(backend, buffer) ← gen_buffer_one backend context;
  '(backend, r1) ← GlBackend.handle gl_op.DELETE_BUFFER 5 (delete_buffer_body buffer) backend;
  expect r1;;
  '(backend, r2) ← GlBackend.handle gl_op.DELETE_BUFFER 6 (delete_buffer_body buffer) backend;
  err ← expect_err r2;
  assert (match err with UnknownOpcode _ => true | _ => false end);;
  Ret tt.

Definition tests : list test :=
  [create_context_returns_kind_ten; make_current_after_create_returns_empty_ack;
   gen_buffer_after_create_returns_kind_eleven; make_current_with_bogus_context_errors;
   gen_buffer_with_bogus_context_errors; out_of_namespace_opcode_errors;
   swap_buffers_after_create_returns_empty_ack; swap_buffers_with_bogus_context_errors;
   delete_buffer_removes_and_acks; delete_buffer_with_bogus_handle_errors;
   delete_buffer_twice_errors_on_second].

End Gl.

Module Cuda.

Definition ctx_create_body (device_ordinal : Z) : list byte :=
  let body := [] in
  let body := cuda.CtxCreateRequest.encode (cuda.CtxCreateRequest.mk device_ordinal) body in
  body.

Definition mem_alloc_body (context : Handle.t) (size : Z) : list byte :=
  let body := [] in
  let body := cuda.MemAllocRequest.encode (cuda.MemAllocRequest.mk context size) body in
  body.

Definition mem_free_body (dptr : Handle.t) : list byte :=
  let body := [] in
  let body := cuda.MemFreeRequest.encode (cuda.MemFreeRequest.mk dptr) body in
  body.

Definition create_context (backend : CudaBackend.t) : outcome (CudaBackend.t * Handle.t) :=
  '(backend, r1) ← CudaBackend.handle cuda_op.CTX_CREATE 1 (ctx_create_body 0) backend;
  resp ← expect r1;
  r2 ← expect (cuda.CtxCreateResponse.decode resp);
  Ret (backend, cuda.CtxCreateResponse.context r2).

Definition alloc_one (backend : CudaBackend.t) : outcome (CudaBackend.t * Handle.t) :=
  '(backend, context) ← create_context backend;
  '(backend, r1) ← CudaBackend.handle cuda_op.MEM_ALLOC 2 (mem_alloc_body context 4096) backend;
  resp ← expect r1;
  r2 ← expect (cuda.MemAllocResponse.decode resp);
  Ret (backend, cuda.MemAllocResponse.dptr r2).

Definition ctx_create_returns_kind_twenty : test :=
  let backend := CudaBackend.new in
  '(backend, r1) ← CudaBackend.handle cuda_op.CTX_CREATE 1 (ctx_create_body 3) backend;
  resp ← expect r1;
  decoded ← expect (cuda.CtxCreateResponse.decode resp);
  assert_eq (Handle.kind (cuda.CtxCreateResponse.context decoded)) CudaBackend.KIND_CUDA_CONTEXT;;
  state ← expect_some (HandleTable.get (cuda.CtxCreateResponse.context decoded)
    (CudaBackend.contexts backend));
  assert_eq (CudaBackend.CudaCtxState.device_ordinal state) 3;;
  Ret tt.

Definition mem_alloc_after_ctx_returns_kind_twenty_one : test :=
  let backend := CudaBackend.new in
  '(backend, context) ← create_context backend;
  '(backend, r1) ← CudaBackend.handle cuda_op.MEM_ALLOC 2 (mem_alloc_body context 1024) backend;
  resp ← expect r1;
  decoded ← expect (cuda.MemAllocResponse.decode resp);
  assert_eq (Handle.kind (cuda.MemAllocResponse.dptr decoded)) CudaBackend.KIND_CUDA_DEVICE_PTR;;
  state ← expect_some (HandleTable.get (cuda.MemAllocResponse.dptr decoded)
    (CudaBackend.allocations backend));
  assert_eq (Handle.raw (CudaBackend.CudaMemState.context state)) (Handle.raw context);;
  assert_eq (CudaBackend.CudaMemState.size state) 1024;;
  Ret tt.

Definition mem_alloc_with_bogus_context_errors : test :=
  let backend := CudaBackend.new in
  let bogus := Handle.new CudaBackend.KIND_CUDA_CONTEXT 0 999 in
  '(backend, r1) ← CudaBackend.handle cuda_op.MEM_ALLOC 1 (mem_alloc_body bogus 1024) backend;
  err ← expect_err r1;
  assert (match err with UnknownOpcode _ => true | _ => false end);;
  Ret tt.

Definition mem_free_of_live_dptr_succeeds : test :=
  let backend := CudaBackend.new in
  '(backend, dptr) ← alloc_one backend;
  '(backend, r1) ← CudaBackend.handle cuda_op.MEM_FREE 3 (mem_free_body dptr) backend;
  resp ← expect r1;
  assert (is_empty resp);;
  assert (is_none (HandleTable.get dptr (CudaBackend.allocations backend)));;
  Ret tt.

Definition mem_free_of_bogus_dptr_errors : test :=
  let backend := CudaBackend.new in
  let bogus := Handle.new CudaBackend.KIND_CUDA_DEVICE_PTR 0 999 in
  '(backend, r1) ← CudaBackend.handle cuda_op.MEM_FREE 1 (mem_free_body bogus) backend;
  err ← expect_err r1;
  assert (match err with UnknownOpcode _ => true | _ => false end);;
  Ret tt.

Definition mem_free_of_already_freed_dptr_errors : test :=
  let backend := CudaBackend.new in
  '(backend, dptr) ← alloc_one backend;
  '(backend, r1) ← CudaBackend.handle cuda_op.MEM_FREE 3 (mem_free_body dptr) backend;
  expect r1;;
  '(backend, r2) ← CudaBackend.handle cuda_op.MEM_FREE 4 (mem_free_body dptr) backend;
  err ← expect_err r2;
  assert (match err with UnknownOpcode _ => true | _ => false end);;
  Ret tt.

Definition out_of_namespace_opcode_errors : test :=
  let backend := CudaBackend.new in
  '(backend, r1) ← CudaBackend.handle 0 1 [] backend;
  err ← expect_err r1;
  assert (match err with UnknownOpcode 0 => true | _ => false end);;
  Ret tt.

Definition tests : list test :=
  [ctx_create_returns_kind_twenty; mem_alloc_after_ctx_returns_kind_twenty_one;
   mem_alloc_with_bogus_context_errors; mem_free_of_live_dptr_succeeds;
   mem_free_of_bogus_dptr_errors; mem_free_of_already_freed_dptr_errors;
   out_of_namespace_opcode_errors].

End Cuda.

Module Hip.

Definition malloc_body (size : Z) : list byte :=
  let body := [] in
  let body := hip.MallocRequest.encode (hip.MallocRequest.mk size) body in
  body.

Definition free_body (dptr : Handle.t) : list byte :=
  let body := [] in
  let body := hip.FreeRequest.encode (hip.FreeRequest.mk dptr) body in
  body.

Definition alloc_one (backend : HipBackend.t) : outcome (HipBackend.t * Handle.t) :=
  '(backend, r1) ← HipBackend.handle hip_op.MALLOC 1 (malloc_body 4096) backend;
  resp ← expect r1;
  r2 ← expect (hip.MallocResponse.decode resp);
  Ret (backend, hip.MallocResponse.dptr r2).

Definition malloc_returns_kind_thirty : test :=
  let backend := HipBackend.new in
  '(backend, r1) ← HipBackend.handle hip_op.MALLOC 1 (malloc_body 1024) backend;
  resp ← expect r1;
  decoded ← expect (hip.MallocResponse.decode resp);
  assert_eq (Handle.kind (hip.MallocResponse.dptr decoded)) HipBackend.KIND_HIP_DEVICE_PTR;;
  state ← expect_some (HandleTable.get (hip.MallocResponse.dptr decoded)
    (HipBackend.allocations backend));
  assert_eq (HipBackend.HipMemState.size state) 1024;;
  Ret tt.

Definition free_of_live_dptr_succeeds : test :=
  let backend := HipBackend.new in
  '(backend, dptr) ← alloc_one backend;
  '(backend, r1) ← HipBackend.handle hip_op.FREE 2 (free_body dptr) backend;
  resp ← expect r1;
  assert (is_empty resp);;
  assert (is_none (HandleTable.get dptr (HipBackend.allocations backend)));;
  Ret tt.

Definition free_of_bogus_dptr_errors : test :=
  let backend := HipBackend.new in
  let bogus := Handle.new HipBackend.KIND_HIP_DEVICE_PTR 0 999 in
  '(backend, r1) ← HipBackend.handle hip_op.FREE 1 (free_body bogus) backend;
  err ← expect_err r1;
  assert (match err with UnknownOpcode _ => true | _ => false end);;
  Ret tt.

Definition free_of_already_freed_dptr_errors : test :=
  let backend := HipBackend.new in
  '(backend, dptr) ← alloc_one backend;
  '(backend, r1) ← HipBackend.handle hip_op.FREE 2 (free_body dptr) backend;
  expect r1;;
  '(backend, r2) ← HipBackend.handle hip_op.FREE 3 (free_body dptr) backend;
  err ← expect_err r2;
  assert (match err with UnknownOpcode _ => true | _ => false end);;
  Ret tt.

Definition stream_create_returns_kind_thirty_one : test :=
  let backend := HipBackend.new in
  '(backend, r1) ← HipBackend.handle hip_op.STREAM_CREATE 1 [] backend;
  resp ← expect r1;
  decoded ← expect (hip.StreamCreateResponse.decode resp);
  assert_eq (Handle.kind (hip.StreamCreateResponse.stream decoded)) HipBackend.KIND_HIP_STREAM;;
  assert (is_some (HandleTable.get (hip.StreamCreateResponse.stream decoded)
    (HipBackend.streams backend)));;
  Ret tt.

Definition out_of_namespace_opcode_errors : test :=
  let backend := HipBackend.new in
  '(backend, r1) ← HipBackend.handle 0 1 [] backend;
  err ← expect_err r1;
  assert (match err with UnknownOpcode 0 => true | _ => false end);;
  Ret tt.

Definition tests : list test :=
  [malloc_returns_kind_thirty; free_of_live_dptr_succeeds; free_of_bogus_dptr_errors;
   free_of_already_freed_dptr_errors; stream_create_returns_kind_thirty_one;
   out_of_namespace_opcode_errors].

End Hip.

Module Cl.

Definition create_buffer_body (context : Handle.t) (size : Z) : list byte :=
  let body := [] in
  let body := cl.CreateBufferRequest.encode (cl.CreateBufferRequest.mk context size) body in
  body.

Definition release_buffer_body (mem : Handle.t) : list byte :=
  let body := [] in
  let body := cl.ReleaseBufferRequest.encode (cl.ReleaseBufferRequest.mk mem) body in
  body.

Definition create_context (backend : ClBackend.t) : outcome (ClBackend.t * Handle.t) :=
  '(backend, r1) ← ClBackend.handle cl_op.CREATE_CONTEXT 1 [] backend;
  resp ← expect r1;
  r2 ← expect (cl.CreateContextResponse.decode resp);
  Ret (backend, cl.CreateContextResponse.context r2).

Definition create_buffer_one (backend : ClBackend.t) : outcome (ClBackend.t * Handle.t) :=
  '(backend, context) ← create_context backend;
  '(backend, r1) ← ClBackend.handle cl_op.CREATE_BUFFER 2 (create_buffer_body context 4096)
    backend;
  resp ← expect r1;
  r2 ← expect (cl.CreateBufferResponse.decode resp);
  Ret (backend, cl.CreateBufferResponse.mem r2).

Definition create_context_returns_kind_forty : test :=
  let backend := ClBackend.new in
  '(backend, r1) ← ClBackend.handle cl_op.CREATE_CONTEXT 1 [] backend;
  resp ← expect r1;
  decoded ← expect (cl.CreateContextResponse.decode resp);
  assert_eq (Handle.kind (cl.CreateContextResponse.context decoded)) ClBackend.KIND_CL_CONTEXT;;
  assert (is_some (HandleTable.get (cl.CreateContextResponse.context decoded)
    (ClBackend.contexts backend)));;
  Ret tt.

Definition create_buffer_after_context_returns_kind_forty_one : test :=
  let backend := ClBackend.new in
  '(backend, context) ← create_context backend;
  '(backend, r1) ← ClBackend.handle cl_op.CREATE_BUFFER 2 (create_buffer_body context 1024)
    backend;
  resp ← expect r1;
  decoded ← expect (cl.CreateBufferResponse.decode resp);
  assert_eq (Handle.kind (cl.CreateBufferResponse.mem decoded)) ClBackend.KIND_CL_MEM;;
  state ← expect_some (HandleTable.get (cl.CreateBufferResponse.mem decoded)
    (ClBackend.buffers backend));
  assert_eq (Handle.raw (ClBackend.ClBufState.context state)) (Handle.raw context);;
  assert_eq (ClBackend.ClBufState.size state) 1024;;
  Ret tt.

Definition create_buffer_with_bogus_context_errors : test :=
  let backend := ClBackend.new in
  let bogus := Handle.new ClBackend.KIND_CL_CONTEXT 0 999 in
  '(backend, r1) ← ClBackend.handle cl_op.CREATE_BUFFER 1 (create_buffer_body bogus 1024) backend;
  err ← expect_err r1;
  assert (match err with UnknownOpcode _ => true | _ => false end);;
  Ret tt.

Definition release_buffer_of_live_mem_succeeds : test :=
  let backend := ClBackend.new in
  '(backend, mem) ← create_buffer_one backend;
  '(backend, r1) ← ClBackend.handle cl_op.RELEASE_BUFFER 3 (release_buffer_body mem) backend;
  resp ← expect r1;
  assert (is_empty resp);;
  assert (is_none (HandleTable.get mem (ClBackend.buffers backend)));;
  Ret tt.

Definition release_buffer_of_bogus_mem_errors : test :=
  let backend := ClBackend.new in
  let bogus := Handle.new ClBackend.KIND_CL_MEM 0 999 in
  '(backend, r1) ← ClBackend.handle cl_op.RELEASE_BUFFER 1 (release_buffer_body bogus) backend;
  err ← expect_err r1;
  assert (match err with UnknownOpcode _ => true | _ => false end);;
  Ret tt.

Definition release_buffer_of_already_released_mem_errors : test :=
  let backend := ClBackend.new in
  '(backend, mem) ← create_buffer_one backend;
  '(backend, r1) ← ClBackend.handle cl_op.RELEASE_BUFFER 3 (release_buffer_body mem) backend;
  expect r1;;
  '(backend, r2) ← ClBackend.handle cl_op.RELEASE_BUFFER 4 (release_buffer_body mem) backend;
  err ← expect_err r2;
  assert (match err with UnknownOpcode _ => true | _ => false end);;
  Ret tt.

Definition out_of_namespace_opcode_errors : test :=
  let backend := ClBackend.new in
  '(backend, r1) ← ClBackend.handle 0 1 [] backend;
  err ← expect_err r1;
  assert (match err with UnknownOpcode 0 => true | _ => false end);;
  Ret tt.

Definition tests : list test :=
  [create_context_returns_kind_forty; create_buffer_after_context_returns_kind_forty_one;
   create_buffer_with_bogus_context_errors; release_buffer_of_live_mem_succeeds;
   release_buffer_of_bogus_mem_errors; release_buffer_of_already_released_mem_errors;
   out_of_namespace_opcode_errors].

End Cl.

Module L0.

Definition mem_alloc_body (context : Handle.t) (size : Z) : list byte :=
  let body := [] in
  let body := l0.MemAllocDeviceRequest.encode (l0.MemAllocDeviceRequest.mk context size) body in
  body.

Definition mem_free_body (ptr : Handle.t) : list byte :=
  let body := [] in
  let body := l0.MemFreeRequest.encode (l0.MemFreeRequest.mk ptr) body in
  body.

Definition create_context (backend : L0Backend.t) : outcome (L0Backend.t * Handle.t) :=
  '(backend, r1) ← L0Backend.handle l0_op.CONTEXT_CREATE 1 [] backend;
  resp ← expect r1;
  r2 ← expect (l0.ContextCreateResponse.decode resp);
  Ret (backend, l0.ContextCreateResponse.context r2).

Definition alloc_one (backend : L0Backend.t) : outcome (L0Backend.t * Handle.t) :=
  '(backend, context) ← create_context backend;
  '(backend, r1) ← L0Backend.handle l0_op.MEM_ALLOC_DEVICE 2 (mem_alloc_body context 4096)
    backend;
  resp ← expect r1;
  r2 ← expect (l0.MemAllocDeviceResponse.decode resp);
  Ret (backend, l0.MemAllocDeviceResponse.ptr r2).

Definition context_create_returns_kind_fifty : test :=
  let backend := L0Backend.new in
  '(backend, r1) ← L0Backend.handle l0_op.CONTEXT_CREATE 1 [] backend;
  resp ← expect r1;
  decoded ← expect (l0.ContextCreateResponse.decode resp);
  assert_eq (Handle.kind (l0.ContextCreateResponse.context decoded)) L0Backend.KIND_L0_CONTEXT;;
  assert (is_some (HandleTable.get (l0.ContextCreateResponse.context decoded)
    (L0Backend.contexts backend)));;
  Ret tt.

Definition mem_alloc_after_context_returns_kind_fifty_one : test :=
  let backend := L0Backend.new in
  '(backend, context) ← create_context backend;
  '(backend, r1) ← L0Backend.handle l0_op.MEM_ALLOC_DEVICE 2 (mem_alloc_body context 1024)
    backend;
  resp ← expect r1;
  decoded ← expect (l0.MemAllocDeviceResponse.decode resp);
  assert_eq (Handle.kind (l0.MemAllocDeviceResponse.ptr decoded)) L0Backend.KIND_L0_DEVICE_MEM;;
  state ← expect_some (HandleTable.get (l0.MemAllocDeviceResponse.ptr decoded)
    (L0Backend.mems backend));
  assert_eq (Handle.raw (L0Backend.L0MemState.context state)) (Handle.raw context);;
  assert_eq (L0Backend.L0MemState.size state) 1024;;
  Ret tt.

Definition mem_alloc_with_bogus_context_errors : test :=
  let backend := L0Backend.new in
  let bogus := Handle.new L0Backend.KIND_L0_CONTEXT 0 999 in
  '(backend, r1) ← L0Backend.handle l0_op.MEM_ALLOC_DEVICE 1 (mem_alloc_body bogus 1024) backend;
  err ← expect_err r1;
  assert (match err with UnknownOpcode _ => true | _ => false end);;
  Ret tt.

Definition mem_free_of_live_ptr_succeeds : test :=
  let backend := L0Backend.new in
  '(backend, ptr) ← alloc_one backend;
  '(backend, r1) ← L0Backend.handle l0_op.MEM_FREE 3 (mem_free_body ptr) backend;
  resp ← expect r1;
  assert (is_empty resp);;
  assert (is_none (HandleTable.get ptr (L0Backend.mems backend)));;
  Ret tt.

Definition mem_free_of_bogus_ptr_errors : test :=
  let backend := L0Backend.new in
  let bogus := Handle.new L0Backend.KIND_L0_DEVICE_MEM 0 999 in
  '(backend, r1) ← L0Backend.handle l0_op.MEM_FREE 1 (mem_free_body bogus) backend;
  err ← expect_err r1;
  assert (match err with UnknownOpcode _ => true | _ => false end);;
  Ret tt.

Definition mem_free_of_already_freed_ptr_errors : test :=
  let backend := L0Backend.new in
  '(backend, ptr) ← alloc_one backend;
  '(backend, r1) ← L0Backend.handle l0_op.MEM_FREE 3 (mem_free_body ptr) backend;
  expect r1;;
  '(backend, r2) ← L0Backend.handle l0_op.MEM_FREE 4 (mem_free_body ptr) backend;
  err ← expect_err r2;
  assert (match err with UnknownOpcode _ => true | _ => false end);;
  Ret tt.

Definition out_of_namespace_opcode_errors : test :=
  let backend := L0Backend.new in
  '(backend, r1) ← L0Backend.handle 0 1 [] backend;
  err ← expect_err r1;
  assert (match err with UnknownOpcode 0 => true | _ => false end);;
  Ret tt.

Definition tests : list test :=
  [context_create_returns_kind_fifty; mem_alloc_after_context_returns_kind_fifty_one;
   mem_alloc_with_bogus_context_errors; mem_free_of_live_ptr_succeeds;
   mem_free_of_bogus_ptr_errors; mem_free_of_already_freed_ptr_errors;
   out_of_namespace_opcode_errors].

End L0.

Module Video.

Definition create_session_body (codec : Z) (width : Z) (height : Z) : list byte :=
  let body := [] in
  let body := video.CreateDecodeSessionRequest.encode
    (video.CreateDecodeSessionRequest.mk codec width height) body in
  body.

Definition decode_frame_body (session : Handle.t) (bitstream_len : Z) : list byte :=
  let body := [] in
  let body := video.DecodeFrameRequest.encode (video.DecodeFrameRequest.mk session bitstream_len)
    body in
  body.

Definition destroy_session_body (session : Handle.t) : list byte :=
  let body := [] in
  let body := video.DestroySessionRequest.encode (video.DestroySessionRequest.mk session) body in
  body.

Definition create_session (backend : VideoBackend.t) : outcome (VideoBackend.t * Handle.t) :=
  '(backend, r1) ← VideoBackend.handle video_op.CREATE_DECODE_SESSION 1
    (create_session_body 7 1920 1080) backend;
  resp ← expect r1;
  r2 ← expect (video.CreateDecodeSessionResponse.decode resp);
  Ret (backend, video.CreateDecodeSessionResponse.session r2).

Definition create_decode_session_returns_kind_sixty : test :=
  let backend := VideoBackend.new in
  '(backend, r1) ← VideoBackend.handle video_op.CREATE_DECODE_SESSION 1
    (create_session_body 7 640 480) backend;
  resp ← expect r1;
  decoded ← expect (video.CreateDecodeSessionResponse.decode resp);
  assert_eq (Handle.kind (video.CreateDecodeSessionResponse.session decoded))
    VideoBackend.KIND_VIDEO_SESSION;;
  assert (is_some (HandleTable.get (video.CreateDecodeSessionResponse.session decoded)
    (VideoBackend.sessions backend)));;
  Ret tt.

Definition decode_frame_returns_incrementing_indices : test :=
  let backend := VideoBackend.new in
  '(backend, session) ← create_session backend;
  '(backend, r1) ← VideoBackend.handle video_op.DECODE_FRAME 2 (decode_frame_body session 256)
    backend;
  first ← expect r1;
  r2 ← expect (video.DecodeFrameResponse.decode first);
  let first_index := video.DecodeFrameResponse.frame_index r2 in
  assert_eq first_index 0;;
  '(backend, r3) ← VideoBackend.handle video_op.DECODE_FRAME 3 (decode_frame_body session 256)
    backend;
  second ← expect r3;
  r4 ← expect (video.DecodeFrameResponse.decode second);
  let second_index := video.DecodeFrameResponse.frame_index r4 in
  assert_eq second_index 1;;
  Ret tt.

Definition decode_frame_with_bogus_session_errors : test :=
  let backend := VideoBackend.new in
  let bogus := Handle.new VideoBackend.KIND_VIDEO_SESSION 0 999 in
  '(backend, r1) ← VideoBackend.handle video_op.DECODE_FRAME 1 (decode_frame_body bogus 128)
    backend;
  err ← expect_err r1;
  assert (match err with UnknownOpcode _ => true | _ => false end);;
  Ret tt.

Definition destroy_session_of_live_session_succeeds : test :=
  let backend := VideoBackend.new in
  '(backend, session) ← create_session backend;
  '(backend, r1) ← VideoBackend.handle video_op.DESTROY_SESSION 4 (destroy_session_body session)
    backend;
  resp ← expect r1;
  assert (is_empty resp);;
  assert (is_none (HandleTable.get session (VideoBackend.sessions backend)));;
  Ret tt.

Definition destroy_session_of_bogus_session_errors : test :=
  let backend := VideoBackend.new in
  let bogus := Handle.new VideoBackend.KIND_VIDEO_SESSION 0 999 in
  '(backend, r1) ← VideoBackend.handle video_op.DESTROY_SESSION 1 (destroy_session_body bogus)
    backend;
  err ← expect_err r1;
  assert (match err with UnknownOpcode _ => true | _ => false end);;
  Ret tt.

Definition out_of_namespace_opcode_errors : test :=
  let backend := VideoBackend.new in
  '(backend, r1) ← VideoBackend.handle 0 1 [] backend;
  err ← expect_err r1;
  assert (match err with UnknownOpcode 0 => true | _ => false end);;
  Ret tt.

Definition tests : list test :=
  [create_decode_session_returns_kind_sixty; decode_frame_returns_incrementing_indices;
   decode_frame_with_bogus_session_errors; destroy_session_of_live_session_succeeds;
   destroy_session_of_bogus_session_errors; out_of_namespace_opcode_errors].

End Video.

Module Wgpu.

Definition create_buffer_body (device : Handle.t) (size : Z) (usage : Z) : list byte :=
  let body := [] in
  let body := wgpu.CreateBufferRequest.encode (wgpu.CreateBufferRequest.mk device size usage)
    body in
  body.

Definition destroy_buffer_body (buffer : Handle.t) : list byte :=
  let body := [] in
  let body := wgpu.DestroyBufferRequest.encode (wgpu.DestroyBufferRequest.mk buffer) body in
  body.

Definition request_device (backend : WebGpuBackend.t) : outcome (WebGpuBackend.t * Handle.t) :=
  '(backend, r1) ← WebGpuBackend.handle wgpu_op.REQUEST_DEVICE 1 [] backend;
  resp ← expect r1;
  r2 ← expect (wgpu.RequestDeviceResponse.decode resp);
  Ret (backend, wgpu.RequestDeviceResponse.device r2).

Definition create_one_buffer (backend : WebGpuBackend.t) : outcome (WebGpuBackend.t * Handle.t) :=
  '(backend, device) ← request_device backend;
  '(backend, r1) ← WebGpuBackend.handle wgpu_op.CREATE_BUFFER 2
    (create_buffer_body device 4096 0) backend;
  resp ← expect r1;
  r2 ← expect (wgpu.CreateBufferResponse.decode resp);
  Ret (backend, wgpu.CreateBufferResponse.buffer r2).

Definition request_device_returns_kind_seventy : test :=
  let backend := WebGpuBackend.new in
  '(backend, r1) ← WebGpuBackend.handle wgpu_op.REQUEST_DEVICE 1 [] backend;
  resp ← expect r1;
  decoded ← expect (wgpu.RequestDeviceResponse.decode resp);
  assert_eq (Handle.kind (wgpu.RequestDeviceResponse.device decoded))
    WebGpuBackend.KIND_WGPU_DEVICE;;
  assert (is_some (HandleTable.get (wgpu.RequestDeviceResponse.device decoded)
    (WebGpuBackend.devices backend)));;
  Ret tt.

Definition create_buffer_after_device_returns_kind_seventy_one : test :=
  let backend := WebGpuBackend.new in
  '(backend, device) ← request_device backend;
  '(backend, r1) ← WebGpuBackend.handle wgpu_op.CREATE_BUFFER 2
    (create_buffer_body device 1024 8) backend;
  resp ← expect r1;
  decoded ← expect (wgpu.CreateBufferResponse.decode resp);
  assert_eq (Handle.kind (wgpu.CreateBufferResponse.buffer decoded))
    WebGpuBackend.KIND_WGPU_BUFFER;;
  state ← expect_some (HandleTable.get (wgpu.CreateBufferResponse.buffer decoded)
    (WebGpuBackend.buffers backend));
  assert_eq (Handle.raw (WebGpuBackend.WgpuBufState.device state)) (Handle.raw device);;
  assert_eq (WebGpuBackend.WgpuBufState.size state) 1024;;
  assert_eq (WebGpuBackend.WgpuBufState.usage state) 8;;
  Ret tt.

Definition create_buffer_with_bogus_device_errors : test :=
  let backend := WebGpuBackend.new in
  let bogus := Handle.new WebGpuBackend.KIND_WGPU_DEVICE 0 999 in
  '(backend, r1) ← WebGpuBackend.handle wgpu_op.CREATE_BUFFER 1 (create_buffer_body bogus 1024 0)
    backend;
  err ← expect_err r1;
  assert (match err with UnknownOpcode _ => true | _ => false end);;
  Ret tt.

Definition destroy_buffer_of_live_buffer_succeeds : test :=
  let backend := WebGpuBackend.new in
  '(backend, buffer) ← create_one_buffer backend;
  '(backend, r1) ← WebGpuBackend.handle wgpu_op.DESTROY_BUFFER 3 (destroy_buffer_body buffer)
    backend;
  resp ← expect r1;
  assert (is_empty resp);;
  assert (is_none (HandleTable.get buffer (WebGpuBackend.buffers backend)));;
  Ret tt.

Definition destroy_buffer_of_bogus_buffer_errors : test :=
  let backend := WebGpuBackend.new in
  let bogus := Handle.new WebGpuBackend.KIND_WGPU_BUFFER 0 999 in
  '(backend, r1) ← WebGpuBackend.handle wgpu_op.DESTROY_BUFFER 1 (destroy_buffer_body bogus)
    backend;
  err ← expect_err r1;
  assert (match err with UnknownOpcode _ => true | _ => false end);;
  Ret tt.

Definition destroy_buffer_of_already_destroyed_buffer_errors : test :=
  let backend := WebGpuBackend.new in
  '(backend, buffer) ← create_one_buffer backend;
  '(backend, r1) ← WebGpuBackend.handle wgpu_op.DESTROY_BUFFER 3 (destroy_buffer_body buffer)
    backend;
  expect r1;;
  '(backend, r2) ← WebGpuBackend.handle wgpu_op.DESTROY_BUFFER 4 (destroy_buffer_body buffer)
    backend;
  err ← expect_err r2;
  assert (match err with UnknownOpcode _ => true | _ => false end);;
  Ret tt.

Definition out_of_namespace_opcode_errors : test :=
  let backend := WebGpuBackend.new in
  '(backend, r1) ← WebGpuBackend.handle 0 1 [] backend;
  err ← expect_err r1;
  assert (match err with UnknownOpcode 0 => true | _ => false end);;
  Ret tt.

Definition tests : list test :=
  [request_device_returns_kind_seventy; create_buffer_after_device_returns_kind_seventy_one;
   create_buffer_with_bogus_device_errors; destroy_buffer_of_live_buffer_succeeds;
   destroy_buffer_of_bogus_buffer_errors; destroy_buffer_of_already_destroyed_buffer_errors;
   out_of_namespace_opcode_errors].

End Wgpu.

Module Optix.

Definition pipeline_body (context : Handle.t) : list byte :=
  let body := [] in
  let body := optix.PipelineCreateRequest.encode (optix.PipelineCreateRequest.mk context) body in
  body.

Definition destroy_body (handle : Handle.t) : list byte :=
  let body := [] in
  let body := optix.DestroyRequest.encode (optix.DestroyRequest.mk handle) body in
  body.

Definition create_context (backend : OptixBackend.t) : outcome (OptixBackend.t * Handle.t) :=
  '(backend, r1) ← OptixBackend.handle optix_op.CONTEXT_CREATE 1 [] backend;
  resp ← expect r1;
  r2 ← expect (optix.ContextCreateResponse.decode resp);
  Ret (backend, optix.ContextCreateResponse.context r2).

Definition create_pipeline (backend : OptixBackend.t) : outcome (OptixBackend.t * Handle.t) :=
  '(backend, context) ← create_context backend;
  '(backend, r1) ← OptixBackend.handle optix_op.PIPELINE_CREATE 2 (pipeline_body context) backend;
  resp ← expect r1;
  r2 ← expect (optix.PipelineCreateResponse.decode resp);
  Ret (backend, optix.PipelineCreateResponse.pipeline r2).

Definition context_create_returns_kind_eighty : test :=
  let backend := OptixBackend.new in
  '(backend, r1) ← OptixBackend.handle optix_op.CONTEXT_CREATE 1 [] backend;
  resp ← expect r1;
  decoded ← expect (optix.ContextCreateResponse.decode resp);
  assert_eq (Handle.kind (optix.ContextCreateResponse.context decoded))
    OptixBackend.KIND_OPTIX_CONTEXT;;
  assert (is_some (HandleTable.get (optix.ContextCreateResponse.context decoded)
    (OptixBackend.contexts backend)));;
  Ret tt.

Definition pipeline_create_after_context_returns_kind_eighty_one : test :=
  let backend := OptixBackend.new in
  '(backend, context) ← create_context backend;
  '(backend, r1) ← OptixBackend.handle optix_op.PIPELINE_CREATE 2 (pipeline_body context) backend;
  resp ← expect r1;
  decoded ← expect (optix.PipelineCreateResponse.decode resp);
  assert_eq (Handle.kind (optix.PipelineCreateResponse.pipeline decoded))
    OptixBackend.KIND_OPTIX_PIPELINE;;
  state ← expect_some (HandleTable.get (optix.PipelineCreateResponse.pipeline decoded)
    (OptixBackend.pipelines backend));
  assert_eq (Handle.raw (OptixBackend.OptixPipelineState.context state)) (Handle.raw context);;
  Ret tt.

Definition pipeline_create_with_bogus_context_errors : test :=
  let backend := OptixBackend.new in
  let bogus := Handle.new OptixBackend.KIND_OPTIX_CONTEXT 0 999 in
  '(backend, r1) ← OptixBackend.handle optix_op.PIPELINE_CREATE 1 (pipeline_body bogus) backend;
  err ← expect_err r1;
  assert (match err with UnknownOpcode _ => true | _ => false end);;
  Ret tt.

Definition destroy_of_live_context_succeeds : test :=
  let backend := OptixBackend.new in
  '(backend, context) ← create_context backend;
  '(backend, r1) ← OptixBackend.handle optix_op.DESTROY 2 (destroy_body context) backend;
  resp ← expect r1;
  assert (is_empty resp);;
  assert (is_none (HandleTable.get context (OptixBackend.contexts backend)));;
  Ret tt.

Definition destroy_of_live_pipeline_succeeds : test :=
  let backend := OptixBackend.new in
  '(backend, pipeline) ← create_pipeline backend;
  '(backend, r1) ← OptixBackend.handle optix_op.DESTROY 3 (destroy_body pipeline) backend;
  resp ← expect r1;
  assert (is_empty resp);;
  assert (is_none (HandleTable.get pipeline (OptixBackend.pipelines backend)));;
  Ret tt.

Definition destroy_of_bogus_handle_errors : test :=
  let backend := OptixBackend.new in
  let bogus := Handle.new OptixBackend.KIND_OPTIX_CONTEXT 0 999 in
  '(backend, r1) ← OptixBackend.handle optix_op.DESTROY 1 (destroy_body bogus) backend;
  err ← expect_err r1;
  assert (match err with UnknownOpcode _ => true | _ => false end);;
  Ret tt.

Definition destroy_of_already_destroyed_handle_errors : test :=
  let backend := OptixBackend.new in
  '(backend, context) ← create_context backend;
  '(backend, r1) ← OptixBackend.handle optix_op.DESTROY 2 (destroy_body context) backend;
  expect r1;;
  '(backend, r2) ← OptixBackend.handle optix_op.DESTROY 3 (destroy_body context) backend;
  err ← expect_err r2;
  assert (match err with UnknownOpcode _ => true | _ => false end);;
  Ret tt.

Definition out_of_namespace_opcode_errors : test :=
  let backend := OptixBackend.new in
  '(backend, r1) ← OptixBackend.handle 0 1 [] backend;
  err ← expect_err r1;
  assert (match err with UnknownOpcode 0 => true | _ => false end);;
  Ret tt.

Definition tests : list test :=
  [context_create_returns_kind_eighty; pipeline_create_after_context_returns_kind_eighty_one;
   pipeline_create_with_bogus_context_errors; destroy_of_live_context_succeeds;
   destroy_of_live_pipeline_succeeds; destroy_of_bogus_handle_errors;
   destroy_of_already_destroyed_handle_errors; out_of_namespace_opcode_errors].

End Optix.

Module Sycl.

Definition malloc_body (queue : Handle.t) (size : Z) : list byte :=
  let body := [] in
  let body := sycl.MallocDeviceRequest.encode (sycl.MallocDeviceRequest.mk queue size) body in
  body.

Definition free_body (ptr : Handle.t) : list byte :=
  let body := [] in
  let body := sycl.FreeRequest.encode (sycl.FreeRequest.mk ptr) body in
  body.

Definition create_queue (backend : SyclBackend.t) : outcome (SyclBackend.t * Handle.t) :=
  '(backend, r1) ← SyclBackend.handle sycl_op.QUEUE_CREATE 1 [] backend;
  resp ← expect r1;
  r2 ← expect (sycl.QueueCreateResponse.decode resp);
  Ret (backend, sycl.QueueCreateResponse.queue r2).

Definition alloc_one (backend : SyclBackend.t) : outcome (SyclBackend.t * Handle.t) :=
  '(backend, queue) ← create_queue backend;
  '(backend, r1) ← SyclBackend.handle sycl_op.MALLOC_DEVICE 2 (malloc_body queue 4096) backend;
  resp ← expect r1;
  r2 ← expect (sycl.MallocDeviceResponse.decode resp);
  Ret (backend, sycl.MallocDeviceResponse.ptr r2).

Definition queue_create_returns_kind_ninety : test :=
  let backend := SyclBackend.new in
  '(backend, r1) ← SyclBackend.handle sycl_op.QUEUE_CREATE 1 [] backend;
  resp ← expect r1;
  decoded ← expect (sycl.QueueCreateResponse.decode resp);
  assert_eq (Handle.kind (sycl.QueueCreateResponse.queue decoded)) SyclBackend.KIND_SYCL_QUEUE;;
  assert (is_some (HandleTable.get (sycl.QueueCreateResponse.queue decoded)
    (SyclBackend.queues backend)));;
  Ret tt.

Definition malloc_after_queue_returns_kind_ninety_one : test :=
  let backend := SyclBackend.new in
  '(backend, queue) ← create_queue backend;
  '(backend, r1) ← SyclBackend.handle sycl_op.MALLOC_DEVICE 2 (malloc_body queue 1024) backend;
  resp ← expect r1;
  decoded ← expect (sycl.MallocDeviceResponse.decode resp);
  assert_eq (Handle.kind (sycl.MallocDeviceResponse.ptr decoded))
    SyclBackend.KIND_SYCL_DEVICE_PTR;;
  state ← expect_some (HandleTable.get (sycl.MallocDeviceResponse.ptr decoded)
    (SyclBackend.ptrs backend));
  assert_eq (Handle.raw (SyclBackend.SyclPtrState.queue state)) (Handle.raw queue);;
  assert_eq (SyclBackend.SyclPtrState.size state) 1024;;
  Ret tt.

Definition malloc_with_bogus_queue_errors : test :=
  let backend := SyclBackend.new in
  let bogus := Handle.new SyclBackend.KIND_SYCL_QUEUE 0 999 in
  '(backend, r1) ← SyclBackend.handle sycl_op.MALLOC_DEVICE 1 (malloc_body bogus 1024) backend;
  err ← expect_err r1;
  assert (match err with UnknownOpcode _ => true | _ => false end);;
  Ret tt.

Definition free_of_live_ptr_succeeds : test :=
  let backend := SyclBackend.new in
  '(backend, ptr) ← alloc_one backend;
  '(backend, r1) ← SyclBackend.handle sycl_op.FREE 3 (free_body ptr) backend;
  resp ← expect r1;
  assert (is_empty resp);;
  assert (is_none (HandleTable.get ptr (SyclBackend.ptrs backend)));;
  Ret tt.

Definition free_of_bogus_ptr_errors : test :=
  let backend := SyclBackend.new in
  let bogus := Handle.new SyclBackend.KIND_SYCL_DEVICE_PTR 0 999 in
  '(backend, r1) ← SyclBackend.handle sycl_op.FREE 1 (free_body bogus) backend;
  err ← expect_err r1;
  assert (match err with UnknownOpcode _ => true | _ => false end);;
  Ret tt.

Definition free_of_already_freed_ptr_errors : test :=
  let backend := SyclBackend.new in
  '(backend, ptr) ← alloc_one backend;
  '(backend, r1) ← SyclBackend.handle sycl_op.FREE 3 (free_body ptr) backend;
  expect r1;;
  '(backend, r2) ← SyclBackend.handle sycl_op.FREE 4 (free_body ptr) backend;
  err ← expect_err r2;
  assert (match err with UnknownOpcode _ => true | _ => false end);;
  Ret tt.

Definition out_of_namespace_opcode_errors : test :=
  let backend := SyclBackend.new in
  '(backend, r1) ← SyclBackend.handle 0 1 [] backend;
  err ← expect_err r1;
  assert (match err with UnknownOpcode 0 => true | _ => false end);;
  Ret tt.

Definition tests : list test :=
  [queue_create_returns_kind_ninety; malloc_after_queue_returns_kind_ninety_one;
   malloc_with_bogus_queue_errors; free_of_live_ptr_succeeds; free_of_bogus_ptr_errors;
   free_of_already_freed_ptr_errors; out_of_namespace_opcode_errors].

End Sycl.

Module Amf.

Definition create_encoder_body (codec : Z) (width : Z) (height : Z) : list byte :=
  let body := [] in
  let body := amf.CreateEncoderRequest.encode (amf.CreateEncoderRequest.mk codec width height)
    body in
  body.

Definition encode_frame_body (encoder : Handle.t) (frame_len : Z) : list byte :=
  let body := [] in
  let body := amf.EncodeFrameRequest.encode (amf.EncodeFrameRequest.mk encoder frame_len) body in
  body.

Definition destroy_encoder_body (encoder : Handle.t) : list byte :=
  let body := [] in
  let body := amf.DestroyEncoderRequest.encode (amf.DestroyEncoderRequest.mk encoder) body in
  body.

Definition create_encoder (backend : AmfBackend.t) : outcome (AmfBackend.t * Handle.t) :=
  '(backend, r1) ← AmfBackend.handle amf_op.CREATE_ENCODER 1 (create_encoder_body 1 1920 1080)
    backend;
  resp ← expect r1;
  r2 ← expect (amf.CreateEncoderResponse.decode resp);
  Ret (backend, amf.CreateEncoderResponse.encoder r2).

Definition create_encoder_returns_kind_one_hundred : test :=
  let backend := AmfBackend.new in
  '(backend, r1) ← AmfBackend.handle amf_op.CREATE_ENCODER 1 (create_encoder_body 2 1280 720)
    backend;
  resp ← expect r1;
  decoded ← expect (amf.CreateEncoderResponse.decode resp);
  assert_eq (Handle.kind (amf.CreateEncoderResponse.encoder decoded))
    AmfBackend.KIND_AMF_ENCODER;;
  state ← expect_some (HandleTable.get (amf.CreateEncoderResponse.encoder decoded)
    (AmfBackend.encoders backend));
  assert_eq (AmfBackend.AmfEncoderState.codec state) 2;;
  assert_eq (AmfBackend.AmfEncoderState.width state) 1280;;
  assert_eq (AmfBackend.AmfEncoderState.height state) 720;;
  assert_eq (AmfBackend.AmfEncoderState.frames state) 0;;
  Ret tt.

Definition encode_frame_echoes_frame_len_and_bumps_counter : test :=
  let backend := AmfBackend.new in
  '(backend, encoder) ← create_encoder backend;
  '(backend, r1) ← AmfBackend.handle amf_op.ENCODE_FRAME 2 (encode_frame_body encoder 4096)
    backend;
  resp ← expect r1;
  decoded ← expect (amf.EncodeFrameResponse.decode resp);
  assert_eq (amf.EncodeFrameResponse.packet_len decoded) 4096;;
  '(backend, r2) ← AmfBackend.handle amf_op.ENCODE_FRAME 3 (encode_frame_body encoder 8192)
    backend;
  resp ← expect r2;
  decoded ← expect (amf.EncodeFrameResponse.decode resp);
  assert_eq (amf.EncodeFrameResponse.packet_len decoded) 8192;;
  state ← expect_some (HandleTable.get encoder (AmfBackend.encoders backend));
  assert_eq (AmfBackend.AmfEncoderState.frames state) 2;;
  Ret tt.

Definition encode_frame_with_bogus_encoder_errors : test :=
  let backend := AmfBackend.new in
  let bogus := Handle.new AmfBackend.KIND_AMF_ENCODER 0 999 in
  '(backend, r1) ← AmfBackend.handle amf_op.ENCODE_FRAME 1 (encode_frame_body bogus 4096) backend;
  err ← expect_err r1;
  assert (match err with UnknownOpcode _ => true | _ => false end);;
  Ret tt.

Definition destroy_of_live_encoder_succeeds : test :=
  let backend := AmfBackend.new in
  '(backend, encoder) ← create_encoder backend;
  '(backend, r1) ← AmfBackend.handle amf_op.DESTROY_ENCODER 2 (destroy_encoder_body encoder)
    backend;
  resp ← expect r1;
  assert (is_empty resp);;
  assert (is_none (HandleTable.get encoder (AmfBackend.encoders backend)));;
  Ret tt.

Definition destroy_of_bogus_encoder_errors : test :=
  let backend := AmfBackend.new in
  let bogus := Handle.new AmfBackend.KIND_AMF_ENCODER 0 999 in
  '(backend, r1) ← AmfBackend.handle amf_op.DESTROY_ENCODER 1 (destroy_encoder_body bogus)
    backend;
  err ← expect_err r1;
  assert (match err with UnknownOpcode _ => true | _ => false end);;
  Ret tt.

Definition destroy_of_already_destroyed_encoder_errors : test :=
  let backend := AmfBackend.new in
  '(backend, encoder) ← create_encoder backend;
  '(backend, r1) ← AmfBackend.handle amf_op.DESTROY_ENCODER 2 (destroy_encoder_body encoder)
    backend;
  expect r1;;
  '(backend, r2) ← AmfBackend.handle amf_op.DESTROY_ENCODER 3 (destroy_encoder_body encoder)
    backend;
  err ← expect_err r2;
  assert (match err with UnknownOpcode _ => true | _ => false end);;
  Ret tt.

Definition out_of_namespace_opcode_errors : test :=
  let backend := AmfBackend.new in
  '(backend, r1) ← AmfBackend.handle 0 1 [] backend;
  err ← expect_err r1;
  assert (match err with UnknownOpcode 0 => true | _ => false end);;
  Ret tt.

Definition tests : list test :=
  [create_encoder_returns_kind_one_hundred; encode_frame_echoes_frame_len_and_bumps_counter;
   encode_frame_with_bogus_encoder_errors; destroy_of_live_encoder_succeeds;
   destroy_of_bogus_encoder_errors; destroy_of_already_destroyed_encoder_errors;
   out_of_namespace_opcode_errors].

End Amf.

Definition backend_tests : list test :=
  Vulkan.tests ++ Gl.tests ++ Cuda.tests ++ Hip.tests ++ Cl.tests ++ L0.tests ++
  Video.tests ++ Wgpu.tests ++ Optix.tests ++ Sycl.tests ++ Amf.tests.

Lemma backend_tests_pass : all_pass backend_tests.
Proof. apply suite_passes. vm_compute. reflexivity. Qed.
