(* ===== verification/ServiceTests.v ===== *)
(** The unit tests of the session and serve loops (crates/graftx-server src/session.rs
    and src/serve.rs, [mod tests]) and of the client's front door
    (crates/graftx-client src/client.rs), one Module per file.

    The tests that talk to another thread over a loopback do so through [Peer]: the
    thread's answers to the frames it was sent so far. *)
From S2P Require Import Testing Wire VkBodies Handles Effects Backend VulkanBackend.
From S2P Require Import Session Transport Trace Obs Serve ClientSession ClientShims ClientCall.
From S2P Require Import TransportTests.

Local Open Scope Z_scope.

Definition is_UnknownOpcode {A} (r : presult A) : bool :=
  match r with Err (UnknownOpcode _) => true | _ => false end.
Definition is_BodyLenMismatch {A} (r : presult A) : bool :=
  match r with Err (BodyLenMismatch _ _) => true | _ => false end.

Module session.

Definition hello_frame : list byte :=
  let hello := Hello.mk PROTOCOL_MAJOR PROTOCOL_MINOR 0 DEFAULT_MAX_FRAME_BODY in
  let body := [] in
  let body := Hello.encode hello body in
  let header := FrameHeader.mk PROTOCOL_MAJOR 0 FrameKind.Request core_op.HELLO 1 1
    (wrap 32 (len body)) in
  encode_frame header body.

Definition hello_yields_welcome : test :=
  let s := Session.new 0x1234 in
  '(s, r) ← Session.handle hello_frame s;
  reply ← expect r;
  '(h, b) ← expect (decode_frame reply);
  assert_eq (FrameHeader.opcode h) core_op.WELCOME;;
  assert_eq (FrameHeader.kind h) FrameKind.Response;;
  w ← expect (Welcome.decode b);
  assert_eq (Welcome.session_id w) 0x1234;;
  assert (Session.is_handshook s).

Definition request_frame_body (opcode : Z) (body : list byte) : list byte :=
  let header := FrameHeader.mk PROTOCOL_MAJOR 0 FrameKind.Request opcode 7 1
    (wrap 32 (len body)) in
  encode_frame header body.

Definition request_frame (opcode : Z) : list byte := request_frame_body opcode [].

Definition registered_backend_creates_instance_then_one_device : test :=
  let s := Session.new 1 in
  let s := Session.register (box VulkanBackend.new) s in
  let create_body := vk.CreateInstanceRequest.encode (vk.CreateInstanceRequest.mk 0) [] in
  let create_frame := request_frame_body vk_op.CREATE_INSTANCE create_body in
  '(s, r) ← Session.handle create_frame s;
  create_reply ← expect r;
  '(ch, cb) ← expect (decode_frame create_reply);
  assert_eq (FrameHeader.opcode ch) vk_op.CREATE_INSTANCE;;
  assert_eq (FrameHeader.kind ch) FrameKind.Response;;
  resp ← expect (vk.CreateInstanceResponse.decode cb);
  let instance := vk.CreateInstanceResponse.instance resp in
  let enum_body := vk.EnumeratePhysicalDevicesRequest.encode
    (vk.EnumeratePhysicalDevicesRequest.mk instance) [] in
  let enum_frame := request_frame_body vk_op.ENUMERATE_PHYSICAL_DEVICES enum_body in
  '(s, r) ← Session.handle enum_frame s;
  reply ← expect r;
  '(h, b) ← expect (decode_frame reply);
  assert_eq (FrameHeader.opcode h) vk_op.ENUMERATE_PHYSICAL_DEVICES;;
  assert_eq (FrameHeader.kind h) FrameKind.Response;;
  assert_eq (FrameHeader.req_id h) 7;;
  resp ← expect (vk.EnumeratePhysicalDevicesResponse.decode b);
  let devices := vk.EnumeratePhysicalDevicesResponse.devices resp in
  assert_eq (len devices) 1.

Definition unregistered_api_opcode_is_unknown : test :=
  let s := Session.new 1 in
  let frame := request_frame vk_op.ENUMERATE_PHYSICAL_DEVICES in
  '(s, r) ← Session.handle frame s;
  assert (is_UnknownOpcode r).

Definition unknown_opcode_is_rejected : test :=
  let s := Session.new 1 in
  let header := FrameHeader.mk PROTOCOL_MAJOR 0 FrameKind.Request
    (opcode Vulkan 0xFFFF) 1 1 0 in
  let frame := encode_frame header [] in
  '(s, r) ← Session.handle frame s;
  assert (is_UnknownOpcode r).

Definition body_len_mismatch_is_rejected : test :=
  let header := FrameHeader.mk PROTOCOL_MAJOR 0 FrameKind.Request core_op.NOOP 1 1 8 in
  let frame := encode_frame header [] in
  let s := Session.new 1 in
  '(s, r) ← Session.handle frame s;
  assert (is_BodyLenMismatch r).

Definition tests : list test :=
  [hello_yields_welcome; registered_backend_creates_instance_then_one_device;
   unregistered_api_opcode_is_unknown; unknown_opcode_is_rejected;
   body_len_mismatch_is_rejected].
End session.

Module serve.

Definition api_name_maps_known_namespaces_and_falls_back : test :=
  assert_eq (api_name 0x00) "core"%string;;
  assert_eq (api_name 0x01) "vulkan"%string;;
  assert_eq (api_name 0x0B) "amf"%string;;
  for_each (seqZ 0x00 0x0C) (fun api => assert_ne (api_name api) "unknown"%string);;
  assert_eq (api_name 0x0C) "unknown"%string;;
  assert_eq (api_name 0xFF) "unknown"%string.

(** The session of the server thread. *)
Definition served : Session.t := Session.register (box VulkanBackend.new) (Session.new 0x51).

(** The server thread on the frames its client sent before it went away. *)
Definition metrics_thread (frames : list (list byte))
  : outcome (VecTransport.t * Session.t * ObsRegistry.t * io_result unit) :=
  match serve_with_metrics (S (length frames)) (VecTransport.mk [] frames) served ObsRegistry.new with
  | Some r => r
  | None => Panic
  end.

Definition serve_thread (frames : list (list byte))
  : outcome (VecTransport.t * Session.t * io_result unit) :=
  match serve (S (length frames)) (VecTransport.mk [] frames) served with
  | Some r => r
  | None => Panic
  end.

Definition metrics_answers (frames : list (list byte)) : list (list byte) :=
  match metrics_thread frames with
  | Ret (transport, _, _, _) => VecTransport.outbox transport
  | Panic => []
  end.

Definition serve_answers (frames : list (list byte)) : list (list byte) :=
  match serve_thread frames with
  | Ret (transport, _, _) => VecTransport.outbox transport
  | Panic => []
  end.

Definition entry_of (snapshot : gmap string CallStats.t) (api : string) : outcome CallStats.t :=
  expect_some (snapshot !! api).

Definition serve_with_metrics_records_per_api_call_counts : test :=
  let client_side := Peer.start metrics_answers in
  let '(client_side, r) := handshake client_side in
  welcome ← expect r;
  assert_eq (Welcome.session_id welcome) 0x51;;
  let '(client_side, r) := noop 2 2 client_side in
  expect r;;
  let '(client_side, r) := noop 3 3 client_side in
  expect r;;
  let '(client_side, r) := VkShim.create_instance 0 4 4 client_side in
  instance ← expect r;
  let '(client_side, r) := VkShim.enumerate_physical_devices instance 5 5 client_side in
  devices ← expect r;
  assert_eq (len devices) 1;;
  '(_, _, registry, result) ← metrics_thread (Peer.sent client_side);
  assert (is_ok result);;
  let snapshot := ObsRegistry.snapshot registry in
  core ← entry_of snapshot "core";
  assert_eq (CallStats.calls core) 3;;
  vulkan ← entry_of snapshot "vulkan";
  assert_eq (CallStats.calls vulkan) 2;;
  assert_eq (size snapshot) 2%nat;;
  assert (0 <? CallStats.bytes_out core);;
  assert (0 <? CallStats.bytes_in core);;
  assert (0 <? CallStats.bytes_out vulkan);;
  assert (0 <? CallStats.bytes_in vulkan).

Definition serve_handles_frames_then_returns_on_peer_drop : test :=
  let client_side := Peer.start serve_answers in
  let '(client_side, r) := handshake client_side in
  welcome ← expect r;
  assert_eq (Welcome.session_id welcome) 0x51;;
  let '(client_side, r) := noop 2 2 client_side in
  expect r;;
  '(_, _, result) ← serve_thread (Peer.sent client_side);
  assert (is_ok result).

Definition tests : list test :=
  [api_name_maps_known_namespaces_and_falls_back;
   serve_with_metrics_records_per_api_call_counts;
   serve_handles_frames_then_returns_on_peer_drop].
End serve.

Module client.

Definition KIND_INSTANCE : Z := 1.
Definition KIND_PHYSICAL_DEVICE : Z := 2.

Definition response_frame (req : FrameHeader.t) (body : list byte) : list byte :=
  let header := FrameHeader.mk PROTOCOL_MAJOR 0 FrameKind.Response (FrameHeader.opcode req)
    (FrameHeader.req_id req) (FrameHeader.seq req) (wrap 32 (len body)) in
  encode_frame header body.

(** A responder thread as what it does with each frame it receives: its replies, up to
    the frame that makes it panic. *)
Fixpoint respond (steps : list (list byte -> outcome (list byte))) (frames : list (list byte))
  : list (list byte) :=
  match steps, frames with
  | step :: steps, frame :: frames =>
    match step frame with Ret reply => reply :: respond steps frames | Panic => [] end
  | _, _ => []
  end.

Section responder.
Variables (session_id : Z) (instance device : Handle.t).

Definition answer_hello (frame : list byte) : outcome (list byte) :=
  '(h, _) ← expect (decode_frame frame);
  assert_eq (FrameHeader.opcode h) core_op.HELLO;;
  assert_eq (FrameHeader.kind h) FrameKind.Request;;
  assert_eq (FrameHeader.req_id h) 1;;
  assert_eq (FrameHeader.seq h) 1;;
  let body := Welcome.encode
    (Welcome.mk PROTOCOL_MAJOR PROTOCOL_MINOR 0 DEFAULT_MAX_FRAME_BODY session_id) [] in
  let welcome := FrameHeader.mk PROTOCOL_MAJOR 0 FrameKind.Response core_op.WELCOME
    (FrameHeader.req_id h) (FrameHeader.seq h) (wrap 32 (len body)) in
  Ret (encode_frame welcome body).

Definition answer_noop (frame : list byte) : outcome (list byte) :=
  '(h, _) ← expect (decode_frame frame);
  assert_eq (FrameHeader.opcode h) core_op.NOOP;;
  assert_eq (FrameHeader.req_id h) 2;;
  assert_eq (FrameHeader.seq h) 2;;
  Ret (response_frame h []).

Definition answer_create_instance (frame : list byte) : outcome (list byte) :=
  '(h, b) ← expect (decode_frame frame);
  assert_eq (FrameHeader.opcode h) vk_op.CREATE_INSTANCE;;
  assert_eq (FrameHeader.req_id h) 3;;
  assert_eq (FrameHeader.seq h) 3;;
  req ← expect (vk.CreateInstanceRequest.decode b);
  assert_eq (vk.CreateInstanceRequest.app_api_version req) 0x00403000;;
  let body := vk.CreateInstanceResponse.encode (vk.CreateInstanceResponse.mk instance) [] in
  Ret (response_frame h body).

Definition answer_enumerate (frame : list byte) : outcome (list byte) :=
  '(h, b) ← expect (decode_frame frame);
  assert_eq (FrameHeader.opcode h) vk_op.ENUMERATE_PHYSICAL_DEVICES;;
  assert_eq (FrameHeader.req_id h) 4;;
  assert_eq (FrameHeader.seq h) 4;;
  req ← expect (vk.EnumeratePhysicalDevicesRequest.decode b);
  assert_eq (vk.EnumeratePhysicalDevicesRequest.instance req) instance;;
  let body := vk.EnumeratePhysicalDevicesResponse.encode
    (vk.EnumeratePhysicalDevicesResponse.mk [device]) [] in
  Ret (response_frame h body).

Definition responder : list (list byte -> outcome (list byte)) :=
  [answer_hello; answer_noop; answer_create_instance; answer_enumerate].
End responder.

Definition client_drives_handshake_noop_and_vk_calls : test :=
  let session_id := 0xABCD123456789ABC in
  let instance := Handle.new KIND_INSTANCE 1 7 in
  let device := Handle.new KIND_PHYSICAL_DEVICE 1 11 in
  let responder := respond (responder session_id instance device) in
  client ← expect (Client.connect (Peer.start responder));
  assert_eq (Client.session_id client) session_id;;
  let '(client, r) := Client.noop client in
  expect r;;
  let '(client, r) := Client.vk_create_instance 0x00403000 client in
  got_instance ← expect r;
  assert_eq got_instance instance;;
  let '(client, r) := Client.vk_enumerate_physical_devices got_instance client in
  got_devices ← expect r;
  assert_eq got_devices [device];;
  assert_eq (len (responder (Peer.sent (Client.transport client)))) 4.

Definition tests : list test :=
  [client_drives_handshake_noop_and_vk_calls].
End client.

Definition service_tests : list test := session.tests ++ serve.tests ++ client.tests.

Lemma service_tests_pass : all_pass service_tests.
Proof. apply suite_passes. vm_compute. reflexivity. Qed.
