(* ===== verification/ObsTests.v ===== *)
(** The unit tests of crates/graftx-obs ([mod tests] of src/lib.rs, src/hist.rs,
    src/registry.rs, src/guard.rs and src/timer.rs), one Module per file.

    The tests that start threads hold under every schedule. *)
From stdpp Require Import gmap strings pretty.
From Stdlib Require Import Ascii.
From S2P Require Import Testing Locking Text Obs ObsProps ObsShared ObsScope.

Local Open Scope Z_scope.

#[export] Instance CallStats_eq_dec : EqDecision CallStats.t.
Proof. solve_decision. Defined.
#[export] Instance LatencyHist_eq_dec : EqDecision LatencyHist.t.
Proof. solve_decision. Defined.

(** [str::contains] and [str::find] on strings. *)
Definition has (s pat : string) : bool := contains (lit s) (lit pat).
Definition find_in (s pat : string) : option nat := find (lit s) (lit pat).

(** Literals with an apostrophe for the double quote and a tilde for the end of a line. *)
Fixpoint text_of (s : string) : string :=
  match s with
  | EmptyString => EmptyString
  | String c s =>
    String (if decide (c = "'"%char) then ascii_of_nat 34
            else if decide (c = "~"%char) then ascii_of_nat 10 else c) (text_of s)
  end.

#[local] Existing Instance SharedRegistry.which_eq_dec.
#[local] Existing Instance SharedRegistry.lock_acquires.
#[local] Existing Instance SharedRegistry.methods_laws.

Definition u64_MAX : Z := max_of 64.

(** [Duration::from_micros], [Duration::from_secs]. *)
Definition from_micros (n : Z) : Duration.t := Duration.mk (n / 1000000) (n mod 1000000 * 1000).
Definition from_secs (n : Z) : Duration.t := Duration.mk n 0.

Definition zeros (n : Z) : list byte := bytes_of n 0.

(** The maps yield their entries in the order of [map_to_list] here; the methods that
    iterate are proved not to depend on it. *)
Definition snapshot_sorted (r : ObsRegistry.t) : list (string * CallStats.t) :=
  ObsRegistry.snapshot_sorted (map_to_list (ObsRegistry.inner r)).
Definition total (r : ObsRegistry.t) : CallStats.t :=
  ObsRegistry.total (map_to_list (ObsRegistry.inner r)).
Definition report (r : ObsRegistry.t) : string :=
  ObsRegistry.report (map_to_list (ObsRegistry.inner r)).
Definition to_json (r : ObsRegistry.t) : string :=
  ObsRegistry.to_json (map_to_list (ObsRegistry.inner r)).
Definition latency_report (r : ObsRegistry.t) : string :=
  ObsRegistry.latency_report (map_to_list (ObsRegistry.latency r)).

(** [snapshot[api]] panics when there is no such entry. *)
Definition entry_of (snapshot : gmap string CallStats.t) (api : string) : outcome CallStats.t :=
  expect_some (snapshot !! api).

Definition map_len {A} (m : gmap string A) : Z := Z.of_nat (size m).
Definition map_is_empty {A} (m : gmap string A) : bool := bool_decide (size m = 0%nat).

Module stats.

Definition record_accumulates_calls_and_bytes : test :=
  let stats := CallStats.default in
  let stats := CallStats.record 10 20 stats in
  let stats := CallStats.record 5 7 stats in
  assert_eq stats (CallStats.mk 2 15 27).

Definition record_saturates_on_overflow : test :=
  let stats := CallStats.mk u64_MAX u64_MAX (u64_MAX - 1) in
  let stats := CallStats.record 1 5 stats in
  assert_eq stats (CallStats.mk u64_MAX u64_MAX u64_MAX).

Definition merge_sums_fields : test :=
  let total := CallStats.mk 3 100 200 in
  let other := CallStats.mk 4 50 60 in
  let total := CallStats.merge other total in
  assert_eq total (CallStats.mk 7 150 260).

Definition merge_saturates_on_overflow : test :=
  let total := CallStats.mk u64_MAX (u64_MAX - 2) 1 in
  let other := CallStats.mk 1 10 u64_MAX in
  let total := CallStats.merge other total in
  assert_eq total (CallStats.mk u64_MAX u64_MAX u64_MAX).

Definition tests : list test :=
  [record_accumulates_calls_and_bytes; record_saturates_on_overflow; merge_sums_fields;
   merge_saturates_on_overflow].
End stats.

Module hist.
Import LatencyHist.

Definition new_and_default_start_empty : test :=
  let from_new := LatencyHist.new in
  let from_default := LatencyHist.default in
  assert_eq from_new from_default;;
  assert_eq (count from_new) 0;;
  assert_eq (bucket_counts from_new) (replicate BUCKETS 0).

Definition record_places_durations_in_expected_buckets : test :=
  let hist := LatencyHist.new in
  hist ← record (from_micros 0) hist;
  hist ← record (from_micros 1) hist;
  hist ← record (from_micros 3) hist;
  hist ← record (from_micros 1000) hist;
  let counts := bucket_counts hist in
  assert_eq (counts !! 0%nat) (Some 1);;
  assert_eq (counts !! 1%nat) (Some 1);;
  assert_eq (counts !! 2%nat) (Some 1);;
  assert_eq (counts !! 10%nat) (Some 1);;
  assert_eq (count hist) 4.

Definition at_or_above_largest_bound_lands_in_overflow_bucket : test :=
  let hist := LatencyHist.new in
  hist ← record (from_micros 1024) hist;
  hist ← record (from_secs 1) hist;
  let counts := bucket_counts hist in
  assert_eq (counts !! (BUCKETS - 1)%nat) (Some 2);;
  assert_eq (count hist) 2.

Definition boundary_is_upper_bound_exclusive : test :=
  let hist := LatencyHist.new in
  hist ← record (from_micros 2) hist;
  let counts := bucket_counts hist in
  assert_eq (counts !! 1%nat) (Some 0);;
  assert_eq (counts !! 2%nat) (Some 1).

Definition record_saturates_on_overflow : test :=
  let hist := LatencyHist.new in
  let hist := LatencyHist.mk (<[0%nat := u64_MAX]> (counts hist)) in
  hist ← record (from_micros 0) hist;
  assert_eq (bucket_counts hist !! 0%nat) (Some u64_MAX).

Definition report_lists_non_empty_buckets_with_known_rows : test :=
  let hist := LatencyHist.new in
  hist ← record (from_micros 3) hist;
  hist ← record (from_micros 3) hist;
  hist ← record (from_secs 1) hist;
  let report := hist_report hist in
  assert (starts_with (lit report) (lit (text_of "| bucket | count |~| --- | --- |~")));;
  assert (has report "| <4us | 2 |");;
  assert (has report "| >=1024us | 1 |");;
  assert (negb (has report "<1us")).

Definition report_on_empty_histogram_is_header_only : test :=
  let hist := LatencyHist.new in
  assert_eq (hist_report hist) (text_of "| bucket | count |~| --- | --- |~").

Definition tests : list test :=
  [new_and_default_start_empty; record_places_durations_in_expected_buckets;
   at_or_above_largest_bound_lands_in_overflow_bucket; boundary_is_upper_bound_exclusive;
   record_saturates_on_overflow; report_lists_non_empty_buckets_with_known_rows;
   report_on_empty_histogram_is_header_only].
End hist.

Module registry.
Import ObsRegistry(record, record_frame, snapshot, reset, record_latency).

Definition snapshot_reports_per_api_counts : test :=
  let registry := ObsRegistry.new in
  let registry := record "NtCreateFile" 10 20 registry in
  let registry := record "NtCreateFile" 5 7 registry in
  let registry := record "NtClose" 1 0 registry in
  let snapshot := snapshot registry in
  assert_eq (map_len snapshot) 2;;
  create ← entry_of snapshot "NtCreateFile";
  assert_eq create (CallStats.mk 2 15 27);;
  close ← entry_of snapshot "NtClose";
  assert_eq close (CallStats.mk 1 1 0).

Definition record_frame_counts_calls_and_frame_lengths : test :=
  let registry := ObsRegistry.new in
  let registry := record_frame "NtCreateFile" (zeros 10) (zeros 20) registry in
  let registry := record_frame "NtCreateFile" (zeros 5) (zeros 7) registry in
  let registry := record_frame "NtClose" [] (zeros 3) registry in
  let snapshot := snapshot registry in
  assert_eq (map_len snapshot) 2;;
  create ← entry_of snapshot "NtCreateFile";
  assert_eq create (CallStats.mk 2 15 27);;
  close ← entry_of snapshot "NtClose";
  assert_eq close (CallStats.mk 1 0 3).

Definition record_frame_matches_record_with_slice_lengths : test :=
  let request := bytes [1; 2; 3; 4] in
  let reply := bytes [5; 6; 7; 8; 9] in
  let via_frame := ObsRegistry.new in
  let via_frame := record_frame "NtReadFile" request reply via_frame in
  let via_record := ObsRegistry.new in
  let via_record := record "NtReadFile" (wrap 64 (len request)) (wrap 64 (len reply)) via_record in
  assert_eq (snapshot via_frame) (snapshot via_record);;
  read ← entry_of (snapshot via_frame) "NtReadFile";
  assert_eq read (CallStats.mk 1 4 5).

Definition record_frame_with_empty_frames_counts_a_zero_byte_call : test :=
  let registry := ObsRegistry.new in
  let registry := record_frame "NtClose" [] [] registry in
  close ← entry_of (snapshot registry) "NtClose";
  assert_eq close (CallStats.mk 1 0 0);;
  assert_eq (total registry) (CallStats.mk 1 0 0).

Definition snapshot_sorted_is_ordered_and_matches_snapshot : test :=
  let registry := ObsRegistry.new in
  let registry := record "NtCreateFile" 10 20 registry in
  let registry := record "NtCreateFile" 5 7 registry in
  let registry := record "NtClose" 1 0 registry in
  let registry := record "NtReadFile" 3 9 registry in
  let sorted := snapshot_sorted registry in
  let names := map fst sorted in
  assert_eq names ["NtClose"; "NtCreateFile"; "NtReadFile"]%string;;
  let snapshot := snapshot registry in
  assert_eq (len sorted) (map_len snapshot);;
  for_each sorted (fun '(api, stats) =>
    entry ← entry_of snapshot api;
    assert_eq entry stats);;
  assert_eq sorted [("NtClose"%string, CallStats.mk 1 1 0); ("NtCreateFile"%string, CallStats.mk 2 15 27);
    ("NtReadFile"%string, CallStats.mk 1 3 9)].

Definition snapshot_sorted_of_empty_registry_is_empty : test :=
  let registry := ObsRegistry.new in
  assert (is_empty (snapshot_sorted registry)).

Definition reset_clears_all_recorded_stats : test :=
  let registry := ObsRegistry.new in
  let registry := record "NtCreateFile" 10 20 registry in
  let registry := record "NtClose" 1 3 registry in
  assert (negb (map_is_empty (snapshot registry)));;
  let registry := reset registry in
  assert (map_is_empty (snapshot registry));;
  assert (is_empty (snapshot_sorted registry));;
  assert_eq (total registry) CallStats.default;;
  let registry := record "NtReadFile" 4 5 registry in
  read ← entry_of (snapshot registry) "NtReadFile";
  assert_eq read (CallStats.mk 1 4 5).

Definition reset_of_empty_registry_is_a_noop : test :=
  let registry := ObsRegistry.new in
  let registry := reset registry in
  assert (map_is_empty (snapshot registry));;
  assert_eq (total registry) CallStats.default.

Definition total_merges_all_apis : test :=
  let registry := ObsRegistry.new in
  let registry := record "NtCreateFile" 10 20 registry in
  let registry := record "NtCreateFile" 5 7 registry in
  let registry := record "NtClose" 1 3 registry in
  assert_eq (total registry) (CallStats.mk 3 16 30).

Definition total_of_empty_registry_is_default : test :=
  let registry := ObsRegistry.new in
  assert_eq (total registry) CallStats.default;;
  assert (map_is_empty (snapshot registry)).

Definition report_renders_sorted_table_with_total : test :=
  let registry := ObsRegistry.new in
  let registry := record "NtCreateFile" 10 20 registry in
  let registry := record "NtCreateFile" 5 7 registry in
  let registry := record "NtClose" 1 3 registry in
  let report := report registry in
  assert (has report "| API | Calls | Bytes Out | Bytes In |");;
  assert (has report "| NtCreateFile | 2 | 15 | 27 |");;
  assert (has report "| NtClose | 1 | 1 | 3 |");;
  assert (has report "| TOTAL | 3 | 16 | 30 |");;
  ntclose ← expect_some (find_in report "| NtClose |");
  ntcreate ← expect_some (find_in report "| NtCreateFile |");
  total ← expect_some (find_in report "| TOTAL |");
  assert (Nat.ltb ntclose ntcreate);;
  assert (Nat.ltb ntcreate total).

Definition report_of_empty_registry_has_header_and_zero_total : test :=
  let registry := ObsRegistry.new in
  let report := report registry in
  assert (has report "| API | Calls | Bytes Out | Bytes In |");;
  assert (has report "| TOTAL | 0 | 0 | 0 |").

Definition count (haystack : string) (needle : ascii) : Z :=
  len (filter (fun c => c = needle) (lit haystack)).

Definition to_json_emits_sorted_apis_with_total : test :=
  let registry := ObsRegistry.new in
  let registry := record "NtCreateFile" 10 20 registry in
  let registry := record "NtCreateFile" 5 7 registry in
  let registry := record "NtClose" 1 3 registry in
  let json := to_json registry in
  assert (has json (text_of "'NtCreateFile':{'calls':2,'bytes_out':15,'bytes_in':27}"));;
  assert (has json (text_of "'NtClose':{'calls':1,'bytes_out':1,'bytes_in':3}"));;
  assert (has json (text_of "'total':{'calls':3,'bytes_out':16,'bytes_in':30}"));;
  assert (starts_with (lit json) (lit (text_of "{'apis':{")));;
  ntclose ← expect_some (find_in json (text_of "'NtClose'"));
  ntcreate ← expect_some (find_in json (text_of "'NtCreateFile'"));
  assert (Nat.ltb ntclose ntcreate).

Definition to_json_is_well_formed : test :=
  let registry := ObsRegistry.new in
  let registry := record "NtCreateFile" 10 20 registry in
  let registry := record "NtClose" 1 3 registry in
  let json := to_json registry in
  assert_eq (count json "{") (count json "}");;
  assert_eq (count json "{") 5;;
  assert (negb (has json ",}"));;
  assert (bool_decide (last (lit json) = Some "}"%char)).

Definition to_json_of_empty_registry_has_empty_apis_and_zero_total : test :=
  let registry := ObsRegistry.new in
  let json := to_json registry in
  assert_eq json (text_of "{'apis':{},'total':{'calls':0,'bytes_out':0,'bytes_in':0}}").

Definition to_json_escapes_quotes_and_backslashes_in_api_names : test :=
  let registry := ObsRegistry.new in
  let registry := record (text_of "odd'\name") 1 2 registry in
  let json := to_json registry in
  assert (has json (text_of "'odd\'\\name':{'calls':1,'bytes_out':1,'bytes_in':2}")).

(** A run of the test's own thread 0 and the thread 1 that panics with a guard held. *)
Definition main_and_poisoner (main poisoner : list SharedRegistry.op) (schedule : list (nat * bool))
  : outcome (@state SharedRegistry.which SharedRegistry.op ObsRegistry.t SharedRegistry.reply) :=
  expect_some (play SharedRegistry.methods SharedRegistry.lock schedule
    (start [main; poisoner] ObsRegistry.new)).

Definition steps_of (o : SharedRegistry.op) : nat := op_cost SharedRegistry.methods o.

(** Thread 0 does one call, the other one takes the guard and panics, and thread 0 goes
    on. *)
Definition poisoned_after (first : SharedRegistry.op) (rest : list SharedRegistry.op)
  : list (nat * bool) :=
  replicate (steps_of first) (0%nat, false) ++ [(1%nat, false); (1%nat, true)] ++
  replicate (sum_list_with steps_of rest) (0%nat, false).

Definition thread_at
    (st : @state SharedRegistry.which SharedRegistry.op ObsRegistry.t SharedRegistry.reply) (i : nat) :=
  expect_some (threads st !! i).

(** [JoinHandle::join]: an error when the thread panicked. *)
Definition join (th : @thread SharedRegistry.op ObsRegistry.t SharedRegistry.reply) : result unit unit :=
  match at_ th with Dead => Err tt | _ => Ok tt end.

Definition record_recovers_from_poisoned_lock : test :=
  let first := SharedRegistry.Record "NtCreateFile" 1 1 in
  let rest := [SharedRegistry.Record "NtCreateFile" 4 6; SharedRegistry.Snapshot;
    SharedRegistry.Snapshot] in
  st ← main_and_poisoner (first :: rest) [SharedRegistry.Snapshot] (poisoned_after first rest);
  poisoner ← thread_at st 1;
  assert (is_err (join poisoner));;
  assert (Mutex.poisoned (mutexes st SharedRegistry.Inner));;
  main ← thread_at st 0;
  assert (is_joined main);;
  match results main with
  | [_; _; SharedRegistry.Counts snapshot; SharedRegistry.Counts entries] =>
    create ← entry_of snapshot "NtCreateFile";
    assert_eq create (CallStats.mk 2 5 7);;
    assert_eq (CallStats.calls (ObsRegistry.total (map_to_list entries))) 2
  | _ => Panic
  end.

Definition record_updates_the_global_registry : test :=
  let API := "global_test::record_updates_the_global_registry"%string in
  let process := None in
  let process := Global.record API 10 20 process in
  let process := Global.record API 5 7 process in
  let '(_, global) := Global.global process in
  entry ← entry_of (snapshot global) API;
  assert_eq entry (CallStats.mk 2 15 27).

Definition record_latency_tracks_per_api_histograms : test :=
  let registry := ObsRegistry.new in
  registry ← record_latency "NtCreateFile" (from_micros 3) registry;
  registry ← record_latency "NtCreateFile" (from_micros 3) registry;
  registry ← record_latency "NtClose" (from_secs 1) registry;
  let report := latency_report registry in
  assert (has report "### NtCreateFile");;
  assert (has report "### NtClose");;
  assert (has report "| <4us | 2 |");;
  assert (has report "| >=1024us | 1 |");;
  ntclose ← expect_some (find_in report "### NtClose");
  ntcreate ← expect_some (find_in report "### NtCreateFile");
  assert (Nat.ltb ntclose ntcreate).

Definition latency_report_of_empty_registry_is_empty : test :=
  let registry := ObsRegistry.new in
  assert (bool_decide (latency_report registry = EmptyString)).

Definition record_latency_is_independent_of_record : test :=
  let registry := ObsRegistry.new in
  registry ← record_latency "NtReadFile" (from_micros 0) registry;
  assert (map_is_empty (snapshot registry));;
  assert_eq (total registry) CallStats.default;;
  let other := ObsRegistry.new in
  let other := record "NtWriteFile" 1 2 other in
  assert (bool_decide (latency_report other = EmptyString)).

Definition record_latency_recovers_from_poisoned_lock : test :=
  let first := SharedRegistry.RecordLatency "NtCreateFile" (from_micros 3) in
  let rest := [SharedRegistry.RecordLatency "NtCreateFile" (from_micros 3);
    SharedRegistry.LatencyReport] in
  st ← main_and_poisoner (first :: rest) [SharedRegistry.LatencyReport] (poisoned_after first rest);
  poisoner ← thread_at st 1;
  assert (is_err (join poisoner));;
  assert (Mutex.poisoned (mutexes st SharedRegistry.Latency));;
  main ← thread_at st 0;
  assert (is_joined main);;
  match results main with
  | [_; _; SharedRegistry.Latencies entries] =>
    let report := ObsRegistry.latency_report (map_to_list entries) in
    assert (has report "| <4us | 2 |")
  | _ => Panic
  end.

Definition record_and_global_record_target_the_same_registry : test :=
  let API := "global_test::record_and_global_record_target_the_same_registry"%string in
  let process := None in
  let process := Global.record API 1 2 process in
  let '(process, global) := Global.global process in
  let process := Some (record API 3 4 global) in
  let '(_, global) := Global.global process in
  entry ← entry_of (snapshot global) API;
  assert_eq entry (CallStats.mk 2 4 6).

(** Tests that start workers: what [check] says of the registry once a schedule has
    brought every worker to its end, [expect]ing none to have panicked; a schedule that
    has not says nothing. *)
Abbreviation state :=
  (@state SharedRegistry.which SharedRegistry.op ObsRegistry.t SharedRegistry.reply).

Definition finished (th : @thread SharedRegistry.op ObsRegistry.t SharedRegistry.reply) : bool :=
  match at_ th with Dead => true | _ => is_joined th end.

Definition concurrently (progs : list (list SharedRegistry.op)) (check : ObsRegistry.t -> test)
    (schedule : list nat) : test :=
  match play SharedRegistry.methods SharedRegistry.lock (unstruck schedule)
    (start progs ObsRegistry.new) with
  | Some st =>
    if forallb finished (threads st) then
      for_each (threads st) (fun th => expect (join th));;
      check (data st)
    else Ret tt
  | None => Ret tt
  end.

Definition THREADS : nat := 8.
Definition CALLS_PER_THREAD : nat := 1000.

Definition recording_worker (calls_per_thread : nat) : list SharedRegistry.op :=
  concat (replicate calls_per_thread
    [SharedRegistry.Record "NtCreateFile" 2 3; SharedRegistry.Record "NtClose" 1 1]).

Definition concurrent_records_aggregate_exactly (schedule : list nat) : test :=
  concurrently (replicate THREADS (recording_worker CALLS_PER_THREAD)) (fun registry =>
    let expected_per_api := Z.of_nat THREADS * Z.of_nat CALLS_PER_THREAD in
    let snapshot := snapshot registry in
    create ← entry_of snapshot "NtCreateFile";
    assert_eq (CallStats.calls create) expected_per_api;;
    assert_eq (CallStats.bytes_out create) (expected_per_api * 2);;
    assert_eq (CallStats.bytes_in create) (expected_per_api * 3);;
    close ← entry_of snapshot "NtClose";
    assert_eq (CallStats.calls close) expected_per_api;;
    let total := total registry in
    assert_eq (CallStats.calls total) (expected_per_api * 2);;
    assert_eq (CallStats.bytes_out total) (expected_per_api * 2 + expected_per_api);;
    assert_eq (CallStats.bytes_in total) (expected_per_api * 3 + expected_per_api)) schedule.

Definition timing_worker (calls_per_thread : nat) : list SharedRegistry.op :=
  replicate calls_per_thread (SharedRegistry.RecordLatency "NtCreateFile" (from_micros 3)).

Definition concurrent_record_latency_aggregates_exactly (schedule : list nat) : test :=
  concurrently (replicate THREADS (timing_worker CALLS_PER_THREAD)) (fun registry =>
    let expected := Z.of_nat THREADS * Z.of_nat CALLS_PER_THREAD in
    let report := latency_report registry in
    assert (has report ("| <4us | " +:+ pretty expected +:+ " |"))) schedule.

Definition tests : list test :=
  [snapshot_reports_per_api_counts; record_frame_counts_calls_and_frame_lengths;
   record_frame_matches_record_with_slice_lengths;
   record_frame_with_empty_frames_counts_a_zero_byte_call;
   snapshot_sorted_is_ordered_and_matches_snapshot; snapshot_sorted_of_empty_registry_is_empty;
   reset_clears_all_recorded_stats; reset_of_empty_registry_is_a_noop; total_merges_all_apis;
   total_of_empty_registry_is_default; report_renders_sorted_table_with_total;
   report_of_empty_registry_has_header_and_zero_total; to_json_emits_sorted_apis_with_total;
   to_json_is_well_formed; to_json_of_empty_registry_has_empty_apis_and_zero_total;
   to_json_escapes_quotes_and_backslashes_in_api_names; record_recovers_from_poisoned_lock;
   record_updates_the_global_registry; record_latency_tracks_per_api_histograms;
   latency_report_of_empty_registry_is_empty; record_latency_is_independent_of_record;
   record_latency_recovers_from_poisoned_lock;
   record_and_global_record_target_the_same_registry].
End registry.

Module guard.
Import CallGuard.

(** A registry and the spans of the thread. *)
Definition new : ObsRegistry.t * SpanStack.t := (ObsRegistry.new, SpanStack.mk [] []).

Definition guard_records_one_call_with_set_bytes : test :=
  let '(registry, spans) := new in
  let '(spans, guard) := begin "vulkan" 0x10 spans in
  let guard := set_bytes 10 20 guard in
  let '(registry, spans) := drop guard (registry, spans) in
  entry ← entry_of (ObsRegistry.snapshot registry) "vulkan";
  assert_eq entry (CallStats.mk 1 10 20).

Definition guard_without_set_bytes_records_zero_bytes : test :=
  let '(registry, spans) := new in
  let '(spans, guard) := begin "vulkan" 0x10 spans in
  let '(registry, spans) := drop guard (registry, spans) in
  entry ← entry_of (ObsRegistry.snapshot registry) "vulkan";
  assert_eq entry (CallStats.mk 1 0 0).

Definition two_guards_in_sequence_record_two_calls : test :=
  let '(registry, spans) := new in
  let '(spans, guard) := begin "vulkan" 0x10 spans in
  let guard := set_bytes 10 20 guard in
  let '(registry, spans) := drop guard (registry, spans) in
  let '(spans, guard) := begin "vulkan" 0x11 spans in
  let guard := set_bytes 3 4 guard in
  let '(registry, spans) := drop guard (registry, spans) in
  entry ← entry_of (ObsRegistry.snapshot registry) "vulkan";
  assert_eq entry (CallStats.mk 2 13 24).

Definition set_bytes_overwrites_and_records_once : test :=
  let '(registry, spans) := new in
  let '(spans, guard) := begin "vulkan" 0x10 spans in
  let guard := set_bytes 1 1 guard in
  let guard := set_bytes 10 20 guard in
  let '(registry, spans) := drop guard (registry, spans) in
  entry ← entry_of (ObsRegistry.snapshot registry) "vulkan";
  assert_eq entry (CallStats.mk 1 10 20).

Definition tests : list test :=
  [guard_records_one_call_with_set_bytes; guard_without_set_bytes_records_zero_bytes;
   two_guards_in_sequence_record_two_calls; set_bytes_overwrites_and_records_once].
End guard.

Module timer.

(** A clock about to start its sixth second. *)
Definition clock : Ticks.t := Ticks.mk 4999999900 [50; 150; 0]%nat.

(** [Duration]s in order. *)
Definition ge (a b : Duration.t) : bool :=
  (Duration.secs b <? Duration.secs a) ||
  ((Duration.secs a =? Duration.secs b) && (Duration.nanos b <=? Duration.nanos a)).

Definition elapsed_is_monotonic_non_decreasing : test :=
  let '(w, timer) := Timer.start_now clock in
  let '(w, first) := Timer.elapsed timer w in
  let '(w, second) := Timer.elapsed timer w in
  assert (ge second first).

Definition time_call_returns_closure_value : test :=
  let '(w, (value, _)) := time_call (fun w => (w, 42)) clock in
  assert_eq value 42.

Definition time_call_yields_a_duration : test :=
  let '(w, (value, duration)) := time_call (fun w => (w, "ok"%string)) clock in
  assert_eq value "ok"%string;;
  assert (ge duration (Duration.mk 0 0)).

Definition tests : list test :=
  [elapsed_is_monotonic_non_decreasing; time_call_returns_closure_value;
   time_call_yields_a_duration].
End timer.

(** ** The tests that start threads *)
Module concurrency.
Import ObsRegistry RegistryRun SharedRegistry registry.

(** What holds after the operations of all the workers, in any order, holds whatever the
    schedule. *)
Lemma concurrently_passes progs check schedule :
  (forall os r, os ≡ₚ concat progs -> run_atomic os ObsRegistry.new = Ret r -> check r = Ret tt) ->
  concurrently progs check schedule = Ret tt.
Proof.
  intros H. unfold concurrently. destruct (play _ _ _ _) as [st|] eqn:Hp; [|done].
  destruct (forallb finished (threads st)) eqn:Hf; [|done].
  destruct (unstruck_alive methods hists_wf lock progs ObsRegistry.new registry_new_wf _ _ Hp) as [_ Ha].
  assert (Forall joined (threads st)) as Hj.
  { apply Forall_forall. intros th Hth. apply is_joined_true.
    rewrite Forall_forall in Ha. pose proof (Ha th Hth) as Hal. unfold alive in Hal.
    pose proof (proj1 (forallb_forall _ _) Hf th (proj1 (list_elem_of_In _ _) Hth)) as Hd.
    unfold finished in Hd. by destruct (at_ th). }
  destruct (join_runs methods hists_wf lock progs ObsRegistry.new registry_new_wf _ _ Hp Hj)
    as (h & Hops & Hc & Hr).
  rewrite run_complete in Hr by done. rewrite (H _ _ Hops Hr).
  clear Hp Hf. induction (threads st) as [|th ths IH]; [done|].
  apply Forall_cons in Hj as [[Hb _] Hj]. apply Forall_cons in Ha as [_ Ha]. cbn.
  unfold join. rewrite Hb. by apply IH.
Qed.

(** *** Recording *)
Definition worker_calls (calls_per_thread : nat) : list call :=
  concat (replicate calls_per_thread [mkCall "NtCreateFile" 2 3; mkCall "NtClose" 1 1]).

Definition all_calls (threads calls_per_thread : nat) : list call :=
  concat (replicate threads (worker_calls calls_per_thread)).

Lemma map_concat_replicate {A B} (f : A -> B) n l :
  map f (concat (replicate n l)) = concat (replicate n (map f l)).
Proof. induction n as [|n IH]; cbn; [done|]. by rewrite map_app, IH. Qed.

Lemma filter_concat_replicate {A} (P : A -> Prop) `{!forall x, Decision (P x)} n l :
  filter P (concat (replicate n l)) = concat (replicate n (filter P l)).
Proof. induction n as [|n IH]; cbn; [done|]. by rewrite filter_app, IH. Qed.

Lemma length_concat_replicate {A} n (l : list A) :
  length (concat (replicate n l)) = (n * length l)%nat.
Proof. induction n as [|n IH]; cbn; [done|]. by rewrite length_app, IH. Qed.

Lemma sum_of_concat_replicate {A} (f : A -> Z) n l :
  sum_of f (concat (replicate n l)) = Z.of_nat n * sum_of f l.
Proof.
  induction n as [|n IH]; [done|]. cbn [replicate concat].
  assert (forall l', sum_of f (l ++ l') = sum_of f l + sum_of f l') as ->
    by (clear IH; intros l'; induction l as [|x l IHl]; cbn; lia).
  rewrite IH. lia.
Qed.

Lemma stats_of_calls api t c (o i n : Z) :
  of_api api [mkCall "NtCreateFile" 2 3; mkCall "NtClose" 1 1] = [mkCall api o i] ->
  n = Z.of_nat t * Z.of_nat c -> 0 < n ->
  of_api api (all_calls t c) <> [] /\
  stats_of (of_api api (all_calls t c)) = CallStats.mk (pin n) (pin (n * o)) (pin (n * i)).
Proof.
  intros Hapi Hn Hpos. unfold of_api, all_calls, worker_calls in *.
  rewrite !filter_concat_replicate, Hapi.
  assert (forall f, sum_of f (concat (replicate t (concat (replicate c [mkCall api o i])))) =
    n * f (mkCall api o i)) as Hs.
  { intros f. rewrite !sum_of_concat_replicate. cbn. lia. }
  split.
  - intros E. specialize (Hs (fun _ => 1)). rewrite E in Hs. cbn in Hs. lia.
  - unfold stats_of. rewrite length_sum, !Hs. cbn. by rewrite Z.mul_1_r.
Qed.

Lemma run_records cs r : run_atomic (map record_op cs) r = Ret (record_calls cs r).
Proof. revert r. induction cs as [|c cs IH]; intros r; [done|]. cbn. by rewrite IH. Qed.

Lemma all_calls_wf t c : Forall call_wf (all_calls t c).
Proof.
  unfold all_calls, worker_calls. apply Forall_concat, Forall_replicate, Forall_concat, Forall_replicate.
  repeat constructor; cbn; lia.
Qed.

Lemma records_aggregate os r :
  os ≡ₚ concat (replicate THREADS (recording_worker CALLS_PER_THREAD)) ->
  run_atomic os ObsRegistry.new = Ret r ->
  r = record_calls (all_calls THREADS CALLS_PER_THREAD) ObsRegistry.new.
Proof.
  assert (concat (replicate THREADS (recording_worker CALLS_PER_THREAD)) =
    map record_op (all_calls THREADS CALLS_PER_THREAD)) as ->.
  { unfold all_calls, worker_calls, recording_worker. by rewrite !map_concat_replicate. }
  intros Hp. apply Permutation_map_inv in Hp as (cs & -> & Hp).
  rewrite run_records. intros [= <-]. apply record_calls_permutation; [|done].
  rewrite <- Hp. apply all_calls_wf.
Qed.

Lemma entry_recorded cs api s :
  Forall call_wf cs -> of_api api cs <> [] /\ stats_of (of_api api cs) = s ->
  entry_of (snapshot (record_calls cs ObsRegistry.new)) api = Ret s.
Proof.
  intros Hwf [Hne Hs]. unfold entry_of, snapshot.
  rewrite record_calls_lookup by exact Hwf. rewrite decide_False by exact Hne. by rewrite Hs.
Qed.

Lemma all_stats t c n :
  n = Z.of_nat t * Z.of_nat c -> stats_of (all_calls t c) = CallStats.mk (pin (n * 2)) (pin (n * 3)) (pin (n * 4)).
Proof.
  intros ->. unfold stats_of, all_calls, worker_calls.
  rewrite length_sum, !sum_of_concat_replicate. cbn. f_equal; f_equal; lia.
Qed.

Lemma concurrent_records_pass schedule : concurrent_records_aggregate_exactly schedule = Ret tt.
Proof.
  apply concurrently_passes. intros os r Hos Hr. rewrite (records_aggregate _ _ Hos Hr).
  clear os r Hos Hr.
  pose proof (all_calls_wf THREADS CALLS_PER_THREAD) as Hwf.
  pose proof (fun api o i H => stats_of_calls api THREADS CALLS_PER_THREAD o i _ H eq_refl eq_refl) as Hc.
  pose proof (all_stats THREADS CALLS_PER_THREAD _ eq_refl) as Ht.
  generalize dependent (all_calls THREADS CALLS_PER_THREAD). intros cs Hwf Hc Ht.
  cbv zeta. rewrite (entry_recorded _ _ _ Hwf (Hc "NtCreateFile"%string 2 3 eq_refl)).
  rewrite (entry_recorded _ _ _ Hwf (Hc "NtClose"%string 1 1 eq_refl)).
  unfold ObsTests.total. rewrite (record_calls_total _ Hwf), Ht. vm_compute. reflexivity.
Qed.

(** *** Timing *)
Lemma run_atomic_snoc os o r : run_atomic (os ++ [o]) r = r' ← run_atomic os r; atomic o r'.
Proof.
  revert r. induction os as [|o' os IH]; intros r; cbn.
  - by destruct (atomic o r).
  - destruct (atomic o' r) as [r'|]; cbn; [apply IH|done].
Qed.

(** So many observations below four microseconds. *)
Definition timed (n : Z) : ObsRegistry.t :=
  ObsRegistry.mk ∅ {[ "NtCreateFile"%string := LatencyHist.mk [0; 0; n; 0; 0; 0; 0; 0; 0; 0; 0; 0] ]}.

Lemma run_latencies k :
  Z.of_nat k < u64_MAX ->
  run_atomic (replicate (S k) (RecordLatency "NtCreateFile" (from_micros 3))) ObsRegistry.new =
  Ret (timed (Z.of_nat k + 1)).
Proof.
  induction k as [|k IH]; intros Hk; [reflexivity|].
  rewrite replicate_S_end, run_atomic_snoc, IH by lia. cbn [mbind outcome_bind atomic].
  unfold record_latency, timed. cbn [latency ObsRegistry.inner]. rewrite lookup_singleton_eq.
  cbn [from_option id]. set (hist := LatencyHist.mk _).
  assert (LatencyHist.record (from_micros 3) hist = Ret (LatencyHist.mk
    [0; 0; saturating_add 64 (Z.of_nat k + 1) 1; 0; 0; 0; 0; 0; 0; 0; 0; 0])) as -> by reflexivity.
  cbn [mbind outcome_bind]. unfold saturating_add. rewrite Z.min_l by (unfold u64_MAX in Hk; lia).
  rewrite insert_singleton_eq. by replace (Z.of_nat (S k) + 1) with (Z.of_nat k + 1 + 1) by lia.
Qed.

Lemma all_equal {A} (x : A) l : Forall (eq x) l -> l = replicate (length l) x.
Proof. induction 1 as [|y l <- _ IH]; [done|]. cbn. by rewrite <- IH. Qed.

Lemma concurrent_latencies_pass schedule :
  concurrent_record_latency_aggregates_exactly schedule = Ret tt.
Proof.
  apply concurrently_passes. intros os r Hos.
  assert (os = replicate (THREADS * CALLS_PER_THREAD) (RecordLatency "NtCreateFile" (from_micros 3))) as ->.
  { rewrite (all_equal (RecordLatency "NtCreateFile" (from_micros 3)) os).
    - rewrite Hos. unfold timing_worker. by rewrite length_concat_replicate, length_replicate.
    - rewrite Hos. apply Forall_concat, Forall_replicate, Forall_replicate. done. }
  assert (exists k, (THREADS * CALLS_PER_THREAD)%nat = S k /\ Z.of_nat k + 1 = 8000) as (k & -> & Hk)
    by (by exists (pred (THREADS * CALLS_PER_THREAD))).
  rewrite run_latencies, Hk by (unfold u64_MAX, max_of; lia).
  intros [= <-]. vm_compute. reflexivity.
Qed.
End concurrency.

(** The tests, those that start threads under a schedule. *)
Definition obs_tests (schedule : list nat) : list test :=
  stats.tests ++ hist.tests ++ registry.tests ++ guard.tests ++ timer.tests ++
  [registry.concurrent_records_aggregate_exactly schedule;
   registry.concurrent_record_latency_aggregates_exactly schedule].

Lemma obs_tests_pass schedule : all_pass (obs_tests schedule).
Proof.
  unfold obs_tests. rewrite !app_assoc. apply all_pass_app.
  - apply suite_passes. vm_compute. reflexivity.
  - repeat constructor; [apply concurrency.concurrent_records_pass|
      apply concurrency.concurrent_latencies_pass].
Qed.

(** The workers do come to their end, under some schedule. *)
Lemma workers_finish progs : exists schedule st,
  play SharedRegistry.methods SharedRegistry.lock (unstruck schedule) (start progs ObsRegistry.new) =
    Some st /\ Forall joined (threads st).
Proof.
  by apply (schedule_joins _ SharedRegistry.hists_wf), SharedRegistry.registry_new_wf; apply _.
Qed.
