(* ===== verification/XtaskTests.v ===== *)
(** The unit tests of crates/graftx-xtask ([mod tests] of src/opcodes.rs, src/xrefs.rs,
    src/doc_index.rs and src/main.rs), one Module per file.

    They run on files in memory: the directory the tests run in, with a temporary
    directory and no docs. *)
From stdpp Require Import gmap strings.
From Stdlib Require Import Ascii.
From S2P Require Import Testing Sorts Text Transport Process Files.
From S2P Require Import XtaskOpcodes XtaskXrefs XtaskMain.

Local Open Scope Z_scope.

(** [Iterator::next]. *)
Definition next {A} (it : list A) : option A * list A := (head it, tail it).

Definition ends_with (s : text) (c : ascii) : bool := bool_decide (last s = Some c).

(** [argv] and [names]: a slice of string literals as owned strings. *)
Definition argv (parts : list string) : list text := map lit parts.

(** [std::fs::write], and [std::fs::remove_file], whose failure the tests ignore. *)
Definition seed (p : Path.t) (c : text) (f : Tree.t) : outcome Tree.t :=
  match write_file p c f with (f, Ok _) => Ret f | (_, Err _) => Panic end.

Fixpoint unlink (comps : list text) (f : Tree.t) : Tree.t :=
  match comps, f with
  | [name], Tree.DirNode cs => Tree.DirNode (filter (fun e => e.1 <> name) cs)
  | name :: comps, Tree.DirNode cs =>
    match Tree.child name cs with
    | Some n => Tree.DirNode (Tree.set_child name (unlink comps n) cs)
    | None => f
    end
  | _, _ => f
  end.

Definition remove_file (p : Path.t) (f : Tree.t) : Tree.t := unlink (Path.comps p) f.

Definition temp_dir : Path.t := Path.new "tmp".
Definition host : Tree.t := Tree.DirNode [(lit "tmp", Tree.DirNode [])].

(** The clock the names of the fixtures take their nanoseconds from. *)
Definition nanos : Z := 1700000000000000000.

Definition temp_path (stem tag extension : text) : Path.t :=
  Path.join temp_dir (Path.new (stem ++ tag ++ "-" ++ dec nanos ++ extension)).

Module opcodes.

Definition opcode_packs_api_byte_and_call_id : test :=
  let entry := OpcodeEntry.mk "Vulkan" 0x01 "ENUMERATE_PHYSICAL_DEVICES" 0x000003 in
  assert_eq (OpcodeEntry.opcode entry) 0x01000003.

Definition format_opcode_uses_padded_hex_layout : test :=
  let entry := OpcodeEntry.mk "Core" 0x00 "HELLO" 0x000001 in
  assert_eq (format_opcode entry) (lit "0x00_000001").

Definition table_has_header_and_separator : test :=
  let table := render_opcode_table OPCODES in
  let '(first, rest) := next (lines table) in
  assert_eq first (Some (lit "| Opcode | API | Name |"));;
  let '(second, _) := next rest in
  assert_eq second (Some (lit "| --- | --- | --- |")).

Definition table_contains_known_vulkan_row : test :=
  let table := render_opcode_table OPCODES in
  assert (contains table "| 0x01_000003 | Vulkan | ENUMERATE_PHYSICAL_DEVICES |").

Definition table_contains_known_core_row : test :=
  let table := render_opcode_table OPCODES in
  assert (contains table "| 0x00_000001 | Core | HELLO |").

Definition table_has_one_data_row_per_entry : test :=
  let table := render_opcode_table OPCODES in
  let data_rows := len (lines table) - 2 in
  assert_eq data_rows (len OPCODES);;
  assert_eq data_rows 44.

Definition rows_preserve_entry_order : test :=
  let table := render_opcode_table OPCODES in
  hello ← expect_some (find table "HELLO");
  create_instance ← expect_some (find table "CREATE_INSTANCE");
  assert (Nat.ltb hello create_instance).

(** The fixture of three entries of two APIs. *)
Definition fixture : list OpcodeEntry.t := [
  OpcodeEntry.mk "Core" 0x00 "HELLO" 0x000001;
  OpcodeEntry.mk "Core" 0x00 "WELCOME" 0x000002;
  OpcodeEntry.mk "Vulkan" 0x01 "CREATE_INSTANCE" 0x0001].

Definition coverage_counts_per_api_and_total_on_fixture : test :=
  let table := render_coverage fixture in
  assert_eq table ("| API | Opcodes |" ++ nl ++ "| --- | --- |" ++ nl ++ "| Core | 2 |" ++ nl ++
    "| Vulkan | 1 |" ++ nl ++ "| TOTAL | 3 |" ++ nl).

Definition coverage_has_header_and_separator : test :=
  let table := render_coverage OPCODES in
  let '(first, rest) := next (lines table) in
  assert_eq first (Some (lit "| API | Opcodes |"));;
  let '(second, _) := next rest in
  assert_eq second (Some (lit "| --- | --- |")).

Definition coverage_orders_apis_by_api_id : test :=
  let table := render_coverage OPCODES in
  core ← expect_some (find table "| Core |");
  vulkan ← expect_some (find table "| Vulkan |");
  opengl ← expect_some (find table "| OpenGl |");
  cuda ← expect_some (find table "| Cuda |");
  opencl ← expect_some (find table "| OpenCl |");
  hip ← expect_some (find table "| Hip |");
  level_zero ← expect_some (find table "| LevelZero |");
  video ← expect_some (find table "| Video |");
  webgpu ← expect_some (find table "| WebGpu |");
  optix ← expect_some (find table "| OptiX |");
  sycl ← expect_some (find table "| Sycl |");
  amf ← expect_some (find table "| Amf |");
  total ← expect_some (find table "| TOTAL |");
  assert (Nat.ltb core vulkan && Nat.ltb vulkan opengl && Nat.ltb opengl cuda &&
    Nat.ltb cuda opencl && Nat.ltb opencl hip && Nat.ltb hip level_zero &&
    Nat.ltb level_zero video && Nat.ltb video webgpu && Nat.ltb webgpu optix &&
    Nat.ltb optix sycl && Nat.ltb sycl amf && Nat.ltb amf total).

Definition coverage_total_equals_entry_count : test :=
  let table := render_coverage OPCODES in
  assert (contains table ("| TOTAL | " ++ dec (len OPCODES) ++ " |")).

Definition real_coverage_includes_all_apis_with_expected_minimum_counts : test :=
  let counts : gmap text Z := fold_left (fun counts entry =>
    let name := OpcodeEntry.api_name entry in
    <[name := default 0 (counts !! name) + 1]> counts) OPCODES ∅ in
  let count (name : text) := default 0 (counts !! name) in
  assert (count "Core" >=? 3);;
  assert (count "Vulkan" >=? 11);;
  assert (count "OpenGl" >=? 3);;
  assert (count "Cuda" >=? 3);;
  assert (count "OpenCl" >=? 3);;
  assert (count "Hip" >=? 3);;
  assert (count "LevelZero" >=? 3);;
  assert (count "Video" >=? 3);;
  assert (count "WebGpu" >=? 3);;
  assert (count "OptiX" >=? 3);;
  assert (count "Sycl" >=? 3);;
  assert (count "Amf" >=? 3).

Definition stats_reports_total_and_distinct_apis_on_fixture : test :=
  let stats := render_stats fixture in
  assert (contains stats "- Total opcodes: 3");;
  assert (contains stats "- Distinct APIs: 2");;
  assert (contains stats "| TOTAL | 3 |").

Definition stats_total_and_distinct_match_real_opcodes : test :=
  let stats := render_stats OPCODES in
  assert (contains stats ("- Total opcodes: " ++ dec (len OPCODES)));;
  assert (contains stats "- Distinct APIs: 12").

Definition stats_ends_with_newline : test := assert (ends_with (render_stats OPCODES) "010").

Definition apis_lists_distinct_pairs_sorted_by_id_on_fixture : test :=
  let fixture := [
    OpcodeEntry.mk "Vulkan" 0x01 "CREATE_INSTANCE" 0x0001;
    OpcodeEntry.mk "Core" 0x00 "HELLO" 0x000001;
    OpcodeEntry.mk "Core" 0x00 "WELCOME" 0x000002] in
  let table := render_apis fixture in
  assert_eq table ("| ApiId | API |" ++ nl ++ "| --- | --- |" ++ nl ++ "| 0x00 | Core |" ++ nl ++
    "| 0x01 | Vulkan |" ++ nl).

Definition apis_has_header_and_separator : test :=
  let table := render_apis OPCODES in
  let '(first, rest) := next (lines table) in
  assert_eq first (Some (lit "| ApiId | API |"));;
  let '(second, _) := next rest in
  assert_eq second (Some (lit "| --- | --- |")).

Definition apis_renders_id_as_padded_hex : test :=
  let table := render_apis OPCODES in
  assert (contains table "| 0x00 | Core |");;
  assert (contains table "| 0x0A | Sycl |").

Definition apis_has_one_row_per_distinct_api : test :=
  let table := render_apis OPCODES in
  let seen := fold_left (fun seen entry =>
    let key := (OpcodeEntry.api_id entry, OpcodeEntry.api_name entry) in
    if decide (key ∈ seen) then seen else push seen key) OPCODES [] in
  let data_rows := len (lines table) - 2 in
  assert_eq data_rows (len seen);;
  assert_eq data_rows 12.

Definition apis_orders_rows_by_api_id : test :=
  let table := render_apis OPCODES in
  core ← expect_some (find table "| Core |");
  vulkan ← expect_some (find table "| Vulkan |");
  amf ← expect_some (find table "| Amf |");
  assert (Nat.ltb core vulkan && Nat.ltb vulkan amf).

Definition apis_ends_with_newline : test := assert (ends_with (render_apis OPCODES) "010").

Definition summary_has_headline_and_both_subtable_headers : test :=
  let summary := render_summary OPCODES in
  assert (contains summary
    ("Opcode summary: " ++ dec (len OPCODES) ++ " opcode(s) across 12 API(s)"));;
  assert (contains summary ("| ApiId | API |" ++ nl));;
  assert (contains summary ("| API | Opcodes |" ++ nl));;
  assert (contains summary ("| TOTAL | " ++ dec (len OPCODES) ++ " |")).

Definition summary_orders_headline_then_apis_then_coverage : test :=
  let summary := render_summary OPCODES in
  headline ← expect_some (find summary "Opcode summary:");
  apis ← expect_some (find summary "| ApiId | API |");
  coverage ← expect_some (find summary "| API | Opcodes |");
  assert (Nat.ltb headline apis && Nat.ltb apis coverage).

Definition summary_ends_with_newline : test := assert (ends_with (render_summary OPCODES) "010").

Definition lock_starts_with_header_comment : test :=
  let lock := render_lock OPCODES in
  assert (starts_with lock "# GraftX opcode lock");;
  assert (contains lock "opcodes-lock --write").

Definition lock_line_format_is_opcode_api_name : test :=
  let lock := render_lock OPCODES in
  assert (contains lock (nl ++ "0x01_000003 Vulkan ENUMERATE_PHYSICAL_DEVICES" ++ nl));;
  assert (contains lock (nl ++ "0x00_000001 Core HELLO" ++ nl)).

Definition lock_ends_with_newline : test := assert (ends_with (render_lock OPCODES) "010").

(** The lines of a lockfile that are not comments. *)
Definition body_of (lock : text) : list text :=
  filter (fun l => starts_with l "#" = false) (lines lock).

Definition lock_orders_lines_by_api_id_then_call_id : test :=
  let fixture := [
    OpcodeEntry.mk "Vulkan" 0x01 "DESTROY_INSTANCE" 0x0002;
    OpcodeEntry.mk "Vulkan" 0x01 "CREATE_INSTANCE" 0x0001;
    OpcodeEntry.mk "Core" 0x00 "HELLO" 0x000001] in
  let lock := render_lock fixture in
  let body := body_of lock in
  assert_eq body (map lit ["0x00_000001 Core HELLO"; "0x01_000001 Vulkan CREATE_INSTANCE";
    "0x01_000002 Vulkan DESTROY_INSTANCE"]%string).

Definition lock_is_independent_of_entry_order : test :=
  let reversed := map (fun e => OpcodeEntry.mk (OpcodeEntry.api_name e) (OpcodeEntry.api_id e)
    (OpcodeEntry.name e) (OpcodeEntry.call_id e)) (rev OPCODES) in
  assert_eq (render_lock OPCODES) (render_lock reversed).

Definition lock_has_one_body_line_per_entry : test :=
  let lock := render_lock OPCODES in
  let body_lines := len (body_of lock) in
  assert_eq body_lines (len OPCODES).

Definition doc_starts_with_title_and_generated_intro : test :=
  let doc := render_doc OPCODES in
  assert (starts_with doc ("# GraftX opcode table" ++ nl));;
  assert (contains doc "Generated by `cargo xtask opcodes-md`").

Definition doc_embeds_the_opcode_table : test :=
  let doc := render_doc OPCODES in
  assert (contains doc ("| Opcode | API | Name |" ++ nl));;
  assert (contains doc "| 0x01_000003 | Vulkan | ENUMERATE_PHYSICAL_DEVICES |");;
  assert (contains doc "| 0x00_000001 | Core | HELLO |").

Definition doc_has_blank_line_between_intro_and_table : test :=
  let doc := render_doc OPCODES in
  assert (contains doc ("." ++ nl ++ nl ++ "| Opcode | API | Name |" ++ nl)).

Definition doc_ends_with_newline : test := assert (ends_with (render_doc OPCODES) "010").

Definition temp_lock_path (tag : text) : Path.t := temp_path "graftx-xtask-checklock-" tag ".lock".

Definition UpToDate (status : LockStatus.t) : bool :=
  match status with LockStatus.UpToDate => true | _ => false end.
Definition Unreadable (status : LockStatus.t) : bool :=
  match status with LockStatus.Unreadable _ => true | _ => false end.

Definition check_doc_reports_up_to_date_for_canonical_file : test :=
  let path := temp_lock_path "doc-uptodate" in
  disk ← seed path (render_doc OPCODES) host;
  let status := check_doc path OPCODES disk in
  assert (LockStatus.is_up_to_date status);;
  assert (UpToDate status).

Definition check_doc_reports_stale_on_difference : test :=
  let path := temp_lock_path "doc-stale" in
  disk ← seed path ("# stale doc" ++ nl) host;
  let status := check_doc path OPCODES disk in
  assert (negb (LockStatus.is_up_to_date status));;
  match status with
  | LockStatus.Stale _ expected => assert_eq expected (render_doc OPCODES)
  | _ => Panic
  end.

Definition check_doc_reports_unreadable_when_missing : test :=
  let path := temp_lock_path "doc-missing" in
  let disk := remove_file path host in
  let status := check_doc path OPCODES disk in
  assert (negb (LockStatus.is_up_to_date status));;
  assert (Unreadable status).

Definition check_lock_reports_up_to_date_for_canonical_file : test :=
  let path := temp_lock_path "uptodate" in
  disk ← seed path (render_lock OPCODES) host;
  let status := check_lock path OPCODES disk in
  assert (LockStatus.is_up_to_date status);;
  assert (UpToDate status).

Definition check_lock_reports_stale_on_difference : test :=
  let path := temp_lock_path "stale" in
  disk ← seed path ("# stale" ++ nl ++ "0xFF_FFFFFF Bogus OPCODE" ++ nl) host;
  let status := check_lock path OPCODES disk in
  assert (negb (LockStatus.is_up_to_date status));;
  match status with
  | LockStatus.Stale _ expected => assert_eq expected (render_lock OPCODES)
  | _ => Panic
  end.

Definition check_lock_reports_unreadable_when_missing : test :=
  let path := temp_lock_path "missing" in
  let disk := remove_file path host in
  let status := check_lock path OPCODES disk in
  assert (negb (LockStatus.is_up_to_date status));;
  assert (Unreadable status).

Definition tests : list test :=
  [opcode_packs_api_byte_and_call_id; format_opcode_uses_padded_hex_layout;
   table_has_header_and_separator; table_contains_known_vulkan_row;
   table_contains_known_core_row; table_has_one_data_row_per_entry; rows_preserve_entry_order;
   coverage_counts_per_api_and_total_on_fixture; coverage_has_header_and_separator;
   coverage_orders_apis_by_api_id; coverage_total_equals_entry_count;
   real_coverage_includes_all_apis_with_expected_minimum_counts;
   stats_reports_total_and_distinct_apis_on_fixture;
   stats_total_and_distinct_match_real_opcodes; stats_ends_with_newline;
   apis_lists_distinct_pairs_sorted_by_id_on_fixture; apis_has_header_and_separator;
   apis_renders_id_as_padded_hex; apis_has_one_row_per_distinct_api;
   apis_orders_rows_by_api_id; apis_ends_with_newline;
   summary_has_headline_and_both_subtable_headers;
   summary_orders_headline_then_apis_then_coverage; summary_ends_with_newline;
   lock_starts_with_header_comment; lock_line_format_is_opcode_api_name;
   lock_ends_with_newline; lock_orders_lines_by_api_id_then_call_id;
   lock_is_independent_of_entry_order; lock_has_one_body_line_per_entry;
   doc_starts_with_title_and_generated_intro; doc_embeds_the_opcode_table;
   doc_has_blank_line_between_intro_and_table; doc_ends_with_newline;
   check_doc_reports_up_to_date_for_canonical_file; check_doc_reports_stale_on_difference;
   check_doc_reports_unreadable_when_missing; check_lock_reports_up_to_date_for_canonical_file;
   check_lock_reports_stale_on_difference; check_lock_reports_unreadable_when_missing].
End opcodes.

Module xrefs.

Definition extract_links_finds_inline_target : test :=
  let md := lit "see [the plan](plan/06-protocol.md) for details" in
  links ← extract_links md;
  assert_eq links [(1, lit "plan/06-protocol.md")].

Definition extract_links_reports_line_numbers : test :=
  let md := "intro" ++ nl ++ "[a](one.md)" ++ nl ++ nl ++ "[b](two.md)" ++ nl in
  links ← extract_links md;
  assert_eq links [(2, lit "one.md"); (4, lit "two.md")].

Definition extract_links_handles_multiple_links_on_one_line : test :=
  let md := lit "[a](a.md) and [b](b.md)" in
  links ← extract_links md;
  assert_eq links [(1, lit "a.md"); (1, lit "b.md")].

Definition extract_links_keeps_anchor_and_external_targets : test :=
  let md := lit "[x](https://example.com) [y](#section) [z](../README.md)" in
  links ← extract_links md;
  assert_eq links [(1, lit "https://example.com"); (1, lit "#section"); (1, lit "../README.md")].

Definition extract_links_ignores_unclosed_paren : test :=
  let md := lit "[broken](no-close" in
  links ← extract_links md;
  assert (is_empty links).

Definition extract_chapter_refs_handles_both_spacings : test :=
  let md := lit "transport (Ch. 08) and protocol (Ch.06) and appendices (Ch. 32)" in
  refs ← extract_chapter_refs md;
  assert_eq refs [(1, 8); (1, 6); (1, 32)].

Definition extract_chapter_refs_reports_line_numbers : test :=
  let md := "first" ++ nl ++ "see (Ch. 13)" ++ nl ++ "last (Ch.99)" ++ nl in
  refs ← extract_chapter_refs md;
  assert_eq refs [(2, 13); (3, 99)].

Definition extract_chapter_refs_ignores_malformed : test :=
  let md := lit "(Ch. ) (Ch. 7x) (Ch.) plain (Ch" in
  refs ← extract_chapter_refs md;
  assert (is_empty refs).

Definition chapter_range_check_bounds : test :=
  assert (negb (chapter_in_range 0));;
  assert (chapter_in_range 1);;
  assert (chapter_in_range 32);;
  assert (negb (chapter_in_range 33));;
  assert (negb (chapter_in_range 99)).

Definition external_and_anchor_targets_are_skipped : test :=
  assert (is_external_or_anchor "http://x");;
  assert (is_external_or_anchor "https://x");;
  assert (is_external_or_anchor "mailto:a@b.c");;
  assert (is_external_or_anchor "#frag");;
  assert (is_external_or_anchor "");;
  assert (negb (is_external_or_anchor "../README.md"));;
  assert (negb (is_external_or_anchor "plan/06-protocol.md")).

Definition link_target_strips_anchor_before_resolving : test :=
  let from := Path.new "docs/design/README.md" in
  assert (negb (link_target_exists from "definitely-missing-file.md#anchor" host)).

Definition lint_markdown_flags_out_of_range_chapter : test :=
  let path := Path.new "docs/sample.md" in
  issues ← lint_markdown path ("ok (Ch. 06)" ++ nl ++ "bad (Ch. 40)" ++ nl) host;
  assert_eq (len issues) 1;;
  issue ← expect_some (issues !! 0%nat);
  match issue with
  | Issue.OutOfRangeChapter line chapter => assert_eq line 2;; assert_eq chapter 40
  | _ => Panic
  end.

Definition lint_markdown_flags_broken_relative_link : test :=
  let path := Path.new "docs/sample.md" in
  issues ← lint_markdown path ("[gone](this-target-does-not-exist.md)" ++ nl) host;
  assert_eq (len issues) 1;;
  issue ← expect_some (issues !! 0%nat);
  match issue with
  | Issue.BrokenLink line target =>
    assert_eq line 1;; assert_eq target (lit "this-target-does-not-exist.md")
  | _ => Panic
  end.

Definition lint_markdown_orders_issues_by_line : test :=
  let path := Path.new "docs/sample.md" in
  let md := "bad (Ch. 40)" ++ nl ++ "[gone](this-target-does-not-exist.md)" ++ nl in
  issues ← lint_markdown path md host;
  assert_eq (len issues) 2;;
  first ← expect_some (issues !! 0%nat);
  second ← expect_some (issues !! 1%nat);
  assert_eq (Issue.line first) 1;;
  assert_eq (Issue.line second) 2.

Definition missing_docs_dir_reports_no_issues : test :=
  let out := Buffer.mk [] in
  match check_xrefs 1 (Path.new "definitely/not/a/real/docs/dir") host out with
  | None => Panic
  | Some run =>
    '(out, count) ← run;
    assert_eq count 0;;
    let text := Buffer.written out in
    assert (contains text "no issues found")
  end.

Definition tests : list test :=
  [extract_links_finds_inline_target; extract_links_reports_line_numbers;
   extract_links_handles_multiple_links_on_one_line;
   extract_links_keeps_anchor_and_external_targets; extract_links_ignores_unclosed_paren;
   extract_chapter_refs_handles_both_spacings; extract_chapter_refs_reports_line_numbers;
   extract_chapter_refs_ignores_malformed; chapter_range_check_bounds;
   external_and_anchor_targets_are_skipped; link_target_strips_anchor_before_resolving;
   lint_markdown_flags_out_of_range_chapter; lint_markdown_flags_broken_relative_link;
   lint_markdown_orders_issues_by_line; missing_docs_dir_reports_no_issues].
End xrefs.

Module doc_index.

Definition all_linked_yields_no_missing : test :=
  let readme := "Index:" ++ nl ++ "- [PROTOCOL](PROTOCOL.md)" ++ nl ++
    "- [TRANSPORT](TRANSPORT.md)" ++ nl in
  let docs := argv ["PROTOCOL.md"; "TRANSPORT.md"] in
  assert (is_empty (missing_index_links readme docs)).

Definition unlinked_doc_is_reported : test :=
  let readme := "Index:" ++ nl ++ "- [PROTOCOL](PROTOCOL.md)" ++ nl in
  let docs := argv ["PROTOCOL.md"; "TRANSPORT.md"] in
  assert_eq (missing_index_links readme docs) [lit "TRANSPORT.md"].

Definition readme_itself_is_never_flagged : test :=
  let readme := lit "no links here" in
  let docs := argv ["README.md"] in
  assert (is_empty (missing_index_links readme docs)).

Definition missing_preserves_input_order : test :=
  let readme := lit "links: [B](B.md)" in
  let docs := argv ["A.md"; "B.md"; "C.md"] in
  assert_eq (missing_index_links readme docs) [lit "A.md"; lit "C.md"].

Definition matching_is_case_sensitive : test :=
  let readme := lit "see protocol.md for details" in
  let docs := argv ["PROTOCOL.md"] in
  assert_eq (missing_index_links readme docs) [lit "PROTOCOL.md"].

Definition empty_doc_list_is_trivially_complete : test :=
  assert (is_empty (missing_index_links "anything" [])).

Definition check_doc_index_reports_scan_failure : test :=
  let out := Buffer.mk [] in
  let '(out, count) := check_doc_index (Path.new "definitely/not/a/real/design/dir") host out in
  assert_eq count 1;;
  let text := Buffer.written out in
  assert (contains text "failed to scan").

Definition tests : list test :=
  [all_linked_yields_no_missing; unlinked_doc_is_reported; readme_itself_is_never_flagged;
   missing_preserves_input_order; matching_is_case_sensitive;
   empty_doc_list_is_trivially_complete; check_doc_index_reports_scan_failure].
End doc_index.

Module main.

(** A process of the tests: its files, and output nobody closes. *)
Definition process (fs : Tree.t) : proc Tree.t Buffer.t := mkProc fs (Buffer.mk []) (Buffer.mk []).

(** [run] in the directory of the tests; its walk over the docs fails the test if it
    is out of fuel. *)
Definition run_args (args : list string) : outcome Z :=
  match run 3 (argv args) (process host) with
  | Some r => '(_, code) ← r; Ret code
  | None => Panic
  end.

Definition no_args_defaults_to_help : test :=
  code ← run_args [];
  assert_eq code ExitCode.SUCCESS.

Definition help_succeeds : test :=
  code ← run_args ["help"];
  assert_eq code ExitCode.SUCCESS;;
  code ← run_args ["-h"];
  assert_eq code ExitCode.SUCCESS;;
  code ← run_args ["--help"];
  assert_eq code ExitCode.SUCCESS.

Definition gen_opcodes_succeeds : test :=
  code ← run_args ["gen-opcodes"];
  assert_eq code ExitCode.SUCCESS.

Definition coverage_succeeds : test :=
  code ← run_args ["coverage"];
  assert_eq code ExitCode.SUCCESS.

Definition stats_succeeds : test :=
  code ← run_args ["stats"];
  assert_eq code ExitCode.SUCCESS.

Definition apis_succeeds : test :=
  code ← run_args ["apis"];
  assert_eq code ExitCode.SUCCESS.

Definition summary_succeeds : test :=
  code ← run_args ["summary"];
  assert_eq code ExitCode.SUCCESS.

Definition check_xrefs_is_a_known_subcommand : test :=
  code ← run_args ["check-xrefs"];
  assert_ne code EXIT_USAGE.

Definition doc_index_is_a_known_subcommand : test :=
  code ← run_args ["doc-index"];
  assert_ne code EXIT_USAGE.

Definition extra_args_after_known_subcommand_are_tolerated : test :=
  code ← run_args ["gen-opcodes"; "--dry-run"];
  assert_eq code ExitCode.SUCCESS.

Definition unknown_subcommand_is_usage_error : test :=
  code ← run_args ["frobnicate"];
  assert_eq code EXIT_USAGE.

Definition opcodes_lock_is_a_known_subcommand : test :=
  code ← run_args ["opcodes-lock"];
  assert_ne code EXIT_USAGE.

Definition parses_to (mode : LockMode.t) (r : result text LockMode.t) : bool :=
  match r, mode with
  | Ok LockMode.Check, LockMode.Check | Ok LockMode.Write, LockMode.Write => true
  | _, _ => false
  end.

Definition parse_lock_mode_defaults_to_check : test :=
  assert (parses_to LockMode.Check (parse_lock_mode []));;
  assert (parses_to LockMode.Check (parse_lock_mode (argv ["--check"]))).

Definition parse_lock_mode_recognizes_write : test :=
  assert (parses_to LockMode.Write (parse_lock_mode (argv ["--write"]))).

Definition parse_lock_mode_rejects_unknown_flag : test :=
  assert (is_err (parse_lock_mode (argv ["--frob"]))).

Definition temp_lock_path (tag : text) : Path.t := temp_path "graftx-xtask-opcodes-" tag ".lock".
Definition temp_doc_path (tag : text) : Path.t := temp_path "graftx-xtask-opcodes-md-" tag ".md".

Definition write_then_check_roundtrips : test :=
  let path := temp_lock_path "roundtrip" in
  '(p, code) ← opcodes_lock (argv ["--write"]) path (process host);
  assert_eq code ExitCode.SUCCESS;;
  '(p, code) ← opcodes_lock (argv ["--check"]) path p;
  assert_eq code ExitCode.SUCCESS;;
  '(p, code) ← opcodes_lock [] path p;
  assert_eq code ExitCode.SUCCESS.

Definition check_fails_when_file_missing : test :=
  let path := temp_lock_path "missing" in
  let disk := remove_file path host in
  '(p, code) ← opcodes_lock (argv ["--check"]) path (process disk);
  assert_eq code ExitCode.FAILURE.

Definition check_fails_when_content_differs : test :=
  let path := temp_lock_path "stale" in
  disk ← seed path ("# stale" ++ nl ++ "0xFF_FFFFFF Bogus OPCODE" ++ nl) host;
  '(p, code) ← opcodes_lock (argv ["--check"]) path (process disk);
  assert_eq code ExitCode.FAILURE.

Definition opcodes_lock_rejects_unknown_flag : test :=
  let path := temp_lock_path "badflag" in
  '(p, code) ← opcodes_lock (argv ["--frob"]) path (process host);
  assert_eq code EXIT_USAGE.

Definition opcodes_md_is_a_known_subcommand : test :=
  code ← run_args ["opcodes-md"];
  assert_ne code EXIT_USAGE.

Definition opcodes_md_write_then_check_roundtrips : test :=
  let path := temp_doc_path "roundtrip" in
  '(p, code) ← opcodes_md (argv ["--write"]) path (process host);
  assert_eq code ExitCode.SUCCESS;;
  '(p, code) ← opcodes_md (argv ["--check"]) path p;
  assert_eq code ExitCode.SUCCESS;;
  '(p, code) ← opcodes_md [] path p;
  assert_eq code ExitCode.SUCCESS.

Definition opcodes_md_check_fails_when_file_missing : test :=
  let path := temp_doc_path "missing" in
  let disk := remove_file path host in
  '(p, code) ← opcodes_md (argv ["--check"]) path (process disk);
  assert_eq code ExitCode.FAILURE.

Definition opcodes_md_check_fails_when_content_differs : test :=
  let path := temp_doc_path "stale" in
  disk ← seed path ("# not the generated doc" ++ nl) host;
  '(p, code) ← opcodes_md (argv ["--check"]) path (process disk);
  assert_eq code ExitCode.FAILURE.

Definition opcodes_md_rejects_unknown_flag : test :=
  let path := temp_doc_path "badflag" in
  '(p, code) ← opcodes_md (argv ["--frob"]) path (process host);
  assert_eq code EXIT_USAGE.

Definition report_first_difference_names_the_line : test :=
  let out := Buffer.mk [] in
  let out := report_first_difference out ("a" ++ nl ++ "b" ++ nl ++ "c" ++ nl)
    ("a" ++ nl ++ "X" ++ nl ++ "c" ++ nl) in
  let text := Buffer.written out in
  assert (contains text "line 2");;
  assert (contains text "on disk:   b");;
  assert (contains text "expected:  X").

Definition report_first_difference_notes_length_mismatch : test :=
  let out := Buffer.mk [] in
  let out := report_first_difference out ("a" ++ nl ++ "b" ++ nl)
    ("a" ++ nl ++ "b" ++ nl ++ "c" ++ nl) in
  let text := Buffer.written out in
  assert (contains text "line count differs").

Definition verify_outcome_passes_only_when_both_pass : test :=
  let both_ok := VerifyOutcome.mk 0 true in
  assert (VerifyOutcome.passed both_ok);;
  assert_eq (VerifyOutcome.exit_code both_ok) ExitCode.SUCCESS;;
  let xref_fail := VerifyOutcome.mk 3 true in
  assert (negb (VerifyOutcome.passed xref_fail));;
  assert_eq (VerifyOutcome.exit_code xref_fail) ExitCode.FAILURE;;
  let lock_fail := VerifyOutcome.mk 0 false in
  assert (negb (VerifyOutcome.passed lock_fail));;
  assert_eq (VerifyOutcome.exit_code lock_fail) ExitCode.FAILURE;;
  let both_fail := VerifyOutcome.mk 2 false in
  assert (negb (VerifyOutcome.passed both_fail));;
  assert_eq (VerifyOutcome.exit_code both_fail) ExitCode.FAILURE.

Definition verify_is_a_known_subcommand : test :=
  code ← run_args ["verify"];
  assert_ne code EXIT_USAGE.

(** [verify] of a docs directory that is not there. *)
Definition verify_without_docs (lock : Path.t) (disk : Tree.t) : outcome (Buffer.t * Z) :=
  match verify 1 (Path.new "definitely/not/a/real/docs/dir") lock disk (Buffer.mk []) with
  | Some r => r
  | None => Panic
  end.

Definition verify_fails_when_lock_is_missing : test :=
  '(out, code) ← verify_without_docs (Path.new "definitely/not/a/real/opcodes.lock") host;
  assert_eq code ExitCode.FAILURE;;
  let text := Buffer.written out in
  assert (contains text "opcodes-lock: STALE");;
  assert (contains text "verify: FAILED").

Definition verify_summary_lists_both_checks : test :=
  let lock := temp_lock_path "verify-ok" in
  disk ← seed lock (render_lock OPCODES) host;
  '(out, code) ← verify_without_docs lock disk;
  assert_eq code ExitCode.SUCCESS;;
  let text := Buffer.written out in
  assert (contains text "verify: xrefs: 0 issue(s)");;
  assert (contains text "verify: opcodes-lock: up-to-date");;
  assert (contains text "verify: OK").

Definition tests : list test :=
  [no_args_defaults_to_help; help_succeeds; gen_opcodes_succeeds; coverage_succeeds;
   stats_succeeds; apis_succeeds; summary_succeeds; check_xrefs_is_a_known_subcommand;
   doc_index_is_a_known_subcommand; extra_args_after_known_subcommand_are_tolerated;
   unknown_subcommand_is_usage_error; opcodes_lock_is_a_known_subcommand;
   parse_lock_mode_defaults_to_check; parse_lock_mode_recognizes_write;
   parse_lock_mode_rejects_unknown_flag; write_then_check_roundtrips;
   check_fails_when_file_missing; check_fails_when_content_differs;
   opcodes_lock_rejects_unknown_flag; opcodes_md_is_a_known_subcommand;
   opcodes_md_write_then_check_roundtrips; opcodes_md_check_fails_when_file_missing;
   opcodes_md_check_fails_when_content_differs; opcodes_md_rejects_unknown_flag;
   report_first_difference_names_the_line; report_first_difference_notes_length_mismatch;
   verify_outcome_passes_only_when_both_pass; verify_is_a_known_subcommand;
   verify_fails_when_lock_is_missing; verify_summary_lists_both_checks].
End main.

Definition xtask_tests : list test :=
  opcodes.tests ++ xrefs.tests ++ doc_index.tests ++ main.tests.

Lemma xtask_tests_pass : all_pass xtask_tests.
Proof. apply suite_passes. vm_compute. reflexivity. Qed.
