(* ===== verification/ToolTests.v ===== *)
(** The unit tests of the binaries ([mod tests] of crates/graftx-bench,
    crates/graftx-cli, crates/graftx-fuzz and crates/graftx-loadtest, src/main.rs of
    each), one Module per crate.

    They run on buffers for the standard streams, a clock whose readings are given, and
    exact fractions where the code has [f64]. *)
From Stdlib Require Import QArith Qabs Qround.
From Stdlib Require Import Ascii.
From S2P Require Import Testing Wire VkBodies Transport Obs ObsScope Text Process.
From S2P Require Import Cli Bench Fuzz FuzzProps LoadTest.

Local Open Scope Z_scope.

#[export] Instance CreateInstanceRequest_eq_dec : EqDecision vk.CreateInstanceRequest.t.
Proof. solve_decision. Defined.

(** Fractions, printed with so many decimals, rounded to the nearest. *)
#[export] Instance fractions : F64 Q := {|
  f64_of n := inject_Z n;
  f64_mul := Qmult;
  f64_div := Qdiv;
  f64_fixed n x :=
    let scale := 10 ^ Z.of_nat n in
    let m := Qfloor (x * inject_Z scale + (1 # 2))%Q in
    dec (m / scale) ++ "." ++ pad_left n (dec (m mod scale)) |}.

Definition assert_eq_f64 (x y : Q) : test := assert (Qeq_bool x y).

Definition console : Console.t Buffer.t := Console.mk (Buffer.mk []) (Buffer.mk []).

(** [args]: a slice of string literals as owned strings. *)
Definition args (items : list string) : list text := map lit items.

Module bench.

Definition clock : Ticks.t := Ticks.mk 1000 [20; 300]%nat.

Definition round_trip_preserves_the_frame : test :=
  let frame := representative_frame in
  decoded ← expect (round_trip frame);
  assert_eq decoded frame.

Definition round_trip_preserves_arbitrary_versions : test :=
  for_each [0; 1; 0x00403000; max_of 32] (fun app_api_version =>
    let frame := vk.CreateInstanceRequest.mk app_api_version in
    decoded ← expect (round_trip frame);
    assert_eq decoded frame).

Definition bench_reports_the_requested_iteration_count : test :=
  let '(_, r) := Bench.bench 16 clock in
  report ← expect r;
  assert_eq (BenchReport.iterations report) 16.

Definition zero_iterations_yields_finite_metrics : test :=
  let '(_, r) := Bench.bench 0 clock in
  report ← expect r;
  assert_eq (BenchReport.iterations report) 0;;
  assert_eq_f64 (BenchReport.nanos_per_op report) 0%Q;;
  assert_eq_f64 (BenchReport.frames_per_sec report) 0%Q.

Definition parse_iterations_reads_a_valid_count : test :=
  assert_eq (parse_iterations (Some (lit "1000"))) (1000, false).

Definition parse_iterations_falls_back_on_garbage : test :=
  assert_eq (parse_iterations (Some (lit "not-a-number"))) (DEFAULT_ITERATIONS, true).

Definition parse_iterations_defaults_when_absent : test :=
  assert_eq (parse_iterations None) (DEFAULT_ITERATIONS, false).

Definition tests : list test :=
  [round_trip_preserves_the_frame; round_trip_preserves_arbitrary_versions;
   bench_reports_the_requested_iteration_count; zero_iterations_yields_finite_metrics;
   parse_iterations_reads_a_valid_count; parse_iterations_falls_back_on_garbage;
   parse_iterations_defaults_when_absent].
End bench.

Module cli.

(** A host that no address connects to. *)
Definition tcp_connect (_addr : text) : io_result Pipe.t := Err io.Other.
Definition io_display (_e : io.ErrorKind) : text := "connection refused".
Definition CARGO_PKG_VERSION : text := "0.0.0".

Definition run (args : list text) : outcome Z :=
  '(_, code) ← Cli.run tcp_connect io_display CARGO_PKG_VERSION args console; Ret code.

Definition no_args_prints_usage_and_succeeds : test :=
  code ← run [];
  assert_eq code ExitCode.SUCCESS.

Definition help_succeeds : test :=
  for_each ["help"; "-h"; "--help"]%string (fun flag =>
    code ← run (args [flag]);
    assert_eq code ExitCode.SUCCESS).

Definition unknown_subcommand_is_usage_error : test :=
  code ← run (args ["bogus"]);
  assert_eq code EXIT_USAGE.

Definition connect_without_addr_is_usage_error : test :=
  code ← run (args ["connect"]);
  assert_eq code EXIT_USAGE.

Definition noop_without_addr_is_usage_error : test :=
  code ← run (args ["noop"]);
  assert_eq code EXIT_USAGE.

Definition usage_banner_lists_noop_subcommand : test :=
  let buf := Buffer.mk [] in
  let text := Buffer.written (print_usage buf) in
  assert (contains text "noop <addr>").

Definition usage_banner_carries_protocol_version : test :=
  let '(major, minor) := protocol_version in
  let buf := Buffer.mk [] in
  let text := Buffer.written (print_usage buf) in
  assert (contains text ("protocol " ++ dec major ++ "." ++ dec minor));;
  assert (contains text "connect <addr>").

Definition apis_subcommand_succeeds : test :=
  code ← run (args ["apis"]);
  assert_eq code ExitCode.SUCCESS.

Definition apis_table_is_markdown_with_first_and_last_rows : test :=
  let buf := Buffer.mk [] in
  let text := Buffer.written (print_apis buf) in
  assert (contains text "| ApiId | API |");;
  assert (contains text "| 0x00 | Core |");;
  assert (contains text "| 0x0b | Amf |").

Definition usage_banner_lists_apis_subcommand : test :=
  let buf := Buffer.mk [] in
  let text := Buffer.written (print_usage buf) in
  assert (contains text "graftx apis").

Definition apis_table_matches_protocol : test :=
  assert_eq (head API_IDS) (Some (api_byte Core, lit "Core"));;
  assert_eq (last API_IDS) (Some (api_byte Amf, lit "Amf"));;
  assert_eq (len API_IDS) (api_byte Amf - api_byte Core + 1);;
  for_each (imap pair API_IDS) (fun '(offset, (id, _name)) =>
    assert_eq id (api_byte Core + Z.of_nat offset)).

Definition info_subcommand_succeeds : test :=
  code ← run (args ["info"]);
  assert_eq code ExitCode.SUCCESS.

Definition info_carries_version_protocol_and_apis : test :=
  let '(major, minor) := protocol_version in
  let buf := Buffer.mk [] in
  let text := Buffer.written (print_info CARGO_PKG_VERSION buf) in
  assert (contains text ("graftx-cli " ++ CARGO_PKG_VERSION));;
  assert (contains text ("protocol " ++ dec major ++ "." ++ dec minor));;
  assert (contains text "Core");;
  assert (contains text "Amf").

Definition usage_banner_lists_info_subcommand : test :=
  let buf := Buffer.mk [] in
  let text := Buffer.written (print_usage buf) in
  assert (contains text "graftx info").

Definition welcome_summary_includes_negotiated_fields : test :=
  let welcome := Welcome.mk 3 7 0x5 4096 42 in
  let buf := Buffer.mk [] in
  let '(buf, r) := print_welcome "198.51.100.1:7000" welcome buf in
  expect r;;
  let text := Buffer.written buf in
  assert (contains text "connected to 198.51.100.1:7000");;
  assert (contains text "3.7");;
  assert (contains text "42");;
  assert (contains text "4096").

Definition tests : list test :=
  [no_args_prints_usage_and_succeeds; help_succeeds; unknown_subcommand_is_usage_error;
   connect_without_addr_is_usage_error; noop_without_addr_is_usage_error;
   usage_banner_lists_noop_subcommand; usage_banner_carries_protocol_version;
   apis_subcommand_succeeds; apis_table_is_markdown_with_first_and_last_rows;
   usage_banner_lists_apis_subcommand; apis_table_matches_protocol; info_subcommand_succeeds;
   info_carries_version_protocol_and_apis; usage_banner_lists_info_subcommand;
   welcome_summary_includes_negotiated_fields].
End cli.

Module fuzz.

(** [fuzz_iter]; to be out of fuel fails the test. *)
Definition fuzz_iter (seed n : Z) : outcome Z :=
  match Fuzz.fuzz_iter seed n with Some r => r | None => Panic end.

Definition fuzz_runs_without_panic : test :=
  processed ← fuzz_iter 0xDEADBEEFCAFEF00D 4000;
  assert_eq processed 4000.

Definition input_count_is_deterministic : test :=
  a ← fuzz_iter 1 2500;
  b ← fuzz_iter 1 2500;
  assert_eq a b;;
  assert_eq a 2500.

Definition zero_iterations_processes_nothing : test :=
  processed ← fuzz_iter 42 0;
  assert_eq processed 0.

Definition parse_iters_defaults_when_absent : test :=
  assert_eq (parse_iters None) (Some DEFAULT_ITERS).

Definition parse_iters_reads_a_number : test :=
  assert_eq (parse_iters (Some (lit "250"))) (Some 250).

Definition parse_iters_rejects_garbage : test :=
  assert_eq (parse_iters (Some (lit "not-a-number"))) None.

Definition tests : list test :=
  [fuzz_runs_without_panic; input_count_is_deterministic; zero_iterations_processes_nothing;
   parse_iters_defaults_when_absent; parse_iters_reads_a_number; parse_iters_rejects_garbage].

Lemma tests_pass : all_pass tests.
Proof.
  unfold all_pass, tests, fuzz_runs_without_panic, input_count_is_deterministic,
    zero_iterations_processes_nothing, fuzz_iter.
  rewrite !fuzz_iter_returns. apply suite_passes. vm_compute. reflexivity.
Qed.
End fuzz.

Module loadtest.

Definition CALLS_PER_ITERATION : Z := 2.
Definition HANDSHAKE_CALLS : Z := 1.

(** A run of the two threads: the server's whenever it can go on. *)
Fixpoint run_threads (fuel : nat) (st : LoadRun.load) : LoadRun.load :=
  match fuel with
  | O => st
  | S fuel =>
    match LoadRun.step_server st with
    | Some st => run_threads fuel st
    | None =>
      match LoadRun.step_client st with
      | Some st => run_threads fuel st
      | None => st
      end
    end
  end.

Definition joined (n : Z) : LoadRun.load := run_threads 1000 (LoadRun.start n ObsRegistry.new).

Definition run_load_records_expected_call_count : test :=
  let n := 32 in
  total ← expect_some (LoadRun.run_load (joined n));
  let expected := HANDSHAKE_CALLS + CALLS_PER_ITERATION * n in
  assert_eq (CallStats.calls total) expected;;
  assert (0 <? CallStats.bytes_out total);;
  assert (0 <? CallStats.bytes_in total).

Definition run_load_with_zero_ops_records_only_the_handshake : test :=
  total ← expect_some (LoadRun.run_load (joined 0));
  assert_eq (CallStats.calls total) HANDSHAKE_CALLS.

Definition drive_attributes_calls_per_api : test :=
  let run := joined 8 in
  r ← expect_some (drive run (of_nanos 1500));
  elapsed ← expect r;
  assert (0 <=? as_nanos elapsed);;
  let snapshot := ObsRegistry.snapshot (LoadRun.registry run) in
  core ← expect_some (snapshot !! "core"%string);
  assert_eq (CallStats.calls core) HANDSHAKE_CALLS;;
  vulkan ← expect_some (snapshot !! "vulkan"%string);
  assert_eq (CallStats.calls vulkan) (CALLS_PER_ITERATION * 8);;
  assert_eq (size snapshot) 2%nat.

Definition ops_per_sec_is_zero_when_no_time_elapsed : test :=
  let report := LoadReport.mk ObsRegistry.new (CallStats.mk 100 10 20) (Duration.mk 0 0) in
  assert_eq_f64 (LoadReport.ops_per_sec report) 0%Q.

Definition ops_per_sec_scales_with_call_count : test :=
  let report := LoadReport.mk ObsRegistry.new (CallStats.mk 2000 0 0) (Duration.mk 2 0) in
  assert (negb (Qle_bool (1 # 1000000) (Qabs (LoadReport.ops_per_sec report - 1000)%Q))).

Definition parse_ops_reads_a_valid_count : test :=
  assert_eq (parse_ops (Some (lit "1000"))) (1000, false).

Definition parse_ops_falls_back_on_garbage : test :=
  assert_eq (parse_ops (Some (lit "not-a-number"))) (DEFAULT_OPS, true).

Definition parse_ops_defaults_when_absent : test :=
  assert_eq (parse_ops None) (DEFAULT_OPS, false).

Definition tests : list test :=
  [run_load_records_expected_call_count; run_load_with_zero_ops_records_only_the_handshake;
   drive_attributes_calls_per_api; ops_per_sec_is_zero_when_no_time_elapsed;
   ops_per_sec_scales_with_call_count; parse_ops_reads_a_valid_count;
   parse_ops_falls_back_on_garbage; parse_ops_defaults_when_absent].
End loadtest.

Definition tool_tests : list test := bench.tests ++ cli.tests ++ loadtest.tests ++ fuzz.tests.

Lemma tool_tests_pass : all_pass tool_tests.
Proof.
  unfold tool_tests. rewrite !app_assoc. apply all_pass_app; [|apply fuzz.tests_pass].
  apply suite_passes. vm_compute. reflexivity.
Qed.
