(* ===== verification/EndToEndTests.v ===== *)
(** The integration tests: the client's shims against a responder
    (crates/graftx-client/tests/vk_commands.rs and gl_commands.rs), and the client
    against the server (crates/graftx-server/tests), one Module per file or group of
    files. The other thread is a [Peer]; a TCP connection is a byte stream whose other
    end is the serve loop over the bytes written so far. *)
From S2P Require Import Testing Wire VkBodies ApiBodies Handles Effects Backend VulkanBackend.
From S2P Require Import ApiBackends Session Transport Trace Obs Serve.
From S2P Require Import ClientSession ClientShims TransportTests ServiceTests.

Local Open Scope Z_scope.

(** ** The client's shims *)
Module commands.
Import ServiceTests.client(respond, response_frame).

Definition expect_request (frame : list byte) (opcode : Z) : outcome (list byte) :=
  '(h, b) ← expect (decode_frame frame);
  assert_eq (FrameHeader.opcode h) opcode;;
  assert_eq (FrameHeader.kind h) FrameKind.Request;;
  Ret b.

(** A responder that serves one frame, and what the call makes of it: the test fails if
    the call or the responder's thread panics. *)
Definition against {A} (responder : list byte -> outcome (list byte)) (call : C Peer.t A)
  : outcome (result ClientError.t A) :=
  let '(client, r) := call (Peer.start (respond [responder])) in
  assert_eq (len (respond [responder] (Peer.sent client))) 1;;
  Ret r.

(** The reply of a responder to a frame it has checked. *)
Definition reply_with (frame body : list byte) : outcome (list byte) :=
  '(h, _) ← expect (decode_frame frame);
  Ret (response_frame h body).

(** The responders that answer under another opcode, and what the client makes of it. *)
Definition bogus_opcode (opcode : Z) (frame : list byte) : outcome (list byte) :=
  '(h, _) ← expect (decode_frame frame);
  let bogus := FrameHeader.mk PROTOCOL_MAJOR 0 FrameKind.Response opcode (FrameHeader.req_id h)
    (FrameHeader.seq h) 0 in
  Ret (encode_frame bogus []).

Definition assert_unexpected_reply {A} (expected : Z) (r : result ClientError.t A) : test :=
  err ← expect_err r;
  match err with
  | ClientError.UnexpectedReply opcode kind =>
    assert_eq opcode expected;; assert_eq kind FrameKind.Response
  | _ => Panic
  end.

Module vk.

Definition KIND_DEVICE_MEMORY : Z := 5.
Definition KIND_BUFFER : Z := 6.
Definition KIND_COMMAND_POOL : Z := 7.
Definition KIND_COMMAND_BUFFER : Z := 8.

Definition create_command_pool_parses_returned_handle : test :=
  let pool := Handle.new KIND_COMMAND_POOL 1 42 in
  let responder frame :=
    '(h, b) ← expect (decode_frame frame);
    assert_eq (FrameHeader.opcode h) vk_op.CREATE_COMMAND_POOL;;
    assert_eq (FrameHeader.kind h) FrameKind.Request;;
    req ← expect (VkBodies.vk.CreateCommandPoolRequest.decode b);
    assert_eq (VkBodies.vk.CreateCommandPoolRequest.queue_family_index req) 3;;
    let body := VkBodies.vk.CreateCommandPoolResponse.encode
      (VkBodies.vk.CreateCommandPoolResponse.mk pool) [] in
    Ret (response_frame h body) in
  let device := Handle.new 3 1 0 in
  r ← against responder (VkShim.create_command_pool device 3 7 1);
  got ← expect r;
  assert_eq got pool.

Definition allocate_command_buffer_parses_returned_handle : test :=
  let command_buffer := Handle.new KIND_COMMAND_BUFFER 1 99 in
  let pool := Handle.new KIND_COMMAND_POOL 1 42 in
  let responder frame :=
    body ← expect_request frame vk_op.ALLOCATE_COMMAND_BUFFER;
    req ← expect (VkBodies.vk.AllocateCommandBufferRequest.decode body);
    assert_eq (VkBodies.vk.AllocateCommandBufferRequest.pool req) pool;;
    reply_with frame (VkBodies.vk.AllocateCommandBufferResponse.encode
      (VkBodies.vk.AllocateCommandBufferResponse.mk command_buffer) []) in
  r ← against responder (VkShim.allocate_command_buffer pool 8 2);
  got ← expect r;
  assert_eq got command_buffer.

Definition queue_submit_acknowledges : test :=
  let queue := Handle.new 4 1 0 in
  let command_buffer := Handle.new KIND_COMMAND_BUFFER 1 99 in
  let responder frame :=
    body ← expect_request frame vk_op.QUEUE_SUBMIT;
    req ← expect (VkBodies.vk.QueueSubmitRequest.decode body);
    assert_eq (VkBodies.vk.QueueSubmitRequest.queue req) queue;;
    assert_eq (VkBodies.vk.QueueSubmitRequest.command_buffer req) command_buffer;;
    reply_with frame [] in
  r ← against responder (VkShim.queue_submit queue command_buffer 9 3);
  expect r.

Definition cmd_copy_buffer_acknowledges : test :=
  let command_buffer := Handle.new KIND_COMMAND_BUFFER 1 99 in
  let src := Handle.new 6 1 10 in
  let dst := Handle.new 6 1 11 in
  let responder frame :=
    body ← expect_request frame vk_op.CMD_COPY_BUFFER;
    req ← expect (VkBodies.vk.CmdCopyBufferRequest.decode body);
    assert_eq (VkBodies.vk.CmdCopyBufferRequest.command_buffer req) command_buffer;;
    assert_eq (VkBodies.vk.CmdCopyBufferRequest.src req) src;;
    assert_eq (VkBodies.vk.CmdCopyBufferRequest.dst req) dst;;
    assert_eq (VkBodies.vk.CmdCopyBufferRequest.size req) 256;;
    reply_with frame [] in
  r ← against responder (VkShim.cmd_copy_buffer command_buffer src dst 256 11 4);
  expect r.

Definition cmd_draw_acknowledges : test :=
  let command_buffer := Handle.new KIND_COMMAND_BUFFER 1 99 in
  let responder frame :=
    body ← expect_request frame vk_op.CMD_DRAW;
    req ← expect (VkBodies.vk.CmdDrawRequest.decode body);
    assert_eq (VkBodies.vk.CmdDrawRequest.command_buffer req) command_buffer;;
    assert_eq (VkBodies.vk.CmdDrawRequest.vertex_count req) 3;;
    assert_eq (VkBodies.vk.CmdDrawRequest.instance_count req) 1;;
    reply_with frame [] in
  r ← against responder (VkShim.cmd_draw command_buffer 3 1 12 5);
  expect r.

Definition cmd_draw_rejects_wrong_opcode : test :=
  let command_buffer := Handle.new KIND_COMMAND_BUFFER 1 99 in
  r ← against (bogus_opcode vk_op.CMD_COPY_BUFFER) (VkShim.cmd_draw command_buffer 3 1 13 6);
  assert_unexpected_reply vk_op.CMD_COPY_BUFFER r.

Definition create_command_pool_rejects_wrong_kind : test :=
  let bogus := Handle.new KIND_COMMAND_BUFFER 1 1 in
  let responder frame :=
    reply_with frame (VkBodies.vk.CreateCommandPoolResponse.encode
      (VkBodies.vk.CreateCommandPoolResponse.mk bogus) []) in
  let device := Handle.new 3 1 0 in
  r ← against responder (VkShim.create_command_pool device 0 1 1);
  err ← expect_err r;
  match err with
  | ClientError.Protocol (BadKind k) => assert_eq k KIND_COMMAND_BUFFER
  | _ => Panic
  end.

Definition destroy_buffer_acknowledges : test :=
  let buffer := Handle.new KIND_BUFFER 1 10 in
  let responder frame :=
    body ← expect_request frame vk_op.DESTROY_BUFFER;
    req ← expect (VkBodies.vk.DestroyBufferRequest.decode body);
    assert_eq (VkBodies.vk.DestroyBufferRequest.buffer req) buffer;;
    reply_with frame [] in
  r ← against responder (VkShim.destroy_buffer buffer 14 7);
  expect r.

Definition free_memory_acknowledges : test :=
  let memory := Handle.new KIND_DEVICE_MEMORY 1 20 in
  let responder frame :=
    body ← expect_request frame vk_op.FREE_MEMORY;
    req ← expect (VkBodies.vk.FreeMemoryRequest.decode body);
    assert_eq (VkBodies.vk.FreeMemoryRequest.memory req) memory;;
    reply_with frame [] in
  r ← against responder (VkShim.free_memory memory 15 8);
  expect r.

Definition destroy_command_pool_rejects_wrong_opcode : test :=
  let pool := Handle.new KIND_COMMAND_POOL 1 42 in
  r ← against (bogus_opcode vk_op.FREE_MEMORY) (VkShim.destroy_command_pool pool 16 9);
  assert_unexpected_reply vk_op.FREE_MEMORY r.

Definition tests : list test :=
  [create_command_pool_parses_returned_handle; allocate_command_buffer_parses_returned_handle;
   queue_submit_acknowledges; cmd_copy_buffer_acknowledges; cmd_draw_acknowledges;
   cmd_draw_rejects_wrong_opcode; create_command_pool_rejects_wrong_kind;
   destroy_buffer_acknowledges; free_memory_acknowledges;
   destroy_command_pool_rejects_wrong_opcode].
End vk.

Module gl.

Definition KIND_GL_CONTEXT : Z := 10.
Definition KIND_GL_BUFFER : Z := 11.

Definition swap_buffers_acknowledges : test :=
  let context := Handle.new KIND_GL_CONTEXT 1 1 in
  let responder frame :=
    body ← expect_request frame gl_op.SWAP_BUFFERS;
    req ← expect (ApiBodies.gl.SwapBuffersRequest.decode body);
    assert_eq (ApiBodies.gl.SwapBuffersRequest.context req) context;;
    reply_with frame [] in
  r ← against responder (GlShim.swap_buffers context 20 1);
  expect r.

Definition delete_buffer_acknowledges : test :=
  let buffer := Handle.new KIND_GL_BUFFER 1 5 in
  let responder frame :=
    body ← expect_request frame gl_op.DELETE_BUFFER;
    req ← expect (ApiBodies.gl.DeleteBufferRequest.decode body);
    assert_eq (ApiBodies.gl.DeleteBufferRequest.buffer req) buffer;;
    reply_with frame [] in
  r ← against responder (GlShim.delete_buffer buffer 21 2);
  expect r.

Definition swap_buffers_rejects_wrong_opcode : test :=
  let context := Handle.new KIND_GL_CONTEXT 1 1 in
  r ← against (bogus_opcode gl_op.DELETE_BUFFER) (GlShim.swap_buffers context 22 3);
  assert_unexpected_reply gl_op.DELETE_BUFFER r.

Definition tests : list test :=
  [swap_buffers_acknowledges; delete_buffer_acknowledges; swap_buffers_rejects_wrong_opcode].
End gl.
End commands.

(** ** The client against the server *)
Module e2e.

(** The server thread: it handles exactly so many requests, then exits with its
    session; what it replied to the frames it was sent so far. *)
Fixpoint handle_each (n : nat) (session : Session.t) (frames : list (list byte))
  : list (list byte) * outcome Session.t :=
  match n, frames with
  | O, _ => ([], Ret session)
  | S _, [] => ([], Panic)
  | S n, frame :: frames =>
    match Session.handle frame session with
    | Ret (session, Ok reply) =>
      let '(replies, out) := handle_each n session frames in (reply :: replies, out)
    | _ => ([], Panic)
    end
  end.

Definition serving (n : nat) (session : Session.t) : Peer.t :=
  Peer.start (fun frames => (handle_each n session frames).1).

Definition join (n : nat) (session : Session.t) (client : Peer.t) : outcome Session.t :=
  (handle_each n session (Peer.sent client)).2.

Definition session_of (session_id : Z) (backends : list Boxed) : Session.t :=
  fold_left (fun s b => Session.register b s) backends (Session.new session_id).

Definition handshake_then_noop_roundtrip : test :=
  let session := Session.new 0xABCD1234 in
  let client := serving 2 session in
  let '(client, r) := handshake client in
  welcome ← expect r;
  assert_eq (Welcome.session_id welcome) 0xABCD1234;;
  assert_eq (Welcome.proto_major welcome) PROTOCOL_MAJOR;;
  assert_eq (Welcome.max_frame_body welcome) DEFAULT_MAX_FRAME_BODY;;
  let '(client, r) := noop 2 2 client in
  expect r;;
  session ← join 2 session client;
  assert_eq (Session.session_id session) 0xABCD1234.

(** A test of the other files: the handshake, then a script of shim calls. *)
Definition over_session (session_id : Z) (backends : list Boxed) (n : nat)
    (script : Peer.t -> outcome Peer.t) : test :=
  let session := session_of session_id backends in
  let client := serving n session in
  let '(client, r) := handshake client in
  welcome ← expect r;
  assert_eq (Welcome.session_id welcome) session_id;;
  client ← script client;
  _ ← join n session client;
  Ret tt.

Definition handshake_create_context_create_buffer_then_release : test :=
  over_session 0x00400000 [box ClBackend.new] 4 (fun client =>
    let '(client, r) := ClShim.create_context 1 1 client in
    context ← expect r;
    assert_eq (Handle.kind context) 40;;
    let '(client, r) := ClShim.create_buffer context 4096 2 2 client in
    mem ← expect r;
    assert_eq (Handle.kind mem) 41;;
    let '(client, released) := ClShim.release_buffer mem 3 3 client in
    assert (is_ok released);;
    expect released;;
    Ret client).

Definition handshake_ctx_create_mem_alloc_then_mem_free : test :=
  over_session 0x00CAFE00 [box CudaBackend.new] 4 (fun client =>
    let '(client, r) := CudaShim.ctx_create 0 2 2 client in
    ctx ← expect r;
    assert_eq (Handle.kind ctx) 20;;
    let '(client, r) := CudaShim.mem_alloc ctx (2 ^ 20) 3 3 client in
    dptr ← expect r;
    assert_eq (Handle.kind dptr) 21;;
    let '(client, freed) := CudaShim.mem_free dptr 4 4 client in
    assert (is_ok freed);;
    Ret client).

Definition handshake_create_context_make_current_then_gen_buffer : test :=
  over_session 0x00610000 [box GlBackend.new] 4 (fun client =>
    let '(client, r) := GlShim.create_context 2 2 client in
    context ← expect r;
    assert_eq (Handle.kind context) 10;;
    let '(client, r) := GlShim.make_current context 3 3 client in
    expect r;;
    let '(client, r) := GlShim.gen_buffer context 4 4 client in
    buffer ← expect r;
    assert_eq (Handle.kind buffer) 11;;
    Ret client).

Definition handshake_malloc_stream_create_then_free : test :=
  over_session 0x00B1AC00 [box HipBackend.new] 4 (fun client =>
    let '(client, r) := HipShim.malloc (2 ^ 20) 1 1 client in
    dptr ← expect r;
    assert_eq (Handle.kind dptr) 30;;
    let '(client, r) := HipShim.stream_create 2 2 client in
    stream ← expect r;
    assert_eq (Handle.kind stream) 31;;
    let '(client, freed) := HipShim.free dptr 3 3 client in
    assert (is_ok freed);;
    Ret client).

Definition l0_handshake_ctx_create_mem_alloc_then_mem_free : test :=
  over_session 0x00000E00 [box L0Backend.new] 4 (fun client =>
    let '(client, r) := L0Shim.context_create 2 2 client in
    ctx ← expect r;
    assert_eq (Handle.kind ctx) 50;;
    let '(client, r) := L0Shim.mem_alloc_device ctx (2 ^ 20) 3 3 client in
    ptr ← expect r;
    assert_eq (Handle.kind ptr) 51;;
    let '(client, freed) := L0Shim.mem_free ptr 4 4 client in
    assert (is_ok freed);;
    Ret client).

Definition one_session_routes_each_api_to_its_backend : test :=
  over_session 0x004D554C
    [box VulkanBackend.new; box GlBackend.new; box CudaBackend.new; box WebGpuBackend.new] 5
    (fun client =>
    let '(client, r) := VkShim.create_instance 0 2 2 client in
    instance ← expect r;
    assert_eq (Handle.kind instance) 1;;
    let '(client, r) := GlShim.create_context 3 3 client in
    gl_ctx ← expect r;
    assert_eq (Handle.kind gl_ctx) 10;;
    let '(client, r) := CudaShim.ctx_create 0 4 4 client in
    cuda_ctx ← expect r;
    assert_eq (Handle.kind cuda_ctx) 20;;
    let '(client, r) := WgpuShim.request_device 5 5 client in
    wgpu_dev ← expect r;
    assert_eq (Handle.kind wgpu_dev) 70;;
    Ret client).

Definition one_session_exercises_optix_sycl_amf : test :=
  over_session 0x00474658 [box OptixBackend.new; box SyclBackend.new; box AmfBackend.new] 10
    (fun client =>
    let '(client, r) := OptixShim.context_create 2 2 client in
    optix_ctx ← expect r;
    assert_eq (Handle.kind optix_ctx) 80;;
    let '(client, r) := OptixShim.pipeline_create optix_ctx 3 3 client in
    optix_pipeline ← expect r;
    assert_eq (Handle.kind optix_pipeline) 81;;
    let '(client, r) := OptixShim.destroy optix_pipeline 4 4 client in
    expect r;;
    let '(client, r) := SyclShim.queue_create 5 5 client in
    sycl_queue ← expect r;
    assert_eq (Handle.kind sycl_queue) 90;;
    let '(client, r) := SyclShim.malloc_device sycl_queue 4096 6 6 client in
    sycl_ptr ← expect r;
    assert_eq (Handle.kind sycl_ptr) 91;;
    let '(client, r) := SyclShim.free sycl_ptr 7 7 client in
    expect r;;
    let '(client, r) := AmfShim.create_encoder 1 1920 1080 8 8 client in
    amf_encoder ← expect r;
    assert_eq (Handle.kind amf_encoder) 100;;
    let '(client, r) := AmfShim.encode_frame amf_encoder 65536 9 9 client in
    packet_len ← expect r;
    assert_eq packet_len 65536;;
    let '(client, r) := AmfShim.destroy_encoder amf_encoder 10 10 client in
    expect r;;
    Ret client).

Definition handshake_create_session_decode_two_frames_then_destroy : test :=
  over_session 0x005DE000 [box VideoBackend.new] 5 (fun client =>
    let '(client, r) := VideoShim.create_decode_session 0 1920 1080 2 2 client in
    session ← expect r;
    assert_eq (Handle.kind session) 60;;
    let '(client, r) := VideoShim.decode_frame session 1024 3 3 client in
    first ← expect r;
    assert_eq first 0;;
    let '(client, r) := VideoShim.decode_frame session 1024 4 4 client in
    second ← expect r;
    assert_eq second 1;;
    let '(client, destroyed) := VideoShim.destroy_session session 5 5 client in
    expect destroyed;;
    Ret client).

Definition handshake_create_instance_enumerate_create_device_then_get_queue : test :=
  over_session 0x00CAFE00 [box VulkanBackend.new] 5 (fun client =>
    let '(client, r) := VkShim.create_instance 0 2 2 client in
    instance ← expect r;
    let '(client, r) := VkShim.enumerate_physical_devices instance 3 3 client in
    devices ← expect r;
    assert_eq (len devices) 1;;
    device0 ← expect_some (devices !! 0%nat);
    assert_eq (Handle.kind device0) 2;;
    let '(client, r) := VkShim.create_device device0 4 4 client in
    device ← expect r;
    assert_eq (Handle.kind device) 3;;
    let '(client, r) := VkShim.get_device_queue device 0 0 5 5 client in
    queue ← expect r;
    assert_eq (Handle.kind queue) 4;;
    Ret client).

Definition handshake_allocate_memory_create_buffer_then_bind : test :=
  over_session 0x00CAFE00 [box VulkanBackend.new] 7 (fun client =>
    let '(client, r) := VkShim.create_instance 0 2 2 client in
    instance ← expect r;
    let '(client, r) := VkShim.enumerate_physical_devices instance 3 3 client in
    devices ← expect r;
    assert_eq (len devices) 1;;
    device0 ← expect_some (devices !! 0%nat);
    let '(client, r) := VkShim.create_device device0 4 4 client in
    device ← expect r;
    let '(client, r) := VkShim.allocate_memory device 4096 5 5 client in
    memory ← expect r;
    assert_eq (Handle.kind memory) 5;;
    let '(client, r) := VkShim.create_buffer device 4096 0 6 6 client in
    buffer ← expect r;
    assert_eq (Handle.kind buffer) 6;;
    let '(client, bind) := VkShim.bind_buffer_memory buffer memory 0 7 7 client in
    assert (is_ok bind);;
    expect bind;;
    Ret client).

Definition handshake_request_device_create_buffer_then_destroy_buffer : test :=
  over_session 0x00BEEF00 [box WebGpuBackend.new] 4 (fun client =>
    let '(client, r) := WgpuShim.request_device 2 2 client in
    device ← expect r;
    assert_eq (Handle.kind device) 70;;
    let '(client, r) := WgpuShim.create_buffer device 4096 0 3 3 client in
    buffer ← expect r;
    assert_eq (Handle.kind buffer) 71;;
    let '(client, destroyed) := WgpuShim.destroy_buffer buffer 4 4 client in
    assert (is_ok destroyed);;
    Ret client).

Definition tests : list test :=
  [handshake_then_noop_roundtrip; handshake_create_context_create_buffer_then_release;
   handshake_ctx_create_mem_alloc_then_mem_free;
   handshake_create_context_make_current_then_gen_buffer;
   handshake_malloc_stream_create_then_free; l0_handshake_ctx_create_mem_alloc_then_mem_free;
   one_session_routes_each_api_to_its_backend; one_session_exercises_optix_sycl_amf;
   handshake_create_session_decode_two_frames_then_destroy;
   handshake_create_instance_enumerate_create_device_then_get_queue;
   handshake_allocate_memory_create_buffer_then_bind;
   handshake_request_device_create_buffer_then_destroy_buffer].
End e2e.

(** ** Over a TCP connection *)
Module tcp.

(** A connection: what was written to it, what the other end makes of that, and how
    much of it was read. *)
Module Connection.
Record t := mk { other_end : list byte -> list byte; sent : list byte; received : nat }.
#[global] Instance stream : ByteStream t := {|
  write_all bytes self := (mk (other_end self) (sent self ++ bytes) (received self), Ok tt);
  flush self := (self, Ok tt);
  read_exact n self :=
    let unread := drop (received self) (other_end self (sent self)) in
    if decide (n <= length unread)%nat then
      (mk (other_end self) (sent self) (received self + n), Ok (take n unread))
    else (self, Err io.UnexpectedEof) |}.
End Connection.

(** The serving threads on what the client wrote before it went away; every frame is at
    least four bytes long. *)
Definition serve_thread (session : Session.t) (sent : list byte)
  : outcome (StreamTransport.t Pipe.t * Session.t * io_result unit) :=
  match serve (S (length sent)) (StreamTransport.new (Pipe.mk [] sent)) session with
  | Some r => r
  | None => Panic
  end.

Definition metrics_thread (session : Session.t) (sent : list byte)
  : outcome (StreamTransport.t Pipe.t * Session.t * ObsRegistry.t * io_result unit) :=
  match serve_with_metrics (S (length sent)) (StreamTransport.new (Pipe.mk [] sent)) session
    ObsRegistry.new with
  | Some r => r
  | None => Panic
  end.

Definition serve_end (session : Session.t) (sent : list byte) : list byte :=
  match serve_thread session sent with
  | Ret (transport, _, _) => Pipe.written (StreamTransport.into_inner transport)
  | Panic => []
  end.

Definition metrics_end (session : Session.t) (sent : list byte) : list byte :=
  match metrics_thread session sent with
  | Ret (transport, _, _, _) => Pipe.written (StreamTransport.into_inner transport)
  | Panic => []
  end.

Definition tcp_loopback_handshake_create_instance_enumerate : test :=
  let session_id := 0x00CAFE00 in
  let session := e2e.session_of session_id [box VulkanBackend.new] in
  let client := StreamTransport.new (Connection.mk (serve_end session) [] 0) in
  let '(client, r) := handshake client in
  welcome ← expect r;
  assert_eq (Welcome.proto_major welcome) PROTOCOL_MAJOR;;
  assert_eq (Welcome.proto_minor welcome) PROTOCOL_MINOR;;
  assert_eq (Welcome.session_id welcome) session_id;;
  let '(client, r) := VkShim.create_instance 0 2 2 client in
  instance ← expect r;
  let '(client, r) := VkShim.enumerate_physical_devices instance 3 3 client in
  devices ← expect r;
  assert_eq (len devices) 1;;
  '(_, _, result) ← serve_thread session (Connection.sent (StreamTransport.into_inner client));
  assert (is_ok result).

Definition tcp_metrics_record_core_and_vulkan_across_backends : test :=
  let session_id := 0x00C0FFEE in
  let session := e2e.session_of session_id [box VulkanBackend.new; box GlBackend.new] in
  let client := StreamTransport.new (Connection.mk (metrics_end session) [] 0) in
  let '(client, r) := handshake client in
  welcome ← expect r;
  assert_eq (Welcome.session_id welcome) session_id;;
  let '(client, r) := VkShim.create_instance 0 2 2 client in
  _instance ← expect r;
  let '(client, r) := GlShim.create_context 3 3 client in
  _context ← expect r;
  '(_, _, registry, result) ←
    metrics_thread session (Connection.sent (StreamTransport.into_inner client));
  assert (is_ok result);;
  let snapshot := ObsRegistry.snapshot registry in
  assert (is_some (snapshot !! "core"%string));;
  assert (is_some (snapshot !! "vulkan"%string));;
  core ← expect_some (snapshot !! "core"%string);
  vulkan ← expect_some (snapshot !! "vulkan"%string);
  opengl ← expect_some (snapshot !! "opengl"%string);
  assert (1 <=? CallStats.calls core);;
  assert_eq (CallStats.calls vulkan) 1;;
  assert_eq (CallStats.calls opengl) 1;;
  assert (0 <? CallStats.bytes_out core);;
  assert (0 <? CallStats.bytes_in core);;
  assert (0 <? CallStats.bytes_out vulkan);;
  assert (0 <? CallStats.bytes_in vulkan).

Definition tests : list test :=
  [tcp_loopback_handshake_create_instance_enumerate;
   tcp_metrics_record_core_and_vulkan_across_backends].
End tcp.

Definition end_to_end_tests : list test :=
  commands.vk.tests ++ commands.gl.tests ++ e2e.tests ++ tcp.tests.

Lemma end_to_end_tests_pass : all_pass end_to_end_tests.
Proof. apply suite_passes. vm_compute. reflexivity. Qed.
