(* ===== verification/Conformance.v ===== *)
(** Conformance: the tests of the crates on the model, the unit tests and the
    integration tests under crates/*/tests. They check the definitions against the
    authors' expectations on the inputs the tests name; the theorems about all
    inputs are in the other files. *)
From S2P Require Import Testing ProtocolTests HandlesTests TransportTests BackendTests.
From S2P Require Import ServiceTests ObsTests XtaskTests ToolTests EndToEndTests.

(** The wire model passes the authors' tests of the wire. Each test function of
    graftx-protocol (the frames and every body: round trips, golden bytes, short and
    trailing input, bad kinds), graftx-handles (reuse, stale handles, retirement after
    2^24 generations, bulk frees, introspection), graftx-transport and graftx-trace,
    translated assertion by assertion, returns: no assertion fails and no [expect]
    panics. *)
Theorem wire_conformance : all_pass (protocol_tests ++ handles_tests ++ transport_tests).
Proof.
  apply all_pass_app; [exact protocol_tests_pass|].
  apply all_pass_app; [exact handles_tests_pass|exact transport_tests_pass].
Qed.

(** The server, client and observability models pass the authors' tests. Each test
    function of the eleven backends, the session, the serve loops and the client's
    front door, the tests of graftx-obs that ObsTests.v translates, and each
    integration test of client and server over the loopback and over a connection,
    translated assertion by assertion, returns; and the tests that record from eight
    threads at once do so under every schedule of the threads. *)
Theorem server_conformance (schedule : list nat) :
  all_pass (backend_tests ++ service_tests ++ obs_tests schedule ++ end_to_end_tests).
Proof.
  apply all_pass_app; [exact backend_tests_pass|].
  apply all_pass_app; [exact service_tests_pass|].
  apply all_pass_app; [exact (obs_tests_pass schedule)|exact end_to_end_tests_pass].
Qed.

(** The models of the binaries pass the authors' tests. Each test function of
    graftx-xtask (renderings, lock and document checks, scanner, exit codes),
    graftx-cli, graftx-bench, graftx-fuzz and graftx-loadtest, translated assertion by
    assertion, returns. *)
Theorem tools_conformance : all_pass (xtask_tests ++ tool_tests).
Proof. apply all_pass_app; [exact xtask_tests_pass|exact tool_tests_pass]. Qed.
